(* ===== verification/_CoqProject ===== *)
-Q . S2P
Prelude.v
SdkMath.v
Scaling.v
AccessList.v
StateDB.v
Precompile.v
StateDBRevert.v
StateDBReads.v
StateDBSnapshot.v
StateDBTrace.v
StateDBCommit.v
VmStore.v
Concrete.v
StateDBTheorems.v
FeeMarket.v
FeeMarketTheorems.v
TxData.v
TxDataTheorems.v
StateTransition.v
StateTransitionTheorems.v
VmParams.v
VmParamsTheorems.v
Ante.v
AnteTheorems.v
CosmosAnte.v
CosmosAnteTheorems.v
AppAnte.v
AppAnteTheorems.v
Erc20.v
Erc20Ibc.v
Erc20Concrete.v
Erc20Theorems.v
Erc20IbcTheorems.v
Erc20Precompile.v
CoinsConcrete.v
Erc20PrecompileTheorems.v
NativePrecompile.v
StakingPrecompile.v
NativeConcrete.v
StakingPrecompileTheorems.v
DistributionPrecompile.v
DistributionPrecompileTheorems.v
Ics20Precompile.v
Ics20PrecompileTheorems.v
BankPrecompile.v
BankPrecompileTheorems.v
GovPrecompile.v
GovPrecompileTheorems.v
SlashingPrecompile.v
StatelessPrecompile.v
SmallPrecompileTheorems.v
VmGenesis.v
VmGenesisTheorems.v
VmQueries.v
VmQueriesTheorems.v
RpcEvents.v
RpcEventsTheorems.v
Indexer.v
IndexerTheorems.v
IndexerServiceTheorems.v
Eip712.v
Eip712Theorems.v
Eip712Encoding.v
Eip712EncodingTheorems.v
RpcFilters.v
RpcFiltersTheorems.v
TxBuild.v
Configurator.v
RpcBlock.v
RpcBackend.v
RpcBackendTheorems.v
RpcConcrete.v
RpcFees.v
RpcFeesTheorems.v
RpcCalls.v
RpcCallsTheorems.v
VmTracing.v
VmTracingTheorems.v
RpcWebsockets.v
RpcWebsocketsTheorems.v
