(* ===== verification/Prelude.v ===== *)
(** * Verification of the EVM of tac-evm

    tac-evm is a Cosmos SDK chain that runs Ethereum transactions. A transaction
    is a Cosmos transaction with an Ethereum message in it. The ante handler
    checks it, takes the fee for its whole gas limit and increments the nonce;
    the EVM module then runs the go-ethereum interpreter on a state database
    that journals its changes over the accounts, balances, code and storage of
    the Cosmos stores, commits the result or drops it, and refunds the gas that
    was left. The fee market module moves the base fee from block to block. The
    ERC-20 module pairs coins of the bank with ERC-20 contracts, converts
    between the two, also for transfers over IBC, and serves coins to contracts
    through precompiles. The library models these parts and proves that they do
    what they are for.

    ** Files and the source they model (paths under [src/])

    - [Prelude]: Go results ([res]: value, error or panic), computations that
      also write a state ([st_bind], whose writes remain when an error follows,
      as in Go), machine integers, [sort.Search], big-endian bytes, tactics.
    - [SdkMath]: the interface of [cosmossdk.io/math], with an instance.
    - [Scaling]: [x/vm/types/denom.go], [denom_config.go], [scaling.go]: the EVM
      has 18 decimals, the bank's coin 6 or 18.
    - [AccessList]: [x/vm/statedb/access_list.go], and its specification as two
      sets.
    - [StateDB]: [x/vm/statedb/statedb.go], [state_object.go], [journal.go],
      [config.go], [interfaces.go]. The [Keeper] interface and the SDK's
      multi-store are classes; [Precompile]: [precompiles/common/precompile.go]
      and the [Run] of a stateful precompile, with the native action a parameter.
    - [StateDBRevert], [StateDBReads], [StateDBSnapshot], [StateDBTrace],
      [StateDBCommit]: the invariant of the state database, the step relation of
      its journalled operations, what a revert undoes, the operations as data
      and their runs, and what a commit writes. [StateDBTheorems]: the
      properties.
    - [VmStore]: [x/vm/keeper/statedb.go] and the reading half of [keeper.go],
      over classes for the SDK's account and bank keepers, and the bank wrapper
      [x/vm/wrappers/bank.go]; it is an instance of [Keeper] and of its laws, so
      that the theorems on the state database hold of it. [Concrete] instantiates
      the classes with maps: it shows that their laws can hold together, and is
      what the concrete runs evaluate on.
    - [FeeMarket], [FeeMarketTheorems]: [x/feemarket] (keeper, parameters,
      genesis, block hooks) and [x/vm/wrappers/feemarket.go].
    - [TxData], [TxDataTheorems]: the transaction types of [x/vm/types]
      ([legacy_tx.go], [access_list_tx.go], [dynamic_fee_tx.go], [tx_data.go],
      [access_list.go], [msg.go], [utils.go]), [utils/eth/eth.go], [types/int.go].
      The Go interface [TxData] is the class [TxDataOps].
      [TxBuild]: the constructors, [Sign] and [BuildTx] of [msg.go].
    - [StateTransition], [StateTransitionTheorems]:
      [x/vm/keeper/state_transition.go], [gas.go], [fees.go], the transient
      counters of [keeper.go], [types/gasmeter.go]. The interpreter is a
      parameter that maps a state database and a gas budget to a state database,
      the gas left and a result, or to a panic, since the precompiles it runs and
      the keeper it reads can panic.
    - [VmParams], [VmParamsTheorems]: [x/vm/types/params.go], [permissions.go],
      [opcodes_hooks.go], [x/vm/keeper/params.go], [precompiles.go],
      [static_precompiles.go] and the hooks of [NewEVM].
      [Configurator]: [chain_config.go], [config.go], [configurator.go].
    - [Ante], [AnteTheorems]: [ante/evm/01_setup_ctx.go] to [11_emit_event.go],
      [utils.go] and the [MonoDecorator] that composes them.
    - [CosmosAnte], [CosmosAnteTheorems]: [ante/evm/fee_checker.go] and
      [ante/cosmos] ([min_gas_price.go], [authz.go], [reject_msgs.go]).
      [AppAnte], [AppAnteTheorems]: [evmd/ante], which routes a transaction to one
      of the two handlers and orders their decorators; those of the SDK and of
      ibc-go are a record of parameters.
    - [Erc20], [Erc20Theorems]: [x/erc20] (token pairs and their indexes,
      parameters, code hashes of the precompiles, registration, conversion,
      genesis), with [Erc20Concrete] an instance of its classes on maps.
      [Erc20Ibc], [Erc20IbcTheorems]: [x/erc20/keeper/ibc_callbacks.go],
      [x/erc20/ibc_middleware.go], [ibc/utils.go] and
      [x/ibc/transfer/keeper/msg_server.go], and the histories of the module.
    - [Erc20Precompile], [Erc20PrecompileTheorems]: [precompiles/erc20] and
      [precompiles/werc20], over classes for coins and for the authz keeper that
      [CoinsConcrete] instantiates.
    - [NativePrecompile]: what the other precompiles share: decoded arguments,
      logs, [precompiles/common/types.go] and the checks of grants in
      [precompiles/authorization]; [NativeConcrete] instantiates its classes.
    - [StakingPrecompile], [DistributionPrecompile], [Ics20Precompile],
      [BankPrecompile], [GovPrecompile] with their [Theorems]: the precompiles
      of the same names under [precompiles], each with all its transactions and
      queries over a class for the keeper it calls. [SlashingPrecompile]:
      [precompiles/slashing] and [precompiles/evidence]; [StatelessPrecompile]:
      [precompiles/bech32], [precompiles/p256] and [crypto/secp256r1];
      [SmallPrecompileTheorems]: their properties.
    - [VmGenesis], [VmGenesisTheorems]: [x/vm/genesis.go], [x/vm/types/genesis.go],
      [storage.go]. [VmQueries], [VmQueriesTheorems]: [x/vm/keeper/grpc_query.go]
      but for the traces, [x/vm/types/tx_args.go], [x/vm/keeper/config.go],
      [block_proposer.go], [call_evm.go].
    - [RpcEvents], [RpcEventsTheorems]: [EthereumTx] of [x/vm/keeper/msg_server.go],
      [rpc/types/events.go] and the results that count in [rpc/types/utils.go].
      [Indexer], [IndexerTheorems], [IndexerServiceTheorems]:
      [indexer/kv_indexer.go] and [server/indexer_service.go], whose two threads
      are interleaved steps.
    - [Eip712], [Eip712Theorems]: [ethereum/eip712] ([message.go], [types.go],
      [domain.go], [eip712.go]): the typed data of a sign document.
      [Eip712Encoding], [Eip712EncodingTheorems]: its [encoding.go],
      [types/chain_id.go] and [ante/sigverify.go].
    - [RpcFilters], [RpcFiltersTheorems]: logs in events and the bloom filter of a
      block ([x/vm/types/logs.go], [x/vm/keeper/abci.go], [rpc/backend/utils.go]),
      [eth_getLogs] and polled filters ([rpc/namespaces/ethereum/eth/filters],
      [rpc/ethereum/pubsub]), whose goroutines are steps of a system.
    - [RpcBlock]: [rpc/types/block.go], the texts that name a block. [RpcBackend],
      [RpcBackendTheorems]: headers, blocks, transactions and receipts
      ([rpc/backend/blocks.go], [tx_info.go], [rpc/types/utils.go]) over the
      clients of the node; [RpcConcrete] is a node with one block. [RpcFees],
      [RpcFeesTheorems]: fee history, suggested prices and the cap of fees
      ([rpc/backend/chain_info.go], [utils.go]). [RpcCalls], [RpcCallsTheorems]:
      sending transactions and completing them ([rpc/backend/call_tx.go],
      [sign_tx.go], [account_info.go]).
    - [VmTracing], [VmTracingTheorems]: the traces, from the debug API
      ([rpc/backend/tracing.go], [rpc/namespaces/ethereum/debug/api.go]) to the
      queries of the EVM module that replay a block; a tracer of go-ethereum is a
      parameter, and the Module [VmTracingConcrete] has one.
    - [RpcWebsockets], [RpcWebsocketsTheorems]: [rpc/websockets.go] and the event
      bus [rpc/ethereum/pubsub]: connections, publications and the goroutines of
      subscriptions are steps over one state; the Module
      [RpcWebsocketsConcrete] has a run.

    ** What the theorems show

    - State database: a revert restores every read, the journal and the
      revisions, whatever happened since the snapshot; the invariant of every
      reachable state, the counters of the journal included; the only panics, those
      of the load of an account and of a precompile call included; what a commit stores and what it leaves;
      getters read what setters wrote; the access list implements two sets.
    - Edges of the same: a failed precompile call is not undone by the revert
      around it, the counter of precompile calls wraps, a slot set to zero is
      kept, a contract that self-destructs while it is created at the address of
      an account makes the commit fail.
    - Fees: the base fee is EIP-1559's, moves by a bounded fraction and is
      stored and read back; the gas of a message that runs to its end
      is charged between the minimum multiple of its limit and its limit, and a
      panic of the run stops it; the sender pays the price of the gas used, up
      to one unit of the bank's coin.
    - Transactions: conversion to and from go-ethereum's types loses nothing;
      validated transactions have well-defined fees; the search for a gas limit
      ends with the least one; the two fee checks together cover what is taken;
      what [BuildTx] makes passes the checks of the ante handler.
    - Ante handler: nonces are consumed in order and a transaction is not
      accepted twice; what an accepted transaction has paid; from the ante
      handler to the end, a failed transaction costs its gas and nothing else.
    - Parameters and permissions: stored parameters stay valid, the hooks
      enforce the access control of the checksummed entries, enabling a precompile activates exactly it;
      entries of the lists that are not checksummed never match. The
      configuration of the EVM is set once and is valid.
    - Cosmos transactions: effective fee, minimum gas price, authz limiter, and
      that the limiter counts siblings as nesting.
    - Application: an Ethereum message reaches the chain only through the handler
      that recovers its sender, neither in a Cosmos transaction nor nested in an
      authorization.
    - ERC-20 module: after any history of messages and IBC callbacks the indexes
      of the pairs agree and are one-to-one, as long as no denomination received
      over IBC for the first time hashes to the address of a registered contract;
      a conversion escrows or releases as
      many tokens as it mints or burns coins; the code hashes follow the
      parameters; the genesis is restored; an outgoing transfer converts what the
      sender lacks. With the exceptions: an address that moves from the native to
      the dynamic list loses its code hash, and two states whose export the
      validation refuses or should have refused.
    - ERC-20 precompile: its calls implement an abstract token with balances and
      allowances, and read-only calls do not write; approvals name the wrong
      owner in their event, and a deposit of wrapped coins is not scaled.
    - Staking precompile: stake moves only for the signer or the calling contract,
      a contract that is not the signer uses up a grant of the signer, and the
      approvals implement a table of limits. With the exceptions: a delegation
      that the grant refuses has been made, the maximal commission rates are
      ignored, and a change of a limit by the maximal amount panics.
    - Distribution, ICS-20: the balance changes that a call reports to the state
      database are those of the bank (for ICS-20 on a chain with 18 decimals
      only); transfers are covered by a grant, and an allowance change changes
      one limit.
    - Bank, governance: the answers for the pairs of the ERC-20 module agree with
      each other and are paid for; a vote is read back as it was cast, and a
      proposal before its voting period makes the query panic.
    - Slashing, evidence, stateless: anyone unjails any validator, the queries
      name a wrong address, no call data submits evidence; the conversions of
      addresses are inverse to each other.

    - EVM module: the genesis restores the parameters and every contract; the
      estimate of gas executes and the search ends next to a limit that does not,
      so that it is the least one when success is monotone in the gas, except
      that a limit bounded by the balance of the sender is answered untried; a call that is
      not committed writes nothing; the coinbase is made of a text.
    - Events and index: the events of a transaction tell what happened to its
      messages; an indexed block is found by hashes and by indexes; the first and
      last indexed block are right; the service indexes every block once and in
      order and catches up with the chain, except that a block whose write fails
      is passed over.
    - EIP-712: the generation of typed data for messages with plain keys ends,
      the types describe every value but nulls and nested arrays, and the whole is
      well typed for messages without those; both encodings of a document without
      timeout height and extension options, which only one of them refuses, give
      the same; a chain identifier is read back from its text; the gas of a
      signature pays for every key that signed. A key that gjson takes for a
      modifier makes the generation never end.
    - Logs: a query over a range answers exactly the matching logs of its blocks,
      although blocks are skipped by their bloom filters; a polled filter delivers
      what it received, the matching logs of the first response of each
      transaction, once and in order while it is installed. With the exceptions:
      the other responses are missed, a range that ends
      after the head answers nothing, an unknown block panics, and uninstalling a
      filter removes others of its kind.
    - RPC: the endpoints agree on the transactions of an indexed block and their
      positions; a receipt reports what the events of the block say; the rewards
      of the fee history are percentiles, whatever the unstable sort does; a raw
      transaction that is sent passes the ante handler's checks of its form; a
      block number is read back from its quantity. With the exceptions named in
      the files, such as a header whose transaction root is the wrong way round, a
      history that panics, a resend that never sends.
    - Traces: the trace of a transaction is the entry of the trace of its block,
      with the base fee of the block, when the request has no configuration for
      the tracer and the transactions before it are traced; transactions that were rejected are replayed
      too.
    - Web sockets: a subscription to logs delivers the matching logs published
      after it in the first response of each transaction, once and in order, as long as its goroutine keeps up; an event
      that arrives while it works is lost.

    ** Modelling choices

    Errors are the root error without the wrapped text. Integers are [Z], with
    the wrap-around of [uint64] and [uint8] written where the code computes on
    them ([wrap64], [wrap8], [to_int64]); addresses, hashes and storage words
    are the integers that their bytes denote. Maps are [gmap]; a Go map that is
    iterated is iterated in the sorted order the code imposes. A nil pointer is
    [None] where the code distinguishes it, and its use is a panic. A
    [LegacyDec] is its scaled integer. Stores are values, a cached store is a
    copy that is written back. Logging and telemetry are left out, and
    so are events that nothing reads; gas charged by the stores is zero, as the
    ante handler configures it.

    Fuel: [sort_Search] runs [n] rounds on [n] elements, since every round at
    least halves the interval, and [sort_Search_spec] shows that they are
    enough; [BinSearch] takes its number of rounds as an argument, and its
    theorem shows that 64 give an answer; [recursivelyAddTypesToRoot] and
    [SigVerificationGasConsumer] are given the nesting of the value and of the
    key, which their theorems show to be enough. Everything else is structural.

    Third-party code is a parameter: the SDK's keepers and multi-store
    ([AccountKeeper], [BankKeeper], [MultiStore]), its decimals ([SdkMath]),
    go-ethereum's interpreter ([EVM]), intrinsic gas, hexadecimal texts
    ([EthHex]), signatures ([EthSigner]), bloom filters and Keccak ([EvmEnv]). Their laws are
    fields of the classes or named hypotheses, and concrete instances meet them.
    ERC-20 contracts are a parameter with a state of their own: a call to one
    changes that state and emits logs, and does not re-enter the ERC-20 module.
    In the native precompiles the decoding of the call data and the keepers of
    the SDK and of ibc-go are classes, a log is the name of its event with its
    values, and the gas of the stores is an answer of the environment; the
    theorems on the distribution precompile leave out module accounts.
    The clients of the node that the RPC asks (blocks, results, mempool, queries)
    are the class [RpcEnv], and the hexadecimal quantities [HexUtil]. Percentiles
    and shares of gas are floating-point numbers in the code; they are those of
    [SpecFloat], so that their rounding is that of IEEE 754. An event that the
    node drops before the event bus is one that is not published in the model.
    The identifier of a token pair is a SHA-256 hash, which the theorems on the
    indexes take to be injective on the pairs that occur.

    ** Not modelled

    The legacy EIP-712 encoding, which is deprecated, walks Go structures by
    reflection. Of the RPC, the namespaces that forward to the key ring, the
    configuration file or the profiler of the process are left out, and the
    fields of answers that are constants. The servers and the command line, key
    management, the wiring of modules in [evmd/app.go] and generated code are left
    out: they are input and output, or cryptography, around the parts above. *)

From stdpp Require Import base gmap list numbers strings sorting.
From Stdlib Require Import ZArith Lia.

Open Scope Z_scope.

(** ** Go results

    A Go function that can return an [error] or [panic] is modelled as a
    computation in [res]. [Err] carries the root error (the text added by
    [errorsmod.Wrap] is not kept), [Panic] stops the whole computation. *)

Definition error := string.

Inductive res (A : Type) : Type :=
| Ok (a : A)
| Err (e : error)
| Panic (e : error).

Arguments Ok {A} a.
Arguments Err {A} e.
Arguments Panic {A} e.

#[export] Instance res_ret : MRet res := fun A a => Ok a.
#[export] Instance res_bind : MBind res := fun A B f m =>
  match m with
  | Ok a => f a
  | Err e => Err e
  | Panic e => Panic e
  end.

Declare Scope go_scope.
Delimit Scope go_scope with go.
Notation "'let?' x := m 'in' k" :=
  (mbind (M := res) (fun x => k) m)
  (at level 10, x name, m at level 100, k at level 200) : go_scope.
Notation "'let?' ' p := m 'in' k" :=
  (mbind (M := res) (fun p => k) m)
  (at level 10, p strict pattern, m at level 100, k at level 200) : go_scope.
Notation "'guard?' b 'else' r ; k" :=
  (if (b : bool) then k else r)
  (at level 10, b at level 100, r at level 100, k at level 200) : go_scope.
Open Scope go_scope.

(** A computation that also writes a state: the writes made before an error or
    a panic remain, as they do in Go. *)
Definition st_bind {S A B} (m : S * res A) (k : S -> A -> S * res B) : S * res B :=
  match m with
  | (s, Ok a) => k s a
  | (s, Err e) => (s, Err e)
  | (s, Panic e) => (s, Panic e)
  end.
Notation "'do?' s , x := m 'in' k" :=
  (st_bind m (fun s x => k))
  (at level 10, s name, x name, m at level 100, k at level 200) : go_scope.

Lemma st_bind_Ok_inv {S A B} (m : S * res A) (k : S -> A -> S * res B) s' b :
  st_bind m k = (s', Ok b) -> exists s a, m = (s, Ok a) /\ k s a = (s', Ok b).
Proof. destruct m as [s [a|e|e]]; cbn; [eauto|done|done]. Qed.

(** A predicate of states that both parts preserve holds after the sequence. *)
Lemma st_bind_fst {S A B} (P : S -> Prop) (m : S * res A) (k : S -> A -> S * res B) :
  P m.1 -> (forall s a, P s -> P (k s a).1) -> P (st_bind m k).1.
Proof. destruct m as [s [a|e|e]]; cbn; auto. Qed.

Lemma st_pure_Ok_inv {S A B} (s : S) (r : res A) (k : S -> A -> S * res B) s' b :
  st_bind (s, r) k = (s', Ok b) -> exists a, r = Ok a /\ k s a = (s', Ok b).
Proof. destruct r; cbn; [eauto|done|done]. Qed.

Lemma st_unit_Ok_inv {S B} (s : S) (r : res unit) (k : S -> unit -> S * res B) s' b :
  st_bind (s, r) k = (s', Ok b) -> r = Ok () /\ k s () = (s', Ok b).
Proof. destruct r as [[]| |]; cbn; [eauto|done|done]. Qed.

Definition is_ok {A} (m : res A) : bool :=
  match m with Ok _ => true | _ => false end.

Lemma Ok_inj {A} (x y : A) : Ok x = Ok y -> x = y.
Proof. by intros [= ->]. Qed.

Lemma bind_Ok_inv {A B} (m : res A) (f : A -> res B) b :
  mbind (M := res) f m = Ok b -> exists a, m = Ok a /\ f a = Ok b.
Proof. destruct m; cbn; intros; simplify_eq; eauto. Qed.

Lemma bind_unit_Ok (m : res unit) (k : res unit) :
  (let? _ := m in k) = Ok () <-> m = Ok () /\ k = Ok ().
Proof. destruct m as [[]| |]; naive_solver. Qed.

Lemma is_ok_exists {A} (m : res A) : is_ok m = true <-> exists a, m = Ok a.
Proof. split; [destruct m; naive_solver | intros [? ->]; done]. Qed.

Definition ok_or {A} (d : A) (m : res A) : A :=
  match m with Ok a => a | _ => d end.

Lemma ok_or_ok {A} (d : A) (m : res A) : is_ok m = true -> m = Ok (ok_or d m).
Proof. by destruct m. Qed.

Lemma pair_snd {A B} (p : A * B) b : p.2 = b -> p = (p.1, b).
Proof. destruct p; cbn. congruence. Qed.

(** Invert a successful run of a [let?]/[if]/[match] cascade. *)
Ltac inv_ok :=
  repeat match goal with
  | H : mbind _ _ = Ok _ |- _ =>
      let a := fresh "a" in let H1 := fresh "Hok" in
      apply bind_Ok_inv in H as (a & H1 & H)
  | H : Ok _ = Ok _ |- _ => injection H as H; try subst
  | H : Err _ = Ok _ |- _ => discriminate H
  | H : Panic _ = Ok _ |- _ => discriminate H
  | H : (if ?b then _ else _) = Ok _ |- _ =>
      let Hb := fresh "Hb" in destruct b eqn:Hb; try discriminate H
  | H : (match ?x with _ => _ end) = Ok _ |- _ =>
      let Hb := fresh "Hm" in destruct x eqn:Hb; try discriminate H
  | p : (_ * _)%type |- _ => destruct p
  end.

(** Invert a successful run of a [do?] cascade whose parts only read. *)
Ltac inv_do H :=
  repeat match type of H with
  | st_bind (_, ?r) _ = (_, Ok _) =>
      let a := fresh "a" in let E := fresh "E" in
      apply st_pure_Ok_inv in H as (a & E & H)
  | st_bind _ _ = (_, Ok _) =>
      let s := fresh "s" in let a := fresh "a" in let E := fresh "E" in
      apply st_bind_Ok_inv in H as (s & a & E & H)
  end.

(** ** Machine integers *)

Definition max_uint64 : Z := 2 ^ 64 - 1.
Definition max_int64 : Z := 2 ^ 63 - 1.
Definition wrap64 (z : Z) : Z := z `mod` 2 ^ 64.
Definition wrap8 (z : Z) : Z := z `mod` 2 ^ 8.
(** conversion [int64(x)] of a [uint64] *)
Definition to_int64 (z : Z) : Z :=
  let w := z `mod` 2 ^ 64 in if w <=? max_int64 then w else w - 2 ^ 64.
Definition is_uint64 (z : Z) : bool := (0 <=? z) && (z <=? max_uint64).
Definition is_int64 (z : Z) : bool := (- 2 ^ 63 <=? z) && (z <=? max_int64).

Lemma wrap64_small z : 0 <= z <= max_uint64 -> wrap64 z = z.
Proof. unfold wrap64, max_uint64. intros. apply Z.mod_small. lia. Qed.

Lemma wrap64_range z : 0 <= wrap64 z <= max_uint64.
Proof.
  unfold wrap64, max_uint64. pose proof (Z.mod_pos_bound z (2 ^ 64)). lia.
Qed.

Lemma to_int64_small z : 0 <= z <= max_int64 -> to_int64 z = z.
Proof.
  unfold to_int64, max_int64. intros. rewrite Z.mod_small by lia.
  case_match; lia.
Qed.

Lemma is_uint64_spec z : is_uint64 z = true <-> 0 <= z <= max_uint64.
Proof. unfold is_uint64. rewrite andb_true_iff, !Z.leb_le. done. Qed.

Lemma is_int64_spec z : is_int64 z = true <-> - 2 ^ 63 <= z <= max_int64.
Proof. unfold is_int64. rewrite andb_true_iff, !Z.leb_le. done. Qed.

(** Boolean comparisons in hypotheses and goals become propositions. *)
Ltac zbool :=
  repeat match goal with
  | H : (_ <? _) = true |- _ => apply Z.ltb_lt in H
  | H : (_ <? _) = false |- _ => apply Z.ltb_ge in H
  | H : (_ <=? _) = true |- _ => apply Z.leb_le in H
  | H : (_ <=? _) = false |- _ => apply Z.leb_gt in H
  | H : (_ =? _) = true |- _ => apply Z.eqb_eq in H
  | H : (_ =? _) = false |- _ => apply Z.eqb_neq in H
  | H : negb _ = true |- _ => apply negb_true_iff in H
  | H : negb _ = false |- _ => apply negb_false_iff in H
  | H : andb _ _ = true |- _ => apply andb_true_iff in H as [? ?]
  | H : orb _ _ = false |- _ => apply orb_false_iff in H as [? ?]
  end.

(** ** [sort.Search]

    Go's binary search: the least index of [[0,n)] at which [f] is true, [n]
    when there is none. The loop halves [j - i], so [n] rounds are enough. *)

Fixpoint search_loop (fuel : nat) (f : nat -> bool) (i j : nat) : nat :=
  match fuel with
  | O => i
  | S fuel =>
      if (i <? j)%nat then
        let h := ((i + j) / 2)%nat in
        if f h then search_loop fuel f i h
        else search_loop fuel f (S h) j
      else i
  end.

Definition sort_Search (n : nat) (f : nat -> bool) : nat := search_loop n f 0 n.

Lemma search_loop_spec fuel f i j n :
  (j - i <= fuel)%nat -> (i <= j <= n)%nat ->
  (forall a b, (a <= b)%nat -> f a = true -> f b = true) ->
  (forall a, (a < i)%nat -> f a = false) ->
  (j < n -> f j = true)%nat ->
  let r := search_loop fuel f i j in
  (i <= r <= j)%nat /\ (forall a, (a < r)%nat -> f a = false) /\ ((r < n)%nat -> f r = true).
Proof.
  revert i j. induction fuel as [|fuel IH]; intros i j Hf Hij Hm Hlo Hhi;
    cbn [search_loop]; cbv zeta.
  { assert (i = j) as -> by lia. split_and!; [lia|lia|done|done]. }
  destruct (Nat.ltb_spec i j) as [Hlt|Hge].
  2: { assert (i = j) as -> by lia. split_and!; [lia|lia|done|done]. }
  pose proof (Nat.div_mod_eq (i + j) 2) as Hd.
  pose proof (Nat.mod_upper_bound (i + j) 2 ltac:(lia)) as Hb.
  destruct (f ((i + j) / 2)%nat) eqn:Hh.
  - edestruct (IH i ((i + j) / 2)%nat) as (H1 & H2 & H3); try lia; try done.
    cbn in *. split_and!; [lia|lia|done|done].
  - edestruct (IH (S ((i + j) / 2)) j) as (H1 & H2 & H3); try lia; try done.
    + intros a Ha. destruct (f a) eqn:E; [|done].
      rewrite (Hm a ((i + j) / 2)%nat) in Hh; [done|lia|done].
    + cbn in *. split_and!; [lia|lia|done|done].
Qed.

Lemma sort_Search_spec n f :
  (forall a b, (a <= b)%nat -> f a = true -> f b = true) ->
  let r := sort_Search n f in
  (r <= n)%nat /\ (forall a, (a < r)%nat -> f a = false) /\ ((r < n)%nat -> f r = true).
Proof.
  intros Hm. unfold sort_Search.
  destruct (search_loop_spec n f 0 n n) as (H1 & H2 & H3); try lia; try done.
  cbn in *. split_and!; [lia|done|done].
Qed.

(** ** Generic lemmas on lists and maps *)

Lemma filter_all {A} (P : A -> Prop) `{!forall x, Decision (P x)} (l : list A) : Forall P l -> filter P l = l.
Proof. induction 1 as [|x l Hx _ IH]; [done|]. rewrite filter_cons, decide_True by done. by rewrite IH. Qed.

Lemma take_app_exact {A} (l k : list A) : take (length l) (l ++ k) = l.
Proof. by rewrite take_app_length. Qed.

Lemma drop_app_exact {A} (l k : list A) : drop (length l) (l ++ k) = k.
Proof. by rewrite drop_app_length. Qed.

Create HintDb evm discriminated.
#[export] Hint Resolve wrap64_range : evm.

(** ** Big-endian byte strings *)

Definition bytes := list Z.

(** [be_bytes n v]: the [n] bytes of [v], most significant first. *)
Fixpoint be_bytes (n : nat) (v : Z) : bytes :=
  match n with
  | O => []
  | S n => be_bytes n (v / 256) ++ [v `mod` 256]
  end.

Definition be_value (bz : bytes) : Z := fold_left (fun acc b => acc * 256 + b) bz 0.

Lemma be_bytes_length n v : length (be_bytes n v) = n.
Proof. revert v. induction n; intros; cbn; [done|]. rewrite length_app, IHn. cbn. lia. Qed.

Lemma be_value_app l b : be_value (l ++ [b]) = be_value l * 256 + b.
Proof. unfold be_value. by rewrite fold_left_app. Qed.

Lemma be_value_bytes n v : 0 <= v < 256 ^ Z.of_nat n -> be_value (be_bytes n v) = v.
Proof.
  revert v. induction n as [|n IH]; intros v Hv.
  { cbn. rewrite Z.pow_0_r in Hv. lia. }
  cbn [be_bytes]. rewrite be_value_app, IH.
  - pose proof (Z.div_mod v 256 ltac:(lia)). lia.
  - rewrite Nat2Z.inj_succ, Z.pow_succ_r in Hv by lia.
    split; [apply Z.div_pos; lia|]. apply Z.div_lt_upper_bound; lia.
Qed.

(** ** Strings *)

(** the bytes of a Go string *)
Definition string_bytes (t : string) : bytes := map (fun c => Z.of_nat (Ascii.nat_of_ascii c)) (String.list_ascii_of_string t).

(** [strings.TrimSpace(s) == ""]: nothing but the white space of Unicode, in
    UTF-8 *)
Fixpoint is_blank (b : bytes) : bool :=
  match b with
  | [] => true
  | 194 :: x :: r => ((x =? 133) || (x =? 160)) && is_blank r
  | 225 :: 154 :: 128 :: r => is_blank r
  | 226 :: 128 :: x :: r => (((128 <=? x) && (x <=? 138)) || (x =? 168) || (x =? 169) || (x =? 175)) && is_blank r
  | 226 :: 129 :: 159 :: r => is_blank r
  | 227 :: 128 :: 128 :: r => is_blank r
  | x :: r => (((9 <=? x) && (x <=? 13)) || (x =? 32)) && is_blank r
  end.

Lemma str_app_cons c a b : String c a +:+ b = String c (a +:+ b).
Proof. reflexivity. Qed.
Lemma str_app_nil b : "" +:+ b = b.
Proof. reflexivity. Qed.

Lemma str_app_inj a b c d :
  String.length a = String.length c -> a +:+ b = c +:+ d -> a = c /\ b = d.
Proof.
  revert c. induction a as [|x a IH]; intros [|y c]; try done.
  rewrite !str_app_cons. intros [= Hl] [= -> Hs]. destruct (IH c Hl Hs) as [-> ->]. done.
Qed.

Lemma str_app_length a b : String.length (a +:+ b) = (String.length a + String.length b)%nat.
Proof. induction a as [|c a IH]; [done|]. rewrite str_app_cons. cbn. by rewrite IH. Qed.

Lemma substring_full s : String.substring 0 (String.length s) s = s.
Proof. induction s as [|c s IH]; cbn; [done|]. by rewrite IH. Qed.

Lemma substring_prefix a b : String.substring 0 (String.length a) (a +:+ b) = a.
Proof. induction a as [|c a IH]; [by destruct b|]. rewrite str_app_cons. cbn. by rewrite IH. Qed.

Lemma substring_all n t : (String.length t <= n)%nat -> String.substring 0 n t = t.
Proof. revert n. induction t as [|c t IH]; intros [|n] Hn; cbn in *; [done|done|lia|]. by rewrite IH by lia. Qed.
