(* ===== verification/SdkMath.v ===== *)
(** * Interface of [cosmossdk.io/math]

    [sdkmath.Int] and [sdkmath.LegacyDec] are third-party code. They appear
    here as a class: an [Int] is the integer it holds, a [LegacyDec] is its
    scaled integer (the value times [10^18]); a nil value is [None] where the
    code distinguishes it. The laws are the documented behaviour of the
    package: arithmetic is exact and panics outside the width of the type,
    quotients truncate, [Mul] rounds to a nearest scaled integer. The operation
    names keep the Go method names. The instance [sdk_math_Z] shows that the
    laws can be met and is what concrete evaluations use. *)

From stdpp Require Import base numbers strings.
From Stdlib Require Import ZArith Lia.
From S2P Require Import Prelude.

Definition ErrIntOverflow : error := "Int overflow".
Definition ErrDivByZero : error := "division by zero".

(** one unit of a [LegacyDec] *)
Definition dec_one : Z := 10 ^ 18.

Class SdkMath := {
  (** the integers an [Int] (256 bits and a sign) and the scaled integers a
      [LegacyDec] can hold *)
  int_fits : Z -> bool;
  dec_fits : Z -> bool;
  NewIntFromBigInt : Z -> res Z;
  int_Add : Z -> Z -> res Z;
  int_Mul : Z -> Z -> res Z;
  int_Quo : Z -> Z -> res Z;
  dec_MulInt : Z -> Z -> res Z;
  dec_QuoInt : Z -> Z -> res Z;
  dec_Mul : Z -> Z -> res Z;
  dec_Add : Z -> Z -> res Z;
  dec_Sub : Z -> Z -> res Z;
  dec_TruncateInt : Z -> res Z;
  dec_Ceil : Z -> Z;
  dec_RoundInt : Z -> res Z;
  (** rounding of a product of two scaled integers *)
  dec_chop : Z -> Z;

  int_fits_256 : forall z, Z.abs z < 2 ^ 256 -> int_fits z = true;
  dec_fits_315 : forall z, Z.abs z < 2 ^ 315 -> dec_fits z = true;
  NewIntFromBigInt_spec : forall z,
    NewIntFromBigInt z = if int_fits z then Ok z else Panic ErrIntOverflow;
  int_Add_spec : forall a b,
    int_Add a b = if int_fits (a + b) then Ok (a + b) else Panic ErrIntOverflow;
  int_Mul_spec : forall a b,
    int_Mul a b = if int_fits (a * b) then Ok (a * b) else Panic ErrIntOverflow;
  int_Quo_spec : forall a b,
    int_Quo a b = if b =? 0 then Panic ErrDivByZero else Ok (Z.quot a b);
  dec_MulInt_spec : forall a b,
    dec_MulInt a b = if dec_fits (a * b) then Ok (a * b) else Panic ErrIntOverflow;
  dec_QuoInt_spec : forall a b,
    dec_QuoInt a b = if b =? 0 then Panic ErrDivByZero else Ok (Z.quot a b);
  dec_chop_nearest : forall z, 2 * Z.abs (dec_chop z * dec_one - z) <= dec_one;
  dec_Mul_spec : forall a b,
    dec_Mul a b =
      if dec_fits (dec_chop (a * b)) then Ok (dec_chop (a * b)) else Panic ErrIntOverflow;
  dec_Add_spec : forall a b,
    dec_Add a b = if dec_fits (a + b) then Ok (a + b) else Panic ErrIntOverflow;
  dec_Sub_spec : forall a b,
    dec_Sub a b = if dec_fits (a - b) then Ok (a - b) else Panic ErrIntOverflow;
  dec_TruncateInt_spec : forall a,
    dec_TruncateInt a =
      if int_fits (Z.quot a dec_one) then Ok (Z.quot a dec_one) else Panic ErrIntOverflow;
  dec_Ceil_spec : forall a, dec_Ceil a = - ((- a) / dec_one) * dec_one;
  dec_RoundInt_spec : forall a,
    dec_RoundInt a = if int_fits (dec_chop a) then Ok (dec_chop a) else Panic ErrIntOverflow
}.

(** [LegacyNewDec], [LegacyNewDecFromInt], [LegacyNewDecFromBigInt] *)
Definition NewDec (z : Z) : Z := z * dec_one.

Section Laws.
Context `{SdkMath}.

Lemma dec_one_pos : 0 < dec_one.
Proof. unfold dec_one. lia. Qed.

(** The rounded product is exact when it has no fractional part. *)
Lemma dec_chop_exact n : dec_chop (n * dec_one) = n.
Proof.
  pose proof (dec_chop_nearest (n * dec_one)) as Hn.
  pose proof dec_one_pos. revert Hn. generalize (dec_chop (n * dec_one)); intros p Hn.
  destruct (Z.lt_trichotomy p n) as [|[|]]; [|done|]; exfalso; nia.
Qed.

Lemma dec_chop_NewDec_l n m : dec_chop (NewDec n * m) = n * m.
Proof.
  unfold NewDec. replace (n * dec_one * m) with (n * m * dec_one) by ring.
  apply dec_chop_exact.
Qed.

Lemma dec_Mul_NewDec_l n m :
  dec_Mul (NewDec n) m =
    if dec_fits (n * m) then Ok (n * m) else Panic ErrIntOverflow.
Proof. by rewrite dec_Mul_spec, dec_chop_NewDec_l. Qed.

Lemma dec_Mul_NewDec_r n m :
  dec_Mul m (NewDec n) =
    if dec_fits (m * n) then Ok (m * n) else Panic ErrIntOverflow.
Proof. rewrite dec_Mul_spec, Z.mul_comm, dec_chop_NewDec_l, (Z.mul_comm n m). done. Qed.

(** the smallest integer that is not less than a decimal *)
Definition dec_ceiling (a : Z) : Z := - ((- a) / dec_one).

Lemma dec_ceiling_bounds a : a <= dec_ceiling a * dec_one < a + dec_one.
Proof.
  unfold dec_ceiling. pose proof dec_one_pos.
  pose proof (Z.div_mod (- a) dec_one ltac:(lia)). pose proof (Z.mod_pos_bound (- a) dec_one ltac:(lia)). lia.
Qed.

(** [Ceil().RoundInt()] *)
Lemma dec_CeilRoundInt a :
  dec_RoundInt (dec_Ceil a) = if int_fits (dec_ceiling a) then Ok (dec_ceiling a) else Panic ErrIntOverflow.
Proof. by rewrite dec_RoundInt_spec, dec_Ceil_spec, dec_chop_exact. Qed.
End Laws.

(** ** A concrete instance: the package's own bounds and banker's rounding *)

Definition int_fits_Z (z : Z) : bool := Z.abs z <? 2 ^ 256.
Definition dec_fits_Z (z : Z) : bool := Z.abs z <? 2 ^ 315.

Definition dec_chop_Z (z : Z) : Z :=
  let a := Z.abs z in
  let q := a / dec_one in
  let r := a mod dec_one in
  let up := (dec_one / 2 <? r) || ((r =? dec_one / 2) && Z.odd q) in
  Z.sgn z * (if up then q + 1 else q).

Lemma dec_chop_Z_nearest z : 2 * Z.abs (dec_chop_Z z * dec_one - z) <= dec_one.
Proof.
  unfold dec_chop_Z, dec_one.
  pose proof (Z.div_mod (Z.abs z) (10 ^ 18) ltac:(lia)) as Hd.
  pose proof (Z.mod_pos_bound (Z.abs z) (10 ^ 18) ltac:(lia)) as Hb.
  set (q := Z.abs z / 10 ^ 18) in *. set (r := Z.abs z mod 10 ^ 18) in *.
  clearbody q r.
  change (10 ^ 18 / 2) with 500000000000000000.
  change (10 ^ 18) with 1000000000000000000 in *.
  destruct (Z.ltb_spec 500000000000000000 r); cbn [orb];
    [|destruct (Z.eqb_spec r 500000000000000000); cbn [andb];
      [destruct (Z.odd q)|]];
    destruct (Z.sgn_spec z) as [[? ->]|[[? ->]|[? ->]]]; lia.
Qed.

#[local, refine] Instance sdk_math_Z : SdkMath := {|
  int_fits := int_fits_Z;
  dec_fits := dec_fits_Z;
  NewIntFromBigInt z := if int_fits_Z z then Ok z else Panic ErrIntOverflow;
  int_Add a b := if int_fits_Z (a + b) then Ok (a + b) else Panic ErrIntOverflow;
  int_Mul a b := if int_fits_Z (a * b) then Ok (a * b) else Panic ErrIntOverflow;
  int_Quo a b := if b =? 0 then Panic ErrDivByZero else Ok (Z.quot a b);
  dec_MulInt a b := if dec_fits_Z (a * b) then Ok (a * b) else Panic ErrIntOverflow;
  dec_QuoInt a b := if b =? 0 then Panic ErrDivByZero else Ok (Z.quot a b);
  dec_Mul a b :=
    if dec_fits_Z (dec_chop_Z (a * b)) then Ok (dec_chop_Z (a * b)) else Panic ErrIntOverflow;
  dec_Add a b := if dec_fits_Z (a + b) then Ok (a + b) else Panic ErrIntOverflow;
  dec_Sub a b := if dec_fits_Z (a - b) then Ok (a - b) else Panic ErrIntOverflow;
  dec_TruncateInt a :=
    if int_fits_Z (Z.quot a dec_one) then Ok (Z.quot a dec_one) else Panic ErrIntOverflow;
  dec_Ceil a := - ((- a) / dec_one) * dec_one;
  dec_RoundInt a := if int_fits_Z (dec_chop_Z a) then Ok (dec_chop_Z a) else Panic ErrIntOverflow;
  dec_chop := dec_chop_Z;
|}.
Proof.
  all: try done.
  - intros z Hz. by apply Z.ltb_lt.
  - intros z Hz. by apply Z.ltb_lt.
  - apply dec_chop_Z_nearest.
Defined.
