(* ===== verification/Scaling.v ===== *)
(** * EVM coin decimals ([x/vm/types/denom.go], [denom_config.go], [scaling.go])

    The EVM works with 18 decimals whatever the decimals (6 or 18) of the bank
    coin it is backed by. [EvmCoinInfo] is the process-wide configuration
    [evmCoinInfo]; the conversions between the two representations and the
    truncation [AdjustExtraDecimalsBigInt] of EVM amounts that the bank cannot
    hold are modelled with the setters that initialise the configuration. *)

From stdpp Require Import base numbers strings list.
From Stdlib Require Import ZArith Lia.
From S2P Require Import Prelude SdkMath.

(** [Decimals] is a [uint8]. *)
Definition SixDecimals : Z := 6.
Definition EighteenDecimals : Z := 18.

Record EvmCoinInfo := mkEvmCoinInfo {
  eci_Denom : string;
  eci_DisplayDenom : string;
  eci_Decimals : Z
}.

Definition ErrUnsupportedDecimals : error := "received unsupported decimals".
Definition ErrInvalidDenom : error := "invalid denom".
Definition ErrCoinInfoSet : error := "EVM coin info already set".
Definition ErrDenomMismatch : error := "expected evm denom".

Definition Decimals_Validate (d : Z) : res unit :=
  if d =? SixDecimals then Ok ()
  else if d =? EighteenDecimals then Ok ()
  else Err ErrUnsupportedDecimals.

Definition ConversionFactor (d : Z) : Z :=
  if d =? SixDecimals then 10 ^ 12 else 1.

(** ** Initialisation of the global [evmCoinInfo]

    The package variable is a pointer, nil ([None]) until the first call. The
    setters write the fields of the record it points to. *)

Section Config.
(** [sdk.ValidateDenom] of the Cosmos SDK *)
Variable ValidateDenom : string -> bool.

Definition setEVMCoinDecimals (d : Z) (g : EvmCoinInfo) : EvmCoinInfo * res unit :=
  match Decimals_Validate d with
  | Ok _ => (mkEvmCoinInfo (eci_Denom g) (eci_DisplayDenom g) d, Ok ())
  | Err e => (g, Err e)
  | Panic e => (g, Panic e)
  end.

Definition setEVMCoinDenom (denom : string) (g : EvmCoinInfo) : EvmCoinInfo * res unit :=
  if ValidateDenom denom
  then (mkEvmCoinInfo denom (eci_DisplayDenom g) (eci_Decimals g), Ok ())
  else (g, Err ErrInvalidDenom).

(** [new(EvmCoinInfo)] is installed before the fields are validated, so the
    variable is no longer nil after a failure. *)
Definition setEVMCoinInfo (eci : EvmCoinInfo) (g : option EvmCoinInfo)
    : option EvmCoinInfo * res unit :=
  match g with
  | Some _ => (g, Err ErrCoinInfoSet)
  | None =>
      let '(g1, r1) := setEVMCoinDenom (eci_Denom eci) (mkEvmCoinInfo "" "" 0) in
      match r1 with
      | Ok _ => let '(g2, r2) := setEVMCoinDecimals (eci_Decimals eci) g1 in (Some g2, r2)
      | _ => (Some g1, r1)
      end
  end.
End Config.

(** ** Conversions *)

Record Coin := mkCoin { coin_Denom : string; coin_Amount : Z }.

Section Conversions.
Context `{SdkMath}.
Context (cfg : EvmCoinInfo).

Definition GetEVMCoinDecimals : Z := eci_Decimals cfg.
Definition GetEVMCoinDenom : string := eci_Denom cfg.
Definition factor : Z := ConversionFactor GetEVMCoinDecimals.

Definition MustConvertEvmCoinTo18Decimals (coin : Coin) : res Coin :=
  if negb (String.eqb (coin_Denom coin) GetEVMCoinDenom) then Panic ErrDenomMismatch
  else
    let? newAmount := int_Mul (coin_Amount coin) factor in
    Ok (mkCoin (coin_Denom coin) newAmount).

Definition ConvertAmountTo18DecimalsLegacy (amt : Z) : res Z := dec_MulInt amt factor.
Definition ConvertAmountTo18DecimalsBigInt (amt : Z) : Z := amt * factor.
Definition ConvertAmountFrom18DecimalsBigInt (amt : Z) : Z := Z.quot amt factor.
Definition ConvertBigIntFrom18DecimalsToLegacyDec (amt : Z) : res Z :=
  dec_QuoInt (NewDec amt) factor.

Definition ConvertEvmCoinFrom18Decimals (coin : Coin) : res Coin :=
  if negb (String.eqb (coin_Denom coin) GetEVMCoinDenom) then Err ErrDenomMismatch
  else
    let? newAmount := int_Quo (coin_Amount coin) factor in
    Ok (mkCoin (coin_Denom coin) newAmount).

(** the loop body of [ConvertCoinsFrom18Decimals] *)
Definition convertCoinFrom18 (coin : Coin) : res Coin :=
  if String.eqb (coin_Denom coin) GetEVMCoinDenom then
    let? newAmount := int_Quo (coin_Amount coin) factor in
    Ok (mkCoin (coin_Denom coin) newAmount)
  else Ok coin.

Fixpoint ConvertCoinsFrom18Decimals (coins : list Coin) : res (list Coin) :=
  match coins with
  | [] => Ok []
  | coin :: rest =>
      let? c := convertCoinFrom18 coin in
      let? cs := ConvertCoinsFrom18Decimals rest in
      Ok (c :: cs)
  end.

Definition AdjustExtraDecimalsBigInt (amt : Z) : Z :=
  if amt =? 0 then amt
  else if GetEVMCoinDecimals =? EighteenDecimals then amt
  else Z.quot amt factor * factor.

(** ** Properties *)

Lemma factor_pos : 0 < factor.
Proof. unfold factor, ConversionFactor. case_match; lia. Qed.

Lemma factor_18 : GetEVMCoinDecimals = EighteenDecimals -> factor = 1.
Proof. unfold factor. by intros ->. Qed.

(** The truncation is the largest multiple of the conversion factor towards
    zero, in both configurations. *)
Lemma AdjustExtraDecimalsBigInt_eq amt :
  AdjustExtraDecimalsBigInt amt = Z.quot amt factor * factor.
Proof.
  unfold AdjustExtraDecimalsBigInt.
  destruct (Z.eqb_spec amt 0) as [->|].
  { rewrite Z.quot_0_l; [lia|]. pose proof factor_pos. lia. }
  destruct (Z.eqb_spec GetEVMCoinDecimals EighteenDecimals) as [E|]; [|done].
  rewrite factor_18 by done. rewrite Z.quot_1_r. lia.
Qed.

Lemma AdjustExtraDecimalsBigInt_bounds amt :
  0 <= amt -> amt - factor < AdjustExtraDecimalsBigInt amt <= amt.
Proof.
  intros Ha. rewrite AdjustExtraDecimalsBigInt_eq. pose proof factor_pos.
  pose proof (Z.quot_rem amt factor ltac:(lia)).
  pose proof (Z.rem_bound_pos amt factor ltac:(lia) ltac:(lia)). lia.
Qed.

(** An adjusted amount survives the trip to the bank representation and
    back unchanged; any other EVM amount comes back adjusted. *)
Lemma roundtrip_from_to amt :
  ConvertAmountTo18DecimalsBigInt (ConvertAmountFrom18DecimalsBigInt amt)
  = AdjustExtraDecimalsBigInt amt.
Proof. by rewrite AdjustExtraDecimalsBigInt_eq. Qed.

Lemma roundtrip_to_from amt :
  ConvertAmountFrom18DecimalsBigInt (ConvertAmountTo18DecimalsBigInt amt) = amt.
Proof.
  unfold ConvertAmountFrom18DecimalsBigInt, ConvertAmountTo18DecimalsBigInt.
  pose proof factor_pos. by rewrite Z.quot_mul by lia.
Qed.

Lemma AdjustExtraDecimalsBigInt_idemp amt :
  AdjustExtraDecimalsBigInt (AdjustExtraDecimalsBigInt amt) = AdjustExtraDecimalsBigInt amt.
Proof.
  rewrite !AdjustExtraDecimalsBigInt_eq. pose proof factor_pos.
  by rewrite Z.quot_mul by lia.
Qed.

Lemma ConvertCoinsFrom18Decimals_ok coins :
  ConvertCoinsFrom18Decimals coins =
    Ok (map (fun c => if String.eqb (coin_Denom c) GetEVMCoinDenom
                      then mkCoin (coin_Denom c) (Z.quot (coin_Amount c) factor) else c) coins).
Proof.
  induction coins as [|c cs IH]; [done|]. cbn. unfold convertCoinFrom18.
  rewrite int_Quo_spec. pose proof factor_pos.
  destruct (Z.eqb_spec factor 0); [lia|]. rewrite IH. by case_match.
Qed.
End Conversions.

(** EVM amounts and bank amounts convert without loss. For both supported
    coin configurations, a bank amount converted to 18 decimals and back is
    unchanged; an 18-decimals amount sent to the bank and back is exactly what
    [AdjustExtraDecimalsBigInt] leaves of it, which never exceeds the amount,
    loses less than one conversion factor, and is a fixed point. *)
Theorem scaling_roundtrip (cfg : EvmCoinInfo) (amt : Z) :
  0 <= amt ->
  ConvertAmountFrom18DecimalsBigInt cfg (ConvertAmountTo18DecimalsBigInt cfg amt) = amt /\
  ConvertAmountTo18DecimalsBigInt cfg (ConvertAmountFrom18DecimalsBigInt cfg amt)
    = AdjustExtraDecimalsBigInt cfg amt /\
  amt - ConversionFactor (eci_Decimals cfg) < AdjustExtraDecimalsBigInt cfg amt <= amt /\
  AdjustExtraDecimalsBigInt cfg (AdjustExtraDecimalsBigInt cfg amt)
    = AdjustExtraDecimalsBigInt cfg amt.
Proof.
  intros Ha. split_and!.
  - apply roundtrip_to_from.
  - apply roundtrip_from_to.
  - by apply AdjustExtraDecimalsBigInt_bounds.
  - by apply AdjustExtraDecimalsBigInt_bounds.
  - apply AdjustExtraDecimalsBigInt_idemp.
Qed.

Definition six_cfg : EvmCoinInfo := mkEvmCoinInfo "utac" "tac" 6.
Definition eighteen_cfg : EvmCoinInfo := mkEvmCoinInfo "atac" "tac" 18.

Lemma scaling_roundtrip_witness :
  AdjustExtraDecimalsBigInt six_cfg (3 * 10 ^ 12 + 5) = 3 * 10 ^ 12 /\
  ConvertAmountTo18DecimalsBigInt six_cfg
    (ConvertAmountFrom18DecimalsBigInt six_cfg (3 * 10 ^ 12 + 5))
  = AdjustExtraDecimalsBigInt six_cfg (3 * 10 ^ 12 + 5).
Proof.
  split; [reflexivity|].
  apply (scaling_roundtrip six_cfg (3 * 10 ^ 12 + 5)). lia.
Defined.
