(* ===== verification/AccessList.v ===== *)
(** * The EIP-2930 access list ([x/vm/statedb/access_list.go])

    [al_addresses] maps an address to an index of [al_slots], or to [-1] when
    the address is present without slots; [al_slots] is the Go slice of slot
    sets. An index out of range is a Go panic. The abstract specification is a
    map from addresses to sets of slots; [al_abs] is the abstraction function
    and each operation is shown to implement its abstract counterpart. The
    deletions are only ever run to undo an addition, and undo it exactly. *)

From stdpp Require Import base gmap list numbers strings.
From Stdlib Require Import ZArith Lia.
From S2P Require Import Prelude.

(** 20-byte addresses and 32-byte hashes, as big-endian integers. *)
Abbreviation address := Z.
Abbreviation hash := Z.

Record accessList := mkAccessList {
  al_addresses : gmap address Z;
  al_slots : list (gset hash)
}.

Definition PanicSlotNoAddress : error := "reverting slot change, address not present in list".
Definition PanicIndex : error := "index out of range".

Definition newAccessList : accessList := mkAccessList ∅ [].

Definition ContainsAddress (al : accessList) (a : address) : bool :=
  match al_addresses al !! a with Some _ => true | None => false end.

(** [al.slots[idx]] *)
Definition slots_at (al : accessList) (idx : Z) : res (gset hash) :=
  if idx <? 0 then Panic PanicIndex
  else match al_slots al !! Z.to_nat idx with
       | Some m => Ok m
       | None => Panic PanicIndex
       end.

Definition Contains (al : accessList) (a : address) (slot : hash) : res (bool * bool) :=
  match al_addresses al !! a with
  | None => Ok (false, false)
  | Some idx =>
      if idx =? -1 then Ok (true, false)
      else let? slotmap := slots_at al idx in Ok (true, bool_decide (slot ∈ slotmap))
  end.

Definition AddAddress (al : accessList) (a : address) : bool * accessList :=
  match al_addresses al !! a with
  | Some _ => (false, al)
  | None => (true, mkAccessList (<[a := -1]> (al_addresses al)) (al_slots al))
  end.

Definition AddSlot (al : accessList) (a : address) (slot : hash)
    : res (bool * bool * accessList) :=
  let fresh_slotmap addrPresent :=
    Ok (negb addrPresent, true,
        mkAccessList (<[a := Z.of_nat (length (al_slots al))]> (al_addresses al))
                     (al_slots al ++ [{[ slot ]}])) in
  match al_addresses al !! a with
  | None => fresh_slotmap false
  | Some idx =>
      if idx =? -1 then fresh_slotmap true
      else
        let? slotmap := slots_at al idx in
        if bool_decide (slot ∈ slotmap) then Ok (false, false, al)
        else Ok (false, true,
                 mkAccessList (al_addresses al)
                   (<[Z.to_nat idx := {[ slot ]} ∪ slotmap]> (al_slots al)))
  end.

Definition DeleteSlot (al : accessList) (a : address) (slot : hash) : res accessList :=
  match al_addresses al !! a with
  | None => Panic PanicSlotNoAddress
  | Some idx =>
      let? slotmap := slots_at al idx in
      let slotmap' := slotmap ∖ {[ slot ]} in
      if bool_decide (slotmap' = ∅) then
        Ok (mkAccessList (<[a := -1]> (al_addresses al)) (take (Z.to_nat idx) (al_slots al)))
      else
        Ok (mkAccessList (al_addresses al) (<[Z.to_nat idx := slotmap']> (al_slots al)))
  end.

Definition DeleteAddress (al : accessList) (a : address) : accessList :=
  mkAccessList (delete a (al_addresses al)) (al_slots al).

(** ** Well-formedness *)

(** Every index is [-1] or points to a non-empty slot set, and no two
    addresses share one. *)
Record al_ok (al : accessList) : Prop := {
  al_ok_index : forall a i, al_addresses al !! a = Some i ->
    i = -1 \/ (0 <= i /\ exists m, al_slots al !! Z.to_nat i = Some m /\ m <> ∅);
  al_ok_inj : forall a b i, al_addresses al !! a = Some i -> al_addresses al !! b = Some i ->
    i <> -1 -> a = b
}.

Lemma al_ok_lookup al a i :
  al_ok al -> al_addresses al !! a = Some i -> i <> -1 ->
  exists m, 0 <= i /\ al_slots al !! Z.to_nat i = Some m /\ m <> ∅ /\ slots_at al i = Ok m.
Proof.
  intros Hok Ha Hi. destruct (al_ok_index al Hok a i Ha) as [|[Hp (m & Hm & Hne)]]; [done|].
  exists m. split_and!; [done..|]. unfold slots_at.
  destruct (Z.ltb_spec i 0); [lia|]. by rewrite Hm.
Qed.

Lemma newAccessList_ok : al_ok newAccessList.
Proof. split; intros *; cbn; by rewrite lookup_empty. Qed.

Lemma AddAddress_ok al a : al_ok al -> al_ok (AddAddress al a).2.
Proof.
  intros Hok. unfold AddAddress. destruct (al_addresses al !! a) eqn:Ha; [done|]. cbn.
  split; cbn.
  - intros b i Hb. destruct (decide (a = b)) as [->|]; simplify_map_eq; [by left|].
    by apply (al_ok_index al Hok b).
  - intros b c i Hb Hc Hi.
    destruct (decide (a = b)), (decide (a = c)); simplify_map_eq; try done.
    by apply (al_ok_inj al Hok b c i).
Qed.

(** the update shared by the two branches of [AddSlot] that open a new slot set *)
Lemma fresh_slotmap_ok al a (slot : hash) :
  al_ok al -> (al_addresses al !! a = None \/ al_addresses al !! a = Some (-1)) ->
  al_ok (mkAccessList (<[a := Z.of_nat (length (al_slots al))]> (al_addresses al))
                      (al_slots al ++ [{[ slot ]}])).
Proof.
  intros Hok Ha. split; cbn.
  - intros b i Hb. destruct (decide (a = b)) as [->|]; simplify_map_eq.
    + right. split; [lia|]. exists {[ slot ]}.
      rewrite Nat2Z.id, lookup_app_r, Nat.sub_diag by lia. split; [done|set_solver].
    + destruct (al_ok_index al Hok b i Hb) as [|[? (m & Hm & ?)]]; [by left|right].
      split; [done|]. exists m. split; [|done]. by apply lookup_app_l_Some.
  - intros b c i Hb Hc Hi.
    assert (Hfresh : forall d, al_addresses al !! d <> Some (Z.of_nat (length (al_slots al)))).
    { intros d Hd. destruct (al_ok_lookup al d _ Hok Hd) as (m & ? & Hm & _); [lia|].
      rewrite Nat2Z.id in Hm. apply lookup_lt_Some in Hm. lia. }
    destruct (decide (a = b)), (decide (a = c)); simplify_map_eq; try done.
    + by destruct (Hfresh c).
    + by destruct (Hfresh b).
    + by apply (al_ok_inj al Hok b c i).
Qed.

Lemma AddSlot_ok al a slot :
  al_ok al -> exists am sm al', AddSlot al a slot = Ok (am, sm, al') /\ al_ok al'.
Proof.
  intros Hok. unfold AddSlot. destruct (al_addresses al !! a) as [idx|] eqn:Ha.
  2: { do 3 eexists; split; [done|]. apply fresh_slotmap_ok; auto. }
  destruct (Z.eqb_spec idx (-1)) as [->|Hi].
  { do 3 eexists; split; [done|]. apply fresh_slotmap_ok; auto. }
  destruct (al_ok_lookup al a idx Hok Ha Hi) as (m & Hp & Hm & Hne & ->). cbn.
  case_bool_decide as Hin; do 3 eexists; (split; [done|]); [done|].
  split; cbn.
  - intros b i Hb. destruct (al_ok_index al Hok b i Hb) as [|[Hi0 (m' & Hm' & ?)]]; [by left|right].
    split; [done|]. destruct (decide (Z.to_nat idx = Z.to_nat i)) as [E|E].
    + exists ({[ slot ]} ∪ m). rewrite E, list_lookup_insert_eq; [split; [done|set_solver]|].
      by eapply lookup_lt_Some.
    + exists m'. by rewrite list_lookup_insert_ne.
  - by apply (al_ok_inj al Hok).
Qed.

Lemma AddSlot_unchanged al a slot am al' :
  AddSlot al a slot = Ok (am, false, al') -> am = false /\ al' = al.
Proof.
  unfold AddSlot. destruct (al_addresses al !! a); [|done]. case_match; [done|].
  destruct (slots_at al _); cbn; [|done..]. by case_bool_decide; intros [= <- <-].
Qed.

Lemma AddSlot_new_address al a slot sm al' :
  AddSlot al a slot = Ok (true, sm, al') -> al_addresses al !! a = None.
Proof.
  unfold AddSlot. destruct (al_addresses al !! a); [|done]. case_match; [done|].
  destruct (slots_at al _); cbn; [|done..]. by case_bool_decide.
Qed.

(** ** Undoing additions *)

Lemma DeleteAddress_AddAddress al a :
  ContainsAddress al a = false -> DeleteAddress (AddAddress al a).2 a = al.
Proof.
  unfold ContainsAddress, AddAddress, DeleteAddress. intros Hc.
  destruct (al_addresses al !! a) eqn:Ha; [done|]. cbn.
  rewrite delete_insert_id by done. by destruct al.
Qed.

Lemma DeleteSlot_AddSlot al a slot am al' :
  al_ok al -> AddSlot al a slot = Ok (am, true, al') ->
  DeleteSlot al' a slot = Ok (if am then (AddAddress al a).2 else al) /\
  am = negb (ContainsAddress al a).
Proof.
  intros Hok. unfold AddSlot, DeleteSlot, AddAddress, ContainsAddress.
  assert (Hundo : DeleteSlot
      (mkAccessList (<[a := Z.of_nat (length (al_slots al))]> (al_addresses al))
                    (al_slots al ++ [{[ slot ]}])) a slot
      = Ok (mkAccessList (<[a := -1]> (al_addresses al)) (al_slots al))).
  { unfold DeleteSlot, slots_at; cbn. rewrite lookup_insert_eq.
    destruct (Z.ltb_spec (Z.of_nat (length (al_slots al))) 0); [lia|]. cbn.
    rewrite Nat2Z.id, lookup_app_r, Nat.sub_diag by lia. cbn.
    rewrite bool_decide_eq_true_2 by set_solver.
    by rewrite take_app_exact, insert_insert_eq. }
  unfold DeleteSlot in Hundo; cbn in Hundo.
  destruct (al_addresses al !! a) as [idx|] eqn:Ha.
  2: { intros [= <- <-]; cbn. by rewrite Hundo. }
  destruct (Z.eqb_spec idx (-1)) as [->|Hi].
  { intros [= <- <-]; cbn. rewrite Hundo. split; [|done].
    rewrite insert_id by done. by destruct al. }
  destruct (al_ok_lookup al a idx Hok Ha Hi) as (m & Hp & Hm & Hne & ->). cbn.
  case_bool_decide as Hin; [done|]. intros [= <- <-]; cbn. rewrite Ha. split; [|done].
  unfold slots_at; cbn. destruct (Z.ltb_spec idx 0); [lia|].
  rewrite list_lookup_insert_eq by (by eapply lookup_lt_Some). cbn.
  rewrite bool_decide_eq_false_2 by set_solver.
  rewrite list_insert_insert_eq. replace (({[ slot ]} ∪ m) ∖ {[ slot ]}) with m by set_solver.
  rewrite list_insert_id by done. by destruct al.
Qed.

(** ** Abstract specification and refinement *)

Definition al_set (al : accessList) (idx : Z) : gset hash :=
  if idx =? -1 then ∅ else default ∅ (al_slots al !! Z.to_nat idx).

Definition al_abs (al : accessList) : gmap address (gset hash) :=
  al_set al <$> al_addresses al.

Definition spec_add_address (m : gmap address (gset hash)) (a : address) :=
  match m !! a with Some _ => m | None => <[a := ∅]> m end.

Definition spec_add_slot (m : gmap address (gset hash)) (a : address) (slot : hash) :=
  <[a := {[ slot ]} ∪ default ∅ (m !! a)]> m.

Lemma al_abs_lookup al a : al_abs al !! a = al_set al <$> al_addresses al !! a.
Proof. apply lookup_fmap. Qed.

Lemma AddAddress_refines al a :
  al_abs (AddAddress al a).2 = spec_add_address (al_abs al) a /\
  (AddAddress al a).1 = bool_decide (al_abs al !! a = None).
Proof.
  unfold AddAddress, spec_add_address. rewrite al_abs_lookup.
  destruct (al_addresses al !! a) eqn:Ha; cbn; [done|].
  split; [|done].
  unfold al_abs at 1. cbn. by rewrite fmap_insert.
Qed.

Lemma fresh_slotmap_refines al a slot :
  al_ok al -> (al_addresses al !! a = None \/ al_addresses al !! a = Some (-1)) ->
  al_abs (mkAccessList (<[a := Z.of_nat (length (al_slots al))]> (al_addresses al))
                       (al_slots al ++ [{[ slot ]}])) = spec_add_slot (al_abs al) a slot.
Proof.
  intros Hok Ha. apply map_eq. intros b. unfold spec_add_slot.
  rewrite al_abs_lookup. cbn.
  destruct (decide (a = b)) as [<-|Hne].
  - rewrite !lookup_insert_eq. cbn. f_equal. unfold al_set; cbn.
    destruct (Z.eqb_spec (Z.of_nat (length (al_slots al))) (-1)); [lia|].
    rewrite Nat2Z.id, lookup_app_r, Nat.sub_diag by lia. cbn.
    rewrite al_abs_lookup. destruct Ha as [-> | ->]; cbn; set_solver.
  - rewrite !lookup_insert_ne, al_abs_lookup by done.
    destruct (al_addresses al !! b) as [i|] eqn:Hb; cbn; [|done]. f_equal.
    unfold al_set; cbn.
    destruct (al_ok_index al Hok b i Hb) as [->|[? (m & Hm & ?)]]; [done|].
    case_match; [done|]. by rewrite lookup_app_l, Hm by (by eapply lookup_lt_Some).
Qed.

Lemma AddSlot_refines al a slot :
  al_ok al ->
  exists al', AddSlot al a slot =
    Ok (bool_decide (al_abs al !! a = None),
        bool_decide (slot ∉ default ∅ (al_abs al !! a)), al') /\
  al_abs al' = spec_add_slot (al_abs al) a slot.
Proof.
  intros Hok. unfold AddSlot. rewrite al_abs_lookup.
  destruct (al_addresses al !! a) as [idx|] eqn:Ha; cbn.
  2: { eexists; split; [by rewrite bool_decide_eq_true_2 by set_solver|].
       apply fresh_slotmap_refines; auto. }
  destruct (Z.eqb_spec idx (-1)) as [->|Hi].
  { eexists; split; [cbn; by rewrite bool_decide_eq_true_2 by set_solver|].
    apply fresh_slotmap_refines; auto. }
  destruct (al_ok_lookup al a idx Hok Ha Hi) as (m & Hp & Hm & Hne & ->). cbn.
  assert (Hset : al_set al idx = m).
  { unfold al_set. rewrite Hm. by destruct (Z.eqb_spec idx (-1)). }
  rewrite Hset. case_bool_decide as Hin.
  { eexists; split; [by rewrite bool_decide_eq_false_2 by set_solver|].
    unfold spec_add_slot. rewrite al_abs_lookup, Ha. cbn. rewrite Hset.
    replace ({[ slot ]} ∪ m) with m by set_solver.
    symmetry. apply insert_id. rewrite al_abs_lookup, Ha. cbn. by rewrite Hset. }
  eexists; split; [by rewrite bool_decide_eq_true_2 by done|].
  apply map_eq. intros b. unfold spec_add_slot. rewrite !al_abs_lookup, Ha. cbn. rewrite Hset.
  destruct (decide (a = b)) as [<-|Hab].
  - rewrite lookup_insert_eq, Ha. cbn. f_equal. unfold al_set; cbn.
    destruct (Z.eqb_spec idx (-1)); [done|].
    by rewrite list_lookup_insert_eq by (by eapply lookup_lt_Some).
  - rewrite lookup_insert_ne, al_abs_lookup by done.
    destruct (al_addresses al !! b) as [i|] eqn:Hb; cbn; [|done]. f_equal.
    unfold al_set; cbn. destruct (Z.eqb_spec i (-1)); [done|].
    destruct (al_ok_lookup al b i Hok Hb) as (m' & ? & _); [done|].
    rewrite list_lookup_insert_ne; [done|]. intros E.
    apply Hab, (al_ok_inj al Hok a b idx); [done| |done].
    by replace idx with i by lia.
Qed.

Lemma Contains_refines al a slot :
  al_ok al ->
  Contains al a slot =
    Ok (bool_decide (is_Some (al_abs al !! a)), bool_decide (slot ∈ default ∅ (al_abs al !! a))).
Proof.
  intros Hok. unfold Contains. rewrite al_abs_lookup.
  destruct (al_addresses al !! a) as [idx|] eqn:Ha; cbn; [|done].
  unfold al_set. destruct (Z.eqb_spec idx (-1)) as [|Hi]; [done|].
  destruct (al_ok_lookup al a idx Hok Ha Hi) as (m & Hp & Hm & Hne & ->). cbn. by rewrite Hm.
Qed.

(** *** Sequences of additions *)

Inductive al_op := AlAddress (a : address) | AlSlot (a : address) (slot : hash).

Definition al_exec (o : al_op) (al : accessList) : res accessList :=
  match o with
  | AlAddress a => Ok (AddAddress al a).2
  | AlSlot a slot => let? '(_, _, al) := AddSlot al a slot in Ok al
  end.

Fixpoint al_exec_all (ops : list al_op) (al : accessList) : res accessList :=
  match ops with
  | [] => Ok al
  | o :: ops => let? al := al_exec o al in al_exec_all ops al
  end.

Definition spec_exec (m : gmap address (gset hash)) (o : al_op) : gmap address (gset hash) :=
  match o with
  | AlAddress a => spec_add_address m a
  | AlSlot a slot => spec_add_slot m a slot
  end.

Lemma al_exec_refines o al :
  al_ok al -> exists al', al_exec o al = Ok al' /\ al_ok al' /\ al_abs al' = spec_exec (al_abs al) o.
Proof.
  intros Hok. destruct o as [a|a slot]; cbn.
  - eexists. split; [done|]. split; [by apply AddAddress_ok|apply AddAddress_refines].
  - destruct (AddSlot_refines al a slot Hok) as (al' & E & Habs).
    destruct (AddSlot_ok al a slot Hok) as (? & ? & ? & E' & Hok').
    rewrite E in *. simplify_eq. cbn. eauto.
Qed.

Lemma al_exec_all_refines ops al :
  al_ok al ->
  exists al', al_exec_all ops al = Ok al' /\ al_ok al' /\
    al_abs al' = fold_left spec_exec ops (al_abs al).
Proof.
  revert al. induction ops as [|o ops IH]; intros al Hok; cbn; [eauto|].
  destruct (al_exec_refines o al Hok) as (al1 & -> & Hok1 & <-). cbn. by apply IH.
Qed.

(** The access list implements a map from addresses to sets of slots.
    Starting from [newAccessList], every sequence of [AddAddress] and [AddSlot]
    succeeds (the slot indexes are never out of range), the result represents
    the map the additions describe, and [ContainsAddress] and [Contains] answer
    membership in it. *)
Theorem access_list_refines (ops : list al_op) :
  exists al, al_exec_all ops newAccessList = Ok al /\
    let m := fold_left spec_exec ops ∅ in
    al_abs al = m /\
    (forall a, ContainsAddress al a = bool_decide (is_Some (m !! a))) /\
    (forall a slot, Contains al a slot =
       Ok (bool_decide (is_Some (m !! a)), bool_decide (slot ∈ default ∅ (m !! a)))).
Proof.
  destruct (al_exec_all_refines ops newAccessList newAccessList_ok) as (al & E & Hok & Habs).
  exists al. split; [done|]. cbn zeta.
  replace (fold_left spec_exec ops ∅) with (al_abs al) by (by rewrite Habs).
  split_and!; [done| |].
  - intros a. unfold ContainsAddress. rewrite al_abs_lookup. by destruct (al_addresses al !! a).
  - intros a slot. by apply Contains_refines.
Qed.

(** The access list journal can be unwound. In any state reached by
    additions, deleting what an addition added gives the list back: the slot
    alone when its address was there, the slot and then the address when the
    addition added both; [AddSlot] reports which of the two it added. *)
Theorem access_list_undo (ops : list al_op) al a slot am al' :
  al_exec_all ops newAccessList = Ok al ->
  AddSlot al a slot = Ok (am, true, al') ->
  am = negb (ContainsAddress al a) /\
  exists al1, DeleteSlot al' a slot = Ok al1 /\ (if am then DeleteAddress al1 a else al1) = al.
Proof.
  intros Hex Hadd.
  destruct (al_exec_all_refines ops newAccessList newAccessList_ok) as (al0 & E & Hok & _).
  rewrite E in Hex. injection Hex as ->.
  destruct (DeleteSlot_AddSlot al a slot am al' Hok Hadd) as [Hd Ham]. split; [done|].
  eexists; split; [exact Hd|]. destruct am; [|done].
  apply DeleteAddress_AddAddress. by destruct (ContainsAddress al a).
Qed.

Lemma access_list_undo_witness :
  exists al al', al_exec_all [AlSlot 1 5] newAccessList = Ok al /\
    AddSlot al 2 7 = Ok (true, true, al') /\
    exists al1, DeleteSlot al' 2 7 = Ok al1 /\ DeleteAddress al1 2 = al.
Proof.
  do 2 eexists. split; [vm_compute; reflexivity|]. split; [vm_compute; reflexivity|].
  eapply (access_list_undo [AlSlot 1 5] _ 2 7 true); vm_compute; reflexivity.
Defined.
