(* ===== verification/StateDB.v ===== *)
(** * The EVM state database ([x/vm/statedb])

    [statedb.go], [state_object.go], [journal.go] and [config.go]: a cache of
    state objects over the keeper, a journal of reversible changes, a stack of
    revisions, the refund counter, the logs, the access list, and the cached
    context that precompile calls write to.

    Go pointers. A state object is only reachable through [stateObjects] (at
    its own address) and, once replaced by [createObject], through the journal
    entry [resetObjectChange]; no method mutates it there, so objects are
    values. [big.Int] values are never mutated in place. The closure stored in
    [writeCache] flushes the multi-store that [cacheCtx] currently points to:
    [CacheContext] creates the two together, and [precompileCallChange.Revert]
    replaces both by the same snapshot. It is therefore represented by the
    events it emits: those of the cached context, or a fixed list. *)

From stdpp Require Import base gmap list numbers strings sorting.
From Stdlib Require Import ZArith Lia.
From S2P Require Import Prelude SdkMath Scaling AccessList.

(** ** Data *)

(** [Account] as it is exchanged with the keeper: pointer fields may be nil. *)
Record Account := mkAccount {
  acc_Nonce : Z;
  acc_Balance : option Z;
  acc_CodeHash : option hash
}.

(** The account of a state object: [newObject] has replaced the nil fields. *)
Record accountVal := mkAccountVal {
  av_Nonce : Z;
  av_Balance : Z;
  av_CodeHash : hash
}.

Definition to_Account (v : accountVal) : Account :=
  mkAccount (av_Nonce v) (Some (av_Balance v)) (Some (av_CodeHash v)).

Record stateObject := mkStateObject {
  so_address : address;
  so_account : accountVal;
  so_code : option bytes;
  so_originStorage : gmap hash hash;
  so_dirtyStorage : gmap hash hash;
  so_dirtyCode : bool;
  so_suicided : bool
}.

Record TxConfig := mkTxConfig {
  tc_BlockHash : hash;
  tc_TxHash : hash;
  tc_TxIndex : Z;
  tc_LogIndex : Z
}.

Definition NewTxConfig (bhash thash : hash) (txIndex logIndex : Z) : TxConfig :=
  mkTxConfig bhash thash txIndex logIndex.

Definition NewEmptyTxConfig (bhash : hash) : TxConfig := mkTxConfig bhash 0 0 0.

Record ethLog := mkLog {
  log_Address : address;
  log_Topics : list hash;
  log_Data : bytes;
  log_BlockNumber : Z;
  log_TxHash : hash;
  log_TxIndex : Z;
  log_BlockHash : hash;
  log_Index : Z;
  log_Removed : bool
}.

Record revision := mkRevision { rev_id : Z; rev_journalIndex : nat }.

Definition PanicRefund : error := "Refund counter below zero".
Definition PanicRevision : error := "revision id cannot be reverted".
Definition PanicNil : error := "nil pointer dereference".
Definition PanicSlice : error := "slice bounds out of range".
Definition ErrNoMultiStore : error := "ctx has no multi store".
Definition ErrMaxPrecompileCalls : error := "max calls to precompiles reached".

(** ** What the state database needs from its environment *)

(** The [Keeper] interface of [interfaces.go]. A write returns the store after
    it, also when it fails. [k_GetAccountPanic] is the panic that stops
    [GetAccount], when one does (the balance of the account does not fit in 256
    bits after scaling); [k_GetAccount] is its answer when none does. *)
Class Keeper (store : Type) := {
  k_GetAccount : store -> address -> option Account;
  k_GetAccountPanic : store -> address -> option error;
  k_GetState : store -> address -> hash -> hash;
  k_GetCode : store -> hash -> option bytes;
  k_ForEachStorage : store -> address -> list (hash * hash);
  k_SetAccount : store -> address -> Account -> store * res unit;
  k_DeleteState : store -> address -> hash -> store;
  k_SetState : store -> address -> hash -> bytes -> store;
  k_DeleteCode : store -> hash -> store;
  k_SetCode : store -> hash -> bytes -> store;
  k_DeleteAccount : store -> address -> store * res unit
}.

(** The SDK multi-store: a cached branch of a store, and the write of a branch
    back to its parent. *)
Class MultiStore (store : Type) := {
  ms_CacheMultiStore : store -> store;
  ms_Write : store -> store -> store
}.

(** The hash function of go-ethereum, and the coin configuration. *)
Class EvmEnv := {
  keccak : bytes -> hash;
  coinCfg : EvmCoinInfo
}.

Section StateDB.
Context {store event : Type} `{!Keeper store} `{!MultiStore store}.
Context `{!EvmEnv}.

Definition EmptyCodeHash : hash := keccak [].
Definition IsEmptyCodeHash (h : hash) : bool := h =? EmptyCodeHash.

Inductive JournalEntry :=
| createObjectChange (account : address)
| resetObjectChange (prev : stateObject)
| suicideChange (account : address) (prev : bool) (prevbalance : Z)
| balanceChange (account : address) (prev : Z)
| nonceChange (account : address) (prev : Z)
| storageChange (account : address) (key prevalue : hash)
| codeChange (account : address) (prevcode : option bytes) (prevhash : hash)
| refundChange (prev : Z)
| addLogChange
| accessListAddAccountChange (account : address)
| accessListAddSlotChange (account : address) (slot : hash)
| precompileCallChange (multiStore : store) (events : list event).

Record journal := mkJournal {
  j_entries : list JournalEntry;
  j_dirties : gmap address Z
}.

Record cacheContext := mkCacheContext { cc_multiStore : store; cc_events : list event }.

Inductive writeCacheFn :=
| writeCacheContext                      (* the closure of [CacheContext] *)
| writeReverted (events : list event).   (* the closure of [precompileCallChange.Revert] *)

Record StateDB := mkStateDB {
  ctx_store : store;
  ctx_hasMultiStore : bool;
  ctx_events : list event;
  cacheCtx : option cacheContext;
  writeCache : option writeCacheFn;
  sdb_journal : journal;
  validRevisions : list revision;
  nextRevisionID : Z;
  stateObjects : gmap address stateObject;
  txConfig : TxConfig;
  refund : Z;
  logs : list ethLog;
  accessList_ : accessList;
  precompileCallsCounter : Z
}.

(** ** Field updates *)

Definition set_journal (j : journal) (s : StateDB) : StateDB :=
  mkStateDB (ctx_store s) (ctx_hasMultiStore s) (ctx_events s) (cacheCtx s) (writeCache s) j
    (validRevisions s) (nextRevisionID s) (stateObjects s) (txConfig s) (refund s) (logs s)
    (accessList_ s) (precompileCallsCounter s).
Definition set_objects (m : gmap address stateObject) (s : StateDB) : StateDB :=
  mkStateDB (ctx_store s) (ctx_hasMultiStore s) (ctx_events s) (cacheCtx s) (writeCache s)
    (sdb_journal s) (validRevisions s) (nextRevisionID s) m (txConfig s) (refund s) (logs s)
    (accessList_ s) (precompileCallsCounter s).
Definition set_refund (r : Z) (s : StateDB) : StateDB :=
  mkStateDB (ctx_store s) (ctx_hasMultiStore s) (ctx_events s) (cacheCtx s) (writeCache s)
    (sdb_journal s) (validRevisions s) (nextRevisionID s) (stateObjects s) (txConfig s) r (logs s)
    (accessList_ s) (precompileCallsCounter s).
Definition set_logs (l : list ethLog) (s : StateDB) : StateDB :=
  mkStateDB (ctx_store s) (ctx_hasMultiStore s) (ctx_events s) (cacheCtx s) (writeCache s)
    (sdb_journal s) (validRevisions s) (nextRevisionID s) (stateObjects s) (txConfig s) (refund s) l
    (accessList_ s) (precompileCallsCounter s).
Definition set_accessList (al : accessList) (s : StateDB) : StateDB :=
  mkStateDB (ctx_store s) (ctx_hasMultiStore s) (ctx_events s) (cacheCtx s) (writeCache s)
    (sdb_journal s) (validRevisions s) (nextRevisionID s) (stateObjects s) (txConfig s) (refund s)
    (logs s) al (precompileCallsCounter s).
Definition set_revisions (rs : list revision) (next : Z) (s : StateDB) : StateDB :=
  mkStateDB (ctx_store s) (ctx_hasMultiStore s) (ctx_events s) (cacheCtx s) (writeCache s)
    (sdb_journal s) rs next (stateObjects s) (txConfig s) (refund s) (logs s)
    (accessList_ s) (precompileCallsCounter s).
Definition set_cache (cc : option cacheContext) (w : option writeCacheFn) (s : StateDB) : StateDB :=
  mkStateDB (ctx_store s) (ctx_hasMultiStore s) (ctx_events s) cc w
    (sdb_journal s) (validRevisions s) (nextRevisionID s) (stateObjects s) (txConfig s) (refund s)
    (logs s) (accessList_ s) (precompileCallsCounter s).
Definition set_counter (n : Z) (s : StateDB) : StateDB :=
  mkStateDB (ctx_store s) (ctx_hasMultiStore s) (ctx_events s) (cacheCtx s) (writeCache s)
    (sdb_journal s) (validRevisions s) (nextRevisionID s) (stateObjects s) (txConfig s) (refund s)
    (logs s) (accessList_ s) n.
Definition set_ctx (st : store) (evs : list event) (s : StateDB) : StateDB :=
  mkStateDB st (ctx_hasMultiStore s) evs (cacheCtx s) (writeCache s)
    (sdb_journal s) (validRevisions s) (nextRevisionID s) (stateObjects s) (txConfig s) (refund s)
    (logs s) (accessList_ s) (precompileCallsCounter s).

(** ** Journal *)

Definition newJournal : journal := mkJournal [] ∅.

(** [Dirtied]: the address whose account the entry modifies, if any. *)
Definition Dirtied (e : JournalEntry) : option address :=
  match e with
  | createObjectChange a => Some a
  | resetObjectChange _ => None
  | suicideChange a _ _ => Some a
  | balanceChange a _ => Some a
  | nonceChange a _ => Some a
  | storageChange a _ _ => Some a
  | codeChange a _ _ => Some a
  | refundChange _ => None
  | addLogChange => None
  | accessListAddAccountChange _ => None
  | accessListAddSlotChange _ _ => None
  | precompileCallChange _ _ => None
  end.

(** Go reads a missing key of a [map[Address]int] as 0. *)
Definition incr_dirty (e : JournalEntry) (d : gmap address Z) : gmap address Z :=
  match Dirtied e with
  | Some a => <[a := default 0 (d !! a) + 1]> d
  | None => d
  end.

Definition decr_dirty (e : JournalEntry) (d : gmap address Z) : gmap address Z :=
  match Dirtied e with
  | Some a =>
      let n := default 0 (d !! a) - 1 in
      if n =? 0 then delete a d else <[a := n]> d
  | None => d
  end.

Definition journal_append (e : JournalEntry) (j : journal) : journal :=
  mkJournal (j_entries j ++ [e]) (incr_dirty e (j_dirties j)).

Definition journal_length (j : journal) : nat := length (j_entries j).

(** [sortedDirties]: the keys of the dirty map in byte order, which is the
    numeric order of the big-endian addresses. *)
Definition sortedDirties (j : journal) : list address :=
  merge_sort Z.le (elements (dom (j_dirties j))).

Definition append_entry (e : JournalEntry) (s : StateDB) : StateDB :=
  set_journal (journal_append e (sdb_journal s)) s.

(** ** State objects *)

Definition newObject (a : address) (acct : Account) : stateObject :=
  mkStateObject a
    (mkAccountVal (acc_Nonce acct) (default 0 (acc_Balance acct))
                  (default EmptyCodeHash (acc_CodeHash acct)))
    None ∅ ∅ false false.

Definition NewEmptyAccount : Account := mkAccount 0 (Some 0) (Some EmptyCodeHash).

Definition IsContract (acct : Account) : bool :=
  negb (match acc_CodeHash acct with
        | Some h => IsEmptyCodeHash h
        | None => false
        end).

Definition so_empty (o : stateObject) : bool :=
  (av_Nonce (so_account o) =? 0) && (av_Balance (so_account o) =? 0) &&
  IsEmptyCodeHash (av_CodeHash (so_account o)).

Definition so_with_account (v : accountVal) (o : stateObject) : stateObject :=
  mkStateObject (so_address o) v (so_code o) (so_originStorage o) (so_dirtyStorage o)
    (so_dirtyCode o) (so_suicided o).

Definition setBalance (amount : Z) (o : stateObject) : stateObject :=
  so_with_account (mkAccountVal (av_Nonce (so_account o)) amount (av_CodeHash (so_account o))) o.

Definition setNonce (nonce : Z) (o : stateObject) : stateObject :=
  so_with_account (mkAccountVal nonce (av_Balance (so_account o)) (av_CodeHash (so_account o))) o.

Definition setCode (codeHash : hash) (code : option bytes) (o : stateObject) : stateObject :=
  mkStateObject (so_address o)
    (mkAccountVal (av_Nonce (so_account o)) (av_Balance (so_account o)) codeHash)
    code (so_originStorage o) (so_dirtyStorage o) true (so_suicided o).

Definition setState (key value : hash) (o : stateObject) : stateObject :=
  mkStateObject (so_address o) (so_account o) (so_code o) (so_originStorage o)
    (<[key := value]> (so_dirtyStorage o)) (so_dirtyCode o) (so_suicided o).

Definition set_suicided (b : bool) (o : stateObject) : stateObject :=
  mkStateObject (so_address o) (so_account o) (so_code o) (so_originStorage o)
    (so_dirtyStorage o) (so_dirtyCode o) b.

Definition markSuicided : stateObject -> stateObject := set_suicided true.

(** [Code]: the bytes, and the object with the loaded code remembered. *)
Definition so_Code (st : store) (o : stateObject) : option bytes * stateObject :=
  match so_code o with
  | Some c => (Some c, o)
  | None =>
      if IsEmptyCodeHash (av_CodeHash (so_account o)) then (None, o)
      else
        let code := k_GetCode st (av_CodeHash (so_account o)) in
        (code, mkStateObject (so_address o) (so_account o) code (so_originStorage o)
                 (so_dirtyStorage o) (so_dirtyCode o) (so_suicided o))
  end.

Definition so_GetCommittedState (st : store) (key : hash) (o : stateObject)
    : hash * stateObject :=
  match so_originStorage o !! key with
  | Some v => (v, o)
  | None =>
      let v := k_GetState st (so_address o) key in
      (v, mkStateObject (so_address o) (so_account o) (so_code o)
            (<[key := v]> (so_originStorage o)) (so_dirtyStorage o)
            (so_dirtyCode o) (so_suicided o))
  end.

Definition so_GetState (st : store) (key : hash) (o : stateObject) : hash * stateObject :=
  match so_dirtyStorage o !! key with
  | Some v => (v, o)
  | None => so_GetCommittedState st key o
  end.

(** [Storage.SortedKeys] *)
Definition SortedKeys (m : gmap hash hash) : list hash :=
  merge_sort Z.le (elements (dom m)).

(** ** Access to state objects *)

Definition setStateObject (o : stateObject) (s : StateDB) : StateDB :=
  set_objects (<[so_address o := o]> (stateObjects s)) s.

Definition getStateObject (a : address) (s : StateDB) : option stateObject * StateDB :=
  match stateObjects s !! a with
  | Some o => (Some o, s)
  | None =>
      match k_GetAccount (ctx_store s) a with
      | None => (None, s)
      | Some acct => let o := newObject a acct in (Some o, setStateObject o s)
      end
  end.

(** The panic of the keeper that stops [getStateObject]: an account that is not
    cached is loaded. The callers test it before they use [getStateObject]. *)
Definition load_panics (a : address) (s : StateDB) : option error :=
  match stateObjects s !! a with
  | Some _ => None
  | None => k_GetAccountPanic (ctx_store s) a
  end.

Definition createObject (a : address) (s : StateDB)
    : stateObject * option stateObject * StateDB :=
  let '(prev, s) := getStateObject a s in
  let newobj := newObject a (mkAccount 0 None None) in
  let s := match prev with
           | None => append_entry (createObjectChange a) s
           | Some p => append_entry (resetObjectChange p) s
           end in
  (newobj, prev, setStateObject newobj s).

Definition getOrNewStateObject (a : address) (s : StateDB) : stateObject * StateDB :=
  let '(o, s) := getStateObject a s in
  match o with
  | Some o => (o, s)
  | None => let '(o, _, s) := createObject a s in (o, s)
  end.

Definition CreateAccount (a : address) (s : StateDB) : StateDB :=
  let '(newObj, prev, s) := createObject a s in
  match prev with
  | Some p => setStateObject (setBalance (av_Balance (so_account p)) newObj) s
  | None => s
  end.

(** ** Journalled mutators of an object that is in [stateObjects] *)

Definition so_SetBalance (amount : Z) (o : stateObject) (s : StateDB) : StateDB :=
  let s := append_entry (balanceChange (so_address o) (av_Balance (so_account o))) s in
  setStateObject (setBalance amount o) s.

Definition so_AddBalance (amount : Z) (o : stateObject) (s : StateDB) : StateDB :=
  let amount := AdjustExtraDecimalsBigInt coinCfg amount in
  if amount =? 0 then s
  else so_SetBalance (av_Balance (so_account o) + amount) o s.

Definition so_SubBalance (amount : Z) (o : stateObject) (s : StateDB) : StateDB :=
  let amount := AdjustExtraDecimalsBigInt coinCfg amount in
  if amount =? 0 then s
  else so_SetBalance (av_Balance (so_account o) - amount) o s.

Definition so_SetNonce (nonce : Z) (o : stateObject) (s : StateDB) : StateDB :=
  let s := append_entry (nonceChange (so_address o) (av_Nonce (so_account o))) s in
  setStateObject (setNonce nonce o) s.

Definition so_SetCode (codeHash : hash) (code : option bytes) (o : stateObject) (s : StateDB)
    : StateDB :=
  let '(prevcode, o) := so_Code (ctx_store s) o in
  let s := append_entry (codeChange (so_address o) prevcode (av_CodeHash (so_account o))) s in
  setStateObject (setCode codeHash code o) s.

Definition so_SetState (key value : hash) (o : stateObject) (s : StateDB) : StateDB :=
  let '(prev, o) := so_GetState (ctx_store s) key o in
  if prev =? value then setStateObject o s
  else
    let s := append_entry (storageChange (so_address o) key prev) s in
    setStateObject (setState key value o) s.

(** ** The [vm.StateDB] operations *)

Definition New (st : store) (hasMS : bool) (tc : TxConfig) : StateDB :=
  mkStateDB st hasMS [] None None newJournal [] 0 ∅ tc 0 [] newAccessList 0.

Definition AddLog (l : ethLog) (s : StateDB) : StateDB :=
  let s := append_entry addLogChange s in
  let l := mkLog (log_Address l) (log_Topics l) (log_Data l) (log_BlockNumber l)
             (tc_TxHash (txConfig s)) (tc_TxIndex (txConfig s)) (tc_BlockHash (txConfig s))
             (wrap64 (tc_LogIndex (txConfig s) + Z.of_nat (length (logs s)))) (log_Removed l) in
  set_logs (logs s ++ [l]) s.

Definition AddRefund (gas : Z) (s : StateDB) : StateDB :=
  let s := append_entry (refundChange (refund s)) s in
  set_refund (wrap64 (refund s + gas)) s.

Definition SubRefund (gas : Z) (s : StateDB) : res StateDB :=
  let s := append_entry (refundChange (refund s)) s in
  if refund s <? gas then Panic PanicRefund
  else Ok (set_refund (refund s - gas) s).

Definition Exist (a : address) (s : StateDB) : bool * StateDB :=
  let '(o, s) := getStateObject a s in (bool_decide (is_Some o), s).

Definition Empty (a : address) (s : StateDB) : bool * StateDB :=
  let '(o, s) := getStateObject a s in
  (match o with None => true | Some o => so_empty o end, s).

Definition GetBalance (a : address) (s : StateDB) : Z * StateDB :=
  let '(o, s) := getStateObject a s in
  (match o with Some o => av_Balance (so_account o) | None => 0 end, s).

Definition GetNonce (a : address) (s : StateDB) : Z * StateDB :=
  let '(o, s) := getStateObject a s in
  (match o with Some o => av_Nonce (so_account o) | None => 0 end, s).

Definition GetCode (a : address) (s : StateDB) : option bytes * StateDB :=
  let '(o, s) := getStateObject a s in
  match o with
  | Some o => let '(c, o) := so_Code (ctx_store s) o in (c, setStateObject o s)
  | None => (None, s)
  end.

Definition GetCodeSize (a : address) (s : StateDB) : Z * StateDB :=
  let '(c, s) := GetCode a s in (Z.of_nat (length (default [] c)), s).

Definition GetCodeHash (a : address) (s : StateDB) : hash * StateDB :=
  let '(o, s) := getStateObject a s in
  (match o with Some o => av_CodeHash (so_account o) | None => 0 end, s).

Definition GetState (a : address) (key : hash) (s : StateDB) : hash * StateDB :=
  let '(o, s) := getStateObject a s in
  match o with
  | Some o => let '(v, o) := so_GetState (ctx_store s) key o in (v, setStateObject o s)
  | None => (0, s)
  end.

Definition GetCommittedState (a : address) (key : hash) (s : StateDB) : hash * StateDB :=
  let '(o, s) := getStateObject a s in
  match o with
  | Some o => let '(v, o) := so_GetCommittedState (ctx_store s) key o in (v, setStateObject o s)
  | None => (0, s)
  end.

Definition HasSuicided (a : address) (s : StateDB) : bool * StateDB :=
  let '(o, s) := getStateObject a s in
  (match o with Some o => so_suicided o | None => false end, s).

(** [ForEachStorage] hands the stored pairs, overridden by the dirty values,
    to the callback until it answers false; the pairs it is called with. *)
Fixpoint visit_storage (dirty : gmap hash hash) (cb : hash -> hash -> bool)
    (l : list (hash * hash)) : list (hash * hash) :=
  match l with
  | [] => []
  | (k, v) :: l =>
      let v := default v (dirty !! k) in
      if cb k v then (k, v) :: visit_storage dirty cb l else [(k, v)]
  end.

Definition ForEachStorage (a : address) (cb : hash -> hash -> bool) (s : StateDB)
    : list (hash * hash) * StateDB :=
  let '(o, s) := getStateObject a s in
  match o with
  | None => ([], s)
  | Some o => (visit_storage (so_dirtyStorage o) cb (k_ForEachStorage (ctx_store s) a), s)
  end.

Definition AddBalance (a : address) (amount : Z) (s : StateDB) : StateDB :=
  let '(o, s) := getOrNewStateObject a s in so_AddBalance amount o s.

Definition SubBalance (a : address) (amount : Z) (s : StateDB) : StateDB :=
  let '(o, s) := getOrNewStateObject a s in so_SubBalance amount o s.

Definition SetNonce (a : address) (nonce : Z) (s : StateDB) : StateDB :=
  let '(o, s) := getOrNewStateObject a s in so_SetNonce nonce o s.

Definition SetCode (a : address) (code : option bytes) (s : StateDB) : StateDB :=
  let '(o, s) := getOrNewStateObject a s in
  so_SetCode (keccak (default [] code)) code o s.

Definition SetState (a : address) (key value : hash) (s : StateDB) : StateDB :=
  let '(o, s) := getOrNewStateObject a s in so_SetState key value o s.

Definition Suicide (a : address) (s : StateDB) : bool * StateDB :=
  let '(o, s) := getStateObject a s in
  match o with
  | None => (false, s)
  | Some o =>
      let s := append_entry (suicideChange a (so_suicided o) (av_Balance (so_account o))) s in
      (true, setStateObject (setBalance 0 (markSuicided o)) s)
  end.

Definition AddAddressToAccessList (a : address) (s : StateDB) : StateDB :=
  let '(added, al) := AddAddress (accessList_ s) a in
  let s := set_accessList al s in
  if added then append_entry (accessListAddAccountChange a) s else s.

Definition AddSlotToAccessList (a : address) (slot : hash) (s : StateDB) : res StateDB :=
  let? '(addrMod, slotMod, al) := AddSlot (accessList_ s) a slot in
  let s := set_accessList al s in
  let s := if (addrMod : bool) then append_entry (accessListAddAccountChange a) s else s in
  Ok (if (slotMod : bool) then append_entry (accessListAddSlotChange a slot) s else s).

Fixpoint AddSlotsToAccessList (a : address) (keys : list hash) (s : StateDB) : res StateDB :=
  match keys with
  | [] => Ok s
  | key :: keys => let? s := AddSlotToAccessList a key s in AddSlotsToAccessList a keys s
  end.

Fixpoint AddAccessTuples (l : list (address * list hash)) (s : StateDB) : res StateDB :=
  match l with
  | [] => Ok s
  | (a, keys) :: l =>
      let? s := AddSlotsToAccessList a keys (AddAddressToAccessList a s) in
      AddAccessTuples l s
  end.

Definition PrepareAccessList (sender : address) (dst : option address)
    (precompiles : list address) (l : list (address * list hash)) (s : StateDB) : res StateDB :=
  let s := AddAddressToAccessList sender s in
  let s := match dst with Some d => AddAddressToAccessList d s | None => s end in
  let s := fold_left (fun s a => AddAddressToAccessList a s) precompiles s in
  AddAccessTuples l s.

Definition AddressInAccessList (a : address) (s : StateDB) : bool :=
  ContainsAddress (accessList_ s) a.

Definition SlotInAccessList (a : address) (slot : hash) (s : StateDB) : res (bool * bool) :=
  Contains (accessList_ s) a slot.

(** ** Cached context of the precompiles *)

(** [cache] *)
Definition cache (s : StateDB) : res StateDB :=
  if ctx_hasMultiStore s then
    Ok (set_cache (Some (mkCacheContext (ms_CacheMultiStore (ctx_store s)) []))
                  (Some writeCacheContext) s)
  else Err ErrNoMultiStore.

Definition ensure_cache (s : StateDB) : res StateDB :=
  match writeCache s with
  | None => cache s
  | Some _ => Ok s
  end.

Definition GetCacheContext (s : StateDB) : res (cacheContext * StateDB) :=
  let? s := ensure_cache s in
  match cacheCtx s with
  | Some cc => Ok (cc, s)
  | None => Panic PanicNil
  end.

(** When [cache] fails, [s.ctx.MultiStore()] is nil and the fallback
    dereferences it. *)
Definition MultiStoreSnapshot (s : StateDB) : res (store * StateDB) :=
  match ensure_cache s with
  | Ok s => match cacheCtx s with
            | Some cc => Ok (cc_multiStore cc, s)
            | None => Panic PanicNil
            end
  | Err _ => Panic PanicNil
  | Panic e => Panic e
  end.

Definition MaxPrecompileCalls : Z := 7.

(** The journal entry and the counter remain when the limit is exceeded. *)
Definition AddPrecompileFn (a : address) (cms : store) (events : list event) (s : StateDB)
    : StateDB * res unit :=
  let '(_, s) := getOrNewStateObject a s in
  let s := append_entry (precompileCallChange cms events) s in
  let s := set_counter (wrap8 (precompileCallsCounter s + 1)) s in
  (s, if MaxPrecompileCalls <? precompileCallsCounter s then Err ErrMaxPrecompileCalls else Ok ()).

(** ** Snapshots *)

Definition Snapshot (s : StateDB) : Z * StateDB :=
  let id := nextRevisionID s in
  (id, set_revisions
         (validRevisions s ++ [mkRevision id (journal_length (sdb_journal s))]) (id + 1) s).

(** [s.getStateObject(a)] followed by a mutation through the pointer *)
Definition update_object (a : address) (f : stateObject -> stateObject) (s : StateDB)
    : res StateDB :=
  let '(o, s) := getStateObject a s in
  match o with
  | None => Panic PanicNil
  | Some o => Ok (setStateObject (f o) s)
  end.

(** [JournalEntry.Revert] *)
Definition revert_entry (e : JournalEntry) (s : StateDB) : res StateDB :=
  match e with
  | createObjectChange a => Ok (set_objects (delete a (stateObjects s)) s)
  | resetObjectChange prev => Ok (setStateObject prev s)
  | suicideChange a prev prevbalance =>
      let '(o, s) := getStateObject a s in
      match o with
      | None => Ok s
      | Some o => Ok (setStateObject (setBalance prevbalance (set_suicided prev o)) s)
      end
  | balanceChange a prev => update_object a (setBalance prev) s
  | nonceChange a prev => update_object a (setNonce prev) s
  | storageChange a key prevalue => update_object a (setState key prevalue) s
  | codeChange a prevcode prevhash => update_object a (setCode prevhash prevcode) s
  | refundChange prev => Ok (set_refund prev s)
  | addLogChange =>
      match logs s with
      | [] => Panic PanicSlice
      | l => Ok (set_logs (take (length l - 1) l) s)
      end
  | accessListAddAccountChange a => Ok (set_accessList (DeleteAddress (accessList_ s) a) s)
  | accessListAddSlotChange a slot =>
      let? al := DeleteSlot (accessList_ s) a slot in Ok (set_accessList al s)
  | precompileCallChange ms events =>
      let evs := match cacheCtx s with Some cc => cc_events cc | None => [] end in
      Ok (set_cache (Some (mkCacheContext ms evs)) (Some (writeReverted events)) s)
  end.

(** The loop of [journal.Revert], over the entries to undo, last first. *)
Fixpoint revert_entries (es : list JournalEntry) (s : StateDB) : res StateDB :=
  match es with
  | [] => Ok s
  | e :: es =>
      let? s := revert_entry e s in
      let j := sdb_journal s in
      revert_entries es (set_journal (mkJournal (j_entries j) (decr_dirty e (j_dirties j))) s)
  end.

Definition journal_Revert (snapshot : nat) (s : StateDB) : res StateDB :=
  let? s := revert_entries (reverse (drop snapshot (j_entries (sdb_journal s)))) s in
  let j := sdb_journal s in
  if (snapshot <=? length (j_entries j))%nat then
    Ok (set_journal (mkJournal (take snapshot (j_entries j)) (j_dirties j)) s)
  else Panic PanicSlice.

(** the index [sort.Search] finds for a revision id *)
Definition find_revision (revid : Z) (rs : list revision) : nat :=
  sort_Search (length rs) (fun i =>
    match rs !! i with Some r => revid <=? rev_id r | None => true end).

Definition RevertToSnapshot (revid : Z) (s : StateDB) : res StateDB :=
  let idx := find_revision revid (validRevisions s) in
  match validRevisions s !! idx with
  | None => Panic PanicRevision
  | Some r =>
      if rev_id r =? revid then
        let? s := journal_Revert (rev_journalIndex r) s in
        Ok (set_revisions (take idx (validRevisions s)) (nextRevisionID s) s)
      else Panic PanicRevision
  end.

(** ** Commit *)

Fixpoint commit_storage (a : address) (m : gmap hash hash) (keys : list hash) (st : store)
    : store :=
  match keys with
  | [] => st
  | key :: keys =>
      let valueBytes := be_bytes 32 (default 0 (m !! key)) in
      let st := match valueBytes with
                | [] => k_DeleteState st a key
                | _ => k_SetState st a key valueBytes
                end in
      commit_storage a m keys st
  end.

(** the loop body of [commitWithCtx] for a live object *)
Definition commit_object (o : stateObject) (st : store) : store * res unit :=
  if so_suicided o then k_DeleteAccount st (so_address o)
  else
    let st := match so_code o with
              | Some code =>
                  if so_dirtyCode o then
                    match code with
                    | [] => k_DeleteCode st (av_CodeHash (so_account o))
                    | _ => k_SetCode st (av_CodeHash (so_account o)) code
                    end
                  else st
              | None => st
              end in
    let '(st, r) := k_SetAccount st (so_address o) (to_Account (so_account o)) in
    match r with
    | Ok _ =>
        (commit_storage (so_address o) (so_dirtyStorage o) (SortedKeys (so_dirtyStorage o)) st,
         Ok ())
    | _ => (st, r)
    end.

Fixpoint commit_dirties (objs : gmap address stateObject) (addrs : list address) (st : store)
    : store * res unit :=
  match addrs with
  | [] => (st, Ok ())
  | a :: addrs =>
      match objs !! a with
      | None => (st, Panic PanicNil)
      | Some o =>
          let '(st, r) := commit_object o st in
          match r with
          | Ok _ => commit_dirties objs addrs st
          | _ => (st, r)
          end
      end
  end.

Definition commitWithCtx (s : StateDB) (st : store) : store * res unit :=
  commit_dirties (stateObjects s) (sortedDirties (sdb_journal s)) st.

(** the call [s.writeCache()] *)
Definition run_writeCache (w : writeCacheFn) (s : StateDB) : StateDB :=
  match cacheCtx s with
  | None => s
  | Some cc =>
      let evs := match w with writeCacheContext => cc_events cc | writeReverted e => e end in
      set_ctx (ms_Write (cc_multiStore cc) (ctx_store s)) (ctx_events s ++ evs) s
  end.

Definition Commit (s : StateDB) : StateDB * res unit :=
  let s := match writeCache s with Some w => run_writeCache w s | None => s end in
  let '(st, r) := commitWithCtx s (ctx_store s) in
  (set_ctx st (ctx_events s) s, r).

Definition CommitWithCacheCtx (s : StateDB) : StateDB * res unit :=
  match cacheCtx s with
  | None => (s, Panic PanicNil)
  | Some cc =>
      let '(st, r) := commitWithCtx s (cc_multiStore cc) in
      (set_cache (Some (mkCacheContext st (cc_events cc))) (writeCache s) s, r)
  end.
End StateDB.
