(* ===== verification/Precompile.v ===== *)
(** * Running a native precompile ([precompiles/common/precompile.go])

    [RunSetup], the native action of a precompile on the cached context, and
    [AddJournalEntries], composed as every precompile's [Run] composes them
    ([precompiles/bank/bank.go], [precompiles/erc20/erc20.go], ...). The action
    itself (the Cosmos keeper calls, the gas check included) is a parameter. *)

From stdpp Require Import base gmap list numbers strings.
From Stdlib Require Import ZArith Lia.
From S2P Require Import Prelude SdkMath Scaling AccessList StateDB.

Inductive Operation := Sub | Add.

Record balanceChangeEntry := mkBalanceChangeEntry {
  bce_Account : address;
  bce_Amount : Z;
  bce_Op : Operation
}.

(** ** The method of a call *)

Definition ErrWriteProtection : error := "write protection".
Definition ErrExecutionReverted : error := "execution reverted".

Inductive FunctionType := Function | Fallback | Receive.
Record Method := mkMethod { meth_Name : string; meth_Type : FunctionType }.

(** the parsed ABI of a precompile, and the decoder of the arguments of a method *)
Record ABI (arg : Type) := mkABI {
  HasReceive : bool;
  HasFallback : bool;
  MethodById : bytes -> res Method;
  Unpack : Method -> bytes -> res (list arg)
}.
Arguments HasReceive {arg}.
Arguments HasFallback {arg}.
Arguments MethodById {arg}.
Arguments Unpack {arg}.

Section CallData.
Context {arg : Type}.
Implicit Types abi : ABI arg.

Definition fallback : Method := mkMethod "" Fallback.
Definition receive : Method := mkMethod "" Receive.

Definition emptyCallData abi (value : Z) : res Method :=
  if (0 <? value) && HasReceive abi then Ok receive
  else if HasFallback abi then Ok fallback
  else Err ErrExecutionReverted.

Definition methodIDCallData abi : res Method :=
  if negb (HasFallback abi) then Err ErrExecutionReverted else Ok fallback.

Definition standardCallData abi (input : bytes) : res Method :=
  match MethodById abi (take 4 input) with
  | Ok method => Ok method
  | Err e => if HasFallback abi then Ok fallback else Err e
  | Panic e => Panic e
  end.

(** the part of [RunSetup] after the commit to the cached context: the method of
    the call data, the protection of read-only calls and the arguments *)
Definition setup_call abi (isTransaction : Method -> bool) (readOnly : bool) (value : Z) (input : bytes)
    : res (Method * list arg) :=
  let? method :=
    match length input with
    | O => emptyCallData abi value
    | 1%nat | 2%nat | 3%nat => methodIDCallData abi
    | _ => standardCallData abi input
    end in
  if readOnly && isTransaction method then Err ErrWriteProtection
  else match meth_Type method with
       | Function => let? args := Unpack abi method (drop 4 input) in Ok (method, args)
       | _ => Ok (method, [])
       end.
End CallData.

(** A read-only call gets to no transaction. *)
Lemma setup_call_read_only {arg} (abi : ABI arg) isTx value input m args :
  setup_call abi isTx true value input = Ok (m, args) -> isTx m = false.
Proof.
  unfold setup_call. intros E. apply bind_Ok_inv in E as (m' & _ & E). cbn [andb] in E.
  destruct (isTx m') eqn:Et; [done|]. destruct (meth_Type m'); [|by injection E as <- <-..].
  apply bind_Ok_inv in E as (args' & _ & [= <- <-]). done.
Qed.

Section Precompile.
Context {store event : Type} `{!Keeper store} `{!MultiStore store} `{!EvmEnv}.
Abbreviation SDB := (@StateDB store event).

Record snapshot := mkSnapshot { sn_MultiStore : store; sn_Events : list event }.

Record GasConfig := mkGasConfig {
  ReadCostFlat : Z; ReadCostPerByte : Z; WriteCostFlat : Z; WriteCostPerByte : Z
}.

(** [input[4:]] panics on a shorter input. *)
Definition RequiredGas (gc : GasConfig) (input : bytes) (isTransaction : bool) : res Z :=
  if (length input <? 4)%nat then Panic PanicSlice
  else
    let n := Z.of_nat (length (drop 4 input)) in
    Ok (if isTransaction
        then wrap64 (WriteCostFlat gc + wrap64 (WriteCostPerByte gc * n))
        else wrap64 (ReadCostFlat gc + wrap64 (ReadCostPerByte gc * n))).

(** the state part of [RunSetup]: the cached context is created, its
    contents are copied, and the journalled changes are committed to it *)
Definition RunSetup (s : SDB) : SDB * res snapshot :=
  match GetCacheContext s with
  | Err e => (s, Err e)
  | Panic e => (s, Panic e)
  | Ok (cc, s) =>
      match MultiStoreSnapshot s with
      | Err e => (s, Err e)
      | Panic e => (s, Panic e)
      | Ok (ms, s) =>
          let sn := mkSnapshot ms (cc_events cc) in
          let '(s, r) := CommitWithCacheCtx s in
          (s, let? _ := r in Ok sn)
      end
  end.

Fixpoint AddBalanceEntries (es : list balanceChangeEntry) (s : SDB) : SDB :=
  match es with
  | [] => s
  | e :: es =>
      AddBalanceEntries es
        match bce_Op e with
        | Sub => SubBalance (bce_Account e) (bce_Amount e) s
        | Add => AddBalance (bce_Account e) (bce_Amount e) s
        end
  end.

(** The first panic of the keeper among the loads of these accounts; a load does
    not change what another one finds in the store. *)
Definition first_panic (l : list address) (s : SDB) : option error :=
  head (omap (fun a => load_panics a s) l).

(** The accounts of the entries are loaded in turn, then the precompile's. *)
Definition AddJournalEntries (a : address) (es : list balanceChangeEntry) (sn : snapshot)
    (s : SDB) : SDB * res unit :=
  match first_panic (map bce_Account es ++ [a]) s with
  | Some e => (s, Panic e)
  | None => AddPrecompileFn a (sn_MultiStore sn) (sn_Events sn) (AddBalanceEntries es s)
  end.

(** A native action reads and writes the cached context, emits events, and
    answers the balance changes to journal, or an error. *)
Definition nativeAction : Type :=
  store -> list event -> store * list event * res (list balanceChangeEntry).

Definition Run (a : address) (act : nativeAction) (s : SDB) : SDB * res unit :=
  let '(s, r) := RunSetup s in
  match r, cacheCtx s with
  | Ok sn, Some cc =>
      let '(st, evs, r) := act (cc_multiStore cc) (cc_events cc) in
      let s := set_cache (Some (mkCacheContext st evs)) (writeCache s) s in
      match r with
      | Ok es => AddJournalEntries a es sn s
      | Err e => (s, Err e)
      | Panic e => (s, Panic e)
      end
  | Ok _, None => (s, Panic PanicNil)
  | Err e, _ => (s, Err e)
  | Panic e, _ => (s, Panic e)
  end.
End Precompile.
