(* ===== verification/StateDBRevert.v ===== *)
(** * Reverting to a snapshot restores the state ([x/vm/statedb])

    Reads fill caches, and undoing a change writes the old value back instead
    of forgetting the slot, so a revert does not restore the [StateDB] value
    itself. What it restores is what the EVM can observe: [sdb_le s s'] says
    that every read of [s'] answers as in [s] (and that [s'] has at least the
    live objects of [s]). Every mutator is a sequence of [step]s, each of which
    appends at most one journal entry whose [Revert] leads back; [undoable]
    says the whole journal can be unwound. *)

From stdpp Require Import base gmap list numbers strings sorting relations.
From Stdlib Require Import ZArith Lia.
From S2P Require Import Prelude SdkMath Scaling AccessList StateDB Precompile.

Section Revert.
Context {store event : Type} `{!Keeper store} `{!MultiStore store} `{!EvmEnv}.
Abbreviation SDB := (@StateDB store event).
Abbreviation entry := (@JournalEntry store event).
Implicit Types (s : SDB) (o : stateObject) (a : address) (e : entry).

(** ** Observations *)

Definition lookup_obj s a : option stateObject :=
  match stateObjects s !! a with
  | Some o => Some o
  | None => newObject a <$> k_GetAccount (ctx_store s) a
  end.

Definition code_of (st : store) o : option bytes := (so_Code st o).1.
Definition committed_of (st : store) o (k : hash) : hash := (so_GetCommittedState st k o).1.
Definition state_of (st : store) o (k : hash) : hash := (so_GetState st k o).1.

(** Two objects that answer every read alike. *)
Record obj_eqv (st : store) (o1 o2 : stateObject) : Prop := {
  oe_address : so_address o1 = so_address o2;
  oe_account : so_account o1 = so_account o2;
  oe_code : code_of st o1 = code_of st o2;
  oe_suicided : so_suicided o1 = so_suicided o2;
  oe_state : forall k, state_of st o1 k = state_of st o2 k;
  oe_committed : forall k, committed_of st o1 k = committed_of st o2 k
}.

#[global] Instance obj_eqv_equiv st : Equivalence (obj_eqv st).
Proof.
  split.
  - intros o. by split.
  - intros o1 o2 []. split; intros; symmetry; auto.
  - intros o1 o2 o3 [] []. split; intros; etransitivity; eauto.
Qed.

(** the store a precompile call would read *)
Definition cache_view s : store :=
  match cacheCtx s with
  | Some cc => cc_multiStore cc
  | None => ms_CacheMultiStore (ctx_store s)
  end.

Definition live s a : Prop := is_Some (stateObjects s !! a).

Record sdb_le s1 s2 : Prop := {
  sl_store : ctx_store s1 = ctx_store s2;
  sl_hasMS : ctx_hasMultiStore s1 = ctx_hasMultiStore s2;
  sl_cache : cache_view s1 = cache_view s2;
  sl_txConfig : txConfig s1 = txConfig s2;
  sl_refund : refund s1 = refund s2;
  sl_logs : logs s1 = logs s2;
  sl_al : accessList_ s1 = accessList_ s2;
  sl_objs : forall a, option_Forall2 (obj_eqv (ctx_store s1)) (lookup_obj s1 a) (lookup_obj s2 a);
  sl_live : forall a, live s1 a -> live s2 a
}.

#[global] Instance sdb_le_preorder : PreOrder sdb_le.
Proof.
  split.
  - intros s. by split.
  - intros s1 s2 s3 [] []. split; try congruence; auto.
    intros a. etransitivity; [eauto|]. rewrite sl_store0. auto.
Qed.

(** ** Objects *)

(** The five raw setters of a state object respect [obj_eqv]. *)
Ltac solve_eqv :=
  intros [Ha Hac Hc Hs Hst Hco]; split; cbn;
  [ congruence | congruence
  | unfold code_of, so_Code in *; cbn; try rewrite <-Hac in *; repeat case_match; cbn in *; congruence
  | congruence
  | intros k'; specialize (Hst k'); specialize (Hco k');
    unfold state_of, committed_of, so_GetState, so_GetCommittedState in *; cbn in *;
    rewrite ?lookup_insert; repeat case_match; cbn in *; congruence
  | intros k'; specialize (Hco k'); unfold committed_of, so_GetCommittedState in *; cbn in *;
    repeat case_match; cbn in *; congruence ].

Lemma setBalance_eqv st v o1 o2 :
  obj_eqv st o1 o2 -> obj_eqv st (setBalance v o1) (setBalance v o2).
Proof. solve_eqv. Qed.

Lemma setNonce_eqv st v o1 o2 :
  obj_eqv st o1 o2 -> obj_eqv st (setNonce v o1) (setNonce v o2).
Proof. solve_eqv. Qed.

Lemma set_suicided_eqv st b o1 o2 :
  obj_eqv st o1 o2 -> obj_eqv st (set_suicided b o1) (set_suicided b o2).
Proof. solve_eqv. Qed.

Lemma setCode_eqv st h c o1 o2 :
  obj_eqv st o1 o2 -> obj_eqv st (setCode h c o1) (setCode h c o2).
Proof. solve_eqv. Qed.

Lemma setState_eqv st k v o1 o2 :
  obj_eqv st o1 o2 -> obj_eqv st (setState k v o1) (setState k v o2).
Proof. solve_eqv. Qed.

(** Loading the code or a slot changes no answer. *)
Lemma so_Code_eqv st o : obj_eqv st o (so_Code st o).2.
Proof.
  unfold so_Code. destruct (so_code o) eqn:Hc; [done|].
  destruct (IsEmptyCodeHash _) eqn:He; [done|].
  split; cbn; try done.
  - unfold code_of, so_Code; cbn. rewrite Hc, He. cbn. by destruct (k_GetCode _ _).
  - intros k. unfold state_of, so_GetState, so_GetCommittedState; cbn. by repeat case_match.
  - intros k. unfold committed_of, so_GetCommittedState; cbn. by repeat case_match.
Qed.

Lemma so_GetCommittedState_eqv st k o : obj_eqv st o (so_GetCommittedState st k o).2.
Proof.
  unfold so_GetCommittedState. destruct (so_originStorage o !! k) eqn:Hk; [done|].
  assert (Hc : forall k', committed_of st o k' =
    committed_of st (mkStateObject (so_address o) (so_account o) (so_code o)
      (<[k := k_GetState st (so_address o) k]> (so_originStorage o)) (so_dirtyStorage o)
      (so_dirtyCode o) (so_suicided o)) k').
  { intros k'. unfold committed_of, so_GetCommittedState; cbn. rewrite lookup_insert.
    case_decide as E; [subst; by rewrite Hk|by repeat case_match]. }
  split; try done.
  - unfold code_of, so_Code; cbn. by repeat case_match.
  - intros k'. unfold state_of, so_GetState; cbn. case_match; [done|apply Hc].
Qed.

Lemma so_GetState_eqv st k o : obj_eqv st o (so_GetState st k o).2.
Proof.
  unfold so_GetState. destruct (so_dirtyStorage o !! k); [done|].
  apply so_GetCommittedState_eqv.
Qed.

(** ** Lookups *)

Definition addr_ok s : Prop := forall a o, stateObjects s !! a = Some o -> so_address o = a.

Lemma lookup_setStateObject o s a :
  lookup_obj (setStateObject o s) a =
    if decide (so_address o = a) then Some o else lookup_obj s a.
Proof.
  unfold lookup_obj, setStateObject; cbn. rewrite lookup_insert. by case_decide.
Qed.

Lemma lookup_obj_address s a o : addr_ok s -> lookup_obj s a = Some o -> so_address o = a.
Proof.
  unfold lookup_obj. intros Hok. case_match; intros; simplify_eq; [by apply Hok|].
  destruct (k_GetAccount _ a); simplify_eq/=; done.
Qed.

Lemma getStateObject_lookup a s : (getStateObject a s).1 = lookup_obj s a.
Proof.
  unfold getStateObject, lookup_obj. case_match; [done|]. by destruct (k_GetAccount _ a).
Qed.

(** The state after a load: the same, or with the loaded object live. *)
Lemma getStateObject_state a s :
  (getStateObject a s).2 = s \/
  exists acct, stateObjects s !! a = None /\ k_GetAccount (ctx_store s) a = Some acct /\
    (getStateObject a s).2 = setStateObject (newObject a acct) s.
Proof.
  unfold getStateObject. case_match eqn:E; [by left|].
  destruct (k_GetAccount _ a) eqn:E2; [right|by left]. eauto.
Qed.

Lemma getStateObject_le a s : sdb_le s (getStateObject a s).2.
Proof.
  destruct (getStateObject_state a s) as [->|(acct & Hn & Hk & ->)]; [done|].
  split; try done.
  - intros b. rewrite lookup_setStateObject; cbn.
    case_decide as E; [subst b|done]. unfold lookup_obj. by rewrite Hn, Hk.
  - intros b. unfold live; cbn. rewrite lookup_insert. case_decide; eauto.
Qed.

Lemma getStateObject_ge a s b :
  option_Forall2 (obj_eqv (ctx_store s))
    (lookup_obj (getStateObject a s).2 b) (lookup_obj s b).
Proof. symmetry. apply getStateObject_le. Qed.

Lemma getStateObject_live a s : is_Some (lookup_obj s a) -> live (getStateObject a s).2 a.
Proof.
  unfold lookup_obj, getStateObject, live. destruct (stateObjects s !! a) eqn:E; cbn; [eauto|].
  destruct (k_GetAccount _ a); cbn; [|intros [? [=]]]. rewrite lookup_insert_eq. eauto.
Qed.

Lemma getStateObject_cases a s (o : option stateObject) s1 :
  getStateObject a s = (o, s1) ->
  o = lookup_obj s a /\ sdb_le s s1 /\ sdb_journal s1 = sdb_journal s /\
  validRevisions s1 = validRevisions s /\ nextRevisionID s1 = nextRevisionID s /\
  writeCache s1 = writeCache s /\ cacheCtx s1 = cacheCtx s /\ ctx_store s1 = ctx_store s /\
  stateObjects s1 !! a = o.
Proof.
  intros E. pose proof (getStateObject_lookup a s) as H1.
  pose proof (getStateObject_le a s) as H2. rewrite E in H1, H2. cbn in *.
  assert (stateObjects s1 !! a = o).
  { revert E. unfold getStateObject. repeat case_match; intros [= <- <-]; cbn;
      by rewrite ?lookup_insert_eq. }
  destruct (getStateObject_state a s) as [H3|(? & _ & _ & H3)]; rewrite E in H3; cbn in H3;
    subst s1; done.
Qed.

(** ** Undoing one entry respects observations *)

Lemma setStateObject_le o1 o2 s1 s2 :
  sdb_le s1 s2 -> obj_eqv (ctx_store s1) o1 o2 ->
  sdb_le (setStateObject o1 s1) (setStateObject o2 s2).
Proof.
  intros [] Ho. split; try done.
  - intros a. cbn. rewrite !lookup_setStateObject, (oe_address _ _ _ Ho).
    case_decide; [by constructor|auto].
  - intros a. unfold live in *; cbn. rewrite !lookup_insert, (oe_address _ _ _ Ho).
    case_decide; eauto.
Qed.

Lemma getStateObject_mono a s1 s2 :
  sdb_le s1 s2 -> sdb_le (getStateObject a s1).2 (getStateObject a s2).2.
Proof.
  intros Hle.
  pose proof (getStateObject_le a s1) as H1. pose proof (getStateObject_le a s2) as H2.
  assert (Hst : ctx_store (getStateObject a s1).2 = ctx_store s1) by (symmetry; apply H1).
  pose proof (sl_objs _ _ Hle a) as Ho.
  split; try (etransitivity; [symmetry; apply H1|]; etransitivity; [apply Hle|]; apply H2).
  - intros b. rewrite Hst. etransitivity; [symmetry; apply H1|].
    etransitivity; [apply Hle|]. rewrite (sl_store _ _ Hle). apply H2.
  - intros b Hb. destruct (getStateObject_state a s1) as [E|(acct & Hn & Hk & E)];
      rewrite E in Hb; [by apply H2, Hle|].
    unfold live in Hb. cbn in Hb. rewrite lookup_insert in Hb. case_decide as Eb.
    + subst b. apply getStateObject_live. unfold lookup_obj in Ho at 1.
      rewrite Hn, Hk in Ho. cbn in Ho. inversion Ho. eauto.
    + by apply H2, Hle.
Qed.

Lemma update_object_mono a f s1 s2 s1' :
  (forall st o1 o2, obj_eqv st o1 o2 -> obj_eqv st (f o1) (f o2)) ->
  sdb_le s1 s2 -> update_object a f s1 = Ok s1' ->
  exists s2', update_object a f s2 = Ok s2' /\ sdb_le s1' s2'.
Proof.
  intros Hf Hle. unfold update_object.
  pose proof (getStateObject_mono a s1 s2 Hle) as Ht.
  pose proof (sl_objs _ _ Hle a) as Ho.
  rewrite <-!getStateObject_lookup in Ho.
  pose proof (sl_store _ _ (getStateObject_le a s1)) as Hst.
  destruct (getStateObject a s1) as [o1 t1], (getStateObject a s2) as [o2 t2]; cbn in *.
  destruct Ho as [o1 o2 Ho|]; [|done]. intros [= <-].
  eexists; split; [done|]. apply setStateObject_le; [done|]. rewrite <-Hst. auto.
Qed.

Lemma revert_entry_mono e s1 s2 s1' :
  sdb_le s1 s2 -> revert_entry e s1 = Ok s1' ->
  exists s2', revert_entry e s2 = Ok s2' /\ sdb_le s1' s2'.
Proof.
  intros Hle. destruct e; cbn.
  - intros [= <-]. eexists; split; [done|]. destruct Hle. split; try done.
    + intros b. cbn. unfold lookup_obj in *; cbn. rewrite !lookup_delete, <-sl_store0.
      case_decide; [done|]. specialize (sl_objs0 b). by rewrite <-sl_store0 in sl_objs0.
    + intros b. unfold live in *; cbn. rewrite !lookup_delete. case_decide; auto.
  - intros [= <-]. eexists; split; [done|]. by apply setStateObject_le.
  - pose proof (getStateObject_mono account s1 s2 Hle) as Ht.
    pose proof (sl_objs _ _ Hle account) as Ho. rewrite <-!getStateObject_lookup in Ho.
    pose proof (sl_store _ _ (getStateObject_le account s1)) as Hst.
    destruct (getStateObject account s1) as [o1 t1], (getStateObject account s2) as [o2 t2];
      cbn in *.
    destruct Ho as [o1 o2 Ho|]; intros [= <-]; eexists; (split; [done|]); [|done].
    apply setStateObject_le; [done|]. rewrite <-Hst. by apply setBalance_eqv, set_suicided_eqv.
  - apply update_object_mono; auto using setBalance_eqv.
  - apply update_object_mono; auto using setNonce_eqv.
  - apply update_object_mono; auto using setState_eqv.
  - apply update_object_mono; auto using setCode_eqv.
  - intros [= <-]. eexists; split; [done|]. by destruct Hle.
  - rewrite <-(sl_logs _ _ Hle). destruct (logs s1) eqn:E; [done|].
    intros [= <-]. eexists; split; [done|]. by destruct Hle.
  - intros [= <-]. eexists; split; [done|]. rewrite <-(sl_al _ _ Hle). by destruct Hle.
  - rewrite <-(sl_al _ _ Hle). destruct (DeleteSlot _ _ _); [|done..].
    intros [= <-]. eexists; split; [done|]. by destruct Hle.
  - intros [= <-]. eexists; split; [done|]. by destruct Hle.
Qed.

(** ** Steps: at most one journal entry each, whose [Revert] leads back *)

Definition cache_ok s : Prop := is_Some (writeCache s) <-> is_Some (cacheCtx s).

Record wf s : Prop := {
  wf_al : al_ok (accessList_ s);
  wf_addr : addr_ok s;
  wf_cache : cache_ok s
}.

Definition same_revs s s' : Prop :=
  validRevisions s' = validRevisions s /\ nextRevisionID s' = nextRevisionID s.

Inductive step s : SDB -> Prop :=
| step_silent s' :
    sdb_journal s' = sdb_journal s -> same_revs s s' -> cache_ok s' -> sdb_le s s' -> step s s'
| step_entry e s' s'' :
    sdb_journal s' = journal_append e (sdb_journal s) -> same_revs s s' ->
    revert_entry e s' = Ok s'' -> sdb_le s s'' -> wf s' ->
    (forall a, live s a -> live s' a) -> (forall a, Dirtied e = Some a -> live s' a) ->
    step s s'.

Lemma addr_ok_le s1 s2 : sdb_le s1 s2 -> addr_ok s1 -> addr_ok s2.
Proof.
  intros Hle H1 a o Ho. pose proof (sl_objs _ _ Hle a) as Hf.
  unfold lookup_obj at 2 in Hf. rewrite Ho in Hf. inversion Hf as [o1 ? Heq E|]; subst.
  symmetry in E. apply lookup_obj_address in E; [|done]. rewrite <-E.
  symmetry. apply (oe_address _ _ _ Heq).
Qed.

Lemma wf_le s1 s2 : sdb_le s1 s2 -> cache_ok s2 -> wf s1 -> wf s2.
Proof.
  intros Hle Hc []. split; [|by eapply addr_ok_le|done]. by rewrite <-(sl_al _ _ Hle).
Qed.

Lemma step_wf s s' : wf s -> step s s' -> wf s'.
Proof. intros Hwf []; [by eapply wf_le|done]. Qed.

Lemma steps_wf s s' : wf s -> rtc step s s' -> wf s'.
Proof. intros Hwf Hs. induction Hs; eauto using step_wf. Qed.

(** The journal of a state is not an observation. *)
Lemma set_journal_le j s : sdb_le s (set_journal j s).
Proof. by split. Qed.

Lemma set_journal_ge j s : sdb_le (set_journal j s) s.
Proof. by split. Qed.

(** ** The mutators as steps *)

Lemma getStateObject_step a s (o : option stateObject) s1 :
  wf s -> getStateObject a s = (o, s1) -> step s s1.
Proof.
  intros Hwf E. apply getStateObject_cases in E as (_ & Hle & Hj & Hv & Hn & Hw & Hcc & _).
  apply step_silent; [done|done| |done]. unfold cache_ok. rewrite Hw, Hcc. apply Hwf.
Qed.

(** A journalled change of the live object at [a]. *)
Lemma step_update e a o o' (g : stateObject -> stateObject) s :
  wf s -> stateObjects s !! a = Some o -> so_address o' = a -> Dirtied e = Some a ->
  (forall s2, stateObjects s2 !! a = Some o' ->
     revert_entry e s2 = Ok (setStateObject (g o') s2)) ->
  obj_eqv (ctx_store s) o (g o') ->
  step s (setStateObject o' (append_entry e s)).
Proof.
  intros Hwf Ho Ha Hd Hr Heq.
  assert (Hadr : so_address (g o') = a).
  { rewrite <-(oe_address _ _ _ Heq). by apply (wf_addr _ Hwf). }
  eapply step_entry with (e := e); [done|done|apply Hr; cbn; by rewrite Ha, lookup_insert_eq| | | |].
  - split; try done.
    + intros b. rewrite lookup_setStateObject, lookup_setStateObject, Hadr, Ha.
      case_decide as E; [subst b|done]. unfold lookup_obj. rewrite Ho. by constructor.
    + intros b Hb. unfold live in *; cbn. rewrite !lookup_insert. repeat case_decide; eauto.
  - destruct Hwf. split; [done| |done]. intros b o1. cbn. rewrite lookup_insert.
    case_decide; [congruence|]. apply wf_addr0.
  - intros b Hb. unfold live in *; cbn. rewrite lookup_insert. case_decide; eauto.
  - intros b Hb. unfold live; cbn. rewrite lookup_insert. case_decide; [eauto|congruence].
Qed.

Lemma step_create a o' s :
  wf s -> lookup_obj s a = None -> so_address o' = a ->
  step s (setStateObject o' (append_entry (createObjectChange a) s)).
Proof.
  intros Hwf Hn Ha.
  assert (Hna : stateObjects s !! a = None).
  { unfold lookup_obj in Hn. by case_match. }
  eapply step_entry with (e := createObjectChange a); [done|done|done| | | |].
  - cbn. rewrite Ha, delete_insert_id by done. by split.
  - destruct Hwf. split; [done| |done]. intros b o1. cbn. rewrite lookup_insert.
    case_decide; [congruence|]. apply wf_addr0.
  - intros b Hb. unfold live in *; cbn. rewrite lookup_insert. case_decide; eauto.
  - intros b Hb. unfold live; cbn. rewrite lookup_insert. cbn in Hb.
    case_decide; [eauto|congruence].
Qed.

Lemma step_reset a p o' s :
  wf s -> stateObjects s !! a = Some p -> so_address o' = a ->
  step s (setStateObject o' (append_entry (resetObjectChange p) s)).
Proof.
  intros Hwf Hp Ha. pose proof (wf_addr _ Hwf a p Hp) as Hap.
  eapply step_entry with (e := resetObjectChange p); [done|done|done| | | |done].
  - split; try done.
    + intros b. rewrite !lookup_setStateObject, Hap.
      case_decide as E; [subst b|case_decide; [congruence|done]].
      unfold lookup_obj. by rewrite Hp.
    + intros b Hb. unfold live in *; cbn. rewrite !lookup_insert. repeat case_decide; eauto.
  - destruct Hwf. split; [done| |done]. intros b o1. cbn. rewrite lookup_insert.
    case_decide; [congruence|]. apply wf_addr0.
  - intros b Hb. unfold live in *; cbn. rewrite lookup_insert. case_decide; eauto.
Qed.

Lemma getOrNewStateObject_steps a s o s1 :
  wf s -> getOrNewStateObject a s = (o, s1) ->
  rtc step s s1 /\ wf s1 /\ stateObjects s1 !! a = Some o /\ so_address o = a /\
  ctx_store s1 = ctx_store s.
Proof.
  intros Hwf. unfold getOrNewStateObject, createObject.
  destruct (getStateObject a s) as [[o1|] t] eqn:E.
  - pose proof (getStateObject_step _ _ _ _ Hwf E) as Hs.
    apply getStateObject_cases in E as (_ & _ & _ & _ & _ & _ & _ & Hst & L). intros [= <- <-].
    pose proof (step_wf _ _ Hwf Hs) as Hwf1.
    split_and!; [by apply rtc_once|done|done|by apply (wf_addr _ Hwf1)|done].
  - pose proof (getStateObject_step _ _ _ _ Hwf E) as Hs.
    pose proof (step_wf _ _ Hwf Hs) as Hwf1.
    apply getStateObject_cases in E as (Hl & Hle & _ & _ & _ & _ & _ & Hst & L).
    assert (Hl1 : lookup_obj t a = None).
    { pose proof (sl_objs _ _ Hle a) as Hf. rewrite <-Hl in Hf. by inversion Hf. }
    assert (E2 : getStateObject a t = (None, t)).
    { unfold getStateObject. rewrite L. unfold lookup_obj in Hl1. rewrite L in Hl1.
      by destruct (k_GetAccount _ a). }
    rewrite E2. intros [= <- <-].
    pose proof (step_create a (newObject a (mkAccount 0 None None)) t Hwf1 Hl1 eq_refl) as Hs2.
    split_and!; [by eapply rtc_l, rtc_once|by eapply step_wf| |done|done].
    cbn. by rewrite lookup_insert_eq.
Qed.

(** [update_object] at a live address *)
Lemma update_object_live a f o s :
  stateObjects s !! a = Some o -> update_object a f s = Ok (setStateObject (f o) s).
Proof. intros Ho. unfold update_object, getStateObject. by rewrite Ho. Qed.

Lemma so_SetBalance_step v a o s :
  wf s -> stateObjects s !! a = Some o -> step s (so_SetBalance v o s).
Proof.
  intros Hwf Ho. pose proof (wf_addr _ Hwf a o Ho) as Ha. unfold so_SetBalance. rewrite Ha.
  eapply step_update with (g := setBalance (av_Balance (so_account o))); try done.
  - intros s2 H2. cbn. by apply update_object_live.
  - destruct o as [? []]. by split.
Qed.

Lemma so_SetNonce_step v a o s :
  wf s -> stateObjects s !! a = Some o -> step s (so_SetNonce v o s).
Proof.
  intros Hwf Ho. pose proof (wf_addr _ Hwf a o Ho) as Ha. unfold so_SetNonce. rewrite Ha.
  eapply step_update with (g := setNonce (av_Nonce (so_account o))); try done.
  - intros s2 H2. cbn. by apply update_object_live.
  - destruct o as [? []]. by split.
Qed.

(** Writing the loaded code back with its hash changes no answer. *)
Lemma setCode_back st o h c :
  let '(prevcode, o1) := so_Code st o in
  obj_eqv st o (setCode (av_CodeHash (so_account o1)) prevcode (setCode h c o1)).
Proof.
  destruct (so_Code st o) as [pc o1] eqn:E.
  assert (Heq : obj_eqv st o o1) by (pose proof (so_Code_eqv st o); by rewrite E in *).
  assert (Hpc : code_of st o = pc) by (unfold code_of; by rewrite E).
  etransitivity; [exact Heq|]. split; cbn; try done.
  - by destruct (so_account o1).
  - rewrite <-(oe_code _ _ _ Heq), Hpc. unfold code_of, so_Code; cbn.
    destruct pc; [done|]. rewrite <-(oe_account _ _ _ Heq).
    unfold code_of, so_Code in Hpc. destruct (so_code o); [done|].
    destruct (IsEmptyCodeHash _); [done|]. cbn in *. done.
  - intros k. unfold state_of, so_GetState, so_GetCommittedState; cbn. by repeat case_match.
  - intros k. unfold committed_of, so_GetCommittedState; cbn. by repeat case_match.
Qed.

Lemma so_SetCode_step h c a o s :
  wf s -> stateObjects s !! a = Some o -> step s (so_SetCode h c o s).
Proof.
  intros Hwf Ho. pose proof (wf_addr _ Hwf a o Ho) as Ha. unfold so_SetCode.
  pose proof (setCode_back (ctx_store s) o h c) as Hb.
  pose proof (so_Code_eqv (ctx_store s) o) as Hc.
  destruct (so_Code (ctx_store s) o) as [pc o1]; cbn in Hc.
  assert (Ha1 : so_address o1 = a) by (by rewrite <-(oe_address _ _ _ Hc)). rewrite Ha1.
  eapply step_update with (g := setCode (av_CodeHash (so_account o1)) pc); try done.
  intros s2 H2. cbn. by apply update_object_live.
Qed.

Lemma setState_back st o k v :
  let '(prev, o1) := so_GetState st k o in
  obj_eqv st o (setState k prev (setState k v o1)).
Proof.
  destruct (so_GetState st k o) as [pv o1] eqn:E.
  assert (Heq : obj_eqv st o o1) by (pose proof (so_GetState_eqv st k o); by rewrite E in *).
  assert (Hpv : state_of st o k = pv) by (unfold state_of; by rewrite E).
  etransitivity; [exact Heq|]. split; cbn; try done.
  - unfold code_of, so_Code; cbn. by repeat case_match.
  - intros k'. rewrite (oe_state _ _ _ Heq) in Hpv.
    unfold state_of, so_GetState, so_GetCommittedState in *; cbn in *. rewrite insert_insert_eq.
    destruct (decide (k = k')) as [<-|]; simplify_map_eq; [by repeat case_match|].
    by repeat case_match.
  - intros k'. unfold committed_of, so_GetCommittedState; cbn. by repeat case_match.
Qed.

(** Replacing a live object by one that answers alike is silent. *)
Lemma setStateObject_silent a o o1 s :
  wf s -> stateObjects s !! a = Some o -> obj_eqv (ctx_store s) o o1 ->
  step s (setStateObject o1 s).
Proof.
  intros Hwf Ho Heq. pose proof (wf_addr _ Hwf a o Ho) as Ha.
  pose proof (oe_address _ _ _ Heq) as Ha1.
  apply step_silent; [done|done|apply Hwf|]. split; try done.
  - intros b. rewrite lookup_setStateObject. case_decide as E; [|done].
    unfold lookup_obj. replace b with a by congruence. rewrite Ho. by constructor.
  - intros b Hb. unfold live in *; cbn. rewrite lookup_insert. case_decide; eauto.
Qed.

Lemma so_SetState_step k v a o s :
  wf s -> stateObjects s !! a = Some o -> step s (so_SetState k v o s).
Proof.
  intros Hwf Ho. pose proof (wf_addr _ Hwf a o Ho) as Ha. unfold so_SetState.
  pose proof (setState_back (ctx_store s) o k v) as Hb.
  pose proof (so_GetState_eqv (ctx_store s) k o) as Hc.
  destruct (so_GetState (ctx_store s) k o) as [pv o1]; cbn in Hc.
  assert (Ha1 : so_address o1 = a) by (by rewrite <-(oe_address _ _ _ Hc)).
  case_match; [by eapply setStateObject_silent|]. rewrite Ha1.
  eapply step_update with (g := setState k pv); try done.
  intros s2 H2. cbn. by apply update_object_live.
Qed.

(** A setter: fetch or create the object, then one step on it. *)
Lemma getOrNew_then a (F : stateObject -> SDB -> SDB) s :
  wf s ->
  (forall o s1, wf s1 -> stateObjects s1 !! a = Some o -> F o s1 = s1 \/ step s1 (F o s1)) ->
  rtc step s (let '(o, s1) := getOrNewStateObject a s in F o s1).
Proof.
  intros Hwf HF. destruct (getOrNewStateObject a s) as [o s1] eqn:E.
  apply getOrNewStateObject_steps in E as (Hs & Hwf1 & Ho & _); [|done].
  destruct (HF o s1 Hwf1 Ho) as [->|]; [done|]. by eapply rtc_r.
Qed.

Lemma AddBalance_steps a v s : wf s -> rtc step s (AddBalance a v s).
Proof.
  intros Hwf. apply (getOrNew_then a (so_AddBalance v) s Hwf). intros o s1 Hw Ho.
  unfold so_AddBalance. case_match; [by left|right]. by eapply so_SetBalance_step.
Qed.

Lemma SubBalance_steps a v s : wf s -> rtc step s (SubBalance a v s).
Proof.
  intros Hwf. apply (getOrNew_then a (so_SubBalance v) s Hwf). intros o s1 Hw Ho.
  unfold so_SubBalance. case_match; [by left|right]. by eapply so_SetBalance_step.
Qed.

Lemma SetNonce_steps a v s : wf s -> rtc step s (SetNonce a v s).
Proof.
  intros Hwf. apply (getOrNew_then a (so_SetNonce v) s Hwf).
  eauto using so_SetNonce_step.
Qed.

Lemma SetCode_steps a c s : wf s -> rtc step s (SetCode a c s).
Proof.
  intros Hwf. apply (getOrNew_then a (so_SetCode (keccak (default [] c)) c) s Hwf).
  eauto using so_SetCode_step.
Qed.

Lemma SetState_steps a k v s : wf s -> rtc step s (SetState a k v s).
Proof.
  intros Hwf. apply (getOrNew_then a (so_SetState k v) s Hwf).
  eauto using so_SetState_step.
Qed.

Lemma CreateAccount_steps a s : wf s -> rtc step s (CreateAccount a s).
Proof.
  intros Hwf. unfold CreateAccount, createObject.
  destruct (getStateObject a s) as [[p|] t] eqn:E;
    pose proof (getStateObject_step _ _ _ _ Hwf E) as Hs;
    pose proof (step_wf _ _ Hwf Hs) as Hwf1;
    apply getStateObject_cases in E as (Hl & Hle & _ & _ & _ & _ & _ & _ & L).
  - eapply rtc_l; [exact Hs|].
    set (o' := setBalance (av_Balance (so_account p)) (newObject a (mkAccount 0 None None))).
    pose proof (step_reset a p o' t Hwf1 L eq_refl) as Hr.
    eapply rtc_l; [exact Hr|]. apply reflexive_eq.
    unfold setStateObject, append_entry, set_objects, set_journal; cbn.
    by rewrite insert_insert_eq.
  - eapply rtc_l; [exact Hs|]. apply rtc_once. apply step_create; [done| |done].
    pose proof (sl_objs _ _ Hle a) as Hf. rewrite <-Hl in Hf. by inversion Hf.
Qed.

Lemma Suicide_steps a s : wf s -> rtc step s (Suicide a s).2.
Proof.
  intros Hwf. unfold Suicide. destruct (getStateObject a s) as [[o|] t] eqn:E;
    pose proof (getStateObject_step _ _ _ _ Hwf E) as Hs; [|by apply rtc_once].
  pose proof (step_wf _ _ Hwf Hs) as Hwf1.
  apply getStateObject_cases in E as (_ & _ & _ & _ & _ & _ & _ & _ & L).
  eapply rtc_l; [exact Hs|]. apply rtc_once. cbn.
  pose proof (wf_addr _ Hwf1 a o L) as Ha.
  eapply step_update with
    (g := fun x => setBalance (av_Balance (so_account o)) (set_suicided (so_suicided o) x)); try done.
  - intros s2 H2. cbn. unfold getStateObject. by rewrite H2.
  - destruct o as [? []]. by split.
Qed.

(** A read that loads a part of the object into its caches is silent. *)
Lemma load_steps {A} (f : store -> stateObject -> A * stateObject) a s :
  wf s -> (forall st o, obj_eqv st o (f st o).2) ->
  rtc step s (match getStateObject a s with
              | (Some o, s1) => setStateObject (f (ctx_store s1) o).2 s1
              | (None, s1) => s1
              end).
Proof.
  intros Hwf Hf. destruct (getStateObject a s) as [[o|] t] eqn:E;
    pose proof (getStateObject_step _ _ _ _ Hwf E) as Hs; [|by apply rtc_once].
  pose proof (step_wf _ _ Hwf Hs) as Hwf1.
  apply getStateObject_cases in E as (_ & _ & _ & _ & _ & _ & _ & _ & L).
  eapply rtc_l, rtc_once; [exact Hs|]. by eapply setStateObject_silent.
Qed.

Lemma GetState_steps a k s : wf s -> rtc step s (GetState a k s).2.
Proof.
  intros Hwf. pose proof (load_steps (fun st => so_GetState st k) a s Hwf) as Hl.
  unfold GetState. destruct (getStateObject a s) as [[o|] t]; cbn in *;
    [destruct (so_GetState (ctx_store t) k o) eqn:E|]; cbn in *; apply Hl;
    intros; apply so_GetState_eqv.
Qed.

Lemma GetCommittedState_steps a k s : wf s -> rtc step s (GetCommittedState a k s).2.
Proof.
  intros Hwf. pose proof (load_steps (fun st => so_GetCommittedState st k) a s Hwf) as Hl.
  unfold GetCommittedState. destruct (getStateObject a s) as [[o|] t]; cbn in *;
    [destruct (so_GetCommittedState (ctx_store t) k o) eqn:E|]; cbn in *; apply Hl;
    intros; apply so_GetCommittedState_eqv.
Qed.

Lemma GetCode_steps a s : wf s -> rtc step s (GetCode a s).2.
Proof.
  intros Hwf. pose proof (load_steps so_Code a s Hwf) as Hl.
  unfold GetCode. destruct (getStateObject a s) as [[o|] t]; cbn in *;
    [destruct (so_Code (ctx_store t) o) eqn:E|]; cbn in *; apply Hl;
    intros; apply so_Code_eqv.
Qed.

(** ** Refund counter, logs and access list *)

Lemma refund_step r s :
  wf s -> step s (set_refund r (append_entry (refundChange (refund s)) s)).
Proof.
  intros Hwf. eapply step_entry with (e := refundChange (refund s)); [done|done|done| | |done|done].
  - by split.
  - by destruct Hwf.
Qed.

Lemma AddLog_step l s : wf s -> step s (AddLog l s).
Proof.
  intros Hwf. unfold AddLog; cbn. set (l' := mkLog _ _ _ _ _ _ _ _ _). clearbody l'.
  assert (Hrev : revert_entry addLogChange (set_logs (logs s ++ [l']) (append_entry addLogChange s))
                 = Ok (set_logs (logs s) (append_entry addLogChange s))).
  { cbn [revert_entry logs set_logs append_entry set_journal].
    destruct (logs s ++ [l']) eqn:El; [by destruct (logs s)|]. rewrite <-El, length_app. cbn.
    replace (length (logs s) + 1 - 1)%nat with (length (logs s)) by lia.
    by rewrite take_app_exact. }
  eapply step_entry with (e := addLogChange); [done|done|exact Hrev| | |done|done].
  - by split.
  - by destruct Hwf.
Qed.

Lemma AddAddressToAccessList_steps a s : wf s -> rtc step s (AddAddressToAccessList a s).
Proof.
  intros Hwf. unfold AddAddressToAccessList. destruct (AddAddress (accessList_ s) a) as [b al] eqn:E.
  assert (Hal : al = (AddAddress (accessList_ s) a).2) by (by rewrite E).
  assert (Hok : al_ok al) by (subst; by apply AddAddress_ok, Hwf).
  destruct b.
  - apply rtc_once.
    eapply step_entry with (e := accessListAddAccountChange a); [done|done|done| | |done|done].
    + cbn. rewrite Hal, DeleteAddress_AddAddress; [by split|].
      unfold ContainsAddress. unfold AddAddress in E. by destruct (al_addresses _ !! a).
    + by destruct Hwf.
  - apply reflexive_eq. unfold AddAddress in E. destruct (al_addresses _ !! a); [|done].
    injection E as <-. by destruct s.
Qed.

Lemma slot_step a slot s s' al' :
  wf s -> AddSlot (accessList_ s) a slot = Ok (false, true, al') ->
  s' = append_entry (accessListAddSlotChange a slot) (set_accessList al' s) -> step s s'.
Proof.
  intros Hwf E ->. destruct (DeleteSlot_AddSlot _ _ _ _ _ (wf_al _ Hwf) E) as [Hd _].
  destruct (AddSlot_ok (accessList_ s) a slot (wf_al _ Hwf)) as (? & ? & ? & E' & Hok).
  rewrite E in E'. simplify_eq.
  eapply step_entry with (e := accessListAddSlotChange a slot); [done|done|cbn; by rewrite Hd| | |done|done].
  - by split.
  - by destruct Hwf.
Qed.

Lemma AddSlotToAccessList_steps a slot s :
  wf s -> exists s', AddSlotToAccessList a slot s = Ok s' /\ rtc step s s'.
Proof.
  intros Hwf. unfold AddSlotToAccessList.
  destruct (AddSlot_ok (accessList_ s) a slot (wf_al _ Hwf)) as (am & sm & al' & E & Hok).
  rewrite E. cbn. eexists; split; [done|].
  destruct sm.
  2: { apply AddSlot_unchanged in E as [-> ->]. by destruct s. }
  destruct am; [|by eapply rtc_once, slot_step].
  pose proof (AddAddressToAccessList_steps a s Hwf) as Hs.
  pose proof (steps_wf _ _ Hwf Hs) as Hwf1.
  eapply rtc_r; [exact Hs|]. revert Hs Hwf1. unfold AddAddressToAccessList, AddAddress.
  rewrite (AddSlot_new_address _ _ _ _ _ E). cbn.
  intros Hs Hwf1. eapply (slot_step a slot) with (al' := al'); [done| |].
  - pose proof (AddSlot_new_address _ _ _ _ _ E) as Hn. revert E. cbn. unfold AddSlot; cbn.
    rewrite Hn, lookup_insert_eq. cbn. rewrite insert_insert_eq. by intros [= <-].
  - done.
Qed.

Lemma AddSlotsToAccessList_steps a keys s :
  wf s -> exists s', AddSlotsToAccessList a keys s = Ok s' /\ rtc step s s'.
Proof.
  revert s. induction keys as [|k keys IH]; intros s Hwf; cbn; [eauto using rtc_refl|].
  destruct (AddSlotToAccessList_steps a k s Hwf) as (s1 & -> & Hs). cbn.
  destruct (IH s1 (steps_wf _ _ Hwf Hs)) as (s2 & -> & Hs2).
  eexists; split; [done|]. by etransitivity.
Qed.

Lemma AddAccessTuples_steps l s :
  wf s -> exists s', AddAccessTuples l s = Ok s' /\ rtc step s s'.
Proof.
  revert s. induction l as [|[a keys] l IH]; intros s Hwf; cbn; [eauto using rtc_refl|].
  pose proof (AddAddressToAccessList_steps a s Hwf) as H0.
  pose proof (steps_wf _ _ Hwf H0) as Hwf0.
  destruct (AddSlotsToAccessList_steps a keys _ Hwf0) as (s1 & -> & Hs). cbn.
  destruct (IH s1 (steps_wf _ _ Hwf0 Hs)) as (s2 & -> & Hs2).
  eexists; split; [done|]. by etransitivity; [|etransitivity].
Qed.

Lemma PrepareAccessList_steps sender dst pcs l s :
  wf s -> exists s', PrepareAccessList sender dst pcs l s = Ok s' /\ rtc step s s'.
Proof.
  intros Hwf. unfold PrepareAccessList.
  pose proof (AddAddressToAccessList_steps sender s Hwf) as H0.
  set (s0 := AddAddressToAccessList sender s) in *. clearbody s0.
  pose proof (steps_wf _ _ Hwf H0) as Hwf0.
  assert (H1 : rtc step s0 (match dst with
                            | Some d => AddAddressToAccessList d s0 | None => s0 end)).
  { destruct dst; [by apply AddAddressToAccessList_steps|done]. }
  set (s1 := match dst with Some _ => _ | None => _ end) in *. clearbody s1.
  pose proof (steps_wf _ _ Hwf0 H1) as Hwf1.
  assert (H2 : rtc step s1 (fold_left (fun s a => AddAddressToAccessList a s) pcs s1)).
  { clear -Hwf1. revert s1 Hwf1. induction pcs as [|p pcs IH]; intros s1 Hwf1; cbn; [done|].
    pose proof (AddAddressToAccessList_steps p s1 Hwf1) as Hp.
    etransitivity; [exact Hp|]. by eapply IH, steps_wf. }
  destruct (AddAccessTuples_steps l _ (steps_wf _ _ Hwf1 H2)) as (s2 & -> & H3).
  eexists; split; [done|]. etransitivity; [exact H0|]. etransitivity; [exact H1|].
  by etransitivity.
Qed.

(** ** Precompile calls *)

(** The object operations do not look at the cached context. *)
Lemma getStateObject_set_cache a cc w s :
  getStateObject a (set_cache cc w s) =
    ((getStateObject a s).1, set_cache cc w (getStateObject a s).2).
Proof. unfold getStateObject; cbn. by repeat case_match. Qed.

Lemma getOrNewStateObject_set_cache a cc w s :
  getOrNewStateObject a (set_cache cc w s) =
    ((getOrNewStateObject a s).1, set_cache cc w (getOrNewStateObject a s).2).
Proof.
  unfold getOrNewStateObject, createObject. rewrite getStateObject_set_cache.
  destruct (getStateObject a s) as [[o|] t]; cbn; [done|].
  rewrite getStateObject_set_cache. by destruct (getStateObject a t) as [[o|] t'].
Qed.

Lemma AddBalanceEntries_set_cache es cc w s :
  AddBalanceEntries es (set_cache cc w s) = set_cache cc w (AddBalanceEntries es s).
Proof.
  revert s. induction es as [|[a v []] es IH]; intros s; cbn; [done| |]; rewrite <-IH; f_equal;
    unfold AddBalance, SubBalance; rewrite getOrNewStateObject_set_cache;
    destruct (getOrNewStateObject a s) as [o t]; cbn;
    unfold so_AddBalance, so_SubBalance; by case_match.
Qed.

Lemma set_cache_id s : set_cache (cacheCtx s) (writeCache s) s = s.
Proof. by destruct s. Qed.

Lemma AddBalanceEntries_steps es s : wf s -> rtc step s (AddBalanceEntries es s).
Proof.
  revert s. induction es as [|[a v []] es IH]; intros s Hwf; cbn; [done| |].
  - pose proof (SubBalance_steps a v s Hwf) as Hs. etransitivity; [exact Hs|].
    by eapply IH, steps_wf.
  - pose proof (AddBalance_steps a v s Hwf) as Hs. etransitivity; [exact Hs|].
    by eapply IH, steps_wf.
Qed.

Lemma ensure_cache_step s s1 : wf s -> ensure_cache s = Ok s1 ->
  step s s1 /\ exists cc, cacheCtx s1 = Some cc /\ cc_multiStore cc = cache_view s.
Proof.
  intros Hwf. unfold ensure_cache, cache. destruct (writeCache s) eqn:Ew.
  - intros [= <-]. split; [by apply step_silent; [| |apply Hwf|]|].
    destruct (proj1 (wf_cache _ Hwf)) as [cc Hcc]; [by rewrite Ew|].
    exists cc. split; [done|]. unfold cache_view. by rewrite Hcc.
  - destruct (ctx_hasMultiStore s) eqn:Hms; [|done]. intros [= <-].
    assert (Hn : cacheCtx s = None).
    { destruct (cacheCtx s) eqn:E; [|done].
      destruct (proj2 (wf_cache _ Hwf)) as [? Hx]; [by rewrite E|congruence]. }
    split; [|eexists; split; [done|]; unfold cache_view; by rewrite Hn].
    apply step_silent; [done|done|unfold cache_ok; cbn; naive_solver|].
    split; try done. unfold cache_view at 1. by rewrite Hn.
Qed.

(** The last step of a call: the cached context moves on and the entry with
    the copy taken before the call is journalled. *)
Lemma precompile_step s cc' w evs n :
  wf s -> is_Some w ->
  step s (set_counter n (append_entry (precompileCallChange (cache_view s) evs)
                           (set_cache (Some cc') w s))).
Proof.
  intros Hwf Hw.
  eapply step_entry with (e := precompileCallChange (cache_view s) evs); [done|done|done| | |done|done].
  - by split.
  - destruct Hwf. split; [done|done|]. unfold cache_ok; cbn. naive_solver.
Qed.

Lemma Run_steps a act s s' : wf s -> Run a act s = (s', Ok ()) -> rtc step s s'.
Proof.
  intros Hwf. unfold Run, RunSetup, GetCacheContext, MultiStoreSnapshot.
  destruct (ensure_cache s) as [s0| |] eqn:E0; cbn; [|by intros [=]..].
  destruct (ensure_cache_step s s0 Hwf E0) as (Hs0 & cc & Hcc & Hv). rewrite Hcc. cbn.
  pose proof (step_wf _ _ Hwf Hs0) as Hwf0.
  assert (E0' : ensure_cache s0 = Ok s0).
  { unfold ensure_cache. destruct (proj2 (wf_cache _ Hwf0)) as [w ->]; [by rewrite Hcc|done]. }
  rewrite E0', Hcc. cbn. unfold CommitWithCacheCtx. rewrite Hcc.
  destruct (commitWithCtx s0 (cc_multiStore cc)) as [st1 [u| |]]; cbn; [|by intros [=]..].
  destruct (act st1 (cc_events cc)) as [[st2 evs2] [es| |]]; [|by intros [=]..].
  set (cc' := mkCacheContext st2 evs2).
  change (set_cache (Some cc') (writeCache s0) (set_cache _ (writeCache s0) s0))
    with (set_cache (Some cc') (writeCache s0) s0).
  unfold AddJournalEntries, AddPrecompileFn. destruct (first_panic _ _); [by intros [=]|].
  rewrite AddBalanceEntries_set_cache, getOrNewStateObject_set_cache.
  pose proof (AddBalanceEntries_steps es s0 Hwf0) as Hs1.
  pose proof (AddBalanceEntries_set_cache es (cacheCtx s0) (writeCache s0) s0) as Hc1.
  rewrite set_cache_id in Hc1. set (s1 := AddBalanceEntries es s0) in *.
  pose proof (steps_wf _ _ Hwf0 Hs1) as Hwf1.
  pose proof (getOrNewStateObject_set_cache a (cacheCtx s1) (writeCache s1) s1) as Hc2.
  rewrite set_cache_id in Hc2.
  destruct (getOrNewStateObject a s1) as [o s2] eqn:E2. cbn in Hc2 |- *.
  apply getOrNewStateObject_steps in E2 as (Hs2 & Hwf2 & _ & _ & _); [|done].
  intros [= <- _].
  assert (Hv2 : cc_multiStore cc = cache_view s2).
  { unfold cache_view. injection Hc2 as Hc2. rewrite Hc2, Hc1. cbn. by rewrite Hcc. }
  rewrite Hv2. eapply rtc_l; [exact Hs0|]. etransitivity; [exact Hs1|].
  eapply rtc_r; [exact Hs2|]. apply precompile_step; [done|].
  destruct (proj2 (wf_cache _ Hwf0)) as [w ->]; [by rewrite Hcc|done].
Qed.
End Revert.
