(* ===== verification/StateDBReads.v ===== *)
(** * Reads of the state database

    Every read is a function of the object that [getStateObject] finds
    ([lookup_obj]); the setters replace this object for one address. *)

From stdpp Require Import base gmap list numbers strings sorting relations.
From Stdlib Require Import ZArith Lia.
From S2P Require Import Prelude SdkMath Scaling AccessList StateDB Precompile StateDBRevert.

Section Reads.
Context {store event : Type} `{!Keeper store} `{!MultiStore store} `{!EvmEnv}.
Abbreviation SDB := (@StateDB store event).
Implicit Types (s t : SDB) (a b : address) (o : stateObject).

(** ** Reads as functions of the object *)

Lemma GetBalance_lookup a s :
  (GetBalance a s).1 = from_option (fun o => av_Balance (so_account o)) 0 (lookup_obj s a).
Proof.
  rewrite <-getStateObject_lookup. unfold GetBalance. by destruct (getStateObject a s) as [[]].
Qed.

Lemma GetNonce_lookup a s :
  (GetNonce a s).1 = from_option (fun o => av_Nonce (so_account o)) 0 (lookup_obj s a).
Proof.
  rewrite <-getStateObject_lookup. unfold GetNonce. by destruct (getStateObject a s) as [[]].
Qed.

Lemma GetCodeHash_lookup a s :
  (GetCodeHash a s).1 = from_option (fun o => av_CodeHash (so_account o)) 0 (lookup_obj s a).
Proof.
  rewrite <-getStateObject_lookup. unfold GetCodeHash. by destruct (getStateObject a s) as [[]].
Qed.

Lemma GetCode_lookup a s :
  (GetCode a s).1 = lookup_obj s a ≫= code_of (ctx_store s).
Proof.
  rewrite <-getStateObject_lookup. unfold GetCode, code_of.
  pose proof (sl_store _ _ (getStateObject_le a s)) as Hst.
  destruct (getStateObject a s) as [[o|] t]; cbn in *; [|done].
  rewrite Hst. by destruct (so_Code (ctx_store t) o).
Qed.

Lemma GetState_lookup a k s :
  (GetState a k s).1 = from_option (fun o => state_of (ctx_store s) o k) 0 (lookup_obj s a).
Proof.
  rewrite <-getStateObject_lookup. unfold GetState, state_of.
  pose proof (sl_store _ _ (getStateObject_le a s)) as Hst.
  destruct (getStateObject a s) as [[o|] t]; cbn in *; [|done].
  rewrite Hst. by destruct (so_GetState (ctx_store t) k o).
Qed.

Lemma HasSuicided_lookup a s :
  (HasSuicided a s).1 = from_option so_suicided false (lookup_obj s a).
Proof.
  rewrite <-getStateObject_lookup. unfold HasSuicided. by destruct (getStateObject a s) as [[]].
Qed.

(** ** Lookups after a load or a creation *)

Lemma getStateObject_frame a s b : lookup_obj (getStateObject a s).2 b = lookup_obj s b.
Proof.
  destruct (getStateObject_state a s) as [->|(acct & Hn & Hk & ->)]; [done|].
  rewrite lookup_setStateObject; cbn. case_decide as E; [subst b|done].
  unfold lookup_obj. by rewrite Hn, Hk.
Qed.

Definition fresh_obj a : stateObject := newObject a (mkAccount 0 None None).

Lemma getOrNew_lookup a s o t :
  wf s -> getOrNewStateObject a s = (o, t) ->
  o = default (fresh_obj a) (lookup_obj s a) /\ so_address o = a /\
  (forall b, lookup_obj t b = if decide (b = a) then Some o else lookup_obj s b) /\
  ctx_store t = ctx_store s.
Proof.
  intros Hwf. unfold getOrNewStateObject.
  pose proof (getStateObject_lookup a s) as Hl. pose proof (getStateObject_frame a s) as Hf.
  pose proof (sl_store _ _ (getStateObject_le a s)) as Hst.
  destruct (getStateObject a s) as [[p|] u] eqn:E; cbn in *.
  - intros [= <- <-]. rewrite <-Hl. cbn. split_and!; [done| | |done].
    + by eapply lookup_obj_address; [apply Hwf|].
    + intros b. rewrite Hf. case_decide; [by subst|done].
  - unfold createObject.
    assert (getStateObject a u = (None, u)) as ->.
    { unfold getStateObject. rewrite <-Hf in Hl. unfold lookup_obj in Hl.
      destruct (stateObjects u !! a); [done|]. by destruct (k_GetAccount _ a). }
    intros [= <- <-]. rewrite <-Hl. split_and!; [done|done| |done].
    intros b. rewrite lookup_setStateObject. cbn.
    repeat case_decide; subst; try done. apply Hf.
Qed.

(** the object a setter of [a] installs *)
Lemma setter_lookup a s o t e (f : stateObject) b :
  (forall x, lookup_obj t x = if decide (x = a) then Some o else lookup_obj s x) ->
  so_address f = a ->
  lookup_obj (setStateObject f (append_entry e t)) b
    = if decide (b = a) then Some f else lookup_obj s b.
Proof.
  intros Ht Hf. rewrite lookup_setStateObject, Hf.
  change (lookup_obj (append_entry e t) b) with (lookup_obj t b). rewrite Ht.
  repeat case_decide; subst; done.
Qed.

Abbreviation obj_of s a := (default (fresh_obj a) (lookup_obj s a)).

Lemma AddBalance_lookup a v s b :
  wf s ->
  lookup_obj (AddBalance a v s) b =
    if decide (b = a) then
      Some (if AdjustExtraDecimalsBigInt coinCfg v =? 0 then obj_of s a
            else setBalance (av_Balance (so_account (obj_of s a))
                             + AdjustExtraDecimalsBigInt coinCfg v) (obj_of s a))
    else lookup_obj s b.
Proof.
  intros Hwf. unfold AddBalance. destruct (getOrNewStateObject a s) as [o t] eqn:E.
  destruct (getOrNew_lookup _ _ _ _ Hwf E) as (<- & Ha & Ht & _).
  unfold so_AddBalance, so_SetBalance. case_match; [apply Ht|]. by erewrite setter_lookup.
Qed.

Lemma SubBalance_lookup a v s b :
  wf s ->
  lookup_obj (SubBalance a v s) b =
    if decide (b = a) then
      Some (if AdjustExtraDecimalsBigInt coinCfg v =? 0 then obj_of s a
            else setBalance (av_Balance (so_account (obj_of s a))
                             - AdjustExtraDecimalsBigInt coinCfg v) (obj_of s a))
    else lookup_obj s b.
Proof.
  intros Hwf. unfold SubBalance. destruct (getOrNewStateObject a s) as [o t] eqn:E.
  destruct (getOrNew_lookup _ _ _ _ Hwf E) as (<- & Ha & Ht & _).
  unfold so_SubBalance, so_SetBalance. case_match; [apply Ht|]. by erewrite setter_lookup.
Qed.

Lemma SetNonce_lookup a n s b :
  wf s ->
  lookup_obj (SetNonce a n s) b =
    if decide (b = a) then Some (setNonce n (obj_of s a)) else lookup_obj s b.
Proof.
  intros Hwf. unfold SetNonce. destruct (getOrNewStateObject a s) as [o t] eqn:E.
  destruct (getOrNew_lookup _ _ _ _ Hwf E) as (<- & Ha & Ht & _). unfold so_SetNonce. by erewrite setter_lookup.
Qed.

Lemma so_Code_frame st o :
  so_address (so_Code st o).2 = so_address o /\ so_account (so_Code st o).2 = so_account o.
Proof. unfold so_Code. by repeat case_match. Qed.

Lemma SetCode_lookup a c s b :
  wf s ->
  lookup_obj (SetCode a c s) b =
    if decide (b = a) then
      Some (setCode (keccak (default [] c)) c (so_Code (ctx_store s) (obj_of s a)).2)
    else lookup_obj s b.
Proof.
  intros Hwf. unfold SetCode, so_SetCode. destruct (getOrNewStateObject a s) as [o t] eqn:E.
  destruct (getOrNew_lookup _ _ _ _ Hwf E) as (<- & Ha & Ht & ->).
  destruct (so_Code_frame (ctx_store s) o) as [Hca _].
  destruct (so_Code (ctx_store s) o) as [pc o']; cbn in *. erewrite setter_lookup; [done|exact Ht|].
  cbn. congruence.
Qed.

Lemma so_GetState_frame st k o :
  so_address (so_GetState st k o).2 = so_address o /\
  so_account (so_GetState st k o).2 = so_account o.
Proof. unfold so_GetState, so_GetCommittedState. by repeat case_match. Qed.

Lemma SetState_lookup a k v s b :
  wf s ->
  lookup_obj (SetState a k v s) b =
    if decide (b = a) then
      let o := (so_GetState (ctx_store s) k (obj_of s a)).2 in
      Some (if state_of (ctx_store s) (obj_of s a) k =? v then o else setState k v o)
    else lookup_obj s b.
Proof.
  intros Hwf. unfold SetState, so_SetState, state_of.
  destruct (getOrNewStateObject a s) as [o t] eqn:E.
  destruct (getOrNew_lookup _ _ _ _ Hwf E) as (<- & Ha & Ht & ->).
  destruct (so_GetState_frame (ctx_store s) k o) as [Hga _].
  destruct (so_GetState (ctx_store s) k o) as [pv o']; cbn in *.
  case_match.
  - rewrite lookup_setStateObject, Ht. repeat case_decide; subst; congruence.
  - erewrite setter_lookup; [done|exact Ht|]. cbn. congruence.
Qed.

(** [state_of] after a slot is written, or loaded *)
Lemma state_of_setState st k v o k' :
  state_of st (setState k v o) k' = if decide (k = k') then v else state_of st o k'.
Proof.
  unfold state_of, so_GetState, so_GetCommittedState; cbn. rewrite lookup_insert.
  case_decide; [done|]. by repeat case_match.
Qed.

Lemma state_of_loaded st k o k' : state_of st (so_GetState st k o).2 k' = state_of st o k'.
Proof. symmetry. apply so_GetState_eqv. Qed.

Lemma SetState_store a k v s : ctx_store (SetState a k v s) = ctx_store s.
Proof.
  unfold SetState, so_SetState, getOrNewStateObject, createObject, getStateObject.
  repeat (case_match; simplify_eq/=; try done).
Qed.
End Reads.
