(* ===== verification/StateDBSnapshot.v ===== *)
(** * Snapshots of the state database ([x/vm/statedb])

    The invariant [ginv] of a reachable state database: the journal can be
    unwound entry by entry, the dirty counters count the entries, every dirty
    address has a live object, and the stack of revisions is sorted. Every
    operation preserves it, and [RevertToSnapshot] of a valid revision succeeds
    and restores what was observable when the snapshot was taken. *)

From stdpp Require Import base gmap list numbers strings sorting relations.
From Stdlib Require Import ZArith Lia.
From S2P Require Import Prelude SdkMath Scaling AccessList StateDB Precompile StateDBRevert.

Section Snapshots.
Context {store event : Type} `{!Keeper store} `{!MultiStore store} `{!EvmEnv}.
Abbreviation SDB := (@StateDB store event).
Abbreviation entry := (@JournalEntry store event).
Implicit Types (s b : SDB) (e : entry) (es : list entry) (a : address).

Definition entries s : list entry := j_entries (sdb_journal s).

(** ** Dirty counters *)

Definition dirties_of es : gmap address Z := fold_left (fun d e => incr_dirty e d) es ∅.

Lemma dirties_of_app es e : dirties_of (es ++ [e]) = incr_dirty e (dirties_of es).
Proof. unfold dirties_of. by rewrite fold_left_app. Qed.

Lemma dirties_of_pos es a n : dirties_of es !! a = Some n -> 1 <= n.
Proof.
  revert a n. induction es as [|e es IH] using rev_ind; intros a n; [done|].
  rewrite dirties_of_app. unfold incr_dirty. destruct (Dirtied e) as [b|]; [|apply IH].
  rewrite lookup_insert. case_decide as E; [subst b|apply IH]. intros [= <-].
  destruct (dirties_of es !! a) as [m|] eqn:Em; cbn; [|lia]. specialize (IH a m Em). lia.
Qed.

Lemma dirties_of_elem es a :
  is_Some (dirties_of es !! a) <-> exists e, e ∈ es /\ Dirtied e = Some a.
Proof.
  induction es as [|e es IH] using rev_ind.
  { split; [intros [? [=]]|intros (? & H0 & _); by apply elem_of_nil in H0]. }
  rewrite dirties_of_app. unfold incr_dirty. destruct (Dirtied e) as [b|] eqn:Ed.
  - rewrite lookup_insert. case_decide as E.
    + subst b. split; [intros _|eauto]. exists e. split; [|done]. apply elem_of_app. right. by left.
    + rewrite IH. split.
      * intros (e' & He & ?). exists e'. split; [|done]. apply elem_of_app. by left.
      * intros (e' & [He|He%list_elem_of_singleton]%elem_of_app & Hd); [eauto|].
        subst e'. congruence.
  - rewrite IH. split.
    + intros (e' & He & ?). exists e'. split; [|done]. apply elem_of_app. by left.
    + intros (e' & [He|He%list_elem_of_singleton]%elem_of_app & Hd); [eauto|].
      subst e'. congruence.
Qed.

(** The counter of an address is the number of entries that dirty it. *)
Lemma dirties_of_count es a :
  dirties_of es !! a =
    match length (filter (fun e => Dirtied e = Some a) es) with
    | O => None
    | S n => Some (Z.of_nat (S n))
    end.
Proof.
  induction es as [|e es IH] using rev_ind; [done|].
  rewrite dirties_of_app, filter_app, length_app. unfold incr_dirty.
  assert (Hl : length (filter (fun e => Dirtied e = Some a) [e]) = if decide (Dirtied e = Some a) then 1%nat else 0%nat).
  { rewrite filter_cons. by case_decide. }
  rewrite Hl. destruct (Dirtied e) as [b|]; [|case_decide; [done|]; by rewrite Nat.add_0_r].
  rewrite lookup_insert. destruct (decide (b = a)) as [->|Hn].
  - rewrite decide_True by done. rewrite IH, Nat.add_comm. destruct (length _); cbn; [done|f_equal; lia].
  - rewrite decide_False by congruence. by rewrite Nat.add_0_r.
Qed.

Lemma decr_incr_dirty e es : decr_dirty e (dirties_of (es ++ [e])) = dirties_of es.
Proof.
  rewrite dirties_of_app. unfold decr_dirty, incr_dirty.
  destruct (Dirtied e) as [a|]; [|done]. rewrite lookup_insert_eq. cbn.
  replace (default 0 (dirties_of es !! a) + 1 - 1) with (default 0 (dirties_of es !! a)) by lia.
  destruct (dirties_of es !! a) as [n|] eqn:E; cbn.
  - pose proof (dirties_of_pos es a n E). destruct (Z.eqb_spec n 0); [lia|].
    rewrite insert_insert_eq. by apply insert_id.
  - by rewrite delete_insert_id.
Qed.

(** ** Unwinding the journal *)

Lemma revert_entry_frame e s s1 :
  revert_entry e s = Ok s1 ->
  sdb_journal s1 = sdb_journal s /\ validRevisions s1 = validRevisions s /\
  nextRevisionID s1 = nextRevisionID s /\ (cache_ok s -> cache_ok s1).
Proof.
  assert (Hup : forall a f, update_object a f s = Ok s1 ->
    sdb_journal s1 = sdb_journal s /\ validRevisions s1 = validRevisions s /\
    nextRevisionID s1 = nextRevisionID s /\ (cache_ok s -> cache_ok s1)).
  { intros a f. unfold update_object. destruct (getStateObject a s) as [[o|] t] eqn:E; [|done].
    apply getStateObject_cases in E as (_ & _ & ? & ? & ? & Hw & Hc & _). intros [= <-].
    split_and!; try done. unfold cache_ok; cbn. by rewrite Hw, Hc. }
  destruct e; cbn; try apply Hup; try (by intros [= <-]).
  - destruct (getStateObject account s) as [[o|] t] eqn:E; intros [= <-];
      apply getStateObject_cases in E as (_ & _ & ? & ? & ? & Hw & Hc & _);
      (split_and!; try done); unfold cache_ok; cbn; by rewrite Hw, Hc.
  - case_match; [done|]. by intros [= <-].
  - intros. inv_ok. done.
Qed.

Lemma getStateObject_set_journal a j s :
  getStateObject a (set_journal j s) =
    ((getStateObject a s).1, set_journal j (getStateObject a s).2).
Proof. unfold getStateObject; cbn. by repeat case_match. Qed.

Lemma update_object_set_journal a f j s s1 :
  update_object a f s = Ok s1 -> update_object a f (set_journal j s) = Ok (set_journal j s1).
Proof.
  unfold update_object. rewrite getStateObject_set_journal.
  destruct (getStateObject a s) as [[o|] t]; cbn; [|done]. by intros [= <-].
Qed.

Lemma revert_entry_set_journal e j s s1 :
  revert_entry e s = Ok s1 -> revert_entry e (set_journal j s) = Ok (set_journal j s1).
Proof.
  destruct e; cbn; try apply update_object_set_journal; try (by intros [= <-]).
  - rewrite getStateObject_set_journal.
    destruct (getStateObject account s) as [[o|] t]; cbn; by intros [= <-].
  - case_match; [done|]. by intros [= <-].
  - destruct (DeleteSlot _ _ _); cbn; [|done..]. by intros [= <-].
Qed.

Fixpoint undo_to es s s' : Prop :=
  match es with
  | [] => s' = s
  | e :: es => exists s1, revert_entry e s = Ok s1 /\ undo_to es s1 s'
  end.

Lemma undo_to_app es1 es2 s s' :
  undo_to (es1 ++ es2) s s' <-> exists s1, undo_to es1 s s1 /\ undo_to es2 s1 s'.
Proof.
  revert s. induction es1 as [|e es1 IH]; intros s; cbn; [naive_solver|].
  setoid_rewrite IH. naive_solver.
Qed.

Lemma undo_to_det es s s1 s2 : undo_to es s s1 -> undo_to es s s2 -> s1 = s2.
Proof.
  revert s. induction es as [|e es IH]; cbn; intros s; [by intros -> ->|].
  intros (x & Hx & ?) (y & Hy & ?). rewrite Hx in Hy. simplify_eq. eauto.
Qed.

Lemma undo_to_mono es s1 s2 s1' :
  sdb_le s1 s2 -> undo_to es s1 s1' -> exists s2', undo_to es s2 s2' /\ sdb_le s1' s2'.
Proof.
  revert s1 s2. induction es as [|e es IH]; cbn; intros s1 s2 Hle; [intros ->; eauto|].
  intros (t1 & Hr & Hu). destruct (revert_entry_mono e s1 s2 t1 Hle Hr) as (t2 & Hr2 & Hle2).
  destruct (IH t1 t2 Hle2 Hu) as (s2' & ? & ?). eauto.
Qed.

Lemma undo_to_set_journal es j s s' :
  undo_to es s s' -> undo_to es (set_journal j s) (set_journal j s').
Proof.
  revert s. induction es as [|e es IH]; intros s; cbn; [congruence|].
  intros (t & Ht & Hu). eauto using revert_entry_set_journal.
Qed.

(** The loop of [journal.Revert]: undo each entry and drop its count. *)
Lemma revert_entries_undo es s pre s' :
  j_dirties (sdb_journal s) = dirties_of (pre ++ reverse es) -> undo_to es s s' ->
  revert_entries es s =
    Ok (set_journal (mkJournal (entries s) (dirties_of pre)) s').
Proof.
  revert s s'. induction es as [|e es IH]; intros s s' Hd; cbn [undo_to revert_entries].
  { intros ->. rewrite app_nil_r in Hd. unfold entries.
    by rewrite <-Hd; destruct s as [? ? ? ? ? [] ]. }
  intros (s1 & Hr & Hu). rewrite Hr. cbn.
  pose proof (revert_entry_frame _ _ _ Hr) as (Hj & _).
  rewrite reverse_cons, app_assoc in Hd. rewrite Hj, Hd, decr_incr_dirty.
  pose proof (undo_to_set_journal es
    (mkJournal (entries s) (dirties_of (pre ++ reverse es))) _ _ Hu) as Hu'.
  apply IH in Hu'; [|done]. exact Hu'.
Qed.

Inductive undoable : list entry -> SDB -> Prop :=
| undoable_nil s : wf s -> undoable [] s
| undoable_cons e es s s1 :
    wf s -> (forall e' a, e' ∈ e :: es -> Dirtied e' = Some a -> live s a) ->
    revert_entry e s = Ok s1 -> undoable es s1 -> undoable (e :: es) s.

Lemma undoable_wf es s : undoable es s -> wf s.
Proof. by inversion 1. Qed.

Lemma undoable_live es s e a : undoable es s -> e ∈ es -> Dirtied e = Some a -> live s a.
Proof. inversion 1; subst; [intros He; by apply elem_of_nil in He|eauto]. Qed.

Lemma undoable_le es s1 s2 : sdb_le s1 s2 -> cache_ok s2 -> undoable es s1 -> undoable es s2.
Proof.
  intros Hle Hc Hu. revert s2 Hle Hc.
  induction Hu as [s Hw|e es s t Hw Hl Hr Hu IH]; intros s2 Hle Hc.
  - constructor. by eapply wf_le.
  - destruct (revert_entry_mono e s s2 t Hle Hr) as (t2 & Hr2 & Hle2).
    econstructor; [by eapply wf_le| |exact Hr2|].
    + intros. eapply Hle. eauto.
    + apply IH; [done|]. by apply (revert_entry_frame _ _ _ Hr2).
Qed.

Lemma undoable_undo es1 es2 s :
  undoable (es1 ++ es2) s -> exists s', undo_to es1 s s' /\ undoable es2 s'.
Proof.
  revert s. induction es1 as [|e es1 IH]; intros s Hu; cbn in *; [eauto|].
  inversion Hu; subst. edestruct IH as (s' & ? & ?); [done|]. eauto.
Qed.

Lemma undo_to_frame es s s' :
  undo_to es s s' -> sdb_journal s' = sdb_journal s /\ validRevisions s' = validRevisions s /\
    nextRevisionID s' = nextRevisionID s.
Proof.
  revert s. induction es as [|e es IH]; cbn; intros s; [by intros ->|].
  intros (s1 & Hr & Hu). destruct (IH _ Hu) as (-> & -> & ->).
  by apply revert_entry_frame in Hr as (-> & -> & -> & _).
Qed.

(** ** The stack of revisions *)

Record revs_ok (rs : list revision) (next : Z) (len : nat) : Prop := {
  ro_sorted : forall i j r1 r2, rs !! i = Some r1 -> rs !! j = Some r2 -> (i < j)%nat ->
    rev_id r1 < rev_id r2 /\ (rev_journalIndex r1 <= rev_journalIndex r2)%nat;
  ro_next : forall i r, rs !! i = Some r -> rev_id r < next;
  ro_len : forall i r, rs !! i = Some r -> (rev_journalIndex r <= len)%nat
}.

Lemma revs_ok_grow rs next len len' :
  (len <= len')%nat -> revs_ok rs next len -> revs_ok rs next len'.
Proof.
  intros Hl [Hs Hn Hb]. split; [exact Hs|exact Hn|].
  intros i r Hr. etransitivity; [by eapply Hb|done].
Qed.

Lemma revs_ok_snoc rs next len :
  revs_ok rs next len -> revs_ok (rs ++ [mkRevision next len]) (next + 1) len.
Proof.
  intros []. split.
  - intros i j r1 r2 H1 H2 Hij. apply lookup_app_Some in H2 as [H2|[Hj H2]].
    + rewrite lookup_app_l in H1; [eauto|]. apply lookup_lt_Some in H2. lia.
    + destruct (j - length rs)%nat eqn:E; [|done]. injection H2 as <-. cbn.
      rewrite lookup_app_l in H1 by lia. eauto.
  - intros i r Hr. apply lookup_app_Some in Hr as [Hr|[_ Hr]].
    + specialize (ro_next0 i r Hr). lia.
    + destruct (i - length rs)%nat; [|done]. injection Hr as <-. cbn. lia.
  - intros i r Hr. apply lookup_app_Some in Hr as [Hr|[_ Hr]]; [eauto|].
    destruct (i - length rs)%nat; [|done]. injection Hr as <-. cbn. lia.
Qed.

Lemma revs_ok_take rs next len i r :
  revs_ok rs next len -> rs !! i = Some r ->
  revs_ok (take i rs) next (rev_journalIndex r).
Proof.
  intros [] Hr. split.
  - intros j k r1 r2 H1 H2. apply lookup_take_Some in H1 as [H1 _], H2 as [H2 _]. eauto.
  - intros j r1 H1. apply lookup_take_Some in H1 as [H1 _]. eauto.
  - intros j r1 H1. apply lookup_take_Some in H1 as [H1 Hj].
    by destruct (ro_sorted0 j i r1 r).
Qed.

(** The binary search finds the revision with the given id. *)
Lemma find_revision_spec rs next len i r :
  revs_ok rs next len -> rs !! i = Some r -> find_revision (rev_id r) rs = i.
Proof.
  intros Hok Hr. unfold find_revision.
  set (f := fun k => match rs !! k with Some r' => rev_id r <=? rev_id r' | None => true end).
  destruct (sort_Search_spec (length rs) f) as (Hle & Hlo & Hhi).
  { intros a b Hab. unfold f. destruct (rs !! a) as [ra|] eqn:Ea.
    - destruct (rs !! b) as [rb|] eqn:Eb; [|done]. rewrite !Z.leb_le.
      destruct (decide (a = b)) as [->|]; [by simplify_eq|].
      destruct (ro_sorted _ _ _ Hok a b ra rb Ea Eb); lia.
    - apply lookup_ge_None in Ea. destruct (rs !! b) eqn:Eb; [|done].
      apply lookup_lt_Some in Eb. lia. }
  fold f. set (k := sort_Search (length rs) f) in *. pose proof (lookup_lt_Some _ _ _ Hr) as Hi.
  destruct (Nat.lt_trichotomy k i) as [Hk|[Hk|Hk]]; [|done|].
  - specialize (Hhi ltac:(lia)). unfold f in Hhi.
    destruct (lookup_lt_is_Some_2 rs k ltac:(lia)) as [rk Ek]. rewrite Ek in Hhi.
    apply Z.leb_le in Hhi. destruct (ro_sorted _ _ _ Hok k i rk r Ek Hr Hk). lia.
  - specialize (Hlo i Hk). unfold f in Hlo. rewrite Hr in Hlo. apply Z.leb_gt in Hlo. lia.
Qed.

(** ** The invariant *)

Record ginv s : Prop := {
  gi_undo : undoable (reverse (entries s)) s;
  gi_dirties : j_dirties (sdb_journal s) = dirties_of (entries s);
  gi_revs : revs_ok (validRevisions s) (nextRevisionID s) (length (entries s))
}.

Lemma ginv_wf s : ginv s -> wf s.
Proof. intros []. by eapply undoable_wf. Qed.

(** The dirty counters are determined by the entries. *)
Lemma ginv_journal_eq s1 s2 :
  ginv s1 -> ginv s2 -> entries s1 = entries s2 -> sdb_journal s1 = sdb_journal s2.
Proof.
  intros [_ H1 _] [_ H2 _] He. unfold entries in *.
  destruct (sdb_journal s1), (sdb_journal s2); cbn in *. congruence.
Qed.

Lemma New_ginv st hasMS tc : ginv (New st hasMS tc).
Proof.
  split; cbn.
  - constructor. split; cbn.
    + apply newAccessList_ok.
    + intros a o. cbn. by rewrite lookup_empty.
    + unfold cache_ok; cbn. split; intros [? [=]].
  - done.
  - split; intros *; done.
Qed.

Lemma step_undoable s s' :
  step s s' -> undoable (reverse (entries s)) s -> undoable (reverse (entries s')) s'.
Proof.
  intros Hs Hu. destruct Hs as [s' Hj _ Hc Hle|e s' s'' Hj _ Hr Hle Hw Hl Hd].
  - unfold entries. rewrite Hj. by eapply undoable_le.
  - unfold entries. rewrite Hj. cbn [j_entries journal_append]. rewrite reverse_snoc.
    econstructor; [done| |exact Hr|].
    + intros e' a [->|He]%elem_of_cons Hda; [by apply Hd|].
      apply Hl. by eapply undoable_live.
    + eapply undoable_le; [exact Hle| |done].
      apply (revert_entry_frame _ _ _ Hr). apply Hw.
Qed.

Lemma step_ginv s s' : step s s' -> ginv s -> ginv s'.
Proof.
  intros Hs [Hu Hd Hr]. split; [by eapply step_undoable| |].
  - destruct Hs as [s' Hj|e s' s'' Hj]; unfold entries in *; rewrite Hj; [done|].
    cbn [j_entries j_dirties journal_append]. by rewrite dirties_of_app, Hd.
  - destruct Hs as [s' Hj [-> ->]|e s' s'' Hj [-> ->]]; unfold entries in *; rewrite Hj; [done|].
    eapply revs_ok_grow; [|exact Hr]. cbn [j_entries journal_append]. rewrite length_app. lia.
Qed.

Lemma steps_ginv s s' : rtc step s s' -> ginv s -> ginv s'.
Proof. induction 1; eauto using step_ginv. Qed.

Lemma Snapshot_ginv s : ginv s -> ginv (Snapshot s).2.
Proof.
  intros [Hu Hd Hr]. split; cbn; [|done|by apply revs_ok_snoc].
  unfold entries; cbn. eapply undoable_le; [|apply (undoable_wf _ _ Hu)|exact Hu]. by split.
Qed.

(** [RevertToSnapshot] of a valid revision. *)
Lemma RevertToSnapshot_ok s i r :
  ginv s -> validRevisions s !! i = Some r ->
  exists s1 s', undo_to (reverse (drop (rev_journalIndex r) (entries s))) s s1 /\
    RevertToSnapshot (rev_id r) s = Ok s' /\ sdb_le s1 s' /\
    entries s' = take (rev_journalIndex r) (entries s) /\
    validRevisions s' = take i (validRevisions s) /\ nextRevisionID s' = nextRevisionID s /\
    ginv s'.
Proof.
  intros [Hu Hd Hro] Hr. pose proof (ro_len _ _ _ Hro i r Hr) as Hlen.
  set (n := rev_journalIndex r) in *.
  rewrite <-(take_drop n (entries s)), reverse_app in Hu.
  apply undoable_undo in Hu as (s1 & Hu1 & Hu2).
  pose proof (undo_to_frame _ _ _ Hu1) as (Hj1 & Hv1 & Hn1).
  exists s1. eexists. split; [done|].
  unfold RevertToSnapshot. rewrite (find_revision_spec _ _ _ i r Hro Hr), Hr, Z.eqb_refl.
  unfold journal_Revert. fold (entries s). fold n.
  rewrite (revert_entries_undo _ s (take n (entries s)) s1); [|by rewrite reverse_involutive, take_drop|done].
  cbn. destruct (Nat.leb_spec n (length (entries s))); [|lia]. cbn. split; [done|].
  split_and!; [by split|done|by rewrite Hv1|done|].
  split; unfold entries; cbn.
  - eapply undoable_le; [|apply (undoable_wf _ _ Hu2)|exact Hu2]. by split.
  - done.
  - rewrite Hv1, Hn1, length_take_le by done. by eapply revs_ok_take.
Qed.
End Snapshots.
