(* ===== verification/StateDBTrace.v ===== *)
(** * Executions of the state database ([x/vm/statedb/statedb.go])

    [op] is the interface the EVM drives ([vm.StateDB], the snapshots and the
    precompile calls), [exec] runs one operation, the panic of the keeper that
    loads the account included. The theorems are about every
    sequence of operations: the invariant, the absence of panics, and that
    reverting to a snapshot gives back every answer it had. *)

From stdpp Require Import base gmap list numbers strings sorting relations.
From Stdlib Require Import ZArith Lia.
From S2P Require Import Prelude SdkMath Scaling AccessList StateDB Precompile StateDBRevert StateDBSnapshot.

Section Trace.
Context {store event : Type} `{!Keeper store} `{!MultiStore store} `{!EvmEnv}.
Abbreviation SDB := (@StateDB store event).
Implicit Types (s b : SDB) (a : address).

Inductive op :=
| OpAddBalance a (amount : Z)
| OpSubBalance a (amount : Z)
| OpSetNonce a (nonce : Z)
| OpSetCode a (code : option bytes)
| OpSetState a (key value : hash)
| OpSuicide a
| OpCreateAccount a
| OpAddRefund (gas : Z)
| OpSubRefund (gas : Z)
| OpAddLog (l : ethLog)
| OpAddAddressToAccessList a
| OpAddSlotToAccessList a (slot : hash)
| OpPrepareAccessList (sender : address) (dst : option address) (pcs : list address)
    (l : list (address * list hash))
| OpLoad a                         (* any read of the account fields *)
| OpGetCode a
| OpGetState a (key : hash)
| OpGetCommittedState a (key : hash)
| OpPrecompile a (act : @nativeAction store event)
| OpSnapshot
| OpRevertToSnapshot (revid : Z).

(** the account an operation loads before anything else *)
Definition op_account (o : op) : option address :=
  match o with
  | OpAddBalance a _ | OpSubBalance a _ | OpSetNonce a _ | OpSetCode a _ | OpSetState a _ _
  | OpSuicide a | OpCreateAccount a | OpLoad a | OpGetCode a | OpGetState a _
  | OpGetCommittedState a _ => Some a
  | _ => None
  end.

Definition exec_op (o : op) (s : SDB) : res SDB :=
  match o with
  | OpAddBalance a v => Ok (AddBalance a v s)
  | OpSubBalance a v => Ok (SubBalance a v s)
  | OpSetNonce a n => Ok (SetNonce a n s)
  | OpSetCode a c => Ok (SetCode a c s)
  | OpSetState a k v => Ok (SetState a k v s)
  | OpSuicide a => Ok (Suicide a s).2
  | OpCreateAccount a => Ok (CreateAccount a s)
  | OpAddRefund g => Ok (AddRefund g s)
  | OpSubRefund g => SubRefund g s
  | OpAddLog l => Ok (AddLog l s)
  | OpAddAddressToAccessList a => Ok (AddAddressToAccessList a s)
  | OpAddSlotToAccessList a k => AddSlotToAccessList a k s
  | OpPrepareAccessList sender dst pcs l => PrepareAccessList sender dst pcs l s
  | OpLoad a => Ok (getStateObject a s).2
  | OpGetCode a => Ok (GetCode a s).2
  | OpGetState a k => Ok (GetState a k s).2
  | OpGetCommittedState a k => Ok (GetCommittedState a k s).2
  | OpPrecompile a act => let '(s, r) := Run a act s in let? _ := r in Ok s
  | OpSnapshot => Ok (Snapshot s).2
  | OpRevertToSnapshot id => RevertToSnapshot id s
  end.

(** An operation stops with the panic of the keeper when the account it needs is
    neither cached nor loadable. *)
Definition exec (o : op) (s : SDB) : res SDB :=
  match op_account o ≫= (fun a => load_panics a s) with
  | Some e => Panic e
  | None => exec_op o s
  end.

Lemma exec_Ok o s s' : exec o s = Ok s' -> exec_op o s = Ok s'.
Proof. unfold exec. by destruct (_ ≫= _). Qed.

Fixpoint exec_all (ops : list op) (s : SDB) : res SDB :=
  match ops with
  | [] => Ok s
  | o :: ops => let? s := exec o s in exec_all ops s
  end.

(** Operations other than the two on the revision stack. *)
Definition is_revision_op (o : op) : bool :=
  match o with OpSnapshot | OpRevertToSnapshot _ => true | _ => false end.

Lemma exec_steps o s s' :
  wf s -> is_revision_op o = false -> exec o s = Ok s' -> rtc step s s'.
Proof.
  intros Hwf Ho Hex%exec_Ok. revert Hex. destruct o; try discriminate Ho; cbn; intros Hex; simplify_eq.
  - by apply AddBalance_steps.
  - by apply SubBalance_steps.
  - by apply SetNonce_steps.
  - by apply SetCode_steps.
  - by apply SetState_steps.
  - by apply Suicide_steps.
  - by apply CreateAccount_steps.
  - by apply rtc_once, refund_step.
  - unfold SubRefund in Hex. cbn in Hex. case_match; simplify_eq. by apply rtc_once, refund_step.
  - by apply rtc_once, AddLog_step.
  - by apply AddAddressToAccessList_steps.
  - destruct (AddSlotToAccessList_steps a slot s Hwf) as (? & E & ?).
    rewrite E in Hex. by simplify_eq.
  - destruct (PrepareAccessList_steps sender dst pcs l s Hwf) as (? & E & ?).
    rewrite E in Hex. by simplify_eq.
  - apply rtc_once. destruct (getStateObject a s) eqn:E. by eapply getStateObject_step.
  - by apply GetCode_steps.
  - by apply GetState_steps.
  - by apply GetCommittedState_steps.
  - destruct (Run a act s) as [s1 [[]| |]] eqn:E; simplify_eq/=. by eapply Run_steps.
Qed.

(** A revision id that is not on the stack makes [RevertToSnapshot] panic. *)
Lemma RevertToSnapshot_valid id s s' :
  RevertToSnapshot id s = Ok s' -> exists i r, validRevisions s !! i = Some r /\ rev_id r = id.
Proof.
  unfold RevertToSnapshot. destruct (validRevisions s !! _) as [r|] eqn:E; [|done].
  destruct (Z.eqb_spec (rev_id r) id); [eauto|done].
Qed.

Lemma exec_ginv o s s' : ginv s -> exec o s = Ok s' -> ginv s'.
Proof.
  intros Hg Hex. destruct (is_revision_op o) eqn:Ho.
  - apply exec_Ok in Hex. destruct o; try discriminate Ho; cbn in Hex; simplify_eq.
    + by apply Snapshot_ginv.
    + destruct (RevertToSnapshot_valid _ _ _ Hex) as (i & r & Hr & <-).
      destruct (RevertToSnapshot_ok s i r Hg Hr) as (s1 & s2 & _ & E & _ & _ & _ & _ & Hg2).
      rewrite E in Hex. by simplify_eq.
  - eapply steps_ginv; [|exact Hg]. eapply exec_steps; [by apply ginv_wf|done..].
Qed.

Lemma exec_all_ginv ops s s' : ginv s -> exec_all ops s = Ok s' -> ginv s'.
Proof.
  revert s. induction ops as [|o ops IH]; intros s Hg; cbn; [by intros [= <-]|].
  intros Hex. apply bind_Ok_inv in Hex as (s1 & H1 & H2). eauto using exec_ginv.
Qed.

(** No operation writes the store of the transaction before the commit. *)
Lemma revert_entry_store e s s1 : revert_entry e s = Ok s1 -> ctx_store s1 = ctx_store s.
Proof.
  assert (Hup : forall a f, update_object a f s = Ok s1 -> ctx_store s1 = ctx_store s).
  { intros a f. unfold update_object. destruct (getStateObject a s) as [[o|] t] eqn:E; [|done].
    apply getStateObject_cases in E as (_ & _ & _ & _ & _ & _ & _ & ? & _). by intros [= <-]. }
  destruct e; cbn; try apply Hup; try (by intros [= <-]).
  - destruct (getStateObject account s) as [[o|] t] eqn:E; intros [= <-];
      by apply getStateObject_cases in E as (_ & _ & _ & _ & _ & _ & _ & ? & _).
  - case_match; [done|]. by intros [= <-].
  - intros. by inv_ok.
Qed.

Lemma undo_to_store es s s1 : undo_to es s s1 -> ctx_store s1 = ctx_store s.
Proof.
  revert s. induction es as [|e es IH]; cbn; intros s; [by intros ->|].
  intros (t & Ht & Hu). apply revert_entry_store in Ht. by rewrite (IH _ Hu).
Qed.

Lemma steps_store s s1 : rtc step s s1 -> ctx_store s1 = ctx_store s.
Proof.
  induction 1 as [|s t u Hs _ IH]; [done|]. rewrite IH.
  destruct Hs as [t _ _ _ Hle|e t t' _ _ Hr Hle _ _ _]; [symmetry; apply Hle|].
  apply revert_entry_store in Hr. rewrite (sl_store _ _ Hle). done.
Qed.

Lemma exec_store o s s1 : ginv s -> exec o s = Ok s1 -> ctx_store s1 = ctx_store s.
Proof.
  intros Hg Hex. destruct (is_revision_op o) eqn:Ho.
  - destruct o; try discriminate Ho; cbn in Hex; simplify_eq; [done|].
    destruct (RevertToSnapshot_valid _ _ _ Hex) as (i & r & Hr & <-).
    destruct (RevertToSnapshot_ok s i r Hg Hr) as (t & s2 & Hu & E & Hle & _).
    rewrite E in Hex. simplify_eq. rewrite <-(sl_store _ _ Hle). by eapply undo_to_store.
  - eapply steps_store, exec_steps; [by apply ginv_wf|done..].
Qed.

Lemma exec_all_store ops s s1 : ginv s -> exec_all ops s = Ok s1 -> ctx_store s1 = ctx_store s.
Proof.
  revert s. induction ops as [|o ops IH]; intros s Hg; cbn; [by intros [= <-]|].
  intros Hex. apply bind_Ok_inv in Hex as (t & Ht & Hex).
  rewrite (IH t), (exec_store _ _ _ Hg Ht); eauto using exec_ginv.
Qed.

(** ** What happened since a snapshot *)

Record since b (id : Z) s : Prop := {
  since_undo : exists es s', entries s = entries b ++ es /\
    undo_to (reverse es) s s' /\ sdb_le b s';
  since_revs : exists rs,
    validRevisions s = validRevisions b ++ mkRevision id (length (entries b)) :: rs
}.

Lemma since_Snapshot b : since b (Snapshot b).1 (Snapshot b).2.
Proof.
  split.
  - exists [], (Snapshot b).2. rewrite app_nil_r. split_and!; [done|done|by split].
  - by exists [].
Qed.

Lemma since_step b id s s1 : step s s1 -> since b id s -> since b id s1.
Proof.
  intros Hs [(es & t & He & Hu & Hle) (rs & Hrs)].
  destruct Hs as [s1 Hj [Hv _] _ Hle1|e s1 s2 Hj [Hv _] Hr Hle2].
  - destruct (undo_to_mono _ _ _ _ Hle1 Hu) as (t1 & Hu1 & Hle').
    split; [|exists rs; by rewrite Hv]. exists es, t1. unfold entries in *. rewrite Hj.
    split_and!; [done|done|by etransitivity].
  - destruct (undo_to_mono _ _ _ _ Hle2 Hu) as (t1 & Hu1 & Hle').
    split; [|exists rs; by rewrite Hv]. exists (es ++ [e]), t1. unfold entries in *. rewrite Hj.
    cbn [j_entries journal_append]. rewrite He, app_assoc, reverse_snoc.
    split_and!; [done|cbn; eauto|by etransitivity].
Qed.

Lemma since_steps b id s s1 : rtc step s s1 -> since b id s -> since b id s1.
Proof. induction 1; eauto using since_step. Qed.

Lemma since_Snapshot_inner b id s : since b id s -> since b id (Snapshot s).2.
Proof.
  intros [(es & t & He & Hu & Hle) (rs & Hrs)]. split.
  - assert (Hle0 : sdb_le s (Snapshot s).2) by (by split).
    destruct (undo_to_mono _ _ _ _ Hle0 Hu) as (t1 & Hu1 & Hle').
    exists es, t1. split_and!; [done|done|by etransitivity].
  - eexists. cbn. rewrite Hrs, <-app_assoc. done.
Qed.

(** Reverting to a revision taken after the snapshot. *)
Lemma since_Revert b id id' s s1 :
  ginv s -> since b id s -> id < id' -> RevertToSnapshot id' s = Ok s1 -> since b id s1.
Proof.
  intros Hg [(es & t & He & Hu & Hle) (rs & Hrs)] Hid Hrev.
  destruct (RevertToSnapshot_valid _ _ _ Hrev) as (i & r & Hr & <-).
  destruct (RevertToSnapshot_ok s i r Hg Hr)
    as (u & s2 & Hu2 & E & Hle2 & He2 & Hv2 & _ & _). rewrite E in Hrev. simplify_eq.
  set (m := length (validRevisions b)) in *.
  assert (Hm : validRevisions s !! m = Some (mkRevision id (length (entries b)))).
  { rewrite Hrs, lookup_app_r by lia. by rewrite Nat.sub_diag. }
  assert (Hmi : (m < i)%nat).
  { destruct (Nat.lt_trichotomy i m) as [Hlt|[->|]]; [| |done].
    - destruct (ro_sorted _ _ _ (gi_revs _ Hg) i m r _ Hr Hm Hlt). cbn in *. lia.
    - rewrite Hm in Hr. simplify_eq/=. lia. }
  destruct (ro_sorted _ _ _ (gi_revs _ Hg) m i _ r Hm Hr Hmi) as [_ Hidx]. cbn in Hidx.
  set (n := rev_journalIndex r) in *. split.
  - assert (Hes : entries s1 = entries b ++ take (n - length (entries b)) es).
    { rewrite He2, He. by rewrite take_app_ge by lia. }
    rewrite He, drop_app_ge in Hu2 by lia.
    rewrite <-(take_drop (n - length (entries b)) es), reverse_app in Hu.
    apply undo_to_app in Hu as (u' & Hu' & Hrest).
    assert (u' = u) as -> by (by eapply undo_to_det).
    destruct (undo_to_mono _ _ _ _ Hle2 Hrest) as (t2 & Ht2 & Hle').
    exists (take (n - length (entries b)) es), t2. split_and!; [done|done|by etransitivity].
  - rewrite Hv2, Hrs. destruct (i - m)%nat as [|k] eqn:Ek; [lia|].
    exists (take k rs). rewrite take_app_ge by lia. fold m. by rewrite Ek.
Qed.

(** A run that keeps to the revisions it takes itself. *)
Definition reverts_above (id : Z) (o : op) : Prop :=
  match o with OpRevertToSnapshot id' => id < id' | _ => True end.

Lemma exec_since b id o s s1 :
  ginv s -> reverts_above id o -> since b id s -> exec o s = Ok s1 -> since b id s1.
Proof.
  intros Hg Hr Hsi Hex. destruct (is_revision_op o) eqn:Ho.
  - destruct o; try discriminate Ho; cbn in *; simplify_eq.
    + by apply since_Snapshot_inner.
    + by eapply since_Revert.
  - eapply since_steps; [|exact Hsi]. eapply exec_steps; [by apply ginv_wf|done..].
Qed.

Lemma exec_all_since b id ops s s1 :
  ginv s -> Forall (reverts_above id) ops -> since b id s -> exec_all ops s = Ok s1 ->
  since b id s1 /\ ginv s1.
Proof.
  revert s. induction ops as [|o ops IH]; intros s Hg Hf Hsi; cbn; [intros [= <-]; done|].
  inversion Hf; subst. intros Hex. apply bind_Ok_inv in Hex as (t & H1' & H2').
  eapply IH; [by eapply exec_ginv|done|by eapply exec_since|done].
Qed.

(** ** What the EVM reads *)

Record same_reads b s : Prop := {
  sr_exist : forall a, (Exist a s).1 = (Exist a b).1;
  sr_empty : forall a, (Empty a s).1 = (Empty a b).1;
  sr_balance : forall a, (GetBalance a s).1 = (GetBalance a b).1;
  sr_nonce : forall a, (GetNonce a s).1 = (GetNonce a b).1;
  sr_codehash : forall a, (GetCodeHash a s).1 = (GetCodeHash a b).1;
  sr_code : forall a, (GetCode a s).1 = (GetCode a b).1;
  sr_state : forall a k, (GetState a k s).1 = (GetState a k b).1;
  sr_committed : forall a k, (GetCommittedState a k s).1 = (GetCommittedState a k b).1;
  sr_suicided : forall a, (HasSuicided a s).1 = (HasSuicided a b).1;
  sr_refund : refund s = refund b;
  sr_logs : logs s = logs b;
  sr_accessList : accessList_ s = accessList_ b;
  sr_cache : cache_view s = cache_view b
}.

Lemma read_eq {A} (f : store -> stateObject -> A) (d : A) a b s :
  sdb_le b s -> (forall st o1 o2, obj_eqv st o1 o2 -> f st o1 = f st o2) ->
  match (getStateObject a s).1 with Some o => f (ctx_store s) o | None => d end =
  match (getStateObject a b).1 with Some o => f (ctx_store b) o | None => d end.
Proof.
  intros Hle Hf. rewrite !getStateObject_lookup, <-(sl_store _ _ Hle).
  destruct (sl_objs _ _ Hle a); [symmetry; by apply Hf|done].
Qed.

Lemma sdb_le_reads b s : sdb_le b s -> same_reads b s.
Proof.
  intros Hle.
  assert (Hst : forall a t, ctx_store (getStateObject a t).2 = ctx_store (t : SDB)).
  { intros a t. symmetry. apply getStateObject_le. }
  split; try (symmetry; apply Hle).
  1: intros a; pose proof (read_eq (fun _ _ => true) false a b s Hle ltac:(done)) as Hr.
  2: intros a; pose proof (read_eq (fun _ o => so_empty o) true a b s Hle
       ltac:(intros ? ? ? []; unfold so_empty; congruence)) as Hr.
  3: intros a; pose proof (read_eq (fun _ o => av_Balance (so_account o)) 0 a b s Hle
       ltac:(intros ? ? ? []; congruence)) as Hr.
  4: intros a; pose proof (read_eq (fun _ o => av_Nonce (so_account o)) 0 a b s Hle
       ltac:(intros ? ? ? []; congruence)) as Hr.
  5: intros a; pose proof (read_eq (fun _ o => av_CodeHash (so_account o)) 0 a b s Hle
       ltac:(intros ? ? ? []; congruence)) as Hr.
  6: intros a; pose proof (read_eq code_of None a b s Hle
       ltac:(intros ? ? ? []; congruence)) as Hr.
  7: intros a k; pose proof (read_eq (fun st o => state_of st o k) 0 a b s Hle
       ltac:(intros ? ? ? []; congruence)) as Hr.
  8: intros a k; pose proof (read_eq (fun st o => committed_of st o k) 0 a b s Hle
       ltac:(intros ? ? ? []; congruence)) as Hr.
  9: intros a; pose proof (read_eq (fun _ o => so_suicided o) false a b s Hle
       ltac:(intros ? ? ? []; congruence)) as Hr.
  all: pose proof (Hst a s) as Hs1; pose proof (Hst a b) as Hs2;
    unfold Exist, Empty, GetBalance, GetNonce, GetCodeHash, GetCode, GetState,
      GetCommittedState, HasSuicided, code_of, state_of, committed_of in *;
    destruct (getStateObject a s) as [[o1|] t1], (getStateObject a b) as [[o2|] t2];
    cbn in *; rewrite ?Hs1, ?Hs2 in *;
    try (destruct (so_Code _ o1)); try (destruct (so_Code _ o2));
    try (destruct (so_GetState _ _ o1)); try (destruct (so_GetState _ _ o2));
    try (destruct (so_GetCommittedState _ _ o1)); try (destruct (so_GetCommittedState _ _ o2));
    cbn in *; try done; try congruence.
Qed.
End Trace.
