(* ===== verification/StateDBCommit.v ===== *)
(** * Committing the state database ([StateDB.Commit], [commitWithCtx])

    [KeeperLaws] is what the state database relies on from its [Keeper]: a
    write that succeeds is read back and changes nothing else. Under these laws
    a successful commit stores exactly the dirty objects ([commit_dirties_spec])
    provided the objects are [good]: their balances have no decimals the bank
    cannot hold, their slots are 256-bit words and their code hash is the hash
    of their code. [good_state] extends this to the values kept in the journal,
    and every operation preserves it. *)

From stdpp Require Import base gmap list numbers strings sorting relations.
From Stdlib Require Import ZArith Lia.
From S2P Require Import Prelude SdkMath Scaling AccessList StateDB Precompile StateDBRevert StateDBSnapshot StateDBTrace.

Definition is_word (v : Z) : Prop := 0 <= v < 2 ^ 256.

(** an EVM amount the bank can represent *)
Definition adjusted `{!EvmEnv} (v : Z) : Prop := AdjustExtraDecimalsBigInt coinCfg v = v.

Class KeeperLaws (store : Type) `{!Keeper store} `{!EvmEnv} := {
  kl_GetAccount : forall st a acct, k_GetAccount st a = Some acct ->
    exists v, acct = to_Account v /\ adjusted (av_Balance v);
  kl_GetState : forall st a k, is_word (k_GetState st a k);
  kl_SetAccount : forall st a v st',
    adjusted (av_Balance v) -> is_word (av_Balance v) ->
    k_SetAccount st a (to_Account v) = (st', Ok ()) ->
    k_GetAccount st' a = Some (to_Account v) /\
    (forall b, b <> a -> k_GetAccount st' b = k_GetAccount st b) /\
    (forall b k, k_GetState st' b k = k_GetState st b k) /\
    (forall h, k_GetCode st' h = k_GetCode st h);
  kl_DeleteAccount : forall st a st', k_DeleteAccount st a = (st', Ok ()) ->
    k_GetAccount st' a = None /\
    (forall b, b <> a -> k_GetAccount st' b = k_GetAccount st b) /\
    (forall b k, b <> a -> k_GetState st' b k = k_GetState st b k) /\
    (forall h, k_GetCode st' h = k_GetCode st h);
  kl_SetState : forall st a k v,
    k_GetState (k_SetState st a k v) a k = be_value v `mod` 2 ^ 256 /\
    (forall b k', (b, k') <> (a, k) -> k_GetState (k_SetState st a k v) b k' = k_GetState st b k') /\
    (forall b, k_GetAccount (k_SetState st a k v) b = k_GetAccount st b) /\
    (forall h, k_GetCode (k_SetState st a k v) h = k_GetCode st h);
  kl_SetCode : forall st h c,
    k_GetCode (k_SetCode st h c) h = Some c /\
    (forall h', h' <> h -> k_GetCode (k_SetCode st h c) h' = k_GetCode st h') /\
    (forall b, k_GetAccount (k_SetCode st h c) b = k_GetAccount st b) /\
    (forall b k, k_GetState (k_SetCode st h c) b k = k_GetState st b k);
  kl_DeleteCode : forall st h,
    k_GetCode (k_DeleteCode st h) h = None /\
    (forall h', h' <> h -> k_GetCode (k_DeleteCode st h) h' = k_GetCode st h') /\
    (forall b, k_GetAccount (k_DeleteCode st h) b = k_GetAccount st b) /\
    (forall b k, k_GetState (k_DeleteCode st h) b k = k_GetState st b k)
}.

Section Commit.
Context {store event : Type} `{!Keeper store} `{!MultiStore store} `{!EvmEnv}.
Context `{!KeeperLaws store}.
Abbreviation SDB := (@StateDB store event).
Implicit Types (s : SDB) (o : stateObject) (a b : address) (st : store).

(** ** Objects that can be committed *)

(** The code of an object hashes to its code hash. The code is [None] when it
    has not been loaded. *)
Record good_obj o : Prop := {
  go_balance : adjusted (av_Balance (so_account o));
  go_storage : forall k v, so_dirtyStorage o !! k = Some v -> is_word v;
  go_origin : forall k v, so_originStorage o !! k = Some v -> is_word v;
  go_code : forall c, so_code o = Some c -> av_CodeHash (so_account o) = keccak c
}.

(** ** One object *)

Lemma be_bytes_32_cons v : exists b bs, be_bytes 32 v = b :: bs.
Proof.
  pose proof (be_bytes_length 32 v) as Hl. destruct (be_bytes 32 v); [done|eauto].
Qed.

Lemma commit_storage_spec a (m : gmap hash hash) keys st :
  (forall k v, m !! k = Some v -> is_word v) -> NoDup keys ->
  let st' := commit_storage a m keys st in
  (forall b k, k_GetState st' b k =
     if decide (b = a /\ k ∈ keys) then default 0 (m !! k) else k_GetState st b k) /\
  (forall b, k_GetAccount st' b = k_GetAccount st b) /\
  (forall h, k_GetCode st' h = k_GetCode st h).
Proof.
  intros Hm. revert st. induction keys as [|key keys IH]; intros st Hnd; cbn [commit_storage].
  { split_and!; try done. intros b k. case_decide as E; [|done].
    destruct E as [_ E]. by apply elem_of_nil in E. }
  inversion Hnd as [|? ? Hnin Hnd']; subst.
  destruct (be_bytes_32_cons (default 0 (m !! key))) as (x & xs & Hb). rewrite Hb. rewrite <-Hb.
  destruct (kl_SetState st a key (be_bytes 32 (default 0 (m !! key)))) as (H1 & H2 & H3 & H4).
  destruct (IH (k_SetState st a key (be_bytes 32 (default 0 (m !! key)))) Hnd') as (I1 & I2 & I3).
  split_and!; [|intros; by rewrite I2|intros; by rewrite I3].
  assert (Hw : is_word (default 0 (m !! key))).
  { destruct (m !! key) eqn:E; cbn; [by eapply Hm|]. unfold is_word. lia. }
  assert (Hv : k_GetState (k_SetState st a key (be_bytes 32 (default 0 (m !! key)))) a key
    = default 0 (m !! key)).
  { rewrite H1, be_value_bytes; [apply Z.mod_small, Hw|]. exact Hw. }
  intros b k. rewrite I1.
  destruct (decide (b = a /\ k ∈ keys)) as [[-> Hk]|Hn].
  - rewrite decide_True; [done|]. split; [done|]. by right.
  - destruct (decide (b = a /\ k = key)) as [[-> ->]|Hne].
    + rewrite decide_True; [done|]. split; [done|]. by left.
    + rewrite decide_False, H2; [done|by intros [= -> ->]; destruct Hne|].
      intros [-> [->|Hk]%elem_of_cons]; [by destruct Hne|by destruct Hn].
Qed.

Lemma SortedKeys_NoDup (m : gmap hash hash) : NoDup (SortedKeys m).
Proof. unfold SortedKeys. rewrite merge_sort_Permutation. apply NoDup_elements. Qed.

Lemma elem_of_SortedKeys (m : gmap hash hash) k : k ∈ SortedKeys m <-> is_Some (m !! k).
Proof.
  unfold SortedKeys. rewrite merge_sort_Permutation, elem_of_elements. apply elem_of_dom.
Qed.

(** what the store holds for an object after it is committed *)
Record persisted (st0 st : store) o : Prop := {
  ps_account : k_GetAccount st (so_address o) =
    if so_suicided o then None else Some (to_Account (so_account o));
  ps_state : so_suicided o = false -> forall k,
    k_GetState st (so_address o) k =
      default (k_GetState st0 (so_address o) k) (so_dirtyStorage o !! k)
}.

(** the code writes of the loop body *)
Definition commit_code o st : store :=
  match so_code o with
  | Some code =>
      if so_dirtyCode o then
        match code with
        | [] => k_DeleteCode st (av_CodeHash (so_account o))
        | _ => k_SetCode st (av_CodeHash (so_account o)) code
        end
      else st
  | None => st
  end.

Lemma commit_code_frame o st :
  (forall b, k_GetAccount (commit_code o st) b = k_GetAccount st b) /\
  (forall b k, k_GetState (commit_code o st) b k = k_GetState st b k).
Proof.
  unfold commit_code. destruct (so_code o) as [[|x c]|]; [| |done].
  - case_match; [|done]. by destruct (kl_DeleteCode st (av_CodeHash (so_account o))) as (_ & _ & ? & ?).
  - case_match; [|done].
    by destruct (kl_SetCode st (av_CodeHash (so_account o)) (x :: c)) as (_ & _ & ? & ?).
Qed.

Lemma commit_object_spec o st st' :
  good_obj o -> is_word (av_Balance (so_account o)) -> commit_object o st = (st', Ok ()) ->
  persisted st st' o /\
  (forall b, b <> so_address o -> k_GetAccount st' b = k_GetAccount st b) /\
  (forall b k, b <> so_address o -> k_GetState st' b k = k_GetState st b k) /\
  (forall h, k_GetCode st' h =
     if so_suicided o then k_GetCode st h else k_GetCode (commit_code o st) h).
Proof.
  intros Hg Hw. unfold commit_object. fold (commit_code o st).
  destruct (so_suicided o) eqn:Hs.
  { intros Hd. destruct (kl_DeleteAccount _ _ _ Hd) as (H1 & H2 & H3 & H4).
    split_and!; try done. split; rewrite Hs; done. }
  destruct (commit_code_frame o st) as [Hca Hcs].
  destruct (k_SetAccount (commit_code o st) (so_address o) _) as [st1 r] eqn:E.
  destruct r as [[]| |]; [|intros [= ]..]. intros [= <-].
  destruct (kl_SetAccount _ _ _ _ (go_balance _ Hg) Hw E) as (H1 & H2 & H3 & H4).
  destruct (commit_storage_spec (so_address o) (so_dirtyStorage o)
    (SortedKeys (so_dirtyStorage o)) st1 (go_storage _ Hg) (SortedKeys_NoDup _)) as (I1 & I2 & I3).
  split_and!.
  - split; rewrite Hs; [by rewrite I2|]. intros _ k. rewrite I1.
    destruct (so_dirtyStorage o !! k) eqn:Ek; cbn.
    + rewrite decide_True; [done|]. split; [done|]. apply elem_of_SortedKeys. eauto.
    + rewrite decide_False, H3, Hcs; [done|]. intros [_ Hk%elem_of_SortedKeys].
      rewrite Ek in Hk. by destruct Hk.
  - intros b Hb. by rewrite I2, H2, Hca.
  - intros b k Hb. rewrite I1, decide_False, H3, Hcs; [done|naive_solver].
  - intros h. by rewrite I3, H4.
Qed.

(** ** All dirty objects *)

Definition commit_codes (objs : gmap address stateObject) (addrs : list address) : list stateObject :=
  omap (fun a => objs !! a) addrs.

Lemma commit_dirties_spec objs addrs st st' :
  (forall a o, objs !! a = Some o -> so_address o = a) ->
  (forall a o, a ∈ addrs -> objs !! a = Some o -> good_obj o /\ is_word (av_Balance (so_account o))) ->
  NoDup addrs -> commit_dirties objs addrs st = (st', Ok ()) ->
  (forall a, a ∈ addrs -> exists o, objs !! a = Some o /\ persisted st st' o) /\
  (forall b, b ∉ addrs -> k_GetAccount st' b = k_GetAccount st b) /\
  (forall b k, b ∉ addrs -> k_GetState st' b k = k_GetState st b k).
Proof.
  intros Ha. revert st. induction addrs as [|a addrs IH]; intros st Hg Hnd; cbn [commit_dirties].
  { intros [= <-]. split_and!; try done. intros a Hin. by apply elem_of_nil in Hin. }
  inversion Hnd as [|? ? Hnin Hnd']; subst.
  destruct (objs !! a) as [o|] eqn:Eo; [|done].
  destruct (commit_object o st) as [st1 [[]| |]] eqn:Ec; [|done..]. intros Hc.
  destruct (Hg a o ltac:(by left) Eo) as [Hgo Hw].
  destruct (commit_object_spec o st st1 Hgo Hw Ec) as (P1 & P2 & P3 & P4).
  destruct (IH st1) as (I1 & I2 & I3); [|done|done|].
  { intros a' o' Hin. apply Hg. by right. }
  pose proof (Ha a o Eo) as Hao.
  split_and!.
  - intros x [->|Hx]%elem_of_cons.
    + exists o. split; [done|]. destruct P1 as [Q1 Q2]. rewrite Hao in Q1, Q2.
      split; rewrite Hao; [by rewrite I2|]. intros Hs k. rewrite I3 by done. by apply Q2.
    + destruct (I1 x Hx) as (o' & Eo' & [Q1 Q2]). exists o'. split; [done|].
      split; [done|]. intros Hs k. rewrite Q2 by done. rewrite P3; [done|].
      rewrite (Ha _ _ Eo'), Hao. intros ->. done.
  - intros b Hb. rewrite not_elem_of_cons in Hb. destruct Hb as [Hb1 Hb2].
    rewrite I2, P2; [done| |done]. by rewrite Hao.
  - intros b k Hb. rewrite not_elem_of_cons in Hb. destruct Hb as [Hb1 Hb2].
    rewrite I3, P3; [done| |done]. by rewrite Hao.
Qed.

(** ** Codes *)

(** every stored code is stored under its hash *)
Definition code_ok st : Prop := forall h c, k_GetCode st h = Some c -> h = keccak c.

(** the code hashes, the empty one apart, that can be loaded *)
Definition has_code st (h : hash) : Prop :=
  IsEmptyCodeHash h = true \/ is_Some (k_GetCode st h).

Lemma IsEmptyCodeHash_empty : IsEmptyCodeHash (keccak []) = true.
Proof. apply Z.eqb_refl. Qed.

Lemma commit_code_ok o st :
  good_obj o -> code_ok st ->
  code_ok (commit_code o st) /\ (forall h, has_code st h -> has_code (commit_code o st) h) /\
  (so_dirtyCode o = true -> is_Some (so_code o) ->
   has_code (commit_code o st) (av_CodeHash (so_account o))).
Proof.
  intros Hg Hok. unfold commit_code. destruct (so_code o) as [[|x c]|] eqn:Ec.
  - rewrite (go_code _ Hg _ Ec). destruct (so_dirtyCode o); [|done].
    destruct (kl_DeleteCode st (keccak [])) as (D0 & D1 & _). split_and!.
    + intros h c. destruct (decide (h = keccak [])) as [->|Hne]; [by rewrite D0|].
      rewrite D1 by done. apply Hok.
    + intros h [Hh|Hh]; [by left|].
      destruct (decide (h = keccak [])) as [->|Hne]; [left; apply IsEmptyCodeHash_empty|].
      right. by rewrite D1.
    + left. apply IsEmptyCodeHash_empty.
  - rewrite (go_code _ Hg _ Ec). destruct (so_dirtyCode o); [|done].
    destruct (kl_SetCode st (keccak (x :: c)) (x :: c)) as (D0 & D1 & _). split_and!.
    + intros h c'. destruct (decide (h = keccak (x :: c))) as [->|Hne]; [rewrite D0; by intros [= <-]|].
      rewrite D1 by done. apply Hok.
    + intros h [Hh|Hh]; [by left|]. right.
      destruct (decide (h = keccak (x :: c))) as [->|Hne]; [by rewrite D0|by rewrite D1].
    + right. by rewrite D0.
  - by split_and!.
Qed.

Lemma commit_dirties_code objs addrs st st' :
  (forall a o, a ∈ addrs -> objs !! a = Some o -> good_obj o /\ is_word (av_Balance (so_account o))) ->
  code_ok st -> commit_dirties objs addrs st = (st', Ok ()) ->
  code_ok st' /\ (forall h, has_code st h -> has_code st' h) /\
  (forall a o, a ∈ addrs -> objs !! a = Some o -> so_suicided o = false ->
     so_dirtyCode o = true -> is_Some (so_code o) -> has_code st' (av_CodeHash (so_account o))).
Proof.
  revert st. induction addrs as [|a addrs IH]; intros st Hg Hok; cbn [commit_dirties].
  { intros [= <-]. split_and!; try done. intros a o Hin. by apply elem_of_nil in Hin. }
  destruct (objs !! a) as [o|] eqn:Eo; [|done].
  destruct (commit_object o st) as [st1 [[]| |]] eqn:Ec; [|done..]. intros Hc.
  destruct (Hg a o ltac:(by left) Eo) as [Hgo Hw].
  destruct (commit_object_spec o st st1 Hgo Hw Ec) as (_ & _ & _ & P4).
  destruct (commit_code_ok o st Hgo Hok) as (C1 & C2 & C3).
  assert (Hok1 : code_ok st1 /\ (forall h, has_code st h -> has_code st1 h) /\
    (so_suicided o = false -> forall h, has_code (commit_code o st) h -> has_code st1 h)).
  { unfold code_ok, has_code in *. split_and!.
    - intros h c. rewrite P4. case_match; [apply Hok|apply C1].
    - intros h Hh. rewrite P4. case_match; [done|by apply C2].
    - intros Hs h. by rewrite P4, Hs. }
  destruct Hok1 as (O1 & O2 & O3).
  destruct (IH st1) as (I1 & I2 & I3); [|done|done|].
  { intros a' o' Hin. apply Hg. by right. }
  split_and!; [done|by auto|].
  intros x o' [->|Hx]%elem_of_cons Ho' Hs Hd Hcode; [|by eapply I3].
  rewrite Eo in Ho'. simplify_eq. auto.
Qed.

(** the store the dirty objects are committed to: the one of the transaction,
    after the writes of the precompile calls are flushed to it *)
Definition base_store s : store :=
  match writeCache s, cacheCtx s with
  | Some _, Some cc => ms_Write (cc_multiStore cc) (ctx_store s)
  | _, _ => ctx_store s
  end.

Lemma Commit_base s :
  exists evs, Commit s = let '(st, r) := commitWithCtx s (base_store s) in
    (set_ctx st evs s, r).
Proof.
  unfold Commit, base_store, run_writeCache, commitWithCtx.
  destruct (writeCache s); [|by exists (ctx_events s)].
  destruct (cacheCtx s) as [cc|]; [|by exists (ctx_events s)].
  eexists. cbn. by destruct (commit_dirties _ _ _).
Qed.

(** ** [sortedDirties] *)

Lemma sortedDirties_NoDup (j : @journal store event) : NoDup (sortedDirties j).
Proof. unfold sortedDirties. rewrite merge_sort_Permutation. apply NoDup_elements. Qed.

Lemma elem_of_sortedDirties (j : @journal store event) a :
  a ∈ sortedDirties j <-> is_Some (j_dirties j !! a).
Proof.
  unfold sortedDirties. rewrite merge_sort_Permutation, elem_of_elements. apply elem_of_dom.
Qed.

(** Every dirty address of a reachable state has a live object. *)
Lemma ginv_dirty_live s a : ginv s -> a ∈ sortedDirties (sdb_journal s) -> live s a.
Proof.
  intros Hg Hd%elem_of_sortedDirties. rewrite (gi_dirties _ Hg) in Hd.
  apply dirties_of_elem in Hd as (e & He & Hda). eapply undoable_live; [apply (gi_undo _ Hg)| |done].
  by apply elem_of_reverse.
Qed.

(** ** Every operation keeps the state [good] *)

(** the values a journal entry writes back *)
Definition good_entry (e : @JournalEntry store event) : Prop :=
  match e with
  | resetObjectChange prev => good_obj prev
  | suicideChange _ _ prevbalance => adjusted prevbalance
  | balanceChange _ prev => adjusted prev
  | storageChange _ _ prevalue => is_word prevalue
  | codeChange _ prevcode prevhash => forall c, prevcode = Some c -> prevhash = keccak c
  | _ => True
  end.

Record good_state s : Prop := {
  gs_code : code_ok (ctx_store s);
  gs_objs : forall a o, stateObjects s !! a = Some o -> good_obj o;
  gs_entries : forall e, e ∈ entries s -> good_entry e
}.

Lemma adjusted_0 : adjusted 0.
Proof. done. Qed.

Lemma adjusted_add x y : adjusted x -> adjusted (x + AdjustExtraDecimalsBigInt coinCfg y).
Proof.
  unfold adjusted. rewrite !AdjustExtraDecimalsBigInt_eq. pose proof (factor_pos coinCfg).
  intros <-. rewrite <-Z.mul_add_distr_r, Z.quot_mul by lia. done.
Qed.

Lemma adjusted_sub x y : adjusted x -> adjusted (x - AdjustExtraDecimalsBigInt coinCfg y).
Proof.
  unfold adjusted. rewrite !AdjustExtraDecimalsBigInt_eq. pose proof (factor_pos coinCfg).
  intros <-. rewrite <-Z.mul_sub_distr_r, Z.quot_mul by lia. done.
Qed.

Lemma good_new a : good_obj (newObject a (mkAccount 0 None None)).
Proof. split; cbn; try done. Qed.

Lemma good_load st a acct : k_GetAccount st a = Some acct -> good_obj (newObject a acct).
Proof. intros Hk. destruct (kl_GetAccount _ _ _ Hk) as (v & -> & Hv). split; cbn; done. Qed.

Lemma good_setBalance v o : adjusted v -> good_obj o -> good_obj (setBalance v o).
Proof. intros Hv []. by split. Qed.

Lemma good_setNonce v o : good_obj o -> good_obj (setNonce v o).
Proof. intros []. by split. Qed.

Lemma good_set_suicided (x : bool) o : good_obj o -> good_obj (set_suicided x o).
Proof. intros []. by split. Qed.

Lemma good_setCode h c o :
  (forall x, c = Some x -> h = keccak x) -> good_obj o -> good_obj (setCode h c o).
Proof. intros Hh []. by split. Qed.

Lemma good_setState k v o : is_word v -> good_obj o -> good_obj (setState k v o).
Proof.
  intros Hv []. split; cbn; try done. intros k' v'. rewrite lookup_insert.
  case_decide; [by intros [= <-]|apply go_storage0].
Qed.

Lemma good_so_Code st o c o' :
  code_ok st -> good_obj o -> so_Code st o = (c, o') ->
  good_obj o' /\ so_address o' = so_address o /\ so_account o' = so_account o /\
  (forall x, c = Some x -> av_CodeHash (so_account o) = keccak x).
Proof.
  intros Hok [H1 H2 H3 H4]. unfold so_Code. destruct (so_code o) eqn:Ec.
  { intros [= <- <-]. split_and!; [by split; rewrite ?Ec|done|done|]. exact H4. }
  case_match; intros [= <- <-]; (split_and!; try done); try (intros x Hx; by apply Hok).
  all: split; cbn; try done; rewrite ?Ec; try done. intros x Hx. by apply Hok.
Qed.

Lemma good_so_GetCommittedState st k o v o' :
  good_obj o -> so_GetCommittedState st k o = (v, o') ->
  good_obj o' /\ so_address o' = so_address o /\ is_word v.
Proof.
  intros [H1 H2 H3 H4]. unfold so_GetCommittedState. case_match eqn:Ek; intros [= <- <-].
  { split_and!; try done. by eapply H3. }
  pose proof (kl_GetState st (so_address o) k). split_and!; try done. split; cbn; try done.
  intros k' v'. rewrite lookup_insert. case_decide; [by intros [= <-]|apply H3].
Qed.

Lemma good_so_GetState st k o v o' :
  good_obj o -> so_GetState st k o = (v, o') ->
  good_obj o' /\ so_address o' = so_address o /\ is_word v.
Proof.
  intros Hg. unfold so_GetState. case_match eqn:Ek; [|by apply good_so_GetCommittedState].
  intros [= <- <-]. split_and!; try done. by eapply Hg.
Qed.

Lemma good_setStateObject o s : good_obj o -> good_state s -> good_state (setStateObject o s).
Proof.
  intros Ho []. split; cbn; try done. intros a o'. rewrite lookup_insert.
  case_decide; [by intros [= <-]|apply gs_objs0].
Qed.

Lemma good_append_entry e s : good_entry e -> good_state s -> good_state (append_entry e s).
Proof.
  intros He []. split; cbn; try done. intros e'. unfold entries; cbn.
  intros [H1|H1%list_elem_of_singleton]%elem_of_app; [by apply gs_entries0|by subst].
Qed.

Lemma good_getStateObject a s (o : option stateObject) s1 :
  getStateObject a s = (o, s1) -> good_state s ->
  good_state s1 /\ (forall x, o = Some x -> good_obj x) /\ ctx_store s1 = ctx_store s.
Proof.
  unfold getStateObject. intros E Hs. repeat case_match; simplify_eq.
  - split_and!; [done| |done]. intros x [= <-]. by eapply Hs.
  - assert (good_obj (newObject a a0)) by (by eapply good_load).
    split_and!; [by apply good_setStateObject| |done]. by intros x [= <-].
  - split_and!; done.
Qed.

Lemma good_createObject a s o (p : option stateObject) s1 :
  createObject a s = (o, p, s1) -> good_state s ->
  good_state s1 /\ good_obj o /\ (forall x, p = Some x -> good_obj x) /\ so_address o = a /\
  ctx_store s1 = ctx_store s.
Proof.
  unfold createObject. destruct (getStateObject a s) as [q t] eqn:E. intros [= <- <- <-] Hs.
  destruct (good_getStateObject _ _ _ _ E Hs) as (Ht & Hq & Hst).
  split_and!; [|apply good_new|done|done|by destruct q].
  apply good_setStateObject; [apply good_new|]. destruct q; apply good_append_entry; cbn; auto.
Qed.

Lemma good_getOrNew a s o s1 :
  getOrNewStateObject a s = (o, s1) -> good_state s ->
  good_state s1 /\ good_obj o /\ ctx_store s1 = ctx_store s.
Proof.
  unfold getOrNewStateObject. destruct (getStateObject a s) as [[q|] t] eqn:E; intros Hr Hs;
    destruct (good_getStateObject _ _ _ _ E Hs) as (Ht & Hq & Hst).
  - simplify_eq. auto.
  - destruct (createObject a t) as [[o' p] t'] eqn:Ec. simplify_eq.
    destruct (good_createObject _ _ _ _ _ Ec Ht) as (? & ? & _ & _ & Hst').
    split_and!; [done|done|congruence].
Qed.

Lemma good_so_SetBalance v o s :
  adjusted v -> good_obj o -> good_state s -> good_state (so_SetBalance v o s).
Proof.
  intros. apply good_setStateObject; [by apply good_setBalance|].
  apply good_append_entry; [|done]. by apply go_balance.
Qed.

Lemma good_AddBalance a v s : good_state s -> good_state (AddBalance a v s).
Proof.
  intros Hs. unfold AddBalance. destruct (getOrNewStateObject a s) as [o t] eqn:E.
  destruct (good_getOrNew _ _ _ _ E Hs) as (Ht & Ho & _). unfold so_AddBalance. case_match; [done|].
  apply good_so_SetBalance; [|done..]. apply adjusted_add, Ho.
Qed.

Lemma good_SubBalance a v s : good_state s -> good_state (SubBalance a v s).
Proof.
  intros Hs. unfold SubBalance. destruct (getOrNewStateObject a s) as [o t] eqn:E.
  destruct (good_getOrNew _ _ _ _ E Hs) as (Ht & Ho & _). unfold so_SubBalance. case_match; [done|].
  apply good_so_SetBalance; [|done..]. apply adjusted_sub, Ho.
Qed.

Lemma good_SetNonce a n s : good_state s -> good_state (SetNonce a n s).
Proof.
  intros Hs. unfold SetNonce. destruct (getOrNewStateObject a s) as [o t] eqn:E.
  destruct (good_getOrNew _ _ _ _ E Hs) as (Ht & Ho & _).
  apply good_setStateObject; [by apply good_setNonce|]. by apply good_append_entry.
Qed.

Lemma good_SetCode a c s : good_state s -> good_state (SetCode a c s).
Proof.
  intros Hs. unfold SetCode, so_SetCode. destruct (getOrNewStateObject a s) as [o t] eqn:E.
  destruct (good_getOrNew _ _ _ _ E Hs) as (Ht & Ho & _).
  destruct (so_Code (ctx_store t) o) as [pc o'] eqn:Ec.
  destruct (good_so_Code _ _ _ _ (gs_code _ Ht) Ho Ec) as (Ho' & _ & Hacc & Hpc).
  apply good_setStateObject; [apply good_setCode; [by intros x ->|done]|].
  apply good_append_entry; [|done]. cbn. by rewrite Hacc.
Qed.

Lemma good_SetState a k v s : is_word v -> good_state s -> good_state (SetState a k v s).
Proof.
  intros Hv Hs. unfold SetState, so_SetState. destruct (getOrNewStateObject a s) as [o t] eqn:E.
  destruct (good_getOrNew _ _ _ _ E Hs) as (Ht & Ho & _).
  destruct (so_GetState (ctx_store t) k o) as [pv o'] eqn:Eg.
  destruct (good_so_GetState _ _ _ _ _ Ho Eg) as (Ho' & _ & Hpv).
  case_match; [by apply good_setStateObject|].
  apply good_setStateObject; [by apply good_setState|]. by apply good_append_entry.
Qed.

Lemma good_Suicide a s : good_state s -> good_state (Suicide a s).2.
Proof.
  intros Hs. unfold Suicide. destruct (getStateObject a s) as [[o|] t] eqn:E;
    destruct (good_getStateObject _ _ _ _ E Hs) as (Ht & Ho & _); [|done]. cbn.
  specialize (Ho o eq_refl).
  apply good_setStateObject; [by apply good_setBalance, good_set_suicided|].
  apply good_append_entry; [|done]. by apply go_balance.
Qed.

Lemma good_CreateAccount a s : good_state s -> good_state (CreateAccount a s).
Proof.
  intros Hs. unfold CreateAccount. destruct (createObject a s) as [[o p] t] eqn:E.
  destruct (good_createObject _ _ _ _ _ E Hs) as (Ht & Ho & Hp & _ & _). destruct p as [p|]; [|done].
  apply good_setStateObject; [|done]. apply good_setBalance; [|done]. by apply go_balance, Hp.
Qed.

(** States that differ in other fields only. *)
Lemma good_state_frame s t :
  ctx_store t = ctx_store s -> stateObjects t = stateObjects s -> entries t = entries s ->
  good_state s -> good_state t.
Proof. intros E1 E2 E3 []. split; by rewrite ?E1, ?E2, ?E3. Qed.

Lemma good_AddAddressToAccessList a s : good_state s -> good_state (AddAddressToAccessList a s).
Proof.
  intros Hs. unfold AddAddressToAccessList. destruct (AddAddress _ a) as [added al].
  assert (good_state (set_accessList al s)) by (by eapply good_state_frame; [..|exact Hs]).
  case_match; [by apply good_append_entry|done].
Qed.

Lemma good_AddSlotToAccessList a k s s1 :
  AddSlotToAccessList a k s = Ok s1 -> good_state s -> good_state s1.
Proof.
  unfold AddSlotToAccessList. intros Hr Hs.
  apply bind_Ok_inv in Hr as ([[am sm] al] & _ & Hr). injection Hr as <-.
  assert (good_state (set_accessList al s)) by (by eapply good_state_frame; [..|exact Hs]).
  destruct am, sm; repeat (apply good_append_entry; [done|]); done.
Qed.

Lemma good_AddAccessTuples l s s1 :
  AddAccessTuples l s = Ok s1 -> good_state s -> good_state s1.
Proof.
  assert (Hk : forall a keys t t1, AddSlotsToAccessList a keys t = Ok t1 -> good_state t -> good_state t1).
  { intros a keys. induction keys as [|key keys IH]; intros t t1; cbn; [by intros [= <-]|].
    intros Hr Ht. apply bind_Ok_inv in Hr as (u & H1 & H2). eauto using good_AddSlotToAccessList. }
  revert s. induction l as [|[a keys] l IH]; intros s; cbn; [by intros [= <-]|].
  intros Hr Hs. apply bind_Ok_inv in Hr as (u & H1 & H2).
  eauto using good_AddAddressToAccessList.
Qed.

Lemma good_PrepareAccessList sender dst pcs l s s1 :
  PrepareAccessList sender dst pcs l s = Ok s1 -> good_state s -> good_state s1.
Proof.
  unfold PrepareAccessList. intros Hr Hs. eapply good_AddAccessTuples; [exact Hr|]. clear Hr.
  assert (Hf : forall t, good_state t ->
    good_state (fold_left (fun t a => AddAddressToAccessList a t) pcs t)).
  { induction pcs as [|a pcs IH]; intros t Ht; cbn; [done|]. by apply IH, good_AddAddressToAccessList. }
  apply Hf. destruct dst; repeat apply good_AddAddressToAccessList; done.
Qed.

Lemma good_update_object a f s s1 :
  (forall o, good_obj o -> good_obj (f o)) -> update_object a f s = Ok s1 ->
  good_state s -> good_state s1.
Proof.
  intros Hf. unfold update_object. destruct (getStateObject a s) as [[o|] t] eqn:E; [|done].
  intros [= <-] Hs. destruct (good_getStateObject _ _ _ _ E Hs) as (Ht & Ho & _).
  apply good_setStateObject; auto.
Qed.

Lemma good_revert_entry e s s1 :
  good_entry e -> revert_entry e s = Ok s1 -> good_state s -> good_state s1.
Proof.
  intros He. destruct e; cbn in *.
  - intros [= <-] []. split; try done. cbn. intros a o. rewrite lookup_delete.
    case_decide; [done|apply gs_objs0].
  - intros [= <-]. by apply good_setStateObject.
  - destruct (getStateObject account s) as [[o|] t] eqn:E; intros [= <-] Hs;
      destruct (good_getStateObject _ _ _ _ E Hs) as (Ht & Ho & _); [|done].
    apply good_setStateObject; [|done]. by apply good_setBalance, good_set_suicided, Ho.
  - apply good_update_object. auto using good_setBalance.
  - apply good_update_object. auto using good_setNonce.
  - apply good_update_object. auto using good_setState.
  - apply good_update_object. auto using good_setCode.
  - intros [= <-]. by apply good_state_frame.
  - case_match; [done|]. intros [= <-]. by apply good_state_frame.
  - intros [= <-]. by apply good_state_frame.
  - intros Hr. apply bind_Ok_inv in Hr as (al & _ & Hr). injection Hr as <-. by apply good_state_frame.
  - intros [= <-]. by apply good_state_frame.
Qed.

Lemma good_revert_entries es s s1 :
  Forall good_entry es -> revert_entries es s = Ok s1 -> good_state s -> good_state s1.
Proof.
  intros Hes. revert s. induction Hes as [|e es He _ IH]; intros s; cbn [revert_entries].
  { by intros [= <-]. }
  intros Hr Hs. apply bind_Ok_inv in Hr as (t & H1 & H2). eapply IH; [exact H2|].
  apply (good_state_frame t); [done..|]. by eapply good_revert_entry.
Qed.

Lemma good_RevertToSnapshot id s s1 :
  RevertToSnapshot id s = Ok s1 -> good_state s -> good_state s1.
Proof.
  unfold RevertToSnapshot, journal_Revert. intros Hr Hs.
  destruct (validRevisions s !! _) as [r|]; [|done].
  case_match; [|done]. apply bind_Ok_inv in Hr as (t & Ht & Hr). injection Hr as <-.
  apply bind_Ok_inv in Ht as (u & Hu & Ht). case_match; [|done]. injection Ht as <-.
  apply good_revert_entries in Hu; [| |done].
  - destruct Hu as [U1 U2 U3]. split; try done. cbn. intros e He. apply U3.
    unfold entries in *. cbn in He. revert He. generalize (rev_journalIndex r). intros n He.
    rewrite <-(take_drop n (j_entries (sdb_journal u))). apply elem_of_app. by left.
  - apply Forall_forall. intros e He%elem_of_reverse. apply (gs_entries _ Hs).
    unfold entries. rewrite <-(take_drop (rev_journalIndex r) (j_entries (sdb_journal s))).
    apply elem_of_app. right. by rewrite reverse_involutive in He.
Qed.

Lemma good_AddBalanceEntries es s : good_state s -> good_state (AddBalanceEntries es s).
Proof.
  revert s. induction es as [|e es IH]; intros s Hs; cbn; [done|]. apply IH.
  case_match; [by apply good_SubBalance|by apply good_AddBalance].
Qed.

Lemma RunSetup_frame s s1 r :
  RunSetup s = (s1, r) ->
  ctx_store s1 = ctx_store s /\ stateObjects s1 = stateObjects s /\ entries s1 = entries s.
Proof.
  unfold RunSetup, GetCacheContext, MultiStoreSnapshot, CommitWithCacheCtx.
  unfold ensure_cache, cache. intros Hr.
  repeat (case_match; simplify_eq/=; try done).
Qed.

Lemma good_Run a act s : good_state s -> good_state (Run a act s).1.
Proof.
  intros Hs. unfold Run. destruct (RunSetup s) as [t r] eqn:E.
  apply RunSetup_frame in E as (E1 & E2 & E3).
  assert (Ht : good_state t) by (by eapply good_state_frame).
  destruct r as [sn| |]; [|done..]. destruct (cacheCtx t) as [cc|]; [|done].
  destruct (act _ _) as [[st evs] [es| |]]; cbn; try (by eapply good_state_frame; [..|exact Ht]).
  unfold AddJournalEntries, AddPrecompileFn.
  destruct (first_panic _ _); [by eapply good_state_frame; [..|exact Ht]|].
  set (u := AddBalanceEntries es _).
  assert (Hu : good_state u) by (apply good_AddBalanceEntries; by eapply good_state_frame; [..|exact Ht]).
  destruct (getOrNewStateObject a u) as [o v] eqn:Eo. cbn.
  destruct (good_getOrNew _ _ _ _ Eo Hu) as (Hv & _).
  by apply (good_state_frame (append_entry (precompileCallChange (sn_MultiStore sn) (sn_Events sn)) v)),
    good_append_entry.
Qed.

(** The words an operation stores are 256-bit words. *)
Definition op_words (o : @op store event) : Prop :=
  match o with OpSetState _ _ v => is_word v | _ => True end.

Lemma good_exec (o : @op store event) s s1 :
  op_words o -> exec o s = Ok s1 -> good_state s -> good_state s1.
Proof.
  intros Ho Hr%exec_Ok Hs. destruct o; cbn in *; simplify_eq;
    eauto using good_AddBalance, good_SubBalance, good_SetNonce, good_SetCode, good_SetState,
      good_Suicide, good_CreateAccount, good_AddAddressToAccessList, good_AddSlotToAccessList,
      good_PrepareAccessList, good_RevertToSnapshot.
  - by apply (good_state_frame (append_entry (refundChange (refund s)) s)), good_append_entry.
  - unfold SubRefund in Hr. cbn in Hr. case_match; simplify_eq.
    by apply (good_state_frame (append_entry (refundChange (refund s)) s)), good_append_entry.
  - by apply (good_state_frame (append_entry addLogChange s)), good_append_entry.
  - destruct (getStateObject a s) eqn:E. by eapply good_getStateObject.
  - unfold GetCode. destruct (getStateObject a s) as [[o|] t] eqn:E;
      destruct (good_getStateObject _ _ _ _ E Hs) as (Ht & Ho' & _); [|done].
    destruct (so_Code _ o) as [c o'] eqn:Ec. cbn.
    eapply good_setStateObject; [|done]. eapply good_so_Code; [|by apply Ho'|exact Ec]. apply Ht.
  - unfold GetState. destruct (getStateObject a s) as [[o|] t] eqn:E;
      destruct (good_getStateObject _ _ _ _ E Hs) as (Ht & Ho' & _); [|done].
    destruct (so_GetState _ _ o) as [c o'] eqn:Ec. cbn.
    eapply good_setStateObject; [|done]. eapply good_so_GetState; [|exact Ec]. by apply Ho'.
  - unfold GetCommittedState. destruct (getStateObject a s) as [[o|] t] eqn:E;
      destruct (good_getStateObject _ _ _ _ E Hs) as (Ht & Ho' & _); [|done].
    destruct (so_GetCommittedState _ _ o) as [c o'] eqn:Ec. cbn.
    eapply good_setStateObject; [|done]. eapply good_so_GetCommittedState; [|exact Ec]. by apply Ho'.
  - pose proof (good_Run a act s Hs) as Hrun. destruct (Run a act s) as [t [[]| |]]; by simplify_eq/=.
  - eapply good_state_frame; [..|exact Hs]; done.
Qed.

Lemma good_exec_all (ops : list (@op store event)) s s1 :
  Forall op_words ops -> exec_all ops s = Ok s1 -> good_state s -> good_state s1.
Proof.
  intros Hf. revert s. induction Hf as [|o ops Ho _ IH]; intros s; cbn; [by intros [= <-]|].
  intros Hr Hs. apply bind_Ok_inv in Hr as (t & H1 & H2). eauto using good_exec.
Qed.

Lemma New_good st hasMS tc : code_ok st -> good_state (New st hasMS tc).
Proof.
  intros Hc. split; cbn; [done| |].
  - intros a o. by rewrite lookup_empty.
  - intros e He. by apply elem_of_nil in He.
Qed.
End Commit.
