(* ===== verification/VmStore.v ===== *)
(** * The EVM keeper's storage ([x/vm/keeper/statedb.go], [x/vm/wrappers/bank.go])

    The [Keeper] that the state database reads and writes: accounts live in the
    auth keeper, balances in the bank behind the decimals wrapper, code hashes,
    codes and slots in the module's own store. The auth and bank keepers are
    Cosmos SDK code: they appear as classes with their documented behaviour. The
    keeper is then an instance of [Keeper] and meets [KeeperLaws], so that the
    commit theorems of the state database apply to it. *)

From stdpp Require Import base gmap list numbers strings sorting.
From Stdlib Require Import ZArith Lia.
From S2P Require Import Prelude SdkMath Scaling AccessList StateDB StateDBCommit.

Definition ModuleName : string := "evm".
Definition ErrNotContract : error := "only smart contracts can be self-destructed".

(** ** Interfaces of the Cosmos SDK *)

Class AccountKeeper (auth acct : Type) := {
  ak_GetAccount : auth -> address -> option acct;
  ak_NewAccountWithAddress : auth -> address -> acct * auth;
  ak_SetAccount : auth -> acct -> auth;
  ak_RemoveAccount : auth -> acct -> auth;
  acct_GetAddress : acct -> address;
  acct_GetSequence : acct -> Z;
  acct_SetSequence : acct -> Z -> res acct;
  ak_get_address : forall s a x, ak_GetAccount s a = Some x -> acct_GetAddress x = a;
  ak_new : forall s a x s', ak_NewAccountWithAddress s a = (x, s') ->
    acct_GetAddress x = a /\ forall b, ak_GetAccount s' b = ak_GetAccount s b;
  ak_get_set : forall s x b, ak_GetAccount (ak_SetAccount s x) b =
    if decide (b = acct_GetAddress x) then Some x else ak_GetAccount s b;
  ak_get_remove : forall s x b, ak_GetAccount (ak_RemoveAccount s x) b =
    if decide (b = acct_GetAddress x) then None else ak_GetAccount s b;
  ak_set_sequence : forall x n y, acct_SetSequence x n = Ok y ->
    acct_GetAddress y = acct_GetAddress x /\ acct_GetSequence y = n
}.

Fixpoint amount_of (denom : string) (coins : list Coin) : Z :=
  match coins with
  | [] => 0
  | c :: coins =>
      (if String.eqb (coin_Denom c) denom then coin_Amount c else 0) + amount_of denom coins
  end.

Definition delta_if (b : bool) (v : Z) : Z := if b then v else 0.

Class BankKeeper (bank : Type) := {
  bk_module : string -> address;
  bk_GetBalance : bank -> address -> string -> Z;
  bk_MintCoins : bank -> string -> list Coin -> bank * res unit;
  bk_BurnCoins : bank -> string -> list Coin -> bank * res unit;
  bk_SendCoinsFromModuleToAccount : bank -> string -> address -> list Coin -> bank * res unit;
  bk_SendCoinsFromAccountToModule : bank -> address -> string -> list Coin -> bank * res unit;
  bk_mint : forall b m cs b', bk_MintCoins b m cs = (b', Ok ()) -> forall a d,
    bk_GetBalance b' a d =
      bk_GetBalance b a d + delta_if (bool_decide (a = bk_module m)) (amount_of d cs);
  bk_burn : forall b m cs b', bk_BurnCoins b m cs = (b', Ok ()) -> forall a d,
    bk_GetBalance b' a d =
      bk_GetBalance b a d - delta_if (bool_decide (a = bk_module m)) (amount_of d cs);
  bk_send_module : forall b m x cs b',
    bk_SendCoinsFromModuleToAccount b m x cs = (b', Ok ()) -> forall a d,
    bk_GetBalance b' a d = bk_GetBalance b a d
      - delta_if (bool_decide (a = bk_module m)) (amount_of d cs)
      + delta_if (bool_decide (a = x)) (amount_of d cs);
  bk_send_account : forall b x m cs b',
    bk_SendCoinsFromAccountToModule b x m cs = (b', Ok ()) -> forall a d,
    bk_GetBalance b' a d = bk_GetBalance b a d
      - delta_if (bool_decide (a = x)) (amount_of d cs)
      + delta_if (bool_decide (a = bk_module m)) (amount_of d cs)
}.

(** ** The bank wrapper *)

Section BankWrapper.
Context {bank : Type} `{!BankKeeper bank} `{!SdkMath} `{!EvmEnv}.

Definition MintAmountToAccount (b : bank) (recipientAddr : address) (amt : Z) : bank * res unit :=
  do? b, amount := (b, NewIntFromBigInt amt) in
  do? b, convertedCoin :=
    (b, ConvertEvmCoinFrom18Decimals coinCfg (mkCoin (eci_Denom coinCfg) amount)) in
  do? b, _ := bk_MintCoins b ModuleName [convertedCoin] in
  bk_SendCoinsFromModuleToAccount b ModuleName recipientAddr [convertedCoin].

Definition BurnAmountFromAccount (b : bank) (account : address) (amt : Z) : bank * res unit :=
  do? b, amount := (b, NewIntFromBigInt amt) in
  do? b, convertedCoin :=
    (b, ConvertEvmCoinFrom18Decimals coinCfg (mkCoin (eci_Denom coinCfg) amount)) in
  do? b, _ := bk_SendCoinsFromAccountToModule b account ModuleName [convertedCoin] in
  bk_BurnCoins b ModuleName [convertedCoin].

(** [BankWrapper.GetBalance] *)
Definition bw_GetBalance (b : bank) (a : address) (denom : string) : res Coin :=
  MustConvertEvmCoinTo18Decimals coinCfg (mkCoin denom (bk_GetBalance b a denom)).

Definition coins_IsZero (coins : list Coin) : bool :=
  forallb (fun c => coin_Amount c =? 0) coins.

Definition bw_SendCoinsFromAccountToModule (b : bank) (senderAddr : address)
    (recipientModule : string) (coins : list Coin) : bank * res unit :=
  do? b, convertedCoins := (b, ConvertCoinsFrom18Decimals coinCfg coins) in
  if coins_IsZero convertedCoins then (b, Ok ())
  else bk_SendCoinsFromAccountToModule b senderAddr recipientModule convertedCoins.

Definition bw_SendCoinsFromModuleToAccount (b : bank) (senderModule : string)
    (recipientAddr : address) (coins : list Coin) : bank * res unit :=
  do? b, convertedCoins := (b, ConvertCoinsFrom18Decimals coinCfg coins) in
  if coins_IsZero convertedCoins then (b, Ok ())
  else bk_SendCoinsFromModuleToAccount b senderModule recipientAddr convertedCoins.

(** *** Effects *)

Abbreviation evmDenom := (eci_Denom coinCfg).
Abbreviation cfactor := (factor coinCfg).

Lemma ConvertEvmCoinFrom18_denom v c :
  ConvertEvmCoinFrom18Decimals coinCfg (mkCoin evmDenom v) = Ok c ->
  c = mkCoin evmDenom (Z.quot v cfactor).
Proof.
  unfold ConvertEvmCoinFrom18Decimals. cbn. unfold GetEVMCoinDenom. rewrite String.eqb_refl. cbn.
  rewrite int_Quo_spec. pose proof (factor_pos coinCfg).
  destruct (Z.eqb_spec cfactor 0); [lia|]. cbn. congruence.
Qed.

Lemma NewIntFromBigInt_Ok z v : NewIntFromBigInt z = Ok v -> v = z.
Proof. rewrite NewIntFromBigInt_spec. case_match; congruence. Qed.

Lemma amount_of_single d d' v :
  amount_of d [mkCoin d' v] = if String.eqb d' d then v else 0.
Proof. cbn. case_match; lia. Qed.

(** Minting changes the balance of the recipient only: the coins pass through
    the module account. *)
Lemma MintAmountToAccount_balance b x v b' :
  MintAmountToAccount b x v = (b', Ok ()) -> forall a,
  bk_GetBalance b' a evmDenom =
    bk_GetBalance b a evmDenom + delta_if (bool_decide (a = x)) (Z.quot v cfactor).
Proof.
  unfold MintAmountToAccount. intros E a.
  apply st_bind_Ok_inv in E as (b1 & v1 & H1 & E). injection H1 as -> H1.
  apply NewIntFromBigInt_Ok in H1 as ->.
  apply st_bind_Ok_inv in E as (b2 & c & H2 & E). injection H2 as -> H2.
  apply ConvertEvmCoinFrom18_denom in H2 as ->.
  apply st_bind_Ok_inv in E as (b3 & [] & H3 & E).
  rewrite (bk_send_module _ _ _ _ _ E), (bk_mint _ _ _ _ H3), amount_of_single, String.eqb_refl.
  unfold delta_if. repeat case_bool_decide; lia.
Qed.

Lemma BurnAmountFromAccount_balance b x v b' :
  BurnAmountFromAccount b x v = (b', Ok ()) -> forall a,
  bk_GetBalance b' a evmDenom =
    bk_GetBalance b a evmDenom - delta_if (bool_decide (a = x)) (Z.quot v cfactor).
Proof.
  unfold BurnAmountFromAccount. intros E a.
  apply st_bind_Ok_inv in E as (b1 & v1 & H1 & E). injection H1 as -> H1.
  apply NewIntFromBigInt_Ok in H1 as ->.
  apply st_bind_Ok_inv in E as (b2 & c & H2 & E). injection H2 as -> H2.
  apply ConvertEvmCoinFrom18_denom in H2 as ->.
  apply st_bind_Ok_inv in E as (b3 & [] & H3 & E).
  rewrite (bk_burn _ _ _ _ E), (bk_send_account _ _ _ _ _ H3), amount_of_single, String.eqb_refl.
  unfold delta_if. repeat case_bool_decide; lia.
Qed.

Lemma bw_GetBalance_Ok b a c :
  bw_GetBalance b a evmDenom = Ok c ->
  coin_Amount c = bk_GetBalance b a evmDenom * cfactor.
Proof.
  unfold bw_GetBalance, MustConvertEvmCoinTo18Decimals, GetEVMCoinDenom. cbn.
  rewrite String.eqb_refl. cbn. rewrite int_Mul_spec. case_match; [|done]. cbn. by intros [= <-].
Qed.

Lemma bw_GetBalance_fits b a :
  is_word (bk_GetBalance b a evmDenom * cfactor) ->
  bw_GetBalance b a evmDenom = Ok (mkCoin evmDenom (bk_GetBalance b a evmDenom * cfactor)).
Proof.
  intros Hw. unfold bw_GetBalance, MustConvertEvmCoinTo18Decimals, GetEVMCoinDenom. cbn.
  rewrite String.eqb_refl. cbn. rewrite int_Mul_spec, int_fits_256; [done|].
  unfold is_word in Hw. rewrite Z.abs_eq; lia.
Qed.
End BankWrapper.

(** ** The keeper *)

(** [common.BytesToHash]: the last 32 bytes *)
Definition BytesToHash (bz : bytes) : hash := be_value bz `mod` 2 ^ 256.

Module VmKeeper.
Section VmStore.
Context {auth acct bank : Type} `{!AccountKeeper auth acct} `{!BankKeeper bank}.
Context `{!SdkMath} `{!EvmEnv}.

(** The state a [sdk.Context] gives access to: the two Cosmos keepers and the
    key prefixes [KeyPrefixCodeHash], [KeyPrefixCode] and
    [AddressStoragePrefix] of the module's store. *)
Record evmStore := mkEvmStore {
  es_auth : auth;
  es_bank : bank;
  es_codeHash : gmap address hash;
  es_code : gmap hash bytes;
  es_storage : gmap address (gmap hash bytes)
}.
Implicit Types (st : evmStore) (a : address).

Definition with_auth (x : auth) st : evmStore :=
  mkEvmStore x (es_bank st) (es_codeHash st) (es_code st) (es_storage st).
Definition with_bank (x : bank) st : evmStore :=
  mkEvmStore (es_auth st) x (es_codeHash st) (es_code st) (es_storage st).
Definition with_codeHash (x : gmap address hash) st : evmStore :=
  mkEvmStore (es_auth st) (es_bank st) x (es_code st) (es_storage st).
Definition with_code (x : gmap hash bytes) st : evmStore :=
  mkEvmStore (es_auth st) (es_bank st) (es_codeHash st) x (es_storage st).
Definition with_storage (x : gmap address (gmap hash bytes)) st : evmStore :=
  mkEvmStore (es_auth st) (es_bank st) (es_codeHash st) (es_code st) x.

Definition storage_at st a : gmap hash bytes := default ∅ (es_storage st !! a).

Definition GetState st a (key : hash) : hash :=
  match storage_at st a !! key with
  | None | Some [] => 0
  | Some value => BytesToHash value
  end.

Definition GetFastState st a (key : hash) : option bytes := storage_at st a !! key.

Definition GetCodeHash st a : hash := default EmptyCodeHash (es_codeHash st !! a).

Definition GetCode st (codeHash : hash) : option bytes := es_code st !! codeHash.

Definition IsContract st a : bool := bool_decide (is_Some (es_codeHash st !! a)).

(** [GetBalance] of [keeper.go]: the wrapper panics when the 18 decimals amount
    does not fit an [sdkmath.Int]. *)
Definition GetBalance st a : res Z :=
  let? coin := bw_GetBalance (es_bank st) a (eci_Denom coinCfg) in Ok (coin_Amount coin).

Definition GetAccountWithoutBalance st a : option Account :=
  match ak_GetAccount (es_auth st) a with
  | None => None
  | Some x => Some (mkAccount (acct_GetSequence x) None (Some (GetCodeHash st a)))
  end.

Definition GetAccount st a : res (option Account) :=
  match GetAccountWithoutBalance st a with
  | None => Ok None
  | Some x =>
      let? balance := GetBalance st a in
      Ok (Some (mkAccount (acc_Nonce x) (Some balance) (acc_CodeHash x)))
  end.

Definition GetAccountOrEmpty st a : res Account :=
  let? x := GetAccount st a in
  Ok (default (mkAccount 0 (Some 0) (Some EmptyCodeHash)) x).

Definition GetNonce st a : Z :=
  match ak_GetAccount (es_auth st) a with
  | None => 0
  | Some x => acct_GetSequence x
  end.

(** the pairs [ForEachStorage] hands to a callback that never stops, in the
    order of the keys *)
Definition ForEachStorage st a : list (hash * hash) :=
  (fun k => (k, BytesToHash (default [] (storage_at st a !! k)))) <$>
    merge_sort Z.le (elements (dom (storage_at st a))).

Definition SetBalance st a (amount : Z) : evmStore * res unit :=
  do? st, coin := (st, bw_GetBalance (es_bank st) a (eci_Denom coinCfg)) in
  let delta := amount - coin_Amount coin in
  if 0 <? delta then
    let '(b, r) := MintAmountToAccount (es_bank st) a delta in (with_bank b st, r)
  else if delta <? 0 then
    let '(b, r) := BurnAmountFromAccount (es_bank st) a (- delta) in (with_bank b st, r)
  else (st, Ok ()).

Definition DeleteCodeHash st a : evmStore := with_codeHash (delete a (es_codeHash st)) st.
Definition SetCodeHash st a (h : hash) : evmStore := with_codeHash (<[a := h]> (es_codeHash st)) st.

(** A nil [CodeHash] is not the empty code hash, and the store refuses a nil
    value with a panic. *)
Definition SetAccount st a (account : Account) : evmStore * res unit :=
  let '(x, au) := match ak_GetAccount (es_auth st) a with
                  | Some x => (x, es_auth st)
                  | None => ak_NewAccountWithAddress (es_auth st) a
                  end in
  let st := with_auth au st in
  do? st, x := (st, acct_SetSequence x (acc_Nonce account)) in
  do? st, codeHash := (st, match acc_CodeHash account with
                           | None => Panic PanicNil
                           | Some h => Ok h
                           end) in
  let st := if IsEmptyCodeHash codeHash then DeleteCodeHash st a
            else SetCodeHash st a codeHash in
  let st := with_auth (ak_SetAccount (es_auth st) x) st in
  match acc_Balance account with
  | None => (st, Panic PanicNil)
  | Some balance => SetBalance st a balance
  end.

Definition SetState st a (key : hash) (value : bytes) : evmStore :=
  with_storage (<[a := <[key := value]> (storage_at st a)]> (es_storage st)) st.

Definition DeleteState st a (key : hash) : evmStore :=
  with_storage (<[a := delete key (storage_at st a)]> (es_storage st)) st.

Definition SetCode st (codeHash : hash) (code : bytes) : evmStore :=
  with_code (<[codeHash := code]> (es_code st)) st.

Definition DeleteCode st (codeHash : hash) : evmStore :=
  with_code (delete codeHash (es_code st)) st.

Definition DeleteAccount st a : evmStore * res unit :=
  match ak_GetAccount (es_auth st) a with
  | None => (st, Ok ())
  | Some x =>
      if negb (IsContract st a) then (st, Err ErrNotContract)
      else
        do? st, _ := SetBalance st a 0 in
        let st := fold_left (fun st kv => DeleteState st a kv.1) (ForEachStorage st a) st in
        let st := DeleteCodeHash st a in
        (with_auth (ak_RemoveAccount (es_auth st) x) st, Ok ())
  end.

(** The panic of [GetAccount], on a balance that does not fit in 256 bits once
    scaled, and its answer, the account the state database loads. Where it
    panics there is no answer: the value of [load_account] there is never used,
    the callers test [load_panic] first. *)
Definition load_panic st a : option error :=
  match GetAccount st a with Panic e => Some e | _ => None end.

Definition load_account st a : option Account :=
  match GetAccount st a with
  | Ok x => x
  | _ => (fun x => mkAccount (acc_Nonce x) (Some 0) (acc_CodeHash x)) <$> GetAccountWithoutBalance st a
  end.

#[global] Instance vm_keeper : Keeper evmStore := {|
  k_GetAccount := load_account;
  k_GetAccountPanic := load_panic;
  k_GetState := GetState;
  k_GetCode := GetCode;
  k_ForEachStorage := ForEachStorage;
  k_SetAccount := SetAccount;
  k_DeleteState := DeleteState;
  k_SetState := SetState;
  k_DeleteCode := DeleteCode;
  k_SetCode := SetCode;
  k_DeleteAccount := DeleteAccount
|}.

(** ** The keeper meets the laws *)

Abbreviation eDenom := (eci_Denom coinCfg).
Abbreviation efactor := (factor coinCfg).

Lemma adjusted_mul v : adjusted (v * efactor).
Proof.
  unfold adjusted. rewrite AdjustExtraDecimalsBigInt_eq. pose proof (factor_pos coinCfg).
  by rewrite Z.quot_mul by lia.
Qed.

Lemma adjusted_quot v : adjusted v -> Z.quot v efactor * efactor = v.
Proof. unfold adjusted. by rewrite AdjustExtraDecimalsBigInt_eq. Qed.

Lemma GetState_fast st a k :
  GetState st a k = BytesToHash (default [] (GetFastState st a k)).
Proof. unfold GetState, GetFastState. by destruct (storage_at st a !! k) as [[]|]. Qed.

(** what the keeper answers about an account depends on these fields only *)
Lemma load_account_eq st st' a :
  ak_GetAccount (es_auth st') a = ak_GetAccount (es_auth st) a ->
  bk_GetBalance (es_bank st') a eDenom = bk_GetBalance (es_bank st) a eDenom ->
  es_codeHash st' !! a = es_codeHash st !! a ->
  load_account st' a = load_account st a.
Proof.
  intros H1 H2 H3. unfold load_account, GetAccount, GetAccountWithoutBalance, GetBalance,
    bw_GetBalance, GetCodeHash. by rewrite H1, H2, H3.
Qed.

(** The load of an account panics exactly when its balance overflows once scaled. *)
Lemma load_panic_spec st a :
  load_panic st a =
    if bool_decide (is_Some (ak_GetAccount (es_auth st) a)) && negb (int_fits (bk_GetBalance (es_bank st) a eDenom * efactor))
    then Some ErrIntOverflow else None.
Proof.
  unfold load_panic, GetAccount, GetAccountWithoutBalance.
  destruct (ak_GetAccount (es_auth st) a) as [x|]; [|done]. cbn [bool_decide andb].
  rewrite bool_decide_eq_true_2 by eauto. cbn [andb].
  unfold GetBalance, bw_GetBalance, MustConvertEvmCoinTo18Decimals, GetEVMCoinDenom. cbn [coin_Denom coin_Amount].
  rewrite String.eqb_refl. cbn [negb]. rewrite int_Mul_spec. by destruct (int_fits _).
Qed.

Lemma load_account_Some st a x :
  is_word (bk_GetBalance (es_bank st) a eDenom * efactor) ->
  ak_GetAccount (es_auth st) a = Some x ->
  load_account st a = Some (mkAccount (acct_GetSequence x)
    (Some (bk_GetBalance (es_bank st) a eDenom * efactor)) (Some (GetCodeHash st a))).
Proof.
  intros Hw Hx. unfold load_account, GetAccount, GetAccountWithoutBalance, GetBalance.
  rewrite Hx. cbn. by rewrite bw_GetBalance_fits.
Qed.

(** [SetBalance] writes the bank only, and sets an adjusted amount exactly. *)
Lemma SetBalance_spec st a v st' :
  adjusted v -> SetBalance st a v = (st', Ok ()) ->
  exists b, st' = with_bank b st /\
    bk_GetBalance b a eDenom * efactor = v /\
    forall x, x <> a -> bk_GetBalance b x eDenom = bk_GetBalance (es_bank st) x eDenom.
Proof.
  intros Hv. unfold SetBalance. intros E.
  apply st_bind_Ok_inv in E as (st1 & c & H1 & E). injection H1 as -> H1.
  apply bw_GetBalance_Ok in H1. rewrite H1 in E. clear H1.
  set (bal := bk_GetBalance (es_bank st1) a eDenom) in *.
  assert (Hd : forall d, d = v - bal * efactor -> Z.quot d efactor * efactor = d).
  { intros d ->. pose proof (adjusted_quot v Hv) as Hq. rewrite <-Hq, <-Z.mul_sub_distr_r.
    pose proof (factor_pos coinCfg). by rewrite Z.quot_mul by lia. }
  destruct (Z.ltb_spec 0 (v - bal * efactor)).
  { destruct (MintAmountToAccount _ _ _) as [b r] eqn:Em. injection E as <- ->.
    exists b. split; [done|]. split.
    - rewrite (MintAmountToAccount_balance _ _ _ _ Em). fold bal. unfold delta_if.
      rewrite bool_decide_true by done. specialize (Hd _ eq_refl). lia.
    - intros x Hx. rewrite (MintAmountToAccount_balance _ _ _ _ Em). unfold delta_if.
      rewrite bool_decide_false by done. lia. }
  destruct (Z.ltb_spec (v - bal * efactor) 0).
  { destruct (BurnAmountFromAccount _ _ _) as [b r] eqn:Em. injection E as <- ->.
    exists b. split; [done|]. split.
    - rewrite (BurnAmountFromAccount_balance _ _ _ _ Em). fold bal. unfold delta_if.
      rewrite bool_decide_true by done. specialize (Hd _ eq_refl).
      rewrite Z.quot_opp_l by (pose proof (factor_pos coinCfg); lia). lia.
    - intros x Hx. rewrite (BurnAmountFromAccount_balance _ _ _ _ Em). unfold delta_if.
      rewrite bool_decide_false by done. lia. }
  injection E as <-. exists (es_bank st1). split; [by destruct st1|]. split; [fold bal; lia|done].
Qed.

Lemma vm_SetAccount st a v st' :
  adjusted (av_Balance v) -> is_word (av_Balance v) ->
  SetAccount st a (to_Account v) = (st', Ok ()) ->
  load_account st' a = Some (to_Account v) /\
  (forall b, b <> a -> load_account st' b = load_account st b) /\
  es_storage st' = es_storage st /\ es_code st' = es_code st.
Proof.
  intros Hv Hw. unfold SetAccount, to_Account. cbn [acc_Nonce acc_CodeHash acc_Balance].
  destruct (match ak_GetAccount (es_auth st) a with Some x => (x, es_auth st) | None => _ end)
    as [x au] eqn:Ex.
  assert (Hx : acct_GetAddress x = a /\ forall b, ak_GetAccount au b = ak_GetAccount (es_auth st) b).
  { destruct (ak_GetAccount (es_auth st) a) eqn:Eg; [simplify_eq; by apply ak_get_address in Eg|].
    by apply ak_new in Ex. }
  destruct Hx as [Hxa Hau]. intros E.
  apply st_bind_Ok_inv in E as (st1 & y & H1 & E). injection H1 as <- H1.
  apply ak_set_sequence in H1 as [Hya Hyn].
  apply st_bind_Ok_inv in E as (st1 & h & H2 & E). injection H2 as <- <-.
  set (st2 := if IsEmptyCodeHash _ then _ else _) in E.
  assert (H2 : es_auth st2 = au /\ es_bank st2 = es_bank st /\ es_storage st2 = es_storage st /\
    es_code st2 = es_code st /\ GetCodeHash st2 a = av_CodeHash v /\
    forall b, b <> a -> es_codeHash st2 !! b = es_codeHash st !! b).
  { subst st2. destruct (IsEmptyCodeHash (av_CodeHash v)) eqn:Ee; cbn; split_and!; try done.
    - unfold GetCodeHash; cbn. rewrite lookup_delete_eq. cbn. by apply Z.eqb_eq in Ee.
    - intros b Hb. by rewrite lookup_delete_ne.
    - unfold GetCodeHash; cbn. by rewrite lookup_insert_eq.
    - intros b Hb. by rewrite lookup_insert_ne. }
  clearbody st2. destruct H2 as (A1 & A2 & A3 & A4 & A5 & A6).
  apply SetBalance_spec in E as (bk & -> & B1 & B2); [|done].
  split_and!; try (cbn; congruence).
  - rewrite (load_account_Some _ _ y).
    + cbn. rewrite B1, Hyn. f_equal. f_equal. f_equal. exact A5.
    + cbn. by rewrite B1.
    + cbn. rewrite ak_get_set, Hya, Hxa. by rewrite decide_True.
  - intros b Hb. apply load_account_eq; cbn.
    + rewrite ak_get_set, Hya, Hxa, decide_False, A1 by done. apply Hau.
    + rewrite B2 by done. cbn. by rewrite A2.
    + auto.
Qed.

Lemma fold_DeleteState a l st :
  let st' := fold_left (fun st kv => DeleteState st a (kv : hash * hash).1) l st in
  es_auth st' = es_auth st /\ es_bank st' = es_bank st /\ es_code st' = es_code st /\
  es_codeHash st' = es_codeHash st /\
  (forall b, b <> a -> storage_at st' b = storage_at st b) /\
  (forall k, storage_at st' a !! k = if decide (k ∈ l.*1) then None else storage_at st a !! k).
Proof.
  revert st. induction l as [|[k v] l IH]; intros st; cbn [fold_left].
  { split_and!; try done. }
  destruct (IH (DeleteState st a k)) as (I1 & I2 & I3 & I4 & I5 & I6).
  split_and!; try done.
  - intros b Hb. rewrite I5 by done. unfold storage_at; cbn. by rewrite lookup_insert_ne.
  - intros k'. rewrite I6. unfold storage_at at 1; cbn. rewrite lookup_insert_eq. cbn.
    destruct (decide (k' ∈ l.*1)) as [Hin|Hn].
    + rewrite decide_True; [done|]. by right.
    + rewrite lookup_delete. destruct (decide (k = k')) as [->|Hne].
      * rewrite decide_True; [done|]. by left.
      * rewrite decide_False; [done|]. rewrite not_elem_of_cons. auto.
Qed.

Lemma ForEachStorage_keys st a k :
  k ∈ (ForEachStorage st a).*1 <-> is_Some (storage_at st a !! k).
Proof.
  unfold ForEachStorage. rewrite <-list_fmap_compose. cbn. rewrite list_fmap_id.
  rewrite merge_sort_Permutation, elem_of_elements. apply elem_of_dom.
Qed.

(** A successful [DeleteAccount] removes the account; a contract also loses its
    slots. *)
Lemma vm_DeleteAccount st a st' :
  DeleteAccount st a = (st', Ok ()) ->
  load_account st' a = None /\
  (forall b, b <> a -> load_account st' b = load_account st b) /\
  (forall b, b <> a -> storage_at st' b = storage_at st b) /\
  (is_Some (ak_GetAccount (es_auth st) a) -> forall k, storage_at st' a !! k = None) /\
  es_code st' = es_code st.
Proof.
  unfold DeleteAccount. destruct (ak_GetAccount (es_auth st) a) as [x|] eqn:Ex.
  2: { intros [= <-]. split_and!; try done.
       unfold load_account, GetAccount, GetAccountWithoutBalance. by rewrite Ex. }
  case_match; [done|]. intros E. apply st_bind_Ok_inv in E as (st1 & [] & Hsb & E).
  apply SetBalance_spec in Hsb as (bk & -> & B1 & B2); [|apply adjusted_0].
  injection E as <-. set (st1 := with_bank bk st).
  destruct (fold_DeleteState a (ForEachStorage st1 a) st1) as (I1 & I2 & I3 & I4 & I5 & I6).
  set (st2 := fold_left _ _ st1) in *. clearbody st2.
  apply ak_get_address in Ex as Hxa. split_and!.
  - unfold load_account, GetAccount, GetAccountWithoutBalance; cbn.
    by rewrite ak_get_remove, decide_True by done.
  - intros b Hb. apply load_account_eq; cbn.
    + rewrite ak_get_remove, decide_False by congruence. by rewrite I1.
    + rewrite I2. cbn. auto.
    + by rewrite lookup_delete_ne, I4 by done.
  - intros b Hb. change (storage_at st2 b = storage_at st1 b). auto.
  - intros _ k. change (storage_at st2 a !! k = None). rewrite I6. case_decide as Hk; [done|].
    rewrite ForEachStorage_keys in Hk. by apply eq_None_not_Some.
  - cbn. by rewrite I3.
Qed.

#[global] Instance vm_keeper_laws : KeeperLaws evmStore.
Proof.
  assert (Hgs : forall st st' b, storage_at st' b = storage_at st b ->
    forall k, GetState st' b k = GetState st b k) by (intros ? ? ? E k; unfold GetState; by rewrite E).
  split; cbn.
  - intros st a x. unfold load_account, GetAccount, GetAccountWithoutBalance.
    destruct (ak_GetAccount (es_auth st) a) as [y|]; [cbn|done]. intros Hx.
    destruct (GetBalance st a) as [bal| |] eqn:Eb; cbn in Hx; simplify_eq.
    + eexists (mkAccountVal _ _ _). split; [done|]. cbn. unfold GetBalance in Eb.
      apply bind_Ok_inv in Eb as (c & Hc & [= <-]). rewrite (bw_GetBalance_Ok _ _ _ Hc).
      apply adjusted_mul.
    + eexists (mkAccountVal _ _ _). split; [done|]. apply adjusted_0.
    + eexists (mkAccountVal _ _ _). split; [done|]. apply adjusted_0.
  - intros st a k. unfold is_word, GetState, BytesToHash. repeat case_match; try lia.
    apply Z.mod_pos_bound. lia.
  - intros st a v st' Hv Hw E. destruct (vm_SetAccount _ _ _ _ Hv Hw E) as (H1 & H2 & H3 & H4).
    split_and!; try done; [|unfold GetCode; by rewrite H4]. intros b k. apply Hgs. unfold storage_at.
    by rewrite H3.
  - intros st a st' E. destruct (vm_DeleteAccount _ _ _ E) as (H1 & H2 & H3 & _ & H4).
    split_and!; try done; [|unfold GetCode; by rewrite H4]. intros b k Hb. by apply Hgs, H3.
  - intros st a k v. split_and!; try done.
    + unfold GetState, storage_at; cbn. rewrite lookup_insert_eq. cbn. rewrite lookup_insert_eq.
      by destruct v.
    + intros b k' Hne. unfold GetState, storage_at; cbn. rewrite lookup_insert.
      case_decide as Ea; [subst b; cbn|done]. rewrite lookup_insert_ne; [done|congruence].
  - intros st h c. split_and!; try done; unfold GetCode; cbn; [by rewrite lookup_insert_eq|].
    intros h' Hne. by rewrite lookup_insert_ne.
  - intros st h. split_and!; try done; unfold GetCode; cbn; [by rewrite lookup_delete_eq|].
    intros h' Hne. by rewrite lookup_delete_ne.
Qed.
End VmStore.
End VmKeeper.

