(* ===== verification/Concrete.v ===== *)
(** * A concrete environment

    Map-based auth and bank keepers and a multi-store that copies: instances of
    the interface classes, for which the laws are proved. They show that the
    laws can be met together, and are what the concrete runs evaluate on. The
    EVM coin has 6 decimals, the configuration in which conversions lose
    digits. *)

From stdpp Require Import base gmap list numbers strings sorting.
From Stdlib Require Import ZArith Lia.
From S2P Require Import Prelude SdkMath Scaling AccessList StateDB StateDBCommit VmStore.

(** ** Accounts *)

Record cAcct := mkCAcct { ca_addr : address; ca_seq : Z }.

#[export, refine] Instance cauth : AccountKeeper (gmap address cAcct) cAcct := {|
  ak_GetAccount s a := match s !! a with
                       | Some x => if decide (ca_addr x = a) then Some x else None
                       | None => None
                       end;
  ak_NewAccountWithAddress s a := (mkCAcct a 0, s);
  ak_SetAccount s x := <[ca_addr x := x]> s;
  ak_RemoveAccount s x := delete (ca_addr x) s;
  acct_GetAddress := ca_addr;
  acct_GetSequence := ca_seq;
  acct_SetSequence x n := Ok (mkCAcct (ca_addr x) n)
|}.
Proof.
  - intros s a x. repeat case_match; intros; by simplify_eq.
  - intros s a x s' [= <- <-]. done.
  - intros s x b. rewrite lookup_insert. repeat case_decide; subst; done.
  - intros s x b. rewrite lookup_delete. repeat case_decide; subst; done.
  - intros x n y [= <-]. done.
Defined.

(** ** Balances *)

Abbreviation cbank := (gmap (address * string) Z).

Definition cb_balance (b : cbank) (a : address) (d : string) : Z := default 0 (b !! (a, d)).

Fixpoint cb_add (b : cbank) (a : address) (sign : Z) (cs : list Coin) : cbank :=
  match cs with
  | [] => b
  | c :: cs =>
      cb_add (<[(a, coin_Denom c) := cb_balance b a (coin_Denom c) + sign * coin_Amount c]> b)
        a sign cs
  end.

Definition cb_valid (cs : list Coin) : bool := forallb (fun c => 0 <? coin_Amount c) cs.
Definition cb_covers (b : cbank) (a : address) (cs : list Coin) : bool :=
  forallb (fun c => amount_of (coin_Denom c) cs <=? cb_balance b a (coin_Denom c)) cs.

Lemma cb_balance_insert b a d v x e :
  cb_balance (<[(a, d) := v]> b) x e = if decide (a = x /\ d = e) then v else cb_balance b x e.
Proof.
  unfold cb_balance. rewrite lookup_insert. repeat case_decide; naive_solver.
Qed.

Lemma cb_add_balance b a sign cs x d :
  cb_balance (cb_add b a sign cs) x d =
    cb_balance b x d + sign * delta_if (bool_decide (x = a)) (amount_of d cs).
Proof.
  revert b. induction cs as [|c cs IH]; intros b; cbn.
  { unfold delta_if. case_bool_decide; lia. }
  rewrite IH, cb_balance_insert. unfold delta_if.
  destruct (String.eqb_spec (coin_Denom c) d) as [<-|Hd]; case_bool_decide as Hx; case_decide as Hi;
    try (exfalso; naive_solver); subst; lia.
Qed.

Definition ErrInvalidCoins : error := "invalid coins".
Definition ErrInsufficientFunds : error := "insufficient funds".

Definition cb_move (b : cbank) (from to : option address) (cs : list Coin) : cbank * res unit :=
  if negb (cb_valid cs) then (b, Err ErrInvalidCoins)
  else if match from with Some a => cb_covers b a cs | None => true end then
    let b := match from with Some a => cb_add b a (-1) cs | None => b end in
    (match to with Some a => cb_add b a 1 cs | None => b end, Ok ())
  else (b, Err ErrInsufficientFunds).

Lemma cb_move_Ok b from to cs b' x d :
  cb_move b from to cs = (b', Ok ()) ->
  cb_balance b' x d = cb_balance b x d
    - match from with Some a => delta_if (bool_decide (x = a)) (amount_of d cs) | None => 0 end
    + match to with Some a => delta_if (bool_decide (x = a)) (amount_of d cs) | None => 0 end.
Proof.
  unfold cb_move. case_match; [done|]. destruct (match from with Some _ => _ | _ => _ end); [|done].
  intros [= <-]. destruct from, to; rewrite ?cb_add_balance; lia.
Qed.

Definition cmodule (m : string) : address := 1000.

#[export, refine] Instance cbank_keeper : BankKeeper cbank := {|
  bk_module := cmodule;
  bk_GetBalance := cb_balance;
  bk_MintCoins b m cs := cb_move b None (Some (cmodule m)) cs;
  bk_BurnCoins b m cs := cb_move b (Some (cmodule m)) None cs;
  bk_SendCoinsFromModuleToAccount b m x cs := cb_move b (Some (cmodule m)) (Some x) cs;
  bk_SendCoinsFromAccountToModule b x m cs := cb_move b (Some x) (Some (cmodule m)) cs
|}.
Proof.
  all: intros *; intros E; intros; rewrite (cb_move_Ok _ _ _ _ _ _ _ E); lia.
Defined.

(** ** Environment *)

(** an injective stand-in for the hash of byte strings *)
Definition ckeccak (bz : bytes) : hash := be_value (1 :: bz).

#[export] Instance cenv : EvmEnv := {| keccak := ckeccak; coinCfg := six_cfg |}.
#[export] Existing Instance sdk_math_Z.

Definition cstore : Type := @VmKeeper.evmStore (gmap address cAcct) cbank.
Definition ckeeper : Keeper cstore := VmKeeper.vm_keeper.
#[export] Existing Instance ckeeper.
#[export] Instance claws : KeeperLaws cstore := VmKeeper.vm_keeper_laws.

#[export] Instance cms : MultiStore cstore := {|
  ms_CacheMultiStore st := st;
  ms_Write st _ := st
|}.

(** an EOA (address 1) with 5 coins and a contract (address 2) with one slot *)
Definition cstore0 : cstore :=
  VmKeeper.mkEvmStore (<[1 := mkCAcct 1 7]> (<[2 := mkCAcct 2 1]> ∅))
    (<[(1, "utac") := 5]> ∅) (<[2 := ckeccak [96; 0]]> ∅) (<[ckeccak [96; 0] := [96; 0]]> ∅)
    (<[2 := <[10 := be_bytes 32 77]> ∅]> ∅).
