(* ===== verification/StateDBTheorems.v ===== *)
(** * Correctness of the state database

    The theorems about [x/vm/statedb] and the precompile runner, proved from the
    lemmas of the [StateDB*] files, and their runs on the concrete environment. *)

From stdpp Require Import base gmap list numbers strings sorting relations.
From Stdlib Require Import ZArith Lia.
From S2P Require Import Prelude SdkMath Scaling AccessList StateDB Precompile StateDBRevert StateDBReads StateDBSnapshot StateDBTrace StateDBCommit VmStore Concrete.

Section General.
Context {store event : Type} `{!Keeper store} `{!MultiStore store} `{!EvmEnv}.
Abbreviation SDB := (@StateDB store event).
Abbreviation OP := (@op store event).
Implicit Types (s b : SDB) (ops : list OP) (a : address).

(** ** Snapshots *)

(** C1: Reverting to a snapshot undoes everything since. From any reachable
    state [b] (the invariant [ginv]), take a snapshot, run any operations of the
    EVM (balance, nonce, code, storage, self-destruct, account creation,
    refunds, logs, access list, precompile calls that write the cached context,
    nested snapshots and reverts to them) and revert: the revert succeeds, every
    read (account fields, code, slots, committed slots, refund, logs, access
    list, the store precompiles see) answers as in [b], and the journal and the
    revision stack are those of [b]. *)
Theorem revert_restores_snapshot b ops s :
  ginv b ->
  Forall (reverts_above (Snapshot b).1) ops ->
  exec_all ops (Snapshot b).2 = Ok s ->
  exists s', RevertToSnapshot (Snapshot b).1 s = Ok s' /\ same_reads b s' /\
    sdb_journal s' = sdb_journal b /\ validRevisions s' = validRevisions b /\ ginv s'.
Proof.
  intros Hg Hf Hex.
  destruct (exec_all_since b _ _ _ s (Snapshot_ginv b Hg) Hf (since_Snapshot b) Hex)
    as [[(es & t & He & Hu & Hle) (rs & Hrs)] Hgs].
  assert (Hr : validRevisions s !! length (validRevisions b)
    = Some (mkRevision (Snapshot b).1 (length (entries b)))).
  { rewrite Hrs, lookup_app_r, Nat.sub_diag by lia. done. }
  destruct (RevertToSnapshot_ok s _ _ Hgs Hr) as (u & s' & Hu' & Hrev & Hle' & He' & Hv' & _ & Hg').
  cbn [rev_id rev_journalIndex] in *. exists s'. split; [done|].
  rewrite He, drop_app_exact in Hu'. rewrite He, take_app_exact in He'.
  assert (u = t) as -> by (eapply undo_to_det; eauto).
  split_and!; [by apply sdb_le_reads; etransitivity| | |done].
  - by apply ginv_journal_eq.
  - by rewrite Hv', Hrs, take_app_exact.
Qed.
(** ** Reachable states *)

(** C8: The journal of every reachable state is consistent. After any sequence
    of operations from [New], the dirty counter of every address is the number
    of journal entries that dirty it (there is none for an address without
    entries), and the dirty list has exactly the addresses of the entries,
    sorted and each once; every dirty address has a live
    state object, so the commit loop never meets a nil object; and every
    revision on the stack can be reverted to. The store of the transaction has
    not been written. *)
Theorem reachable_consistent st hasMS tc ops s :
  exec_all ops (New st hasMS tc) = Ok s ->
  (forall a, j_dirties (sdb_journal s) !! a =
     match length (filter (fun e => Dirtied e = Some a) (j_entries (sdb_journal s))) with
     | O => None
     | S n => Some (Z.of_nat (S n))
     end) /\
  (forall a, a ∈ sortedDirties (sdb_journal s) <->
     exists e, e ∈ j_entries (sdb_journal s) /\ Dirtied e = Some a) /\
  (forall a, a ∈ sortedDirties (sdb_journal s) -> is_Some (stateObjects s !! a)) /\
  StronglySorted Z.le (sortedDirties (sdb_journal s)) /\ NoDup (sortedDirties (sdb_journal s)) /\
  (forall r, r ∈ validRevisions s -> exists s', RevertToSnapshot (rev_id r) s = Ok s') /\
  ctx_store s = st.
Proof.
  intros Hex. pose proof (exec_all_ginv _ _ _ (New_ginv st hasMS tc) Hex) as Hg. split_and!.
  - intros a. rewrite (gi_dirties _ Hg). apply dirties_of_count.
  - intros a. rewrite elem_of_sortedDirties, (gi_dirties _ Hg). apply dirties_of_elem.
  - intros a. by apply ginv_dirty_live.
  - apply StronglySorted_merge_sort; apply _.
  - apply sortedDirties_NoDup.
  - intros r (i & Hr)%list_elem_of_lookup.
    destruct (RevertToSnapshot_ok s i r Hg Hr) as (_ & s' & _ & ? & _). eauto.
  - exact (exec_all_store _ _ _ (New_ginv st hasMS tc) Hex).
Qed.

Lemma getOrNew_counter a s :
  precompileCallsCounter (getOrNewStateObject a s).2 = precompileCallsCounter s.
Proof.
  unfold getOrNewStateObject, createObject, getStateObject.
  repeat (case_match; simplify_eq/=; try done).
Qed.

(** How a precompile call ends: without a multi-store there is no cached
    context; then the commit to it, the action, the load of an account to
    journal and the limit of calls can stop it, in this order. *)
Definition precompile_end a (act : @nativeAction store event) s : res unit :=
  if bool_decide (writeCache s = None) && negb (ctx_hasMultiStore s) then Err ErrNoMultiStore
  else
    let '(st, r) := commitWithCtx s (cache_view s) in
    let? _ := r in
    let '(_, r) := act st (from_option cc_events [] (cacheCtx s)) in
    let? es := r in
    match first_panic (map bce_Account es ++ [a]) s with
    | Some e => Panic e
    | None => if wrap8 (precompileCallsCounter s + 1) <=? MaxPrecompileCalls then Ok ()
              else Err ErrMaxPrecompileCalls
    end.

Lemma AddBalanceEntries_counter es s :
  precompileCallsCounter (AddBalanceEntries es s) = precompileCallsCounter s.
Proof.
  revert s. induction es as [|e es IH]; intros s; cbn; [done|]. rewrite IH. unfold SubBalance, AddBalance.
  pose proof (getOrNew_counter (bce_Account e) s) as Hc.
  destruct (getOrNewStateObject (bce_Account e) s) as [o t]. cbn in Hc. rewrite <-Hc.
  unfold so_SubBalance, so_AddBalance. by destruct (bce_Op e), (_ =? 0).
Qed.

Lemma AddPrecompileFn_result a cms evs s :
  (AddPrecompileFn a cms evs s).2 =
    if wrap8 (precompileCallsCounter s + 1) <=? MaxPrecompileCalls then Ok () else Err ErrMaxPrecompileCalls.
Proof.
  unfold AddPrecompileFn. pose proof (getOrNew_counter a s) as Hc.
  destruct (getOrNewStateObject a s) as [o t]. cbn in *. rewrite Hc.
  destruct (Z.ltb_spec MaxPrecompileCalls (wrap8 (precompileCallsCounter s + 1))),
    (Z.leb_spec (wrap8 (precompileCallsCounter s + 1)) MaxPrecompileCalls); (done || lia).
Qed.

Lemma Run_end a act s : ginv s -> (Run a act s).2 = precompile_end a act s.
Proof.
  intros Hg. pose proof (ginv_wf _ Hg) as Hwf.
  unfold precompile_end, Run, RunSetup, GetCacheContext, MultiStoreSnapshot.
  destruct (ensure_cache s) as [s0|e|e] eqn:E0.
  2,3: unfold ensure_cache, cache in E0; destruct (writeCache s), (ctx_hasMultiStore s); by simplify_eq/=.
  destruct (ensure_cache_step s s0 Hwf E0) as (Hs0 & cc & Hcc & Hv).
  cbn [mbind res_bind]. rewrite Hcc. cbn [mbind res_bind].
  pose proof (step_wf _ _ Hwf Hs0) as Hwf0.
  assert (E0' : ensure_cache s0 = Ok s0).
  { unfold ensure_cache. destruct (proj2 (wf_cache _ Hwf0)) as [w ->]; [by rewrite Hcc|done]. }
  assert (Hfr : bool_decide (writeCache s = None) && negb (ctx_hasMultiStore s) = false /\
    stateObjects s0 = stateObjects s /\ sdb_journal s0 = sdb_journal s /\ ctx_store s0 = ctx_store s /\
    precompileCallsCounter s0 = precompileCallsCounter s /\ cc_events cc = from_option cc_events [] (cacheCtx s)).
  { pose proof (wf_cache _ Hwf) as Hc. unfold ensure_cache, cache in E0. destruct (writeCache s) as [w|] eqn:Ew.
    - injection E0 as <-. by rewrite Hcc.
    - destruct (ctx_hasMultiStore s) eqn:Em; [|done]. injection E0 as <-. cbn in Hcc. injection Hcc as <-.
      destruct (cacheCtx s) as [c|] eqn:Ec; [|done]. destruct (proj2 Hc) as [? Hx]; [by rewrite Ec|congruence]. }
  destruct Hfr as (Hms & Ho & Hj & Hst & Hn & Hev). rewrite Hms, E0', Hcc. cbn [mbind res_bind].
  unfold CommitWithCacheCtx. rewrite Hcc. unfold commitWithCtx. rewrite Ho, Hj, Hv, Hev.
  destruct (commit_dirties _ _ _) as [st1 [u|e|e]]; cbn [mbind res_bind]; [|done..].
  cbn [cacheCtx set_cache cc_multiStore cc_events].
  destruct (act st1 _) as [[st2 evs2] [es|e|e]]; cbn [mbind res_bind]; [|done..]. unfold AddJournalEntries.
  assert (Hfp : forall l (t : SDB), stateObjects t = stateObjects s -> ctx_store t = ctx_store s -> first_panic l t = first_panic l s).
  { intros l t H1 H2. unfold first_panic, load_panics. by rewrite H1, H2. }
  rewrite Hfp by done. destruct (first_panic _ s); [done|].
  rewrite AddPrecompileFn_result, AddBalanceEntries_counter. cbn [precompileCallsCounter set_cache]. by rewrite Hn.
Qed.

(** A commit of a reachable state does not meet a nil object: a panic is that of
    the keeper writing or deleting an account. *)
Lemma commitWithCtx_panic s st st' e :
  ginv s -> commitWithCtx s st = (st', Panic e) ->
  exists st1 a, (exists v, (k_SetAccount st1 a v).2 = Panic e) \/ (k_DeleteAccount st1 a).2 = Panic e.
Proof.
  intros Hg. unfold commitWithCtx.
  assert (Hl : forall a, a ∈ sortedDirties (sdb_journal s) -> live s a) by (intros a; by apply ginv_dirty_live).
  revert Hl st. induction (sortedDirties (sdb_journal s)) as [|a l IH]; intros Hl st; cbn; [done|].
  destruct (Hl a) as [o Ho]; [by left|]. rewrite Ho.
  destruct (commit_object o st) as [st2 r] eqn:E. destruct r as [u|e'|e'].
  - apply IH. intros b Hb. apply Hl. by right.
  - done.
  - intros [= _ <-]. revert E. unfold commit_object. destruct (so_suicided o).
    + intros E. exists st, (so_address o). right. by rewrite E.
    + set (st1 := match so_code o with None => st | Some _ => _ end).
      destruct (k_SetAccount st1 _ _) as [st3 [[]|e2|e2]] eqn:E2; intros [= _ <-].
      exists st1, (so_address o). left. eexists. by rewrite E2.
Qed.

(** C9: Operations panic exactly where they should. In a reachable state an
    operation of the EVM that needs an account stops with the panic of the
    keeper when the account is not cached and its load panics (a balance that
    overflows 256 bits once scaled); otherwise it returns normally, with two
    exceptions, on which it panics: subtracting more gas than the refund counter
    holds, and reverting to a revision that is not on the stack. A precompile
    call ends as [precompile_end] says: it fails without a multi-store, with the
    error or the panic of the commit to the cached context, of its own action,
    or of the load of an account to journal, or above the limit of calls, and
    returns otherwise; a panic of the commit is one of the keeper's writes. *)
Theorem exec_panics_exactly s (o : OP) :
  ginv s ->
  (forall a e, op_account o = Some a -> load_panics a s = Some e -> exec o s = Panic e) /\
  ((forall a, op_account o = Some a -> load_panics a s = None) ->
  match o with
  | OpPrecompile a act =>
      (let? _ := exec o s in Ok ()) = precompile_end a act s /\
      (forall st e, commitWithCtx s (cache_view s) = (st, Panic e) -> exists st1 (c : address),
         (exists v, (k_SetAccount st1 c v).2 = Panic e) \/ (k_DeleteAccount st1 c).2 = Panic e)
  | OpSubRefund gas => if refund s <? gas then exec o s = Panic PanicRefund else is_ok (exec o s) = true
  | OpRevertToSnapshot id =>
      if bool_decide (id ∈ rev_id <$> validRevisions s) then is_ok (exec o s) = true
      else exec o s = Panic PanicRevision
  | _ => is_ok (exec o s) = true
  end).
Proof.
  intros Hg. split.
  { intros a e Ha He. unfold exec. rewrite Ha. cbn. by rewrite He. }
  intros Hload. pose proof (ginv_wf _ Hg) as Hw.
  assert (Hx : exec o s = exec_op o s).
  { unfold exec. destruct (op_account o) as [a|]; [|done]. cbn. by rewrite (Hload a eq_refl). }
  rewrite Hx. clear Hx Hload. destruct o; try done; cbn.
  - unfold SubRefund. cbn. by case_match.
  - by destruct (AddSlotToAccessList_steps a slot s Hw) as (? & -> & _).
  - by destruct (PrepareAccessList_steps sender dst pcs l s Hw) as (? & -> & _).
  - split; [|intros st e; by apply commitWithCtx_panic]. rewrite <-(Run_end a act s Hg).
    by destruct (Run a act s) as [t [[]| |]].
  - case_bool_decide as Hin.
    + apply list_elem_of_fmap in Hin as (r & -> & (i & Hr)%list_elem_of_lookup).
      by destruct (RevertToSnapshot_ok s i r Hg Hr) as (_ & s' & _ & -> & _).
    + unfold RevertToSnapshot. destruct (validRevisions s !! _) as [r|] eqn:E; [|done].
      destruct (Z.eqb_spec (rev_id r) revid) as [<-|]; [|done].
      destruct Hin. apply list_elem_of_fmap. exists r. split; [done|]. by eapply list_elem_of_lookup_2.
Qed.

(** ** Reads after writes *)

(** Each setter changes what it names and nothing else. In a well-formed
    state, after [AddBalance] or [SubBalance] the balance has moved by the
    amount without the decimals the bank cannot hold; after [SetNonce],
    [SetCode] and [SetState] the new value is read back; and the account fields
    and slots of every other address, and the other fields of this one, read as
    before. *)
Theorem setters_read_back s a :
  wf s ->
  (forall v, (GetBalance a (AddBalance a v s)).1 =
     (GetBalance a s).1 + AdjustExtraDecimalsBigInt coinCfg v) /\
  (forall v, (GetBalance a (SubBalance a v s)).1 =
     (GetBalance a s).1 - AdjustExtraDecimalsBigInt coinCfg v) /\
  (forall n, (GetNonce a (SetNonce a n s)).1 = n /\
     (GetBalance a (SetNonce a n s)).1 = (GetBalance a s).1) /\
  (forall c, (GetCodeHash a (SetCode a (Some c) s)).1 = keccak c /\
     (GetCode a (SetCode a (Some c) s)).1 = Some c /\
     (GetNonce a (SetCode a (Some c) s)).1 = (GetNonce a s).1) /\
  (forall k v, (GetState a k (SetState a k v s)).1 = v /\
     (forall k', k' <> k -> is_Some (lookup_obj s a) ->
        (GetState a k' (SetState a k v s)).1 = (GetState a k' s).1) /\
     (GetBalance a (SetState a k v s)).1 = (GetBalance a s).1) /\
  (forall b : address, b <> a -> forall v n c k,
     lookup_obj (AddBalance a v s) b = lookup_obj s b /\
     lookup_obj (SubBalance a v s) b = lookup_obj s b /\
     lookup_obj (SetNonce a n s) b = lookup_obj s b /\
     lookup_obj (SetCode a c s) b = lookup_obj s b /\
     lookup_obj (SetState a k v s) b = lookup_obj s b).
Proof.
  intros Hwf. split_and!.
  - intros v. rewrite !GetBalance_lookup, AddBalance_lookup, decide_True by done. cbn.
    destruct (Z.eqb_spec (AdjustExtraDecimalsBigInt coinCfg v) 0) as [->|];
      destruct (lookup_obj s a); cbn; lia.
  - intros v. rewrite !GetBalance_lookup, SubBalance_lookup, decide_True by done. cbn.
    destruct (Z.eqb_spec (AdjustExtraDecimalsBigInt coinCfg v) 0) as [->|];
      destruct (lookup_obj s a); cbn; lia.
  - intros n. rewrite GetNonce_lookup, !GetBalance_lookup, SetNonce_lookup, decide_True by done.
    by destruct (lookup_obj s a).
  - intros c. rewrite GetCodeHash_lookup, GetCode_lookup, !GetNonce_lookup, SetCode_lookup,
      decide_True by done. cbn. split_and!; [done|done|].
    rewrite (proj2 (so_Code_frame _ _)). by destruct (lookup_obj s a).
  - intros k v. rewrite !GetState_lookup, !GetBalance_lookup, SetState_lookup, decide_True by done.
    rewrite SetState_store. cbn [from_option]. split_and!.
    + destruct (Z.eqb_spec (state_of (ctx_store s) (default (fresh_obj a) (lookup_obj s a)) k) v)
        as [<-|]; [apply state_of_loaded|]. by rewrite state_of_setState, decide_True.
    + intros k' Hk [o Ho]. rewrite GetState_lookup, SetState_lookup, decide_True by done.
      rewrite SetState_store, GetState_lookup, Ho. cbn.
      case_match; [apply state_of_loaded|].
      by rewrite state_of_setState, decide_False, state_of_loaded by done.
    + case_match; cbn; rewrite (proj2 (so_GetState_frame _ _ _)); by destruct (lookup_obj s a).
  - intros b Hb v n c k.
    by rewrite AddBalance_lookup, SubBalance_lookup, SetNonce_lookup, SetCode_lookup,
      SetState_lookup, !decide_False by done.
Qed.

(** ** The limit on precompile calls *)

Fixpoint precompile_calls (n : nat) a (cms : store) (evs : list event) s : SDB :=
  match n with
  | O => s
  | S n => (AddPrecompileFn a cms evs (precompile_calls n a cms evs s)).1
  end.

Lemma AddPrecompileFn_counter a cms evs s :
  precompileCallsCounter (AddPrecompileFn a cms evs s).1 = wrap8 (precompileCallsCounter s + 1) /\
  is_ok (AddPrecompileFn a cms evs s).2 = (wrap8 (precompileCallsCounter s + 1) <=? MaxPrecompileCalls).
Proof.
  unfold AddPrecompileFn. pose proof (getOrNew_counter a s) as Hc.
  destruct (getOrNewStateObject a s) as [o t]. cbn in *. rewrite Hc. split; [done|].
  destruct (Z.ltb_spec MaxPrecompileCalls (wrap8 (precompileCallsCounter s + 1))),
    (Z.leb_spec (wrap8 (precompileCallsCounter s + 1)) MaxPrecompileCalls); cbn; lia.
Qed.

(** The counter of precompile calls is an 8-bit counter that failed calls
    advance too. In a transaction that has made [n] calls the next one is
    accepted exactly when [n + 1] modulo 256 is at most [MaxPrecompileCalls] (7):
    the first seven calls pass, calls 8 to 255 fail, and from call 256 on the
    limit starts over. *)
Theorem precompile_call_limit st hasMS tc a cms evs n :
  let s := precompile_calls n a cms evs (New st hasMS tc) in
  precompileCallsCounter s = Z.of_nat n `mod` 256 /\
  is_ok (AddPrecompileFn a cms evs s).2 = ((Z.of_nat n + 1) `mod` 256 <=? MaxPrecompileCalls).
Proof.
  cbn zeta. assert (Hc : precompileCallsCounter (precompile_calls n a cms evs (New st hasMS tc))
    = Z.of_nat n `mod` 256).
  { induction n as [|n IH]; [done|]. cbn [precompile_calls].
    rewrite (proj1 (AddPrecompileFn_counter _ _ _ _)), IH. unfold wrap8.
    change (2 ^ 8) with 256. rewrite Z.add_mod_idemp_l by lia. f_equal. lia. }
  split; [done|]. rewrite (proj2 (AddPrecompileFn_counter _ _ _ _)), Hc. unfold wrap8.
  change (2 ^ 8) with 256. by rewrite Z.add_mod_idemp_l by lia.
Qed.

(** ** Commit *)

Context `{!KeeperLaws store}.

(** C2: A commit persists the dirty objects and nothing else. After any
    sequence of operations from [New] with 256-bit slot values, over stores
    whose codes are stored under their hashes, a commit that succeeds leaves,
    for every dirty address: no account when it self-destructed, otherwise
    exactly the account of its object (nonce, balance, code hash), in each slot
    the dirty value or else what the store had, and a code with the account's
    code hash whenever new code was set; every other address keeps the account
    and slots it had in the store of the transaction with the precompile calls'
    writes. *)
Theorem commit_persists st tc ops s s' :
  code_ok st -> Forall op_words ops -> exec_all ops (New st true tc) = Ok s ->
  code_ok (base_store s) ->
  (forall a o, stateObjects s !! a = Some o -> is_word (av_Balance (so_account o))) ->
  Commit s = (s', Ok ()) ->
  (forall a, a ∈ sortedDirties (sdb_journal s) -> exists o, stateObjects s !! a = Some o /\
     persisted (base_store s) (ctx_store s') o /\
     (so_suicided o = false -> so_dirtyCode o = true -> is_Some (so_code o) ->
        has_code (ctx_store s') (av_CodeHash (so_account o)))) /\
  (forall a, a ∉ sortedDirties (sdb_journal s) ->
     k_GetAccount (ctx_store s') a = k_GetAccount (base_store s) a /\
     forall k, k_GetState (ctx_store s') a k = k_GetState (base_store s) a k) /\
  code_ok (ctx_store s').
Proof.
  intros Hok Hops Hex Hbok Hbal Hc. destruct (Commit_base s) as [evs E]. rewrite E in Hc. clear E.
  pose proof (exec_all_ginv _ _ _ (New_ginv st true tc) Hex) as Hg.
  pose proof (good_exec_all _ _ _ Hops Hex (New_good st true tc Hok)) as Hgood.
  unfold commitWithCtx in Hc. revert Hc. destruct (commit_dirties _ _ _) as [st' r] eqn:Ec.
  intros [= <- ->]. cbn.
  assert (Hobjs : forall a o, a ∈ sortedDirties (sdb_journal s) -> stateObjects s !! a = Some o ->
    good_obj o /\ is_word (av_Balance (so_account o))) by (intros; split; [by eapply Hgood|eauto]).
  destruct (commit_dirties_spec _ _ _ _ (wf_addr _ (ginv_wf _ Hg)) Hobjs (sortedDirties_NoDup _) Ec)
    as (P1 & P2 & P3).
  destruct (commit_dirties_code _ _ _ _ Hobjs Hbok Ec) as (C1 & _ & C3).
  split_and!; [|by auto|done].
  intros a Ha. destruct (P1 a Ha) as (o & Ho & Hp). eauto 10.
Qed.
End General.

(** ** Concrete states *)

Definition tc0 : TxConfig := NewTxConfig 1 2 0 0.
Definition sdb0 : @StateDB cstore Z := New cstore0 true tc0.

(** a native action that moves one coin from account 1 to account 3 and emits
    an event *)
Definition act_send : @nativeAction cstore Z := fun st evs =>
  let b := cb_add (cb_add (VmKeeper.es_bank st) 1 (-1) [mkCoin "utac" 1]) 3 1 [mkCoin "utac" 1] in
  (VmKeeper.with_bank b st, evs ++ [42],
   Ok [mkBalanceChangeEntry 1 (10 ^ 12) Sub; mkBalanceChangeEntry 3 (10 ^ 12) Add]).

Definition ops0 : list (@op cstore Z) :=
  [OpAddBalance 1 (3 * 10 ^ 12 + 5); OpSnapshot; OpSetState 2 10 99; OpSuicide 2;
   OpRevertToSnapshot 1; OpSetNonce 1 9; OpPrecompile 5 act_send; OpCreateAccount 4;
   OpSetCode 4 (Some [1; 2]); OpAddSlotToAccessList 4 3; OpAddRefund 7].

Definition run_ops (ops : list (@op cstore Z)) (s : @StateDB cstore Z) : @StateDB cstore Z :=
  ok_or s (exec_all ops s).

Lemma run_ops_ok ops s : is_ok (exec_all ops s) = true -> exec_all ops s = Ok (run_ops ops s).
Proof. apply ok_or_ok. Qed.

Lemma revert_restores_snapshot_witness :
  exists s s', exec_all ops0 (Snapshot sdb0).2 = Ok s /\
    (GetBalance 1 s).1 = 7 * 10 ^ 12 /\
    RevertToSnapshot 0 s = Ok s' /\ same_reads sdb0 s' /\ (GetBalance 1 s').1 = 5 * 10 ^ 12.
Proof.
  exists (run_ops ops0 (Snapshot sdb0).2).
  destruct (revert_restores_snapshot sdb0 ops0 (run_ops ops0 (Snapshot sdb0).2))
    as (s' & Hr & Hs & _).
  - apply New_ginv.
  - repeat constructor.
  - apply run_ops_ok. vm_compute. reflexivity.
  - exists s'. split; [apply run_ops_ok; vm_compute; reflexivity|]. split; [vm_compute; reflexivity|].
    split; [exact Hr|]. split; [exact Hs|].
    rewrite (sr_balance _ _ Hs). vm_compute. reflexivity.
Defined.


Lemma reachable_consistent_witness :
  exists s, exec_all (OpSnapshot :: ops0) sdb0 = Ok s /\ sortedDirties (sdb_journal s) = [1; 3; 4; 5] /\
    j_dirties (sdb_journal s) !! 1 = Some 3 /\
    (forall a, a ∈ sortedDirties (sdb_journal s) -> is_Some (stateObjects s !! a)).
Proof.
  exists (run_ops (OpSnapshot :: ops0) sdb0). split; [apply run_ops_ok; vm_compute; reflexivity|].
  split; [vm_compute; reflexivity|].
  destruct (reachable_consistent cstore0 true tc0 (OpSnapshot :: ops0) (run_ops (OpSnapshot :: ops0) sdb0))
    as (Hd & _ & Hl & _); [apply run_ops_ok; vm_compute; reflexivity|].
  split; [rewrite (Hd 1); vm_compute; reflexivity|exact Hl].
Defined.

(** account 7 holds [2 ^ 250] units of the bank's coin, too many for 18 decimals *)
Definition cstore_rich : cstore :=
  VmKeeper.mkEvmStore (<[7 := mkCAcct 7 0]> ∅) (<[(7, "utac") := 2 ^ 250]> ∅) ∅ ∅ ∅.
Definition sdb_rich : @StateDB cstore Z := New cstore_rich true tc0.
Definition act_rich : @nativeAction cstore Z := fun st evs => (st, evs, Ok [mkBalanceChangeEntry 7 1 Add]).

Lemma exec_panics_exactly_witness :
  exec (OpSubRefund 1) sdb0 = Panic PanicRefund /\
  exec (OpRevertToSnapshot 0) sdb0 = Panic PanicRevision /\
  exec (OpAddBalance 7 1) sdb_rich = Panic ErrIntOverflow /\
  (let? _ := exec (OpPrecompile 5 act_rich) sdb_rich in Ok ()) = Panic ErrIntOverflow /\
  (let? _ := exec (OpPrecompile 5 act_rich) sdb0 in Ok ()) = Ok ().
Proof.
  split_and!.
  - by apply (exec_panics_exactly sdb0 (OpSubRefund 1) (New_ginv _ _ _)).
  - by apply (exec_panics_exactly sdb0 (OpRevertToSnapshot 0) (New_ginv _ _ _)).
  - apply (proj1 (exec_panics_exactly sdb_rich (OpAddBalance 7 1) (New_ginv _ _ _)) 7); [done|].
    vm_compute. reflexivity.
  - destruct (exec_panics_exactly sdb_rich (OpPrecompile 5 act_rich) (New_ginv _ _ _)) as [_ H].
    rewrite (proj1 (H ltac:(done))). vm_compute. reflexivity.
  - destruct (exec_panics_exactly sdb0 (OpPrecompile 5 act_rich) (New_ginv _ _ _)) as [_ H].
    rewrite (proj1 (H ltac:(done))). vm_compute. reflexivity.
Defined.

Lemma code_ok_dec (st : cstore) :
  bool_decide (map_Forall (fun h c => h = ckeccak c) (VmKeeper.es_code st)) = true -> code_ok st.
Proof. intros Hb%bool_decide_eq_true h c Hc. by apply (Hb h c). Qed.

#[local] Instance is_word_dec v : Decision (is_word v).
Proof. unfold is_word. apply _. Defined.

Lemma balances_dec (s : @StateDB cstore Z) :
  bool_decide (map_Forall (fun _ o => is_word (av_Balance (so_account o))) (stateObjects s)) = true ->
  forall a o, stateObjects s !! a = Some o -> is_word (av_Balance (so_account o)).
Proof. intros Hb%bool_decide_eq_true a o Ho. by apply (Hb a o). Qed.

(** a self-destructed contract, a new contract, a precompile call *)
Definition ops1 : list (@op cstore Z) := OpSnapshot :: ops0 ++ [OpSetState 4 20 21; OpSetState 2 10 0; OpSuicide 2].

Definition committed1 : @StateDB cstore Z := (Commit (run_ops ops1 sdb0)).1.

Lemma commit_persists_witness :
  VmKeeper.load_account (ctx_store committed1) 2 = None /\
  VmKeeper.GetState (ctx_store committed1) 4 20 = 21 /\
  (forall a, a ∉ sortedDirties (sdb_journal (run_ops ops1 sdb0)) ->
     k_GetAccount (ctx_store committed1) a = k_GetAccount (base_store (run_ops ops1 sdb0)) a).
Proof.
  split; [vm_compute; reflexivity|]. split; [vm_compute; reflexivity|].
  destruct (commit_persists cstore0 tc0 ops1 (run_ops ops1 sdb0) committed1) as (_ & Hf & _).
  - apply code_ok_dec. vm_compute. reflexivity.
  - repeat constructor; vm_compute; congruence.
  - apply run_ops_ok. vm_compute. reflexivity.
  - apply code_ok_dec. vm_compute. reflexivity.
  - apply balances_dec. vm_compute. reflexivity.
  - unfold committed1. apply pair_snd. vm_compute. reflexivity.
  - intros a Ha. by apply Hf.
Defined.

Lemma setters_read_back_witness :
  wf sdb0 /\ (GetBalance 1 (AddBalance 1 (2 * 10 ^ 12 + 3) sdb0)).1
    = (GetBalance 1 sdb0).1 + AdjustExtraDecimalsBigInt coinCfg (2 * 10 ^ 12 + 3).
Proof.
  assert (Hwf : wf sdb0) by apply ginv_wf, New_ginv.
  split; [exact Hwf|]. destruct (setters_read_back sdb0 1 Hwf) as (Hadd & _). exact (Hadd _).
Defined.

(** ** Behaviours at the edges *)

(** a native action that fails *)
Definition act_fail : @nativeAction cstore Z := fun st evs => (st, evs, Err "out of gas").

(** A failed precompile call escapes a revert. [RunSetup] writes the
    journalled changes to the cached context before the native action runs, and
    the entry that restores the context is only added after the action
    succeeds. There is a run in which a slot is changed from 77 to 99, a
    precompile call fails, and the whole is reverted: the EVM then reads 77
    again, but [Commit] stores 99. *)
Theorem failed_precompile_survives_revert :
  exists (s0 s1 s2 s3 s4 : @StateDB cstore Z),
    s0 = New cstore0 true tc0 /\
    s1 = SetState 2 10 99 (Snapshot s0).2 /\
    Run 5 act_fail s1 = (s2, Err "out of gas") /\
    RevertToSnapshot 0 s2 = Ok s3 /\
    (GetState 2 10 s0).1 = 77 /\ (GetState 2 10 s3).1 = 77 /\
    sdb_journal s3 = newJournal /\
    Commit s3 = (s4, Ok ()) /\ VmKeeper.GetState (ctx_store s4) 2 10 = 99.
Proof.
  set (s0 := New cstore0 true tc0). set (s1 := SetState 2 10 99 (Snapshot s0).2).
  set (s2 := (Run 5 act_fail s1).1). set (s3 := ok_or s2 (RevertToSnapshot 0 s2)).
  exists s0, s1, s2, s3, (Commit s3).1. split_and!; [done|done|..].
  - apply pair_snd. vm_compute. reflexivity.
  - apply ok_or_ok. vm_compute. reflexivity.
  - vm_compute. reflexivity.
  - vm_compute. reflexivity.
  - vm_compute. reflexivity.
  - apply pair_snd. vm_compute. reflexivity.
  - vm_compute. reflexivity.
Qed.

(** account 6 holds coins and has no code *)
Definition cstore1 : cstore :=
  VmKeeper.mkEvmStore (<[6 := mkCAcct 6 0]> ∅) (<[(6, "utac") := 4]> ∅) ∅ ∅ ∅.

Definition ops2 : list (@op cstore Z) :=
  [OpCreateAccount 6; OpSetNonce 6 1; OpSetCode 6 (Some [1]); OpSuicide 6].

(** A contract cannot be created and destroyed in one transaction at an
    address that already has an account. [DeleteAccount] looks for the code hash
    in the store, where a contract of the same transaction is not yet: the
    commit fails with the error for accounts that are not contracts. *)
Theorem selfdestruct_in_creation_fails_commit :
  exists s, exec_all ops2 (New cstore1 true tc0) = Ok s /\
    (HasSuicided 6 s).1 = true /\ (Commit s).2 = Err ErrNotContract.
Proof.
  exists (run_ops ops2 (New cstore1 true tc0)). split; [apply run_ops_ok; vm_compute; reflexivity|].
  split; vm_compute; reflexivity.
Qed.

Section KeptSlots.
Context {auth acct bank : Type} `{!AccountKeeper auth acct} `{!BankKeeper bank}.
Context `{!SdkMath} `{!EvmEnv}.
Abbreviation vstore := (@VmKeeper.evmStore auth bank).

(** Committing a slot that was set to zero stores 32 zero bytes: the branch
    of [commitWithCtx] that deletes the slot is never taken, since the bytes of
    a hash are never empty. *)
Theorem zero_slot_is_kept (st : vstore) a (m : gmap hash hash) k :
  m !! k = Some 0 ->
  VmKeeper.GetFastState (commit_storage a m (SortedKeys m) st) a k = Some (repeat 0 32) /\
  VmKeeper.GetState (commit_storage a m (SortedKeys m) st) a k = 0.
Proof.
  intros Hk.
  assert (Hgen : forall keys (st : vstore), k ∈ keys \/ VmKeeper.GetFastState st a k = Some (repeat 0 32) ->
    VmKeeper.GetFastState (commit_storage a m keys st) a k = Some (repeat 0 32)).
  { intros keys. induction keys as [|key keys IH]; intros st'.
    - intros [H1|H1]; [by apply elem_of_nil in H1|done].
    - intros Hor. cbn [commit_storage].
      destruct (be_bytes_32_cons (default 0 (m !! key))) as (x & xs & Hb). rewrite Hb, <-Hb.
      apply IH. destruct (decide (k ∈ keys)) as [|Hn]; [by left|right].
      unfold VmKeeper.GetFastState, VmKeeper.storage_at. cbn. rewrite lookup_insert_eq. cbn.
      destruct (decide (key = k)) as [->|Hne]; [by rewrite lookup_insert_eq, Hk|].
      rewrite lookup_insert_ne by done. destruct Hor as [[->|]%elem_of_cons|Hs]; done. }
  assert (Hfs : VmKeeper.GetFastState (commit_storage a m (SortedKeys m) st) a k = Some (repeat 0 32)).
  { apply Hgen. left. apply elem_of_SortedKeys. eauto. }
  split; [done|]. by rewrite VmKeeper.GetState_fast, Hfs.
Qed.
End KeptSlots.

Lemma zero_slot_is_kept_witness :
  VmKeeper.GetFastState (commit_storage 2 (<[10 := 0]> ∅) (SortedKeys (<[10 := 0]> ∅)) cstore0) 2 10
    = Some (repeat 0 32).
Proof. apply (zero_slot_is_kept cstore0 2 (<[10 := 0]> ∅) 10). reflexivity. Defined.
