(* ===== verification/FeeMarket.v ===== *)
(** * The fee market ([x/feemarket], [x/vm/wrappers/feemarket.go])

    Parameters and their validation, the EIP-1559 base fee, the block hooks, the
    gas counters and the wrapper that converts fees to 18 decimals. A
    [LegacyDec] is its scaled integer, [None] when nil. The module's key-value
    store and transient store are the fields of [fmState]; the context supplies
    the block height, the consensus parameters and the block gas meter. *)

From stdpp Require Import base list numbers strings.
From Stdlib Require Import ZArith Lia.
From S2P Require Import Prelude SdkMath Scaling.

Module FeeMarket.

Definition ErrDenominator : error := "base fee change denominator cannot be 0".
Definition ErrNegBaseFee : error := "initial base fee cannot be negative".
Definition ErrEnableHeight : error := "enable height cannot be negative".
Definition ErrNilParam : error := "invalid parameter: nil".
Definition ErrNegValue : error := "value cannot be negative".
Definition ErrMultiplierOne : error := "value cannot be greater than 1".
Definition ErrNoGasMeter : error := "block gas meter is nil when setting block gas wanted".
Definition ErrGasOverflow : error := "integer overflow by integer type conversion".
Definition ErrInvalidSigner : error := "invalid authority".
Definition PanicNilDec : error := "nil pointer dereference".
Definition PanicUint64 : error := "Uint64() out of bounds".

(** ** Parameters ([types/params.go]) *)

Record Params := mkParams {
  NoBaseFee : bool;
  BaseFeeChangeDenominator : Z;     (* uint32 *)
  ElasticityMultiplier : Z;         (* uint32 *)
  BaseFee : option Z;
  EnableHeight : Z;                 (* int64 *)
  MinGasPrice : option Z;
  MinGasMultiplier : option Z
}.

Definition NewParams (noBaseFee : bool) (baseFeeChangeDenom elasticityMultiplier : Z)
    (baseFee : option Z) (enableHeight : Z) (minGasPrice minGasPriceMultiplier : option Z) : Params :=
  mkParams noBaseFee baseFeeChangeDenom elasticityMultiplier baseFee enableHeight minGasPrice
    minGasPriceMultiplier.

Definition DefaultBaseFee : Z := NewDec 1000000000.
Definition DefaultMinGasMultiplier : Z := dec_one / 2.
Definition DefaultMinGasPrice : Z := 0.
Definition DefaultEnableHeight : Z := 0.
Definition DefaultNoBaseFee : bool := false.

(** go-ethereum's [params.BaseFeeChangeDenominator] is 8 and
    [params.ElasticityMultiplier] is 2. *)
Definition DefaultParams : Params :=
  mkParams DefaultNoBaseFee 8 2 (Some DefaultBaseFee) DefaultEnableHeight
    (Some DefaultMinGasPrice) (Some DefaultMinGasMultiplier).

Definition validateMinGasPrice (v : option Z) : res unit :=
  match v with
  | None => Err ErrNilParam
  | Some v => if v <? 0 then Err ErrNegValue else Ok ()
  end.

Definition validateMinGasMultiplier (v : option Z) : res unit :=
  match v with
  | None => Err ErrNilParam
  | Some v =>
      if v <? 0 then Err ErrNegValue
      else if dec_one <? v then Err ErrMultiplierOne
      else Ok ()
  end.

(** [BaseFee.IsNegative()] dereferences a nil decimal. *)
Definition Validate (p : Params) : res unit :=
  if BaseFeeChangeDenominator p =? 0 then Err ErrDenominator
  else
    let? baseFee := match BaseFee p with None => Panic PanicNilDec | Some v => Ok v end in
    if baseFee <? 0 then Err ErrNegBaseFee
    else if EnableHeight p <? 0 then Err ErrEnableHeight
    else
      let? _ := validateMinGasMultiplier (MinGasMultiplier p) in
      validateMinGasPrice (MinGasPrice p).

Definition IsBaseFeeEnabled (p : Params) (height : Z) : bool :=
  negb (NoBaseFee p) && (EnableHeight p <=? height).

Lemma Validate_Ok p :
  Validate p = Ok () <->
  BaseFeeChangeDenominator p <> 0 /\ 0 <= EnableHeight p /\
  (exists f, BaseFee p = Some f /\ 0 <= f) /\
  (exists m, MinGasMultiplier p = Some m /\ 0 <= m <= dec_one) /\
  (exists g, MinGasPrice p = Some g /\ 0 <= g).
Proof.
  unfold Validate, validateMinGasMultiplier, validateMinGasPrice.
  destruct (Z.eqb_spec (BaseFeeChangeDenominator p) 0), (BaseFee p) as [f|], (MinGasMultiplier p) as [m|],
    (MinGasPrice p) as [g|]; cbn;
    try (split; [repeat case_match; done|intros (? & ? & (? & ? & ?) & (? & ? & ?) & (? & ? & ?)); done]).
  destruct (Z.ltb_spec f 0), (Z.ltb_spec (EnableHeight p) 0), (Z.ltb_spec m 0),
    (Z.ltb_spec dec_one m), (Z.ltb_spec g 0); cbn;
    (split; [intros ?; try done; naive_solver|
             intros (? & ? & (? & ? & ?) & (? & ? & ?) & (? & ? & ?)); simplify_eq; try done; lia]).
Qed.

(** ** Keeper state ([keeper/keeper.go], [keeper/params.go]) *)

Record fmState := mkFmState {
  fm_params : option Params;        (* the value under [ParamsKey] *)
  fm_blockGasWanted : Z;            (* [KeyPrefixBlockGasWanted] *)
  fm_baseFeeV1 : option Z;          (* [KeyPrefixBaseFeeV1] *)
  fm_transientGasWanted : Z         (* [KeyPrefixTransientBlockGasWanted] *)
}.

Record fmCtx := mkFmCtx {
  ctx_BlockHeight : Z;
  ctx_MaxGas : option Z;            (* [ConsensusParams().Block], nil or its [MaxGas] *)
  ctx_GasConsumedToLimit : option Z (* the block gas meter, nil or its consumption *)
}.

Section Keeper.
Context `{!SdkMath}.

(** [stored p] is what unmarshalling the marshalled [p] gives: gogoproto code,
    which returns a value without nil fields unchanged. [legacyParams] are the
    parameters of the legacy subspace. *)
Variable stored : Params -> Params.
Variable legacyParams : Params.

Definition GetParams (s : fmState) : Params :=
  let p := match fm_params s with None => legacyParams | Some p => p end in
  mkParams (NoBaseFee p) (BaseFeeChangeDenominator p) (ElasticityMultiplier p) (BaseFee p)
    (EnableHeight p) (Some (default 0 (MinGasPrice p))) (Some (default 0 (MinGasMultiplier p))).

Definition SetParams (s : fmState) (p : Params) : fmState :=
  mkFmState (Some (stored p)) (fm_blockGasWanted s) (fm_baseFeeV1 s) (fm_transientGasWanted s).

Definition GetBaseFeeEnabled (c : fmCtx) (s : fmState) : bool :=
  let p := GetParams s in
  negb (NoBaseFee p) && (EnableHeight p <=? ctx_BlockHeight c).

Definition GetBaseFee (s : fmState) : option Z :=
  let p := GetParams s in
  if NoBaseFee p then None
  else
    let v1 := NewDec <$> fm_baseFeeV1 s in
    match BaseFee p with
    | None => v1
    | Some v => if v =? 0 then v1 else Some v
    end.

Definition SetBaseFee (s : fmState) (baseFee : Z) : fmState :=
  let p := GetParams s in
  SetParams s (mkParams (NoBaseFee p) (BaseFeeChangeDenominator p) (ElasticityMultiplier p)
    (Some baseFee) (EnableHeight p) (MinGasPrice p) (MinGasMultiplier p)).

Definition GetBlockGasWanted (s : fmState) : Z := fm_blockGasWanted s.
Definition SetBlockGasWanted (s : fmState) (gas : Z) : fmState :=
  mkFmState (fm_params s) gas (fm_baseFeeV1 s) (fm_transientGasWanted s).
Definition GetTransientGasWanted (s : fmState) : Z := fm_transientGasWanted s.
Definition SetTransientBlockGasWanted (s : fmState) (gasWanted : Z) : fmState :=
  mkFmState (fm_params s) (fm_blockGasWanted s) (fm_baseFeeV1 s) gasWanted.

(** The sum is a [uint64] and is not checked. *)
Definition AddTransientGasWanted (s : fmState) (gasWanted : Z) : fmState * Z :=
  let result := wrap64 (GetTransientGasWanted s + gasWanted) in
  (SetTransientBlockGasWanted s result, result).

Definition UpdateParams (authority reqAuthority : string) (p : Params) (s : fmState)
    : fmState * res unit :=
  if String.eqb authority reqAuthority then (SetParams s p, Ok ()) else (s, Err ErrInvalidSigner).

Definition InitGenesis (p : Params) (blockGas : Z) (s : fmState) : fmState :=
  SetBlockGasWanted (SetParams s p) blockGas.
Definition ExportGenesis (s : fmState) : Params * Z := (GetParams s, GetBlockGasWanted s).

(** ** Base fee ([keeper/eip1559.go]) *)

Definition LegacyMaxDec (a b : Z) : Z := Z.max a b.

Definition CalculateBaseFee (c : fmCtx) (s : fmState) : res (option Z) :=
  let p := GetParams s in
  if negb (IsBaseFeeEnabled p (ctx_BlockHeight c)) then Ok None
  else if ctx_BlockHeight c =? EnableHeight p then Ok (BaseFee p)
  else
    match BaseFee p with
    | None => Ok None
    | Some parentBaseFee =>
        let parentGasUsed := GetBlockGasWanted s in
        let gasLimit := match ctx_MaxGas c with
                        | Some g => if -1 <? g then g else max_uint64
                        | None => max_uint64
                        end in
        let? parentGasTarget := int_Quo gasLimit (ElasticityMultiplier p) in
        if negb (is_uint64 parentGasTarget) then Ok None
        else if parentGasUsed =? parentGasTarget then Ok (Some parentBaseFee)
        else if parentGasTarget =? 0 then Ok (Some 0)
        else if parentGasTarget <? parentGasUsed then
          let gasUsedDelta := wrap64 (parentGasUsed - parentGasTarget) in
          let? x := dec_MulInt parentBaseFee gasUsedDelta in
          let? y := dec_QuoInt x parentGasTarget in
          let? z := dec_QuoInt y (BaseFeeChangeDenominator p) in
          let? r := dec_Add parentBaseFee (LegacyMaxDec z dec_one) in
          Ok (Some r)
        else
          let gasUsedDelta := wrap64 (parentGasTarget - parentGasUsed) in
          let? x := dec_MulInt parentBaseFee gasUsedDelta in
          let? y := dec_QuoInt x parentGasTarget in
          let? baseFeeDelta := dec_QuoInt y (BaseFeeChangeDenominator p) in
          let? r := dec_Sub parentBaseFee baseFeeDelta in
          Ok (Some (LegacyMaxDec r (default 0 (MinGasPrice p))))
    end.

(** ** Block hooks ([keeper/abci.go]) *)

Definition BeginBlock (c : fmCtx) (s : fmState) : res fmState :=
  let? baseFee := CalculateBaseFee c s in
  Ok match baseFee with
     | None => s
     | Some f => SetBaseFee s f
     end.

Definition int_Uint64 (z : Z) : res Z := if is_uint64 z then Ok z else Panic PanicUint64.

Definition EndBlock (c : fmCtx) (s : fmState) : res fmState :=
  match ctx_GasConsumedToLimit c with
  | None => Err ErrNoGasMeter
  | Some gasUsed =>
      let gasWanted := GetTransientGasWanted s in
      if negb (is_int64 gasWanted) then Err ErrGasOverflow
      else if negb (is_int64 gasUsed) then Err ErrGasOverflow
      else
        let minGasMultiplier := default 0 (MinGasMultiplier (GetParams s)) in
        let? limitedGasWanted := dec_Mul (NewDec gasWanted) minGasMultiplier in
        let? t := dec_TruncateInt (LegacyMaxDec limitedGasWanted (NewDec gasUsed)) in
        let? updatedGasWanted := int_Uint64 t in
        Ok (SetBlockGasWanted s updatedGasWanted)
  end.

(** [BlockGas] of the query server *)
Definition BlockGas (s : fmState) : res Z :=
  if is_int64 (GetBlockGasWanted s) then Ok (GetBlockGasWanted s) else Err ErrGasOverflow.
End Keeper.

(** ** The wrapper used by the EVM ([x/vm/wrappers/feemarket.go]) *)

Section Wrapper.
Context `{!SdkMath} (cfg : EvmCoinInfo).

Definition to18 (fee : option Z) : res (option Z) :=
  match fee with
  | None => Ok None
  | Some f =>
      let? f := ConvertAmountTo18DecimalsLegacy cfg f in
      let? i := dec_TruncateInt f in
      Ok (Some i)
  end.

Definition fw_GetBaseFee (legacyParams : Params) (s : fmState) : res (option Z) :=
  to18 (GetBaseFee legacyParams s).

Definition fw_CalculateBaseFee (legacyParams : Params) (c : fmCtx) (s : fmState) : res (option Z) :=
  let? baseFee := CalculateBaseFee legacyParams c s in to18 baseFee.

Definition fw_GetParams (legacyParams : Params) (s : fmState) : res Params :=
  let p := GetParams legacyParams s in
  let? baseFee := match BaseFee p with
                  | None => Ok None
                  | Some f => let? f := ConvertAmountTo18DecimalsLegacy cfg f in Ok (Some f)
                  end in
  let? minGasPrice := ConvertAmountTo18DecimalsLegacy cfg (default 0 (MinGasPrice p)) in
  Ok (mkParams (NoBaseFee p) (BaseFeeChangeDenominator p) (ElasticityMultiplier p) baseFee
        (EnableHeight p) (Some minGasPrice) (MinGasMultiplier p)).
End Wrapper.
End FeeMarket.
