(* ===== verification/FeeMarketTheorems.v ===== *)
(** * Correctness of the fee market

    The base fee follows the EIP-1559 rule [next_base_fee]; its bounds, the gas
    counters and the block hooks are consequences. *)

From stdpp Require Import base list numbers strings.
From Stdlib Require Import ZArith Lia.
From S2P Require Import Prelude SdkMath Scaling FeeMarket.

Module FeeMarketSpec.
Import FeeMarket.

(** ** The EIP-1559 rule on scaled integers *)

Definition next_base_fee (fee used target den minGasPrice : Z) : Z :=
  if used =? target then fee
  else if target <? used then fee + Z.max (fee * (used - target) / (target * den)) dec_one
  else Z.max (fee - fee * (target - used) / (target * den)) minGasPrice.

(** [MaxGas] of the consensus parameters, unlimited when negative or unset *)
Definition gas_limit (maxGas : option Z) : Z :=
  match maxGas with Some g => if -1 <? g then g else max_uint64 | None => max_uint64 end.

Definition gas_target (maxGas : option Z) (elasticity : Z) : Z := gas_limit maxGas / elasticity.

(** The conditions under which the rule applies: valid parameters in the
    store, a block after the first EIP-1559 block, and sizes that cannot
    overflow a decimal. *)
Record applies (c : fmCtx) (s : fmState) (p : Params) (fee minGasPrice : Z) : Prop := {
  ap_params : fm_params s = Some p;
  ap_valid : Validate p = Ok ();
  ap_fee : BaseFee p = Some fee;
  ap_min : MinGasPrice p = Some minGasPrice;
  ap_enabled : NoBaseFee p = false;
  ap_height : EnableHeight p < ctx_BlockHeight c;
  ap_elasticity : 0 < ElasticityMultiplier p;
  ap_denominator : 0 < BaseFeeChangeDenominator p;
  ap_maxGas : forall g, ctx_MaxGas c = Some g -> g <= max_int64;
  ap_used : 0 <= fm_blockGasWanted s <= max_uint64;
  ap_small : fee < 2 ^ 250
}.

Section Spec.
Context `{!SdkMath}.
Variable legacyParams : Params.
Implicit Types (c : fmCtx) (s : fmState) (p : Params).

Lemma gas_limit_range maxGas :
  (forall g, maxGas = Some g -> g <= max_int64) -> 0 <= gas_limit maxGas <= max_uint64.
Proof.
  intros Hg. unfold gas_limit. unfold max_uint64, max_int64 in *. destruct maxGas as [g|]; [|lia].
  specialize (Hg g eq_refl). destruct (Z.ltb_spec (-1) g); lia.
Qed.

Lemma gas_target_range maxGas e :
  (forall g, maxGas = Some g -> g <= max_int64) -> 0 < e ->
  0 <= gas_target maxGas e <= max_uint64.
Proof.
  intros Hg He. pose proof (gas_limit_range maxGas Hg) as Hl. unfold gas_target.
  split; [apply Z.div_pos; lia|]. etransitivity; [|apply Hl]. apply Z.div_le_upper_bound; nia.
Qed.

Lemma applies_fee_nonneg c s p fee m : applies c s p fee m -> 0 <= fee /\ 0 <= m.
Proof.
  intros []. apply Validate_Ok in ap_valid0 as (_ & _ & (f & Hf & ?) & _ & (g & Hg & ?)).
  rewrite Hf in ap_fee0. rewrite Hg in ap_min0. by simplify_eq.
Qed.

(** two truncating divisions of a non-negative decimal *)
Lemma dec_quo_quo x a b :
  0 <= x -> 0 < a -> 0 < b ->
  (let? y := dec_QuoInt x a in dec_QuoInt y b) = Ok (x / (a * b)).
Proof.
  intros. rewrite dec_QuoInt_spec. destruct (Z.eqb_spec a 0); [lia|]. cbn.
  rewrite dec_QuoInt_spec. destruct (Z.eqb_spec b 0); [lia|].
  rewrite (Z.quot_div_nonneg x a) by lia.
  rewrite Z.quot_div_nonneg by (try apply Z.div_pos; lia).
  by rewrite Z.div_div by lia.
Qed.

(** the share of the fee that one block can move *)
Lemma delta_quo fee d t den :
  0 <= fee < 2 ^ 250 -> 0 <= d <= max_uint64 -> 0 < t -> 0 < den ->
  (let? x := dec_MulInt fee d in let? y := dec_QuoInt x t in dec_QuoInt y den)
    = Ok (fee * d / (t * den)) /\ 0 <= fee * d / (t * den) < 2 ^ 314.
Proof.
  intros Hf Hd Ht Hden.
  assert (Hb : 0 <= fee * d < 2 ^ 314).
  { unfold max_uint64 in Hd. change (2 ^ 314) with (2 ^ 250 * 2 ^ 64). nia. }
  assert (Hp : 2 ^ 314 < 2 ^ 315) by (apply Z.pow_lt_mono_r; lia).
  rewrite dec_MulInt_spec, dec_fits_315.
  2: { rewrite Z.abs_eq by apply Hb. by eapply Z.lt_trans; [apply Hb|]. }
  cbn -[Z.pow]. revert Hb. generalize (fee * d). intros x Hb.
  assert (Htd : 0 < t * den) by (apply Z.mul_pos_pos; done).
  rewrite dec_quo_quo by (done || apply Hb). split; [done|]. split; [apply Z.div_pos; [apply Hb|done]|].
  eapply Z.le_lt_trans; [|apply Hb]. apply Z.div_le_upper_bound; [done|]. clear -Hb Htd. nia.
Qed.

Lemma CalculateBaseFee_rule c s p fee m :
  applies c s p fee m ->
  let target := gas_target (ctx_MaxGas c) (ElasticityMultiplier p) in
  CalculateBaseFee legacyParams c s =
    if negb (fm_blockGasWanted s =? target) && (target =? 0) then Ok (Some 0)
    else Ok (Some (next_base_fee fee (fm_blockGasWanted s) target (BaseFeeChangeDenominator p) m)).
Proof.
  intros Hap. pose proof (applies_fee_nonneg _ _ _ _ _ Hap) as [Hfee Hm]. destruct Hap.
  pose proof (gas_target_range (ctx_MaxGas c) _ ap_maxGas0 ap_elasticity0) as Ht.
  pose proof (gas_limit_range (ctx_MaxGas c) ap_maxGas0) as Hl. cbn zeta.
  unfold CalculateBaseFee, GetParams, IsBaseFeeEnabled, GetBlockGasWanted.
  rewrite ap_params0. cbn -[max_uint64 Z.pow]. rewrite ap_enabled0, ap_fee0, ap_min0.
  destruct (Z.leb_spec (EnableHeight p) (ctx_BlockHeight c)); [|lia]. cbn -[max_uint64 Z.pow].
  destruct (Z.eqb_spec (ctx_BlockHeight c) (EnableHeight p)); [lia|].
  fold (gas_limit (ctx_MaxGas c)). rewrite int_Quo_spec.
  destruct (Z.eqb_spec (ElasticityMultiplier p) 0); [lia|]. cbn -[max_uint64 Z.pow].
  rewrite Z.quot_div_nonneg by lia.
  fold (gas_target (ctx_MaxGas c) (ElasticityMultiplier p)).
  set (t := gas_target _ _) in *. set (u := fm_blockGasWanted s) in *. clearbody t u.
  rewrite (proj2 (is_uint64_spec t)) by done. cbn [negb]. unfold next_base_fee.
  destruct (Z.eqb_spec u t); [done|]. cbn [negb andb].
  destruct (Z.eqb_spec t 0); [done|].
  destruct (Z.ltb_spec t u).
  - rewrite wrap64_small by lia.
    destruct (delta_quo fee (u - t) t (BaseFeeChangeDenominator p)) as [E Hb]; try lia.
    destruct (dec_MulInt fee (u - t)) as [x| |]; cbn -[Z.pow] in E |- *; [|done..].
    destruct (dec_QuoInt x t) as [y| |]; cbn -[Z.pow] in E |- *; [|done..]. rewrite E. cbn -[Z.pow].
    unfold LegacyMaxDec. rewrite dec_Add_spec, dec_fits_315; [done|].
    unfold dec_one. lia.
  - rewrite wrap64_small by lia.
    destruct (delta_quo fee (t - u) t (BaseFeeChangeDenominator p)) as [E Hb]; try lia.
    destruct (dec_MulInt fee (t - u)) as [x| |]; cbn -[Z.pow] in E |- *; [|done..].
    destruct (dec_QuoInt x t) as [y| |]; cbn -[Z.pow] in E |- *; [|done..]. rewrite E. cbn -[Z.pow].
    unfold LegacyMaxDec. rewrite dec_Sub_spec, dec_fits_315; [done|]. lia.
Qed.

(** ** Bounds of the rule *)

(** One block moves the fee by at most the given share. *)
Lemma share_bound fee d t den k :
  0 <= fee -> 0 < t -> 0 < den -> 0 <= d <= k * t ->
  0 <= fee * d / (t * den) <= fee * k / den.
Proof.
  intros Hf Ht Hden Hd. assert (Htd : 0 < t * den) by nia.
  split; [apply Z.div_pos; nia|].
  replace (fee * k / den) with (t * (fee * k) / (t * den)) by (apply Z.div_mul_cancel_l; lia).
  apply Z.div_le_mono; nia.
Qed.

Lemma next_base_fee_bounds fee used target den m :
  0 <= fee -> 0 <= m -> 0 <= used -> 0 < target -> 0 < den ->
  let next := next_base_fee fee used target den m in
  (used = target -> next = fee) /\
  (target < used -> fee + dec_one <= next) /\
  (used < target -> fee - fee / den <= next <= Z.max fee m /\ m <= next) /\
  (used <= 2 * target -> next <= Z.max (fee + Z.max (fee / den) dec_one) m) /\
  (m <= fee -> m <= next).
Proof.
  intros Hf Hm Hu Ht Hden. cbn zeta. unfold next_base_fee. pose proof dec_one_pos as Hone.
  destruct (Z.eqb_spec used target) as [->|Hne].
  { assert (0 <= fee / den) by (apply Z.div_pos; lia). lia. }
  destruct (Z.ltb_spec target used) as [Hlt|Hge].
  - pose proof (share_bound fee (used - target) target den 1 Hf Ht Hden) as Hs.
    rewrite Z.mul_1_r in Hs.
    assert (0 <= fee * (used - target) / (target * den)) by (apply Z.div_pos; nia).
    split_and!; lia.
  - pose proof (share_bound fee (target - used) target den 1 Hf Ht Hden) as Hs.
    rewrite Z.mul_1_r in Hs. split_and!; lia.
Qed.

(** C10: The base fee follows EIP-1559. With valid parameters, in a block after
    the first EIP-1559 block and for fees below [2^250] (so that no product
    overflows), [CalculateBaseFee] succeeds and returns the rule's next fee: the
    parent fee moved by [fee * |used - target| / (target * denominator)], by at
    least one unit upwards, and never below [MinGasPrice] downwards; when the
    gas target is zero and gas was used it returns zero. *)
Theorem base_fee_follows_eip1559 c s p fee m :
  applies c s p fee m ->
  let target := gas_target (ctx_MaxGas c) (ElasticityMultiplier p) in
  CalculateBaseFee legacyParams c s =
    Ok (Some (if negb (fm_blockGasWanted s =? target) && (target =? 0) then 0
              else next_base_fee fee (fm_blockGasWanted s) target (BaseFeeChangeDenominator p) m)).
Proof.
  intros Hap. cbn zeta. rewrite (CalculateBaseFee_rule c s p fee m Hap). by case_match.
Qed.

(** Bounds of the base fee. Under the same conditions and with a positive
    gas target the fee is unchanged at the target, rises by at least one unit
    above it, falls by at most [fee / denominator] below it and then is at most
    the larger of the old fee and [MinGasPrice]; a block within twice the target
    raises it by at most [fee / denominator] or one unit; and a fee that is at
    least [MinGasPrice] stays so. *)
Theorem base_fee_bounded c s p fee m :
  applies c s p fee m ->
  let target := gas_target (ctx_MaxGas c) (ElasticityMultiplier p) in
  let used := fm_blockGasWanted s in
  let den := BaseFeeChangeDenominator p in
  0 < target ->
  exists next, CalculateBaseFee legacyParams c s = Ok (Some next) /\
    (used = target -> next = fee) /\
    (target < used -> fee + dec_one <= next) /\
    (used < target -> fee - fee / den <= next <= Z.max fee m /\ m <= next) /\
    (used <= 2 * target -> next <= Z.max (fee + Z.max (fee / den) dec_one) m) /\
    (m <= fee -> m <= next).
Proof.
  intros Hap target used den Ht. eexists. split.
  - rewrite (CalculateBaseFee_rule c s p fee m Hap). fold target.
    destruct (Z.eqb_spec target 0); [lia|]. rewrite andb_false_r. reflexivity.
  - pose proof (applies_fee_nonneg _ _ _ _ _ Hap) as [? ?]. destruct Hap.
    apply next_base_fee_bounds; [done|done|apply ap_used0|done|done].
Qed.

(** ** Block hooks *)

(** a value without nil fields *)
Definition no_nil p : Prop :=
  is_Some (BaseFee p) /\ is_Some (MinGasPrice p) /\ is_Some (MinGasMultiplier p).

Variable stored : Params -> Params.
Hypothesis stored_no_nil : forall p, no_nil p -> stored p = p.

(** [BeginBlock] stores the fee the rule gives. Under the conditions of the
    rule the base fee read after [BeginBlock] is the next fee, all other
    parameters and the gas counters are as before. *)
Theorem begin_block_stores_base_fee c s p fee m s' f :
  applies c s p fee m ->
  CalculateBaseFee legacyParams c s = Ok (Some f) ->
  BeginBlock stored legacyParams c s = Ok s' ->
  GetParams legacyParams s' =
    mkParams (NoBaseFee p) (BaseFeeChangeDenominator p) (ElasticityMultiplier p) (Some f)
      (EnableHeight p) (MinGasPrice p) (MinGasMultiplier p) /\
  (f <> 0 -> GetBaseFee legacyParams s' = Some f) /\
  fm_blockGasWanted s' = fm_blockGasWanted s /\
  fm_transientGasWanted s' = fm_transientGasWanted s.
Proof.
  intros [] Hf. unfold BeginBlock. rewrite Hf. cbn. intros [= <-].
  apply Validate_Ok in ap_valid0 as (_ & _ & _ & (mm & Hmm & _) & _).
  unfold GetBaseFee, GetParams, SetBaseFee, SetParams, GetParams. rewrite ap_params0.
  cbn. rewrite stored_no_nil by (repeat split; cbn; eauto). cbn. rewrite ap_min0, Hmm, ap_enabled0. cbn.
  split_and!; try done. intros Hne. destruct (Z.eqb_spec f 0); [done|]. done.
Qed.

(** [EndBlock] records the gas that sets the next base fee: the larger of the
    gas used and the wanted gas times [MinGasMultiplier] rounded down, which is
    never more than the larger of the two gas counters; it fails without a block
    gas meter and when a counter does not fit an [int64]. *)
Theorem end_block_gas_wanted c s p used mult :
  fm_params s = Some p -> MinGasMultiplier p = Some mult -> 0 <= mult <= dec_one ->
  ctx_GasConsumedToLimit c = Some used -> 0 <= used -> 0 <= fm_transientGasWanted s ->
  if is_int64 used && is_int64 (fm_transientGasWanted s) then
    exists s', EndBlock legacyParams c s = Ok s' /\
      fm_blockGasWanted s' = Z.max (fm_transientGasWanted s * mult / dec_one) used /\
      used <= fm_blockGasWanted s' <= Z.max (fm_transientGasWanted s) used /\
      fm_params s' = fm_params s /\ fm_transientGasWanted s' = fm_transientGasWanted s
  else EndBlock legacyParams c s = Err ErrGasOverflow.
Proof.
  intros Hp Hmult Hm Hu Hu0 Hw0. unfold EndBlock, GetTransientGasWanted, GetParams.
  rewrite Hu, Hp. cbn -[Z.pow]. rewrite Hmult. cbn -[Z.pow].
  remember (fm_transientGasWanted s) as w eqn:Hw.
  destruct (is_int64 w) eqn:Ew; [|by rewrite andb_false_r].
  destruct (is_int64 used) eqn:Eu; [|done]. cbn -[Z.pow].
  apply is_int64_spec in Ew, Eu. pose proof dec_one_pos as Hone.
  assert (Hwm : 0 <= w * mult <= w * dec_one) by nia.
  assert (Hbig : max_int64 * dec_one < 2 ^ 200) by reflexivity.
  assert (H315 : 2 ^ 200 < 2 ^ 315) by (apply Z.pow_lt_mono_r; lia).
  assert (Hwb : w * dec_one < 2 ^ 200) by nia.
  assert (Hub : used * dec_one < 2 ^ 200) by nia.
  rewrite dec_Mul_NewDec_l, dec_fits_315 by (rewrite Z.abs_eq; lia). cbn -[Z.pow].
  unfold LegacyMaxDec, NewDec.
  assert (Hq : Z.quot (Z.max (w * mult) (used * dec_one)) dec_one
    = Z.max (w * mult / dec_one) used).
  { rewrite Z.quot_div_nonneg by lia.
    destruct (Z.max_spec (w * mult) (used * dec_one)) as [[Hle ->]|[Hle ->]].
    - rewrite Z.div_mul by lia. symmetry. apply Z.max_r. apply Z.lt_le_incl, Z.div_lt_upper_bound; lia.
    - symmetry. apply Z.max_l. apply Z.div_le_lower_bound; lia. }
  assert (Hle : w * mult / dec_one <= w) by (apply Z.div_le_upper_bound; lia).
  assert (H0 : 0 <= w * mult / dec_one) by (apply Z.div_pos; lia).
  revert Hq Hle H0. generalize (w * mult / dec_one). intros lim Hq Hle H0.
  assert (Hfit : int_fits (Z.max lim used) = true).
  { apply int_fits_256. unfold max_int64 in *. rewrite Z.abs_eq; lia. }
  assert (Hu64 : is_uint64 (Z.max lim used) = true).
  { apply is_uint64_spec. unfold max_int64, max_uint64 in *. lia. }
  rewrite dec_TruncateInt_spec, Hq, Hfit. unfold int_Uint64. cbn [mbind res_bind]. rewrite Hu64.
  eexists. split; [reflexivity|]. cbn [fm_blockGasWanted SetBlockGasWanted fm_params fm_transientGasWanted].
  clear -Hle Hp Hw. split_and!; [reflexivity|lia|lia|exact Hp|symmetry; exact Hw].
Qed.
End Spec.

(** ** Concrete blocks *)

Section Runs.
#[local] Existing Instance sdk_math_Z.

Definition keep (p : Params) : Params := p.

(** a fee of 10 units at the default parameters, in a block after one that used
    more gas than its target of 500 *)
Definition params10 : Params := mkParams false 8 2 (Some (NewDec 10)) 0 (Some (NewDec 2)) (Some (dec_one / 2)).
Definition state10 : fmState := mkFmState (Some params10) 900 None 1000.
Definition ctx5 : fmCtx := mkFmCtx 5 (Some 1000) (Some 300).

Lemma applies10 : applies ctx5 state10 params10 (NewDec 10) (NewDec 2).
Proof.
  split; try reflexivity; try (cbn; unfold max_int64, max_uint64; lia).
  intros g [= <-]. unfold max_int64. lia.
Qed.

Lemma base_fee_follows_eip1559_witness :
  CalculateBaseFee DefaultParams ctx5 state10 = Ok (Some (NewDec 11)) /\
  next_base_fee (NewDec 10) 900 500 8 (NewDec 2) = NewDec 11.
Proof.
  split; [|vm_compute; reflexivity].
  rewrite (base_fee_follows_eip1559 DefaultParams ctx5 state10 params10 (NewDec 10) (NewDec 2) applies10).
  vm_compute. reflexivity.
Defined.

Lemma base_fee_bounded_witness :
  exists next, CalculateBaseFee DefaultParams ctx5 state10 = Ok (Some next) /\
    NewDec 10 + dec_one <= next.
Proof.
  destruct (base_fee_bounded DefaultParams ctx5 state10 params10 (NewDec 10) (NewDec 2) applies10)
    as (next & E & _ & Hup & _); [vm_compute; reflexivity|].
  exists next. split; [exact E|]. apply Hup. vm_compute. reflexivity.
Defined.

Lemma begin_block_stores_base_fee_witness :
  exists s', BeginBlock keep DefaultParams ctx5 state10 = Ok s' /\
    GetBaseFee DefaultParams s' = Some (NewDec 11).
Proof.
  eexists. split; [vm_compute; reflexivity|].
  eapply (begin_block_stores_base_fee DefaultParams keep (fun p _ => eq_refl) ctx5 state10 params10
    (NewDec 10) (NewDec 2) _ (NewDec 11) applies10).
  - vm_compute. reflexivity.
  - vm_compute. reflexivity.
  - unfold NewDec, dec_one. lia.
Defined.

Lemma end_block_gas_wanted_witness :
  exists s', EndBlock DefaultParams ctx5 state10 = Ok s' /\ fm_blockGasWanted s' = 500.
Proof.
  assert (Hm : 0 <= dec_one / 2 <= dec_one) by (vm_compute; split; discriminate).
  pose proof (end_block_gas_wanted DefaultParams ctx5 state10 params10 300 (dec_one / 2)
    eq_refl eq_refl Hm eq_refl ltac:(lia) ltac:(cbn; lia)) as Hend.
  assert (E : is_int64 300 && is_int64 (fm_transientGasWanted state10) = true) by (vm_compute; reflexivity).
  rewrite E in Hend. destruct Hend as (s' & Hs & Hg & _).
  exists s'. split; [exact Hs|]. rewrite Hg. vm_compute. reflexivity.
Defined.

(** Valid parameters can halt the chain. [Params.Validate] accepts an
    elasticity multiplier of zero, with which [BeginBlock] panics on a division
    by zero in every block after the first EIP-1559 block. *)
Theorem zero_elasticity_halts (p : Params) (s : fmState) (c : fmCtx) :
  fm_params s = Some p -> Validate p = Ok () -> ElasticityMultiplier p = 0 ->
  NoBaseFee p = false -> EnableHeight p < ctx_BlockHeight c ->
  BeginBlock keep DefaultParams c s = Panic ErrDivByZero.
Proof.
  intros Hp Hv He Hn Hh. apply Validate_Ok in Hv as (_ & _ & (f & Hf & _) & _).
  unfold BeginBlock, CalculateBaseFee, GetParams, IsBaseFeeEnabled. rewrite Hp.
  cbn -[max_uint64]. rewrite Hn, Hf, He.
  destruct (Z.leb_spec (EnableHeight p) (ctx_BlockHeight c)); [|lia]. cbn -[max_uint64].
  destruct (Z.eqb_spec (ctx_BlockHeight c) (EnableHeight p)); [lia|]. done.
Qed.

Lemma zero_elasticity_halts_witness :
  let p := mkParams false 8 0 (Some (NewDec 10)) 0 (Some 0) (Some 0) in
  Validate p = Ok () /\
  BeginBlock keep DefaultParams ctx5 (mkFmState (Some p) 0 None 0) = Panic ErrDivByZero.
Proof.
  split; [reflexivity|]. eapply zero_elasticity_halts; reflexivity.
Defined.
End Runs.
End FeeMarketSpec.
