(* ===== verification/TxData.v ===== *)
(** * Ethereum transactions as Cosmos messages ([x/vm/types])

    The three transaction types ([legacy_tx.go], [access_list_tx.go],
    [dynamic_fee_tx.go]), the interface they implement ([tx_data.go]), the
    access list conversions ([access_list.go]), the message that carries them
    ([msg.go]) and the numeric helpers ([utils.go], [types/int.go],
    [utils/eth/eth.go]). A [*big.Int] or [*sdkmath.Int] is [None] when nil. *)

From stdpp Require Import base list numbers strings.
From Stdlib Require Import ZArith Lia.
From S2P Require Import Prelude SdkMath Scaling AccessList StateDB.

Definition ErrInvalidGasPrice : error := "invalid gas price".
Definition ErrInvalidGasCap : error := "invalid gas cap".
Definition ErrInvalidGasFee : error := "invalid gas fee".
Definition ErrInvalidAmount : error := "invalid transaction amount".
Definition ErrInvalidAddress : error := "invalid address".
Definition ErrInvalidChainID : error := "invalid chain-id".
Definition ErrInvalidRequest : error := "invalid request".
Definition ErrInvalidGasLimit : error := "invalid gas limit".
Definition ErrTxGasOverflow : error := "gas computation overflow/underflow".
Definition ErrOutOfBound : error := "big int out of bound".
Definition ErrUnpack : error := "failed to unpack tx data".
Definition ErrInvalidHeight : error := "invalid height".

(** ** Numbers ([types/int.go], [utils/eth/eth.go]) *)

Definition SafeInt64 (value : Z) : res Z :=
  if max_int64 <? value then Err ErrInvalidHeight else Ok value.

(** [BitLen() <= 256] *)
Definition IsValidInt256 (i : option Z) : bool :=
  match i with None => true | Some z => Z.abs z <? 2 ^ 256 end.

(** [big.Int.Bytes]: the absolute value, big-endian, without leading zeros *)
Definition big_Bytes (z : Z) : bytes :=
  let a := Z.abs z in
  if a =? 0 then [] else be_bytes (Z.to_nat (Z.log2 a / 8 + 1)) a.

Definition DeriveChainID (v : option Z) : option Z :=
  match v with
  | None => None
  | Some v =>
      if v <? 1 then None
      else if v <=? max_uint64 then
        if (v =? 27) || (v =? 28) then Some 0
        else if v <? 35 then None
        else Some ((v - 35) / 2)
      else Some ((v - 35) / 2)
  end.

Definition SetBytes (bz : bytes) : option Z :=
  match bz with [] => None | _ => Some (be_value bz) end.

Definition RawSignatureValues (vBz rBz sBz : bytes) : option Z * option Z * option Z :=
  (SetBytes vBz, SetBytes rBz, SetBytes sBz).

(** ** What go-ethereum provides *)

(** the values of 20 and of 32 bytes *)
Definition addr_ok (a : address) : Prop := 0 <= a < 2 ^ 160.
Definition hash_ok (h : hash) : Prop := 0 <= h < 2 ^ 256.

(** Hexadecimal text of addresses and hashes. *)
Class EthHex := {
  addr_Hex : address -> string;
  HexToAddress : string -> address;
  IsHexAddress : string -> bool;
  hash_String : hash -> string;
  HexToHash : string -> hash;
  HexToAddress_Hex : forall a, addr_ok a -> HexToAddress (addr_Hex a) = a;
  IsHexAddress_Hex : forall a, addr_ok a -> IsHexAddress (addr_Hex a) = true;
  addr_Hex_nonempty : forall a, addr_Hex a <> ""%string;
  addr_Hex_length : forall a, addr_ok a -> String.length (addr_Hex a) = 42%nat;
  HexToAddress_ok : forall s, addr_ok (HexToAddress s);
  IsHexAddress_ibc : forall s, String.prefix "ibc/" s = true -> IsHexAddress s = false;
  HexToHash_String : forall h, hash_ok h -> HexToHash (hash_String h) = h;
  HexToHash_ok : forall s, hash_ok (HexToHash s)
}.

(** [ethtypes.AccessList] *)
Definition ethAccessList := list (address * list hash).

Inductive TxType := LegacyTxType | AccessListTxType | DynamicFeeTxType.

(** An [ethtypes.Transaction], by what its accessors answer. *)
Record ethTransaction := mkEthTransaction {
  et_Type : TxType;
  et_Nonce : Z;
  et_Data : bytes;
  et_Gas : Z;
  et_To : option address;
  et_Value : option Z;
  et_GasPrice : option Z;
  et_GasFeeCap : option Z;
  et_GasTipCap : option Z;
  et_AccessList : option ethAccessList;
  et_ChainId : option Z;
  et_V : option Z;
  et_R : option Z;
  et_S : option Z
}.

(** The [ethtypes.TxData] structures that [AsEthereumData] builds. *)
Inductive ethTxData :=
| EthLegacyTx (Nonce : Z) (GasPrice : option Z) (Gas : Z) (To : option address) (Value : option Z)
    (Data : bytes) (V R S : option Z)
| EthAccessListTx (ChainID : option Z) (Nonce : Z) (GasPrice : option Z) (Gas : Z)
    (To : option address) (Value : option Z) (Data : bytes) (AL : ethAccessList) (V R S : option Z)
| EthDynamicFeeTx (ChainID : option Z) (Nonce : Z) (GasTipCap GasFeeCap : option Z) (Gas : Z)
    (To : option address) (Value : option Z) (Data : bytes) (AL : ethAccessList) (V R S : option Z).

Section Tx.
Context `{!SdkMath} `{!EthHex}.

Definition SafeNewIntFromBigInt (i : Z) : res Z :=
  if IsValidInt256 (Some i) then NewIntFromBigInt i else Err ErrOutOfBound.

(** the conversion of an optional field by the constructors *)
Definition safe_field (i : option Z) : res (option Z) :=
  match i with
  | None => Ok None
  | Some i => let? z := SafeNewIntFromBigInt i in Ok (Some z)
  end.

Definition ValidateAddress (a : string) : res unit :=
  if IsHexAddress a then Ok () else Err ErrInvalidAddress.

Definition hex_field (to : option address) : string :=
  match to with None => ""%string | Some a => addr_Hex a end.

Definition to_field (to : string) : option address :=
  if String.eqb to "" then None else Some (HexToAddress to).

Definition bytes_field (old : bytes) (v : option Z) : bytes :=
  match v with None => old | Some v => big_Bytes v end.

(** ** Access lists ([access_list.go]) *)

Record AccessTuple := mkAccessTuple { at_Address : string; at_StorageKeys : list string }.

Definition NewAccessList (l : option ethAccessList) : option (list AccessTuple) :=
  match l with
  | None => None
  | Some l => Some (map (fun t => mkAccessTuple (addr_Hex t.1) (map hash_String t.2)) l)
  end.

Definition ToEthAccessList (l : list AccessTuple) : ethAccessList :=
  map (fun t => (HexToAddress (at_Address t), map HexToHash (at_StorageKeys t))) l.

(** [GetAccessList] of the two types that have one: a nil list stays nil *)
Definition accesses_field (l : option (list AccessTuple)) : ethAccessList :=
  match l with None => [] | Some l => ToEthAccessList l end.

(** ** Fees ([tx_data.go], [utils.go]) *)

Definition fee (gasPrice : option Z) (gas : Z) : res Z :=
  match gasPrice with None => Panic PanicNil | Some p => Ok (p * gas) end.

Definition cost (fee : Z) (value : option Z) : Z := fee + default 0 value.

Definition EffectiveGasPrice (baseFee feeCap tipCap : option Z) : res Z :=
  match baseFee, feeCap, tipCap with
  | Some b, Some f, Some t => Ok (Z.min (t + b) f)
  | _, _, _ => Panic PanicNil
  end.

(** ** The interface [TxData] *)

Class TxDataOps (T : Type) := {
  GetChainID : T -> option Z;
  GetAccessList : T -> ethAccessList;
  GetGas : T -> Z;
  GetGasPrice : T -> option Z;
  GetGasTipCap : T -> option Z;
  GetGasFeeCap : T -> option Z;
  GetValue : T -> option Z;
  GetTo : T -> option address;
  AsEthereumData : T -> ethTxData;
  Validate : T -> res unit;
  tx_Fee : T -> res Z;
  tx_Cost : T -> res Z;
  tx_EffectiveGasPrice : T -> option Z -> res (option Z);
  tx_EffectiveFee : T -> option Z -> res Z;
  tx_EffectiveCost : T -> option Z -> res Z
}.
End Tx.

(** the checks on the amount shared by the three [Validate] methods *)
Definition validate_amount (amount : option Z) (k : res unit) : res unit :=
  if (match amount with Some v => v <? 0 | None => false end) then Err ErrInvalidAmount
  else if negb (IsValidInt256 amount) then Err ErrInvalidAmount
  else k.

(** ** [LegacyTx] *)

Module Legacy.
Section LegacyTx.
Context `{!SdkMath} `{!EthHex}.

Record LegacyTx := mkLegacyTx {
  Nonce : Z;
  GasPrice : option Z;
  GasLimit : Z;
  To : string;
  Amount : option Z;
  Data : bytes;
  V : bytes;
  R : bytes;
  S : bytes
}.

Definition SetSignatureValues (tx : LegacyTx) (v r s : option Z) : LegacyTx :=
  mkLegacyTx (Nonce tx) (GasPrice tx) (GasLimit tx) (To tx) (Amount tx) (Data tx)
    (bytes_field (V tx) v) (bytes_field (R tx) r) (bytes_field (S tx) s).

Definition NewLegacyTx (tx : ethTransaction) : res LegacyTx :=
  let? amount := safe_field (et_Value tx) in
  let? gasPrice := safe_field (et_GasPrice tx) in
  Ok (SetSignatureValues
        (mkLegacyTx (et_Nonce tx) gasPrice (et_Gas tx) (hex_field (et_To tx)) amount (et_Data tx)
           [] [] [])
        (et_V tx) (et_R tx) (et_S tx)).

Definition GetRawSignatureValues (tx : LegacyTx) := RawSignatureValues (V tx) (R tx) (S tx).

Definition GetChainID (tx : LegacyTx) : option Z :=
  let '(v, _, _) := GetRawSignatureValues tx in DeriveChainID v.

Definition AsEthereumData (tx : LegacyTx) : ethTxData :=
  let '(v, r, s) := GetRawSignatureValues tx in
  EthLegacyTx (Nonce tx) (GasPrice tx) (GasLimit tx) (to_field (To tx)) (Amount tx) (Data tx) v r s.

Definition Fee (tx : LegacyTx) : res Z := fee (GasPrice tx) (GasLimit tx).
Definition Cost (tx : LegacyTx) : res Z := let? f := Fee tx in Ok (cost f (Amount tx)).

Definition Validate (tx : LegacyTx) : res unit :=
  match GasPrice tx with
  | None => Err ErrInvalidGasPrice
  | Some gasPrice =>
      if gasPrice <? 0 then Err ErrInvalidGasPrice
      else if negb (IsValidInt256 (Some gasPrice)) then Err ErrInvalidGasPrice
      else
        let? f := Fee tx in
        if negb (IsValidInt256 (Some f)) then Err ErrInvalidGasFee
        else validate_amount (Amount tx) (
          let? _ := if String.eqb (To tx) "" then Ok () else ValidateAddress (To tx) in
          match GetChainID tx with
          | None => Err ErrInvalidChainID
          | Some _ => Ok ()
          end)
  end.

#[global] Instance ops : TxDataOps LegacyTx := {|
  TxData.GetChainID := GetChainID;
  TxData.GetAccessList _ := [];
  TxData.GetGas := GasLimit;
  TxData.GetGasPrice := GasPrice;
  TxData.GetGasTipCap := GasPrice;
  TxData.GetGasFeeCap := GasPrice;
  TxData.GetValue := Amount;
  TxData.GetTo tx := to_field (To tx);
  TxData.AsEthereumData := AsEthereumData;
  TxData.Validate := Validate;
  tx_Fee := Fee;
  tx_Cost := Cost;
  tx_EffectiveGasPrice tx _ := Ok (GasPrice tx);
  tx_EffectiveFee tx _ := Fee tx;
  tx_EffectiveCost tx _ := Cost tx
|}.
End LegacyTx.
End Legacy.

(** ** [AccessListTx] *)

Module AccessListT.
Section AccessListTx.
Context `{!SdkMath} `{!EthHex}.

Record AccessListTx := mkAccessListTx {
  ChainID : option Z;
  Nonce : Z;
  GasPrice : option Z;
  GasLimit : Z;
  To : string;
  Amount : option Z;
  Data : bytes;
  Accesses : option (list AccessTuple);
  V : bytes;
  R : bytes;
  S : bytes
}.

Definition SetSignatureValues (tx : AccessListTx) (chainID v r s : option Z) : res AccessListTx :=
  let? cid := match chainID with
              | None => Ok (ChainID tx)
              | Some c => let? c := NewIntFromBigInt c in Ok (Some c)
              end in
  Ok (mkAccessListTx cid (Nonce tx) (GasPrice tx) (GasLimit tx) (To tx) (Amount tx) (Data tx)
        (Accesses tx) (bytes_field (V tx) v) (bytes_field (R tx) r) (bytes_field (S tx) s)).

Definition newAccessListTx (tx : ethTransaction) : res AccessListTx :=
  let? amount := safe_field (et_Value tx) in
  let? gasPrice := safe_field (et_GasPrice tx) in
  SetSignatureValues
    (mkAccessListTx None (et_Nonce tx) gasPrice (et_Gas tx) (hex_field (et_To tx)) amount
       (et_Data tx) (NewAccessList (et_AccessList tx)) [] [] [])
    (et_ChainId tx) (et_V tx) (et_R tx) (et_S tx).

Definition GetRawSignatureValues (tx : AccessListTx) := RawSignatureValues (V tx) (R tx) (S tx).

Definition AsEthereumData (tx : AccessListTx) : ethTxData :=
  let '(v, r, s) := GetRawSignatureValues tx in
  EthAccessListTx (ChainID tx) (Nonce tx) (GasPrice tx) (GasLimit tx) (to_field (To tx)) (Amount tx)
    (Data tx) (accesses_field (Accesses tx)) v r s.

Definition Fee (tx : AccessListTx) : res Z := fee (GasPrice tx) (GasLimit tx).
Definition Cost (tx : AccessListTx) : res Z := let? f := Fee tx in Ok (cost f (Amount tx)).

Definition Validate (tx : AccessListTx) : res unit :=
  match GasPrice tx with
  | None => Err ErrInvalidGasPrice
  | Some gasPrice =>
      if negb (IsValidInt256 (Some gasPrice)) then Err ErrInvalidGasPrice
      else if gasPrice <? 0 then Err ErrInvalidGasPrice
      else validate_amount (Amount tx) (
        let? f := Fee tx in
        if negb (IsValidInt256 (Some f)) then Err ErrInvalidGasFee
        else
          let? _ := if String.eqb (To tx) "" then Ok () else ValidateAddress (To tx) in
          match ChainID tx with
          | None => Err ErrInvalidChainID
          | Some _ => Ok ()
          end)
  end.

#[global] Instance ops : TxDataOps AccessListTx := {|
  TxData.GetChainID := ChainID;
  TxData.GetAccessList tx := accesses_field (Accesses tx);
  TxData.GetGas := GasLimit;
  TxData.GetGasPrice := GasPrice;
  TxData.GetGasTipCap := GasPrice;
  TxData.GetGasFeeCap := GasPrice;
  TxData.GetValue := Amount;
  TxData.GetTo tx := to_field (To tx);
  TxData.AsEthereumData := AsEthereumData;
  TxData.Validate := Validate;
  tx_Fee := Fee;
  tx_Cost := Cost;
  tx_EffectiveGasPrice tx _ := Ok (GasPrice tx);
  tx_EffectiveFee tx _ := Fee tx;
  tx_EffectiveCost tx _ := Cost tx
|}.
End AccessListTx.
End AccessListT.

(** ** [DynamicFeeTx] *)

Module Dynamic.
Section DynamicFeeTx.
Context `{!SdkMath} `{!EthHex}.

Record DynamicFeeTx := mkDynamicFeeTx {
  ChainID : option Z;
  Nonce : Z;
  GasTipCap : option Z;
  GasFeeCap : option Z;
  GasLimit : Z;
  To : string;
  Amount : option Z;
  Data : bytes;
  Accesses : option (list AccessTuple);
  V : bytes;
  R : bytes;
  S : bytes
}.

Definition SetSignatureValues (tx : DynamicFeeTx) (chainID v r s : option Z) : res DynamicFeeTx :=
  let? cid := match chainID with
              | None => Ok (ChainID tx)
              | Some c => let? c := NewIntFromBigInt c in Ok (Some c)
              end in
  Ok (mkDynamicFeeTx cid (Nonce tx) (GasTipCap tx) (GasFeeCap tx) (GasLimit tx) (To tx) (Amount tx)
        (Data tx) (Accesses tx) (bytes_field (V tx) v) (bytes_field (R tx) r) (bytes_field (S tx) s)).

Definition NewDynamicFeeTx (tx : ethTransaction) : res DynamicFeeTx :=
  let? amount := safe_field (et_Value tx) in
  let? gasFeeCap := safe_field (et_GasFeeCap tx) in
  let? gasTipCap := safe_field (et_GasTipCap tx) in
  SetSignatureValues
    (mkDynamicFeeTx None (et_Nonce tx) gasTipCap gasFeeCap (et_Gas tx) (hex_field (et_To tx)) amount
       (et_Data tx) (NewAccessList (et_AccessList tx)) [] [] [])
    (et_ChainId tx) (et_V tx) (et_R tx) (et_S tx).

Definition GetRawSignatureValues (tx : DynamicFeeTx) := RawSignatureValues (V tx) (R tx) (S tx).

Definition AsEthereumData (tx : DynamicFeeTx) : ethTxData :=
  let '(v, r, s) := GetRawSignatureValues tx in
  EthDynamicFeeTx (ChainID tx) (Nonce tx) (GasTipCap tx) (GasFeeCap tx) (GasLimit tx)
    (to_field (To tx)) (Amount tx) (Data tx) (accesses_field (Accesses tx)) v r s.

Definition Fee (tx : DynamicFeeTx) : res Z := fee (GasFeeCap tx) (GasLimit tx).
Definition Cost (tx : DynamicFeeTx) : res Z := let? f := Fee tx in Ok (cost f (Amount tx)).

Definition EffectiveGasPrice (tx : DynamicFeeTx) (baseFee : option Z) : res Z :=
  TxData.EffectiveGasPrice baseFee (GasFeeCap tx) (GasTipCap tx).

Definition EffectiveFee (tx : DynamicFeeTx) (baseFee : option Z) : res Z :=
  let? p := EffectiveGasPrice tx baseFee in fee (Some p) (GasLimit tx).

Definition EffectiveCost (tx : DynamicFeeTx) (baseFee : option Z) : res Z :=
  let? f := EffectiveFee tx baseFee in Ok (cost f (Amount tx)).

Definition Validate (tx : DynamicFeeTx) : res unit :=
  match GasTipCap tx with
  | None => Err ErrInvalidGasCap
  | Some tip =>
      match GasFeeCap tx with
      | None => Err ErrInvalidGasCap
      | Some feeCap =>
          if tip <? 0 then Err ErrInvalidGasCap
          else if feeCap <? 0 then Err ErrInvalidGasCap
          else if negb (IsValidInt256 (Some tip)) then Err ErrInvalidGasCap
          else if negb (IsValidInt256 (Some feeCap)) then Err ErrInvalidGasCap
          else if feeCap <? tip then Err ErrInvalidGasCap
          else
            let? f := Fee tx in
            if negb (IsValidInt256 (Some f)) then Err ErrInvalidGasFee
            else validate_amount (Amount tx) (
              let? _ := if String.eqb (To tx) "" then Ok () else ValidateAddress (To tx) in
              match ChainID tx with
              | None => Err ErrInvalidChainID
              | Some _ => Ok ()
              end)
      end
  end.

#[global] Instance ops : TxDataOps DynamicFeeTx := {|
  TxData.GetChainID := ChainID;
  TxData.GetAccessList tx := accesses_field (Accesses tx);
  TxData.GetGas := GasLimit;
  TxData.GetGasPrice := GasFeeCap;
  TxData.GetGasTipCap := GasTipCap;
  TxData.GetGasFeeCap := GasFeeCap;
  TxData.GetValue := Amount;
  TxData.GetTo tx := to_field (To tx);
  TxData.AsEthereumData := AsEthereumData;
  TxData.Validate := Validate;
  tx_Fee := Fee;
  tx_Cost := Cost;
  tx_EffectiveGasPrice tx baseFee := let? p := EffectiveGasPrice tx baseFee in Ok (Some p);
  tx_EffectiveFee := EffectiveFee;
  tx_EffectiveCost := EffectiveCost
|}.
End DynamicFeeTx.
End Dynamic.

(** ** [TxData] values *)

Section Union.
Context `{!SdkMath} `{!EthHex}.

Inductive TxData :=
| TxLegacy (tx : Legacy.LegacyTx)
| TxAccessList (tx : AccessListT.AccessListTx)
| TxDynamicFee (tx : Dynamic.DynamicFeeTx).

Definition dispatch {A} (t : TxData) (f : forall T, TxDataOps T -> T -> A) : A :=
  match t with
  | TxLegacy tx => f _ Legacy.ops tx
  | TxAccessList tx => f _ AccessListT.ops tx
  | TxDynamicFee tx => f _ Dynamic.ops tx
  end.

#[global] Instance TxData_ops : TxDataOps TxData := {|
  GetChainID t := dispatch t (fun _ _ => GetChainID);
  GetAccessList t := dispatch t (fun _ _ => GetAccessList);
  GetGas t := dispatch t (fun _ _ => GetGas);
  GetGasPrice t := dispatch t (fun _ _ => GetGasPrice);
  GetGasTipCap t := dispatch t (fun _ _ => GetGasTipCap);
  GetGasFeeCap t := dispatch t (fun _ _ => GetGasFeeCap);
  GetValue t := dispatch t (fun _ _ => GetValue);
  GetTo t := dispatch t (fun _ _ => GetTo);
  AsEthereumData t := dispatch t (fun _ _ => AsEthereumData);
  Validate t := dispatch t (fun _ _ => Validate);
  tx_Fee t := dispatch t (fun _ _ => tx_Fee);
  tx_Cost t := dispatch t (fun _ _ => tx_Cost);
  tx_EffectiveGasPrice t := dispatch t (fun _ _ => tx_EffectiveGasPrice);
  tx_EffectiveFee t := dispatch t (fun _ _ => tx_EffectiveFee);
  tx_EffectiveCost t := dispatch t (fun _ _ => tx_EffectiveCost)
|}.

Definition NewTxDataFromTx (tx : ethTransaction) : res TxData :=
  match et_Type tx with
  | DynamicFeeTxType => let? t := Dynamic.NewDynamicFeeTx tx in Ok (TxDynamicFee t)
  | AccessListTxType => let? t := AccessListT.newAccessListTx tx in Ok (TxAccessList t)
  | LegacyTxType => let? t := Legacy.NewLegacyTx tx in Ok (TxLegacy t)
  end.

(** ** The message ([msg.go]) *)

(** [Data] is the packed transaction, [None] when it cannot be unpacked;
    [Size_] is a deprecated field. *)
Record MsgEthereumTx := mkMsgEthereumTx {
  msg_Data : option TxData;
  msg_Size : Z;
  msg_Hash : string;
  msg_From : string
}.

(** the hex text of the hash of the transaction built from a [TxData] *)
Variable txHashHex : ethTxData -> string.

Definition ValidateBasic (m : MsgEthereumTx) : res unit :=
  let? _ := if String.eqb (msg_From m) "" then Ok () else ValidateAddress (msg_From m) in
  if negb (msg_Size m =? 0) then Err ErrInvalidRequest
  else
    match msg_Data m with
    | None => Err ErrUnpack
    | Some t =>
        if GetGas t =? 0 then Err ErrInvalidGasLimit
        else if negb (is_int64 (GetGas t)) then Err ErrTxGasOverflow
        else
          let? _ := Validate t in
          if String.eqb (msg_Hash m) (txHashHex (AsEthereumData t)) then Ok ()
          else Err ErrInvalidRequest
    end.

Definition msg_GetGas (m : MsgEthereumTx) : Z :=
  match msg_Data m with None => 0 | Some t => GetGas t end.

Definition msg_GetFee (m : MsgEthereumTx) : res (option Z) :=
  match msg_Data m with None => Ok None | Some t => let? f := tx_Fee t in Ok (Some f) end.

Definition msg_GetEffectiveFee (m : MsgEthereumTx) (baseFee : option Z) : res (option Z) :=
  match msg_Data m with
  | None => Ok None
  | Some t => let? f := tx_EffectiveFee t baseFee in Ok (Some f)
  end.

(** [FromEthereumTx] *)
Definition FromEthereumTx (m : MsgEthereumTx) (tx : ethTransaction) (hash : string)
    : res MsgEthereumTx :=
  let? t := NewTxDataFromTx tx in
  Ok (mkMsgEthereumTx (Some t) (msg_Size m) hash (msg_From m)).

(** the fee part of [BuildTx]: the coins set on the Cosmos transaction *)
Definition BuildTx_fees (cfg : EvmCoinInfo) (evmDenom : string) (t : TxData) : res (list Coin) :=
  let? f := tx_Fee t in
  let? feeAmt := NewIntFromBigInt f in
  if 0 <? feeAmt then ConvertCoinsFrom18Decimals cfg [mkCoin evmDenom feeAmt] else Ok [].
End Union.

(** ** Gas search ([utils.go]) *)

(** The loop runs while [lo + 1 < hi]; [fuel] bounds its rounds. All additions
    are on [uint64]. *)
Fixpoint BinSearch (fuel : nat) (lo hi : Z) (executable : Z -> res bool) : option (res Z) :=
  match fuel with
  | O => None
  | S fuel =>
      if wrap64 (lo + 1) <? hi then
        let mid := wrap64 (hi + lo) / 2 in
        match executable mid with
        | Err e => Some (Err e)
        | Panic e => Some (Panic e)
        | Ok failed =>
            if (failed : bool) then BinSearch fuel mid hi executable
            else BinSearch fuel lo mid executable
        end
      else Some (Ok hi)
  end.
