(* ===== verification/TxDataTheorems.v ===== *)
(** * Correctness of the transaction types

    Conversion between go-ethereum transactions and messages loses nothing, a
    message that passes validation has fees that can be computed, and the gas
    search finds the least gas that executes. *)

From stdpp Require Import base list numbers strings.
From Stdlib Require Import ZArith Lia.
From S2P Require Import Prelude SdkMath Scaling AccessList StateDB TxData.

(** ** Signature values *)

Lemma big_Bytes_value z : 0 < z -> be_value (big_Bytes z) = z.
Proof.
  intros Hz. unfold big_Bytes. rewrite Z.abs_eq by lia. destruct (Z.eqb_spec z 0); [lia|].
  apply be_value_bytes. split; [lia|].
  pose proof (Z.log2_nonneg z) as Hl.
  assert (Hd : 0 <= Z.log2 z / 8) by (apply Z.div_pos; lia).
  rewrite Z2Nat.id by lia. change 256 with (2 ^ 8). rewrite <-Z.pow_mul_r by lia.
  pose proof (Z.log2_spec z Hz) as [_ Hs]. eapply Z.lt_le_trans; [exact Hs|].
  apply Z.pow_le_mono_r; [lia|].
  pose proof (Z.div_mod (Z.log2 z) 8 ltac:(lia)). pose proof (Z.mod_pos_bound (Z.log2 z) 8). lia.
Qed.

Lemma big_Bytes_nonempty z : 0 < z -> big_Bytes z <> [].
Proof.
  intros Hz E. pose proof (big_Bytes_value z Hz) as Hv. rewrite E in Hv. cbn in Hv. lia.
Qed.

(** A signature value of zero is stored as no bytes and reads back as nil. *)
Definition sig_norm (v : option Z) : option Z :=
  match v with Some 0 => None | v => v end.

Lemma SetBytes_field v :
  (forall z, v = Some z -> 0 <= z) -> SetBytes (bytes_field [] v) = sig_norm v.
Proof.
  intros Hv. destruct v as [z|]; [|done]. specialize (Hv z eq_refl). cbn.
  destruct (Z.eq_dec z 0) as [->|Hz]; [done|].
  pose proof (big_Bytes_value z ltac:(lia)) as Hb. pose proof (big_Bytes_nonempty z ltac:(lia)) as Hn.
  unfold SetBytes. destruct (big_Bytes z) as [|b bs]; [done|]. rewrite Hb. by destruct z.
Qed.

Section Roundtrip.
Context `{!SdkMath} `{!EthHex}.

Lemma safe_field_Ok i v : safe_field i = Ok v -> v = i.
Proof.
  destruct i as [z|]; cbn; [|congruence]. unfold SafeNewIntFromBigInt. case_match; [|done].
  rewrite NewIntFromBigInt_spec. case_match; cbn; [congruence|done].
Qed.

Lemma safe_field_total i :
  IsValidInt256 i = true -> safe_field i = Ok i.
Proof.
  destruct i as [z|]; [|done]. cbn -[Z.pow]. intros Hz. unfold SafeNewIntFromBigInt.
  cbn -[Z.pow]. rewrite Hz, NewIntFromBigInt_spec, int_fits_256; [done|]. by apply Z.ltb_lt.
Qed.

Lemma to_field_hex to :
  (forall a, to = Some a -> addr_ok a) -> to_field (hex_field to) = to.
Proof.
  intros Ha. destruct to as [a|]; [|done]. cbn. unfold to_field.
  destruct (String.eqb_spec (addr_Hex a) "") as [E|]; [by apply addr_Hex_nonempty in E|].
  by rewrite HexToAddress_Hex by auto.
Qed.

Definition al_ok_ (l : ethAccessList) : Prop :=
  Forall (fun t : address * list hash => addr_ok t.1 /\ Forall hash_ok t.2) l.

Lemma accesses_field_roundtrip l :
  (forall l', l = Some l' -> al_ok_ l') -> accesses_field (NewAccessList l) = default [] l.
Proof.
  intros Hl. destruct l as [l|]; [|done]. specialize (Hl l eq_refl). cbn. unfold ToEthAccessList.
  rewrite map_map. induction Hl as [|[a ks] l [Ha Hks] _ IH]; cbn in *; [done|]. f_equal; [|done].
  rewrite HexToAddress_Hex, map_map by done. f_equal.
  induction Hks as [|k ks Hk _ IHk]; cbn; [done|]. by rewrite HexToHash_String, IHk.
Qed.

(** the values of a transaction that go-ethereum can produce *)
Record eth_ok (tx : ethTransaction) : Prop := {
  eo_to : forall a, et_To tx = Some a -> addr_ok a;
  eo_al : forall l, et_AccessList tx = Some l -> al_ok_ l;
  eo_v : forall z, et_V tx = Some z -> 0 <= z;
  eo_r : forall z, et_R tx = Some z -> 0 <= z;
  eo_s : forall z, et_S tx = Some z -> 0 <= z
}.

(** the go-ethereum structure with the fields of a transaction *)
Definition eth_data_of (tx : ethTransaction) : ethTxData :=
  let '(v, r, s) := (sig_norm (et_V tx), sig_norm (et_R tx), sig_norm (et_S tx)) in
  match et_Type tx with
  | LegacyTxType => EthLegacyTx (et_Nonce tx) (et_GasPrice tx) (et_Gas tx) (et_To tx) (et_Value tx)
      (et_Data tx) v r s
  | AccessListTxType => EthAccessListTx (et_ChainId tx) (et_Nonce tx) (et_GasPrice tx) (et_Gas tx)
      (et_To tx) (et_Value tx) (et_Data tx) (default [] (et_AccessList tx)) v r s
  | DynamicFeeTxType => EthDynamicFeeTx (et_ChainId tx) (et_Nonce tx) (et_GasTipCap tx)
      (et_GasFeeCap tx) (et_Gas tx) (et_To tx) (et_Value tx) (et_Data tx)
      (default [] (et_AccessList tx)) v r s
  end.

Lemma chain_field c d v :
  (match c with None => Ok d | Some c => let? c := NewIntFromBigInt c in Ok (Some c) end) = Ok v ->
  v = match c with None => d | Some c => Some c end.
Proof.
  destruct c as [c|]; [|congruence]. rewrite NewIntFromBigInt_spec. case_match; cbn; congruence.
Qed.

(** the field values behind a chain of successful conversions *)
Ltac field_eqs :=
  repeat match goal with
  | H : mbind _ _ = Ok _ |- _ =>
      let a := fresh "a" in let H1 := fresh "Hok" in apply bind_Ok_inv in H as (a & H1 & H)
  | H : Ok _ = Ok _ |- _ => injection H as H; subst
  | H : safe_field _ = Ok ?v |- _ => apply safe_field_Ok in H; subst v
  | H : (match et_ChainId _ with _ => _ end) = Ok ?v |- _ => apply chain_field in H; subst v
  end.

Lemma NewTxDataFromTx_data tx t :
  eth_ok tx -> NewTxDataFromTx tx = Ok t -> AsEthereumData t = eth_data_of tx.
Proof.
  intros [Hto Hal Hv Hr Hs]. unfold NewTxDataFromTx, eth_data_of. destruct (et_Type tx).
  - unfold Legacy.NewLegacyTx. intros E. field_eqs. cbn.
    unfold Legacy.AsEthereumData. cbn. by rewrite to_field_hex, !SetBytes_field.
  - unfold AccessListT.newAccessListTx, AccessListT.SetSignatureValues. intros E. field_eqs. cbn in *.
    unfold AccessListT.AsEthereumData. cbn.
    rewrite to_field_hex, accesses_field_roundtrip, !SetBytes_field by done. by destruct (et_ChainId tx).
  - unfold Dynamic.NewDynamicFeeTx, Dynamic.SetSignatureValues. intros E. field_eqs. cbn in *.
    unfold Dynamic.AsEthereumData. cbn.
    rewrite to_field_hex, accesses_field_roundtrip, !SetBytes_field by done. by destruct (et_ChainId tx).
Qed.
End Roundtrip.

(** ** A concrete hexadecimal encoding *)

Definition hex_digit (n : Z) : Ascii.ascii :=
  Ascii.ascii_of_nat (Z.to_nat (if n <? 10 then 48 + n else 87 + n)).
Definition digit_val (c : Ascii.ascii) : Z :=
  let n := Z.of_nat (Ascii.nat_of_ascii c) in
  if n <? 58 then n - 48 else if n <? 97 then n - 55 else n - 87.

Fixpoint hex_bytes (l : bytes) : string :=
  match l with
  | [] => EmptyString
  | b :: l => String (hex_digit (b / 16)) (String (hex_digit (b mod 16)) (hex_bytes l))
  end.

Fixpoint parse_hex (s : string) : bytes :=
  match s with
  | String c1 (String c2 s) => digit_val c1 * 16 + digit_val c2 :: parse_hex s
  | _ => []
  end.

Definition strip0x (s : string) : string :=
  match s with String _ (String _ s) => s | _ => EmptyString end.

Definition is_byte (b : Z) : Prop := 0 <= b < 256.

Lemma digit_val_hex n : 0 <= n < 16 -> digit_val (hex_digit n) = n.
Proof.
  intros Hn. assert (Hall : forallb (fun n => digit_val (hex_digit n) =? n)
    (map Z.of_nat (seq 0 16)) = true) by (vm_compute; reflexivity).
  rewrite forallb_forall in Hall. apply Z.eqb_eq, Hall. apply in_map_iff. exists (Z.to_nat n).
  split; [lia|]. apply in_seq. lia.
Qed.

Lemma parse_hex_bytes l : Forall is_byte l -> parse_hex (hex_bytes l) = l.
Proof.
  induction 1 as [|b l Hb _ IH]; cbn; [done|]. unfold is_byte in Hb.
  pose proof (Z.div_mod b 16 ltac:(lia)). pose proof (Z.mod_pos_bound b 16 ltac:(lia)).
  assert (0 <= b / 16 < 16) by (split; [apply Z.div_pos|apply Z.div_lt_upper_bound]; lia).
  rewrite !digit_val_hex, IH by lia. f_equal. lia.
Qed.

Lemma be_bytes_bytes n v : Forall is_byte (be_bytes n v).
Proof.
  revert v. induction n as [|n IH]; intros v; cbn; [constructor|].
  apply Forall_app. split; [apply IH|]. repeat constructor; apply Z.mod_pos_bound; lia.
Qed.

Definition c_addr_Hex (a : address) : string := ("0x" ++ hex_bytes (be_bytes 20 a))%string.
Definition c_hash_String (h : hash) : string := ("0x" ++ hex_bytes (be_bytes 32 h))%string.

Lemma hex_bytes_length l : String.length (hex_bytes l) = (2 * length l)%nat.
Proof. induction l as [|b l IH]; cbn; [done|]. rewrite IH. lia. Qed.

#[export, refine] Instance c_hex : EthHex := {|
  addr_Hex := c_addr_Hex;
  HexToAddress s := be_value (parse_hex (strip0x s)) `mod` 2 ^ 160;
  IsHexAddress s := String.prefix "0x" s && (String.length s =? 42)%nat;
  hash_String := c_hash_String;
  HexToHash s := be_value (parse_hex (strip0x s)) `mod` 2 ^ 256
|}.
Proof.
  - intros a Ha. change (strip0x (c_addr_Hex a)) with (hex_bytes (be_bytes 20 a)).
    rewrite parse_hex_bytes, be_value_bytes by (apply be_bytes_bytes || exact Ha).
    by apply Z.mod_small.
  - intros a Ha. change (String.length (c_addr_Hex a)) with (2 + String.length (hex_bytes (be_bytes 20 a)))%nat.
    by rewrite hex_bytes_length, be_bytes_length.
  - done.
  - intros a Ha. change (String.length (c_addr_Hex a)) with (2 + String.length (hex_bytes (be_bytes 20 a)))%nat.
    by rewrite hex_bytes_length, be_bytes_length.
  - intros s. by apply Z.mod_pos_bound.
  - intros [|c s]; [done|]. cbn [String.prefix]. case_match; [by subst|done].
  - intros h Hh. change (strip0x (c_hash_String h)) with (hex_bytes (be_bytes 32 h)).
    rewrite parse_hex_bytes, be_value_bytes by (apply be_bytes_bytes || exact Hh).
    by apply Z.mod_small.
  - intros s. by apply Z.mod_pos_bound.
Defined.

(** ** Theorems *)

Section Theorems.
Context `{!SdkMath} `{!EthHex}.

Definition values256 (tx : ethTransaction) : bool :=
  IsValidInt256 (et_Value tx) && IsValidInt256 (et_GasPrice tx) && IsValidInt256 (et_GasFeeCap tx) &&
  IsValidInt256 (et_GasTipCap tx) && IsValidInt256 (et_ChainId tx).

Lemma chain_field_total c d :
  IsValidInt256 c = true ->
  (match c with None => Ok d | Some c => let? c := NewIntFromBigInt c in Ok (Some c) end)
    = Ok (match c with None => d | Some c => Some c end).
Proof.
  destruct c as [c|]; [|done]. cbn -[Z.pow]. intros Hc%Z.ltb_lt.
  by rewrite NewIntFromBigInt_spec, int_fits_256.
Qed.

(** C11: Converting an Ethereum transaction to a message and back is the identity.
    For every transaction type, a transaction whose numbers fit 256 bits is
    accepted, and the go-ethereum data rebuilt from the message has the same
    nonce, gas, recipient, value, prices, input, access list, chain id and
    signature (a zero signature value comes back as nil). *)
Theorem tx_data_roundtrip tx :
  eth_ok tx -> values256 tx = true ->
  exists t, NewTxDataFromTx tx = Ok t /\ AsEthereumData t = eth_data_of tx.
Proof.
  intros Hok Hv. assert (Hex : exists t, NewTxDataFromTx tx = Ok t).
  { unfold values256 in Hv. rewrite !andb_true_iff in Hv. destruct Hv as ((((H1 & H2) & H3) & H4) & H5).
    unfold NewTxDataFromTx. destruct (et_Type tx).
    - unfold Legacy.NewLegacyTx. rewrite !safe_field_total by done. cbn. eauto.
    - unfold AccessListT.newAccessListTx, AccessListT.SetSignatureValues.
      rewrite !safe_field_total by done. cbn. rewrite chain_field_total by done. cbn. eauto.
    - unfold Dynamic.NewDynamicFeeTx, Dynamic.SetSignatureValues.
      rewrite !safe_field_total by done. cbn. rewrite chain_field_total by done. cbn. eauto. }
  destruct Hex as [t Ht]. exists t. split; [done|]. by apply NewTxDataFromTx_data.
Qed.

(** ** Validation *)

Lemma validate_amount_Ok amount k :
  validate_amount amount k = Ok () ->
  0 <= default 0 amount < 2 ^ 256 /\ k = Ok ().
Proof.
  unfold validate_amount. destruct amount as [v|]; cbn -[Z.pow]; [|intros; split; [lia|done]].
  destruct (Z.ltb_spec v 0); [done|]. destruct (Z.ltb_spec (Z.abs v) (2 ^ 256)); [|done].
  cbn -[Z.pow]. intros. split; [lia|done].
Qed.

Lemma IsValidInt256_spec z : IsValidInt256 (Some z) = true <-> Z.abs z < 2 ^ 256.
Proof. apply Z.ltb_lt. Qed.

(** what a successful validation says about the prices and the amount *)
Lemma Validate_prices (t : TxData) :
  0 <= GetGas t -> Validate t = Ok () ->
  exists cap tip f, GetGasFeeCap t = Some cap /\ GetGasTipCap t = Some tip /\
    0 <= tip <= cap /\ tx_Fee t = Ok f /\ f = cap * GetGas t /\ 0 <= f < 2 ^ 256 /\
    0 <= default 0 (GetValue t) < 2 ^ 256 /\ is_Some (GetChainID t).
Proof.
  intros Hgas. destruct t as [tx|tx|tx]; cbn -[Z.pow] in *.
  - unfold Legacy.Validate. destruct (Legacy.GasPrice tx) as [p|] eqn:Ep; [|done].
    destruct (Z.ltb_spec p 0); [done|]. destruct (IsValidInt256 (Some p)); [|done].
    unfold Legacy.Fee. rewrite Ep. cbn -[Z.pow IsValidInt256].
    destruct (IsValidInt256 (Some _)) eqn:Ef; [|done]. apply IsValidInt256_spec in Ef. cbn -[Z.pow].
    intros [Ham Hk]%validate_amount_Ok. apply bind_Ok_inv in Hk as (_ & _ & Hk).
    unfold Legacy.GetChainID, Legacy.GetRawSignatureValues, RawSignatureValues in *.
    destruct (DeriveChainID _); [|done].
    exists p, p, (p * Legacy.GasLimit tx). assert (0 <= p * Legacy.GasLimit tx) by nia.
    rewrite Z.abs_eq in Ef by done. split_and!; try done; try lia; by eexists.
  - unfold AccessListT.Validate. destruct (AccessListT.GasPrice tx) as [p|] eqn:Ep; [|done].
    destruct (IsValidInt256 (Some p)); [|done]. cbn -[Z.pow]. destruct (Z.ltb_spec p 0); [done|].
    intros [Ham Hk]%validate_amount_Ok.
    unfold AccessListT.Fee in *. rewrite Ep in *. cbn -[Z.pow] in Hk.
    destruct (Z.ltb_spec (Z.abs (p * AccessListT.GasLimit tx)) (2 ^ 256)) as [Ef|]; [|done].
    apply bind_Ok_inv in Hk as (_ & _ & Hk). destruct (AccessListT.ChainID tx); [|done].
    exists p, p, (p * AccessListT.GasLimit tx).
    assert (0 <= p * AccessListT.GasLimit tx) by nia.
    rewrite Z.abs_eq in Ef by done. split_and!; try done; try lia; by eexists.
  - unfold Dynamic.Validate. destruct (Dynamic.GasTipCap tx) as [tip|] eqn:Et; [|done].
    destruct (Dynamic.GasFeeCap tx) as [cap|] eqn:Ec; [|done].
    destruct (Z.ltb_spec tip 0); [done|]. destruct (Z.ltb_spec cap 0); [done|].
    destruct (IsValidInt256 (Some tip)); [|done]. destruct (IsValidInt256 (Some cap)); [|done].
    cbn -[Z.pow]. destruct (Z.ltb_spec cap tip); [done|].
    unfold Dynamic.Fee. rewrite Ec. cbn -[Z.pow].
    destruct (Z.ltb_spec (Z.abs (cap * Dynamic.GasLimit tx)) (2 ^ 256)) as [Ef|]; [|done]. cbn -[Z.pow].
    intros [Ham Hk]%validate_amount_Ok. apply bind_Ok_inv in Hk as (_ & _ & Hk).
    destruct (Dynamic.ChainID tx); [|done].
    exists cap, tip, (cap * Dynamic.GasLimit tx). assert (0 <= cap * Dynamic.GasLimit tx) by nia.
    rewrite Z.abs_eq in Ef by done. split_and!; try done; try lia; by eexists.
Qed.

(** the price a transaction pays per gas *)
Lemma effective_price (t : TxData) cap tip b :
  GetGasFeeCap t = Some cap -> GetGasTipCap t = Some tip -> 0 <= tip <= cap -> 0 <= b ->
  exists p, tx_EffectiveGasPrice t (Some b) = Ok (Some p) /\ 0 <= p <= cap /\
    (b <= cap -> match t with TxDynamicFee _ => b <= p | _ => p = cap end) /\
    tx_EffectiveFee t (Some b) = Ok (p * GetGas t) /\
    tx_EffectiveCost t (Some b) = Ok (p * GetGas t + default 0 (GetValue t)).
Proof.
  intros Hc Ht Hr Hb. destruct t as [tx|tx|tx]; cbn in *.
  - exists cap. unfold Legacy.Cost, Legacy.Fee. rewrite Hc. cbn.
    split_and!; try done; lia.
  - exists cap. unfold AccessListT.Cost, AccessListT.Fee. rewrite Hc. cbn.
    split_and!; try done; lia.
  - exists (Z.min (tip + b) cap). unfold Dynamic.EffectiveCost, Dynamic.EffectiveFee,
      Dynamic.EffectiveGasPrice. rewrite Hc, Ht. cbn.
    split_and!; try done; lia.
Qed.

Variable txHashHex : ethTxData -> string.

(** A message that passes [ValidateBasic] has well-defined fees. Its gas limit
    is positive and fits an [int64], [Fee] and [Cost] do not panic and are exact
    within 256 bits for the fee, the effective fee at any base fee is at most
    the maximal fee, and the effective gas price is the price itself for legacy
    and access list transactions and at least the base fee for a dynamic fee
    transaction whose cap allows it. *)
Theorem validated_tx_fees m t b :
  ValidateBasic txHashHex m = Ok () -> msg_Data m = Some t -> 0 <= GetGas t -> 0 <= b ->
  exists cap f p,
    0 < GetGas t <= max_int64 /\ msg_Hash m = txHashHex (AsEthereumData t) /\
    tx_Fee t = Ok f /\ f = cap * GetGas t /\ 0 <= f < 2 ^ 256 /\
    tx_Cost t = Ok (f + default 0 (GetValue t)) /\
    tx_EffectiveGasPrice t (Some b) = Ok (Some p) /\ 0 <= p <= cap /\
    (b <= cap -> match t with TxDynamicFee _ => b <= p | _ => p = cap end) /\
    tx_EffectiveFee t (Some b) = Ok (p * GetGas t) /\ p * GetGas t <= f /\
    tx_EffectiveCost t (Some b) = Ok (p * GetGas t + default 0 (GetValue t)).
Proof.
  intros Hvb Hd Hg Hb. unfold ValidateBasic in Hvb. rewrite Hd in Hvb.
  apply bind_Ok_inv in Hvb as ([] & _ & Hvb). case_match; [done|].
  destruct (Z.eqb_spec (GetGas t) 0); [done|].
  destruct (is_int64 (GetGas t)) eqn:E64; [|done]. apply is_int64_spec in E64.
  cbn [negb] in Hvb. apply bind_Ok_inv in Hvb as ([] & Hval & Hvb).
  destruct (String.eqb_spec (msg_Hash m) (txHashHex (AsEthereumData t))); [|done].
  destruct (Validate_prices t Hg Hval) as (cap & tip & f & Hcap & Htip & Hr & Hf & Hfe & Hfb & _).
  destruct (effective_price t cap tip b Hcap Htip Hr Hb) as (p & Hp & Hpr & Hpb & Hef & Hec).
  exists cap, f, p. split_and!; try done; try lia.
  - destruct t; cbn in *; unfold Legacy.Cost, AccessListT.Cost, Dynamic.Cost; rewrite Hf; done.
  - rewrite Hfe. nia.
Qed.
End Theorems.

(** ** Gas search *)

Lemma BinSearch_spec n lo hi (failed : Z -> bool) exec_ :
  (forall g, lo < g < hi -> exec_ g = Ok (failed g)) ->
  (forall g g', lo < g -> g <= g' -> g' < hi -> failed g = false -> failed g' = false) ->
  0 <= lo < hi -> hi <= max_int64 -> hi - lo <= 2 ^ Z.of_nat n ->
  exists g, BinSearch (S n) lo hi exec_ = Some (Ok g) /\ lo < g <= hi /\
    (forall x, lo < x < g -> failed x = true) /\ (forall x, g <= x < hi -> failed x = false).
Proof.
  revert lo hi. induction n as [|n IH]; intros lo hi Hex Hmono Hlo Hhi Hn.
  { cbn [BinSearch]. unfold max_int64 in *. rewrite wrap64_small by (unfold max_uint64; lia).
    change (2 ^ Z.of_nat 0) with 1 in Hn. destruct (Z.ltb_spec (lo + 1) hi); [lia|].
    exists hi. split_and!; [done|lia|lia|lia|lia]. }
  rewrite Nat2Z.inj_succ, Z.pow_succ_r in Hn by lia.
  remember (S n) as m. cbn [BinSearch]. unfold max_int64 in *.
  rewrite !wrap64_small by (unfold max_uint64; lia).
  destruct (Z.ltb_spec (lo + 1) hi).
  2: { exists hi. split_and!; [done|lia|lia|lia|lia]. }
  pose proof (Z.div_mod (hi + lo) 2 ltac:(lia)) as Hd.
  pose proof (Z.mod_pos_bound (hi + lo) 2 ltac:(lia)) as Hb.
  set (mid := (hi + lo) / 2) in *. clearbody mid. rewrite Hex by lia. subst m.
  destruct (failed mid) eqn:Ef.
  - destruct (IH mid hi) as (g & E & Hg & Hl & Hh);
      [intros; apply Hex; lia|intros g g' Hg Hgg Hg'; apply Hmono; lia|lia|lia|lia|].
    exists g. split_and!; [done|lia|lia| |done].
    intros x Hx. destruct (Z_lt_le_dec mid x); [apply Hl; lia|].
    destruct (failed x) eqn:Ex; [done|]. rewrite (Hmono x mid) in Ef; [done|lia|lia|lia|done].
  - destruct (IH lo mid) as (g & E & Hg & Hl & Hh);
      [intros; apply Hex; lia|intros g g' Hg Hgg Hg'; apply Hmono; lia|lia|lia|lia|].
    exists g. split_and!; [done|lia|lia|done|].
    intros x Hx. destruct (Z_lt_le_dec x mid); [apply Hh; lia|]. by apply (Hmono mid x); [lia|lia|lia|].
Qed.

(** Whatever the call does at the limits, the search ends. Its answer is the
    upper bound or a limit that executes, and the limit just below it fails or is
    the lower bound; an error is that of a limit that was tried. *)
Lemma BinSearch_ends n lo hi exec_ :
  0 <= lo <= max_int64 -> hi <= max_int64 -> hi - lo <= 2 ^ Z.of_nat n ->
  exists r, BinSearch (S n) lo hi exec_ = Some r /\
    match r with
    | Ok g => (lo < g <= hi \/ g = hi) /\ (g = hi \/ exec_ g = Ok false) /\ (g <= lo + 1 \/ exec_ (g - 1) = Ok true)
    | Err e => exists g, lo < g < hi /\ exec_ g = Err e
    | Panic e => exists g, lo < g < hi /\ exec_ g = Panic e
    end.
Proof.
  revert lo hi. induction n as [|n IH]; intros lo hi Hlo Hhi Hn.
  { cbn [BinSearch]. unfold max_int64 in *. rewrite wrap64_small by (unfold max_uint64; lia).
    change (2 ^ Z.of_nat 0) with 1 in Hn. destruct (Z.ltb_spec (lo + 1) hi); [lia|].
    eexists. split; [done|]. cbn. lia. }
  rewrite Nat2Z.inj_succ, Z.pow_succ_r in Hn by lia.
  remember (S n) as m. cbn [BinSearch]. unfold max_int64 in *.
  rewrite (wrap64_small (lo + 1)) by (unfold max_uint64; lia).
  destruct (Z.ltb_spec (lo + 1) hi) as [Hlt|Hge]; [|eexists; split; [done|]; cbn; lia].
  rewrite wrap64_small by (unfold max_uint64; lia).
  pose proof (Z.div_mod (hi + lo) 2 ltac:(lia)) as Hd.
  pose proof (Z.mod_pos_bound (hi + lo) 2 ltac:(lia)) as Hb.
  set (mid := (hi + lo) / 2) in *. clearbody mid. subst m.
  destruct (exec_ mid) as [[]|e|e] eqn:Em; [| |eexists; split; [done|]; exists mid; split; [lia|done]..].
  - destruct (IH mid hi) as (r & -> & Hr); [lia..|]. exists r. split; [done|].
    destruct r as [g|e|e]; [|destruct Hr as (g & Hg & ?); exists g; split; [lia|done]..].
    destruct Hr as (H1 & H2 & H3). split; [lia|]. split; [done|]. destruct H3 as [H3|]; [right|by right].
    by replace (g - 1) with mid by lia.
  - destruct (IH lo mid) as (r & -> & Hr); [lia..|]. exists r. split; [done|].
    destruct r as [g|e|e]; [|destruct Hr as (g & Hg & ?); exists g; split; [lia|done]..].
    destruct Hr as (H1 & H2 & H3). split; [lia|]. split; [|done]. right. by destruct H2 as [->|].
Qed.

(** The gas search returns the least gas that executes. When the call never
    errors and more gas never turns success into failure, for bounds below
    [2^63] the loop ends within 64 rounds; every gas between [lo] and the result
    fails and every gas from the result up to [hi] succeeds. *)
Theorem bin_search_least lo hi (failed : Z -> bool) executable :
  (forall g, executable g = Ok (failed g)) ->
  (forall g g', g <= g' -> failed g = false -> failed g' = false) ->
  0 <= lo < hi -> hi <= max_int64 ->
  exists g, BinSearch 64 lo hi executable = Some (Ok g) /\ lo < g <= hi /\
    (forall x, lo < x < g -> failed x = true) /\ (forall x, g <= x < hi -> failed x = false).
Proof.
  intros Hex Hmono Hlo Hhi. apply BinSearch_spec; [done|by eauto|done|done|].
  change (Z.of_nat 63) with 63. unfold max_int64 in Hhi. lia.
Qed.

Lemma bin_search_least_witness :
  exists g, BinSearch 64 20999 30000 (fun g => Ok (g <? 21500)) = Some (Ok g) /\
    forall x, 20999 < x < g -> (x <? 21500) = true.
Proof.
  destruct (bin_search_least 20999 30000 (fun g => g <? 21500) (fun g => Ok (g <? 21500)))
    as (g & E & _ & Hl & _).
  - reflexivity.
  - intros g g' Hg H1. apply Z.ltb_ge in H1. apply Z.ltb_ge. lia.
  - lia.
  - unfold max_int64. lia.
  - exists g. split; [exact E|exact Hl].
Defined.

(** The chain id of an EIP-155 signature is recovered: from
    [v = 2 * chainID + 35] and from [v = 2 * chainID + 36], of any size; a
    signature without replay protection ([v] 27 or 28) gives chain id 0. *)
Theorem derive_chain_id_eip155 (chainID parity : Z) :
  0 <= chainID -> parity = 0 \/ parity = 1 ->
  DeriveChainID (Some (parity + chainID * 2 + 35)) = Some chainID /\
  DeriveChainID (Some (parity + 27)) = Some 0.
Proof.
  intros Hc Hp. unfold DeriveChainID. unfold max_uint64.
  assert (Hq : (parity + chainID * 2 + 35 - 35) / 2 = chainID).
  { replace (parity + chainID * 2 + 35 - 35) with (parity + chainID * 2) by lia.
    rewrite Z.div_add by lia. destruct Hp as [->| ->]; [change (0 / 2) with 0|change (1 / 2) with 0]; lia. }
  rewrite Hq. split.
  - destruct (Z.ltb_spec (parity + chainID * 2 + 35) 1); [lia|].
    destruct (Z.eqb_spec (parity + chainID * 2 + 35) 27); [lia|].
    destruct (Z.eqb_spec (parity + chainID * 2 + 35) 28); [lia|].
    destruct (Z.ltb_spec (parity + chainID * 2 + 35) 35); [lia|]. cbn [orb]. by case_match.
  - destruct Hp as [->| ->]; reflexivity.
Qed.

Lemma derive_chain_id_eip155_witness :
  DeriveChainID (Some (1 + 9000 * 2 + 35)) = Some 9000.
Proof. apply (derive_chain_id_eip155 9000 1); [lia|right; reflexivity]. Defined.

(** ** Concrete transactions *)

Section Runs.
#[local] Existing Instance sdk_math_Z.

Definition dyn_tx : ethTransaction :=
  mkEthTransaction DynamicFeeTxType 4 [1; 2] 21000 (Some 77) (Some 5) (Some 30) (Some 30) (Some 2)
    (Some [(9, [3; 4])]) (Some 9000) (Some 1) (Some 12345) (Some 6789).

Lemma dyn_tx_ok : eth_ok dyn_tx.
Proof.
  split; cbn; unfold addr_ok, hash_ok.
  - intros a [= <-]. lia.
  - intros l [= <-]. repeat constructor; cbn; unfold addr_ok, hash_ok; lia.
  - intros z [= <-]. lia.
  - intros z [= <-]. lia.
  - intros z [= <-]. lia.
Qed.

Lemma tx_data_roundtrip_witness :
  exists t, NewTxDataFromTx dyn_tx = Ok t /\
    AsEthereumData t = EthDynamicFeeTx (Some 9000) 4 (Some 2) (Some 30) 21000 (Some 77) (Some 5) [1; 2]
      [(9, [3; 4])] (Some 1) (Some 12345) (Some 6789).
Proof.
  destruct (tx_data_roundtrip dyn_tx dyn_tx_ok) as (t & E & Hd); [vm_compute; reflexivity|].
  exists t. split; [exact E|]. exact Hd.
Defined.

Definition dyn_msg : MsgEthereumTx :=
  mkMsgEthereumTx (Some (TxDynamicFee (Dynamic.mkDynamicFeeTx (Some 9000) 4 (Some 2) (Some 30) 21000
    (c_addr_Hex 77) (Some 5) [] None [] [] []))) 0 "h" "".

Lemma validated_tx_fees_witness :
  exists f p, ValidateBasic (fun _ => "h"%string) dyn_msg = Ok () /\
    p * 21000 <= f /\ f < 2 ^ 256.
Proof.
  assert (Hv : ValidateBasic (fun _ => "h"%string) dyn_msg = Ok ()) by (vm_compute; reflexivity).
  destruct (validated_tx_fees (fun _ => "h"%string) dyn_msg _ 10 Hv eq_refl ltac:(cbn; lia) ltac:(lia))
    as (cap & f & p & _ & _ & _ & _ & Hf & _ & _ & _ & _ & _ & Hle & _).
  exists f, p. split; [exact Hv|]. split; [exact Hle|]. apply Hf.
Defined.
End Runs.
