(* ===== verification/StateTransition.v ===== *)
(** * Applying a transaction ([x/vm/keeper])

    [fees.go], [gas.go], [state_transition.go], the transient counters of
    [keeper.go] and the gas meter of [types/gasmeter.go]. The go-ethereum
    interpreter is a parameter that runs on the modelled state database. *)

From stdpp Require Import base gmap list numbers strings sorting.
From Stdlib Require Import ZArith Lia.
From S2P Require Import Prelude SdkMath Scaling AccessList StateDB StateDBCommit VmStore TxData.

Definition ErrIntrinsicGas : error := "intrinsic gas too low".
Definition ErrOutOfGas : error := "out of gas".
Definition ErrInsufficientFee : error := "insufficient fee".
Definition ErrInsufficientFunds : error := "insufficient funds".
Definition ErrInvalidCoins : error := "invalid coins".
Definition ErrInvalidRefund : error := "invalid gas refund amount".
Definition ErrUnknownAddress : error := "unknown address".
Definition PanicGasOverflow : error := "gas overflow".
Definition PanicNegativeGas : error := "negative gas consumed".
Definition FeeCollectorName : string := "fee_collector".

(** ** Gas meter ([types/gasmeter.go]) *)

Record gasMeter := mkGasMeter { gm_consumed : Z; gm_limit : Z }.

Definition NewInfiniteGasMeterWithLimit (limit : Z) : gasMeter := mkGasMeter 0 limit.
Definition GasConsumed (g : gasMeter) : Z := gm_consumed g.
Definition GasConsumedToLimit (g : gasMeter) : Z := gm_consumed g.
Definition gm_Limit (g : gasMeter) : Z := gm_limit g.
Definition IsPastLimit (_ : gasMeter) : bool := false.
Definition IsOutOfGas (_ : gasMeter) : bool := false.
Definition GasRemaining (_ : gasMeter) : Z := max_uint64.

Definition addUint64Overflow (a b : Z) : Z * bool :=
  if max_uint64 - a <? b then (0, true) else (a + b, false).

(** The counter is overwritten before the overflow panics. *)
Definition ConsumeGas (g : gasMeter) (amount : Z) : gasMeter * res unit :=
  let '(consumed, overflow) := addUint64Overflow (gm_consumed g) amount in
  (mkGasMeter consumed (gm_limit g), if overflow then Panic PanicGasOverflow else Ok ()).

Definition gm_RefundGas (g : gasMeter) (amount : Z) : gasMeter * res unit :=
  if gm_consumed g <? amount then (g, Panic PanicNegativeGas)
  else (mkGasMeter (gm_consumed g - amount) (gm_limit g), Ok ()).

(** ** Gas ([keeper/gas.go]) *)

Definition ResetGasMeterAndConsumeGas (g : gasMeter) (gasUsed : Z) : gasMeter * res unit :=
  do? g, _ := gm_RefundGas g (GasConsumed g) in ConsumeGas g gasUsed.

(** An integer division by zero panics. *)
Definition GasToRefund (availableRefund gasConsumed refundQuotient : Z) : res Z :=
  if refundQuotient =? 0 then Panic ErrDivByZero
  else
    let refund := gasConsumed / refundQuotient in
    Ok (if availableRefund <? refund then availableRefund else refund).

(** ** Fees ([keeper/fees.go]) *)

Section Fees.
Context `{!SdkMath} `{!EthHex} `{!EvmEnv}.

Definition CheckSenderBalance (balance : Z) (t : TxData) : res unit :=
  let? cost := tx_Cost t in
  if cost <? 0 then Err ErrInvalidCoins
  else if (balance <? 0) || (balance <? cost) then Err ErrInsufficientFunds
  else Ok ().

(** [core.IntrinsicGas]: input, access list, contract creation, homestead, istanbul *)
Variable IntrinsicGas : bytes -> ethAccessList -> bool -> bool -> bool -> res Z.

(** [GetData] of the interface *)
Definition GetData (t : TxData) : bytes :=
  match t with
  | TxLegacy tx => Legacy.Data tx
  | TxAccessList tx => AccessListT.Data tx
  | TxDynamicFee tx => Dynamic.Data tx
  end.

Definition VerifyFee (t : TxData) (denom : string) (baseFee : option Z)
    (homestead istanbul isCheckTx : bool) : res (list Coin) :=
  let isContractCreation := match GetTo t with None => true | Some _ => false end in
  let gasLimit := GetGas t in
  let? intrinsicGas := IntrinsicGas (GetData t) (GetAccessList t) isContractCreation homestead istanbul in
  if isCheckTx && (gasLimit <? intrinsicGas) then Err ErrOutOfGas
  else
    let? tooLow := match baseFee with
                   | None => Ok false
                   | Some b => match GetGasFeeCap t with
                               | None => Panic PanicNil
                               | Some cap => Ok (cap <? b)
                               end
                   end in
    if (tooLow : bool) then Err ErrInsufficientFee
    else
      let? feeAmt := tx_EffectiveFee t baseFee in
      if feeAmt =? 0 then Ok []
      else
        let? amount := NewIntFromBigInt feeAmt in
        Ok [mkCoin denom amount].
End Fees.

(** ** Messages and results *)

(** [core.Message] *)
Record Message := mkMessage {
  m_From : address;
  m_To : option address;
  m_Nonce : Z;
  m_Value : Z;
  m_Gas : Z;
  m_GasPrice : Z;
  m_Data : bytes;
  m_AccessList : ethAccessList
}.

Record ChainRules := mkChainRules {
  IsHomestead : bool;
  IsIstanbul : bool;
  IsBerlin : bool;
  IsLondon : bool
}.

(** [MsgEthereumTxResponse] *)
Record TxResponse := mkTxResponse {
  r_GasUsed : Z;
  r_VmError : option error;
  r_Ret : bytes;
  r_Logs : list ethLog
}.

Definition Failed (r : TxResponse) : bool :=
  match r_VmError r with None => false | Some _ => true end.

(** go-ethereum's [params.RefundQuotient] and [params.RefundQuotientEIP3529] *)
Definition RefundQuotient : Z := 2.
Definition RefundQuotientEIP3529 : Z := 5.

(** ** Running a message ([ApplyMessageWithConfig]) *)

Section ApplyMessage.
Context {store event : Type} `{!Keeper store} `{!MultiStore store} `{!EvmEnv} `{!SdkMath}.
Abbreviation SDB := (@StateDB store event).
Variable IntrinsicGas : bytes -> ethAccessList -> bool -> bool -> bool -> res Z.

(** The interpreter: from a state database and a gas budget, either the panic
    that stops it (of a precompile it runs, of the state database, or of the
    keeper that loads an account), or the state database after the run, the
    returned bytes, the gas left and the VM error. *)
Definition evmResult : Type := error + SDB * (bytes * Z * option error).
Record EVM := mkEVM {
  evm_Create : address -> bytes -> Z -> Z -> SDB -> evmResult;
  evm_Call : address -> address -> bytes -> Z -> Z -> SDB -> evmResult
}.
Variable evm : EVM.

(** [SetNonce] loads the account of the sender, which can panic. *)
Definition set_nonce (a : address) (nonce : Z) (s : SDB) : res SDB :=
  match load_panics a s with
  | Some e => Panic e
  | None => Ok (SetNonce a nonce s)
  end.

Definition evm_result (r : evmResult) : res (SDB * (bytes * Z * option error)) :=
  match r with inl e => Panic e | inr x => Ok x end.

Definition GetEthIntrinsicGas (msg : Message) (rules : ChainRules) (isContractCreation : bool) : res Z :=
  IntrinsicGas (m_Data msg) (m_AccessList msg) isContractCreation (IsHomestead rules) (IsIstanbul rules).

(** the access list and the EVM run, from a fresh state database *)
Definition run_evm (s : SDB) (msg : Message) (rules : ChainRules) (gas : Z)
    : res (SDB * (bytes * Z * option error)) :=
  let? s := if IsBerlin rules
            then PrepareAccessList (m_From msg) (m_To msg) [] (m_AccessList msg) s
            else Ok s in
  match m_To msg with
  | None =>
      let? s := set_nonce (m_From msg) (m_Nonce msg) s in
      let? sr := evm_result (evm_Create evm (m_From msg) (m_Data msg) gas (m_Value msg) s) in
      let? s := set_nonce (m_From msg) (wrap64 (m_Nonce msg + 1)) sr.1 in
      Ok (s, sr.2)
  | Some to => evm_result (evm_Call evm (m_From msg) to (m_Data msg) gas (m_Value msg) s)
  end.

(** the gas charged for a message that used [temporaryGasUsed] *)
Definition final_gas (msgGas leftoverGas temporaryGasUsed minGasMultiplier : Z) : res Z :=
  let gasLimit := NewDec (to_int64 msgGas) in
  let? minimumGasUsed := dec_Mul gasLimit minGasMultiplier in
  let? minTrunc := dec_TruncateInt minimumGasUsed in
  if negb (is_uint64 minTrunc) then Err ErrTxGasOverflow
  else if msgGas <? leftoverGas then Err ErrTxGasOverflow
  else
    let? t := dec_TruncateInt (Z.max minimumGasUsed (NewDec (to_int64 temporaryGasUsed))) in
    if is_uint64 t then Ok t else Panic ErrTxGasOverflow.

Definition ApplyMessageWithConfig (st : store) (hasMS : bool) (msg : Message) (commit : bool)
    (rules : ChainRules) (minGasMultiplier : Z) (tc : TxConfig) : store * res TxResponse :=
  let stateDB : SDB := New st hasMS tc in
  let contractCreation := match m_To msg with None => true | Some _ => false end in
  do? st, intrinsicGas := (st, GetEthIntrinsicGas msg rules contractCreation) in
  if m_Gas msg <? intrinsicGas then (st, Err ErrIntrinsicGas)
  else
    do? st, r := (st, run_evm stateDB msg rules (m_Gas msg - intrinsicGas)) in
    let '(stateDB, (ret, leftoverGas, vmErr)) := r in
    let refundQuotient := if IsLondon rules then RefundQuotientEIP3529 else RefundQuotient in
    if m_Gas msg <? leftoverGas then (st, Err ErrTxGasOverflow)
    else
      let temporaryGasUsed := m_Gas msg - leftoverGas in
      do? st, rf := (st, GasToRefund (refund stateDB) temporaryGasUsed refundQuotient) in
      let leftoverGas := wrap64 (leftoverGas + rf) in
      let temporaryGasUsed := wrap64 (temporaryGasUsed - rf) in
      do? st, _ := (if commit then
                      let '(stateDB, r) := Commit stateDB in (ctx_store stateDB, r)
                    else (st, Ok ())) in
      do? st, gasUsed := (st, final_gas (m_Gas msg) leftoverGas temporaryGasUsed minGasMultiplier) in
      (st, Ok (mkTxResponse gasUsed vmErr ret (logs stateDB))).
End ApplyMessage.

(** ** Applying a transaction ([ApplyTransaction]) *)

Section ApplyTransaction.
Context {auth acct bank event : Type} `{!AccountKeeper auth acct} `{!BankKeeper bank}.
Context `{!SdkMath} `{!EvmEnv}.
Abbreviation vstore := (@VmKeeper.evmStore auth bank).
Context `{!MultiStore vstore}.

(** the store of the context, the transient store of the module and the gas
    meter of the Cosmos transaction *)
Record txState := mkTxState {
  ts_store : vstore;
  ts_bloom : Z;
  ts_txIndex : Z;
  ts_logSize : Z;
  ts_gasUsed : Z;
  ts_meter : gasMeter
}.

Definition ts_with_store (st : vstore) (s : txState) : txState :=
  mkTxState st (ts_bloom s) (ts_txIndex s) (ts_logSize s) (ts_gasUsed s) (ts_meter s).
Definition ts_with_meter (g : gasMeter) (s : txState) : txState :=
  mkTxState (ts_store s) (ts_bloom s) (ts_txIndex s) (ts_logSize s) (ts_gasUsed s) g.

Definition SetBlockBloomTransient (bloom : Z) (s : txState) : txState :=
  mkTxState (ts_store s) bloom (ts_txIndex s) (ts_logSize s) (ts_gasUsed s) (ts_meter s).
Definition SetTxIndexTransient (i : Z) (s : txState) : txState :=
  mkTxState (ts_store s) (ts_bloom s) i (ts_logSize s) (ts_gasUsed s) (ts_meter s).
Definition SetLogSizeTransient (n : Z) (s : txState) : txState :=
  mkTxState (ts_store s) (ts_bloom s) (ts_txIndex s) n (ts_gasUsed s) (ts_meter s).
Definition SetTransientGasUsed (g : Z) (s : txState) : txState :=
  mkTxState (ts_store s) (ts_bloom s) (ts_txIndex s) (ts_logSize s) g (ts_meter s).
Definition ResetTransientGasUsed (s : txState) : txState := SetTransientGasUsed 0 s.

Definition AddTransientGasUsed (gasUsed : Z) (s : txState) : txState * res Z :=
  let result := wrap64 (ts_gasUsed s + gasUsed) in
  if result <? gasUsed then (s, Err ErrTxGasOverflow)
  else (SetTransientGasUsed result s, Ok result).

(** [TxConfig] of [config.go] *)
Definition keeper_TxConfig (blockHash txHash : hash) (s : txState) : TxConfig :=
  NewTxConfig blockHash txHash (ts_txIndex s) (ts_logSize s).

(** [RefundGas]: the coins left go back from the fee collector. *)
Definition RefundGas (msg : Message) (leftoverGas : Z) (denom : string) (b : bank) : bank * res unit :=
  let remaining := leftoverGas * m_GasPrice msg in
  if remaining <? 0 then (b, Err ErrInvalidRefund)
  else if 0 <? remaining then
    do? b, amount := (b, NewIntFromBigInt remaining) in
    let '(b, r) := bw_SendCoinsFromModuleToAccount b FeeCollectorName (m_From msg)
                     [mkCoin denom amount] in
    (b, match r with Err _ => Err ErrInsufficientFunds | r => r end)
  else (b, Ok ()).

(** [DeductTxCostsFromUserBalance]: [authante.DeductFees] of the SDK sends valid
    fees to the fee collector. *)
Definition DeductTxCostsFromUserBalance (fees : list Coin) (from : address) (st : vstore)
    : vstore * res unit :=
  match ak_GetAccount (VmKeeper.es_auth st) from with
  | None => (st, Err ErrUnknownAddress)
  | Some _ =>
      let '(b, r) := bw_SendCoinsFromAccountToModule (VmKeeper.es_bank st) from FeeCollectorName fees in
      (VmKeeper.with_bank b st, match r with Err _ => Err ErrInsufficientFunds | r => r end)
  end.

Variable IntrinsicGas : bytes -> ethAccessList -> bool -> bool -> bool -> res Z.
Variable evm : @EVM vstore event.
(** [ethtypes.LogsBloom] as an integer *)
Variable logsBloom : list ethLog -> Z.

(** The configuration, the signer and the message recovered from the signature
    are arguments: the header hash, the hash of the transaction, the chain rules
    and the fee market's [MinGasMultiplier]. *)
Definition ApplyTransaction (msg : Message) (blockHash txHash : hash) (rules : ChainRules)
    (minGasMultiplier : Z) (s : txState) : txState * res TxResponse :=
  let tc := keeper_TxConfig blockHash txHash s in
  let '(tmp, r) := ApplyMessageWithConfig IntrinsicGas evm (ms_CacheMultiStore (ts_store s)) true msg
                     true rules minGasMultiplier tc in
  match r with
  | Panic e => (s, Panic e)
  | Err e =>
      let '(g, r) := ResetGasMeterAndConsumeGas (ts_meter s) (gm_Limit (ts_meter s)) in
      (ts_with_meter g s, match r with Panic e => Panic e | _ => Err e end)
  | Ok res =>
      let hasLogs := match r_Logs res with [] => false | _ => true end in
      let bloom := Z.lor (ts_bloom s) (logsBloom (r_Logs res)) in
      let s := if Failed res then s else ts_with_store (ms_Write tmp (ts_store s)) s in
      let '(b, rr) := RefundGas msg (wrap64 (m_Gas msg - r_GasUsed res)) (eci_Denom coinCfg)
                        (VmKeeper.es_bank (ts_store s)) in
      let s := ts_with_store (VmKeeper.with_bank b (ts_store s)) s in
      do? s, _ := (s, rr) in
      let s := if hasLogs then
                 SetLogSizeTransient (wrap64 (tc_LogIndex tc + Z.of_nat (length (r_Logs res))))
                   (SetBlockBloomTransient bloom s)
               else s in
      let s := SetTxIndexTransient (wrap64 (tc_TxIndex tc + 1)) s in
      do? s, totalGasUsed := AddTransientGasUsed (r_GasUsed res) s in
      let '(g, r) := ResetGasMeterAndConsumeGas (ts_meter s) totalGasUsed in
      do? s, _ := (ts_with_meter g s, r) in
      (s, Ok res)
  end.
End ApplyTransaction.

(** ** Block hashes ([GetHashFn]) *)

(** The header hash of the context, what [HeaderFromProto] gives for the
    context's header and for a historical header are arguments. *)
Definition GetHashFn (ctxHeight : Z) (headerHash : option bytes) (ctxHeader : option bytes)
    (historical : Z -> option bytes) (height : Z) : hash :=
  match SafeInt64 height with
  | Ok h =>
      if ctxHeight =? h then
        match headerHash with
        | Some (b :: bs) => BytesToHash (b :: bs)
        | _ => match ctxHeader with Some hh => BytesToHash hh | None => 0 end
        end
      else if h <? ctxHeight then
        match historical h with Some hh => BytesToHash hh | None => 0 end
      else 0
  | _ => 0
  end.
