(* ===== verification/StateTransitionTheorems.v ===== *)
(** * Correctness of the state transition

    Gas accounting of a message, what a failed transaction leaves, what the
    sender pays in the end, and the checks on fees. *)

From stdpp Require Import base gmap list numbers strings sorting.
From Stdlib Require Import ZArith Lia.
From S2P Require Import Prelude SdkMath Scaling AccessList StateDB Precompile StateDBRevert StateDBSnapshot StateDBCommit VmStore TxData TxDataTheorems StateTransition Concrete.

(** ** Gas meter *)

Lemma ResetGasMeter_ok g used :
  0 <= used <= max_uint64 ->
  ResetGasMeterAndConsumeGas g used = (mkGasMeter used (gm_limit g), Ok ()).
Proof.
  intros Hu. unfold ResetGasMeterAndConsumeGas, gm_RefundGas, GasConsumed.
  rewrite Z.ltb_irrefl. cbn [st_bind]. unfold ConsumeGas, addUint64Overflow. cbn [gm_consumed gm_limit].
  rewrite Z.sub_diag. destruct (Z.ltb_spec (max_uint64 - 0) used); [lia|]. by rewrite Z.add_0_l.
Qed.

(** ** Hashes *)

Lemma word_of_bytes v : hash_ok v -> BytesToHash (be_bytes 32 v) = v.
Proof.
  intros Hv. unfold BytesToHash. rewrite be_value_bytes; [by apply Z.mod_small|]. exact Hv.
Qed.

Lemma BytesToHash_ok b : hash_ok (BytesToHash b).
Proof. unfold BytesToHash, hash_ok. apply Z.mod_pos_bound. lia. Qed.

(** ** Gas of a message *)

Section Gas.
Context {store event : Type} `{!Keeper store} `{!MultiStore store} `{!EvmEnv} `{!SdkMath}.
Abbreviation SDB := (@StateDB store event).

(** What go-ethereum guarantees of a run that returns: it does not create gas, and it
    keeps the refund counter from being negative. *)
Record evm_sane (evm : @EVM store event) : Prop := {
  es_create : forall from d g v s s' r l e, 0 <= g -> 0 <= refund s -> evm_Create evm from d g v s = inr (s', (r, l, e)) ->
    0 <= l <= g /\ 0 <= refund s';
  es_call : forall from to d g v s s' r l e, 0 <= g -> 0 <= refund s -> evm_Call evm from to d g v s = inr (s', (r, l, e)) ->
    0 <= l <= g /\ 0 <= refund s'
}.

Lemma getOrNew_refund a (s : SDB) : refund (getOrNewStateObject a s).2 = refund s.
Proof.
  unfold getOrNewStateObject, createObject, getStateObject.
  repeat (case_match; simplify_eq/=; try done).
Qed.

Lemma SetNonce_refund a n (s : SDB) : refund (SetNonce a n s) = refund s.
Proof.
  unfold SetNonce. pose proof (getOrNew_refund a s) as Hr.
  destruct (getOrNewStateObject a s) as [o t]. done.
Qed.

Lemma AddAddressToAccessList_refund a (s : SDB) : refund (AddAddressToAccessList a s) = refund s.
Proof. unfold AddAddressToAccessList. by destruct (AddAddress _ _) as [[] ?]. Qed.

Lemma AddAccessTuples_refund l (s s' : SDB) : AddAccessTuples l s = Ok s' -> refund s' = refund s.
Proof.
  revert s. induction l as [|[a keys] l IH]; intros s; cbn; [congruence|].
  intros (s1 & E1 & E2)%bind_Ok_inv. rewrite (IH _ E2), <-(AddAddressToAccessList_refund a s). clear IH E2.
  revert E1. generalize (AddAddressToAccessList a s). induction keys as [|k keys IH]; intros s2; cbn; [congruence|].
  intros (s3 & E1 & E2)%bind_Ok_inv. rewrite (IH _ E2). unfold AddSlotToAccessList in E1.
  apply bind_Ok_inv in E1 as ([[am sm] al] & _ & E1). injection E1 as <-. by destruct am, sm.
Qed.

Lemma PrepareAccessList_refund from to l (s s' : SDB) :
  PrepareAccessList from to [] l s = Ok s' -> refund s' = refund s.
Proof.
  unfold PrepareAccessList. cbn [fold_left]. intros ->%AddAccessTuples_refund.
  destruct to; by rewrite !AddAddressToAccessList_refund.
Qed.

(** The interpreter stops with the panic [e] on some input. *)
Definition evm_panics (evm : @EVM store event) (e : error) : Prop :=
  (exists from d g v s, evm_Create evm from d g v s = inl e) \/
  (exists from to d g v s, evm_Call evm from to d g v s = inl e).

Lemma set_nonce_cases a n (s : SDB) :
  (exists e, set_nonce a n s = Panic e /\ load_panics a s = Some e) \/ set_nonce a n s = Ok (SetNonce a n s).
Proof. unfold set_nonce. destruct (load_panics a s); eauto. Qed.

(** A run panics with the interpreter, or when a creation cannot load the
    account of the sender. *)
Lemma run_evm_ok evm st hasMS tc msg rules gas :
  evm_sane evm -> 0 <= gas ->
  match run_evm evm (New st hasMS tc) msg rules gas with
  | Ok (s', (r, l, e)) => 0 <= l <= gas /\ 0 <= refund s'
  | Panic e => evm_panics evm e \/ (m_To msg = None /\ exists s, load_panics (m_From msg) (s : SDB) = Some e)
  | Err _ => False
  end.
Proof.
  intros [Hc Hk] Hg. unfold run_evm.
  assert (Hp : exists s1, (if IsBerlin rules
    then PrepareAccessList (m_From msg) (m_To msg) [] (m_AccessList msg) (New st hasMS tc : SDB)
    else Ok (New st hasMS tc)) = Ok s1 /\ refund s1 = 0).
  { destruct (IsBerlin rules); [|by eexists].
    destruct (PrepareAccessList_steps (m_From msg) (m_To msg) [] (m_AccessList msg)
      (New st hasMS tc : SDB)) as (s1 & E & _); [apply ginv_wf, New_ginv|].
    exists s1. split; [exact E|]. by rewrite (PrepareAccessList_refund _ _ _ _ _ E). }
  destruct Hp as (s1 & -> & Hr1). symmetry in Hr1. apply Z.eq_le_incl in Hr1. cbn [mbind res_bind]. destruct (m_To msg) as [to|].
  - destruct (evm_Call evm _ _ _ _ _ s1) as [e|[s2 [[r l] e]]] eqn:E; cbn.
    { left. right. eauto 10. }
    apply (Hk _ _ _ _ _ _ _ _ _ _ Hg Hr1 E).
  - destruct (set_nonce_cases (m_From msg) (m_Nonce msg) s1) as [(e & -> & He)| ->]; cbn; [eauto|].
    rewrite <-(SetNonce_refund (m_From msg) (m_Nonce msg)) in Hr1.
    destruct (evm_Create evm _ _ _ _ _) as [e|[s2 [[r l] e]]] eqn:E; cbn; [left; left; eauto 10|].
    destruct (Hc _ _ _ _ _ _ _ _ _ Hg Hr1 E).
    destruct (set_nonce_cases (m_From msg) (wrap64 (m_Nonce msg + 1)) s2) as [(e' & -> & He)| ->]; cbn; [eauto|].
    by rewrite SetNonce_refund.
Qed.

Lemma GasToRefund_ok avail used q :
  0 < q -> 0 <= avail -> 0 <= used ->
  GasToRefund avail used q = Ok (Z.min avail (used / q)) /\ 0 <= Z.min avail (used / q) <= used / q.
Proof.
  intros Hq Ha Hu. unfold GasToRefund. destruct (Z.eqb_spec q 0); [lia|].
  assert (0 <= used / q) by (apply Z.div_pos; lia).
  destruct (Z.ltb_spec avail (used / q)); (split; [f_equal; lia|lia]).
Qed.

Lemma final_gas_ok gas left used mult :
  0 <= gas <= max_int64 -> 0 <= used <= gas -> left <= gas -> 0 <= mult <= dec_one ->
  final_gas gas left used mult = Ok (Z.max (gas * mult / dec_one) used) /\
  0 <= gas * mult / dec_one <= gas.
Proof.
  intros Hg Hu Hl Hm. pose proof dec_one_pos as Hone.
  assert (Hq : 0 <= gas * mult / dec_one <= gas).
  { split; [apply Z.div_pos; nia|]. apply Z.div_le_upper_bound; nia. }
  split; [|exact Hq]. unfold final_gas.
  rewrite (to_int64_small gas), (to_int64_small used) by (unfold max_int64 in *; lia).
  assert (Hgm : 0 <= gas * mult <= gas * dec_one) by nia.
  assert (Hbig : max_int64 * dec_one < 2 ^ 200) by reflexivity.
  assert (H315 : 2 ^ 200 < 2 ^ 315) by (apply Z.pow_lt_mono_r; lia).
  assert (Hgb : gas * dec_one < 2 ^ 200) by nia.
  rewrite dec_Mul_NewDec_l, dec_fits_315 by (rewrite Z.abs_eq; lia). cbn [mbind res_bind].
  assert (Hfit : forall z, 0 <= z <= gas -> int_fits z = true).
  { intros z Hz. apply int_fits_256. unfold max_int64 in *. rewrite Z.abs_eq; lia. }
  assert (Hu64 : forall z, 0 <= z <= gas -> is_uint64 z = true).
  { intros z Hz. apply is_uint64_spec. unfold max_int64, max_uint64 in *. lia. }
  clear Hbig H315 Hgb.
  rewrite !dec_TruncateInt_spec, (Z.quot_div_nonneg (gas * mult) dec_one) by lia.
  rewrite (Hfit _ Hq). cbn [mbind res_bind]. rewrite (Hu64 _ Hq). cbn [negb].
  destruct (Z.ltb_spec gas left); [lia|].
  assert (Hmax : Z.quot (Z.max (gas * mult) (NewDec used)) dec_one = Z.max (gas * mult / dec_one) used).
  { unfold NewDec. rewrite Z.quot_div_nonneg by lia.
    destruct (Z.max_spec (gas * mult) (used * dec_one)) as [[Hle ->]|[Hle ->]].
    - rewrite Z.div_mul by lia. symmetry. apply Z.max_r. apply Z.lt_le_incl, Z.div_lt_upper_bound; lia.
    - symmetry. apply Z.max_l. apply Z.div_le_lower_bound; lia. }
  rewrite Hmax, Hfit by lia. cbn [mbind res_bind]. by rewrite Hu64 by lia.
Qed.

Variable IntrinsicGas : bytes -> ethAccessList -> bool -> bool -> bool -> res Z.

(** the gas charged to the sender *)
Definition charged_gas (msgGas used refundCounter quotient mult : Z) : Z :=
  Z.max (msgGas * mult / dec_one) (used - Z.min refundCounter (used / quotient)).

Lemma charged_gas_bounds g used rc q mult :
  0 <= used <= g -> 0 <= rc -> 0 < q -> 0 <= mult <= dec_one ->
  used - used / q <= charged_gas g used rc q mult <= g /\
  g * mult / dec_one <= charged_gas g used rc q mult.
Proof.
  intros Hu Hr Hq Hm. unfold charged_gas. pose proof dec_one_pos.
  assert (g * mult / dec_one <= g) by (apply Z.div_le_upper_bound; nia).
  assert (0 <= used / q) by (apply Z.div_pos; lia). lia.
Qed.

(** C7: Gas accounting of a message. When go-ethereum does not create gas, the gas
    limit fits an [int64] and [MinGasMultiplier] is between 0 and 1, a message
    whose gas covers the intrinsic gas is executed. A run that panics (the
    interpreter or a precompile it runs does, or a creation cannot load the
    account of its sender) stops the message with the same panic and leaves the
    store. After a run that returns only the commit can fail:
    the response charges the gas used, between the intrinsic gas and the
    limit, less the refund counter capped at a fifth (a half before London) of
    it, and at least the limit times [MinGasMultiplier]; the charge never exceeds
    the limit. With less gas than the intrinsic gas it fails and nothing runs. *)
Theorem apply_message_gas evm st hasMS msg commit rules mult tc ig :
  evm_sane evm -> 0 <= m_Gas msg <= max_int64 -> 0 <= mult <= dec_one ->
  GetEthIntrinsicGas IntrinsicGas msg rules (match m_To msg with None => true | Some _ => false end) = Ok ig ->
  0 <= ig ->
  let q := if IsLondon rules then 5 else 2 in
  if m_Gas msg <? ig then
    ApplyMessageWithConfig IntrinsicGas evm st hasMS msg commit rules mult tc = (st, Err ErrIntrinsicGas)
  else
    match run_evm evm (New st hasMS tc) msg rules (m_Gas msg - ig) with
    | Err _ => False
    | Panic e =>
        (evm_panics evm e \/ (m_To msg = None /\ exists s : SDB, load_panics (m_From msg) s = Some e)) /\
        ApplyMessageWithConfig IntrinsicGas evm st hasMS msg commit rules mult tc = (st, Panic e)
    | Ok (s', (ret, lft, e)) =>
      let used := m_Gas msg - lft in
      let gasUsed := charged_gas (m_Gas msg) used (refund s') q mult in
      ig <= used <= m_Gas msg /\ used - used / q <= gasUsed <= m_Gas msg /\
      m_Gas msg * mult / dec_one <= gasUsed /\
      ApplyMessageWithConfig IntrinsicGas evm st hasMS msg commit rules mult tc =
        if commit then
          match Commit s' with
          | (s'', Ok _) => (ctx_store s'', Ok (mkTxResponse gasUsed e ret (logs s')))
          | (s'', Err err) => (ctx_store s'', Err err)
          | (s'', Panic err) => (ctx_store s'', Panic err)
          end
        else (st, Ok (mkTxResponse gasUsed e ret (logs s')))
    end.
Proof.
  intros Hevm Hgas Hm Hig Hig0. cbn zeta. unfold ApplyMessageWithConfig. rewrite Hig. cbn [st_bind].
  destruct (Z.ltb_spec (m_Gas msg) ig) as [Hlt|Hge]; [done|].
  pose proof (run_evm_ok evm st hasMS tc msg rules (m_Gas msg - ig) Hevm ltac:(lia)) as E.
  destruct (run_evm evm (New st hasMS tc) msg rules (m_Gas msg - ig)) as [[s' [[ret lft] e]]|e|e];
    [destruct E as [Hl Hr]|done|done]. cbn [st_bind].
  set (q := if IsLondon rules then 5 else 2).
  assert (Hq : 0 < q) by (subst q; by destruct (IsLondon rules)).
  assert (Hu : ig <= m_Gas msg - lft <= m_Gas msg) by lia.
  destruct (GasToRefund_ok (refund s') (m_Gas msg - lft) q) as [Egr Hgr]; [lia..|].
  assert (Hdq : (m_Gas msg - lft) / q <= m_Gas msg - lft) by (apply Z.div_le_upper_bound; nia).
  split; [exact Hu|].
  destruct (charged_gas_bounds (m_Gas msg) (m_Gas msg - lft) (refund s') q mult) as [Hb1 Hb2]; [lia..|].
  split; [exact Hb1|]. split; [exact Hb2|].
  destruct (Z.ltb_spec (m_Gas msg) lft); [lia|].
  change (if IsLondon rules then RefundQuotientEIP3529 else RefundQuotient) with q.
  rewrite Egr. cbn [st_bind]. unfold max_int64 in *.
  rewrite !wrap64_small by (unfold max_uint64; lia).
  destruct (final_gas_ok (m_Gas msg) (lft + Z.min (refund s') ((m_Gas msg - lft) / q))
    (m_Gas msg - lft - Z.min (refund s') ((m_Gas msg - lft) / q)) mult) as [Ef _];
    [unfold max_int64; lia|lia|lia|done|].
  unfold charged_gas. destruct commit.
  - destruct (Commit s') as [s'' [[]|err|err]]; cbn [st_bind]; [|done|done].
    rewrite Ef. done.
  - cbn [st_bind]. rewrite Ef. done.
Qed.
End Gas.

(** ** Coins *)

Section Coins.
Context {auth acct bank event : Type} `{!AccountKeeper auth acct} `{!BankKeeper bank}.
Context `{!SdkMath} `{!EvmEnv}.
Abbreviation vstore := (@VmKeeper.evmStore auth bank).
Context `{!MultiStore vstore}.
Abbreviation denom := (eci_Denom coinCfg).
Abbreviation cf := (factor coinCfg).
Abbreviation collector := (bk_module FeeCollectorName).
Implicit Types (b : bank) (a : address) (s : @txState auth bank).

Lemma convert_single v :
  ConvertCoinsFrom18Decimals coinCfg [mkCoin denom v] = Ok [mkCoin denom (Z.quot v cf)].
Proof. rewrite ConvertCoinsFrom18Decimals_ok. cbn. unfold GetEVMCoinDenom. by rewrite String.eqb_refl. Qed.

(** Sending an EVM amount through the wrapper moves its bank amount. *)
Lemma bw_send_module b m x v b' :
  bw_SendCoinsFromModuleToAccount b m x [mkCoin denom v] = (b', Ok ()) -> forall a,
  bk_GetBalance b' a denom = bk_GetBalance b a denom
    - delta_if (bool_decide (a = bk_module m)) (Z.quot v cf)
    + delta_if (bool_decide (a = x)) (Z.quot v cf).
Proof.
  unfold bw_SendCoinsFromModuleToAccount. rewrite convert_single. cbn [st_bind]. intros E a.
  destruct (coins_IsZero _) eqn:Ez.
  - injection E as <-. unfold coins_IsZero in Ez. cbn in Ez. rewrite andb_true_r in Ez.
    apply Z.eqb_eq in Ez. rewrite Ez. unfold delta_if. repeat case_match; lia.
  - rewrite (bk_send_module _ _ _ _ _ E), amount_of_single, String.eqb_refl. lia.
Qed.

Lemma bw_send_account b x m v b' :
  bw_SendCoinsFromAccountToModule b x m [mkCoin denom v] = (b', Ok ()) -> forall a,
  bk_GetBalance b' a denom = bk_GetBalance b a denom
    - delta_if (bool_decide (a = x)) (Z.quot v cf)
    + delta_if (bool_decide (a = bk_module m)) (Z.quot v cf).
Proof.
  unfold bw_SendCoinsFromAccountToModule. rewrite convert_single. cbn [st_bind]. intros E a.
  destruct (coins_IsZero _) eqn:Ez.
  - injection E as <-. unfold coins_IsZero in Ez. cbn in Ez. rewrite andb_true_r in Ez.
    apply Z.eqb_eq in Ez. rewrite Ez. unfold delta_if. repeat case_match; lia.
  - rewrite (bk_send_account _ _ _ _ _ E), amount_of_single, String.eqb_refl. lia.
Qed.

Lemma quot_diff_bound f x y z :
  0 < f -> 0 <= x -> 0 <= y -> z = x - y ->
  z - f < (Z.quot x f - Z.quot y f) * f < z + f.
Proof.
  intros Hf Hx Hy ->. rewrite !Z.quot_div_nonneg by lia.
  pose proof (Z.div_mod x f ltac:(lia)). pose proof (Z.mod_pos_bound x f Hf).
  pose proof (Z.div_mod y f ltac:(lia)). pose proof (Z.mod_pos_bound y f Hf). lia.
Qed.

Lemma RefundGas_balance msg left b b' :
  RefundGas msg left denom b = (b', Ok ()) -> forall a,
  bk_GetBalance b' a denom = bk_GetBalance b a denom
    - delta_if (bool_decide (a = collector)) (Z.quot (left * m_GasPrice msg) cf)
    + delta_if (bool_decide (a = m_From msg)) (Z.quot (left * m_GasPrice msg) cf).
Proof.
  unfold RefundGas. intros E a. destruct (Z.ltb_spec (left * m_GasPrice msg) 0); [done|].
  destruct (Z.ltb_spec 0 (left * m_GasPrice msg)).
  - apply st_bind_Ok_inv in E as (b1 & v & Hn & E). injection Hn as -> Hn.
    apply NewIntFromBigInt_Ok in Hn as ->.
    destruct (bw_SendCoinsFromModuleToAccount _ _ _ _) as [b2 [[]| |]] eqn:E2; [|done..].
    injection E as <-. by apply bw_send_module.
  - injection E as <-. replace (left * m_GasPrice msg) with 0 by lia.
    rewrite Z.quot_0_l by (pose proof (factor_pos coinCfg); lia). unfold delta_if.
    repeat case_match; lia.
Qed.

(** taking the price of the whole gas and giving back that of the gas left *)
Lemma charge_and_refund b b1 msg gasUsed b2 :
  m_From msg <> collector -> 0 <= m_GasPrice msg -> 0 <= gasUsed <= m_Gas msg ->
  (forall a, bk_GetBalance b1 a denom = bk_GetBalance b a denom
    - delta_if (bool_decide (a = m_From msg)) (Z.quot (m_Gas msg * m_GasPrice msg) cf)
    + delta_if (bool_decide (a = collector)) (Z.quot (m_Gas msg * m_GasPrice msg) cf)) ->
  RefundGas msg (m_Gas msg - gasUsed) denom b1 = (b2, Ok ()) ->
  exists paid,
    bk_GetBalance b2 (m_From msg) denom = bk_GetBalance b (m_From msg) denom - paid /\
    bk_GetBalance b2 collector denom = bk_GetBalance b collector denom + paid /\
    (forall a, a <> m_From msg -> a <> collector -> bk_GetBalance b2 a denom = bk_GetBalance b a denom) /\
    gasUsed * m_GasPrice msg - cf < paid * cf < gasUsed * m_GasPrice msg + cf /\
    (eci_Decimals coinCfg = EighteenDecimals -> paid = gasUsed * m_GasPrice msg).
Proof.
  intros Hne Hp Hg Hd Hr. pose proof (RefundGas_balance _ _ _ _ Hr) as Hb. pose proof (factor_pos coinCfg) as Hf.
  set (D := Z.quot (m_Gas msg * m_GasPrice msg) cf) in *.
  set (R := Z.quot ((m_Gas msg - gasUsed) * m_GasPrice msg) cf) in *.
  assert (Hpaid : gasUsed * m_GasPrice msg - cf < (D - R) * cf < gasUsed * m_GasPrice msg + cf).
  { subst D R. generalize cf, (m_GasPrice msg), Hf, Hp. intros f p Hf' Hp'.
    apply quot_diff_bound; [done|nia|nia|lia]. }
  exists (D - R). split_and!.
  - rewrite Hb, Hd. unfold delta_if. clear Hpaid. repeat case_bool_decide; try congruence; lia.
  - rewrite Hb, Hd. unfold delta_if. clear Hpaid. repeat case_bool_decide; try congruence; lia.
  - intros x Ha1 Ha2. rewrite Hb, Hd. unfold delta_if. clear Hpaid. repeat case_bool_decide; try congruence; lia.
  - exact (proj1 Hpaid).
  - exact (proj2 Hpaid).
  - intros Hdec. subst D R. rewrite (factor_18 coinCfg Hdec), !Z.quot_1_r. lia.
Qed.

(** C12: What the sender pays. The ante handler takes the fee of the whole gas
    limit at the effective price, and [RefundGas] returns the price of the gas
    that was not used: when both succeed the sender has paid, and the fee
    collector received, the price of the gas used, up to less than one unit of
    the bank's coin (exactly, for a coin with 18 decimals); no other balance of
    the EVM coin changes. *)
Theorem sender_pays_gas_used (st st1 : vstore) msg gasUsed b2 :
  m_From msg <> collector -> 0 <= m_GasPrice msg -> 0 <= gasUsed <= m_Gas msg ->
  DeductTxCostsFromUserBalance [mkCoin denom (m_Gas msg * m_GasPrice msg)] (m_From msg) st = (st1, Ok ()) ->
  RefundGas msg (m_Gas msg - gasUsed) denom (VmKeeper.es_bank st1) = (b2, Ok ()) ->
  let b := VmKeeper.es_bank st in
  exists paid,
    bk_GetBalance b2 (m_From msg) denom = bk_GetBalance b (m_From msg) denom - paid /\
    bk_GetBalance b2 collector denom = bk_GetBalance b collector denom + paid /\
    (forall a, a <> m_From msg -> a <> collector -> bk_GetBalance b2 a denom = bk_GetBalance b a denom) /\
    gasUsed * m_GasPrice msg - cf < paid * cf < gasUsed * m_GasPrice msg + cf /\
    (eci_Decimals coinCfg = EighteenDecimals -> paid = gasUsed * m_GasPrice msg).
Proof.
  intros Hne Hp Hg Hd Hr. cbn zeta. unfold DeductTxCostsFromUserBalance in Hd.
  destruct (ak_GetAccount _ _) as [ac|]; [|done].
  destruct (bw_SendCoinsFromAccountToModule _ _ _ _) as [b1 r] eqn:E1.
  injection Hd as <- Hr1. destruct r as [[]| |]; [|done..].
  apply (charge_and_refund (VmKeeper.es_bank st) b1); try done. apply (bw_send_account _ _ _ _ _ E1).
Qed.

(** ** What a failed transaction leaves *)

Variable IntrinsicGas : bytes -> ethAccessList -> bool -> bool -> bool -> res Z.
Variable evm : @EVM vstore event.
Variable logsBloom : list ethLog -> Z.

Lemma failed_tx_effect msg bh th rules mult s s' r :
  ApplyTransaction IntrinsicGas evm logsBloom msg bh th rules mult s = (s', Ok r) ->
  Failed r = true -> 0 <= r_GasUsed r <= max_uint64 -> 0 <= ts_gasUsed s <= max_uint64 ->
  exists b,
    RefundGas msg (wrap64 (m_Gas msg - r_GasUsed r)) denom (VmKeeper.es_bank (ts_store s)) = (b, Ok ()) /\
    ts_store s' = VmKeeper.with_bank b (ts_store s) /\
    ts_txIndex s' = wrap64 (ts_txIndex s + 1) /\
    ts_gasUsed s' = ts_gasUsed s + r_GasUsed r /\
    gm_consumed (ts_meter s') = ts_gasUsed s + r_GasUsed r.
Proof.
  unfold ApplyTransaction. intros E Hf Hg Hs.
  destruct (ApplyMessageWithConfig _ _ _ _ _ _ _ _ _) as [tmp [res| |]]; [|destruct (ResetGasMeterAndConsumeGas _ _) as [? [| |]]; done|done].
  destruct (Failed res) eqn:Efr.
  2: { exfalso. revert E. destruct (RefundGas _ _ _ _) as [b [[]| |]]; cbn [st_bind]; [|done..].
       intros E. apply st_bind_Ok_inv in E as (? & ? & _ & E).
       destruct (ResetGasMeterAndConsumeGas _ _) as [g rr].
       destruct rr as [[]| |]; [|done..]. injection E as _ <-. congruence. }
  destruct (RefundGas _ _ _ _) as [b rr] eqn:Er.
  apply st_bind_Ok_inv in E as (s1 & [] & H1 & E). injection H1 as <- ->.
  set (s2 := SetTxIndexTransient _ _) in E.
  assert (H2 : ts_gasUsed s2 = ts_gasUsed s /\ ts_txIndex s2 = wrap64 (ts_txIndex s + 1) /\
    ts_store s2 = VmKeeper.with_bank b (ts_store s)).
  { subst s2. by destruct (r_Logs res). }
  clearbody s2. destruct H2 as (G1 & G2 & G3).
  apply st_bind_Ok_inv in E as (s3 & total & H3 & E). unfold AddTransientGasUsed in H3.
  destruct (Z.ltb_spec (wrap64 (ts_gasUsed s2 + r_GasUsed res)) (r_GasUsed res)) as [|Hno]; [done|].
  injection H3 as <- <-.
  destruct (ResetGasMeterAndConsumeGas _ _) as [g rr] eqn:Eg.
  apply st_bind_Ok_inv in E as (s4 & [] & H4 & E). injection H4 as <- ->. injection E as <- <-.
  rewrite G1 in *.
  assert (Hsum : wrap64 (ts_gasUsed s + r_GasUsed res) = ts_gasUsed s + r_GasUsed res).
  { unfold wrap64, max_uint64 in *. destruct (Z_lt_le_dec (ts_gasUsed s + r_GasUsed res) (2 ^ 64)).
    - apply Z.mod_small. lia.
    - exfalso. rewrite <-(Z_mod_plus_full _ (-1)), Z.mod_small in Hno; lia. }
  rewrite Hsum in *.
  assert (Hrange : 0 <= ts_gasUsed s + r_GasUsed res <= max_uint64).
  { rewrite <-Hsum. apply wrap64_range. }
  rewrite ResetGasMeter_ok in Eg by done. injection Eg as <-. cbn in *.
  exists b. by split_and!.
Qed.

(** A transaction whose execution fails leaves no trace but the fee. When
    [ApplyTransaction] returns a response with a VM error, the accounts, code
    hashes, codes and slots are those from before, the only balances of the EVM
    coin that move are the refund from the fee collector to the sender; the
    transaction index advances by one, the gas used is added to the block's
    counter and becomes the consumption of the gas meter. *)
Theorem failed_tx_keeps_state msg bh th rules mult s s' r :
  ApplyTransaction IntrinsicGas evm logsBloom msg bh th rules mult s = (s', Ok r) ->
  Failed r = true -> 0 <= r_GasUsed r <= max_uint64 -> 0 <= ts_gasUsed s <= max_uint64 ->
  VmKeeper.es_auth (ts_store s') = VmKeeper.es_auth (ts_store s) /\
  VmKeeper.es_codeHash (ts_store s') = VmKeeper.es_codeHash (ts_store s) /\
  VmKeeper.es_code (ts_store s') = VmKeeper.es_code (ts_store s) /\
  VmKeeper.es_storage (ts_store s') = VmKeeper.es_storage (ts_store s) /\
  (forall a, a <> m_From msg -> a <> collector ->
     bk_GetBalance (VmKeeper.es_bank (ts_store s')) a denom =
     bk_GetBalance (VmKeeper.es_bank (ts_store s)) a denom) /\
  ts_txIndex s' = wrap64 (ts_txIndex s + 1) /\
  ts_gasUsed s' = ts_gasUsed s + r_GasUsed r /\
  gm_consumed (ts_meter s') = ts_gasUsed s + r_GasUsed r.
Proof.
  intros E Hf Hg Hs. destruct (failed_tx_effect _ _ _ _ _ _ _ _ E Hf Hg Hs) as (b & Er & -> & H1' & H2' & H3').
  split_and!; try done.
  intros a Ha1 Ha2. cbn. rewrite (RefundGas_balance _ _ _ _ Er). unfold delta_if.
  rewrite !bool_decide_false by done. lia.
Qed.
End Coins.

(** ** Fee checks *)

Section Fees.
Context `{!SdkMath} `{!EthHex} `{!EvmEnv}.
Variable IntrinsicGas : bytes -> ethAccessList -> bool -> bool -> bool -> res Z.

Lemma CheckSenderBalance_Ok balance (t : TxData) :
  CheckSenderBalance balance t = Ok () <->
  exists c, tx_Cost t = Ok c /\ 0 <= c <= balance.
Proof.
  unfold CheckSenderBalance. split.
  - intros (c & E & Hk)%bind_Ok_inv. exists c. split; [exact E|].
    destruct (Z.ltb_spec c 0); [done|]. destruct (Z.ltb_spec balance 0); [done|].
    cbn [orb] in Hk. destruct (Z.ltb_spec balance c); [done|lia].
  - intros (c & -> & Hc). cbn [mbind res_bind].
    destruct (Z.ltb_spec c 0); [lia|]. destruct (Z.ltb_spec balance 0); [lia|].
    cbn [orb]. destruct (Z.ltb_spec balance c); [lia|done].
Qed.

(** The two fee checks together are enough. When a transaction is valid,
    [VerifyFee] accepts it at base fee [b] and [CheckSenderBalance] accepts the
    sender's balance, then the coins to deduct are the effective fee, at least
    the base fee for every unit of gas; the balance covers that fee and the
    value transferred; and in CheckTx the gas limit covers the intrinsic gas. *)
Theorem checked_tx_can_pay (t : TxData) denom b homestead istanbul isCheckTx coins balance :
  Validate t = Ok () -> 0 <= GetGas t -> 0 <= b ->
  VerifyFee IntrinsicGas t denom (Some b) homestead istanbul isCheckTx = Ok coins ->
  CheckSenderBalance balance t = Ok () ->
  let create := match GetTo t with None => true | Some _ => false end in
  exists fee ig,
    tx_EffectiveFee t (Some b) = Ok fee /\ amount_of denom coins = fee /\
    b * GetGas t <= fee /\ fee + default 0 (GetValue t) <= balance /\
    IntrinsicGas (GetData t) (GetAccessList t) create homestead istanbul = Ok ig /\
    (isCheckTx = true -> ig <= GetGas t).
Proof.
  intros Hv Hg Hb Hvf (c & Hc & Hcb)%CheckSenderBalance_Ok. cbn zeta.
  destruct (Validate_prices t Hg Hv) as (cap & tip & f & Hcap & Htip & Hr & Hf & Hfe & Hfb & _).
  destruct (effective_price t cap tip b Hcap Htip Hr Hb) as (p & _ & Hpr & Hpb & Hef & _).
  unfold VerifyFee in Hvf. apply bind_Ok_inv in Hvf as (ig & Hig & Hvf).
  destruct (isCheckTx && (GetGas t <? ig)) eqn:Eig; [done|].
  rewrite Hcap in Hvf. cbn [mbind res_bind] in Hvf. destruct (Z.ltb_spec cap b) as [|Hcapb]; [done|].
  rewrite Hef in Hvf. cbn [mbind res_bind] in Hvf.
  exists (p * GetGas t), ig. split; [exact Hef|]. split.
  { destruct (Z.eqb_spec (p * GetGas t) 0) as [->|].
    - injection Hvf as <-. reflexivity.
    - apply bind_Ok_inv in Hvf as (a & ->%NewIntFromBigInt_Ok & Hvf). injection Hvf as <-.
      rewrite amount_of_single. by rewrite String.eqb_refl. }
  assert (Hbp : b <= p) by (specialize (Hpb Hcapb); destruct t; lia).
  split; [nia|]. split.
  { assert (Hcost : tx_Cost t = Ok (f + default 0 (GetValue t))).
    { destruct t; cbn in *; unfold Legacy.Cost, AccessListT.Cost, Dynamic.Cost; rewrite Hf; done. }
    assert (Hcv : c = f + default 0 (GetValue t)) by congruence.
    assert (Hple : p * GetGas t <= cap * GetGas t) by (apply Z.mul_le_mono_nonneg_r; lia).
    clear Hc Hcost. lia. }
  split; [exact Hig|]. intros ->. cbn [andb] in Eig. by apply Z.ltb_ge in Eig.
Qed.
End Fees.

(** ** The block's gas counter *)

Section Counter.
Context {auth acct bank : Type} `{!AccountKeeper auth acct} `{!BankKeeper bank}.
Implicit Types s : @txState auth bank.

(** the gas of the transactions of a block, added one after the other *)
Fixpoint add_all (gs : list Z) s : @txState auth bank * res Z :=
  match gs with
  | [] => (s, Ok (ts_gasUsed s))
  | g :: gs => do? s, _ := AddTransientGasUsed g s in add_all gs s
  end.

Lemma AddTransientGasUsed_spec g s :
  0 <= g <= max_uint64 -> 0 <= ts_gasUsed s <= max_uint64 ->
  AddTransientGasUsed g s =
    if ts_gasUsed s + g <=? max_uint64 then (SetTransientGasUsed (ts_gasUsed s + g) s, Ok (ts_gasUsed s + g))
    else (s, Err ErrTxGasOverflow).
Proof.
  intros Hg Hs. unfold AddTransientGasUsed. destruct (Z.leb_spec (ts_gasUsed s + g) max_uint64).
  - rewrite wrap64_small by lia. destruct (Z.ltb_spec (ts_gasUsed s + g) g); [lia|done].
  - assert (Hw : wrap64 (ts_gasUsed s + g) = ts_gasUsed s + g - 2 ^ 64).
    { unfold wrap64, max_uint64 in *. rewrite <-(Z_mod_plus_full _ (-1)), Z.mod_small; lia. }
    rewrite Hw. unfold max_uint64 in *. destruct (Z.ltb_spec (ts_gasUsed s + g - 2 ^ 64) g); [done|lia].
Qed.

(** The counter of the gas used in a block is exact. Starting from the reset
    of the block's first transaction, adding the gas of any transactions gives
    their sum, or the overflow error exactly when the sum does not fit 64 bits:
    the wrap-around test of [AddTransientGasUsed] misses no overflow. *)
Theorem block_gas_counter_exact gs s :
  Forall (fun g => 0 <= g <= max_uint64) gs ->
  let sum := foldr Z.add 0 gs in
  (add_all gs (ResetTransientGasUsed s)).2 =
    if sum <=? max_uint64 then Ok sum else Err ErrTxGasOverflow.
Proof.
  intros Hgs. cbn zeta.
  assert (Hgen : forall s, 0 <= ts_gasUsed s <= max_uint64 -> (add_all gs s).2 =
    if ts_gasUsed s + foldr Z.add 0 gs <=? max_uint64 then Ok (ts_gasUsed s + foldr Z.add 0 gs)
    else Err ErrTxGasOverflow).
  2: { rewrite Hgen by (cbn; unfold max_uint64; lia). done. }
  clear s. induction Hgs as [|g gs Hg Hgs IH]; intros s Hs; cbn [add_all foldr].
  { rewrite Z.add_0_r. destruct (Z.leb_spec (ts_gasUsed s) max_uint64); [done|lia]. }
  assert (Hpos : 0 <= foldr Z.add 0 gs) by (clear -Hgs; induction Hgs; cbn; lia).
  rewrite AddTransientGasUsed_spec by done.
  destruct (Z.leb_spec (ts_gasUsed s + g) max_uint64); cbn [st_bind].
  - rewrite IH by (cbn; lia). cbn [ts_gasUsed SetTransientGasUsed]. by rewrite Z.add_assoc.
  - destruct (Z.leb_spec (ts_gasUsed s + (g + foldr Z.add 0 gs)) max_uint64); [lia|done].
Qed.
End Counter.

(** ** Concrete runs *)

(** An interpreter that moves the value, writes slot 1 of the recipient, uses 700
    gas and earns a refund of 100; it fails on the input [[1]] and panics on [[2]]. *)
Definition cevm_call (from to : address) (data : bytes) (gas value : Z) (s : @StateDB cstore Z)
    : @evmResult cstore Z :=
  if gas <? 700 then inr (s, ([], 0, Some "out of gas"))
  else match data with
       | [1] => inr (s, ([], gas - 700, Some "execution reverted"))
       | [2] => inl PanicNil
       | _ => inr (AddRefund 100 (SetState to 1 value (AddBalance to value (SubBalance from value s))),
                ([42], gas - 700, None))
       end.
Definition cevm : @EVM cstore Z := {|
  evm_Create from data gas value s := cevm_call from 99 data gas value s;
  evm_Call := cevm_call
|}.
Definition cIntrinsic (d : bytes) (_ : ethAccessList) (_ _ _ : bool) : res Z :=
  Ok (21000 + 16 * Z.of_nat (length d)).
Definition crules : ChainRules := mkChainRules true true true true.
Definition ctc : TxConfig := NewTxConfig 0 1 0 0.
(** sends one unit of the bank's coin, [10 ^ 12] of the 18-decimal amount *)
Definition cmsg (data : bytes) : Message :=
  mkMessage 1 (Some 2) 7 (10 ^ 12) 100000 (3 * 10 ^ 6) data [].

Lemma cevm_sane : evm_sane cevm.
Proof.
  assert (Hcall : forall from to d g v (s s' : @StateDB cstore Z) r l e, 0 <= g -> 0 <= refund s ->
    cevm_call from to d g v s = inr (s', (r, l, e)) -> 0 <= l <= g /\ 0 <= refund s').
  { intros from to d g v s s' r l e Hg Hr. unfold cevm_call. destruct (Z.ltb_spec g 700).
    { intros [= <- <- <- <-]. lia. }
    assert (Hres : forall (t t' : @StateDB cstore Z) r' e', 0 <= refund t' -> t' = s' ->
      @inr error _ (t', (r', g - 700, e')) = inr (s', (r, l, e)) -> 0 <= l <= g /\ 0 <= refund s').
    { intros t t' r' e' Ht -> [= <- <- <-]. lia. }
    assert (Hok : @inr error _ (AddRefund 100 (SetState to 1 v (AddBalance to v (SubBalance from v s))), ([42], g - 700, None))
      = inr (s', (r, l, e)) -> 0 <= l <= g /\ 0 <= refund s').
    { intros E. assert (E' := E). injection E' as Es _ _ _. refine (Hres s _ _ _ _ Es E).
      unfold AddRefund. cbn. apply wrap64_range. }
    destruct d as [|[|[[]|[]|]|] []]; try exact Hok; [done|]. intros [= <- <- <- <-]. lia. }
  constructor.
  - intros from d g v s s' r l e. apply (Hcall from 99 d g v s s' r l e).
  - exact Hcall.
Qed.

Definition cresult : @StateDB cstore Z * (bytes * Z * option error) :=
  ok_or (New cstore0 true ctc, ([], 0, None)) (run_evm cevm (New cstore0 true ctc) (cmsg []) crules 79000).

Lemma apply_message_gas_witness :
  charged_gas 100000 21700 (refund cresult.1) 5 (10 ^ 17) = 21600 /\
  (exists s' ret lft e, run_evm cevm (New cstore0 true ctc) (cmsg []) crules 79000 = Ok (s', (ret, lft, e)) /\
    21000 <= 100000 - lft <= 100000) /\
  ApplyMessageWithConfig cIntrinsic cevm cstore0 true (cmsg [2]) true crules (10 ^ 17) ctc = (cstore0, Panic PanicNil).
Proof.
  split; [vm_compute; reflexivity|].
  assert (Hm : 0 <= 100000 <= max_int64) by (split; vm_compute; congruence).
  assert (Hd : 0 <= 10 ^ 17 <= dec_one) by (split; vm_compute; congruence). split.
  - pose proof (apply_message_gas cIntrinsic cevm cstore0 true (cmsg []) true crules (10 ^ 17) ctc 21000
      cevm_sane Hm Hd eq_refl ltac:(lia)) as H.
    change (m_Gas (cmsg []) <? 21000) with false in H. cbv iota in H.
    change (m_Gas (cmsg []) - 21000) with 79000 in H.
    assert (Hr : is_ok (run_evm cevm (New cstore0 true ctc) (cmsg []) crules 79000) = true) by (vm_compute; reflexivity).
    destruct (run_evm cevm (New cstore0 true ctc) (cmsg []) crules 79000) as [[s' [[ret lft] e]]|e|e]; [|done|done].
    exists s', ret, lft, e. split; [reflexivity|]. exact (proj1 H).
  - pose proof (apply_message_gas cIntrinsic cevm cstore0 true (cmsg [2]) true crules (10 ^ 17) ctc 21016
      cevm_sane Hm Hd eq_refl ltac:(lia)) as H.
    change (m_Gas (cmsg [2]) <? 21016) with false in H. cbv iota in H.
    replace (run_evm cevm (New cstore0 true ctc) (cmsg [2]) crules (m_Gas (cmsg [2]) - 21016))
      with (@Panic (@StateDB cstore Z * (bytes * Z * option error)) PanicNil) in H by (vm_compute; reflexivity).
    exact (proj2 H).
Defined.

(** a sender with 5 coins of 6 decimals, so [5 * 10 ^ 12] of the EVM's *)
Definition cprice_msg : Message := mkMessage 1 (Some 2) 7 0 100000 (3 * 10 ^ 7) [] [].
Definition cpaid : cstore * res unit :=
  DeductTxCostsFromUserBalance [mkCoin "utac" (100000 * (3 * 10 ^ 7))] 1 cstore0.
Definition crefunded : cbank * res unit :=
  RefundGas cprice_msg (100000 - 50000) "utac" (VmKeeper.es_bank cpaid.1).

(** Of 5 units the fee takes 3; the refund of 1.5 gives back 1: 2 are paid for
    gas worth 1.5. *)
Lemma sender_pays_gas_used_witness :
  bk_GetBalance crefunded.1 1 "utac" = 3 /\
  exists paid, bk_GetBalance crefunded.1 1 "utac" = 5 - paid /\
    50000 * (3 * 10 ^ 7) - 10 ^ 12 < paid * 10 ^ 12 < 50000 * (3 * 10 ^ 7) + 10 ^ 12.
Proof.
  split; [vm_compute; reflexivity|].
  destruct (sender_pays_gas_used cstore0 cpaid.1 cprice_msg 50000 crefunded.1)
    as (paid & H1 & _ & _ & H2 & _).
  - vm_compute. congruence.
  - vm_compute. congruence.
  - split; vm_compute; congruence.
  - apply pair_snd. vm_compute. reflexivity.
  - apply pair_snd. vm_compute. reflexivity.
  - exists paid. split; [exact H1|exact H2].
Defined.

(** the fee of [cmsg] has been paid to the collector *)
Definition cts0 : @txState (gmap address cAcct) cbank :=
  mkTxState (VmKeeper.with_bank (<[(1, "utac") := 5]> (<[(1000, "utac") := 1]> ∅)) cstore0)
    0 4 0 50000 (mkGasMeter 900 200000).
Definition cts1 := ApplyTransaction cIntrinsic cevm (fun _ => 0) (cmsg [1]) 0 1 crules (10 ^ 17) cts0.
Definition cresp : TxResponse := ok_or (mkTxResponse 0 None [] []) cts1.2.

Lemma failed_tx_keeps_state_witness :
  VmKeeper.es_storage (ts_store cts1.1) = VmKeeper.es_storage (ts_store cts0) /\
  ts_gasUsed cts1.1 = 50000 + 21716 /\ gm_consumed (ts_meter cts1.1) = 50000 + 21716.
Proof.
  destruct (failed_tx_keeps_state cIntrinsic cevm (fun _ => 0) (cmsg [1]) 0 1 crules (10 ^ 17) cts0 cts1.1 cresp)
    as (_ & _ & _ & H1 & _ & _ & H2 & H3).
  - apply pair_snd. apply ok_or_ok. vm_compute. reflexivity.
  - vm_compute. reflexivity.
  - split; vm_compute; congruence.
  - split; vm_compute; congruence.
  - split; [exact H1|]. split; vm_compute; reflexivity.
Defined.

Definition cdyn : TxData :=
  TxDynamicFee (Dynamic.mkDynamicFeeTx (Some 9000) 4 (Some 2) (Some 30) 21000 (c_addr_Hex 77) (Some 5) [] None [] [] []).

Lemma checked_tx_can_pay_witness :
  exists fee, amount_of "utac" [mkCoin "utac" (12 * 21000)] = fee /\ 10 * 21000 <= fee /\ fee + 5 <= 30 * 21000 + 5.
Proof.
  destruct (checked_tx_can_pay cIntrinsic cdyn "utac" 10 true true true [mkCoin "utac" (12 * 21000)]
    (30 * 21000 + 5)) as (fee & ig & _ & H1 & H2 & H3 & _).
  - vm_compute. reflexivity.
  - vm_compute. congruence.
  - lia.
  - vm_compute. reflexivity.
  - vm_compute. reflexivity.
  - exists fee. split; [exact H1|]. split; [exact H2|exact H3].
Defined.

Lemma block_gas_counter_exact_witness :
  (add_all [21000; 2 ^ 64 - 21000] (ResetTransientGasUsed cts0)).2 = Err ErrTxGasOverflow.
Proof.
  apply (block_gas_counter_exact [21000; 2 ^ 64 - 21000] cts0).
  repeat constructor; vm_compute; congruence.
Defined.
