(* ===== verification/VmParams.v ===== *)
(** * Parameters, permissions and opcode hooks ([x/vm])

    [types/params.go], [types/permissions.go], [types/opcodes_hooks.go],
    [keeper/params.go], [keeper/precompiles.go], [keeper/static_precompiles.go]
    and the hooks that [NewEVM] installs. Addresses in the parameters are texts,
    as in the code: the checks compare them with the checksummed text of an
    address. *)

From stdpp Require Import base gmap list numbers strings sorting.
From Stdlib Require Import ZArith Lia.
From S2P Require Import Prelude SdkMath Scaling AccessList StateDB StateDBCommit VmStore TxData.

Definition ErrInvalidAccessType : error := "invalid access type".
Definition ErrInvalidWhitelist : error := "invalid whitelist address".
Definition ErrInvalidEIP : error := "EIP is not activateable".
Definition ErrDuplicateEIP : error := "found duplicate EIP".
Definition ErrDuplicatePrecompile : error := "duplicate precompile".
Definition ErrInvalidPrecompile : error := "invalid precompile".
Definition ErrUnsortedPrecompiles : error := "precompiles need to be sorted".
Definition ErrPrecompileRegistered : error := "precompile already registered".
Definition ErrInvalidChannelIdentifier : error := "invalid channel identifier".
Definition ErrInvalidSigner : error := "expected gov account as only signer for proposal message".
Definition ErrNoCreatePermission : error := "caller address does not have permission to deploy contracts".
Definition ErrNoCallPermission : error := "caller address does not have permission to perform a call".
Definition PanicPrecompileMissing : error := "precompiled contract not stored in memory".
Definition PanicPrecompilesSet : error := "available precompiles map already set".
Definition PanicNoPrecompiles : error := "empty precompiled contract map".

(** ** Order of Go strings: bytewise *)

Definition str_le (a b : string) : Prop := String.leb a b = true.
#[export] Instance str_le_dec : RelDecision str_le.
Proof. intros a b. unfold str_le. apply _. Defined.

(** [slices.Contains] *)
Definition contains {A} `{!EqDecision A} (l : list A) (x : A) : bool := bool_decide (x ∈ l).

(** [slices.IsSorted]: no element is less than the one before *)
Fixpoint IsSorted (l : list string) : bool :=
  match l with
  | a :: ((b :: _) as l') => negb (String.ltb b a) && IsSorted l'
  | _ => true
  end.

Definition SortSlice (l : list string) : list string := merge_sort str_le l.

(** ** Data *)

(** a protobuf enum: a decoded message can hold any number *)
Inductive AccessType :=
| AccessTypePermissionless
| AccessTypeRestricted
| AccessTypePermissioned
| AccessTypeOther (n : Z).

Record AccessControlType := mkAccessControlType {
  act_AccessType : AccessType;
  act_List : list string
}.

Record AccessControl := mkAccessControl {
  ac_Create : AccessControlType;
  ac_Call : AccessControlType
}.

Record Params := mkParams {
  AllowUnprotectedTxs : bool;
  ExtraEIPs : list Z;
  ActiveStaticPrecompiles : list string;
  EVMChannels : list string;
  p_AccessControl : AccessControl
}.

Definition with_precompiles (l : list string) (p : Params) : Params :=
  mkParams (AllowUnprotectedTxs p) (ExtraEIPs p) l (EVMChannels p) (p_AccessControl p).
Definition with_eips (l : list Z) (p : Params) : Params :=
  mkParams (AllowUnprotectedTxs p) l (ActiveStaticPrecompiles p) (EVMChannels p) (p_AccessControl p).

Definition NewParams (allowUnprotectedTxs : bool) (extraEIPs : list Z)
    (activeStaticPrecompiles evmChannels : list string) (accessControl : AccessControl) : Params :=
  mkParams allowUnprotectedTxs extraEIPs activeStaticPrecompiles evmChannels accessControl.

Definition DefaultExtraEIPs : list Z := [3855].
Definition DefaultAccessControl : AccessControl :=
  mkAccessControl (mkAccessControlType AccessTypePermissionless [])
                  (mkAccessControlType AccessTypePermissionless []).
Definition DefaultParams : Params :=
  mkParams false DefaultExtraEIPs [] [] DefaultAccessControl.

(** ** Validation ([params.go]) *)

Section Validation.
Context `{!EthHex}.
(** [vm.ValidEip] of go-ethereum, [host.ChannelIdentifierValidator] of ibc-go *)
Variable ValidEip : Z -> bool.
Variable ChannelIdentifierValidator : string -> bool.

Definition validateAccessType (t : AccessType) : res unit :=
  match t with
  | AccessTypePermissionless | AccessTypeRestricted | AccessTypePermissioned => Ok ()
  | AccessTypeOther _ => Err ErrInvalidAccessType
  end.

Fixpoint validateAllowlistAddresses (l : list string) : res unit :=
  match l with
  | [] => Ok ()
  | a :: l => match ValidateAddress a with
              | Ok _ => validateAllowlistAddresses l
              | _ => Err ErrInvalidWhitelist
              end
  end.

Definition act_Validate (t : AccessControlType) : res unit :=
  let? _ := validateAccessType (act_AccessType t) in validateAllowlistAddresses (act_List t).

Definition ac_Validate (ac : AccessControl) : res unit :=
  let? _ := act_Validate (ac_Create ac) in act_Validate (ac_Call ac).

Fixpoint validateEIPs_loop (uniqueEIPs : gset Z) (eips : list Z) : res unit :=
  match eips with
  | [] => Ok ()
  | eip :: eips =>
      if negb (ValidEip eip) then Err ErrInvalidEIP
      else if bool_decide (eip ∈ uniqueEIPs) then Err ErrDuplicateEIP
      else validateEIPs_loop ({[eip]} ∪ uniqueEIPs) eips
  end.
Definition validateEIPs (eips : list Z) : res unit := validateEIPs_loop ∅ eips.

Fixpoint validatePrecompiles_loop (seenPrecompiles : gset string) (l : list string) : res unit :=
  match l with
  | [] => Ok ()
  | precompile :: l =>
      if bool_decide (precompile ∈ seenPrecompiles) then Err ErrDuplicatePrecompile
      else match ValidateAddress precompile with
           | Ok _ => validatePrecompiles_loop ({[precompile]} ∪ seenPrecompiles) l
           | _ => Err ErrInvalidPrecompile
           end
  end.

Definition ValidatePrecompiles (precompiles : list string) : res unit :=
  let? _ := validatePrecompiles_loop ∅ precompiles in
  if IsSorted precompiles then Ok () else Err ErrUnsortedPrecompiles.

Fixpoint validateChannels (channels : list string) : res unit :=
  match channels with
  | [] => Ok ()
  | channel :: channels =>
      if ChannelIdentifierValidator channel then validateChannels channels
      else Err ErrInvalidChannelIdentifier
  end.

Definition params_Validate (p : Params) : res unit :=
  let? _ := validateEIPs (ExtraEIPs p) in
  let? _ := ValidatePrecompiles (ActiveStaticPrecompiles p) in
  let? _ := ac_Validate (p_AccessControl p) in
  validateChannels (EVMChannels p).

(** [EIPs]: [int] has 64 bits *)
Definition EIPs (p : Params) : list Z := ExtraEIPs p.

Definition GetActiveStaticPrecompilesAddrs (p : Params) : list address :=
  map HexToAddress (ActiveStaticPrecompiles p).

Definition IsEVMChannel (p : Params) (channel : string) : bool := contains (EVMChannels p) channel.

(** ** The keeper's parameters ([keeper/params.go])

    [None] while nothing is stored under the key; the legacy parameters come
    from the [x/params] subspace. *)

Abbreviation paramStore := (option Params).
Variable legacyParams : Params.

Definition GetParams (s : paramStore) : Params := default legacyParams s.

Definition SetParams (s : paramStore) (p : Params) : paramStore * res unit :=
  let p := with_precompiles (SortSlice (ActiveStaticPrecompiles p)) p in
  do? s, _ := (s, params_Validate p) in
  (Some p, Ok ()).

Fixpoint hexAddresses (existing : list string) (addresses : list address) : res (list string) :=
  match addresses with
  | [] => Ok []
  | a :: addresses =>
      if contains existing (addr_Hex a) then Err ErrPrecompileRegistered
      else let? l := hexAddresses existing addresses in Ok (addr_Hex a :: l)
  end.

Definition appendPrecompiles (existing : list string) (addresses : list address) : res (list string) :=
  let? hex := hexAddresses existing addresses in
  Ok (SortSlice (existing ++ hex)).

Definition EnableStaticPrecompiles (s : paramStore) (addresses : list address) : paramStore * res unit :=
  let params := GetParams s in
  do? s, updated := (s, appendPrecompiles (ActiveStaticPrecompiles params) addresses) in
  SetParams s (with_precompiles updated params).

Definition EnableEIPs (s : paramStore) (eips : list Z) : paramStore * res unit :=
  let p := GetParams s in
  SetParams s (with_eips (merge_sort Z.le (ExtraEIPs p ++ eips)) p).

(** [UpdateParams] of the message server *)
Definition UpdateParams (authority : string) (s : paramStore) (reqAuthority : string) (p : Params)
    : paramStore * res unit :=
  if String.eqb authority reqAuthority then SetParams s p else (s, Err ErrInvalidSigner).

(** ** Permission policy ([permissions.go]) *)

(** [addr.String()] of an address is its checksummed hexadecimal text *)
Definition permissionlessCheckFn (addresses : list string) (signer caller : address) : bool :=
  let isSignerBlocked := negb (contains addresses (addr_Hex signer)) in
  isSignerBlocked && negb (contains addresses (addr_Hex caller)).

Definition permissionedCheckFn (addresses : list string) (signer caller : address) : bool :=
  let isSignerAllowed := contains addresses (addr_Hex signer) in
  isSignerAllowed || contains addresses (addr_Hex caller).

Definition getCanCreateFn (ac : AccessControl) (signer caller : address) : bool :=
  let addresses := act_List (ac_Create ac) in
  match act_AccessType (ac_Create ac) with
  | AccessTypePermissionless => permissionlessCheckFn addresses signer caller
  | AccessTypeRestricted => false
  | AccessTypePermissioned => permissionedCheckFn addresses signer caller
  | AccessTypeOther _ => false
  end.

Definition getCanCallFn (ac : AccessControl) (signer caller : address) : bool :=
  let addresses := act_List (ac_Call ac) in
  match act_AccessType (ac_Call ac) with
  | AccessTypePermissionless => permissionlessCheckFn addresses signer caller
  | AccessTypeRestricted => false
  | AccessTypePermissioned => permissionedCheckFn addresses signer caller
  | AccessTypeOther _ => false
  end.

(** The policy keeps the two functions made from the access control and the
    signer. *)
Record RestrictedPermissionPolicy := mkPolicy {
  canCreate : address -> bool;
  canCall : address -> bool
}.

Definition NewRestrictedPermissionPolicy (ac : AccessControl) (signer : address)
    : RestrictedPermissionPolicy :=
  mkPolicy (getCanCreateFn ac signer) (getCanCallFn ac signer).

Definition CanCreate (p : RestrictedPermissionPolicy) (_signer caller : address) : bool :=
  canCreate p caller.
Definition CanCall (p : RestrictedPermissionPolicy) (_signer caller _recipient : address) : bool :=
  canCall p caller.
End Validation.

(** ** Opcode hooks and precompiles *)

Section Hooks.
Context `{!EthHex}.
Context {store event : Type} `{!Keeper store} `{!MultiStore store}.
Abbreviation SDB := (@StateDB store event).

(** [vm.PrecompiledContract], and the addresses that go-ethereum always activates *)
Context {contract : Type}.
Variable pc_Address : contract -> address.
Variable PrecompiledAddressesBerlin : list address.

(** what the hooks use of a [vm.EVM]: its state database and the precompiles
    that it may call *)
Record evmState := mkEvmState {
  ev_db : SDB;
  ev_precompiles : gmap address contract;
  ev_active : list address
}.

Definition WithPrecompiles (m : gmap address contract) (l : list address) (ev : evmState) : evmState :=
  mkEvmState (ev_db ev) m l.

Definition CreateHook : Type := evmState -> address -> evmState * res unit.
Definition CallHook : Type := evmState -> address -> address -> evmState * res unit.

Record DefaultOpCodesHooks := mkHooks { callHooks : list CallHook; createHooks : list CreateHook }.

Definition NewDefaultOpCodesHooks : DefaultOpCodesHooks := mkHooks [] [].
Definition AddCallHooks (hooks : list CallHook) (h : DefaultOpCodesHooks) : DefaultOpCodesHooks :=
  mkHooks (callHooks h ++ hooks) (createHooks h).
Definition AddCreateHooks (hooks : list CreateHook) (h : DefaultOpCodesHooks) : DefaultOpCodesHooks :=
  mkHooks (callHooks h) (createHooks h ++ hooks).

Fixpoint run_createHooks (hooks : list CreateHook) (ev : evmState) (caller : address) : evmState * res unit :=
  match hooks with
  | [] => (ev, Ok ())
  | hook :: hooks => do? ev, _ := hook ev caller in run_createHooks hooks ev caller
  end.
Definition hooks_CreateHook (h : DefaultOpCodesHooks) (ev : evmState) (caller : address) : evmState * res unit :=
  run_createHooks (createHooks h) ev caller.

Fixpoint run_callHooks (hooks : list CallHook) (ev : evmState) (caller recipient : address)
    : evmState * res unit :=
  match hooks with
  | [] => (ev, Ok ())
  | hook :: hooks => do? ev, _ := hook ev caller recipient in run_callHooks hooks ev caller recipient
  end.
Definition hooks_CallHook (h : DefaultOpCodesHooks) (ev : evmState) (caller recipient : address)
    : evmState * res unit :=
  run_callHooks (callHooks h) ev caller recipient.

Definition GetCallHook (p : RestrictedPermissionPolicy) (signer : address) : CallHook :=
  fun ev caller recipient =>
    (ev, if CanCall p signer caller recipient then Ok () else Err ErrNoCallPermission).
Definition GetCreateHook (p : RestrictedPermissionPolicy) (signer : address) : CreateHook :=
  fun ev caller => (ev, if CanCreate p signer caller then Ok () else Err ErrNoCreatePermission).

(** *** Precompiles: static ones kept in memory, dynamic ones of [x/erc20] *)

Variable precompiles : gmap address contract.
Variable GetERC20PrecompileInstance : address -> res (option contract).

(** [nil] for a map that was not set *)
Definition WithStaticPrecompiles (old : option (gmap address contract)) (new : gmap address contract)
    : res (option (gmap address contract)) :=
  match old with
  | Some _ => Panic PanicPrecompilesSet
  | None => if (size new =? 0)%nat then Panic PanicNoPrecompiles else Ok (Some new)
  end.

Definition IsAvailableStaticPrecompile (p : Params) (a : address) : bool :=
  contains (ActiveStaticPrecompiles p) (addr_Hex a) || contains PrecompiledAddressesBerlin a.

Definition GetStaticPrecompileInstance (p : Params) (a : address) : res (option contract) :=
  if IsAvailableStaticPrecompile p a then
    match precompiles !! a with
    | None => Panic PanicPrecompileMissing
    | Some c => Ok (Some c)
    end
  else Ok None.

Record Precompiles := mkPrecompiles { pcs_Map : gmap address contract; pcs_Addresses : list address }.

Definition GetPrecompileInstance (p : Params) (a : address) : res (option Precompiles) :=
  let? static := GetStaticPrecompileInstance p a in
  match static with
  | Some c => Ok (Some (mkPrecompiles {[a := c]} [pc_Address c]))
  | None =>
      let? dynamic := GetERC20PrecompileInstance a in
      match dynamic with
      | Some c => Ok (Some (mkPrecompiles {[a := c]} [pc_Address c]))
      | None => Ok None
      end
  end.

Definition GetPrecompilesCallHook (p : Params) : CallHook :=
  fun ev _ recipient =>
    do? ev, found := (ev, GetPrecompileInstance p recipient) in
    match found with
    | Some pcs =>
        let ev := WithPrecompiles (pcs_Map pcs) (pcs_Addresses pcs) ev in
        (mkEvmState (AddAddressToAccessList recipient (ev_db ev)) (ev_precompiles ev) (ev_active ev), Ok ())
    | None => (ev, Ok ())
    end.

(** the hooks of [NewEVM]: [cfgParams] are the parameters of the EVM
    configuration, [params] those of the store *)
Definition NewEVM_hooks (cfgParams params : Params) (signer : address) : DefaultOpCodesHooks :=
  let accessControl := NewRestrictedPermissionPolicy (p_AccessControl cfgParams) signer in
  let evmHooks := NewDefaultOpCodesHooks in
  let evmHooks := AddCreateHooks [GetCreateHook accessControl signer] evmHooks in
  AddCallHooks [GetCallHook accessControl signer; GetPrecompilesCallHook params] evmHooks.
End Hooks.
