(* ===== verification/VmParamsTheorems.v ===== *)
(** * Correctness of parameters, permissions and opcode hooks *)

From stdpp Require Import base gmap list numbers strings sorting.
From Stdlib Require Import ZArith Lia.
From S2P Require Import Prelude SdkMath Scaling AccessList StateDB StateDBCommit VmStore TxData TxDataTheorems VmParams Concrete.

(** ** The order of strings *)

Lemma str_cmp_cons a b s t :
  String.compare (String a s) (String b t) =
    match Ascii.compare a b with Eq => String.compare s t | c => c end.
Proof. reflexivity. Qed.

Lemma str_compare_trans a b c :
  String.compare a b <> Gt -> String.compare b c <> Gt -> String.compare a c <> Gt.
Proof.
  revert b c. induction a as [|x a IH]; intros b c; [destruct c; done|].
  destruct b as [|y b]; [done|]. destruct c as [|z c]; [done|].
  rewrite !str_cmp_cons. unfold Ascii.compare.
  destruct (N.compare_spec (Ascii.N_of_ascii x) (Ascii.N_of_ascii y)) as [E1|E1|E1];
  destruct (N.compare_spec (Ascii.N_of_ascii y) (Ascii.N_of_ascii z)) as [E2|E2|E2]; try done;
  destruct (N.compare_spec (Ascii.N_of_ascii x) (Ascii.N_of_ascii z)) as [E3|E3|E3]; try done; try lia.
  apply IH.
Qed.

Lemma str_le_compare a b : str_le a b <-> String.compare a b <> Gt.
Proof. unfold str_le, String.leb. destruct (String.compare a b); naive_solver. Qed.

#[export] Instance str_le_trans : Transitive str_le.
Proof. intros a b c. rewrite !str_le_compare. apply str_compare_trans. Qed.
#[export] Instance str_le_total : Total str_le.
Proof. intros a b. unfold str_le. apply String.leb_total. Qed.

Lemma ltb_le a b : String.ltb b a = false <-> str_le a b.
Proof.
  rewrite str_le_compare. unfold String.ltb. rewrite (String.compare_antisym a b).
  destruct (String.compare b a) eqn:E; cbn; naive_solver.
Qed.

Lemma IsSorted_spec l : IsSorted l = true <-> Sorted str_le l.
Proof.
  induction l as [|a [|b l] IH]; [by split; [constructor|]|by split; [repeat constructor|]|].
  change (IsSorted (a :: b :: l)) with (negb (String.ltb b a) && IsSorted (b :: l)).
  rewrite andb_true_iff, negb_true_iff, ltb_le, IH. split.
  - intros [H1 H2]. constructor; [done|by constructor].
  - intros H. inversion H as [|? ? H1 H2]; subst. inversion H2; subst. done.
Qed.

Lemma SortSlice_sorted l : Sorted str_le (SortSlice l).
Proof. apply Sorted_merge_sort, _. Qed.
Lemma SortSlice_Permutation l : SortSlice l ≡ₚ l.
Proof. apply merge_sort_Permutation. Qed.

Lemma contains_spec {A} `{!EqDecision A} (l : list A) x : contains l x = true <-> x ∈ l.
Proof. apply bool_decide_eq_true. Qed.

(** ** Validation *)

Section Validation.
Context `{!EthHex}.
Variable ValidEip : Z -> bool.
Variable ChannelIdentifierValidator : string -> bool.
Variable legacyParams : Params.
Abbreviation validate := (params_Validate ValidEip ChannelIdentifierValidator).

Lemma validateAllowlist_spec l :
  validateAllowlistAddresses l = Ok () <-> Forall (fun a => IsHexAddress a = true) l.
Proof.
  induction l as [|a l IH]; cbn; [split; [constructor|done]|].
  unfold ValidateAddress. rewrite Forall_cons, <-IH. destruct (IsHexAddress a); naive_solver.
Qed.

Lemma validateEIPs_loop_spec seen l :
  validateEIPs_loop ValidEip seen l = Ok () <->
  NoDup l /\ Forall (fun e => ValidEip e = true /\ e ∉ seen) l.
Proof.
  revert seen. induction l as [|e l IH]; intros seen; cbn.
  { split; [by repeat constructor|done]. }
  rewrite NoDup_cons, Forall_cons. destruct (ValidEip e); cbn; [|naive_solver].
  case_bool_decide; [naive_solver|]. rewrite IH, !Forall_forall. set_solver.
Qed.

Lemma validatePrecompiles_loop_spec seen l :
  validatePrecompiles_loop seen l = Ok () <->
  NoDup l /\ Forall (fun e => IsHexAddress e = true /\ e ∉ seen) l.
Proof.
  revert seen. induction l as [|e l IH]; intros seen; cbn.
  { split; [by repeat constructor|done]. }
  rewrite NoDup_cons, Forall_cons. case_bool_decide; [naive_solver|].
  unfold ValidateAddress. destruct (IsHexAddress e); [|naive_solver].
  rewrite IH, !Forall_forall. set_solver.
Qed.

Definition known_type (t : AccessType) : Prop :=
  match t with AccessTypeOther _ => False | _ => True end.

Definition act_ok (t : AccessControlType) : Prop :=
  known_type (act_AccessType t) /\ Forall (fun a => IsHexAddress a = true) (act_List t).

(** what the rest of the module relies on *)
Record params_ok (p : Params) : Prop := {
  po_eips : NoDup (ExtraEIPs p) /\ Forall (fun e => ValidEip e = true) (ExtraEIPs p);
  po_nodup : NoDup (ActiveStaticPrecompiles p);
  po_hex : Forall (fun a => IsHexAddress a = true) (ActiveStaticPrecompiles p);
  po_sorted : Sorted str_le (ActiveStaticPrecompiles p);
  po_create : act_ok (ac_Create (p_AccessControl p));
  po_call : act_ok (ac_Call (p_AccessControl p));
  po_channels : Forall (fun c => ChannelIdentifierValidator c = true) (EVMChannels p)
}.

Lemma act_Validate_spec t : act_Validate t = Ok () <-> act_ok t.
Proof.
  unfold act_Validate, act_ok. rewrite bind_unit_Ok, validateAllowlist_spec.
  destruct (act_AccessType t); cbn; naive_solver.
Qed.

Lemma validateChannels_spec l :
  validateChannels ChannelIdentifierValidator l = Ok () <->
  Forall (fun c => ChannelIdentifierValidator c = true) l.
Proof.
  induction l as [|c l IH]; cbn; [split; [constructor|done]|].
  rewrite Forall_cons, <-IH. destruct (ChannelIdentifierValidator c); naive_solver.
Qed.

Lemma params_Validate_spec p : validate p = Ok () <-> params_ok p.
Proof.
  unfold params_Validate, ValidatePrecompiles, ac_Validate, validateEIPs.
  rewrite !bind_unit_Ok, validateEIPs_loop_spec, validatePrecompiles_loop_spec, !act_Validate_spec,
    validateChannels_spec.
  assert (Hs : (if IsSorted (ActiveStaticPrecompiles p) then Ok () else Err ErrUnsortedPrecompiles) = Ok ()
    <-> Sorted str_le (ActiveStaticPrecompiles p)).
  { rewrite <-IsSorted_spec. by destruct (IsSorted _). }
  rewrite Hs. split.
  - intros ((H1 & H2) & ((H3 & H4) & H5) & (H6 & H7) & H8). constructor; try done.
    + split; [done|]. eapply Forall_impl; [exact H2|naive_solver].
    + eapply Forall_impl; [exact H4|naive_solver].
  - intros [[H1 H2] H3 H4 H5 H6 H7 H8]. split_and!; try done.
    + eapply Forall_impl; [exact H2|]. set_solver.
    + eapply Forall_impl; [exact H4|]. set_solver.
Qed.

(** ** The keeper's parameters *)

Definition sorted_params (p : Params) : Params :=
  with_precompiles (SortSlice (ActiveStaticPrecompiles p)) p.

Lemma SetParams_cases s p :
  (params_ok (sorted_params p) /\
     SetParams ValidEip ChannelIdentifierValidator s p = (Some (sorted_params p), Ok ())) \/
  (exists e, validate (sorted_params p) = Err e /\
     SetParams ValidEip ChannelIdentifierValidator s p = (s, Err e)) \/
  (exists e, validate (sorted_params p) = Panic e /\
     SetParams ValidEip ChannelIdentifierValidator s p = (s, Panic e)).
Proof.
  unfold SetParams. fold (sorted_params p).
  destruct (validate (sorted_params p)) as [[]|e|e] eqn:E; cbn [st_bind]; [|eauto..].
  left. split; [by apply params_Validate_spec|done].
Qed.

(** the operations on the parameters *)
Inductive pop :=
| PSetParams (p : Params)
| PEnablePrecompiles (l : list address)
| PEnableEIPs (l : list Z)
| PUpdateParams (authority : string) (p : Params).

Definition run_pop (gov : string) (s : option Params) (o : pop) : option Params * res unit :=
  match o with
  | PSetParams p => SetParams ValidEip ChannelIdentifierValidator s p
  | PEnablePrecompiles l => EnableStaticPrecompiles ValidEip ChannelIdentifierValidator legacyParams s l
  | PEnableEIPs l => EnableEIPs ValidEip ChannelIdentifierValidator legacyParams s l
  | PUpdateParams a p => UpdateParams ValidEip ChannelIdentifierValidator gov s a p
  end.

Inductive preach (gov : string) (s0 : option Params) : option Params -> Prop :=
| preach_init : preach gov s0 s0
| preach_step s o : preach gov s0 s -> preach gov s0 (run_pop gov s o).1.

Lemma run_pop_cases gov s o :
  (exists p, run_pop gov s o = (Some p, Ok ()) /\ params_ok p) \/
  ((run_pop gov s o).1 = s /\ is_ok (run_pop gov s o).2 = false).
Proof.
  assert (Hset : forall p, (exists q, SetParams ValidEip ChannelIdentifierValidator s p = (Some q, Ok ()) /\ params_ok q) \/
    ((SetParams ValidEip ChannelIdentifierValidator s p).1 = s /\
     is_ok (SetParams ValidEip ChannelIdentifierValidator s p).2 = false)).
  { intros p. destruct (SetParams_cases s p) as [[Hp ->]|[(e & _ & ->)|(e & _ & ->)]]; eauto. }
  destruct o; cbn [run_pop]; unfold EnableStaticPrecompiles, EnableEIPs, UpdateParams.
  - apply Hset.
  - destruct (appendPrecompiles _ _); cbn [st_bind]; auto.
  - apply Hset.
  - destruct (String.eqb _ _); auto.
Qed.

(** C40: Whatever is done to the parameters, they stay well formed. From stored
    parameters that are well formed, any sequence of [SetParams],
    [EnableStaticPrecompiles], [EnableEIPs] and [UpdateParams], failed calls
    included, leaves parameters whose active precompiles are sorted, without
    duplicates and hexadecimal addresses, whose EIPs are distinct and
    activateable, whose access types are known and whose channels are valid;
    a call that fails changes nothing. *)
Theorem params_stay_valid gov p0 s :
  params_ok p0 -> preach gov (Some p0) s ->
  (exists p, s = Some p /\ params_ok p) /\
  (forall o, is_ok (run_pop gov s o).2 = false -> (run_pop gov s o).1 = s).
Proof.
  intros H0 Hr. split.
  - induction Hr as [|s o Hr IH]; [eauto|].
    destruct (run_pop_cases gov s o) as [(p & E & Hp)|[E _]]; [rewrite E; eauto|by rewrite E].
  - intros o Ho. destruct (run_pop_cases gov s o) as [(p & E & Hp)|[E _]]; [by rewrite E in Ho|done].
Qed.

(** ** Enabling precompiles *)

Lemma hexAddresses_Ok ex l hx :
  hexAddresses ex l = Ok hx <-> hx = map addr_Hex l /\ Forall (fun a => addr_Hex a ∉ ex) l.
Proof.
  revert hx. induction l as [|a l IH]; intros hx; cbn.
  { split; [intros [= <-]; split; [done|constructor]|by intros [-> _]]. }
  rewrite Forall_cons. unfold contains. case_bool_decide as Ha; [naive_solver|].
  destruct (hexAddresses ex l) as [h|e|e] eqn:E; cbn.
  - destruct (proj1 (IH h) eq_refl) as [-> Hl]. naive_solver.
  - split; [done|]. intros (-> & _ & Hl). discriminate (proj2 (IH (map addr_Hex l)) (conj eq_refl Hl)).
  - split; [done|]. intros (-> & _ & Hl). discriminate (proj2 (IH (map addr_Hex l)) (conj eq_refl Hl)).
Qed.

Variable PrecompiledAddressesBerlin : list address.

Lemma addr_Hex_inj a b : addr_ok a -> addr_ok b -> addr_Hex a = addr_Hex b -> a = b.
Proof. intros Ha Hb E. by rewrite <-(HexToAddress_Hex a Ha), E, HexToAddress_Hex. Qed.

Definition enabled (p : Params) (l : list address) : Params :=
  sorted_params (with_precompiles (SortSlice (ActiveStaticPrecompiles p ++ map addr_Hex l)) p).

Lemma enabled_Permutation p l :
  ActiveStaticPrecompiles (enabled p l) ≡ₚ ActiveStaticPrecompiles p ++ map addr_Hex l.
Proof. etransitivity; apply SortSlice_Permutation. Qed.

Lemma NoDup_map_Hex l : Forall addr_ok l -> NoDup l -> NoDup (map addr_Hex l).
Proof.
  rewrite Forall_forall. intros Hl Hnd. induction Hnd as [|a l Ha Hnd IH]; cbn; [constructor|].
  constructor; [|apply IH; set_solver]. intros (b & E & Hb)%list_elem_of_fmap.
  apply addr_Hex_inj in E as ->; [done|apply Hl; set_solver|apply Hl; set_solver].
Qed.

Lemma enabled_params_ok p l :
  params_ok p -> Forall addr_ok l -> Forall (fun a => addr_Hex a ∉ ActiveStaticPrecompiles p) l ->
  params_ok (enabled p l) <-> NoDup l.
Proof.
  intros [H1 H2 H3 H4 H5 H6 H7] Hl Hn. pose proof (enabled_Permutation p l) as Hperm. split.
  - intros [_ Hnd _ _ _ _ _]. rewrite Hperm, NoDup_app in Hnd. destruct Hnd as (_ & _ & Hnd).
    by apply NoDup_fmap_1 in Hnd.
  - intros Hnd. constructor; try done.
    + rewrite Hperm. apply NoDup_app. split_and!; [done| |by apply NoDup_map_Hex].
      intros x Hx Hin. apply list_elem_of_fmap in Hin as (a & -> & Ha).
      rewrite Forall_forall in Hn. by apply (Hn a).
    + rewrite Hperm. apply Forall_app. split; [done|]. apply Forall_fmap.
      eapply Forall_impl; [exact Hl|]. intros a Ha. by apply IsHexAddress_Hex.
    + apply SortSlice_sorted.
Qed.

(** Enabling precompiles activates exactly them. On well-formed parameters
    and addresses of 20 bytes, [EnableStaticPrecompiles] succeeds exactly when
    the addresses are distinct and none is active; then an address is available
    exactly when it was before or is one of them, and nothing else of the
    parameters changes. *)
Theorem enable_precompiles_activates p l :
  params_ok p -> Forall addr_ok l ->
  let r := EnableStaticPrecompiles ValidEip ChannelIdentifierValidator legacyParams (Some p) l in
  (r.2 = Ok () <-> NoDup l /\ Forall (fun a => addr_Hex a ∉ ActiveStaticPrecompiles p) l) /\
  (r.2 = Ok () -> exists q, r.1 = Some q /\ params_ok q /\
     (forall a, addr_ok a ->
        IsAvailableStaticPrecompile PrecompiledAddressesBerlin q a =
        IsAvailableStaticPrecompile PrecompiledAddressesBerlin p a || contains l a) /\
     AllowUnprotectedTxs q = AllowUnprotectedTxs p /\ ExtraEIPs q = ExtraEIPs p /\
     EVMChannels q = EVMChannels p /\ p_AccessControl q = p_AccessControl p).
Proof.
  intros Hp Hl. cbn zeta. unfold EnableStaticPrecompiles, appendPrecompiles. change (GetParams legacyParams (Some p)) with p. cbn zeta.
  set (ex := ActiveStaticPrecompiles p) in *.
  destruct (hexAddresses ex l) as [hx|e|e] eqn:Eh; cbn [mbind res_bind st_bind fst snd].
  2,3: split; [|intros; discriminate]; split; [intros; discriminate|]; intros [_ Hn];
    pose proof (proj2 (hexAddresses_Ok ex l (map addr_Hex l)) (conj eq_refl Hn)); congruence.
  apply hexAddresses_Ok in Eh as [-> Hn].
  set (q := with_precompiles (SortSlice (ex ++ map addr_Hex l)) p).
  pose proof (SetParams_cases (Some p) q) as Hcases. change (sorted_params q) with (enabled p l) in Hcases.
  pose proof (enabled_Permutation p l) as Hperm.
  pose proof (enabled_params_ok p l Hp Hl Hn) as Hok.
  destruct Hcases as [[Hq ->]|[(e & He & ->)|(e & He & ->)]]; cbn.
  2,3: split; [|intros; discriminate]; split; [intros; discriminate|]; intros [Hnd _];
    apply Hok, params_Validate_spec in Hnd; congruence.
  split; [naive_solver|]. intros _. exists (enabled p l). split_and!; try done.
  intros a Ha. unfold IsAvailableStaticPrecompile, contains.
  apply eq_true_iff_eq. rewrite !orb_true_iff, !bool_decide_eq_true, Hperm, elem_of_app, list_elem_of_fmap.
  assert (Hin : (exists y, addr_Hex a = addr_Hex y /\ y ∈ l) <-> a ∈ l).
  { split; [|eauto]. intros (y & E & Hy). rewrite Forall_forall in Hl.
    by rewrite (addr_Hex_inj a y Ha (Hl y Hy) E). }
  rewrite Hin. tauto.
Qed.
End Validation.

(** ** Permissions *)

Section Permissions.
Context `{!EthHex}.

(** the policy on addresses *)
Definition allowed (t : AccessType) (listed : list address) (signer caller : address) : bool :=
  match t with
  | AccessTypePermissionless => negb (contains listed signer) && negb (contains listed caller)
  | AccessTypePermissioned => contains listed signer || contains listed caller
  | _ => false
  end.

(** The addresses that a list of texts holds for the checks: the entries written
    with the checksum. The validation accepts other texts of an address, the
    checks never match them. *)
Definition effective (l : list string) : list address :=
  map HexToAddress (filter (fun e => e = addr_Hex (HexToAddress e)) l).

Lemma contains_effective l a : addr_ok a -> contains l (addr_Hex a) = contains (effective l) a.
Proof.
  intros Ha. unfold contains, effective. apply bool_decide_ext. rewrite list_elem_of_fmap. split.
  - intros Hin. exists (addr_Hex a). rewrite list_elem_of_filter, HexToAddress_Hex by done. done.
  - intros (e & -> & [He Hin]%list_elem_of_filter). by rewrite <-He.
Qed.

(** a list of checksummed addresses holds them all *)
Lemma effective_Hex l : Forall addr_ok l -> effective (map addr_Hex l) = l.
Proof.
  unfold effective. induction 1 as [|a l Ha _ IH]; [done|]. cbn [map]. rewrite filter_cons, HexToAddress_Hex, decide_True by done.
  cbn [map]. by rewrite IH, HexToAddress_Hex.
Qed.

Lemma canCreate_allowed ac signer caller :
  addr_ok signer -> addr_ok caller ->
  getCanCreateFn ac signer caller = allowed (act_AccessType (ac_Create ac)) (effective (act_List (ac_Create ac))) signer caller.
Proof.
  intros Hs Hc. unfold getCanCreateFn, permissionlessCheckFn, permissionedCheckFn, allowed. by rewrite !contains_effective.
Qed.

Lemma canCall_allowed ac signer caller :
  addr_ok signer -> addr_ok caller ->
  getCanCallFn ac signer caller = allowed (act_AccessType (ac_Call ac)) (effective (act_List (ac_Call ac))) signer caller.
Proof.
  intros Hs Hc. unfold getCanCallFn, permissionlessCheckFn, permissionedCheckFn, allowed. by rewrite !contains_effective.
Qed.

Context {store event contract : Type} `{!Keeper store} `{!MultiStore store}.
Abbreviation EV := (@evmState store event contract).
Variable pc_Address : contract -> address.
Variable Berlin : list address.
Variable precompiles : gmap address contract.
Variable erc20 : address -> res (option contract).

Lemma AddAddressToAccessList_in a (s : @StateDB store event) :
  AddressInAccessList a (AddAddressToAccessList a s) = true.
Proof.
  unfold AddressInAccessList, AddAddressToAccessList, AddAddress.
  destruct (al_addresses (accessList_ s) !! a) as [i|] eqn:E; cbn; unfold ContainsAddress; cbn.
  - by rewrite E.
  - by rewrite lookup_insert_eq.
Qed.

(** the precompile that a call to [a] reaches *)
Definition reached (p : Params) (a : address) : res (option contract) :=
  if IsAvailableStaticPrecompile Berlin p a then
    match precompiles !! a with Some c => Ok (Some c) | None => Panic PanicPrecompileMissing end
  else erc20 a.

(** C39: The hooks that [NewEVM] installs enforce the access control on the
    addresses its lists hold with their checksum; an entry that is written
    otherwise, which the validation accepts, counts for nobody, and a list of
    checksummed addresses holds all of them. Contract creation goes on exactly when
    the policy on these addresses allows it for the signer or the caller; a call that the
    policy denies fails with the EVM untouched, so no precompile is loaded for
    it; a call that it allows loads exactly the precompile of the recipient, an
    active static one before a dynamic one, and puts the recipient in the access
    list, and leaves the EVM as it was when the recipient is no precompile. *)
Theorem hooks_enforce_policy (cfg p : Params) signer caller recipient (ev : EV) :
  let ac := p_AccessControl cfg in
  let lc := effective (act_List (ac_Create ac)) in
  let lk := effective (act_List (ac_Call ac)) in
  addr_ok signer -> addr_ok caller ->
  (forall l, Forall addr_ok l ->
     (act_List (ac_Create ac) = map addr_Hex l -> lc = l) /\ (act_List (ac_Call ac) = map addr_Hex l -> lk = l)) /\
  let h := NewEVM_hooks pc_Address Berlin precompiles erc20 cfg p signer in
  hooks_CreateHook h ev caller =
    (ev, if allowed (act_AccessType (ac_Create ac)) lc signer caller then Ok () else Err ErrNoCreatePermission) /\
  if allowed (act_AccessType (ac_Call ac)) lk signer caller then
    match reached p recipient with
    | Ok (Some c) => exists ev', hooks_CallHook h ev caller recipient = (ev', Ok ()) /\
        ev_precompiles ev' = {[recipient := c]} /\ ev_active ev' = [pc_Address c] /\
        AddressInAccessList recipient (ev_db ev') = true
    | Ok None => hooks_CallHook h ev caller recipient = (ev, Ok ())
    | Err e => hooks_CallHook h ev caller recipient = (ev, Err e)
    | Panic e => hooks_CallHook h ev caller recipient = (ev, Panic e)
    end
  else hooks_CallHook h ev caller recipient = (ev, Err ErrNoCallPermission).
Proof.
  cbn zeta. intros Hs Hcl. split.
  { intros l Hl. split; intros ->; by apply effective_Hex. }
  rewrite <-(canCreate_allowed _ signer caller), <-(canCall_allowed _ signer caller) by done.
  unfold hooks_CreateHook, hooks_CallHook. cbn [NewEVM_hooks createHooks callHooks AddCallHooks
    AddCreateHooks NewDefaultOpCodesHooks app run_createHooks run_callHooks].
  unfold GetCreateHook, GetCallHook, CanCreate, CanCall. cbn [canCreate canCall NewRestrictedPermissionPolicy].
  split; [by destruct (getCanCreateFn _ _ _)|].
  destruct (getCanCallFn _ _ _); cbn [st_bind]; [|done].
  unfold GetPrecompilesCallHook, GetPrecompileInstance, GetStaticPrecompileInstance, reached.
  destruct (IsAvailableStaticPrecompile _ _ _); cbn [mbind res_bind].
  - destruct (precompiles !! recipient) as [c|]; cbn [mbind res_bind st_bind]; [|done].
    eexists. split; [done|]. split_and!; [done|done|]. apply AddAddressToAccessList_in.
  - destruct (erc20 recipient) as [[c|]|e|e]; cbn [mbind res_bind st_bind]; [|done..].
    eexists. split; [done|]. split_and!; [done|done|]. apply AddAddressToAccessList_in.
Qed.

(** A list entry that is not written with the checksum is accepted by the
    validation and never matches. The entry [e] is a hexadecimal text of the
    address [a] that differs from [a]'s checksummed text, as an all-lowercase
    one does: [act_Validate] accepts it, yet a blocked [a] still passes the
    permissionless check and a permitted [a] fails the permissioned one. *)
Theorem unchecksummed_entry_ignored e a :
  IsHexAddress e = true -> HexToAddress e = a -> e <> addr_Hex a ->
  let t ty := mkAccessControlType ty [e] in
  let ac ty := mkAccessControl (t ty) (t ty) in
  (forall ty, known_type ty -> ac_Validate (ac ty) = Ok ()) /\
  getCanCallFn (ac AccessTypePermissionless) a a = true /\
  getCanCreateFn (ac AccessTypePermissionless) a a = true /\
  getCanCallFn (ac AccessTypePermissioned) a a = false /\
  getCanCreateFn (ac AccessTypePermissioned) a a = false.
Proof.
  intros He Ha Hne. cbn zeta.
  assert (Hc : contains [e] (addr_Hex a) = false) by (apply bool_decide_eq_false; set_solver).
  split.
  - intros ty Hty. unfold ac_Validate, act_Validate. cbn [ac_Create ac_Call act_AccessType act_List].
    cbn [validateAllowlistAddresses]. unfold ValidateAddress. rewrite He. by destruct ty.
  - unfold getCanCallFn, getCanCreateFn, permissionlessCheckFn, permissionedCheckFn.
    cbn [ac_Create ac_Call act_AccessType act_List]. by rewrite Hc.
Qed.
End Permissions.

(** ** Concrete runs *)

Definition c_ValidEip (e : Z) : bool := (e =? 3855) || (e =? 1153).
Definition c_channel (s : string) : bool := String.prefix "channel-" s.
Abbreviation c_validate := (params_Validate c_ValidEip c_channel).

Definition cparams : Params :=
  mkParams false [3855] [c_addr_Hex 2048] ["channel-3"]
    (mkAccessControl (mkAccessControlType AccessTypePermissioned (map addr_Hex [7]))
                     (mkAccessControlType AccessTypePermissionless
                        (map addr_Hex [8] ++ ["0x000000000000000000000000000000000000000A"]))).

Lemma cparams_ok : params_ok c_ValidEip c_channel cparams.
Proof. apply params_Validate_spec. vm_compute. reflexivity. Qed.

Lemma params_stay_valid_witness :
  exists p, (run_pop c_ValidEip c_channel DefaultParams "gov"
               (run_pop c_ValidEip c_channel DefaultParams "gov" (Some cparams) (PEnableEIPs [3855])).1
               (PEnableEIPs [1153])).1 = Some p /\
    ExtraEIPs p = [1153; 3855] /\ params_ok c_ValidEip c_channel p.
Proof.
  destruct (params_stay_valid c_ValidEip c_channel DefaultParams "gov" cparams
    (run_pop c_ValidEip c_channel DefaultParams "gov"
       (run_pop c_ValidEip c_channel DefaultParams "gov" (Some cparams) (PEnableEIPs [3855])).1
       (PEnableEIPs [1153])).1 cparams_ok) as [(p & E & Hp) _].
  - apply preach_step, preach_step, preach_init.
  - exists p. split; [exact E|]. split; [|exact Hp].
    assert (Heip : option_map ExtraEIPs (Some p) = Some [1153; 3855]) by (rewrite <-E; vm_compute; reflexivity).
    cbn in Heip. congruence.
Defined.

Lemma enable_precompiles_activates_witness :
  exists q, (EnableStaticPrecompiles c_ValidEip c_channel DefaultParams (Some cparams) [2050; 2049]).1 = Some q /\
    IsAvailableStaticPrecompile [1] q 2049 = true /\ IsAvailableStaticPrecompile [1] q 2051 = false.
Proof.
  destruct (enable_precompiles_activates c_ValidEip c_channel DefaultParams [1] cparams [2050; 2049])
    as [_ H].
  - exact cparams_ok.
  - repeat constructor; vm_compute; congruence.
  - destruct H as (q & E & _ & Hav & _); [vm_compute; reflexivity|].
    exists q. split; [exact E|]. split; rewrite Hav; try (vm_compute; reflexivity); split; vm_compute; congruence.
Defined.

Definition cev : @evmState cstore Z Z := mkEvmState (New cstore0 true (NewTxConfig 0 1 0 0)) ∅ [].

(** Contract creation is permissioned for 7, calls are blocked for 8; the entry for
    10 is not written with the checksum. *)
Lemma hooks_enforce_policy_witness :
  (hooks_CreateHook (NewEVM_hooks id [1] {[1 := 1; 2048 := 2048]} (fun _ => Ok None) cparams cparams 7) cev 10).2 = Ok () /\
  (exists ev, hooks_CallHook (NewEVM_hooks id [1] {[1 := 1; 2048 := 2048]} (fun _ => Ok None) cparams cparams 7)
     cev 10 2048 = (ev, Ok ()) /\ ev_active ev = [2048] /\ AddressInAccessList 2048 (ev_db ev) = true).
Proof.
  destruct (hooks_enforce_policy (id : Z -> address) [1] {[1 := 1; 2048 := 2048]} (fun _ => Ok None)
    cparams cparams 7 10 2048 cev) as (_ & H1 & H2).
  - split; vm_compute; congruence.
  - split; vm_compute; congruence.
  - split; [rewrite H1; vm_compute; reflexivity|].
    assert (Ha : allowed (act_AccessType (ac_Call (p_AccessControl cparams)))
      (effective (act_List (ac_Call (p_AccessControl cparams)))) 7 10 = true) by (vm_compute; reflexivity).
    assert (Hr : reached [1] {[1 := 1; 2048 := 2048]} (fun _ => Ok None) cparams 2048 = Ok (Some 2048))
      by (vm_compute; reflexivity).
    rewrite Ha, Hr in H2. destruct H2 as (ev & E & _ & H3 & H4). exists ev. split; [exact E|].
    split; [exact H3|exact H4].
Defined.

Lemma unchecksummed_entry_ignored_witness :
  getCanCallFn (mkAccessControl (mkAccessControlType AccessTypePermissionless ["0x000000000000000000000000000000000000000A"])
    (mkAccessControlType AccessTypePermissionless ["0x000000000000000000000000000000000000000A"])) 10 10 = true.
Proof.
  destruct (unchecksummed_entry_ignored "0x000000000000000000000000000000000000000A" 10) as (_ & H & _).
  - vm_compute. reflexivity.
  - vm_compute. reflexivity.
  - vm_compute. congruence.
  - exact H.
Defined.
