(* ===== verification/Ante.v ===== *)
(** * The ante handler of Ethereum transactions ([ante/evm])

    The checks that run before a transaction of the EVM is executed:
    [01_setup_ctx.go] to [11_emit_event.go], [utils.go] and their composition
    in [mono_decorator.go]; the fee checker of Cosmos transactions in
    [fee_checker.go]; [BlockGasLimit] of [types/block.go], and [GetTxPriority],
    [GetFrom] and [UnpackEthMsg] of [x/vm/types]. *)

From stdpp Require Import base gmap list numbers strings sorting.
From Stdlib Require Import ZArith Lia.
From S2P Require Import Prelude SdkMath Scaling AccessList StateDB StateDBCommit VmStore FeeMarket TxData StateTransition VmParams.

Definition ErrInvalidType : error := "invalid type".
Definition ErrUnknownRequest : error := "unknown request".
Definition ErrNoSignatures : error := "no signatures supplied".
Definition ErrNotSupported : error := "feature not supported".
Definition ErrorInvalidSigner : error := "tx intended signer does not match the given signer".
Definition ErrInvalidSequence : error := "invalid sequence".
Definition ErrInvalidBaseFee : error := "invalid base fee".
Definition ErrCreateDisabled : error := "EVM Create operation is disabled".
Definition ErrCallDisabled : error := "EVM Call operation is disabled".

(** ** The context *)

(** what the ante handler reads of an [sdk.Context]; the chain rules are those
    of the configuration at the height *)
Record anteCtx := mkAnteCtx {
  IsCheckTx : bool;
  IsReCheckTx : bool;
  simulate : bool;
  c_fm : FeeMarket.fmCtx;            (* the height and the consensus parameters *)
  c_BlockGasMeter : option Z;        (* nil, or the limit of the block gas meter *)
  c_MinGasPrice : Z;                 (* [MinGasPrices().AmountOf(evmDenom)] *)
  c_HeaderHash : hash;
  c_Rules : ChainRules;
  c_EvmParams : VmParams.Params;
  c_LegacyFm : FeeMarket.Params
}.

(** [types.BlockGasLimit] *)
Definition BlockGasLimit (c : anteCtx) : Z :=
  let fromParams :=
    match FeeMarket.ctx_MaxGas (c_fm c) with
    | None => 0
    | Some maxGas => if maxGas =? -1 then max_uint64 else if 0 <? maxGas then maxGas else 0
    end in
  match c_BlockGasMeter c with
  | Some limit => if negb (limit =? 0) then limit else fromParams
  | None => fromParams
  end.

(** ** The transaction *)

Section Tx.
Context `{!SdkMath} `{!EthHex}.

Inductive sdkMsg :=
| EthMsg (m : MsgEthereumTx)
| OtherMsg.

Record txFee := mkTxFee { f_Amount : list Coin; f_GasLimit : Z; f_Payer : string; f_Granter : string }.

(** of the protobuf transaction, the fields that are read; lists of which only
    the length matters are their length *)
Record txBody := mkTxBody {
  b_Memo : string;
  b_TimeoutHeight : Z;
  b_NonCriticalExtensionOptions : nat;
  b_ExtensionOptions : nat
}.
Record authInfo := mkAuthInfo { ai_SignerInfos : nat; ai_Fee : option txFee }.

Record sdkTx := mkSdkTx {
  tx_isGasTx : bool;                 (* implements [authante.GasTx] *)
  tx_ValidateBasic : option error;   (* its [ValidateBasic], [None] for nil *)
  tx_isProtoTxProvider : bool;
  tx_Body : option txBody;
  tx_AuthInfo : option authInfo;
  tx_Signatures : nat;
  tx_FeeTxGas : option Z;            (* [GetGas], when it implements [sdk.FeeTx] *)
  tx_Msgs : list sdkMsg
}.

(** go-ethereum's view of a transaction: whether it is protected by EIP-155,
    the sender recovered by the signer, the fee cap and the value *)
Class EthSigner := {
  eth_Protected : ethTxData -> bool;
  eth_Sender : ethTxData -> res address;
  eth_GasFeeCap : ethTxData -> Z;
  eth_Value : ethTxData -> Z
}.
Context `{!EthSigner}.

Definition GetNonce (t : TxData) : Z :=
  match t with
  | TxLegacy tx => Legacy.Nonce tx
  | TxAccessList tx => AccessListT.Nonce tx
  | TxDynamicFee tx => Dynamic.Nonce tx
  end.

Definition isDynamicFee (t : TxData) : bool :=
  match t with TxDynamicFee _ => true | _ => false end.

Definition UnpackEthMsg (m : sdkMsg) : res (MsgEthereumTx * TxData) :=
  match m with
  | OtherMsg => Err ErrUnknownRequest
  | EthMsg m => match msg_Data m with None => Err ErrUnpack | Some t => Ok (m, t) end
  end.

Definition GetFrom (m : MsgEthereumTx) : option address :=
  if String.eqb (msg_From m) "" then None else Some (HexToAddress (msg_From m)).

(** [DefaultPriorityReduction], the SDK's default power reduction *)
Definition DefaultPriorityReduction : Z := 1000000.

Definition int64_or_max (z : Z) : Z := if is_int64 z then z else max_int64.

Definition GetTxPriority (t : TxData) (baseFee : option Z) : res Z :=
  let? tipPrice := tx_EffectiveGasPrice t baseFee in
  match tipPrice with
  | None => Panic PanicNil
  | Some p =>
      let p := match baseFee with None => p | Some b => p - b end in
      Ok (int64_or_max (Z.quot p DefaultPriorityReduction))
  end.

(** ** The checks, in the order of their files *)

Definition CheckMempoolFee (fee mempoolMinGasPrice gasLimit : Z) (isLondon : bool) : res unit :=
  if isLondon then Ok ()
  else
    let? requiredFee := dec_Mul mempoolMinGasPrice gasLimit in
    if fee <? requiredFee then Err ErrInsufficientFee else Ok ().

Definition CheckGlobalFee (fee globalMinGasPrice gasLimit : Z) : res unit :=
  if globalMinGasPrice =? 0 then Ok ()
  else
    let? requiredFee := dec_Mul globalMinGasPrice gasLimit in
    if fee <? requiredFee then Err ErrInsufficientFee else Ok ().

Definition is_restricted (t : AccessType) : bool :=
  match t with AccessTypeRestricted => true | _ => false end.

Definition checkDisabledCreateCall (t : TxData) (permissions : AccessControl) : res unit :=
  let blockCreate := is_restricted (act_AccessType (ac_Create permissions)) in
  let blockCall := is_restricted (act_AccessType (ac_Call permissions)) in
  match GetTo t with
  | None => if blockCreate then Err ErrCreateDisabled else Ok ()
  | Some _ => if blockCall then Err ErrCallDisabled else Ok ()
  end.

Definition ValidateMsg (evmParams : VmParams.Params) (t : TxData) (from : option address) : res unit :=
  match from with
  | Some _ => Err ErrInvalidRequest
  | None => checkDisabledCreateCall t (p_AccessControl evmParams)
  end.

Definition ValidateTx (tx : sdkTx) : res txFee :=
  let basic := match tx_ValidateBasic tx with
               | None => Ok ()
               | Some e => if String.eqb e ErrNoSignatures then Ok () else Err e
               end in
  let? _ := basic in
  if negb (tx_isProtoTxProvider tx) then Err ErrUnknownRequest
  else
    match tx_Body tx with
    | None => Panic PanicNil
    | Some body =>
        if negb (String.eqb (b_Memo body) "") || negb (b_TimeoutHeight body =? 0)
           || negb (b_NonCriticalExtensionOptions body =? 0)%nat then Err ErrInvalidRequest
        else if negb (b_ExtensionOptions body =? 1)%nat then Err ErrInvalidRequest
        else
          match tx_AuthInfo tx with
          | None => Panic PanicNil
          | Some ai =>
              if negb (ai_SignerInfos ai =? 0)%nat then Err ErrInvalidRequest
              else
                match ai_Fee ai with
                | None => Panic PanicNil
                | Some fee =>
                    if negb (String.eqb (f_Payer fee) "") || negb (String.eqb (f_Granter fee) "")
                    then Err ErrInvalidRequest
                    else if negb (tx_Signatures tx =? 0)%nat then Err ErrInvalidRequest
                    else Ok fee
                end
          end
    end.

Definition CheckTxFee (cfg : EvmCoinInfo) (txFeeInfo : option txFee) (fee txGasLimit : Z) : res unit :=
  match txFeeInfo with
  | None => Ok ()
  | Some info =>
      let? convertedAmount := NewIntFromBigInt (ConvertAmountFrom18DecimalsBigInt cfg fee) in
      if negb (amount_of (GetEVMCoinDenom cfg) (f_Amount info) =? convertedAmount) then Err ErrInvalidRequest
      else if negb (f_GasLimit info =? txGasLimit) then Err ErrInvalidRequest
      else Ok ()
  end.

(** The message leaves with its sender. [AsTransaction] is nil when the data
    cannot be unpacked. *)
Definition SignatureVerification (m : MsgEthereumTx) (allowUnprotectedTxs : bool) : res MsgEthereumTx :=
  match msg_Data m with
  | None => Panic PanicNil
  | Some t =>
      let ethTx := AsEthereumData t in
      if negb allowUnprotectedTxs && negb (eth_Protected ethTx) then Err ErrNotSupported
      else match eth_Sender ethTx with
           | Ok sender => Ok (mkMsgEthereumTx (msg_Data m) (msg_Size m) (msg_Hash m) (addr_Hex sender))
           | Err _ => Err ErrorInvalidSigner
           | Panic e => Panic e
           end
  end.

(** [AsMessage]: sender, fee cap and value of the core message *)
Definition AsMessage (m : MsgEthereumTx) : res (address * Z * Z) :=
  match msg_Data m with
  | None => Panic PanicNil
  | Some t =>
      let ethTx := AsEthereumData t in
      let? from := eth_Sender ethTx in
      Ok (from, eth_GasFeeCap ethTx, eth_Value ethTx)
  end.

Definition UpdateCumulativeGasWanted (c : anteCtx) (msgGasWanted maxTxGasWanted cumulativeGasWanted : Z) : Z :=
  if IsCheckTx c && negb (maxTxGasWanted =? 0) then
    if maxTxGasWanted <? msgGasWanted then wrap64 (cumulativeGasWanted + maxTxGasWanted)
    else wrap64 (cumulativeGasWanted + msgGasWanted)
  else wrap64 (cumulativeGasWanted + msgGasWanted).

Definition GetMsgPriority (t : TxData) (minPriority : Z) (baseFee : option Z) : res Z :=
  let? priority := GetTxPriority t baseFee in
  Ok (if priority <? minPriority then priority else minPriority).

Definition CheckBlockGasLimit (c : anteCtx) (gasWanted minPriority : Z) : res (gasMeter * Z) :=
  if BlockGasLimit c <? gasWanted then Err ErrOutOfGas
  else Ok (NewInfiniteGasMeterWithLimit gasWanted, minPriority).
End Tx.

(** ** State and decorator *)

Section Decorator.
Context `{!SdkMath} `{!EthHex} `{!EthSigner} `{!EvmEnv}.
Context {auth acct bank event : Type} `{!AccountKeeper auth acct} `{!BankKeeper bank}.
Abbreviation vstore := (@VmKeeper.evmStore auth bank).
Context `{!MultiStore vstore}.

Inductive anteEvent :=
| EventFee (fees : list Coin)
| EventEthereumTx (hash : string) (txIndex : Z).

(** the stores, the events, and the messages handled, whose [From] is set *)
Record anteState := mkAnteState {
  an_ts : @txState auth bank;
  an_fm : FeeMarket.fmState;
  an_events : list anteEvent;
  an_msgs : list MsgEthereumTx
}.
Definition an_with_ts (ts : @txState auth bank) (s : anteState) : anteState :=
  mkAnteState ts (an_fm s) (an_events s) (an_msgs s).
Definition an_with_store (st : vstore) (s : anteState) : anteState :=
  an_with_ts (ts_with_store st (an_ts s)) s.
Definition an_with_fm (fm : FeeMarket.fmState) (s : anteState) : anteState :=
  mkAnteState (an_ts s) fm (an_events s) (an_msgs s).
Definition an_emit (e : anteEvent) (s : anteState) : anteState :=
  mkAnteState (an_ts s) (an_fm s) (an_events s ++ [e]) (an_msgs s).
Definition an_add_msg (m : MsgEthereumTx) (s : anteState) : anteState :=
  mkAnteState (an_ts s) (an_fm s) (an_events s) (an_msgs s ++ [m]).
Definition an_store (s : anteState) : vstore := ts_store (an_ts s).

(** [SetupContextAndResetTransientGas]: an infinite gas meter and an empty gas
    configuration, so that the stores charge nothing *)
Definition SetupContextAndResetTransientGas (tx : sdkTx) (s : anteState) : anteState * res unit :=
  if negb (tx_isGasTx tx) then (s, Err ErrInvalidType)
  else (an_with_ts (ts_with_meter (mkGasMeter 0 max_uint64) (ResetTransientGasUsed (an_ts s))) s, Ok ()).

(** [GetBaseFee] and [GetMinGasPrice] of the EVM keeper *)
Definition keeper_GetBaseFee (c : anteCtx) (s : anteState) : res (option Z) :=
  if negb (IsLondon (c_Rules c)) then Ok None
  else
    let? baseFee := FeeMarket.fw_GetBaseFee coinCfg (c_LegacyFm c) (an_fm s) in
    Ok (Some (default 0 baseFee)).

Definition GetMinGasPrice (c : anteCtx) (s : anteState) : res Z :=
  let? p := FeeMarket.fw_GetParams coinCfg (c_LegacyFm c) (an_fm s) in
  Ok (default 0 (FeeMarket.MinGasPrice p)).

Record DecoratorUtils := mkDecoratorUtils {
  u_EvmParams : VmParams.Params;
  u_Rules : ChainRules;
  u_BaseFee : option Z;
  u_MempoolMinGasPrice : Z;
  u_GlobalMinGasPrice : Z;
  u_BlockTxIndex : Z;
  u_TxGasLimit : Z;
  u_GasWanted : Z;
  u_MinPriority : Z;
  u_TxFee : Z
}.

Definition NewMonoDecoratorUtils (c : anteCtx) (s : anteState) : res DecoratorUtils :=
  let? baseFee := keeper_GetBaseFee c s in
  let nilBaseFee := match baseFee with None => true | Some _ => false end in
  if IsLondon (c_Rules c) && nilBaseFee then Err ErrInvalidBaseFee
  else
    let? globalMinGasPrice := GetMinGasPrice c s in
    let? mempoolMinGasPrice := ConvertAmountTo18DecimalsLegacy coinCfg (c_MinGasPrice c) in
    Ok (mkDecoratorUtils (c_EvmParams c) (c_Rules c) baseFee mempoolMinGasPrice globalMinGasPrice
          (ts_txIndex (an_ts s)) 0 0 max_int64 0).

(** [account] was read by the caller *)
Definition VerifyAccountBalance (account : option Account) (from : address) (t : TxData) (s : anteState)
    : anteState * res unit :=
  if match account with Some a => IsContract a | None => false end then (s, Err ErrInvalidType)
  else
    let '(s, account) :=
      match account with
      | Some a => (s, a)
      | None =>
          let st := an_store s in
          let '(acc, au) := ak_NewAccountWithAddress (VmKeeper.es_auth st) from in
          (an_with_store (VmKeeper.with_auth (ak_SetAccount au acc) st) s, NewEmptyAccount)
      end in
    match acc_Balance account with
    | None => (s, Panic PanicNil)
    | Some balance =>
        do? s, balance := (s, NewIntFromBigInt balance) in
        (s, CheckSenderBalance balance t)
    end.

(** [evm.Context.CanTransfer] of go-ethereum, on a fresh state database *)
Variable evm_CanTransfer : @StateDB vstore event -> address -> Z -> bool.

(** The comparison of a nil base fee panics. *)
Definition CanTransfer (c : anteCtx) (msg : address * Z * Z) (baseFee : option Z) (isLondon : bool)
    (s : anteState) : res unit :=
  let '(from, gasFeeCap, value) := msg in
  let? tooLow := if isLondon then
                   match baseFee with None => Panic PanicNil | Some b => Ok (gasFeeCap <? b) end
                 else Ok false in
  if (tooLow : bool) then Err ErrInsufficientFee
  else
    let stateDB : @StateDB vstore event := New (an_store s) true (NewEmptyTxConfig (c_HeaderHash c)) in
    if (0 <? value) && negb (evm_CanTransfer stateDB from value) then Err ErrInsufficientFunds
    else Ok ().

Definition deductFees (fees : list Coin) (feePayer : address) (s : anteState) : anteState * res unit :=
  if coins_IsZero fees then (s, Ok ())
  else
    let '(st, r) := DeductTxCostsFromUserBalance fees feePayer (an_store s) in
    (an_with_store st s, r).

Definition ConsumeFeesAndEmitEvent (fees : list Coin) (from : address) (s : anteState)
    : anteState * res unit :=
  do? s, _ := deductFees fees from s in
  (an_emit (EventFee fees) s, Ok ()).

Definition IncrementNonce (account : acct) (txNonce : Z) (s : anteState) : anteState * res unit :=
  let nonce := acct_GetSequence account in
  if negb (txNonce =? nonce) then (s, Err ErrInvalidSequence)
  else
    do? s, account := (s, acct_SetSequence account (wrap64 (nonce + 1))) in
    let st := an_store s in
    (an_with_store (VmKeeper.with_auth (ak_SetAccount (VmKeeper.es_auth st) account) st) s, Ok ()).

Definition CheckGasWanted (c : anteCtx) (tx : sdkTx) (isLondon : bool) (s : anteState)
    : anteState * res unit :=
  if negb isLondon then (s, Ok ())
  else
    match tx_FeeTxGas tx with
    | None => (s, Ok ())
    | Some gasWanted =>
        if BlockGasLimit c <? gasWanted then (s, Err ErrOutOfGas)
        else if negb (FeeMarket.GetBaseFeeEnabled (c_LegacyFm c) (c_fm c) (an_fm s)) then (s, Ok ())
        else (an_with_fm (FeeMarket.AddTransientGasWanted (an_fm s) gasWanted).1 s, Ok ())
    end.

Definition EmitTxHashEvent (m : MsgEthereumTx) (blockTxIndex msgIndex : Z) (s : anteState) : anteState :=
  an_emit (EventEthereumTx (msg_Hash m) (wrap64 (blockTxIndex + msgIndex))) s.

(** ** [MonoDecorator.AnteHandle] *)

Variable IntrinsicGas : bytes -> ethAccessList -> bool -> bool -> bool -> res Z.
Variable maxGasWanted : Z.

(** one round of the loop over the messages *)
Definition handle_msg (c : anteCtx) (tx : sdkTx) (i : Z) (m : sdkMsg) (u : DecoratorUtils) (s : anteState)
    : anteState * res DecoratorUtils :=
  let isLondon := IsLondon (u_Rules u) in
  do? s, p := (s, UnpackEthMsg m) in
  let '(ethMsg, txData) := p in
  do? s, feeAmt := (s, tx_Fee txData) in
  let gas := GetGas txData in
  let gasLimit := NewDec gas in
  do? s, _ := (s, if IsCheckTx c && negb (simulate c)
                  then CheckMempoolFee (NewDec feeAmt) (u_MempoolMinGasPrice u) gasLimit isLondon
                  else Ok ()) in
  do? s, effAmt := (s, if isDynamicFee txData && match u_BaseFee u with Some _ => true | None => false end
                       then tx_EffectiveFee txData (u_BaseFee u) else Ok feeAmt) in
  do? s, _ := (s, CheckGlobalFee (NewDec effAmt) (u_GlobalMinGasPrice u) gasLimit) in
  do? s, _ := (s, ValidateMsg (u_EvmParams u) txData (GetFrom ethMsg)) in
  do? s, ethMsg := (s, SignatureVerification ethMsg (AllowUnprotectedTxs (u_EvmParams u))) in
  let s := an_add_msg ethMsg s in
  do? s, from := (s, match GetFrom ethMsg with Some a => Ok a | None => Ok 0 end) in
  do? s, account := (s, VmKeeper.GetAccount (an_store s) from) in
  do? s, _ := VerifyAccountBalance account from txData s in
  do? s, coreMsg := (s, AsMessage ethMsg) in
  do? s, _ := (s, CanTransfer c coreMsg (u_BaseFee u) isLondon s) in
  do? s, msgFees := (s, VerifyFee IntrinsicGas txData (eci_Denom coinCfg) (u_BaseFee u)
                          (IsHomestead (u_Rules u)) (IsIstanbul (u_Rules u)) (IsCheckTx c)) in
  do? s, _ := ConsumeFeesAndEmitEvent msgFees from s in
  let gasWanted := UpdateCumulativeGasWanted c gas maxGasWanted (u_GasWanted u) in
  do? s, minPriority := (s, GetMsgPriority txData (u_MinPriority u) (u_BaseFee u)) in
  let u := mkDecoratorUtils (u_EvmParams u) (u_Rules u) (u_BaseFee u) (u_MempoolMinGasPrice u)
             (u_GlobalMinGasPrice u) (u_BlockTxIndex u) (wrap64 (u_TxGasLimit u + gas)) gasWanted
             minPriority (u_TxFee u + feeAmt) in
  match ak_GetAccount (VmKeeper.es_auth (an_store s)) from with
  | None => (s, Err ErrUnknownAddress)
  | Some acc =>
      do? s, _ := IncrementNonce acc (GetNonce txData) s in
      do? s, _ := CheckGasWanted c tx isLondon s in
      (EmitTxHashEvent ethMsg (u_BlockTxIndex u) i s, Ok u)
  end.

Fixpoint handle_msgs (c : anteCtx) (tx : sdkTx) (i : Z) (ms : list sdkMsg) (u : DecoratorUtils)
    (s : anteState) : anteState * res DecoratorUtils :=
  match ms with
  | [] => (s, Ok u)
  | m :: ms => do? s, u := handle_msg c tx i m u s in handle_msgs c tx (i + 1) ms u s
  end.

(** The result is the priority of the new context, whose gas meter is that of
    the state. *)
Definition AnteHandle (c : anteCtx) (tx : sdkTx) (s : anteState) : anteState * res Z :=
  do? s, txFeeInfo := (s, if IsReCheckTx c then Ok None
                          else let? f := ValidateTx tx in Ok (Some f)) in
  do? s, _ := SetupContextAndResetTransientGas tx s in
  do? s, u := (s, NewMonoDecoratorUtils c s) in
  do? s, u := handle_msgs c tx 0 (tx_Msgs tx) u s in
  do? s, _ := (s, CheckTxFee coinCfg txFeeInfo (u_TxFee u) (u_TxGasLimit u)) in
  do? s, r := (s, CheckBlockGasLimit c (u_GasWanted u) (u_MinPriority u)) in
  (an_with_ts (ts_with_meter r.1 (an_ts s)) s, Ok r.2).
End Decorator.
