(* ===== verification/AnteTheorems.v ===== *)
(** * Correctness of the ante handler *)

From stdpp Require Import base gmap list numbers strings sorting.
From Stdlib Require Import ZArith Lia.
From S2P Require Import Prelude SdkMath Scaling AccessList StateDB StateDBCommit VmStore FeeMarket TxData TxDataTheorems StateTransition StateTransitionTheorems VmParams Ante Concrete.

Section Ante.
Context `{!SdkMath} `{!EthHex} `{!EthSigner} `{!EvmEnv}.
Context {auth acct bank event : Type} `{!AccountKeeper auth acct} `{!BankKeeper bank}.
Abbreviation vstore := (@VmKeeper.evmStore auth bank).
Context `{!MultiStore vstore}.
Variable evm_CanTransfer : @StateDB vstore event -> address -> Z -> bool.
Variable IntrinsicGas : bytes -> ethAccessList -> bool -> bool -> bool -> res Z.
Variable maxGasWanted : Z.
Implicit Types (s : @anteState auth bank) (a : address).
Abbreviation denom := (eci_Denom coinCfg).
Abbreviation cf := (factor coinCfg).
Abbreviation collector := (bk_module FeeCollectorName).
Abbreviation balance_of s a := (bk_GetBalance (VmKeeper.es_bank (an_store s)) a denom).
Abbreviation account_of s a := (ak_GetAccount (VmKeeper.es_auth (an_store s)) a).

(** ** What each check says when it passes *)

Lemma VerifyAccountBalance_Ok account from t s s' :
  VerifyAccountBalance account from t s = (s', Ok ()) ->
  (exists ac b c, account = Some ac /\ s' = s /\ IsContract ac = false /\
     acc_Balance ac = Some b /\ tx_Cost t = Ok c /\ 0 <= c <= b) \/
  (account = None /\ tx_Cost t = Ok 0 /\
   exists x au, ak_NewAccountWithAddress (VmKeeper.es_auth (an_store s)) from = (x, au) /\
     s' = an_with_store (VmKeeper.with_auth (ak_SetAccount au x) (an_store s)) s).
Proof.
  unfold VerifyAccountBalance. destruct account as [ac|].
  - destruct (IsContract ac) eqn:Ec; [done|]. destruct (acc_Balance ac) as [b|] eqn:Eb; [|done].
    intros E. apply st_pure_Ok_inv in E as (b' & ->%NewIntFromBigInt_Ok & E).
    injection E as <- (c & Hc & Hr)%CheckSenderBalance_Ok. left. eauto 12.
  - destruct (ak_NewAccountWithAddress _ _) as [x au] eqn:Ea. cbn [NewEmptyAccount acc_Balance].
    intros E. apply st_pure_Ok_inv in E as (b' & ->%NewIntFromBigInt_Ok & E).
    injection E as <- (c & Hc & Hr)%CheckSenderBalance_Ok. right.
    replace c with 0 in Hc by lia. eauto 10.
Qed.

Lemma IncrementNonce_Ok x n s s' :
  IncrementNonce x n s = (s', Ok ()) ->
  n = acct_GetSequence x /\ exists y,
    acct_GetAddress y = acct_GetAddress x /\ acct_GetSequence y = wrap64 (n + 1) /\
    s' = an_with_store (VmKeeper.with_auth (ak_SetAccount (VmKeeper.es_auth (an_store s)) y) (an_store s)) s.
Proof.
  unfold IncrementNonce. destruct (Z.eqb_spec n (acct_GetSequence x)) as [->|]; [|done]. cbn [negb].
  intros E. apply st_pure_Ok_inv in E as (y & Hy & E). injection E as <-.
  apply ak_set_sequence in Hy as [Hya Hys]. eauto.
Qed.

Lemma deductFees_Ok fee from coins s s' :
  coins = (if fee =? 0 then [] else [mkCoin denom fee]) ->
  deductFees coins from s = (s', Ok ()) ->
  (exists b, s' = an_with_store (VmKeeper.with_bank b (an_store s)) s) /\
  forall a, balance_of s' a = balance_of s a
    - delta_if (bool_decide (a = from)) (Z.quot fee cf) + delta_if (bool_decide (a = collector)) (Z.quot fee cf).
Proof.
  assert (Hself : an_with_store (VmKeeper.with_bank (VmKeeper.es_bank (an_store s)) (an_store s)) s = s).
  { by destruct s as [[[]] ? ? ?]. }
  intros -> E. unfold deductFees in E. destruct (Z.eqb_spec fee 0) as [->|Hf].
  { injection E as <-. split; [by exists (VmKeeper.es_bank (an_store s))|]. intros a.
    rewrite Z.quot_0_l by (pose proof (factor_pos coinCfg); lia). unfold delta_if. repeat case_match; lia. }
  replace (coins_IsZero [mkCoin denom fee]) with false in E.
  2: { unfold coins_IsZero. cbn. destruct (Z.eqb_spec fee 0); done. }
  destruct (DeductTxCostsFromUserBalance _ _ _) as [st r] eqn:Ed. injection E as <- ->.
  unfold DeductTxCostsFromUserBalance in Ed. destruct (ak_GetAccount _ _) as [ac|]; [|done].
  destruct (bw_SendCoinsFromAccountToModule _ _ _ _) as [b [[]| |]] eqn:Eb; [|done..].
  injection Ed as <-. split; [by exists b|]. apply (bw_send_account _ _ _ _ _ Eb).
Qed.

(** the effect of an accepted message [t] of [from] *)
Record accepted (c : anteCtx) (tx : sdkTx) (u u' : DecoratorUtils) s s' (t : TxData)
    (from : address) (fee : Z) : Prop := {
  acc_cost : exists cost, tx_Cost t = Ok cost /\ 0 <= cost /\
    match account_of s from with
    | Some _ => exists b, VmKeeper.GetBalance (an_store s) from = Ok b /\ cost <= b
    | None => cost = 0
    end;
  acc_eoa : is_Some (account_of s from) ->
    IsEmptyCodeHash (VmKeeper.GetCodeHash (an_store s) from) = true;
  acc_verify : VerifyFee IntrinsicGas t denom (u_BaseFee u) (IsHomestead (u_Rules u))
    (IsIstanbul (u_Rules u)) (IsCheckTx c) = Ok (if fee =? 0 then [] else [mkCoin denom fee]);
  acc_fee : tx_EffectiveFee t (u_BaseFee u) = Ok fee;
  acc_balance : forall a, balance_of s' a = balance_of s a
    - delta_if (bool_decide (a = from)) (Z.quot fee cf) + delta_if (bool_decide (a = collector)) (Z.quot fee cf);
  acc_nonce : match account_of s from with Some x => acct_GetSequence x = GetNonce t | None => True end;
  acc_seq : exists y, account_of s' from = Some y /\ acct_GetSequence y = wrap64 (GetNonce t + 1);
  acc_others : forall b, b <> from -> account_of s' b = account_of s b;
  acc_store : VmKeeper.es_codeHash (an_store s') = VmKeeper.es_codeHash (an_store s) /\
    VmKeeper.es_code (an_store s') = VmKeeper.es_code (an_store s) /\
    VmKeeper.es_storage (an_store s') = VmKeeper.es_storage (an_store s);
  acc_transient : ts_gasUsed (an_ts s') = ts_gasUsed (an_ts s) /\ ts_txIndex (an_ts s') = ts_txIndex (an_ts s) /\
    ts_logSize (an_ts s') = ts_logSize (an_ts s) /\ ts_bloom (an_ts s') = ts_bloom (an_ts s);
  acc_wanted : IsLondon (u_Rules u) = true -> forall g, tx_FeeTxGas tx = Some g ->
    g <= BlockGasLimit c /\
    an_fm s' = (if FeeMarket.GetBaseFeeEnabled (c_LegacyFm c) (c_fm c) (an_fm s)
                then (FeeMarket.AddTransientGasWanted (an_fm s) g).1 else an_fm s);
  acc_utils : u_TxFee u' = u_TxFee u + ok_or 0 (tx_Fee t) /\
    u_TxGasLimit u' = wrap64 (u_TxGasLimit u + GetGas t) /\
    u_GasWanted u' = UpdateCumulativeGasWanted c (GetGas t) maxGasWanted (u_GasWanted u) /\
    u_Rules u' = u_Rules u /\ u_BaseFee u' = u_BaseFee u
}.

Lemma VerifyFee_coins t b hs ist chk coins :
  VerifyFee IntrinsicGas t denom b hs ist chk = Ok coins ->
  exists fee, tx_EffectiveFee t b = Ok fee /\ coins = (if fee =? 0 then [] else [mkCoin denom fee]).
Proof.
  unfold VerifyFee. intros E. apply bind_Ok_inv in E as (ig & _ & E).
  destruct (chk && _); [done|]. apply bind_Ok_inv in E as ([] & _ & E); [done|].
  apply bind_Ok_inv in E as (fee & Hf & E). exists fee. split; [exact Hf|].
  destruct (Z.eqb_spec fee 0); [by injection E as <-|].
  apply bind_Ok_inv in E as (a & ->%NewIntFromBigInt_Ok & E). by injection E as <-.
Qed.

Lemma VerifyFee_cap t b hs ist chk coins cap :
  VerifyFee IntrinsicGas t denom (Some b) hs ist chk = Ok coins -> GetGasFeeCap t = Some cap -> b <= cap.
Proof.
  unfold VerifyFee. intros E Hcap. apply bind_Ok_inv in E as (ig & _ & E).
  destruct (chk && _); [done|]. rewrite Hcap in E. cbn [mbind res_bind] in E.
  destruct (Z.ltb_spec cap b); [done|lia].
Qed.

Lemma CheckTxFee_Ok info fee gas :
  CheckTxFee coinCfg (Some info) fee (wrap64 (0 + gas)) = Ok () -> 0 < gas <= max_int64 ->
  amount_of denom (f_Amount info) = Z.quot fee cf /\ f_GasLimit info = gas.
Proof.
  unfold CheckTxFee. intros E Hg. apply bind_Ok_inv in E as (v & ->%NewIntFromBigInt_Ok & E).
  unfold GetEVMCoinDenom in E.
  destruct (Z.eqb_spec (amount_of denom (f_Amount info)) (ConvertAmountFrom18DecimalsBigInt coinCfg fee)) as [Ha|]; [|done].
  rewrite Z.add_0_l, wrap64_small in E by (unfold max_int64, max_uint64 in *; lia).
  destruct (Z.eqb_spec (f_GasLimit info) gas); [|done]. split; [exact Ha|done].
Qed.

Lemma CheckGasWanted_Ok c tx isLondon s s' :
  CheckGasWanted c tx isLondon s = (s', Ok ()) ->
  an_ts s' = an_ts s /\
  (isLondon = true -> forall g, tx_FeeTxGas tx = Some g ->
    g <= BlockGasLimit c /\
    an_fm s' = (if FeeMarket.GetBaseFeeEnabled (c_LegacyFm c) (c_fm c) (an_fm s)
                then (FeeMarket.AddTransientGasWanted (an_fm s) g).1 else an_fm s)).
Proof.
  unfold CheckGasWanted. destruct isLondon; cbn [negb]; [|by intros [= <-]].
  destruct (tx_FeeTxGas tx) as [g|]; [|by intros [= <-]].
  destruct (Z.ltb_spec (BlockGasLimit c) g); [done|].
  destruct (FeeMarket.GetBaseFeeEnabled _ _ _); cbn [negb]; intros [= <-]; (split; [done|]);
    intros _ g' [= <-]; done.
Qed.

Lemma SignatureVerification_Ok m allow m' :
  SignatureVerification m allow = Ok m' ->
  exists t sender, msg_Data m = Some t /\ eth_Sender (AsEthereumData t) = Ok sender /\
    (allow = true \/ eth_Protected (AsEthereumData t) = true) /\
    m' = mkMsgEthereumTx (msg_Data m) (msg_Size m) (msg_Hash m) (addr_Hex sender).
Proof.
  unfold SignatureVerification. destruct (msg_Data m) as [t|]; [|done].
  destruct (negb allow && _) eqn:Ep; [done|]. destruct (eth_Sender _) as [sender| |] eqn:Es; [|done..].
  intros [= <-]. exists t, sender. split_and!; try done.
  destruct allow; [by left|]. right. by destruct (eth_Protected _).
Qed.

(** everything but the accounts and the bank *)
Record same_rest s s' : Prop := {
  sr_store : VmKeeper.es_codeHash (an_store s') = VmKeeper.es_codeHash (an_store s) /\
    VmKeeper.es_code (an_store s') = VmKeeper.es_code (an_store s) /\
    VmKeeper.es_storage (an_store s') = VmKeeper.es_storage (an_store s);
  sr_transient : ts_gasUsed (an_ts s') = ts_gasUsed (an_ts s) /\ ts_txIndex (an_ts s') = ts_txIndex (an_ts s) /\
    ts_logSize (an_ts s') = ts_logSize (an_ts s) /\ ts_bloom (an_ts s') = ts_bloom (an_ts s)
}.

#[local] Instance same_rest_trans : Transitive same_rest.
Proof. intros s1 s2 s3 [(?&?&?) (?&?&?&?)] [(?&?&?) (?&?&?&?)]. constructor; split_and!; congruence. Qed.

(** the sender's account after the balance check *)
Lemma VerifyAccountBalance_account account from t s s' :
  VmKeeper.GetAccount (an_store s) from = Ok account ->
  VerifyAccountBalance account from t s = (s', Ok ()) ->
  same_rest s s' /\ an_fm s' = an_fm s /\ VmKeeper.es_bank (an_store s') = VmKeeper.es_bank (an_store s) /\
  (forall b, b <> from -> account_of s' b = account_of s b) /\
  match account_of s from with
  | Some x => account_of s' from = Some x /\
      IsEmptyCodeHash (VmKeeper.GetCodeHash (an_store s) from) = true /\
      exists b c, VmKeeper.GetBalance (an_store s) from = Ok b /\ tx_Cost t = Ok c /\ 0 <= c <= b
  | None => is_Some (account_of s' from) /\ tx_Cost t = Ok 0
  end.
Proof.
  unfold VmKeeper.GetAccount, VmKeeper.GetAccountWithoutBalance. intros Hg E.
  destruct (ak_GetAccount _ from) as [x|] eqn:Hx.
  - apply bind_Ok_inv in Hg as (b & Hb & Hg). injection Hg as <-.
    apply VerifyAccountBalance_Ok in E as [(ac & b' & c & [= <-] & -> & Hc & [= <-] & Hcost & Hr)|[? _]]; [|done].
    unfold IsContract in Hc. cbn in Hc. apply negb_false_iff in Hc.
    split_and!; try done. eauto.
  - injection Hg as <-. apply VerifyAccountBalance_Ok in E as [(? & ? & ? & ? & _)|(_ & Hcost & x & au & Hn & ->)]; [done|].
    destruct (ak_new _ _ _ _ Hn) as [Hadr Hget]. split_and!; try done; cbn.
    + intros b Hb. rewrite ak_get_set, Hadr. case_decide; [done|]. apply Hget.
    + rewrite ak_get_set, Hadr. case_decide; [by eexists|done].
Qed.

Lemma ConsumeFees_Ok fee from s s' :
  ConsumeFeesAndEmitEvent (if fee =? 0 then [] else [mkCoin denom fee]) from s = (s', Ok ()) ->
  same_rest s s' /\ an_fm s' = an_fm s /\ VmKeeper.es_auth (an_store s') = VmKeeper.es_auth (an_store s) /\
  forall a, balance_of s' a = balance_of s a
    - delta_if (bool_decide (a = from)) (Z.quot fee cf) + delta_if (bool_decide (a = collector)) (Z.quot fee cf).
Proof.
  unfold ConsumeFeesAndEmitEvent. intros E. apply st_bind_Ok_inv in E as (s1 & [] & E1 & E).
  injection E as <-. destruct (deductFees_Ok _ _ _ _ _ eq_refl E1) as [[b ->] Hb].
  split_and!; try done.
Qed.

Lemma accepted_steps c tx i em u u' s m0 account s1 s2 s3 s4 t from fee x :
  VmKeeper.GetAccount (an_store s) from = Ok account ->
  VerifyAccountBalance account from t (an_add_msg m0 s) = (s1, Ok ()) ->
  VerifyFee IntrinsicGas t denom (u_BaseFee u) (IsHomestead (u_Rules u)) (IsIstanbul (u_Rules u)) (IsCheckTx c)
    = Ok (if fee =? 0 then [] else [mkCoin denom fee]) ->
  tx_EffectiveFee t (u_BaseFee u) = Ok fee ->
  ConsumeFeesAndEmitEvent (if fee =? 0 then [] else [mkCoin denom fee]) from s1 = (s2, Ok ()) ->
  account_of s2 from = Some x ->
  IncrementNonce x (GetNonce t) s2 = (s3, Ok ()) ->
  CheckGasWanted c tx (IsLondon (u_Rules u)) s3 = (s4, Ok ()) ->
  (u_TxFee u' = u_TxFee u + ok_or 0 (tx_Fee t) /\
    u_TxGasLimit u' = wrap64 (u_TxGasLimit u + GetGas t) /\
    u_GasWanted u' = UpdateCumulativeGasWanted c (GetGas t) maxGasWanted (u_GasWanted u) /\
    u_Rules u' = u_Rules u /\ u_BaseFee u' = u_BaseFee u) ->
  accepted c tx u u' s (EmitTxHashEvent em (u_BlockTxIndex u) i s4) t from fee.
Proof.
  intros Hacc Hva Hvf Heff Hcf Hx Hin Hcg Hu.
  destruct (VerifyAccountBalance_account account from t (an_add_msg m0 s) s1 Hacc Hva)
    as (R1 & F1 & B1 & O1 & M1).
  change (an_store (an_add_msg m0 s)) with (an_store s) in *.
  destruct (ConsumeFees_Ok _ _ _ _ Hcf) as (R2 & F2 & A2 & B2).
  apply IncrementNonce_Ok in Hin as (Hn & y & Hya & Hys & ->).
  assert (Hxa : acct_GetAddress x = from) by (by eapply ak_get_address).
  rewrite A2 in Hx.
  apply CheckGasWanted_Ok in Hcg as [Hts4 Hw].
  assert (Hst4 : an_store (EmitTxHashEvent em (u_BlockTxIndex u) i s4) =
    VmKeeper.with_auth (ak_SetAccount (VmKeeper.es_auth (an_store s2)) y) (an_store s2)).
  { unfold an_store, EmitTxHashEvent, an_emit. cbn. by rewrite Hts4. }
  assert (R : same_rest s s2) by (etransitivity; [|exact R2]; destruct R1; by constructor).
  destruct R as [RS RT].
  constructor; rewrite ?Hst4; cbn [VmKeeper.with_auth VmKeeper.es_auth VmKeeper.es_bank
    VmKeeper.es_codeHash VmKeeper.es_code VmKeeper.es_storage].
  - destruct (ak_GetAccount (VmKeeper.es_auth (an_store s)) from).
    + destruct M1 as (_ & _ & b & cst & Hb & Hc & Hr). exists cst. split; [done|]. split; [lia|]. exists b. split; [done|lia].
    + destruct M1 as [_ Hc]. exists 0. done.
  - intros [z Hz]. rewrite Hz in M1. apply M1.
  - exact Hvf.
  - exact Heff.
  - intros a. rewrite B2, B1. done.
  - destruct (ak_GetAccount (VmKeeper.es_auth (an_store s)) from) as [z|]; [|done].
    destruct M1 as [M1 _]. rewrite M1 in Hx. by injection Hx as ->.
  - exists y. rewrite ak_get_set, Hya, Hxa. case_decide; done.
  - intros b Hb. rewrite ak_get_set, Hya, Hxa. case_decide; [done|]. rewrite A2. by apply O1.
  - exact RS.
  - unfold EmitTxHashEvent, an_emit. cbn [an_ts]. rewrite Hts4. exact RT.
  - intros Hl g Hg. cbn [EmitTxHashEvent an_emit an_fm].
    change (an_fm s) with (an_fm (an_add_msg m0 s)). rewrite <-F1, <-F2. by apply Hw.
  - exact Hu.
Qed.

(** ** One message *)

Lemma handle_msg_Ok c tx i m u s s' u' :
  handle_msg evm_CanTransfer IntrinsicGas maxGasWanted c tx i m u s = (s', Ok u') ->
  exists em t sender fee, m = EthMsg em /\ msg_Data em = Some t /\ msg_From em = ""%string /\
    eth_Sender (AsEthereumData t) = Ok sender /\
    (AllowUnprotectedTxs (u_EvmParams u) = true \/ eth_Protected (AsEthereumData t) = true) /\
    accepted c tx u u' s s' t (HexToAddress (addr_Hex sender)) fee.
Proof.
  unfold handle_msg. intros E.
  apply st_pure_Ok_inv in E as ([em t] & Hum & E).
  assert (Hm : m = EthMsg em /\ msg_Data em = Some t).
  { unfold UnpackEthMsg in Hum. destruct m as [m|]; [|done]. destruct (msg_Data m) eqn:Ed; [|done].
    injection Hum as <- <-. by rewrite Ed. }
  destruct Hm as [-> Hd].
  apply st_pure_Ok_inv in E as (feeAmt & Hfee & E).
  apply st_unit_Ok_inv in E as (_ & E).
  apply st_pure_Ok_inv in E as (effAmt & _ & E).
  apply st_unit_Ok_inv in E as (_ & E).
  apply st_unit_Ok_inv in E as (Hvm & E).
  assert (Hfrom : msg_From em = ""%string).
  { unfold ValidateMsg, GetFrom in Hvm. destruct (String.eqb_spec (msg_From em) ""); done. }
  apply st_pure_Ok_inv in E as (em' & Hsv & E).
  apply SignatureVerification_Ok in Hsv as (t' & sender & Hd' & Hsender & Hprot & ->).
  rewrite Hd in Hd'. injection Hd' as <-.
  apply st_pure_Ok_inv in E as (from & Hfr & E).
  assert (from = HexToAddress (addr_Hex sender)) as ->.
  { unfold GetFrom in Hfr. cbn [msg_From] in Hfr. destruct (String.eqb_spec (addr_Hex sender) "") as [Hx|].
    - by destruct (addr_Hex_nonempty sender).
    - by injection Hfr. }
  clear Hfr. remember (HexToAddress (addr_Hex sender)) as from eqn:Hfd.
  apply st_pure_Ok_inv in E as (account & Hacc & E).
  apply st_bind_Ok_inv in E as (s1 & [] & Hva & E).
  apply st_pure_Ok_inv in E as (coreMsg & _ & E).
  apply st_unit_Ok_inv in E as (_ & E).
  apply st_pure_Ok_inv in E as (coins & Hvf & E).
  apply st_bind_Ok_inv in E as (s2 & [] & Hcf & E).
  apply st_pure_Ok_inv in E as (prio & _ & E).
  destruct (ak_GetAccount _ from) as [x|] eqn:Hx; [|done].
  apply st_bind_Ok_inv in E as (s3 & [] & Hin & E).
  apply st_bind_Ok_inv in E as (s4 & [] & Hcg & E).
  injection E as <- <-.
  exists em, t, sender. apply VerifyFee_coins in Hvf as Hvf'. destruct Hvf' as (fee & Heff & Hcoins).
  exists fee. rewrite <-Hfd. split_and!; try done. subst coins. cbn [u_BaseFee u_Rules].
  refine (accepted_steps c tx i _ u _ s _ account s1 s2 s3 s4 t from fee x Hacc Hva Hvf Heff Hcf Hx Hin Hcg _).
  rewrite Hfee. by cbn.
Qed.

(** ** The whole handler *)

Abbreviation handle := (AnteHandle evm_CanTransfer IntrinsicGas maxGasWanted).
Abbreviation handle_all := (handle_msgs evm_CanTransfer IntrinsicGas maxGasWanted).

Definition after_setup s : @anteState auth bank :=
  an_with_ts (ts_with_meter (mkGasMeter 0 max_uint64) (ResetTransientGasUsed (an_ts s))) s.

Lemma AnteHandle_Ok c tx s s' prio :
  handle c tx s = (s', Ok prio) ->
  exists info u s2 u',
    (if IsReCheckTx c then info = None else exists f, ValidateTx tx = Ok f /\ info = Some f) /\
    NewMonoDecoratorUtils c (after_setup s) = Ok u /\
    handle_all c tx 0 (tx_Msgs tx) u (after_setup s) = (s2, Ok u') /\
    CheckTxFee coinCfg info (u_TxFee u') (u_TxGasLimit u') = Ok () /\
    u_GasWanted u' <= BlockGasLimit c /\
    s' = an_with_ts (ts_with_meter (mkGasMeter 0 (u_GasWanted u')) (an_ts s2)) s2.
Proof.
  unfold AnteHandle. intros E. apply st_pure_Ok_inv in E as (info & Hinfo & E).
  apply st_bind_Ok_inv in E as (s1 & [] & Hs & E).
  unfold SetupContextAndResetTransientGas in Hs. destruct (tx_isGasTx tx); [|done]. injection Hs as <-.
  fold (after_setup s) in *.
  apply st_pure_Ok_inv in E as (u & Hu & E). apply st_bind_Ok_inv in E as (s2 & u' & Hh & E).
  apply st_unit_Ok_inv in E as (Hf & E). apply st_pure_Ok_inv in E as (r & Hr & E).
  injection E as <- <-. exists info, u, s2, u'.
  unfold CheckBlockGasLimit in Hr. destruct (Z.ltb_spec (BlockGasLimit c) (u_GasWanted u')); [done|].
  injection Hr as <-. split_and!; try done.
  destruct (IsReCheckTx c); [by injection Hinfo as <-|].
  apply bind_Ok_inv in Hinfo as (f & Hf' & [= <-]). eauto.
Qed.

(** ** Nonces *)

(** the sender of a message and its nonce *)
Definition msg_sender (m : sdkMsg) : option (address * Z) :=
  match m with
  | EthMsg em =>
      match msg_Data em with
      | Some t => match eth_Sender (AsEthereumData t) with
                  | Ok a => Some (HexToAddress (addr_Hex a), GetNonce t)
                  | _ => None
                  end
      | None => None
      end
  | OtherMsg => None
  end.

Definition nonces_of a (ms : list sdkMsg) : list Z :=
  omap (fun m => '(b, n) ← msg_sender m; if decide (b = a) then Some n else None) ms.

(** [k] nonces from [n] on, and the one after them; a nonce is a [uint64] *)
Fixpoint nonce_run (n : Z) (k : nat) : list Z :=
  match k with O => [] | S k => n :: nonce_run (wrap64 (n + 1)) k end.
Definition nonce_after (n : Z) (k : nat) : Z := Nat.iter k (fun n => wrap64 (n + 1)) n.

Lemma nonce_after_S n k : nonce_after n (S k) = nonce_after (wrap64 (n + 1)) k.
Proof. unfold nonce_after. by rewrite Nat.iter_succ_r. Qed.

Lemma nonce_after_wrap n k : nonce_after n (S k) = wrap64 (n + Z.of_nat (S k)).
Proof.
  unfold nonce_after. induction k as [|k IH]; [cbn; f_equal; lia|].
  rewrite Nat.iter_succ, IH. unfold wrap64. rewrite Zplus_mod_idemp_l. f_equal. lia.
Qed.

Lemma handle_msgs_nonces c tx i ms u s s' u' a :
  handle_all c tx i ms u s = (s', Ok u') ->
  match nonces_of a ms with
  | [] => account_of s' a = account_of s a
  | n :: _ =>
      (forall x, account_of s a = Some x -> acct_GetSequence x = n) /\
      nonces_of a ms = nonce_run n (length (nonces_of a ms)) /\
      exists y, account_of s' a = Some y /\ acct_GetSequence y = nonce_after n (length (nonces_of a ms))
  end.
Proof.
  revert i u s. induction ms as [|m ms IH]; intros i u s E; cbn [handle_msgs] in E.
  { injection E as <- <-. done. }
  apply st_bind_Ok_inv in E as (s1 & u1 & E1 & E). specialize (IH _ _ _ E).
  apply handle_msg_Ok in E1 as (em & t & sender & fee & -> & Hd & _ & Hsd & _ & Hacc).
  set (from := HexToAddress (addr_Hex sender)) in *.
  assert (Hms : nonces_of a (EthMsg em :: ms) =
    if decide (from = a) then GetNonce t :: nonces_of a ms else nonces_of a ms).
  { unfold nonces_of. cbn [omap list_omap msg_sender]. rewrite Hd, Hsd. cbn. fold from.
    by destruct (decide (from = a)). }
  rewrite Hms. clear Hms. case_decide as Hfa.
  - rewrite <-Hfa in *. destruct (acc_seq _ _ _ _ _ _ _ _ _ Hacc) as (y1 & Hy1 & Hs1).
    split_and!.
    + intros x Hx. pose proof (acc_nonce _ _ _ _ _ _ _ _ _ Hacc) as Hn. by rewrite Hx in Hn.
    + cbn [length nonce_run]. f_equal. destruct (nonces_of from ms) as [|n ns]; [done|].
      destruct IH as (IH1 & IH2 & _). specialize (IH1 _ Hy1). rewrite Hs1 in IH1. by subst n.
    + cbn [length]. rewrite nonce_after_S. destruct (nonces_of from ms) as [|n ns].
      * exists y1. by rewrite IH.
      * destruct IH as (IH1 & _ & IH3). specialize (IH1 _ Hy1). rewrite Hs1 in IH1. by subst n.
  - pose proof (acc_others _ _ _ _ _ _ _ _ _ Hacc a ltac:(congruence)) as Ho.
    rewrite Ho in IH. exact IH.
Qed.

(** C6: Nonces are consumed in order. When the ante handler accepts a
    transaction, the nonces of each sender's messages are consecutive, the first
    is the sequence of the sender's account, and the account is left with the
    sequence after the last one; the account of an address that sent none of the
    messages is unchanged. *)
Theorem ante_nonces c tx s s' prio a :
  handle c tx s = (s', Ok prio) ->
  match nonces_of a (tx_Msgs tx) with
  | [] => account_of s' a = account_of s a
  | n :: ns =>
      (forall x, account_of s a = Some x -> acct_GetSequence x = n) /\
      n :: ns = nonce_run n (S (length ns)) /\
      exists y, account_of s' a = Some y /\ acct_GetSequence y = wrap64 (n + Z.of_nat (S (length ns)))
  end.
Proof.
  intros (info & u & s2 & u' & _ & _ & E & _ & _ & ->)%AnteHandle_Ok.
  pose proof (handle_msgs_nonces c tx 0 (tx_Msgs tx) u (after_setup s) s2 u' a E) as Hn.
  destruct (nonces_of a (tx_Msgs tx)) as [|n ns]; [exact Hn|].
  cbn [length] in Hn. by rewrite nonce_after_wrap in Hn.
Qed.

(** C5: No replay. A transaction that was accepted is not accepted again in any
    later context as long as its sender's account is as the first time left it:
    a transaction whose first message has a [uint64] nonce and which has fewer
    than [2 ^ 64] messages, handled once, fails the second time. *)
Theorem ante_no_replay c c' tx s s' t' prio m ms a n :
  handle c tx s = (s', Ok prio) ->
  tx_Msgs tx = m :: ms -> msg_sender m = Some (a, n) ->
  0 <= n <= max_uint64 -> Z.of_nat (length ms) < max_uint64 ->
  account_of t' a = account_of s' a ->
  is_ok (handle c' tx t').2 = false.
Proof.
  intros (info & u & s2 & u' & _ & _ & E & _ & _ & ->)%AnteHandle_Ok Hms Hm Hn Hlen Hat.
  destruct (handle c' tx t') as [t2 [p| |]] eqn:E2; [exfalso|done|done].
  apply AnteHandle_Ok in E2 as (info2 & v & s3 & v' & _ & _ & E2 & _).
  pose proof (handle_msgs_nonces _ _ _ _ _ _ _ _ a E) as N1.
  pose proof (handle_msgs_nonces _ _ _ _ _ _ _ _ a E2) as N2.
  assert (Hl : exists ns, nonces_of a (tx_Msgs tx) = n :: ns /\ (length ns <= length ms)%nat).
  { rewrite Hms. unfold nonces_of. cbn [omap list_omap]. rewrite Hm. cbn. rewrite decide_True by done.
    eexists. split; [done|]. clear. induction ms as [|m ms IH]; cbn; [lia|]. case_match; cbn; lia. }
  destruct Hl as (ns & Hns & Hle). rewrite Hns in N1, N2. cbn [length] in N1, N2.
  destruct N1 as (_ & _ & y & Hy & Hseq). destruct N2 as (N2 & _).
  change (account_of (after_setup t') a) with (account_of t' a) in N2.
  rewrite Hat in N2. specialize (N2 y Hy). rewrite Hseq, nonce_after_wrap in N2.
  unfold wrap64, max_uint64 in *.
  destruct (Z_lt_le_dec (n + Z.of_nat (S (length ns))) (2 ^ 64)).
  - rewrite Z.mod_small in N2; lia.
  - rewrite <-(Z_mod_plus_full _ (-1)), Z.mod_small in N2; lia.
Qed.

(** ** A transaction with one message *)

Lemma single_msg_accepted c tx s s' prio em t :
  handle c tx s = (s', Ok prio) -> tx_Msgs tx = [EthMsg em] -> msg_Data em = Some t ->
  exists info u u' s2 sender fee,
    (if IsReCheckTx c then info = None else exists f, ValidateTx tx = Ok f /\ info = Some f) /\
    NewMonoDecoratorUtils c (after_setup s) = Ok u /\
    CheckTxFee coinCfg info (u_TxFee u') (u_TxGasLimit u') = Ok () /\
    u_GasWanted u' <= BlockGasLimit c /\
    eth_Sender (AsEthereumData t) = Ok sender /\
    (AllowUnprotectedTxs (u_EvmParams u) = true \/ eth_Protected (AsEthereumData t) = true) /\
    accepted c tx u u' (after_setup s) s2 t (HexToAddress (addr_Hex sender)) fee /\
    s' = an_with_ts (ts_with_meter (mkGasMeter 0 (u_GasWanted u')) (an_ts s2)) s2.
Proof.
  intros (info & u & s2 & u' & Hinfo & Hu & E & Hf & Hg & ->)%AnteHandle_Ok Hms Hd.
  rewrite Hms in E. cbn [handle_msgs] in E. apply st_bind_Ok_inv in E as (s1 & u1 & E1 & E).
  injection E as <- <-.
  apply handle_msg_Ok in E1 as (em' & t' & sender & fee & [= <-] & Hd' & _ & Hs & Hp & Hacc).
  rewrite Hd in Hd'. injection Hd' as <-. exists info, u, u1, s1, sender, fee. by split_and!.
Qed.

Lemma NewMonoDecoratorUtils_Ok c s u :
  NewMonoDecoratorUtils c s = Ok u ->
  keeper_GetBaseFee c s = Ok (u_BaseFee u) /\ u_Rules u = c_Rules c /\ u_EvmParams u = c_EvmParams c /\
  u_TxFee u = 0 /\ u_TxGasLimit u = 0 /\ u_GasWanted u = 0.
Proof.
  unfold NewMonoDecoratorUtils. intros E. apply bind_Ok_inv in E as (b & Hb & E).
  destruct (IsLondon _ && _); [done|]. apply bind_Ok_inv in E as (g & _ & E).
  apply bind_Ok_inv in E as (mp & _ & E). injection E as <-. done.
Qed.

(** C4: What an accepted transaction has paid and guarantees. When the ante
    handler accepts a transaction with one valid message after the London fork,
    the signer recovered from the signature sent it, and the transaction is
    protected against replay unless the parameters allow otherwise; the sender
    holds no code and its balance covers the fee and the value; the fee at the
    effective price, at least the base fee for all its gas, has moved from the
    sender to the fee collector and no other balance of the EVM coin changed;
    the sender's account sequence, which was the transaction's nonce, is now the
    next one, and no other account changed; code, storage, the log size, the
    bloom and the transaction index are untouched, and the fee market only adds
    the gas wanted to its counter; the gas counter restarts from 0, the
    gas limit of the new context is within the block's, and outside of
    ReCheckTx the Cosmos fee states the same amount and gas limit. *)
Theorem ante_charges_sender c tx s s' prio em t b :
  handle c tx s = (s', Ok prio) -> tx_Msgs tx = [EthMsg em] -> msg_Data em = Some t ->
  Validate t = Ok () -> 0 < GetGas t <= max_int64 ->
  (forall a, eth_Sender (AsEthereumData t) = Ok a -> addr_ok a) ->
  IsLondon (c_Rules c) = true -> keeper_GetBaseFee c s = Ok (Some b) -> 0 <= b ->
  exists sender fee,
    eth_Sender (AsEthereumData t) = Ok sender /\
    (AllowUnprotectedTxs (c_EvmParams c) = true \/ eth_Protected (AsEthereumData t) = true) /\
    tx_EffectiveFee t (Some b) = Ok fee /\ b * GetGas t <= fee /\
    (forall x, account_of s sender = Some x ->
       IsEmptyCodeHash (VmKeeper.GetCodeHash (an_store s) sender) = true /\
       exists bal, VmKeeper.GetBalance (an_store s) sender = Ok bal /\ fee + default 0 (GetValue t) <= bal) /\
    (forall a, balance_of s' a = balance_of s a
       - delta_if (bool_decide (a = sender)) (Z.quot fee cf)
       + delta_if (bool_decide (a = collector)) (Z.quot fee cf)) /\
    VmKeeper.es_code (an_store s') = VmKeeper.es_code (an_store s) /\
    VmKeeper.es_codeHash (an_store s') = VmKeeper.es_codeHash (an_store s) /\
    VmKeeper.es_storage (an_store s') = VmKeeper.es_storage (an_store s) /\
    match account_of s sender with Some x => acct_GetSequence x = GetNonce t | None => True end /\
    (exists y, account_of s' sender = Some y /\ acct_GetSequence y = wrap64 (GetNonce t + 1)) /\
    (forall a, a <> sender -> account_of s' a = account_of s a) /\
    ts_txIndex (an_ts s') = ts_txIndex (an_ts s) /\ ts_logSize (an_ts s') = ts_logSize (an_ts s) /\
    ts_bloom (an_ts s') = ts_bloom (an_ts s) /\
    (forall g, tx_FeeTxGas tx = Some g ->
       an_fm s' = (if FeeMarket.GetBaseFeeEnabled (c_LegacyFm c) (c_fm c) (an_fm s)
                   then (FeeMarket.AddTransientGasWanted (an_fm s) g).1 else an_fm s)) /\
    ts_gasUsed (an_ts s') = 0 /\ gm_limit (ts_meter (an_ts s')) <= BlockGasLimit c /\
    (IsReCheckTx c = false -> exists info maxFee, ValidateTx tx = Ok info /\ tx_Fee t = Ok maxFee /\
       amount_of denom (f_Amount info) = Z.quot maxFee cf /\ f_GasLimit info = GetGas t).
Proof.
  intros Hh Hms Hd Hv Hg Hadr Hl Hb Hb0.
  destruct (single_msg_accepted _ _ _ _ _ _ _ Hh Hms Hd)
    as (info & u & u' & s2 & sender & fee & Hinfo & Hu & Hcf & Hgl & Hs & Hp & Hacc & ->).
  rewrite (HexToAddress_Hex sender (Hadr _ Hs)) in Hacc.
  apply NewMonoDecoratorUtils_Ok in Hu as (Hu1 & Hu2 & Hu3 & Hu4 & Hu5 & Hu6).
  change (keeper_GetBaseFee c (after_setup s)) with (keeper_GetBaseFee c s) in Hu1.
  rewrite Hb in Hu1. injection Hu1 as Hu1. destruct Hacc as
    [(cost & Hc & Hc0 & Hbal) Heoa Hvf Heff Hbals Hn Hseq Hoth (St1 & St2 & St3) (Tr1 & Tr2 & Tr3 & Tr4) Hfm
     (U1 & U2 & _)].
  rewrite Hu2 in Hfm. rewrite <-Hu1 in *. rewrite Hu3 in Hp. rewrite Hu4, Hu5 in *.
  destruct (Validate_prices t (Z.lt_le_incl _ _ (proj1 Hg)) Hv) as (cap & tip & f & Hcap & Htip & Hr & Hf & Hfe & Hfb & _).
  assert (Hcost : cost = f + default 0 (GetValue t)).
  { assert (Hx : tx_Cost t = Ok (f + default 0 (GetValue t))).
    { destruct t; cbn in *; unfold Legacy.Cost, AccessListT.Cost, Dynamic.Cost; rewrite Hf; done. }
    congruence. }
  destruct (effective_price t cap tip b Hcap Htip Hr Hb0) as (p & _ & Hpr & Hpb & Hef & _).
  assert (fee = p * GetGas t) as -> by congruence.
  assert (Hcapb : b <= cap) by (eapply VerifyFee_cap; eauto).
  assert (Hbp : b <= p) by (specialize (Hpb Hcapb); destruct t; lia).
  exists sender, (p * GetGas t). split_and!; try done.
  - nia.
  - intros x Hx. split; [apply Heoa; by exists x|].
    change (account_of (after_setup s) sender) with (account_of s sender) in Hbal. rewrite Hx in Hbal.
    destruct Hbal as (bal & Hbal & Hle). exists bal. split; [exact Hbal|].
    assert (Hple : p * GetGas t <= cap * GetGas t) by (apply Z.mul_le_mono_nonneg_r; lia).
    clear Hcf Hvf. lia.
  - intros g Hfg. apply (Hfm Hl g Hfg).
  - intros Hre. rewrite Hre in Hinfo. destruct Hinfo as (fi & Hvt & ->). exists fi, f. split; [done|]. split; [done|].
    rewrite U1, U2, Hf in Hcf. cbn [ok_or] in Hcf. apply (CheckTxFee_Ok _ _ _ Hcf Hg).
Qed.

(** ** From the ante handler to the end of a failed transaction *)

Variable evm : @EVM vstore event.
Variable logsBloom : list ethLog -> Z.

(** C3: A failed transaction costs its gas and nothing else. The ante handler
    accepts a transaction with one message and [ApplyTransaction] runs it with a
    VM error, the core message having the sender, the gas limit and the
    effective price of the transaction. In the end the sender's nonce is the
    transaction's plus one; the sender has paid the fee collector the price of
    the gas used, up to less than one unit of the bank's coin; no other balance
    of the EVM coin, no other account, no code and no storage slot has changed. *)
Theorem failed_tx_costs_its_gas c tx s s1 prio em t b sender p msg bh th rules mult ts2 r :
  handle c tx s = (s1, Ok prio) -> tx_Msgs tx = [EthMsg em] -> msg_Data em = Some t ->
  eth_Sender (AsEthereumData t) = Ok sender -> addr_ok sender -> sender <> collector ->
  keeper_GetBaseFee c s = Ok b -> tx_EffectiveFee t b = Ok (GetGas t * p) -> 0 <= p ->
  m_From msg = sender -> m_Gas msg = GetGas t -> m_GasPrice msg = p -> m_Gas msg <= max_uint64 ->
  ApplyTransaction IntrinsicGas evm logsBloom msg bh th rules mult (an_ts s1) = (ts2, Ok r) ->
  Failed r = true -> 0 <= r_GasUsed r <= m_Gas msg ->
  let st := an_store s in let st2 := ts_store ts2 in
  let bal x a := bk_GetBalance (VmKeeper.es_bank x) a denom in
  (exists y, ak_GetAccount (VmKeeper.es_auth st2) sender = Some y /\
     acct_GetSequence y = wrap64 (GetNonce t + 1)) /\
  (forall a, a <> sender -> ak_GetAccount (VmKeeper.es_auth st2) a = ak_GetAccount (VmKeeper.es_auth st) a) /\
  VmKeeper.es_code st2 = VmKeeper.es_code st /\ VmKeeper.es_codeHash st2 = VmKeeper.es_codeHash st /\
  VmKeeper.es_storage st2 = VmKeeper.es_storage st /\
  exists paid,
    bal st2 sender = bal st sender - paid /\ bal st2 collector = bal st collector + paid /\
    (forall a, a <> sender -> a <> collector -> bal st2 a = bal st a) /\
    r_GasUsed r * p - cf < paid * cf < r_GasUsed r * p + cf /\
    (eci_Decimals coinCfg = EighteenDecimals -> paid = r_GasUsed r * p).
Proof.
  intros Hh Hms Hd Hsd Hok Hne Hb Heff Hp Mf Mg Mp Hmax Ha Hfl Hr. cbn zeta.
  destruct (single_msg_accepted _ _ _ _ _ _ _ Hh Hms Hd)
    as (info & u & u' & s2 & sender' & fee & _ & Hu & _ & _ & Hs & _ & Hacc & ->).
  rewrite Hsd in Hs. injection Hs as <-. rewrite (HexToAddress_Hex sender Hok) in Hacc.
  apply NewMonoDecoratorUtils_Ok in Hu as (Hu1 & _).
  change (keeper_GetBaseFee c (after_setup s)) with (keeper_GetBaseFee c s) in Hu1.
  rewrite Hb in Hu1. injection Hu1 as Hu1.
  destruct Hacc as [_ _ _ Heff' Hbals _ Hseq Hoth (St1 & St2 & St3) (Tr1 & _) _ _].
  rewrite <-Hu1, Heff in Heff'. injection Heff' as <-.
  change (ts_gasUsed (an_ts (after_setup s))) with 0 in Tr1.
  destruct (failed_tx_effect _ _ _ _ _ _ _ _ _ _ _ Ha Hfl) as (b2 & Er & Hst2 & _).
  { lia. } { cbn. rewrite Tr1. unfold max_uint64. lia. }
  cbn [an_with_ts an_ts ts_with_meter ts_store] in Er, Hst2. fold (an_store s2) in Er, Hst2.
  rewrite wrap64_small in Er by lia. rewrite Hst2. cbn [VmKeeper.with_bank VmKeeper.es_auth VmKeeper.es_bank
    VmKeeper.es_code VmKeeper.es_codeHash VmKeeper.es_storage].
  split_and!; try done. rewrite <-Mf, <-Mp in *.
  apply (charge_and_refund (VmKeeper.es_bank (an_store s)) (VmKeeper.es_bank (an_store s2))); try done.
  rewrite Mg. exact Hbals.
Qed.
End Ante.

(** ** Concrete runs *)

#[local] Existing Instance sdk_math_Z.

(** every transaction is signed by address 1 *)
#[local] Instance c_signer : EthSigner := {|
  eth_Protected _ := true;
  eth_Sender _ := Ok 1;
  eth_GasFeeCap d := match d with EthDynamicFeeTx _ _ _ cap _ _ _ _ _ _ _ _ => default 0 cap | _ => 0 end;
  eth_Value d := match d with EthDynamicFeeTx _ _ _ _ _ _ v _ _ _ _ _ => default 0 v | _ => 0 end
|}.

Definition c_CanTransfer (db : @StateDB cstore Z) (a : address) (v : Z) : bool :=
  v <=? (StateDB.GetBalance a db).1.

(** a call with one unit, gas limit 100000, at most 3 * 10 ^ 7 per gas; it fails *)
Definition c_txdata : TxData :=
  TxDynamicFee (Dynamic.mkDynamicFeeTx (Some 9000) 7 (Some (2 * 10 ^ 7)) (Some (3 * 10 ^ 7)) 100000
    (c_addr_Hex 2) (Some (10 ^ 12)) [1] None [] [] []).
Definition c_ethmsg : MsgEthereumTx := mkMsgEthereumTx (Some c_txdata) 0 "h" "".
Definition c_tx : sdkTx :=
  mkSdkTx true None true (Some (mkTxBody "" 0 0 1))
    (Some (mkAuthInfo 0 (Some (mkTxFee [mkCoin "utac" 3] 100000 "" "")))) 0 (Some 100000) [EthMsg c_ethmsg].

(** a base fee of [10 ^ 7] in 18 decimals *)
Definition c_fmparams : FeeMarket.Params :=
  FeeMarket.mkParams false 8 2 (Some (10 ^ 13)) 0 (Some 0) (Some (10 ^ 17)).
Definition c_ctx : anteCtx :=
  mkAnteCtx false false false (FeeMarket.mkFmCtx 10 (Some 40000000) None) None 0 0 crules
    VmParams.DefaultParams c_fmparams.
Definition c_ante0 : @anteState (gmap address cAcct) cbank :=
  mkAnteState (mkTxState cstore0 0 4 0 50000 (mkGasMeter 0 0)) (FeeMarket.mkFmState (Some c_fmparams) 0 None 500) [] [].
Definition c_ante1 : @anteState (gmap address cAcct) cbank * res Z :=
  AnteHandle c_CanTransfer cIntrinsic 0 c_ctx c_tx c_ante0.

Lemma c_ante1_ok : c_ante1 = (c_ante1.1, Ok (ok_or 0 c_ante1.2)).
Proof. apply pair_snd, ok_or_ok. vm_compute. reflexivity. Qed.

Lemma ante_nonces_witness :
  exists y, ak_GetAccount (VmKeeper.es_auth (an_store c_ante1.1)) 1 = Some y /\ acct_GetSequence y = 8.
Proof.
  pose proof (ante_nonces c_CanTransfer cIntrinsic 0 c_ctx c_tx c_ante0 c_ante1.1 _ 1 c_ante1_ok) as Hn.
  replace (nonces_of 1 (tx_Msgs c_tx)) with [7] in Hn by (vm_compute; reflexivity).
  destruct Hn as (_ & _ & y & Hy & Hs). exists y. split; [exact Hy|exact Hs].
Defined.

Lemma ante_no_replay_witness :
  is_ok (AnteHandle c_CanTransfer cIntrinsic 0 c_ctx c_tx c_ante1.1).2 = false.
Proof.
  apply (ante_no_replay c_CanTransfer cIntrinsic 0 c_ctx c_ctx c_tx c_ante0 c_ante1.1 c_ante1.1
    (ok_or 0 c_ante1.2) (EthMsg c_ethmsg) [] 1 7).
  - exact c_ante1_ok.
  - reflexivity.
  - vm_compute. reflexivity.
  - unfold max_uint64. lia.
  - unfold max_uint64. cbn. lia.
  - reflexivity.
Defined.

Lemma ante_charges_sender_witness :
  bk_GetBalance (VmKeeper.es_bank (an_store c_ante1.1)) 1 "utac" = 2 /\
  exists fee, tx_EffectiveFee c_txdata (Some (10 ^ 7)) = Ok fee /\ 10 ^ 7 * 100000 <= fee /\
    (exists y, ak_GetAccount (VmKeeper.es_auth (an_store c_ante1.1)) 1 = Some y /\ acct_GetSequence y = 8) /\
    ts_gasUsed (an_ts c_ante1.1) = 0.
Proof.
  split; [vm_compute; reflexivity|].
  destruct (ante_charges_sender c_CanTransfer cIntrinsic 0 c_ctx c_tx c_ante0 c_ante1.1 (ok_or 0 c_ante1.2)
    c_ethmsg c_txdata (10 ^ 7)) as (sender & fee & Hs & _ & H1 & H2 & _ & _ & _ & _ & _ & _ & Hseq & _ & _ & _ & _ & _ & H3 & _).
  - exact c_ante1_ok.
  - reflexivity.
  - reflexivity.
  - vm_compute. reflexivity.
  - split; vm_compute; congruence.
  - intros a [= <-]. split; vm_compute; congruence.
  - reflexivity.
  - vm_compute. reflexivity.
  - vm_compute. congruence.
  - injection Hs as <-. exists fee. split_and!; [exact H1|exact H2|exact Hseq|exact H3].
Defined.

Definition c_msg : Message := mkMessage 1 (Some 2) 7 (10 ^ 12) 100000 (3 * 10 ^ 7) [1] [].
Definition c_end : @txState (gmap address cAcct) cbank * res TxResponse :=
  ApplyTransaction cIntrinsic cevm (fun _ => 0) c_msg 0 1 crules (10 ^ 17) (an_ts c_ante1.1).
Definition c_resp : TxResponse := ok_or (mkTxResponse 0 None [] []) c_end.2.

(** The sender pays one unit for 21716 gas worth 0.65148 units. *)
Lemma failed_tx_costs_its_gas_witness :
  r_GasUsed c_resp = 21716 /\
  bk_GetBalance (VmKeeper.es_bank (ts_store c_end.1)) 1 "utac" = 4 /\
  exists paid, bk_GetBalance (VmKeeper.es_bank (ts_store c_end.1)) 1 "utac" = 5 - paid /\
    21716 * (3 * 10 ^ 7) - 10 ^ 12 < paid * 10 ^ 12 < 21716 * (3 * 10 ^ 7) + 10 ^ 12.
Proof.
  split; [vm_compute; reflexivity|]. split; [vm_compute; reflexivity|].
  destruct (failed_tx_costs_its_gas c_CanTransfer cIntrinsic 0 cevm (fun _ => 0) c_ctx c_tx c_ante0 c_ante1.1
    (ok_or 0 c_ante1.2) c_ethmsg c_txdata (Some (10 ^ 7)) 1 (3 * 10 ^ 7) c_msg 0 1 crules (10 ^ 17)
    c_end.1 c_resp) as (_ & _ & _ & _ & _ & paid & H1 & _ & _ & H2 & _).
  - exact c_ante1_ok.
  - reflexivity.
  - reflexivity.
  - reflexivity.
  - split; vm_compute; congruence.
  - vm_compute. congruence.
  - vm_compute. reflexivity.
  - vm_compute. reflexivity.
  - vm_compute. congruence.
  - reflexivity.
  - reflexivity.
  - reflexivity.
  - vm_compute. congruence.
  - apply pair_snd, ok_or_ok. vm_compute. reflexivity.
  - vm_compute. reflexivity.
  - split; vm_compute; congruence.
  - exists paid. split; [exact H1|exact H2].
Defined.
