(* ===== verification/CosmosAnte.v ===== *)
(** * Fees and limits of Cosmos transactions ([ante])

    The EIP-1559 fee checker of Cosmos transactions ([ante/evm/fee_checker.go])
    and the decorators [ante/cosmos/min_gas_price.go], [authz.go] and
    [reject_msgs.go]. *)

From stdpp Require Import base gmap list numbers strings sorting.
From Stdlib Require Import ZArith Lia.
From S2P Require Import Prelude SdkMath Scaling AccessList StateDB StateDBCommit VmStore FeeMarket TxData StateTransition VmParams Ante.

(** ** The fee checker *)

Section FeeChecker.
Context `{!SdkMath}.

(** what is read of an [sdk.FeeTx]. Of the extension options, [Some p] is an
    [ExtensionOptionDynamicFeeTx] with [MaxPriorityPrice] [p] and [None] is one
    of another type; a transaction without options has none. *)
Record feeTx := mkFeeTx {
  ft_Gas : Z;
  ft_Fee : list Coin;
  ft_ExtensionOptions : list (option (option Z))
}.

Record DecCoin := mkDecCoin { dc_Denom : string; dc_Amount : Z }.

(** the loop over the options stops at the first dynamic fee option *)
Fixpoint find_MaxPriorityPrice (opts : list (option (option Z))) : option Z :=
  match opts with
  | [] => None
  | Some p :: _ => Some (default 0 p)
  | None :: opts => find_MaxPriorityPrice opts
  end.

Definition effectiveGasPriceLegacyDec (baseFee feeCap tipCap : Z) : res Z :=
  let? x := dec_Add tipCap baseFee in Ok (Z.min x feeCap).

(** [Coins.IsAnyGTE] of the SDK *)
Variable IsAnyGTE : list Coin -> list Coin -> bool.

Fixpoint getTxPriority_loop (fees : list Coin) (gas priority : Z) : res Z :=
  match fees with
  | [] => Ok priority
  | fee :: fees =>
      let? gasPrice := int_Quo (coin_Amount fee) gas in
      let? amt := int_Quo gasPrice DefaultPriorityReduction in
      let p := int64_or_max amt in
      getTxPriority_loop fees gas (if (priority =? 0) || (p <? priority) then p else priority)
  end.
Definition getTxPriority (fees : list Coin) (gas : Z) : res Z := getTxPriority_loop fees gas 0.

(** [sdk.NewCoin] panics on a negative amount *)
Fixpoint requiredFees (minGasPrices : list DecCoin) (glDec : Z) : res (list Coin) :=
  match minGasPrices with
  | [] => Ok []
  | gp :: l =>
      let? fee := dec_Mul (dc_Amount gp) glDec in
      let? amount := dec_RoundInt (dec_Ceil fee) in
      if amount <? 0 then Panic ErrInvalidCoins
      else let? l := requiredFees l glDec in Ok (mkCoin (dc_Denom gp) amount :: l)
  end.

Definition checkTxFeeWithValidatorMinGasPrices (isCheckTx : bool) (minGasPrices : list DecCoin) (tx : feeTx)
    : res (list Coin * Z) :=
  let feeCoins := ft_Fee tx in
  let gas := to_int64 (ft_Gas tx) in
  let isZero := forallb (fun gp => dc_Amount gp =? 0) minGasPrices in
  let? _ := if isCheckTx && negb isZero then
              let? required := requiredFees minGasPrices (NewDec gas) in
              if IsAnyGTE feeCoins required then Ok () else Err ErrInsufficientFee
            else Ok () in
  let? priority := getTxPriority feeCoins gas in
  Ok (feeCoins, priority).

(** [baseFee] is that of the fee market, nil when it is disabled *)
Definition FeeChecker (isCheckTx : bool) (minGasPrices : list DecCoin) (isLondon : bool)
    (baseFee : option Z) (denom : string) (tx : feeTx) : res (list Coin * Z) :=
  if negb isLondon then checkTxFeeWithValidatorMinGasPrices isCheckTx minGasPrices tx
  else
    let baseFee := default 0 baseFee in
    let maxPriorityPrice := default (NewDec max_int64) (find_MaxPriorityPrice (ft_ExtensionOptions tx)) in
    if maxPriorityPrice <? 0 then Err ErrInsufficientFee
    else
      let gas := ft_Gas tx in
      if gas =? 0 then Err ErrInvalidRequest
      else
        let feeAmtDec := NewDec (amount_of denom (ft_Fee tx)) in
        let? feeCap := dec_QuoInt feeAmtDec gas in
        if feeCap <? baseFee then Err ErrInsufficientFee
        else
          let? effectivePrice := effectiveGasPriceLegacyDec baseFee feeCap maxPriorityPrice in
          let? x := dec_MulInt effectivePrice gas in
          let? amount := dec_RoundInt (dec_Ceil x) in
          let? d := dec_Sub effectivePrice baseFee in
          let? q := dec_QuoInt d DefaultPriorityReduction in
          let? priorityInt := dec_TruncateInt q in
          Ok ([mkCoin denom amount], int64_or_max priorityInt).

(** [NewDynamicFeeChecker]: genesis transactions are checked against the
    validator's prices *)
Definition NewDynamicFeeChecker (height : Z) (isCheckTx : bool) (minGasPrices : list DecCoin)
    (isLondon : bool) (baseFee : option Z) (denom : string) (tx : feeTx) : res (list Coin * Z) :=
  if height =? 0 then checkTxFeeWithValidatorMinGasPrices isCheckTx minGasPrices tx
  else FeeChecker isCheckTx minGasPrices isLondon baseFee denom tx.

(** ** [MinGasPriceDecorator] *)

Definition ErrFeeDenom : error := "expected only native token for fee".
Definition DefaultBondDenom : string := "stake".

(** [Ok] calls the next handler *)
Definition MinGasPriceDecorator (simulate : bool) (minGasPrice : Z) (evmDenom : string) (tx : feeTx)
    : res unit :=
  let feeCoins := ft_Fee tx in
  let validFees := match feeCoins with
                   | [] => true
                   | [c] => contains [evmDenom; DefaultBondDenom] (coin_Denom c)
                   | _ => false
                   end in
  if negb validFees && negb simulate then Err ErrFeeDenom
  else if (minGasPrice =? 0) || simulate then Ok ()
  else
    let? x := dec_Mul minGasPrice (NewDec (ft_Gas tx)) in
    let? fee := dec_RoundInt (dec_Ceil x) in
    let required := if 0 <? fee then [mkCoin evmDenom fee] else [] in
    match feeCoins with
    | [] => Err ErrInsufficientFee
    | _ => if IsAnyGTE feeCoins required then Ok () else Err ErrInsufficientFee
    end.
End FeeChecker.

(** ** [AuthzLimiterDecorator] *)

Definition ErrUnauthorized : error := "unauthorized".
Definition maxNestedMsgs : Z := 7.

(** A message: [authz.MsgExec] with its messages, [authz.MsgGrant] with the type
    of its authorization ([None] when they cannot be unpacked), or another one
    with its type. *)
Inductive authzMsg :=
| MsgExec (msgs : option (list authzMsg))
| MsgGrant (url : option string)
| MsgOther (url : string).

Section Authz.
Variable disabledMsgTypes : list string.

Definition isDisabledMsg (url : string) : bool := existsb (String.eqb url) disabledMsgTypes.

(** One round of the loop. The level is a variable of the call, which each
    [MsgExec] increments before its own messages are checked. *)
Fixpoint check_msg (isAuthzInnerMsg : bool) (nestedLvl : Z) (m : authzMsg) : Z * res unit :=
  match m with
  | MsgExec None => (nestedLvl, Err ErrUnauthorized)
  | MsgExec (Some inner) =>
      let nestedLvl := nestedLvl + 1 in
      (nestedLvl,
       if maxNestedMsgs <=? nestedLvl then Err ErrUnauthorized
       else
         (fix loop (lvl : Z) (l : list authzMsg) : res unit :=
            match l with
            | [] => Ok ()
            | m :: l => let '(lvl, r) := check_msg true lvl m in let? _ := r in loop lvl l
            end) nestedLvl inner)
  | MsgGrant None => (nestedLvl, Err ErrUnauthorized)
  | MsgGrant (Some url) =>
      (nestedLvl, if isDisabledMsg url then Err ErrUnauthorized else Ok ())
  | MsgOther url =>
      (nestedLvl, if isAuthzInnerMsg && isDisabledMsg url then Err ErrUnauthorized else Ok ())
  end.

Fixpoint check_loop (isAuthzInnerMsg : bool) (nestedLvl : Z) (msgs : list authzMsg) : res unit :=
  match msgs with
  | [] => Ok ()
  | m :: msgs =>
      let '(nestedLvl, r) := check_msg isAuthzInnerMsg nestedLvl m in
      let? _ := r in check_loop isAuthzInnerMsg nestedLvl msgs
  end.

Definition checkDisabledMsgs (msgs : list authzMsg) (isAuthzInnerMsg : bool) (nestedLvl : Z) : res unit :=
  if maxNestedMsgs <=? nestedLvl then Err ErrUnauthorized
  else check_loop isAuthzInnerMsg nestedLvl msgs.

(** [AnteHandle] *)
Definition AuthzLimiterDecorator (msgs : list authzMsg) : res unit := checkDisabledMsgs msgs false 1.
End Authz.

(** ** [RejectMessagesDecorator] *)

Section Reject.
Context `{!SdkMath} `{!EthHex}.

Fixpoint RejectMessagesDecorator (msgs : list sdkMsg) : res unit :=
  match msgs with
  | [] => Ok ()
  | EthMsg _ :: _ => Err ErrInvalidType
  | OtherMsg :: msgs => RejectMessagesDecorator msgs
  end.
End Reject.
