(* ===== verification/CosmosAnteTheorems.v ===== *)
(** * Correctness of the checks on Cosmos transactions *)

From stdpp Require Import base gmap list numbers strings sorting.
From Stdlib Require Import ZArith Lia.
From S2P Require Import Prelude SdkMath Scaling AccessList StateDB StateDBCommit VmStore FeeMarket TxData StateTransition VmParams VmParamsTheorems Ante CosmosAnte.

Section Fees.
Context `{!SdkMath}.
Variable IsAnyGTE : list Coin -> list Coin -> bool.

(** the price at which the tip and the base fee exceed what is offered is capped *)
Lemma effective_amount b cap tip g F :
  0 < g -> 0 <= b <= cap -> 0 <= tip -> cap * g <= F * dec_one ->
  let p := Z.min (tip + b) cap in
  let fee := dec_ceiling (p * g) in
  b <= p <= cap /\ b * g <= fee * dec_one /\ 0 <= fee <= F /\ fee * dec_one < (tip + b) * g + dec_one.
Proof.
  intros Hg Hb Ht Hc. cbn zeta. set (p := Z.min (tip + b) cap).
  assert (Hp : b <= p <= cap) by (unfold p; lia).
  assert (Hpt : p <= tip + b) by (unfold p; lia). clearbody p.
  pose proof (dec_ceiling_bounds (p * g)) as Hcl. pose proof dec_one_pos.
  assert (b * g <= p * g) by (apply Z.mul_le_mono_nonneg_r; lia).
  assert (p * g <= cap * g) by (apply Z.mul_le_mono_nonneg_r; lia).
  assert (p * g <= (tip + b) * g) by (apply Z.mul_le_mono_nonneg_r; lia).
  assert (0 <= b * g) by nia.
  split_and!; try lia; nia.
Qed.

Lemma int64_or_max_range z : 0 <= z -> 0 <= int64_or_max z <= max_int64.
Proof.
  intros Hz. unfold int64_or_max. destruct (is_int64 z) eqn:E.
  - apply is_int64_spec in E. lia.
  - unfold max_int64. lia.
Qed.

(** The fee of a Cosmos transaction under EIP-1559. For a transaction with
    positive gas, a tip that is not negative and amounts far below the width of
    a decimal, [FeeChecker] after London accepts exactly when the fee offered
    covers the base fee for all the gas. The coins to deduct are then at least
    the base fee for the gas, at most the fee offered, and less than one unit
    above the price of base fee and tip; the priority is a non-negative
    [int64]. Otherwise the error is [ErrInsufficientFee]. *)
Theorem cosmos_effective_fee isCheckTx prices baseFee denom tx :
  let b := default 0 baseFee in
  let tip := default (NewDec max_int64) (find_MaxPriorityPrice (ft_ExtensionOptions tx)) in
  let F := amount_of denom (ft_Fee tx) in
  0 < ft_Gas tx -> 0 <= F < 2 ^ 190 -> 0 <= b < 2 ^ 300 -> 0 <= tip < 2 ^ 300 ->
  if b * ft_Gas tx <=? F * dec_one then
    exists fee prio,
      FeeChecker IsAnyGTE isCheckTx prices true baseFee denom tx = Ok ([mkCoin denom fee], prio) /\
      b * ft_Gas tx <= fee * dec_one /\ 0 <= fee <= F /\
      fee * dec_one < (tip + b) * ft_Gas tx + dec_one /\ 0 <= prio <= max_int64
  else FeeChecker IsAnyGTE isCheckTx prices true baseFee denom tx = Err ErrInsufficientFee.
Proof.
  cbn zeta. unfold FeeChecker. cbn [negb].
  set (b := default 0 baseFee). set (tip := default _ (find_MaxPriorityPrice _)).
  set (F := amount_of denom (ft_Fee tx)). generalize dependent (ft_Gas tx). intros g Hg HF Hb Ht.
  clearbody b tip F. pose proof dec_one_pos as Hone.
  destruct (Z.ltb_spec tip 0); [lia|]. destruct (Z.eqb_spec g 0); [lia|].
  rewrite dec_QuoInt_spec. destruct (Z.eqb_spec g 0) as [|_]; [lia|]. cbn [mbind res_bind].
  unfold NewDec. rewrite Z.quot_div_nonneg by lia.
  set (cap := F * dec_one / g).
  assert (Hcap : cap * g <= F * dec_one < cap * g + g).
  { subst cap. pose proof (Z.div_mod (F * dec_one) g ltac:(lia)).
    pose proof (Z.mod_pos_bound (F * dec_one) g Hg). lia. }
  clearbody cap.
  destruct (Z.leb_spec (b * g) (F * dec_one)) as [Hle|Hgt].
  2: { destruct (Z.ltb_spec cap b); [done|]. nia. }
  assert (Hbc : b <= cap) by nia. destruct (Z.ltb_spec cap b); [lia|].
  destruct (effective_amount b cap tip g F Hg ltac:(lia) ltac:(lia) ltac:(lia)) as (Hp & Hlo & Hhi & Hup).
  set (p := Z.min (tip + b) cap) in *. set (fee := dec_ceiling (p * g)) in *.
  assert (Hbig : 2 ^ 190 * dec_one < 2 ^ 255) by reflexivity.
  assert (HFb : F * dec_one < 2 ^ 255) by (clear -HF Hbig Hone; nia). clear Hbig.
  assert (H255 : 2 ^ 255 < 2 ^ 315 /\ 2 ^ 300 + 2 ^ 300 < 2 ^ 315 /\ 2 ^ 190 < 2 ^ 256 /\ 2 ^ 255 < 2 ^ 256)
    by (repeat split; vm_compute; reflexivity).
  assert (Hpg : 0 <= p * g <= F * dec_one) by nia.
  assert (Hpc : p <= p * g) by nia.
  generalize dependent (2 ^ 190). generalize dependent (2 ^ 255). intros P255 HFb P190 HF (Q1 & Q2 & Q3 & Q4).
  unfold effectiveGasPriceLegacyDec. rewrite dec_Add_spec, dec_fits_315 by lia. cbn [mbind res_bind]. fold p.
  rewrite dec_MulInt_spec, dec_fits_315 by lia. cbn [mbind res_bind].
  rewrite dec_CeilRoundInt. fold fee. rewrite int_fits_256 by lia. cbn [mbind res_bind].
  rewrite dec_Sub_spec, dec_fits_315 by lia. cbn [mbind res_bind].
  rewrite dec_QuoInt_spec. change (DefaultPriorityReduction =? 0) with false. cbn [mbind res_bind].
  assert (Hq : 0 <= Z.quot (Z.quot (p - b) DefaultPriorityReduction) dec_one <= p - b).
  { unfold DefaultPriorityReduction. rewrite !Z.quot_div_nonneg; [|lia|lia|apply Z.quot_pos; lia|lia].
    split; [apply Z.div_pos; [apply Z.div_pos; lia|lia]|].
    apply Z.div_le_upper_bound; [lia|]. apply Z.div_le_upper_bound; [lia|].
    assert (Hd : 0 <= p - b) by lia. clear -Hd Hone. generalize dependent (p - b). intros d Hd. nia. }
  rewrite dec_TruncateInt_spec, int_fits_256 by lia. cbn [mbind res_bind].
  eexists fee, _. split; [done|]. split_and!; try lia; apply int64_or_max_range; lia.
Qed.

(** ** [MinGasPriceDecorator] *)

(** what the SDK documents of [IsAnyGTE]: some coin of the first is also in the
    second, with a greater or equal amount *)
Hypothesis IsAnyGTE_spec : forall a b,
  IsAnyGTE a b = true <->
  exists c, c ∈ a /\ amount_of (coin_Denom c) b <> 0 /\ amount_of (coin_Denom c) b <= coin_Amount c.

(** The minimum gas price binds every Cosmos transaction. With a positive
    minimum and positive gas, outside of simulation, the decorator lets a
    transaction pass exactly when its fee is one coin of the EVM denomination
    whose amount is at least the minimum price of the gas; the staking
    denomination, which the first check lets through, is not enough. *)
Theorem min_gas_price_enforced minGasPrice evmDenom tx :
  0 < minGasPrice < 2 ^ 200 -> 0 < ft_Gas tx <= max_uint64 ->
  MinGasPriceDecorator IsAnyGTE false minGasPrice evmDenom tx = Ok () <->
  exists v, ft_Fee tx = [mkCoin evmDenom v] /\ minGasPrice * ft_Gas tx <= v * dec_one.
Proof.
  intros Hm Hg. unfold MinGasPriceDecorator. rewrite !andb_true_r, orb_false_r.
  destruct (Z.eqb_spec minGasPrice 0); [lia|].
  assert (Hbig : max_uint64 * 2 ^ 200 < 2 ^ 265 /\ 2 ^ 265 < 2 ^ 315 /\ 2 ^ 265 < 2 ^ 255 * dec_one /\ 2 ^ 255 < 2 ^ 256)
    by (repeat split; vm_compute; reflexivity).
  assert (Hx : 0 < minGasPrice * ft_Gas tx < 2 ^ 265) by nia.
  pose proof (dec_ceiling_bounds (minGasPrice * ft_Gas tx)) as Hcl. pose proof dec_one_pos.
  set (fee := dec_ceiling (minGasPrice * ft_Gas tx)) in *.
  assert (Hf : 0 < fee <= 2 ^ 255) by nia.
  assert (Hge : forall v, fee <= v <-> minGasPrice * ft_Gas tx <= v * dec_one) by (intros v; split; nia).
  rewrite dec_Mul_NewDec_r, dec_fits_315 by lia. cbn [mbind res_bind].
  rewrite dec_CeilRoundInt. fold fee. rewrite int_fits_256 by lia. cbn [mbind res_bind].
  destruct (Z.ltb_spec 0 fee); [|lia]. clear Hbig Hx Hcl.
  destruct (ft_Fee tx) as [|[d v] [|c2 l]]; cbn [negb].
  - split; [done|]. intros (v & ? & _). done.
  - cbn [coin_Denom]. destruct (IsAnyGTE _ _) eqn:Ea.
    + apply IsAnyGTE_spec in Ea as (c & ->%list_elem_of_singleton & Hn & Hle). cbn [coin_Denom coin_Amount] in *.
      rewrite amount_of_single in Hn, Hle. destruct (String.eqb_spec evmDenom d) as [<-|]; [|done].
      unfold contains. rewrite bool_decide_true by set_solver. cbn [negb].
      split; [intros _; exists v; split; [done|]; by apply Hge|done].
    + split; [by case_match|]. intros (v' & [= -> ->] & Hle%Hge).
      assert (Ht : IsAnyGTE [mkCoin evmDenom v'] [mkCoin evmDenom fee] = true).
      { apply IsAnyGTE_spec. eexists. split; [by apply list_elem_of_singleton|].
        cbn [coin_Denom coin_Amount]. rewrite amount_of_single, String.eqb_refl. lia. }
      congruence.
  - split; [done|]. intros (v' & ? & _). done.
Qed.
End Fees.

(** ** [AuthzLimiterDecorator] *)

Section Authz.
Variable disabled : list string.

Lemma check_msg_exec inner lvl l :
  check_msg disabled inner lvl (MsgExec (Some l)) =
    (lvl + 1, if maxNestedMsgs <=? lvl + 1 then Err ErrUnauthorized else check_loop disabled true (lvl + 1) l).
Proof.
  cbn [check_msg]. f_equal. case_match; [done|]. generalize (lvl + 1). induction l as [|m l IH]; intros n; [done|].
  cbn [check_loop]. destruct (check_msg disabled true n m) as [n' r]. destruct r; cbn; [apply IH|done..].
Qed.

(** the message grants, or executes on behalf of a granter, messages of type
    [url], at some depth *)
Inductive grants (url : string) : authzMsg -> Prop :=
| grants_here : grants url (MsgGrant (Some url))
| grants_in l m : m ∈ l -> grants url m -> grants url (MsgExec (Some l)).
Inductive executes (url : string) : authzMsg -> Prop :=
| executes_here l : MsgOther url ∈ l -> executes url (MsgExec (Some l))
| executes_in l m : m ∈ l -> executes url m -> executes url (MsgExec (Some l)).

Fixpoint depth (m : authzMsg) : Z :=
  match m with
  | MsgExec (Some l) => 1 + (fix go l := match l with [] => 0 | m :: l => Z.max (depth m) (go l) end) l
  | MsgExec None => 1
  | _ => 0
  end.

Definition harmless (inner : bool) (m : authzMsg) : Prop :=
  forall url, url ∈ disabled -> ~ grants url m /\ ~ executes url m /\ (inner = true -> m <> MsgOther url).

Lemma isDisabled_spec url : isDisabledMsg disabled url = false <-> url ∉ disabled.
Proof.
  unfold isDisabledMsg. split.
  - intros H Hin. assert (Ht : existsb (String.eqb url) disabled = true); [|congruence].
    apply existsb_exists. exists url. rewrite String.eqb_refl. split; [by apply list_elem_of_In|done].
  - intros H. destruct (existsb _ _) eqn:E; [|done]. apply existsb_exists in E as (x & Hx & ->%String.eqb_eq).
    by apply list_elem_of_In in Hx.
Qed.

Lemma depth_exec l n :
  0 <= n -> Forall (fun m => depth m <= n) l -> depth (MsgExec (Some l)) <= 1 + n.
Proof.
  intros Hn Hl. cbn [depth]. apply Z.add_le_mono_l. induction Hl; [lia|]. by apply Z.max_lub.
Qed.

Lemma check_msg_sound (m : authzMsg) : forall inner lvl,
  (check_msg disabled inner lvl m).2 = Ok () ->
  harmless inner m /\ lvl <= (check_msg disabled inner lvl m).1 /\ (0 < depth m -> lvl + depth m < maxNestedMsgs).
Proof.
  revert m. fix IH 1. intros [[l|]|[url|]|url] inner lvl; [|done| |done|].
  - rewrite check_msg_exec. cbn [fst snd]. destruct (Z.leb_spec maxNestedMsgs (lvl + 1)) as [|Hlvl]; [done|].
    intros Hloop. assert (Hall : Forall (fun m => harmless true m /\ depth m <= maxNestedMsgs - lvl - 2) l).
    { assert (Hlv : lvl + 1 <= lvl + 1) by lia. revert Hlv Hloop. generalize (lvl + 1) at 2 3. intros lv Hlv. revert lv Hlv.
      induction l as [|m l IHl]; intros lv Hlv; cbn [check_loop]; [constructor|].
      specialize (IH m true lv). destruct (check_msg disabled true lv m) as [lv' r].
      intros Hb. apply bind_unit_Ok in Hb as [-> Hb]. cbn [fst snd] in IH.
      destruct (IH eq_refl) as (Hh & Hle & Hd). constructor; [|apply (IHl lv'); [lia|done]].
      split; [done|]. unfold maxNestedMsgs in *. destruct (Z_lt_le_dec 0 (depth m)); lia. }
    clear IH Hloop. split; [|split; [lia|]].
    + rewrite Forall_forall in Hall. intros url Hurl. split_and!; [| |done].
      * intros Hg. inversion Hg as [|? m Hm Hgm]; subst. destruct (Hall m Hm) as [Hh _]. by destruct (Hh url Hurl).
      * intros He. inversion He as [? Hm|? m Hm Hem]; subst.
        -- destruct (Hall _ Hm) as [Hh _]. destruct (Hh url Hurl) as (_ & _ & Hne). by apply Hne.
        -- destruct (Hall m Hm) as [Hh _]. by destruct (Hh url Hurl) as (_ & ? & _).
    + intros _. assert (depth (MsgExec (Some l)) <= 1 + (maxNestedMsgs - lvl - 2)); [|unfold maxNestedMsgs in *; lia].
      apply depth_exec; [lia|]. eapply Forall_impl; [exact Hall|]. naive_solver.
  - cbn. destruct (isDisabledMsg disabled url) eqn:E; [done|]. apply isDisabled_spec in E. intros _.
    split; [|split; [lia|lia]]. intros u Hu. split_and!; [|by inversion 1|done]. inversion 1; subst. done.
  - cbn. destruct inner; cbn.
    + destruct (isDisabledMsg disabled url) eqn:E; [done|]. apply isDisabled_spec in E. intros _.
      split; [|lia]. intros u Hu. split_and!; [by inversion 1|by inversion 1|]. intros _ [= ->]. done.
    + intros _. split; [|lia]. intros u Hu. split_and!; [by inversion 1|by inversion 1|done].
Qed.

(** what the limiter lets through *)
Lemma authz_limiter_harmless msgs :
  AuthzLimiterDecorator disabled msgs = Ok () -> Forall (fun m => harmless false m /\ depth m <= 5) msgs.
Proof.
  unfold AuthzLimiterDecorator, checkDisabledMsgs. change (maxNestedMsgs <=? 1) with false. cbn iota.
  assert (Hgen : forall lvl, 1 <= lvl -> check_loop disabled false lvl msgs = Ok () ->
    Forall (fun m => harmless false m /\ depth m <= 5) msgs); [|apply Hgen; lia].
  induction msgs as [|x msgs IH]; intros lvl Hl; cbn [check_loop]; [constructor|].
  pose proof (check_msg_sound x false lvl) as Hs. destruct (check_msg disabled false lvl x) as [lvl' r].
  intros Hb. apply bind_unit_Ok in Hb as [-> Hb]. cbn [fst snd] in Hs.
  destruct (Hs eq_refl) as (Hh & Hle & Hd). constructor; [|apply (IH lvl'); [lia|done]].
  split; [done|]. unfold maxNestedMsgs in Hd. destruct (Z_lt_le_dec 0 (depth x)); lia.
Qed.

(** The authz limiter lets no disabled message through. When the decorator
    accepts the messages of a transaction, no message, at any depth of
    [MsgExec], grants a disabled type or executes one on behalf of a granter,
    and [MsgExec] messages are nested at most five deep. *)
Theorem authz_limiter_sound msgs m url :
  AuthzLimiterDecorator disabled msgs = Ok () -> m ∈ msgs -> url ∈ disabled ->
  ~ grants url m /\ ~ executes url m /\ depth m <= 5.
Proof.
  intros Hc Hm Hurl. apply authz_limiter_harmless in Hc. rewrite Forall_forall in Hc.
  destruct (Hc m Hm) as [Hh Hd]. destruct (Hh url Hurl) as (? & ? & _). done.
Qed.

Lemma check_siblings lvl k :
  check_loop disabled false lvl (replicate k (MsgExec (Some []))) =
    if (lvl + Z.of_nat k <? maxNestedMsgs) || (k =? 0)%nat then Ok () else Err ErrUnauthorized.
Proof.
  revert lvl. induction k as [|k IH]; intros lvl; [by rewrite orb_true_r|].
  cbn [replicate check_loop]. rewrite check_msg_exec. cbn [check_loop].
  destruct (Z.leb_spec maxNestedMsgs (lvl + 1)); cbn [mbind res_bind].
  - destruct (Z.ltb_spec (lvl + Z.of_nat (S k)) maxNestedMsgs); [lia|done].
  - rewrite IH. clear IH. destruct k as [|k]; cbn [Nat.eqb].
    + rewrite orb_true_r. destruct (Z.ltb_spec (lvl + Z.of_nat 1) maxNestedMsgs); [done|lia].
    + rewrite !orb_false_r. replace (lvl + 1 + Z.of_nat (S k)) with (lvl + Z.of_nat (S (S k))) by lia. done.
Qed.

(** The nesting limit counts siblings. A transaction with [k] empty
    [MsgExec] messages side by side, none nested in another, is accepted for [k]
    up to five and rejected from six on, since every [MsgExec] of the loop
    increments the level that is meant to measure nesting. *)
Theorem authz_counts_siblings k :
  AuthzLimiterDecorator disabled (replicate k (MsgExec (Some []))) =
    if (k <=? 5)%nat then Ok () else Err ErrUnauthorized.
Proof.
  unfold AuthzLimiterDecorator, checkDisabledMsgs. change (maxNestedMsgs <=? 1) with false. cbn iota.
  rewrite check_siblings. unfold maxNestedMsgs.
  destruct (Nat.leb_spec k 5), (Z.ltb_spec (1 + Z.of_nat k) 7), (Nat.eqb_spec k 0); cbn [orb]; try done; lia.
Qed.
End Authz.

(** ** Concrete runs *)

Definition c_IsAnyGTE (a b : list Coin) : bool :=
  existsb (fun c => negb (amount_of (coin_Denom c) b =? 0) && (amount_of (coin_Denom c) b <=? coin_Amount c)) a.

Lemma c_IsAnyGTE_spec a b :
  c_IsAnyGTE a b = true <->
  exists c, c ∈ a /\ amount_of (coin_Denom c) b <> 0 /\ amount_of (coin_Denom c) b <= coin_Amount c.
Proof.
  unfold c_IsAnyGTE. rewrite existsb_exists. setoid_rewrite andb_true_iff. setoid_rewrite negb_true_iff.
  setoid_rewrite Z.eqb_neq. setoid_rewrite Z.leb_le. setoid_rewrite list_elem_of_In. done.
Qed.

#[local] Existing Instance sdk_math_Z.

(** 21000 gas for a fee of 3 * 21000, base fee 1.5, tip 1: 2.5 * 21000 is paid *)
Definition c_feetx : feeTx := mkFeeTx 21000 [mkCoin "utac" 63000] [None; Some (Some (10 ^ 18))].

Lemma cosmos_effective_fee_witness :
  exists fee prio, FeeChecker c_IsAnyGTE true [] true (Some (15 * 10 ^ 17)) "utac" c_feetx
    = Ok ([mkCoin "utac" fee], prio) /\ 15 * 10 ^ 17 * 21000 <= fee * 10 ^ 18 /\ 0 <= fee <= 63000.
Proof.
  pose proof (cosmos_effective_fee c_IsAnyGTE true [] (Some (15 * 10 ^ 17)) "utac" c_feetx) as Hc.
  cbn zeta in Hc.
  replace (_ <=? _) with true in Hc by (vm_compute; reflexivity). cbn iota in Hc.
  match type of Hc with ?A -> ?B -> ?C -> ?D -> _ =>
    assert (HA : A) by (vm_compute; reflexivity);
    assert (HB : B) by (split; vm_compute; congruence);
    assert (HC : C) by (split; vm_compute; congruence);
    assert (HD : D) by (split; vm_compute; congruence)
  end.
  destruct (Hc HA HB HC HD) as (fee & prio & H1 & H2 & H3 & _).
  exists fee, prio. split; [exact H1|]. split; [exact H2|exact H3].
Defined.

Lemma min_gas_price_enforced_witness :
  MinGasPriceDecorator c_IsAnyGTE false (10 ^ 18) "utac" c_feetx = Ok ().
Proof.
  apply (min_gas_price_enforced c_IsAnyGTE c_IsAnyGTE_spec (10 ^ 18) "utac" c_feetx).
  - split; vm_compute; congruence.
  - split; vm_compute; congruence.
  - exists 63000. split; [reflexivity|]. vm_compute. congruence.
Defined.

Lemma authz_limiter_sound_witness :
  ~ executes "/MsgEthereumTx" (MsgExec (Some [MsgExec (Some [MsgOther "/MsgSend"])])).
Proof.
  destruct (authz_limiter_sound ["/MsgEthereumTx"] [MsgExec (Some [MsgExec (Some [MsgOther "/MsgSend"])])]
    (MsgExec (Some [MsgExec (Some [MsgOther "/MsgSend"])])) "/MsgEthereumTx") as (_ & H & _).
  - vm_compute. reflexivity.
  - apply list_elem_of_here.
  - apply list_elem_of_here.
  - exact H.
Defined.
