(* ===== verification/AppAnte.v ===== *)
(** * The ante handler of the application ([evmd/ante])

    The application chooses the handler of a transaction by the first of its
    extension options: the mono decorator of Ethereum transactions ([Ante]), or
    the chain of decorators of Cosmos transactions, of which [CosmosAnte] models
    the ones of this repository and those of the SDK and of IBC are parameters. *)

From stdpp Require Import base gmap list numbers strings sorting.
From Stdlib Require Import ZArith Lia.
From S2P Require Import Prelude SdkMath Scaling AccessList StateDB StateDBCommit VmStore FeeMarket TxData StateTransition VmParams Ante CosmosAnte.

Module AppAnte.

Definition ErrUnknownExtensionOptions : error := "unknown extension options".
Definition ErrLogic : error := "is required for AnteHandler".

(** ** Transactions *)

(** A message is an Ethereum message or one that the authz limiter looks into. *)
Inductive appMsg := AppEth (m : MsgEthereumTx) | AppMsg (m : authzMsg).

(** the types of messages that cannot be executed through authz *)
Definition MsgEthereumTxURL : string := "/cosmos.evm.vm.v1.MsgEthereumTx".
Definition MsgCreateVestingAccountURL : string := "/cosmos.vesting.v1beta1.MsgCreateVestingAccount".

Definition to_sdk (m : appMsg) : sdkMsg := match m with AppEth m => EthMsg m | AppMsg _ => OtherMsg end.
Definition to_authz (m : appMsg) : authzMsg := match m with AppEth _ => MsgOther MsgEthereumTxURL | AppMsg m => m end.

(** A transaction: its messages, the types of its extension options when it can
    have some, its fee when it implements [sdk.FeeTx], and the rest of it as the
    mono decorator reads it. *)
Record appTx := mkAppTx {
  ap_Msgs : list appMsg;
  ap_ExtensionOptions : option (list string);
  ap_FeeTx : option feeTx;
  ap_Rest : sdkTx
}.
Definition sdk_of (tx : appTx) : sdkTx :=
  let r := ap_Rest tx in
  mkSdkTx (tx_isGasTx r) (tx_ValidateBasic r) (tx_isProtoTxProvider r) (tx_Body r) (tx_AuthInfo r) (tx_Signatures r) (tx_FeeTxGas r)
    (map to_sdk (ap_Msgs tx)).

(** ** Options ([handler_options.go]) *)

(** which of the options are set *)
Record HandlerOptions := mkHandlerOptions {
  ho_Cdc : bool;
  ho_AccountKeeper : bool;
  ho_BankKeeper : bool;
  ho_IBCKeeper : bool;
  ho_FeeMarketKeeper : bool;
  ho_EvmKeeper : bool;
  ho_FeegrantKeeper : bool;
  ho_ExtensionOptionChecker : bool;
  ho_SignModeHandler : bool;
  ho_SigGasConsumer : bool;
  ho_MaxTxGasWanted : Z;
  ho_TxFeeChecker : bool
}.

Definition HandlerOptions_Validate (o : HandlerOptions) : res unit :=
  if negb (ho_Cdc o) then Err ("codec " +:+ ErrLogic)
  else if negb (ho_AccountKeeper o) then Err ("account keeper " +:+ ErrLogic)
  else if negb (ho_BankKeeper o) then Err ("bank keeper " +:+ ErrLogic)
  else if negb (ho_IBCKeeper o) then Err ("ibc keeper " +:+ ErrLogic)
  else if negb (ho_FeeMarketKeeper o) then Err ("fee market keeper " +:+ ErrLogic)
  else if negb (ho_EvmKeeper o) then Err ("evm keeper " +:+ ErrLogic)
  else if negb (ho_SigGasConsumer o) then Err ("signature gas consumer " +:+ ErrLogic)
  else if negb (ho_SignModeHandler o) then Err ("sign mode handler " +:+ ErrLogic)
  else if negb (ho_TxFeeChecker o) then Err ("tx fee checker " +:+ ErrLogic)
  else Ok ().

(** ** Handlers *)

Section Handlers.
Context `{!SdkMath} `{!EthHex} `{!EthSigner} `{!EvmEnv}.
Context {auth acct bank event : Type} `{!AccountKeeper auth acct} `{!BankKeeper bank}.
Abbreviation vstore := (@VmKeeper.evmStore auth bank).
Context `{!MultiStore vstore}.
Abbreviation ANTE := (@anteState auth bank).

(** A decorator that calls the next one after its own work. *)
Definition decorator : Type := anteCtx -> appTx -> ANTE -> ANTE * res unit.

(** [sdk.ChainAnteDecorators] *)
Fixpoint ChainAnteDecorators (ds : list decorator) (c : anteCtx) (tx : appTx) (s : ANTE) : ANTE * res unit :=
  match ds with
  | [] => (s, Ok ())
  | d :: ds => do? s, _ := d c tx s in ChainAnteDecorators ds c tx s
  end.

(** a decorator that only looks *)
Definition check (f : anteCtx -> appTx -> ANTE -> res unit) : decorator := fun c tx s => (s, f c tx s).

(** the decorators of the SDK and of IBC *)
Record sdkDecorators := mkSdkDecorators {
  SetUpContextDecorator : decorator;
  ExtensionOptionsDecorator : decorator;
  ValidateBasicDecorator : decorator;
  TxTimeoutHeightDecorator : decorator;
  ValidateMemoDecorator : decorator;
  ConsumeGasForTxSizeDecorator : decorator;
  DeductFeeDecorator : decorator;
  SetPubKeyDecorator : decorator;
  ValidateSigCountDecorator : decorator;
  SigGasConsumeDecorator : decorator;
  SigVerificationDecorator : decorator;
  IncrementSequenceDecorator : decorator;
  RedundantRelayDecorator : decorator
}.
Variable sdk : sdkDecorators.
Variable IsAnyGTE : list Coin -> list Coin -> bool.

Definition reject_messages : decorator := check (fun _ tx _ => RejectMessagesDecorator (map to_sdk (ap_Msgs tx))).

Definition limit_authz : decorator :=
  check (fun _ tx _ => AuthzLimiterDecorator [MsgEthereumTxURL; MsgCreateVestingAccountURL] (map to_authz (ap_Msgs tx))).

Definition min_gas_price : decorator :=
  check (fun c tx s =>
    match ap_FeeTx tx with
    | None => Err ErrInvalidType
    | Some feeTx => MinGasPriceDecorator IsAnyGTE (simulate c) (default 0 (FeeMarket.MinGasPrice (FeeMarket.GetParams (c_LegacyFm c) (an_fm s))))
                      (GetEVMCoinDenom coinCfg) feeTx
    end).

Definition gas_wanted : decorator := fun c tx s => CheckGasWanted c (sdk_of tx) (IsLondon (c_Rules c)) s.

Definition newCosmosAnteHandler : decorator :=
  ChainAnteDecorators
    [reject_messages; limit_authz; SetUpContextDecorator sdk; ExtensionOptionsDecorator sdk; ValidateBasicDecorator sdk;
     TxTimeoutHeightDecorator sdk; ValidateMemoDecorator sdk; min_gas_price; ConsumeGasForTxSizeDecorator sdk; DeductFeeDecorator sdk;
     SetPubKeyDecorator sdk; ValidateSigCountDecorator sdk; SigGasConsumeDecorator sdk; SigVerificationDecorator sdk;
     IncrementSequenceDecorator sdk; RedundantRelayDecorator sdk; gas_wanted].

Variable evm_CanTransfer : @StateDB vstore event -> address -> Z -> bool.
Variable IntrinsicGas : bytes -> ethAccessList -> bool -> bool -> bool -> res Z.

Definition newMonoEVMAnteHandler (o : HandlerOptions) : decorator :=
  ChainAnteDecorators
    [fun c tx s => do? s, _ := AnteHandle evm_CanTransfer IntrinsicGas (ho_MaxTxGasWanted o) c (sdk_of tx) s in (s, Ok ())].

Definition ExtensionOptionsEthereumTx : string := "/cosmos.evm.vm.v1.ExtensionOptionsEthereumTx".
Definition ExtensionOptionDynamicFeeTx : string := "/cosmos.evm.types.v1.ExtensionOptionDynamicFeeTx".

(** Every transaction is an [sdk.Tx]. *)
Definition NewAnteHandler (o : HandlerOptions) : decorator := fun c tx s =>
  match ap_ExtensionOptions tx with
  | Some (typeURL :: _) =>
      if String.eqb typeURL ExtensionOptionsEthereumTx then newMonoEVMAnteHandler o c tx s
      else if String.eqb typeURL ExtensionOptionDynamicFeeTx then newCosmosAnteHandler c tx s
      else (s, Err ErrUnknownExtensionOptions)
  | _ => newCosmosAnteHandler c tx s
  end.
End Handlers.
End AppAnte.
