(* ===== verification/AppAnteTheorems.v ===== *)
(** * What the ante handler of the application guarantees *)

From stdpp Require Import base gmap list numbers strings sorting.
From Stdlib Require Import ZArith Lia.
From S2P Require Import Prelude SdkMath Scaling AccessList StateDB StateDBCommit VmStore Concrete FeeMarket TxData TxDataTheorems StateTransition StateTransitionTheorems VmParams VmParamsTheorems Ante AnteTheorems CosmosAnte CosmosAnteTheorems AppAnte.

Module AppAnteTheorems.
Import AppAnte.

Section Theorems.
Context `{!SdkMath} `{!EthHex} `{!EthSigner} `{!EvmEnv}.
Context {auth acct bank event : Type} `{!AccountKeeper auth acct} `{!BankKeeper bank}.
Abbreviation vstore := (@VmKeeper.evmStore auth bank).
Context `{!MultiStore vstore}.
Variable sdk : @sdkDecorators auth bank.
Variable IsAnyGTE : list Coin -> list Coin -> bool.
Variable evm_CanTransfer : @StateDB vstore event -> address -> Z -> bool.
Variable IntrinsicGas : bytes -> ethAccessList -> bool -> bool -> bool -> res Z.
Abbreviation handler := (NewAnteHandler sdk IsAnyGTE evm_CanTransfer IntrinsicGas).

(** the message is signed: its sender is recovered from its signature, which is
    bound to the chain unless the parameters allow otherwise *)
Definition signed_eth (c : anteCtx) (m : appMsg) : Prop :=
  exists em t sender, m = AppEth em /\ msg_Data em = Some t /\ msg_From em = "" /\ eth_Sender (AsEthereumData t) = Ok sender /\
    (AllowUnprotectedTxs (c_EvmParams c) = true \/ eth_Protected (AsEthereumData t) = true).

(** the message neither is nor contains one that the limiter forbids *)
Definition not_eth (m : appMsg) : Prop :=
  exists am, m = AppMsg am /\ depth am <= 5 /\
    forall url, url ∈ [MsgEthereumTxURL; MsgCreateVestingAccountURL] -> ~ grants url am /\ ~ executes url am.

Lemma utils_params c (s : @anteState auth bank) u : NewMonoDecoratorUtils c s = Ok u -> u_EvmParams u = c_EvmParams c.
Proof.
  unfold NewMonoDecoratorUtils. intros E. apply bind_Ok_inv in E as (? & _ & E). case_match; [done|].
  apply bind_Ok_inv in E as (? & _ & E). by apply bind_Ok_inv in E as (? & _ & [= <-]).
Qed.

Lemma handle_msg_params c tx i m u (s s' : @anteState auth bank) u' maxGas :
  handle_msg evm_CanTransfer IntrinsicGas maxGas c tx i m u s = (s', Ok u') -> u_EvmParams u' = u_EvmParams u.
Proof.
  unfold handle_msg. cbv zeta. intros E. apply st_bind_Ok_inv in E as (? & [em t] & _ & E).
  repeat (apply st_bind_Ok_inv in E as (? & ? & _ & E)). destruct (ak_GetAccount _ _); [|done].
  repeat (apply st_bind_Ok_inv in E as (? & ? & _ & E)). by injection E as _ <-.
Qed.

(** the mono decorator accepts only signed Ethereum messages *)
Lemma mono_signed c tx maxGas msgs : forall i u (s s' : @anteState auth bank) u',
  u_EvmParams u = c_EvmParams c -> handle_msgs evm_CanTransfer IntrinsicGas maxGas c tx i (map to_sdk msgs) u s = (s', Ok u') ->
  Forall (signed_eth c) msgs.
Proof.
  induction msgs as [|m msgs IH]; intros i u s s' u' Hu E; [constructor|]. cbn [map handle_msgs] in E.
  apply st_bind_Ok_inv in E as (s1 & u1 & E1 & E). pose proof (handle_msg_params _ _ _ _ _ _ _ _ _ E1) as Hp.
  apply handle_msg_Ok in E1 as (em & t & sender & fee & Hm & Hd & Hf & Hs & Hpr & _). constructor.
  - destruct m as [m|]; [|done]. injection Hm as ->. exists em, t, sender. rewrite <-Hu. by split_and!.
  - eapply IH; [|exact E]. congruence.
Qed.

Lemma reject_Ok msgs : RejectMessagesDecorator (map to_sdk msgs) = Ok () -> Forall (fun m => exists am, m = AppMsg am) msgs.
Proof. induction msgs as [|[m|m] msgs IH]; cbn; [constructor|done|]. intros E. constructor; [by exists m|by apply IH]. Qed.

(** the chain of Cosmos transactions accepts no Ethereum message *)
Lemma cosmos_not_eth c tx s s' : newCosmosAnteHandler sdk IsAnyGTE c tx s = (s', Ok ()) -> Forall not_eth (ap_Msgs tx).
Proof.
  unfold newCosmosAnteHandler. cbn [ChainAnteDecorators]. intros E. apply st_bind_Ok_inv in E as (s1 & [] & E1 & E).
  apply st_bind_Ok_inv in E as (s2 & [] & E2 & _). unfold reject_messages, limit_authz, check in *. injection E1 as _ Er. injection E2 as _ Ea.
  apply reject_Ok in Er. apply authz_limiter_harmless in Ea. rewrite Forall_forall in Er. rewrite Forall_forall in Ea. apply Forall_forall. intros m Hm. destruct (Er m Hm) as [am ->].
  destruct (Ea am) as [Hh Hd]; [apply (list_elem_of_fmap_2 to_authz _ (AppMsg am)), Hm|]. exists am. split_and!; [done|done|]. intros url Hu. by destruct (Hh url Hu) as (? & ? & _).
Qed.

(** C37: Ethereum messages run only with an Ethereum signature. A transaction that
    the application accepts either has the extension option of Ethereum
    transactions, passed the mono decorator and consists of Ethereum messages
    whose sender was recovered from the signature; or it contains no Ethereum
    message, directly or inside [MsgExec] at any depth, and grants nobody the
    right to send one. *)
Theorem ethereum_messages_are_signed o c tx s s' :
  handler o c tx s = (s', Ok ()) ->
  (exists prio opts, ap_ExtensionOptions tx = Some (ExtensionOptionsEthereumTx :: opts) /\ Forall (signed_eth c) (ap_Msgs tx) /\
     AnteHandle evm_CanTransfer IntrinsicGas (ho_MaxTxGasWanted o) c (sdk_of tx) s = (s', Ok prio)) \/
  Forall not_eth (ap_Msgs tx).
Proof.
  unfold NewAnteHandler. intros E. destruct (ap_ExtensionOptions tx) as [[|url opts]|] eqn:Ho; [right; by eapply cosmos_not_eth|..|right; by eapply cosmos_not_eth].
  destruct (String.eqb_spec url ExtensionOptionsEthereumTx) as [->|]; [left|destruct (String.eqb url _); [right; by eapply cosmos_not_eth|done]].
  unfold newMonoEVMAnteHandler in E. cbn [ChainAnteDecorators] in E. apply st_bind_Ok_inv in E as (s1 & [] & E & [= <-]).
  apply st_bind_Ok_inv in E as (s2 & prio & E & [= <-]). exists prio, opts. split_and!; [done| |done].
  destruct (AnteHandle_Ok _ _ _ _ _ _ _ _ E) as (info & u & s3 & u' & _ & Hu & Hh & _). eapply mono_signed; [|exact Hh]. by eapply utils_params.
Qed.
End Theorems.

(** ** Concrete runs *)

#[local] Existing Instance sdk_math_Z.
#[local] Existing Instance c_signer.

Definition pass : @decorator (gmap address cAcct) cbank := fun _ _ s => (s, Ok ()).
Definition c_sdk : @sdkDecorators (gmap address cAcct) cbank :=
  mkSdkDecorators pass pass pass pass pass pass pass pass pass pass pass pass pass.
Definition c_options : HandlerOptions := mkHandlerOptions true true true true true true true true true true 0 true.
Definition c_handler := NewAnteHandler c_sdk c_IsAnyGTE c_CanTransfer cIntrinsic c_options c_ctx.

Definition c_apptx : appTx := mkAppTx [AppEth c_ethmsg] (Some [ExtensionOptionsEthereumTx]) None c_tx.
(** the same message without the option, and inside [MsgExec] *)
Definition c_hidden : appTx := mkAppTx [AppEth c_ethmsg] (Some [ExtensionOptionDynamicFeeTx]) (Some c_feetx) c_tx.
Definition c_nested : appTx := mkAppTx [AppMsg (MsgExec (Some [MsgOther MsgEthereumTxURL]))] None (Some c_feetx) c_tx.
Definition c_plain : appTx := mkAppTx [AppMsg (MsgExec (Some [MsgOther "/cosmos.bank.v1beta1.MsgSend"]))] None (Some c_feetx) c_tx.

Lemma ethereum_messages_are_signed_witness : Forall (signed_eth c_ctx) (ap_Msgs c_apptx).
Proof.
  assert (E : c_handler c_apptx c_ante0 = ((c_handler c_apptx c_ante0).1, Ok ())) by (vm_compute; reflexivity).
  destruct (ethereum_messages_are_signed c_sdk c_IsAnyGTE c_CanTransfer cIntrinsic c_options c_ctx c_apptx c_ante0 _ E) as [(prio & opts & _ & Hs & _)|Hn].
  - exact Hs.
  - inversion Hn as [|? ? (am & Hm & _) _]. discriminate Hm.
Defined.

Example hidden_and_nested_messages_are_rejected :
  (c_handler c_hidden c_ante0).2 = Err ErrInvalidType /\ (c_handler c_nested c_ante0).2 = Err ErrUnauthorized /\ (c_handler c_plain c_ante0).2 = Ok ().
Proof. split_and!; vm_compute; reflexivity. Qed.
End AppAnteTheorems.
