(* ===== verification/Erc20.v ===== *)
(** * Token pairs, their precompiles and conversions ([x/erc20])

    [keeper/token_pairs.go], [proposals.go], [mint.go], [params.go],
    [precompiles.go], [dynamic_precompiles.go], [msg_server.go], [types/params.go],
    [types/token_pair.go] and [genesis.go]. The accounts and the bank are those of
    the EVM keeper ([VmStore]). The code of the ERC-20 contracts is a parameter. *)

From stdpp Require Import base gmap list numbers strings sorting.
From Stdlib Require Import ZArith Lia.
From S2P Require Import Prelude SdkMath Scaling AccessList StateDB StateDBCommit VmStore TxData VmParams.

Module Erc20.

Definition ErrTokenPairNotFound : error := "token pair not found".
Definition ErrTokenPairAlreadyExists : error := "token pair already exists".
Definition ErrInternalTokenPair : error := "internal ethereum token mapping error".
Definition ErrERC20Disabled : error := "erc20 module is disabled".
Definition ErrERC20TokenPairDisabled : error := "erc20 token pair is disabled".
Definition ErrUnauthorized : error := "unauthorized".
Definition ErrSendDisabled : error := "send transactions are disabled".
Definition ErrNativeConversionDisabled : error := "native coins manual conversion is disabled".
Definition ErrUndefinedOwner : error := "undefined owner of contract pair".
Definition ErrEVMCall : error := "EVM call unexpected error".
Definition ErrABIUnpack : error := "contract ABI unpack failed".
Definition ErrLogic : error := "internal logic error".
Definition ErrBalanceInvariance : error := "post-transfer balance invariant failed".
Definition ErrUnexpectedEvent : error := "unexpected event".
Definition ErrDuplicatePrecompile : error := "duplicate precompile".
Definition ErrDuplicateRegistration : error := "attempted to register a duplicate precompile address".
Definition ErrInvalidPrecompile : error := "invalid precompile".
Definition ErrUnsortedPrecompiles : error := "precompiles need to be sorted".
Definition ErrGenesisDuplicate : error := "duplicated on genesis".
Definition ErrGenesisPrecompile : error := "precompile address not found in token pairs".
Definition PanicModuleAccount : error := "the erc20 module account has not been set".
Definition ErrPrecompileNotInitialized : error := "precompiled contract not initialized".
Definition ErrInvalidDenomForTransfer : error := "invalid denomination for cross-chain transfer".
Definition ModuleName : string := "erc20".

(** ** Data *)

Inductive Owner := OWNER_UNSPECIFIED | OWNER_MODULE | OWNER_EXTERNAL.

Record TokenPair := mkTokenPair {
  Erc20Address : string;
  Denom : string;
  Enabled : bool;
  ContractOwner : Owner
}.

Record Params := mkParams {
  EnableErc20 : bool;
  NativePrecompiles : list string;
  DynamicPrecompiles : list string
}.

Definition DefaultParams : Params := mkParams true [] [].

Definition IsNativeCoin (p : TokenPair) : bool :=
  match ContractOwner p with OWNER_MODULE => true | _ => false end.
Definition IsNativeERC20 (p : TokenPair) : bool :=
  match ContractOwner p with OWNER_EXTERNAL => true | _ => false end.

(** [types.ERC20Data], [banktypes.DenomUnit] (no aliases here) and [banktypes.Metadata] *)
Record ERC20Data := mkERC20Data { ed_Name : string; ed_Symbol : string; ed_Decimals : Z }.
Record DenomUnit := mkDenomUnit { du_Denom : string; du_Exponent : Z }.
Record Metadata := mkMetadata {
  md_Description : string;
  md_Base : string;
  md_DenomUnits : list DenomUnit;
  md_Name : string;
  md_Symbol : string;
  md_Display : string
}.

(** What the module calls outside the repository or through the EVM.
    - [tmhash_Sum]: SHA-256; [ParseHexHash] of ibc-go; [TrimSpace] of [strings];
    - [Erc20Bytecode]: the bytes of [types.Erc20Bytecode];
    - [call_name], [call_symbol], [call_decimals], [call_balanceOf]: a call of the
      contract that is not committed, [Ok None] when its answer cannot be unpacked;
    - [call_transfer store sender contract to amount]: a committed call; the
      answer, [None] when it cannot be unpacked, and the first topic of each log,
      [None] for a log without topics;
    - [Metadata_Validate], [BlockedAddr], [IsSendEnabledCoin] of the bank;
    - [validAddress]: [AddressCodec().StringToBytes] has no error;
      [sdk.ValidateDenom]. *)
Class Erc20Env (auth bank : Type) := {
  tmhash_Sum : string -> Z;
  ParseHexHash : string -> res bytes;
  TrimSpace : string -> string;
  Erc20Bytecode : bytes;
  call_name : @VmKeeper.evmStore auth bank -> address -> res (option string);
  call_symbol : @VmKeeper.evmStore auth bank -> address -> res (option string);
  call_decimals : @VmKeeper.evmStore auth bank -> address -> res (option Z);
  call_balanceOf : @VmKeeper.evmStore auth bank -> address -> address -> res (option Z);
  call_transfer : @VmKeeper.evmStore auth bank -> address -> address -> address -> Z ->
    @VmKeeper.evmStore auth bank * res (option bool * list (option hash));
  Metadata_Validate : Metadata -> res unit;
  BlockedAddr : address -> bool;
  IsSendEnabledCoin : @VmKeeper.evmStore auth bank -> string -> bool;
  validAddress : string -> bool;
  ValidateDenom : string -> res unit;
  approvalTopic : hash;
  ModuleAddress : address
}.

(** ** Names of tokens ([types/utils.go])

    The two regular expressions on bytes: a character outside ASCII is removed
    whole, and so is each of its bytes here. *)

Definition is_digit (c : Ascii.ascii) : bool := let n := Ascii.nat_of_ascii c in (48 <=? n)%nat && (n <=? 57)%nat.
Definition is_letter (c : Ascii.ascii) : bool :=
  let n := Ascii.nat_of_ascii c in ((65 <=? n) && (n <=? 90))%nat || ((97 <=? n) && (n <=? 122))%nat.
Definition is_newline (c : Ascii.ascii) : bool := (Ascii.nat_of_ascii c =? 10)%nat.
(** [a-zA-Z0-9/-] *)
Definition is_name_char (c : Ascii.ascii) : bool :=
  is_letter c || is_digit c || (Ascii.nat_of_ascii c =? 47)%nat || (Ascii.nat_of_ascii c =? 45)%nat.

(** [(?m)^(\d+)]: the digits a line starts with *)
Fixpoint remove_leading (start : bool) (str : string) : string :=
  match str with
  | EmptyString => EmptyString
  | String c str =>
      if start && is_digit c then remove_leading true str
      else String c (remove_leading (is_newline c) str)
  end.
Definition removeLeadingNumbers (str : string) : string := remove_leading true str.

Fixpoint filter_string (f : Ascii.ascii -> bool) (str : string) : string :=
  match str with
  | EmptyString => EmptyString
  | String c str => if f c then String c (filter_string f str) else filter_string f str
  end.

(** [^[^A-Za-z]|[^a-zA-Z0-9/-]]: a first character that is not a letter and
    every character that is not allowed *)
Definition removeSpecialChars (str : string) : string :=
  match str with
  | EmptyString => EmptyString
  | String c str => if is_letter c then String c (filter_string is_name_char str) else filter_string is_name_char str
  end.

Definition drop_string (n : nat) (str : string) : string := String.substring n (String.length str - n) str.

Fixpoint remove_prefixes (fuel : nat) (str : string) : string :=
  match fuel with
  | O => str
  | S fuel =>
      if String.prefix "ibc/" str then remove_prefixes fuel (drop_string 4 str)
      else if String.prefix "erc20/" str then remove_prefixes fuel (drop_string 6 str)
      else str
  end.
Definition removeInvalidPrefixes (str : string) : string := remove_prefixes (String.length str) str.

Definition SanitizeERC20Name (name : string) : string :=
  let name := removeLeadingNumbers name in
  let name := removeSpecialChars name in
  let name := if (128 <? String.length name)%nat then String.substring 0 128 name else name in
  removeInvalidPrefixes name.

Section Keeper.
Context `{!EthHex} `{!SdkMath} `{!EvmEnv}.
Context {auth acct bank : Type} `{!AccountKeeper auth acct} `{!BankKeeper bank} `{!Erc20Env auth bank}.
Abbreviation vstore := (@VmKeeper.evmStore auth bank).

Definition GetID (p : TokenPair) : Z := tmhash_Sum (Erc20Address p ++ "|" ++ Denom p)%string.
Definition GetERC20Contract (p : TokenPair) : address := HexToAddress (Erc20Address p).

Definition NewTokenPair (erc20Address : address) (denom : string) (contractOwner : Owner) : TokenPair :=
  mkTokenPair (addr_Hex erc20Address) denom true contractOwner.

(** [utils.GetIBCDenomAddress] *)
Definition GetIBCDenomAddress (denom : string) : res address :=
  if negb (String.prefix "ibc/" denom) then Err ErrInvalidDenomForTransfer
  else
    let suffix := String.substring 4 (String.length denom - 4) denom in
    if (String.length denom <? 5)%nat || String.eqb (TrimSpace suffix) "" then Err ErrInvalidDenomForTransfer
    else match ParseHexHash suffix with
         | Ok bz => Ok (be_value bz `mod` 2 ^ 160)
         | Err _ => Err ErrInvalidDenomForTransfer
         | Panic e => Panic e
         end.

Definition NewTokenPairSTRv2 (denom : string) : res TokenPair :=
  let? address := GetIBCDenomAddress denom in
  Ok (mkTokenPair (addr_Hex address) denom true OWNER_MODULE).

(** ** State

    The three indexes of the token pairs, the parameters as they are stored (a
    flag and two concatenations of addresses), the denominations with metadata
    in the bank, and the store of the EVM keeper. *)

Record ercState := mkErcState {
  er_pairs : gmap Z TokenPair;
  er_byERC20 : gmap address Z;
  er_byDenom : gmap string Z;
  er_enabled : bool;
  er_dynamic : string;
  er_native : string;
  er_metadata : gmap string Metadata;
  er_store : vstore
}.
Implicit Types s : ercState.

Definition with_tokens pairs byERC20 byDenom s : ercState :=
  mkErcState pairs byERC20 byDenom (er_enabled s) (er_dynamic s) (er_native s) (er_metadata s) (er_store s).
Definition with_params enabled dynamic native s : ercState :=
  mkErcState (er_pairs s) (er_byERC20 s) (er_byDenom s) enabled dynamic native (er_metadata s) (er_store s).
Definition with_metadata md s : ercState :=
  mkErcState (er_pairs s) (er_byERC20 s) (er_byDenom s) (er_enabled s) (er_dynamic s) (er_native s) md (er_store s).
Definition with_store st s : ercState :=
  mkErcState (er_pairs s) (er_byERC20 s) (er_byDenom s) (er_enabled s) (er_dynamic s) (er_native s) (er_metadata s) st.
Definition with_bank b s : ercState := with_store (VmKeeper.with_bank b (er_store s)) s.

(** ** Token pairs ([token_pairs.go]) *)

Definition GetERC20Map s (erc20 : address) : option Z := er_byERC20 s !! erc20.
Definition GetDenomMap s (denom : string) : option Z := er_byDenom s !! denom.
Definition SetERC20Map s (erc20 : address) (id : Z) : ercState :=
  with_tokens (er_pairs s) (<[erc20 := id]> (er_byERC20 s)) (er_byDenom s) s.
Definition SetDenomMap s (denom : string) (id : Z) : ercState :=
  with_tokens (er_pairs s) (er_byERC20 s) (<[denom := id]> (er_byDenom s)) s.
Definition SetTokenPair s (p : TokenPair) : ercState :=
  with_tokens (<[GetID p := p]> (er_pairs s)) (er_byERC20 s) (er_byDenom s) s.

Definition GetTokenPairID s (token : string) : option Z :=
  if IsHexAddress token then GetERC20Map s (HexToAddress token) else GetDenomMap s token.
Definition GetTokenPair s (id : option Z) : option TokenPair :=
  match id with None => None | Some id => er_pairs s !! id end.

Definition deleteTokenPair s (id : Z) : ercState :=
  with_tokens (delete id (er_pairs s)) (er_byERC20 s) (er_byDenom s) s.
Definition deleteERC20Map s (erc20 : address) : ercState :=
  with_tokens (er_pairs s) (delete erc20 (er_byERC20 s)) (er_byDenom s) s.
Definition deleteDenomMap s (denom : string) : ercState :=
  with_tokens (er_pairs s) (er_byERC20 s) (delete denom (er_byDenom s)) s.
Definition DeleteTokenPair s (p : TokenPair) : ercState :=
  deleteDenomMap (deleteERC20Map (deleteTokenPair s (GetID p)) (GetERC20Contract p)) (Denom p).

Definition IsERC20Registered s (erc20 : address) : bool := bool_decide (is_Some (er_byERC20 s !! erc20)).
Definition IsDenomRegistered s (denom : string) : bool := bool_decide (is_Some (er_byDenom s !! denom)).

Definition SetToken s (p : TokenPair) : ercState :=
  SetERC20Map (SetDenomMap (SetTokenPair s p) (Denom p) (GetID p)) (GetERC20Contract p) (GetID p).

Definition CreateNewTokenPair s (denom : string) : ercState * res TokenPair :=
  do? s, tp := (s, NewTokenPairSTRv2 denom) in (SetToken s tp, Ok tp).

Definition GetCoinAddress s (denom : string) : res address :=
  match GetDenomMap s denom with
  | None => GetIBCDenomAddress denom
  | Some id => match GetTokenPair s (Some id) with
               | None => Err ErrTokenPairNotFound
               | Some p => Ok (GetERC20Contract p)
               end
  end.

Definition GetTokenDenom s (tokenAddress : address) : res string :=
  match GetERC20Map s tokenAddress with
  | None => Err ErrTokenPairNotFound
  | Some id => match GetTokenPair s (Some id) with
               | None => Err ErrTokenPairNotFound
               | Some p => Ok (Denom p)
               end
  end.

Definition toggleConversion s (token : string) : ercState * res TokenPair :=
  match GetTokenPairID s token with
  | None => (s, Err ErrTokenPairNotFound)
  | Some id =>
      match GetTokenPair s (Some id) with
      | None => (s, Err ErrTokenPairNotFound)
      | Some p =>
          let p := mkTokenPair (Erc20Address p) (Denom p) (negb (Enabled p)) (ContractOwner p) in
          (SetTokenPair s p, Ok p)
      end
  end.

(** ** Code hashes of the precompiles ([dynamic_precompiles.go]) *)

Definition set_code_hash (codeHash : hash) (a : address) (st : vstore) : vstore * res unit :=
  do? st, acc := (st, VmKeeper.GetAccount st a) in
  let '(nonce, balance) := match acc with
                           | Some x => (acc_Nonce x, acc_Balance x)
                           | None => (0, Some 0)
                           end in
  VmKeeper.SetAccount st a (mkAccount nonce balance (Some codeHash)).

Definition RegisterERC20CodeHash (a : address) (st : vstore) : vstore * res unit :=
  let codeHash := keccak Erc20Bytecode in
  let st := match VmKeeper.GetCode st codeHash with
            | None | Some [] => VmKeeper.SetCode st codeHash Erc20Bytecode
            | Some _ => st
            end in
  set_code_hash codeHash a st.

Definition UnRegisterERC20CodeHash (a : address) (st : vstore) : vstore * res unit :=
  set_code_hash EmptyCodeHash a st.

(** ** Parameters ([params.go]) *)

Definition addressLength : nat := 42.

(** the addresses one after the other *)
Definition precompiles_bytes (l : list string) : string := foldr String.append EmptyString l.

(** [getDynamicPrecompiles] and [getNativePrecompiles] cut the bytes every
    [addressLength]. A slice past the end panics, as the bytes read from the
    database have no spare capacity. *)
Fixpoint cut_precompiles (fuel : nat) (bz : string) : res (list string) :=
  match fuel with
  | O => Ok []
  | S fuel =>
      if (String.length bz =? 0)%nat then Ok []
      else if (String.length bz <? addressLength)%nat then Panic PanicSlice
      else
        let? l := cut_precompiles fuel (String.substring addressLength (String.length bz - addressLength) bz) in
        Ok (String.substring 0 addressLength bz :: l)
  end.
Definition read_precompiles (bz : string) : res (list string) := cut_precompiles (String.length bz) bz.

Definition getDynamicPrecompiles s : res (list string) := read_precompiles (er_dynamic s).
Definition getNativePrecompiles s : res (list string) := read_precompiles (er_native s).

Definition NewParams (enableErc20 : bool) (nativePrecompiles dynamicPrecompiles : list string) : Params :=
  mkParams enableErc20 (SortSlice nativePrecompiles) (SortSlice dynamicPrecompiles).

Definition GetParams s : res Params :=
  let? dynamicPrecompiles := getDynamicPrecompiles s in
  let? nativePrecompiles := getNativePrecompiles s in
  Ok (NewParams (er_enabled s) nativePrecompiles dynamicPrecompiles).

Fixpoint validate_addresses (l : list string) : res (list address) :=
  match l with
  | [] => Ok []
  | a :: l => match ValidateAddress a with
              | Ok _ => let? l := validate_addresses l in Ok (HexToAddress a :: l)
              | _ => Err ErrInvalidPrecompile
              end
  end.
Definition ValidatePrecompiles (l : list string) : res (list address) :=
  let? addrs := validate_addresses l in
  if IsSorted l then Ok addrs else Err ErrUnsortedPrecompiles.

Fixpoint uniqueness_loop (seen : gset string) (l : list address) : res unit :=
  match l with
  | [] => Ok ()
  | a :: l => if bool_decide (addr_Hex a ∈ seen) then Err ErrDuplicatePrecompile
              else uniqueness_loop ({[addr_Hex a]} ∪ seen) l
  end.
Definition validatePrecompilesUniqueness (l : list address) : res unit := uniqueness_loop ∅ l.

Definition Validate (p : Params) : res unit :=
  let? npAddrs := ValidatePrecompiles (NativePrecompiles p) in
  let? dpAddrs := ValidatePrecompiles (DynamicPrecompiles p) in
  validatePrecompilesUniqueness (dpAddrs ++ npAddrs).

Definition isAddrIncluded (a : address) (l : list string) : bool :=
  existsb (fun sa => a =? HexToAddress sa) l.
Definition IsNativePrecompile (p : Params) (a : address) : bool := isAddrIncluded a (NativePrecompiles p).
Definition IsDynamicPrecompile (p : Params) (a : address) : bool := isAddrIncluded a (DynamicPrecompiles p).

(** the first loop of [RegisterOrUnregisterERC20CodeHashes] and the second *)
Fixpoint unregister_loop (oldPrecompiles newPrecompiles : list string) (st : vstore) : vstore * res unit :=
  match oldPrecompiles with
  | [] => (st, Ok ())
  | p :: old =>
      if contains newPrecompiles p then unregister_loop old newPrecompiles st
      else do? st, _ := UnRegisterERC20CodeHash (HexToAddress p) st in unregister_loop old newPrecompiles st
  end.
Fixpoint register_loop (newPrecompiles oldPrecompiles : list string) (st : vstore) : vstore * res unit :=
  match newPrecompiles with
  | [] => (st, Ok ())
  | p :: new =>
      if contains oldPrecompiles p then register_loop new oldPrecompiles st
      else do? st, _ := RegisterERC20CodeHash (HexToAddress p) st in register_loop new oldPrecompiles st
  end.
Definition RegisterOrUnregisterERC20CodeHashes (oldPrecompiles newPrecompiles : list string) (st : vstore)
    : vstore * res unit :=
  do? st, _ := unregister_loop oldPrecompiles newPrecompiles st in
  register_loop newPrecompiles oldPrecompiles st.

Definition UpdateCodeHash s (newParams : Params) : ercState * res unit :=
  do? s, oldNativePrecompiles := (s, getNativePrecompiles s) in
  do? s, oldDynamicPrecompiles := (s, getDynamicPrecompiles s) in
  let '(st, r) :=
    (do? st, _ := RegisterOrUnregisterERC20CodeHashes oldDynamicPrecompiles (DynamicPrecompiles newParams) (er_store s) in
     RegisterOrUnregisterERC20CodeHashes oldNativePrecompiles (NativePrecompiles newParams) st) in
  (with_store st s, r).

Definition SetParams s (newParams : Params) : ercState * res unit :=
  let newParams := mkParams (EnableErc20 newParams) (SortSlice (NativePrecompiles newParams))
                     (SortSlice (DynamicPrecompiles newParams)) in
  do? s, _ := (s, Validate newParams) in
  do? s, _ := UpdateCodeHash s newParams in
  (with_params (EnableErc20 newParams) (precompiles_bytes (DynamicPrecompiles newParams))
     (precompiles_bytes (NativePrecompiles newParams)) s, Ok ()).

Definition UpdateParams (authority : string) s (reqAuthority : string) (p : Params) : ercState * res unit :=
  if String.eqb authority reqAuthority then SetParams s p else (s, Err ErrInvalidSigner).

Fixpoint hexAddresses (existingPrecompiles : list string) (addresses : list address) : res (list string) :=
  match addresses with
  | [] => Ok []
  | a :: addresses =>
      if contains existingPrecompiles (addr_Hex a) then Err ErrDuplicateRegistration
      else let? l := hexAddresses existingPrecompiles addresses in Ok (addr_Hex a :: l)
  end.
Definition appendPrecompiles (existingPrecompiles : list string) (addresses : list address) : res (list string) :=
  let? hex := hexAddresses existingPrecompiles addresses in
  Ok (SortSlice (existingPrecompiles ++ hex)).

Definition EnableDynamicPrecompiles s (addresses : list address) : ercState * res unit :=
  do? s, params := (s, GetParams s) in
  do? s, updated := (s, appendPrecompiles (DynamicPrecompiles params) addresses) in
  SetParams s (mkParams (EnableErc20 params) (NativePrecompiles params) updated).

Definition RegisterERC20Extension s (denom : string) : ercState * res TokenPair :=
  do? s, tp := CreateNewTokenPair s denom in
  do? s, _ := EnableDynamicPrecompiles s [GetERC20Contract tp] in
  (s, Ok tp).

(** ** Precompiles ([precompiles.go]) *)

(** [werc20.NewPrecompile] or [erc20.NewPrecompile] of a pair *)
Record ercPrecompile := mkErcPrecompile { ep_pair : TokenPair; ep_wrapped : bool }.

Definition IsAvailableERC20Precompile (p : Params) (a : address) : bool :=
  IsNativePrecompile p a || IsDynamicPrecompile p a.

Definition InstantiateERC20Precompile s (contractAddr : address) (hasWrappedMethods : bool)
    : res ercPrecompile :=
  match GetTokenPairID s (addr_Hex contractAddr) with
  | None => Err ErrPrecompileNotInitialized
  | Some id => match GetTokenPair s (Some id) with
               | None => Err ErrPrecompileNotInitialized
               | Some tp => Ok (mkErcPrecompile tp hasWrappedMethods)
               end
  end.

Definition GetERC20PrecompileInstance s (a : address) : res (option ercPrecompile) :=
  let? params := GetParams s in
  if negb (IsAvailableERC20Precompile params a) then Ok None
  else let? p := InstantiateERC20Precompile s a (IsNativePrecompile params a) in Ok (Some p).

(** ** Registration ([proposals.go], [msg_server.go]) *)

Definition unpack {A} (r : res (option A)) : res A :=
  let? r := r in match r with Some x => Ok x | None => Err ErrABIUnpack end.

Definition QueryERC20 (st : vstore) (contract : address) : res ERC20Data :=
  let? name := unpack (call_name st contract) in
  let? symbol := unpack (call_symbol st contract) in
  let? decimals := unpack (call_decimals st contract) in
  Ok (mkERC20Data name symbol decimals).

Definition CreateDenom (address : string) : string := (ModuleName ++ "/" ++ address)%string.
Definition CreateDenomDescription (address : string) : string :=
  ("Cosmos coin token representation of " ++ address)%string.

Definition CreateCoinMetadata s (contract : address) : ercState * res Metadata :=
  let strContract := addr_Hex contract in
  do? s, erc20Data := (s, QueryERC20 (er_store s) contract) in
  if bool_decide (is_Some (er_metadata s !! CreateDenom strContract)) then (s, Err ErrInternalTokenPair)
  else if IsDenomRegistered s (CreateDenom strContract) then (s, Err ErrInternalTokenPair)
  else
    let base := CreateDenom strContract in
    let '(units, display) :=
      if 0 <? ed_Decimals erc20Data then
        let nameSanitized := SanitizeERC20Name (ed_Name erc20Data) in
        ([mkDenomUnit base 0; mkDenomUnit nameSanitized (ed_Decimals erc20Data)], nameSanitized)
      else ([mkDenomUnit base 0], base) in
    let metadata := mkMetadata (CreateDenomDescription strContract) base units (CreateDenom strContract)
                      (ed_Symbol erc20Data) display in
    do? s, _ := (s, Metadata_Validate metadata) in
    (with_metadata (<[base := metadata]> (er_metadata s)) s, Ok metadata).

Definition registerERC20 s (contract : address) : ercState * res TokenPair :=
  if IsERC20Registered s contract then (s, Err ErrTokenPairAlreadyExists)
  else
    do? s, metadata := CreateCoinMetadata s contract in
    let tp := NewTokenPair contract (md_Name metadata) OWNER_EXTERNAL in
    (SetToken s tp, Ok tp).

Fixpoint register_addresses s (l : list string) : ercState * res unit :=
  match l with
  | [] => (s, Ok ())
  | a :: l =>
      if negb (IsHexAddress a) then (s, Err ErrInvalidAddress)
      else do? s, _ := registerERC20 s (HexToAddress a) in register_addresses s l
  end.

Definition validateAuthority (authority reqAuthority : string) : res unit :=
  if negb (validAddress reqAuthority) then Err ErrInvalidAddress
  else if String.eqb authority reqAuthority then Ok () else Err ErrInvalidSigner.

Definition RegisterERC20 (authority : string) s (reqAuthority : string) (l : list string) : ercState * res unit :=
  if negb (er_enabled s) then (s, Err ErrERC20Disabled)
  else
    do? s, _ := (s, validateAuthority authority reqAuthority) in
    register_addresses s l.

Definition ToggleConversion (authority : string) s (reqAuthority token : string) : ercState * res unit :=
  if negb (er_enabled s) then (s, Err ErrERC20Disabled)
  else
    do? s, _ := (s, validateAuthority authority reqAuthority) in
    do? s, _ := toggleConversion s token in (s, Ok ()).

(** ** Conversions ([mint.go], [msg_server.go]) *)

Definition MintingEnabled s (sender receiver : address) (token : string) : res TokenPair :=
  if negb (er_enabled s) then Err ErrERC20Disabled
  else
    match GetTokenPairID s token with
    | None => Err ErrTokenPairNotFound
    | Some id =>
        match GetTokenPair s (Some id) with
        | None => Err ErrTokenPairNotFound
        | Some tp =>
            if negb (Enabled tp) then Err ErrERC20TokenPairDisabled
            else if BlockedAddr receiver then Err ErrUnauthorized
            else if negb (sender =? receiver) && negb (IsSendEnabledCoin (er_store s) (Denom tp))
            then Err ErrSendDisabled
            else Ok tp
        end
    end.

(** nil when the call or the decoding fails *)
Definition BalanceOf (st : vstore) (contract account : address) : option Z :=
  match call_balanceOf st contract account with
  | Ok (Some balance) => Some balance
  | _ => None
  end.

Fixpoint monitorApprovalEvent (logs : list (option hash)) : res unit :=
  match logs with
  | [] => Ok ()
  | None :: _ => Panic PanicSlice
  | Some t :: logs => if t =? approvalTopic then Err ErrUnexpectedEvent else monitorApprovalEvent logs
  end.

Definition checked_transfer (st : vstore) (sender contract to : address) (amount : Z)
    : vstore * res (list (option hash)) :=
  do? st, r := call_transfer st sender contract to amount in
  match r with
  | (None, _) => (st, Err ErrABIUnpack)
  | (Some false, _) => (st, Err ErrLogic)
  | (Some true, logs) => (st, Ok logs)
  end.

Definition lift {A} (s : ercState) (m : vstore * res A) : ercState * res A :=
  (with_store m.1 s, m.2).
Definition lift_bank {A} (s : ercState) (m : bank * res A) : ercState * res A :=
  (with_bank m.1 s, m.2).
Definition bank_of s : bank := VmKeeper.es_bank (er_store s).

Definition convertERC20IntoCoinsForNativeToken s (tp : TokenPair) (amount : Z) (receiver sender : address)
    : ercState * res unit :=
  let contract := GetERC20Contract tp in
  let balanceCoin := bk_GetBalance (bank_of s) receiver (Denom tp) in
  match BalanceOf (er_store s) contract ModuleAddress with
  | None => (s, Err ErrEVMCall)
  | Some balanceToken =>
      do? s, logs := lift s (checked_transfer (er_store s) sender contract ModuleAddress amount) in
      let coins := [mkCoin (Denom tp) amount] in
      match BalanceOf (er_store s) contract ModuleAddress with
      | None => (s, Err ErrEVMCall)
      | Some balanceTokenAfter =>
          if negb (balanceTokenAfter =? balanceToken + amount) then (s, Err ErrBalanceInvariance)
          else
            do? s, _ := lift_bank s (bk_MintCoins (bank_of s) ModuleName coins) in
            do? s, _ := lift_bank s (bk_SendCoinsFromModuleToAccount (bank_of s) ModuleName receiver coins) in
            do? s, expCoin := (s, int_Add balanceCoin amount) in
            if negb (bk_GetBalance (bank_of s) receiver (Denom tp) =? expCoin)
            then (s, Err ErrBalanceInvariance)
            else (s, monitorApprovalEvent logs)
      end
  end.

Definition ConvertERC20 s (token : string) (amount : Z) (receiver sender : address) : ercState * res unit :=
  do? s, tp := (s, MintingEnabled s sender receiver token) in
  if IsNativeERC20 tp then
    let acc := VmKeeper.GetAccountWithoutBalance (er_store s) (GetERC20Contract tp) in
    if match acc with None => true | Some acc => negb (IsContract acc) end
    then (DeleteTokenPair s tp, Ok ())
    else convertERC20IntoCoinsForNativeToken s tp amount receiver sender
  else if IsNativeCoin tp then (s, Err ErrNativeConversionDisabled)
  else (s, Err ErrUndefinedOwner).

Definition ConvertCoinNativeERC20 s (tp : TokenPair) (amount : Z) (receiver sender : address)
    : ercState * res unit :=
  if negb (0 <? amount) then (s, Ok ())
  else
    let contract := GetERC20Contract tp in
    match BalanceOf (er_store s) contract receiver with
    | None => (s, Err ErrEVMCall)
    | Some balanceToken =>
        let coins := [mkCoin (Denom tp) amount] in
        do? s, _ := lift_bank s (bk_SendCoinsFromAccountToModule (bank_of s) sender ModuleName coins) in
        do? s, logs := lift s (checked_transfer (er_store s) ModuleAddress contract receiver amount) in
        match BalanceOf (er_store s) contract receiver with
        | None => (s, Err ErrEVMCall)
        | Some balanceTokenAfter =>
            if negb (balanceTokenAfter =? balanceToken + amount) then (s, Err ErrBalanceInvariance)
            else
              do? s, _ := lift_bank s (bk_BurnCoins (bank_of s) ModuleName coins) in
              (s, monitorApprovalEvent logs)
        end
    end.

(** ** Genesis ([genesis.go], [types/genesis.go]) *)

(** [TokenPair.Validate] *)
Definition TokenPair_Validate (p : TokenPair) : res unit :=
  let? _ := ValidateDenom (Denom p) in ValidateAddress (Erc20Address p).

(** the loop over the pairs in [GenesisState.Validate] *)
Fixpoint validate_pairs (seenErc20 seenDenom : gset string) (pairs : list TokenPair) : res unit :=
  match pairs with
  | [] => Ok ()
  | b :: pairs =>
      if bool_decide (Erc20Address b ∈ seenErc20) then Err ErrGenesisDuplicate
      else if bool_decide (Denom b ∈ seenDenom) then Err ErrGenesisDuplicate
      else
        let? _ := TokenPair_Validate b in
        validate_pairs ({[Erc20Address b]} ∪ seenErc20) ({[Denom b]} ∪ seenDenom) pairs
  end.

Definition hasActiveTokenPair (pairs : list TokenPair) (address : string) : bool :=
  existsb (fun p => String.eqb (Erc20Address p) address && Enabled p) pairs.
Definition validatePrecompiles (pairs : list TokenPair) (precompiles : list string) : res unit :=
  if forallb (hasActiveTokenPair pairs) precompiles then Ok () else Err ErrGenesisPrecompile.

Definition GenesisState_Validate (p : Params) (pairs : list TokenPair) : res unit :=
  let? _ := validate_pairs ∅ ∅ pairs in
  let? _ := Validate p in
  let? _ := validatePrecompiles pairs (DynamicPrecompiles p) in
  validatePrecompiles pairs (NativePrecompiles p).

(** [moduleAccount]: the module account of the auth keeper is set *)
Definition InitGenesis (moduleAccount : bool) s (p : Params) (pairs : list TokenPair) : ercState * res unit :=
  let '(s, r) := SetParams s p in
  match r with
  | Ok _ => if moduleAccount then (fold_left SetToken pairs s, Ok ()) else (s, Panic PanicModuleAccount)
  | Err e | Panic e => (s, Panic e)
  end.

(** in the order of the identifiers, which all have 32 bytes *)
Definition GetTokenPairs s : list TokenPair :=
  omap (fun id => er_pairs s !! id) (merge_sort Z.le (elements (dom (er_pairs s)))).

Definition ExportGenesis s : res (Params * list TokenPair) :=
  let? params := GetParams s in Ok (params, GetTokenPairs s).

End Keeper.
End Erc20.
