(* ===== verification/Erc20Ibc.v ===== *)
(** * ERC-20 tokens over IBC ([ibc/utils.go], [x/erc20], [x/ibc/transfer])

    The helpers of [ibc/utils.go], the callbacks of [x/erc20/keeper/ibc_callbacks.go]
    behind [x/erc20/ibc_middleware.go], and the transfer message of
    [x/ibc/transfer/keeper/msg_server.go]. The transfer application of ibc-go,
    its denomination traces and bech32 are parameters. *)

From stdpp Require Import base gmap list numbers strings sorting.
From Stdlib Require Import ZArith Lia.
From S2P Require Import Prelude SdkMath Scaling AccessList StateDB StateDBCommit VmStore TxData VmParams Erc20.

Module Erc20Ibc.
Import Erc20.

Definition ErrInvalidType : error := "invalid type".
Definition ErrUnknownRequest : error := "unknown request".
Definition ErrInvalidIBC : error := "invalid IBC transaction".
Definition ErrInvalidCoins : error := "invalid coins".
Definition ErrInvalidBaseDenom : error := "invalid base denomination".
Definition ErrNoIBCVoucherDenom : error := "denom is not an IBC voucher".
Definition ErrDenomTraceNotFound : error := "denom trace not found".

Record FungibleTokenPacketData := mkPacketData {
  pd_Denom : string;
  pd_Amount : string;
  pd_Sender : string;
  pd_Receiver : string
}.

(** the packet, its data as the JSON decoder sees it *)
Record Packet := mkPacket {
  pk_SourcePort : string;
  pk_SourceChannel : string;
  pk_DestinationPort : string;
  pk_DestinationChannel : string;
  pk_Data : option FungibleTokenPacketData
}.

Inductive Acknowledgement := AckResult | AckError (e : error).

Record DenomTrace := mkDenomTrace { dt_Path : string; dt_BaseDenom : string }.

(** Parts of ibc-go and of the Cosmos SDK. An account address is its 20 bytes.
    - [GetFromBech32 text prefix] with [VerifyAddressFormat], [AccAddressFromBech32];
    - [NewIntFromString] of [sdkmath], [None] when it fails;
    - [ParseDenomTrace], [IBCDenom], [GetDenomPrefix], [ReceiverChainIsSource] of
      the transfer types; [stored_trace]: the traces of the transfer keeper;
    - [BondDenom] of the staking keeper; [is_module_account]: the account of the
      address exists and is a module account. *)
Class IbcEnv (auth bank : Type) := {
  GetFromBech32 : string -> string -> res address;
  AccAddressFromBech32 : string -> res address;
  NewIntFromString : string -> option Z;
  ParseDenomTrace : string -> DenomTrace;
  IBCDenom : DenomTrace -> string;
  GetDenomPrefix : string -> string -> string;
  ReceiverChainIsSource : string -> string -> string -> bool;
  stored_trace : bytes -> option DenomTrace;
  BondDenom : @VmKeeper.evmStore auth bank -> res string;
  is_module_account : @VmKeeper.evmStore auth bank -> address -> bool
}.

(** [strings.SplitN(s, "1", 2)[0]] *)
Fixpoint before_one (str : string) : string :=
  match str with
  | EmptyString => EmptyString
  | String c str => if (Ascii.nat_of_ascii c =? 49)%nat then EmptyString else String c (before_one str)
  end.

(** [len(strings.Split(s, "/"))] *)
Fixpoint components (str : string) : nat :=
  match str with
  | EmptyString => 1
  | String c str => if (Ascii.nat_of_ascii c =? 47)%nat then S (components str) else components str
  end.

Definition TrimPrefix (str prefix : string) : string :=
  if String.prefix prefix str then drop_string (String.length prefix) str else str.

Section Ibc.
Context `{!EthHex} `{!SdkMath} `{!EvmEnv}.
Context {auth acct bank : Type} `{!AccountKeeper auth acct} `{!BankKeeper bank} `{!Erc20Env auth bank}.
Context `{!IbcEnv auth bank}.
Abbreviation state := (@ercState auth bank).
Implicit Types s : state.

(** ** [utils.go], [ibc/utils.go] *)

Definition GetAccAddressFromBech32 (text : string) : res address :=
  let bech32Prefix := before_one text in
  if String.eqb bech32Prefix text then Err ErrInvalidAddress else GetFromBech32 text bech32Prefix.

Definition GetTransferSenderRecipient (data : FungibleTokenPacketData) : res (address * address) :=
  let? sender := GetAccAddressFromBech32 (pd_Sender data) in
  let? recipient := GetAccAddressFromBech32 (pd_Receiver data) in
  Ok (sender, recipient).

Definition GetTransferAmount (packet : Packet) : res string :=
  match pk_Data packet with
  | None => Err ErrUnknownRequest
  | Some data =>
      if String.eqb (pd_Amount data) "" then Err ErrInvalidCoins
      else match NewIntFromString (pd_Amount data) with
           | None => Err ErrInvalidCoins
           | Some _ => Ok (pd_Amount data)
           end
  end.

(** a coin whose amount is nil when the text is not a number *)
Record RawCoin := mkRawCoin { rc_Denom : string; rc_Amount : option Z }.

Definition GetReceivedCoin (srcPort srcChannel dstPort dstChannel rawDenom rawAmt : string) : res RawCoin :=
  let amount := NewIntFromString rawAmt in
  if ReceiverChainIsSource srcPort srcChannel rawDenom then
    let voucherPrefix := GetDenomPrefix srcPort srcChannel in
    if (String.length rawDenom <? String.length voucherPrefix)%nat then Panic PanicSlice
    else
      let unprefixedDenom := drop_string (String.length voucherPrefix) rawDenom in
      Ok (mkRawCoin (IBCDenom (ParseDenomTrace unprefixedDenom)) amount)
  else
    let sourcePrefix := GetDenomPrefix dstPort dstChannel in
    let prefixedDenom := (sourcePrefix ++ rawDenom)%string in
    Ok (mkRawCoin (IBCDenom (ParseDenomTrace prefixedDenom)) amount).

Definition GetSentCoin (rawDenom rawAmt : string) : RawCoin :=
  mkRawCoin (IBCDenom (ParseDenomTrace rawDenom)) (NewIntFromString rawAmt).

Definition IsBaseDenomFromSourceChain (rawDenom : string) : bool :=
  let denomTrace := ParseDenomTrace rawDenom in
  (String.length (dt_Path denomTrace) =? 0)%nat && (components (dt_BaseDenom denomTrace) =? 1)%nat.

Definition GetDenomTrace (denom : string) : res DenomTrace :=
  if negb (String.prefix "ibc/" denom) then Err ErrNoIBCVoucherDenom
  else
    let? hash := ParseHexHash (drop_string 4 denom) in
    match stored_trace hash with None => Err ErrDenomTraceNotFound | Some t => Ok t end.

Definition DeriveDecimalsFromDenom (baseDenom : string) : res Z :=
  match baseDenom with
  | EmptyString => Err ErrInvalidBaseDenom
  | String c _ =>
      if (Ascii.nat_of_ascii c =? 117)%nat then Ok 6
      else if (Ascii.nat_of_ascii c =? 97)%nat then Ok 18
      else Err ErrInvalidBaseDenom
  end.

(** ** Callbacks ([ibc_callbacks.go]) *)

(** an error becomes an error acknowledgement *)
Definition ack_bind {A} (m : state * res A) (k : state -> A -> state * res Acknowledgement)
    : state * res Acknowledgement :=
  match m with
  | (s, Ok a) => k s a
  | (s, Err e) => (s, Ok (AckError e))
  | (s, Panic e) => (s, Panic e)
  end.

Definition find_pair s (denom : string) : option TokenPair := GetTokenPair s (GetTokenPairID s denom).

Definition OnRecvPacket (evmParams : VmParams.Params) s (packet : Packet) (ack : Acknowledgement)
    : state * res Acknowledgement :=
  if negb (er_enabled s) then (s, Ok ack)
  else
    match pk_Data packet with
    | None => (s, Ok (AckError ErrInvalidType))
    | Some data =>
        ack_bind (s, GetTransferSenderRecipient data) (fun s '(sender, recipient) =>
        if (sender =? recipient) && negb (IsEVMChannel evmParams (pk_DestinationChannel packet))
        then (s, Ok (AckError ErrInvalidIBC))
        else if is_module_account (er_store s) recipient then (s, Ok ack)
        else
          ack_bind (s, GetReceivedCoin (pk_SourcePort packet) (pk_SourceChannel packet)
                         (pk_DestinationPort packet) (pk_DestinationChannel packet)
                         (pd_Denom data) (pd_Amount data)) (fun s coin =>
          if String.prefix "factory/" (pd_Denom data) then (s, Ok ack)
          else
            ack_bind (s, BondDenom (er_store s)) (fun s bondDenom =>
            if String.eqb (rc_Denom coin) bondDenom then (s, Ok ack)
            else
              match find_pair s (rc_Denom coin) with
              | None =>
                  if String.prefix "ibc/" (rc_Denom coin) && IsBaseDenomFromSourceChain (pd_Denom data) then
                    ack_bind (RegisterERC20Extension s (rc_Denom coin)) (fun s _ => (s, Ok ack))
                  else (s, Ok ack)
              | Some tp =>
                  if negb (IsNativeERC20 tp) then (s, Ok ack)
                  else if negb (Enabled tp) then (s, Ok ack)
                  else
                    let balance := bk_GetBalance (bank_of s) recipient (rc_Denom coin) in
                    ack_bind (ConvertCoinNativeERC20 s tp balance recipient recipient) (fun s _ => (s, Ok ack))
              end)))
    end.

(** A nil amount panics in [IsPositive]. *)
Definition ConvertCoinToERC20FromPacket s (data : FungibleTokenPacketData) : state * res unit :=
  do? s, sender := (s, AccAddressFromBech32 (pd_Sender data)) in
  match find_pair s (pd_Denom data) with
  | None => (s, Ok ())
  | Some tp =>
      let coin := GetSentCoin (pd_Denom data) (pd_Amount data) in
      if IsNativeCoin tp then (s, Ok ())
      else if IsNativeERC20 tp then
        do? s, params := (s, GetParams s) in
        if negb (EnableErc20 params) || negb (IsDenomRegistered s (rc_Denom coin)) then (s, Ok ())
        else if is_module_account (er_store s) sender then (s, Ok ())
        else match rc_Amount coin with
             | None => (s, Panic PanicNil)
             | Some amount => ConvertCoinNativeERC20 s tp amount sender sender
             end
      else (s, Ok ())
  end.

Definition OnAcknowledgementPacket s (data : FungibleTokenPacketData) (ack : Acknowledgement) : state * res unit :=
  match ack with
  | AckError _ => ConvertCoinToERC20FromPacket s data
  | AckResult => (s, Ok ())
  end.

Definition OnTimeoutPacket s (data : FungibleTokenPacketData) : state * res unit :=
  ConvertCoinToERC20FromPacket s data.

(** *** The middleware ([ibc_middleware.go]); [app] is the callback of the wrapped application *)

Definition Middleware_OnRecvPacket (app : state -> state * Acknowledgement) (evmParams : VmParams.Params) s
    (packet : Packet) : state * res Acknowledgement :=
  let '(s, ack) := app s in
  match ack with
  | AckError _ => (s, Ok ack)
  | AckResult => OnRecvPacket evmParams s packet ack
  end.

Definition Middleware_OnAcknowledgementPacket (app : state -> state * res unit) s (packet : Packet)
    (ack : option Acknowledgement) : state * res unit :=
  match ack, pk_Data packet with
  | None, _ | _, None => (s, Err ErrUnknownRequest)
  | Some ack, Some data => do? s, _ := app s in OnAcknowledgementPacket s data ack
  end.

Definition Middleware_OnTimeoutPacket (app : state -> state * res unit) s (packet : Packet) : state * res unit :=
  match pk_Data packet with
  | None => (s, Err ErrUnknownRequest)
  | Some data => do? s, _ := app s in OnTimeoutPacket s data
  end.

(** ** The transfer message ([x/ibc/transfer/keeper/msg_server.go]) *)

Record MsgTransfer := mkMsgTransfer { mt_Denom : string; mt_Amount : Z; mt_Sender : string }.

(** [base] is [Transfer] of the ibc-go keeper. A pair that is not found is the
    zero value, whose flag is not set. *)
Definition Transfer {R} (base : state -> MsgTransfer -> state * res R) s (msg : MsgTransfer) : state * res R :=
  let denom := TrimPrefix (mt_Denom msg) (ModuleName ++ "/")%string in
  match GetTokenPairID s denom with
  | None => base s msg
  | Some id =>
      let tp := default (mkTokenPair "" "" false OWNER_UNSPECIFIED) (GetTokenPair s (Some id)) in
      if negb (Enabled tp) then base s msg
      else
        match AccAddressFromBech32 (mt_Sender msg) with
        | Err e | Panic e => (s, Panic e)
        | Ok sender =>
            if negb (er_enabled s) then base s msg
            else
              let msg := mkMsgTransfer (Denom tp) (mt_Amount msg) (mt_Sender msg) in
              if negb (IsNativeERC20 tp) then base s msg
              else
                let balance := bk_GetBalance (bank_of s) sender (Denom tp) in
                if mt_Amount msg <=? balance then base s msg
                else
                  do? s, difference := (s, NewIntFromBigInt (mt_Amount msg - balance)) in
                  do? s, _ := ConvertERC20 s (addr_Hex (GetERC20Contract tp)) difference sender sender in
                  base s msg
        end
  end.
End Ibc.
End Erc20Ibc.
