(* ===== verification/Erc20Concrete.v ===== *)
(** * A concrete ERC-20 module

    A token contract that keeps its balances in its storage, an injective
    stand-in for SHA-256, and simple stand-ins for the parts of ibc-go: instances
    of [Erc20Env] and [IbcEnv] on the keepers of [Concrete], and states to run. *)

From stdpp Require Import base gmap list numbers strings sorting countable.
From Stdlib Require Import ZArith Lia.
From S2P Require Import Prelude SdkMath Scaling AccessList StateDB StateDBCommit VmStore Concrete TxData TxDataTheorems VmParams Erc20 Erc20Ibc.
Import Erc20 Erc20Ibc.

Definition c_sum (s : string) : Z := Zpos (encode s).
Lemma c_sum_inj x y : c_sum x = c_sum y -> x = y.
Proof. unfold c_sum. intros [= E]. by apply (inj encode). Qed.

Definition c_token : address := 2.
Definition c_escrow : address := 1000.
Definition c_balanceOf (st : cstore) (contract account : address) : Z := VmKeeper.GetState st contract account.

(** [transfer] of the contract: the balances move, one log with another topic *)
Definition c_transfer (st : cstore) (sender contract to : address) (amount : Z)
    : cstore * res (option bool * list (option hash)) :=
  let balance := c_balanceOf st contract sender in
  if (amount <? 0) || (balance <? amount) then (st, Err ErrEVMCall)
  else
    let st := VmKeeper.SetState st contract sender (be_bytes 32 (balance - amount)) in
    (VmKeeper.SetState st contract to (be_bytes 32 (c_balanceOf st contract to + amount)), Ok (Some true, [Some 5])).

#[export] Instance c_erc20 : Erc20Env (gmap address cAcct) cbank := {|
  tmhash_Sum := c_sum;
  ParseHexHash s := Ok (parse_hex s);
  TrimSpace s := s;
  Erc20Bytecode := [96; 128];
  call_name st a := Ok (Some "1 Wrapped Token");
  call_symbol st a := Ok (Some "WTK");
  call_decimals st a := Ok (Some 18);
  call_balanceOf st contract account := Ok (Some (c_balanceOf st contract account));
  call_transfer := c_transfer;
  Metadata_Validate m := Ok ();
  BlockedAddr a := a =? c_escrow;
  IsSendEnabledCoin st d := true;
  validAddress s := negb (String.eqb s "");
  ValidateDenom d := Ok ();
  approvalTopic := 7;
  ModuleAddress := c_escrow
|}.

Lemma c_tmhash_inj (x y : string) :
  tmhash_Sum (Erc20Env := c_erc20) x = tmhash_Sum (Erc20Env := c_erc20) y -> x = y.
Proof. apply c_sum_inj. Qed.

(** the digits of a number *)
Fixpoint c_decimal (acc : Z) (s : string) : option Z :=
  match s with
  | EmptyString => Some acc
  | String c s => if is_digit c then c_decimal (10 * acc + Z.of_nat (Ascii.nat_of_ascii c) - 48) s else None
  end.

(** path and base denomination, cut at the last slash *)
Fixpoint c_split (s : string) : option (string * string) :=
  match s with
  | EmptyString => None
  | String c s =>
      match c_split s with
      | Some (p, b) => Some (String c p, b)
      | None => if (Ascii.nat_of_ascii c =? 47)%nat then Some (EmptyString, s) else None
      end
  end.

Fixpoint string_bytes (s : string) : bytes :=
  match s with
  | EmptyString => []
  | String c s => Z.of_nat (Ascii.nat_of_ascii c) :: string_bytes s
  end.

#[export] Instance c_ibc : IbcEnv (gmap address cAcct) cbank := {|
  GetFromBech32 text prefix := Ok (Z.of_nat (String.length text));
  AccAddressFromBech32 text := if String.eqb text "" then Err ErrInvalidAddress else Ok (Z.of_nat (String.length text));
  NewIntFromString := c_decimal 0;
  ParseDenomTrace d := match c_split d with Some (p, b) => mkDenomTrace p b | None => mkDenomTrace "" d end;
  IBCDenom t := if String.eqb (dt_Path t) "" then dt_BaseDenom t
                else "ibc/" +:+ hex_bytes (string_bytes (dt_Path t +:+ "/" +:+ dt_BaseDenom t));
  GetDenomPrefix port channel := port +:+ "/" +:+ channel +:+ "/";
  ReceiverChainIsSource port channel denom := String.prefix (port +:+ "/" +:+ channel +:+ "/") denom;
  stored_trace h := None;
  BondDenom st := Ok "atac";
  is_module_account st a := a =? c_escrow
|}.

(** the contract [c_token] with 100 tokens of account 1 and 50 of account 5 *)
Definition c_store : cstore :=
  VmKeeper.SetState (VmKeeper.SetState cstore0 c_token 1 (be_bytes 32 100)) c_token 5 (be_bytes 32 50).

Definition c_erc0 : ercState := mkErcState ∅ ∅ ∅ true "" "" ∅ c_store.

(** after registering the contract *)
Definition c_erc1 : ercState := (RegisterERC20 "gov" c_erc0 "gov" [addr_Hex c_token]).1.
