(* ===== verification/Erc20Theorems.v ===== *)
(** * Correctness of the token pairs, the parameters and the conversions *)

From stdpp Require Import base gmap list numbers strings sorting.
From Stdlib Require Import ZArith Lia.
From S2P Require Import Prelude SdkMath Scaling AccessList StateDB StateDBCommit VmStore TxData TxDataTheorems VmParams VmParamsTheorems Concrete Erc20 Erc20Ibc Erc20Concrete.
Import Erc20.

Lemma substring_suffix a b n : String.substring (String.length a) n (a +:+ b) = String.substring 0 n b.
Proof. induction a as [|c a IH]; [done|]. rewrite str_app_cons. cbn. done. Qed.

(** ** Lists *)

Lemma NoDup_omap_inj {A B} (f : A -> option B) (l : list A) :
  NoDup l -> (forall x y z, f x = Some z -> f y = Some z -> x = y) -> NoDup (omap f l).
Proof.
  intros Hl Hinj. induction Hl as [|x l Hx Hl IH]; cbn; [constructor|].
  destruct (f x) as [z|] eqn:E; [|done]. constructor; [|done]. rewrite list_elem_of_omap.
  intros (y & Hy & Ey). by rewrite (Hinj x y z) in Hx.
Qed.

(** ** The indexes of the token pairs *)

Section Tokens.
Context `{!EthHex} `{!SdkMath} `{!EvmEnv}.
Context {auth acct bank : Type} `{!AccountKeeper auth acct} `{!BankKeeper bank} `{!Erc20Env auth bank}.
Abbreviation state := (@ercState auth bank).
Implicit Types s : state.

(** SHA-256 has no collisions. *)
Hypothesis tmhash_inj : forall x y, tmhash_Sum x = tmhash_Sum y -> x = y.

(** The three indexes describe one set of pairs, in which no contract and no
    denomination appears twice. *)
Record tokens_ok s : Prop := {
  tk_pair : forall id p, er_pairs s !! id = Some p ->
    id = GetID p /\ String.length (Erc20Address p) = addressLength /\
    er_byERC20 s !! GetERC20Contract p = Some id /\ er_byDenom s !! Denom p = Some id;
  tk_erc20 : forall a id, er_byERC20 s !! a = Some id ->
    exists p, er_pairs s !! id = Some p /\ GetERC20Contract p = a;
  tk_denom : forall d id, er_byDenom s !! d = Some id ->
    exists p, er_pairs s !! id = Some p /\ Denom p = d
}.

Definition same_tokens s s' : Prop :=
  er_pairs s' = er_pairs s /\ er_byERC20 s' = er_byERC20 s /\ er_byDenom s' = er_byDenom s.

Lemma tokens_ok_same s s' : same_tokens s s' -> tokens_ok s -> tokens_ok s'.
Proof. intros (E1 & E2 & E3) [T1 T2 T3]. split; rewrite ?E1, ?E2, ?E3; done. Qed.

Lemma same_tokens_trans s1 s2 s3 : same_tokens s1 s2 -> same_tokens s2 s3 -> same_tokens s1 s3.
Proof. unfold same_tokens. intuition congruence. Qed.

Lemma GetID_inj p q :
  String.length (Erc20Address p) = addressLength -> String.length (Erc20Address q) = addressLength ->
  GetID p = GetID q -> Erc20Address p = Erc20Address q /\ Denom p = Denom q.
Proof.
  intros Hp Hq E. apply tmhash_inj in E. apply str_app_inj in E as [E1 E2]; [|congruence].
  by injection E2.
Qed.

(** A pair whose contract and denomination are new is added consistently. *)
Lemma SetToken_ok s p :
  tokens_ok s -> String.length (Erc20Address p) = addressLength ->
  er_byERC20 s !! GetERC20Contract p = None -> er_byDenom s !! Denom p = None ->
  er_pairs s !! GetID p = None /\ tokens_ok (SetToken s p).
Proof.
  intros [T1 T2 T3] Hl Ha Hd.
  assert (Hne : forall id q, er_pairs s !! id = Some q ->
    id <> GetID p /\ GetERC20Contract q <> GetERC20Contract p /\ Denom q <> Denom p).
  { intros id q Hq. destruct (T1 _ _ Hq) as (-> & Hlq & Hqa & Hqd). split_and!; [|congruence|congruence].
    intros E. apply GetID_inj in E as [_ E]; [congruence|done..]. }
  split; [destruct (er_pairs s !! GetID p) eqn:E; [|done]; by destruct (Hne _ _ E)|].
  split; cbn.
  - intros id q. rewrite lookup_insert_Some. intros [[<- <-]|[Hid Hq]].
    { split_and!; try done; by rewrite lookup_insert_eq. }
    destruct (T1 _ _ Hq) as (? & ? & ? & ?), (Hne _ _ Hq) as (? & ? & ?).
    rewrite !lookup_insert_ne by done. done.
  - intros a id. rewrite lookup_insert_Some. intros [[<- <-]|[_ Hi]].
    { exists p. by rewrite lookup_insert_eq. }
    destruct (T2 _ _ Hi) as (q & Hq & <-). destruct (Hne _ _ Hq) as [Hi' _].
    exists q. by rewrite lookup_insert_ne.
  - intros d id. rewrite lookup_insert_Some. intros [[<- <-]|[_ Hi]].
    { exists p. by rewrite lookup_insert_eq. }
    destruct (T3 _ _ Hi) as (q & Hq & <-). destruct (Hne _ _ Hq) as [Hi' _].
    exists q. by rewrite lookup_insert_ne.
Qed.

(** A stored pair keeps its place when only its flag and owner change. *)
Lemma SetTokenPair_ok s p q :
  tokens_ok s -> er_pairs s !! GetID p = Some p -> Erc20Address q = Erc20Address p -> Denom q = Denom p ->
  tokens_ok (SetTokenPair s q).
Proof.
  intros [T1 T2 T3] Hp Ea Ed.
  assert (Eid : GetID q = GetID p) by (unfold GetID; congruence).
  assert (Ec : GetERC20Contract q = GetERC20Contract p) by (unfold GetERC20Contract; congruence).
  destruct (T1 _ _ Hp) as (_ & Hl & Hpa & Hpd). split; cbn; rewrite Eid.
  - intros id r. rewrite lookup_insert_Some. intros [[<- <-]|[_ Hr]]; [|by apply T1].
    rewrite Eid, Ec, Ea, Ed. done.
  - intros a id Hi. destruct (T2 _ _ Hi) as (r & Hr & <-).
    destruct (decide (id = GetID p)) as [->|Hne]; [|exists r; by rewrite lookup_insert_ne].
    exists q. rewrite lookup_insert_eq. split; [done|]. congruence.
  - intros d id Hi. destruct (T3 _ _ Hi) as (r & Hr & <-).
    destruct (decide (id = GetID p)) as [->|Hne]; [|exists r; by rewrite lookup_insert_ne].
    exists q. rewrite lookup_insert_eq. split; [done|]. congruence.
Qed.

Lemma DeleteTokenPair_ok s p :
  tokens_ok s -> er_pairs s !! GetID p = Some p -> tokens_ok (DeleteTokenPair s p).
Proof.
  intros [T1 T2 T3] Hp. destruct (T1 _ _ Hp) as (_ & Hl & Hpa & Hpd). split; cbn.
  - intros id q. rewrite lookup_delete_Some. intros [Hid Hq]. destruct (T1 _ _ Hq) as (E & ? & Hqa & Hqd).
    split_and!; try done; rewrite lookup_delete_ne; try done; congruence.
  - intros a id. rewrite lookup_delete_Some. intros [Hne Hi]. destruct (T2 _ _ Hi) as (q & Hq & <-).
    exists q. split; [|done]. rewrite lookup_delete_ne; [done|]. intros <-. congruence.
  - intros d id. rewrite lookup_delete_Some. intros [Hne Hi]. destruct (T3 _ _ Hi) as (q & Hq & <-).
    exists q. split; [|done]. rewrite lookup_delete_ne; [done|]. intros <-. congruence.
Qed.

(** What [GetTokenPairID] and [GetTokenPair] find is stored under its identifier. *)
Lemma found_pair s token id p :
  tokens_ok s -> GetTokenPairID s token = Some id -> GetTokenPair s (Some id) = Some p ->
  er_pairs s !! GetID p = Some p.
Proof. intros [T1 _ _] _ Hp. cbn in Hp. destruct (T1 _ _ Hp) as [<- _]. done. Qed.

(** ** Preservation, whatever the result *)

Lemma CreateCoinMetadata_inv s c :
  match CreateCoinMetadata s c with
  | (s', Ok md) => same_tokens s s' /\ md_Name md = CreateDenom (addr_Hex c) /\ er_byDenom s !! md_Name md = None
  | (s', _) => s' = s
  end.
Proof.
  unfold CreateCoinMetadata. destruct (QueryERC20 _ _) as [data| |]; cbn [st_bind]; [|done..].
  case_bool_decide; [done|]. unfold IsDenomRegistered. case_bool_decide as Hd; [done|].
  apply eq_None_not_Some in Hd. destruct (if 0 <? ed_Decimals data then _ else _) as [units display].
  destruct (Metadata_Validate _) as [[]| |]; cbn [st_bind]; [|done..]. done.
Qed.

Lemma registerERC20_tokens s c : tokens_ok s -> addr_ok c -> tokens_ok (registerERC20 s c).1.
Proof.
  intros Hs Hc. unfold registerERC20, IsERC20Registered. case_bool_decide as Ha; [done|].
  apply eq_None_not_Some in Ha. pose proof (CreateCoinMetadata_inv s c) as Hm.
  destruct (CreateCoinMetadata s c) as [s1 [md|e|e]]; cbn [st_bind fst]; [|by subst s1..].
  destruct Hm as (Hsame & Hn & Hd). pose proof Hsame as (_ & E2 & E3).
  apply (SetToken_ok s1); cbn; [by apply (tokens_ok_same s)|by apply addr_Hex_length| |by rewrite E3].
  unfold GetERC20Contract. cbn. by rewrite E2, HexToAddress_Hex.
Qed.

Lemma register_addresses_tokens s l : tokens_ok s -> tokens_ok (register_addresses s l).1.
Proof.
  revert s. induction l as [|a l IH]; intros s Hs; cbn [register_addresses]; [done|].
  destruct (IsHexAddress a); cbn [negb]; [|done].
  apply (st_bind_fst tokens_ok); [apply registerERC20_tokens; [done|apply HexToAddress_ok]|].
  intros s1 _ Hs1. by apply IH.
Qed.

Lemma toggleConversion_tokens s token : tokens_ok s -> tokens_ok (toggleConversion s token).1.
Proof.
  intros Hs. unfold toggleConversion. destruct (GetTokenPairID s token) as [id|] eqn:Ei; [|done].
  destruct (GetTokenPair s (Some id)) as [p|] eqn:Ep; [|done].
  eapply SetTokenPair_ok; [done|by eapply found_pair|done|done].
Qed.

Lemma SetParams_tokens s P : same_tokens s (SetParams s P).1.
Proof.
  unfold SetParams. apply (st_bind_fst (same_tokens s)); [done|]. intros s1 _ H1'.
  apply (st_bind_fst (same_tokens s)); [|by intros s2 _ H2'].
  unfold UpdateCodeHash. do 2 (apply (st_bind_fst (same_tokens s)); [done|intros ? ? ?]).
  by destruct (st_bind _ _).
Qed.

Lemma GetIBCDenomAddress_ok denom a : GetIBCDenomAddress denom = Ok a -> addr_ok a.
Proof.
  unfold GetIBCDenomAddress. do 2 (case_match; [done|]). case_match; [|done..].
  intros [= <-]. by apply Z.mod_pos_bound.
Qed.

(** A pair derived from an IBC denomination is consistent when neither its
    denomination nor its address is taken. *)
Lemma RegisterERC20Extension_tokens s denom :
  tokens_ok s -> er_byDenom s !! denom = None ->
  (forall a, GetIBCDenomAddress denom = Ok a -> er_byERC20 s !! a = None) ->
  tokens_ok (RegisterERC20Extension s denom).1.
Proof.
  intros Hs Hd Ha. unfold RegisterERC20Extension. apply (st_bind_fst tokens_ok).
  - unfold CreateNewTokenPair, NewTokenPairSTRv2. destruct (GetIBCDenomAddress denom) as [a| |] eqn:Ea; [|done..].
    apply GetIBCDenomAddress_ok in Ea as Hok.
    apply SetToken_ok; cbn; [done|by apply addr_Hex_length| |done].
    unfold GetERC20Contract. cbn. rewrite HexToAddress_Hex by done. by apply Ha.
  - intros s1 p Hs1. apply (st_bind_fst tokens_ok); [|by intros].
    unfold EnableDynamicPrecompiles. do 2 (apply (st_bind_fst tokens_ok); [done|intros ? ? ?]).
    by eapply tokens_ok_same; [apply SetParams_tokens|].
Qed.

Lemma convertERC20Into_tokens s p amount receiver sender :
  same_tokens s (convertERC20IntoCoinsForNativeToken s p amount receiver sender).1.
Proof.
  unfold convertERC20IntoCoinsForNativeToken. case_match; [|done].
  apply (st_bind_fst (same_tokens s)); [done|intros s1 logs Hs1]. case_match; [|done]. case_match; [done|].
  do 3 (apply (st_bind_fst (same_tokens s)); [done|intros ? ? ?]). by case_match.
Qed.

Lemma ConvertCoinNativeERC20_tokens s p amount receiver sender :
  same_tokens s (ConvertCoinNativeERC20 s p amount receiver sender).1.
Proof.
  unfold ConvertCoinNativeERC20. case_match; [done|]. case_match; [|done].
  do 2 (apply (st_bind_fst (same_tokens s)); [done|intros ? ? ?]). case_match; [|done]. case_match; [done|].
  by apply (st_bind_fst (same_tokens s)).
Qed.

Lemma MintingEnabled_found s sender receiver token p :
  MintingEnabled s sender receiver token = Ok p ->
  er_enabled s = true /\ Enabled p = true /\ BlockedAddr receiver = false /\
  exists id, GetTokenPairID s token = Some id /\ GetTokenPair s (Some id) = Some p.
Proof.
  unfold MintingEnabled. destruct (er_enabled s); [cbn [negb]|done].
  destruct (GetTokenPairID s token) as [id|]; [|done]. destruct (GetTokenPair s (Some id)) as [q|] eqn:Eq; [|done].
  destruct (Enabled q) eqn:Ee; [cbn [negb]|done]. destruct (BlockedAddr receiver); [done|]. case_match; [done|].
  intros [= <-]. eauto 6.
Qed.

Lemma ConvertERC20_tokens s token amount receiver sender :
  tokens_ok s -> tokens_ok (ConvertERC20 s token amount receiver sender).1.
Proof.
  intros Hs. unfold ConvertERC20. destruct (MintingEnabled s sender receiver token) as [p| |] eqn:Em; [|done..].
  cbn [st_bind]. apply MintingEnabled_found in Em as (_ & _ & _ & id & Ei & Ep).
  destruct (IsNativeERC20 p); [|by case_match].
  case_match; [apply DeleteTokenPair_ok; [done|by eapply found_pair]|].
  by eapply tokens_ok_same; [apply convertERC20Into_tokens|].
Qed.

(** ** Genesis *)

(** The pairs determine the other two indexes. *)
Lemma tokens_ok_determined s s' :
  tokens_ok s -> tokens_ok s' -> er_pairs s = er_pairs s' -> same_tokens s s'.
Proof.
  assert (Hsub : forall s s', tokens_ok s -> tokens_ok s' -> er_pairs s = er_pairs s' ->
    (forall a id, er_byERC20 s !! a = Some id -> er_byERC20 s' !! a = Some id) /\
    (forall d id, er_byDenom s !! d = Some id -> er_byDenom s' !! d = Some id)).
  { intros t t' [T1 T2 T3] [T1' _ _] E. split.
    - intros a id Hi. destruct (T2 _ _ Hi) as (p & Hp & <-). rewrite E in Hp. by destruct (T1' _ _ Hp) as (_ & _ & ? & _).
    - intros d id Hi. destruct (T3 _ _ Hi) as (p & Hp & <-). rewrite E in Hp. by destruct (T1' _ _ Hp) as (_ & _ & _ & ?). }
  intros Hs Hs' E. destruct (Hsub _ _ Hs Hs' E) as [A1 A2], (Hsub _ _ Hs' Hs (eq_sym E)) as [B1 B2].
  split_and!; [done| |]; apply map_eq; intros i; apply option_eq; naive_solver.
Qed.

(** Pairs whose contracts and denominations all differ *)
Definition distinct_pairs (l : list TokenPair) : Prop :=
  NoDup (map GetERC20Contract l) /\ NoDup (map Denom l) /\
  Forall (fun p => String.length (Erc20Address p) = addressLength) l.

Lemma fold_SetToken_ok l s :
  tokens_ok s -> distinct_pairs l ->
  Forall (fun p => er_byERC20 s !! GetERC20Contract p = None /\ er_byDenom s !! Denom p = None) l ->
  tokens_ok (fold_left SetToken l s) /\
  forall id p, er_pairs (fold_left SetToken l s) !! id = Some p <->
    er_pairs s !! id = Some p \/ (p ∈ l /\ id = GetID p).
Proof.
  revert s. induction l as [|p l IH]; intros s Hs (Hc & Hd & Hl) Hf; cbn [fold_left].
  { split; [done|]. intros id q. set_solver. }
  apply NoDup_cons in Hc as [Hpc Hc], Hd as [Hpd Hd]. apply Forall_cons in Hl as [Hpl Hl], Hf as [[Hfc Hfd] Hf].
  destruct (SetToken_ok _ _ Hs Hpl Hfc Hfd) as [Hnew Hs1].
  destruct (IH (SetToken s p) Hs1) as [Hok Hpairs]; [done| |].
  { rewrite Forall_forall in Hf |- *. intros q Hq. destruct (Hf _ Hq) as [F1 F2]. cbn.
    rewrite !lookup_insert_ne; [done|intros E; apply Hpd; rewrite E|intros E; apply Hpc; rewrite E];
      by apply list_elem_of_fmap_2. }
  split; [done|]. intros id q. rewrite Hpairs, elem_of_cons. cbn. rewrite lookup_insert_Some.
  destruct (decide (GetID p = id)) as [<-|Hne]; [|naive_solver]. rewrite Hnew. naive_solver.
Qed.

Lemma elem_of_GetTokenPairs s p : p ∈ GetTokenPairs s <-> exists id, er_pairs s !! id = Some p.
Proof.
  unfold GetTokenPairs. rewrite list_elem_of_omap. split.
  - intros (id & _ & E). by exists id.
  - intros (id & E). exists id. split; [|done]. rewrite merge_sort_Permutation, elem_of_elements.
    by apply elem_of_dom_2 in E.
Qed.

Lemma GetTokenPairs_distinct s : tokens_ok s -> distinct_pairs (GetTokenPairs s).
Proof.
  intros Hs. pose proof Hs as [T1 _ _].
  assert (Hnd : NoDup (GetTokenPairs s)).
  { unfold GetTokenPairs. apply NoDup_omap_inj; [rewrite merge_sort_Permutation; apply NoDup_elements|].
    intros i j p Hi Hj. destruct (T1 _ _ Hi) as [-> _], (T1 _ _ Hj) as [-> _]. done. }
  assert (Hin : forall p, p ∈ GetTokenPairs s -> er_pairs s !! GetID p = Some p).
  { intros p Hp. apply elem_of_GetTokenPairs in Hp as [id Hp]. by destruct (T1 _ _ Hp) as [<- _]. }
  split_and!; [..|by apply Forall_forall; intros p Hp; destruct (T1 _ _ (Hin _ Hp)) as (_ & ? & _)].
  all: apply NoDup_fmap_2_strong; [|done]; intros p q Hp Hq E; apply Hin in Hp, Hq;
    destruct (T1 _ _ Hp) as (_ & _ & P1 & P2), (T1 _ _ Hq) as (_ & _ & Q1 & Q2); congruence.
Qed.
End Tokens.

(** ** Parameters and code hashes *)

(** The bytes of texts of the length of an address are cut back into them. *)
Lemma precompiles_roundtrip l :
  Forall (fun p => String.length p = addressLength) l -> read_precompiles (precompiles_bytes l) = Ok l.
Proof.
  intros Hl. unfold read_precompiles.
  assert (Hf : (length l <= String.length (precompiles_bytes l))%nat).
  { induction Hl as [|p l Hp Hl IH]; cbn [length]; [lia|]. cbn [precompiles_bytes foldr]. fold (precompiles_bytes l).
    rewrite str_app_length, Hp. unfold addressLength. lia. }
  revert Hf. generalize (String.length (precompiles_bytes l)) as fuel.
  induction Hl as [|p l Hp Hl IH]; intros fuel Hf; [by destruct fuel|].
  destruct fuel as [|fuel]; cbn in Hf; [lia|].
  cbn [cut_precompiles precompiles_bytes foldr]. fold (precompiles_bytes l).
  rewrite str_app_length, Hp. rewrite (proj2 (Nat.eqb_neq _ _)) by (unfold addressLength; lia).
  rewrite (proj2 (Nat.ltb_ge _ _)) by lia.
  pose proof (substring_prefix p (precompiles_bytes l)) as Epre.
  pose proof (substring_suffix p (precompiles_bytes l)) as Esuf. rewrite Hp in Epre, Esuf. rewrite Epre, Esuf.
  replace (addressLength + String.length (precompiles_bytes l) - addressLength)%nat
    with (String.length (precompiles_bytes l)) by lia.
  rewrite substring_full, IH by lia. done.
Qed.

Lemma NoDup_map_inj {A B} (f : A -> B) (l : list A) x y :
  NoDup (map f l) -> x ∈ l -> y ∈ l -> f x = f y -> x = y.
Proof.
  induction l as [|z l IH]; intros Hn Hx Hy E; [by apply not_elem_of_nil in Hx|].
  cbn in Hn. apply NoDup_cons in Hn as [Hz Hn].
  assert (Hin : forall w, w ∈ l -> f w <> f z) by (intros w Hw Ew; apply Hz; rewrite <-Ew; by apply list_elem_of_fmap_2).
  rewrite elem_of_cons in Hx, Hy. destruct Hx as [->|Hx], Hy as [->|Hy]; [done|..|by apply IH].
  - by destruct (Hin _ Hy).
  - by destruct (Hin _ Hx).
Qed.

Lemma SortSlice_idem l : SortSlice (SortSlice l) = SortSlice l.
Proof.
  assert (Anti : AntiSymm eq str_le).
  { intros a b. unfold str_le. apply String.leb_antisym. }
  apply (Sorted_unique str_le); [apply SortSlice_sorted..|apply SortSlice_Permutation].
Qed.

Lemma elem_of_SortSlice p l : p ∈ SortSlice l <-> p ∈ l.
Proof. by rewrite SortSlice_Permutation. Qed.
Lemma Forall_SortSlice (P : string -> Prop) l : Forall P (SortSlice l) <-> Forall P l.
Proof. by rewrite SortSlice_Permutation. Qed.

Section Params.
Context `{!EthHex} `{!SdkMath} `{!EvmEnv}.
Context {auth acct bank : Type} `{!AccountKeeper auth acct} `{!BankKeeper bank} `{!Erc20Env auth bank}.
Abbreviation state := (@ercState auth bank).
Implicit Types (s : state) (st : @VmKeeper.evmStore auth bank).

Lemma VmSetBalance_codes st a v st' r :
  VmKeeper.SetBalance st a v = (st', r) ->
  VmKeeper.es_codeHash st' = VmKeeper.es_codeHash st /\ VmKeeper.es_code st' = VmKeeper.es_code st.
Proof.
  unfold VmKeeper.SetBalance. destruct (bw_GetBalance _ _ _); cbn [st_bind]; [|by intros [= <- <-]..].
  case_match; [destruct (MintAmountToAccount _ _ _); by intros [= <- <-]|].
  case_match; [destruct (BurnAmountFromAccount _ _ _); by intros [= <- <-]|by intros [= <- <-]].
Qed.

(** Setting a code hash touches the code hash of the address and no code. *)
Lemma set_code_hash_codes h a st st' :
  set_code_hash h a st = (st', Ok ()) ->
  VmKeeper.es_codeHash st' = (if IsEmptyCodeHash h then delete a else <[a := h]>) (VmKeeper.es_codeHash st) /\
  VmKeeper.es_code st' = VmKeeper.es_code st.
Proof.
  unfold set_code_hash. intros E. apply st_pure_Ok_inv in E as (acc & _ & E).
  destruct (match acc with Some _ => _ | None => _ end) as [nonce balance] eqn:Ea.
  unfold VmKeeper.SetAccount in E.
  destruct (match ak_GetAccount _ a with Some _ => _ | None => _ end) as [x au] in E.
  cbn [acc_Nonce acc_CodeHash acc_Balance] in E.
  apply st_pure_Ok_inv in E as (y & _ & E). cbn [st_bind] in E.
  destruct balance as [balance|]; [|done]. apply VmSetBalance_codes in E as [-> ->].
  by destruct (IsEmptyCodeHash h).
Qed.

Hypothesis bytecode_hash : IsEmptyCodeHash (keccak Erc20Bytecode) = false.
Abbreviation erc20Hash := (keccak Erc20Bytecode).
Abbreviation code_at st a := (VmKeeper.es_codeHash st !! a).

Lemma UnRegister_codes a st st' b :
  UnRegisterERC20CodeHash a st = (st', Ok ()) -> code_at st' b = if decide (a = b) then None else code_at st b.
Proof.
  intros E. apply set_code_hash_codes in E as [-> _]. 
  assert (E0 : IsEmptyCodeHash EmptyCodeHash = true) by apply Z.eqb_refl. rewrite E0. apply lookup_delete.
Qed.

Lemma Register_codes a st st' b :
  RegisterERC20CodeHash a st = (st', Ok ()) ->
  code_at st' b = if decide (a = b) then Some erc20Hash else code_at st b.
Proof.
  unfold RegisterERC20CodeHash. intros E. apply set_code_hash_codes in E as [-> _]. rewrite bytecode_hash.
  rewrite lookup_insert. case_decide; [done|]. by repeat case_match.
Qed.
(** [b] is the address of a text of [l] that is not in [l'] *)
Definition moved (l l' : list string) (b : address) : bool :=
  existsb (fun p => negb (contains l' p) && (HexToAddress p =? b)) l.

Lemma moved_spec l l' b : moved l l' b = true <-> (exists p, p ∈ l /\ (p ∉ l') /\ HexToAddress p = b).
Proof.
  unfold moved. rewrite existsb_exists. split.
  - intros (p & Hp & E). apply andb_true_iff in E as [E1 E2]. exists p.
    apply negb_true_iff, bool_decide_eq_false in E1. apply Z.eqb_eq in E2. by rewrite list_elem_of_In.
  - intros (p & Hp & Hn & <-). exists p. rewrite <-list_elem_of_In. split; [done|].
    rewrite Z.eqb_refl, andb_true_r. by apply negb_true_iff, bool_decide_eq_false.
Qed.

Lemma unregister_loop_codes old new st st' b :
  unregister_loop old new st = (st', Ok ()) ->
  code_at st' b = if moved old new b then None else code_at st b.
Proof.
  revert st. induction old as [|p old IH]; intros st; cbn [unregister_loop moved existsb]; [by intros [= <-]|].
  fold (moved old new b). destruct (contains new p); [apply IH|]. cbn [negb andb]. intros E.
  apply st_bind_Ok_inv in E as (st1 & [] & E1 & E). rewrite (IH _ E), (UnRegister_codes _ _ _ _ E1).
  destruct (Z.eqb_spec (HexToAddress p) b), (moved old new b); cbn [orb]; try case_decide; done.
Qed.

Lemma register_loop_codes new old st st' b :
  register_loop new old st = (st', Ok ()) ->
  code_at st' b = if moved new old b then Some erc20Hash else code_at st b.
Proof.
  revert st. induction new as [|p new IH]; intros st; cbn [register_loop moved existsb]; [by intros [= <-]|].
  fold (moved new old b). destruct (contains old p); [apply IH|]. cbn [negb andb]. intros E.
  apply st_bind_Ok_inv in E as (st1 & [] & E1 & E). rewrite (IH _ E), (Register_codes _ _ _ _ E1).
  destruct (Z.eqb_spec (HexToAddress p) b), (moved new old b); cbn [orb]; try case_decide; done.
Qed.

Lemma RegisterOrUnregister_codes old new st st' b :
  RegisterOrUnregisterERC20CodeHashes old new st = (st', Ok ()) ->
  code_at st' b = if moved new old b then Some erc20Hash else if moved old new b then None else code_at st b.
Proof.
  intros E. apply st_bind_Ok_inv in E as (st1 & [] & E1 & E).
  by rewrite (register_loop_codes _ _ _ _ _ E), (unregister_loop_codes _ _ _ _ _ E1).
Qed.

(** ** Parameters that can be read back *)

Definition full_length (l : list string) : Prop := Forall (fun p => String.length p = addressLength) l.

(** The stored lists [N] (native) and [D] (dynamic) can be read, name every
    address once, and each address has the code hash of the ERC-20 bytecode. *)
Record precompiles_ok s (N D : list string) : Prop := {
  po_native : er_native s = precompiles_bytes N;
  po_dynamic : er_dynamic s = precompiles_bytes D;
  po_length : full_length (D ++ N);
  po_unique : NoDup (map HexToAddress (D ++ N));
  po_code : Forall (fun p => code_at (er_store s) (HexToAddress p) = Some erc20Hash) (D ++ N)
}.

Lemma precompiles_ok_read s N D :
  precompiles_ok s N D -> getNativePrecompiles s = Ok N /\ getDynamicPrecompiles s = Ok D.
Proof.
  intros [E1 E2 Hl _ _]. apply Forall_app in Hl as [H1' H2']. unfold getNativePrecompiles, getDynamicPrecompiles.
  rewrite E1, E2, !precompiles_roundtrip by done. done.
Qed.

Lemma validate_addresses_Ok l addrs : validate_addresses l = Ok addrs -> addrs = map HexToAddress l.
Proof.
  revert addrs. induction l as [|a l IH]; intros addrs; cbn; [by intros [= <-]|].
  destruct (ValidateAddress a); [|done..]. intros E. apply bind_Ok_inv in E as (l' & E & [= <-]).
  by rewrite (IH l').
Qed.

Lemma uniqueness_loop_Ok seen l :
  Forall addr_ok l -> uniqueness_loop seen l = Ok () -> NoDup l /\ Forall (fun a => addr_Hex a ∉ seen) l.
Proof.
  intros Hl. revert seen. induction Hl as [|a l Ha Hl IH]; intros seen; cbn; [by repeat constructor|].
  case_bool_decide as Hs; [done|]. intros E. apply IH in E as [Hn Hf]. rewrite Forall_forall in Hf. split.
  - constructor; [|done]. intros Hin. apply (Hf _ Hin). set_solver.
  - constructor; [done|]. apply Forall_forall. intros x Hx. specialize (Hf _ Hx). set_solver.
Qed.

(** Valid parameters name every address once. *)
Lemma Validate_unique p :
  Validate p = Ok () -> NoDup (map HexToAddress (DynamicPrecompiles p ++ NativePrecompiles p)).
Proof.
  unfold Validate, ValidatePrecompiles. intros E.
  apply bind_Ok_inv in E as (np & En & E). apply bind_Ok_inv in En as (np' & En & Es1).
  apply bind_Ok_inv in E as (dp & Ed & E). apply bind_Ok_inv in Ed as (dp' & Ed & Es2).
  apply validate_addresses_Ok in En as ->. apply validate_addresses_Ok in Ed as ->.
  destruct (IsSorted (NativePrecompiles p)); [injection Es1 as <-|done].
  destruct (IsSorted (DynamicPrecompiles p)); [injection Es2 as <-|done].
  rewrite <-map_app in E. apply uniqueness_loop_Ok in E as [E _]; [done|].
  apply Forall_forall. intros a Ha. apply list_elem_of_fmap in Ha as (t & -> & _). apply HexToAddress_ok.
Qed.

(** What [SetParams] leaves behind. *)
Lemma SetParams_Ok s P N D s' :
  precompiles_ok s N D -> SetParams s P = (s', Ok ()) ->
  let N' := SortSlice (NativePrecompiles P) in let D' := SortSlice (DynamicPrecompiles P) in
  NoDup (map HexToAddress (D' ++ N')) /\ er_native s' = precompiles_bytes N' /\
  er_dynamic s' = precompiles_bytes D' /\ er_enabled s' = EnableErc20 P /\ same_tokens s s' /\
  forall b, code_at (er_store s') b =
    if moved N' N b then Some erc20Hash else if moved N N' b then None
    else if moved D' D b then Some erc20Hash else if moved D D' b then None
    else code_at (er_store s) b.
Proof.
  intros Hok E N' D'. unfold SetParams in E. cbn [EnableErc20 NativePrecompiles DynamicPrecompiles] in E.
  apply st_pure_Ok_inv in E as ([] & Hv & E). apply Validate_unique in Hv.
  apply st_bind_Ok_inv in E as (s1 & [] & Eu & [= <-]). unfold UpdateCodeHash in Eu.
  destruct (precompiles_ok_read _ _ _ Hok) as [En0 Ed0]. rewrite En0 in Eu. cbn [st_bind] in Eu. rewrite Ed0 in Eu.
  cbn [st_bind NativePrecompiles DynamicPrecompiles] in *.
  fold N' D' in Hv, Eu |- *.
  destruct (st_bind (RegisterOrUnregisterERC20CodeHashes D D' (er_store s)) _) as [st r] eqn:Er.
  injection Eu as <- ->. apply st_bind_Ok_inv in Er as (st1 & [] & Ed & En). split_and!; try done.
  intros b. cbn. by rewrite (RegisterOrUnregister_codes _ _ _ _ _ En), (RegisterOrUnregister_codes _ _ _ _ _ Ed).
Qed.

(** No old native address becomes dynamic. *)
Definition no_native_to_dynamic (N D' : list string) : Prop :=
  forall p q, p ∈ N -> q ∈ D' -> HexToAddress p <> HexToAddress q.

Lemma moved_false l l' b : (forall p, p ∈ l -> HexToAddress p = b -> p ∈ l') -> moved l l' b = false.
Proof.
  intros Hm. destruct (moved l l' b) eqn:E; [|done]. apply moved_spec in E as (p & Hp & Hn & Eb).
  by destruct (Hn (Hm _ Hp Eb)).
Qed.

(** Every address of the new lists has the code hash. *)
Lemma SetParams_registered s P N D s' :
  precompiles_ok s N D -> no_native_to_dynamic N (DynamicPrecompiles P) -> SetParams s P = (s', Ok ()) ->
  forall p, p ∈ DynamicPrecompiles P ++ NativePrecompiles P ->
  code_at (er_store s') (HexToAddress p) = Some erc20Hash.
Proof.
  intros Hok Hnd E p Hp. destruct (SetParams_Ok _ _ _ _ _ Hok E) as (Hu & _ & _ & _ & _ & Hc). rewrite Hc.
  destruct Hok as [_ _ _ Hold Hcode]. rewrite Forall_forall in Hcode.
  assert (Hinj : forall q r, q ∈ D ++ N -> r ∈ D ++ N -> HexToAddress q = HexToAddress r -> q = r)
    by (intros q r; apply NoDup_map_inj, Hold).
  destruct (moved (SortSlice _) N _) eqn:M1; [done|]. apply elem_of_app in Hp as [Hp|Hp].
  - rewrite (moved_false N) by (intros q Hq Eq; by destruct (Hnd _ _ Hq Hp)).
    destruct (moved (SortSlice _) D _) eqn:M2; [done|].
    assert (HpD : p ∈ D).
    { destruct (decide (p ∈ D)) as [|Hn]; [done|]. apply not_true_iff_false in M2. destruct M2.
      apply moved_spec. exists p. by rewrite elem_of_SortSlice. }
    rewrite (moved_false D); [apply Hcode; set_solver|]. intros q Hq Eq. apply elem_of_SortSlice.
    by rewrite (Hinj q p) by set_solver.
  - assert (HpN : p ∈ N).
    { destruct (decide (p ∈ N)) as [|Hn]; [done|]. apply not_true_iff_false in M1. destruct M1.
      apply moved_spec. exists p. by rewrite elem_of_SortSlice. }
    rewrite (moved_false N); [|intros q Hq Eq; apply elem_of_SortSlice; by rewrite (Hinj q p) by set_solver].
    destruct (moved (SortSlice _) D _) eqn:M2; [done|].
    rewrite (moved_false D); [apply Hcode; set_solver|]. intros q Hq Eq. exfalso.
    rewrite map_app in Hold. apply NoDup_app in Hold as (_ & Hdis & _). apply (Hdis (HexToAddress q)).
    + by apply list_elem_of_fmap_2.
    + rewrite Eq. by apply list_elem_of_fmap_2.
Qed.

Lemma full_length_sorted P :
  full_length (DynamicPrecompiles P ++ NativePrecompiles P) ->
  full_length (SortSlice (DynamicPrecompiles P) ++ SortSlice (NativePrecompiles P)).
Proof. unfold full_length. rewrite !Forall_app, !SortSlice_Permutation. done. Qed.

Lemma SetParams_precompiles_ok s P N D s' :
  precompiles_ok s N D -> full_length (DynamicPrecompiles P ++ NativePrecompiles P) ->
  no_native_to_dynamic N (DynamicPrecompiles P) -> SetParams s P = (s', Ok ()) ->
  precompiles_ok s' (SortSlice (NativePrecompiles P)) (SortSlice (DynamicPrecompiles P)).
Proof.
  intros Hok Hl Hnd E. pose proof (SetParams_registered _ _ _ _ _ Hok Hnd E) as Hc.
  destruct (SetParams_Ok _ _ _ _ _ Hok E) as (Hu & En & Ed & _). split; try done.
  - by apply full_length_sorted.
  - apply Forall_forall. intros p Hp. apply Hc. rewrite elem_of_app, !elem_of_SortSlice in Hp. by apply elem_of_app.
Qed.

Lemma precompiles_ok_GetParams s N D :
  precompiles_ok s N D -> GetParams s = Ok (mkParams (er_enabled s) (SortSlice N) (SortSlice D)).
Proof. intros Hok. unfold GetParams. by destruct (precompiles_ok_read _ _ _ Hok) as [-> ->]. Qed.
End Params.

(** ** Theorems *)

Section Theorems.
Context `{!EthHex} `{!SdkMath} `{!EvmEnv}.
Context {auth acct bank : Type} `{!AccountKeeper auth acct} `{!BankKeeper bank} `{!Erc20Env auth bank}.
Abbreviation state := (@ercState auth bank).
Abbreviation code_at st a := (VmKeeper.es_codeHash st !! a).
Implicit Types (s : state) (st : @VmKeeper.evmStore auth bank).

(** The bytecode of the ERC-20 precompiles is not empty. *)
Hypothesis bytecode_hash : IsEmptyCodeHash (keccak Erc20Bytecode) = false.


(** An address that moves from the native to the dynamic list loses its code
    hash: the dynamic list is handled first and registers it, the native list
    comes second and removes it again. *)
Theorem native_to_dynamic_loses_code_hash s p enable s' :
  precompiles_ok s [p] [] -> SetParams s (mkParams enable [] [p]) = (s', Ok ()) ->
  getDynamicPrecompiles s' = Ok [p] /\ code_at (er_store s') (HexToAddress p) = None.
Proof.
  intros Hok E. destruct (SetParams_Ok bytecode_hash _ _ _ _ _ Hok E) as (_ & _ & Ed & _ & _ & Hc).
  cbn [DynamicPrecompiles NativePrecompiles] in *. change (SortSlice [p]) with [p] in *.
  change (SortSlice []) with (@nil string) in *. split.
  - unfold getDynamicPrecompiles. rewrite Ed. apply precompiles_roundtrip. by destruct Hok as [_ _ Hl _ _].
  - rewrite Hc, (moved_false [] [p]) by set_solver.
    rewrite (proj2 (moved_spec [p] [] (HexToAddress p))); [done|]. exists p. set_solver.
Qed.

(** ExportGenesis and InitGenesis round trip. A state with consistent pairs and
    readable parameters can be exported, and initialising a module without pairs
    and precompiles from the export gives the same three indexes of the pairs and
    the same parameters. Identifiers of different texts are assumed to differ. *)
Theorem erc20_genesis_roundtrip s N D :
  (forall x y, tmhash_Sum x = tmhash_Sum y -> x = y) -> tokens_ok s -> precompiles_ok s N D ->
  exists P pairs, ExportGenesis s = Ok (P, pairs) /\
  forall s0 s1, er_pairs s0 = ∅ -> er_byERC20 s0 = ∅ -> er_byDenom s0 = ∅ -> precompiles_ok s0 [] [] ->
  InitGenesis true s0 P pairs = (s1, Ok ()) -> same_tokens s s1 /\ GetParams s1 = GetParams s.
Proof.
  intros tmhash_inj Hs Hok. exists (mkParams (er_enabled s) (SortSlice N) (SortSlice D)), (GetTokenPairs s).
  unfold ExportGenesis. rewrite (precompiles_ok_GetParams _ _ _ Hok). split; [done|].
  intros s0 s1 Z1 Z2 Z3 Hok0 E. unfold InitGenesis in E.
  destruct (SetParams s0 _) as [s2 [[]| |]] eqn:Ep; [|done..]. injection E as <-.
  pose proof (SetParams_tokens s0 (mkParams (er_enabled s) (SortSlice N) (SortSlice D))) as Ht. rewrite Ep in Ht.
  destruct Ht as (Y1 & Y2 & Y3); cbn in Y1, Y2, Y3.
  destruct (fold_SetToken_ok tmhash_inj (GetTokenPairs s) s2) as [Hs1 Hpairs].
  - split; rewrite ?Y1, ?Y2, ?Y3, ?Z1, ?Z2, ?Z3; intros *; by rewrite lookup_empty.
  - by apply GetTokenPairs_distinct.
  - apply Forall_forall. intros p _. by rewrite Y2, Y3, Z2, Z3, !lookup_empty.
  - split.
    + apply tokens_ok_determined; [done..|]. apply map_eq. intros id. apply option_eq. intros p.
      rewrite Hpairs, Y1, Z1, lookup_empty, elem_of_GetTokenPairs. destruct Hs as [T1 _ _].
      split; [intros Hp; right; destruct (T1 _ _ Hp) as [-> _]; eauto|].
      intros [?|[[id' Hp] ->]]; [done|]. by destruct (T1 _ _ Hp) as [<- _].
    + assert (Eg : GetParams (fold_left SetToken (GetTokenPairs s) s2) = GetParams s2).
      { generalize (GetTokenPairs s). intros l. clear. revert s2. induction l as [|p l IH]; intros s2; [done|].
        cbn. by rewrite IH. }
      destruct (SetParams_Ok bytecode_hash _ _ _ _ _ Hok0 Ep) as (_ & _ & _ & Een & _).
      eapply SetParams_precompiles_ok in Ep; [|done..| |].
      * rewrite Eg, (precompiles_ok_GetParams _ _ _ Ep), Een. cbn. by rewrite !SortSlice_idem.
      * destruct Hok as [_ _ Hl _ _]. by apply (full_length_sorted (mkParams true N D)).
      * intros p q Hp. by apply not_elem_of_nil in Hp.
Qed.

(** A disabled pair whose contract is an active precompile exports to a genesis
    that [GenesisState.Validate] rejects. *)
Theorem disabled_precompile_fails_genesis s N D id p P pairs :
  tokens_ok s -> precompiles_ok s N D -> er_pairs s !! id = Some p -> Enabled p = false ->
  Erc20Address p ∈ D ++ N ->
  ExportGenesis s = Ok (P, pairs) -> GenesisState_Validate P pairs <> Ok ().
Proof.
  intros Hs Hok Hp Hd Ha E Hv. unfold ExportGenesis in E.
  rewrite (precompiles_ok_GetParams _ _ _ Hok) in E. injection E as <- <-.
  unfold GenesisState_Validate in Hv. apply bind_Ok_inv in Hv as ([] & _ & Hv).
  apply bind_Ok_inv in Hv as ([] & _ & Hv). apply bind_Ok_inv in Hv as ([] & Hvd & Hvn).
  assert (Hact : forallb (hasActiveTokenPair (GetTokenPairs s)) (D ++ N) = true).
  { unfold validatePrecompiles in Hvd, Hvn. cbn [DynamicPrecompiles NativePrecompiles] in *.
    destruct (forallb _ (SortSlice D)) eqn:E1; [|done]. destruct (forallb _ (SortSlice N)) eqn:E2; [|done].
    apply forallb_forall. intros q Hq. rewrite forallb_forall in E1, E2. rewrite <-list_elem_of_In in Hq.
    apply elem_of_app in Hq as [Hq|Hq]; [apply E1|apply E2]; by rewrite <-list_elem_of_In, elem_of_SortSlice. }
  rewrite forallb_forall in Hact. rewrite list_elem_of_In in Ha. apply Hact, existsb_exists in Ha as (q & Hq & Eq).
  apply andb_true_iff in Eq as [Eq Een]. apply String.eqb_eq in Eq.
  rewrite <-list_elem_of_In in Hq. apply elem_of_GetTokenPairs in Hq as [i Hq]. destruct Hs as [T1 _ _].
  destruct (T1 _ _ Hp) as (_ & _ & Hpa & _), (T1 _ _ Hq) as (_ & _ & Hqa & _).
  unfold GetERC20Contract in *. rewrite Eq, Hpa in Hqa. congruence.
Qed.

(** ** Conversions *)

Lemma monitorApprovalEvent_Ok logs :
  monitorApprovalEvent logs = Ok () <-> Forall (fun t => exists h, t = Some h /\ h <> approvalTopic) logs.
Proof.
  induction logs as [|[h|] logs IH]; cbn; [by split; [constructor|]|..].
  - rewrite Forall_cons, <-IH. destruct (Z.eqb_spec h approvalTopic); naive_solver.
  - rewrite Forall_cons. naive_solver.
Qed.

Lemma checked_transfer_Ok st sender contract to amount st' logs :
  checked_transfer st sender contract to amount = (st', Ok logs) ->
  call_transfer st sender contract to amount = (st', Ok (Some true, logs)).
Proof.
  unfold checked_transfer. intros E. apply st_bind_Ok_inv in E as (st1 & [[[]|] l] & -> & E); simplify_eq; done.
Qed.

Lemma lift_bank_Ok s (m : bank * res unit) s' :
  lift_bank s m = (s', Ok ()) -> exists b, m = (b, Ok ()) /\ s' = with_bank b s.
Proof. destruct m as [b r]. unfold lift_bank. cbn. intros [= <- ->]. by exists b. Qed.

Lemma lift_Ok {A} s (m : @VmKeeper.evmStore auth bank * res A) s' (a : A) :
  lift s m = (s', Ok a) -> exists st, m = (st, Ok a) /\ s' = with_store st s.
Proof. destruct m as [st r]. unfold lift. cbn. intros [= <- ->]. by exists st. Qed.

(** a transfer of the contract answered true and raised no approval *)
Definition clean_transfer st sender contract to amount st' : Prop :=
  exists logs, call_transfer st sender contract to amount = (st', Ok (Some true, logs)) /\
    Forall (fun t => exists h, t = Some h /\ h <> approvalTopic) logs.

(** Tokens go to escrow and as many coins to the receiver, nobody else's balance
    of coins changes after the transfer. *)
Lemma convertERC20Into_effect s p amount receiver sender s' :
  convertERC20IntoCoinsForNativeToken s p amount receiver sender = (s', Ok ()) ->
  let contract := GetERC20Contract p in
  exists escrow st1 b, clean_transfer (er_store s) sender contract ModuleAddress amount st1 /\
    BalanceOf (er_store s) contract ModuleAddress = Some escrow /\
    BalanceOf st1 contract ModuleAddress = Some (escrow + amount) /\
    s' = with_store (VmKeeper.with_bank b st1) s /\
    bk_GetBalance b receiver (Denom p) = bk_GetBalance (bank_of s) receiver (Denom p) + amount /\
    forall a d, bk_GetBalance b a d = bk_GetBalance (VmKeeper.es_bank st1) a d +
      delta_if (bool_decide (a = receiver /\ d = Denom p)) amount.
Proof.
  intros E contract. unfold convertERC20IntoCoinsForNativeToken in E. fold contract in E.
  destruct (BalanceOf (er_store s) contract ModuleAddress) as [escrow|] eqn:Eb; [|done].
  apply st_bind_Ok_inv in E as (s1 & logs & E1 & E). apply lift_Ok in E1 as (st1 & E1 & ->).
  apply checked_transfer_Ok in E1. cbn [er_store with_store] in E.
  destruct (BalanceOf st1 contract ModuleAddress) as [after|] eqn:Ea; [|done].
  destruct (Z.eqb_spec after (escrow + amount)) as [->|]; cbn [negb] in E; [|done].
  apply st_bind_Ok_inv in E as (s2 & [] & E2 & E). apply lift_bank_Ok in E2 as (b1 & E2 & ->).
  apply st_bind_Ok_inv in E as (s3 & [] & E3 & E). apply lift_bank_Ok in E3 as (b2 & E3 & ->).
  apply st_pure_Ok_inv in E as (exp & Eexp & E). rewrite int_Add_spec in Eexp.
  destruct (int_fits _); [injection Eexp as <-|done]. cbn [bank_of er_store with_store with_bank VmKeeper.es_bank VmKeeper.with_bank] in *.
  destruct (Z.eqb_spec (bk_GetBalance b2 receiver (Denom p)) (bk_GetBalance (bank_of s) receiver (Denom p) + amount))
    as [Er|Er]; cbn [negb] in E; [|done]. injection E as <- Elogs. apply monitorApprovalEvent_Ok in Elogs.
  exists escrow, st1, b2. split_and!; try done; [by exists logs|].
  intros a d. rewrite (bk_send_module _ _ _ _ _ E3), (bk_mint _ _ _ _ E2), amount_of_single.
  change (bank_of (with_store st1 s)) with (VmKeeper.es_bank st1).
  unfold delta_if. destruct (String.eqb_spec (Denom p) d); repeat case_bool_decide; try lia; exfalso; naive_solver.
Qed.

(** C14: ConvertERC20 escrows tokens and mints as many coins. When it succeeds, the
    pair of the contract is enabled, the module is enabled and the receiver is not
    blocked; then either the contract no longer has code and the pair is removed,
    or the transfer to the module answered true without an approval, the escrow
    grew by the amount, the receiver has exactly that many coins more than before
    the message, and after the transfer no other balance of the bank moved. *)
Theorem convert_erc20_escrows_and_mints s token amount receiver sender s' :
  ConvertERC20 s token amount receiver sender = (s', Ok ()) ->
  er_enabled s = true /\ BlockedAddr receiver = false /\
  exists p id, GetTokenPairID s token = Some id /\ GetTokenPair s (Some id) = Some p /\
    Enabled p = true /\ ContractOwner p = OWNER_EXTERNAL /\
    let contract := GetERC20Contract p in
    if match VmKeeper.GetAccountWithoutBalance (er_store s) contract with
       | None => true | Some acc => negb (IsContract acc) end
    then s' = DeleteTokenPair s p
    else
      exists escrow st1 b, clean_transfer (er_store s) sender contract ModuleAddress amount st1 /\
        BalanceOf (er_store s) contract ModuleAddress = Some escrow /\
        BalanceOf st1 contract ModuleAddress = Some (escrow + amount) /\
        s' = with_store (VmKeeper.with_bank b st1) s /\
        bk_GetBalance b receiver (Denom p) = bk_GetBalance (bank_of s) receiver (Denom p) + amount /\
        forall a d, bk_GetBalance b a d = bk_GetBalance (VmKeeper.es_bank st1) a d +
          delta_if (bool_decide (a = receiver /\ d = Denom p)) amount.
Proof.
  unfold ConvertERC20. intros E. apply st_pure_Ok_inv in E as (p & Em & E).
  apply MintingEnabled_found in Em as (Hen & He & Hb & id & Hid & Hp). split_and!; [done..|].
  exists p, id. unfold IsNativeERC20, IsNativeCoin in E. destruct (ContractOwner p) eqn:Eo; [done..|].
  split_and!; [done..|]. cbn zeta.
  destruct (match VmKeeper.GetAccountWithoutBalance _ _ with Some _ => _ | None => _ end).
  - by injection E as <-.
  - by apply convertERC20Into_effect.
Qed.

(** C15: ConvertCoinNativeERC20 burns coins and releases as many tokens. A
    non-positive amount changes nothing. Otherwise, when it succeeds, the coins
    moved from the sender to the module, the contract's transfer to the receiver
    answered true without an approval and credited exactly the amount, and the
    coins were burned: if the contract leaves the bank alone, the sender lost the
    amount of the pair's denomination and no other balance changed. *)
Theorem convert_coin_burns_and_releases s p amount receiver sender s' :
  ConvertCoinNativeERC20 s p amount receiver sender = (s', Ok ()) ->
  if amount <=? 0 then s' = s
  else
    let contract := GetERC20Contract p in
    exists balance b1 st1 b2,
      bk_SendCoinsFromAccountToModule (bank_of s) sender ModuleName [mkCoin (Denom p) amount] = (b1, Ok ()) /\
      clean_transfer (VmKeeper.with_bank b1 (er_store s)) ModuleAddress contract receiver amount st1 /\
      BalanceOf (er_store s) contract receiver = Some balance /\
      BalanceOf st1 contract receiver = Some (balance + amount) /\
      s' = with_store (VmKeeper.with_bank b2 st1) s /\
      (VmKeeper.es_bank st1 = b1 -> forall a d, bk_GetBalance b2 a d = bk_GetBalance (bank_of s) a d -
        delta_if (bool_decide (a = sender /\ d = Denom p)) amount).
Proof.
  intros E. unfold ConvertCoinNativeERC20 in E. rewrite <-Z.leb_antisym in E.
  destruct (amount <=? 0); [by injection E as <-|]. cbn zeta. set (contract := GetERC20Contract p) in *.
  destruct (BalanceOf (er_store s) contract receiver) as [balance|] eqn:Eb; [|done].
  apply st_bind_Ok_inv in E as (s1 & [] & E1 & E). apply lift_bank_Ok in E1 as (b1 & E1 & ->).
  apply st_bind_Ok_inv in E as (s2 & logs & E2 & E). apply lift_Ok in E2 as (st1 & E2 & ->).
  apply checked_transfer_Ok in E2. cbn [er_store with_store with_bank] in E, E2.
  destruct (BalanceOf st1 contract receiver) as [after|] eqn:Ea; [|done].
  destruct (Z.eqb_spec after (balance + amount)) as [->|]; cbn [negb] in E; [|done].
  apply st_bind_Ok_inv in E as (s3 & [] & E3 & E). apply lift_bank_Ok in E3 as (b2 & E3 & ->).
  injection E as <- Elogs. apply monitorApprovalEvent_Ok in Elogs.
  exists balance, b1, st1, b2. split_and!; try done; [by exists logs|].
  intros Eb1 a d. change (bank_of (with_store st1 (with_bank b1 s))) with (VmKeeper.es_bank st1) in E3.
  rewrite Eb1 in E3. rewrite (bk_burn _ _ _ _ E3), (bk_send_account _ _ _ _ _ E1), amount_of_single.
  unfold delta_if. destruct (String.eqb_spec (Denom p) d); repeat case_bool_decide; try lia; exfalso; naive_solver.
Qed.

(** ** Extensions *)

Lemma isAddrIncluded_spec a l : isAddrIncluded a l = true <-> a ∈ map HexToAddress l.
Proof.
  unfold isAddrIncluded. rewrite existsb_exists, list_elem_of_fmap. split; intros (q & Hq & E); exists q.
  - apply list_elem_of_In in E || apply list_elem_of_In in Hq. apply Z.eqb_eq in E. done.
  - subst a. rewrite <-list_elem_of_In. by rewrite Z.eqb_refl.
Qed.

Lemma precompiles_ok_SetToken s p N D : precompiles_ok s N D -> precompiles_ok (SetToken s p) N D.
Proof. intros []. by split. Qed.

(** Enabling one dynamic precompile: the native list is as before and the
    address is among the dynamic ones only. *)
Lemma EnableDynamicPrecompiles_Ok s N D a s' :
  precompiles_ok s N D -> addr_ok a -> EnableDynamicPrecompiles s [a] = (s', Ok ()) ->
  same_tokens s s' /\
  exists P, GetParams s' = Ok P /\ IsNativePrecompile P a = false /\ IsDynamicPrecompile P a = true.
Proof.
  intros Hok Ha E. unfold EnableDynamicPrecompiles in E. apply st_pure_Ok_inv in E as (P0 & EP & E).
  rewrite (precompiles_ok_GetParams _ _ _ Hok) in EP. injection EP as <-.
  apply st_pure_Ok_inv in E as (upd & Eu & E). cbn [EnableErc20 NativePrecompiles DynamicPrecompiles] in *.
  unfold appendPrecompiles in Eu. cbn [hexAddresses] in Eu.
  destruct (contains (SortSlice D) (addr_Hex a)); [done|]. injection Eu as <-.
  set (P := mkParams _ _ _) in E. destruct (SetParams_Ok bytecode_hash _ _ _ _ _ Hok E) as (Hu & _ & _ & _ & Ht & _).
  split; [done|]. cbn [NativePrecompiles DynamicPrecompiles P] in Hu.
  rewrite map_app in Hu. apply NoDup_app in Hu as (_ & Hdis & _).
  assert (Hdis' : forall q r, q ∈ SortSlice D ++ [addr_Hex a] -> r ∈ N -> HexToAddress q <> HexToAddress r).
  { intros q r Hq Hr Eqr. apply (Hdis (HexToAddress q)).
    - apply list_elem_of_fmap_2. by rewrite !elem_of_SortSlice.
    - rewrite Eqr. apply list_elem_of_fmap_2. by rewrite !elem_of_SortSlice. }
  eapply SetParams_precompiles_ok in E; [|done..| |].
  - eexists. rewrite (precompiles_ok_GetParams _ _ _ E). split; [done|]. unfold IsNativePrecompile, IsDynamicPrecompile.
    cbn [NativePrecompiles DynamicPrecompiles P]. rewrite <-not_true_iff_false, !isAddrIncluded_spec, !list_elem_of_fmap.
    split.
    + intros (r & Ea & Hr). rewrite !elem_of_SortSlice in Hr.
      apply (Hdis' (addr_Hex a) r); [set_solver|done|]. by rewrite HexToAddress_Hex.
    + exists (addr_Hex a). rewrite HexToAddress_Hex, !elem_of_SortSlice by done. set_solver.
  - destruct Hok as [_ _ Hl _ _]. unfold full_length in *. cbn [NativePrecompiles DynamicPrecompiles P].
    rewrite !Forall_app in Hl |- *. rewrite !Forall_SortSlice, !Forall_app, !Forall_SortSlice. destruct Hl.
    split_and!; try done. constructor; [by apply addr_Hex_length|done].
  - intros r q Hr Hq Eqr. cbn [DynamicPrecompiles P] in Hq. rewrite elem_of_SortSlice in Hq. by apply (Hdis' q r).
Qed.

(** A coin registered by RegisterERC20Extension is served by its precompile:
    the new pair belongs to the module and has the address of the denomination's
    hash, and the precompile at that address is found, dynamic, for that pair. *)
Theorem extension_serves_precompile s N D denom s' p :
  precompiles_ok s N D -> RegisterERC20Extension s denom = (s', Ok p) ->
  Denom p = denom /\ ContractOwner p = OWNER_MODULE /\ GetIBCDenomAddress denom = Ok (GetERC20Contract p) /\
  GetERC20PrecompileInstance s' (GetERC20Contract p) = Ok (Some (mkErcPrecompile p false)).
Proof.
  intros Hok E. unfold RegisterERC20Extension in E. apply st_bind_Ok_inv in E as (s1 & p1 & E1 & E).
  unfold CreateNewTokenPair, NewTokenPairSTRv2 in E1. apply st_pure_Ok_inv in E1 as (q & Eq & [= <- <-]).
  apply bind_Ok_inv in Eq as (a & Ea & [= <-]). pose proof (GetIBCDenomAddress_ok _ _ Ea) as Ha.
  set (p0 := mkTokenPair _ _ _ _) in *.
  assert (Ec : GetERC20Contract p0 = a) by by apply HexToAddress_Hex.
  apply st_bind_Ok_inv in E as (s2 & [] & E & [= <- <-]). rewrite Ec in E |- *.
  apply (EnableDynamicPrecompiles_Ok _ N D) in E as ((T1 & T2 & _) & P & EP & Hn & Hd);
    [|by apply precompiles_ok_SetToken|done].
  split_and!; [done..|]. unfold GetERC20PrecompileInstance. rewrite EP.
  cbn [mbind res_bind]. unfold IsAvailableERC20Precompile. rewrite Hn, Hd. cbn [orb negb].
  unfold InstantiateERC20Precompile, GetTokenPairID. rewrite IsHexAddress_Hex, HexToAddress_Hex by done.
  unfold GetERC20Map, GetTokenPair. rewrite T2, T1. cbn. rewrite Ec, lookup_insert_eq. cbn. by rewrite lookup_insert_eq.
Qed.
End Theorems.

(** ** Runs *)

Lemma c_bytecode : IsEmptyCodeHash (keccak (Erc20Bytecode (bank := cbank))) = false.
Proof. vm_compute. reflexivity. Qed.

Lemma c_erc0_precompiles : precompiles_ok c_erc0 [] [].
Proof. split; try done; constructor. Qed.

Lemma c_erc0_tokens : tokens_ok c_erc0.
Proof. split; intros *; cbn; by rewrite lookup_empty. Qed.

Lemma c_erc1_tokens : tokens_ok c_erc1.
Proof.
  apply (st_bind_fst tokens_ok); [|intros s u Hs; by apply (register_addresses_tokens c_tmhash_inj)].
  exact c_erc0_tokens.
Qed.

(** a native and a dynamic precompile, then the native one goes and another comes *)
Definition c_native : string := addr_Hex 77.
Definition c_dynamic : string := addr_Hex 88.
Definition c_params1 : Params := mkParams true [c_native] [c_dynamic].
Definition c_params2 : Params := mkParams true [] [addr_Hex 99; c_dynamic].
Definition c_erc2 : ercState := (SetParams c_erc1 c_params1).1.

Lemma c_erc2_precompiles : precompiles_ok c_erc2 [c_native] [c_dynamic].
Proof.
  split; [vm_compute; reflexivity..| | |].
  - repeat constructor.
  - apply (bool_decide_unpack _). vm_compute. exact I.
  - repeat constructor; vm_compute; reflexivity.
Qed.


Lemma native_to_dynamic_loses_code_hash_witness :
  let s1 := (SetParams c_erc1 (mkParams true [c_native] [])).1 in
  let s2 := (SetParams s1 (mkParams true [] [c_native])).1 in
  getDynamicPrecompiles s2 = Ok [c_native] /\ VmKeeper.es_codeHash (er_store s2) !! HexToAddress c_native = None.
Proof.
  cbn zeta. apply (native_to_dynamic_loses_code_hash c_bytecode
    (SetParams c_erc1 (mkParams true [c_native] [])).1 c_native true).
  - split; [vm_compute; reflexivity..| | |].
    + repeat constructor.
    + apply (bool_decide_unpack _). vm_compute. exact I.
    + repeat constructor; vm_compute; reflexivity.
  - apply pair_snd. vm_compute. reflexivity.
Defined.

Lemma erc20_genesis_roundtrip_witness :
  exists s1, InitGenesis true c_erc0 c_params1 (GetTokenPairs c_erc2) = (s1, Ok ()) /\
    same_tokens c_erc2 s1 /\ GetParams s1 = GetParams c_erc2 /\ GetTokenPairs c_erc2 <> [].
Proof.
  destruct (erc20_genesis_roundtrip c_bytecode c_erc2 [c_native] [c_dynamic] c_tmhash_inj) as (P & pairs & E & Hr).
  - eapply tokens_ok_same; [apply SetParams_tokens|exact c_erc1_tokens].
  - exact c_erc2_precompiles.
  - assert (Ex : ExportGenesis c_erc2 = Ok (c_params1, GetTokenPairs c_erc2)) by (vm_compute; reflexivity).
    rewrite Ex in E. apply Ok_inj, pair_equal_spec in E as [EP Epairs]. subst P pairs.
    exists (InitGenesis true c_erc0 c_params1 (GetTokenPairs c_erc2)).1.
    assert (Ei : InitGenesis true c_erc0 c_params1 (GetTokenPairs c_erc2) =
      ((InitGenesis true c_erc0 c_params1 (GetTokenPairs c_erc2)).1, Ok ())) by (apply pair_snd; vm_compute; reflexivity).
    split; [exact Ei|]. destruct (Hr c_erc0 _ eq_refl eq_refl eq_refl c_erc0_precompiles Ei) as [H1 H2].
    split; [exact H1|]. split; [exact H2|]. vm_compute. discriminate.
Defined.

Definition c_denom : string := CreateDenom (addr_Hex c_token).

Lemma convert_erc20_escrows_and_mints_witness :
  let s' := (ConvertERC20 c_erc1 (addr_Hex c_token) 30 1 1).1 in
  er_enabled c_erc1 = true /\ bk_GetBalance (bank_of s') 1 c_denom = 30.
Proof.
  cbn zeta. split; [|vm_compute; reflexivity].
  apply (convert_erc20_escrows_and_mints c_erc1 (addr_Hex c_token) 30 1 1 (ConvertERC20 c_erc1 (addr_Hex c_token) 30 1 1).1).
  apply pair_snd. vm_compute. reflexivity.
Defined.

Definition c_pair : TokenPair := mkTokenPair (addr_Hex c_token) c_denom true OWNER_EXTERNAL.
Definition c_erc3 : ercState := (ConvertERC20 c_erc1 (addr_Hex c_token) 30 1 1).1.

Lemma convert_coin_burns_and_releases_witness :
  let s' := (ConvertCoinNativeERC20 c_erc3 c_pair 10 5 1).1 in
  (exists balance, BalanceOf (er_store c_erc3) c_token 5 = Some balance) /\
  bk_GetBalance (bank_of s') 1 c_denom = 20 /\ BalanceOf (er_store s') c_token 5 = Some 60.
Proof.
  cbn zeta. split; [|split; vm_compute; reflexivity].
  destruct (convert_coin_burns_and_releases c_erc3 c_pair 10 5 1 (ConvertCoinNativeERC20 c_erc3 c_pair 10 5 1).1)
    as (balance & _ & _ & _ & _ & _ & Hb & _); [apply pair_snd; vm_compute; reflexivity|].
  exists balance. exact Hb.
Defined.

Definition c_ibc_denom : string := "ibc/" +:+ hex_bytes (be_bytes 32 (2 ^ 200 + 12345)).

Lemma extension_serves_precompile_witness :
  let s' := (RegisterERC20Extension c_erc2 c_ibc_denom).1 in
  let p := mkTokenPair (addr_Hex 12345) c_ibc_denom true OWNER_MODULE in
  GetERC20PrecompileInstance s' 12345 = Ok (Some (mkErcPrecompile p false)).
Proof.
  cbn zeta.
  destruct (extension_serves_precompile c_bytecode c_erc2 [c_native] [c_dynamic] c_ibc_denom
    (RegisterERC20Extension c_erc2 c_ibc_denom).1 (mkTokenPair (addr_Hex 12345) c_ibc_denom true OWNER_MODULE))
    as (_ & _ & _ & H1); [exact c_erc2_precompiles|apply pair_snd; vm_compute; reflexivity|].
  exact H1.
Defined.

(** Two spellings of one contract pass the validation of the genesis, and the
    index by contract keeps the last of the two pairs. *)
Definition c_twice : list TokenPair :=
  [mkTokenPair "0x00000000000000000000000000000000000000ab" "one" true OWNER_EXTERNAL;
   mkTokenPair "0x00000000000000000000000000000000000000AB" "two" true OWNER_EXTERNAL].

Example genesis_accepts_contract_twice :
  GenesisState_Validate DefaultParams c_twice = Ok () /\
  let s := (InitGenesis true c_erc0 DefaultParams c_twice).1 in
  map GetERC20Contract (GetTokenPairs s) = [171; 171] /\
  GetTokenDenom s 171 = Ok "two" /\ GetCoinAddress s "one" = Ok 171.
Proof. vm_compute. auto. Qed.
