(* ===== verification/Erc20IbcTheorems.v ===== *)
(** * Correctness of the ERC-20 handlers together, and of transfers over IBC *)

From stdpp Require Import base gmap list numbers strings sorting relations.
From Stdlib Require Import ZArith Lia.
From S2P Require Import Prelude SdkMath Scaling AccessList StateDB StateDBCommit VmStore TxData TxDataTheorems VmParams VmParamsTheorems Concrete Erc20 Erc20Ibc Erc20Concrete Erc20Theorems.
Import Erc20 Erc20Ibc.

Section Ibc.
Context `{!EthHex} `{!SdkMath} `{!EvmEnv}.
Context {auth acct bank : Type} `{!AccountKeeper auth acct} `{!BankKeeper bank} `{!Erc20Env auth bank}.
Context `{!IbcEnv auth bank}.
Abbreviation state := (@ercState auth bank).
Implicit Types (s : state) (st : @VmKeeper.evmStore auth bank).

Hypothesis tmhash_inj : forall x y, tmhash_Sum x = tmhash_Sum y -> x = y.

Lemma ack_bind_fst {A} (P : state -> Prop) (m : state * res A) k :
  P m.1 -> (forall s a, P s -> P (k s a).1) -> P (ack_bind m k).1.
Proof. destruct m as [s [a|e|e]]; cbn; auto. Qed.

(** The denomination a packet brings, when it is new, has no hash collision:
    its address, 20 bytes of the hash of its trace, is not that of a registered
    contract. It speaks of this denomination only; any other text with the same
    hash (in lower case, say) may be a registered one. *)
Definition received_address_free s (packet : Packet) : Prop :=
  forall data coin a, pk_Data packet = Some data ->
    GetReceivedCoin (pk_SourcePort packet) (pk_SourceChannel packet) (pk_DestinationPort packet)
      (pk_DestinationChannel packet) (pd_Denom data) (pd_Amount data) = Ok coin ->
    er_byDenom s !! rc_Denom coin = None -> GetIBCDenomAddress (rc_Denom coin) = Ok a -> er_byERC20 s !! a = None.

(** Without a pair, an IBC denomination is not in the index. *)
Lemma find_pair_None s d :
  tokens_ok s -> String.prefix "ibc/" d = true -> find_pair s d = None -> er_byDenom s !! d = None.
Proof.
  intros [_ _ T3] Hd. unfold find_pair, GetTokenPairID. rewrite IsHexAddress_ibc by done.
  unfold GetDenomMap, GetTokenPair. destruct (er_byDenom s !! d) as [id|] eqn:E; [|done].
  destruct (T3 _ _ E) as (p & Hp & _). by rewrite Hp.
Qed.

Lemma OnRecvPacket_tokens evmParams s packet ack :
  tokens_ok s -> received_address_free s packet -> tokens_ok (OnRecvPacket evmParams s packet ack).1.
Proof.
  intros Hs Hfree. unfold OnRecvPacket. destruct (er_enabled s); cbn [negb]; [|done].
  destruct (pk_Data packet) as [data|] eqn:Edata; [|done].
  destruct (GetTransferSenderRecipient data) as [[sender recipient]| |]; cbn [ack_bind]; [|done..].
  do 2 (case_match; [done|]). destruct (GetReceivedCoin _ _ _ _ _ _) as [coin| |] eqn:Ecoin; cbn [ack_bind]; [|done..].
  case_match; [done|]. destruct (BondDenom _) as [bond| |]; cbn [ack_bind]; [|done..]. case_match; [done|].
  destruct (find_pair s (rc_Denom coin)) as [p|] eqn:Ef.
  - do 2 (case_match; [done|]). apply (ack_bind_fst tokens_ok); [|done].
    by eapply tokens_ok_same; [apply ConvertCoinNativeERC20_tokens|].
  - destruct (String.prefix "ibc/" (rc_Denom coin)) eqn:Ep; cbn [andb]; [|done]. case_match; [|done].
    apply find_pair_None in Ef as Hd; [|done..]. apply (ack_bind_fst tokens_ok); [|done].
    apply RegisterERC20Extension_tokens; [done..|]. intros a Ha. by apply (Hfree _ _ a Edata Ecoin).
Qed.

Lemma ConvertCoinToERC20FromPacket_tokens s data : same_tokens s (ConvertCoinToERC20FromPacket s data).1.
Proof.
  unfold ConvertCoinToERC20FromPacket. destruct (AccAddressFromBech32 _); cbn [st_bind]; [|done..].
  destruct (find_pair s _) as [p|]; [|done]. destruct (IsNativeCoin p); [done|]. destruct (IsNativeERC20 p); [|done].
  destruct (GetParams s); cbn [st_bind]; [|done..]. do 2 (case_match; [done|]). case_match; [|done].
  apply ConvertCoinNativeERC20_tokens.
Qed.

Lemma Transfer_tokens {R} (base : state -> MsgTransfer -> state * res R) s msg :
  (forall s msg, tokens_ok s -> tokens_ok (base s msg).1) -> tokens_ok s -> tokens_ok (Transfer base s msg).1.
Proof.
  intros Hb Hs. unfold Transfer. destruct (GetTokenPairID _ _); [|by apply Hb]. case_match; [by apply Hb|].
  destruct (AccAddressFromBech32 _); [|done..]. do 3 (case_match; [by apply Hb|]).
  apply (st_bind_fst tokens_ok); [done|]. intros s1 d Hs1.
  apply (st_bind_fst tokens_ok); [by apply ConvertERC20_tokens|]. intros; by apply Hb.
Qed.

(** ** Histories of the module *)

(** One message, callback or transfer, whatever its result; or a write of
    another module to the accounts, the bank or the EVM's store. *)
Inductive erc_step : state -> state -> Prop :=
  | step_register authority req l s : erc_step s (RegisterERC20 authority s req l).1
  | step_toggle authority req token s : erc_step s (ToggleConversion authority s req token).1
  | step_params authority req P s : erc_step s (UpdateParams authority s req P).1
  | step_convert token amount receiver sender s :
      erc_step s (ConvertERC20 s token amount receiver sender).1
  | step_recv evmParams packet ack s :
      received_address_free s packet -> erc_step s (OnRecvPacket evmParams s packet ack).1
  | step_ack data ack s : erc_step s (OnAcknowledgementPacket s data ack).1
  | step_timeout data s : erc_step s (OnTimeoutPacket s data).1
  | step_transfer {R} (base : state -> MsgTransfer -> state * res R) msg s :
      (forall s msg, same_tokens s (base s msg).1) -> erc_step s (Transfer base s msg).1
  | step_store st s : erc_step s (with_store st s).

Lemma erc_step_tokens s s' : erc_step s s' -> tokens_ok s -> tokens_ok s'.
Proof.
  destruct 1 as [authority req l s|authority req token s|authority req P s|token amount receiver sender s
                |evmParams packet ack s Hfree|data ack s|data s|R base msg s Hb|st s]; intros Hs.
  - unfold RegisterERC20. case_match; [done|]. apply (st_bind_fst tokens_ok); [done|].
    intros s1 _ Hs1. by apply register_addresses_tokens.
  - unfold ToggleConversion. case_match; [done|]. apply (st_bind_fst tokens_ok); [done|]. intros s1 _ Hs1.
    apply (st_bind_fst tokens_ok); [by apply toggleConversion_tokens|done].
  - unfold UpdateParams. case_match; [|done]. by eapply tokens_ok_same; [apply SetParams_tokens|].
  - by apply ConvertERC20_tokens.
  - by apply OnRecvPacket_tokens.
  - destruct ack; [done|]. by eapply tokens_ok_same; [apply ConvertCoinToERC20FromPacket_tokens|].
  - by eapply tokens_ok_same; [apply ConvertCoinToERC20FromPacket_tokens|].
  - apply Transfer_tokens; [|done]. intros s1 m Hs1. by eapply tokens_ok_same; [apply Hb|].
  - by eapply tokens_ok_same; [|done].
Qed.

Lemma erc_reachable_tokens s0 s : rtc erc_step s0 s -> tokens_ok s0 -> tokens_ok s.
Proof. induction 1; eauto using erc_step_tokens. Qed.

(** Lookups by denomination and by contract are inverse to each other. *)
Lemma tokens_ok_lookups s d a :
  tokens_ok s -> is_Some (er_byDenom s !! d) -> GetCoinAddress s d = Ok a <-> GetTokenDenom s a = Ok d.
Proof.
  intros [T1 T2 T3] [id Hd]. destruct (T3 _ _ Hd) as (p & Hp & Ep). destruct (T1 _ _ Hp) as (_ & _ & Ha & _).
  unfold GetCoinAddress, GetTokenDenom, GetDenomMap, GetERC20Map, GetTokenPair. rewrite Hd, Hp. split.
  - intros [= <-]. rewrite Ha, Hp. by rewrite Ep.
  - destruct (er_byERC20 s !! a) as [id'|] eqn:Ea; [|done]. destruct (T2 _ _ Ea) as (q & Hq & <-). rewrite Hq.
    intros [= Eq]. destruct (T1 _ _ Hq) as (_ & _ & _ & Hqd). rewrite Eq, Hd in Hqd. injection Hqd as ->. congruence.
Qed.

(** C13: Token pairs stay one-to-one. In every state the module reaches from one
    without pairs, through registrations, toggles, parameter updates, conversions,
    IBC callbacks and transfers in any order and with any result (the address of
    a denomination received for the first time being no registered contract's,
    which is that 20 bytes of its hash do not collide), the three indexes
    describe the same pairs, and looking up the contract of a registered
    denomination and the denomination of a contract are inverse to each other. *)
Theorem token_pairs_one_to_one s0 s :
  er_pairs s0 = ∅ -> er_byERC20 s0 = ∅ -> er_byDenom s0 = ∅ -> rtc erc_step s0 s ->
  tokens_ok s /\
  forall d a, IsDenomRegistered s d = true -> (GetCoinAddress s d = Ok a <-> GetTokenDenom s a = Ok d).
Proof.
  intros Z1 Z2 Z3 Hr.
  assert (Hs : tokens_ok s).
  { apply (erc_reachable_tokens _ _ Hr). split; rewrite ?Z1, ?Z2, ?Z3; intros *; by rewrite lookup_empty. }
  split; [done|]. intros d a Hd. apply bool_decide_eq_true in Hd. by apply tokens_ok_lookups.
Qed.

(** ** Transfers *)

(** A transfer of an ERC-20 denomination sends what the sender lacks in coins
    from its tokens. The message is sent on with the pair's denomination: at once
    when the coins suffice, and otherwise after converting the difference, when the
    sender then has exactly the amount; a failed conversion stops the transfer. *)
Theorem transfer_converts_the_difference {R} (base : state -> MsgTransfer -> state * res R) s msg i p sender :
  tokens_ok s -> GetTokenPairID s (TrimPrefix (mt_Denom msg) "erc20/") = Some i ->
  GetTokenPair s (Some i) = Some p -> Enabled p = true -> ContractOwner p = OWNER_EXTERNAL ->
  er_enabled s = true -> AccAddressFromBech32 (mt_Sender msg) = Ok sender ->
  VmKeeper.GetAccountWithoutBalance (er_store s) (GetERC20Contract p) <> None ->
  (forall acc, VmKeeper.GetAccountWithoutBalance (er_store s) (GetERC20Contract p) = Some acc -> IsContract acc = true) ->
  0 <= bk_GetBalance (bank_of s) sender (Denom p) -> mt_Amount msg < 2 ^ 256 ->
  let balance := bk_GetBalance (bank_of s) sender (Denom p) in
  let msg' := mkMsgTransfer (Denom p) (mt_Amount msg) (mt_Sender msg) in
  if mt_Amount msg <=? balance then Transfer base s msg = base s msg'
  else match ConvertERC20 s (addr_Hex (GetERC20Contract p)) (mt_Amount msg - balance) sender sender with
       | (s1, Ok _) => bk_GetBalance (bank_of s1) sender (Denom p) = mt_Amount msg /\ Transfer base s msg = base s1 msg'
       | (s1, Err e) => Transfer base s msg = (s1, Err e)
       | (s1, Panic e) => Transfer base s msg = (s1, Panic e)
       end.
Proof.
  intros Hs Hid Hp He Ho Hen Hsender Hacc Hcode Hpos Hmax balance msg'.
  assert (HT : Transfer base s msg = if mt_Amount msg <=? balance then base s msg'
    else do? s1, _ := ConvertERC20 s (addr_Hex (GetERC20Contract p)) (mt_Amount msg - balance) sender sender in
      base s1 msg').
  { unfold Transfer. change (ModuleName +:+ "/") with "erc20/". rewrite Hid, Hp. cbn [default from_option id].
    unfold IsNativeERC20. rewrite He, Hen, Hsender, Ho. cbn [negb mt_Amount]. fold balance msg'.
    destruct (Z.leb_spec (mt_Amount msg) balance); [done|]. rewrite NewIntFromBigInt_spec, int_fits_256; [done|].
    rewrite Z.abs_eq; fold balance in Hpos; lia. }
  rewrite HT. case_match; [done|].
  destruct (ConvertERC20 s _ _ _ _) as [s1 [[]|e|e]] eqn:Ec; cbn [st_bind]; try done. split; [|done].
  unfold ConvertERC20 in Ec. apply st_pure_Ok_inv in Ec as (q & Em & Ec).
  apply MintingEnabled_found in Em as (_ & _ & _ & id' & Hid' & Hq).
  assert (q = p) as ->.
  { unfold GetTokenPairID in Hid'. rewrite IsHexAddress_Hex, HexToAddress_Hex in Hid' by apply HexToAddress_ok.
    destruct Hs as [T1 _ _]. destruct (T1 _ _ Hp) as (_ & _ & Ha & _). unfold GetERC20Map in Hid'. congruence. }
  unfold IsNativeERC20 in Ec. rewrite Ho in Ec.
  destruct (VmKeeper.GetAccountWithoutBalance _ _) as [acc|]; [|done]. rewrite (Hcode acc eq_refl) in Ec. cbn [negb] in Ec.
  apply convertERC20Into_effect in Ec as (escrow & st1 & b & _ & _ & _ & -> & Hb & _).
  cbn. rewrite Hb. fold balance. lia.
Qed.
End Ibc.

(** ** Runs *)

(** a token of another chain arrives, a contract is registered, its pair is
    toggled, a conversion is tried, a second token of the other chain arrives,
    and the first one arrives again *)
Definition c_packet : Packet :=
  mkPacket "transfer" "channel-0" "transfer" "channel-1" (Some (mkPacketData "uatom" "12" "cosmos1aa" "tac1b")).
Definition c_run1 : ercState := (OnRecvPacket VmParams.DefaultParams c_erc0 c_packet AckResult).1.
Definition c_run2 : ercState := (RegisterERC20 "gov" c_run1 "gov" [addr_Hex c_token]).1.
Definition c_run3 : ercState := (ToggleConversion "gov" c_run2 "gov" (addr_Hex c_token)).1.
Definition c_run4 : ercState := (ConvertERC20 c_run3 (addr_Hex c_token) 5 1 1).1.
Definition c_packet2 : Packet :=
  mkPacket "transfer" "channel-0" "transfer" "channel-1" (Some (mkPacketData "uosmo" "7" "cosmos1aa" "tac1b")).
Definition c_run5 : ercState := (OnRecvPacket VmParams.DefaultParams c_run4 c_packet2 AckResult).1.
Definition c_run6 : ercState := (OnRecvPacket VmParams.DefaultParams c_run5 c_packet AckResult).1.

Lemma token_pairs_one_to_one_witness :
  tokens_ok c_run6 /\ length (GetTokenPairs c_run6) = 3%nat /\
  GetTokenDenom c_run6 c_token = Ok (CreateDenom (addr_Hex c_token)).
Proof.
  destruct (token_pairs_one_to_one c_tmhash_inj c_erc0 c_run6 eq_refl eq_refl eq_refl) as [H1 H2].
  - apply (rtc_l _ _ c_run1); [apply step_recv; intros d coin a _ _ _ _; reflexivity|].
    apply (rtc_l _ _ c_run2); [apply step_register|].
    apply (rtc_l _ _ c_run3); [apply step_toggle|].
    apply (rtc_l _ _ c_run4); [apply step_convert|].
    apply (rtc_l _ _ c_run5).
    + apply step_recv. intros d coin a [= <-] Hc Hn Ha. vm_compute in Hc. injection Hc as <-.
      vm_compute in Ha. injection Ha as <-. vm_compute. reflexivity.
    + apply rtc_once, step_recv. intros d coin a [= <-] Hc Hn _. vm_compute in Hc. injection Hc as <-.
      vm_compute in Hn. discriminate Hn.
  - split; [exact H1|]. split; [vm_compute; reflexivity|].
    apply H2; [vm_compute; reflexivity|]. vm_compute. reflexivity.
Defined.

(** account 5 (a text of five characters) has 50 tokens and no coins *)
Definition c_msg : MsgTransfer := mkMsgTransfer (CreateDenom (addr_Hex c_token)) 20 "tac1x".
Definition c_base (s : @ercState (gmap address cAcct) cbank) (msg : MsgTransfer) : @ercState _ _ * res Z :=
  (s, Ok (bk_GetBalance (bank_of s) 5 (mt_Denom msg))).

Lemma transfer_converts_the_difference_witness :
  (Transfer c_base c_erc1 c_msg).2 = Ok 20.
Proof.
  pose proof (transfer_converts_the_difference c_base c_erc1 c_msg (GetID c_pair) c_pair 5 c_erc1_tokens) as H.
  set (bal := bk_GetBalance (bank_of c_erc1) 5 (Denom c_pair)) in H.
  assert (Hb : bal = 0) by (vm_compute; reflexivity). cbn zeta in H. rewrite Hb in H. clear bal Hb.
  change (mt_Amount c_msg <=? 0) with false in H. cbn iota in H.
  destruct (ConvertERC20 c_erc1 (addr_Hex (GetERC20Contract c_pair)) (mt_Amount c_msg - 0) 5 5) as [s1 r] eqn:E.
  assert (Hr : r = Ok ()) by (apply (f_equal snd) in E; cbn [snd] in E; rewrite <-E; vm_compute; reflexivity).
  subst r. do 6 specialize (H ltac:(vm_compute; reflexivity)).
  destruct (H ltac:(vm_compute; discriminate)) as [H1 H2]; [|done|done|].
  - intros acc Ea. vm_compute in Ea. by injection Ea as <-.
  - rewrite H2. unfold c_base. cbn [snd mt_Denom]. by rewrite H1.
Defined.
