(* ===== verification/Erc20Precompile.v ===== *)
(** * The ERC-20 precompile ([precompiles/erc20], [precompiles/werc20])

    A Cosmos coin with the interface of an ERC-20 contract: transfers are bank
    messages and allowances are authorizations of the authz module. The coins
    type, the bank's message server and the authz keeper are Cosmos SDK code;
    they appear as classes with their documented behaviour. *)

From stdpp Require Import base gmap list numbers strings sorting.
From Stdlib Require Import ZArith Lia.
From S2P Require Import Prelude SdkMath Scaling AccessList StateDB StateDBCommit VmStore TxData VmParams Precompile Erc20 Erc20Ibc.

Module Erc20Precompile.

Definition ErrNegativeAmount : error := "cannot approve negative values".
Definition ErrIncreaseNonPositiveValue : error := "cannot increase allowance with non-positive values".
Definition ErrDecreaseNonPositiveValue : error := "cannot decrease allowance with non-positive values".
Definition ErrSpenderIsOwner : error := "spender cannot be the owner".
Definition ErrDecreasedAllowanceBelowZero : error := "ERC20: decreased allowance below zero".
Definition ErrInsufficientAllowance : error := "ERC20: insufficient allowance".
Definition ErrTransferAmountExceedsBalance : error := "ERC20: transfer amount exceeds balance".
Definition ErrExecutionReverted : error := "execution reverted".
Definition ErrNoAuthorizationFound : error := "authorization not found".
Definition ErrUnknownAuthorizationType : error := "unknown authorization type".
Definition ErrNotSendAuthorization : error := "expected authorization to be a SendAuthorization".
Definition ErrAuthzDoesNotExistOrExpired : error := "authorization does not exist or is expired".
Definition ErrNoAllowanceForToken : error := "allowance for token does not exist".
Definition ErrSubtractMoreThanAllowance : error := "subtracted value cannot be greater than existing allowance for denom".
Definition ErrAmountOverflow : error := "amount causes integer overflow".
Definition ErrIntegerOverflow : error := "integer overflow when increasing allowance".
Definition ErrCannotReceiveFunds : error := "cannot receive funds".
Definition ErrInvalidNumberOfArgs : error := "invalid number of arguments".
Definition ErrInvalidArg : error := "invalid argument".
Definition ErrUnknownMethod : error := "unknown method".
Definition ErrBaseDenomLength : error := "invalid base denomination; should be at least length 3".
Definition ErrDisplayNotFound : error := "display denomination not found for denom".
Definition ErrDecimalsOverflow : error := "uint8 overflow: invalid decimals".
Definition ErrOutOfGas : error := "out of gas".
Definition ErrWithdrawBalance : error := "account balance is lower than withdraw balance".

(** ** Coins of the Cosmos SDK *)

(** a valid set of coins: sorted by denomination without duplicates, positive *)
Definition coins_valid (l : list Coin) : Prop :=
  StronglySorted (fun c d => String.ltb (coin_Denom c) (coin_Denom d) = true) l /\
  Forall (fun c => 0 < coin_Amount c) l.

Class SdkCoins := {
  coins_Validate : list Coin -> res unit;
  coins_AmountOf : list Coin -> string -> Z;          (* AmountOfNoDenomValidation *)
  coins_Find : list Coin -> string -> option Coin;
  coins_SafeSub : list Coin -> Coin -> list Coin * bool;
  coins_Add : list Coin -> Coin -> res (list Coin);
  coins_NoCoins : list Coin -> bool;                  (* IsZero *)
  coins_Validate_pos : forall d a, coins_Validate [mkCoin d a] = Ok () -> 0 < a;
  coins_AmountOf_spec : forall l d, coins_valid l -> coins_AmountOf l d = amount_of d l;
  coins_Find_spec : forall l d, coins_valid l ->
    coins_Find l d = if 0 <? amount_of d l then Some (mkCoin d (amount_of d l)) else None;
  coins_SafeSub_spec : forall l d a, coins_valid l -> 0 < a <= amount_of d l ->
    exists l', coins_SafeSub l (mkCoin d a) = (l', false) /\ coins_valid l' /\
      forall e, amount_of e l' = amount_of e l - (if String.eqb e d then a else 0);
  coins_Add_spec : forall l d a l', coins_valid l -> 0 < a -> coins_Add l (mkCoin d a) = Ok l' ->
    coins_valid l' /\ forall e, amount_of e l' = amount_of e l + (if String.eqb e d then a else 0);
  coins_NoCoins_spec : forall l, coins_valid l -> coins_NoCoins l = true -> forall d, amount_of d l = 0
}.

(** ** Authorizations of the authz module and messages of the bank *)

Inductive authorization :=
  | SendAuthorization (SpendLimit : list Coin) (AllowList : list address)
  | OtherAuthorization.

Record MsgSend := mkMsgSend { ms_From : address; ms_To : address; ms_Amount : list Coin }.

(** [authz]: the grants for the message type of [MsgSend], by grantee and granter.
    - [az_GetAuthorization]: no answer for an expired grant;
    - [az_DispatchSend]: [DispatchActions] with one [MsgSend], which accepts the
      message against the grant of its sender and then sends;
    - [bk_Send]: [Send] of the bank's message server;
    - [SendAuthorization_ValidateBasic]. *)
Class AuthzKeeper (authz bank : Type) `{!BankKeeper bank} := {
  az_GetAuthorization : authz -> address -> address -> option (authorization * option Z);
  az_SaveGrant : authz -> address -> address -> authorization -> option Z -> authz * res unit;
  az_DeleteGrant : authz -> address -> address -> authz * res unit;
  az_DispatchSend : authz -> bank -> address -> MsgSend -> (authz * bank) * res unit;
  bk_Send : bank -> MsgSend -> bank * res unit;
  bk_SendCoins : bank -> address -> address -> list Coin -> bank * res unit;
  bk_GetSupply : bank -> string -> Z;
  bk_GetDenomMetaData : bank -> string -> option Erc20.Metadata;
  SendAuthorization_ValidateBasic : list Coin -> list address -> res unit;
  az_save : forall z g r a e z', az_SaveGrant z g r a e = (z', Ok ()) -> forall g' r',
    az_GetAuthorization z' g' r' = if decide (g' = g /\ r' = r) then Some (a, e) else az_GetAuthorization z g' r';
  az_delete : forall z g r z', az_DeleteGrant z g r = (z', Ok ()) -> forall g' r',
    az_GetAuthorization z' g' r' = if decide (g' = g /\ r' = r) then None else az_GetAuthorization z g' r';
  bk_send : forall b m b', bk_Send b m = (b', Ok ()) -> forall a d,
    bk_GetBalance b' a d = bk_GetBalance b a d
      - delta_if (bool_decide (a = ms_From m)) (amount_of d (ms_Amount m))
      + delta_if (bool_decide (a = ms_To m)) (amount_of d (ms_Amount m));
  bk_send_coins : forall b x y cs b', bk_SendCoins b x y cs = (b', Ok ()) -> forall a d,
    bk_GetBalance b' a d = bk_GetBalance b a d
      - delta_if (bool_decide (a = x)) (amount_of d cs) + delta_if (bool_decide (a = y)) (amount_of d cs);
  az_dispatch : forall z b g m z' b', az_DispatchSend z b g m = ((z', b'), Ok ()) -> g <> ms_From m ->
    exists limit allow e, az_GetAuthorization z g (ms_From m) = Some (SendAuthorization limit allow, e) /\
      (forall d, coins_valid limit -> amount_of d (ms_Amount m) <= amount_of d limit) /\
      (forall g' r', ~ (g' = g /\ r' = ms_From m) -> az_GetAuthorization z' g' r' = az_GetAuthorization z g' r') /\
      (az_GetAuthorization z' g (ms_From m) = None /\
         (coins_valid limit -> forall d, amount_of d limit = amount_of d (ms_Amount m)) \/
       exists limit', az_GetAuthorization z' g (ms_From m) = Some (SendAuthorization limit' allow, e) /\
         (coins_valid limit -> coins_valid limit' /\
            forall d, amount_of d limit' = amount_of d limit - amount_of d (ms_Amount m))) /\
      forall a d, bk_GetBalance b' a d = bk_GetBalance b a d
        - delta_if (bool_decide (a = ms_From m)) (amount_of d (ms_Amount m))
        + delta_if (bool_decide (a = ms_To m)) (amount_of d (ms_Amount m))
}.

(** ** Arguments and results of the ABI *)

Inductive abi_value := VAddress (a : address) | VUint (z : Z) | VOther.

Inductive ret := RNone | RBool (b : bool) | RUint (z : Z) | RUint8 (z : Z) | RString (s : string).

Inductive event :=
  | EvTransfer (from to : address) (value : Z)
  | EvApproval (owner spender : address) (value : Z)
  | EvDeposit (dst : address) (wad : Z)
  | EvWithdrawal (src : address) (wad : Z).

Definition ParseTransferArgs (args : list abi_value) : res (address * Z) :=
  match args with
  | [a0; a1] =>
      match a0 with
      | VAddress to => match a1 with VUint amount => Ok (to, amount) | _ => Err ErrInvalidArg end
      | _ => Err ErrInvalidArg
      end
  | _ => Err ErrInvalidNumberOfArgs
  end.

Definition ParseTransferFromArgs (args : list abi_value) : res (address * address * Z) :=
  match args with
  | [a0; a1; a2] =>
      match a0, a1 with
      | VAddress from, VAddress to => match a2 with VUint amount => Ok (from, to, amount) | _ => Err ErrInvalidArg end
      | _, _ => Err ErrInvalidArg
      end
  | _ => Err ErrInvalidNumberOfArgs
  end.

Definition ParseApproveArgs (args : list abi_value) : res (address * Z) :=
  match args with
  | [a0; a1] =>
      match a0 with
      | VAddress spender => match a1 with VUint amount => Ok (spender, amount) | _ => Err ErrInvalidArg end
      | _ => Err ErrInvalidArg
      end
  | _ => Err ErrInvalidNumberOfArgs
  end.

Definition ParseAllowanceArgs (args : list abi_value) : res (address * address) :=
  match args with
  | [a0; a1] =>
      match a0, a1 with
      | VAddress owner, VAddress spender => Ok (owner, spender)
      | _, _ => Err ErrInvalidArg
      end
  | _ => Err ErrInvalidNumberOfArgs
  end.

Definition ParseBalanceOfArgs (args : list abi_value) : res address :=
  match args with
  | [VAddress account] => Ok account
  | [_] => Err ErrInvalidArg
  | _ => Err ErrInvalidNumberOfArgs
  end.

(** [strings.Contains] *)
Fixpoint str_contains (s sub : string) : bool :=
  String.prefix sub s || match s with EmptyString => false | String _ s => str_contains s sub end.

Definition ConvertErrToERC20Error (e : error) : error :=
  if str_contains e "spendable balance" then ErrTransferAmountExceedsBalance
  else if str_contains e "requested amount is more than spend limit" then ErrInsufficientAllowance
  else if str_contains e ErrNoAuthorizationFound then ErrInsufficientAllowance
  else if str_contains e "subtracted value cannot be greater than existing allowance" then ErrDecreasedAllowanceBelowZero
  else if str_contains e ErrIntegerOverflow then ErrExecutionReverted
  else if String.eqb e Erc20Ibc.ErrNoIBCVoucherDenom || String.eqb e Erc20Ibc.ErrDenomTraceNotFound ||
          str_contains e "invalid base denomination" || str_contains e "display denomination not found" ||
          str_contains e "invalid decimals" then ErrExecutionReverted
  else e.

Definition MaxUint256 : Z := 2 ^ 256 - 1.

(** [SafeAdd] of [common/types.go]: the sum, and whether it needs more than 256 bits *)
Definition SafeAdd (a b : Z) : Z * bool := (a + b, 2 ^ 256 <=? Z.abs (a + b)).

Fixpoint replace_coin (coins : list Coin) (coin : Coin) : option (list Coin) :=
  match coins with
  | [] => None
  | c :: coins =>
      if String.eqb (coin_Denom c) (coin_Denom coin) then Some (coin :: coins)
      else (fun l => c :: l) <$> replace_coin coins coin
  end.

(** ** The precompile *)

Section Precompile.
Context `{!EthHex} `{!SdkMath} `{!EvmEnv} `{!SdkCoins}.
Context {authz auth bank : Type} `{!BankKeeper bank} `{!AuthzKeeper authz bank}.
Context `{!Erc20.Erc20Env auth bank} `{!Erc20Ibc.IbcEnv auth bank}.

(** What an instance knows: the pair it serves, the duration of approvals and
    the time of the block. *)
Record Precompile := mkPrecompile {
  tokenPair : Erc20.TokenPair;
  ApprovalExpiration : Z;
  BlockTime : Z
}.
Definition Address (p : Precompile) : address := Erc20.GetERC20Contract (tokenPair p).
Definition denom (p : Precompile) : string := Erc20.Denom (tokenPair p).

(** What a call reads and writes: the grants, the bank, the logs of the state
    database and the balance changes to journal. *)
Record callState := mkCallState {
  cs_authz : authz;
  cs_bank : bank;
  cs_logs : list event;
  cs_entries : list balanceChangeEntry
}.
Implicit Types (p : Precompile) (s : callState).

Definition with_authz z s : callState := mkCallState z (cs_bank s) (cs_logs s) (cs_entries s).
Definition with_bank b s : callState := mkCallState (cs_authz s) b (cs_logs s) (cs_entries s).
Definition AddLog (e : event) s : callState :=
  mkCallState (cs_authz s) (cs_bank s) (cs_logs s ++ [e]) (cs_entries s).
Definition SetBalanceChangeEntries (es : list balanceChangeEntry) s : callState :=
  mkCallState (cs_authz s) (cs_bank s) (cs_logs s) es.

Definition lift_authz {A} s (m : authz * res A) : callState * res A := (with_authz m.1 s, m.2).
Definition lift_bank {A} s (m : bank * res A) : callState * res A := (with_bank m.1 s, m.2).

Definition CheckAuthzExists s (grantee granter : address) : res (authorization * option Z) :=
  match az_GetAuthorization (cs_authz s) grantee granter with
  | None => Err ErrAuthzDoesNotExistOrExpired
  | Some x => Ok x
  end.

(** [big.Int] amounts become [Int] with a panic above 256 bits. *)
Definition updateOrAddCoin (coins : list Coin) (coin : Coin) : res (list Coin) :=
  match replace_coin coins coin with
  | Some coins => Ok coins
  | None => coins_Add coins coin
  end.

Definition GetAuthzExpirationAndAllowance s (grantee granter : address) (denom : string)
    : res (authorization * option Z * Z) :=
  let? '(authorization, expiration) := CheckAuthzExists s grantee granter in
  match authorization with
  | SendAuthorization limit _ => Ok (authorization, expiration, coins_AmountOf limit denom)
  | OtherAuthorization => Err ErrNotSendAuthorization
  end.

Definition createAuthorization p s (grantee granter : address) (amount : Z) : callState * res unit :=
  if 2 ^ 256 <=? Z.abs amount then (s, Err ErrAmountOverflow)
  else
    do? s, amount := (s, NewIntFromBigInt amount) in
    let coins := [mkCoin (denom p) amount] in
    let expiration := BlockTime p + ApprovalExpiration p in
    do? s, _ := (s, SendAuthorization_ValidateBasic coins []) in
    lift_authz s (az_SaveGrant (cs_authz s) grantee granter (SendAuthorization coins []) (Some expiration)).

Definition updateAuthorization p s (grantee granter : address) (amount : Z) (limit : list Coin)
    (allow : list address) (expiration : option Z) : callState * res unit :=
  do? s, amount := (s, NewIntFromBigInt amount) in
  do? s, limit := (s, updateOrAddCoin limit (mkCoin (denom p) amount)) in
  do? s, _ := (s, SendAuthorization_ValidateBasic limit allow) in
  lift_authz s (az_SaveGrant (cs_authz s) grantee granter (SendAuthorization limit allow) expiration).

Definition removeSpendLimitOrDeleteAuthorization p s (grantee granter : address) (a : authorization)
    (expiration : option Z) : callState * res unit :=
  match a with
  | OtherAuthorization => (s, Err ErrUnknownAuthorizationType)
  | SendAuthorization limit allow =>
      match coins_Find limit (denom p) with
      | None => (s, Err ErrNoAllowanceForToken)
      | Some denomCoins =>
          let '(newSpendLimit, hasNeg) := coins_SafeSub limit denomCoins in
          if hasNeg then (s, Err (ConvertErrToERC20Error ErrSubtractMoreThanAllowance))
          else if coins_NoCoins newSpendLimit then lift_authz s (az_DeleteGrant (cs_authz s) grantee granter)
          else lift_authz s (az_SaveGrant (cs_authz s) grantee granter (SendAuthorization newSpendLimit allow) expiration)
      end
  end.

Definition increaseAllowance p s (grantee granter : address) (addedValue : Z) (a : authorization)
    (expiration : option Z) : callState * res Z :=
  match a with
  | OtherAuthorization => (s, Err ErrUnknownAuthorizationType)
  | SendAuthorization limit allow =>
      let allowance := coins_AmountOf limit (denom p) in
      do? s, sdkAddedValue := (s, NewIntFromBigInt addedValue) in
      let '(amount, overflow) := SafeAdd allowance sdkAddedValue in
      if overflow then (s, Err (ConvertErrToERC20Error ErrIntegerOverflow))
      else do? s, _ := updateAuthorization p s grantee granter amount limit allow expiration in (s, Ok amount)
  end.

Definition decreaseAllowance p s (grantee granter : address) (subtractedValue : Z) (a : authorization)
    (expiration : option Z) : callState * res Z :=
  match a with
  | OtherAuthorization => (s, Err ErrUnknownAuthorizationType)
  | SendAuthorization limit allow =>
      match coins_Find limit (denom p) with
      | None => (s, Err ErrNoAllowanceForToken)
      | Some allowance =>
          let amount := coin_Amount allowance - subtractedValue in
          if amount <? 0 then (s, Err (ConvertErrToERC20Error ErrSubtractMoreThanAllowance))
          else do? s, _ := updateAuthorization p s grantee granter amount limit allow expiration in (s, Ok amount)
      end
  end.

(** *** Transactions; [caller] is the caller of the contract *)

Definition Approve p (caller : address) s (args : list abi_value) : callState * res ret :=
  do? s, spender_amount := (s, ParseApproveArgs args) in
  let '(spender, amount) := spender_amount in
  if spender =? caller then (s, Err ErrSpenderIsOwner)
  else
    do? s, _ :=
      match az_GetAuthorization (cs_authz s) spender caller with
      | None =>
          if amount <? 0 then (s, Err ErrNegativeAmount)
          else if 0 <? amount then createAuthorization p s spender caller amount
          else (s, Ok ())
      | Some (a, expiration) =>
          if amount <=? 0 then removeSpendLimitOrDeleteAuthorization p s spender caller a expiration
          else match a with
               | OtherAuthorization => (s, Err ErrUnknownAuthorizationType)
               | SendAuthorization limit allow => updateAuthorization p s spender caller amount limit allow expiration
               end
      end in
    (AddLog (EvApproval (Address p) spender amount) s, Ok (RBool true)).

Definition IncreaseAllowance p (caller : address) s (args : list abi_value) : callState * res ret :=
  do? s, spender_value := (s, ParseApproveArgs args) in
  let '(spender, addedValue) := spender_value in
  if spender =? caller then (s, Err ErrSpenderIsOwner)
  else
    do? s, amount :=
      if addedValue <=? 0 then (s, Err ErrIncreaseNonPositiveValue)
      else match az_GetAuthorization (cs_authz s) spender caller with
           | None => do? s, _ := createAuthorization p s spender caller addedValue in (s, Ok addedValue)
           | Some (a, expiration) => increaseAllowance p s spender caller addedValue a expiration
           end in
    (AddLog (EvApproval (Address p) spender amount) s, Ok (RBool true)).

Definition DecreaseAllowance p (caller : address) s (args : list abi_value) : callState * res ret :=
  do? s, spender_value := (s, ParseApproveArgs args) in
  let '(spender, subtractedValue) := spender_value in
  if spender =? caller then (s, Err ErrSpenderIsOwner)
  else
    let r := GetAuthzExpirationAndAllowance s spender caller (denom p) in
    do? s, amount :=
      if subtractedValue <=? 0 then (s, Err ErrDecreaseNonPositiveValue)
      else match r with
           | Err e => (s, Err (ErrNoAllowanceForToken +:+ ": " +:+ e))
           | Panic e => (s, Panic e)
           | Ok (a, expiration, allowance) =>
               if subtractedValue <? allowance then decreaseAllowance p s spender caller subtractedValue a expiration
               else if subtractedValue =? allowance then
                 do? s, _ := removeSpendLimitOrDeleteAuthorization p s spender caller a expiration in (s, Ok 0)
               else if allowance =? 0 then (s, Err ErrNoAllowanceForToken)
               else (s, Err (ConvertErrToERC20Error ErrSubtractMoreThanAllowance))
           end in
    (AddLog (EvApproval (Address p) spender amount) s, Ok (RBool true)).

Definition convert_err {A} (r : res A) : res A :=
  match r with Err e => Err (ConvertErrToERC20Error e) | r => r end.

(** [transfer]: the part that [Transfer] and [TransferFrom] share *)
Definition transfer p (caller : address) (isTransferFrom : bool) s (from to : address) (amount : Z)
    : callState * res ret :=
  do? s, amountInt := (s, NewIntFromBigInt amount) in
  let coins := [mkCoin (denom p) amountInt] in
  let msg := mkMsgSend from to coins in
  do? s, _ := (s, coins_Validate coins) in
  let ownerIsSpender := caller =? from in
  do? s, prevAllowance :=
    if ownerIsSpender then
      let '(b, r) := bk_Send (cs_bank s) msg in
      (with_bank b s, convert_err (let? _ := r in Ok 0))
    else
      match GetAuthzExpirationAndAllowance s caller from (denom p) with
      | Err e => (s, Err (ConvertErrToERC20Error (ErrNoAuthorizationFound +:+ ": " +:+ e)))
      | Panic e => (s, Panic e)
      | Ok (_, _, prevAllowance) =>
          let '((z, b), r) := az_DispatchSend (cs_authz s) (cs_bank s) caller msg in
          (with_authz z (with_bank b s), convert_err (let? _ := r in Ok prevAllowance))
      end in
  let s := if String.eqb (denom p) (GetEVMCoinDenom coinCfg) then
             let convertedAmount := ConvertAmountTo18DecimalsBigInt coinCfg amount in
             SetBalanceChangeEntries [mkBalanceChangeEntry from convertedAmount Sub;
                                      mkBalanceChangeEntry to convertedAmount Add] s
           else s in
  let s := AddLog (EvTransfer from to amount) s in
  if negb isTransferFrom then (s, Ok (RBool true))
  else
    let newAllowance := if ownerIsSpender then MaxUint256 else prevAllowance - amount in
    (AddLog (EvApproval from caller newAllowance) s, Ok (RBool true)).

Definition Transfer p (caller : address) s (args : list abi_value) : callState * res ret :=
  do? s, to_amount := (s, ParseTransferArgs args) in
  transfer p caller false s caller to_amount.1 to_amount.2.

Definition TransferFrom p (caller : address) s (args : list abi_value) : callState * res ret :=
  do? s, from_to_amount := (s, ParseTransferFromArgs args) in
  let '(from, to, amount) := from_to_amount in
  transfer p caller true s from to amount.

(** *** Queries *)

Definition getBaseDenomFromIBCVoucher (d : string) : res string :=
  let? denomTrace := Erc20Ibc.GetDenomTrace d in
  if (String.length (Erc20Ibc.dt_BaseDenom denomTrace) <? 3)%nat then Err ErrBaseDenomLength
  else Ok (Erc20Ibc.dt_BaseDenom denomTrace).

(** [strings.ToUpper] of ASCII text *)
Definition upper_char (c : Ascii.ascii) : Ascii.ascii :=
  let n := Ascii.nat_of_ascii c in
  if ((97 <=? n) && (n <=? 122))%nat then Ascii.ascii_of_nat (n - 32) else c.
Fixpoint ToUpper (s : string) : string :=
  match s with EmptyString => EmptyString | String c s => String (upper_char c) (ToUpper s) end.

Definition Name p s : res ret :=
  match bk_GetDenomMetaData (cs_bank s) (denom p) with
  | Some metadata => Ok (RString (Erc20.md_Name metadata))
  | None =>
      let? baseDenom := convert_err (getBaseDenomFromIBCVoucher (denom p)) in
      Ok (RString (ToUpper (String.substring 1 1 baseDenom) +:+ Erc20.drop_string 2 baseDenom))
  end.

Definition Symbol p s : res ret :=
  match bk_GetDenomMetaData (cs_bank s) (denom p) with
  | Some metadata => Ok (RString (Erc20.md_Symbol metadata))
  | None =>
      let? baseDenom := convert_err (getBaseDenomFromIBCVoucher (denom p)) in
      Ok (RString (ToUpper (Erc20.drop_string 1 baseDenom)))
  end.

(** the loop runs from the last unit to the first *)
Fixpoint find_exponent (units : list Erc20.DenomUnit) (display : string) : option Z :=
  match units with
  | [] => None
  | u :: units =>
      match find_exponent units display with
      | Some e => Some e
      | None => if String.eqb (Erc20.du_Denom u) display then Some (Erc20.du_Exponent u) else None
      end
  end.

Definition Decimals p s : res ret :=
  match bk_GetDenomMetaData (cs_bank s) (denom p) with
  | None =>
      let? denomTrace := convert_err (Erc20Ibc.GetDenomTrace (denom p)) in
      let? decimals := convert_err (Erc20Ibc.DeriveDecimalsFromDenom (Erc20Ibc.dt_BaseDenom denomTrace)) in
      Ok (RUint8 decimals)
  | Some metadata =>
      match find_exponent (Erc20.md_DenomUnits metadata) (Erc20.md_Display metadata) with
      | None => Err (ConvertErrToERC20Error ErrDisplayNotFound)
      | Some decimals =>
          if 255 <? decimals then Err (ConvertErrToERC20Error ErrDecimalsOverflow) else Ok (RUint8 decimals)
      end
  end.

Definition TotalSupply p s : res ret := Ok (RUint (bk_GetSupply (cs_bank s) (denom p))).

Definition BalanceOf p s (args : list abi_value) : res ret :=
  let? account := ParseBalanceOfArgs args in
  Ok (RUint (bk_GetBalance (cs_bank s) account (denom p))).

Definition Allowance p s (args : list abi_value) : res ret :=
  let? '(owner, spender) := ParseAllowanceArgs args in
  if owner =? spender then Ok (RUint MaxUint256)
  else
    match GetAuthzExpirationAndAllowance s spender owner (denom p) with
    | Ok (_, _, allowance) => Ok (RUint allowance)
    | Err _ => Ok (RUint 0)
    | Panic e => Panic e
    end.

(** *** Dispatch *)

Definition IsTransaction (method : string) : bool :=
  bool_decide (method ∈ ["transfer"; "transferFrom"; "approve"; "increaseAllowance"; "decreaseAllowance"]).

Definition HandleMethod p (caller : address) s (method : string) (args : list abi_value) : callState * res ret :=
  if String.eqb method "transfer" then Transfer p caller s args
  else if String.eqb method "transferFrom" then TransferFrom p caller s args
  else if String.eqb method "approve" then Approve p caller s args
  else if String.eqb method "increaseAllowance" then IncreaseAllowance p caller s args
  else if String.eqb method "decreaseAllowance" then DecreaseAllowance p caller s args
  else if String.eqb method "name" then (s, Name p s)
  else if String.eqb method "symbol" then (s, Symbol p s)
  else if String.eqb method "decimals" then (s, Decimals p s)
  else if String.eqb method "totalSupply" then (s, TotalSupply p s)
  else if String.eqb method "balanceOf" then (s, BalanceOf p s args)
  else if String.eqb method "allowance" then (s, Allowance p s args)
  else (s, Err ErrUnknownMethod).

(** The whole call but the state database part, which is [Precompile.Run]:
    [enoughGas] says whether the contract can pay the gas of the meter. *)
Definition Run (abi : ABI abi_value) p (caller : address) (readOnly : bool) (value : Z) (input : bytes)
    (enoughGas : bool) s : callState * res ret :=
  if 0 <? value then (s, Err ErrCannotReceiveFunds)
  else
    do? s, method_args := (s, setup_call abi (fun m => IsTransaction (meth_Name m)) readOnly value input) in
    do? s, bz := HandleMethod p caller s (meth_Name method_args.1) method_args.2 in
    if negb enoughGas then (s, Err ErrOutOfGas) else (s, Ok bz).

(** [RequiredGas]; [method] is the method of the first four bytes, if they name one *)
Definition RequiredGas (input : bytes) (method : option string) : Z :=
  if (length input <? 4)%nat then 0
  else match method with
       | None => 0
       | Some m =>
           if String.eqb m "transfer" then 3000000
           else if String.eqb m "transferFrom" then 3000000
           else if String.eqb m "approve" then 30956
           else if String.eqb m "increaseAllowance" then 34605
           else if String.eqb m "decreaseAllowance" then 34519
           else if String.eqb m "name" then 3421
           else if String.eqb m "symbol" then 3464
           else if String.eqb m "decimals" then 427
           else if String.eqb m "totalSupply" then 2477
           else if String.eqb m "balanceOf" then 2851
           else if String.eqb m "allowance" then 3246
           else 0
       end.

(** ** The wrapped coin ([precompiles/werc20]) *)

(** [sdk.NewCoins] drops a zero coin and panics on a negative one. *)
Definition Deposit p (caller : address) (value : Z) s : callState * res ret :=
  do? s, amount := (s, NewIntFromBigInt value) in
  do? s, coins := (s, if amount <? 0 then Panic ErrNegativeAmount
                      else Ok (if amount =? 0 then [] else [mkCoin (GetEVMCoinDenom coinCfg) amount])) in
  do? s, _ := lift_bank s (bk_SendCoins (cs_bank s) (Address p) caller coins) in
  let s := SetBalanceChangeEntries [mkBalanceChangeEntry caller value Add; mkBalanceChangeEntry (Address p) value Sub] s in
  (AddLog (EvDeposit caller value) s, Ok RNone).

Definition Withdraw (caller : address) s (args : list abi_value) : callState * res ret :=
  match args with
  | VUint amount :: _ =>
      do? s, amountInt := (s, NewIntFromBigInt amount) in
      if bk_GetBalance (cs_bank s) caller (GetEVMCoinDenom coinCfg) <? amountInt then (s, Err ErrWithdrawBalance)
      else (AddLog (EvWithdrawal caller amount) s, Ok RNone)
  | _ :: _ => (s, Err ErrInvalidArg)
  | [] => (s, Panic PanicIndex)
  end.

Definition W_IsTransaction (isFunction : bool) (method : string) : bool :=
  negb isFunction || bool_decide (method ∈ ["deposit"; "withdraw"]) || IsTransaction method.

Definition is_function (m : Method) : bool := match meth_Type m with Function => true | _ => false end.

(** [isFunction]: the method is not the fallback or receive function *)
Definition W_HandleMethod p (caller : address) (value : Z) s (isFunction : bool) (method : string)
    (args : list abi_value) : callState * res ret :=
  if negb isFunction || String.eqb method "deposit" then Deposit p caller value s
  else if String.eqb method "withdraw" then Withdraw caller s args
  else HandleMethod p caller s method args.

Definition W_Run (abi : ABI abi_value) p (caller : address) (readOnly : bool) (value : Z) (input : bytes)
    (enoughGas : bool) s : callState * res ret :=
  do? s, method_args :=
    (s, setup_call abi (fun m => W_IsTransaction (is_function m) (meth_Name m)) readOnly value input) in
  do? s, bz := W_HandleMethod p caller value s (is_function method_args.1) (meth_Name method_args.1) method_args.2 in
  if negb enoughGas then (s, Err ErrOutOfGas) else (s, Ok bz).

Definition W_RequiredGas (input : bytes) (method : option string) : Z :=
  if (length input <? 4)%nat then 23878
  else match method with
       | None => 0
       | Some m => if String.eqb m "deposit" then 23878
                   else if String.eqb m "withdraw" then 9207
                   else RequiredGas input method
       end.
End Precompile.
End Erc20Precompile.
