(* ===== verification/CoinsConcrete.v ===== *)
(** * Concrete coins and authorizations

    Sorted lists of coins and a map of grants: instances of [SdkCoins] and
    [AuthzKeeper] on the bank of [Concrete], for which the laws are proved. *)

From stdpp Require Import base gmap list numbers strings sorting.
From Stdlib Require Import ZArith Lia.
From S2P Require Import Prelude SdkMath Scaling AccessList StateDB StateDBCommit VmStore TxData TxDataTheorems VmParams VmParamsTheorems Precompile Concrete Erc20 Erc20Ibc Erc20Concrete Erc20Precompile.
Import Erc20Precompile.

Abbreviation denom_lt := (fun c d : Coin => String.ltb (coin_Denom c) (coin_Denom d) = true).

Lemma ltb_irrefl a : String.ltb a a = false.
Proof. apply ltb_le. by destruct (str_le_total a a). Qed.

Lemma ltb_not_le a b : String.ltb a b = true <-> ~ str_le b a.
Proof. rewrite <-ltb_le. by destruct (String.ltb a b). Qed.

Lemma ltb_trans a b c : String.ltb a b = true -> String.ltb b c = true -> String.ltb a c = true.
Proof.
  rewrite !ltb_not_le. intros Hab Hbc Hca. apply Hab. destruct (str_le_total b c) as [H|H]; [|done].
  etransitivity; done.
Qed.

Lemma ltb_cases a b : String.ltb a b = true \/ a = b \/ String.ltb b a = true.
Proof.
  unfold String.ltb. rewrite (String.compare_antisym a b). destruct (String.compare b a) eqn:E; cbn; auto.
  right. left. symmetry. by apply String.compare_eq_iff.
Qed.

(** the amount of a denomination below the first is zero *)
Lemma amount_of_below d l :
  Forall (fun c => String.ltb d (coin_Denom c) = true) l -> amount_of d l = 0.
Proof.
  induction 1 as [|x l Hx Hl IH]; cbn; [done|].
  destruct (String.eqb_spec (coin_Denom x) d) as [E|]; [|lia]. by rewrite E, ltb_irrefl in Hx.
Qed.

Lemma coins_valid_cons c l :
  coins_valid (c :: l) <-> 0 < coin_Amount c /\ Forall (denom_lt c) l /\ coins_valid l.
Proof.
  unfold coins_valid. rewrite Forall_cons. split.
  - intros [Hs [? ?]]. apply StronglySorted_inv in Hs as [? ?]. done.
  - intros (? & ? & ? & ?). split_and!; try done. by constructor.
Qed.

(** ** Subtraction *)

Fixpoint sub_coin (l : list Coin) (d : string) (a : Z) : list Coin :=
  match l with
  | [] => []
  | c :: l =>
      if String.eqb (coin_Denom c) d then
        if coin_Amount c - a =? 0 then l else mkCoin (coin_Denom c) (coin_Amount c - a) :: l
      else c :: sub_coin l d a
  end.

Lemma sub_coin_above x l d a : Forall (denom_lt x) l -> Forall (denom_lt x) (sub_coin l d a).
Proof.
  induction 1 as [|c l Hc Hl IH]; cbn; [constructor|]. repeat case_match; try done; by constructor.
Qed.

Lemma sub_coin_spec l d a :
  coins_valid l -> 0 < a <= amount_of d l ->
  coins_valid (sub_coin l d a) /\
  forall e, amount_of e (sub_coin l d a) = amount_of e l - (if String.eqb e d then a else 0).
Proof.
  induction l as [|c l IH]; intros Hv Ha; [cbn in Ha; lia|]. apply coins_valid_cons in Hv as (Hc & Hlt & Hv).
  cbn [sub_coin]. cbn in Ha. destruct (String.eqb_spec (coin_Denom c) d) as [<-|Hne].
  - rewrite (amount_of_below _ _ Hlt) in Ha. split.
    + case_match; [done|]. apply coins_valid_cons. cbn. zbool. split_and!; [lia|done|done].
    + intros e. rewrite (String.eqb_sym e). case_match eqn:Ez; cbn; destruct (String.eqb_spec (coin_Denom c) e) as [<-|];
        rewrite ?(amount_of_below _ _ Hlt); zbool; lia.
  - destruct (IH Hv) as [Hv' Ham]; [lia|]. split.
    + apply coins_valid_cons. split_and!; [done|by apply sub_coin_above|done].
    + intros e. cbn. rewrite Ham. lia.
Qed.

(** ** Addition *)

Fixpoint add_coin (l : list Coin) (d : string) (a : Z) : list Coin :=
  match l with
  | [] => [mkCoin d a]
  | c :: l =>
      if String.eqb (coin_Denom c) d then mkCoin d (coin_Amount c + a) :: l
      else if String.ltb d (coin_Denom c) then mkCoin d a :: c :: l
      else c :: add_coin l d a
  end.

Lemma add_coin_above x l d a :
  Forall (denom_lt x) l -> String.ltb (coin_Denom x) d = true -> Forall (denom_lt x) (add_coin l d a).
Proof.
  intros Hl Hd. induction Hl as [|c l Hc Hl IH]; cbn; [by repeat constructor|]. repeat case_match; by repeat constructor.
Qed.

Lemma add_coin_spec l d a :
  coins_valid l -> 0 < a ->
  coins_valid (add_coin l d a) /\
  forall e, amount_of e (add_coin l d a) = amount_of e l + (if String.eqb e d then a else 0).
Proof.
  intros Hv Ha. induction l as [|c l IH]; cbn [add_coin].
  { split; [apply coins_valid_cons; done|]. intros e. cbn. rewrite (String.eqb_sym d e). lia. }
  apply coins_valid_cons in Hv as (Hc & Hlt & Hv). destruct (String.eqb_spec (coin_Denom c) d) as [<-|Hne].
  - split; [apply coins_valid_cons; cbn; split_and!; [lia|done|done]|]. intros e. cbn.
    rewrite (String.eqb_sym e). destruct (String.eqb (coin_Denom c) e); lia.
  - destruct (String.ltb d (coin_Denom c)) eqn:El.
    + split; [|intros e; cbn; rewrite (String.eqb_sym d e); lia]. apply coins_valid_cons. split_and!; [done| |].
      * constructor; [done|]. eapply Forall_impl; [exact Hlt|]. cbn. intros x Hx. by eapply ltb_trans.
      * by apply coins_valid_cons.
    + destruct (IH Hv) as [Hv' Ham]. split; [|intros e; cbn; rewrite Ham; lia].
      apply coins_valid_cons. split_and!; [done| |done]. apply add_coin_above; [done|].
      destruct (ltb_cases (coin_Denom c) d) as [|[|]]; congruence.
Qed.

#[export, refine] Instance c_coins : SdkCoins := {|
  coins_Validate l := if forallb (fun c => 0 <? coin_Amount c) l then Ok () else Err ErrInvalidCoins;
  coins_AmountOf l d := amount_of d l;
  coins_Find l d := if 0 <? amount_of d l then Some (mkCoin d (amount_of d l)) else None;
  coins_SafeSub l c := if coin_Amount c <=? amount_of (coin_Denom c) l
                       then (sub_coin l (coin_Denom c) (coin_Amount c), false) else (l, true);
  coins_Add l c := Ok (add_coin l (coin_Denom c) (coin_Amount c));
  coins_NoCoins l := bool_decide (l = [])
|}.
Proof.
  - intros d a. cbn. destruct (Z.ltb_spec 0 a); done.
  - done.
  - done.
  - intros l d a Hv Ha. cbn. exists (sub_coin l d a). rewrite (proj2 (Z.leb_le _ _)) by lia.
    by destruct (sub_coin_spec l d a Hv Ha).
  - intros l d a l' Hv Ha [= <-]. by apply add_coin_spec.
  - intros l _ Hl d. apply bool_decide_eq_true in Hl as ->. done.
Defined.

(** ** Grants *)

Abbreviation c_authz := (gmap (address * address) (authorization * option Z)).

Definition c_dispatch (z : c_authz) (b : cbank) (g : address) (m : MsgSend) : (c_authz * cbank) * res unit :=
  match z !! (g, ms_From m), ms_Amount m with
  | Some (SendAuthorization limit allow, e), [c] =>
      if (0 <? coin_Amount c) && (coin_Amount c <=? amount_of (coin_Denom c) limit) then
        let '(b, r) := cb_move b (Some (ms_From m)) (Some (ms_To m)) [c] in
        let limit' := sub_coin limit (coin_Denom c) (coin_Amount c) in
        (if bool_decide (limit' = []) then delete (g, ms_From m) z
         else <[(g, ms_From m) := (SendAuthorization limit' allow, e)]> z, b, r)
      else (z, b, Err "requested amount is more than spend limit")
  | _, _ => (z, b, Err ErrNoAuthorizationFound)
  end.

#[export, refine] Instance c_authz_keeper : AuthzKeeper c_authz cbank := {|
  az_GetAuthorization z g r := z !! (g, r);
  az_SaveGrant z g r a e := (<[(g, r) := (a, e)]> z, Ok ());
  az_DeleteGrant z g r := (delete (g, r) z, Ok ());
  az_DispatchSend := c_dispatch;
  bk_Send b m := cb_move b (Some (ms_From m)) (Some (ms_To m)) (ms_Amount m);
  bk_SendCoins b x y cs := cb_move b (Some x) (Some y) cs;
  bk_GetSupply b d := 0;
  bk_GetDenomMetaData b d := None;
  SendAuthorization_ValidateBasic l allow := Ok ()
|}.
Proof.
  - intros z g r a e z' [= <-] g' r'. rewrite lookup_insert. repeat case_decide; naive_solver.
  - intros z g r z' [= <-] g' r'. rewrite lookup_delete. repeat case_decide; naive_solver.
  - intros b m b' E a d. by rewrite (cb_move_Ok _ _ _ _ _ _ _ E).
  - intros b x y cs b' E a d. by rewrite (cb_move_Ok _ _ _ _ _ _ _ E).
  - intros z b g m z' b' E _. unfold c_dispatch in E.
    destruct (z !! (g, ms_From m)) as [[[limit allow|] e]|] eqn:Hg; [|done..].
    destruct (ms_Amount m) as [|[d v] [|]] eqn:Hm; [done| |done]. cbn [coin_Denom coin_Amount] in E.
    destruct (Z.ltb_spec 0 v) as [Hv|]; [|done]. destruct (Z.leb_spec v (amount_of d limit)) as [Hle|]; [|done].
    cbn [andb] in E. destruct (cb_move b _ _ _) as [b1 r] eqn:Eb. injection E as <- <- ->.
    assert (Ham : forall d', amount_of d' [mkCoin d v] = if String.eqb d' d then v else 0)
      by (intros d'; rewrite amount_of_single; by rewrite String.eqb_sym).
    exists limit, allow, e. split_and!; [done| | | |].
    + intros d' Hl. rewrite Ham. destruct (String.eqb_spec d' d) as [->|]; [done|].
      destruct Hl as [_ Hp]. clear -Hp. induction Hp as [|c l Hc Hp IH]; cbn; [lia|]. case_match; lia.
    + intros g' r' Hn. case_bool_decide; [rewrite lookup_delete_ne|rewrite lookup_insert_ne]; naive_solver.
    + case_bool_decide as Hz.
      * left. rewrite lookup_delete_eq. split; [done|]. intros Hl d'.
        destruct (sub_coin_spec limit d v Hl) as [_ Hs]; [lia|]. specialize (Hs d'). rewrite Hz in Hs. cbn in Hs.
        rewrite Ham. lia.
      * right. rewrite lookup_insert_eq. eexists. split; [done|]. intros Hl.
        destruct (sub_coin_spec limit d v Hl) as [Hs1 Hs2]; [lia|]. split; [done|]. intros d'. by rewrite Hs2, Ham.
    + intros a d'. by rewrite (cb_move_Ok _ _ _ _ _ _ _ Eb).
Defined.
