(* ===== verification/Erc20PrecompileTheorems.v ===== *)
(** * The ERC-20 precompile implements an ERC-20 token

    The abstract token has balances and allowances; the precompile's
    transactions are its steps, on the balances the bank holds and the spend
    limits the authz module holds for the denomination of the pair. *)

From stdpp Require Import base gmap list numbers strings sorting.
From Stdlib Require Import ZArith Lia.
From S2P Require Import Prelude SdkMath Scaling AccessList StateDB StateDBCommit VmStore TxData TxDataTheorems VmParams VmParamsTheorems Precompile Concrete Erc20 Erc20Ibc Erc20Concrete Erc20Precompile CoinsConcrete.
Import Erc20Precompile.

(** ** Coins *)

Lemma amount_of_sorted_tail c l : coins_valid (c :: l) -> amount_of (coin_Denom c) l = 0.
Proof. intros Hv. apply coins_valid_cons in Hv as (_ & Hlt & _). by apply amount_of_below. Qed.

Lemma coins_valid_tail c l : coins_valid (c :: l) -> coins_valid l.
Proof. intros Hv. by apply coins_valid_cons in Hv as (_ & _ & Hv). Qed.

Lemma coins_valid_nonneg l d : coins_valid l -> 0 <= amount_of d l.
Proof.
  intros [_ Hp]. induction Hp as [|c l Hc Hp IH]; cbn; [lia|]. case_match; lia.
Qed.

Lemma replace_coin_denoms l c l' : replace_coin l c = Some l' -> map coin_Denom l' = map coin_Denom l.
Proof.
  revert l'. induction l as [|x l IH]; intros l'; cbn; [done|].
  destruct (String.eqb_spec (coin_Denom x) (coin_Denom c)) as [E|]; [by intros [= <-]; cbn; rewrite E|].
  destruct (replace_coin l c) as [l0|]; [|done]. cbn. intros [= <-]. cbn. by rewrite (IH l0).
Qed.

Lemma sorted_denoms l l' :
  map coin_Denom l' = map coin_Denom l ->
  StronglySorted (fun c d => String.ltb (coin_Denom c) (coin_Denom d) = true) l ->
  StronglySorted (fun c d => String.ltb (coin_Denom c) (coin_Denom d) = true) l'.
Proof.
  revert l'. induction l as [|x l IH]; intros [|y l'] E Hs; try done.
  injection E as E1 E2. apply StronglySorted_inv in Hs as [Hs Hx]. constructor; [by apply IH|].
  assert (Hd : Forall (fun d => String.ltb (coin_Denom x) d = true) (map coin_Denom l)) by by apply Forall_fmap.
  rewrite <-E2 in Hd. rewrite E1. by apply Forall_fmap in Hd.
Qed.

(** Replacing the amount of one denomination *)
Lemma replace_coin_spec l d a :
  coins_valid l -> 0 < a ->
  match replace_coin l (mkCoin d a) with
  | Some l' => coins_valid l' /\ forall e, amount_of e l' = if String.eqb e d then a else amount_of e l
  | None => amount_of d l = 0
  end.
Proof.
  intros Hv Ha. destruct (replace_coin l (mkCoin d a)) as [l'|] eqn:E.
  - split.
    + split; [by eapply sorted_denoms; [apply (replace_coin_denoms _ _ _ E)|apply Hv]|].
      destruct Hv as [_ Hp]. revert l' E. induction Hp as [|c l Hc Hp IH]; intros l' E; cbn in E; [done|].
      destruct (String.eqb _ _); [injection E as <-; by constructor|].
      destruct (replace_coin l _) as [l0|]; [|done]. injection E as <-. constructor; [done|by apply IH].
    + intros e. revert l' E. induction l as [|c l IH]; intros l' E; cbn in E; [done|].
      pose proof (amount_of_sorted_tail _ _ Hv) as Ht.
      destruct (String.eqb_spec (coin_Denom c) d) as [Ed|Ed].
      * injection E as <-. cbn. rewrite Ed in Ht |- *. rewrite (String.eqb_sym e d).
        destruct (String.eqb_spec d e) as [->|]; lia.
      * destruct (replace_coin l _) as [l0|] eqn:E0; [|done]. injection E as <-. cbn.
        rewrite (IH (coins_valid_tail _ _ Hv) l0 eq_refl).
        destruct (String.eqb_spec e d) as [->|]; [|done].
        destruct (String.eqb_spec (coin_Denom c) d); [done|lia].
  - revert E. induction l as [|c l IH]; cbn; [done|]. destruct (String.eqb (coin_Denom c) d); [done|].
    destruct (replace_coin l _); [done|]. intros _. rewrite IH; [done| |done]. by eapply coins_valid_tail.
Qed.

Lemma coins_valid_single d a : 0 < a -> coins_valid [mkCoin d a].
Proof. intros Ha. split; repeat constructor. exact Ha. Qed.

Section Refinement.
Context `{!EthHex} `{!SdkMath} `{!EvmEnv} `{!SdkCoins}.
Context {authz auth bank : Type} `{!BankKeeper bank} `{!AuthzKeeper authz bank}.
Context `{!Erc20.Erc20Env auth bank} `{!Erc20Ibc.IbcEnv auth bank}.
Abbreviation state := (@callState authz bank).
Implicit Types (p : Precompile) (s : state) (d : string).

Lemma updateOrAddCoin_spec l d a l' :
  coins_valid l -> 0 < a -> updateOrAddCoin l (mkCoin d a) = Ok l' ->
  coins_valid l' /\ forall e, amount_of e l' = if String.eqb e d then a else amount_of e l.
Proof.
  intros Hv Ha. unfold updateOrAddCoin. pose proof (replace_coin_spec l d a Hv Ha) as Hr.
  destruct (replace_coin l _) as [l0|]; [by intros [= <-]|]. intros E.
  destruct (coins_Add_spec _ _ _ _ Hv Ha E) as [Hv' Ham]. split; [done|]. intros e. rewrite Ham.
  destruct (String.eqb_spec e d) as [->|]; lia.
Qed.

(** ** The abstract token *)

(** what a spender may spend of an owner's coins *)
Definition allowance_of s d (owner spender : address) : Z :=
  match az_GetAuthorization (cs_authz s) spender owner with
  | Some (SendAuthorization limit _, _) => amount_of d limit
  | _ => 0
  end.
Definition balance_of s d (a : address) : Z := bk_GetBalance (cs_bank s) a d.

(** every stored spend limit is a valid set of coins *)
Definition authz_ok s : Prop :=
  forall g r limit allow e, az_GetAuthorization (cs_authz s) g r = Some (SendAuthorization limit allow, e) ->
  coins_valid limit.

Inductive erc20_call :=
  | CTransfer (to : address) (v : Z)
  | CTransferFrom (from to : address) (v : Z)
  | CApprove (spender : address) (v : Z)
  | CIncrease (spender : address) (v : Z)
  | CDecrease (spender : address) (v : Z).

Definition moved_balance (bal : address -> Z) (from to : address) (v : Z) (a : address) : Z :=
  bal a - delta_if (bool_decide (a = from)) v + delta_if (bool_decide (a = to)) v.

Definition set_allowance (alw : address -> address -> Z) (owner spender : address) (v : Z) (o q : address) : Z :=
  if decide (o = owner /\ q = spender) then v else alw o q.

(** One step of a token: balances and allowances before and after a call. *)
Inductive erc20_step (caller : address) (bal : address -> Z) (alw : address -> address -> Z)
    (bal' : address -> Z) (alw' : address -> address -> Z) : erc20_call -> Prop :=
  | E_transfer to v : 0 < v ->
      (forall a, bal' a = moved_balance bal caller to v a) -> (forall o q, alw' o q = alw o q) ->
      erc20_step caller bal alw bal' alw' (CTransfer to v)
  | E_transferFrom_own to v : 0 < v ->
      (forall a, bal' a = moved_balance bal caller to v a) -> (forall o q, alw' o q = alw o q) ->
      erc20_step caller bal alw bal' alw' (CTransferFrom caller to v)
  | E_transferFrom from to v : from <> caller -> 0 < v <= alw from caller ->
      (forall a, bal' a = moved_balance bal from to v a) ->
      (forall o q, alw' o q = set_allowance alw from caller (alw from caller - v) o q) ->
      erc20_step caller bal alw bal' alw' (CTransferFrom from to v)
  | E_approve spender v : spender <> caller -> 0 <= v ->
      (forall a, bal' a = bal a) -> (forall o q, alw' o q = set_allowance alw caller spender v o q) ->
      erc20_step caller bal alw bal' alw' (CApprove spender v)
  | E_increase spender v : spender <> caller -> 0 < v -> alw caller spender + v < 2 ^ 256 ->
      (forall a, bal' a = bal a) ->
      (forall o q, alw' o q = set_allowance alw caller spender (alw caller spender + v) o q) ->
      erc20_step caller bal alw bal' alw' (CIncrease spender v)
  | E_decrease spender v : spender <> caller -> 0 < v <= alw caller spender ->
      (forall a, bal' a = bal a) ->
      (forall o q, alw' o q = set_allowance alw caller spender (alw caller spender - v) o q) ->
      erc20_step caller bal alw bal' alw' (CDecrease spender v).

(** the call that a method and its arguments are *)
Definition call_of (method : string) (args : list abi_value) (c : erc20_call) : Prop :=
  match c with
  | CTransfer to v => method = "transfer" /\ args = [VAddress to; VUint v]
  | CTransferFrom from to v => method = "transferFrom" /\ args = [VAddress from; VAddress to; VUint v]
  | CApprove q v => method = "approve" /\ args = [VAddress q; VUint v]
  | CIncrease q v => method = "increaseAllowance" /\ args = [VAddress q; VUint v]
  | CDecrease q v => method = "decreaseAllowance" /\ args = [VAddress q; VUint v]
  end.
Definition call_amount (c : erc20_call) : Z :=
  match c with CTransfer _ v | CTransferFrom _ _ v | CApprove _ v | CIncrease _ v | CDecrease _ v => v end.

(** ** Effects on the grants *)

(** A grant is written: allowances of other keys stay, those of the key are the
    new limit's. *)
Lemma save_effect s g r limit allow e s' :
  authz_ok s -> coins_valid limit ->
  lift_authz s (az_SaveGrant (cs_authz s) g r (SendAuthorization limit allow) e) = (s', Ok ()) ->
  authz_ok s' /\ cs_bank s' = cs_bank s /\ cs_logs s' = cs_logs s /\
  forall d o q, allowance_of s' d o q = if decide (o = r /\ q = g) then amount_of d limit else allowance_of s d o q.
Proof.
  intros Hok Hv. unfold lift_authz. destruct (az_SaveGrant _ _ _ _ _) as [z res] eqn:E. cbn. intros [= <- ->].
  pose proof (az_save _ _ _ _ _ _ E) as Hg. split_and!; [|done..|].
  - intros g' r' l a' e'. cbn. rewrite Hg. case_decide; [by intros [= <- <- <-]|apply Hok].
  - intros d o q. unfold allowance_of. cbn. rewrite Hg. repeat case_decide; naive_solver.
Qed.

Lemma delete_effect s g r s' :
  authz_ok s -> lift_authz s (az_DeleteGrant (cs_authz s) g r) = (s', Ok ()) ->
  authz_ok s' /\ cs_bank s' = cs_bank s /\ cs_logs s' = cs_logs s /\
  forall d o q, allowance_of s' d o q = if decide (o = r /\ q = g) then 0 else allowance_of s d o q.
Proof.
  intros Hok. unfold lift_authz. destruct (az_DeleteGrant _ _ _) as [z res] eqn:E. cbn. intros [= <- ->].
  pose proof (az_delete _ _ _ _ E) as Hg. split_and!; [|done..|].
  - intros g' r' l a' e'. cbn. rewrite Hg. case_decide; [done|apply Hok].
  - intros d o q. unfold allowance_of. cbn. rewrite Hg. repeat case_decide; naive_solver.
Qed.

(** The effect of setting one allowance of one denomination: nothing else moves. *)
Definition sets_allowance s d (owner spender : address) (v : Z) (evs : list event) s' : Prop :=
  authz_ok s' /\ cs_bank s' = cs_bank s /\ cs_logs s' = cs_logs s ++ evs /\
  forall e o q, allowance_of s' e o q =
    if String.eqb e d then set_allowance (allowance_of s d) owner spender v o q else allowance_of s e o q.

Lemma sets_allowance_intro s d owner spender v s' :
  authz_ok s' -> cs_bank s' = cs_bank s -> cs_logs s' = cs_logs s ->
  (forall e o q, allowance_of s' e o q =
    if decide (o = owner /\ q = spender) then (if String.eqb e d then v else allowance_of s e owner spender)
    else allowance_of s e o q) -> sets_allowance s d owner spender v [] s'.
Proof.
  intros H1' H2' Hl H3'. split_and!; [done..|by rewrite app_nil_r|]. intros e o q. rewrite H3'. unfold set_allowance.
  destruct (String.eqb_spec e d) as [->|]; [done|]. case_decide as Hd; [by destruct Hd as [-> ->]|done].
Qed.

Lemma createAuthorization_effect p s grantee granter amount s' :
  authz_ok s -> 0 < amount -> az_GetAuthorization (cs_authz s) grantee granter = None ->
  createAuthorization p s grantee granter amount = (s', Ok ()) ->
  sets_allowance s (denom p) granter grantee amount [] s' /\ amount < 2 ^ 256.
Proof.
  intros Hok Ha Hn. unfold createAuthorization. destruct (Z.leb_spec (2 ^ 256) (Z.abs amount)); [done|]. intros E.
  apply st_pure_Ok_inv in E as (a & Ea & E). apply NewIntFromBigInt_Ok in Ea as ->.
  apply st_pure_Ok_inv in E as ([] & _ & E). apply save_effect in E as (H1' & H2' & Hl & H3'); [|done..|by apply coins_valid_single].
  split; [|lia]. apply sets_allowance_intro; [done..|]. intros e o q. rewrite H3'. case_decide; [|done].
  unfold allowance_of. rewrite Hn, amount_of_single. by rewrite String.eqb_sym.
Qed.

Lemma updateAuthorization_effect p s grantee granter amount limit allow e s' :
  authz_ok s -> 0 < amount -> az_GetAuthorization (cs_authz s) grantee granter = Some (SendAuthorization limit allow, e) ->
  updateAuthorization p s grantee granter amount limit allow e = (s', Ok ()) ->
  sets_allowance s (denom p) granter grantee amount [] s'.
Proof.
  intros Hok Ha Hg. unfold updateAuthorization. intros E.
  apply st_pure_Ok_inv in E as (a & Ea & E). apply NewIntFromBigInt_Ok in Ea as ->.
  apply st_pure_Ok_inv in E as (limit' & El & E). apply st_pure_Ok_inv in E as ([] & _ & E).
  apply updateOrAddCoin_spec in El as [Hv' Ham]; [|by eapply Hok|done].
  apply save_effect in E as (H1' & H2' & Hl & H3'); [|done..].
  apply sets_allowance_intro; [done..|]. intros e' o q. rewrite H3'. case_decide; [|done].
  rewrite Ham. unfold allowance_of. by rewrite Hg.
Qed.

Lemma removeSpendLimit_effect p s grantee granter a e s' :
  authz_ok s -> az_GetAuthorization (cs_authz s) grantee granter = Some (a, e) ->
  removeSpendLimitOrDeleteAuthorization p s grantee granter a e = (s', Ok ()) ->
  sets_allowance s (denom p) granter grantee 0 [] s' /\ 0 < allowance_of s (denom p) granter grantee.
Proof.
  intros Hok Hg. unfold removeSpendLimitOrDeleteAuthorization. destruct a as [limit allow|]; [|done].
  pose proof (Hok _ _ _ _ _ Hg) as Hv. rewrite (coins_Find_spec limit (denom p) Hv).
  assert (Ha : forall e', allowance_of s e' granter grantee = amount_of e' limit) by (intros; unfold allowance_of; by rewrite Hg).
  destruct (Z.ltb_spec 0 (amount_of (denom p) limit)) as [Hpos|]; [|done].
  destruct (coins_SafeSub_spec limit (denom p) (amount_of (denom p) limit) Hv) as (l' & -> & Hv' & Ham); [lia|].
  intros E. split; [|by rewrite Ha].
  assert (Hsub : forall e', amount_of e' l' = if String.eqb e' (denom p) then 0 else amount_of e' limit).
  { intros e'. rewrite Ham. destruct (String.eqb_spec e' (denom p)) as [->|]; lia. }
  destruct (coins_NoCoins l') eqn:Ez.
  - apply delete_effect in E as (H1' & H2' & Hl & H3'); [|done..]. apply sets_allowance_intro; [done..|].
    intros e' o q. rewrite H3'. case_decide; [|done]. rewrite Ha, <-Hsub. by rewrite (coins_NoCoins_spec l' Hv' Ez).
  - apply save_effect in E as (H1' & H2' & Hl & H3'); [|done..]. apply sets_allowance_intro; [done..|].
    intros e' o q. rewrite H3'. case_decide; [|done]. by rewrite Hsub, Ha.
Qed.

Lemma AddLog_sets s d o q v s' evs ev :
  sets_allowance s d o q v evs s' -> sets_allowance s d o q v (evs ++ [ev]) (AddLog ev s').
Proof. intros (H1' & H2' & H3' & H4'). split_and!; try done. cbn. by rewrite H3', app_assoc. Qed.

(** ** The transactions *)

Lemma Approve_effect p caller s spender v s' r :
  authz_ok s -> 0 <= v -> Approve p caller s [VAddress spender; VUint v] = (s', Ok r) ->
  r = RBool true /\ spender <> caller /\
  sets_allowance s (denom p) caller spender v [EvApproval (Address p) spender v] s'.
Proof.
  intros Hok Hv. unfold Approve. cbn [ParseApproveArgs st_bind].
  destruct (Z.eqb_spec spender caller); [done|]. intros E. apply st_bind_Ok_inv in E as (s1 & [] & E & [= <- <-]).
  split_and!; [done..|]. apply (AddLog_sets _ _ _ _ _ _ []).
  destruct (az_GetAuthorization (cs_authz s) spender caller) as [[a e]|] eqn:Hg.
  - destruct (Z.leb_spec v 0); [replace v with 0 by lia; by eapply removeSpendLimit_effect in E as [? _]|].
    destruct a as [limit allow|]; [|done]. by eapply updateAuthorization_effect.
  - destruct (Z.ltb_spec v 0); [lia|]. destruct (Z.ltb_spec 0 v); [by eapply createAuthorization_effect in E as [? _]|].
    injection E as <-. apply sets_allowance_intro; [done..|]. intros e o q. case_decide as Hd; [|done].
    destruct Hd as [-> ->]. unfold allowance_of. rewrite Hg. by destruct (String.eqb e (denom p)); [lia|].
Qed.

Lemma IncreaseAllowance_effect p caller s spender v s' r :
  authz_ok s -> IncreaseAllowance p caller s [VAddress spender; VUint v] = (s', Ok r) ->
  let w := allowance_of s (denom p) caller spender + v in
  r = RBool true /\ spender <> caller /\ 0 < v /\ w < 2 ^ 256 /\
  sets_allowance s (denom p) caller spender w [EvApproval (Address p) spender w] s'.
Proof.
  intros Hok E w. unfold IncreaseAllowance in E. cbn [ParseApproveArgs st_bind] in E.
  destruct (Z.eqb_spec spender caller); [done|]. apply st_bind_Ok_inv in E as (s1 & x & E & [= <- <-]).
  destruct (Z.leb_spec v 0); [done|].
  assert (Hx : x = w /\ w < 2 ^ 256 /\ sets_allowance s (denom p) caller spender w [] s1).
  { unfold w, allowance_of. destruct (az_GetAuthorization (cs_authz s) spender caller) as [[a e]|] eqn:Hg.
    - unfold increaseAllowance in E. destruct a as [limit allow|]; [|done].
      rewrite coins_AmountOf_spec in E by by eapply Hok. apply st_pure_Ok_inv in E as (y & Ey & E).
      apply NewIntFromBigInt_Ok in Ey as ->. cbn [SafeAdd] in E.
      pose proof (coins_valid_nonneg limit (denom p) (Hok _ _ _ _ _ Hg)).
      destruct (Z.leb_spec (2 ^ 256) (Z.abs (amount_of (denom p) limit + v))); [done|].
      apply st_bind_Ok_inv in E as (s2 & [] & E & [= <- <-]). split_and!; [done|lia|].
      eapply updateAuthorization_effect; [done| |done|done]. lia.
    - apply st_bind_Ok_inv in E as (s2 & [] & E & [= <- <-]).
      apply createAuthorization_effect in E as [? ?]; [|done..]. rewrite Z.add_0_l. done. }
  destruct Hx as (-> & Hw & Hs). split_and!; try done. by apply (AddLog_sets _ _ _ _ _ _ []).
Qed.

Lemma DecreaseAllowance_effect p caller s spender v s' r :
  authz_ok s -> DecreaseAllowance p caller s [VAddress spender; VUint v] = (s', Ok r) ->
  let w := allowance_of s (denom p) caller spender - v in
  r = RBool true /\ spender <> caller /\ 0 < v /\ 0 <= w /\
  sets_allowance s (denom p) caller spender w [EvApproval (Address p) spender w] s'.
Proof.
  intros Hok. unfold DecreaseAllowance. cbn [ParseApproveArgs st_bind].
  destruct (Z.eqb_spec spender caller); [done|]. cbn zeta. intros E.
  apply st_bind_Ok_inv in E as (s1 & x & E & [= <- <-]).
  destruct (Z.leb_spec v 0); [done|]. unfold GetAuthzExpirationAndAllowance, CheckAuthzExists in E.
  destruct (az_GetAuthorization (cs_authz s) spender caller) as [[[limit allow|] e]|] eqn:Hg; cbn in E; [|done..].
  pose proof (Hok _ _ _ _ _ Hg) as Hv. rewrite coins_AmountOf_spec in E by done.
  assert (Ha : allowance_of s (denom p) caller spender = amount_of (denom p) limit) by (unfold allowance_of; by rewrite Hg).
  rewrite Ha. destruct (Z.ltb_spec v (amount_of (denom p) limit)).
  - rewrite coins_Find_spec in E by done. destruct (Z.ltb_spec 0 (amount_of (denom p) limit)); [cbn in E|done].
    destruct (Z.ltb_spec (amount_of (denom p) limit - v) 0); [done|].
    apply st_bind_Ok_inv in E as (s2 & [] & E & [= <- <-]). split_and!; [done..|lia|].
    apply (AddLog_sets _ _ _ _ _ _ []). eapply updateAuthorization_effect; [done| |done|done]. lia.
  - destruct (Z.eqb_spec v (amount_of (denom p) limit)) as [->|]; [|by destruct (_ =? 0)].
    apply st_bind_Ok_inv in E as (s2 & [] & E & [= <- <-]). rewrite Z.sub_diag. split_and!; [done..|].
    apply (AddLog_sets _ _ _ _ _ _ []).
    by destruct (removeSpendLimit_effect p s spender caller (SendAuthorization limit allow) e s2 Hok Hg E).
Qed.

(** ** Transfers *)

Lemma amount_of_one d e v : amount_of e [mkCoin d v] = if String.eqb e d then v else 0.
Proof. rewrite amount_of_single. by rewrite String.eqb_sym. Qed.

(** A transfer moves the coins of the pair's denomination and, through another
    spender, uses up the allowance; other denominations are untouched. *)
Definition transfers p s (caller from to : address) (v : Z) s' : Prop :=
  authz_ok s' /\ 0 < v /\
  (forall e a, balance_of s' e a =
    if String.eqb e (denom p) then moved_balance (balance_of s (denom p)) from to v a else balance_of s e a) /\
  (from <> caller -> v <= allowance_of s (denom p) from caller) /\
  forall e o q, allowance_of s' e o q =
    if String.eqb e (denom p) && negb (from =? caller)
    then set_allowance (allowance_of s (denom p)) from caller (allowance_of s (denom p) from caller - v) o q
    else allowance_of s e o q.

Lemma convert_err_Ok {A} (r : res A) a : convert_err r = Ok a -> r = Ok a.
Proof. by destruct r. Qed.

Lemma send_balances p b b' from to v :
  (forall a e, bk_GetBalance b' a e = bk_GetBalance b a e
    - delta_if (bool_decide (a = from)) (amount_of e [mkCoin (denom p) v])
    + delta_if (bool_decide (a = to)) (amount_of e [mkCoin (denom p) v])) ->
  forall e a, bk_GetBalance b' a e =
    if String.eqb e (denom p) then moved_balance (fun a => bk_GetBalance b a (denom p)) from to v a else bk_GetBalance b a e.
Proof.
  intros Hb e a. rewrite Hb, amount_of_one. unfold moved_balance.
  destruct (String.eqb_spec e (denom p)) as [->|]; [done|]. unfold delta_if. repeat case_bool_decide; lia.
Qed.

(** the effect of the grant and bank part of a transfer through a spender *)
Lemma dispatch_effect p s caller from to v z b :
  authz_ok s -> from <> caller -> 0 < v ->
  az_DispatchSend (cs_authz s) (cs_bank s) caller (mkMsgSend from to [mkCoin (denom p) v]) = ((z, b), Ok ()) ->
  transfers p s caller from to v (with_authz z (with_bank b s)).
Proof.
  intros Hok Hne Hv E. apply az_dispatch in E as (limit & allow & e & Hg & Hle & Hother & Hkey & Hb); [|cbn; congruence].
  cbn [ms_From ms_To ms_Amount] in *. pose proof (Hok _ _ _ _ _ Hg) as Hvalid.
  specialize (Hle (denom p) Hvalid). rewrite amount_of_one, String.eqb_refl in Hle.
  assert (Ha : forall e', allowance_of s e' from caller = amount_of e' limit) by (intros; unfold allowance_of; by rewrite Hg).
  assert (Hkey' : forall e', allowance_of (with_authz z (with_bank b s)) e' from caller =
    amount_of e' limit - (if String.eqb e' (denom p) then v else 0)).
  { intros e'. unfold allowance_of. cbn. rewrite <-amount_of_one. destruct Hkey as [[-> H0']|(limit' & -> & H0')].
    - rewrite (H0' Hvalid e'). lia.
    - destruct (H0' Hvalid) as [_ ->]. done. }
  split_and!; [|done|by apply send_balances|by rewrite Ha|].
  - intros g r l a' e'. cbn. destruct (decide (g = caller /\ r = from)) as [[-> ->]|Hn].
    + destruct Hkey as [[-> _]|(limit' & -> & H0')]; [done|]. intros [= <- <- <-]. by apply H0'.
    + rewrite Hother by done. apply Hok.
  - intros e' o q. destruct (Z.eqb_spec from caller); [done|]. cbn [negb]. rewrite andb_true_r. unfold set_allowance.
    destruct (decide (o = from /\ q = caller)) as [[-> ->]|Hn].
    + rewrite Hkey', !Ha. destruct (String.eqb_spec e' (denom p)) as [->|]; lia.
    + assert (Eo : allowance_of (with_authz z (with_bank b s)) e' o q = allowance_of s e' o q).
      { unfold allowance_of. cbn. rewrite Hother; [done|]. naive_solver. }
      rewrite Eo. by destruct (String.eqb_spec e' (denom p)) as [->|].
Qed.

Lemma transfers_ext p s caller from to v s1 s2 :
  cs_authz s2 = cs_authz s1 -> cs_bank s2 = cs_bank s1 ->
  transfers p s caller from to v s1 -> transfers p s caller from to v s2.
Proof. unfold transfers, authz_ok, balance_of, allowance_of. intros -> ->. done. Qed.

Lemma transfer_effect p caller isFrom s from to v s' r :
  authz_ok s -> transfer p caller isFrom s from to v = (s', Ok r) ->
  r = RBool true /\ transfers p s caller from to v s'.
Proof.
  intros Hok. unfold transfer. intros E. apply st_pure_Ok_inv in E as (x & Ex & E). apply NewIntFromBigInt_Ok in Ex as ->.
  apply st_pure_Ok_inv in E as ([] & Hpos & E). apply coins_Validate_pos in Hpos.
  apply st_bind_Ok_inv in E as (s1 & prev & E1 & E).
  assert (Ht : transfers p s caller from to v s1).
  { destruct (Z.eqb_spec caller from) as [->|Hne].
    - destruct (bk_Send _ _) as [b rr] eqn:Es. injection E1 as <- E1. apply convert_err_Ok in E1.
      destruct rr as [[]| |]; [|done..]. split_and!; [done|done| |done|].
      + apply send_balances. intros a e. apply (bk_send _ _ _ Es).
      + intros e o q. rewrite Z.eqb_refl. cbn [negb]. by rewrite andb_false_r.
    - destruct (GetAuthzExpirationAndAllowance _ _ _ _) as [[[a0 e0] prev0]| |]; [|done..].
      destruct (az_DispatchSend _ _ _ _) as [[z b] rr] eqn:Es. injection E1 as <- E1. apply convert_err_Ok in E1.
      destruct rr as [[]| |]; [|done..]. by apply dispatch_effect; [|congruence|..]. }
  destruct (String.eqb (denom p) _), isFrom; cbn [negb] in E; injection E as <- <-; (split; [done|]);
    revert Ht; by apply transfers_ext.
Qed.

(** the parts of the refinement that the calls share *)
Lemma transfers_others p s caller from to v s' :
  transfers p s caller from to v s' -> forall e, e <> denom p ->
  (forall a, balance_of s' e a = balance_of s e a) /\ (forall o q, allowance_of s' e o q = allowance_of s e o q).
Proof.
  intros (_ & _ & Hb & _ & Ha) e He. apply String.eqb_neq in He. split; intros *; [rewrite Hb|rewrite Ha]; by rewrite He.
Qed.

Lemma transfers_step p s caller from to v s' :
  from <> caller -> transfers p s caller from to v s' ->
  RBool true = RBool true /\ authz_ok s' /\
  erc20_step caller (balance_of s (denom p)) (allowance_of s (denom p))
    (balance_of s' (denom p)) (allowance_of s' (denom p)) (CTransferFrom from to v) /\
  forall e, e <> denom p ->
    (forall a, balance_of s' e a = balance_of s e a) /\ (forall o q, allowance_of s' e o q = allowance_of s e o q).
Proof.
  intros Hne Ht. pose proof (transfers_others _ _ _ _ _ _ _ Ht) as Ho. destruct Ht as (Hok & Hv & Hb & Hle & Ha).
  split_and!; [done..| |done]. specialize (Hle Hne). constructor; [done|lia|intros a; by rewrite Hb, String.eqb_refl|].
  intros o q. rewrite Ha, String.eqb_refl. by destruct (Z.eqb_spec from caller).
Qed.

Lemma transfers_step_own p s caller to v s' c :
  c = CTransfer to v \/ c = CTransferFrom caller to v -> transfers p s caller caller to v s' ->
  RBool true = RBool true /\ authz_ok s' /\
  erc20_step caller (balance_of s (denom p)) (allowance_of s (denom p))
    (balance_of s' (denom p)) (allowance_of s' (denom p)) c /\
  forall e, e <> denom p ->
    (forall a, balance_of s' e a = balance_of s e a) /\ (forall o q, allowance_of s' e o q = allowance_of s e o q).
Proof.
  intros Hc Ht. pose proof (transfers_others _ _ _ _ _ _ _ Ht) as Ho. destruct Ht as (Hok & Hv & Hb & _ & Ha).
  split_and!; [done..| |done].
  assert (Hb' : forall a, balance_of s' (denom p) a = moved_balance (balance_of s (denom p)) caller to v a)
    by (intros a; by rewrite Hb, String.eqb_refl).
  assert (Ha' : forall o q, allowance_of s' (denom p) o q = allowance_of s (denom p) o q)
    by (intros o q; by rewrite Ha, Z.eqb_refl, andb_false_r).
  destruct Hc as [-> | ->]; by constructor.
Qed.

Lemma sets_step p s owner spender v evs s' (P : Prop) :
  sets_allowance s (denom p) owner spender v evs s' ->
  ((forall a, balance_of s' (denom p) a = balance_of s (denom p) a) ->
   (forall o q, allowance_of s' (denom p) o q = set_allowance (allowance_of s (denom p)) owner spender v o q) -> P) ->
  authz_ok s' /\ P /\
  forall e, e <> denom p ->
    (forall a, balance_of s' e a = balance_of s e a) /\ (forall o q, allowance_of s' e o q = allowance_of s e o q).
Proof.
  intros (Hok & Hb & _ & Ha) HP. unfold balance_of in *. rewrite Hb in *. split_and!; [done| |].
  - apply HP; [done|]. intros o q. by rewrite Ha, String.eqb_refl.
  - intros e He. split; [done|]. intros o q. rewrite Ha. by apply String.eqb_neq in He as ->.
Qed.

(** ** Theorems *)

(** C17: The ERC-20 precompile refines an ERC-20 token. Every transaction that
    succeeds answers true and is a step of the token with the same call: a
    transfer moves exactly the amount, transferFrom needs an allowance and uses it
    up by the amount, approve sets, increaseAllowance raises within 256 bits and
    decreaseAllowance lowers an allowance; valid grants stay valid, and balances
    and allowances of all other denominations are untouched. *)
Theorem precompile_refines_erc20 p caller s method args c s' r :
  authz_ok s -> call_of method args c -> 0 <= call_amount c ->
  HandleMethod p caller s method args = (s', Ok r) ->
  r = RBool true /\ authz_ok s' /\
  erc20_step caller (balance_of s (denom p)) (allowance_of s (denom p))
    (balance_of s' (denom p)) (allowance_of s' (denom p)) c /\
  forall e, e <> denom p ->
    (forall a, balance_of s' e a = balance_of s e a) /\ (forall o q, allowance_of s' e o q = allowance_of s e o q).
Proof.
  intros Hok Hc Hv E. destruct c as [to v|from to v|q v|q v|q v]; destruct Hc as [-> ->]; cbn [call_amount] in Hv;
    unfold HandleMethod in E; cbn [String.eqb Ascii.eqb Bool.eqb] in E.
  - apply transfer_effect in E as [-> Ht]; [|done]. eapply transfers_step_own; [by left|done].
  - apply transfer_effect in E as [-> Ht]; [|done]. destruct (decide (from = caller)) as [->|Hne].
    + eapply transfers_step_own; [by right|done].
    + by eapply transfers_step.
  - apply Approve_effect in E as (-> & Hne & Hs); [|done..]. split; [done|]. eapply sets_step; [done|].
    intros Hb Ha. by constructor.
  - apply IncreaseAllowance_effect in E as (-> & Hne & Hpos & Hw & Hs); [|done..]. split; [done|].
    eapply sets_step; [done|]. intros Hb Ha. by constructor.
  - apply DecreaseAllowance_effect in E as (-> & Hne & Hpos & Hw & Hs); [|done..]. split; [done|].
    eapply sets_step; [done|]. intros Hb Ha. constructor; [done|lia|done..].
Qed.

Lemma HandleMethod_query p caller s method args :
  IsTransaction method = false -> (HandleMethod p caller s method args).1 = s.
Proof.
  intros Ht. apply bool_decide_eq_false in Ht.
  assert (Hne : forall m, m ∈ ["transfer"; "transferFrom"; "approve"; "increaseAllowance"; "decreaseAllowance"] ->
    String.eqb method m = false) by (intros m Hm; apply String.eqb_neq; congruence).
  unfold HandleMethod. rewrite !Hne by (repeat constructor). by repeat case_match.
Qed.

(** C18: A read-only call cannot write. In both precompiles, whatever the ABI, the
    value, the input and the gas, a read-only call leaves grants, bank, logs and
    journal entries as they are; balanceOf and allowance answer the balance and
    the allowance of the token, and the largest number for the allowance of an
    owner over its own coins. *)
Theorem read_only_calls_do_not_write p caller s :
  authz_ok s ->
  (forall abi value input gas, (Run abi p caller true value input gas s).1 = s /\
    (W_Run abi p caller true value input gas s).1 = s) /\
  (forall a, HandleMethod p caller s "balanceOf" [VAddress a] = (s, Ok (RUint (balance_of s (denom p) a)))) /\
  (forall o q, HandleMethod p caller s "allowance" [VAddress o; VAddress q] =
    (s, Ok (RUint (if o =? q then MaxUint256 else allowance_of s (denom p) o q)))).
Proof.
  intros Hok. split_and!.
  - intros abi value input gas. split.
    + unfold Run. case_match; [done|]. destruct (setup_call _ _ _ _ _) as [[m args]| |] eqn:Es; [|done..].
      apply setup_call_read_only in Es. cbn [st_bind fst snd]. apply (st_bind_fst (fun s' => s' = s)); [by apply HandleMethod_query|].
      intros s1 bz ->. by destruct gas.
    + unfold W_Run. destruct (setup_call _ _ _ _ _) as [[m args]| |] eqn:Es; [|done..].
      apply setup_call_read_only in Es. unfold W_IsTransaction in Es.
      apply orb_false_iff in Es as [Es Ht]. apply orb_false_iff in Es as [Ef Ew]. apply bool_decide_eq_false in Ew.
      cbn [st_bind fst snd]. apply (st_bind_fst (fun s' => s' = s)); [|intros s1 bz ->; by destruct gas].
      unfold W_HandleMethod. rewrite Ef. cbn [orb].
      destruct (String.eqb_spec (meth_Name m) "deposit"); [set_solver|].
      destruct (String.eqb_spec (meth_Name m) "withdraw"); [set_solver|]. by apply HandleMethod_query.
  - done.
  - intros o q. cbn. destruct (o =? q); [done|]. unfold GetAuthzExpirationAndAllowance, CheckAuthzExists, allowance_of.
    destruct (az_GetAuthorization (cs_authz s) q o) as [[[limit allow|] e]|] eqn:Hg; cbn; [|done..].
    by rewrite coins_AmountOf_spec by by eapply Hok.
Qed.

(** The Approval event of approve names the contract as the owner, not the
    caller whose coins the spender may spend. *)
Theorem approve_event_names_contract p caller s spender v s' r :
  authz_ok s -> 0 <= v -> HandleMethod p caller s "approve" [VAddress spender; VUint v] = (s', Ok r) ->
  allowance_of s' (denom p) caller spender = v /\
  cs_logs s' = cs_logs s ++ [EvApproval (Address p) spender v].
Proof.
  intros Hok Hv E. apply Approve_effect in E as (_ & _ & _ & _ & Hl & Ha); [|done..]. split; [|done].
  rewrite Ha, String.eqb_refl. unfold set_allowance. by rewrite decide_True.
Qed.

(** ** The wrapped coin *)

(** Deposit sends back as many units of the bank as the value has units of 18
    decimals, and journals the value. *)
Theorem deposit_is_not_scaled p caller value s s' r :
  0 < value -> Address p <> caller -> Deposit p caller value s = (s', Ok r) ->
  balance_of s' (GetEVMCoinDenom coinCfg) caller = balance_of s (GetEVMCoinDenom coinCfg) caller + value /\
  balance_of s' (GetEVMCoinDenom coinCfg) (Address p) = balance_of s (GetEVMCoinDenom coinCfg) (Address p) - value /\
  cs_entries s' = [mkBalanceChangeEntry caller value Add; mkBalanceChangeEntry (Address p) value Sub].
Proof.
  intros Hv Hne E. unfold Deposit in E. apply st_pure_Ok_inv in E as (a & Ea & E). apply NewIntFromBigInt_Ok in Ea as ->.
  rewrite (proj2 (Z.ltb_ge value 0)), (proj2 (Z.eqb_neq value 0)) in E by lia. cbn [st_bind] in E.
  apply st_bind_Ok_inv in E as (s1 & [] & E1 & [= <- <-]). unfold lift_bank in E1.
  destruct (bk_SendCoins _ _ _ _) as [b rr] eqn:Es. injection E1 as <- ->. unfold balance_of. cbn.
  rewrite !(bk_send_coins _ _ _ _ _ Es), !amount_of_single, String.eqb_refl. unfold delta_if.
  repeat case_bool_decide; split_and!; try done; congruence || lia.
Qed.
End Refinement.

(** ** Runs *)

Definition c_prec : Precompile := mkPrecompile (Erc20.mkTokenPair (addr_Hex 12345) "ibc/AB" true Erc20.OWNER_MODULE) 100 7.
Definition c_call : @callState c_authz cbank := mkCallState ∅ (<[(1, "ibc/AB") := 50]> ∅) [] [].
Definition c_run (caller : address) (s : @callState c_authz cbank) (method : string) (args : list abi_value) :=
  HandleMethod c_prec caller s method args.
(** account 1 lets account 5 spend 30 *)
Definition c_call1 := (c_run 1 c_call "approve" [VAddress 5; VUint 30]).1.
(** which sends 12 of them to account 9 *)
Definition c_call2 := (c_run 5 c_call1 "transferFrom" [VAddress 1; VAddress 9; VUint 12]).1.

Lemma c_call_ok : authz_ok c_call.
Proof. intros g r limit allow e. cbn. by rewrite lookup_empty. Qed.

Lemma c_call1_ok : authz_ok c_call1.
Proof.
  destruct (Approve_effect c_prec 1 c_call 5 30 c_call1 (RBool true) c_call_ok) as (_ & _ & H & _); [done| |done].
  apply pair_snd. vm_compute. reflexivity.
Qed.

Lemma precompile_refines_erc20_witness :
  erc20_step 5 (balance_of c_call1 "ibc/AB") (allowance_of c_call1 "ibc/AB")
    (balance_of c_call2 "ibc/AB") (allowance_of c_call2 "ibc/AB") (CTransferFrom 1 9 12) /\
  allowance_of c_call2 "ibc/AB" 1 5 = 18 /\ balance_of c_call2 "ibc/AB" 9 = 12.
Proof.
  split; [|split; vm_compute; reflexivity].
  destruct (precompile_refines_erc20 c_prec 5 c_call1 "transferFrom" [VAddress 1; VAddress 9; VUint 12]
    (CTransferFrom 1 9 12) c_call2 (RBool true)) as (_ & _ & H & _); [exact c_call1_ok|done|done| |exact H].
  apply pair_snd. vm_compute. reflexivity.
Defined.

Lemma read_only_calls_do_not_write_witness :
  c_run 9 c_call1 "allowance" [VAddress 1; VAddress 5] = (c_call1, Ok (RUint 30)).
Proof.
  destruct (read_only_calls_do_not_write c_prec 9 c_call1 c_call1_ok) as (_ & _ & H).
  unfold c_run. rewrite (H 1 5). vm_compute. reflexivity.
Defined.

(** a deposit of one unit of a bank with 6 decimals (10^12 of 18 decimals) sends
    10^12 units back *)
Example deposit_is_not_scaled_witness :
  let s := mkCallState (∅ : c_authz) (<[(12345, "utac") := 10 ^ 18]> ∅) [] [] in
  balance_of (Deposit c_prec 1 (10 ^ 12) s).1 "utac" 1 = 10 ^ 12.
Proof. vm_compute. reflexivity. Qed.
