(* ===== verification/NativePrecompile.v ===== *)
(** * What the native precompiles share ([precompiles/common], [precompiles/authorization])

    The arguments of a call as the ABI decodes them, the logs, the conversions of
    [common/types.go] and [common/abi.go], and the checks of authorizations in
    [authorization/types.go]. The authz keeper and the bech32 texts of addresses
    are Cosmos SDK code; they appear as classes. *)

From stdpp Require Import base gmap list numbers strings.
From Stdlib Require Import ZArith Lia.
From S2P Require Import Prelude SdkMath Scaling AccessList StateDB TxData Precompile.

Module Native.

(** ** Errors: their constant texts *)

Definition ErrInvalidNumberOfArgs : error := "invalid number of arguments".
Definition ErrInvalidDelegator : error := "invalid delegator address".
Definition ErrInvalidValidator : error := "invalid validator address".
Definition ErrInvalidHexAddress : error := "invalid hex address address".
Definition ErrInvalidAmount : error := "invalid amount".
Definition ErrInvalidType : error := "invalid type".
Definition ErrInvalidDescription : error := "invalid description".
Definition ErrInvalidCommission : error := "invalid commission".
Definition ErrInvalidMsgType : error := "invalid transaction type".
Definition ErrUnknownMethod : error := "unknown method".
Definition ErrDelegatorDifferentOrigin : error := "tx origin address does not match the delegator address".
Definition ErrSpenderDifferentOrigin : error := "tx origin address does not match the spender address".
Definition ErrIntegerOverflow : error := "integer overflow when increasing allowance".
Definition ErrNegativeAmount : error := "negative amount when decreasing allowance".
Definition ErrInvalidGranter : error := "invalid granter address".
Definition ErrInvalidGrantee : error := "invalid grantee address".
Definition ErrInvalidMethods : error := "invalid methods defined; expected an array of strings".
Definition ErrInvalidMethod : error := "invalid method defined; expected a string".
Definition ErrEmptyMethods : error := "no methods defined; expected at least one message type url".
Definition ErrEmptyStringInMethods : error := "empty string found in methods array".
Definition ErrEmptyMethod : error := "empty method defined; expected a valid message type url".
Definition ErrAmountNegative : error := "amount cannot be negative".
Definition ErrAuthzDoesNotExistOrExpired : error := "authorization does not exist or is expired".
Definition ErrExceededAllowance : error := "amount greater than allowed limit".
Definition ErrAuthzNotAccepted : error := "authorization is not accepted".
Definition ErrUnknownAuthorizationType : error := "unknown authorization type".
Definition ErrUnpackArgs : error := "error while unpacking args".
Definition ErrOutOfGas : error := "out of gas".

(** ** Data of the EVM side ([common/types.go]); [Coin] is the record of [Scaling] *)

Record DecCoin := mkDecCoin { dcn_Denom : string; dcn_Amount : Z; dcn_Precision : Z }.
Record Dec := mkDec { dec_Value : Z; dec_Precision : Z }.

Record Allocation := mkAllocation {
  al_SourcePort : string;
  al_SourceChannel : string;
  al_SpendLimit : list Coin;
  al_AllowList : list string;
  al_AllowedPacketData : list string
}.

Record Description := mkDescription {
  ds_Moniker : string; ds_Identity : string; ds_Website : string;
  ds_SecurityContact : string; ds_Details : string
}.
Record Commission := mkCommission { cm_Rate : Z; cm_MaxRate : Z; cm_MaxChangeRate : Z }.

Record PageRequest := mkPageRequest {
  pr_Key : bytes; pr_Offset : Z; pr_Limit : Z; pr_CountTotal : bool; pr_Reverse : bool
}.
Record PageResponse := mkPageResponse { ps_NextKey : bytes; ps_Total : Z }.

Record Height := mkHeight { RevisionNumber : Z; RevisionHeight : Z }.

(** An argument of a call, by its Go type after decoding. *)
Inductive abi_value :=
  | VAddress (a : address)
  | VBigInt (z : Z)
  | VString (s : string)
  | VStrings (l : list string)
  | VBool (b : bool)
  | VUint8 (z : Z)
  | VUint32 (z : Z)
  | VUint64 (z : Z)
  | VBytes (b : bytes)
  | VDescription (d : Description)
  | VCommission (c : Commission)
  | VPageRequest (p : PageRequest)
  | VHeight (h : Height)
  | VAllocations (l : list Allocation)
  | VBigInts (l : list Z)
  | VOptions (l : list (Z * string)).

(** A log: the event, its indexed values and its data. *)
Record Log := mkLog { log_Event : string; log_Topics : list abi_value; log_Data : list abi_value }.

(** *** Type assertions on arguments: [v.(T)], with the error of the code *)

Definition arg_address (e : error) (v : abi_value) : res address :=
  match v with VAddress a => Ok a | _ => Err e end.
(** [!ok || a == (common.Address{})] *)
Definition arg_address_nz (e : error) (v : abi_value) : res address :=
  match v with VAddress a => if a =? 0 then Err e else Ok a | _ => Err e end.
Definition arg_bigint (e : error) (v : abi_value) : res Z :=
  match v with VBigInt z => Ok z | _ => Err e end.
Definition arg_string (e : error) (v : abi_value) : res string :=
  match v with VString s => Ok s | _ => Err e end.
(** [s, _ := v.(string)]: the empty string for another type *)
Definition arg_string_or_empty (v : abi_value) : string :=
  match v with VString s => s | _ => "" end.
Definition arg_strings (e : error) (v : abi_value) : res (list string) :=
  match v with VStrings l => Ok l | _ => Err e end.
Definition arg_uint8 (e : error) (v : abi_value) : res Z :=
  match v with VUint8 z => Ok z | _ => Err e end.
Definition arg_uint32 (e : error) (v : abi_value) : res Z :=
  match v with VUint32 z => Ok z | _ => Err e end.
Definition arg_uint64 (e : error) (v : abi_value) : res Z :=
  match v with VUint64 z => Ok z | _ => Err e end.
Definition arg_page (e : error) (v : abi_value) : res PageRequest :=
  match v with VPageRequest p => Ok p | _ => Err e end.

(** [slices.Contains(l, x)] *)
Definition contains_string (l : list string) (x : string) : bool := existsb (String.eqb x) l.

(** [strings.Contains] *)
Fixpoint str_contains (s sub : string) : bool :=
  String.prefix sub s || match s with EmptyString => false | String _ s => str_contains s sub end.

Definition abi_MaxUint256 : Z := 2 ^ 256 - 1.

(** [common.BytesToAddress]: the last 20 bytes *)
Definition BytesToAddress (bz : bytes) : address := be_value (drop (length bz - 20) bz).
Definition addr_Bytes (a : address) : bytes := be_bytes 20 a.

Lemma BytesToAddress_Bytes a : addr_ok a -> BytesToAddress (addr_Bytes a) = a.
Proof.
  intros [Ha Hb]. unfold BytesToAddress, addr_Bytes. rewrite be_bytes_length. cbn [Nat.sub]. rewrite drop_0.
  apply be_value_bytes. change (256 ^ Z.of_nat 20) with (2 ^ 160). lia.
Qed.

(** ** Authorizations *)

Inductive AuthorizationType :=
  | AUTHORIZATION_TYPE_UNSPECIFIED
  | AUTHORIZATION_TYPE_DELEGATE
  | AUTHORIZATION_TYPE_UNDELEGATE
  | AUTHORIZATION_TYPE_REDELEGATE
  | AUTHORIZATION_TYPE_CANCEL_UNBONDING_DELEGATION.

(** [stakingtypes.StakeAuthorization]: the limit, the validators it allows or
    denies, and the kind of message *)
Record StakeAuthorization := mkStakeAuthorization {
  sa_MaxTokens : option Coin;
  sa_AllowList : list string;
  sa_DenyList : list string;
  sa_Type : AuthorizationType
}.

Inductive authorization :=
  | AStake (a : StakeAuthorization)
  | ATransfer (allocations : list Allocation)
  | AOther.

(** [authz.AcceptResponse] of an accepted message *)
Record AcceptResponse := mkAcceptResponse {
  ar_Accept : bool;
  ar_Delete : bool;
  ar_Updated : option authorization
}.

(** the type URLs of the messages ([sdk.MsgTypeURL]) *)
Definition DelegateMsg : string := "/cosmos.staking.v1beta1.MsgDelegate".
Definition UndelegateMsg : string := "/cosmos.staking.v1beta1.MsgUndelegate".
Definition RedelegateMsg : string := "/cosmos.staking.v1beta1.MsgBeginRedelegate".
Definition CancelUnbondingDelegationMsg : string := "/cosmos.staking.v1beta1.MsgCancelUnbondingDelegation".
Definition TransferMsgURL : string := "/ibc.applications.transfer.v1.MsgTransfer".

Definition auth_type_url (t : AuthorizationType) : string :=
  match t with
  | AUTHORIZATION_TYPE_UNSPECIFIED => ""
  | AUTHORIZATION_TYPE_DELEGATE => DelegateMsg
  | AUTHORIZATION_TYPE_UNDELEGATE => UndelegateMsg
  | AUTHORIZATION_TYPE_REDELEGATE => RedelegateMsg
  | AUTHORIZATION_TYPE_CANCEL_UNBONDING_DELEGATION => CancelUnbondingDelegationMsg
  end.

(** The authz keeper: grants by grantee, granter and message type. An expired
    grant is not returned. A grant is stored under the type of its
    authorization. *)
Class Authz (authz : Type) := {
  az_Get : authz -> address -> address -> string -> option (authorization * option Z);
  az_Save : authz -> address -> address -> authorization -> option Z -> authz * res unit;
  az_Delete : authz -> address -> address -> string -> authz * res unit;
  az_MsgTypeURL : authorization -> string;
  az_url_stake : forall a, sa_Type a <> AUTHORIZATION_TYPE_UNSPECIFIED ->
    az_MsgTypeURL (AStake a) = auth_type_url (sa_Type a);
  az_url_type : forall a b, sa_Type a = sa_Type b -> az_MsgTypeURL (AStake a) = az_MsgTypeURL (AStake b);
  az_url_transfer : forall l, az_MsgTypeURL (ATransfer l) = TransferMsgURL;
  az_get_url : forall z g r u a e, az_Get z g r u = Some (a, e) -> az_MsgTypeURL a = u;
  az_save : forall z g r a e z', az_Save z g r a e = (z', Ok ()) -> forall g' r' u',
    az_Get z' g' r' u' =
      if decide (g' = g /\ r' = r /\ u' = az_MsgTypeURL a) then Some (a, e) else az_Get z g' r' u';
  az_save_err : forall z g r a e z' er, az_Save z g r a e = (z', Err er) -> z' = z;
  az_delete : forall z g r u z', az_Delete z g r u = (z', Ok ()) -> forall g' r' u',
    az_Get z' g' r' u' = if decide (g' = g /\ r' = r /\ u' = u) then None else az_Get z g' r' u';
  az_delete_err : forall z g r u z' er, az_Delete z g r u = (z', Err er) -> z' = z
}.

(** The texts of addresses. *)
Class Bech32 := {
  AccAddress_String : address -> string;
  ValAddress_String : address -> string;
  ConsAddress_String : address -> string;
  AccAddressFromBech32 : string -> res bytes;
  ValAddressFromBech32 : string -> res bytes;
  Bech32ifyAddressBytes : string -> bytes -> res string;
  GetFromBech32 : string -> string -> res bytes;
  VerifyAddressFormat : bytes -> res unit;
  AccountAddrPrefix : string;
  ValAddress_prefix : forall t b, ValAddressFromBech32 t = Ok b -> str_contains t "val" = true;
  AccAddress_roundtrip : forall a, addr_ok a -> AccAddressFromBech32 (AccAddress_String a) = Ok (addr_Bytes a);
  ValAddress_roundtrip : forall a, addr_ok a -> ValAddressFromBech32 (ValAddress_String a) = Ok (addr_Bytes a)
}.

Section Checks.
Context `{!SdkMath} `{!Bech32}.

(** [sdk.PrefixValidator] *)
Definition PrefixValidator : string := "val".

Definition HexAddressFromBech32String (addr : string) : res address :=
  if str_contains addr PrefixValidator then
    let? valAddr := ValAddressFromBech32 addr in Ok (BytesToAddress valAddr)
  else
    let? accAddr := AccAddressFromBech32 addr in Ok (BytesToAddress accAddr).

(** An [sdk.DecCoin] is a denomination and a decimal. *)
Fixpoint NewDecCoinsResponse (amount : list Coin) : res (list DecCoin) :=
  match amount with
  | [] => Ok []
  | coin :: amount =>
      let? t := dec_TruncateInt (coin_Amount coin) in
      let? rest := NewDecCoinsResponse amount in
      Ok (mkDecCoin (coin_Denom coin) t 18 :: rest)
  end.

Definition NewCoinsResponse (amount : list Coin) : list Coin :=
  map (fun coin => mkCoin (coin_Denom coin) (coin_Amount coin)) amount.

(** [SafeAdd]: the sum, and whether it needs more than 256 bits *)
Definition SafeAdd (a b : Z) : Z * bool := (a + b, 2 ^ 256 <=? Z.abs (a + b)).

(** ** [authorization/types.go] *)

(** A coin of [None] is an unlimited amount. *)
Definition CheckApprovalArgs (args : list abi_value) (denom : string) : res (address * option Coin * list string) :=
  match args with
  | [a0; a1; a2] =>
      let? grantee := arg_address_nz ErrInvalidGranter a0 in
      let? coin :=
        match a1 with
        | VBigInt amount =>
            if amount <? 0 then Err ErrAmountNegative
            else if amount =? abi_MaxUint256 then Ok None
            else let? a := NewIntFromBigInt amount in Ok (Some (mkCoin denom a))
        | _ => Ok None
        end in
      let? typeURLs := arg_strings ErrInvalidMethods a2 in
      if (length typeURLs =? 0)%nat then Err ErrEmptyMethods
      else if contains_string typeURLs "" then Err ErrEmptyStringInMethods
      else Ok (grantee, coin, typeURLs)
  | _ => Err ErrInvalidNumberOfArgs
  end.

Definition validateMsgTypes (arg : abi_value) : res (list string) :=
  let? typeURLs := arg_strings ErrInvalidMethods arg in
  if (length typeURLs =? 0)%nat then Err ErrEmptyMethods
  else if contains_string typeURLs "" then Err ErrEmptyStringInMethods
  else Ok typeURLs.

Definition CheckRevokeArgs (args : list abi_value) : res (address * list string) :=
  match args with
  | [a0; a1] =>
      let? granteeAddr := arg_address_nz ErrInvalidGranter a0 in
      let? typeURLs := validateMsgTypes a1 in
      Ok (granteeAddr, typeURLs)
  | _ => Err ErrInvalidNumberOfArgs
  end.

Definition CheckAllowanceArgs (args : list abi_value) : res (address * address * string) :=
  match args with
  | [a0; a1; a2] =>
      let? granteeAddr := arg_address_nz ErrInvalidGrantee a0 in
      let? granterAddr := arg_address_nz ErrInvalidGranter a1 in
      let? typeURL := arg_string ErrInvalidMethod a2 in
      if String.eqb typeURL "" then Err ErrEmptyMethod else Ok (granteeAddr, granterAddr, typeURL)
  | _ => Err ErrInvalidNumberOfArgs
  end.

Context {authz : Type} `{!Authz authz}.

Definition CheckAuthzExists (z : authz) (grantee granter : address) (msgURL : string)
    : res (authorization * option Z) :=
  match az_Get z grantee granter msgURL with
  | None => Err ErrAuthzDoesNotExistOrExpired
  | Some x => Ok x
  end.

Definition CheckAuthzAndAllowanceForGranter (z : authz) (grantee granter : address) (amount : Coin) (msgURL : string)
    : res (StakeAuthorization * option Z) :=
  match az_Get z grantee granter msgURL with
  | None => Err ErrAuthzDoesNotExistOrExpired
  | Some (AStake stakeAuthz, expiration) =>
      match sa_MaxTokens stakeAuthz with
      | Some max => if coin_Amount max <? coin_Amount amount then Err ErrExceededAllowance
                    else Ok (stakeAuthz, expiration)
      | None => Ok (stakeAuthz, expiration)
      end
  | Some _ => Err ErrUnknownAuthorizationType
  end.
End Checks.

(** the sum of the balance changes that a list of entries reports for an account *)
Fixpoint entries_delta (es : list balanceChangeEntry) (a : address) : Z :=
  match es with
  | [] => 0
  | e :: es =>
      (if bce_Account e =? a then match bce_Op e with Sub => - bce_Amount e | Add => bce_Amount e end else 0)
      + entries_delta es a
  end.

(** ** What a call reads and writes

    The grants, the rest of the chain's state ([chain]), the logs of the state
    database and the balance changes to journal. *)
Section State.
Context {authz chain : Type}.

Record nstate := mkNstate {
  ns_authz : authz;
  ns_chain : chain;
  ns_logs : list Log;
  ns_entries : list balanceChangeEntry
}.

Definition with_authz (z : authz) (s : nstate) : nstate := mkNstate z (ns_chain s) (ns_logs s) (ns_entries s).
Definition with_chain (c : chain) (s : nstate) : nstate := mkNstate (ns_authz s) c (ns_logs s) (ns_entries s).
Definition add_log (l : Log) (s : nstate) : nstate :=
  mkNstate (ns_authz s) (ns_chain s) (ns_logs s ++ [l]) (ns_entries s).
Definition set_entries (es : list balanceChangeEntry) (s : nstate) : nstate :=
  mkNstate (ns_authz s) (ns_chain s) (ns_logs s) es.

Definition on_authz {A} (s : nstate) (m : authz * res A) : nstate * res A := (with_authz m.1 s, m.2).
Definition on_chain {A} (s : nstate) (m : chain * res A) : nstate * res A := (with_chain m.1 s, m.2).

(** Two states that differ only in their logs. *)
Definition same_but_logs (s s' : nstate) : Prop :=
  ns_chain s' = ns_chain s /\ ns_authz s' = ns_authz s /\ ns_entries s' = ns_entries s.

Lemma on_authz_Ok {A} (s : nstate) (m : authz * res A) s' (a : A) :
  on_authz s m = (s', Ok a) -> exists z, m = (z, Ok a) /\ s' = with_authz z s.
Proof. destruct m as [z r]. unfold on_authz. cbn. intros [= <- ->]. eauto. Qed.

Lemma on_chain_Ok {A} (s : nstate) (m : chain * res A) s' (a : A) :
  on_chain s m = (s', Ok a) -> exists c, m = (c, Ok a) /\ s' = with_chain c s.
Proof. destruct m as [c r]. unfold on_chain. cbn. intros [= <- ->]. eauto. Qed.
End State.
Arguments nstate : clear implicits.
End Native.
