(* ===== verification/StakingPrecompile.v ===== *)
(** * The staking precompile ([precompiles/staking])

    Staking messages and queries as methods of a contract, and authorizations
    that let a contract stake the coins of the account that signed the
    transaction. The staking keeper of the Cosmos SDK is a class: its messages
    map the chain's state to a new one and a result. *)

From stdpp Require Import base gmap list numbers strings.
From Stdlib Require Import ZArith Lia.
From S2P Require Import Prelude SdkMath Scaling AccessList StateDB TxData Precompile NativePrecompile.
Import Native.

Module Staking.

Definition ErrDecreaseAmountTooBig : error :=
  "amount by which the allowance should be decreased is greater than the authorization limit".
Definition ErrDifferentOriginFromDelegator : error := "origin address is not the same as delegator address".
Definition ErrDifferentOriginFromValidator : error := "origin address is not the same as validator operator address".
Definition ErrCannotCallFromContract : error :=
  "this method can only be called directly to the precompile, not from a smart contract".
Definition ErrPubkeyLen : error := "consensus pubkey len is invalid".
Definition ErrInvalidCreationHeight : error := "invalid creation height".
Definition ErrInvalidQuery : error :=
  "invalid query. Need to specify at least a source validator address or delegator address".

Definition DoNotModifyCommissionRate : Z := -1.
Definition DoNotModifyMinSelfDelegation : Z := -1.

(** ** Messages *)

Record MsgCreateValidator := mkMsgCreateValidator {
  mc_Description : Description;
  mc_Commission : Commission;
  mc_MinSelfDelegation : Z;
  mc_DelegatorAddress : string;
  mc_ValidatorAddress : string;
  mc_Pubkey : bytes;
  mc_Value : Coin
}.

Record MsgEditValidator := mkMsgEditValidator {
  me_Description : Description;
  me_ValidatorAddress : string;
  me_CommissionRate : option Z;
  me_MinSelfDelegation : option Z
}.

Record MsgDelegate := mkMsgDelegate {
  md_DelegatorAddress : string; md_ValidatorAddress : string; md_Amount : Coin
}.
Record MsgUndelegate := mkMsgUndelegate {
  mu_DelegatorAddress : string; mu_ValidatorAddress : string; mu_Amount : Coin
}.
Record MsgBeginRedelegate := mkMsgBeginRedelegate {
  mr_DelegatorAddress : string; mr_ValidatorSrcAddress : string; mr_ValidatorDstAddress : string; mr_Amount : Coin
}.
Record MsgCancelUnbondingDelegation := mkMsgCancelUnbondingDelegation {
  mk_DelegatorAddress : string; mk_ValidatorAddress : string; mk_Amount : Coin; mk_CreationHeight : Z
}.

Inductive Msg :=
  | MDelegate (m : MsgDelegate)
  | MUndelegate (m : MsgUndelegate)
  | MBeginRedelegate (m : MsgBeginRedelegate)
  | MCancelUnbondingDelegation (m : MsgCancelUnbondingDelegation).

Definition msg_Amount (m : Msg) : Coin :=
  match m with
  | MDelegate m => md_Amount m
  | MUndelegate m => mu_Amount m
  | MBeginRedelegate m => mr_Amount m
  | MCancelUnbondingDelegation m => mk_Amount m
  end.

(** ** Records of the staking module that the queries return *)

Inductive BondStatus := BOND_STATUS_UNSPECIFIED | BOND_STATUS_UNBONDED | BOND_STATUS_UNBONDING | BOND_STATUS_BONDED.
Definition BondStatus_value (b : BondStatus) : Z :=
  match b with
  | BOND_STATUS_UNSPECIFIED => 0 | BOND_STATUS_UNBONDED => 1 | BOND_STATUS_UNBONDING => 2 | BOND_STATUS_BONDED => 3
  end.

Record Validator := mkValidator {
  va_OperatorAddress : string;
  va_ConsensusPubkey : string;      (* as [FormatConsensusPubkey] prints it *)
  va_Jailed : bool;
  va_Status : BondStatus;
  va_Tokens : Z;
  va_DelegatorShares : Z;
  va_Details : string;
  va_UnbondingHeight : Z;
  va_UnbondingTime : Z;
  va_CommissionRate : Z;
  va_MinSelfDelegation : Z
}.

Record UnbondingDelegationEntry := mkUnbondingDelegationEntry {
  ue_CreationHeight : Z; ue_CompletionTime : Z; ue_InitialBalance : Z; ue_Balance : Z;
  ue_UnbondingId : Z; ue_UnbondingOnHoldRefCount : Z
}.
Record UnbondingDelegationResponse := mkUnbondingDelegationResponse {
  ur_DelegatorAddress : string; ur_ValidatorAddress : string; ur_Entries : list UnbondingDelegationEntry
}.
Record RedelegationEntry := mkRedelegationEntry {
  re_CreationHeight : Z; re_CompletionTime : Z; re_InitialBalance : Z; re_SharesDst : Z
}.
Record RedelegationValues := mkRedelegationValues {
  rv_DelegatorAddress : string; rv_ValidatorSrcAddress : string; rv_ValidatorDstAddress : string;
  rv_Entries : list RedelegationEntry
}.
Record RedelegationResponse := mkRedelegationResponse {
  rr_Redelegation : RedelegationValues; rr_Entries : list (RedelegationEntry * Z)
}.

Record QueryRedelegationsRequest := mkQueryRedelegationsRequest {
  qr_DelegatorAddr : string; qr_SrcValidatorAddr : string; qr_DstValidatorAddr : string; qr_Pagination : PageRequest
}.

(** ** The staking keeper

    - [sk_Undelegate], [sk_BeginRedelegate] answer the completion time;
    - [sk_IterateValidators]: the validators in the order of the iteration;
    - [NewStakeAuthorization] and [Accept] are the functions of the SDK's
      authorization; an accepted message is within the limit, which is reduced
      by its amount, and goes to a validator that the lists admit. *)
Class StakingKeeper (chain : Type) `{!Bech32} := {
  sk_BondDenom : chain -> res string;
  sk_CreateValidator : chain -> MsgCreateValidator -> chain * res unit;
  sk_EditValidator : chain -> MsgEditValidator -> chain * res unit;
  sk_Delegate : chain -> MsgDelegate -> chain * res unit;
  sk_Undelegate : chain -> MsgUndelegate -> chain * res Z;
  sk_BeginRedelegate : chain -> MsgBeginRedelegate -> chain * res Z;
  sk_CancelUnbondingDelegation : chain -> MsgCancelUnbondingDelegation -> chain * res unit;
  sk_IterateValidators : chain -> res (list Validator);
  sk_GetValidator : chain -> bytes -> Validator;
  SharesFromTokens : Validator -> Z -> res Z;
  base64_Decode : string -> res bytes;
  NewStakeAuthorization : list bytes -> list bytes -> AuthorizationType -> option Coin -> res StakeAuthorization;
  StakeAuthorization_ValidateBasic : StakeAuthorization -> res unit;
  Accept : StakeAuthorization -> Msg -> res AcceptResponse;
  q_Delegation : chain -> string -> string -> res (Z * Coin);
  q_UnbondingDelegation : chain -> string -> string -> res UnbondingDelegationResponse;
  q_Validator : chain -> string -> res Validator;
  q_Validators : chain -> string -> PageRequest -> res (list Validator * option PageResponse);
  q_GetRedelegation : chain -> address -> bytes -> bytes -> RedelegationValues;
  q_Redelegations : chain -> QueryRedelegationsRequest -> res (list RedelegationResponse * option PageResponse);
  NewStakeAuthorization_spec : forall allow deny t c a, NewStakeAuthorization allow deny t c = Ok a ->
    sa_MaxTokens a = c /\ sa_Type a = t;
  Accept_spec : forall a m r, Accept a m = Ok r ->
    match sa_MaxTokens a with
    | None => exists a', ar_Updated r = Some (AStake a') /\ ar_Delete r = false /\
                sa_MaxTokens a' = None /\ sa_Type a' = sa_Type a
    | Some c =>
        coin_Denom (msg_Amount m) = coin_Denom c /\ coin_Amount (msg_Amount m) <= coin_Amount c /\
        if coin_Amount c =? coin_Amount (msg_Amount m) then ar_Delete r = true
        else exists a', ar_Updated r = Some (AStake a') /\ ar_Delete r = false /\
               sa_MaxTokens a' = Some (mkCoin (coin_Denom c) (coin_Amount c - coin_Amount (msg_Amount m))) /\
               sa_Type a' = sa_Type a
    end
}.

Section Args.
Context `{!SdkMath} `{!EthHex} `{!Bech32} {chain : Type} `{!StakingKeeper chain}.

Definition PubKeySize : nat := 32.

(** A [LegacyDec] from a [big.Int] with precision 18 is that integer. *)
Definition NewMsgCreateValidator (args : list abi_value) (denom : string) : res (MsgCreateValidator * address) :=
  match args with
  | [a0; a1; a2; a3; a4; a5] =>
      let? description := match a0 with VDescription d => Ok d | _ => Err ErrInvalidDescription end in
      let? commission := match a1 with VCommission c => Ok c | _ => Err ErrInvalidCommission end in
      let? minSelfDelegation := arg_bigint ErrInvalidAmount a2 in
      let? validatorAddress := arg_address_nz ErrInvalidValidator a3 in
      let? pubkeyBase64Str := arg_string ErrInvalidType a4 in
      let? pubkeyBytes := base64_Decode pubkeyBase64Str in
      if negb (length pubkeyBytes =? PubKeySize)%nat then Err ErrPubkeyLen
      else
        let? value := arg_bigint ErrInvalidAmount a5 in
        let? minSelfDelegation := NewIntFromBigInt minSelfDelegation in
        let? amount := NewIntFromBigInt value in
        Ok (mkMsgCreateValidator description
              (mkCommission (cm_Rate commission) (cm_Rate commission) (cm_Rate commission))
              minSelfDelegation (AccAddress_String validatorAddress) (ValAddress_String validatorAddress)
              pubkeyBytes (mkCoin denom amount),
            validatorAddress)
  | _ => Err ErrInvalidNumberOfArgs
  end.

Definition NewMsgEditValidator (args : list abi_value) : res (MsgEditValidator * address) :=
  match args with
  | [a0; a1; a2; a3] =>
      let? description := match a0 with VDescription d => Ok d | _ => Err ErrInvalidDescription end in
      let? validatorHexAddr := arg_address_nz ErrInvalidValidator a1 in
      let? commissionRateBigInt := arg_bigint ErrInvalidType a2 in
      let commissionRate :=
        if commissionRateBigInt =? DoNotModifyCommissionRate then None else Some commissionRateBigInt in
      let? minSelfDelegationBigInt := arg_bigint ErrInvalidType a3 in
      let? minSelfDelegation :=
        if minSelfDelegationBigInt =? DoNotModifyMinSelfDelegation then Ok None
        else let? msd := NewIntFromBigInt minSelfDelegationBigInt in Ok (Some msd) in
      Ok (mkMsgEditValidator description (ValAddress_String validatorHexAddr) commissionRate minSelfDelegation,
          validatorHexAddr)
  | _ => Err ErrInvalidNumberOfArgs
  end.

Definition checkDelegationUndelegationArgs (args : list abi_value) : res (address * string * Z) :=
  match args with
  | [a0; a1; a2] =>
      let? delegatorAddr := arg_address_nz ErrInvalidDelegator a0 in
      let? validatorAddress := arg_string ErrInvalidType a1 in
      let? amount := arg_bigint ErrInvalidAmount a2 in
      Ok (delegatorAddr, validatorAddress, amount)
  | _ => Err ErrInvalidNumberOfArgs
  end.

Definition NewMsgDelegate (args : list abi_value) (denom : string) : res (MsgDelegate * address) :=
  let? '(delegatorAddr, validatorAddress, amount) := checkDelegationUndelegationArgs args in
  let? amount := NewIntFromBigInt amount in
  Ok (mkMsgDelegate (AccAddress_String delegatorAddr) validatorAddress (mkCoin denom amount), delegatorAddr).

Definition NewMsgUndelegate (args : list abi_value) (denom : string) : res (MsgUndelegate * address) :=
  let? '(delegatorAddr, validatorAddress, amount) := checkDelegationUndelegationArgs args in
  let? amount := NewIntFromBigInt amount in
  Ok (mkMsgUndelegate (AccAddress_String delegatorAddr) validatorAddress (mkCoin denom amount), delegatorAddr).

Definition NewMsgRedelegate (args : list abi_value) (denom : string) : res (MsgBeginRedelegate * address) :=
  match args with
  | [a0; a1; a2; a3] =>
      let? delegatorAddr := arg_address_nz ErrInvalidDelegator a0 in
      let? validatorSrcAddress := arg_string ErrInvalidType a1 in
      let? validatorDstAddress := arg_string ErrInvalidType a2 in
      let? amount := arg_bigint ErrInvalidAmount a3 in
      let? amount := NewIntFromBigInt amount in
      Ok (mkMsgBeginRedelegate (AccAddress_String delegatorAddr) validatorSrcAddress validatorDstAddress
            (mkCoin denom amount), delegatorAddr)
  | _ => Err ErrInvalidNumberOfArgs
  end.

(** [creationHeight.Int64()] keeps the low 64 bits. *)
Definition NewMsgCancelUnbondingDelegation (args : list abi_value) (denom : string)
    : res (MsgCancelUnbondingDelegation * address) :=
  match args with
  | [a0; a1; a2; a3] =>
      let? delegatorAddr := arg_address_nz ErrInvalidDelegator a0 in
      let? validatorAddress := arg_string ErrInvalidType a1 in
      let? amount := arg_bigint ErrInvalidAmount a2 in
      let? creationHeight := arg_bigint ErrInvalidCreationHeight a3 in
      let? amount := NewIntFromBigInt amount in
      Ok (mkMsgCancelUnbondingDelegation (AccAddress_String delegatorAddr) validatorAddress (mkCoin denom amount)
            (to_int64 creationHeight), delegatorAddr)
  | _ => Err ErrInvalidNumberOfArgs
  end.

Definition NewDelegationRequest (args : list abi_value) : res (string * string) :=
  match args with
  | [a0; a1] =>
      let? delegatorAddr := arg_address_nz ErrInvalidDelegator a0 in
      let? validatorAddress := arg_string ErrInvalidType a1 in
      Ok (AccAddress_String delegatorAddr, validatorAddress)
  | _ => Err ErrInvalidNumberOfArgs
  end.

Definition NewUnbondingDelegationRequest (args : list abi_value) : res (string * string) :=
  match args with
  | [a0; a1] =>
      let? delegatorAddr := arg_address_nz ErrInvalidDelegator a0 in
      let? validatorAddress := arg_string ErrInvalidType a1 in
      Ok (AccAddress_String delegatorAddr, validatorAddress)
  | _ => Err ErrInvalidNumberOfArgs
  end.

Definition NewValidatorRequest (args : list abi_value) : res string :=
  match args with
  | [a0] => let? validatorHexAddr := arg_address_nz ErrInvalidValidator a0 in Ok (ValAddress_String validatorHexAddr)
  | _ => Err ErrInvalidNumberOfArgs
  end.

Definition NewValidatorsRequest (args : list abi_value) : res (string * PageRequest) :=
  match args with
  | [a0; a1] =>
      let? status := arg_string ErrUnpackArgs a0 in
      let? page := arg_page ErrUnpackArgs a1 in
      Ok (status, if decide (pr_Key page = [0])
                  then mkPageRequest [] (pr_Offset page) (pr_Limit page) (pr_CountTotal page) (pr_Reverse page)
                  else page)
  | _ => Err ErrInvalidNumberOfArgs
  end.

Definition NewRedelegationRequest (args : list abi_value) : res (address * bytes * bytes) :=
  match args with
  | [a0; a1; a2] =>
      let? delegatorAddr := arg_address_nz ErrInvalidDelegator a0 in
      let? validatorSrcAddress := arg_string ErrInvalidType a1 in
      let? validatorSrcAddr := ValAddressFromBech32 validatorSrcAddress in
      let? validatorDstAddress := arg_string ErrInvalidType a2 in
      let? validatorDstAddr := ValAddressFromBech32 validatorDstAddress in
      Ok (delegatorAddr, validatorSrcAddr, validatorDstAddr)
  | _ => Err ErrInvalidNumberOfArgs
  end.

Definition NewRedelegationsRequest (args : list abi_value) : res QueryRedelegationsRequest :=
  match args with
  | [a0; a1; a2; a3] =>
      let? delegator := arg_address ErrUnpackArgs a0 in
      let? src := arg_string ErrUnpackArgs a1 in
      let? dst := arg_string ErrUnpackArgs a2 in
      let? page := arg_page ErrUnpackArgs a3 in
      let delegatorAddr := if String.eqb (addr_Hex delegator) (addr_Hex 0) then "" else AccAddress_String delegator in
      let noDel := String.eqb delegatorAddr "" in
      let noSrc := String.eqb src "" in
      let noDst := String.eqb dst "" in
      if (noDel && noSrc && noDst) || (noDel && noSrc && negb noDst) then Err ErrInvalidQuery
      else Ok (mkQueryRedelegationsRequest delegatorAddr src dst page)
  | _ => Err ErrInvalidNumberOfArgs
  end.
End Args.

(** ** The precompile *)

Section Precompile.
Context `{!SdkMath} `{!EthHex} `{!EvmEnv} `{!Bech32} {authz chain : Type} `{!Authz authz} `{!StakingKeeper chain}.
Abbreviation state := (nstate authz chain).
Implicit Types s : state.

(** What an instance knows: the duration of approvals and the time of the block. *)
Record Precompile := mkPrecompile { ApprovalExpiration : Z; BlockTime : Z }.
Implicit Types p : Precompile.

Inductive ret :=
  | RBool (b : bool)
  | RInt64 (z : Z)
  | RBig (z : Z)
  | RDelegation (shares : Z) (balance : Coin)
  | RUnbonding (u : UnbondingDelegationResponse)
  | RValidator (v : Validator)
  | RValidators (l : list Validator) (page : PageResponse)
  | RRedelegation (r : RedelegationValues)
  | RRedelegations (l : list RedelegationResponse) (page : PageResponse).

(** *** Events ([events.go]) *)

Definition EmitApprovalEvent s (grantee granter : address) (coin : option Coin) (typeUrls : list string) : state :=
  let value := match coin with None => abi_MaxUint256 | Some c => coin_Amount c end in
  add_log (mkLog "Approval" [VAddress grantee; VAddress granter] [VStrings typeUrls; VBigInt value]) s.

(** The limits after the change; an authorization that is missing or of another
    kind is a nil pointer. *)
Fixpoint allowance_values s (grantee granter : address) (typeUrls : list string) : res (list Z) :=
  match typeUrls with
  | [] => Ok []
  | msgURL :: typeUrls =>
      let? v := match az_Get (ns_authz s) grantee granter msgURL with
                | Some (AStake a, _) =>
                    Ok (match sa_MaxTokens a with None => abi_MaxUint256 | Some c => coin_Amount c end)
                | _ => Panic PanicNil
                end in
      let? vs := allowance_values s grantee granter typeUrls in
      Ok (v :: vs)
  end.

Definition EmitAllowanceChangeEvent s (grantee granter : address) (typeUrls : list string) : state * res unit :=
  do? s, newValues := (s, allowance_values s grantee granter typeUrls) in
  (add_log (mkLog "AllowanceChange" [VAddress grantee; VAddress granter] [VStrings typeUrls; VBigInts newValues]) s,
   Ok ()).

Definition EmitRevocationEvent s (grantee granter : address) (typeUrls : list string) : state :=
  add_log (mkLog "Revocation" [VAddress grantee; VAddress granter] [VStrings typeUrls]) s.

Definition EmitCreateValidatorEvent s (msg : MsgCreateValidator) (validatorAddr : address) : state :=
  add_log (mkLog "CreateValidator" [VAddress validatorAddr] [VBigInt (coin_Amount (mc_Value msg))]) s.

Definition EmitEditValidatorEvent s (msg : MsgEditValidator) (validatorAddr : address) : state :=
  add_log (mkLog "EditValidator" [VAddress validatorAddr]
             [VBigInt (default DoNotModifyCommissionRate (me_CommissionRate msg));
              VBigInt (default DoNotModifyMinSelfDelegation (me_MinSelfDelegation msg))]) s.

Definition EmitDelegateEvent s (msg : MsgDelegate) (delegatorAddr : address) : state * res unit :=
  do? s, valAddr := (s, ValAddressFromBech32 (md_ValidatorAddress msg)) in
  let validator := sk_GetValidator (ns_chain s) valAddr in
  do? s, newShares := (s, SharesFromTokens validator (coin_Amount (md_Amount msg))) in
  (add_log (mkLog "Delegate" [VAddress delegatorAddr; VAddress (BytesToAddress valAddr)]
              [VBigInt (coin_Amount (md_Amount msg)); VBigInt newShares]) s, Ok ()).

Definition EmitUnbondEvent s (msg : MsgUndelegate) (delegatorAddr : address) (completionTime : Z) : state * res unit :=
  do? s, valAddr := (s, ValAddressFromBech32 (mu_ValidatorAddress msg)) in
  (add_log (mkLog "Unbond" [VAddress delegatorAddr; VAddress (BytesToAddress valAddr)]
              [VBigInt (coin_Amount (mu_Amount msg)); VBigInt completionTime]) s, Ok ()).

Definition EmitRedelegateEvent s (msg : MsgBeginRedelegate) (delegatorAddr : address) (completionTime : Z)
    : state * res unit :=
  do? s, valSrcAddr := (s, ValAddressFromBech32 (mr_ValidatorSrcAddress msg)) in
  do? s, valDstAddr := (s, ValAddressFromBech32 (mr_ValidatorDstAddress msg)) in
  (add_log (mkLog "Redelegate"
              [VAddress delegatorAddr; VAddress (BytesToAddress valSrcAddr); VAddress (BytesToAddress valDstAddr)]
              [VBigInt (coin_Amount (mr_Amount msg)); VBigInt completionTime]) s, Ok ()).

Definition EmitCancelUnbondingDelegationEvent s (msg : MsgCancelUnbondingDelegation) (delegatorAddr : address)
    : state * res unit :=
  do? s, valAddr := (s, ValAddressFromBech32 (mk_ValidatorAddress msg)) in
  (add_log (mkLog "CancelUnbondingDelegation" [VAddress delegatorAddr; VAddress (BytesToAddress valAddr)]
              [VBigInt (coin_Amount (mk_Amount msg)); VBigInt (mk_CreationHeight msg)]) s, Ok ()).

(** *** Authorizations ([approve.go]) *)

Definition convertMsgToAuthz (msg : string) : res AuthorizationType :=
  if String.eqb msg DelegateMsg then Ok AUTHORIZATION_TYPE_DELEGATE
  else if String.eqb msg UndelegateMsg then Ok AUTHORIZATION_TYPE_UNDELEGATE
  else if String.eqb msg RedelegateMsg then Ok AUTHORIZATION_TYPE_REDELEGATE
  else if String.eqb msg CancelUnbondingDelegationMsg then Ok AUTHORIZATION_TYPE_CANCEL_UNBONDING_DELEGATION
  else Err ErrUnknownAuthorizationType.

(** the operators of the validators that are not jailed *)
Fixpoint active_validators (l : list Validator) : res (list bytes) :=
  match l with
  | [] => Ok []
  | validator :: l =>
      if va_Jailed validator then active_validators l
      else
        let? valAddr := ValAddressFromBech32 (va_OperatorAddress validator) in
        let? validators := active_validators l in
        Ok (valAddr :: validators)
  end.

Definition createStakingAuthz p s (grantee granter : address) (coin : option Coin) (authzType : AuthorizationType)
    : state * res unit :=
  do? s, vals := (s, sk_IterateValidators (ns_chain s)) in
  do? s, validators := (s, active_validators vals) in
  do? s, stakingAuthz := (s, NewStakeAuthorization validators [] authzType coin) in
  do? s, _ := (s, StakeAuthorization_ValidateBasic stakingAuthz) in
  let expiration := BlockTime p + ApprovalExpiration p in
  on_authz s (az_Save (ns_authz s) grantee granter (AStake stakingAuthz) (Some expiration)).

Definition grantOrDeleteStakingAuthz p s (grantee granter : address) (coin : option Coin)
    (authzType : AuthorizationType) : state * res unit :=
  match coin with
  | None => createStakingAuthz p s grantee granter coin authzType
  | Some c =>
      if negb (0 <? coin_Amount c)
      then on_authz s (az_Delete (ns_authz s) grantee granter
             (az_MsgTypeURL (AStake (mkStakeAuthorization None [] [] authzType))))
      else createStakingAuthz p s grantee granter coin authzType
  end.

Definition is_staking_msg (typeURL : string) : bool :=
  String.eqb typeURL DelegateMsg || String.eqb typeURL UndelegateMsg || String.eqb typeURL RedelegateMsg ||
  String.eqb typeURL CancelUnbondingDelegationMsg.

Fixpoint approve_urls p s (grantee origin : address) (coin : option Coin) (typeURLs : list string) : state * res unit :=
  match typeURLs with
  | [] => (s, Ok ())
  | typeURL :: typeURLs =>
      if is_staking_msg typeURL then
        do? s, authzType := (s, convertMsgToAuthz typeURL) in
        do? s, _ := grantOrDeleteStakingAuthz p s grantee origin coin authzType in
        approve_urls p s grantee origin coin typeURLs
      else (s, Err ErrInvalidMsgType)
  end.

Definition Approve p (origin : address) s (args : list abi_value) : state * res ret :=
  do? s, bondDenom := (s, sk_BondDenom (ns_chain s)) in
  do? s, a := (s, CheckApprovalArgs args bondDenom) in
  let '(grantee, coin, typeURLs) := a in
  do? s, _ := approve_urls p s grantee origin coin typeURLs in
  (EmitApprovalEvent s grantee origin coin typeURLs, Ok (RBool true)).

Fixpoint revoke_urls s (grantee origin : address) (typeURLs : list string) : state * res unit :=
  match typeURLs with
  | [] => (s, Ok ())
  | typeURL :: typeURLs =>
      if is_staking_msg typeURL then
        do? s, _ := on_authz s (az_Delete (ns_authz s) grantee origin typeURL) in
        revoke_urls s grantee origin typeURLs
      else (s, Err ErrInvalidMsgType)
  end.

Definition Revoke (origin : address) s (args : list abi_value) : state * res ret :=
  do? s, a := (s, CheckRevokeArgs args) in
  let '(grantee, typeURLs) := a in
  do? s, _ := revoke_urls s grantee origin typeURLs in
  (EmitRevocationEvent s grantee origin typeURLs, Ok (RBool true)).

Definition with_limit (a : StakeAuthorization) (c : Coin) : StakeAuthorization :=
  mkStakeAuthorization (Some c) (sa_AllowList a) (sa_DenyList a) (sa_Type a).

(** A [coin] of [None] is a nil pointer, which the change of a limit reads. *)
Definition decreaseAllowance s (grantee granter : address) (coin : option Coin) (stakeAuthz : StakeAuthorization)
    (expiration : option Z) : state * res unit :=
  match sa_MaxTokens stakeAuthz with
  | None => (s, Ok ())
  | Some max =>
      match coin with
      | None => (s, Panic PanicNil)
      | Some coin =>
          if coin_Amount max <? coin_Amount coin then (s, Err ErrDecreaseAmountTooBig)
          else
            let stakeAuthz :=
              if coin_Amount coin <=? coin_Amount max
              then with_limit stakeAuthz (mkCoin (coin_Denom max) (coin_Amount max - coin_Amount coin))
              else stakeAuthz in
            on_authz s (az_Save (ns_authz s) grantee granter (AStake stakeAuthz) expiration)
      end
  end.

Fixpoint decrease_urls s (grantee origin : address) (coin : option Coin) (typeUrls : list string) : state * res unit :=
  match typeUrls with
  | [] => (s, Ok ())
  | typeURL :: typeUrls =>
      if is_staking_msg typeURL then
        do? s, g := (s, CheckAuthzExists (ns_authz s) grantee origin typeURL) in
        do? s, _ := match g with
                    | (AStake stakeAuthz, expiration) => decreaseAllowance s grantee origin coin stakeAuthz expiration
                    | _ => (s, Err ErrUnknownAuthorizationType)
                    end in
        decrease_urls s grantee origin coin typeUrls
      else (s, Err ErrInvalidMsgType)
  end.

Definition DecreaseAllowance (origin : address) s (args : list abi_value) : state * res ret :=
  do? s, bondDenom := (s, sk_BondDenom (ns_chain s)) in
  do? s, a := (s, CheckApprovalArgs args bondDenom) in
  let '(grantee, coin, typeUrls) := a in
  do? s, _ := decrease_urls s grantee origin coin typeUrls in
  do? s, _ := EmitAllowanceChangeEvent s grantee origin typeUrls in
  (s, Ok (RBool true)).

Definition increaseAllowance s (grantee granter : address) (coin : option Coin) (msgURL : string) : state * res unit :=
  do? s, g := (s, CheckAuthzExists (ns_authz s) grantee granter msgURL) in
  match g with
  | (AStake stakeAuthz, expiration) =>
      match sa_MaxTokens stakeAuthz with
      | None => (s, Ok ())
      | Some max =>
          match coin with
          | None => (s, Panic PanicNil)
          | Some coin =>
              do? s, amount := (s, int_Add (coin_Amount max) (coin_Amount coin)) in
              on_authz s (az_Save (ns_authz s) grantee granter
                            (AStake (with_limit stakeAuthz (mkCoin (coin_Denom max) amount))) expiration)
          end
      end
  | _ => (s, Err ErrUnknownAuthorizationType)
  end.

(** [IncreaseAllowance] leaves out the cancellation of an unbonding. *)
Fixpoint increase_urls s (grantee origin : address) (coin : option Coin) (typeUrls : list string) : state * res unit :=
  match typeUrls with
  | [] => (s, Ok ())
  | typeURL :: typeUrls =>
      if String.eqb typeURL DelegateMsg || String.eqb typeURL UndelegateMsg || String.eqb typeURL RedelegateMsg then
        do? s, _ := increaseAllowance s grantee origin coin typeURL in
        increase_urls s grantee origin coin typeUrls
      else (s, Err ErrInvalidMsgType)
  end.

Definition IncreaseAllowance (origin : address) s (args : list abi_value) : state * res ret :=
  do? s, bondDenom := (s, sk_BondDenom (ns_chain s)) in
  do? s, a := (s, CheckApprovalArgs args bondDenom) in
  let '(grantee, coin, typeUrls) := a in
  do? s, _ := increase_urls s grantee origin coin typeUrls in
  do? s, _ := EmitAllowanceChangeEvent s grantee origin typeUrls in
  (s, Ok (RBool true)).

Definition UpdateStakingAuthorization s (grantee granter : address) (stakeAuthz : StakeAuthorization)
    (expiration : option Z) (messageType : string) (msg : Msg) : state * res unit :=
  do? s, updatedResponse := (s, Accept stakeAuthz msg) in
  if ar_Delete updatedResponse then on_authz s (az_Delete (ns_authz s) grantee granter messageType)
  else match ar_Updated updatedResponse with
       | Some updated => on_authz s (az_Save (ns_authz s) grantee granter updated expiration)
       | None => (s, Panic PanicNil)
       end.

(** *** Transactions ([tx.go]); [caller] is the caller of the contract and
    [origin] the signer of the transaction *)

Definition CreateValidator (origin caller : address) s (args : list abi_value) : state * res ret :=
  do? s, bondDenom := (s, sk_BondDenom (ns_chain s)) in
  do? s, m := (s, NewMsgCreateValidator args bondDenom) in
  let '(msg, validatorHexAddr) := m in
  if negb (caller =? origin) then (s, Err ErrCannotCallFromContract)
  else if negb (origin =? validatorHexAddr) then (s, Err ErrDifferentOriginFromDelegator)
  else
    do? s, _ := on_chain s (sk_CreateValidator (ns_chain s) msg) in
    (EmitCreateValidatorEvent s msg validatorHexAddr, Ok (RBool true)).

Definition EditValidator (origin caller : address) s (args : list abi_value) : state * res ret :=
  do? s, m := (s, NewMsgEditValidator args) in
  let '(msg, validatorHexAddr) := m in
  if negb (caller =? origin) then (s, Err ErrCannotCallFromContract)
  else if negb (origin =? validatorHexAddr) then (s, Err ErrDifferentOriginFromValidator)
  else
    do? s, _ := on_chain s (sk_EditValidator (ns_chain s) msg) in
    (EmitEditValidatorEvent s msg validatorHexAddr, Ok (RBool true)).

Definition Delegate (origin caller : address) s (args : list abi_value) : state * res ret :=
  do? s, bondDenom := (s, sk_BondDenom (ns_chain s)) in
  do? s, m := (s, NewMsgDelegate args bondDenom) in
  let '(msg, delegatorHexAddr) := m in
  let isCallerOrigin := caller =? origin in
  let isCallerDelegator := caller =? delegatorHexAddr in
  if negb isCallerDelegator && negb (origin =? delegatorHexAddr) then (s, Err ErrDifferentOriginFromDelegator)
  else
    let delegatorHexAddr := if isCallerDelegator then origin else delegatorHexAddr in
    do? s, grant :=
      (s, if negb isCallerOrigin then
            let? g := CheckAuthzAndAllowanceForGranter (ns_authz s) caller delegatorHexAddr (md_Amount msg) DelegateMsg in
            Ok (Some g)
          else Ok None) in
    do? s, _ := on_chain s (sk_Delegate (ns_chain s) msg) in
    do? s, _ := match grant with
                | Some (stakeAuthz, expiration) =>
                    UpdateStakingAuthorization s caller delegatorHexAddr stakeAuthz expiration DelegateMsg (MDelegate msg)
                | None => (s, Ok ())
                end in
    do? s, _ := EmitDelegateEvent s msg delegatorHexAddr in
    if negb isCallerOrigin && String.eqb (coin_Denom (md_Amount msg)) (GetEVMCoinDenom coinCfg) then
      match AccAddressFromBech32 (md_DelegatorAddress msg) with
      | Ok delAccAddr =>
          let delHexAddr := BytesToAddress delAccAddr in
          let scaledAmt := ConvertAmountTo18DecimalsBigInt coinCfg (coin_Amount (md_Amount msg)) in
          (set_entries [mkBalanceChangeEntry delHexAddr scaledAmt Sub] s, Ok (RBool true))
      | Err e | Panic e => (s, Panic e)
      end
    else (s, Ok (RBool true)).

Definition Undelegate (origin caller : address) s (args : list abi_value) : state * res ret :=
  do? s, bondDenom := (s, sk_BondDenom (ns_chain s)) in
  do? s, m := (s, NewMsgUndelegate args bondDenom) in
  let '(msg, delegatorHexAddr) := m in
  let isCallerOrigin := caller =? origin in
  let isCallerDelegator := caller =? delegatorHexAddr in
  if negb isCallerDelegator && negb (origin =? delegatorHexAddr) then (s, Err ErrDifferentOriginFromDelegator)
  else
    let delegatorHexAddr := if isCallerDelegator then origin else delegatorHexAddr in
    do? s, grant :=
      (s, if negb isCallerOrigin then
            let? g := CheckAuthzAndAllowanceForGranter (ns_authz s) caller delegatorHexAddr (mu_Amount msg) UndelegateMsg in
            Ok (Some g)
          else Ok None) in
    do? s, completionTime := on_chain s (sk_Undelegate (ns_chain s) msg) in
    do? s, _ := match grant with
                | Some (stakeAuthz, expiration) =>
                    UpdateStakingAuthorization s caller delegatorHexAddr stakeAuthz expiration UndelegateMsg
                      (MUndelegate msg)
                | None => (s, Ok ())
                end in
    do? s, _ := EmitUnbondEvent s msg delegatorHexAddr completionTime in
    (s, Ok (RInt64 completionTime)).

Definition Redelegate (origin caller : address) s (args : list abi_value) : state * res ret :=
  do? s, bondDenom := (s, sk_BondDenom (ns_chain s)) in
  do? s, m := (s, NewMsgRedelegate args bondDenom) in
  let '(msg, delegatorHexAddr) := m in
  let isCallerOrigin := caller =? origin in
  let isCallerDelegator := caller =? delegatorHexAddr in
  if negb isCallerDelegator && negb (origin =? delegatorHexAddr) then (s, Err ErrDifferentOriginFromDelegator)
  else
    let delegatorHexAddr := if isCallerDelegator then origin else delegatorHexAddr in
    do? s, grant :=
      (s, if negb isCallerOrigin then
            let? g := CheckAuthzAndAllowanceForGranter (ns_authz s) caller delegatorHexAddr (mr_Amount msg) RedelegateMsg in
            Ok (Some g)
          else Ok None) in
    do? s, completionTime := on_chain s (sk_BeginRedelegate (ns_chain s) msg) in
    do? s, _ := match grant with
                | Some (stakeAuthz, expiration) =>
                    UpdateStakingAuthorization s caller delegatorHexAddr stakeAuthz expiration RedelegateMsg
                      (MBeginRedelegate msg)
                | None => (s, Ok ())
                end in
    do? s, _ := EmitRedelegateEvent s msg delegatorHexAddr completionTime in
    (s, Ok (RInt64 completionTime)).

Definition CancelUnbondingDelegation (origin caller : address) s (args : list abi_value) : state * res ret :=
  do? s, bondDenom := (s, sk_BondDenom (ns_chain s)) in
  do? s, m := (s, NewMsgCancelUnbondingDelegation args bondDenom) in
  let '(msg, delegatorHexAddr) := m in
  let isCallerOrigin := caller =? origin in
  let isCallerDelegator := caller =? delegatorHexAddr in
  if negb isCallerDelegator && negb (origin =? delegatorHexAddr) then (s, Err ErrDifferentOriginFromDelegator)
  else
    let delegatorHexAddr := if isCallerDelegator then origin else delegatorHexAddr in
    do? s, grant :=
      (s, if negb isCallerOrigin then
            let? g := CheckAuthzAndAllowanceForGranter (ns_authz s) caller delegatorHexAddr (mk_Amount msg)
                        CancelUnbondingDelegationMsg in
            Ok (Some g)
          else Ok None) in
    do? s, _ := on_chain s (sk_CancelUnbondingDelegation (ns_chain s) msg) in
    do? s, _ := match grant with
                | Some (stakeAuthz, expiration) =>
                    UpdateStakingAuthorization s caller delegatorHexAddr stakeAuthz expiration
                      CancelUnbondingDelegationMsg (MCancelUnbondingDelegation msg)
                | None => (s, Ok ())
                end in
    do? s, _ := EmitCancelUnbondingDelegationEvent s msg delegatorHexAddr in
    (s, Ok (RBool true)).

(** *** Queries ([query.go], and the outputs of [types.go]) *)

Definition DefaultValidatorOutput : Validator := mkValidator "" "" false BOND_STATUS_UNSPECIFIED 0 0 "" 0 0 0 0.

(** [ValidatorOutput.FromResponse]: the operator as a hexadecimal address *)
Definition validator_FromResponse (v : Validator) : Validator :=
  match ValAddressFromBech32 (va_OperatorAddress v) with
  | Ok operatorAddress =>
      mkValidator (addr_Hex (BytesToAddress operatorAddress)) (va_ConsensusPubkey v) (va_Jailed v) (va_Status v)
        (va_Tokens v) (va_DelegatorShares v) (va_Details v) (va_UnbondingHeight v) (va_UnbondingTime v)
        (va_CommissionRate v) (va_MinSelfDelegation v)
  | _ => DefaultValidatorOutput
  end.

Definition validators_FromResponse (l : list Validator) (page : option PageResponse) : list Validator * PageResponse :=
  (map validator_FromResponse l,
   match page with Some pg => mkPageResponse (ps_NextKey pg) (ps_Total pg) | None => mkPageResponse [] 0 end).

Definition redelegations_FromResponse (l : list RedelegationResponse) (page : option PageResponse)
    : list RedelegationResponse * PageResponse :=
  (map (fun resp =>
          mkRedelegationResponse
            (mkRedelegationValues (rv_DelegatorAddress (rr_Redelegation resp)) (rv_ValidatorSrcAddress (rr_Redelegation resp))
               (rv_ValidatorDstAddress (rr_Redelegation resp)) (rv_Entries (rr_Redelegation resp)))
            (rr_Entries resp)) l,
   match page with Some pg => mkPageResponse (ps_NextKey pg) (ps_Total pg) | None => mkPageResponse [] 0 end).

Definition Delegation s (args : list abi_value) : res ret :=
  let? '(delegatorAddr, validatorAddr) := NewDelegationRequest args in
  match q_Delegation (ns_chain s) delegatorAddr validatorAddr with
  | Ok (shares, balance) => Ok (RDelegation shares balance)
  | Err e =>
      if str_contains e ("delegation with delegator " +:+ delegatorAddr +:+ " not found for validator " +:+ validatorAddr)
      then let? bondDenom := sk_BondDenom (ns_chain s) in Ok (RDelegation 0 (mkCoin bondDenom 0))
      else Err e
  | Panic e => Panic e
  end.

Definition UnbondingDelegation s (args : list abi_value) : res ret :=
  let? '(delegatorAddr, validatorAddr) := NewUnbondingDelegationRequest args in
  match q_UnbondingDelegation (ns_chain s) delegatorAddr validatorAddr with
  | Ok u => Ok (RUnbonding (mkUnbondingDelegationResponse (ur_DelegatorAddress u) (ur_ValidatorAddress u) (ur_Entries u)))
  | Err e =>
      if str_contains e ("unbonding delegation with delegator " +:+ delegatorAddr +:+ " not found for validator "
                           +:+ validatorAddr)
      then Ok (RUnbonding (mkUnbondingDelegationResponse "" "" []))
      else Err e
  | Panic e => Panic e
  end.

Definition validator s (args : list abi_value) : res ret :=
  let? validatorAddr := NewValidatorRequest args in
  match q_Validator (ns_chain s) validatorAddr with
  | Ok v => Ok (RValidator (validator_FromResponse v))
  | Err e => if str_contains e ("validator " +:+ validatorAddr +:+ " not found")
             then Ok (RValidator DefaultValidatorOutput) else Err e
  | Panic e => Panic e
  end.

Definition validators s (args : list abi_value) : res ret :=
  let? '(status, page) := NewValidatorsRequest args in
  let? '(l, pg) := q_Validators (ns_chain s) status page in
  let out := validators_FromResponse l pg in
  Ok (RValidators out.1 out.2).

Definition Redelegation s (args : list abi_value) : res ret :=
  let? '(delegator, src, dst) := NewRedelegationRequest args in
  Ok (RRedelegation (q_GetRedelegation (ns_chain s) delegator src dst)).

Definition Redelegations s (args : list abi_value) : res ret :=
  let? req := NewRedelegationsRequest args in
  let? '(l, pg) := q_Redelegations (ns_chain s) req in
  let out := redelegations_FromResponse l pg in
  Ok (RRedelegations out.1 out.2).

Definition Allowance s (args : list abi_value) : res ret :=
  let? '(grantee, granter, msg) := CheckAllowanceArgs args in
  match az_Get (ns_authz s) grantee granter msg with
  | None => Ok (RBig 0)
  | Some (AStake stakeAuthz, _) =>
      match sa_MaxTokens stakeAuthz with
      | None => Ok (RBig abi_MaxUint256)
      | Some max => Ok (RBig (coin_Amount max))
      end
  | Some _ => Err ErrInvalidType
  end.

(** *** Dispatch ([staking.go]) *)

Definition IsTransaction (method : string) : bool :=
  bool_decide (method ∈ ["createValidator"; "editValidator"; "delegate"; "undelegate"; "redelegate";
                         "cancelUnbondingDelegation"; "approve"; "revoke"; "increaseAllowance"; "decreaseAllowance"]).

(** Another name is no case of the switch: the call succeeds without output. *)
Definition HandleMethod p (origin caller : address) s (method : string) (args : list abi_value)
    : state * res (option ret) :=
  let some (m : state * res ret) : state * res (option ret) := (m.1, let? r := m.2 in Ok (Some r)) in
  let query (r : res ret) : state * res (option ret) := (s, let? r := r in Ok (Some r)) in
  if String.eqb method "approve" then some (Approve p origin s args)
  else if String.eqb method "revoke" then some (Revoke origin s args)
  else if String.eqb method "increaseAllowance" then some (IncreaseAllowance origin s args)
  else if String.eqb method "decreaseAllowance" then some (DecreaseAllowance origin s args)
  else if String.eqb method "createValidator" then some (CreateValidator origin caller s args)
  else if String.eqb method "editValidator" then some (EditValidator origin caller s args)
  else if String.eqb method "delegate" then some (Delegate origin caller s args)
  else if String.eqb method "undelegate" then some (Undelegate origin caller s args)
  else if String.eqb method "redelegate" then some (Redelegate origin caller s args)
  else if String.eqb method "cancelUnbondingDelegation" then some (CancelUnbondingDelegation origin caller s args)
  else if String.eqb method "delegation" then query (Delegation s args)
  else if String.eqb method "unbondingDelegation" then query (UnbondingDelegation s args)
  else if String.eqb method "validator" then query (validator s args)
  else if String.eqb method "validators" then query (validators s args)
  else if String.eqb method "redelegation" then query (Redelegation s args)
  else if String.eqb method "redelegations" then query (Redelegations s args)
  else if String.eqb method "allowance" then query (Allowance s args)
  else (s, Ok None).

(** The call but for its part in the state database, which is [Precompile.Run];
    [enoughGas] says whether the contract can pay the gas of the meter. *)
Definition Run (abi : ABI abi_value) p (origin caller : address) (readOnly : bool) (value : Z) (input : bytes)
    (enoughGas : bool) s : state * res (option ret) :=
  do? s, method_args := (s, setup_call abi (fun m => IsTransaction (meth_Name m)) readOnly value input) in
  do? s, bz := HandleMethod p origin caller s (meth_Name method_args.1) method_args.2 in
  if negb enoughGas then (s, Err ErrOutOfGas) else (s, Ok bz).

Definition RequiredGas (gc : GasConfig) (input : bytes) (method : option string) : res Z :=
  if (length input <? 4)%nat then Ok 0
  else match method with
       | None => Ok 0
       | Some m => Precompile.RequiredGas gc input (IsTransaction m)
       end.
End Precompile.
End Staking.
