(* ===== verification/NativeConcrete.v ===== *)
(** * Concrete grants and staking

    Instances of the classes of the native precompiles: grants in a map, address
    texts that are hexadecimal, and a staking module that records the messages
    it carries out. They show that the laws can hold together, and are what the
    concrete runs evaluate on. *)

From stdpp Require Import base gmap list numbers strings.
From Stdlib Require Import ZArith Lia.
From S2P Require Import Prelude SdkMath Scaling AccessList StateDB TxData TxDataTheorems Precompile Concrete NativePrecompile StakingPrecompile.
Import Native Staking.

Abbreviation c_grants := (gmap (address * address * string) (authorization * option Z)).

Definition c_url (a : authorization) : string :=
  match a with AStake a => auth_type_url (sa_Type a) | ATransfer _ => TransferMsgURL | AOther => "" end.

Definition c_get (z : c_grants) (g r : address) (u : string) : option (authorization * option Z) :=
  match z !! (g, r, u) with
  | Some (a, e) => if String.eqb (c_url a) u then Some (a, e) else None
  | None => None
  end.

#[export, refine] Instance c_native_authz : Authz c_grants := {|
  az_Get := c_get;
  az_Save z g r a e := (<[(g, r, c_url a) := (a, e)]> z, Ok ());
  az_Delete z g r u := match z !! (g, r, u) with
                       | Some _ => (delete (g, r, u) z, Ok ())
                       | None => (z, Err "authorization not found")
                       end;
  az_MsgTypeURL := c_url
|}.
Proof.
  - done.
  - intros a b Hab. cbn. by rewrite Hab.
  - done.
  - intros z g r u a e. unfold c_get. repeat case_match; [|done..]. intros [= -> ->]. by apply String.eqb_eq.
  - intros z g r a e z' [= <-] g' r' u'. unfold c_get. case_decide as Hd.
    + destruct Hd as (-> & -> & ->). rewrite lookup_insert_eq. cbn. by rewrite String.eqb_refl.
    + rewrite lookup_insert_ne; [done|]. intros Hk. apply Hd. by simplify_eq.
  - done.
  - intros z g r u z'. destruct (z !! (g, r, u)); [|done]. intros [= <-] g' r' u'. unfold c_get. case_decide as Hd.
    + destruct Hd as (-> & -> & ->). by rewrite lookup_delete_eq.
    + rewrite lookup_delete_ne; [done|]. intros Hk. apply Hd. by simplify_eq.
  - intros z g r u z' er. case_match; [done|]. by intros [= <-].
Defined.

#[export, refine] Instance c_bech32 : Bech32 := {|
  AccAddress_String := addr_Hex;
  ValAddress_String a := "val" +:+ addr_Hex a;
  ConsAddress_String := addr_Hex;
  AccAddressFromBech32 t := Ok (addr_Bytes (HexToAddress t));
  ValAddressFromBech32 t := if String.prefix "val" t then Ok (addr_Bytes (HexToAddress (String.substring 3 (String.length t) t)))
                            else Err "invalid prefix";
  Bech32ifyAddressBytes prefix bz := Ok (addr_Hex (BytesToAddress bz));
  GetFromBech32 t prefix := Ok (addr_Bytes (HexToAddress t));
  VerifyAddressFormat bz := Ok ();
  AccountAddrPrefix := "tac"
|}.
Proof.
  - intros t b. destruct (String.prefix "val" t) eqn:Hp; [|done]. intros _. destruct t; [done|]. cbn [str_contains].
    by rewrite Hp.
  - intros a Ha. by rewrite HexToAddress_Hex.
  - intros a Ha. assert (Hs : String.substring 3 (String.length ("val" +:+ addr_Hex a)) ("val" +:+ addr_Hex a) = addr_Hex a)
      by (rewrite !str_app_cons, str_app_nil; cbn [String.length String.substring]; apply substring_all; lia).
    rewrite Hs, HexToAddress_Hex by done. done.
Defined.

(** the validator whose list of the authorization is looked up *)
Definition msg_validator (m : Msg) : string :=
  match m with
  | MDelegate m => md_ValidatorAddress m
  | MUndelegate m => mu_ValidatorAddress m
  | MBeginRedelegate m => mr_ValidatorDstAddress m
  | MCancelUnbondingDelegation m => mk_ValidatorAddress m
  end.

Definition c_accept (a : StakeAuthorization) (m : Msg) : res AcceptResponse :=
  if contains_string (sa_DenyList a) (msg_validator m) then Err "unauthorized"
  else if negb (length (sa_AllowList a) =? 0)%nat && negb (contains_string (sa_AllowList a) (msg_validator m))
  then Err "unauthorized"
  else match sa_MaxTokens a with
       | None => Ok (mkAcceptResponse true false (Some (AStake a)))
       | Some c =>
           if negb (String.eqb (coin_Denom (msg_Amount m)) (coin_Denom c)) then Err "invalid coin denominations"
           else if coin_Amount c <? coin_Amount (msg_Amount m) then Err "negative coin amount"
           else if coin_Amount c =? coin_Amount (msg_Amount m) then Ok (mkAcceptResponse true true None)
           else Ok (mkAcceptResponse true false (Some (AStake
                  (mkStakeAuthorization (Some (mkCoin (coin_Denom c) (coin_Amount c - coin_Amount (msg_Amount m))))
                     (sa_AllowList a) (sa_DenyList a) (sa_Type a)))))
       end.

Definition c_valoper : string := "valoper".
Definition c_validator : Validator := mkValidator c_valoper "" false BOND_STATUS_BONDED 100 100 "" 0 0 0 0.

#[export, refine] Instance c_staking : StakingKeeper (list Msg) := {|
  sk_BondDenom c := Ok "atac";
  sk_CreateValidator c m := (c, Ok ());
  sk_EditValidator c m := (c, Ok ());
  sk_Delegate c m := (c ++ [MDelegate m], Ok ());
  sk_Undelegate c m := (c ++ [MUndelegate m], Ok 7);
  sk_BeginRedelegate c m := (c ++ [MBeginRedelegate m], Ok 7);
  sk_CancelUnbondingDelegation c m := (c ++ [MCancelUnbondingDelegation m], Ok ());
  sk_IterateValidators c := Ok [c_validator];
  sk_GetValidator c v := c_validator;
  SharesFromTokens v t := Ok t;
  base64_Decode t := Ok (replicate (String.length t) 0);
  NewStakeAuthorization allow deny t c := Ok (mkStakeAuthorization c [c_valoper] [] t);
  StakeAuthorization_ValidateBasic a := Ok ();
  Accept := c_accept;
  q_Delegation c d v := Err ("delegation with delegator " +:+ d +:+ " not found for validator " +:+ v);
  q_UnbondingDelegation c d v := Err "not found";
  q_Validator c v := Ok c_validator;
  q_Validators c st pg := Ok ([c_validator], None);
  q_GetRedelegation c d v w := mkRedelegationValues "" "" "" [];
  q_Redelegations c rq := Ok ([], None)
|}.
Proof.
  - by intros allow deny t c a [= <-].
  - intros a m r. unfold c_accept. repeat case_match; try done; intros [= <-]; zbool.
    + match goal with H : String.eqb _ _ = true |- _ => apply String.eqb_eq in H end. done.
    + match goal with H : String.eqb _ _ = true |- _ => apply String.eqb_eq in H end.
      split_and!; [done|done|]. eexists. split_and!; done.
    + eexists. split_and!; done.
Defined.
