(* ===== verification/StakingPrecompileTheorems.v ===== *)
(** * Theorems on the staking precompile

    A stake moves only for the signer of the transaction or for the calling
    contract, and a contract needs, and uses up, a grant of the signer; the
    approval methods implement a table of limits. *)

From stdpp Require Import base gmap list numbers strings.
From Stdlib Require Import ZArith Lia.
From S2P Require Import Prelude SdkMath Scaling AccessList StateDB TxData TxDataTheorems Precompile Concrete NativePrecompile StakingPrecompile NativeConcrete.
Import Native Staking.

Section Theorems.
Context `{!SdkMath} `{!EthHex} `{!EvmEnv} `{!Bech32} {authz chain : Type} `{!Authz authz} `{!StakingKeeper chain}.
Abbreviation state := (nstate authz chain).
Implicit Types s : state.

(** ** Limits *)

(** The limit of a grant of staking: no grant, an unlimited one, or an amount. *)
Definition limit_of s (grantee granter : address) (url : string) : option (option Z) :=
  match az_Get (ns_authz s) grantee granter url with
  | Some (AStake a, _) => Some (coin_Amount <$> sa_MaxTokens a)
  | _ => None
  end.

Lemma saved_limit s g r a e z u :
  az_Save (ns_authz s) g r (AStake a) e = (z, Ok ()) -> az_MsgTypeURL (AStake a) = u -> forall g' r' u',
  limit_of (with_authz z s) g' r' u' =
    if decide (g' = g /\ r' = r /\ u' = u) then Some (coin_Amount <$> sa_MaxTokens a) else limit_of s g' r' u'.
Proof.
  intros E Hu g' r' u'. unfold limit_of. cbn [ns_authz with_authz]. rewrite (az_save _ _ _ _ _ _ E), Hu. by case_decide.
Qed.

Lemma deleted_limit s g r z u :
  az_Delete (ns_authz s) g r u = (z, Ok ()) -> forall g' r' u',
  limit_of (with_authz z s) g' r' u' = if decide (g' = g /\ r' = r /\ u' = u) then None else limit_of s g' r' u'.
Proof.
  intros E g' r' u'. unfold limit_of. cbn [ns_authz with_authz]. rewrite (az_delete _ _ _ _ _ E). by case_decide.
Qed.

(** ** Moving stake *)

Definition msg_url (m : Msg) : string :=
  match m with
  | MDelegate _ => DelegateMsg
  | MUndelegate _ => UndelegateMsg
  | MBeginRedelegate _ => RedelegateMsg
  | MCancelUnbondingDelegation _ => CancelUnbondingDelegationMsg
  end.

Definition msg_delegator (m : Msg) : string :=
  match m with
  | MDelegate m => md_DelegatorAddress m
  | MUndelegate m => mu_DelegatorAddress m
  | MBeginRedelegate m => mr_DelegatorAddress m
  | MCancelUnbondingDelegation m => mk_DelegatorAddress m
  end.

(** the staking module's answer to a message; the result is the completion time *)
Definition exec_msg (c : chain) (m : Msg) : chain * res Z :=
  let timeless (x : chain * res unit) := (x.1, let? _ := x.2 in Ok 0) in
  match m with
  | MDelegate m => timeless (sk_Delegate c m)
  | MUndelegate m => sk_Undelegate c m
  | MBeginRedelegate m => sk_BeginRedelegate c m
  | MCancelUnbondingDelegation m => timeless (sk_CancelUnbondingDelegation c m)
  end.

(** what the four methods share: the check of the caller, the grant, the message
    and the update of the grant *)
Definition staking_tx (origin caller : address) s (m : Msg) (d : address) : state * res Z :=
  if negb (caller =? d) && negb (origin =? d) then (s, Err ErrDifferentOriginFromDelegator)
  else
    let d := if caller =? d then origin else d in
    do? s, grant :=
      (s, if negb (caller =? origin) then
            let? g := CheckAuthzAndAllowanceForGranter (ns_authz s) caller d (msg_Amount m) (msg_url m) in Ok (Some g)
          else Ok None) in
    do? s, t := on_chain s (exec_msg (ns_chain s) m) in
    do? s, _ := match grant with
                | Some (stakeAuthz, expiration) =>
                    UpdateStakingAuthorization s caller d stakeAuthz expiration (msg_url m) m
                | None => (s, Ok ())
                end in
    (s, Ok t).

(** A grant of limit [l] covers the amount [c], and [l'] is what remains. *)
Definition spends (l : option (option Z)) (c : Z) (l' : option (option Z)) : Prop :=
  match l with
  | None => False
  | Some None => l' = Some None
  | Some (Some n) => c <= n /\ l' = if n =? c then None else Some (Some (n - c))
  end.

(** The message [m] of delegator [d] was carried out, for the origin or for the
    calling contract; a contract has spent a grant of the origin, and no other
    grant changed. *)
Definition authorised (origin caller d : address) (m : Msg) s s' : Prop :=
  (d = origin \/ d = caller) /\
  (exists t, exec_msg (ns_chain s) m = (ns_chain s', Ok t)) /\
  forall g r u, if decide (caller <> origin /\ g = caller /\ r = origin /\ u = msg_url m)
    then spends (limit_of s g r u) (coin_Amount (msg_Amount m)) (limit_of s' g r u)
    else limit_of s' g r u = limit_of s g r u.

Lemma update_spends s g r a e m s' :
  az_Get (ns_authz s) g r (msg_url m) = Some (AStake a, e) ->
  UpdateStakingAuthorization s g r a e (msg_url m) m = (s', Ok ()) ->
  ns_chain s' = ns_chain s /\
  spends (limit_of s g r (msg_url m)) (coin_Amount (msg_Amount m)) (limit_of s' g r (msg_url m)) /\
  forall g' r' u', ~ (g' = g /\ r' = r /\ u' = msg_url m) -> limit_of s' g' r' u' = limit_of s g' r' u'.
Proof.
  intros Hg E. pose proof (az_get_url _ _ _ _ _ _ Hg) as Hu. unfold UpdateStakingAuthorization in E. inv_do E.
  pose proof (Accept_spec _ _ _ E0) as Ha.
  assert (Hl : limit_of s g r (msg_url m) = Some (coin_Amount <$> sa_MaxTokens a)) by (unfold limit_of; by rewrite Hg).
  rewrite Hl. clear E0. destruct (sa_MaxTokens a) as [c|] eqn:Hc; cbn [fmap option_fmap option_map spends].
  - destruct Ha as (_ & Hle & Ha). destruct (Z.eqb_spec (coin_Amount c) (coin_Amount (msg_Amount m))) as [Eq|Ne].
    + rewrite Ha in E. apply on_authz_Ok in E as (z & Ez & ->).
      split_and!; [done|done| |]; intros; rewrite (deleted_limit _ _ _ _ _ Ez); by case_decide; naive_solver.
    + destruct Ha as (a' & Hup & Hde & Hm & Ht). rewrite Hup, Hde in E. apply on_authz_Ok in E as (z & Ez & ->).
      rewrite (az_url_type _ _ (eq_sym Ht)) in Hu.
      split_and!; [done|done| |]; intros; rewrite (saved_limit _ _ _ _ _ _ _ Ez Hu); case_decide; try naive_solver.
      by rewrite Hm.
  - destruct Ha as (a' & Hup & Hde & Hm & Ht). rewrite Hup, Hde in E. apply on_authz_Ok in E as (z & Ez & ->).
    rewrite (az_url_type _ _ (eq_sym Ht)) in Hu.
    split_and!; [done| |]; intros; rewrite (saved_limit _ _ _ _ _ _ _ Ez Hu); case_decide; try naive_solver.
    by rewrite Hm.
Qed.

Lemma check_grant z g r c u a e :
  CheckAuthzAndAllowanceForGranter z g r c u = Ok (a, e) -> az_Get z g r u = Some (AStake a, e).
Proof.
  unfold CheckAuthzAndAllowanceForGranter. destruct (az_Get z g r u) as [[[a0| |] e0]|]; [|done..].
  destruct (sa_MaxTokens a0); [case_match; [done|]|]; by intros [= -> ->].
Qed.

Lemma staking_tx_effect origin caller s m d s' t :
  staking_tx origin caller s m d = (s', Ok t) -> authorised origin caller d m s s'.
Proof.
  intros E. unfold staking_tx in E. destruct (negb _ && negb _) eqn:Hd; [done|].
  assert (Ho : (if caller =? d then origin else d) = origin).
  { destruct (Z.eqb_spec caller d); [done|]. cbn in Hd. zbool. done. }
  rewrite Ho in E. inv_do E. injection E as -> ->. apply on_chain_Ok in E1 as (c & E1 & ->).
  split. { destruct (Z.eqb_spec caller d); [by right|]. cbn in Hd. zbool. by left. }
  destruct (Z.eqb_spec caller origin) as [->|Hne]; cbn [negb] in E0.
  - injection E0 as <-. injection E2 as <- _. cbn [ns_chain with_chain]. split; [eauto|].
    intros g r u. rewrite decide_False by tauto. done.
  - apply bind_Ok_inv in E0 as ([sa e] & Hg & [= <-]). apply check_grant in Hg.
    destruct a1. apply update_spends in E2 as (Hch & Hs & Hoth); [|exact Hg].
    rewrite Hch. cbn [ns_chain with_chain]. split; [eauto|]. intros g r u.
    case_decide as Hdec; [destruct Hdec as (_ & -> & -> & ->); exact Hs|]. apply Hoth. tauto.
Qed.

(** the message of a method and its delegator *)
Definition staking_msg (method : string) (args : list abi_value) (denom : string) : res (Msg * address) :=
  if String.eqb method "delegate" then let? '(m, d) := NewMsgDelegate args denom in Ok (MDelegate m, d)
  else if String.eqb method "undelegate" then let? '(m, d) := NewMsgUndelegate args denom in Ok (MUndelegate m, d)
  else if String.eqb method "redelegate" then let? '(m, d) := NewMsgRedelegate args denom in Ok (MBeginRedelegate m, d)
  else if String.eqb method "cancelUnbondingDelegation" then
    let? '(m, d) := NewMsgCancelUnbondingDelegation args denom in Ok (MCancelUnbondingDelegation m, d)
  else Err ErrUnknownMethod.

(** The balance change that a delegation from a contract reports: the delegator
    of the message pays. *)
Definition reported (origin caller d : address) (m : Msg) (es : list balanceChangeEntry) : list balanceChangeEntry :=
  match m with
  | MDelegate m =>
      if negb (caller =? origin) && String.eqb (coin_Denom (md_Amount m)) (GetEVMCoinDenom coinCfg)
      then [mkBalanceChangeEntry d (ConvertAmountTo18DecimalsBigInt coinCfg (coin_Amount (md_Amount m))) Sub]
      else es
  | _ => es
  end.

(** what a run of a method consists of *)
Definition runs (method : string) (origin caller : address) s (args : list abi_value) s' : Prop :=
  exists denom m d s1 t,
    sk_BondDenom (ns_chain s) = Ok denom /\ staking_msg method args denom = Ok (m, d) /\
    staking_tx origin caller s m d = (s1, Ok t) /\
    ns_chain s' = ns_chain s1 /\ ns_authz s' = ns_authz s1 /\
    (addr_ok d -> ns_entries s' = reported origin caller d m (ns_entries s1)).

(** the parts of a method after the check of the caller, in the terms of [staking_tx] *)
Lemma staking_tx_intro origin caller s m d grant s1 s2 t :
  (negb (caller =? d) && negb (origin =? d)) = false ->
  (if negb (caller =? origin) then
     let? g := CheckAuthzAndAllowanceForGranter (ns_authz s) caller (if caller =? d then origin else d)
                 (msg_Amount m) (msg_url m) in Ok (Some g)
   else Ok None) = Ok grant ->
  on_chain s (exec_msg (ns_chain s) m) = (s1, Ok t) ->
  (match grant with
   | Some (a, e) => UpdateStakingAuthorization s1 caller (if caller =? d then origin else d) a e (msg_url m) m
   | None => (s1, Ok ())
   end) = (s2, Ok ()) ->
  staking_tx origin caller s m d = (s2, Ok t).
Proof. intros Hd Hg He Hu. unfold staking_tx. rewrite Hd, Hg. cbn [st_bind]. rewrite He. cbn [st_bind]. by rewrite Hu. Qed.

Lemma timeless_Ok s (x : chain * res unit) s1 :
  on_chain s x = (s1, Ok ()) -> on_chain s (x.1, let? _ := x.2 in Ok 0) = (s1, Ok 0).
Proof. destruct x as [c r]. unfold on_chain. cbn. by intros [= <- ->]. Qed.

Lemma EmitDelegateEvent_logs s m d s' : EmitDelegateEvent s m d = (s', Ok ()) -> same_but_logs s s'.
Proof. intros E. unfold EmitDelegateEvent in E. inv_do E. by injection E as <-. Qed.

Lemma EmitUnbondEvent_logs s m d t s' : EmitUnbondEvent s m d t = (s', Ok ()) -> same_but_logs s s'.
Proof. intros E. unfold EmitUnbondEvent in E. inv_do E. by injection E as <-. Qed.

Lemma EmitRedelegateEvent_logs s m d t s' : EmitRedelegateEvent s m d t = (s', Ok ()) -> same_but_logs s s'.
Proof. intros E. unfold EmitRedelegateEvent in E. inv_do E. by injection E as <-. Qed.

Lemma EmitCancelUnbondingDelegationEvent_logs s m d s' :
  EmitCancelUnbondingDelegationEvent s m d = (s', Ok ()) -> same_but_logs s s'.
Proof. intros E. unfold EmitCancelUnbondingDelegationEvent in E. inv_do E. by injection E as <-. Qed.

Lemma staking_msg_delegator method args denom m d :
  staking_msg method args denom = Ok (m, d) -> msg_delegator m = AccAddress_String d.
Proof.
  unfold staking_msg, NewMsgDelegate, NewMsgUndelegate, NewMsgRedelegate, NewMsgCancelUnbondingDelegation.
  intros E. repeat (case_match; [inv_ok; done|]). done.
Qed.

Lemma Delegate_runs origin caller s args s' r :
  Delegate origin caller s args = (s', Ok r) -> runs "delegate" origin caller s args s'.
Proof.
  intros E. unfold Delegate in E. inv_do E. destruct a0 as [msg d]. cbv zeta in E.
  destruct (negb _ && negb _) eqn:Hd; [done|]. inv_do E. destruct a1, a2, a3.
  assert (Hm : staking_msg "delegate" args a = Ok (MDelegate msg, d)) by (unfold staking_msg; cbn; by rewrite E1).
  apply EmitDelegateEvent_logs in E5 as (Hc & Hz & He).
  exists a, (MDelegate msg), d, s1, 0. split_and!; [done|done| | | |].
  - eapply staking_tx_intro; [done|exact E2|by apply timeless_Ok|exact E4].
  - repeat case_match; simplify_eq; done.
  - repeat case_match; simplify_eq; done.
  - intros Hok. cbn [reported]. apply staking_msg_delegator in Hm. cbn [msg_delegator] in Hm.
    rewrite Hm, (AccAddress_roundtrip d Hok), (BytesToAddress_Bytes d Hok) in E. rewrite <-He.
    case_match; by simplify_eq.
Qed.

Lemma Undelegate_runs origin caller s args s' r :
  Undelegate origin caller s args = (s', Ok r) -> runs "undelegate" origin caller s args s'.
Proof.
  intros E. unfold Undelegate in E. inv_do E. destruct a0 as [msg d]. cbv zeta in E.
  destruct (negb _ && negb _) eqn:Hd; [done|]. inv_do E. destruct a2, a3. injection E as <- _.
  apply EmitUnbondEvent_logs in E5 as (Hc & Hz & He). exists a, (MUndelegate msg), d, s1, a1.
  split_and!; [done|unfold staking_msg; cbn; by rewrite E1| |done|done|done].
  eapply staking_tx_intro; [done|exact E2|exact E3|exact E4].
Qed.

Lemma Redelegate_runs origin caller s args s' r :
  Redelegate origin caller s args = (s', Ok r) -> runs "redelegate" origin caller s args s'.
Proof.
  intros E. unfold Redelegate in E. inv_do E. destruct a0 as [msg d]. cbv zeta in E.
  destruct (negb _ && negb _) eqn:Hd; [done|]. inv_do E. destruct a2, a3. injection E as <- _.
  apply EmitRedelegateEvent_logs in E5 as (Hc & Hz & He). exists a, (MBeginRedelegate msg), d, s1, a1.
  split_and!; [done|unfold staking_msg; cbn; by rewrite E1| |done|done|done].
  eapply staking_tx_intro; [done|exact E2|exact E3|exact E4].
Qed.

Lemma CancelUnbondingDelegation_runs origin caller s args s' r :
  CancelUnbondingDelegation origin caller s args = (s', Ok r) ->
  runs "cancelUnbondingDelegation" origin caller s args s'.
Proof.
  intros E. unfold CancelUnbondingDelegation in E. inv_do E. destruct a0 as [msg d]. cbv zeta in E.
  destruct (negb _ && negb _) eqn:Hd; [done|]. inv_do E. destruct a1, a2, a3. injection E as <- _.
  apply EmitCancelUnbondingDelegationEvent_logs in E5 as (Hc & Hz & He).
  exists a, (MCancelUnbondingDelegation msg), d, s1, 0.
  split_and!; [done|unfold staking_msg; cbn; by rewrite E1| |done|done|done].
  eapply staking_tx_intro; [done|exact E2|by apply timeless_Ok|exact E4].
Qed.

Definition is_stake_method (method : string) : bool :=
  bool_decide (method ∈ ["delegate"; "undelegate"; "redelegate"; "cancelUnbondingDelegation"]).

Lemma HandleMethod_runs p origin caller s method args s' r :
  is_stake_method method = true -> HandleMethod p origin caller s method args = (s', Ok r) ->
  runs method origin caller s args s'.
Proof.
  intros Hm E. unfold is_stake_method in Hm. apply bool_decide_eq_true in Hm.
  assert (Hs : forall m : state * res ret, (m.1, let? r := m.2 in Ok (Some r)) = (s', Ok r) -> exists r0, m = (s', Ok r0)).
  { intros [s0 [r0| |]]; cbn; naive_solver. }
  rewrite !elem_of_cons, elem_of_nil in Hm. unfold HandleMethod in E. cbv zeta in E.
  destruct Hm as [->|[->|[->|[->|[]]]]]; cbn [String.eqb Ascii.eqb Bool.eqb] in E; apply Hs in E as [r0 E].
  - by eapply Delegate_runs.
  - by eapply Undelegate_runs.
  - by eapply Redelegate_runs.
  - by eapply CancelUnbondingDelegation_runs.
Qed.

Lemma staking_tx_entries origin caller s m d s' t :
  staking_tx origin caller s m d = (s', Ok t) -> ns_entries s' = ns_entries s.
Proof.
  intros E. unfold staking_tx in E. destruct (negb _ && negb _); [done|]. inv_do E. injection E as -> _.
  apply on_chain_Ok in E1 as (c & _ & ->). destruct a as [[sa e]|]; [|by injection E2 as <-].
  unfold UpdateStakingAuthorization in E2. inv_do E2.
  destruct (ar_Delete _); [|destruct (ar_Updated _); [|done]]; by apply on_authz_Ok in E2 as (z & _ & ->).
Qed.

(** ** Approvals *)

(** the limit that [approve] sets: no coin is unlimited, zero removes the grant *)
Definition coin_limit (coin : option Coin) : option (option Z) :=
  match coin with
  | None => Some None
  | Some c => if 0 <? coin_Amount c then Some (Some (coin_Amount c)) else None
  end.

Definition coin_delta (coin : option Coin) : Z := match coin with None => 0 | Some c => coin_Amount c end.

Fixpoint count_url (u : string) (urls : list string) : Z :=
  match urls with [] => 0 | v :: urls => (if String.eqb v u then 1 else 0) + count_url u urls end.

Definition shift (n : Z) (l : option (option Z)) : option (option Z) :=
  match l with Some (Some k) => Some (Some (k + n)) | l => l end.

(** the table of limits after an approval method with these arguments *)
Definition new_limit (method : string) (coin : option Coin) (urls : list string) (u : string)
    (l : option (option Z)) : option (option Z) :=
  if String.eqb method "approve" then if decide (u ∈ urls) then coin_limit coin else l
  else if String.eqb method "revoke" then if decide (u ∈ urls) then None else l
  else if String.eqb method "increaseAllowance" then shift (coin_delta coin * count_url u urls) l
  else shift (- (coin_delta coin * count_url u urls)) l.

(** the grants of [granter] to [grantee] change as [f] says, all others stay *)
Definition table_step (grantee granter : address) (f : string -> option (option Z) -> option (option Z)) s s' : Prop :=
  ns_chain s' = ns_chain s /\ ns_entries s' = ns_entries s /\
  forall g r u, limit_of s' g r u =
    if decide (g = grantee /\ r = granter) then f u (limit_of s g r u) else limit_of s g r u.

Lemma table_step_refl g r f s : (forall u l, f u l = l) -> table_step g r f s s.
Proof. intros Hf. split_and!; [done..|]. intros. case_decide; by rewrite ?Hf. Qed.

Lemma table_step_trans g r f1 f2 f3 s1 s2 s3 :
  (forall u l, f3 u l = f2 u (f1 u l)) -> table_step g r f1 s1 s2 -> table_step g r f2 s2 s3 -> table_step g r f3 s1 s3.
Proof.
  intros Hf (Hc & He & Hl) (Hc' & He' & Hl'). split_and!; [congruence..|]. intros. rewrite Hl', Hl.
  case_decide; [by rewrite Hf|done].
Qed.

Lemma save_step s g r a e z u :
  az_Save (ns_authz s) g r (AStake a) e = (z, Ok ()) -> az_MsgTypeURL (AStake a) = u ->
  table_step g r (fun u' l => if decide (u' = u) then Some (coin_Amount <$> sa_MaxTokens a) else l) s (with_authz z s).
Proof.
  intros E Hu. split_and!; [done..|]. intros. rewrite (saved_limit _ _ _ _ _ _ _ E Hu).
  repeat case_decide; naive_solver.
Qed.

Lemma delete_step s g r z u :
  az_Delete (ns_authz s) g r u = (z, Ok ()) ->
  table_step g r (fun u' l => if decide (u' = u) then None else l) s (with_authz z s).
Proof. intros E. split_and!; [done..|]. intros. rewrite (deleted_limit _ _ _ _ _ E). repeat case_decide; naive_solver. Qed.

Lemma convertMsgToAuthz_url url t :
  convertMsgToAuthz url = Ok t -> t <> AUTHORIZATION_TYPE_UNSPECIFIED /\ auth_type_url t = url.
Proof.
  unfold convertMsgToAuthz. intros E.
  repeat (match type of E with (if ?b then _ else _) = _ => destruct b eqn:Hb end;
    [injection E as <-; apply String.eqb_eq in Hb as ->; done|clear Hb]). done.
Qed.

Lemma grantOrDelete_step p s g r coin t url s' :
  convertMsgToAuthz url = Ok t -> grantOrDeleteStakingAuthz p s g r coin t = (s', Ok ()) ->
  table_step g r (fun u l => if decide (u = url) then coin_limit coin else l) s s'.
Proof.
  intros Ht E. apply convertMsgToAuthz_url in Ht as [Hne Hu].
  assert (Hcreate : coin_limit coin = Some (coin_Amount <$> coin) ->
    createStakingAuthz p s g r coin t = (s', Ok ()) ->
    table_step g r (fun u l => if decide (u = url) then coin_limit coin else l) s s').
  { intros Hl Ec. unfold createStakingAuthz in Ec. inv_do Ec. apply on_authz_Ok in Ec as (z & Ez & ->).
    destruct (NewStakeAuthorization_spec _ _ _ _ _ E2) as [Hm Hty]. rewrite Hl, <-Hm.
    eapply save_step; [exact Ez|]. rewrite az_url_stake by congruence. congruence. }
  unfold grantOrDeleteStakingAuthz in E. destruct coin as [c|]; [|by apply Hcreate].
  destruct (0 <? coin_Amount c) eqn:Hc; cbn [negb] in E; [apply Hcreate; [|done]; cbn; by rewrite Hc|].
  apply on_authz_Ok in E as (z & Ez & ->). rewrite az_url_stake in Ez by done. cbn [sa_Type] in Ez. rewrite Hu in Ez.
  cbn [coin_limit]. rewrite Hc. by apply delete_step.
Qed.

Lemma approve_urls_step p s g r coin urls s' :
  approve_urls p s g r coin urls = (s', Ok ()) ->
  table_step g r (fun u l => if decide (u ∈ urls) then coin_limit coin else l) s s'.
Proof.
  revert s. induction urls as [|url urls IH]; intros s E; cbn [approve_urls] in E.
  { injection E as <-. apply table_step_refl. intros. rewrite decide_False; [done|]. by apply not_elem_of_nil. }
  destruct (is_staking_msg url); [|done]. inv_do E. destruct a0. apply IH in E.
  eapply table_step_trans; [|by eapply grantOrDelete_step|exact E]. intros u l. cbv beta.
  repeat case_decide; try done; set_solver.
Qed.

Lemma revoke_urls_step s g r urls s' :
  revoke_urls s g r urls = (s', Ok ()) -> table_step g r (fun u l => if decide (u ∈ urls) then None else l) s s'.
Proof.
  revert s. induction urls as [|url urls IH]; intros s E; cbn [revoke_urls] in E.
  { injection E as <-. apply table_step_refl. intros. rewrite decide_False; [done|]. by apply not_elem_of_nil. }
  destruct (is_staking_msg url); [|done]. inv_do E. destruct a. apply on_authz_Ok in E0 as (z & Ez & ->). apply IH in E.
  eapply table_step_trans; [|by apply delete_step|exact E]. intros u l. cbv beta. repeat case_decide; try done; set_solver.
Qed.

(** Saving a stored authorization with another limit changes that limit. *)
Lemma relimit_step s g r url a e max n z :
  az_Get (ns_authz s) g r url = Some (AStake a, e) -> sa_MaxTokens a = Some max ->
  az_Save (ns_authz s) g r (AStake (with_limit a (mkCoin (coin_Denom max) (coin_Amount max + n)))) e = (z, Ok ()) ->
  table_step g r (fun u l => if decide (u = url) then shift n l else l) s (with_authz z s).
Proof.
  intros Hg Hm Ez. pose proof (az_get_url _ _ _ _ _ _ Hg) as Hu.
  rewrite (az_url_type a (with_limit a (mkCoin (coin_Denom max) (coin_Amount max + n))) eq_refl) in Hu.
  destruct (save_step _ _ _ _ _ _ _ Ez Hu) as (Hc & He & Hl). split_and!; [done..|]. intros g' r' u. rewrite Hl.
  case_decide as Hgr; [|done]. destruct Hgr as [-> ->]. case_decide as Hur; [subst u|done].
  unfold limit_of. rewrite Hg, Hm. done.
Qed.

(** A grant without limit is not changed. *)
Lemma unlimited_step s g r url a e n :
  az_Get (ns_authz s) g r url = Some (AStake a, e) -> sa_MaxTokens a = None ->
  table_step g r (fun u l => if decide (u = url) then shift n l else l) s s.
Proof.
  intros Hg Hm. split_and!; [done..|]. intros g' r' u. case_decide as Hgr; [|done]. destruct Hgr as [-> ->].
  case_decide as Hur; [subst u|done]. unfold limit_of. by rewrite Hg, Hm.
Qed.

Lemma CheckAuthzExists_get z g r u x : CheckAuthzExists z g r u = Ok x -> az_Get z g r u = Some x.
Proof. unfold CheckAuthzExists. case_match; [|done]. by intros [= ->]. Qed.

Lemma increaseAllowance_step s g r coin url s' :
  increaseAllowance s g r coin url = (s', Ok ()) ->
  table_step g r (fun u l => if decide (u = url) then shift (coin_delta coin) l else l) s s'.
Proof.
  intros E. unfold increaseAllowance in E. inv_do E. apply CheckAuthzExists_get in E0. destruct a as [[a| |] e]; [|done..].
  destruct (sa_MaxTokens a) as [max|] eqn:Hm; [|injection E as <-; by eapply unlimited_step].
  destruct coin as [c|]; [|done]. inv_do E. rewrite int_Add_spec in E1. destruct (int_fits _); [|done].
  injection E1 as <-. apply on_authz_Ok in E as (z & Ez & ->). by eapply relimit_step.
Qed.

Lemma decreaseAllowance_step s g r coin url a e s' :
  az_Get (ns_authz s) g r url = Some (AStake a, e) -> decreaseAllowance s g r coin a e = (s', Ok ()) ->
  table_step g r (fun u l => if decide (u = url) then shift (- coin_delta coin) l else l) s s'.
Proof.
  intros Hg E. unfold decreaseAllowance in E.
  destruct (sa_MaxTokens a) as [max|] eqn:Hm; [|injection E as <-; by eapply unlimited_step].
  destruct coin as [c|]; [|done]. case_match; [done|]. rewrite (proj2 (Z.leb_le _ _)) in E by (zbool; lia).
  apply on_authz_Ok in E as (z & Ez & ->). by eapply relimit_step.
Qed.

Lemma shift_step (url : string) (n : Z) urls u (l : option (option Z)) :
  shift (n * count_url u (url :: urls)) l =
  shift (n * count_url u urls) (if decide (u = url) then shift n l else l).
Proof.
  cbn [count_url]. destruct (String.eqb_spec url u) as [->|Hne]; [rewrite decide_True by done|rewrite decide_False by congruence].
  - destruct l as [[k|]|]; cbn [shift]; [|done..]. do 2 f_equal. lia.
  - by rewrite Z.add_0_l.
Qed.

Lemma shift_0 l : shift 0 l = l.
Proof. destruct l as [[k|]|]; cbn; [|done..]. by rewrite Z.add_0_r. Qed.

Lemma increase_urls_step s g r coin urls s' :
  increase_urls s g r coin urls = (s', Ok ()) ->
  table_step g r (fun u => shift (coin_delta coin * count_url u urls)) s s'.
Proof.
  revert s. induction urls as [|url urls IH]; intros s E; cbn [increase_urls] in E.
  { injection E as <-. apply table_step_refl. intros. cbn. rewrite Z.mul_0_r. apply shift_0. }
  case_match; [|done]. inv_do E. destruct a. apply IH in E. apply increaseAllowance_step in E0.
  eapply table_step_trans; [|exact E0|exact E]. intros. apply shift_step.
Qed.

Lemma decrease_urls_step s g r coin urls s' :
  decrease_urls s g r coin urls = (s', Ok ()) ->
  table_step g r (fun u => shift (- (coin_delta coin * count_url u urls))) s s'.
Proof.
  revert s. induction urls as [|url urls IH]; intros s E; cbn [decrease_urls] in E.
  { injection E as <-. apply table_step_refl. intros. cbn. rewrite Z.mul_0_r. apply shift_0. }
  destruct (is_staking_msg url); [|done]. inv_do E. apply CheckAuthzExists_get in E0.
  destruct a as [[a| |] e]; [|done..]. destruct a0. apply IH in E. eapply decreaseAllowance_step in E1; [|exact E0].
  eapply table_step_trans; [|exact E1|exact E]. intros. rewrite <-!Z.mul_opp_l. apply shift_step.
Qed.

Lemma table_step_logs g r f s s' s'' : table_step g r f s s' -> same_but_logs s' s'' -> table_step g r f s s''.
Proof.
  intros (Hc & He & Hl) (Hc' & Hz' & He'). split_and!; [congruence..|]. intros. rewrite <-Hl. unfold limit_of. by rewrite Hz'.
Qed.

Lemma EmitAllowanceChangeEvent_logs s g r urls s' :
  EmitAllowanceChangeEvent s g r urls = (s', Ok ()) -> same_but_logs s s'.
Proof. intros E. unfold EmitAllowanceChangeEvent in E. inv_do E. by injection E as <-. Qed.

Definition is_approval_method (method : string) : bool :=
  bool_decide (method ∈ ["approve"; "revoke"; "increaseAllowance"; "decreaseAllowance"]).

(** the grantee, the amount and the kinds of message of a call *)
Definition approval_args (method : string) (args : list abi_value) (denom : string)
    : res (address * option Coin * list string) :=
  if String.eqb method "revoke" then let? '(g, urls) := CheckRevokeArgs args in Ok (g, None, urls)
  else CheckApprovalArgs args denom.

Lemma Approve_step p origin s args s' x :
  Approve p origin s args = (s', Ok x) ->
  exists denom g coin urls, sk_BondDenom (ns_chain s) = Ok denom /\ CheckApprovalArgs args denom = Ok (g, coin, urls) /\
    x = RBool true /\ table_step g origin (fun u => new_limit "approve" coin urls u) s s'.
Proof.
  intros E. unfold Approve in E. inv_do E. destruct a0 as [[g coin] urls]. inv_do E. destruct a0.
  injection E as <- <-. exists a, g, coin, urls. split_and!; [done..|].
  apply approve_urls_step in E2. eapply table_step_logs; [exact E2|done].
Qed.

Lemma Revoke_step origin s args s' x :
  Revoke origin s args = (s', Ok x) ->
  exists g urls, CheckRevokeArgs args = Ok (g, urls) /\
    x = RBool true /\ table_step g origin (fun u => new_limit "revoke" None urls u) s s'.
Proof.
  intros E. unfold Revoke in E. inv_do E. destruct a as [g urls]. inv_do E. destruct a.
  injection E as <- <-. exists g, urls. split_and!; [done..|].
  apply revoke_urls_step in E1. eapply table_step_logs; [exact E1|done].
Qed.

Lemma IncreaseAllowance_step origin s args s' x :
  IncreaseAllowance origin s args = (s', Ok x) ->
  exists denom g coin urls, sk_BondDenom (ns_chain s) = Ok denom /\ CheckApprovalArgs args denom = Ok (g, coin, urls) /\
    x = RBool true /\ table_step g origin (fun u => new_limit "increaseAllowance" coin urls u) s s'.
Proof.
  intros E. unfold IncreaseAllowance in E. inv_do E. destruct a0 as [[g coin] urls]. inv_do E. destruct a0, a1.
  injection E as <- <-. exists a, g, coin, urls. split_and!; [done..|].
  apply increase_urls_step in E2. eapply table_step_logs; [exact E2|by eapply EmitAllowanceChangeEvent_logs].
Qed.

Lemma DecreaseAllowance_step origin s args s' x :
  DecreaseAllowance origin s args = (s', Ok x) ->
  exists denom g coin urls, sk_BondDenom (ns_chain s) = Ok denom /\ CheckApprovalArgs args denom = Ok (g, coin, urls) /\
    x = RBool true /\ table_step g origin (fun u => new_limit "decreaseAllowance" coin urls u) s s'.
Proof.
  intros E. unfold DecreaseAllowance in E. inv_do E. destruct a0 as [[g coin] urls]. inv_do E. destruct a0, a1.
  injection E as <- <-. exists a, g, coin, urls. split_and!; [done..|].
  apply decrease_urls_step in E2. eapply table_step_logs; [exact E2|by eapply EmitAllowanceChangeEvent_logs].
Qed.

(** C19: A call that moves stake is authorised. When [delegate], [undelegate],
    [redelegate] or [cancelUnbondingDelegation] succeeds, the staking module has
    carried out exactly the message of the arguments, whose delegator is the
    signer of the transaction or the calling contract. A contract that is not
    the signer had a grant of the signer for that kind of message; an unlimited
    grant stays, a limited one covers the amount and is reduced by it, or
    removed when nothing is left. No other grant changes, a direct call changes
    none, and a delegation from a contract reports that its delegator pays the
    amount with 18 decimals. *)
Theorem stake_moves_are_authorised p origin caller s method args s' r :
  is_stake_method method = true ->
  HandleMethod p origin caller s method args = (s', Ok r) ->
  exists denom m d, sk_BondDenom (ns_chain s) = Ok denom /\ staking_msg method args denom = Ok (m, d) /\
    msg_delegator m = AccAddress_String d /\ authorised origin caller d m s s' /\
    (addr_ok d -> ns_entries s' = reported origin caller d m (ns_entries s)).
Proof.
  intros Hm E. apply HandleMethod_runs in E as (denom & m & d & s1 & t & Hb & Hmsg & Htx & Hc & Hz & He); [|done].
  exists denom, m, d. split_and!; [done|done|by eapply staking_msg_delegator| |].
  - apply staking_tx_effect in Htx as (Hd & [t' Hx] & Hl). split_and!; [done|by rewrite Hc; eauto|].
    intros g r0 u. specialize (Hl g r0 u). unfold limit_of at 3 4. unfold limit_of at 2. rewrite Hz.
    unfold limit_of in Hl |- *. exact Hl.
  - intros Hok. rewrite (He Hok). by rewrite (staking_tx_entries _ _ _ _ _ _ _ Htx).
Qed.

(** C20: The approval methods implement a table of limits. A successful [approve]
    sets the limit of every named kind of message, from the signer to the
    grantee, to the amount, to no limit for the maximal amount, and removes it
    for zero; [revoke] removes it; [increaseAllowance] and [decreaseAllowance]
    add or subtract the amount for each time a kind is named, and leave unlimited
    grants alone. Grants of other accounts or to other grantees, the rest of the
    chain and the balance changes stay as they were. *)
Theorem approvals_implement_limits p origin caller s method args s' r :
  is_approval_method method = true ->
  HandleMethod p origin caller s method args = (s', Ok r) ->
  exists denom grantee coin urls,
    (method <> "revoke" -> sk_BondDenom (ns_chain s) = Ok denom) /\
    approval_args method args denom = Ok (grantee, coin, urls) /\ r = Some (RBool true) /\
    table_step grantee origin (fun u => new_limit method coin urls u) s s'.
Proof.
  intros Hm E. unfold is_approval_method in Hm. apply bool_decide_eq_true in Hm.
  assert (Hs : forall m : state * res ret, (m.1, let? r := m.2 in Ok (Some r)) = (s', Ok r) ->
    exists r0, m = (s', Ok r0) /\ r = Some r0) by (intros [s0 [r0| |]]; cbn; naive_solver).
  rewrite !elem_of_cons, elem_of_nil in Hm. unfold HandleMethod in E. cbv zeta in E.
  destruct Hm as [->|[->|[->|[->|[]]]]]; cbn [String.eqb Ascii.eqb Bool.eqb] in E; apply Hs in E as (r0 & E & ->).
  - apply Approve_step in E as (denom & g & coin & urls & Hb & Ha & -> & Hst). by exists denom, g, coin, urls.
  - apply Revoke_step in E as (g & urls & Ha & -> & Hst). exists "", g, None, urls.
    split_and!; [done| |done|done]. unfold approval_args. cbn. by rewrite Ha.
  - apply IncreaseAllowance_step in E as (denom & g & coin & urls & Hb & Ha & -> & Hst). by exists denom, g, coin, urls.
  - apply DecreaseAllowance_step in E as (denom & g & coin & urls & Hb & Ha & -> & Hst). by exists denom, g, coin, urls.
Qed.

(** The query [allowance] answers the limit of a grant of staking, the maximal
    amount when it has none, and zero without a grant. *)
Theorem allowance_answers_limit p origin caller s g r u :
  g <> 0 -> r <> 0 -> u <> "" ->
  (forall a e, az_Get (ns_authz s) g r u = Some (a, e) -> exists sa, a = AStake sa) ->
  HandleMethod p origin caller s "allowance" [VAddress g; VAddress r; VString u] =
    (s, Ok (Some (RBig match limit_of s g r u with
                       | None => 0 | Some None => abi_MaxUint256 | Some (Some n) => n end))).
Proof.
  intros Hg Hr Hu Hst. unfold HandleMethod. cbn [String.eqb Ascii.eqb Bool.eqb]. unfold Allowance, CheckAllowanceArgs.
  cbn [arg_address_nz arg_string]. rewrite (proj2 (Z.eqb_neq _ _) Hg), (proj2 (Z.eqb_neq _ _) Hr). cbn.
  rewrite (proj2 (String.eqb_neq _ _) Hu). cbn. unfold limit_of.
  destruct (az_Get _ _ _ _) as [[a e]|] eqn:Ha; cbn; [|done]. destruct (Hst a e eq_refl) as [sa ->].
  by destruct (sa_MaxTokens sa).
Qed.

(** Read-only calls leave the state as it is. *)
Theorem staking_queries_do_not_write abi p origin caller value input gas s :
  (Run abi p origin caller true value input gas s).1 = s.
Proof.
  unfold Run. destruct (setup_call _ _ _ _ _) as [[m args]| |] eqn:Es; [|done..].
  apply setup_call_read_only in Es. unfold IsTransaction in Es. apply bool_decide_eq_false in Es.
  rewrite !not_elem_of_cons in Es. cbn [st_bind fst snd].
  apply (st_bind_fst (fun s' => s' = s)); [|intros s1 bz ->; by destruct gas].
  destruct Es as (? & ? & ? & ? & ? & ? & ? & ? & ? & ? & _). unfold HandleMethod. cbv zeta.
  repeat match goal with |- context [String.eqb (meth_Name m) ?k] =>
    destruct (String.eqb_spec (meth_Name m) k); [first [congruence|done]|] end. done.
Qed.

(** A validator is created and edited only by its operator, who signs the
    transaction and calls the precompile directly. *)
Theorem validator_calls_need_the_operator p origin caller s method args s' r :
  method = "createValidator" \/ method = "editValidator" ->
  HandleMethod p origin caller s method args = (s', Ok r) ->
  caller = origin /\ ns_authz s' = ns_authz s /\
  ((exists msg denom, NewMsgCreateValidator args denom = Ok (msg, origin) /\
      sk_CreateValidator (ns_chain s) msg = (ns_chain s', Ok ())) \/
   (exists msg, NewMsgEditValidator args = Ok (msg, origin) /\
      sk_EditValidator (ns_chain s) msg = (ns_chain s', Ok ()))).
Proof.
  intros Hm E. assert (Hs : forall m : state * res ret, (m.1, let? r := m.2 in Ok (Some r)) = (s', Ok r) ->
    exists r0, m = (s', Ok r0)) by (intros [s0 [r0| |]]; cbn; naive_solver).
  unfold HandleMethod in E. cbv zeta in E.
  destruct Hm as [->| ->]; cbn [String.eqb Ascii.eqb Bool.eqb] in E; apply Hs in E as (r0 & E).
  - unfold CreateValidator in E. inv_do E. destruct a0 as [msg v]. case_match eqn:H3; [done|]. case_match eqn:H4; [done|].
    inv_do E. destruct a0. apply on_chain_Ok in E2 as (c & E2 & ->). injection E as <- _. zbool. subst.
    split_and!; [done|done|]. left. eauto.
  - unfold EditValidator in E. inv_do E. destruct a as [msg v]. case_match eqn:H3; [done|]. case_match eqn:H4; [done|].
    inv_do E. destruct a. apply on_chain_Ok in E1 as (c & E1 & ->). injection E as <- _. zbool. subst.
    split_and!; [done|done|]. right. eauto.
Qed.

(** The maximal commission rate and its maximal change are not taken from the
    arguments: both are set to the rate itself. *)
Theorem create_validator_ignores_max_rate args denom msg v :
  NewMsgCreateValidator args denom = Ok (msg, v) ->
  cm_MaxRate (mc_Commission msg) = cm_Rate (mc_Commission msg) /\
  cm_MaxChangeRate (mc_Commission msg) = cm_Rate (mc_Commission msg).
Proof.
  unfold NewMsgCreateValidator. intros E. destruct args as [|? [|? [|? [|? [|? [|? [|]]]]]]]; try done.
  inv_ok; done.
Qed.

(** A delegation is made before the grant is asked. When a contract
    delegates with a grant whose amount is enough, and the grant refuses the
    message for another reason (its list of validators), the call fails with
    that reason, and the delegation is in the state that the call leaves. *)
Theorem refused_delegation_is_made origin caller s args denom msg d a e c er :
  caller <> origin -> d = origin \/ d = caller ->
  sk_BondDenom (ns_chain s) = Ok denom -> NewMsgDelegate args denom = Ok (msg, d) ->
  CheckAuthzAndAllowanceForGranter (ns_authz s) caller origin (md_Amount msg) DelegateMsg = Ok (a, e) ->
  sk_Delegate (ns_chain s) msg = (c, Ok ()) -> Accept a (MDelegate msg) = Err er ->
  Delegate origin caller s args = (with_chain c s, Err er).
Proof.
  intros Hne Hd Hb Hm Hg Hx Ha. unfold Delegate. rewrite Hb. cbn [st_bind]. rewrite Hm. cbn [st_bind]. cbv zeta.
  assert (Hc : (negb (caller =? d) && negb (origin =? d)) = false)
    by (destruct Hd as [->| ->]; rewrite Z.eqb_refl; cbn; by rewrite ?andb_false_r).
  rewrite Hc. assert (Ho : (if caller =? d then origin else d) = origin).
  { destruct (Z.eqb_spec caller d); [done|]. destruct Hd; congruence. }
  rewrite Ho, (proj2 (Z.eqb_neq _ _) Hne). cbn [negb]. rewrite Hg. cbn [st_bind mbind res_bind]. rewrite Hx.
  unfold on_chain, UpdateStakingAuthorization. cbn [st_bind fst snd]. by rewrite Ha.
Qed.

(** Changing a limited grant by the maximal amount, which stands for no limit,
    reads a nil coin and panics. *)
Theorem unlimited_change_panics s g r a e max url :
  az_Get (ns_authz s) g r url = Some (AStake a, e) -> sa_MaxTokens a = Some max ->
  increaseAllowance s g r None url = (s, Panic PanicNil) /\ decreaseAllowance s g r None a e = (s, Panic PanicNil).
Proof.
  intros Hg Hm. unfold increaseAllowance, decreaseAllowance, CheckAuthzExists. rewrite Hg. cbn [st_bind]. by rewrite Hm.
Qed.
End Theorems.

(** ** A contract that stakes for the signer of the transaction *)

#[local] Existing Instance sdk_math_Z.

Definition w_origin : address := 1.
Definition w_contract : address := 2.
Definition w_p : Precompile := mkPrecompile 100 5.
Definition w_s0 : nstate c_grants (list Msg) := mkNstate ∅ [] [] [].

(** the signer approves 100 units of delegation for the contract *)
Definition w_approve : list abi_value := [VAddress w_contract; VBigInt 100; VStrings [DelegateMsg]].
Definition w_s1 : nstate c_grants (list Msg) := (HandleMethod w_p w_origin w_origin w_s0 "approve" w_approve).1.
Definition w_delegate (validator : string) : list abi_value := [VAddress w_origin; VString validator; VBigInt 30].
Definition w_s2 : nstate c_grants (list Msg) :=
  (HandleMethod w_p w_origin w_contract w_s1 "delegate" (w_delegate c_valoper)).1.

Lemma approvals_implement_limits_witness :
  limit_of w_s1 w_contract w_origin DelegateMsg = Some (Some 100) /\
  exists denom grantee coin urls,
    ("approve" <> "revoke" -> sk_BondDenom (ns_chain w_s0) = Ok denom) /\
    approval_args "approve" w_approve denom = Ok (grantee, coin, urls) /\ Some (RBool true) = Some (RBool true) /\
    table_step grantee w_origin (fun u => new_limit "approve" coin urls u) w_s0 w_s1.
Proof.
  split; [vm_compute; reflexivity|].
  apply (approvals_implement_limits w_p w_origin w_origin w_s0 "approve" w_approve w_s1 (Some (RBool true)));
    [|apply pair_snd]; vm_compute; reflexivity.
Defined.

Lemma stake_moves_are_authorised_witness :
  limit_of w_s2 w_contract w_origin DelegateMsg = Some (Some 70) /\
  exists denom m d, sk_BondDenom (ns_chain w_s1) = Ok denom /\
    staking_msg "delegate" (w_delegate c_valoper) denom = Ok (m, d) /\
    msg_delegator m = AccAddress_String d /\ authorised w_origin w_contract d m w_s1 w_s2 /\
    (addr_ok d -> ns_entries w_s2 = reported w_origin w_contract d m (ns_entries w_s1)).
Proof.
  split; [vm_compute; reflexivity|].
  apply (stake_moves_are_authorised w_p w_origin w_contract w_s1 "delegate" (w_delegate c_valoper) w_s2
           (Some (RBool true))); [|apply pair_snd]; vm_compute; reflexivity.
Defined.

(** The contract delegates to a validator that the grant does not allow. *)
Lemma refused_delegation_is_made_witness :
  Delegate w_origin w_contract w_s1 (w_delegate "other") =
    (with_chain [MDelegate (mkMsgDelegate (AccAddress_String w_origin) "other" (mkCoin "atac" 30))] w_s1,
     Err "unauthorized").
Proof.
  apply (refused_delegation_is_made w_origin w_contract w_s1 (w_delegate "other") "atac"
           (mkMsgDelegate (AccAddress_String w_origin) "other" (mkCoin "atac" 30)) w_origin
           (mkStakeAuthorization (Some (mkCoin "atac" 100)) [c_valoper] [] AUTHORIZATION_TYPE_DELEGATE) (Some 105));
    [vm_compute; discriminate|left; reflexivity|vm_compute; reflexivity..].
Defined.

(** A contract that stakes its own coins uses up the grant of the signer. *)
Example own_stake_spends_grant :
  let m := mkMsgDelegate (AccAddress_String w_contract) c_valoper (mkCoin "atac" 30) in
  let '(s, r) := Delegate w_origin w_contract w_s1 [VAddress w_contract; VString c_valoper; VBigInt 30] in
  r = Ok (RBool true) /\ ns_chain s = [MDelegate m] /\
  limit_of w_s1 w_contract w_origin DelegateMsg = Some (Some 100) /\
  limit_of s w_contract w_origin DelegateMsg = Some (Some 70).
Proof. vm_compute. done. Qed.
