(* ===== verification/DistributionPrecompile.v ===== *)
(** * The distribution precompile ([precompiles/distribution])

    Rewards, commissions and the community pool as methods of a contract. The
    distribution and staking keepers are a class; the laws say what their
    messages do to the balances of the bank. *)

From stdpp Require Import base gmap list numbers strings.
From Stdlib Require Import ZArith Lia.
From S2P Require Import Prelude SdkMath Scaling AccessList StateDB StateDBCommit VmStore TxData Precompile NativePrecompile.
Import Native.

Module Distribution.

Definition ErrMaxRetrieve : error := "maxRetrieve parameter exceeds the maximum number of validators".

(** ** Messages and responses *)

Record MsgSetWithdrawAddress := mkMsgSetWithdrawAddress { sw_DelegatorAddress : string; sw_WithdrawAddress : string }.
Record MsgWithdrawDelegatorReward := mkMsgWithdrawDelegatorReward {
  wr_DelegatorAddress : string; wr_ValidatorAddress : string
}.
Record MsgFundCommunityPool := mkMsgFundCommunityPool { fp_Depositor : string; fp_Amount : list Coin }.

Record ValidatorDistributionInfo (coins : Type) := mkValidatorDistributionInfo {
  di_OperatorAddress : string; di_SelfBondRewards : coins; di_Commission : coins
}.
Arguments mkValidatorDistributionInfo {coins}.
Arguments di_OperatorAddress {coins}.
Arguments di_SelfBondRewards {coins}.
Arguments di_Commission {coins}.

Record QueryValidatorSlashesRequest := mkQueryValidatorSlashesRequest {
  vs_ValidatorAddress : string; vs_StartingHeight : Z; vs_EndingHeight : Z; vs_Pagination : PageRequest
}.
Record ValidatorSlashEvent := mkValidatorSlashEvent { se_ValidatorPeriod : Z; se_Fraction : Dec }.

(** ** The keepers

    - [dk_MaxValidators], [dk_DelegatorValidators], [dk_BondDenom]: staking; the
      validators by the texts of their operators;
    - [dk_WithdrawRewards]: [WithdrawDelegationRewards] of the keeper, the other
      messages are those of the message server;
    - [dk_WithdrawAddr]: where the rewards of an account go;
    - [GetBaseDenom]: the base denomination registered with the SDK;
    - [coins_AddAll], [coins_AmountOf]: [Coins.Add] and [Coins.AmountOf];
    - [dk_balance]: the bank's balances; [dk_module]: the accounts of modules.

    A withdrawal pays the coins it returns to the withdrawal address of the
    account. Funding the pool takes the amount from the depositor. Accounts of
    modules are where these coins come from and go to. *)
Class DistributionKeeper (chain : Type) `{!Bech32} := {
  dk_MaxValidators : chain -> res Z;
  dk_DelegatorValidators : chain -> address -> Z -> res (list string);
  dk_BondDenom : chain -> res string;
  dk_WithdrawRewards : chain -> address -> bytes -> chain * res (list Coin);
  dk_SetWithdrawAddress : chain -> MsgSetWithdrawAddress -> chain * res unit;
  dk_WithdrawDelegatorReward : chain -> MsgWithdrawDelegatorReward -> chain * res (list Coin);
  dk_WithdrawValidatorCommission : chain -> string -> chain * res (list Coin);
  dk_FundCommunityPool : chain -> MsgFundCommunityPool -> chain * res unit;
  dk_WithdrawAddr : chain -> address -> res bytes;
  GetBaseDenom : res string;
  coins_AddAll : list Coin -> list Coin -> res (list Coin);
  coins_AmountOf : list Coin -> string -> Z;
  dk_balance : chain -> address -> string -> Z;
  dk_module : address -> bool;
  q_ValidatorDistributionInfo : chain -> string -> res (ValidatorDistributionInfo (list Coin));
  q_ValidatorOutstandingRewards : chain -> string -> res (list Coin);
  q_ValidatorCommission : chain -> string -> res (list Coin);
  q_ValidatorSlashes : chain -> QueryValidatorSlashesRequest -> res (list (Z * Z) * option PageResponse);
  q_DelegationRewards : chain -> string -> string -> res (list Coin);
  q_DelegationTotalRewards : chain -> string -> res (list (string * list Coin) * list Coin);
  q_DelegatorValidators : chain -> string -> res (list string);
  q_DelegatorWithdrawAddress : chain -> string -> res string;
  coins_AddAll_spec : forall a b l, coins_AddAll a b = Ok l -> forall d,
    coins_AmountOf l d = coins_AmountOf a d + coins_AmountOf b d;
  coins_AmountOf_nil : forall d, coins_AmountOf [] d = 0;
  coins_AmountOf_one : forall d e a, coins_AmountOf [mkCoin d a] e = if String.eqb d e then a else 0;
  dk_rewards : forall c del v c' coins, dk_WithdrawRewards c del v = (c', Ok coins) ->
    exists w, dk_WithdrawAddr c del = Ok w /\ dk_WithdrawAddr c' del = Ok w /\
      (forall d, 0 <= coins_AmountOf coins d) /\
      forall a d, dk_module a = false ->
        dk_balance c' a d = dk_balance c a d + if BytesToAddress w =? a then coins_AmountOf coins d else 0;
  dk_reward_msg : forall c m c' coins, dk_WithdrawDelegatorReward c m = (c', Ok coins) ->
    exists del w, AccAddressFromBech32 (wr_DelegatorAddress m) = Ok del /\
      dk_WithdrawAddr c' (BytesToAddress del) = Ok w /\
      (forall d, 0 <= coins_AmountOf coins d) /\
      forall a d, dk_module a = false ->
        dk_balance c' a d = dk_balance c a d + if BytesToAddress w =? a then coins_AmountOf coins d else 0;
  dk_commission_msg : forall c m c' coins, dk_WithdrawValidatorCommission c m = (c', Ok coins) ->
    exists val w, ValAddressFromBech32 m = Ok val /\ dk_WithdrawAddr c' (BytesToAddress val) = Ok w /\
      (forall d, 0 <= coins_AmountOf coins d) /\
      forall a d, dk_module a = false ->
        dk_balance c' a d = dk_balance c a d + if BytesToAddress w =? a then coins_AmountOf coins d else 0;
  dk_fund_msg : forall c m c', dk_FundCommunityPool c m = (c', Ok ()) ->
    exists dep, AccAddressFromBech32 (fp_Depositor m) = Ok dep /\
      (forall d, 0 <= coins_AmountOf (fp_Amount m) d) /\
      forall a d, dk_module a = false ->
        dk_balance c' a d = dk_balance c a d - if BytesToAddress dep =? a then coins_AmountOf (fp_Amount m) d else 0
}.

Section Args.
Context `{!SdkMath} `{!EthHex} `{!Bech32}.

Definition parseClaimRewardsArgs (args : list abi_value) : res (address * Z) :=
  match args with
  | [a0; a1] =>
      let? delegatorAddress := arg_address_nz ErrInvalidDelegator a0 in
      let? maxRetrieve := arg_uint32 ErrInvalidType a1 in
      Ok (delegatorAddress, maxRetrieve)
  | _ => Err ErrInvalidNumberOfArgs
  end.

Definition NewMsgSetWithdrawAddress (args : list abi_value) : res (MsgSetWithdrawAddress * address) :=
  match args with
  | [a0; a1] =>
      let? delegatorAddress := arg_address_nz ErrInvalidDelegator a0 in
      let withdrawerAddress := arg_string_or_empty a1 in
      let? withdrawerAddress :=
        if IsHexAddress withdrawerAddress
        then Bech32ifyAddressBytes AccountAddrPrefix (addr_Bytes (HexToAddress withdrawerAddress))
        else Ok withdrawerAddress in
      Ok (mkMsgSetWithdrawAddress (AccAddress_String delegatorAddress) withdrawerAddress, delegatorAddress)
  | _ => Err ErrInvalidNumberOfArgs
  end.

Definition NewMsgWithdrawDelegatorReward (args : list abi_value) : res (MsgWithdrawDelegatorReward * address) :=
  match args with
  | [a0; a1] =>
      let? delegatorAddress := arg_address_nz ErrInvalidDelegator a0 in
      let validatorAddress := arg_string_or_empty a1 in
      Ok (mkMsgWithdrawDelegatorReward (AccAddress_String delegatorAddress) validatorAddress, delegatorAddress)
  | _ => Err ErrInvalidNumberOfArgs
  end.

(** the message is the text of the validator *)
Definition NewMsgWithdrawValidatorCommission (args : list abi_value) : res (string * address) :=
  match args with
  | [a0] =>
      let validatorAddress := arg_string_or_empty a0 in
      let? validatorHexAddr := HexAddressFromBech32String validatorAddress in
      Ok (validatorAddress, validatorHexAddr)
  | _ => Err ErrInvalidNumberOfArgs
  end.

Definition NewMsgFundCommunityPool (denom : string) (args : list abi_value) : res (MsgFundCommunityPool * address) :=
  match args with
  | [a0; a1] =>
      let? depositorAddress := arg_address_nz ErrInvalidHexAddress a0 in
      let? amount := arg_bigint ErrInvalidAmount a1 in
      let? amount := NewIntFromBigInt amount in
      Ok (mkMsgFundCommunityPool (AccAddress_String depositorAddress) [mkCoin denom amount], depositorAddress)
  | _ => Err ErrInvalidNumberOfArgs
  end.

Definition NewValidatorDistributionInfoRequest (args : list abi_value) : res string :=
  match args with [a0] => Ok (arg_string_or_empty a0) | _ => Err ErrInvalidNumberOfArgs end.

Definition NewValidatorOutstandingRewardsRequest (args : list abi_value) : res string :=
  match args with [a0] => Ok (arg_string_or_empty a0) | _ => Err ErrInvalidNumberOfArgs end.

Definition NewValidatorCommissionRequest (args : list abi_value) : res string :=
  match args with [a0] => Ok (arg_string_or_empty a0) | _ => Err ErrInvalidNumberOfArgs end.

Definition NewValidatorSlashesRequest (args : list abi_value) : res QueryValidatorSlashesRequest :=
  match args with
  | [a0; a1; a2; a3] =>
      let? startingHeight := arg_uint64 ErrInvalidType a1 in
      let? endingHeight := arg_uint64 ErrInvalidType a2 in
      let? validatorAddress := arg_string ErrUnpackArgs a0 in
      let? page := arg_page ErrUnpackArgs a3 in
      Ok (mkQueryValidatorSlashesRequest validatorAddress startingHeight endingHeight page)
  | _ => Err ErrInvalidNumberOfArgs
  end.

Definition NewDelegationRewardsRequest (args : list abi_value) : res (string * string) :=
  match args with
  | [a0; a1] =>
      let? delegatorAddress := arg_address_nz ErrInvalidDelegator a0 in
      Ok (AccAddress_String delegatorAddress, arg_string_or_empty a1)
  | _ => Err ErrInvalidNumberOfArgs
  end.

Definition NewDelegationTotalRewardsRequest (args : list abi_value) : res string :=
  match args with
  | [a0] => let? delegatorAddress := arg_address_nz ErrInvalidDelegator a0 in Ok (AccAddress_String delegatorAddress)
  | _ => Err ErrInvalidNumberOfArgs
  end.

Definition NewDelegatorValidatorsRequest (args : list abi_value) : res string :=
  match args with
  | [a0] => let? delegatorAddress := arg_address_nz ErrInvalidDelegator a0 in Ok (AccAddress_String delegatorAddress)
  | _ => Err ErrInvalidNumberOfArgs
  end.

Definition NewDelegatorWithdrawAddressRequest (args : list abi_value) : res string :=
  match args with
  | [a0] => let? delegatorAddress := arg_address_nz ErrInvalidDelegator a0 in Ok (AccAddress_String delegatorAddress)
  | _ => Err ErrInvalidNumberOfArgs
  end.
End Args.

Section Precompile.
Context `{!SdkMath} `{!EthHex} `{!EvmEnv} `{!Bech32} {authz chain : Type} `{!DistributionKeeper chain}.
Abbreviation state := (nstate authz chain).
Implicit Types s : state.

Inductive ret :=
  | RBool (b : bool)
  | RCoins (l : list Coin)
  | RDecCoins (l : list DecCoin)
  | RInfo (i : ValidatorDistributionInfo (list DecCoin))
  | RSlashes (l : list ValidatorSlashEvent) (page : PageResponse)
  | RTotalRewards (rewards : list (string * list DecCoin)) (total : list DecCoin)
  | RStrings (l : list string)
  | RString (t : string).

(** *** Events ([events.go]); [coins[0]] panics on an empty list *)

Definition first_amount (coins : list Coin) : res Z :=
  match coins with [] => Panic PanicIndex | c :: _ => Ok (coin_Amount c) end.

Definition EmitClaimRewardsEvent s (delegatorAddress : address) (totalCoins : list Coin) : state * res unit :=
  do? s, bondDenom := (s, dk_BondDenom (ns_chain s)) in
  (add_log (mkLog "ClaimRewards" [VAddress delegatorAddress] [VBigInt (coins_AmountOf totalCoins bondDenom)]) s, Ok ()).

Definition EmitSetWithdrawAddressEvent s (caller : address) (withdrawerAddress : string) : state :=
  add_log (mkLog "SetWithdrawerAddress" [VAddress caller] [VString withdrawerAddress]) s.

Definition EmitWithdrawDelegatorRewardsEvent s (delegatorAddress : address) (validatorAddress : string)
    (coins : list Coin) : state * res unit :=
  do? s, valAddr := (s, ValAddressFromBech32 validatorAddress) in
  do? s, amount := (s, first_amount coins) in
  (add_log (mkLog "WithdrawDelegatorRewards" [VAddress delegatorAddress; VAddress (BytesToAddress valAddr)]
              [VBigInt amount]) s, Ok ()).

Definition EmitWithdrawValidatorCommissionEvent s (validatorAddress : string) (coins : list Coin) : state * res unit :=
  do? s, amount := (s, first_amount coins) in
  (add_log (mkLog "WithdrawValidatorCommission" [VString validatorAddress] [VBigInt amount]) s, Ok ()).

Definition EmitFundCommunityPoolEvent s (depositor : address) (coins : list Coin) : state * res unit :=
  do? s, amount := (s, first_amount coins) in
  (add_log (mkLog "FundCommunityPool" [VAddress depositor] [VBigInt amount]) s, Ok ()).

(** *** Transactions ([tx.go]) *)

Definition getWithdrawerHexAddr s (delegatorAddr : address) : res address :=
  let? withdrawerAccAddr := dk_WithdrawAddr (ns_chain s) delegatorAddr in
  Ok (BytesToAddress withdrawerAccAddr).

(** the loop over the validators of the delegator *)
Fixpoint claim_rewards s (delegatorAddr : address) (validators : list string) (totalCoins : list Coin)
    : state * res (list Coin) :=
  match validators with
  | [] => (s, Ok totalCoins)
  | validator :: validators =>
      do? s, valAddr := (s, ValAddressFromBech32 validator) in
      do? s, coins := on_chain s (dk_WithdrawRewards (ns_chain s) delegatorAddr valAddr) in
      do? s, totalCoins := (s, coins_AddAll totalCoins coins) in
      claim_rewards s delegatorAddr validators totalCoins
  end.

Definition ClaimRewards (origin caller : address) s (args : list abi_value) : state * res ret :=
  do? s, a := (s, parseClaimRewardsArgs args) in
  let '(delegatorAddr, maxRetrieve) := a in
  do? s, maxVals := (s, dk_MaxValidators (ns_chain s)) in
  if maxVals <? maxRetrieve then (s, Err ErrMaxRetrieve)
  else
    let isContractDelegator := (caller =? delegatorAddr) && negb (origin =? delegatorAddr) in
    if negb isContractDelegator && negb (origin =? delegatorAddr) then (s, Err ErrDelegatorDifferentOrigin)
    else
      do? s, validators := (s, dk_DelegatorValidators (ns_chain s) delegatorAddr maxRetrieve) in
      do? s, totalCoins := claim_rewards s delegatorAddr validators [] in
      do? s, _ :=
        if negb (caller =? origin) then
          do? s, withdrawerHexAddr := (s, getWithdrawerHexAddr s delegatorAddr) in
          let convertedAmount :=
            ConvertAmountTo18DecimalsBigInt coinCfg (coins_AmountOf totalCoins (GetEVMCoinDenom coinCfg)) in
          (if 0 <? convertedAmount
           then set_entries [mkBalanceChangeEntry withdrawerHexAddr convertedAmount Add] s else s, Ok ())
        else (s, Ok ()) in
      do? s, _ := EmitClaimRewardsEvent s delegatorAddr totalCoins in
      (s, Ok (RBool true)).

Definition SetWithdrawAddress (origin caller : address) s (args : list abi_value) : state * res ret :=
  do? s, m := (s, NewMsgSetWithdrawAddress args) in
  let '(msg, delegatorHexAddr) := m in
  let isContractDelegator := (caller =? delegatorHexAddr) && negb (origin =? delegatorHexAddr) in
  if negb isContractDelegator && negb (origin =? delegatorHexAddr) then (s, Err ErrDelegatorDifferentOrigin)
  else
    do? s, _ := on_chain s (dk_SetWithdrawAddress (ns_chain s) msg) in
    (EmitSetWithdrawAddressEvent s delegatorHexAddr (sw_WithdrawAddress msg), Ok (RBool true)).

Definition WithdrawDelegatorRewards (origin caller : address) s (args : list abi_value) : state * res ret :=
  do? s, m := (s, NewMsgWithdrawDelegatorReward args) in
  let '(msg, delegatorHexAddr) := m in
  let isContractDelegator := (caller =? delegatorHexAddr) && negb (origin =? delegatorHexAddr) in
  if negb isContractDelegator && negb (origin =? delegatorHexAddr) then (s, Err ErrDelegatorDifferentOrigin)
  else
    do? s, amount := on_chain s (dk_WithdrawDelegatorReward (ns_chain s) msg) in
    do? s, _ :=
      if negb (caller =? origin) then
        do? s, withdrawerHexAddr := (s, getWithdrawerHexAddr s delegatorHexAddr) in
        let convertedAmount :=
          ConvertAmountTo18DecimalsBigInt coinCfg (coins_AmountOf amount (GetEVMCoinDenom coinCfg)) in
        (if 0 <? convertedAmount
         then set_entries [mkBalanceChangeEntry withdrawerHexAddr convertedAmount Add] s else s, Ok ())
      else (s, Ok ()) in
    do? s, _ := EmitWithdrawDelegatorRewardsEvent s delegatorHexAddr (wr_ValidatorAddress msg) amount in
    (s, Ok (RCoins (NewCoinsResponse amount))).

Definition WithdrawValidatorCommission (origin caller : address) s (args : list abi_value) : state * res ret :=
  do? s, m := (s, NewMsgWithdrawValidatorCommission args) in
  let '(msg, validatorHexAddr) := m in
  let isContractValidator := (caller =? validatorHexAddr) && negb (origin =? validatorHexAddr) in
  if negb isContractValidator && negb (origin =? validatorHexAddr) then (s, Err ErrDelegatorDifferentOrigin)
  else
    do? s, amount := on_chain s (dk_WithdrawValidatorCommission (ns_chain s) msg) in
    do? s, _ :=
      if negb (caller =? origin) then
        do? s, withdrawerHexAddr := (s, getWithdrawerHexAddr s validatorHexAddr) in
        let convertedAmount :=
          ConvertAmountTo18DecimalsBigInt coinCfg (coins_AmountOf amount (GetEVMCoinDenom coinCfg)) in
        (if 0 <? convertedAmount
         then set_entries [mkBalanceChangeEntry withdrawerHexAddr convertedAmount Add] s else s, Ok ())
      else (s, Ok ()) in
    do? s, _ := EmitWithdrawValidatorCommissionEvent s msg amount in
    (s, Ok (RCoins (NewCoinsResponse amount))).

Definition FundCommunityPool (origin caller : address) s (args : list abi_value) : state * res ret :=
  do? s, baseDenom := (s, GetBaseDenom) in
  do? s, m := (s, NewMsgFundCommunityPool baseDenom args) in
  let '(msg, depositorHexAddr) := m in
  let isContractDepositor := (caller =? depositorHexAddr) && negb (origin =? depositorHexAddr) in
  if negb isContractDepositor && negb (origin =? depositorHexAddr) then (s, Err ErrSpenderDifferentOrigin)
  else
    do? s, _ := on_chain s (dk_FundCommunityPool (ns_chain s) msg) in
    let s :=
      if negb (caller =? origin) then
        let convertedAmount := ConvertAmountTo18DecimalsBigInt coinCfg (coins_AmountOf (fp_Amount msg) baseDenom) in
        if 0 <? convertedAmount
        then set_entries [mkBalanceChangeEntry depositorHexAddr convertedAmount Sub] s else s
      else s in
    do? s, _ := EmitFundCommunityPoolEvent s depositorHexAddr (fp_Amount msg) in
    (s, Ok (RBool true)).

(** *** Queries ([query.go], and the outputs of [types.go]) *)

Definition info_FromResponse (i : ValidatorDistributionInfo (list Coin)) : res (ValidatorDistributionInfo (list DecCoin)) :=
  let? rewards := NewDecCoinsResponse (di_SelfBondRewards i) in
  let? commission := NewDecCoinsResponse (di_Commission i) in
  Ok (mkValidatorDistributionInfo (di_OperatorAddress i) rewards commission).

Definition slashes_FromResponse (l : list (Z * Z)) (page : option PageResponse) : list ValidatorSlashEvent * PageResponse :=
  (map (fun ev => mkValidatorSlashEvent ev.1 (mkDec ev.2 18)) l,
   match page with Some pg => mkPageResponse (ps_NextKey pg) (ps_Total pg) | None => mkPageResponse [] 0 end).

Fixpoint rewards_FromResponse (l : list (string * list Coin)) : res (list (string * list DecCoin)) :=
  match l with
  | [] => Ok []
  | (v, reward) :: l =>
      let? reward := NewDecCoinsResponse reward in
      let? rest := rewards_FromResponse l in
      Ok ((v, reward) :: rest)
  end.

Definition validatorDistributionInfo s (args : list abi_value) : res ret :=
  let? req := NewValidatorDistributionInfoRequest args in
  let? i := q_ValidatorDistributionInfo (ns_chain s) req in
  let? out := info_FromResponse i in Ok (RInfo out).

Definition ValidatorOutstandingRewards s (args : list abi_value) : res ret :=
  let? req := NewValidatorOutstandingRewardsRequest args in
  let? rewards := q_ValidatorOutstandingRewards (ns_chain s) req in
  let? out := NewDecCoinsResponse rewards in Ok (RDecCoins out).

Definition ValidatorCommission s (args : list abi_value) : res ret :=
  let? req := NewValidatorCommissionRequest args in
  let? commission := q_ValidatorCommission (ns_chain s) req in
  let? out := NewDecCoinsResponse commission in Ok (RDecCoins out).

Definition ValidatorSlashes s (args : list abi_value) : res ret :=
  let? req := NewValidatorSlashesRequest args in
  let? '(l, pg) := q_ValidatorSlashes (ns_chain s) req in
  let out := slashes_FromResponse l pg in Ok (RSlashes out.1 out.2).

Definition DelegationRewards s (args : list abi_value) : res ret :=
  let? '(del, val) := NewDelegationRewardsRequest args in
  let? rewards := q_DelegationRewards (ns_chain s) del val in
  let? out := NewDecCoinsResponse rewards in Ok (RDecCoins out).

Definition DelegationTotalRewards s (args : list abi_value) : res ret :=
  let? del := NewDelegationTotalRewardsRequest args in
  let? '(rewards, total) := q_DelegationTotalRewards (ns_chain s) del in
  let? rewards := rewards_FromResponse rewards in
  let? total := NewDecCoinsResponse total in
  Ok (RTotalRewards rewards total).

Definition DelegatorValidators s (args : list abi_value) : res ret :=
  let? del := NewDelegatorValidatorsRequest args in
  let? l := q_DelegatorValidators (ns_chain s) del in Ok (RStrings l).

Definition DelegatorWithdrawAddress s (args : list abi_value) : res ret :=
  let? del := NewDelegatorWithdrawAddressRequest args in
  let? w := q_DelegatorWithdrawAddress (ns_chain s) del in Ok (RString w).

(** *** Dispatch ([distribution.go]) *)

Definition IsTransaction (method : string) : bool :=
  bool_decide (method ∈ ["claimRewards"; "setWithdrawAddress"; "withdrawDelegatorRewards";
                         "withdrawValidatorCommission"; "fundCommunityPool"]).

Definition HandleMethod (origin caller : address) s (method : string) (args : list abi_value) : state * res (option ret) :=
  let some (m : state * res ret) : state * res (option ret) := (m.1, let? r := m.2 in Ok (Some r)) in
  let query (r : res ret) : state * res (option ret) := (s, let? r := r in Ok (Some r)) in
  if String.eqb method "claimRewards" then some (ClaimRewards origin caller s args)
  else if String.eqb method "setWithdrawAddress" then some (SetWithdrawAddress origin caller s args)
  else if String.eqb method "withdrawDelegatorRewards" then some (WithdrawDelegatorRewards origin caller s args)
  else if String.eqb method "withdrawValidatorCommission" then some (WithdrawValidatorCommission origin caller s args)
  else if String.eqb method "fundCommunityPool" then some (FundCommunityPool origin caller s args)
  else if String.eqb method "validatorDistributionInfo" then query (validatorDistributionInfo s args)
  else if String.eqb method "validatorOutstandingRewards" then query (ValidatorOutstandingRewards s args)
  else if String.eqb method "validatorCommission" then query (ValidatorCommission s args)
  else if String.eqb method "validatorSlashes" then query (ValidatorSlashes s args)
  else if String.eqb method "delegationRewards" then query (DelegationRewards s args)
  else if String.eqb method "delegationTotalRewards" then query (DelegationTotalRewards s args)
  else if String.eqb method "delegatorValidators" then query (DelegatorValidators s args)
  else if String.eqb method "delegatorWithdrawAddress" then query (DelegatorWithdrawAddress s args)
  else (s, Ok None).

Definition Run (abi : ABI abi_value) (origin caller : address) (readOnly : bool) (value : Z) (input : bytes)
    (enoughGas : bool) s : state * res (option ret) :=
  do? s, method_args := (s, setup_call abi (fun m => IsTransaction (meth_Name m)) readOnly value input) in
  do? s, bz := HandleMethod origin caller s (meth_Name method_args.1) method_args.2 in
  if negb enoughGas then (s, Err ErrOutOfGas) else (s, Ok bz).

Definition RequiredGas (gc : GasConfig) (input : bytes) (method : option string) : res Z :=
  if (length input <? 4)%nat then Ok 0
  else match method with
       | None => Ok 0
       | Some m => Precompile.RequiredGas gc input (IsTransaction m)
       end.
End Precompile.
End Distribution.
