(* ===== verification/DistributionPrecompileTheorems.v ===== *)
(** * Theorems on the distribution precompile

    The state database keeps its own copy of balances, which it writes back when
    the transaction ends; a precompile called from a contract must therefore
    report what it did to the balances of the bank. *)

From stdpp Require Import base gmap list numbers strings.
From Stdlib Require Import ZArith Lia.
From S2P Require Import Prelude SdkMath Scaling AccessList StateDB TxData TxDataTheorems Precompile Concrete NativePrecompile StakingPrecompile NativeConcrete DistributionPrecompile.
Import Native Distribution.

Section Theorems.
Context `{!SdkMath} `{!EthHex} `{!EvmEnv} `{!Bech32} {authz chain : Type} `{!DistributionKeeper chain}.
Abbreviation state := (nstate authz chain).
Implicit Types s : state.

(** the balance of an account as the EVM sees it *)
Definition evm_balance s (a : address) : Z :=
  ConvertAmountTo18DecimalsBigInt coinCfg (dk_balance (ns_chain s) a (GetEVMCoinDenom coinCfg)).

(** The reported changes are those of the bank, for every account that is not a
    module's. *)
Definition mirrored s s' : Prop :=
  forall a, dk_module a = false -> entries_delta (ns_entries s') a = evm_balance s' a - evm_balance s a.

(** the bank paid [amt] of each denomination to [w] *)
Definition paid s s' (w : address) (amt : string -> Z) : Prop :=
  (forall d, 0 <= amt d) /\
  forall a d, dk_module a = false ->
    dk_balance (ns_chain s') a d = dk_balance (ns_chain s) a d + if w =? a then amt d else 0.

(** the report of a payment to the withdrawal address *)
Lemma credit_mirrored s s1 s2 s3 del coins w :
  ns_entries s1 = [] -> dk_WithdrawAddr (ns_chain s1) del = Ok w ->
  paid s s1 (BytesToAddress w) (coins_AmountOf coins) ->
  (do? s, withdrawerHexAddr := (s1, getWithdrawerHexAddr s1 del) in
   (if 0 <? ConvertAmountTo18DecimalsBigInt coinCfg (coins_AmountOf coins (GetEVMCoinDenom coinCfg))
    then set_entries [mkBalanceChangeEntry withdrawerHexAddr
           (ConvertAmountTo18DecimalsBigInt coinCfg (coins_AmountOf coins (GetEVMCoinDenom coinCfg))) Add] s
    else s, Ok ())) = (s2, Ok ()) ->
  same_but_logs s2 s3 -> mirrored s s3.
Proof.
  intros He Hw [Hp Hb] E (Hc3 & _ & He3). unfold getWithdrawerHexAddr in E. rewrite Hw in E.
  cbn [st_bind mbind res_bind] in E. apply pair_equal_spec in E as [E _]. intros a Ha. unfold evm_balance.
  rewrite Hc3, He3. pose proof (factor_pos coinCfg). specialize (Hp (GetEVMCoinDenom coinCfg)).
  assert (Hch : ns_chain s2 = ns_chain s1) by (rewrite <-E; by destruct (0 <? _)). rewrite Hch, Hb by done.
  unfold ConvertAmountTo18DecimalsBigInt in *. destruct (0 <? _) eqn:Hpos; rewrite <-E; cbn.
  - rewrite Z.add_0_r. case_match; lia.
  - rewrite He. cbn. zbool. case_match; [|lia]. nia.
Qed.

Lemma claim_rewards_paid s del vals total s' total' :
  claim_rewards s del vals total = (s', Ok total') ->
  ns_entries s' = ns_entries s /\
  ((s' = s /\ total' = total) \/
   exists w amt, dk_WithdrawAddr (ns_chain s) del = Ok w /\ dk_WithdrawAddr (ns_chain s') del = Ok w /\
     paid s s' (BytesToAddress w) amt /\ forall d, coins_AmountOf total' d = coins_AmountOf total d + amt d).
Proof.
  revert s total. induction vals as [|v vals IH]; intros s total E; cbn [claim_rewards] in E.
  { injection E as <- <-. eauto. }
  inv_do E. apply on_chain_Ok in E1 as (c & E1 & ->). apply dk_rewards in E1 as (w & Hw0 & Hw & Hpos & Hb).
  pose proof (coins_AddAll_spec _ _ _ E2) as Hadd. apply IH in E as [He Hrec]. split; [exact He|]. right.
  destruct Hrec as [[-> ->]|(w' & amt & Hw0' & Hw' & [Hp Hbal] & Htot)].
  - exists w, (coins_AmountOf a0). split_and!; [done|done|by split|done].
  - cbn [ns_chain with_chain] in Hw0', Hbal. rewrite Hw in Hw0'. injection Hw0' as <-.
    exists w, (fun d => coins_AmountOf a0 d + amt d). split_and!; [done|done| |intros d; rewrite Htot, Hadd; lia].
    split; [intros d; specialize (Hpos d); specialize (Hp d); lia|]. intros acc d Ha. rewrite Hbal, Hb by done.
    case_match; lia.
Qed.

(** the account a method acts for *)
Definition subject (method : string) (args : list abi_value) : res address :=
  if String.eqb method "claimRewards" then let? '(d, _) := parseClaimRewardsArgs args in Ok d
  else if String.eqb method "setWithdrawAddress" then let? '(_, d) := NewMsgSetWithdrawAddress args in Ok d
  else if String.eqb method "withdrawDelegatorRewards" then let? '(_, d) := NewMsgWithdrawDelegatorReward args in Ok d
  else if String.eqb method "withdrawValidatorCommission" then
    let? '(_, d) := NewMsgWithdrawValidatorCommission args in Ok d
  else if String.eqb method "fundCommunityPool" then
    let? denom := GetBaseDenom in let? '(_, d) := NewMsgFundCommunityPool denom args in Ok d
  else Err ErrUnknownMethod.

(** What a successful call guarantees: it acts for the signer or for the calling
    contract, and a call from a contract reports the changes of the bank. *)
Definition call_ok (method : string) (origin caller : address) s (args : list abi_value) s' : Prop :=
  exists d, subject method args = Ok d /\ (d = origin \/ d = caller) /\
    (caller <> origin -> ns_entries s = [] -> addr_ok d -> mirrored s s').

Lemma acts_for (origin caller d : address) :
  (negb ((caller =? d) && negb (origin =? d)) && negb (origin =? d)) = false -> d = origin \/ d = caller.
Proof. destruct (Z.eqb_spec caller d), (Z.eqb_spec origin d); cbn; auto. done. Qed.

Lemma same_but_logs_refl s : same_but_logs s s.
Proof. done. Qed.

Lemma EmitClaimRewardsEvent_logs s d cs s' : EmitClaimRewardsEvent s d cs = (s', Ok ()) -> same_but_logs s s'.
Proof. intros E. unfold EmitClaimRewardsEvent in E. inv_do E. by injection E as <-. Qed.

Lemma EmitWithdrawDelegatorRewardsEvent_logs s d v cs s' :
  EmitWithdrawDelegatorRewardsEvent s d v cs = (s', Ok ()) -> same_but_logs s s'.
Proof. intros E. unfold EmitWithdrawDelegatorRewardsEvent in E. inv_do E. by injection E as <-. Qed.

Lemma EmitWithdrawValidatorCommissionEvent_logs s v cs s' :
  EmitWithdrawValidatorCommissionEvent s v cs = (s', Ok ()) -> same_but_logs s s'.
Proof. intros E. unfold EmitWithdrawValidatorCommissionEvent in E. inv_do E. by injection E as <-. Qed.

Lemma EmitFundCommunityPoolEvent_logs s d cs s' :
  EmitFundCommunityPoolEvent s d cs = (s', Ok ()) -> same_but_logs s s'.
Proof. intros E. unfold EmitFundCommunityPoolEvent in E. inv_do E. by injection E as <-. Qed.

Lemma ClaimRewards_ok origin caller s args s' r :
  ClaimRewards origin caller s args = (s', Ok r) -> call_ok "claimRewards" origin caller s args s'.
Proof.
  intros E. unfold ClaimRewards in E. inv_do E. destruct a as [d n]. inv_do E. case_match; [done|].
  cbv zeta in E. destruct (negb _ && negb (origin =? d)) eqn:Hd; [done|]. inv_do E. destruct a2, a3.
  injection E as <- _. apply EmitClaimRewardsEvent_logs in E5. exists d.
  split_and!; [unfold subject; cbn; by rewrite E0|by apply acts_for|]. intros Hne He Hok.
  rewrite (proj2 (Z.eqb_neq _ _) Hne) in E4. cbn [negb] in E4.
  apply claim_rewards_paid in E3 as [Hen Hp]. rewrite He in Hen.
  destruct Hp as [[-> ->]|(w & amt & _ & Hw & [Hpos Hb] & Htot)].
  - assert (Hw : exists w, dk_WithdrawAddr (ns_chain s) d = Ok w).
    { unfold getWithdrawerHexAddr in E4. destruct (dk_WithdrawAddr _ _); [eauto|done..]. }
    destruct Hw as [w Hw]. eapply credit_mirrored; [done|exact Hw| |exact E4|exact E5].
    split; intros; rewrite coins_AmountOf_nil; [lia|]. destruct (BytesToAddress w =? a1); by rewrite Z.add_0_r.
  - eapply credit_mirrored; [exact Hen|exact Hw| |exact E4|exact E5].
    split; intros; rewrite ?Htot, ?coins_AmountOf_nil; [by rewrite Z.add_0_l|]. rewrite Hb by done. destruct (BytesToAddress w =? _); lia.
Qed.

Lemma WithdrawDelegatorRewards_ok origin caller s args s' r :
  WithdrawDelegatorRewards origin caller s args = (s', Ok r) ->
  call_ok "withdrawDelegatorRewards" origin caller s args s'.
Proof.
  intros E. unfold WithdrawDelegatorRewards in E. inv_do E. destruct a as [msg d].
  cbv zeta in E. destruct (negb _ && negb (origin =? d)) eqn:Hd; [done|]. inv_do E. destruct a0, a1.
  injection E as <- _. apply EmitWithdrawDelegatorRewardsEvent_logs in E3. exists d.
  split_and!; [unfold subject; cbn; by rewrite E0|by apply acts_for|]. intros Hne He Hok.
  rewrite (proj2 (Z.eqb_neq _ _) Hne) in E2. cbn [negb] in E2.
  apply on_chain_Ok in E1 as (c & E1 & ->). apply dk_reward_msg in E1 as (del & w & Hdel & Hw & Hpos & Hb).
  assert (Hm : wr_DelegatorAddress msg = AccAddress_String d)
    by (unfold NewMsgWithdrawDelegatorReward in E0; clear -E0; inv_ok; done).
  rewrite Hm, (AccAddress_roundtrip d Hok) in Hdel. injection Hdel as <-. rewrite (BytesToAddress_Bytes d Hok) in Hw.
  eapply (credit_mirrored s (with_chain c s)); [exact He|exact Hw|by split|exact E2|exact E3].
Qed.

Lemma WithdrawValidatorCommission_ok origin caller s args s' r :
  WithdrawValidatorCommission origin caller s args = (s', Ok r) ->
  call_ok "withdrawValidatorCommission" origin caller s args s'.
Proof.
  intros E. unfold WithdrawValidatorCommission in E. inv_do E. destruct a as [msg d].
  cbv zeta in E. destruct (negb _ && negb (origin =? d)) eqn:Hd; [done|]. inv_do E. destruct a0, a1.
  injection E as <- _. apply EmitWithdrawValidatorCommissionEvent_logs in E3. exists d.
  split_and!; [unfold subject; cbn; by rewrite E0|by apply acts_for|]. intros Hne He Hok.
  rewrite (proj2 (Z.eqb_neq _ _) Hne) in E2. cbn [negb] in E2.
  apply on_chain_Ok in E1 as (c & E1 & ->). apply dk_commission_msg in E1 as (v & w & Hv & Hw & Hpos & Hb).
  assert (Hd' : BytesToAddress v = d).
  { unfold NewMsgWithdrawValidatorCommission in E0. destruct args as [|a0 [|]]; [done| |done].
    apply bind_Ok_inv in E0 as (h & E0 & [= Hmsg <-]). rewrite <-Hmsg in Hv.
    unfold HexAddressFromBech32String in E0. change PrefixValidator with "val" in E0.
    rewrite (ValAddress_prefix _ _ Hv), Hv in E0. by injection E0. }
  rewrite Hd' in Hw. eapply (credit_mirrored s (with_chain c s)); [exact He|exact Hw|by split|exact E2|exact E3].
Qed.

Lemma FundCommunityPool_ok origin caller s args s' r :
  GetBaseDenom = Ok (GetEVMCoinDenom coinCfg) ->
  FundCommunityPool origin caller s args = (s', Ok r) -> call_ok "fundCommunityPool" origin caller s args s'.
Proof.
  intros Hbase E. unfold FundCommunityPool in E. rewrite Hbase in E. inv_do E. injection E0 as <-. destruct a0 as [msg d].
  cbv zeta in E. destruct (negb _ && negb (origin =? d)) eqn:Hd; [done|]. inv_do E. destruct a, a0.
  injection E as <- _. apply EmitFundCommunityPoolEvent_logs in E2 as (Hc & _ & He2). exists d.
  split_and!; [unfold subject; cbn; by rewrite Hbase; cbn; rewrite E1|by apply acts_for|]. intros Hne He Hok.
  rewrite (proj2 (Z.eqb_neq _ _) Hne) in Hc, He2. cbn [negb] in Hc, He2.
  apply on_chain_Ok in E0 as (c & E0 & ->). apply dk_fund_msg in E0 as (dep & Hdep & Hpos & Hb).
  assert (Hm : fp_Depositor msg = AccAddress_String d)
    by (unfold NewMsgFundCommunityPool in E1; clear -E1; inv_ok; done).
  rewrite Hm, (AccAddress_roundtrip d Hok) in Hdep. injection Hdep as <-. rewrite (BytesToAddress_Bytes d Hok) in Hb.
  intros acc Ha. unfold evm_balance. specialize (Hpos (GetEVMCoinDenom coinCfg)). pose proof (factor_pos coinCfg).
  unfold ConvertAmountTo18DecimalsBigInt in *. rewrite He2. destruct (0 <? _) eqn:Hp; cbn in Hc |- *; rewrite Hc, Hb by done.
  - rewrite Z.add_0_r. case_match; lia.
  - rewrite He. cbn. zbool. case_match; [|lia]. nia.
Qed.

(** the methods that move coins *)
Definition is_coin_method (method : string) : bool :=
  bool_decide (method ∈ ["claimRewards"; "withdrawDelegatorRewards"; "withdrawValidatorCommission"; "fundCommunityPool"]).

(** C21: The distribution precompile reports what it does to the bank. When
    [claimRewards], [withdrawDelegatorRewards], [withdrawValidatorCommission] or
    [fundCommunityPool] succeeds, it acted for the signer of the transaction or
    for the calling contract; and called from a contract, the balance changes it
    reports to the state database are, for every account that is not a module's,
    the change of the account's balance in the bank scaled to 18 decimals. The
    base denomination of the SDK is taken to be the coin of the EVM. *)
Theorem distribution_calls_are_mirrored origin caller s method args s' r :
  GetBaseDenom = Ok (GetEVMCoinDenom coinCfg) -> is_coin_method method = true ->
  HandleMethod origin caller s method args = (s', Ok r) ->
  call_ok method origin caller s args s'.
Proof.
  intros Hbase Hm E. unfold is_coin_method in Hm. apply bool_decide_eq_true in Hm.
  assert (Hs : forall m : state * res ret, (m.1, let? r := m.2 in Ok (Some r)) = (s', Ok r) -> exists r0, m = (s', Ok r0)).
  { intros [s0 [r0| |]]; cbn; naive_solver. }
  rewrite !elem_of_cons, elem_of_nil in Hm. unfold HandleMethod in E. cbv zeta in E.
  destruct Hm as [->|[->|[->|[->|[]]]]]; cbn [String.eqb Ascii.eqb Bool.eqb] in E; apply Hs in E as [r0 E].
  - by eapply ClaimRewards_ok.
  - by eapply WithdrawDelegatorRewards_ok.
  - by eapply WithdrawValidatorCommission_ok.
  - by eapply FundCommunityPool_ok.
Qed.

(** The withdrawal address is set only for the signer or the calling contract. *)
Theorem withdraw_address_of_caller origin caller s args s' r :
  SetWithdrawAddress origin caller s args = (s', Ok r) ->
  exists msg d, NewMsgSetWithdrawAddress args = Ok (msg, d) /\ (d = origin \/ d = caller) /\
    dk_SetWithdrawAddress (ns_chain s) msg = (ns_chain s', Ok ()).
Proof.
  intros E. unfold SetWithdrawAddress in E. inv_do E. destruct a as [msg d]. cbv zeta in E.
  destruct (negb _ && negb (origin =? d)) eqn:Hd; [done|]. inv_do E. destruct a. injection E as <- _.
  apply on_chain_Ok in E1 as (c & E1 & ->). exists msg, d. split_and!; [done|by apply acts_for|done].
Qed.

(** A decimal coin loses its decimals: its amount is truncated to a whole number
    and given together with the precision of 18 decimals. *)
Theorem dec_coins_lose_decimals d x l :
  NewDecCoinsResponse [mkCoin d x] = Ok l -> l = [mkDecCoin d (Z.quot x dec_one) 18].
Proof.
  cbn. rewrite dec_TruncateInt_spec. destruct (int_fits _); cbn; [|done]. by intros [= <-].
Qed.
End Theorems.

(** ** A concrete distribution module: every withdrawal pays five units of the
    EVM coin to the account itself *)

Abbreviation c_dist := (gmap (address * string) Z).

Fixpoint c_amount (d : string) (l : list Coin) : Z :=
  match l with [] => 0 | c :: l => (if String.eqb (coin_Denom c) d then coin_Amount c else 0) + c_amount d l end.

Lemma c_amount_app d a b : c_amount d (a ++ b) = c_amount d a + c_amount d b.
Proof. induction a as [|c a IH]; cbn; [done|]. rewrite IH. lia. Qed.

Definition c_bal (c : c_dist) (a : address) (d : string) : Z := default 0 (c !! (a, d)).
Fixpoint c_move (sign : Z) (c : c_dist) (a : address) (l : list Coin) : c_dist :=
  match l with
  | [] => c
  | x :: l => c_move sign (<[(a, coin_Denom x) := c_bal c a (coin_Denom x) + sign * coin_Amount x]> c) a l
  end.

Lemma c_move_bal sign c a l a' d :
  c_bal (c_move sign c a l) a' d = c_bal c a' d + if a =? a' then sign * c_amount d l else 0.
Proof.
  revert c. induction l as [|x l IH]; intros c; cbn [c_move c_amount]; [case_match; lia|]. rewrite IH. unfold c_bal at 1.
  destruct (Z.eqb_spec a a') as [->|Hne].
  - destruct (String.eqb_spec (coin_Denom x) d) as [<-|Hd].
    + rewrite lookup_insert_eq. cbn. lia.
    + rewrite lookup_insert_ne by congruence. fold (c_bal c a' d). lia.
  - rewrite lookup_insert_ne by congruence. fold (c_bal c a' d). lia.
Qed.

Definition c_reward : list Coin := [mkCoin (GetEVMCoinDenom coinCfg) 5].

Lemma c_amount_nonneg d l : forallb (fun x => 0 <=? coin_Amount x) l = true -> 0 <= c_amount d l.
Proof. induction l as [|x l IH]; cbn; [lia|]. intros H. zbool. specialize (IH H0). case_match; lia. Qed.

Lemma c_pays c a : forall a' d, c_bal (c_move 1 c a c_reward) a' d = c_bal c a' d + if a =? a' then c_amount d c_reward else 0.
Proof. intros a' d. rewrite c_move_bal. case_match; lia. Qed.

#[local] Existing Instance sdk_math_Z.

#[export, refine] Instance c_distribution : DistributionKeeper c_dist := {|
  dk_MaxValidators c := Ok 100;
  dk_DelegatorValidators c a n := Ok ["valoper1"; "valoper2"];
  dk_BondDenom c := Ok (GetEVMCoinDenom coinCfg);
  dk_WithdrawRewards c a v := (c_move 1 c (BytesToAddress (addr_Bytes a)) c_reward, Ok c_reward);
  dk_SetWithdrawAddress c m := (c, Ok ());
  dk_WithdrawDelegatorReward c m :=
    match AccAddressFromBech32 (wr_DelegatorAddress m) with
    | Ok a => (c_move 1 c (BytesToAddress (addr_Bytes (BytesToAddress a))) c_reward, Ok c_reward)
    | Err e | Panic e => (c, Err e)
    end;
  dk_WithdrawValidatorCommission c m :=
    match ValAddressFromBech32 m with
    | Ok a => (c_move 1 c (BytesToAddress (addr_Bytes (BytesToAddress a))) c_reward, Ok c_reward)
    | Err e | Panic e => (c, Err e)
    end;
  dk_FundCommunityPool c m :=
    if forallb (fun x => 0 <=? coin_Amount x) (fp_Amount m) then
      match AccAddressFromBech32 (fp_Depositor m) with
      | Ok a => (c_move (-1) c (BytesToAddress a) (fp_Amount m), Ok ())
      | Err e | Panic e => (c, Err e)
      end
    else (c, Err "invalid coins");
  dk_WithdrawAddr c a := Ok (addr_Bytes a);
  GetBaseDenom := Ok (GetEVMCoinDenom coinCfg);
  coins_AddAll a b := Ok (a ++ b);
  coins_AmountOf l d := c_amount d l;
  dk_balance := c_bal;
  dk_module a := false;
  q_ValidatorDistributionInfo c v := Err "not found";
  q_ValidatorOutstandingRewards c v := Ok [];
  q_ValidatorCommission c v := Ok [];
  q_ValidatorSlashes c rq := Ok ([], None);
  q_DelegationRewards c d v := Ok [];
  q_DelegationTotalRewards c d := Ok ([], []);
  q_DelegatorValidators c d := Ok [];
  q_DelegatorWithdrawAddress c d := Ok d
|}.
Proof.
  - intros a b l [= <-] d. apply c_amount_app.
  - done.
  - intros d e a. cbn. lia.
  - intros c del v c' coins [= <- <-]. eexists. split_and!; [done|done|intros d; by apply c_amount_nonneg|].
    intros a d _. apply c_pays.
  - intros c m c' coins. destruct (AccAddressFromBech32 _) as [del|e|e] eqn:Hd; [|done..]. intros [= <- <-].
    exists del. eexists. split_and!; [done|done|intros d; by apply c_amount_nonneg|]. intros a d _. apply c_pays.
  - intros c m c' coins. destruct (ValAddressFromBech32 _) as [del|e|e] eqn:Hd; [|done..]. intros [= <- <-].
    exists del. eexists. split_and!; [done|done|intros d; by apply c_amount_nonneg|]. intros a d _. apply c_pays.
  - intros c m c'. destruct (forallb _ _) eqn:Hf; [|done].
    destruct (AccAddressFromBech32 _) as [dep|e|e] eqn:Hd; [|done..]. intros [= <-]. exists dep.
    split_and!; [done|intros d; by apply c_amount_nonneg|]. intros a d _. rewrite c_move_bal. case_match; lia.
Defined.

(** a contract claims the rewards of the signer from two validators *)
Definition wd_s : nstate unit c_dist := mkNstate () ∅ [] [].
Definition wd_args : list abi_value := [VAddress 7; VUint32 10].
Definition wd_s' : nstate unit c_dist := (HandleMethod 7 9 wd_s "claimRewards" wd_args).1.

Lemma distribution_calls_are_mirrored_witness :
  evm_balance wd_s' 7 = 10 * 10 ^ 12 /\ call_ok "claimRewards" 7 9 wd_s wd_args wd_s'.
Proof.
  split; [vm_compute; reflexivity|].
  apply (distribution_calls_are_mirrored 7 9 wd_s "claimRewards" wd_args wd_s' (Some (RBool true)));
    vm_compute; reflexivity.
Defined.
