(* ===== verification/Ics20Precompile.v ===== *)
(** * The ICS-20 precompile ([precompiles/ics20])

    Transfers over IBC as methods of a contract, with authorizations that limit
    what a contract may send for the signer of the transaction. The transfer and
    channel keepers of ibc-go are a class. *)

From stdpp Require Import base gmap list numbers strings.
From Stdlib Require Import ZArith Lia.
From S2P Require Import Prelude SdkMath Scaling AccessList StateDB StateDBCommit VmStore TxData Precompile Erc20Precompile NativePrecompile.
Import Erc20Precompile(SdkCoins, coins_Find, coins_Add, coins_valid).
Import Native.

Module Ics20.

Definition ErrInvalidSourcePort : error := "invalid source port".
Definition ErrInvalidSourceChannel : error := "invalid source port".
Definition ErrInvalidDenomForTransfer : error := "invalid denomination for cross-chain transfer".
Definition ErrInvalidTransferAmount : error := "invalid token amount".
Definition ErrInvalidSender : error := "invalid sender".
Definition ErrInvalidReceiver : error := "invalid receiver".
Definition ErrInvalidTimeoutTimestamp : error := "invalid timeout timestamp".
Definition ErrInvalidMemo : error := "invalid memo".
Definition ErrInvalidHash : error := "invalid hash".
Definition ErrInvalidDenomTrace : error := "invalid denom trace".
Definition ErrNoMatchingAllocation : error := "no matching allocation found for source port, source channel, and denom".
Definition ErrDifferentOriginFromSender : error := "origin address is not the same as sender address".
Definition ErrTraceNotFound : error := "denomination trace not found".
Definition ErrChannelNotFound : error := "channel not found".
Definition ErrInvalidArgs : error := "invalid input arguments".

Record MsgTransfer := mkMsgTransfer {
  mt_SourcePort : string;
  mt_SourceChannel : string;
  mt_Token : Coin;
  mt_Sender : string;
  mt_Receiver : string;
  mt_TimeoutHeight : Height;
  mt_TimeoutTimestamp : Z;
  mt_Memo : string
}.

Record DenomTrace := mkDenomTrace { tr_Path : string; tr_BaseDenom : string }.

(** The part of ibc-go.
    - [MsgTransfer_ValidateBasic], [TransferAuthorization_ValidateBasic];
    - [HasChannel] of the channel keeper;
    - [tk_Transfer]: [Transfer] of the keeper of [x/ibc/transfer], which is
      modelled on the token pairs in [Erc20Ibc.Transfer]. It answers the sequence
      of the packet and the denomination it leaves in the message: that of the
      token pair when the message names the contract of one, the same when the
      message names a coin of the bank ([tk_denom_kept]);
    - [ta_Accept]: [Accept] of a [TransferAuthorization];
    - [GetEscrowAddress]: the bytes of the escrow account of a channel;
    - [tk_balance]: the bank's balances. A transfer of a coin that is native to
      this chain ([tk_native]: a coin of the bank that is neither a voucher nor the
      coin of a contract) moves it from the sender to the escrow account. *)
Class TransferKeeper (chain : Type) `{!Bech32} := {
  MsgTransfer_ValidateBasic : MsgTransfer -> res unit;
  TransferAuthorization_ValidateBasic : list Allocation -> res unit;
  HasChannel : chain -> string -> string -> bool;
  tk_Transfer : chain -> MsgTransfer -> chain * res (Z * string);
  ta_Accept : list Allocation -> MsgTransfer -> res AcceptResponse;
  GetEscrowAddress : string -> string -> bytes;
  q_DenomTrace : chain -> string -> res DenomTrace;
  q_DenomTraces : chain -> PageRequest -> res (list DenomTrace * option PageResponse);
  q_DenomHash : chain -> string -> res string;
  tk_balance : chain -> address -> string -> Z;
  tk_native : string -> bool;
  ta_Accept_kind : forall l m r a, ta_Accept l m = Ok r -> ar_Updated r = Some a -> exists l', a = ATransfer l';
  tk_denom_kept : forall c m c' n denom, tk_Transfer c m = (c', Ok (n, denom)) ->
    tk_native (coin_Denom (mt_Token m)) = true -> denom = coin_Denom (mt_Token m);
  tk_transfer : forall c m c' n denom, tk_Transfer c m = (c', Ok (n, denom)) -> tk_native denom = true ->
    exists from, AccAddressFromBech32 (mt_Sender m) = Ok from /\
      forall a d, tk_balance c' a d = tk_balance c a d
        - (if BytesToAddress from =? a then if String.eqb denom d then coin_Amount (mt_Token m) else 0 else 0)
        + (if BytesToAddress (GetEscrowAddress (mt_SourcePort m) (mt_SourceChannel m)) =? a
           then if String.eqb denom d then coin_Amount (mt_Token m) else 0 else 0)
}.

Section Args.
Context `{!SdkMath} `{!Bech32} {chain : Type} `{!TransferKeeper chain}.

Definition CreateAndValidateMsgTransfer (sourcePort sourceChannel : string) (coin : Coin)
    (senderAddress receiverAddress : string) (timeoutHeight : Height) (timeoutTimestamp : Z) (memo : string)
    : res MsgTransfer :=
  let msg := mkMsgTransfer sourcePort sourceChannel coin senderAddress receiverAddress timeoutHeight timeoutTimestamp memo in
  let? _ := MsgTransfer_ValidateBasic msg in Ok msg.

Definition NewMsgTransfer (args : list abi_value) : res (MsgTransfer * address) :=
  match args with
  | [a0; a1; a2; a3; a4; a5; a6; a7; a8] =>
      let? sourcePort := arg_string ErrInvalidSourcePort a0 in
      let? sourceChannel := arg_string ErrInvalidSourceChannel a1 in
      let? denom := arg_string ErrInvalidDenomForTransfer a2 in
      let? amount := arg_bigint ErrInvalidTransferAmount a3 in
      let? sender := arg_address ErrInvalidSender a4 in
      let? receiver := arg_string ErrInvalidReceiver a5 in
      let? timeoutHeight := match a6 with VHeight h => Ok h | _ => Err ErrUnpackArgs end in
      let? timeoutTimestamp := arg_uint64 ErrInvalidTimeoutTimestamp a7 in
      let? memo := arg_string ErrInvalidMemo a8 in
      let? amount := NewIntFromBigInt amount in
      let? msg := CreateAndValidateMsgTransfer sourcePort sourceChannel (mkCoin denom amount)
                    (AccAddress_String sender) receiver timeoutHeight timeoutTimestamp memo in
      Ok (msg, sender)
  | _ => Err ErrInvalidNumberOfArgs
  end.

Definition NewDenomTraceRequest (args : list abi_value) : res string :=
  match args with [a0] => arg_string ErrInvalidHash a0 | _ => Err ErrInvalidArgs end.

Definition NewDenomTracesRequest (args : list abi_value) : res PageRequest :=
  match args with [a0] => arg_page ErrUnpackArgs a0 | _ => Err ErrInvalidNumberOfArgs end.

Definition NewDenomHashRequest (args : list abi_value) : res string :=
  match args with [a0] => arg_string ErrInvalidDenomTrace a0 | _ => Err ErrInvalidArgs end.

Definition checkRevokeArgs (args : list abi_value) : res address :=
  match args with [a0] => arg_address_nz ErrInvalidGrantee a0 | _ => Err ErrInvalidNumberOfArgs end.

Definition checkAllowanceArgs (args : list abi_value) : res (address * string * string * string * Z) :=
  match args with
  | [a0; a1; a2; a3; a4] =>
      let? grantee := arg_address_nz ErrInvalidGrantee a0 in
      let? sourcePort := arg_string ErrInvalidSourcePort a1 in
      let? sourceChannel := arg_string ErrInvalidSourceChannel a2 in
      let? denom := arg_string ErrInvalidDenomForTransfer a3 in
      let? amount := arg_bigint ErrInvalidTransferAmount a4 in
      Ok (grantee, sourcePort, sourceChannel, denom, amount)
  | _ => Err ErrInvalidNumberOfArgs
  end.

Fixpoint sdk_coins (l : list Coin) : res (list Coin) :=
  match l with
  | [] => Ok []
  | sl :: l =>
      let? amount := NewIntFromBigInt (coin_Amount sl) in
      let? rest := sdk_coins l in
      Ok (mkCoin (coin_Denom sl) amount :: rest)
  end.

Fixpoint sdk_allocations (l : list Allocation) : res (list Allocation) :=
  match l with
  | [] => Ok []
  | a :: l =>
      let? spendLimit := sdk_coins (al_SpendLimit a) in
      let? rest := sdk_allocations l in
      Ok (mkAllocation (al_SourcePort a) (al_SourceChannel a) spendLimit (al_AllowList a) (al_AllowedPacketData a) :: rest)
  end.

Definition checkTransferAuthzArgs (args : list abi_value) : res (address * list Allocation) :=
  match args with
  | [a0; a1] =>
      let? grantee := arg_address ErrInvalidGrantee a0 in
      let? input := match a1 with VAllocations l => Ok l | _ => Err ErrUnpackArgs end in
      let? allocations := sdk_allocations input in
      Ok (grantee, allocations)
  | _ => Err ErrInvalidNumberOfArgs
  end.

Definition NewTransferAuthorization (args : list abi_value) : res (address * list Allocation) :=
  let? '(grantee, allocations) := checkTransferAuthzArgs args in
  let? _ := TransferAuthorization_ValidateBasic allocations in
  Ok (grantee, allocations).

Context `{!SdkCoins}.

(** The first allocation of the port and channel decides. *)
Fixpoint checkAllocationExists (allocations : list Allocation) (sourcePort sourceChannel denom : string)
    : res (Coin * nat) :=
  match allocations with
  | [] => Err ErrNoMatchingAllocation
  | allocation :: allocations =>
      if negb (String.eqb (al_SourcePort allocation) sourcePort) ||
         negb (String.eqb (al_SourceChannel allocation) sourceChannel) then
        let? '(spendLimit, idx) := checkAllocationExists allocations sourcePort sourceChannel denom in
        Ok (spendLimit, S idx)
      else
        match coins_Find (al_SpendLimit allocation) denom with
        | Some spendLimit => Ok (spendLimit, 0%nat)
        | None => Err ErrNoMatchingAllocation
        end
  end.

Definition convertToAllocation (allocs : list Allocation) : list Allocation :=
  map (fun a => mkAllocation (al_SourcePort a) (al_SourceChannel a)
                  (map (fun c => mkCoin (coin_Denom c) (coin_Amount c)) (al_SpendLimit a))
                  (al_AllowList a) (al_AllowedPacketData a)) allocs.

Definition with_spend_limit (l : list Coin) (a : Allocation) : Allocation :=
  mkAllocation (al_SourcePort a) (al_SourceChannel a) l (al_AllowList a) (al_AllowedPacketData a).

(** The loop of [DecreaseAllowance] over the spend limit: a coin of the
    denomination is reduced, or removed when nothing is left. A set of coins
    holds a denomination once, so the loop ends its work at the first match. *)
Fixpoint reduce_limit (l : list Coin) (denom : string) (expense : Z) : list Coin :=
  match l with
  | [] => []
  | coin :: l =>
      if negb (String.eqb (coin_Denom coin) denom) then coin :: reduce_limit l denom expense
      else
        let coinDiff := coin_Amount coin - expense in
        if negb (0 <? coinDiff) then l else mkCoin (coin_Denom coin) coinDiff :: l
  end.
End Args.

Section Precompile.
Context `{!SdkMath} `{!EvmEnv} `{!Bech32} `{!SdkCoins} {authz chain : Type} `{!Authz authz} `{!TransferKeeper chain}.
Abbreviation state := (nstate authz chain).
Implicit Types s : state.

Record Precompile := mkPrecompile { ApprovalExpiration : Z; BlockTime : Z }.
Implicit Types p : Precompile.

Inductive ret :=
  | RBool (b : bool)
  | RUint64 (z : Z)
  | RTrace (t : DenomTrace)
  | RTraces (l : list DenomTrace) (page : option PageResponse)
  | RString (t : string)
  | RAllocations (l : list Allocation).

Definition EmitIBCTransferAuthorizationEvent s (grantee granter : address) (allocations : list Allocation) : state :=
  add_log (mkLog "IBCTransferAuthorization" [VAddress grantee; VAddress granter] [VAllocations allocations]) s.

Definition EmitIBCTransferEvent s (sender : address) (msg : MsgTransfer) : state :=
  add_log (mkLog "IBCTransfer" [VAddress sender; VString (mt_Receiver msg)]
             [VString (mt_SourcePort msg); VString (mt_SourceChannel msg); VString (coin_Denom (mt_Token msg));
              VBigInt (coin_Amount (mt_Token msg)); VString (mt_Memo msg)]) s.

(** *** Authorizations ([approve.go], [approve_common.go]) *)

Fixpoint channels_exist s (allocations : list Allocation) : bool :=
  match allocations with
  | [] => true
  | a :: allocations =>
      HasChannel (ns_chain s) (al_SourcePort a) (al_SourceChannel a) && channels_exist s allocations
  end.

Definition Approve p (origin : address) s (args : list abi_value) : state * res ret :=
  do? s, a := (s, NewTransferAuthorization args) in
  let '(grantee, allocations) := a in
  if negb (channels_exist s allocations) then (s, Err ErrChannelNotFound)
  else
    let expiration := BlockTime p + ApprovalExpiration p in
    do? s, _ := on_authz s (az_Save (ns_authz s) grantee origin (ATransfer allocations) (Some expiration)) in
    (EmitIBCTransferAuthorizationEvent s grantee origin (convertToAllocation allocations), Ok (RBool true)).

(** The error of [CheckAuthzExists] is replaced by the same text. *)
Definition Revoke (origin : address) s (args : list abi_value) : state * res ret :=
  do? s, grantee := (s, checkRevokeArgs args) in
  do? s, g := (s, CheckAuthzExists (ns_authz s) grantee origin TransferMsgURL) in
  match g with
  | (ATransfer _, _) =>
      do? s, _ := on_authz s (az_Delete (ns_authz s) grantee origin TransferMsgURL) in
      (EmitIBCTransferAuthorizationEvent s grantee origin [], Ok (RBool true))
  | _ => (s, Err ErrUnknownAuthorizationType)
  end.

Definition IncreaseAllowance (origin : address) s (args : list abi_value) : state * res ret :=
  do? s, a := (s, checkAllowanceArgs args) in
  let '(grantee, sourcePort, sourceChannel, denom, amount) := a in
  do? s, g := (s, CheckAuthzExists (ns_authz s) grantee origin TransferMsgURL) in
  match g with
  | (ATransfer allocations, expiration) =>
      do? s, f := (s, checkAllocationExists allocations sourcePort sourceChannel denom) in
      let '(spendLimit, allocationIdx) := f in
      do? s, allowance := (s, NewIntFromBigInt amount) in
      if (SafeAdd (coin_Amount spendLimit) allowance).2 then (s, Err ErrIntegerOverflow)
      else
        match allocations !! allocationIdx with
        | None => (s, Panic PanicIndex)
        | Some allocation =>
            do? s, l := (s, coins_Add (al_SpendLimit allocation) (mkCoin denom allowance)) in
            let allocations := <[allocationIdx := with_spend_limit l allocation]> allocations in
            do? s, _ := on_authz s (az_Save (ns_authz s) grantee origin (ATransfer allocations) expiration) in
            (EmitIBCTransferAuthorizationEvent s grantee origin (convertToAllocation allocations), Ok (RBool true))
        end
  | _ => (s, Err ErrUnknownAuthorizationType)
  end.

Definition DecreaseAllowance (origin : address) s (args : list abi_value) : state * res ret :=
  do? s, a := (s, checkAllowanceArgs args) in
  let '(grantee, sourcePort, sourceChannel, denom, amount) := a in
  do? s, g := (s, CheckAuthzExists (ns_authz s) grantee origin TransferMsgURL) in
  match g with
  | (ATransfer allocations, expiration) =>
      do? s, f := (s, checkAllocationExists allocations sourcePort sourceChannel denom) in
      let '(spendLimit, allocationIdx) := f in
      do? s, expense := (s, NewIntFromBigInt amount) in
      if coin_Amount spendLimit <? expense then (s, Err ErrNegativeAmount)
      else
        match allocations !! allocationIdx with
        | None => (s, Panic PanicIndex)
        | Some allocation =>
            let l := reduce_limit (al_SpendLimit allocation) denom expense in
            let allocations := <[allocationIdx := with_spend_limit l allocation]> allocations in
            do? s, _ := on_authz s (az_Save (ns_authz s) grantee origin (ATransfer allocations) expiration) in
            (EmitIBCTransferAuthorizationEvent s grantee origin (convertToAllocation allocations), Ok (RBool true))
        end
  | _ => (s, Err ErrUnknownAuthorizationType)
  end.

Definition AcceptGrant (msg : MsgTransfer) (a : authorization) : res AcceptResponse :=
  match a with
  | ATransfer transferAuthz =>
      let? resp := ta_Accept transferAuthz msg in
      if negb (ar_Accept resp) then Err ErrAuthzNotAccepted else Ok resp
  | _ => Err ErrUnknownAuthorizationType
  end.

Definition UpdateGrant s (grantee granter : address) (expiration : option Z) (resp : AcceptResponse) : state * res unit :=
  if ar_Delete resp then on_authz s (az_Delete (ns_authz s) grantee granter TransferMsgURL)
  else match ar_Updated resp with
       | Some updated => on_authz s (az_Save (ns_authz s) grantee granter updated expiration)
       | None => (s, Ok ())
       end.

(** *** Transfer ([tx.go], and the end of [types.go]) *)

Definition CheckOriginAndSender (origin caller sender : address) : res address :=
  if caller =? sender then Ok sender
  else if negb (origin =? sender) then Err ErrDifferentOriginFromSender
  else Ok sender.

Definition CheckAndAcceptAuthorizationIfNeeded s (origin caller : address) (msg : MsgTransfer)
    : res (option (AcceptResponse * option Z)) :=
  if caller =? origin then Ok None
  else
    let? '(auth, expiration) := CheckAuthzExists (ns_authz s) caller origin TransferMsgURL in
    let? resp := AcceptGrant msg auth in
    Ok (Some (resp, expiration)).

(** The response is nil only when the caller is the origin. *)
Definition UpdateGrantIfNeeded s (origin caller : address) (grant : option (AcceptResponse * option Z)) : state * res unit :=
  if negb (caller =? origin) then
    match grant with
    | Some (resp, expiration) => UpdateGrant s caller origin expiration resp
    | None => (s, Panic PanicNil)
    end
  else (s, Ok ()).

(** the message with the denomination that the transfer keeper wrote in it *)
Definition with_denom (denom : string) (msg : MsgTransfer) : MsgTransfer :=
  mkMsgTransfer (mt_SourcePort msg) (mt_SourceChannel msg) (mkCoin denom (coin_Amount (mt_Token msg))) (mt_Sender msg)
    (mt_Receiver msg) (mt_TimeoutHeight msg) (mt_TimeoutTimestamp msg) (mt_Memo msg).

Definition Transfer (origin caller : address) s (args : list abi_value) : state * res ret :=
  do? s, m := (s, NewMsgTransfer args) in
  let '(msg, sender) := m in
  if negb (HasChannel (ns_chain s) (mt_SourcePort msg) (mt_SourceChannel msg)) then (s, Err ErrChannelNotFound)
  else
    let isCallerSender := caller =? sender in
    if negb isCallerSender && negb (origin =? sender) then (s, Err ErrDifferentOriginFromSender)
    else
      do? s, grant := (s, CheckAndAcceptAuthorizationIfNeeded s origin caller msg) in
      do? s, res := on_chain s (tk_Transfer (ns_chain s) msg) in
      let msg := with_denom res.2 msg in
      do? s, _ := UpdateGrantIfNeeded s origin caller grant in
      let s :=
        if negb (caller =? origin) && String.eqb (coin_Denom (mt_Token msg)) (GetEVMCoinDenom coinCfg) then
          let escrowHexAddr := BytesToAddress (GetEscrowAddress (mt_SourcePort msg) (mt_SourceChannel msg)) in
          let amt := coin_Amount (mt_Token msg) in
          set_entries [mkBalanceChangeEntry sender amt Sub; mkBalanceChangeEntry escrowHexAddr amt Add] s
        else s in
      (EmitIBCTransferEvent s sender msg, Ok (RUint64 res.1)).

(** *** Queries ([query.go]) *)

Definition denomTrace s (args : list abi_value) : res ret :=
  let? req := NewDenomTraceRequest args in
  match q_DenomTrace (ns_chain s) req with
  | Ok t => Ok (RTrace t)
  | Err e => if str_contains e ErrTraceNotFound then Ok (RTrace (mkDenomTrace "" "")) else Err e
  | Panic e => Panic e
  end.

Definition DenomTraces s (args : list abi_value) : res ret :=
  let? req := NewDenomTracesRequest args in
  let? '(l, pg) := q_DenomTraces (ns_chain s) req in
  Ok (RTraces l pg).

Definition DenomHash s (args : list abi_value) : res ret :=
  let? req := NewDenomHashRequest args in
  match q_DenomHash (ns_chain s) req with
  | Ok h => Ok (RString h)
  | Err e => if str_contains e ErrTraceNotFound then Ok (RString "") else Err e
  | Panic e => Panic e
  end.

Definition Allowance s (args : list abi_value) : res ret :=
  let? '(grantee, granter, msg) := CheckAllowanceArgs (args ++ [VString TransferMsgURL]) in
  match az_Get (ns_authz s) grantee granter msg with
  | None => Ok (RAllocations [])
  | Some (ATransfer l, _) => Ok (RAllocations (convertToAllocation l))
  | Some _ => Err ErrInvalidType
  end.

(** *** Dispatch ([ics20.go]) *)

Definition IsTransaction (method : string) : bool :=
  bool_decide (method ∈ ["transfer"; "approve"; "revoke"; "increaseAllowance"; "decreaseAllowance"]).

Definition HandleMethod p (origin caller : address) s (method : string) (args : list abi_value) : state * res ret :=
  if String.eqb method "approve" then Approve p origin s args
  else if String.eqb method "revoke" then Revoke origin s args
  else if String.eqb method "increaseAllowance" then IncreaseAllowance origin s args
  else if String.eqb method "decreaseAllowance" then DecreaseAllowance origin s args
  else if String.eqb method "transfer" then Transfer origin caller s args
  else if String.eqb method "denomTrace" then (s, denomTrace s args)
  else if String.eqb method "denomTraces" then (s, DenomTraces s args)
  else if String.eqb method "denomHash" then (s, DenomHash s args)
  else if String.eqb method "allowance" then (s, Allowance s args)
  else (s, Err ErrUnknownMethod).

Definition Run (abi : ABI abi_value) p (origin caller : address) (readOnly : bool) (value : Z) (input : bytes)
    (enoughGas : bool) s : state * res ret :=
  do? s, method_args := (s, setup_call abi (fun m => IsTransaction (meth_Name m)) readOnly value input) in
  do? s, bz := HandleMethod p origin caller s (meth_Name method_args.1) method_args.2 in
  if negb enoughGas then (s, Err ErrOutOfGas) else (s, Ok bz).

Definition RequiredGas (gc : GasConfig) (input : bytes) (method : option string) : res Z :=
  if (length input <? 4)%nat then Ok 0
  else match method with
       | None => Ok 0
       | Some m => Precompile.RequiredGas gc input (IsTransaction m)
       end.
End Precompile.
End Ics20.
