(* ===== verification/Ics20PrecompileTheorems.v ===== *)
(** * Theorems on the ICS-20 precompile *)

From stdpp Require Import base gmap list numbers strings.
From Stdlib Require Import ZArith Lia.
From S2P Require Import Prelude SdkMath Scaling AccessList StateDB StateDBCommit VmStore TxData TxDataTheorems Precompile Concrete Erc20 Erc20Ibc Erc20Concrete Erc20Precompile CoinsConcrete NativePrecompile StakingPrecompile NativeConcrete DistributionPrecompile DistributionPrecompileTheorems Ics20Precompile.
Import Erc20Precompile(SdkCoins, coins_Find, coins_Add, coins_valid, coins_Add_spec, coins_Find_spec).
Import Native Ics20.

(** the limit of a denomination for a port and channel: the first allocation decides *)
Fixpoint spend_of (l : list Allocation) (port channel denom : string) : Z :=
  match l with
  | [] => 0
  | a :: l =>
      if String.eqb (al_SourcePort a) port && String.eqb (al_SourceChannel a) channel
      then amount_of denom (al_SpendLimit a) else spend_of l port channel denom
  end.

Definition limits_valid (l : list Allocation) : Prop := Forall (fun a => coins_valid (al_SpendLimit a)) l.

Section Theorems.
Context `{!SdkMath} `{!EvmEnv} `{!Bech32} `{!SdkCoins} {authz chain : Type} `{!Authz authz} `{!TransferKeeper chain}.
Abbreviation state := (nstate authz chain).
Implicit Types s : state.

(** the allocations that [granter] gave to [grantee] *)
Definition grant_of s (grantee granter : address) : option (list Allocation) :=
  match az_Get (ns_authz s) grantee granter TransferMsgURL with
  | Some (ATransfer l, _) => Some l
  | _ => None
  end.

Lemma saved_grant s g r l e z :
  az_Save (ns_authz s) g r (ATransfer l) e = (z, Ok ()) -> forall g' r',
  grant_of (with_authz z s) g' r' = if decide (g' = g /\ r' = r) then Some l else grant_of s g' r'.
Proof.
  intros E g' r'. unfold grant_of. cbn [ns_authz with_authz]. rewrite (az_save _ _ _ _ _ _ E), az_url_transfer.
  repeat case_decide; naive_solver.
Qed.

Lemma deleted_grant s g r z :
  az_Delete (ns_authz s) g r TransferMsgURL = (z, Ok ()) -> forall g' r',
  grant_of (with_authz z s) g' r' = if decide (g' = g /\ r' = r) then None else grant_of s g' r'.
Proof.
  intros E g' r'. unfold grant_of. cbn [ns_authz with_authz]. rewrite (az_delete _ _ _ _ _ E).
  repeat case_decide; naive_solver.
Qed.

(** ** Changing one limit *)

Lemma checkAllocationExists_spec l port channel denom c i :
  checkAllocationExists l port channel denom = Ok (c, i) ->
  exists a, l !! i = Some a /\ coins_Find (al_SpendLimit a) denom = Some c /\
    forall l2, spend_of (<[i := with_spend_limit l2 a]> l) port channel denom = amount_of denom l2 /\
      (forall p' c' d', (p', c') <> (port, channel) ->
         spend_of (<[i := with_spend_limit l2 a]> l) p' c' d' = spend_of l p' c' d') /\
      (forall d', spend_of (<[i := with_spend_limit l2 a]> l) port channel d' = amount_of d' l2) /\
      forall d', spend_of l port channel d' = amount_of d' (al_SpendLimit a).
Proof.
  revert i. induction l as [|a l IH]; intros i E; cbn [checkAllocationExists] in E; [done|].
  destruct (negb _ || negb _) eqn:Hpc.
  - apply bind_Ok_inv in E as ([c' i'] & E & [= -> <-]). apply IH in E as (a' & Ha & Hf & Hs).
    assert (Hno : (String.eqb (al_SourcePort a) port && String.eqb (al_SourceChannel a) channel) = false)
      by (destruct (String.eqb _ _), (String.eqb _ _); done).
    exists a'. split_and!; [done|done|]. intros l2. destruct (Hs l2) as (H1' & H2' & H3' & H4').
    change (<[S i' := with_spend_limit l2 a']> (a :: l)) with (a :: <[i' := with_spend_limit l2 a']> l).
    cbn [spend_of]. split_and!; [by rewrite Hno| |intros d'; by rewrite Hno|intros d'; by rewrite Hno]. intros p' c0 d' Hne. case_match; [done|]. by apply H2'.
  - apply orb_false_iff in Hpc as [Hp Hc]. apply negb_false_iff in Hp, Hc.
    destruct (coins_Find _ _) as [c'|] eqn:Hf; [|done]. injection E as -> <-. exists a. split_and!; [done|done|].
    intros l2. change (<[0%nat := with_spend_limit l2 a]> (a :: l)) with (with_spend_limit l2 a :: l).
    cbn [spend_of with_spend_limit al_SourcePort al_SourceChannel al_SpendLimit].
    split_and!; [by rewrite Hp, Hc| |intros d'; by rewrite Hp, Hc..]. intros p' c0 d' Hne.
    destruct (String.eqb_spec (al_SourcePort a) p') as [<-|]; [|done].
    destruct (String.eqb_spec (al_SourceChannel a) c0) as [<-|]; [|done].
    apply String.eqb_eq in Hp, Hc. exfalso. apply Hne. congruence.
Qed.

Lemma reduce_limit_spec l denom n :
  coins_valid l -> 0 <= n <= amount_of denom l -> 0 < amount_of denom l ->
  forall d, amount_of d (reduce_limit l denom n) = amount_of d l - (if String.eqb denom d then n else 0).
Proof.
  induction l as [|c l IH]; intros Hv Hn Hpos d; [cbn in Hpos; lia|]. apply coins_valid_cons in Hv as (Hc & Hlt & Hv).
  cbn [reduce_limit]. destruct (String.eqb_spec (coin_Denom c) denom) as [<-|Hne]; cbn [negb].
  - cbn [amount_of] in Hn. rewrite String.eqb_refl, (amount_of_below _ _ Hlt) in Hn. cbv zeta.
    destruct (0 <? coin_Amount c - n) eqn:Hz; cbn [negb amount_of]; cbn [coin_Denom coin_Amount].
    + destruct (String.eqb _ d); lia.
    + zbool. destruct (String.eqb_spec (coin_Denom c) d) as [<-|]; [rewrite (amount_of_below _ _ Hlt); lia|lia].
  - cbn [amount_of] in Hn, Hpos |- *. rewrite (proj2 (String.eqb_neq _ _) Hne) in Hn, Hpos. rewrite IH by (done || lia). lia.
Qed.

(** One limit of the grant of [granter] to [grantee] changes by [n]; other limits,
    other grants and the rest of the chain do not. *)
Definition limit_changes (grantee granter : address) (port channel denom : string) (n : Z) s s' : Prop :=
  ns_chain s' = ns_chain s /\ ns_entries s' = ns_entries s /\
  (forall g r, ~ (g = grantee /\ r = granter) -> grant_of s' g r = grant_of s g r) /\
  exists l l', grant_of s grantee granter = Some l /\ grant_of s' grantee granter = Some l' /\
    forall p c d, spend_of l' p c d =
      spend_of l p c d + (if decide ((p, c, d) = (port, channel, denom)) then n else 0).

Lemma limit_changes_intro s g r l l' e z port channel denom n lg :
  az_Get (ns_authz s) g r TransferMsgURL = Some (ATransfer l, e) ->
  az_Save (ns_authz s) g r (ATransfer l') e = (z, Ok ()) ->
  (forall p c d, spend_of l' p c d = spend_of l p c d + (if decide ((p, c, d) = (port, channel, denom)) then n else 0)) ->
  limit_changes g r port channel denom n s (add_log lg (with_authz z s)).
Proof.
  intros Hg Hs Hl. split_and!; [done|done| |].
  - intros g' r' Hne. change (grant_of (add_log lg (with_authz z s)) g' r') with (grant_of (with_authz z s) g' r').
    rewrite (saved_grant _ _ _ _ _ _ Hs). by rewrite decide_False.
  - exists l, l'. split_and!; [unfold grant_of; by rewrite Hg| |done].
    change (grant_of (add_log lg (with_authz z s)) g r) with (grant_of (with_authz z s) g r).
    rewrite (saved_grant _ _ _ _ _ _ Hs). by rewrite decide_True.
Qed.

(** Replacing the spend limit of the allocation found changes the limits of its
    port and channel only. *)
Lemma one_limit l port channel denom c i al l2 n :
  checkAllocationExists l port channel denom = Ok (c, i) -> l !! i = Some al ->
  (forall d, amount_of d l2 = amount_of d (al_SpendLimit al) + (if String.eqb denom d then n else 0)) ->
  (forall p' c' d', spend_of (<[i := with_spend_limit l2 al]> l) p' c' d' =
     spend_of l p' c' d' + (if decide ((p', c', d') = (port, channel, denom)) then n else 0)) /\
  spend_of (<[i := with_spend_limit l2 al]> l) port channel denom = amount_of denom l2.
Proof.
  intros Hc Hal Hd. apply checkAllocationExists_spec in Hc as (a & Ha & _ & Hs). rewrite Hal in Ha. injection Ha as <-.
  destruct (Hs l2) as (Hone & Hoth & Hsame & Hbefore). split; [|done]. intros p' c' d'.
  destruct (decide ((p', c') = (port, channel))) as [[= -> ->]|Hne].
  - rewrite Hsame, Hbefore, Hd. destruct (String.eqb_spec denom d') as [<-|Hn]; [by rewrite decide_True|].
    rewrite decide_False; [done|]. congruence.
  - rewrite Hoth by done. rewrite decide_False by congruence. lia.
Qed.

(** the allocation found has the denomination in its valid spend limit *)
Lemma found_limit s g r l e port channel denom c i al :
  (forall g l, grant_of s g r = Some l -> limits_valid l) ->
  az_Get (ns_authz s) g r TransferMsgURL = Some (ATransfer l, e) ->
  checkAllocationExists l port channel denom = Ok (c, i) -> l !! i = Some al ->
  coins_valid (al_SpendLimit al) /\ 0 < amount_of denom (al_SpendLimit al) /\
  coin_Amount c = amount_of denom (al_SpendLimit al).
Proof.
  intros Hval Hget Hc Hal.
  assert (Hv : coins_valid (al_SpendLimit al)).
  { eapply (Forall_lookup_1 (fun a => coins_valid (al_SpendLimit a))); [|exact Hal].
    apply (Hval g). unfold grant_of. by rewrite Hget. }
  apply checkAllocationExists_spec in Hc as (a & Ha & Hf & _). rewrite Hal in Ha. injection Ha as <-.
  rewrite coins_Find_spec in Hf by done. destruct (0 <? _) eqn:Hz; [|done]. injection Hf as <-. zbool. done.
Qed.

Lemma increase_changes origin s args s' r :
  (forall g l, grant_of s g origin = Some l -> limits_valid l) ->
  IncreaseAllowance origin s args = (s', Ok r) ->
  exists g port channel denom n, checkAllowanceArgs args = Ok (g, port, channel, denom, n) /\
    (0 < n -> limit_changes g origin port channel denom n s s' /\
     exists l', grant_of s' g origin = Some l' /\ 0 <= spend_of l' port channel denom).
Proof.
  intros Hval E. unfold IncreaseAllowance in E. inv_do E. destruct a as [[[[g port] channel] denom] n]. inv_do E.
  unfold CheckAuthzExists in E1. destruct (az_Get _ _ _ _) as [x|] eqn:Hget; [|done]. injection E1 as ->.
  destruct a as [[| l |] e]; [done| |done]. inv_do E. destruct a as [c i]. inv_do E.
  rewrite NewIntFromBigInt_spec in E2. destruct (int_fits n); [|done]. injection E2 as <-.
  destruct (SafeAdd _ _).2; [done|]. destruct (l !! i) as [al|] eqn:Hal; [|done]. inv_do E. destruct a0.
  apply on_authz_Ok in E3 as (z & Ez & ->). injection E as <- _.
  exists g, port, channel, denom, n. split; [done|]. intros Hn.
  destruct (found_limit _ _ _ _ _ _ _ _ _ _ _ Hval Hget E1 Hal) as (Hv & Hpos & _).
  destruct (coins_Add_spec _ _ _ _ Hv Hn E2) as [_ Hadd].
  destruct (one_limit _ _ _ _ _ _ _ a n E1 Hal) as [Hl Hone]; [intros d; rewrite Hadd; by rewrite String.eqb_sym|].
  pose proof (limit_changes_intro s g origin l _ e z port channel denom n
    (mkLog "IBCTransferAuthorization" [VAddress g; VAddress origin]
       [VAllocations (convertToAllocation (<[i := with_spend_limit a al]> l))]) Hget Ez Hl) as Hch.
  split; [exact Hch|]. eexists. split; [etrans; [apply (saved_grant _ _ _ _ _ _ Ez)|by rewrite decide_True]|].
  rewrite Hone, Hadd, String.eqb_refl. lia.
Qed.

Lemma decrease_changes origin s args s' r :
  (forall g l, grant_of s g origin = Some l -> limits_valid l) ->
  DecreaseAllowance origin s args = (s', Ok r) ->
  exists g port channel denom n, checkAllowanceArgs args = Ok (g, port, channel, denom, n) /\
    (0 < n -> limit_changes g origin port channel denom (- n) s s' /\
     exists l', grant_of s' g origin = Some l' /\ 0 <= spend_of l' port channel denom).
Proof.
  intros Hval E. unfold DecreaseAllowance in E. inv_do E. destruct a as [[[[g port] channel] denom] n]. inv_do E.
  unfold CheckAuthzExists in E1. destruct (az_Get _ _ _ _) as [x|] eqn:Hget; [|done]. injection E1 as ->.
  destruct a as [[| l |] e]; [done| |done]. inv_do E. destruct a as [c i]. inv_do E.
  rewrite NewIntFromBigInt_spec in E2. destruct (int_fits n); [|done]. injection E2 as <-.
  destruct (coin_Amount c <? n) eqn:Hlt; [done|]. zbool. destruct (l !! i) as [al|] eqn:Hal; [|done]. cbv zeta in E.
  inv_do E. destruct a. apply on_authz_Ok in E2 as (z & Ez & ->). injection E as <- _.
  exists g, port, channel, denom, n. split; [done|]. intros Hn.
  destruct (found_limit _ _ _ _ _ _ _ _ _ _ _ Hval Hget E1 Hal) as (Hv & Hpos & Hca). rewrite Hca in Hlt.
  pose proof (reduce_limit_spec _ denom n Hv ltac:(lia) Hpos) as Hred.
  destruct (one_limit _ _ _ _ _ _ _ (reduce_limit (al_SpendLimit al) denom n) (- n) E1 Hal) as [Hl Hone];
    [intros d; rewrite Hred; case_match; lia|].
  pose proof (limit_changes_intro s g origin l _ e z port channel denom (- n)
    (mkLog "IBCTransferAuthorization" [VAddress g; VAddress origin]
       [VAllocations (convertToAllocation (<[i := with_spend_limit (reduce_limit (al_SpendLimit al) denom n) al]> l))])
    Hget Ez Hl) as Hch.
  split; [exact Hch|]. eexists. split; [etrans; [apply (saved_grant _ _ _ _ _ _ Ez)|by rewrite decide_True]|].
  rewrite Hone, Hred, String.eqb_refl. lia.
Qed.

Definition is_limit_method (method : string) : bool :=
  bool_decide (method ∈ ["increaseAllowance"; "decreaseAllowance"]).

(** An allowance change of the ICS-20 precompile changes one limit. When
    [increaseAllowance] or [decreaseAllowance] succeeds on a grant with valid
    spend limits, the limit of the denomination for the port and channel in the
    grant of the signer to the grantee grows or shrinks by the amount, never
    below zero; every other limit, every other grant and the rest of the state
    are as before. *)
Theorem ics20_allowance_changes_one_limit p origin caller s method args s' r :
  is_limit_method method = true ->
  (forall g l, grant_of s g origin = Some l -> limits_valid l) ->
  HandleMethod p origin caller s method args = (s', Ok r) ->
  exists g port channel denom n, checkAllowanceArgs args = Ok (g, port, channel, denom, n) /\
    (0 < n ->
     limit_changes g origin port channel denom (if String.eqb method "increaseAllowance" then n else - n) s s' /\
     exists l', grant_of s' g origin = Some l' /\ 0 <= spend_of l' port channel denom).
Proof.
  intros Hm Hval E. unfold is_limit_method in Hm. apply bool_decide_eq_true in Hm.
  rewrite !elem_of_cons, elem_of_nil in Hm. unfold HandleMethod in E.
  destruct Hm as [->|[->|[]]]; cbn [String.eqb Ascii.eqb Bool.eqb] in E |- *.
  - by apply increase_changes in E.
  - by apply decrease_changes in E.
Qed.

(** ** Transfers *)

(** the grant after its use *)
Definition grant_after (resp : AcceptResponse) (l : list Allocation) : option (list Allocation) :=
  if ar_Delete resp then None
  else match ar_Updated resp with Some (ATransfer l') => Some l' | _ => Some l end.

(** the balance of an account as the EVM sees it *)
Definition evm_balance s (a : address) : Z :=
  ConvertAmountTo18DecimalsBigInt coinCfg (tk_balance (ns_chain s) a (GetEVMCoinDenom coinCfg)).

Lemma update_grant s g r e resp l m s' :
  az_Get (ns_authz s) g r TransferMsgURL = Some (ATransfer l, e) -> ta_Accept l m = Ok resp ->
  UpdateGrant s g r e resp = (s', Ok ()) ->
  ns_chain s' = ns_chain s /\ ns_entries s' = ns_entries s /\ forall g' r',
    grant_of s' g' r' = if decide (g' = g /\ r' = r) then grant_after resp l else grant_of s g' r'.
Proof.
  intros Hg Ha E. unfold UpdateGrant, grant_after in *. destruct (ar_Delete resp).
  - apply on_authz_Ok in E as (z & Ez & ->). split_and!; [done|done|]. by apply deleted_grant.
  - destruct (ar_Updated resp) as [a|] eqn:Hu.
    + destruct (ta_Accept_kind _ _ _ _ Ha Hu) as [l' ->]. apply on_authz_Ok in E as (z & Ez & ->).
      split_and!; [done|done|]. intros. by apply (saved_grant _ _ _ _ _ _ Ez).
    + injection E as <-. split_and!; [done|done|]. intros g' r'. case_decide as Hd; [|done].
      destruct Hd as [-> ->]. unfold grant_of. by rewrite Hg.
Qed.

(** C22: A transfer over IBC is authorised and reported. When [transfer] succeeds,
    the transfer module has carried out the message of the arguments, whose
    sender is the signer of the transaction or the calling contract. A contract
    that is not the signer had a grant of the signer that accepted the message,
    and the grant is updated or removed as the acceptance says; no other grant
    changes. On a chain whose coin has 18 decimals, a transfer of that coin from
    a contract, named by its denomination or by the contract of its token pair,
    reports the changes of all balances in the bank. *)
Theorem ics20_transfer_is_authorised p origin caller s args s' r :
  HandleMethod p origin caller s "transfer" args = (s', Ok r) ->
  exists msg sender n denom, NewMsgTransfer args = Ok (msg, sender) /\ (sender = origin \/ sender = caller) /\
    tk_Transfer (ns_chain s) msg = (ns_chain s', Ok (n, denom)) /\ r = RUint64 n /\
    (forall g q, if decide (caller <> origin /\ g = caller /\ q = origin)
       then exists l resp, grant_of s g q = Some l /\ ta_Accept l msg = Ok resp /\ ar_Accept resp = true /\
              grant_of s' g q = grant_after resp l
       else grant_of s' g q = grant_of s g q) /\
    (caller <> origin -> addr_ok sender ->
     coin_Denom (mt_Token msg) = GetEVMCoinDenom coinCfg \/ denom = GetEVMCoinDenom coinCfg ->
     tk_native (GetEVMCoinDenom coinCfg) = true -> GetEVMCoinDecimals coinCfg = EighteenDecimals ->
     forall a, entries_delta (ns_entries s') a = evm_balance s' a - evm_balance s a).
Proof.
  intros E. change (Transfer origin caller s args = (s', Ok r)) in E. unfold Transfer in E. inv_do E.
  destruct a as [msg sender]. case_match; [done|]. cbv zeta in E. destruct (negb _ && negb _) eqn:Hs; [done|].
  inv_do E. destruct a1, a0 as [n denom]. cbn [fst snd] in E. injection E as <- <-. apply on_chain_Ok in E2 as (c & E2 & ->).
  pose proof E2 as Htr. exists msg, sender, n, denom.
  assert (Hsend : sender = origin \/ sender = caller).
  { destruct (Z.eqb_spec caller sender); [by right|]. cbn in Hs. zbool. by left. }
  assert (Hup : ns_chain s1 = c /\ ns_entries s1 = ns_entries s /\ forall g q,
    if decide (caller <> origin /\ g = caller /\ q = origin)
    then exists l resp, grant_of s g q = Some l /\ ta_Accept l msg = Ok resp /\ ar_Accept resp = true /\
           grant_of s1 g q = grant_after resp l
    else grant_of s1 g q = grant_of s g q).
  { unfold CheckAndAcceptAuthorizationIfNeeded, UpdateGrantIfNeeded in E1, E3.
    destruct (Z.eqb_spec caller origin) as [->|Hne]; cbn [negb] in E3.
    - injection E3 as <-. split_and!; [done|done|]. intros g q. by rewrite decide_False by tauto.
    - apply bind_Ok_inv in E1 as ([auth e] & Hg & E1). apply bind_Ok_inv in E1 as (resp & Hacc & [= <-]).
      unfold CheckAuthzExists in Hg. destruct (az_Get _ _ _ _) as [x|] eqn:Hget; [|done]. injection Hg as ->.
      unfold AcceptGrant in Hacc. destruct auth as [|l|]; [done| |done].
      apply bind_Ok_inv in Hacc as (resp' & Hacc & Hok). destruct (ar_Accept resp') eqn:Har; [|done].
      injection Hok as ->. eapply update_grant in E3 as (Hc & He & Hgr); [|exact Hget|exact Hacc].
      split_and!; [done|done|]. intros g q. case_decide as Hd.
      + destruct Hd as (_ & -> & ->). exists l, resp. split_and!; [unfold grant_of; by rewrite Hget|done|done|].
        rewrite Hgr. by rewrite decide_True.
      + rewrite Hgr. rewrite decide_False by tauto. done. }
  destruct Hup as (Hc & He & Hgr).
  assert (Hch : forall b es lg, ns_chain (add_log lg (if b : bool then set_entries es s1 else s1)) = c).
  { intros [] es lg; done. }
  split_and!; [done|done|unfold EmitIBCTransferEvent; by rewrite Hch|done| |].
  - intros g q. specialize (Hgr g q). unfold EmitIBCTransferEvent.
    destruct (negb (caller =? origin) && _); exact Hgr.
  - intros Hne Hok Hden Hnat H18 acc.
    assert (Hd : denom = GetEVMCoinDenom coinCfg).
    { destruct Hden as [Hden|]; [|done]. rewrite <-Hden in Hnat |- *. by apply (tk_denom_kept _ _ _ _ _ Htr). }
    destruct (tk_transfer _ _ _ _ _ Htr) as (from & Hfrom & Hb); [by rewrite Hd|].
    assert (Hsndr : mt_Sender msg = AccAddress_String sender)
      by (unfold NewMsgTransfer, CreateAndValidateMsgTransfer in E0; clear -E0; inv_ok; done).
    rewrite Hsndr, (AccAddress_roundtrip _ Hok) in Hfrom. injection Hfrom as <-.
    rewrite (BytesToAddress_Bytes _ Hok) in Hb.
    unfold evm_balance, EmitIBCTransferEvent. cbn [with_denom mt_Token coin_Denom coin_Amount mt_SourcePort mt_SourceChannel].
    rewrite Hch, Hb, Hd, String.eqb_refl, (proj2 (Z.eqb_neq _ _) Hne).
    cbn [negb andb add_log set_entries ns_entries entries_delta bce_Account bce_Amount bce_Op].
    unfold ConvertAmountTo18DecimalsBigInt. rewrite factor_18 by done. repeat case_match; lia.
Qed.
End Theorems.

(** ** A concrete transfer module on the balances of the bank *)

#[local] Existing Instance sdk_math_Z.

Definition c_escrow : bytes := addr_Bytes 1000.

Definition c_ta_accept (l : list Allocation) (m : MsgTransfer) : res AcceptResponse :=
  let left := spend_of l (mt_SourcePort m) (mt_SourceChannel m) (coin_Denom (mt_Token m)) - coin_Amount (mt_Token m) in
  if left <? 0 then Err "requested amount is more than spend limit"
  else if left =? 0 then Ok (mkAcceptResponse true true None)
  else Ok (mkAcceptResponse true false (Some (ATransfer
         [mkAllocation (mt_SourcePort m) (mt_SourceChannel m) [mkCoin (coin_Denom (mt_Token m)) left] [] []]))).

#[export, refine] Instance c_transfer : TransferKeeper c_dist := {|
  MsgTransfer_ValidateBasic m := Ok ();
  TransferAuthorization_ValidateBasic l := Ok ();
  HasChannel c port channel := true;
  tk_Transfer c m :=
    match AccAddressFromBech32 (mt_Sender m) with
    | Ok from => (c_move 1 (c_move (-1) c (BytesToAddress from) [mt_Token m]) (BytesToAddress c_escrow) [mt_Token m], Ok (3, coin_Denom (mt_Token m)))
    | Err e | Panic e => (c, Err e)
    end;
  ta_Accept := c_ta_accept;
  GetEscrowAddress port channel := c_escrow;
  q_DenomTrace c h := Err ErrTraceNotFound;
  q_DenomTraces c pg := Ok ([], None);
  q_DenomHash c t := Err ErrTraceNotFound;
  tk_balance := c_bal;
  tk_native d := true
|}.
Proof.
  - intros l m r a. unfold c_ta_accept. repeat case_match; [done| |]; intros [= <-]; [done|]. intros [= <-]. eauto.
  - intros c m c' n d. destruct (AccAddressFromBech32 _) as [from|e|e]; [|done..]. intros E _. apply pair_equal_spec in E as [_ E]. by injection E.
  - intros c m c' n dn. destruct (AccAddressFromBech32 _) as [from|e|e] eqn:Hf; [|done..]. intros E _. apply pair_equal_spec in E as [<- E].
    injection E as <- <-.
    exists from. split; [done|]. intros a d. rewrite !c_move_bal. cbn [c_amount]. repeat case_match; lia.
Defined.

Definition wi_denom : string := GetEVMCoinDenom coinCfg.
Definition wi_p : Precompile := mkPrecompile 100 5.
Definition wi_s0 : nstate c_grants c_dist := mkNstate ∅ ∅ [] [].
Definition wi_alloc : Allocation := mkAllocation "transfer" "channel-0" [mkCoin wi_denom 100] [] [].
Definition wi_s1 : nstate c_grants c_dist :=
  (HandleMethod wi_p 1 1 wi_s0 "approve" [VAddress 2; VAllocations [wi_alloc]]).1.
Definition wi_less : list abi_value :=
  [VAddress 2; VString "transfer"; VString "channel-0"; VString wi_denom; VBigInt 40].
Definition wi_s2 : nstate c_grants c_dist := (HandleMethod wi_p 1 1 wi_s1 "decreaseAllowance" wi_less).1.
Definition wi_send : list abi_value :=
  [VString "transfer"; VString "channel-0"; VString wi_denom; VBigInt 25; VAddress 1; VString "receiver";
   VHeight (mkHeight 0 0); VUint64 9; VString ""].
Definition wi_s3 : nstate c_grants c_dist := (HandleMethod wi_p 1 2 wi_s2 "transfer" wi_send).1.

Lemma wi_s1_valid g l : grant_of wi_s1 g 1 = Some l -> limits_valid l.
Proof.
  unfold grant_of. change (ns_authz wi_s1) with ({[(2, 1, TransferMsgURL) := (ATransfer [wi_alloc], Some 105)]} : c_grants).
  change (@az_Get _ c_native_authz) with c_get. unfold c_get. rewrite lookup_singleton. case_decide as Hk; [|done].
  cbn [c_url]. rewrite String.eqb_refl. intros [= <-]. constructor; [|constructor]. cbn. split; repeat constructor.
Qed.

Lemma ics20_allowance_changes_one_limit_witness :
  grant_of wi_s2 2 1 = Some [mkAllocation "transfer" "channel-0" [mkCoin wi_denom 60] [] []] /\
  exists g port channel denom n, checkAllowanceArgs wi_less = Ok (g, port, channel, denom, n) /\
    (0 < n ->
     limit_changes g 1 port channel denom (if String.eqb "decreaseAllowance" "increaseAllowance" then n else - n) wi_s1 wi_s2 /\
     exists l', grant_of wi_s2 g 1 = Some l' /\ 0 <= spend_of l' port channel denom).
Proof.
  split; [vm_compute; reflexivity|].
  apply (ics20_allowance_changes_one_limit wi_p 1 1 wi_s1 "decreaseAllowance" wi_less wi_s2 (RBool true));
    [vm_compute; reflexivity|exact wi_s1_valid|apply pair_snd; vm_compute; reflexivity].
Defined.

Lemma ics20_transfer_is_authorised_witness :
  grant_of wi_s3 2 1 = Some [mkAllocation "transfer" "channel-0" [mkCoin wi_denom 35] [] []] /\
  exists msg sender n denom, NewMsgTransfer wi_send = Ok (msg, sender) /\ (sender = 1 \/ sender = 2) /\
    tk_Transfer (ns_chain wi_s2) msg = (ns_chain wi_s3, Ok (n, denom)) /\ RUint64 3 = RUint64 n /\
    (forall g q, if decide (2 <> 1 /\ g = 2 /\ q = 1)
       then exists l resp, grant_of wi_s2 g q = Some l /\ ta_Accept l msg = Ok resp /\ ar_Accept resp = true /\
              grant_of wi_s3 g q = grant_after resp l
       else grant_of wi_s3 g q = grant_of wi_s2 g q) /\
    (2 <> 1 -> addr_ok sender -> coin_Denom (mt_Token msg) = GetEVMCoinDenom coinCfg \/ denom = GetEVMCoinDenom coinCfg ->
     tk_native (GetEVMCoinDenom coinCfg) = true -> GetEVMCoinDecimals coinCfg = EighteenDecimals ->
     forall a, entries_delta (ns_entries wi_s3) a = evm_balance wi_s3 a - evm_balance wi_s2 a).
Proof.
  split; [vm_compute; reflexivity|].
  apply (ics20_transfer_is_authorised wi_p 1 2 wi_s2 wi_send wi_s3 (RUint64 3)).
  apply pair_snd. vm_compute. reflexivity.
Defined.

(** On a chain with six decimals the report is not scaled: the balance of the
    sender falls by 25 units of the bank, and the report is of 25 units of the
    EVM, a million millions less. *)
Example ics20_report_is_not_scaled :
  entries_delta (ns_entries wi_s3) 1 = -25 /\ evm_balance wi_s3 1 - evm_balance wi_s2 1 = -25 * 10 ^ 12.
Proof. vm_compute. done. Qed.
