(* ===== verification/BankPrecompile.v ===== *)
(** * The bank precompile ([precompiles/bank])

    Queries for the balances of an account and for the supply of coins, by the
    contracts that the ERC-20 module pairs them with. The bank keeper of the SDK
    is a class. A call pays gas for every coin after the first; the meter is the
    SDK's, whose limit is the gas of the contract. *)

From stdpp Require Import base gmap list numbers strings.
From Stdlib Require Import ZArith Lia.
From S2P Require Import Prelude SdkMath Scaling AccessList StateDB VmStore TxData Erc20 Precompile NativePrecompile.
Import Erc20 Native.

Module Bank.

Definition PanicGasOverflow : error := "gas overflow".

Definition GasBalances : Z := 2851.
Definition GasTotalSupply : Z := 2477.
Definition GasSupplyOf : Z := 2477.

Record Balance := mkBalance { ContractAddress : address; Amount : Z }.

(** The iterations and the supply of the bank keeper. The lists hold a coin once,
    with its amount, and every coin of which there is any. *)
Class BankQueries (bank : Type) `{!BankKeeper bank} := {
  bk_AccountBalances : bank -> address -> list Coin;
  bk_TotalSupply : bank -> list Coin;
  bk_GetSupply : bank -> string -> Z;
  bk_account_amount : forall b a c, In c (bk_AccountBalances b a) -> coin_Amount c = bk_GetBalance b a (coin_Denom c);
  bk_account_all : forall b a d, bk_GetBalance b a d <> 0 -> In (mkCoin d (bk_GetBalance b a d)) (bk_AccountBalances b a);
  bk_supply_amount : forall b c, In c (bk_TotalSupply b) -> coin_Amount c = bk_GetSupply b (coin_Denom c);
  bk_supply_all : forall b d, bk_GetSupply b d <> 0 -> In (mkCoin d (bk_GetSupply b d)) (bk_TotalSupply b)
}.

(** ** Arguments ([types.go]) *)

Definition ParseBalancesArgs (args : list abi_value) : res address :=
  match args with [a0] => arg_address Native.ErrInvalidType a0 | _ => Err ErrInvalidNumberOfArgs end.

Definition ParseSupplyOfArgs (args : list abi_value) : res address :=
  match args with [a0] => arg_address Native.ErrInvalidType a0 | _ => Err ErrInvalidNumberOfArgs end.

(** ** Gas: [basicGasMeter.ConsumeGas] of the SDK and [Contract.UseGas] of
    go-ethereum. The out-of-gas panic of the meter is turned into the error by
    [HandleGasError]; the one on overflow is not. *)

Definition consume_gas (limit consumed amount : Z) : Z * res unit :=
  if 2 ^ 64 <=? consumed + amount then (2 ^ 64 - 1, Panic PanicGasOverflow)
  else (consumed + amount, if limit <? consumed + amount then Err ErrOutOfGas else Ok ()).

Definition UseGas (gas cost : Z) : Z * bool := if gas <? cost then (gas, false) else (gas - cost, true).

Section Precompile.
Context `{!EthHex} `{!SdkMath} `{!EvmEnv}.
Context {auth acct bank : Type} `{!AccountKeeper auth acct} `{!BankKeeper bank} `{!Erc20Env auth bank}.
Context `{!BankQueries bank}.
Abbreviation state := (@ercState auth bank).
Implicit Types s : state.



Inductive ret := RBalances (l : list Balance) | RBig (z : Z).

(** ** Queries ([query.go]); they return the gas consumed and the answer *)

(** The callback of the iterations over coins: [i] is the number of coins so
    far, and the gas is charged whether or not the coin has a contract. *)
Fixpoint coin_balances s (limit charge : Z) (i : nat) (consumed : Z) (balances : list Balance) (coins : list Coin)
    : Z * res (list Balance) :=
  match coins with
  | [] => (consumed, Ok balances)
  | coin :: coins =>
      do? consumed, _ := if (0 <? i)%nat then consume_gas limit consumed charge else (consumed, Ok ()) in
      match GetCoinAddress s (coin_Denom coin) with
      | Ok contractAddress =>
          coin_balances s limit charge (S i) consumed (balances ++ [mkBalance contractAddress (coin_Amount coin)]) coins
      | Err _ => coin_balances s limit charge (S i) consumed balances coins
      | Panic e => (consumed, Panic e)
      end
  end.

Definition Balances s (limit consumed : Z) (args : list abi_value) : Z * res ret :=
  do? consumed, account := (consumed, ParseBalancesArgs args) in
  do? consumed, balances :=
    coin_balances s limit GasBalances 0 consumed [] (bk_AccountBalances (bank_of s) account) in
  (consumed, Ok (RBalances balances)).

Definition TotalSupply s (limit consumed : Z) (args : list abi_value) : Z * res ret :=
  do? consumed, totalSupply :=
    coin_balances s limit GasTotalSupply 0 consumed [] (bk_TotalSupply (bank_of s)) in
  (consumed, Ok (RBalances totalSupply)).

Definition SupplyOf s (consumed : Z) (args : list abi_value) : Z * res ret :=
  do? consumed, erc20ContractAddress := (consumed, ParseSupplyOfArgs args) in
  match GetTokenPair s (GetERC20Map s erc20ContractAddress) with
  | None => (consumed, Ok (RBig 0))
  | Some tokenPair => (consumed, Ok (RBig (bk_GetSupply (bank_of s) (Denom tokenPair))))
  end.

(** ** [bank.go] *)

Definition IsTransaction (method : string) : bool := false.

Definition RequiredGas (input : bytes) (method : option string) : Z :=
  if (length input <? 4)%nat then 0
  else match method with
       | None => 0
       | Some m =>
           if String.eqb m "balances" then GasBalances
           else if String.eqb m "totalSupply" then GasTotalSupply
           else if String.eqb m "supplyOf" then GasSupplyOf
           else 0
       end.

Definition HandleMethod s (limit consumed : Z) (method : string) (args : list abi_value) : Z * res ret :=
  if String.eqb method "balances" then Balances s limit consumed args
  else if String.eqb method "totalSupply" then TotalSupply s limit consumed args
  else if String.eqb method "supplyOf" then SupplyOf s consumed args
  else (consumed, Err ErrUnknownMethod).

(** The gas left and the answer: a new meter starts with the gas that the
    context had consumed, and what the call consumes on top is taken from the
    contract, also when it runs out ([HandleGasError]). *)
Definition Run (abi : ABI abi_value) s (contractGas initialGas : Z) (readOnly : bool) (value : Z) (input : bytes)
    : Z * res ret :=
  match setup_call abi (fun m => IsTransaction (meth_Name m)) readOnly value input with
  | Err e => (contractGas, Err e)
  | Panic e => (contractGas, Panic e)
  | Ok (method, args) =>
      let '(consumed, r) :=
        do? consumed, _ := consume_gas contractGas 0 initialGas in
        HandleMethod s contractGas consumed (meth_Name method) args in
      match r with
      | Panic e => (contractGas, Panic e)
      | Err e =>
          (if String.eqb e ErrOutOfGas then (UseGas contractGas (wrap64 (consumed - initialGas))).1 else contractGas, Err e)
      | Ok bz =>
          let '(gas, ok) := UseGas contractGas (wrap64 (consumed - initialGas)) in
          if ok then (gas, Ok bz) else (gas, Err ErrOutOfGas)
      end
  end.
End Precompile.
End Bank.
