(* ===== verification/BankPrecompileTheorems.v ===== *)
(** * The bank precompile serves the pairs of the ERC-20 module *)

From stdpp Require Import base gmap list numbers strings.
From Stdlib Require Import ZArith Lia.
From S2P Require Import Prelude SdkMath Scaling AccessList StateDB VmStore TxData TxDataTheorems Concrete Erc20 Erc20Ibc Erc20Concrete Erc20Theorems Precompile NativePrecompile BankPrecompile.
Import Erc20 Native Bank.

Section Theorems.
Context `{!EthHex} `{!SdkMath} `{!EvmEnv}.
Context {auth acct bank : Type} `{!AccountKeeper auth acct} `{!BankKeeper bank} `{!Erc20Env auth bank}.
Context `{!BankQueries bank}.
Abbreviation state := (@ercState auth bank).
Implicit Types s : state.

(** the decoding of an IBC denomination fails with an error only *)
Hypothesis ParseHexHash_total : forall t e, ParseHexHash t <> Panic e.

(** the coins that have a contract *)
Definition served s (coins : list Coin) : list Balance :=
  omap (fun c => match GetCoinAddress s (coin_Denom c) with Ok a => Some (mkBalance a (coin_Amount c)) | _ => None end) coins.

(** the coins to pay for: all but the first *)
Definition extra (i : nat) (coins : list Coin) : Z := Z.of_nat (length coins - (if (i =? 0)%nat then 1 else 0)).

Lemma GetCoinAddress_total s d e : GetCoinAddress s d <> Panic e.
Proof.
  unfold GetCoinAddress, GetIBCDenomAddress. pose proof (ParseHexHash_total (String.substring 4 (String.length d - 4) d) e).
  repeat case_match; congruence.
Qed.

Lemma coin_balances_step s limit charge i consumed l c coins :
  coin_balances s limit charge i consumed l (c :: coins) =
    st_bind (if (0 <? i)%nat then consume_gas limit consumed charge else (consumed, Ok ()))
      (fun consumed _ => coin_balances s limit charge (S i) consumed (l ++ served s [c]) coins).
Proof.
  cbn [coin_balances]. unfold served. destruct (if (0 <? i)%nat then _ else _) as [k [[]| |]]; cbn [st_bind]; [|done..].
  cbn [omap list_omap]. destruct (GetCoinAddress s (coin_Denom c)) eqn:E; [done|by rewrite app_nil_r|].
  by apply GetCoinAddress_total in E.
Qed.

Lemma served_cons s c coins : served s (c :: coins) = served s [c] ++ served s coins.
Proof. unfold served. cbn. by case_match; case_match. Qed.

(** The loop answers when the gas lasts, and runs out of gas otherwise. *)
Lemma coin_balances_spec s limit charge coins i consumed l :
  0 <= charge -> 0 <= consumed <= limit -> limit + charge < 2 ^ 64 ->
  if consumed + charge * extra i coins <=? limit
  then coin_balances s limit charge i consumed l coins = (consumed + charge * extra i coins, Ok (l ++ served s coins))
  else (coin_balances s limit charge i consumed l coins).2 = Err ErrOutOfGas.
Proof.
  intros Hc. revert i consumed l. induction coins as [|c coins IH]; intros i consumed l Hk Hl.
  { unfold extra. cbn. rewrite Z.mul_0_r, Z.add_0_r, app_nil_r. by rewrite (proj2 (Z.leb_le _ _)) by lia. }
  rewrite coin_balances_step, (served_cons s c coins), (app_assoc l).
  assert (He : extra i (c :: coins) = (if (0 <? i)%nat then 1 else 0) + extra (S i) coins).
  { unfold extra. cbn [length Nat.eqb]. destruct i; cbn; lia. }
  assert (Hnn : 0 <= charge * extra (S i) coins) by (unfold extra; nia). rewrite He.
  destruct (0 <? i)%nat; cbn [st_bind].
  2: { rewrite Z.add_0_l. by apply IH. }
  replace (consumed + charge * (1 + extra (S i) coins)) with (consumed + charge + charge * extra (S i) coins) by ring.
  unfold consume_gas. rewrite (proj2 (Z.leb_gt (2 ^ 64) (consumed + charge))) by lia. destruct (Z.ltb_spec limit (consumed + charge)); cbn [st_bind].
  - by rewrite (proj2 (Z.leb_gt _ _)) by lia.
  - apply IH; lia.
Qed.

Lemma served_In s coins c n :
  In (mkBalance c n) (served s coins) <-> exists d, In (mkCoin d n) coins /\ GetCoinAddress s d = Ok c.
Proof.
  unfold served. rewrite <-list_elem_of_In, list_elem_of_omap. split.
  - intros ([d m] & Hin & Hg). cbn in Hg. exists d. apply list_elem_of_In in Hin. case_match; simplify_eq. done.
  - intros (d & Hin & Hg). exists (mkCoin d n). rewrite list_elem_of_In. split; [done|]. cbn. by rewrite Hg.
Qed.

Lemma pair_address s id p :
  tokens_ok s -> er_pairs s !! id = Some p ->
  GetCoinAddress s (Denom p) = Ok (GetERC20Contract p) /\ GetTokenPair s (GetERC20Map s (GetERC20Contract p)) = Some p.
Proof.
  intros [T1 _ _] Hp. destruct (T1 _ _ Hp) as (_ & _ & Ha & Hd).
  unfold GetCoinAddress, GetDenomMap, GetERC20Map, GetTokenPair. by rewrite Ha, Hd, Hp.
Qed.

Lemma coin_address_pair s d c :
  tokens_ok s -> GetCoinAddress s d = Ok c ->
  (exists p, GetTokenPair s (GetERC20Map s c) = Some p /\ Denom p = d) \/
  (er_byDenom s !! d = None /\ GetIBCDenomAddress d = Ok c).
Proof.
  intros [T1 T2 T3]. unfold GetCoinAddress, GetDenomMap. destruct (er_byDenom s !! d) as [id|] eqn:Hd; [|by right].
  intros E. left. destruct (T3 _ _ Hd) as (p & Hp & <-). destruct (T1 _ _ Hp) as (_ & _ & Ha & _).
  unfold GetTokenPair in E. rewrite Hp in E. injection E as <-. exists p. unfold GetERC20Map. by rewrite Ha.
Qed.

(** the answer to a query over coins: the coins with a contract, for the price of
    every coin after the first *)
Definition answers s (limit consumed charge : Z) (coins : list Coin) (m : Z * res ret) : Prop :=
  if consumed + charge * extra 0 coins <=? limit
  then m = (consumed + charge * extra 0 coins, Ok (RBalances (served s coins)))
  else m.2 = Err ErrOutOfGas.

Lemma coin_query s limit consumed charge coins :
  0 <= charge -> 0 <= consumed <= limit -> limit + charge < 2 ^ 64 ->
  answers s limit consumed charge coins
    (st_bind (coin_balances s limit charge 0 consumed [] coins) (fun consumed l => (consumed, Ok (RBalances l)))).
Proof.
  intros Hc Hk Hl. pose proof (coin_balances_spec s limit charge coins 0 consumed [] Hc Hk Hl) as Hq. unfold answers.
  destruct (_ <=? _); [by rewrite Hq|]. destruct (coin_balances _ _ _ _ _ _ _) as [k r]. cbn in Hq. by subst r.
Qed.

(** The bank precompile serves the pairs of the ERC-20 module. In a state
    whose indexes of the pairs agree, [balances] and [totalSupply] answer exactly
    the coins that have a contract, with the amounts of the bank, when the gas
    covers every coin after the first, and run out of gas otherwise; each pair is
    in the answer when there is any of its coin, and [supplyOf] its contract is
    the supply of its coin. So what [totalSupply] lists for a contract is what
    [supplyOf] answers for it, unless the coin is an IBC coin without a pair,
    whose address the module only derives. *)
Theorem bank_queries_serve_pairs s limit consumed :
  tokens_ok s -> 0 <= consumed <= limit -> limit + GasBalances < 2 ^ 64 ->
  (forall a, answers s limit consumed GasBalances (bk_AccountBalances (bank_of s) a)
               (HandleMethod s limit consumed "balances" [VAddress a])) /\
  (forall args, answers s limit consumed GasTotalSupply (bk_TotalSupply (bank_of s))
                  (HandleMethod s limit consumed "totalSupply" args)) /\
  (forall id p, er_pairs s !! id = Some p ->
     let c := GetERC20Contract p in
     let supply := bk_GetSupply (bank_of s) (Denom p) in
     HandleMethod s limit consumed "supplyOf" [VAddress c] = (consumed, Ok (RBig supply)) /\
     (supply <> 0 -> In (mkBalance c supply) (served s (bk_TotalSupply (bank_of s)))) /\
     (forall a, let n := bk_GetBalance (bank_of s) a (Denom p) in
        n <> 0 -> In (mkBalance c n) (served s (bk_AccountBalances (bank_of s) a)))) /\
  (forall c n, In (mkBalance c n) (served s (bk_TotalSupply (bank_of s))) ->
     HandleMethod s limit consumed "supplyOf" [VAddress c] = (consumed, Ok (RBig n)) \/
     exists d, er_byDenom s !! d = None /\ GetIBCDenomAddress d = Ok c /\ n = bk_GetSupply (bank_of s) d).
Proof.
  intros Ht Hk Hl. assert (Hg : 0 <= GasTotalSupply <= GasBalances) by (unfold GasTotalSupply, GasBalances; lia).
  assert (Hs : forall c p, GetTokenPair s (GetERC20Map s c) = Some p ->
    HandleMethod s limit consumed "supplyOf" [VAddress c] = (consumed, Ok (RBig (bk_GetSupply (bank_of s) (Denom p))))).
  { intros c p Hp. cbn. by rewrite Hp. }
  split_and!.
  - intros a. apply coin_query; lia.
  - intros args. apply coin_query; lia.
  - intros id p Hp. destruct (pair_address _ _ _ Ht Hp) as [Hd Ha]. cbv zeta. split_and!.
    + by apply Hs.
    + intros Hn. apply served_In. exists (Denom p). split; [by apply bk_supply_all|done].
    + intros a Hn. apply served_In. exists (Denom p). split; [by apply bk_account_all|done].
  - intros c n Hin. apply served_In in Hin as (d & Hin & Hd). apply bk_supply_amount in Hin as Hn. cbn in Hn.
    destruct (coin_address_pair _ _ _ Ht Hd) as [(p & Hp & <-)|[Hnone Hi]].
    + left. rewrite Hn. by apply Hs.
    + right. by exists d.
Qed.

(** Coins without a contract are not in the answer, and are paid for all the
    same. *)
Theorem unserved_coins_cost_gas s limit consumed a :
  0 <= consumed -> served s (bk_AccountBalances (bank_of s) a) = [] ->
  let n := Z.of_nat (length (bk_AccountBalances (bank_of s) a)) in
  1 <= n -> consumed + GasBalances * (n - 1) <= limit -> limit + GasBalances < 2 ^ 64 ->
  HandleMethod s limit consumed "balances" [VAddress a] = (consumed + GasBalances * (n - 1), Ok (RBalances [])).
Proof.
  intros Hk Hs n Hn Hc Hl.
  assert (He : extra 0 (bk_AccountBalances (bank_of s) a) = n - 1) by (unfold extra; cbn [Nat.eqb]; lia).
  pose proof (coin_query s limit consumed GasBalances (bk_AccountBalances (bank_of s) a)) as Hq.
  unfold answers in Hq. rewrite He, Hs, (proj2 (Z.leb_le _ _) Hc) in Hq. apply Hq; unfold GasBalances in *; lia.
Qed.
End Theorems.

(** ** A bank of maps *)

Definition cb_account (b : cbank) (a : address) : list Coin :=
  omap (fun '((x, d), n) => if x =? a then Some (mkCoin d n) else None) (map_to_list b).
Definition cb_supply (b : cbank) (d : string) : Z :=
  foldr (fun '((_, e), n) t => if String.eqb e d then n + t else t) 0 (map_to_list b).
Definition cb_denoms (b : cbank) : list string := remove_dups (map (fun '((_, d), _) => d) (map_to_list b)).

Lemma cb_supply_none (l : list (address * string * Z)) d :
  d ∉ map (fun '((_, e), _) => e) l -> foldr (fun '((_, e), n) t => if String.eqb e d then n + t else t) 0 l = 0.
Proof.
  induction l as [|[[x e] n] l IH]; cbn; [done|]. rewrite not_elem_of_cons. intros [Hd Hl].
  destruct (String.eqb_spec e d); [congruence|]. by apply IH.
Qed.

#[export, refine] Instance c_bank_queries : BankQueries cbank := {|
  bk_AccountBalances := cb_account;
  bk_TotalSupply b := map (fun d => mkCoin d (cb_supply b d)) (cb_denoms b);
  bk_GetSupply := cb_supply
|}.
Proof.
  - intros b a c Hin. unfold cb_account in Hin. apply list_elem_of_In, list_elem_of_omap in Hin as ([[x d] n] & Hin & Hc).
    apply elem_of_map_to_list in Hin. destruct (Z.eqb_spec x a); [|done]. injection Hc as <-. subst x. cbn.
    unfold cb_balance. by rewrite Hin.
  - intros b a d Hn. unfold cb_account. apply list_elem_of_In, list_elem_of_omap. cbn in *. unfold cb_balance in *.
    destruct (b !! (a, d)) as [n|] eqn:Hb; [|done]. exists ((a, d), n). split; [by apply elem_of_map_to_list|].
    by rewrite Z.eqb_refl.
  - intros b c Hin. apply in_map_iff in Hin as (d & <- & _). done.
  - intros b d Hn. apply in_map_iff. exists d. split; [done|]. apply list_elem_of_In. unfold cb_denoms.
    rewrite elem_of_remove_dups. destruct (decide (d ∈ map (fun '((_, e), _) => e) (map_to_list b))); [done|].
    exfalso. apply Hn. by apply cb_supply_none.
Defined.

(** account 1 has converted 30 of its tokens; it pays for the EVM coin that it
    also has, which has no contract *)
Lemma bank_queries_serve_pairs_witness :
  HandleMethod c_erc3 10000 0 "balances" [VAddress 1] = (GasBalances, Ok (RBalances [mkBalance c_token 30])) /\
  HandleMethod c_erc3 10000 0 "supplyOf" [VAddress c_token] = (0, Ok (RBig 30)).
Proof.
  assert (Hp : forall t e, ParseHexHash (Erc20Env := c_erc20) t <> Panic e) by done.
  assert (Ht : tokens_ok c_erc3) by (apply ConvertERC20_tokens; apply c_erc1_tokens).
  destruct (bank_queries_serve_pairs Hp c_erc3 10000 0 Ht) as (H1 & _ & H3 & _); [lia|by vm_compute|].
  split.
  - specialize (H1 1). vm_compute in H1. vm_compute. exact H1.
  - destruct (H3 (GetID c_pair) c_pair) as [H _]; [by vm_compute|]. vm_compute in H. vm_compute. exact H.
Defined.
