(* ===== verification/GovPrecompile.v ===== *)
(** * The governance precompile ([precompiles/gov])

    Votes and the queries of the governance module. The module's keeper is SDK
    code and appears as the class [GovKeeper]; protobuf pointers that the code
    reads without a check are options, and reading [None] is the panic of a nil
    pointer. Times are Unix seconds. *)

From stdpp Require Import base gmap list numbers strings.
From Stdlib Require Import ZArith Lia.
From S2P Require Import Prelude SdkMath Scaling AccessList StateDB TxData Precompile NativePrecompile.
Import Native.

Module Gov.

Definition ErrDifferentOrigin : error := "tx origin address does not match the voter address".
Definition ErrInvalidVoter : error := "invalid voter address".
Definition ErrInvalidProposalID : error := "invalid proposal id".
Definition ErrInvalidOption : error := "invalid option".
Definition ErrInvalidMetadata : error := "invalid metadata".
Definition ErrInvalidDepositor : error := "invalid depositor".

(** conversions of Go to [uint32] and [int32] *)
Definition to_uint32 (z : Z) : Z := z `mod` 2 ^ 32.
Definition to_int32 (z : Z) : Z := (z + 2 ^ 31) `mod` 2 ^ 32 - 2 ^ 31.

(** ** Messages and answers of the governance module *)

(** an option and its weight, a decimal text *)
Abbreviation WeightedVoteOptions := (list (Z * string)).

Record MsgVote := mkMsgVote { mv_ProposalId : Z; mv_Voter : string; mv_Option : Z; mv_Metadata : string }.
Record MsgVoteWeighted := mkMsgVoteWeighted {
  mw_ProposalId : Z; mw_Voter : string; mw_Options : WeightedVoteOptions; mw_Metadata : string
}.

Record Vote := mkVote { vt_ProposalId : Z; vt_Voter : string; vt_Options : WeightedVoteOptions; vt_Metadata : string }.
Record Deposit := mkDeposit { dp_ProposalId : Z; dp_Depositor : string; dp_Amount : list Coin }.
Record TallyResultData := mkTally { Yes : string; Abstain : string; No : string; NoWithVeto : string }.
Record Proposal := mkProposal {
  pp_Id : Z;
  pp_Messages : list string;
  pp_Status : Z;
  pp_FinalTallyResult : option TallyResultData;
  pp_SubmitTime : option Z;
  pp_DepositEndTime : option Z;
  pp_TotalDeposit : list Coin;
  pp_VotingStartTime : option Z;
  pp_VotingEndTime : option Z;
  pp_Metadata : string;
  pp_Title : string;
  pp_Summary : string;
  pp_Proposer : string
}.

(** durations in nanoseconds; they are pointers too *)
Record Params := mkParams {
  gp_VotingPeriod : option Z;
  gp_MinDeposit : list Coin;
  gp_MaxDepositPeriod : option Z;
  gp_Quorum : string;
  gp_Threshold : string;
  gp_VetoThreshold : string;
  gp_MinInitialDepositRatio : string;
  gp_ProposalCancelRatio : string;
  gp_ProposalCancelDest : string;
  gp_ExpeditedVotingPeriod : option Z;
  gp_ExpeditedThreshold : string;
  gp_ExpeditedMinDeposit : list Coin;
  gp_BurnVoteQuorum : bool;
  gp_BurnProposalDepositPrevote : bool;
  gp_BurnVoteVeto : bool;
  gp_MinDepositRatio : string
}.

Record QueryProposalsRequest := mkQueryProposalsRequest {
  qp_Status : Z; qp_Voter : string; qp_Depositor : string; qp_Pagination : PageRequest
}.

(** The message server and the queries. A vote is stored under its proposal and
    voter, a simple one as its option with the whole weight. *)
Definition whole_weight : string := "1.000000000000000000".

Class GovKeeper (chain : Type) := {
  gk_Vote : chain -> MsgVote -> chain * res unit;
  gk_VoteWeighted : chain -> MsgVoteWeighted -> chain * res unit;
  q_Votes : chain -> Z -> PageRequest -> res (list Vote * option PageResponse);
  q_Vote : chain -> Z -> string -> res Vote;
  q_Deposit : chain -> Z -> string -> res Deposit;
  q_Deposits : chain -> Z -> PageRequest -> res (list Deposit * option PageResponse);
  q_TallyResult : chain -> Z -> res TallyResultData;
  q_Proposal : chain -> Z -> res Proposal;
  q_Proposals : chain -> QueryProposalsRequest -> res (list Proposal * option PageResponse);
  q_Params : chain -> res Params;
  gk_vote : forall c m c', gk_Vote c m = (c', Ok ()) -> forall id v,
    q_Vote c' id v = if decide (id = mv_ProposalId m /\ v = mv_Voter m)
                     then Ok (mkVote id v [(mv_Option m, whole_weight)] (mv_Metadata m)) else q_Vote c id v;
  gk_vote_weighted : forall c m c', gk_VoteWeighted c m = (c', Ok ()) -> forall id v,
    q_Vote c' id v = if decide (id = mw_ProposalId m /\ v = mw_Voter m)
                     then Ok (mkVote id v (mw_Options m) (mw_Metadata m)) else q_Vote c id v
}.

(** ** The structs of the ABI ([types.go]) *)

Record WeightedVote := mkWeightedVote {
  wv_ProposalId : Z; wv_Voter : address; wv_Options : WeightedVoteOptions; wv_Metadata : string
}.
Record DepositData := mkDepositData { dd_ProposalId : Z; dd_Depositor : address; dd_Amount : list Coin }.
Record ProposalData := mkProposalData {
  pd_Id : Z;
  pd_Messages : list string;
  pd_Status : Z;
  pd_FinalTallyResult : TallyResultData;
  pd_SubmitTime : Z;
  pd_DepositEndTime : Z;
  pd_TotalDeposit : list Coin;
  pd_VotingStartTime : Z;
  pd_VotingEndTime : Z;
  pd_Metadata : string;
  pd_Title : string;
  pd_Summary : string;
  pd_Proposer : address
}.
Record ParamsOutput := mkParamsOutput {
  po_VotingPeriod : Z;
  po_MinDeposit : list Coin;
  po_MaxDepositPeriod : Z;
  po_Quorum : string;
  po_Threshold : string;
  po_VetoThreshold : string;
  po_MinInitialDepositRatio : string;
  po_ProposalCancelRatio : string;
  po_ProposalCancelDest : string;
  po_ExpeditedVotingPeriod : Z;
  po_ExpeditedThreshold : string;
  po_ExpeditedMinDeposit : list Coin;
  po_BurnVoteQuorum : bool;
  po_BurnProposalDepositPrevote : bool;
  po_BurnVoteVeto : bool;
  po_MinDepositRatio : string
}.

(** a read through a pointer *)
Definition deref {A} (p : option A) : res A := match p with Some x => Ok x | None => Panic PanicNil end.

Section Args.
Context `{!Bech32}.

Definition NewMsgVote (args : list abi_value) : res (MsgVote * address) :=
  match args with
  | [a0; a1; a2; a3] =>
      let? voterAddress := arg_address_nz ErrInvalidVoter a0 in
      let? proposalID := arg_uint64 ErrInvalidProposalID a1 in
      let? option := arg_uint8 ErrInvalidOption a2 in
      let? metadata := arg_string ErrInvalidMetadata a3 in
      Ok (mkMsgVote proposalID (AccAddress_String voterAddress) option metadata, voterAddress)
  | _ => Err ErrInvalidNumberOfArgs
  end.

Definition NewMsgVoteWeighted (args : list abi_value) : res (MsgVoteWeighted * address * WeightedVoteOptions) :=
  match args with
  | [a0; a1; a2; a3] =>
      let? voterAddress := arg_address_nz ErrInvalidVoter a0 in
      let? proposalID := arg_uint64 ErrInvalidProposalID a1 in
      let? options := match a2 with VOptions l => Ok l | _ => Err ErrUnpackArgs end in
      let weightedOptions := map (fun o => (o.1, o.2)) options in
      let? metadata := arg_string ErrInvalidMetadata a3 in
      Ok (mkMsgVoteWeighted proposalID (AccAddress_String voterAddress) weightedOptions metadata, voterAddress, options)
  | _ => Err ErrInvalidNumberOfArgs
  end.

Definition ParseVotesArgs (args : list abi_value) : res (Z * PageRequest) :=
  match args with
  | [a0; a1] =>
      let? proposalId := arg_uint64 ErrUnpackArgs a0 in
      let? pagination := arg_page ErrUnpackArgs a1 in
      Ok (proposalId, pagination)
  | _ => Err ErrInvalidNumberOfArgs
  end.

Definition ParseVoteArgs (args : list abi_value) : res (Z * string) :=
  match args with
  | [a0; a1] =>
      let? proposalID := arg_uint64 ErrInvalidProposalID a0 in
      let? voter := arg_address ErrInvalidVoter a1 in
      Ok (proposalID, AccAddress_String voter)
  | _ => Err ErrInvalidNumberOfArgs
  end.

Definition ParseDepositArgs (args : list abi_value) : res (Z * string) :=
  match args with
  | [a0; a1] =>
      let? proposalID := arg_uint64 ErrInvalidProposalID a0 in
      let? depositor := arg_address ErrInvalidDepositor a1 in
      Ok (proposalID, AccAddress_String depositor)
  | _ => Err ErrInvalidNumberOfArgs
  end.

Definition ParseDepositsArgs (args : list abi_value) : res (Z * PageRequest) :=
  match args with
  | [a0; a1] =>
      let? proposalId := arg_uint64 ErrUnpackArgs a0 in
      let? pagination := arg_page ErrUnpackArgs a1 in
      Ok (proposalId, pagination)
  | _ => Err ErrInvalidNumberOfArgs
  end.

Definition ParseTallyResultArgs (args : list abi_value) : res Z :=
  match args with [a0] => arg_uint64 ErrInvalidProposalID a0 | _ => Err ErrInvalidNumberOfArgs end.

Definition ParseProposalArgs (args : list abi_value) : res Z :=
  match args with [a0] => arg_uint64 ErrInvalidProposalID a0 | _ => Err ErrInvalidNumberOfArgs end.

Definition ParseProposalsArgs (args : list abi_value) : res QueryProposalsRequest :=
  match args with
  | [a0; a1; a2; a3] =>
      let? proposalStatus := arg_uint32 ErrUnpackArgs a0 in
      let? voterAddr := arg_address ErrUnpackArgs a1 in
      let? depositorAddr := arg_address ErrUnpackArgs a2 in
      let? pagination := arg_page ErrUnpackArgs a3 in
      let voter := if negb (voterAddr =? 0) then AccAddress_String voterAddr else "" in
      let depositor := if negb (depositorAddr =? 0) then AccAddress_String depositorAddr else "" in
      Ok (mkQueryProposalsRequest (to_int32 proposalStatus) voter depositor pagination)
  | _ => Err ErrInvalidNumberOfArgs
  end.

Definition BuildQueryParamsRequest (args : list abi_value) : res unit :=
  match args with [] => Ok () | _ => Err ErrInvalidNumberOfArgs end.

(** [utils.Bech32ToHexAddr] *)
Definition Bech32ToHexAddr (bech32Addr : string) : res address :=
  let? accAddr := AccAddressFromBech32 bech32Addr in Ok (BytesToAddress accAddr).

(** *** [FromResponse]: [None] is the nil pointer that stands for a failed
    conversion of an address *)

Definition abi_options (l : WeightedVoteOptions) : WeightedVoteOptions := map (fun opt => (wrap8 opt.1, opt.2)) l.

Definition vote_FromResponse (v : Vote) : option WeightedVote :=
  match Bech32ToHexAddr (vt_Voter v) with
  | Ok hexVoter => Some (mkWeightedVote (vt_ProposalId v) hexVoter (abi_options (vt_Options v)) (vt_Metadata v))
  | _ => None
  end.

Definition page_FromResponse (page : option PageResponse) : PageResponse :=
  match page with Some pg => mkPageResponse (ps_NextKey pg) (ps_Total pg) | None => mkPageResponse [] 0 end.

Fixpoint all_some {A} (l : list (option A)) : option (list A) :=
  match l with
  | [] => Some []
  | None :: _ => None
  | Some x :: l => match all_some l with Some r => Some (x :: r) | None => None end
  end.

Definition votes_FromResponse (l : list Vote) (page : option PageResponse) : option (list WeightedVote * PageResponse) :=
  match all_some (map vote_FromResponse l) with
  | Some votes => Some (votes, page_FromResponse page)
  | None => None
  end.

Definition deposit_FromResponse (d : Deposit) : option DepositData :=
  match Bech32ToHexAddr (dp_Depositor d) with
  | Ok hexDepositor =>
      Some (mkDepositData (dp_ProposalId d) hexDepositor
              (map (fun c => mkCoin (coin_Denom c) (coin_Amount c)) (dp_Amount d)))
  | _ => None
  end.

Definition deposits_FromResponse (l : list Deposit) (page : option PageResponse)
    : option (list DepositData * PageResponse) :=
  match all_some (map deposit_FromResponse l) with
  | Some deposits => Some (deposits, page_FromResponse page)
  | None => None
  end.

Definition tally_FromResponse (t : TallyResultData) : TallyResultData :=
  mkTally (Yes t) (Abstain t) (No t) (NoWithVeto t).

(** The times and the tally are read through their pointers. *)
Definition proposal_FromResponse (p : Proposal) : res (option ProposalData) :=
  match Bech32ToHexAddr (pp_Proposer p) with
  | Ok proposer =>
      let? tally := deref (pp_FinalTallyResult p) in
      let? submitTime := deref (pp_SubmitTime p) in
      let? depositEndTime := deref (pp_DepositEndTime p) in
      let? votingStartTime := deref (pp_VotingStartTime p) in
      let? votingEndTime := deref (pp_VotingEndTime p) in
      Ok (Some (mkProposalData (pp_Id p) (pp_Messages p) (to_uint32 (pp_Status p)) (tally_FromResponse tally)
                  (wrap64 submitTime) (wrap64 depositEndTime)
                  (map (fun c => mkCoin (coin_Denom c) (coin_Amount c)) (pp_TotalDeposit p))
                  (wrap64 votingStartTime) (wrap64 votingEndTime)
                  (pp_Metadata p) (pp_Title p) (pp_Summary p) proposer))
  | _ => Ok None
  end.

(** the loop of [ProposalsOutput.FromResponse] *)
Fixpoint proposals_data (l : list Proposal) : res (option (list ProposalData)) :=
  match l with
  | [] => Ok (Some [])
  | p :: l =>
      let? o := proposal_FromResponse p in
      match o with
      | None => Ok None
      | Some d =>
          let? rest := proposals_data l in
          Ok (match rest with Some r => Some (d :: r) | None => None end)
      end
  end.

Definition proposals_FromResponse (l : list Proposal) (page : option PageResponse)
    : res (option (list ProposalData * PageResponse)) :=
  let? o := proposals_data l in
  Ok (match o with Some r => Some (r, page_FromResponse page) | None => None end).

Definition params_FromResponse (p : Params) : res ParamsOutput :=
  let? votingPeriod := deref (gp_VotingPeriod p) in
  let? maxDepositPeriod := deref (gp_MaxDepositPeriod p) in
  let? expeditedVotingPeriod := deref (gp_ExpeditedVotingPeriod p) in
  Ok (mkParamsOutput votingPeriod (NewCoinsResponse (gp_MinDeposit p)) maxDepositPeriod (gp_Quorum p) (gp_Threshold p)
        (gp_VetoThreshold p) (gp_MinInitialDepositRatio p) (gp_ProposalCancelRatio p) (gp_ProposalCancelDest p)
        expeditedVotingPeriod (gp_ExpeditedThreshold p) (NewCoinsResponse (gp_ExpeditedMinDeposit p))
        (gp_BurnVoteQuorum p) (gp_BurnProposalDepositPrevote p) (gp_BurnVoteVeto p) (gp_MinDepositRatio p)).
End Args.

Section Precompile.
Context `{!Bech32} {authz chain : Type} `{!GovKeeper chain}.
Abbreviation state := (nstate authz chain).
Implicit Types s : state.

Inductive ret :=
  | RBool (b : bool)
  | RVote (v : WeightedVote)
  | RVotes (l : list WeightedVote) (page : PageResponse)
  | RDeposit (d : DepositData)
  | RDeposits (l : list DepositData) (page : PageResponse)
  | RTally (t : TallyResultData)
  | RProposal (p : ProposalData)
  | RProposals (l : list ProposalData) (page : PageResponse)
  | RParams (p : ParamsOutput).

(** ** Events ([events.go]) *)

Definition EmitVoteEvent s (voterAddress : address) (proposalID option : Z) : state :=
  add_log (mkLog "Vote" [VAddress voterAddress] [VUint64 proposalID; VUint8 (wrap8 option)]) s.

Definition EmitVoteWeightedEvent s (voterAddress : address) (proposalID : Z) (options : WeightedVoteOptions) : state :=
  add_log (mkLog "VoteWeighted" [VAddress voterAddress] [VUint64 proposalID; VOptions options]) s.

(** ** Transactions ([tx.go]) *)

Definition CastVote (origin caller : address) s (args : list abi_value) : state * res ret :=
  do? s, m := (s, NewMsgVote args) in
  let '(msg, voterHexAddr) := m in
  let isContractVoter := (caller =? voterHexAddr) && negb (caller =? origin) in
  if negb isContractVoter && negb (origin =? voterHexAddr) then (s, Err ErrDifferentOrigin)
  else
    do? s, _ := on_chain s (gk_Vote (ns_chain s) msg) in
    (EmitVoteEvent s voterHexAddr (mv_ProposalId msg) (mv_Option msg), Ok (RBool true)).

Definition VoteWeighted (origin caller : address) s (args : list abi_value) : state * res ret :=
  do? s, m := (s, NewMsgVoteWeighted args) in
  let '(msg, voterHexAddr, options) := m in
  let isContractVoter := (caller =? voterHexAddr) && negb (caller =? origin) in
  if negb isContractVoter && negb (origin =? voterHexAddr) then (s, Err ErrDifferentOrigin)
  else
    do? s, _ := on_chain s (gk_VoteWeighted (ns_chain s) msg) in
    (EmitVoteWeightedEvent s voterHexAddr (mw_ProposalId msg) options, Ok (RBool true)).

(** ** Queries ([query.go]): the output is read through the pointer that
    [FromResponse] returned *)

Definition GetVotes s (args : list abi_value) : res ret :=
  let? '(id, page) := ParseVotesArgs args in
  let? '(l, pg) := q_Votes (ns_chain s) id page in
  let? output := deref (votes_FromResponse l pg) in
  Ok (RVotes output.1 output.2).

Definition GetVote s (args : list abi_value) : res ret :=
  let? '(id, voter) := ParseVoteArgs args in
  let? v := q_Vote (ns_chain s) id voter in
  let? output := deref (vote_FromResponse v) in
  Ok (RVote output).

Definition GetDeposit s (args : list abi_value) : res ret :=
  let? '(id, depositor) := ParseDepositArgs args in
  let? d := q_Deposit (ns_chain s) id depositor in
  let? output := deref (deposit_FromResponse d) in
  Ok (RDeposit output).

Definition GetDeposits s (args : list abi_value) : res ret :=
  let? '(id, page) := ParseDepositsArgs args in
  let? '(l, pg) := q_Deposits (ns_chain s) id page in
  let? output := deref (deposits_FromResponse l pg) in
  Ok (RDeposits output.1 output.2).

Definition GetTallyResult s (args : list abi_value) : res ret :=
  let? id := ParseTallyResultArgs args in
  let? t := q_TallyResult (ns_chain s) id in
  Ok (RTally (tally_FromResponse t)).

Definition GetProposal s (args : list abi_value) : res ret :=
  let? id := ParseProposalArgs args in
  let? p := q_Proposal (ns_chain s) id in
  let? o := proposal_FromResponse p in
  let? output := deref o in
  Ok (RProposal output).

Definition GetProposals s (args : list abi_value) : res ret :=
  let? req := ParseProposalsArgs args in
  let? '(l, pg) := q_Proposals (ns_chain s) req in
  let? o := proposals_FromResponse l pg in
  let? output := deref o in
  Ok (RProposals output.1 output.2).

Definition GetParams s (args : list abi_value) : res ret :=
  let? _ := BuildQueryParamsRequest args in
  let? p := q_Params (ns_chain s) in
  let? output := params_FromResponse p in
  Ok (RParams output).

(** ** [gov.go] *)

Definition IsTransaction (method : string) : bool := bool_decide (method ∈ ["vote"; "voteWeighted"]).

Definition HandleMethod (origin caller : address) s (method : string) (args : list abi_value) : state * res ret :=
  if String.eqb method "vote" then CastVote origin caller s args
  else if String.eqb method "voteWeighted" then VoteWeighted origin caller s args
  else if String.eqb method "getVote" then (s, GetVote s args)
  else if String.eqb method "getVotes" then (s, GetVotes s args)
  else if String.eqb method "getDeposit" then (s, GetDeposit s args)
  else if String.eqb method "getDeposits" then (s, GetDeposits s args)
  else if String.eqb method "getTallyResult" then (s, GetTallyResult s args)
  else if String.eqb method "getProposal" then (s, GetProposal s args)
  else if String.eqb method "getProposals" then (s, GetProposals s args)
  else if String.eqb method "getParams" then (s, GetParams s args)
  else (s, Err ErrUnknownMethod).

Definition Run (abi : ABI abi_value) (origin caller : address) (readOnly : bool) (value : Z) (input : bytes)
    (enoughGas : bool) s : state * res ret :=
  do? s, method_args := (s, setup_call abi (fun m => IsTransaction (meth_Name m)) readOnly value input) in
  do? s, bz := HandleMethod origin caller s (meth_Name method_args.1) method_args.2 in
  if negb enoughGas then (s, Err ErrOutOfGas) else (s, Ok bz).

Definition RequiredGas (gc : GasConfig) (input : bytes) (method : option string) : res Z :=
  if (length input <? 4)%nat then Ok 0
  else match method with
       | None => Ok 0
       | Some m => Precompile.RequiredGas gc input (IsTransaction m)
       end.
End Precompile.
End Gov.
