(* ===== verification/GovPrecompileTheorems.v ===== *)
(** * Votes through the governance precompile *)

From stdpp Require Import base gmap list numbers strings.
From Stdlib Require Import ZArith Lia.
From S2P Require Import Prelude SdkMath Scaling AccessList StateDB TxData Precompile Concrete NativePrecompile StakingPrecompile NativeConcrete GovPrecompile.
Import Native Gov.

Section Theorems.
Context `{!Bech32} {authz chain : Type} `{!GovKeeper chain}.
Abbreviation state := (nstate authz chain).
Implicit Types s : state.

(** the vote that the arguments of a call ask for *)
Definition vote_args (method : string) (args : list abi_value) : res WeightedVote :=
  if String.eqb method "vote" then
    let? '(m, v) := NewMsgVote args in
    Ok (mkWeightedVote (mv_ProposalId m) v [(mv_Option m, whole_weight)] (mv_Metadata m))
  else
    let? '(m, v, options) := NewMsgVoteWeighted args in
    Ok (mkWeightedVote (mw_ProposalId m) v options (mw_Metadata m)).

(** an option of the ABI is a byte *)
Definition options_ok (l : WeightedVoteOptions) : Prop := Forall (fun o => 0 <= o.1 < 2 ^ 8) l.

Lemma abi_options_ok l : options_ok l -> abi_options l = l.
Proof.
  induction 1 as [|[o w] l Ho Hl IH]; [done|]. unfold abi_options in *. cbn in *. rewrite IH. unfold wrap8.
  by rewrite Z.mod_small.
Qed.

#[local] Arguments abi_options : simpl never.
#[local] Arguments BytesToAddress : simpl never.
#[local] Arguments addr_Bytes : simpl never.

Lemma same_options (l : WeightedVoteOptions) : map (fun o => (o.1, o.2)) l = l.
Proof. induction l as [|[o w] l IH]; cbn; [done|]. by rewrite IH. Qed.

Lemma NewMsgVote_voter args m v : NewMsgVote args = Ok (m, v) -> mv_Voter m = AccAddress_String v.
Proof. unfold NewMsgVote. intros E. destruct args as [|? [|? [|? [|? [|]]]]]; try done. inv_ok; done. Qed.

Lemma NewMsgVoteWeighted_voter args m v o :
  NewMsgVoteWeighted args = Ok (m, v, o) -> mw_Voter m = AccAddress_String v /\ mw_Options m = o.
Proof.
  unfold NewMsgVoteWeighted. intros E. destruct args as [|? [|? [|? [|? [|]]]]]; try done. inv_ok; cbn.
  split; [done|apply same_options].
Qed.

(** A vote that the module stored is what the query answers. *)
Lemma stored_vote s w :
  addr_ok (wv_Voter w) -> options_ok (wv_Options w) ->
  q_Vote (ns_chain s) (wv_ProposalId w) (AccAddress_String (wv_Voter w)) =
    Ok (mkVote (wv_ProposalId w) (AccAddress_String (wv_Voter w)) (wv_Options w) (wv_Metadata w)) ->
  GetVote s [VUint64 (wv_ProposalId w); VAddress (wv_Voter w)] = Ok (RVote w).
Proof.
  intros Ha Ho Hq. unfold GetVote, ParseVoteArgs. cbn. rewrite Hq. cbn. unfold vote_FromResponse, Bech32ToHexAddr.
  cbn. rewrite (AccAddress_roundtrip _ Ha). cbn. rewrite (abi_options_ok _ Ho), (BytesToAddress_Bytes _ Ha).
  by destruct w.
Qed.

Lemma voter_allowed origin caller v :
  negb ((caller =? v) && negb (caller =? origin)) && negb (origin =? v) = false -> v = origin \/ v = caller.
Proof. destruct (Z.eqb_spec caller v), (Z.eqb_spec caller origin), (Z.eqb_spec origin v); cbn; intros; subst; auto; done. Qed.

(** What both kinds of votes do. *)
Definition recorded s s' (w : WeightedVote) : Prop :=
  ns_authz s' = ns_authz s /\ ns_entries s' = ns_entries s /\ (exists l, ns_logs s' = ns_logs s ++ [l]) /\
  forall id v, q_Vote (ns_chain s') id v =
    if decide (id = wv_ProposalId w /\ v = AccAddress_String (wv_Voter w))
    then Ok (mkVote id v (wv_Options w) (wv_Metadata w)) else q_Vote (ns_chain s) id v.

Lemma CastVote_recorded origin caller s args s' r :
  CastVote origin caller s args = (s', Ok r) ->
  exists w, vote_args "vote" args = Ok w /\ (wv_Voter w = origin \/ wv_Voter w = caller) /\ recorded s s' w.
Proof.
  intros E. unfold CastVote in E. inv_do E. destruct a as [m v]. cbv zeta in E.
  destruct (negb _ && negb _) eqn:Hv; [done|]. inv_do E. destruct a. injection E as <- _.
  apply on_chain_Ok in E1 as (c & E1 & ->). eexists. split; [|split].
  - unfold vote_args. cbn [String.eqb Ascii.eqb Bool.eqb]. rewrite E0. cbn. reflexivity.
  - cbn. by apply voter_allowed.
  - split_and!; [done|done|by eexists|]. intros id x. cbn. rewrite (gk_vote _ _ _ E1), (NewMsgVote_voter _ _ _ E0). done.
Qed.

Lemma VoteWeighted_recorded origin caller s args s' r :
  VoteWeighted origin caller s args = (s', Ok r) ->
  exists w, vote_args "voteWeighted" args = Ok w /\ (wv_Voter w = origin \/ wv_Voter w = caller) /\ recorded s s' w.
Proof.
  intros E. unfold VoteWeighted in E. inv_do E. destruct a as [[m v] o]. cbv zeta in E.
  destruct (negb _ && negb _) eqn:Hv; [done|]. inv_do E. destruct a. injection E as <- _.
  apply on_chain_Ok in E1 as (c & E1 & ->). eexists. split; [|split].
  - unfold vote_args. cbn [String.eqb Ascii.eqb Bool.eqb]. rewrite E0. cbn. reflexivity.
  - cbn. by apply voter_allowed.
  - destruct (NewMsgVoteWeighted_voter _ _ _ _ E0) as [Hw Ho].
    split_and!; [done|done|by eexists|]. intros id x. cbn. by rewrite (gk_vote_weighted _ _ _ E1), Hw, Ho.
Qed.

(** A vote is recorded and read back. When [vote] or [voteWeighted]
    succeeds, the voter is the signer of the transaction or the calling
    contract, and [getVote] for the proposal and the voter then answers the
    options and the metadata of the call; every other vote is as before, no
    grant and no balance changes, and one event is logged. *)
Theorem gov_vote_is_recorded origin caller s method args s' r :
  IsTransaction method = true -> HandleMethod origin caller s method args = (s', Ok r) ->
  exists w, vote_args method args = Ok w /\ (wv_Voter w = origin \/ wv_Voter w = caller) /\ r = RBool true /\
    (addr_ok (wv_Voter w) -> options_ok (wv_Options w) -> forall o c,
       HandleMethod o c s' "getVote" [VUint64 (wv_ProposalId w); VAddress (wv_Voter w)] = (s', Ok (RVote w))) /\
    recorded s s' w.
Proof.
  intros Hm E. unfold IsTransaction in Hm. apply bool_decide_eq_true in Hm. rewrite !elem_of_cons, elem_of_nil in Hm.
  assert (Hr : r = RBool true /\ exists w, vote_args method args = Ok w /\
    (wv_Voter w = origin \/ wv_Voter w = caller) /\ recorded s s' w).
  { destruct Hm as [->|[->|[]]]; unfold HandleMethod in E; cbn [String.eqb Ascii.eqb Bool.eqb] in E; split;
      [|by eapply CastVote_recorded| |by eapply VoteWeighted_recorded].
    - unfold CastVote in E. inv_do E. destruct a. cbv zeta in E. case_match; [done|]. inv_do E. by injection E.
    - unfold VoteWeighted in E. inv_do E. destruct a as [[? ?] ?]. cbv zeta in E. case_match; [done|]. inv_do E.
      by injection E. }
  destruct Hr as (-> & w & Hw & Hv & Hrec). exists w. split_and!; [done|done|done| |done].
  intros Ha Ho o c. unfold HandleMethod. cbn [String.eqb Ascii.eqb Bool.eqb]. rewrite (stored_vote _ _ Ha Ho); [done|].
  destruct Hrec as (_ & _ & _ & Hq). rewrite Hq. by rewrite decide_True.
Qed.

(** A proposal that is not yet voted on has no start of the voting period, and
    asking for it, alone or in a list, reads a nil pointer. *)
Theorem proposal_before_voting_panics o c s id p :
  q_Proposal (ns_chain s) id = Ok p -> pp_VotingStartTime p = None ->
  pp_FinalTallyResult p <> None -> pp_SubmitTime p <> None -> pp_DepositEndTime p <> None ->
  HandleMethod o c s "getProposal" [VUint64 id] = (s, Panic PanicNil).
Proof.
  intros Hq Hv Ht Hs Hd. unfold HandleMethod. cbn [String.eqb Ascii.eqb Bool.eqb]. unfold GetProposal. cbn. rewrite Hq. cbn.
  unfold proposal_FromResponse. destruct (Bech32ToHexAddr _); [|done..]. rewrite Hv.
  destruct (pp_FinalTallyResult p), (pp_SubmitTime p), (pp_DepositEndTime p); done.
Qed.

Lemma proposals_panic (l : list Proposal) p :
  In p l -> pp_VotingStartTime p = None ->
  Forall (fun q => pp_FinalTallyResult q <> None /\ pp_SubmitTime q <> None /\ pp_DepositEndTime q <> None /\
                   exists a, Bech32ToHexAddr (pp_Proposer q) = Ok a) l ->
  exists e, proposals_data l = Panic e.
Proof.
  intros Hin Hv Hl. induction Hl as [|q l (Ht & Hs & Hd & a & Ha) Hl IH]; [done|].
  cbn [proposals_data]. unfold proposal_FromResponse. rewrite Ha.
  destruct (pp_FinalTallyResult q), (pp_SubmitTime q), (pp_DepositEndTime q); try done. cbn.
  destruct (pp_VotingStartTime q) eqn:Hq; [|by eexists]. cbn. destruct (pp_VotingEndTime q); [|by eexists]. cbn.
  destruct Hin as [->|Hin]; [congruence|]. destruct (IH Hin) as [e ->]. by eexists.
Qed.

(** One proposal before its voting period is enough to make the list panic. *)
Theorem proposals_before_voting_panic o c s args req l pg p :
  ParseProposalsArgs args = Ok req -> q_Proposals (ns_chain s) req = Ok (l, pg) ->
  In p l -> pp_VotingStartTime p = None ->
  Forall (fun q => pp_FinalTallyResult q <> None /\ pp_SubmitTime q <> None /\ pp_DepositEndTime q <> None /\
                   exists a, Bech32ToHexAddr (pp_Proposer q) = Ok a) l ->
  exists e, HandleMethod o c s "getProposals" args = (s, Panic e).
Proof.
  intros Ha Hq Hin Hv Hl. destruct (proposals_panic _ _ Hin Hv Hl) as [e He]. exists e.
  unfold HandleMethod. cbn [String.eqb Ascii.eqb Bool.eqb]. unfold GetProposals. rewrite Ha. cbn. rewrite Hq. cbn.
  unfold proposals_FromResponse. by rewrite He.
Qed.

(** Read-only calls leave the state as it is. *)
Theorem gov_queries_do_not_write abi origin caller value input gas s :
  (Run abi origin caller true value input gas s).1 = s.
Proof.
  unfold Run. destruct (setup_call _ _ _ _ _) as [[m args]| |] eqn:Es; [|done..].
  apply setup_call_read_only in Es. unfold IsTransaction in Es. apply bool_decide_eq_false in Es.
  rewrite !not_elem_of_cons in Es. cbn [st_bind fst snd].
  apply (st_bind_fst (fun s' => s' = s)); [|intros s1 bz ->; by destruct gas].
  destruct Es as (? & ? & _). unfold HandleMethod.
  repeat match goal with |- context [String.eqb (meth_Name m) ?k] =>
    destruct (String.eqb_spec (meth_Name m) k); [first [congruence|done]|] end. done.
Qed.
End Theorems.

(** ** A module that stores votes and proposals *)

Record c_gov := mkCGov { cg_votes : gmap (Z * string) Vote; cg_proposals : gmap Z Proposal }.

Definition c_store_vote (c : c_gov) (v : Vote) : c_gov * res unit :=
  if bool_decide (is_Some (cg_proposals c !! vt_ProposalId v))
  then (mkCGov (<[(vt_ProposalId v, vt_Voter v) := v]> (cg_votes c)) (cg_proposals c), Ok ())
  else (c, Err "inactive proposal").

Definition c_find_vote (c : c_gov) (id : Z) (voter : string) : res Vote :=
  match cg_votes c !! (id, voter) with
  | Some v => Ok (mkVote id voter (vt_Options v) (vt_Metadata v))
  | None => Err "voter not found"
  end.

Lemma c_store_find c v c' id x :
  c_store_vote c v = (c', Ok ()) ->
  c_find_vote c' id x = if decide (id = vt_ProposalId v /\ x = vt_Voter v)
                        then Ok (mkVote id x (vt_Options v) (vt_Metadata v)) else c_find_vote c id x.
Proof.
  unfold c_store_vote, c_find_vote. case_match; [|done]. intros [= <-]. cbn. case_decide as Hd.
  - destruct Hd as [-> ->]. by rewrite lookup_insert_eq.
  - rewrite lookup_insert_ne; [done|]. intros Hk. apply Hd. by simplify_eq.
Qed.

#[export, refine] Instance c_gov_keeper : GovKeeper c_gov := {|
  gk_Vote c m := c_store_vote c (mkVote (mv_ProposalId m) (mv_Voter m) [(mv_Option m, whole_weight)] (mv_Metadata m));
  gk_VoteWeighted c m := c_store_vote c (mkVote (mw_ProposalId m) (mw_Voter m) (mw_Options m) (mw_Metadata m));
  q_Votes c id page := Ok ([], None);
  q_Vote := c_find_vote;
  q_Deposit c id d := Err "not found";
  q_Deposits c id page := Ok ([], None);
  q_TallyResult c id := Err "not found";
  q_Proposal c id := match cg_proposals c !! id with Some p => Ok p | None => Err "not found" end;
  q_Proposals c req := Ok (map snd (map_to_list (cg_proposals c)), None);
  q_Params c := Err "not found"
|}.
Proof.
  - intros c m c' E id v. by rewrite (c_store_find _ _ _ _ _ E).
  - intros c m c' E id v. by rewrite (c_store_find _ _ _ _ _ E).
Defined.

(** a proposal in its deposit period *)
Definition w_proposal : Proposal :=
  mkProposal 7 [] 1 (Some (mkTally "0" "0" "0" "0")) (Some 10) (Some 20) [] None None "" "" "" "".
Definition w_gov : nstate unit c_gov := mkNstate () (mkCGov ∅ {[7 := w_proposal]}) [] [].
Definition w_vote : list abi_value := [VAddress 1; VUint64 7; VUint8 3; VString "no"].
Definition w_voted : nstate unit c_gov := (HandleMethod 1 1 w_gov "vote" w_vote).1.

Lemma gov_vote_is_recorded_witness :
  HandleMethod 2 2 w_voted "getVote" [VUint64 7; VAddress 1] =
    (w_voted, Ok (RVote (mkWeightedVote 7 1 [(3, whole_weight)] "no"))).
Proof.
  destruct (gov_vote_is_recorded 1 1 w_gov "vote" w_vote w_voted (RBool true)) as (w & Hw & _ & _ & Hg & _);
    [vm_compute; reflexivity|vm_compute; reflexivity|].
  vm_compute in Hw. injection Hw as <-. apply Hg; [by split|]. by repeat constructor.
Defined.

Example proposal_query_panics : (HandleMethod 2 2 w_gov "getProposal" [VUint64 7]).2 = Panic PanicNil.
Proof. vm_compute. reflexivity. Qed.
