(* ===== verification/SlashingPrecompile.v ===== *)
(** * The slashing and evidence precompiles ([precompiles/slashing], [precompiles/evidence])

    Unjailing of validators, signing infos, and evidence of double signing. The
    keepers are SDK code and appear as classes. *)

From stdpp Require Import base gmap list numbers strings.
From Stdlib Require Import ZArith Lia.
From S2P Require Import Prelude SdkMath Scaling AccessList StateDB TxData Precompile NativePrecompile.
Import Native.

Module Slashing.

Definition ErrInvalidValidatorHex : error := "invalid validator hex address".
Definition ErrInvalidConsensusAddress : error := "invalid consensus address".

(** the signing info as the module stores it, with the text of the address; the
    time is in Unix seconds *)
Record ValidatorSigningInfo := mkValidatorSigningInfo {
  vs_Address : string;
  vs_StartHeight : Z;
  vs_IndexOffset : Z;
  vs_JailedUntil : Z;
  vs_Tombstoned : bool;
  vs_MissedBlocksCounter : Z
}.

Record SigningInfo := mkSigningInfo {
  ValidatorAddress : address;
  StartHeight : Z;
  IndexOffset : Z;
  JailedUntil : Z;
  Tombstoned : bool;
  MissedBlocksCounter : Z
}.

(** The keeper: unjailing a validator, named by the text of its operator
    address, and the queries. *)
Class SlashingKeeper (chain : Type) := {
  sl_Unjail : chain -> string -> chain * res unit;
  sl_jailed : chain -> string -> bool;
  q_SigningInfo : chain -> string -> res ValidatorSigningInfo;
  q_SigningInfos : chain -> PageRequest -> res (list ValidatorSigningInfo * option PageResponse);
  sl_unjail : forall c v c', sl_Unjail c v = (c', Ok ()) ->
    forall v', sl_jailed c' v' = if String.eqb v' v then false else sl_jailed c v';
  sl_signing_info : forall c a i, q_SigningInfo c a = Ok i -> vs_Address i = a
}.

Section Precompile.
Context `{!Bech32} {authz chain : Type} `{!SlashingKeeper chain}.
Abbreviation state := (nstate authz chain).
Implicit Types s : state.

Inductive ret :=
  | RBool (b : bool)
  | RInfo (i : SigningInfo)
  | RInfos (l : list SigningInfo) (page : PageResponse).

(** ** [types.go] *)

Definition ParseSigningInfoArgs (args : list abi_value) : res string :=
  match args with
  | [a0] => let? hexAddr := arg_address_nz ErrInvalidConsensusAddress a0 in Ok (ConsAddress_String hexAddr)
  | _ => Err ErrInvalidNumberOfArgs
  end.

Definition ParseSigningInfosArgs (args : list abi_value) : res PageRequest :=
  match args with [a0] => arg_page ErrUnpackArgs a0 | _ => Err ErrInvalidNumberOfArgs end.

(** [SigningInfoOutput.FromResponse]: the address is made of the bytes of the
    text *)
Definition info_FromResponse (i : ValidatorSigningInfo) : SigningInfo :=
  mkSigningInfo (BytesToAddress (string_bytes (vs_Address i))) (wrap64 (vs_StartHeight i)) (wrap64 (vs_IndexOffset i))
    (wrap64 (vs_JailedUntil i)) (vs_Tombstoned i) (wrap64 (vs_MissedBlocksCounter i)).

Definition infos_FromResponse (l : list ValidatorSigningInfo) (page : option PageResponse)
    : list SigningInfo * PageResponse :=
  (map info_FromResponse l,
   match page with Some pg => mkPageResponse (ps_NextKey pg) (ps_Total pg) | None => mkPageResponse [] 0 end).

(** ** [events.go], [tx.go], [query.go]; the caller of the contract is not asked *)

Definition EmitValidatorUnjailedEvent s (validator : address) : state :=
  add_log (mkLog "ValidatorUnjailed" [VAddress validator] []) s.

Definition Unjail s (args : list abi_value) : state * res ret :=
  match args with
  | [a0] =>
      do? s, validatorAddress := (s, arg_address ErrInvalidValidatorHex a0) in
      do? s, _ := on_chain s (sl_Unjail (ns_chain s) (ValAddress_String validatorAddress)) in
      (EmitValidatorUnjailedEvent s validatorAddress, Ok (RBool true))
  | _ => (s, Err ErrInvalidNumberOfArgs)
  end.

Definition GetSigningInfo s (args : list abi_value) : res ret :=
  let? req := ParseSigningInfoArgs args in
  let? i := q_SigningInfo (ns_chain s) req in
  Ok (RInfo (info_FromResponse i)).

Definition GetSigningInfos s (args : list abi_value) : res ret :=
  let? req := ParseSigningInfosArgs args in
  let? '(l, pg) := q_SigningInfos (ns_chain s) req in
  let out := infos_FromResponse l pg in
  Ok (RInfos out.1 out.2).

(** ** [slashing.go] *)

Definition IsTransaction (method : string) : bool := String.eqb method "unjail".

Definition HandleMethod (origin caller : address) s (method : string) (args : list abi_value) : state * res ret :=
  if String.eqb method "unjail" then Unjail s args
  else if String.eqb method "getSigningInfo" then (s, GetSigningInfo s args)
  else if String.eqb method "getSigningInfos" then (s, GetSigningInfos s args)
  else (s, Err ErrUnknownMethod).

Definition Run (abi : ABI abi_value) (origin caller : address) (readOnly : bool) (value : Z) (input : bytes)
    (enoughGas : bool) s : state * res ret :=
  do? s, method_args := (s, setup_call abi (fun m => IsTransaction (meth_Name m)) readOnly value input) in
  do? s, bz := HandleMethod origin caller s (meth_Name method_args.1) method_args.2 in
  if negb enoughGas then (s, Err ErrOutOfGas) else (s, Ok bz).

Definition RequiredGas (gc : GasConfig) (input : bytes) (method : option string) : res Z :=
  if (length input <? 4)%nat then Ok 0
  else match method with
       | None => Ok 0
       | Some m => Precompile.RequiredGas gc input (IsTransaction m)
       end.
End Precompile.
End Slashing.

Module Evidence.

Definition ErrInvalidEvidence : error := "invalid equivocation evidence".
Definition ErrInvalidEvidenceHash : error := "invalid request; hash is empty".
Definition ErrExpectedEquivocation : error := "invalid evidence type: expected Equivocation".
Definition ErrInvalidPageRequest : error := "invalid page request".

Record EquivocationData := mkEquivocationData { Height : Z; Time : Z; Power : Z; ConsensusAddress : string }.
(** the SDK's record; the time is in Unix seconds *)
Record Equivocation := mkEquivocation { eq_Height : Z; eq_Time : Z; eq_Power : Z; eq_ConsensusAddress : string }.

(** A value of an argument. What the ABI decoder builds for a tuple is a struct
    type of its own ([GoDecoded]), never the named types that the code asserts. *)
Inductive go_value :=
  | GoDecoded (v : abi_value)
  | GoEquivocation (e : EquivocationData)
  | GoPageRequest (p : PageRequest).

(** stored evidence: equivocations and whatever else the module knows *)
Inductive evidence := EvEquivocation (e : Equivocation) | EvOther.

Class EvidenceKeeper (chain : Type) := {
  ev_NewMsg : string -> Equivocation -> res unit;
  ev_SubmitEvidence : chain -> string -> Equivocation -> chain * res bytes;
  q_Evidence : chain -> string -> res evidence;
  q_AllEvidence : chain -> PageRequest -> res (list evidence * option PageResponse)
}.

(** [strings.ToUpper(hex.EncodeToString(b))] *)
Definition hex_upper_digit (n : Z) : Ascii.ascii :=
  Ascii.ascii_of_nat (Z.to_nat (if n <? 10 then 48 + n else 55 + n)).
Fixpoint hex_upper (b : bytes) : string :=
  match b with
  | [] => EmptyString
  | x :: b => String (hex_upper_digit (x / 16)) (String (hex_upper_digit (x mod 16)) (hex_upper b))
  end.

Section Precompile.
Context `{!Bech32} {authz chain : Type} `{!EvidenceKeeper chain}.
Abbreviation state := (nstate authz chain).
Implicit Types s : state.

Inductive ret :=
  | RBool (b : bool)
  | REvidence (e : EquivocationData)
  | REvidences (l : list EquivocationData) (page : option PageResponse).

(** ** [types.go] *)

Definition ToEquivocation (e : EquivocationData) : Equivocation :=
  mkEquivocation (Height e) (to_int64 (Time e)) (Power e) (ConsensusAddress e).

Definition NewMsgSubmitEvidence (origin : address) (args : list go_value) : res (string * Equivocation) :=
  match args with
  | [a0] =>
      let? equivocation := match a0 with GoEquivocation e => Ok e | _ => Err ErrInvalidEvidence end in
      let ev := ToEquivocation equivocation in
      let? _ := ev_NewMsg (AccAddress_String origin) ev in
      Ok (AccAddress_String origin, ev)
  | _ => Err ErrInvalidNumberOfArgs
  end.

(** ** [events.go], [tx.go] *)

Definition EmitSubmitEvidenceEvent s (origin : address) (evidenceHash : bytes) : state :=
  add_log (mkLog "SubmitEvidence" [VAddress origin] [VBytes evidenceHash]) s.

Definition SubmitEvidence (origin : address) s (args : list go_value) : state * res ret :=
  do? s, msg := (s, NewMsgSubmitEvidence origin args) in
  do? s, h := on_chain s (ev_SubmitEvidence (ns_chain s) msg.1 msg.2) in
  (EmitSubmitEvidenceEvent s origin h, Ok (RBool true)).

(** ** [query.go] *)

Definition equivocation_data (e : Equivocation) : EquivocationData :=
  mkEquivocationData (eq_Height e) (wrap64 (eq_Time e)) (eq_Power e) (eq_ConsensusAddress e).

Definition GetEvidence s (args : list go_value) : res ret :=
  match args with
  | [a0] =>
      let? evidenceHash := match a0 with GoDecoded (VBytes b) => Ok b | _ => Err ErrInvalidEvidenceHash end in
      let? e := q_Evidence (ns_chain s) (hex_upper evidenceHash) in
      match e with
      | EvEquivocation e => Ok (REvidence (equivocation_data e))
      | EvOther => Err ErrExpectedEquivocation
      end
  | _ => Err ErrInvalidNumberOfArgs
  end.

Fixpoint evidence_list (l : list evidence) : res (list EquivocationData) :=
  match l with
  | [] => Ok []
  | EvEquivocation e :: l => let? rest := evidence_list l in Ok (equivocation_data e :: rest)
  | EvOther :: _ => Err ErrExpectedEquivocation
  end.

Definition GetAllEvidence s (args : list go_value) : res ret :=
  match args with
  | [a0] =>
      let? pageRequest := match a0 with GoPageRequest p => Ok p | _ => Err ErrInvalidPageRequest end in
      let? '(l, pg) := q_AllEvidence (ns_chain s) pageRequest in
      let? evidenceList := evidence_list l in
      Ok (REvidences evidenceList pg)
  | _ => Err ErrInvalidNumberOfArgs
  end.

(** ** [evidence.go] *)

Definition IsTransaction (method : string) : bool := String.eqb method "submitEvidence".

Definition HandleMethod (origin : address) s (method : string) (args : list go_value) : state * res ret :=
  if String.eqb method "submitEvidence" then SubmitEvidence origin s args
  else if String.eqb method "evidence" then (s, GetEvidence s args)
  else if String.eqb method "getAllEvidence" then (s, GetAllEvidence s args)
  else (s, Err ErrUnknownMethod).

Definition Run (abi : ABI abi_value) (origin : address) (readOnly : bool) (value : Z) (input : bytes)
    (enoughGas : bool) s : state * res ret :=
  do? s, method_args := (s, setup_call abi (fun m => IsTransaction (meth_Name m)) readOnly value input) in
  do? s, bz := HandleMethod origin s (meth_Name method_args.1) (map GoDecoded method_args.2) in
  if negb enoughGas then (s, Err ErrOutOfGas) else (s, Ok bz).

Definition RequiredGas (gc : GasConfig) (input : bytes) (method : option string) : res Z :=
  if (length input <? 4)%nat then Ok 0
  else match method with
       | None => Ok 0
       | Some m => Precompile.RequiredGas gc input (IsTransaction m)
       end.
End Precompile.
End Evidence.
