(* ===== verification/StatelessPrecompile.v ===== *)
(** * The stateless precompiles ([precompiles/bech32], [precompiles/p256])

    Conversion of addresses between hexadecimal and bech32, and verification of
    secp256r1 signatures ([crypto/secp256r1/verify.go]). The
    bech32 codec of the SDK is the class [Bech32] of [NativePrecompile], the
    elliptic curve a class below. *)

From stdpp Require Import base gmap list numbers strings.
From Stdlib Require Import ZArith Lia.
From S2P Require Import Prelude SdkMath Scaling AccessList StateDB TxData Precompile NativePrecompile.
Import Native.

Module Bech32Precompile.

Definition ErrInvalidHex : error := "invalid hex address".
Definition ErrInvalidHRP : error := "invalid bech32 human readable prefix (HRP)".
Definition ErrInvalidBech32 : error := "invalid bech32 address".
Definition ErrExecutionReverted : error := "execution reverted".
Definition ErrZeroBaseGas : error := "baseGas cannot be zero".

(** [strings.SplitN(address, "1", 2)[0]]: up to the first digit one *)
Fixpoint before_one (t : string) : string :=
  match t with
  | EmptyString => EmptyString
  | String c t => if Ascii.eqb c (Ascii.ascii_of_nat 49) then EmptyString else String c (before_one t)
  end.

Section Precompile.
Context `{!Bech32}.

Inductive ret := RString (t : string) | RAddress (a : address).

Definition HexToBech32 (args : list abi_value) : res ret :=
  match args with
  | [a0; a1] =>
      let? address := arg_address ErrInvalidHex a0 in
      let prefix := arg_string_or_empty a1 in
      if is_blank (string_bytes prefix) then Err ErrInvalidHRP
      else
        let? _ := VerifyAddressFormat (addr_Bytes address) in
        let? bech32Str := Bech32ifyAddressBytes prefix (addr_Bytes address) in
        Ok (RString bech32Str)
  | _ => Err ErrInvalidNumberOfArgs
  end.

Definition Bech32ToHex (args : list abi_value) : res ret :=
  match args with
  | [a0] =>
      let? address := arg_string ErrInvalidBech32 a0 in
      if String.eqb address "" then Err ErrInvalidBech32
      else
        let bech32Prefix := before_one address in
        if String.eqb bech32Prefix address then Err ErrInvalidBech32
        else
          let? addressBz := GetFromBech32 address bech32Prefix in
          let? _ := VerifyAddressFormat addressBz in
          Ok (RAddress (BytesToAddress addressBz))
  | _ => Err ErrInvalidNumberOfArgs
  end.

(** ** [bech32.go]; the precompile is its base gas *)

Definition NewPrecompile (baseGas : Z) : res Z := if baseGas =? 0 then Err ErrZeroBaseGas else Ok baseGas.

Definition RequiredGas (baseGas : Z) : Z := baseGas.

(** the method of the four bytes is looked up, and another name has no output *)
Definition Run (abi : ABI abi_value) (input : bytes) : res (option ret) :=
  if (length input <? 4)%nat then Err ErrExecutionReverted
  else
    let? method := MethodById abi (firstn 4 input) in
    let? args := Unpack abi method (drop 4 input) in
    if String.eqb (meth_Name method) "hexToBech32" then let? r := HexToBech32 args in Ok (Some r)
    else if String.eqb (meth_Name method) "bech32ToHex" then let? r := Bech32ToHex args in Ok (Some r)
    else Ok None.
End Precompile.
End Bech32Precompile.

Module P256.

Definition VerifyGas : Z := 3450.
Definition VerifyInputLength : nat := 160.

(** [crypto/elliptic] and [crypto/ecdsa] of Go for the curve P-256 *)
Class P256Curve := {
  IsOnCurve : Z -> Z -> bool;
  ecdsa_Verify : Z * Z -> bytes -> Z -> Z -> bool
}.

Section Precompile.
Context `{!P256Curve}.

Definition newECDSAPublicKey (x y : Z) : option (Z * Z) :=
  if ((x =? 0) && (y =? 0)) || negb (IsOnCurve x y) then None else Some (x, y).

Definition Verify (hash : bytes) (r s x y : Z) : bool :=
  match newECDSAPublicKey x y with
  | None => false
  | Some publicKey => ecdsa_Verify publicKey hash r s
  end.

Definition RequiredGas (input : bytes) : Z := VerifyGas.

(** [input[a:b]] *)
Definition slice (input : bytes) (a b : nat) : bytes := firstn (b - a) (drop a input).

(** no output for any input that is not a valid signature; never an error *)
Definition Run (input : bytes) : bytes :=
  if negb (length input =? VerifyInputLength)%nat then []
  else
    let hash := slice input 0 32 in
    let r := be_value (slice input 32 64) in
    let s := be_value (slice input 64 96) in
    let x := be_value (slice input 96 128) in
    let y := be_value (slice input 128 160) in
    if Verify hash r s x y then be_bytes 32 1 else [].
End Precompile.
End P256.
