(* ===== verification/SmallPrecompileTheorems.v ===== *)
(** * The slashing, evidence and stateless precompiles

    Who may unjail a validator, what the queries of signing infos answer, why
    evidence cannot be submitted through the ABI, and that the two conversions of
    addresses are inverse to each other. *)

From stdpp Require Import base gmap list numbers strings.
From Stdlib Require Import ZArith Lia.
From S2P Require Import Prelude SdkMath Scaling AccessList StateDB TxData TxDataTheorems Precompile Concrete NativePrecompile StakingPrecompile NativeConcrete SlashingPrecompile StatelessPrecompile.
Import Native.

(** ** Slashing *)

Section Slashing.
Import SlashingPrecompile.Slashing.
Context `{!Bech32} {authz chain : Type} `{!SlashingKeeper chain}.
Implicit Types s : nstate authz chain.

(** Whoever calls: the validator of the argument is unjailed and no other, and
    the signer and the caller have no influence on the outcome. *)
Theorem anyone_unjails origin caller origin' caller' s args s' r :
  HandleMethod origin caller s "unjail" args = (s', Ok r) ->
  HandleMethod origin' caller' s "unjail" args = (s', Ok r) /\
  exists v, args = [VAddress v] /\ ns_authz s' = ns_authz s /\ forall t,
    sl_jailed (ns_chain s') t = if String.eqb t (ValAddress_String v) then false else sl_jailed (ns_chain s) t.
Proof.
  intros E. split; [done|]. cbn in E. unfold Unjail in E. destruct args as [|a [|]]; [done| |done]. inv_do E.
  destruct a; try done. injection E0 as ->. destruct a1. injection E as <- _. apply on_chain_Ok in E1 as (c & E1 & ->).
  exists a0. split_and!; [done|done|]. intros t. cbn. by apply sl_unjail.
Qed.

(** The address in the answer of [getSigningInfo] is the last twenty characters
    of the text of the address that was asked for. *)
Theorem signing_info_names_the_text o c s a s' i :
  HandleMethod o c s "getSigningInfo" [VAddress a] = (s', Ok (RInfo i)) ->
  s' = s /\ ValidatorAddress i = BytesToAddress (string_bytes (ConsAddress_String a)).
Proof.
  intros E. cbn in E. unfold GetSigningInfo in E. cbn in E. destruct (a =? 0); [done|]. cbn in E.
  destruct (q_SigningInfo _ _) as [v| |] eqn:Ev; [|done..]. injection E as <- <-. cbn.
  by rewrite (sl_signing_info _ _ _ Ev).
Qed.

(** The parameters are in the ABI, and the call does not know them. *)
Theorem slashing_params_unknown o c s args : HandleMethod o c s "getParams" args = (s, Err ErrUnknownMethod).
Proof. done. Qed.
End Slashing.

(** ** Evidence *)

Section Evidence.
Import SlashingPrecompile.Evidence.
Context `{!Bech32} {authz chain : Type} `{!EvidenceKeeper chain}.
Implicit Types s : nstate authz chain.

(** No call data submits evidence or lists it: the decoder never builds the
    types that the code asserts, so every such call fails and nothing changes. *)
Theorem evidence_calls_never_succeed abi origin readOnly value input gas s :
  (Run abi origin readOnly value input gas s).1 = s /\
  forall r, (Run abi origin readOnly value input gas s).2 = Ok r -> exists e, r = REvidence e.
Proof.
  unfold Run. destruct (setup_call _ _ _ _ _) as [[m args]| |]; [|done..]. cbn [st_bind fst snd].
  assert (Hs : forall args, exists e, SubmitEvidence origin s (map GoDecoded args) = (s, Err e)).
  { intros l. destruct l as [|? [|]]; cbn; by eexists. }
  assert (Ha : forall args, exists e, GetAllEvidence s (map GoDecoded args) = Err e).
  { intros l. destruct l as [|? [|]]; cbn; by eexists. }
  unfold HandleMethod. destruct (Hs args) as [e ->], (Ha args) as [e' ->].
  destruct (String.eqb (meth_Name m) "submitEvidence"); [done|].
  destruct (String.eqb (meth_Name m) "evidence"); [|by destruct (String.eqb _ _)].
  cbn [st_bind]. destruct (GetEvidence s (map GoDecoded args)) as [r| |] eqn:Eg; [|done..]. cbn [st_bind].
  destruct gas; cbn; [|done]. split; [done|]. intros r0 [= <-]. unfold GetEvidence in Eg.
  destruct (map GoDecoded args) as [|a [|]]; [done| |done]. inv_ok; eauto; done.
Qed.
End Evidence.

(** ** Bech32 *)

Section Bech32.
Import StatelessPrecompile.Bech32Precompile.
Context `{!Bech32}.

Lemma before_one_prefix p data :
  before_one p = p -> before_one (p +:+ String (Ascii.ascii_of_nat 49) data) = p.
Proof.
  induction p as [|c p IH]; cbn [before_one]; [done|]. rewrite str_app_cons. cbn [before_one].
  destruct (Ascii.eqb c _); [done|]. intros [= Hp]. by rewrite IH.
Qed.

(** The conversions of addresses are inverse to each other. For a prefix
    without the digit one, what [hexToBech32] answers for an address is a text
    from which [bech32ToHex] gives the address back; the codec is taken to write
    the prefix, the digit one and the data, and to decode what it encodes. *)
Theorem bech32_roundtrip prefix a t :
  addr_ok a -> before_one prefix = prefix ->
  (forall t, Bech32ifyAddressBytes prefix (addr_Bytes a) = Ok t ->
     (exists data, t = prefix +:+ String (Ascii.ascii_of_nat 49) data) /\ GetFromBech32 t prefix = Ok (addr_Bytes a)) ->
  HexToBech32 [VAddress a; VString prefix] = Ok (RString t) ->
  Bech32ToHex [VString t] = Ok (RAddress a).
Proof.
  intros Ha Hp Hcodec E. unfold HexToBech32 in E. cbn [arg_address arg_string_or_empty mbind res_bind] in E.
  destruct (is_blank _); [done|]. destruct (VerifyAddressFormat (addr_Bytes a)) as [[]| |] eqn:Hv; [|done..].
  destruct (Bech32ifyAddressBytes prefix (addr_Bytes a)) as [t'| |] eqn:Hb; [|done..]. injection E as ->.
  destruct (Hcodec _ eq_refl) as [[data ->] Hg]. unfold Bech32ToHex. cbn [arg_string mbind res_bind].
  assert (Hne : String.length (prefix +:+ String (Ascii.ascii_of_nat 49) data) <> 0%nat /\
    prefix +:+ String (Ascii.ascii_of_nat 49) data <> prefix).
  { split; [rewrite str_app_length; cbn; lia|]. intros E. apply (f_equal String.length) in E.
    rewrite str_app_length in E. cbn in E. lia. }
  destruct Hne as [Hlen Hne]. destruct (String.eqb_spec (prefix +:+ String (Ascii.ascii_of_nat 49) data) "") as [He|_].
  { by rewrite He in Hlen. }
  rewrite (before_one_prefix _ _ Hp). destruct (String.eqb_spec prefix (prefix +:+ String (Ascii.ascii_of_nat 49) data)); [congruence|].
  rewrite Hg. cbn [mbind res_bind]. rewrite Hv. cbn [mbind res_bind]. by rewrite (BytesToAddress_Bytes _ Ha).
Qed.
End Bech32.

(** ** P-256 *)

Section P256.
Import StatelessPrecompile.P256.
Context `{!P256Curve}.

(** On five words of 32 bytes the call answers one exactly when the last two are a
    point of the curve other than zero whose key verifies the signature in the
    second and third for the hash in the first; on any other length it answers
    nothing. *)
Theorem p256_accepts_exactly :
  (forall input, length input <> VerifyInputLength -> Run input = []) /\
  (forall hash rb sb xb yb, Forall (fun b => length b = 32%nat) [hash; rb; sb; xb; yb] ->
     let x := be_value xb in
     let y := be_value yb in
     Run (hash ++ rb ++ sb ++ xb ++ yb) =
       if negb ((x =? 0) && (y =? 0)) && IsOnCurve x y && ecdsa_Verify (x, y) hash (be_value rb) (be_value sb)
       then be_bytes 32 1 else []).
Proof.
  split.
  - intros input Hl. unfold Run. by rewrite (proj2 (Nat.eqb_neq _ _) Hl).
  - intros h rb sb xb yb Hf x y. rewrite !Forall_cons in Hf. destruct Hf as (H1 & H2 & H3 & H4 & H5 & _).
    unfold Run. rewrite (proj2 (Nat.eqb_eq (length _) VerifyInputLength)) by (rewrite !length_app; unfold VerifyInputLength; lia).
    cbn [negb]. cbv zeta.
    assert (E1 : slice (h ++ rb ++ sb ++ xb ++ yb) 0 32 = h).
    { unfold slice. rewrite drop_0. by apply take_app_length'. }
    assert (E2 : slice (h ++ rb ++ sb ++ xb ++ yb) 32 64 = rb).
    { unfold slice. rewrite drop_app_length' by done. by apply take_app_length'. }
    assert (E3 : slice (h ++ rb ++ sb ++ xb ++ yb) 64 96 = sb).
    { unfold slice. rewrite (app_assoc h), drop_app_length' by (rewrite length_app; lia). by apply take_app_length'. }
    assert (E4 : slice (h ++ rb ++ sb ++ xb ++ yb) 96 128 = xb).
    { unfold slice. rewrite (app_assoc h), (app_assoc (h ++ rb)), drop_app_length' by (rewrite !length_app; lia).
      by apply take_app_length'. }
    assert (E5 : slice (h ++ rb ++ sb ++ xb ++ yb) 128 160 = yb).
    { unfold slice. rewrite (app_assoc h), (app_assoc (h ++ rb)), (app_assoc ((h ++ rb) ++ sb)).
      rewrite drop_app_length' by (rewrite !length_app; lia). apply take_ge. lia. }
    rewrite E1, E2, E3, E4, E5. fold x y. unfold Verify, newECDSAPublicKey.
    by destruct ((x =? 0) && (y =? 0)), (IsOnCurve x y); cbn.
Qed.
End P256.

(** ** Runs *)

Section Runs.
Import StatelessPrecompile.Bech32Precompile.

(** a codec that writes the address in hexadecimal after the prefix and a one *)
#[local, refine] Instance w_bech32 : Bech32 := {|
  AccAddress_String := AccAddress_String;
  ValAddress_String := ValAddress_String;
  ConsAddress_String := ConsAddress_String;
  AccAddressFromBech32 := AccAddressFromBech32;
  ValAddressFromBech32 := ValAddressFromBech32;
  Bech32ifyAddressBytes prefix bz := Ok (prefix +:+ String (Ascii.ascii_of_nat 49) (hex_bytes bz));
  GetFromBech32 t prefix := Ok (parse_hex (String.substring (S (String.length prefix)) (String.length t) t));
  VerifyAddressFormat bz := Ok ();
  AccountAddrPrefix := "tac"
|}.
Proof. apply ValAddress_prefix. apply AccAddress_roundtrip. apply ValAddress_roundtrip. Defined.

Definition w_text : string := "cosmos" +:+ String (Ascii.ascii_of_nat 49) (hex_bytes (addr_Bytes 5)).

Lemma bech32_roundtrip_witness : Bech32ToHex [VString w_text] = Ok (RAddress 5).
Proof.
  apply (bech32_roundtrip "cosmos" 5 w_text).
  - by split.
  - vm_compute. reflexivity.
  - intros t E. injection E as <-. split; [by eexists|]. vm_compute. reflexivity.
  - vm_compute. reflexivity.
Defined.
End Runs.

(** a module that knows which validators are jailed *)
Import SlashingPrecompile.Slashing.

#[local, refine] Instance w_slashing : SlashingKeeper (gset string) := {|
  sl_Unjail c v := if bool_decide (v ∈ c) then (c ∖ {[v]}, Ok ()) else (c, Err "validator not jailed");
  sl_jailed c v := bool_decide (v ∈ c);
  q_SigningInfo c a := Ok (mkValidatorSigningInfo a 0 0 0 false 0);
  q_SigningInfos c page := Ok ([], None)
|}.
Proof.
  - intros c v c'. case_bool_decide; [|done]. intros [= <-] v'. destruct (String.eqb_spec v' v) as [->|Hne].
    + apply bool_decide_eq_false. set_solver.
    + apply bool_decide_ext. set_solver.
  - by intros c a i [= <-].
Defined.

(** Account 3 unjails validator 5 through contract 4. *)
Example stranger_unjails :
  let s : nstate unit (gset string) := mkNstate () {[ValAddress_String 5]} [] [] in
  (HandleMethod 3 4 s "unjail" [VAddress 5]).2 = Ok (RBool true).
Proof. vm_compute. reflexivity. Qed.

(** Asked for account 5, the query names another one. *)
Example signing_info_of_another :
  let s : nstate unit (gset string) := mkNstate () ∅ [] [] in
  exists i, (HandleMethod 3 4 s "getSigningInfo" [VAddress 5]).2 = Ok (RInfo i) /\ ValidatorAddress i <> 5.
Proof. eexists. split; [reflexivity|]. vm_compute. discriminate. Qed.
