(* ===== verification/VmGenesis.v ===== *)
(** * Genesis of the EVM module ([x/vm/genesis.go], [x/vm/types/genesis.go], [storage.go])

    Contracts with their code and storage, and the parameters, exported to texts
    and read back. The state is the stored parameters and the store of the
    keeper ([VmStore]). *)

From stdpp Require Import base gmap list numbers strings sorting.
From Stdlib Require Import ZArith Lia.
From S2P Require Import Prelude SdkMath Scaling AccessList StateDB VmStore TxData VmParams.

Module VmGenesis.

Definition PanicParams : error := "error setting params".
Definition PanicModuleAccount : error := "the EVM module account has not been set".
Definition PanicAccountNotFound : error := "account not found".
Definition ErrInvalidState : error := "invalid state".
Definition ErrDuplicateAccount : error := "duplicated genesis account".

(** ** Data *)

(** a key and a value of the storage, as texts *)
Record State := mkState { st_Key : string; st_Value : string }.
Definition Storage : Type := list State.

Record GenesisAccount := mkGenesisAccount { ga_Address : string; ga_Code : string; ga_Storage : Storage }.
Record GenesisState := mkGenesisState { gs_Accounts : list GenesisAccount; gs_Params : VmParams.Params }.

(** ** Hexadecimal bytes: [encoding/hex] through go-ethereum *)

Definition hex_char (n : Z) : Ascii.ascii := Ascii.ascii_of_nat (Z.to_nat (if n <? 10 then 48 + n else 87 + n)).

(** [common.Bytes2Hex] *)
Fixpoint Bytes2Hex (b : bytes) : string :=
  match b with
  | [] => EmptyString
  | x :: b => String (hex_char (x / 16)) (String (hex_char (x mod 16)) (Bytes2Hex b))
  end.

Definition hex_value (c : Ascii.ascii) : option Z :=
  let n := Z.of_nat (Ascii.nat_of_ascii c) in
  if (48 <=? n) && (n <=? 57) then Some (n - 48)
  else if (97 <=? n) && (n <=? 102) then Some (n - 87)
  else if (65 <=? n) && (n <=? 70) then Some (n - 55)
  else None.

(** [common.Hex2Bytes]: the bytes before the first character that is no digit,
    without an error *)
Fixpoint Hex2Bytes (t : string) : bytes :=
  match t with
  | String c1 (String c2 t) =>
      match hex_value c1, hex_value c2 with
      | Some h, Some l => h * 16 + l :: Hex2Bytes t
      | _, _ => []
      end
  | _ => []
  end.

Section Validate.
Context `{!EthHex}.
Variable ValidEip : Z -> bool.
Variable ChannelIdentifierValidator : string -> bool.

Definition State_Validate (s : State) : res unit :=
  if is_blank (string_bytes (st_Key s)) then Err ErrInvalidState else Ok ().

Fixpoint storage_loop (seenStorage : gset string) (s : Storage) : res unit :=
  match s with
  | [] => Ok ()
  | state :: s =>
      if bool_decide (st_Key state ∈ seenStorage) then Err ErrInvalidState
      else
        let? _ := State_Validate state in
        storage_loop ({[st_Key state]} ∪ seenStorage) s
  end.
Definition Storage_Validate (s : Storage) : res unit := storage_loop ∅ s.

Definition GenesisAccount_Validate (ga : GenesisAccount) : res unit :=
  let? _ := ValidateAddress (ga_Address ga) in Storage_Validate (ga_Storage ga).

Fixpoint accounts_loop (seenAccounts : gset string) (l : list GenesisAccount) : res unit :=
  match l with
  | [] => Ok ()
  | acc :: l =>
      if bool_decide (ga_Address acc ∈ seenAccounts) then Err ErrDuplicateAccount
      else
        let? _ := GenesisAccount_Validate acc in
        accounts_loop ({[ga_Address acc]} ∪ seenAccounts) l
  end.

Definition GenesisState_Validate (gs : GenesisState) : res unit :=
  let? _ := accounts_loop ∅ (gs_Accounts gs) in
  params_Validate ValidEip ChannelIdentifierValidator (gs_Params gs).
End Validate.

Definition DefaultGenesisState : GenesisState := mkGenesisState [] DefaultParams.
Definition NewGenesisState (params : VmParams.Params) (accounts : list GenesisAccount) : GenesisState :=
  mkGenesisState accounts params.

Section Genesis.
Context `{!EthHex} {auth acct bank : Type} `{!AccountKeeper auth acct} `{!BankKeeper bank}.
Context `{!SdkMath} `{!EvmEnv}.
Abbreviation vstore := (@VmKeeper.evmStore auth bank).
Implicit Types st : vstore.
Variable ValidEip : Z -> bool.
Variable ChannelIdentifierValidator : string -> bool.
Variable legacyParams : VmParams.Params.

(** ** Export *)

Definition NewState (key value : hash) : State := mkState (hash_String key) (hash_String value).

Definition GetAccountStorage st (a : address) : Storage :=
  map (fun kv => NewState kv.1 kv.2) (VmKeeper.ForEachStorage st a).

(** what [IterateContracts] hands to a callback that never stops *)
Definition IterateContracts st : list (address * hash) :=
  omap (fun a => h ← VmKeeper.es_codeHash st !! a; Some (a, h))
    (merge_sort Z.le (elements (dom (VmKeeper.es_codeHash st)))).

Definition export_account st (c : address * hash) : GenesisAccount :=
  mkGenesisAccount (addr_Hex c.1) (Bytes2Hex (default [] (VmKeeper.GetCode st c.2))) (GetAccountStorage st c.1).

Definition ExportGenesis (ps : option VmParams.Params) st : GenesisState :=
  mkGenesisState (map (export_account st) (IterateContracts st)) (VmParams.GetParams legacyParams ps).

(** ** Import; [hasModule] says whether the module account is known *)

Definition init_storage st (a : address) (l : Storage) : vstore :=
  fold_left (fun st s => VmKeeper.SetState st a (HexToHash (st_Key s)) (be_bytes 32 (HexToHash (st_Value s)))) l st.

Definition init_account st (account : GenesisAccount) : vstore * res unit :=
  let address := HexToAddress (ga_Address account) in
  match ak_GetAccount (VmKeeper.es_auth st) address with
  | None => (st, Panic PanicAccountNotFound)
  | Some _ =>
      let code := Hex2Bytes (ga_Code account) in
      let codeHash := keccak code in
      let st := if negb (IsEmptyCodeHash codeHash) then VmKeeper.SetCodeHash st address codeHash else st in
      let st := if negb (length code =? 0)%nat then VmKeeper.SetCode st codeHash code else st in
      (init_storage st address (ga_Storage account), Ok ())
  end.

Fixpoint init_accounts st (l : list GenesisAccount) : vstore * res unit :=
  match l with
  | [] => (st, Ok ())
  | account :: l => do? st, _ := init_account st account in init_accounts st l
  end.

Definition InitGenesis (hasModule : bool) (ps : option VmParams.Params) st (data : GenesisState)
    : (option VmParams.Params * vstore) * res unit :=
  match VmParams.SetParams ValidEip ChannelIdentifierValidator ps (gs_Params data) with
  | (ps, Ok _) =>
      if negb hasModule then ((ps, st), Panic PanicModuleAccount)
      else let '(st, r) := init_accounts st (gs_Accounts data) in ((ps, st), r)
  | (ps, Err _) => ((ps, st), Panic PanicParams)
  | (ps, Panic e) => ((ps, st), Panic e)
  end.
End Genesis.
End VmGenesis.
