(* ===== verification/VmGenesisTheorems.v ===== *)
(** * The genesis of the EVM module restores its contracts *)

From stdpp Require Import base gmap list numbers strings sorting.
From Stdlib Require Import ZArith Lia.
From S2P Require Import Prelude SdkMath Scaling AccessList StateDB VmStore Concrete TxData TxDataTheorems StateTransition StateTransitionTheorems VmParams VmParamsTheorems VmGenesis.
Import VmGenesis.

(** ** Texts *)

Lemma hex_value_char n : 0 <= n < 16 -> hex_value (hex_char n) = Some n.
Proof.
  intros Hn. assert (Hall : forallb (fun n => bool_decide (hex_value (hex_char n) = Some n))
    (map Z.of_nat (seq 0 16)) = true) by (vm_compute; reflexivity).
  rewrite forallb_forall in Hall. eapply bool_decide_eq_true, Hall. apply in_map_iff. exists (Z.to_nat n).
  split; [lia|]. apply in_seq. lia.
Qed.

Lemma Hex2Bytes_Bytes2Hex b : Forall is_byte b -> Hex2Bytes (Bytes2Hex b) = b.
Proof.
  induction 1 as [|x b Hx _ IH]; [done|]. unfold is_byte in Hx. cbn [Bytes2Hex Hex2Bytes].
  pose proof (Z.div_mod x 16 ltac:(lia)). pose proof (Z.mod_pos_bound x 16 ltac:(lia)).
  assert (0 <= x / 16 < 16) by (split; [apply Z.div_pos|apply Z.div_lt_upper_bound]; lia).
  rewrite !hex_value_char, IH by lia. f_equal. lia.
Qed.

Section Theorems.
Context `{!EthHex} {auth acct bank : Type} `{!AccountKeeper auth acct} `{!BankKeeper bank}.
Context `{!SdkMath} `{!EvmEnv}.
Abbreviation vstore := (@VmKeeper.evmStore auth bank).
Implicit Types st : vstore.
Variable ValidEip : Z -> bool.
Variable ChannelIdentifierValidator : string -> bool.
Variable legacyParams : VmParams.Params.

Import VmKeeper.

(** A contract has code, under its hash, and the keys of its storage are words. *)
Definition contracts_ok st : Prop :=
  (forall a h, es_codeHash st !! a = Some h -> addr_ok a /\ h <> EmptyCodeHash /\
     exists code : bytes, es_code st !! h = Some code /\ code <> [] /\ Forall is_byte code /\ keccak code = h) /\
  (forall a k, is_Some (storage_at st a !! k) -> hash_ok k).

(** *** What the import of an account writes *)

Lemma storage_at_SetState st a k v b :
  storage_at (SetState st a k v) b = if decide (b = a) then <[k := v]> (storage_at st a) else storage_at st b.
Proof.
  unfold storage_at, SetState, with_storage. cbn. case_decide as Hb.
  - subst. by rewrite lookup_insert_eq.
  - by rewrite lookup_insert_ne.
Qed.

(** the storage that a list of words describes, over what was there *)
Definition write_words (m : gmap hash bytes) (l : list (hash * hash)) : gmap hash bytes :=
  fold_left (fun m kv => <[kv.1 := be_bytes 32 kv.2]> m) l m.

Lemma init_storage_words st a l :
  Forall (fun kv => hash_ok kv.1 /\ hash_ok kv.2) l ->
  let st' := init_storage st a (map (fun kv => NewState kv.1 kv.2) l) in
  es_auth st' = es_auth st /\ es_bank st' = es_bank st /\ es_codeHash st' = es_codeHash st /\ es_code st' = es_code st /\
  forall b, storage_at st' b = if decide (b = a) then write_words (storage_at st a) l else storage_at st b.
Proof.
  intros Hl. revert st. induction Hl as [|[k v] l [Hk Hv] Hl IH]; intros st; cbn.
  { split_and!; try done. intros b. by case_decide as Hb; [subst|]. }
  rewrite !HexToHash_String by done. destruct (IH (SetState st a k (be_bytes 32 v))) as (E1 & E2 & E3 & E4 & E5).
  split_and!; [done..|]. intros b. rewrite E5. rewrite !storage_at_SetState. case_decide as Hb; [|done].
  by rewrite decide_True.
Qed.

Lemma write_words_lookup m l k :
  NoDup l.*1 ->
  write_words m l !! k = match list_find (fun kv => kv.1 = k) l with
                         | Some (_, kv) => Some (be_bytes 32 kv.2)
                         | None => m !! k
                         end.
Proof.
  revert m. induction l as [|[k' v] l IH]; intros m Hn; cbn; [done|]. apply NoDup_cons in Hn as [Hk Hn].
  unfold write_words in *. cbn. rewrite IH by done. case_decide as Hd; cbn.
  - cbn in Hd. subst k'. assert (Hnone : list_find (fun kv => kv.1 = k) l = None).
    { apply list_find_None, Forall_forall. intros [x y] Hin E. cbn in E. subst x. apply Hk.
      apply list_elem_of_fmap. by exists (k, y). }
    rewrite Hnone. by rewrite lookup_insert_eq.
  - destruct (list_find _ l) as [[i kv]|]; cbn; [done|]. by rewrite lookup_insert_ne.
Qed.

(** The words that the iteration answers are those of the storage. *)
Lemma ForEachStorage_words st a :
  contracts_ok st ->
  Forall (fun kv => hash_ok kv.1 /\ hash_ok kv.2) (ForEachStorage st a) /\ NoDup (ForEachStorage st a).*1 /\
  forall k, match list_find (fun kv => kv.1 = k) (ForEachStorage st a) with
            | Some (_, kv) => kv.2 = GetState st a k /\ is_Some (storage_at st a !! k)
            | None => storage_at st a !! k = None
            end.
Proof.
  intros [_ Hk]. unfold ForEachStorage. set (ks := merge_sort Z.le (elements (dom (storage_at st a)))).
  assert (Hks : forall k, k ∈ ks <-> is_Some (storage_at st a !! k)).
  { intros k. unfold ks. rewrite merge_sort_Permutation, elem_of_elements. apply elem_of_dom. }
  assert (Hnd : NoDup ks) by (unfold ks; rewrite merge_sort_Permutation; apply NoDup_elements).
  assert (Hfst : forall f : hash -> hash, ((fun k => (k, f k)) <$> ks).*1 = ks).
  { intros f. rewrite <-list_fmap_compose. apply list_fmap_id. }
  split_and!.
  - apply Forall_fmap, Forall_forall. intros k Hin. apply Hks in Hin. cbn. split; [by eapply Hk|apply BytesToHash_ok].
  - by rewrite Hfst.
  - intros k. destruct (list_find _ _) as [[i [k' v]]|] eqn:Ef.
    + apply list_find_Some in Ef as (Ei & Ek & _). cbn in Ek. subst k'. apply list_elem_of_lookup_2 in Ei.
      apply list_elem_of_fmap in Ei as (x & [= <- ->] & Hx). split; [|by apply Hks].
      by rewrite GetState_fast.
    + apply list_find_None in Ef. destruct (storage_at st a !! k) as [bz|] eqn:Hb; [|done].
      assert (Hin : k ∈ ks) by (apply Hks; by eexists). rewrite Forall_fmap, Forall_forall in Ef.
      exfalso. by apply (Ef k Hin).
Qed.

(** the state of a contract after its import, relative to where it came from *)
Definition same_contract st st' (a : address) : Prop :=
  es_codeHash st' !! a = es_codeHash st !! a /\
  GetCode st' (GetCodeHash st' a) = GetCode st (GetCodeHash st a) /\
  forall k, GetState st' a k = GetState st a k.

Lemma GetState_storage st a k m :
  storage_at st a = m -> GetState st a k = match m !! k with None | Some [] => 0 | Some v => BytesToHash v end.
Proof. intros <-. done. Qed.

Lemma init_export_account st st0 a h :
  contracts_ok st -> es_codeHash st !! a = Some h -> ak_GetAccount (es_auth st0) a <> None -> storage_at st0 a = ∅ ->
  exists st', init_account st0 (export_account st (a, h)) = (st', Ok ()) /\
    es_auth st' = es_auth st0 /\ es_bank st' = es_bank st0 /\
    es_codeHash st' = <[a := h]> (es_codeHash st0) /\
    (exists code : bytes, es_code st !! h = Some code /\ es_code st' = <[h := code]> (es_code st0)) /\
    (forall b, b <> a -> storage_at st' b = storage_at st0 b) /\
    (forall k, GetState st' a k = GetState st a k).
Proof.
  intros Hok Hh Hacc Hst. destruct (proj1 Hok _ _ Hh) as (Ha & Hne & code & Hc & Hcne & Hbytes & Hkec).
  unfold init_account, export_account. cbn [ga_Address ga_Code ga_Storage fst snd].
  rewrite HexToAddress_Hex by done. destruct (ak_GetAccount (es_auth st0) a) as [x|] eqn:Hx; [|done].
  unfold GetCode. rewrite Hc. change (default [] (Some code)) with code. cbv zeta. rewrite (Hex2Bytes_Bytes2Hex code Hbytes), Hkec. unfold IsEmptyCodeHash.
  rewrite (proj2 (Z.eqb_neq _ _) Hne). cbn [negb]. destruct code as [|c0 code]; [done|]. cbn [length Nat.eqb negb].
  destruct (ForEachStorage_words st a Hok) as (Hw & Hnd & Hf). unfold GetAccountStorage.
  destruct (init_storage_words (SetCode (SetCodeHash st0 a h) h (c0 :: code)) a (ForEachStorage st a) Hw)
    as (E1 & E2 & E3 & E4 & E5).
  eexists. split; [reflexivity|]. split_and!; [done|done|done| | |].
  - exists (c0 :: code). by split.
  - intros b Hb. rewrite E5. by rewrite decide_False.
  - intros k. rewrite (GetState_storage _ _ _ _ (E5 a)). rewrite decide_True by done.
    change (storage_at (SetCode (SetCodeHash st0 a h) h (c0 :: code)) a) with (storage_at st0 a). rewrite Hst.
    rewrite write_words_lookup by done. specialize (Hf k). destruct (list_find _ _) as [[i kv]|].
    + destruct Hf as [-> _]. destruct (be_bytes 32 (GetState st a k)) as [|b0 bs] eqn:Eb.
      { apply (f_equal length) in Eb. by rewrite be_bytes_length in Eb. }
      rewrite <-Eb. apply word_of_bytes. unfold GetState. repeat case_match; try apply BytesToHash_ok; done.
    + rewrite lookup_empty, GetState_fast. unfold GetFastState. by rewrite Hf.
Qed.

(** Importing exported contracts: the contracts are there, the rest is as before. *)
Lemma init_accounts_export st l : forall st0,
  contracts_ok st -> NoDup l.*1 -> (forall a h, (a, h) ∈ l -> es_codeHash st !! a = Some h) ->
  (forall a, a ∈ l.*1 -> ak_GetAccount (es_auth st0) a <> None /\ storage_at st0 a = ∅) ->
  exists st', init_accounts st0 (map (export_account st) l) = (st', Ok ()) /\
    es_auth st' = es_auth st0 /\ es_bank st' = es_bank st0 /\
    (forall a, es_codeHash st' !! a = if decide (a ∈ l.*1) then es_codeHash st !! a else es_codeHash st0 !! a) /\
    (forall h, es_code st' !! h = if decide (h ∈ l.*2) then es_code st !! h else es_code st0 !! h) /\
    (forall a k, a ∈ l.*1 -> GetState st' a k = GetState st a k) /\
    (forall a, a ∉ l.*1 -> storage_at st' a = storage_at st0 a).
Proof.
  induction l as [|[a h] l IH]; intros st0 Hok Hnd Hh Hacc; cbn [map init_accounts].
  { exists st0. split_and!; try done. intros a k Ha. by apply elem_of_nil in Ha. }
  cbn in Hnd. apply NoDup_cons in Hnd as [Ha Hnd].
  destruct (Hacc a ltac:(cbn; set_solver)) as [Hacc1 Hst1].
  destruct (init_export_account st st0 a h Hok (Hh a h ltac:(set_solver)) Hacc1 Hst1)
    as (st1 & E & A1 & B1 & C1 & (code & Hc & D1) & S1 & G1).
  rewrite E. cbn [st_bind].
  destruct (IH st1 Hok Hnd) as (st' & E' & A2 & B2 & C2 & D2 & G2 & S2).
  { intros b g Hb. apply Hh. set_solver. }
  { intros b Hb. rewrite A1. assert (b <> a) by (intros ->; done). rewrite S1 by done. apply Hacc. cbn. set_solver. }
  exists st'. split_and!; [done|congruence|congruence| | | |].
  - intros b. rewrite C2, C1. cbn [fmap list_fmap fst]. destruct (decide (b ∈ l.*1)) as [Hb|Hb].
    + by rewrite decide_True by set_solver.
    + destruct (decide (b = a)) as [->|Hba].
      * rewrite decide_True by set_solver. rewrite lookup_insert_eq. symmetry. apply Hh. set_solver.
      * rewrite decide_False by set_solver. by rewrite lookup_insert_ne.
  - intros g. rewrite D2, D1. cbn [fmap list_fmap snd]. destruct (decide (g ∈ l.*2)) as [Hg|Hg].
    + by rewrite decide_True by set_solver.
    + destruct (decide (g = h)) as [->|Hgh].
      * rewrite decide_True by set_solver. by rewrite lookup_insert_eq.
      * rewrite decide_False by set_solver. by rewrite lookup_insert_ne.
  - intros b k Hb. cbn in Hb. destruct (decide (b ∈ l.*1)); [by apply G2|]. assert (b = a) as -> by set_solver.
    rewrite (GetState_storage st' a k _ (S2 a Ha)). rewrite <-G1. done.
  - intros b Hb. cbn in Hb. rewrite S2 by set_solver. apply S1. set_solver.
Qed.

Lemma IterateContracts_spec st :
  NoDup (IterateContracts st).*1 /\ forall a h, (a, h) ∈ IterateContracts st <-> es_codeHash st !! a = Some h.
Proof.
  unfold IterateContracts. set (l := merge_sort Z.le (elements (dom (es_codeHash st)))).
  assert (Hl : forall a, a ∈ l <-> is_Some (es_codeHash st !! a)).
  { intros a. unfold l. rewrite merge_sort_Permutation, elem_of_elements. apply elem_of_dom. }
  assert (Hnd : NoDup l) by (unfold l; rewrite merge_sort_Permutation; apply NoDup_elements).
  assert (Hin : forall a h, (a, h) ∈ omap (fun a => h ← es_codeHash st !! a; Some (a, h)) l <->
    a ∈ l /\ es_codeHash st !! a = Some h).
  { intros a h. rewrite list_elem_of_omap. split.
    - intros (b & Hb & E). destruct (es_codeHash st !! b) eqn:Eb; [|done]. cbn in E. injection E as -> ->. done.
    - intros [Ha Hh]. exists a. rewrite Hh. done. }
  split.
  - clear Hl Hin. induction Hnd as [|a l Ha Hnd IH]; cbn; [constructor|].
    destruct (es_codeHash st !! a) as [h|]; cbn; [|done]. apply NoDup_cons. split; [|done].
    intros Hx. apply Ha. apply list_elem_of_fmap in Hx as ([b g] & -> & Hx). apply list_elem_of_omap in Hx as (c & Hc & E).
    destruct (es_codeHash st !! c); [|done]. cbn in E. by injection E as -> _.
  - intros a h. rewrite Hin, Hl. split; [by intros [_ ?]|]. intros Hh. split; [by eexists|done].
Qed.

#[local] Instance str_le_antisymm : AntiSymm (=) str_le.
Proof. intros a b. unfold str_le. apply String.leb_antisym. Qed.

Lemma stored_params_sorted p :
  params_ok ValidEip ChannelIdentifierValidator p -> sorted_params p = p.
Proof.
  intros Hp. unfold sorted_params. assert (E : SortSlice (ActiveStaticPrecompiles p) = ActiveStaticPrecompiles p).
  { apply (Sorted_unique str_le); [apply SortSlice_sorted|apply (po_sorted _ _ _ Hp)|apply SortSlice_Permutation]. }
  rewrite E. by destruct p.
Qed.

(** C24: The genesis restores the contracts and the parameters. Exporting a store
    whose contracts have their code, and importing the export where no contract
    and no storage is yet but the accounts are known, succeeds; every contract
    then has its code hash, its code and every word of its storage, no other
    address becomes a contract or gets storage, the accounts and the balances
    are untouched, and the parameters are those that were stored. *)
Theorem vm_genesis_roundtrip p st ps0 st0 :
  params_ok ValidEip ChannelIdentifierValidator p -> contracts_ok st ->
  es_codeHash st0 = ∅ -> es_storage st0 = ∅ ->
  (forall a, IsContract st a = true -> ak_GetAccount (es_auth st0) a <> None) ->
  exists st', InitGenesis ValidEip ChannelIdentifierValidator true ps0 st0 (ExportGenesis legacyParams (Some p) st) =
    ((Some p, st'), Ok ()) /\
    (forall a, es_codeHash st' !! a = es_codeHash st !! a) /\
    (forall a, IsContract st a = true ->
       GetCode st' (GetCodeHash st' a) = GetCode st (GetCodeHash st a) /\ forall k, GetState st' a k = GetState st a k) /\
    (forall a k, IsContract st a = false -> GetState st' a k = 0) /\
    es_auth st' = es_auth st0 /\ es_bank st' = es_bank st0.
Proof.
  intros Hp Hok Hz1 Hz2 Hacc. destruct (IterateContracts_spec st) as [Hnd Hin].
  assert (Hdom : forall a, a ∈ (IterateContracts st).*1 <-> IsContract st a = true).
  { intros a. unfold IsContract. rewrite bool_decide_eq_true. rewrite list_elem_of_fmap. split.
    - intros ([b h] & -> & Hb). apply Hin in Hb. by eexists.
    - intros [h Hh]. exists (a, h). split; [done|]. by apply Hin. }
  assert (Hs0 : forall a, storage_at st0 a = ∅) by (intros a; unfold storage_at; by rewrite Hz2, lookup_empty).
  destruct (init_accounts_export st (IterateContracts st) st0 Hok Hnd) as (st' & E & A & B & C & D & G & S).
  { intros a h Ha. by apply Hin. }
  { intros a Ha. split; [by apply Hacc, Hdom|apply Hs0]. }
  exists st'. unfold InitGenesis, ExportGenesis. cbn [gs_Params gs_Accounts].
  change (VmParams.GetParams legacyParams (Some p)) with p.
  destruct (SetParams_cases ValidEip ChannelIdentifierValidator ps0 p) as [[_ Hset]|Hbad].
  2: { rewrite (stored_params_sorted p Hp) in Hbad. apply params_Validate_spec in Hp.
       destruct Hbad as [(e & He & _)|(e & He & _)]; congruence. }
  rewrite Hset, (stored_params_sorted p Hp). cbn [negb]. rewrite E.
  assert (HC : forall a, es_codeHash st' !! a = es_codeHash st !! a).
  { intros a. rewrite C, Hz1, lookup_empty. case_decide as Ha; [done|]. destruct (es_codeHash st !! a) as [h|] eqn:Eh; [|done].
    exfalso. apply Ha, Hdom. unfold IsContract. apply bool_decide_eq_true. by eexists. }
  split_and!; [done|done| | |done|done].
  - intros a Ha. split.
    + unfold GetCodeHash. rewrite HC. unfold IsContract in Ha. apply bool_decide_eq_true in Ha as [h Hh]. rewrite Hh. cbn.
      unfold GetCode. rewrite D, decide_True; [done|]. apply list_elem_of_fmap. exists (a, h). split; [done|]. by apply Hin.
    + intros k. by apply G, Hdom.
  - intros a k Ha. rewrite (GetState_storage st' a k ∅); [by rewrite lookup_empty|]. rewrite S, Hs0; [done|].
    rewrite Hdom. congruence.
Qed.

(** *** The export is a valid genesis *)

Lemma storage_loop_ok (l : Storage) : forall seen,
  NoDup (map st_Key l) -> Forall (fun s => is_blank (string_bytes (st_Key s)) = false /\ st_Key s ∉ seen) l ->
  storage_loop seen l = Ok ().
Proof.
  induction l as [|s l IH]; intros seen Hnd Hl; cbn; [done|]. cbn in Hnd. apply NoDup_cons in Hnd as [Hs Hnd].
  apply Forall_cons in Hl as [[Hb Hn] Hl]. rewrite bool_decide_false by done. unfold State_Validate. rewrite Hb. cbn.
  apply IH; [done|]. rewrite Forall_forall in Hl |- *. intros x Hx. destruct (Hl x Hx) as [H2 H3]. split; [done|].
  rewrite elem_of_union, elem_of_singleton. intros [E|E]; [|done]. apply Hs. rewrite <-E.
  apply list_elem_of_fmap. by exists x.
Qed.

Lemma accounts_loop_ok (l : list GenesisAccount) : forall seen,
  NoDup (map ga_Address l) -> Forall (fun g => GenesisAccount_Validate g = Ok () /\ ga_Address g ∉ seen) l ->
  accounts_loop seen l = Ok ().
Proof.
  induction l as [|g l IH]; intros seen Hnd Hl; cbn; [done|]. cbn in Hnd. apply NoDup_cons in Hnd as [Hg Hnd].
  apply Forall_cons in Hl as [[Hb Hn] Hl]. rewrite bool_decide_false by done. rewrite Hb. cbn.
  apply IH; [done|]. rewrite Forall_forall in Hl |- *. intros x Hx. destruct (Hl x Hx) as [H2 H3]. split; [done|].
  rewrite elem_of_union, elem_of_singleton. intros [E|E]; [|done]. apply Hg. rewrite <-E.
  apply list_elem_of_fmap. by exists x.
Qed.

Lemma NoDup_map_text {A B} (f : A -> B) (g : B -> A) (P : A -> Prop) l :
  (forall x, P x -> g (f x) = x) -> Forall P l -> NoDup l -> NoDup (map f l).
Proof.
  intros Hg. induction l as [|x l IH]; cbn; intros HP Hnd; [constructor|]. apply NoDup_cons in Hnd as [Hx Hnd].
  apply Forall_cons in HP as [Hp HP]. apply NoDup_cons. split; [|by apply IH]. intros Hin. apply Hx.
  apply list_elem_of_fmap in Hin as (y & E & Hy). rewrite Forall_forall in HP.
  rewrite <-(Hg x Hp), E, (Hg y (HP y Hy)). done.
Qed.

(** Texts of hashes being more than white space, the export passes the checks
    that a genesis file has to pass. *)
Theorem exported_genesis_is_valid p st :
  (forall h, is_blank (string_bytes (hash_String h)) = false) ->
  params_ok ValidEip ChannelIdentifierValidator p -> contracts_ok st ->
  GenesisState_Validate ValidEip ChannelIdentifierValidator (ExportGenesis legacyParams (Some p) st) = Ok ().
Proof.
  intros Hblank Hp Hok. destruct (IterateContracts_spec st) as [Hnd Hin].
  unfold GenesisState_Validate, ExportGenesis. cbn [gs_Accounts gs_Params].
  assert (Hl : accounts_loop ∅ (map (export_account st) (IterateContracts st)) = Ok ()).
  { apply accounts_loop_ok.
    - rewrite map_map. cbn. rewrite <-(map_map fst addr_Hex).
      apply (NoDup_map_text addr_Hex HexToAddress addr_ok); [apply HexToAddress_Hex| |exact Hnd].
      apply Forall_fmap, Forall_forall. intros [a h] Hah. apply Hin in Hah. cbn. by apply (proj1 Hok a h).
    - apply Forall_forall. intros g Hg. apply list_elem_of_fmap in Hg as ([a h] & -> & Hah). split; [|set_solver].
      apply Hin in Hah. unfold GenesisAccount_Validate, ValidateAddress. cbn.
      rewrite IsHexAddress_Hex by (by apply (proj1 Hok a h)). cbn. unfold Storage_Validate, GetAccountStorage.
      destruct (ForEachStorage_words st a Hok) as (Hw & Hn & _). apply storage_loop_ok.
      + rewrite map_map. cbn. rewrite <-(map_map fst hash_String).
        apply (NoDup_map_text hash_String HexToHash hash_ok); [apply HexToHash_String| |exact Hn].
        apply Forall_fmap. eapply Forall_impl; [exact Hw|]. by intros x [Hx _].
      + apply Forall_fmap, Forall_forall. intros kv _. cbn. split; [apply Hblank|set_solver]. }
  rewrite Hl. cbn. by apply params_Validate_spec.
Qed.
End Theorems.

(** ** A chain with one contract starts again *)

Definition w_start : cstore :=
  VmKeeper.mkEvmStore (VmKeeper.es_auth cstore0) (VmKeeper.es_bank cstore0) ∅ ∅ ∅.

Lemma cstore0_contracts : contracts_ok cstore0.
Proof.
  split.
  - intros a h Hh. cbn in Hh. apply lookup_insert_Some in Hh as [[<- <-]|[_ Hh]]; [|by rewrite lookup_empty in Hh].
    split_and!; [by split|by vm_compute|]. exists [96; 0]. split_and!; [vm_compute; reflexivity|done| |done].
    by repeat constructor.
  - intros a k [v Hv]. unfold VmKeeper.storage_at in Hv. cbn in Hv. destruct (decide (a = 2)) as [->|Ha].
    + rewrite lookup_insert_eq in Hv. cbn in Hv. apply lookup_insert_Some in Hv as [[<- _]|[_ Hv]]; [by split|].
      by rewrite lookup_empty in Hv.
    + rewrite lookup_insert_ne, lookup_empty in Hv by done. cbn in Hv. by rewrite lookup_empty in Hv.
Qed.

Definition no_eip (_ : Z) : bool := true.
Definition any_channel (_ : string) : bool := true.

Lemma vm_genesis_roundtrip_witness :
  exists st', InitGenesis no_eip any_channel true None w_start (ExportGenesis DefaultParams (Some DefaultParams) cstore0) =
    ((Some DefaultParams, st'), Ok ()) /\ VmKeeper.GetState st' 2 10 = 77.
Proof.
  destruct (vm_genesis_roundtrip no_eip any_channel DefaultParams DefaultParams cstore0 None w_start)
    as (st' & E & _ & Hc & _).
  - apply params_Validate_spec. vm_compute. reflexivity.
  - apply cstore0_contracts.
  - reflexivity.
  - reflexivity.
  - intros a Ha. unfold VmKeeper.IsContract in Ha. apply bool_decide_eq_true in Ha as [h Hh]. cbn in Hh.
    apply lookup_insert_Some in Hh as [[<- _]|[_ Hh]]; [by vm_compute|]. by rewrite lookup_empty in Hh.
  - exists st'. split; [exact E|]. destruct (Hc 2) as [_ Hg]; [vm_compute; reflexivity|]. rewrite Hg. vm_compute. reflexivity.
Defined.
