(* ===== verification/VmQueries.v ===== *)
(** * Queries of the EVM module ([x/vm/keeper/grpc_query.go])

    Accounts, balances, storage and code, calls that are not committed
    ([EthCall]), the estimate of the gas of a call ([EstimateGas]), and the calls
    that other modules make into the EVM ([call_evm.go]). The arguments of a call
    are [x/vm/types/tx_args.go]; the configuration of the EVM is [config.go] and
    [block_proposer.go]. Texts of numbers are the numbers. *)

From stdpp Require Import base gmap list numbers strings sorting.
From Stdlib Require Import ZArith Lia.
From S2P Require Import Prelude SdkMath Scaling AccessList StateDB VmStore FeeMarket TxData StateTransition VmParams.

Module VmQueries.

Definition ErrEmptyRequest : error := "empty request".
Definition ErrZeroAddress : error := "invalid zero address".
Definition ErrGasCap : error := "gas cap cannot be lower than 21000".
Definition ErrBothGasPrices : error := "both gasPrice and (maxFeePerGas or maxPriorityFeePerGas) specified".
Definition ErrInsufficientFundsForTransfer : error := "insufficient funds for transfer".
Definition ErrGasAllowance : error := "gas required exceeds allowance".
Definition ErrVmOutOfGas : error := "out of gas".
Definition ErrVmReverted : error := "execution reverted".
Definition ErrNoValidatorFound : error := "failed to retrieve validator from block proposer address".
Definition ErrLoadConfig : error := "failed to load evm config".
Definition ErrVMExecution : error := "evm transaction execution failed".

(** [params.TxGas] of go-ethereum; [DefaultGasCap] of [server/config] *)
Definition TxGas : Z := 21000.
Definition DefaultGasCap : Z := 25000000.

(** ** Arguments of a call ([tx_args.go]) *)

Record TransactionArgs := mkTransactionArgs {
  a_From : option address;
  a_To : option address;
  a_Gas : option Z;
  a_GasPrice : option Z;
  a_MaxFeePerGas : option Z;
  a_MaxPriorityFeePerGas : option Z;
  a_Value : option Z;
  a_Nonce : option Z;
  a_Data : option bytes;
  a_Input : option bytes;
  a_AccessList : option ethAccessList;
  a_ChainID : option Z
}.

Definition GetFrom (args : TransactionArgs) : address := default 0 (a_From args).

Definition GetData (args : TransactionArgs) : bytes :=
  match a_Input args with
  | Some input => input
  | None => default [] (a_Data args)
  end.

Definition with_nonce (n : Z) (args : TransactionArgs) : TransactionArgs :=
  mkTransactionArgs (a_From args) (a_To args) (a_Gas args) (a_GasPrice args) (a_MaxFeePerGas args)
    (a_MaxPriorityFeePerGas args) (a_Value args) (Some n) (a_Data args) (a_Input args) (a_AccessList args)
    (a_ChainID args).

(** a message with its two fee caps *)
Record CallMessage := mkCallMessage { cm_Msg : Message; cm_GasFeeCap : Z; cm_GasTipCap : Z }.

(** gas price, fee cap and tip cap *)
Definition call_prices (args : TransactionArgs) (baseFee : option Z) : Z * Z * Z :=
  match baseFee with
  | None => let gasPrice := default 0 (a_GasPrice args) in (gasPrice, gasPrice, gasPrice)
  | Some baseFee =>
      match a_GasPrice args with
      | Some gasPrice => (gasPrice, gasPrice, gasPrice)
      | None =>
          let gasFeeCap := default 0 (a_MaxFeePerGas args) in
          let gasTipCap := default 0 (a_MaxPriorityFeePerGas args) in
          let gasPrice := if negb (gasFeeCap =? 0) || negb (gasTipCap =? 0)
                          then Z.min (gasTipCap + baseFee) gasFeeCap else 0 in
          (gasPrice, gasFeeCap, gasTipCap)
      end
  end.

Definition is_set {A} (o : option A) : bool := match o with Some _ => true | None => false end.

Definition ToMessage (args : TransactionArgs) (globalGasCap : Z) (baseFee : option Z) : res CallMessage :=
  if is_set (a_GasPrice args) && (is_set (a_MaxFeePerGas args) || is_set (a_MaxPriorityFeePerGas args))
  then Err ErrBothGasPrices
  else
    let gas := if globalGasCap =? 0 then max_uint64 / 2 else globalGasCap in
    let gas := default gas (a_Gas args) in
    let gas := if negb (globalGasCap =? 0) && (globalGasCap <? gas) then globalGasCap else gas in
    let '(gasPrice, gasFeeCap, gasTipCap) := call_prices args baseFee in
    Ok (mkCallMessage
          (mkMessage (GetFrom args) (a_To args) (default 0 (a_Nonce args)) (default 0 (a_Value args)) gas gasPrice
             (GetData args) (default [] (a_AccessList args)))
          gasFeeCap gasTipCap).

(** [ethtypes.NewMessage] with the fields of a message but another gas limit *)
Definition with_gas (gas : Z) (m : Message) : Message :=
  mkMessage (m_From m) (m_To m) (m_Nonce m) (m_Value m) gas (m_GasPrice m) (m_Data m) (m_AccessList m).

Section Queries.
Context `{!EthHex} {auth acct bank event : Type} `{!AccountKeeper auth acct} `{!BankKeeper bank}.
Context `{!SdkMath} `{!EvmEnv}.
Abbreviation vstore := (@VmKeeper.evmStore auth bank).
Context `{!MultiStore vstore}.
Implicit Types st : vstore.

(** the configuration that the interpreter gets *)
Record EVMConfig := mkEVMConfig {
  cfg_Params : VmParams.Params;
  cfg_Rules : ChainRules;
  cfg_CoinBase : address;
  cfg_BaseFee : option Z
}.

Variable IntrinsicGas : bytes -> ethAccessList -> bool -> bool -> bool -> res Z.
Variable evm : EVMConfig -> @EVM vstore event.
(** [GetValidatorByConsAddr] of the staking keeper: the text of the operator *)
Variable GetValidatorByConsAddr : vstore -> bytes -> res string.
Variable acct_GetAccountNumber : acct -> Z.

(** what a query reads *)
Record queryState := mkQueryState {
  qs_store : vstore;
  qs_fm : FeeMarket.fmState;
  qs_params : option VmParams.Params
}.

(** the context: the rules of its height, the gas limit of a block in the
    consensus parameters, the hash of the header, the proposer, the parameters of
    the legacy subspaces, and whether the store can be copied *)
Record queryCtx := mkQueryCtx {
  qc_Rules : ChainRules;
  qc_MaxGas : option Z;
  qc_HeaderHash : bytes;
  qc_Proposer : bytes;
  qc_LegacyFm : FeeMarket.Params;
  qc_LegacyParams : VmParams.Params;
  qc_hasMS : bool
}.
Implicit Types (c : queryCtx) (s : queryState).

(** ** Configuration ([config.go], [block_proposer.go], [keeper.go]) *)

Definition GetProposerAddress c (proposerAddress : bytes) : bytes :=
  if (length proposerAddress =? 0)%nat then qc_Proposer c else proposerAddress.

(** the last 20 bytes of the text of the operator *)
Definition GetCoinbaseAddress c s (proposerAddress : bytes) : res address :=
  match GetValidatorByConsAddr (qs_store s) (GetProposerAddress c proposerAddress) with
  | Ok operator => Ok (be_value (drop (length (string_bytes operator) - 20) (string_bytes operator)))
  | Err _ => Err ErrNoValidatorFound
  | Panic e => Panic e
  end.

Definition GetBaseFee c s : res (option Z) :=
  if negb (IsLondon (qc_Rules c)) then Ok None
  else
    let? baseFee := FeeMarket.fw_GetBaseFee coinCfg (qc_LegacyFm c) (qs_fm s) in
    Ok (Some (default 0 baseFee)).

Definition GetMinGasMultiplier c s : res Z :=
  let? p := FeeMarket.fw_GetParams coinCfg (qc_LegacyFm c) (qs_fm s) in
  Ok (default 0 (FeeMarket.MinGasMultiplier p)).

Definition new_EVMConfig c s (proposerAddress : bytes) : res EVMConfig :=
  let params := VmParams.GetParams (qc_LegacyParams c) (qs_params s) in
  let? coinbase := GetCoinbaseAddress c s proposerAddress in
  let? baseFee := GetBaseFee c s in
  Ok (mkEVMConfig params (qc_Rules c) coinbase baseFee).

(** ** Accounts *)

Record QueryAccountResponse := mkQueryAccountResponse { qa_Balance : Z; qa_CodeHash : string; qa_Nonce : Z }.

Definition Account s (req : option string) : res QueryAccountResponse :=
  match req with
  | None => Err ErrEmptyRequest
  | Some text =>
      let? _ := ValidateAddress text in
      let? a := VmKeeper.GetAccountOrEmpty (qs_store s) (HexToAddress text) in
      Ok (mkQueryAccountResponse (default 0 (acc_Balance a)) (hash_String (default 0 (acc_CodeHash a))) (acc_Nonce a))
  end.

(** sequence and account number *)
Definition CosmosAccount s (req : option string) : res (address * Z * Z) :=
  match req with
  | None => Err ErrEmptyRequest
  | Some text =>
      let? _ := ValidateAddress text in
      let ethAddr := HexToAddress text in
      match ak_GetAccount (VmKeeper.es_auth (qs_store s)) ethAddr with
      | Some account => Ok (ethAddr, acct_GetSequence account, acct_GetAccountNumber account)
      | None => Ok (ethAddr, 0, 0)
      end
  end.

Definition Balance s (req : option string) : res Z :=
  match req with
  | None => Err ErrEmptyRequest
  | Some text =>
      match ValidateAddress text with
      | Ok _ => VmKeeper.GetBalance (qs_store s) (HexToAddress text)
      | _ => Err ErrZeroAddress
      end
  end.

Definition Storage s (req : option (string * string)) : res string :=
  match req with
  | None => Err ErrEmptyRequest
  | Some (text, key) =>
      match ValidateAddress text with
      | Ok _ => Ok (hash_String (VmKeeper.GetState (qs_store s) (HexToAddress text) (HexToHash key)))
      | _ => Err ErrZeroAddress
      end
  end.

Definition Code s (req : option string) : res (option bytes) :=
  match req with
  | None => Err ErrEmptyRequest
  | Some text =>
      match ValidateAddress text with
      | Ok _ =>
          Ok (match VmKeeper.GetAccountWithoutBalance (qs_store s) (HexToAddress text) with
              | Some a => if IsContract a then VmKeeper.GetCode (qs_store s) (default 0 (acc_CodeHash a)) else None
              | None => None
              end)
      | _ => Err ErrZeroAddress
      end
  end.

Definition Params c s : VmParams.Params := VmParams.GetParams (qc_LegacyParams c) (qs_params s).

Definition BaseFee c s : res (option Z) :=
  let? baseFee := GetBaseFee c s in
  match baseFee with
  | Some f => let? aux := NewIntFromBigInt f in Ok (Some aux)
  | None => Ok None
  end.

Definition GlobalMinGasPrice c s : res Z :=
  let? p := FeeMarket.fw_GetParams coinCfg (qc_LegacyFm c) (qs_fm s) in
  dec_TruncateInt (default 0 (FeeMarket.MinGasPrice p)).

(** ** Calls *)

(** [ApplyMessageWithConfig] with the state and the configuration *)
Definition apply_message c s st (cfg : EVMConfig) (msg : Message) (commit : bool) (tc : TxConfig)
    : vstore * res TxResponse :=
  match GetMinGasMultiplier c s with
  | Ok mult => ApplyMessageWithConfig IntrinsicGas (evm cfg) st (qc_hasMS c) msg commit (cfg_Rules cfg) mult tc
  | Err e => (st, Err e)
  | Panic e => (st, Panic e)
  end.

Definition empty_tx_config c : TxConfig := NewEmptyTxConfig (BytesToHash (qc_HeaderHash c)).

(** a request: the arguments as decoded from JSON, the gas cap, the proposer *)
Record EthCallRequest := mkEthCallRequest { ec_Args : res TransactionArgs; ec_GasCap : Z; ec_Proposer : bytes }.

Definition EthCall c s (req : option EthCallRequest) : res TxResponse :=
  match req with
  | None => Err ErrEmptyRequest
  | Some req =>
      let? args := ec_Args req in
      let? cfg := new_EVMConfig c s (GetProposerAddress c (ec_Proposer req)) in
      let nonce := VmKeeper.GetNonce (qs_store s) (GetFrom args) in
      let? m := ToMessage (with_nonce nonce args) (ec_GasCap req) (cfg_BaseFee cfg) in
      (apply_message c s (qs_store s) cfg (cm_Msg m) false (empty_tx_config c)).2
  end.

(** *** The estimate of gas *)

Inductive CallType := RPC | Internal.

Record EstimateGasResponse := mkEstimateGasResponse { eg_Gas : Z; eg_Ret : bytes; eg_VmError : option error }.

(** the highest gas limit of the estimate, before the balance is looked at *)
Definition highest_gas c (args : TransactionArgs) (gasCap : Z) : Z :=
  let block := match qc_MaxGas c with
               | Some maxGas => if 0 <? maxGas then wrap64 maxGas else gasCap
               | None => gasCap
               end in
  let hi := match a_Gas args with
            | Some gas => if TxGas <=? gas then gas else block
            | None => block
            end in
  if negb (gasCap =? 0) && (gasCap <? hi) then gasCap else hi.

(** the limit that the balance pays for; the sender is read through its pointer *)
Definition cap_by_balance st (args : TransactionArgs) (gasFeeCap hi : Z) : res Z :=
  if gasFeeCap =? 0 then Ok hi
  else
    let? from := match a_From args with Some a => Ok a | None => Panic PanicNil end in
    let? balance := bw_GetBalance (VmKeeper.es_bank st) from (GetEVMCoinDenom coinCfg) in
    let? available :=
      match a_Value args with
      | Some v =>
          if coin_Amount balance <=? v then Err ErrInsufficientFundsForTransfer
          else let? v := NewIntFromBigInt v in int_Add (coin_Amount balance) (- v)
      | None => Ok (coin_Amount balance)
      end in
    let? price := NewIntFromBigInt gasFeeCap in
    let? allowance := int_Quo available price in
    if is_uint64 allowance && (allowance <? hi) then
      if allowance <? TxGas then Err ErrInsufficientFunds else Ok allowance
    else Ok hi.

(** the state that a call from the RPC runs on: the sender exists and its nonce
    is incremented, as the ante handler leaves it *)
Definition sender_ready st (from : address) (nonce : Z) : vstore * res unit :=
  do? st, account := (st, VmKeeper.GetAccount st from) in
  let '(st, account) :=
    match account with
    | Some a => (st, a)
    | None =>
        let '(x, au) := ak_NewAccountWithAddress (VmKeeper.es_auth st) from in
        (VmKeeper.with_auth (ak_SetAccount au x) st, NewEmptyAccount)
    end in
  VmKeeper.SetAccount st from (mkAccount (wrap64 (nonce + 1)) (acc_Balance account) (acc_CodeHash account)).

(** whether a gas limit fails, and the response; too little intrinsic gas is a
    failure, every other error ends the estimate *)
Definition executable c s (fromType : CallType) (cfg : EVMConfig) (msg : Message) (nonce gas : Z)
    : res (bool * option TxResponse) :=
  let msg := with_gas gas msg in
  let '(st, ready) :=
    match fromType with
    | RPC => sender_ready (qs_store s) (m_From msg) nonce
    | Internal => (qs_store s, Ok ())
    end in
  match ready with
  | Err e => Err e
  | Panic e => Panic e
  | Ok _ =>
      match (apply_message c s st cfg msg false (empty_tx_config c)).2 with
      | Ok rsp => Ok (Failed rsp, Some rsp)
      | Err e => if String.eqb e ErrIntrinsicGas then Ok (true, None) else Err e
      | Panic e => Panic e
      end
  end.

(** the end of the search: at the highest limit the call is tried once more *)
Definition check_highest (run : Z -> res (bool * option TxResponse)) (gasCap hi : Z) : res EstimateGasResponse :=
  if hi =? gasCap then
    let? '(failed, result) := run hi in
    if (failed : bool) then
      match result with
      | Some rsp =>
          match r_VmError rsp with
          | Some e =>
              if negb (String.eqb e ErrVmOutOfGas) then
                if String.eqb e ErrVmReverted then Ok (mkEstimateGasResponse 0 (r_Ret rsp) (Some e)) else Err e
              else Err ErrGasAllowance
          | None => Err ErrGasAllowance
          end
      | None => Err ErrGasAllowance
      end
    else Ok (mkEstimateGasResponse hi [] None)
  else Ok (mkEstimateGasResponse hi [] None).

(** the highest gas limit, the configuration, the nonce, the message, and the
    limit of the search *)
Definition estimate_start c s (req : EthCallRequest) : res (Z * EVMConfig * Z * Message * Z) :=
  let? args := ec_Args req in
  let gasCap := highest_gas c args (ec_GasCap req) in
  let? cfg := match new_EVMConfig c s (GetProposerAddress c (ec_Proposer req)) with
              | Err _ => Err ErrLoadConfig
              | r => r
              end in
  let nonce := VmKeeper.GetNonce (qs_store s) (GetFrom args) in
  let? m := ToMessage (with_nonce nonce args) (ec_GasCap req) (cfg_BaseFee cfg) in
  let? hi := cap_by_balance (qs_store s) args (cm_GasFeeCap m) gasCap in
  Ok (gasCap, cfg, nonce, cm_Msg m, hi).

(** 64 rounds are enough for the search; [None] is the search that did not
    end. *)
Definition EstimateGasInternal c s (req : option EthCallRequest) (fromType : CallType)
    : option (res EstimateGasResponse) :=
  match req with
  | None => Some (Err ErrEmptyRequest)
  | Some req =>
      if ec_GasCap req <? TxGas then Some (Err ErrGasCap)
      else
        match estimate_start c s req with
        | Err e => Some (Err e)
        | Panic e => Some (Panic e)
        | Ok (gasCap, cfg, nonce, msg, hi) =>
            let run := executable c s fromType cfg msg nonce in
            match BinSearch 64 (TxGas - 1) hi (fun gas => let? r := run gas in Ok r.1) with
            | None => None
            | Some (Err e) => Some (Err e)
            | Some (Panic e) => Some (Panic e)
            | Some (Ok hi) => Some (check_highest run gasCap hi)
            end
        end
  end.

Definition EstimateGas c s (req : option EthCallRequest) : option (res EstimateGasResponse) :=
  EstimateGasInternal c s req RPC.

(** ** Calls of other modules ([call_evm.go]) *)

Definition ApplyMessage c s st (msg : Message) (commit : bool) : vstore * res TxResponse :=
  match new_EVMConfig c s (qc_Proposer c) with
  | Ok cfg => apply_message c s st cfg msg commit (empty_tx_config c)
  | Err e => (st, Err e)
  | Panic e => (st, Panic e)
  end.

(** A committed call runs with the gas of its estimate, another one with the
    default cap; the prices are zero. *)
Definition CallEVMWithData c s (from : address) (contract : option address) (data : bytes) (commit : bool)
    : option (vstore * res TxResponse) :=
  let st := qs_store s in
  match ak_GetAccount (VmKeeper.es_auth st) from with
  | None => Some (st, Err ErrUnknownAddress)
  | Some account =>
      let nonce := acct_GetSequence account in
      let gasCap :=
        if commit then
          let args := mkTransactionArgs (Some from) contract None None None None None None (Some data) None None None in
          match EstimateGasInternal c s (Some (mkEthCallRequest (Ok args) DefaultGasCap [])) Internal with
          | None => None
          | Some r => Some (let? r := r in Ok (eg_Gas r))
          end
        else Some (Ok DefaultGasCap) in
      match gasCap with
      | None => None
      | Some (Err e) => Some (st, Err e)
      | Some (Panic e) => Some (st, Panic e)
      | Some (Ok gasCap) =>
          let msg := mkMessage from contract nonce 0 gasCap 0 data [] in
          Some (match ApplyMessage c s st msg commit with
                | (st, Ok rsp) => if Failed rsp then (st, Err ErrVMExecution) else (st, Ok rsp)
                | (st, r) => (st, r)
                end)
      end
  end.
End Queries.
End VmQueries.
