(* ===== verification/VmQueriesTheorems.v ===== *)
(** * What the queries of the EVM module answer

    The estimate of gas is a limit that executes, the least one when success is
    monotone in the gas, unless the balance of the sender bounds the search; a call that other modules commit runs with the
    gas of its estimate; queries of calls write nothing. *)

From stdpp Require Import base gmap list numbers strings sorting.
From Stdlib Require Import ZArith Lia.
From S2P Require Import Prelude SdkMath Scaling AccessList StateDB VmStore Concrete FeeMarket TxData TxDataTheorems StateTransition StateTransitionTheorems VmParams VmQueries.
Import VmQueries.

Section Theorems.
Context `{!EthHex} {auth acct bank event : Type} `{!AccountKeeper auth acct} `{!BankKeeper bank}.
Context `{!SdkMath} `{!EvmEnv}.
Abbreviation vstore := (@VmKeeper.evmStore auth bank).
Context `{!MultiStore vstore}.
Variable IntrinsicGas : bytes -> ethAccessList -> bool -> bool -> bool -> res Z.
Variable evm : EVMConfig -> @EVM vstore event.
Variable GetValidatorByConsAddr : vstore -> bytes -> res string.
Implicit Types (c : queryCtx) (s : @queryState auth bank).

(** the answer at the highest limit, when the call fails there *)
Definition refused (r : res EstimateGasResponse) : Prop :=
  match r with
  | Ok rsp => eg_Gas rsp = 0 /\ eg_VmError rsp = Some ErrVmReverted
  | Err _ => True
  | Panic _ => False
  end.

Lemma check_highest_below run gasCap g :
  g <> gasCap -> check_highest run gasCap g = Ok (mkEstimateGasResponse g [] None).
Proof. intros Hg. unfold check_highest. by destruct (Z.eqb_spec g gasCap). Qed.

Lemma check_highest_ok run gasCap rsp :
  run gasCap = Ok (false, rsp) -> check_highest run gasCap gasCap = Ok (mkEstimateGasResponse gasCap [] None).
Proof. intros Hr. unfold check_highest. by rewrite Z.eqb_refl, Hr. Qed.

Lemma check_highest_failed run gasCap rsp :
  run gasCap = Ok (true, rsp) -> refused (check_highest run gasCap gasCap).
Proof.
  intros Hr. unfold check_highest. rewrite Z.eqb_refl, Hr. cbn. destruct rsp as [rsp|]; [|done].
  destruct (r_VmError rsp) as [e|]; [|done]. destruct (String.eqb_spec e ErrVmOutOfGas); [done|].
  by destruct (String.eqb_spec e ErrVmReverted) as [->|].
Qed.

Lemma highest_gas_le c args cap : cap <> 0 -> highest_gas c args cap <= cap.
Proof.
  intros Hc. unfold highest_gas. destruct (Z.eqb_spec cap 0); [done|]. cbn [negb andb].
  set (hi := match a_Gas args with Some _ => _ | None => _ end). destruct (Z.ltb_spec cap hi); lia.
Qed.

Lemma cap_by_balance_le (st : vstore) args price hi hi' : cap_by_balance st args price hi = Ok hi' -> hi' <= hi.
Proof.
  unfold cap_by_balance. case_match; [by intros [= <-]|]. intros E.
  do 5 (apply bind_Ok_inv in E as (? & _ & E)).
  destruct (is_uint64 _); cbn [andb] in E; [|by injection E as <-].
  destruct (Z.ltb_spec x3 hi); [|by injection E as <-]. case_match; [done|]. injection E as <-. lia.
Qed.

Lemma estimate_start_bounds c s req gasCap cfg nonce msg hi :
  ec_GasCap req <> 0 -> estimate_start GetValidatorByConsAddr c s req = Ok (gasCap, cfg, nonce, msg, hi) ->
  hi <= gasCap <= ec_GasCap req.
Proof.
  intros Hc E. unfold estimate_start in E. apply bind_Ok_inv in E as (args & _ & E).
  do 2 (apply bind_Ok_inv in E as (? & _ & E)). apply bind_Ok_inv in E as (h & Hh & E).
  injection E as <- _ _ _ <-. split; [by eapply cap_by_balance_le|by apply highest_gas_le].
Qed.

(** What an answer of the estimate says of the call, [run] giving at each limit
    whether it fails. *)
Definition estimate_sound (run : Z -> res (bool * option TxResponse)) (gasCap hi : Z) (r : res EstimateGasResponse) : Prop :=
  match r with
  | Ok rsp =>
      (exists g, rsp = mkEstimateGasResponse g [] None /\ (TxGas <= g <= hi \/ g = hi) /\
         ((exists x, run g = Ok (false, x)) \/ (g = hi /\ hi < gasCap)) /\
         (g <= TxGas \/ exists x, run (g - 1) = Ok (true, x))) \/
      (exists x, rsp = mkEstimateGasResponse 0 (r_Ret x) (Some ErrVmReverted) /\ hi = gasCap /\
         run hi = Ok (true, Some x) /\ r_VmError x = Some ErrVmReverted)
  | Err e => (exists g, g <= hi /\ run g = Err e) \/ (hi = gasCap /\ exists x, run hi = Ok (true, x))
  | Panic e => exists g, g <= hi /\ run g = Panic e
  end.

Lemma check_highest_sound run gasCap hi g :
  hi <= gasCap -> (TxGas <= g <= hi \/ g = hi) -> (g = hi \/ exists x, run g = Ok (false, x)) ->
  (g <= TxGas \/ exists x, run (g - 1) = Ok (true, x)) -> estimate_sound run gasCap hi (check_highest run gasCap g).
Proof.
  intros Hcap Hx1 Hx2 Hx3. unfold check_highest. destruct (Z.eqb_spec g gasCap) as [->|Hn].
  - assert (hi = gasCap) as -> by lia. destruct (run gasCap) as [[[] rsp]|e|e] eqn:E; cbn.
    + destruct rsp as [rsp|]; [|right; eauto]. destruct (r_VmError rsp) as [e|] eqn:Ev; [|right; eauto].
      destruct (String.eqb_spec e ErrVmOutOfGas); cbn [negb]; [right; eauto|].
      destruct (String.eqb_spec e ErrVmReverted) as [->|]; [|right; eauto]. right. eauto.
    + left. exists gasCap. split_and!; [done|lia|eauto|done].
    + left. exists gasCap. split; [lia|done].
    + exists gasCap. split; [lia|done].
  - left. exists g. split_and!; [done|done| |done]. destruct Hx2 as [->|]; [right; lia|by left].
Qed.

Lemma least_answer run gasCap hi g (failed : Z -> bool) :
  TxGas <= hi <= gasCap -> TxGas - 1 < g <= hi ->
  (forall g, TxGas <= g <= hi -> exists rsp, run g = Ok (failed g, rsp)) ->
  (forall g g', TxGas <= g -> g <= g' -> g' <= hi -> failed g = false -> failed g' = false) ->
  (forall x, TxGas - 1 < x < g -> failed x = true) -> (forall x, g <= x < hi -> failed x = false) ->
  if failed hi then if hi =? gasCap then refused (check_highest run gasCap g)
                    else check_highest run gasCap g = Ok (mkEstimateGasResponse hi [] None)
  else exists g', check_highest run gasCap g = Ok (mkEstimateGasResponse g' [] None) /\ TxGas <= g' <= hi /\
         failed g' = false /\ forall x, TxGas <= x < g' -> failed x = true.
Proof.
  intros Hhi Hg Hrun Hmono Hlow Hup. destruct (Hrun hi ltac:(lia)) as [rsp Hlast].
  assert (Hgf : g < hi -> failed g = false) by (intros; apply Hup; lia).
  destruct (failed hi) eqn:Ef.
  - assert (g = hi) as ->.
    { destruct (Z.eq_dec g hi) as [|Hn]; [done|]. rewrite (Hmono g hi) in Ef; [done|lia|lia|lia|apply Hgf; lia]. }
    destruct (Z.eqb_spec hi gasCap) as [->|Hn]; [by eapply check_highest_failed|by apply check_highest_below].
  - exists g. assert (Hg' : failed g = false) by (destruct (Z.eq_dec g hi) as [->|]; [done|apply Hgf; lia]).
    split_and!; [|lia|lia|done|intros; apply Hlow; lia].
    destruct (Z.eq_dec g gasCap) as [->|Hn]; [|by apply check_highest_below].
    replace hi with gasCap in * by lia. by eapply check_highest_ok.
Qed.

(** C23: The estimate of gas ends, and its answer is sound. For a request with a
    gas cap between 21000 and the largest [int64], whose start gives the limit
    [hi] of the search, at most the highest limit [gasCap]: an answer is a limit
    that executes, and the limit below it fails or is under 21000; only [hi]
    itself is answered untried, when the balance of the sender lowered it under
    [gasCap]. When [hi] is the highest limit and fails, the answer is an error or
    the data of the revert; every other error or panic is that of an execution.
    When moreover the call never errors on a limit and more gas never turns
    success into failure, the answer is the least limit that executes: every
    smaller one from 21000 fails. *)
Theorem estimate_gas_least c s req fromType :
  TxGas <= ec_GasCap req <= max_int64 ->
  exists r, EstimateGasInternal IntrinsicGas evm GetValidatorByConsAddr c s (Some req) fromType = Some r /\
    match estimate_start GetValidatorByConsAddr c s req with
    | Err e => r = Err e
    | Panic e => r = Panic e
    | Ok (gasCap, cfg, nonce, msg, hi) =>
        let run := executable IntrinsicGas evm c s fromType cfg msg nonce in
        hi <= gasCap /\ estimate_sound run gasCap hi r /\
        forall failed : Z -> bool,
          TxGas <= hi -> (forall g, TxGas <= g <= hi -> exists rsp, run g = Ok (failed g, rsp)) ->
          (forall g g', TxGas <= g -> g <= g' -> g' <= hi -> failed g = false -> failed g' = false) ->
          if failed hi then if hi =? gasCap then refused r else r = Ok (mkEstimateGasResponse hi [] None)
          else exists g, r = Ok (mkEstimateGasResponse g [] None) /\ TxGas <= g <= hi /\ failed g = false /\
                 forall x, TxGas <= x < g -> failed x = true
    end.
Proof.
  intros Hreq. unfold EstimateGasInternal. rewrite (proj2 (Z.ltb_ge (ec_GasCap req) TxGas)) by lia.
  destruct (estimate_start GetValidatorByConsAddr c s req) as [[[[[gasCap cfg] nonce] msg] hi]|e|e] eqn:Hstart; [|eauto..].
  apply estimate_start_bounds in Hstart; [|unfold TxGas in *; lia]. cbn zeta.
  generalize (executable IntrinsicGas evm c s fromType cfg msg nonce). intros run.
  destruct (BinSearch_ends 63 (TxGas - 1) hi (fun gas => let? r := run gas in Ok r.1)) as (b & Eb & Hb);
    [split; vm_compute; congruence|lia|unfold TxGas, max_int64 in *; change (Z.of_nat 63) with 63; lia|].
  exists (match b with Ok g => check_highest run gasCap g | Err e => Err e | Panic e => Panic e end).
  split; [rewrite Eb; by destruct b|]. split; [lia|]. split.
  - destruct b as [g|e|e].
    + destruct Hb as (Hx1 & Hx2 & Hx3). apply check_highest_sound; [lia|lia| |].
      * destruct Hx2 as [|([[] x] & Hx & [=])%bind_Ok_inv]; [by left|right; eauto].
      * destruct Hx3 as [|([[] x] & Hx & [=])%bind_Ok_inv]; [left; lia|right; eauto].
    + destruct Hb as (g & Hg & He). left. exists g. split; [lia|]. destruct (run g) as [| |]; cbn [mbind res_bind] in He; congruence.
    + destruct Hb as (g & Hg & He). exists g. split; [lia|]. destruct (run g) as [| |]; cbn [mbind res_bind] in He; congruence.
  - intros failed Hhi Hrun Hmono.
    destruct (BinSearch_spec 63 (TxGas - 1) hi failed (fun gas => let? r := run gas in Ok r.1))
      as (g & Eg & Hg & Hlow & Hup).
    { intros g Hg. destruct (Hrun g ltac:(lia)) as [rsp ->]. done. }
    { intros g g' Hg Hgg Hg'. apply Hmono; lia. }
    { unfold TxGas in *. lia. }
    { lia. }
    { unfold max_int64, TxGas in *. change (Z.of_nat 63) with 63. lia. }
    rewrite Eg in Eb. injection Eb as <-. clear Hb.
    apply (least_answer run gasCap hi g failed); [lia|lia|exact Hrun|exact Hmono|exact Hlow|exact Hup].
Qed.

(** ** Calls of other modules *)

Lemma ApplyMessageWithConfig_uncommitted (ev : @EVM vstore event) st hasMS msg rules mult tc :
  (ApplyMessageWithConfig IntrinsicGas ev st hasMS msg false rules mult tc).1 = st.
Proof.
  unfold ApplyMessageWithConfig. apply (st_bind_fst (fun x => x = st)); [done|]. intros ? ig ->.
  case_match; [done|]. apply (st_bind_fst (fun x => x = st)); [done|]. intros ? [? [[? ?] ?]] ->.
  case_match; [done|]. apply (st_bind_fst (fun x => x = st)); [done|]. intros ? rf ->.
  apply (st_bind_fst (fun x => x = st)); [done|]. intros ? _ ->.
  apply (st_bind_fst (fun x => x = st)); [done|]. by intros ? gas ->.
Qed.

(** A call that another module does not commit ends and writes nothing. *)
Theorem uncommitted_call_writes_nothing c s from contract data :
  exists r, CallEVMWithData IntrinsicGas evm GetValidatorByConsAddr c s from contract data false = Some (qs_store s, r).
Proof.
  unfold CallEVMWithData. destruct (ak_GetAccount _ from) as [x|]; [|by eexists].
  set (msg := mkMessage _ _ _ _ _ _ _ _).
  assert (Hst : (ApplyMessage IntrinsicGas evm GetValidatorByConsAddr c s (qs_store s) msg false).1 = qs_store s).
  { unfold ApplyMessage, apply_message. destruct (new_EVMConfig _ c s _) as [cfg| |]; [|done..].
    destruct (GetMinGasMultiplier c s); [|done..]. apply ApplyMessageWithConfig_uncommitted. }
  destruct (ApplyMessage _ _ _ _ _ _ _ _) as [st [rsp| |]]; cbn in Hst; subst st; [|by eexists..].
  destruct (Failed rsp); by eexists.
Qed.
End Theorems.

(** ** Concrete runs *)

Definition q_fm : FeeMarket.fmState := FeeMarket.mkFmState (Some FeeMarket.DefaultParams) 0 None 0.
Definition q_state : @queryState (gmap address cAcct) cbank := mkQueryState cstore0 q_fm (Some VmParams.DefaultParams).
Definition q_ctx : queryCtx :=
  mkQueryCtx crules None [] [9] FeeMarket.DefaultParams VmParams.DefaultParams true.
Definition q_evm (_ : EVMConfig) : @EVM cstore Z := cevm.
Definition q_validator (_ : cstore) (_ : bytes) : res string := Ok "tacvaloper1qqqqqqqqqqqqqqqqqqqqqqqqqqqqqqqqqqqqqq".

(** a call that sends one coin; [price] is its gas price *)
Definition q_args (from : option address) (price : option Z) : TransactionArgs :=
  mkTransactionArgs from (Some 2) (Some 21800) price None None (Some (10 ^ 12)) None None None None None.
Definition q_req (from : option address) (price : option Z) : EthCallRequest :=
  mkEthCallRequest (Ok (q_args from price)) DefaultGasCap [].

Definition q_start := estimate_start q_validator q_ctx q_state (q_req (Some 1) None).
Definition q_cfg : EVMConfig :=
  match q_start with Ok (_, cfg, _, _, _) => cfg | _ => mkEVMConfig VmParams.DefaultParams crules 0 None end.
Definition q_msg : Message := match q_start with Ok (_, _, _, msg, _) => msg | _ => cmsg [] end.
Definition q_run := executable cIntrinsic q_evm q_ctx q_state RPC q_cfg q_msg 7.
Definition q_failed (g : Z) : bool := g <? 21700.

Lemma q_run_total g : TxGas <= g <= 21800 -> exists rsp, q_run g = Ok (q_failed g, rsp).
Proof.
  intros Hg. set (ok := fun g => match q_run g with Ok (b, _) => Bool.eqb b (q_failed g) | _ => false end).
  assert (Hall : forallb ok (seqZ 21000 801) = true) by (vm_compute; reflexivity).
  rewrite forallb_forall in Hall. specialize (Hall g). unfold ok in Hall.
  destruct (q_run g) as [[b rsp]| |].
  - exists rsp. rewrite (Bool.eqb_prop b (q_failed g)); [done|]. apply Hall, list_elem_of_In, elem_of_seqZ. unfold TxGas in *. lia.
  - exfalso. discriminate Hall. apply list_elem_of_In, elem_of_seqZ. unfold TxGas in *. lia.
  - exfalso. discriminate Hall. apply list_elem_of_In, elem_of_seqZ. unfold TxGas in *. lia.
Qed.

Lemma estimate_gas_least_witness :
  exists g, EstimateGas cIntrinsic q_evm q_validator q_ctx q_state (Some (q_req (Some 1) None)) =
    Some (Ok (mkEstimateGasResponse g [] None)) /\ 21000 <= g <= 21800 /\ (forall x, 21000 <= x < g -> (x <? 21700) = true).
Proof.
  destruct (estimate_gas_least cIntrinsic q_evm q_validator q_ctx q_state (q_req (Some 1) None) RPC) as (r & E & Hr);
    [split; vm_compute; congruence|].
  replace (estimate_start q_validator q_ctx q_state (q_req (Some 1) None)) with (Ok (21800, q_cfg, 7, q_msg, 21800)) in Hr
    by (vm_compute; reflexivity).
  destruct Hr as (_ & _ & Hr). specialize (Hr q_failed). destruct Hr as (g & -> & Hg & _ & Hx).
  - unfold TxGas. lia.
  - exact q_run_total.
  - intros g g' _ Hgg _. unfold q_failed. rewrite !Z.ltb_ge. lia.
  - exists g. split; [exact E|]. split; [exact Hg|exact Hx].
Defined.

(** 4 coins, of which gas can be paid: 21500 units of gas. The estimate answers
    21500, a limit at which the call runs out of gas. *)
Theorem capped_estimate_is_unchecked :
  EstimateGas cIntrinsic q_evm q_validator q_ctx q_state (Some (q_req (Some 1) (Some 186046511))) =
    Some (Ok (mkEstimateGasResponse 21500 [] None)) /\
  exists rsp, q_run 21500 = Ok (true, Some rsp) /\ r_VmError rsp = Some ErrVmOutOfGas.
Proof. split; [vm_compute; reflexivity|]. eexists. split; vm_compute; reflexivity. Qed.

(** A gas price without a sender: the sender is read through a nil pointer. *)
Theorem estimate_without_sender_panics :
  EstimateGas cIntrinsic q_evm q_validator q_ctx q_state (Some (q_req None (Some 186046511))) = Some (Panic PanicNil).
Proof. vm_compute. reflexivity. Qed.

(** The coinbase is made of the last 20 characters of the text of the operator;
    here all of them are the letter q, 113. *)
Theorem coinbase_is_text :
  GetCoinbaseAddress q_validator q_ctx q_state [] = Ok (be_value (repeat 113 20)).
Proof. vm_compute. reflexivity. Qed.
