(* ===== verification/RpcEvents.v ===== *)
(** * Events of transactions and how the RPC reads them

    [EthereumTx] of [x/vm/keeper/msg_server.go] executes a message and reports it
    in an event; the ante handler has reported every message before
    ([ante/evm/11_emit_event.go]). [rpc/types/events.go] recovers from the events
    what happened to each message; [rpc/types/utils.go] says which failures count.
    Numbers in events are decimal texts. *)

From stdpp Require Import base gmap list numbers strings sorting.
From Stdlib Require Import ZArith Lia DecimalString DecimalN.
From S2P Require Import Prelude SdkMath Scaling AccessList StateDB StateDBCommit VmStore FeeMarket TxData StateTransition VmParams Ante.

Definition ErrSyntax : error := "invalid syntax".
Definition ErrRange : error := "value out of range".
Definition ErrApplyTransaction : error := "failed to apply transaction".
Definition ErrEncodeLog : error := "failed to encode log".
Definition ErrParseEvents : error := "failed to parse tx events".
Definition ErrTxNotInMsgs : error := "ethereum tx not found in msgs".
Definition PanicIndex : error := "index out of range".
Definition PanicTypeAssertion : error := "interface conversion".

(** ** Texts *)

(** [strconv.FormatUint] and [strconv.ParseUint] in base 10 *)
Definition FormatUint (n : Z) : string := NilZero.string_of_uint (N.to_uint (Z.to_N n)).

Definition ParseUint (s : string) (bitSize : Z) : res Z :=
  match NilZero.uint_of_string s with
  | Some d => let n := Z.of_N (N.of_uint d) in if n <? 2 ^ bitSize then Ok n else Err ErrRange
  | None => Err ErrSyntax
  end.

(** [strings.Contains] *)
Fixpoint str_contains (s sub : string) : bool :=
  String.prefix sub s || match s with String _ s' => str_contains s' sub | EmptyString => false end.

(** ** Events *)

Record EventAttribute := mkAttr { at_Key : string; at_Value : string }.
Record Event := mkEvent { ev_Type : string; ev_Attributes : list EventAttribute }.

Definition EventTypeEthereumTx : string := "ethereum_tx".
Definition EventTypeTxLog : string := "tx_log".
Definition EventTypeMessage : string := "message".
Definition EventTypeTx : string := "tx".
Definition AttributeKeyAmount : string := "amount".
Definition AttributeKeyFee : string := "fee".
Definition AttributeKeyModule : string := "module".
Definition AttributeKeySender : string := "sender".
Definition AttributeKeyRecipient : string := "recipient".
Definition AttributeKeyTxHash : string := "txHash".
Definition AttributeKeyEthereumTxHash : string := "ethereumTxHash".
Definition AttributeKeyTxIndex : string := "txIndex".
Definition AttributeKeyTxGasUsed : string := "txGasUsed".
Definition AttributeKeyTxType : string := "txType".
Definition AttributeKeyTxLog : string := "txLog".
Definition AttributeKeyEthereumTxFailed : string := "ethereumTxFailed".
Definition AttributeValueCategory : string := "evm".

(** the event of the ante handler for a message *)
Definition tx_hash_event (msgHash : string) (txIndex : Z) : Event :=
  mkEvent EventTypeEthereumTx
    [mkAttr AttributeKeyEthereumTxHash msgHash; mkAttr AttributeKeyTxIndex (FormatUint txIndex)].

(** ** [EthereumTx] *)

Section MsgServer.
Context {auth acct bank event : Type} `{!AccountKeeper auth acct} `{!BankKeeper bank}.
Context `{!SdkMath} `{!EvmEnv} `{!EthHex}.
Abbreviation vstore := (@VmKeeper.evmStore auth bank).
Context `{!MultiStore vstore}.
Variable IntrinsicGas : bytes -> ethAccessList -> bool -> bool -> bool -> res Z.
Variable evm : @EVM vstore event.
Variable logsBloom : list ethLog -> Z.
(** [json.Marshal] of a log, and the hash of the Cosmos transaction as text *)
Variable json_log : ethLog -> res string.
Variable cometHash : bytes -> string.

(** an Ethereum transaction as it is executed: the message recovered from it,
    its hash, its type, the sender that the message names *)
Record execTx := mkExecTx { x_Msg : Message; x_Hash : hash; x_Type : Z; x_Sender : string }.

Definition ethereum_tx_attrs (x : execTx) (txBytes : bytes) (txIndex : Z) (response : TxResponse) : list EventAttribute :=
  [mkAttr AttributeKeyAmount (FormatUint (m_Value (x_Msg x)));
   mkAttr AttributeKeyEthereumTxHash (hash_String (x_Hash x));
   mkAttr AttributeKeyTxIndex (FormatUint txIndex);
   mkAttr AttributeKeyTxGasUsed (FormatUint (r_GasUsed response))]
  ++ (if (0 <? length txBytes)%nat then [mkAttr AttributeKeyTxHash (cometHash txBytes)] else [])
  ++ match m_To (x_Msg x) with Some to => [mkAttr AttributeKeyRecipient (addr_Hex to)] | None => [] end
  ++ match r_VmError response with Some e => [mkAttr AttributeKeyEthereumTxFailed e] | None => [] end.

Fixpoint log_attrs (logs : list ethLog) : res (list EventAttribute) :=
  match logs with
  | [] => Ok []
  | l :: logs =>
      match json_log l with
      | Ok value => let? r := log_attrs logs in Ok (mkAttr AttributeKeyTxLog value :: r)
      | _ => Err ErrEncodeLog
      end
  end.

(** the state, the events emitted so far, and the response *)
Definition EthereumTx (x : execTx) (txBytes : bytes) (blockHash : hash) (rules : ChainRules) (minGasMultiplier : Z)
    (s : @txState auth bank) (events : list Event) : (@txState auth bank * list Event) * res TxResponse :=
  let txIndex := ts_txIndex s in
  match ApplyTransaction IntrinsicGas evm logsBloom (x_Msg x) blockHash (x_Hash x) rules minGasMultiplier s with
  | (s, Panic e) => ((s, events), Panic e)
  | (s, Err _) => ((s, events), Err ErrApplyTransaction)
  | (s, Ok response) =>
      match log_attrs (r_Logs response) with
      | Panic e => ((s, events), Panic e)
      | Err e => ((s, events), Err e)
      | Ok txLogAttrs =>
          ((s, events ++
              [mkEvent EventTypeEthereumTx (ethereum_tx_attrs x txBytes txIndex response);
               mkEvent EventTypeTxLog txLogAttrs;
               mkEvent EventTypeMessage
                 [mkAttr AttributeKeyModule AttributeValueCategory; mkAttr AttributeKeySender (x_Sender x);
                  mkAttr AttributeKeyTxType (FormatUint (x_Type x))]]), Ok response)
      end
  end.
End MsgServer.

(** ** Which results count ([rpc/types/utils.go]) *)

Record ExecTxResult := mkExecTxResult { er_Code : Z; er_Log : string; er_GasUsed : Z; er_Events : list Event }.

Definition ExceedBlockGasLimitError : string := "out of gas in location: block gas meter; gasWanted:".
Definition StateDBCommitError : string := "failed to commit stateDB".

Definition TxExceedBlockGasLimit (r : ExecTxResult) : bool := str_contains (er_Log r) ExceedBlockGasLimitError.
Definition TxStateDBCommitError (r : ExecTxResult) : bool := str_contains (er_Log r) StateDBCommitError.
Definition TxSucessOrExpectedFailure (r : ExecTxResult) : bool :=
  (er_Code r =? 0) || TxExceedBlockGasLimit r || TxStateDBCommitError r.

(** ** [rpc/types/events.go] *)

Section Parse.
Context `{!EthHex}.

Inductive EventFormat := eventFormatUnknown | eventFormat1 | eventFormat2.

Record ParsedTx := mkParsedTx { pt_MsgIndex : Z; pt_Hash : hash; pt_EthTxIndex : Z; pt_GasUsed : Z; pt_Failed : bool }.

Definition NewParsedTx (msgIndex : Z) : ParsedTx := mkParsedTx msgIndex 0 (-1) 0 false.

Record ParsedTxs := mkParsedTxs { Txs : list ParsedTx; TxHashes : gmap hash nat }.

Definition fillTxAttribute (tx : ParsedTx) (a : EventAttribute) : res ParsedTx :=
  let '(mkParsedTx i h n g f) := tx in
  if String.eqb (at_Key a) AttributeKeyEthereumTxHash then Ok (mkParsedTx i (HexToHash (at_Value a)) n g f)
  else if String.eqb (at_Key a) AttributeKeyTxIndex then
    let? txIndex := ParseUint (at_Value a) 31 in Ok (mkParsedTx i h txIndex g f)
  else if String.eqb (at_Key a) AttributeKeyTxGasUsed then
    let? gasUsed := ParseUint (at_Value a) 64 in Ok (mkParsedTx i h n gasUsed f)
  else if String.eqb (at_Key a) AttributeKeyEthereumTxFailed then
    Ok (mkParsedTx i h n g (0 <? String.length (at_Value a))%nat)
  else Ok tx.

Fixpoint fillTxAttributes (tx : ParsedTx) (attrs : list EventAttribute) : res ParsedTx :=
  match attrs with
  | [] => Ok tx
  | a :: attrs => let? tx := fillTxAttribute tx a in fillTxAttributes tx attrs
  end.

Definition newTx (p : ParsedTxs) (attrs : list EventAttribute) : res ParsedTxs :=
  let msgIndex := length (Txs p) in
  let? tx := fillTxAttributes (NewParsedTx (Z.of_nat msgIndex)) attrs in
  Ok (mkParsedTxs (Txs p ++ [tx]) (<[pt_Hash tx := msgIndex]> (TxHashes p))).

Definition updateTx (p : ParsedTxs) (eventIndex : nat) (attrs : list EventAttribute) : res ParsedTxs :=
  let? tx := fillTxAttributes (NewParsedTx (Z.of_nat eventIndex)) attrs in
  match Txs p !! eventIndex with
  | None => Panic PanicIndex
  | Some old =>
      let hashes := if pt_Hash tx =? pt_Hash old then TxHashes p else <[pt_Hash tx := eventIndex]> (TxHashes p) in
      Ok (mkParsedTxs (<[eventIndex := tx]> (Txs p)) hashes)
  end.

(** the loop over the events; [eventIndex] is the number of full events seen *)
Fixpoint parse_events (format : EventFormat) (eventIndex : nat) (p : ParsedTxs) (events : list Event) : res ParsedTxs :=
  match events with
  | [] => Ok p
  | event :: events =>
      if negb (String.eqb (ev_Type event) EventTypeEthereumTx) then parse_events format eventIndex p events
      else
        let format := match format with
                      | eventFormatUnknown =>
                          if (2 <? length (ev_Attributes event))%nat then eventFormat1 else eventFormat2
                      | f => f
                      end in
        if (length (ev_Attributes event) =? 2)%nat then
          let? p := newTx p (ev_Attributes event) in parse_events format eventIndex p events
        else
          let? p := match format with
                    | eventFormat1 => newTx p (ev_Attributes event)
                    | _ => updateTx p eventIndex (ev_Attributes event)
                    end in
          parse_events format (S eventIndex) p events
  end.

Definition with_GasUsed (g : Z) (t : ParsedTx) : ParsedTx :=
  mkParsedTx (pt_MsgIndex t) (pt_Hash t) (pt_EthTxIndex t) g (pt_Failed t).

(** [GetGas] of the message of an index *)
Definition msg_gas (msgs : list sdkMsg) (i : nat) : res Z :=
  match msgs !! i with
  | None => Panic PanicIndex
  | Some OtherMsg => Panic PanicTypeAssertion
  | Some (EthMsg m) => Ok (match UnpackEthMsg (EthMsg m) with Ok (_, d) => GetGas d | _ => 0 end)
  end.

(** every transaction of a failed result is failed, for its gas limit *)
Fixpoint fail_txs (msgs : list sdkMsg) (i : nat) (txs : list ParsedTx) : res (list ParsedTx) :=
  match txs with
  | [] => Ok []
  | t :: txs =>
      let? gasLimit := msg_gas msgs i in
      let? txs := fail_txs msgs (S i) txs in
      Ok (mkParsedTx (pt_MsgIndex t) (pt_Hash t) (pt_EthTxIndex t) gasLimit true :: txs)
  end.

(** [tx] is [None] when the caller has no decoded transaction *)
Definition ParseTxResult (result : ExecTxResult) (tx : option (list sdkMsg)) : res ParsedTxs :=
  let? p := parse_events eventFormatUnknown 0 (mkParsedTxs [] ∅) (er_Events result) in
  let p := match Txs p with
           | [t] => mkParsedTxs [with_GasUsed (wrap64 (er_GasUsed result)) t] (TxHashes p)
           | _ => p
           end in
  match tx with
  | Some msgs =>
      if negb (er_Code result =? 0) then
        let? txs := fail_txs msgs 0 (Txs p) in Ok (mkParsedTxs txs (TxHashes p))
      else Ok p
  | None => Ok p
  end.

Definition GetTxByMsgIndex (p : ParsedTxs) (i : Z) : option ParsedTx :=
  if (i <? 0) || (Z.of_nat (length (Txs p)) <=? i) then None else Txs p !! Z.to_nat i.

Definition GetTxByHash (p : ParsedTxs) (h : hash) : option ParsedTx :=
  match TxHashes p !! h with Some idx => Txs p !! idx | None => None end.

Definition GetTxByTxIndex (p : ParsedTxs) (txIndex : Z) : option ParsedTx :=
  match Txs p with
  | [] => None
  | t :: _ => GetTxByMsgIndex p (txIndex - pt_EthTxIndex t)
  end.

(** the gas of the first [n] transactions *)
Fixpoint sum_gas (txs : list ParsedTx) (n : nat) (result : Z) : res Z :=
  match n with
  | O => Ok result
  | S n =>
      match txs with
      | [] => Panic PanicIndex
      | t :: txs => sum_gas txs n (wrap64 (result + pt_GasUsed t))
      end
  end.

Definition AccumulativeGasUsed (p : ParsedTxs) (msgIndex : Z) : res Z := sum_gas (Txs p) (Z.to_nat (msgIndex + 1)) 0.

(** [types.TxResult] *)
Record TxResult := mkTxResult {
  tr_Height : Z;
  tr_TxIndex : Z;
  tr_MsgIndex : Z;
  tr_EthTxIndex : Z;
  tr_Failed : bool;
  tr_GasUsed : Z;
  tr_CumulativeGasUsed : Z
}.

Definition wrap32 (n : Z) : Z := n mod 2 ^ 32.

Definition ParseTxIndexerResult (height index : Z) (result : ExecTxResult) (tx : option (list sdkMsg))
    (getter : ParsedTxs -> option ParsedTx) : res TxResult :=
  match ParseTxResult result tx with
  | Panic e => Panic e
  | Err _ => Err ErrParseEvents
  | Ok txs =>
      match getter txs with
      | None => Err ErrTxNotInMsgs
      | Some t =>
          let? sum := AccumulativeGasUsed txs (pt_MsgIndex t) in
          Ok (mkTxResult height index (wrap32 (pt_MsgIndex t)) (pt_EthTxIndex t) (pt_Failed t) (pt_GasUsed t) sum)
      end
  end.
End Parse.
