(* ===== verification/RpcEventsTheorems.v ===== *)
(** * The events of a transaction tell what happened to its messages *)

From stdpp Require Import base gmap list numbers strings sorting.
From Stdlib Require Import ZArith Lia DecimalString DecimalN DecimalPos.
From S2P Require Import Prelude SdkMath Scaling AccessList StateDB StateDBCommit VmStore Concrete FeeMarket TxData TxDataTheorems StateTransition StateTransitionTheorems VmParams Ante RpcEvents.

(** ** Decimal texts *)

Lemma ParseUint_FormatUint n bits : 0 <= n < 2 ^ bits -> ParseUint (FormatUint n) bits = Ok n.
Proof.
  intros Hn. unfold ParseUint, FormatUint.
  assert (Hnn : N.to_uint (Z.to_N n) <> Decimal.Nil)
    by (destruct (Z.to_N n); [by vm_compute|apply DecimalPos.Unsigned.to_uint_nonnil]).
  rewrite NilZero.usu by done. rewrite DecimalN.Unsigned.of_to, Z2N.id by lia.
  by rewrite (proj2 (Z.ltb_lt n (2 ^ bits))) by lia.
Qed.

Section Theorems.
Context {auth acct bank event : Type} `{!AccountKeeper auth acct} `{!BankKeeper bank}.
Context `{!SdkMath} `{!EvmEnv} `{!EthHex}.
Abbreviation vstore := (@VmKeeper.evmStore auth bank).
Context `{!MultiStore vstore}.
Variable IntrinsicGas : bytes -> ethAccessList -> bool -> bool -> bool -> res Z.
Variable evm : @EVM vstore event.
Variable logsBloom : list ethLog -> Z.
Variable json_log : ethLog -> res string.
Variable cometHash : bytes -> string.
Implicit Types s : @txState auth bank.

Abbreviation EthereumTx := (EthereumTx IntrinsicGas evm logsBloom json_log cometHash).
Abbreviation full_attrs := (ethereum_tx_attrs cometHash).

(** ** What is emitted *)

Definition is_eth_event (e : Event) : Prop := ev_Type e = EventTypeEthereumTx.
#[local] Instance is_eth_event_dec e : Decision (is_eth_event e) := decide (ev_Type e = EventTypeEthereumTx).

(** the events of the ante handler, from message [i] on *)
Fixpoint ante_events (blockTxIndex i : Z) (xs : list execTx) : list Event :=
  match xs with
  | [] => []
  | x :: xs => tx_hash_event (hash_String (x_Hash x)) (wrap64 (blockTxIndex + i)) :: ante_events blockTxIndex (i + 1) xs
  end.

(** the messages of a transaction, one after the other *)
Fixpoint run_msgs (txBytes : bytes) (blockHash : hash) (rules : ChainRules) (mult : Z) (xs : list execTx)
    (se : @txState auth bank * list Event) : (@txState auth bank * list Event) * res (list TxResponse) :=
  match xs with
  | [] => (se, Ok [])
  | x :: xs =>
      do? se, r := EthereumTx x txBytes blockHash rules mult se.1 se.2 in
      do? se, rs := run_msgs txBytes blockHash rules mult xs se in
      (se, Ok (r :: rs))
  end.

(** the full events of the messages from index [n] of the block on *)
Fixpoint full_events (txBytes : bytes) (n : Z) (xs : list execTx) (rs : list TxResponse) : list Event :=
  match xs, rs with
  | x :: xs, r :: rs => mkEvent EventTypeEthereumTx (full_attrs x txBytes n r) :: full_events txBytes (n + 1) xs rs
  | _, _ => []
  end.

Lemma ApplyTransaction_txIndex msg bh th rules mult s s' r :
  ApplyTransaction IntrinsicGas evm logsBloom msg bh th rules mult s = (s', Ok r) ->
  ts_txIndex s' = wrap64 (ts_txIndex s + 1).
Proof.
  unfold ApplyTransaction. destruct (ApplyMessageWithConfig _ _ _ _ _ _ _ _ _) as [tmp [rsp|e|e]].
  2: { destruct (ResetGasMeterAndConsumeGas _ _) as [g [?|?|?]]; done. }
  2: done.
  destruct (RefundGas _ _ _ _) as [b rr]. cbv zeta. intros E. apply st_bind_Ok_inv in E as (s1 & [] & [= <- ->] & E).
  set (s2 := SetTxIndexTransient _ _) in E. assert (Hi : ts_txIndex s2 = wrap64 (ts_txIndex s + 1)) by done.
  clearbody s2. apply st_bind_Ok_inv in E as (s3 & total & Ha & E). unfold AddTransientGasUsed in Ha.
  destruct (Z.ltb_spec (wrap64 (ts_gasUsed s2 + r_GasUsed rsp)) (r_GasUsed rsp)); [done|]. injection Ha as <- <-. destruct (ResetGasMeterAndConsumeGas _ _) as [g rg].
  apply st_bind_Ok_inv in E as (s4 & [] & [= <- ->] & [= <- <-]). done.
Qed.

Lemma EthereumTx_events x txBytes bh rules mult s events s' events' r :
  EthereumTx x txBytes bh rules mult s events = ((s', events'), Ok r) ->
  ts_txIndex s' = wrap64 (ts_txIndex s + 1) /\
  filter is_eth_event events' =
    filter is_eth_event events ++ [mkEvent EventTypeEthereumTx (full_attrs x txBytes (ts_txIndex s) r)].
Proof.
  unfold RpcEvents.EthereumTx. destruct (ApplyTransaction _ _ _ _ _ _ _ _ _) as [s1 [rsp|e|e]] eqn:Ea; [|done..].
  destruct (log_attrs _ _) as [ls|e|e]; [|done..]. intros [= <- <- <-]. split; [by eapply ApplyTransaction_txIndex|].
  by rewrite filter_app.
Qed.

Lemma run_msgs_events txBytes bh rules mult xs se se' rs :
  0 <= ts_txIndex se.1 -> ts_txIndex se.1 + Z.of_nat (length xs) <= 2 ^ 31 ->
  run_msgs txBytes bh rules mult xs se = (se', Ok rs) ->
  length rs = length xs /\
  filter is_eth_event se'.2 = filter is_eth_event se.2 ++ full_events txBytes (ts_txIndex se.1) xs rs.
Proof.
  revert se rs. induction xs as [|x xs IH]; intros [s ev] rs Hlo Hb; cbn [run_msgs length] in *.
  { intros [= <- <-]. cbn. by rewrite app_nil_r. }
  cbn [fst snd] in *. intros E. apply st_bind_Ok_inv in E as ([s1 ev1] & r & Ex & E).
  apply st_bind_Ok_inv in E as (se2 & rs' & Er & [= <- <-]). apply EthereumTx_events in Ex as [Hi Hev].
  rewrite wrap64_small in Hi by (unfold max_uint64; lia).
  apply IH in Er as [Hl Hf]; cbn [fst snd] in *; [|lia..]. split; [cbn; lia|].
  by rewrite Hf, Hev, <-app_assoc, Hi.
Qed.

(** ** What is read *)

Lemma parse_events_filter format k p events :
  parse_events format k p events = parse_events format k p (filter is_eth_event events).
Proof.
  revert format k p. induction events as [|e events IH]; intros format k p; [done|]. rewrite filter_cons. cbn [parse_events].
  case_decide as He; unfold is_eth_event in He.
  - cbn [parse_events]. rewrite He, String.eqb_refl. cbn [negb].
    destruct (length (ev_Attributes e) =? 2)%nat; [destruct (newTx _ _); cbn; [apply IH|done..]|].
    set (f := match format with eventFormatUnknown => _ | _ => _ end). clearbody f.
    destruct (match f with eventFormat1 => _ | _ => _ end); cbn; [apply IH|done..].
  - destruct (String.eqb_spec (ev_Type e) EventTypeEthereumTx); [done|]. cbn. apply IH.
Qed.

(** a message before and after its execution was read *)
Definition first_tx (b i : Z) (x : execTx) : ParsedTx := mkParsedTx i (x_Hash x) (b + i) 0 false.
Definition second_tx (b i : Z) (x : execTx) (r : TxResponse) : ParsedTx :=
  mkParsedTx i (x_Hash x) (b + i) (r_GasUsed r) (Failed r).

Definition response_ok (r : TxResponse) : Prop := 0 <= r_GasUsed r < 2 ^ 64 /\ r_VmError r <> Some "".

Lemma fill_first b i x :
  hash_ok (x_Hash x) -> 0 <= b + i < 2 ^ 31 ->
  fillTxAttributes (NewParsedTx i) (ev_Attributes (tx_hash_event (hash_String (x_Hash x)) (wrap64 (b + i)))) = Ok (first_tx b i x).
Proof.
  intros Hh Hb. rewrite wrap64_small by (unfold max_uint64; lia).
  cbn -[ParseUint FormatUint]. rewrite HexToHash_String, ParseUint_FormatUint by done. done.
Qed.

Lemma fill_second b i x txBytes r :
  hash_ok (x_Hash x) -> 0 <= b + i < 2 ^ 31 -> response_ok r ->
  fillTxAttributes (NewParsedTx i) (full_attrs x txBytes (b + i) r) = Ok (second_tx b i x r).
Proof.
  intros Hh Hb [Hg Hv]. unfold ethereum_tx_attrs, second_tx, Failed.
  destruct (0 <? length txBytes)%nat, (m_To (x_Msg x)), (r_VmError r) as [e|];
    cbn -[ParseUint FormatUint]; rewrite HexToHash_String by done;
    (rewrite (ParseUint_FormatUint (b + i)) by done); cbn -[ParseUint FormatUint];
    (rewrite (ParseUint_FormatUint (r_GasUsed r)) by done); cbn; try done;
    destruct e; done.
Qed.

Fixpoint firsts (b i : Z) (xs : list execTx) : list ParsedTx :=
  match xs with [] => [] | x :: xs => first_tx b i x :: firsts b (i + 1) xs end.
Fixpoint seconds (b i : Z) (xs : list execTx) (rs : list TxResponse) : list ParsedTx :=
  match xs, rs with
  | x :: xs, r :: rs => second_tx b i x r :: seconds b (i + 1) xs rs
  | _, _ => []
  end.
Fixpoint add_hashes (i : nat) (xs : list execTx) (m : gmap hash nat) : gmap hash nat :=
  match xs with [] => m | x :: xs => add_hashes (S i) xs (<[x_Hash x := i]> m) end.

Lemma parse_firsts b format k p xs rest :
  format <> eventFormat1 -> Forall (fun x => hash_ok (x_Hash x)) xs -> 0 <= b ->
  b + Z.of_nat (length (Txs p)) + Z.of_nat (length xs) <= 2 ^ 31 ->
  parse_events format k p (ante_events b (Z.of_nat (length (Txs p))) xs ++ rest) =
  parse_events (match xs with [] => format | _ => eventFormat2 end) k
    (mkParsedTxs (Txs p ++ firsts b (Z.of_nat (length (Txs p))) xs) (add_hashes (length (Txs p)) xs (TxHashes p))) rest.
Proof.
  intros Hf Hh Hb0. revert format p Hf. induction Hh as [|x xs Hx Hh IH]; intros format p Hf Hb; cbn [length] in *.
  { cbn. rewrite app_nil_r. by destruct p. }
  cbn [ante_events app]. set (i := Z.of_nat (length (Txs p))) in *. cbn [parse_events].
  change (ev_Type (tx_hash_event _ _)) with EventTypeEthereumTx. rewrite String.eqb_refl. cbn [negb].
  change (length (ev_Attributes (tx_hash_event _ _)) =? 2)%nat with true. cbv iota.
  change (2 <? length (ev_Attributes (tx_hash_event _ _)))%nat with false. cbv iota.
  unfold newTx. fold i. rewrite fill_first by (done || lia). cbn [mbind res_bind].
  set (p' := mkParsedTxs _ _). assert (Hl : Z.of_nat (length (Txs p')) = i + 1) by (cbn; rewrite length_app; cbn; lia).
  rewrite <-Hl. replace (match format with eventFormatUnknown => _ | _ => _ end) with eventFormat2 by (by destruct format).
  rewrite IH by (done || lia). rewrite Hl. replace (length (Txs p')) with (S (length (Txs p))) by (unfold i in Hl; lia).
  cbn [Txs TxHashes p' firsts add_hashes first_tx pt_Hash]. rewrite <-app_assoc. by destruct xs.
Qed.

Lemma parse_seconds b k p txBytes xs rs done :
  Forall (fun x => hash_ok (x_Hash x)) xs -> Forall response_ok rs -> length rs = length xs -> 0 <= b ->
  b + Z.of_nat k + Z.of_nat (length xs) <= 2 ^ 31 -> length done = k ->
  Txs p = done ++ firsts b (Z.of_nat k) xs ->
  parse_events eventFormat2 k p (full_events txBytes (b + Z.of_nat k) xs rs) =
    Ok (mkParsedTxs (done ++ seconds b (Z.of_nat k) xs rs) (TxHashes p)).
Proof.
  intros Hh. revert k p rs done. induction Hh as [|x xs Hx Hh IH]; intros k p rs done Hr Hl Hb0 Hb Hd Hp; cbn [length] in *.
  { cbn. destruct p. cbn in *. by subst. }
  destruct rs as [|r rs]; [done|]. cbn [length] in Hl. apply Forall_cons in Hr as [Hr Hrs]. cbn [full_events parse_events ev_Type ev_Attributes].
  rewrite String.eqb_refl. cbn [negb]. assert (H4 : (length (full_attrs x txBytes (b + Z.of_nat k) r) =? 2)%nat = false).
  { unfold ethereum_tx_attrs. rewrite length_app. done. }
  rewrite H4. unfold updateTx. rewrite fill_second by (done || lia). cbn [mbind res_bind].
  rewrite Hp. cbn [firsts]. rewrite list_lookup_middle by done. cbn [pt_Hash second_tx first_tx]. rewrite Z.eqb_refl.
  replace (b + Z.of_nat k + 1) with (b + Z.of_nat (S k)) by lia. cbn [mbind res_bind].
  rewrite (IH (S k) _ rs (done ++ [second_tx b (Z.of_nat k) x r])).
  - cbn [TxHashes seconds]. rewrite <-app_assoc. by replace (Z.of_nat (S k)) with (Z.of_nat k + 1) by lia.
  - done.
  - lia.
  - done.
  - lia.
  - rewrite length_app. cbn. lia.
  - cbn [Txs]. subst k. rewrite <-(Nat.add_0_r (length done)), insert_app_r. cbn. rewrite <-app_assoc. cbn.
    do 3 f_equal. lia.
Qed.

Lemma add_hashes_lookup i xs m h :
  h ∉ map x_Hash xs -> add_hashes i xs m !! h = m !! h.
Proof.
  revert i m. induction xs as [|x xs IH]; intros i m Hn; [done|]. cbn in *. rewrite not_elem_of_cons in Hn.
  rewrite IH by naive_solver. rewrite lookup_insert_ne; naive_solver.
Qed.

Lemma add_hashes_index i xs m j x :
  NoDup (map x_Hash xs) -> xs !! j = Some x -> add_hashes i xs m !! x_Hash x = Some (i + j)%nat.
Proof.
  revert i m j. induction xs as [|y xs IH]; intros i m j Hnd Hj; [done|]. cbn in *. apply NoDup_cons in Hnd as [Hy Hnd].
  destruct j as [|j]; cbn in Hj.
  - injection Hj as ->. rewrite add_hashes_lookup by done. rewrite lookup_insert_eq. f_equal. lia.
  - rewrite (IH _ _ j) by done. f_equal. lia.
Qed.

Lemma seconds_lookup b i xs rs j x r :
  xs !! j = Some x -> rs !! j = Some r -> seconds b i xs rs !! j = Some (second_tx b (i + Z.of_nat j) x r).
Proof.
  revert i rs j. induction xs as [|y xs IH]; intros i [|q rs] [|j] Hx Hr; try done; cbn in Hx, Hr; cbn [seconds]; rewrite lookup_cons.
  - injection Hx as ->. injection Hr as ->. by rewrite Z.add_0_r.
  - rewrite (IH (i + 1) rs j) by done. do 2 f_equal. lia.
Qed.

Lemma seconds_length b i xs rs : length rs = length xs -> length (seconds b i xs rs) = length xs.
Proof. revert i rs. induction xs as [|x xs IH]; intros i [|r rs] Hl; try done. cbn in *. by rewrite IH by lia. Qed.

(** the gas of the only message is that of the transaction *)
Definition only_gas (g : Z) (txs : list ParsedTx) : list ParsedTx :=
  match txs with [t] => [with_GasUsed g t] | _ => txs end.

Lemma seconds_head g b i xs rs t l : only_gas g (seconds b i xs rs) = t :: l -> pt_EthTxIndex t = b + i.
Proof.
  destruct xs as [|x xs], rs as [|r rs]; try done. cbn. destruct (seconds b (i + 1) xs rs); intros E; by injection E as <- _.
Qed.

Lemma ParseTxResult_success result tx txs hashes :
  er_Code result = 0 ->
  parse_events eventFormatUnknown 0 (mkParsedTxs [] ∅) (er_Events result) = Ok (mkParsedTxs txs hashes) ->
  ParseTxResult result tx =
    Ok (mkParsedTxs (only_gas (wrap64 (er_GasUsed result)) txs) hashes).
Proof.
  intros Hc He. unfold ParseTxResult. rewrite He, Hc. cbn. by destruct txs as [|t [|]], tx.
Qed.

(** C25: What happened to the messages of a transaction is read back from its
    events. After the ante handler and [EthereumTx] have reported the messages,
    whatever other events there are, [ParseTxResult] finds for each message its
    hash, its index in the block, whether it failed, and its gas (the gas of the
    whole transaction when it is the only message); by the index of the message,
    by its index in the block, and by its hash. *)
Theorem tx_events_roundtrip txBytes bh rules mult xs s events s' events' rs result tx :
  run_msgs txBytes bh rules mult xs (s, events) = ((s', events'), Ok rs) ->
  filter is_eth_event events = ante_events (ts_txIndex s) 0 xs ->
  filter is_eth_event (er_Events result) = filter is_eth_event events' ->
  er_Code result = 0 -> 0 <= ts_txIndex s -> ts_txIndex s + Z.of_nat (length xs) <= 2 ^ 31 ->
  Forall (fun x => hash_ok (x_Hash x)) xs -> NoDup (map x_Hash xs) -> Forall response_ok rs ->
  exists p, ParseTxResult result tx = Ok p /\ length (Txs p) = length xs /\
    forall i x r, xs !! i = Some x -> rs !! i = Some r ->
      let t := mkParsedTx (Z.of_nat i) (x_Hash x) (ts_txIndex s + Z.of_nat i)
                 (if (length xs =? 1)%nat then wrap64 (er_GasUsed result) else r_GasUsed r) (Failed r) in
      GetTxByMsgIndex p (Z.of_nat i) = Some t /\ GetTxByTxIndex p (ts_txIndex s + Z.of_nat i) = Some t /\
      GetTxByHash p (x_Hash x) = Some t.
Proof.
  intros Hrun Hante Hres Hcode Hlo Hb Hh Hnd Hr. apply run_msgs_events in Hrun as [Hl Hev]; [|done..]. cbn [fst snd] in *.
  set (b := ts_txIndex s) in *.
  assert (Hp : parse_events eventFormatUnknown 0 (mkParsedTxs [] ∅) (er_Events result) =
    Ok (mkParsedTxs (seconds b 0 xs rs) (add_hashes 0 xs ∅))).
  { rewrite parse_events_filter, Hres, Hev, Hante.
    etransitivity; [apply (parse_firsts b eventFormatUnknown 0 (mkParsedTxs [] ∅) xs); [done|done|done|cbn; lia]|].
    destruct xs as [|x xs]; [by destruct rs|]. cbn [Txs TxHashes length app]. 
    set (p0 := mkParsedTxs _ _). pose proof (parse_seconds b 0 p0 txBytes (x :: xs) rs []) as Hs.
    change (Z.of_nat 0) with 0 in Hs. rewrite !Z.add_0_r in Hs. by apply Hs. }
  rewrite (ParseTxResult_success result tx _ _ Hcode Hp). eexists. split; [done|]. cbn [Txs].
  pose proof (seconds_length b 0 xs rs Hl) as Hsl.
  set (txs := only_gas (wrap64 (er_GasUsed result)) (seconds b 0 xs rs)).
  assert (Htl : length txs = length xs) by (unfold txs, only_gas; rewrite <-Hsl; by destruct (seconds b 0 xs rs) as [|? [|]]).
  split; [done|]. intros i x r Hx Hri. set (t := mkParsedTx (Z.of_nat i) _ _ _ _).
  assert (Hti : txs !! i = Some t).
  { pose proof (seconds_lookup b 0 xs rs i x r Hx Hri) as Hs. unfold txs, t. destruct xs as [|y [|z xs]]; [done| |].
    - destruct rs as [|q [|]]; [done| |done]. destruct i; [|done]. cbn in *. injection Hx as ->. by injection Hri as ->.
    - destruct rs as [|q [|q' rs]]; [done|done|]. cbn [length Nat.eqb]. exact Hs. }
  assert (Hil : (i < length xs)%nat) by (by eapply lookup_lt_Some).
  assert (Hm : GetTxByMsgIndex (mkParsedTxs txs (add_hashes 0 xs ∅)) (Z.of_nat i) = Some t).
  { unfold GetTxByMsgIndex. cbn [Txs]. rewrite Htl. destruct (Z.ltb_spec (Z.of_nat i) 0); [lia|].
    destruct (Z.leb_spec (Z.of_nat (length xs)) (Z.of_nat i)); [lia|]. cbn. by rewrite Nat2Z.id. }
  split_and!; [done| |].
  - unfold GetTxByTxIndex. cbn [Txs]. destruct txs as [|t0 l] eqn:Et; [cbn in Htl; lia|].
    rewrite (seconds_head _ _ _ _ _ _ _ Et). replace (b + Z.of_nat i - (b + 0)) with (Z.of_nat i) by lia. done.
  - unfold GetTxByHash. cbn [Txs TxHashes]. rewrite (add_hashes_index 0 xs ∅ i x Hnd Hx). done.
Qed.

Lemma fail_txs_spec msgs k txs gs :
  length gs = length txs -> (forall j g, gs !! j = Some g -> msg_gas msgs (k + j) = Ok g) ->
  fail_txs msgs k txs =
    Ok (zip_with (fun t g => mkParsedTx (pt_MsgIndex t) (pt_Hash t) (pt_EthTxIndex t) g true) txs gs).
Proof.
  revert k gs. induction txs as [|t txs IH]; intros k [|g gs] Hl Hg; try done. cbn [fail_txs].
  rewrite <-(Nat.add_0_r k) at 1. rewrite (Hg 0%nat g) by done. cbn [mbind res_bind].
  rewrite (IH (S k) gs); [done|by injection Hl|]. intros j g' Hj. rewrite Nat.add_succ_comm. by apply Hg.
Qed.

(** A transaction that the block had no gas for is failed in all its messages,
    for their gas limits, though [EthereumTx] reported none. *)
Theorem exceeded_tx_is_failed b xs result msgs gs :
  filter is_eth_event (er_Events result) = ante_events b 0 xs -> er_Code result <> 0 ->
  0 <= b -> b + Z.of_nat (length xs) <= 2 ^ 31 -> Forall (fun x => hash_ok (x_Hash x)) xs ->
  length gs = length xs -> (forall j g, gs !! j = Some g -> msg_gas msgs j = Ok g) ->
  exists p, ParseTxResult result (Some msgs) = Ok p /\
    Txs p = zip_with (fun t g => mkParsedTx (pt_MsgIndex t) (pt_Hash t) (pt_EthTxIndex t) g true) (firsts b 0 xs) gs.
Proof.
  intros He Hc Hlo Hb Hh Hl Hg. unfold ParseTxResult. rewrite parse_events_filter, He, <-(app_nil_r (ante_events b 0 xs)).
  erewrite (parse_firsts b eventFormatUnknown 0 (mkParsedTxs [] ∅) xs []); [|done|done|done|cbn; lia].
  cbn [Txs TxHashes length app parse_events mbind res_bind]. rewrite (proj2 (Z.eqb_neq _ _) Hc). cbn [negb].
  assert (Hlf : forall i, length (firsts b i xs) = length xs)
    by (clear; induction xs as [|x xs IH]; intros i; cbn; [done|by rewrite IH]).
  change (Z.of_nat 0) with 0. specialize (Hlf 0). set (p := match firsts b 0 xs with [_] => _ | _ => _ end).
  assert (Hp : fail_txs msgs 0 (Txs p) = fail_txs msgs 0 (firsts b 0 xs)) by (unfold p; by destruct (firsts b 0 xs) as [|t [|]]).
  rewrite Hp, (fail_txs_spec msgs 0 _ gs) by (done || lia). by eexists.
Qed.
End Theorems.

(** ** A transaction of two messages, the second of which is reverted *)

Lemma run_pair {S E A} (d : A) (p : (S * E) * res A) : is_ok p.2 = true -> p = ((p.1.1, p.1.2), Ok (ok_or d p.2)).
Proof. by destruct p as [[] []]. Qed.

Definition wv_json (_ : ethLog) : res string := Ok "{}".
Definition wv_comet (_ : bytes) : string := "00".
Definition wv_xs : list execTx := [mkExecTx (cmsg []) 11 2 "0x1"; mkExecTx (cmsg [1]) 12 0 "0x1"].
Definition wv_before : list Event := mkEvent EventTypeTx [mkAttr AttributeKeyFee "5utac"] :: ante_events 4 0 wv_xs.
Abbreviation wv_run :=
  (run_msgs cIntrinsic cevm (fun _ => 0) wv_json wv_comet [1; 2] 0 crules (10 ^ 17) wv_xs (cts0, wv_before)).
Definition wv_rs : list TxResponse := ok_or [] wv_run.2.
Definition wv_result : ExecTxResult := mkExecTxResult 0 "" 43316 wv_run.1.2.

Lemma wv_rs_eq : wv_rs = [mkTxResponse 21600 None [42] []; mkTxResponse 21716 (Some "execution reverted") [] []].
Proof. vm_compute. reflexivity. Qed.

Lemma tx_events_roundtrip_witness :
  exists p, ParseTxResult wv_result None = Ok p /\
    GetTxByHash p 12 = Some (mkParsedTx 1 12 5 21716 true) /\ GetTxByTxIndex p 4 = Some (mkParsedTx 0 11 4 21600 false).
Proof.
  destruct (tx_events_roundtrip cIntrinsic cevm (fun _ => 0) wv_json wv_comet [1; 2] 0 crules (10 ^ 17) wv_xs cts0 wv_before
    wv_run.1.1 wv_run.1.2 wv_rs wv_result None) as (p & E & _ & H).
  - apply run_pair. vm_compute. reflexivity.
  - vm_compute. reflexivity.
  - reflexivity.
  - reflexivity.
  - vm_compute. congruence.
  - vm_compute. congruence.
  - repeat constructor; vm_compute; congruence.
  - apply (bool_decide_unpack _). vm_compute. exact I.
  - rewrite wv_rs_eq. repeat constructor; vm_compute; congruence.
  - exists p. split; [exact E|]. split.
    + apply (H 1%nat (mkExecTx (cmsg [1]) 12 0 "0x1") (mkTxResponse 21716 (Some "execution reverted") [] []));
        [reflexivity|vm_compute; reflexivity].
    + apply (H 0%nat (mkExecTx (cmsg []) 11 2 "0x1") (mkTxResponse 21600 None [42] [])); [reflexivity|vm_compute; reflexivity].
Defined.
