(* ===== verification/Indexer.v ===== *)
(** * The index of Ethereum transactions ([indexer/kv_indexer.go])

    The index is a key-value database with two kinds of entries: the result of a
    transaction under its hash, and the hash under a block and an index. The
    service of [server/indexer_service.go] feeds it with the blocks of the chain.
    The database can fail; its iterators follow the order of the keys. *)

From stdpp Require Import base gmap list numbers strings sorting.
From Stdlib Require Import ZArith Lia.
From S2P Require Import Prelude SdkMath Scaling AccessList StateDB StateDBCommit VmStore FeeMarket TxData StateTransition VmParams Ante RpcEvents.

Definition ErrTxNotFound : error := "tx not found".
Definition ErrKeyLength : error := "wrong tx index key length".

Definition KeyPrefixTxHash : Z := 1.
Definition KeyPrefixTxIndex : Z := 2.
Definition TxIndexKeyLength : nat := 17.

Definition to_int32 (z : Z) : Z := let w := z mod 2 ^ 32 in if w <? 2 ^ 31 then w else w - 2 ^ 32.

(** order of byte strings *)
Fixpoint bytes_ltb (a b : bytes) : bool :=
  match a, b with
  | [], [] => false
  | [], _ :: _ => true
  | _ :: _, [] => false
  | x :: a, y :: b => (x <? y) || ((x =? y) && bytes_ltb a b)
  end.

(** ** The database; [db_fault] is the error that it answers with *)

Record kvDB := mkKvDB { db_entries : gmap bytes bytes; db_fault : option error }.

Definition db_Get (db : kvDB) (k : bytes) : res bytes :=
  match db_fault db with Some e => Err e | None => Ok (default ([] : bytes) (db_entries db !! k : option bytes)) end.

Abbreviation batch := (list (bytes * bytes)).

Definition batch_Write (db : kvDB) (b : batch) : kvDB * res unit :=
  match db_fault db with
  | Some e => (db, Err e)
  | None => (mkKvDB (fold_left (fun m kv => <[kv.1 := kv.2]> m) b (db_entries db)) None, Ok ())
  end.

(** the keys from [lo] on and before [hi] *)
Definition db_keys (db : kvDB) (lo hi : bytes) : list bytes :=
  filter (fun k => negb (bytes_ltb k lo) && bytes_ltb k hi) (map fst (map_to_list (db_entries db))).

Definition first_key (ks : list bytes) : option bytes :=
  fold_right (fun k acc => match acc with Some x => if bytes_ltb x k then Some x else Some k | None => Some k end) None ks.
Definition last_key (ks : list bytes) : option bytes :=
  fold_right (fun k acc => match acc with Some x => if bytes_ltb k x then Some x else Some k | None => Some k end) None ks.

(** ** Keys *)

Definition TxHashKey (h : hash) : bytes := KeyPrefixTxHash :: be_bytes 32 h.
Definition TxIndexKey (blockNumber txIndex : Z) : bytes :=
  KeyPrefixTxIndex :: be_bytes 8 (wrap64 blockNumber) ++ be_bytes 8 (wrap64 txIndex).

Definition parseBlockNumberFromKey (key : bytes) : res Z :=
  if negb (length key =? TxIndexKeyLength)%nat then Err ErrKeyLength
  else Ok (to_int64 (be_value (take 8 (drop 1 key)))).

Definition LoadLastBlock (db : kvDB) : res Z :=
  match db_fault db with
  | Some e => Err e
  | None =>
      match last_key (db_keys db [KeyPrefixTxIndex] [KeyPrefixTxIndex + 1]) with
      | None => Ok (-1)
      | Some key => parseBlockNumberFromKey key
      end
  end.

Definition LoadFirstBlock (db : kvDB) : res Z :=
  match db_fault db with
  | Some e => Err e
  | None =>
      match first_key (db_keys db [KeyPrefixTxIndex] [KeyPrefixTxIndex + 1]) with
      | None => Ok (-1)
      | Some key => parseBlockNumberFromKey key
      end
  end.

Definition LastIndexedBlock (db : kvDB) : res Z := LoadLastBlock db.
Definition FirstIndexedBlock (db : kvDB) : res Z := LoadFirstBlock db.

(** the protobuf encoding of a result, which is empty only for the zero value *)
Definition tr_ok (r : TxResult) : Prop :=
  0 < tr_Height r < 2 ^ 63 /\ 0 <= tr_TxIndex r < 2 ^ 32 /\ 0 <= tr_MsgIndex r < 2 ^ 32 /\
  - 2 ^ 31 <= tr_EthTxIndex r < 2 ^ 31 /\ 0 <= tr_GasUsed r < 2 ^ 64 /\ 0 <= tr_CumulativeGasUsed r < 2 ^ 64.

Class TxCodec := {
  codec_Marshal : TxResult -> bytes;
  codec_Unmarshal : bytes -> res TxResult;
  codec_roundtrip : forall r, tr_ok r -> codec_Unmarshal (codec_Marshal r) = Ok r;
  codec_nonempty : forall r, tr_ok r -> codec_Marshal r <> []
}.

(** a decoded transaction: the type URLs of its extension options, when it has
    the method for them, and its messages *)
Record decodedTx := mkDecodedTx { d_ExtensionOptions : option (list string); d_Msgs : list sdkMsg }.

Definition isEthTx (tx : decodedTx) : bool :=
  match d_ExtensionOptions tx with
  | Some [url] => String.eqb url "/cosmos.evm.vm.v1.ExtensionOptionsEthereumTx"
  | _ => false
  end.

Section Indexer.
Context `{!EthHex} `{!TxCodec}.
Variable TxDecoder : bytes -> res decodedTx.

(** ** Lookups *)

Definition GetByTxHash (db : kvDB) (h : hash) : res TxResult :=
  let? bz := db_Get db (TxHashKey h) in
  if (length bz =? 0)%nat then Err ErrTxNotFound else codec_Unmarshal bz.

Definition GetByBlockAndIndex (db : kvDB) (blockNumber txIndex : Z) : res TxResult :=
  let? bz := db_Get db (TxIndexKey blockNumber txIndex) in
  if (length bz =? 0)%nat then Err ErrTxNotFound else GetByTxHash db (BytesToHash bz).

(** ** Indexing *)

Definition saveTxResult (b : batch) (txHash : hash) (r : TxResult) : batch :=
  b ++ [(TxHashKey txHash, codec_Marshal r); (TxIndexKey (tr_Height r) (tr_EthTxIndex r), be_bytes 32 txHash)].

(** the gas and the failure of a message; the gas limit when the result failed;
    [None] when the events do not mention the message *)
Definition msg_outcome (result : ExecTxResult) (txs : ParsedTxs) (msgIndex : Z) (m : MsgEthereumTx) : option (Z * bool) :=
  if negb (er_Code result =? 0) then Some (match msg_Data m with Some d => GetGas d | None => 0 end, true)
  else match GetTxByMsgIndex txs msgIndex with
       | None => None
       | Some t => Some (pt_GasUsed t, pt_Failed t)
       end.

(** the loop over the messages of a transaction: the index of the next message,
    the gas so far, the index of the next Ethereum transaction of the block *)
Fixpoint index_msgs (height txIndex : Z) (result : ExecTxResult) (txs : ParsedTxs) (msgIndex cumulativeGasUsed ethTxIndex : Z)
    (b : batch) (msgs : list sdkMsg) : res (Z * batch) :=
  match msgs with
  | [] => Ok (ethTxIndex, b)
  | OtherMsg :: _ => Panic PanicTypeAssertion
  | EthMsg m :: msgs =>
      let txHash := HexToHash (msg_Hash m) in
      match msg_outcome result txs msgIndex m with
      | None => index_msgs height txIndex result txs (msgIndex + 1) cumulativeGasUsed ethTxIndex b msgs
      | Some (gasUsed, failed) =>
          let cumulativeGasUsed := wrap64 (cumulativeGasUsed + gasUsed) in
          let r := mkTxResult height (wrap32 txIndex) (wrap32 msgIndex) ethTxIndex failed gasUsed cumulativeGasUsed in
          index_msgs height txIndex result txs (msgIndex + 1) cumulativeGasUsed (to_int32 (ethTxIndex + 1))
            (saveTxResult b txHash r) msgs
      end
  end.

Record Block := mkBlock { bl_Height : Z; bl_Txs : list bytes }.

(** what a transaction of the block leaves to index: its messages and what its
    events say; [None] when it is passed over *)
Definition indexed_tx (tx : bytes) (result : ExecTxResult) : res (option (list sdkMsg * ParsedTxs)) :=
  if negb (TxSucessOrExpectedFailure result) then Ok None
  else
    match TxDecoder tx with
    | Panic e => Panic e
    | Err _ => Ok None
    | Ok tx =>
        if negb (isEthTx tx) then Ok None
        else
          match ParseTxResult result (Some (d_Msgs tx)) with
          | Panic e => Panic e
          | Err _ => Ok None
          | Ok txs => Ok (Some (d_Msgs tx, txs))
          end
    end.

Fixpoint index_txs (height txIndex ethTxIndex : Z) (b : batch) (txs : list bytes) (results : list ExecTxResult)
    : res batch :=
  match txs, results with
  | [], _ => Ok b
  | _ :: _, [] => Panic PanicIndex
  | tx :: txs, result :: results =>
      let? t := indexed_tx tx result in
      match t with
      | None => index_txs height (txIndex + 1) ethTxIndex b txs results
      | Some (msgs, parsed) =>
          let? '(ethTxIndex, b) := index_msgs height txIndex result parsed 0 0 ethTxIndex b msgs in
          index_txs height (txIndex + 1) ethTxIndex b txs results
      end
  end.

Definition IndexBlock (db : kvDB) (block : Block) (txResults : list ExecTxResult) : kvDB * res unit :=
  do? db, b := (db, index_txs (bl_Height block) 0 0 [] (bl_Txs block) txResults) in
  batch_Write db b.

(** ** The service ([server/indexer_service.go]) *)

(** [sv_latest] is written by the goroutine that receives headers, the rest by
    the loop. [pcOuter] is the head of the outer loop, [pcInner i] that of the
    inner loop; a panic ends the process. *)
Inductive svPc := pcOuter | pcInner (i : Z) | pcCrashed (e : error).

Record svState := mkSvState { sv_latest : Z; sv_signal : bool; sv_last : Z; sv_pc : svPc; sv_db : kvDB }.

(** A step is a header that arrives, or a round of the loop, in which the client
    or the database may fail. *)
Inductive svLabel := Header (height : Z) | Round (fetchFails : bool) (writeFails : option error).

Section Service.
(** the blocks of the chain and their results *)
Variable chain : Z -> Block * list ExecTxResult.

Definition on_header (h : Z) (s : svState) : svState :=
  if sv_latest s <? h then mkSvState h true (sv_last s) (sv_pc s) (sv_db s) else s.

Definition on_round (fetchFails : bool) (writeFails : option error) (s : svState) : svState :=
  let '(mkSvState latest signal last pc db) := s in
  match pc with
  | pcCrashed _ => s
  | pcOuter =>
      if latest <=? last then mkSvState latest false last pcOuter db
      else mkSvState latest signal last (pcInner (last + 1)) db
  | pcInner i =>
      if negb (i <=? latest) then mkSvState latest signal last pcOuter db
      else if fetchFails then mkSvState latest signal last pcOuter db
      else
        let fault := match writeFails with Some e => Some e | None => db_fault db end in
        let '(db', r) := IndexBlock (mkKvDB (db_entries db) fault) (chain i).1 (chain i).2 in
        let db' := mkKvDB (db_entries db') (db_fault db) in
        match r with
        | Panic e => mkSvState latest signal last (pcCrashed e) db'
        | _ => mkSvState latest signal i (pcInner (i + 1)) db'
        end
  end.

Definition sv_step (s : svState) (l : svLabel) : svState :=
  match l with Header h => on_header h s | Round f w => on_round f w s end.

(** the start: [latest] is the answer of the client's status *)
Definition OnStart (latest : res Z) (db : kvDB) : res svState :=
  let? latest := latest in
  let? lastBlock := LastIndexedBlock db in
  let lastBlock := if lastBlock =? -1 then latest else lastBlock in
  Ok (mkSvState latest false lastBlock pcOuter db).
End Service.
End Indexer.
