(* ===== verification/IndexerTheorems.v ===== *)
(** * The index finds what was executed, and follows the chain *)

From stdpp Require Import base gmap list numbers strings sorting.
From Stdlib Require Import ZArith Lia.
From S2P Require Import Prelude SdkMath Scaling AccessList StateDB StateDBCommit VmStore Concrete FeeMarket TxData TxDataTheorems StateTransition StateTransitionTheorems VmParams Ante RpcEvents RpcEventsTheorems Indexer.

(** ** Keys *)

Lemma be_bytes_inj n v w :
  0 <= v < 256 ^ Z.of_nat n -> 0 <= w < 256 ^ Z.of_nat n -> be_bytes n v = be_bytes n w -> v = w.
Proof. intros Hv Hw E. rewrite <-(be_value_bytes n v), <-(be_value_bytes n w) by done. by rewrite E. Qed.

Lemma TxHashKey_inj h k : hash_ok h -> hash_ok k -> TxHashKey h = TxHashKey k -> h = k.
Proof. intros Hh Hk E. apply (be_bytes_inj 32); [exact Hh|exact Hk|]. by apply (f_equal tail) in E. Qed.

Lemma TxIndexKey_inj b i c j :
  0 <= b < 2 ^ 63 -> 0 <= c < 2 ^ 63 -> 0 <= i < 2 ^ 63 -> 0 <= j < 2 ^ 63 ->
  TxIndexKey b i = TxIndexKey c j -> b = c /\ i = j.
Proof.
  intros Hb Hc Hi Hj E. apply (f_equal tail) in E. unfold TxIndexKey in E. cbn [tail] in E. rewrite !wrap64_small in E by (unfold max_uint64; lia).
  apply app_inj_1 in E as [E1 E2]; [|by rewrite !be_bytes_length].
  split; [apply (be_bytes_inj 8) in E1|apply (be_bytes_inj 8) in E2]; cbn; lia.
Qed.

(** ** Writing a batch *)

Lemma db_Get_Some m k (v : bytes) : m !! k = Some v -> db_Get (mkKvDB m None) k = Ok v.
Proof. intros E. unfold db_Get. cbn [db_fault db_entries]. by rewrite E. Qed.

Definition put (m : gmap bytes bytes) (b : batch) : gmap bytes bytes := fold_left (fun m kv => <[kv.1 := kv.2]> m) b m.

Lemma put_app m a b : put m (a ++ b) = put (put m a) b.
Proof. apply fold_left_app. Qed.

Lemma put_other m b k : k ∉ b.*1 -> put m b !! k = m !! k.
Proof.
  revert m. induction b as [|[k' v] b IH]; intros m Hk; [done|]. cbn in *. rewrite not_elem_of_cons in Hk.
  unfold put in IH. rewrite IH by naive_solver. by rewrite lookup_insert_ne by naive_solver.
Qed.

Lemma put_lookup m b k v : NoDup b.*1 -> (k, v) ∈ b -> put m b !! k = Some v.
Proof.
  revert m. induction b as [|[k' v'] b IH]; intros m Hnd Hin; [by apply not_elem_of_nil in Hin|].
  cbn in *. apply NoDup_cons in Hnd as [Hn Hnd]. rewrite elem_of_cons in Hin. destruct Hin as [[= -> ->]|Hin].
  - etransitivity; [exact (put_other _ b k' Hn)|]. apply lookup_insert_eq.
  - by apply IH.
Qed.

Section Index.
Context `{!EthHex} `{!TxCodec}.
Variable TxDecoder : bytes -> res decodedTx.

(** *** The entries of a block *)

Abbreviation entry := (hash * TxResult)%type.

Definition entry_batch (e : entry) : batch :=
  [(TxHashKey e.1, codec_Marshal e.2); (TxIndexKey (tr_Height e.2) (tr_EthTxIndex e.2), be_bytes 32 e.1)].
Definition saved (l : list entry) : batch := concat (map entry_batch l).

Lemma saved_app l k : saved (l ++ k) = saved l ++ saved k.
Proof. unfold saved. by rewrite map_app, concat_app. Qed.

(** entries of one block, with consecutive indexes from [n] on *)
Definition numbered (height n : Z) (l : list entry) : Prop :=
  forall j h r, l !! j = Some (h, r) -> hash_ok h /\ tr_Height r = height /\ tr_EthTxIndex r = n + Z.of_nat j.

Lemma numbered_cons height n h r l :
  hash_ok h -> tr_Height r = height -> tr_EthTxIndex r = n -> numbered height (n + 1) l -> numbered height n ((h, r) :: l).
Proof.
  intros Hh Hr Hn Hl [|j] h' r' E; cbn in E.
  - injection E as <- <-. split_and!; [done|done|lia].
  - destruct (Hl j h' r' E) as (? & ? & ?). split_and!; [done|done|lia].
Qed.

Lemma numbered_app height n l k :
  numbered height n l -> numbered height (n + Z.of_nat (length l)) k -> numbered height n (l ++ k).
Proof.
  intros Hl Hk j h r E. apply lookup_app_Some in E as [E|[Hj E]]; [by apply Hl|].
  destruct (Hk _ _ _ E) as (? & ? & ?). split_and!; [done|done|lia].
Qed.

Definition msg_hash (m : MsgEthereumTx) : hash := HexToHash (msg_Hash m).

(** what is saved for message [i] of transaction [k]: its outcome, and the gas of
    the transaction up to it *)
Definition entry_for (k i : Z) (g : Z) (f : bool) (c : Z) (r : TxResult) : Prop :=
  tr_TxIndex r = wrap32 k /\ tr_MsgIndex r = wrap32 i /\ tr_GasUsed r = g /\ tr_Failed r = f /\ tr_CumulativeGasUsed r = wrap64 c.

(** the gas of the first [n] messages that have an outcome *)
Fixpoint gas_sum (result : ExecTxResult) (txs : ParsedTxs) (i : Z) (msgs : list sdkMsg) (n : nat) : Z :=
  match n, msgs with
  | S n, EthMsg m :: msgs =>
      match msg_outcome result txs i m with Some (g, _) => g | None => 0 end + gas_sum result txs (i + 1) msgs n
  | S n, OtherMsg :: msgs => gas_sum result txs (i + 1) msgs n
  | _, _ => 0
  end.

Lemma gas_sum_0 result txs i msgs : gas_sum result txs i msgs 0 = 0.
Proof. by destruct msgs as [|[]]. Qed.

(** the hashes of the messages that have an outcome, from message [i] on *)
Fixpoint msgs_hashes (result : ExecTxResult) (txs : ParsedTxs) (i : Z) (msgs : list sdkMsg) : list hash :=
  match msgs with
  | [] => []
  | OtherMsg :: msgs => msgs_hashes result txs (i + 1) msgs
  | EthMsg m :: msgs =>
      match msg_outcome result txs i m with Some _ => [msg_hash m] | None => [] end ++ msgs_hashes result txs (i + 1) msgs
  end.

Lemma index_msgs_spec height k result txs msgs : forall i cum n b n' b',
  0 <= n -> n + Z.of_nat (length (msgs_hashes result txs i msgs)) < 2 ^ 31 ->
  index_msgs height k result txs i cum n b msgs = Ok (n', b') ->
  exists l, b' = b ++ saved l /\ n' = n + Z.of_nat (length l) /\ l.*1 = msgs_hashes result txs i msgs /\ numbered height n l /\
    (forall j m g f, msgs !! j = Some (EthMsg m) -> msg_outcome result txs (i + Z.of_nat j) m = Some (g, f) ->
       exists r, (msg_hash m, r) ∈ l /\ entry_for k (i + Z.of_nat j) g f (cum + gas_sum result txs i msgs (S j)) r) /\
    (forall h r, (h, r) ∈ l -> exists j m g f, msgs !! j = Some (EthMsg m) /\ h = msg_hash m /\
       msg_outcome result txs (i + Z.of_nat j) m = Some (g, f) /\
       entry_for k (i + Z.of_nat j) g f (cum + gas_sum result txs i msgs (S j)) r).
Proof.
  induction msgs as [|[m|] msgs IH]; intros i cum n b n' b' Hn0 Hn E; cbn [msgs_hashes index_msgs] in *.
  { injection E as <- <-. exists []. cbn. rewrite app_nil_r. split_and!; try done; try lia; set_solver. }
  2: done.
  assert (Hshift : forall j, i + Z.of_nat (S j) = i + 1 + Z.of_nat j) by lia.
  destruct (msg_outcome result txs i m) as [[g f]|] eqn:Eo; cbn [app length] in Hn.
  - assert (Hc : forall x, wrap64 (wrap64 (cum + g) + x) = wrap64 (cum + (g + x))).
    { intros x. unfold wrap64. by rewrite Zplus_mod_idemp_l, Z.add_assoc. }
    assert (He0 : wrap64 (cum + g) = wrap64 (cum + gas_sum result txs i (EthMsg m :: msgs) 1)) by (cbn [gas_sum]; rewrite Eo, gas_sum_0; f_equal; lia).
    set (r := mkTxResult _ _ _ _ _ _ _) in E.
    assert (Hstep : forall j i' g' f' r', entry_for k i' g' f' (wrap64 (cum + g) + gas_sum result txs (i + 1) msgs (S j)) r' ->
      entry_for k i' g' f' (cum + gas_sum result txs i (EthMsg m :: msgs) (S (S j))) r').
    { intros j i' g' f' r' (? & ? & ? & ? & Hcum). split_and!; [done..|]. rewrite Hcum, Hc. cbn [gas_sum]. by rewrite Eo. }
    replace (to_int32 (n + 1)) with (n + 1) in E
      by (unfold to_int32; rewrite Z.mod_small by lia; case_match; lia).
    apply IH in E as (l & -> & -> & Hl & Hnum & Hfind & Honly); [|lia..].
    exists ((msg_hash m, r) :: l). cbn [length]. split_and!.
    + unfold saveTxResult. by rewrite <-app_assoc.
    + lia.
    + cbn. by rewrite Hl.
    + by apply numbered_cons; [apply HexToHash_ok|..].
    + intros [|j] m' g' f' Hj Ho; cbn in Hj.
      * injection Hj as <-. rewrite Z.add_0_r in Ho. rewrite Eo in Ho. injection Ho as <- <-. exists r. split; [by left|].
        rewrite Z.add_0_r. split_and!; done.
      * rewrite Hshift in *. destruct (Hfind j m' g' f' Hj Ho) as (r' & Hin & He). exists r'. split; [by right|by apply Hstep].
    + intros h r' Hin. apply elem_of_cons in Hin as [[= -> ->]|Hin].
      * exists 0%nat, m, g, f. rewrite Z.add_0_r. split_and!; done.
      * destruct (Honly h r' Hin) as (j & m' & g' & f' & Hj & -> & Ho & He). exists (S j), m', g', f'.
        rewrite Hshift. split_and!; try done. by apply Hstep.
  - assert (Hstep : forall j, gas_sum result txs i (EthMsg m :: msgs) (S j) = gas_sum result txs (i + 1) msgs j) by (intros j; cbn; by rewrite Eo).
    apply IH in E as (l & -> & -> & Hl & Hnum & Hfind & Honly); [|lia..]. exists l. split_and!; try done; try lia.
    + intros [|j] m' g' f' Hj Ho; cbn in Hj.
      * injection Hj as <-. rewrite Z.add_0_r in Ho. by rewrite Eo in Ho.
      * rewrite Hshift in *. rewrite Hstep. by apply (Hfind j m' g' f').
    + intros h r' Hin. destruct (Honly h r' Hin) as (j & m' & g' & f' & Hj & -> & Ho & He). exists (S j), m', g', f'.
      by rewrite Hshift, Hstep.
Qed.

(** message [i] of transaction [k] of the block has an outcome *)
Definition block_msg (txs : list bytes) (results : list ExecTxResult) (k i : nat) (m : MsgEthereumTx) (g : Z) (f : bool) : Prop :=
  exists tx result msgs p, txs !! k = Some tx /\ results !! k = Some result /\
    indexed_tx TxDecoder tx result = Ok (Some (msgs, p)) /\ msgs !! i = Some (EthMsg m) /\
    msg_outcome result p (Z.of_nat i) m = Some (g, f).

(** the gas of transaction [k] of the block up to its message [i] *)
Definition tx_gas (txs : list bytes) (results : list ExecTxResult) (k i : nat) : Z :=
  match txs !! k, results !! k with
  | Some tx, Some result =>
      match indexed_tx TxDecoder tx result with Ok (Some (msgs, p)) => gas_sum result p 0 msgs (S i) | _ => 0 end
  | _, _ => 0
  end.

Fixpoint block_hashes (txs : list bytes) (results : list ExecTxResult) : list hash :=
  match txs, results with
  | tx :: txs, result :: results =>
      match indexed_tx TxDecoder tx result with
      | Ok (Some (msgs, p)) => msgs_hashes result p 0 msgs
      | _ => []
      end ++ block_hashes txs results
  | _, _ => []
  end.

Lemma index_txs_spec height txs : forall results k n b b',
  0 <= n -> n + Z.of_nat (length (block_hashes txs results)) < 2 ^ 31 ->
  index_txs TxDecoder height k n b txs results = Ok b' ->
  exists l, b' = b ++ saved l /\ l.*1 = block_hashes txs results /\ numbered height n l /\
    (forall j i m g f, block_msg txs results j i m g f ->
       exists r, (msg_hash m, r) ∈ l /\ entry_for (k + Z.of_nat j) (Z.of_nat i) g f (tx_gas txs results j i) r) /\
    (forall h r, (h, r) ∈ l -> exists j i m g f, block_msg txs results j i m g f /\ h = msg_hash m /\
       entry_for (k + Z.of_nat j) (Z.of_nat i) g f (tx_gas txs results j i) r).
Proof.
  assert (Hshift : forall k j, k + Z.of_nat (S j) = k + 1 + Z.of_nat j) by lia.
  induction txs as [|tx txs IH]; intros results k n b b' Hn0 Hn E; cbn [index_txs block_hashes] in *.
  { injection E as <-. exists []. cbn. rewrite app_nil_r. split_and!; try done; [|set_solver].
    by intros j i m g f (tx & result & msgs & p & Hj & _). }
  destruct results as [|result results]; [done|]. apply bind_Ok_inv in E as (t & Ht & E). rewrite Ht in *.
  destruct t as [[msgs p]|].
  - rewrite length_app in Hn. apply bind_Ok_inv in E as ([n1 b1] & Em & E).
    apply index_msgs_spec in Em as (l1 & -> & -> & Hl1 & Hnum1 & Hf1 & Ho1); [|lia..].
    assert (Hlen : length l1 = length (msgs_hashes result p 0 msgs)) by (rewrite <-Hl1; by rewrite length_fmap).
    apply IH in E as (l2 & -> & Hl2 & Hnum2 & Hf2 & Ho2); [|lia..]. exists (l1 ++ l2). split_and!.
    + by rewrite saved_app, app_assoc.
    + rewrite fmap_app. by rewrite Hl1, Hl2.
    + by apply numbered_app.
    + intros [|j] i m g f (tx' & result' & msgs' & p' & Hj & Hr & Hi & Hm & Ho); cbn in Hj, Hr.
      * injection Hj as <-. injection Hr as <-. rewrite Ht in Hi. injection Hi as <- <-.
        destruct (Hf1 i m g f Hm Ho) as (r & Hin & He). exists r. rewrite Z.add_0_r. unfold tx_gas. cbn. rewrite Ht. set_solver.
      * destruct (Hf2 j i m g f) as (r & Hin & He); [by exists tx', result', msgs', p'|]. exists r. rewrite Hshift. set_solver.
    + intros h r Hin. apply elem_of_app in Hin as [Hin|Hin].
      * destruct (Ho1 h r Hin) as (i & m & g & f & Hm & -> & Ho & He). exists 0%nat, i, m, g, f. rewrite Z.add_0_r.
        split_and!; [|done|unfold tx_gas; cbn; by rewrite Ht]. by exists tx, result, msgs, p.
      * destruct (Ho2 h r Hin) as (j & i & m & g & f & Hb & -> & He). exists (S j), i, m, g, f. by rewrite Hshift.
  - cbn [app] in *. apply IH in E as (l & -> & Hl & Hnum & Hf & Ho); [|lia..]. exists l. split_and!; try done.
    + intros [|j] i m g f (tx' & result' & msgs' & p' & Hj & Hr & Hi & Hm & Hout); cbn in Hj, Hr.
      * injection Hj as <-. injection Hr as <-. by rewrite Ht in Hi.
      * destruct (Hf j i m g f) as (r & Hin & He); [by exists tx', result', msgs', p'|]. exists r. by rewrite Hshift.
    + intros h r Hin. destruct (Ho h r Hin) as (j & i & m & g & f & Hb & -> & He). exists (S j), i, m, g, f. by rewrite Hshift.
Qed.

(** *** Reading what was saved *)

Lemma elem_saved_key k l :
  k ∈ (saved l).*1 <-> exists h r, (h, r) ∈ l /\ (k = TxHashKey h \/ k = TxIndexKey (tr_Height r) (tr_EthTxIndex r)).
Proof.
  clear TxDecoder. induction l as [|[h r] l IH]; cbn.
  - split; [by intros ?%not_elem_of_nil|]. intros (h & r & Hin & _). by apply not_elem_of_nil in Hin.
  - rewrite !elem_of_cons, IH. split.
    + intros [->|[->|(h' & r' & Hin & Hk)]]; [exists h, r|exists h, r|exists h', r']; set_solver.
    + intros (h' & r' & Hin & Hk). apply elem_of_cons in Hin as [[= -> ->]|Hin]; naive_solver.
Qed.

Lemma hash_key_not_index h b i : TxHashKey h <> TxIndexKey b i.
Proof. intros E. by injection E. Qed.

Lemma saved_NoDup height n l :
  0 < height < 2 ^ 63 -> 0 <= n -> n + Z.of_nat (length l) < 2 ^ 31 -> numbered height n l -> NoDup l.*1 ->
  NoDup (saved l).*1.
Proof.
  intros Hh. revert n. induction l as [|[h r] l IH]; intros n Hn0 Hn Hnum Hnd; [constructor|]. cbn [length] in Hn.
  cbn in Hnd. apply NoDup_cons in Hnd as [Hnin Hnd].
  destruct (Hnum 0%nat h r) as (Hok & Hht & Hidx); [done|]. rewrite Z.add_0_r in Hidx.
  assert (Hnum' : numbered height (n + 1) l).
  { intros j h' r' Hj. destruct (Hnum (S j) h' r' Hj) as (? & ? & ?). split_and!; [done|done|lia]. }
  assert (Hin : forall h' r', (h', r') ∈ l -> h' <> h /\ hash_ok h' /\ tr_Height r' = height /\ n < tr_EthTxIndex r' < 2 ^ 31).
  { intros h' r' Hin. split; [intros ->; apply Hnin; by apply (list_elem_of_fmap_2 fst l (h, r'))|].
    apply list_elem_of_lookup in Hin as [j Hj]. destruct (Hnum' j h' r' Hj) as (? & ? & ?).
    apply lookup_lt_Some in Hj. split_and!; [done|done|lia|lia]. }
  change ((saved ((h, r) :: l)).*1) with (TxHashKey h :: TxIndexKey (tr_Height r) (tr_EthTxIndex r) :: (saved l).*1).
  apply NoDup_cons. split.
  { rewrite elem_of_cons. intros [E|E]; [by apply hash_key_not_index in E|].
    apply elem_saved_key in E as (h' & r' & Hl & [E|E]); [|by apply hash_key_not_index in E].
    destruct (Hin h' r' Hl) as (Hne & Hh' & _). by apply TxHashKey_inj in E. }
  apply NoDup_cons. split; [|by apply (IH (n + 1)); [lia|lia|..]].
  intros E. apply elem_saved_key in E as (h' & r' & Hl & [E|E]); [symmetry in E; by apply hash_key_not_index in E|].
  destruct (Hin h' r' Hl) as (_ & _ & Hh' & Hi'). apply TxIndexKey_inj in E; lia.
Qed.

Lemma elem_saved h r l :
  (h, r) ∈ l ->
  (TxHashKey h, codec_Marshal r) ∈ saved l /\ (TxIndexKey (tr_Height r) (tr_EthTxIndex r), be_bytes 32 h) ∈ saved l.
Proof.
  induction l as [|[h' r'] l IH]; intros Hin; [by apply not_elem_of_nil in Hin|].
  apply elem_of_cons in Hin as [[= -> ->]|Hin]; cbn; rewrite !elem_of_cons; [by split; [left|right; left]|].
  destruct (IH Hin). by split; right; right.
Qed.

Lemma lookup_saved m l h r :
  NoDup (saved l).*1 -> (h, r) ∈ l -> hash_ok h -> tr_ok r ->
  GetByTxHash (mkKvDB (put m (saved l)) None) h = Ok r /\
  GetByBlockAndIndex (mkKvDB (put m (saved l)) None) (tr_Height r) (tr_EthTxIndex r) = Ok r.
Proof.
  intros Hnd Hin Hh Hr. destruct (elem_saved h r l Hin) as [H1' H2']. assert (Hg : GetByTxHash (mkKvDB (put m (saved l)) None) h = Ok r).
  { unfold GetByTxHash. rewrite (db_Get_Some _ _ _ (put_lookup m (saved l) _ _ Hnd H1')). cbn [mbind res_bind].
    pose proof (codec_nonempty r Hr). destruct (codec_Marshal r) eqn:Em; [done|]. cbn [length Nat.eqb]. rewrite <-Em.
    by apply codec_roundtrip. }
  split; [done|]. unfold GetByBlockAndIndex.
  rewrite (db_Get_Some _ _ _ (put_lookup m (saved l) _ _ Hnd H2')). cbn [mbind res_bind]. rewrite be_bytes_length. cbn [Nat.eqb].
  by rewrite word_of_bytes.
Qed.

(** *** Gas is a [uint64] *)

Definition gas_ok (t : ParsedTx) : Prop := 0 <= pt_GasUsed t < 2 ^ 64.

Lemma ParseUint_range s bits n : ParseUint s bits = Ok n -> 0 <= n < 2 ^ bits.
Proof.
  unfold ParseUint. destruct (DecimalString.NilZero.uint_of_string s); [|done].
  destruct (Z.ltb_spec (Z.of_N (N.of_uint u)) (2 ^ bits)); [|done]. intros [= <-]. lia.
Qed.

Lemma fillTxAttributes_gas attrs : forall t t', gas_ok t -> fillTxAttributes t attrs = Ok t' -> gas_ok t'.
Proof.
  induction attrs as [|a attrs IH]; intros t t' Ht E; cbn [fillTxAttributes] in E; [by injection E as <-|].
  apply bind_Ok_inv in E as (t1 & E1 & E). apply IH in E; [done|]. destruct t as [i h n g f]. unfold fillTxAttribute in E1.
  repeat case_match; try (by injection E1 as <-).
  - apply bind_Ok_inv in E1 as (x & _ & E1). by injection E1 as <-.
  - apply bind_Ok_inv in E1 as (x & Hx & E1). injection E1 as <-. by apply ParseUint_range in Hx.
Qed.

Lemma parse_events_gas events : forall format k p p',
  Forall gas_ok (Txs p) -> parse_events format k p events = Ok p' -> Forall gas_ok (Txs p').
Proof.
  assert (Hnew : forall i attrs t, fillTxAttributes (NewParsedTx i) attrs = Ok t -> gas_ok t)
    by (intros i attrs t; apply fillTxAttributes_gas; by split).
  assert (Hadd : forall p attrs p1, Forall gas_ok (Txs p) -> newTx p attrs = Ok p1 -> Forall gas_ok (Txs p1)).
  { intros p attrs p1 Hp E. apply bind_Ok_inv in E as (t & Ht & [= <-]). apply Forall_app. split; [done|].
    constructor; [by eapply Hnew|constructor]. }
  induction events as [|e events IH]; intros format k p p' Hp E; cbn [parse_events] in E; [by injection E as <-|].
  case_match; [by eapply IH|]. set (fmt := match format with eventFormatUnknown => _ | _ => _ end) in E. clearbody fmt.
  case_match; apply bind_Ok_inv in E as (p1 & E1 & E); (apply IH in E; [done|]); [by eapply Hadd|].
  assert (Hupd : updateTx p k (ev_Attributes e) = Ok p1 -> Forall gas_ok (Txs p1)).
  { intros E2. apply bind_Ok_inv in E2 as (t & Ht & E2). case_match; [|done]. injection E2 as <-. cbn.
    apply Forall_insert; [done|by eapply Hnew]. }
  destruct fmt; [by apply Hupd|by eapply Hadd|by apply Hupd].
Qed.

Hypothesis decoder_gas : forall tx d m t, TxDecoder tx = Ok d -> EthMsg m ∈ d_Msgs d -> msg_Data m = Some t ->
  0 <= GetGas t < 2 ^ 64.

Lemma block_msg_gas txs results k i m g f : block_msg txs results k i m g f -> 0 <= g < 2 ^ 64.
Proof.
  intros (tx & result & msgs & p & _ & _ & Hi & Hm & Ho). unfold indexed_tx in Hi. case_match; [done|].
  destruct (TxDecoder tx) as [d|e|e] eqn:Ed; [|done..]. case_match; [done|].
  destruct (ParseTxResult _ _) as [p'|e|e] eqn:Ep; [|done..]. injection Hi as <- <-. unfold msg_outcome in Ho.
  destruct (Z.eqb_spec (er_Code result) 0) as [Hc|Hc]; cbn [negb] in Ho.
  - unfold ParseTxResult in Ep. apply bind_Ok_inv in Ep as (p0 & Ep & E). apply parse_events_gas in Ep; [|constructor].
    rewrite Hc in E. cbn in E. injection E as <-. unfold GetTxByMsgIndex in Ho.
    set (p1 := match Txs p0 with [_] => _ | _ => _ end) in Ho.
    assert (Hp1 : Forall gas_ok (Txs p1)).
    { unfold p1. destruct p0 as [ts hs]. cbn [Txs] in *. destruct ts as [|t [|]]; [done| |done].
      constructor; [|constructor]. unfold gas_ok. cbn. pose proof (wrap64_range (er_GasUsed result)). unfold max_uint64 in *. lia. }
    destruct (_ || _); [done|]. destruct (Txs p1 !! _) as [t|] eqn:Et; [|done]. injection Ho as <- <-.
    rewrite Forall_lookup in Hp1. by eapply Hp1.
  - injection Ho as <- <-. destruct (msg_Data m) as [t|] eqn:Et; [|done]. eapply decoder_gas; [done| |done].
    by eapply list_elem_of_lookup_2.
Qed.

Lemma index_block_find db block results db' :
  db_fault db = None -> 0 < bl_Height block < 2 ^ 63 ->
  Z.of_nat (length (block_hashes (bl_Txs block) results)) < 2 ^ 31 -> NoDup (block_hashes (bl_Txs block) results) ->
  IndexBlock TxDecoder db block results = (db', Ok ()) ->
  (forall k i m g f, block_msg (bl_Txs block) results k i m g f ->
     exists r, GetByTxHash db' (msg_hash m) = Ok r /\ GetByBlockAndIndex db' (bl_Height block) (tr_EthTxIndex r) = Ok r /\
       tr_Height r = bl_Height block /\ entry_for (Z.of_nat k) (Z.of_nat i) g f (tx_gas (bl_Txs block) results k i) r) /\
  (forall j h, block_hashes (bl_Txs block) results !! j = Some h ->
     exists r, GetByTxHash db' h = Ok r /\ GetByBlockAndIndex db' (bl_Height block) (Z.of_nat j) = Ok r /\
       tr_EthTxIndex r = Z.of_nat j) /\
  (forall h, hash_ok h -> h ∉ block_hashes (bl_Txs block) results -> GetByTxHash db' h = GetByTxHash db h).
Proof.
  intros Hf Hh Hn Hnd E. unfold IndexBlock in E. apply st_bind_Ok_inv in E as (db0 & b & [= <- Eb] & E).
  apply index_txs_spec in Eb as (l & -> & Hl & Hnum & Hfind & Honly); [|lia..]. cbn [app] in E.
  unfold batch_Write in E. rewrite Hf in E. injection E as <-. set (m0 := db_entries db).
  change (fold_left _ (saved l) m0) with (put m0 (saved l)).
  assert (Hlen : length l = length (block_hashes (bl_Txs block) results)) by (rewrite <-Hl; by rewrite length_fmap).
  assert (Hnds : NoDup (saved l).*1) by (apply (saved_NoDup (bl_Height block) 0); [done|lia|lia|done|by rewrite Hl]).
  assert (Hok : forall j h r, l !! j = Some (h, r) ->
    hash_ok h /\ tr_Height r = bl_Height block /\ tr_EthTxIndex r = Z.of_nat j /\ tr_ok r).
  { intros j h r Hj. destruct (Hnum j h r Hj) as (Hhh & Hht & Hi). split_and!; try done.
    destruct (Honly h r) as (k & i & m & g & f & Hb & _ & (H1' & H2' & H3' & _ & H5')); [by eapply list_elem_of_lookup_2|].
    apply block_msg_gas in Hb. apply lookup_lt_Some in Hj. unfold tr_ok. rewrite Hht, Hi, H1', H2', H3', H5'. unfold wrap32.
    pose proof (wrap64_range (tx_gas (bl_Txs block) results k i)). unfold max_uint64 in *.
    pose proof (Z.mod_pos_bound (0 + Z.of_nat k) (2 ^ 32) ltac:(lia)). pose proof (Z.mod_pos_bound (Z.of_nat i) (2 ^ 32) ltac:(lia)).
    lia. }
  split_and!.
  - intros k i m g f Hb. destruct (Hfind k i m g f Hb) as (r & Hin & He). exists r.
    pose proof Hin as Hin'. apply list_elem_of_lookup in Hin' as [j Hj]. destruct (Hok j _ _ Hj) as (Hhh & Hht & Hi & Hr).
    destruct (lookup_saved m0 l _ r Hnds Hin Hhh Hr) as [Hg1 Hg2]. rewrite Hht in Hg2. by split_and!.
  - intros j h Hj. rewrite <-Hl in Hj. apply list_lookup_fmap_Some in Hj as ([h' r] & -> & Hj).
    destruct (Hok j _ _ Hj) as (Hhh & Hht & Hi & Hr). exists r.
    destruct (lookup_saved m0 l h' r Hnds) as [Hg1 Hg2]; [by eapply list_elem_of_lookup_2|done|done|].
    rewrite Hht, Hi in Hg2. by split_and!.
  - intros h Hhh Hnin. unfold GetByTxHash, db_Get. rewrite Hf. cbn [db_fault db_entries]. fold m0.
    rewrite (put_other m0 (saved l) (TxHashKey h)); [done|]. intros Hin.
    apply elem_saved_key in Hin as (h' & r & Hin & [E|E]); [|by apply hash_key_not_index in E].
    pose proof Hin as Hin'. apply list_elem_of_lookup in Hin' as [j Hj]. destruct (Hok j _ _ Hj) as (Hh' & _).
    apply TxHashKey_inj in E as ->; [|done..]. apply Hnin. rewrite <-Hl. by apply (list_elem_of_fmap_2 fst l (h', r)).
Qed.

(** C26: A block that was indexed can be looked up. When its messages have
    distinct hashes, every message that the events of the block mention is found
    by its hash, with the block, the transaction and the position it had and the
    gas and failure that the events report, and the gas of its transaction up to
    it; the block and the index of the entry
    lead to the same entry. The indexes of the block are consecutive from zero,
    and what was stored under other hashes is as before. *)
Theorem index_block_lookup db block results db' :
  db_fault db = None -> 0 < bl_Height block < 2 ^ 63 ->
  Z.of_nat (length (block_hashes (bl_Txs block) results)) < 2 ^ 31 -> NoDup (block_hashes (bl_Txs block) results) ->
  IndexBlock TxDecoder db block results = (db', Ok ()) ->
  (forall k i m g f, block_msg (bl_Txs block) results k i m g f ->
     exists r, GetByTxHash db' (msg_hash m) = Ok r /\ GetByBlockAndIndex db' (bl_Height block) (tr_EthTxIndex r) = Ok r /\
       tr_Height r = bl_Height block /\ entry_for (Z.of_nat k) (Z.of_nat i) g f (tx_gas (bl_Txs block) results k i) r) /\
  (forall j h, block_hashes (bl_Txs block) results !! j = Some h ->
     exists r, GetByTxHash db' h = Ok r /\ GetByBlockAndIndex db' (bl_Height block) (Z.of_nat j) = Ok r /\
       tr_EthTxIndex r = Z.of_nat j) /\
  (forall h, hash_ok h -> h ∉ block_hashes (bl_Txs block) results -> GetByTxHash db' h = GetByTxHash db h).
Proof. apply index_block_find. Qed.
End Index.
