(* ===== verification/IndexerServiceTheorems.v ===== *)
(** * The index follows the chain

    The first and last indexed blocks are the first and last ones with an entry;
    the service indexes every block once and in order, whatever arrives when, and
    reaches the blocks it knows of when nothing fails. *)

From stdpp Require Import base gmap list numbers strings sorting.
From Stdlib Require Import ZArith Lia.
From S2P Require Import Prelude SdkMath Scaling AccessList StateDB StateDBCommit VmStore Concrete FeeMarket TxData TxDataTheorems StateTransition StateTransitionTheorems VmParams Ante RpcEvents RpcEventsTheorems Indexer IndexerTheorems.

(** ** The order of keys *)

Lemma be_value_cons x l : be_value (x :: l) = x * 256 ^ Z.of_nat (length l) + be_value l.
Proof.
  revert x. induction l as [|y l IH] using rev_ind; intros x; [cbn; lia|].
  rewrite app_comm_cons, !be_value_app, IH, length_app. cbn [length]. rewrite Nat.add_1_r, Nat2Z.inj_succ, Z.pow_succ_r by lia. lia.
Qed.

Lemma be_value_range l : Forall is_byte l -> 0 <= be_value l < 256 ^ Z.of_nat (length l).
Proof.
  induction 1 as [|x l Hx _ IH]; [cbn; lia|]. unfold is_byte in Hx. rewrite be_value_cons. cbn [length].
  rewrite Nat2Z.inj_succ, Z.pow_succ_r by lia. nia.
Qed.

Lemma bytes_ltb_value a b :
  Forall is_byte a -> Forall is_byte b -> length a = length b -> bytes_ltb a b = (be_value a <? be_value b).
Proof.
  intros Ha. revert b. induction Ha as [|x a Hx Ha IH]; intros b Hb Hl; destruct Hb as [|y b Hy Hb]; try done.
  cbn [length] in Hl. injection Hl as Hl. cbn [bytes_ltb]. rewrite IH by done. rewrite !be_value_cons, Hl.
  pose proof (be_value_range a Ha) as Ra. pose proof (be_value_range b Hb) as Rb. rewrite Hl in Ra.
  set (p := 256 ^ Z.of_nat (length b)) in *.
  destruct (Z.ltb_spec x y), (Z.eqb_spec x y), (Z.ltb_spec (be_value a) (be_value b)),
    (Z.ltb_spec (x * p + be_value a) (y * p + be_value b)); cbn; try done; nia.
Qed.

Definition key_value (k : bytes) : Z := be_value (tail k).

Lemma TxIndexKey_shape b i :
  length (TxIndexKey b i) = TxIndexKeyLength /\ Forall is_byte (TxIndexKey b i).
Proof.
  unfold TxIndexKey. cbn [length]. rewrite length_app, !be_bytes_length. split; [done|]. constructor; [by split|].
  apply Forall_app. split; apply be_bytes_bytes.
Qed.

Lemma parse_TxIndexKey b i : 0 <= b < 2 ^ 63 -> parseBlockNumberFromKey (TxIndexKey b i) = Ok b.
Proof.
  intros Hb. unfold parseBlockNumberFromKey. rewrite (proj1 (TxIndexKey_shape b i)), Nat.eqb_refl. cbn [negb].
  unfold TxIndexKey. rewrite skipn_cons, skipn_0, take_app_length' by (by rewrite be_bytes_length).
  rewrite wrap64_small by (unfold max_uint64; lia). rewrite be_value_bytes by (cbn; lia).
  by rewrite to_int64_small by (unfold max_int64; lia).
Qed.

Lemma be_value_split a b : be_value (a ++ b) = be_value a * 256 ^ Z.of_nat (length b) + be_value b.
Proof.
  induction a as [|x a IH]; [change (be_value []) with 0; cbn [app]; lia|]. rewrite <-app_comm_cons, !be_value_cons, IH, length_app, Nat2Z.inj_add, Z.pow_add_r by lia. lia.
Qed.

Lemma TxIndexKey_order b i c j :
  0 <= b < 2 ^ 63 -> 0 <= c < 2 ^ 63 -> bytes_ltb (TxIndexKey b i) (TxIndexKey c j) = false -> c <= b.
Proof.
  intros Hb Hc E. destruct (TxIndexKey_shape b i) as [Lb Fb], (TxIndexKey_shape c j) as [Lc Fc].
  rewrite bytes_ltb_value in E by (done || congruence). apply Z.ltb_ge in E. revert E. unfold TxIndexKey.
  rewrite !be_value_cons, !be_value_split, !length_app, !be_bytes_length.
  rewrite (wrap64_small b), (wrap64_small c) by (unfold max_uint64; lia). rewrite !(be_value_bytes 8 b), !(be_value_bytes 8 c) by (cbn; lia).
  pose proof (wrap64_range i). pose proof (wrap64_range j). unfold max_uint64 in *.
  rewrite !(be_value_bytes 8 (wrap64 _)) by (cbn; lia). change (256 ^ Z.of_nat 8) with (2 ^ 64). nia.
Qed.

Lemma bytes_ltb_irrefl a : bytes_ltb a a = false.
Proof. induction a as [|x a IH]; [done|]. cbn. by rewrite Z.ltb_irrefl, Z.eqb_refl, IH. Qed.

(** not less than is transitive *)
Lemma bytes_nlt_trans a b c : bytes_ltb a b = false -> bytes_ltb b c = false -> bytes_ltb a c = false.
Proof.
  revert b c. induction a as [|x a IH]; intros [|y b] [|z c]; cbn; try done.
  rewrite !orb_false_iff, !andb_false_iff, !Z.ltb_ge, !Z.eqb_neq. intros [Hxy Ha] [Hyz Hb]. split; [lia|].
  destruct Ha as [|Ha]; [left; lia|]. destruct Hb as [|Hb]; [left; lia|]. right. by apply (IH b c).
Qed.

Lemma bytes_ltb_asym a b : bytes_ltb a b = true -> bytes_ltb b a = false.
Proof.
  intros E. destruct (bytes_ltb b a) eqn:E'; [|done]. exfalso.
  revert b E E'. induction a as [|x a IH]; intros [|y b]; cbn; try done. rewrite !orb_true_iff, !andb_true_iff, !Z.ltb_lt, !Z.eqb_eq.
  intros [|[? ?]] [|[? ?]]; try lia. by apply (IH b).
Qed.

Lemma last_key_spec ks :
  match last_key ks with
  | None => ks = []
  | Some k => k ∈ ks /\ forall x, x ∈ ks -> bytes_ltb k x = false
  end.
Proof.
  induction ks as [|k ks IH]; [done|]. unfold last_key in *. cbn [fold_right]. destruct (fold_right _ None ks) as [x|].
  - destruct IH as [Hx Hall]. destruct (bytes_ltb k x) eqn:E; cbn; (split; [set_solver|]); intros y [->|Hy]%elem_of_cons.
    + by apply bytes_ltb_asym.
    + by apply Hall.
    + apply bytes_ltb_irrefl.
    + by eapply bytes_nlt_trans, Hall.
  - subst. split; [by left|]. intros y Hy. apply list_elem_of_singleton in Hy as ->. apply bytes_ltb_irrefl.
Qed.

Lemma first_key_spec ks :
  match first_key ks with
  | None => ks = []
  | Some k => k ∈ ks /\ forall x, x ∈ ks -> bytes_ltb x k = false
  end.
Proof.
  induction ks as [|k ks IH]; [done|]. unfold first_key in *. cbn [fold_right]. destruct (fold_right _ None ks) as [x|].
  - destruct IH as [Hx Hall]. destruct (bytes_ltb x k) eqn:E; cbn; (split; [set_solver|]); intros y [->|Hy]%elem_of_cons.
    + by apply bytes_ltb_asym.
    + by apply Hall.
    + apply bytes_ltb_irrefl.
    + by eapply bytes_nlt_trans; [apply Hall|].
  - subst. split; [by left|]. intros y Hy. apply list_elem_of_singleton in Hy as ->. apply bytes_ltb_irrefl.
Qed.

(** ** First and last indexed block *)

Definition height_ok (b : Z) : Prop := 0 < b < 2 ^ 63.
#[local] Instance height_ok_dec b : Decision (height_ok b).
Proof. unfold height_ok. apply _. Defined.

(** every key is one of the two kinds *)
Definition keys_ok (db : kvDB) : Prop :=
  forall k, is_Some (db_entries db !! k) -> (exists h, k = TxHashKey h) \/ (exists b i, height_ok b /\ k = TxIndexKey b i).

(** the block has an entry *)
Definition has_block (db : kvDB) (b : Z) : Prop := height_ok b /\ exists i, is_Some (db_entries db !! TxIndexKey b i).

Lemma db_keys_index db k :
  keys_ok db -> k ∈ db_keys db [KeyPrefixTxIndex] [KeyPrefixTxIndex + 1] <->
  is_Some (db_entries db !! k) /\ exists b i, height_ok b /\ k = TxIndexKey b i.
Proof.
  intros Hok. unfold db_keys. rewrite list_elem_of_filter, list_elem_of_fmap.
  assert (Hdom : (exists y, k = y.1 /\ y ∈ map_to_list (db_entries db)) <-> is_Some (db_entries db !! k)).
  { split; [intros ([k' v] & -> & Hin); apply elem_of_map_to_list in Hin; by eexists|].
    intros [v Hv]. exists (k, v). split; [done|]. by apply elem_of_map_to_list. }
  rewrite Hdom. split.
  - intros [Hr Hs]. split; [done|]. destruct (Hok k Hs) as [[h ->]|Hi]; [|done]. cbn in Hr. done.
  - intros [Hs (b & i & Hb & ->)]. split; [|done]. unfold TxIndexKey. cbn [bytes_ltb].
    by destruct (be_bytes 8 (wrap64 b) ++ be_bytes 8 (wrap64 i)).
Qed.

Lemma LoadLastBlock_spec db :
  db_fault db = None -> keys_ok db ->
  (LoadLastBlock db = Ok (-1) /\ forall b, ~ has_block db b) \/
  exists b, LoadLastBlock db = Ok b /\ has_block db b /\ forall b', has_block db b' -> b' <= b.
Proof.
  intros Hf Hok. unfold LoadLastBlock. rewrite Hf. set (ks := db_keys _ _ _). pose proof (last_key_spec ks) as Hk.
  destruct (last_key ks) as [k|].
  - right. destruct Hk as [Hin Hall]. apply (db_keys_index db k Hok) in Hin as [Hs (b & i & Hb & ->)].
    unfold height_ok in Hb. rewrite parse_TxIndexKey by lia. exists b. split_and!; [done|by split; [|exists i]|].
    intros b' [Hb' [i' Hi']]. unfold height_ok in Hb'. apply (TxIndexKey_order b i b' i'); [lia..|].
    apply Hall. apply (db_keys_index db _ Hok). split; [done|]. by exists b', i'.
  - left. split; [done|]. intros b [Hb [i Hi]]. assert (Hin : TxIndexKey b i ∈ ks)
      by (apply (db_keys_index db _ Hok); split; [done|by exists b, i]). rewrite Hk in Hin. by apply not_elem_of_nil in Hin.
Qed.

Lemma LoadFirstBlock_spec db :
  db_fault db = None -> keys_ok db ->
  (LoadFirstBlock db = Ok (-1) /\ forall b, ~ has_block db b) \/
  exists b, LoadFirstBlock db = Ok b /\ has_block db b /\ forall b', has_block db b' -> b <= b'.
Proof.
  intros Hf Hok. unfold LoadFirstBlock. rewrite Hf. set (ks := db_keys _ _ _). pose proof (first_key_spec ks) as Hk.
  destruct (first_key ks) as [k|].
  - right. destruct Hk as [Hin Hall]. apply (db_keys_index db k Hok) in Hin as [Hs (b & i & Hb & ->)].
    unfold height_ok in Hb. rewrite parse_TxIndexKey by lia. exists b. split_and!; [done|by split; [|exists i]|].
    intros b' [Hb' [i' Hi']]. unfold height_ok in Hb'. apply (TxIndexKey_order b' i' b i); [lia..|].
    apply Hall. apply (db_keys_index db _ Hok). split; [done|]. by exists b', i'.
  - left. split; [done|]. intros b [Hb [i Hi]]. assert (Hin : TxIndexKey b i ∈ ks)
      by (apply (db_keys_index db _ Hok); split; [done|by exists b, i]). rewrite Hk in Hin. by apply not_elem_of_nil in Hin.
Qed.

Section Blocks.
Context `{!EthHex} `{!TxCodec}.
Variable TxDecoder : bytes -> res decodedTx.

Abbreviation hashes_of block results := (block_hashes TxDecoder (bl_Txs block) results).

Lemma put_dom m b k : is_Some (put m b !! k) <-> is_Some (m !! k) \/ k ∈ b.*1.
Proof.
  revert m. induction b as [|[k' v] b IH]; intros m; cbn; [set_solver|]. unfold put in IH. rewrite IH, elem_of_cons.
  destruct (decide (k = k')) as [->|Hk]; [rewrite lookup_insert_eq|rewrite lookup_insert_ne by done]; naive_solver.
Qed.

Lemma IndexBlock_blocks db block results db' :
  db_fault db = None -> keys_ok db -> height_ok (bl_Height block) ->
  Z.of_nat (length (hashes_of block results)) < 2 ^ 31 ->
  IndexBlock TxDecoder db block results = (db', Ok ()) ->
  db_fault db' = None /\ keys_ok db' /\
  forall b, has_block db' b <-> has_block db b \/ (b = bl_Height block /\ hashes_of block results <> []).
Proof.
  intros Hf Hok Hh Hn E. unfold IndexBlock in E. apply st_bind_Ok_inv in E as (db0 & bt & [= <- Eb] & E).
  apply index_txs_spec in Eb as (l & -> & Hl & Hnum & _); [|lia..]. cbn [app] in E.
  unfold batch_Write in E. rewrite Hf in E. injection E as <-. set (m0 := db_entries db).
  change (fold_left _ (saved l) m0) with (put m0 (saved l)). split; [done|].
  assert (Hidx : forall h r, (h, r) ∈ l -> tr_Height r = bl_Height block /\ 0 <= tr_EthTxIndex r < 2 ^ 31).
  { intros h r Hin. apply list_elem_of_lookup in Hin as [j Hj]. destruct (Hnum j h r Hj) as (_ & Hht & Hi).
    apply lookup_lt_Some in Hj. rewrite <-(length_fmap fst), Hl in Hj. split; [done|lia]. }
  split.
  - intros k Hk. apply put_dom in Hk as [Hk|Hk]; [by apply Hok|]. apply elem_saved_key in Hk as (h & r & Hin & [->| ->]).
    + left. by exists h.
    + right. destruct (Hidx h r Hin) as [-> _]. by eexists _, _.
  - intros b. unfold has_block. cbn [db_entries]. split.
    + intros [Hb [i Hi]]. apply put_dom in Hi as [Hi|Hi]; [left; split; [done|by exists i]|].
      right. apply elem_saved_key in Hi as (h & r & Hin & [E|E]); [symmetry in E; by apply hash_key_not_index in E|].
      destruct (Hidx h r Hin) as [Ht Hr]. split; [|rewrite <-Hl; by destruct l as [|? l]; [apply not_elem_of_nil in Hin|]].
      rewrite Ht in E. apply (f_equal parseBlockNumberFromKey) in E. unfold height_ok in *.
      rewrite !parse_TxIndexKey in E by lia. by injection E.
    + intros [[Hb [i Hi]]|[-> Hne]].
      * split; [done|]. exists i. apply put_dom. by left.
      * split; [done|]. rewrite <-Hl in Hne. destruct l as [|[h r] l]; [done|]. exists (tr_EthTxIndex r). apply put_dom.
        right. apply elem_saved_key. exists h, r. split; [by left|]. right. by destruct (Hidx h r) as [-> _]; [left|].
Qed.

(** blocks indexed one after the other *)
Fixpoint index_all (db : kvDB) (l : list (Block * list ExecTxResult)) : kvDB * res unit :=
  match l with
  | [] => (db, Ok ())
  | (block, results) :: l => do? db, _ := IndexBlock TxDecoder db block results in index_all db l
  end.

Definition empty_db : kvDB := mkKvDB ∅ None.

Definition blocks_ok (l : list (Block * list ExecTxResult)) : Prop :=
  Forall (fun b => height_ok (bl_Height b.1) /\ Z.of_nat (length (hashes_of b.1 b.2)) < 2 ^ 31) l.

(** the heights of the blocks with an Ethereum transaction *)
Definition eth_heights (l : list (Block * list ExecTxResult)) : list Z :=
  map (fun b => bl_Height b.1) (filter (fun b => hashes_of b.1 b.2 <> []) l).

Lemma index_all_blocks l : forall db db',
  db_fault db = None -> keys_ok db -> blocks_ok l -> index_all db l = (db', Ok ()) ->
  db_fault db' = None /\ keys_ok db' /\ forall b, has_block db' b <-> has_block db b \/ b ∈ eth_heights l.
Proof.
  induction l as [|[block results] l IH]; intros db db' Hf Hok Hl E; cbn [index_all] in E.
  { injection E as <-. split_and!; try done. intros b. cbn. set_solver. }
  apply Forall_cons in Hl as [[Hh Hn] Hl]. cbn [fst snd] in *. apply st_bind_Ok_inv in E as (db1 & [] & Eb & E).
  destruct (IndexBlock_blocks db block results db1 Hf Hok Hh Hn Eb) as (Hf1 & Hok1 & Hb1).
  destruct (IH db1 db' Hf1 Hok1 Hl E) as (Hf2 & Hok2 & Hb2). split_and!; [done|done|]. intros b. rewrite Hb2, Hb1.
  unfold eth_heights. rewrite filter_cons. case_decide as Hd; cbn [fst snd] in Hd; cbn; [rewrite elem_of_cons|]; naive_solver.
Qed.

(** The index knows its range. After any blocks were indexed, in any order,
    [FirstIndexedBlock] and [LastIndexedBlock] are the least and the greatest
    height of a block with an Ethereum transaction, and -1 when there is none. *)
Theorem indexed_range_tracks_blocks l db :
  blocks_ok l -> index_all empty_db l = (db, Ok ()) ->
  match eth_heights l with
  | [] => FirstIndexedBlock db = Ok (-1) /\ LastIndexedBlock db = Ok (-1)
  | _ => exists lo hi, FirstIndexedBlock db = Ok lo /\ LastIndexedBlock db = Ok hi /\
           lo ∈ eth_heights l /\ hi ∈ eth_heights l /\ forall b, b ∈ eth_heights l -> lo <= b <= hi
  end.
Proof.
  intros Hl E. destruct (index_all_blocks l empty_db db) as (Hf & Hok & Hb); [done| |done|done|].
  { intros k [v Hv]. cbn in Hv. by rewrite lookup_empty in Hv. }
  assert (Hb' : forall b, has_block db b <-> b ∈ eth_heights l).
  { intros b. rewrite Hb. split; [|by right]. intros [[_ [i [v Hv]]]|]; [cbn in Hv; by rewrite lookup_empty in Hv|done]. }
  clear Hb. unfold FirstIndexedBlock, LastIndexedBlock.
  destruct (LoadLastBlock_spec db Hf Hok) as [[El Hn]|(hi & El & Hhi & Hall)],
    (LoadFirstBlock_spec db Hf Hok) as [[Ef Hn']|(lo & Ef & Hlo & Hall')].
  - destruct (eth_heights l) as [|b bs]; [done|]. destruct (Hn b). apply Hb'. by left.
  - by destruct (Hn lo).
  - by destruct (Hn' hi).
  - apply Hb' in Hhi as Hhi'. destruct (eth_heights l) as [|b0 bs] eqn:Eh; [by apply not_elem_of_nil in Hhi'|].
    exists lo, hi. split_and!; [done|done|by apply Hb'|done|]. intros b Hin. apply Hb' in Hin. split; [by apply Hall'|by apply Hall].
Qed.

(** ** The service *)

Section Service.
Variable chain : Z -> Block * list ExecTxResult.

Abbreviation run := (fold_left (sv_step TxDecoder chain)).

(** the blocks after [start], one for each outcome of a write, are indexed *)
Definition index_next (db : kvDB) (i : Z) (w : option error) : kvDB :=
  mkKvDB (db_entries (IndexBlock TxDecoder (mkKvDB (db_entries db) w) (chain i).1 (chain i).2).1) None.

Fixpoint index_from (db : kvDB) (start : Z) (ws : list (option error)) : kvDB :=
  match ws with
  | [] => db
  | w :: ws => index_from (index_next db (start + 1) w) (start + 1) ws
  end.

Lemma index_from_snoc db start ws w :
  index_from db start (ws ++ [w]) = index_next (index_from db start ws) (start + Z.of_nat (length ws) + 1) w.
Proof.
  revert db start. induction ws as [|w' ws IH]; intros db start; cbn [app index_from length].
  - do 2 f_equal. lia.
  - rewrite IH. f_equal. lia.
Qed.

(** the loop stands before the block after the last one *)
Definition pc_ok (s : svState) : Prop :=
  match sv_pc s with pcInner i => i = sv_last s + 1 | _ => True end.

Lemma IndexBlock_panic db block results e db' :
  IndexBlock TxDecoder db block results = (db', Panic e) -> db' = db.
Proof.
  unfold IndexBlock, batch_Write. destruct (index_txs _ _ _ _ _ _ _); cbn; [destruct (db_fault db); done|done|by intros [= <-]].
Qed.

(** what a round does *)
Lemma on_round_cases f w s :
  db_fault (sv_db s) = None -> pc_ok s ->
  let s' := on_round TxDecoder chain f w s in
  pc_ok s' /\ sv_latest s' = sv_latest s /\ db_fault (sv_db s') = None /\
  ((sv_last s' = sv_last s /\ sv_db s' = sv_db s) \/
   (sv_last s' = sv_last s + 1 /\ sv_db s' = index_next (sv_db s) (sv_last s + 1) w /\ sv_last s < sv_latest s)).
Proof.
  intros Hf Hpc. destruct s as [latest signal last pc db]. cbn in Hf, Hpc; cbn -[IndexBlock]. unfold pc_ok in *. cbn in Hpc.
  destruct pc as [|i|e]; cbn -[IndexBlock].
  - destruct (Z.leb_spec latest last); cbn; by split_and!; [..|left].
  - subst i. destruct (Z.leb_spec (last + 1) latest); cbn [negb]; [|by split_and!; [..|left]].
    destruct f; [by split_and!; [..|left]|]. unfold index_next. rewrite Hf.
    replace (match w with Some e => Some e | None => None end) with w by (by destruct w).
    destruct (IndexBlock _ _ _ _) as [db' [u|e|e]] eqn:Ei; cbn; (split_and!; [done|done|done|]).
    + right. split_and!; [done|done|lia].
    + right. split_and!; [done|done|lia].
    + left. split; [done|]. apply IndexBlock_panic in Ei. subst db'. cbn. by destruct db; cbn in *; subst.
  - by split_and!; [..|left].
Qed.

Lemma step_ok l s : db_fault (sv_db s) = None -> pc_ok s ->
  db_fault (sv_db (sv_step TxDecoder chain s l)) = None /\ pc_ok (sv_step TxDecoder chain s l).
Proof.
  intros Hf Hpc. destruct l as [h|f w]; cbn.
  - unfold on_header. case_match; done.
  - destruct (on_round_cases f w s Hf Hpc) as (? & _ & ? & _). done.
Qed.

(** The service indexes every block once and in order: after any headers and
    rounds, with any failures, the index is what the blocks after the first one
    up to [sv_last] make of it. *)
Theorem service_indexes_in_order ls s :
  db_fault (sv_db s) = None -> pc_ok s ->
  exists ws, sv_last (run ls s) = sv_last s + Z.of_nat (length ws) /\
    sv_db (run ls s) = index_from (sv_db s) (sv_last s) ws.
Proof.
  intros Hf Hpc. assert (Hall : db_fault (sv_db (run ls s)) = None /\ pc_ok (run ls s) /\
    exists ws, sv_last (run ls s) = sv_last s + Z.of_nat (length ws) /\ sv_db (run ls s) = index_from (sv_db s) (sv_last s) ws);
    [|naive_solver].
  induction ls as [|l ls IH] using rev_ind; [cbn; split_and!; [done|done|exists []; cbn; split; [lia|done]]|].
  rewrite fold_left_app. cbn [fold_left]. destruct IH as (Hf1 & Hpc1 & ws & Hl & Hd).
  destruct (step_ok l _ Hf1 Hpc1) as [Hf2 Hpc2]. split_and!; [done|done|]. destruct l as [h|f w]; cbn [sv_step].
  - exists ws. unfold on_header. by case_match.
  - destruct (on_round_cases f w _ Hf1 Hpc1) as (_ & _ & _ & [[-> ->]|(-> & -> & _)]); [by exists ws|].
    exists (ws ++ [w]). rewrite length_app, index_from_snoc, Hl, Hd. split; [cbn; lia|done].
Qed.

(** *** It catches up *)

Definition is_round (l : svLabel) : Prop := match l with Round _ _ => True | Header _ => False end.
#[local] Instance is_round_dec l : Decision (is_round l) := match l with Round _ _ => left I | Header _ => right (fun H => H) end.

(** a step in which neither the client nor the database fails *)
Definition undisturbed (l : svLabel) : Prop := match l with Round f w => f = false /\ w = None | Header _ => True end.

(** rounds until block [h] is indexed *)
Definition distance (h : Z) (s : svState) : Z :=
  if sv_last s <? h then h - sv_last s + match sv_pc s with pcOuter => 1 | _ => 0 end else 0.

Definition running (s : svState) : Prop := match sv_pc s with pcCrashed _ => False | _ => True end.

Hypothesis no_panic : forall db i e, (IndexBlock TxDecoder db (chain i).1 (chain i).2).2 <> Panic e.

Lemma round_progress h s :
  db_fault (sv_db s) = None -> pc_ok s -> running s -> h <= sv_latest s ->
  let s' := on_round TxDecoder chain false None s in
  running s' /\ sv_last s <= sv_last s' /\ distance h s' <= Z.max 0 (distance h s - 1) /\
  (sv_db s' = sv_db s /\ sv_last s' = sv_last s \/ sv_db s' = index_next (sv_db s) (sv_last s + 1) None /\ sv_last s' = sv_last s + 1).
Proof.
  intros Hf Hpc Hr Hh. destruct s as [latest signal last pc db]. unfold pc_ok, running, distance in *. cbn in Hf, Hpc, Hr, Hh.
  destruct pc as [|i|e]; [| |done]; cbn -[IndexBlock index_next].
  - destruct (Z.leb_spec latest last); cbn -[IndexBlock index_next];
      (split_and!; [done|lia| |by left]); destruct (Z.ltb_spec last h); lia.
  - subst i. destruct (Z.leb_spec (last + 1) latest); cbn [negb].
    + rewrite Hf. pose proof (no_panic (mkKvDB (db_entries db) None) (last + 1)) as Hnp. unfold index_next.
      destruct (IndexBlock _ _ _ _) as [db' [u|e|e]]; [| |by destruct (Hnp e)]; cbn;
        (split_and!; [done|lia| |by right]); destruct (Z.ltb_spec last h), (Z.ltb_spec (last + 1) h); lia.
    + cbn. split_and!; [done|lia| |by left]. destruct (Z.ltb_spec last h); lia.
Qed.

Lemma index_from_repeat db start n :
  index_from db start (repeat None (S n)) =
    index_next (index_from db start (repeat None n)) (start + Z.of_nat n + 1) None.
Proof.
  pose proof (index_from_snoc db start (repeat None n) None) as E. rewrite repeat_length, <-repeat_cons in E. exact E.
Qed.

(** C27: The service catches up. When neither the client nor the database fails
    and no block makes the indexer panic, then after as many rounds of the loop
    as there are blocks up to [h], and one more, however many headers arrive
    meanwhile, a block [h] that the service knew of has been indexed, and so has
    every block between, once and in order. *)
Theorem service_catches_up h ls s :
  db_fault (sv_db s) = None -> pc_ok s -> running s -> h <= sv_latest s -> Forall undisturbed ls ->
  h - sv_last s + 1 <= Z.of_nat (length (filter is_round ls)) ->
  exists n, h <= sv_last (run ls s) /\ sv_last (run ls s) = sv_last s + Z.of_nat n /\
    sv_db (run ls s) = index_from (sv_db s) (sv_last s) (repeat None n).
Proof.
  intros Hf Hpc Hr Hh Hu Hn. assert (Hd : distance h s <= Z.of_nat (length (filter is_round ls))).
  { unfold distance. destruct (Z.ltb_spec (sv_last s) h); [case_match; lia|lia]. }
  clear Hn. assert (Hall : forall n0 db0 start, sv_last s = start + Z.of_nat n0 -> sv_db s = index_from db0 start (repeat None n0) ->
    exists n, h <= sv_last (run ls s) /\ sv_last (run ls s) = start + Z.of_nat n /\
      sv_db (run ls s) = index_from db0 start (repeat None n)).
  2: { apply (Hall 0%nat); [cbn; lia|done]. }
  revert s Hf Hpc Hr Hh Hd. induction Hu as [|l ls Hl Hu IH]; intros s Hf Hpc Hr Hh Hd n0 db0 start Hs Hdb.
  { cbn in Hd. exists n0. cbn. split_and!; [|done|done]. unfold distance in Hd.
    destruct (Z.ltb_spec (sv_last s) h); [case_match; lia|lia]. }
  cbn [fold_left]. destruct l as [h'|f w]; cbn [sv_step].
  - rewrite filter_cons, decide_False in Hd by (by intros []). unfold on_header.
    destruct (Z.ltb_spec (sv_latest s) h'); [|by apply (IH s Hf Hpc Hr Hh Hd n0)].
    apply (IH _) with n0; cbn; try done. lia.
  - destruct Hl as [-> ->]. rewrite filter_cons, decide_True in Hd by done. cbn [length] in Hd.
    destruct (round_progress h s Hf Hpc Hr Hh) as (Hr' & Hle & Hd' & Hcase).
    destruct (on_round_cases false None s Hf Hpc) as (Hpc' & Hlat & Hf' & _).
    destruct Hcase as [[Edb El]|[Edb El]].
    + apply (IH _) with n0; try done; [lia|lia|by rewrite El|by rewrite Edb].
    + apply (IH _) with (S n0); try done; [lia|lia|rewrite El; lia|].
      rewrite Edb, index_from_repeat, <-Hdb. f_equal. lia.
Qed.
End Service.
End Blocks.

(** ** A chain with a transaction of two messages *)

Definition c_marshal (r : TxResult) : bytes :=
  be_bytes 8 (tr_Height r) ++ be_bytes 4 (tr_TxIndex r) ++ be_bytes 4 (tr_MsgIndex r) ++
  be_bytes 4 (tr_EthTxIndex r + 2 ^ 31) ++ [if tr_Failed r then 1 else 0] ++
  be_bytes 8 (tr_GasUsed r) ++ be_bytes 8 (tr_CumulativeGasUsed r).

Definition c_unmarshal (b : bytes) : res TxResult :=
  Ok (mkTxResult (be_value (take 8 b)) (be_value (take 4 (drop 8 b))) (be_value (take 4 (drop 12 b)))
        (be_value (take 4 (drop 16 b)) - 2 ^ 31) (negb (be_value (take 1 (drop 20 b)) =? 0))
        (be_value (take 8 (drop 21 b))) (be_value (take 8 (drop 29 b)))).

Lemma field_at n k v (a b : bytes) :
  length a = n -> 0 <= v < 256 ^ Z.of_nat k -> be_value (take k (drop n (a ++ be_bytes k v ++ b))) = v.
Proof.
  intros <- Hv. rewrite drop_app_length, take_app_length' by (by rewrite be_bytes_length). by apply be_value_bytes.
Qed.

#[export, refine] Instance c_codec : TxCodec := {| codec_Marshal := c_marshal; codec_Unmarshal := c_unmarshal |}.
Proof.
  - intros [height ti mi ei failed g cg] (H1 & H2 & H3 & H4 & H5 & H6). cbn in H1, H2, H3, H4, H5, H6. unfold c_unmarshal, c_marshal.
    cbn [tr_Height tr_TxIndex tr_MsgIndex tr_EthTxIndex tr_Failed tr_GasUsed tr_CumulativeGasUsed].
    set (h8 := be_bytes 8 height). set (t4 := be_bytes 4 ti). set (m4 := be_bytes 4 mi). set (e4 := be_bytes 4 (ei + 2 ^ 31)).
    set (f1 := [if failed then 1 else 0]). set (g8 := be_bytes 8 g). set (c8 := be_bytes 8 cg).
    assert (L : length h8 = 8%nat /\ length t4 = 4%nat /\ length m4 = 4%nat /\ length e4 = 4%nat /\ length f1 = 1%nat /\ length g8 = 8%nat)
      by (unfold h8, t4, m4, e4, f1, g8; by rewrite !be_bytes_length).
    destruct L as (L1 & L2 & L3 & L4 & L5 & L6). f_equal. f_equal.
    + apply (field_at 0 8 height [] (t4 ++ m4 ++ e4 ++ f1 ++ g8 ++ c8)); [done|cbn; lia].
    + apply (field_at 8 4 ti h8 (m4 ++ e4 ++ f1 ++ g8 ++ c8)); [done|cbn; lia].
    + rewrite (app_assoc h8). apply (field_at 12 4 mi (h8 ++ t4)); [rewrite length_app; lia|cbn; lia].
    + rewrite (app_assoc h8), (app_assoc (h8 ++ t4)). unfold e4.
      rewrite (field_at 16 4 (ei + 2 ^ 31) ((h8 ++ t4) ++ m4)); [lia|rewrite !length_app; lia|cbn; lia].
    + rewrite (app_assoc h8), (app_assoc (h8 ++ t4)), (app_assoc ((h8 ++ t4) ++ m4)).
      replace f1 with (be_bytes 1 (if failed then 1 else 0)) by (unfold f1; by destruct failed).
      rewrite (field_at 20 1 _ (((h8 ++ t4) ++ m4) ++ e4)); [by destruct failed|rewrite !length_app; lia|destruct failed; cbn; lia].
    + rewrite (app_assoc h8), (app_assoc (h8 ++ t4)), (app_assoc ((h8 ++ t4) ++ m4)), (app_assoc (((h8 ++ t4) ++ m4) ++ e4)).
      apply (field_at 21 8 g ((((h8 ++ t4) ++ m4) ++ e4) ++ f1)); [rewrite !length_app; lia|cbn; lia].
    + rewrite (app_assoc h8), (app_assoc (h8 ++ t4)), (app_assoc ((h8 ++ t4) ++ m4)), (app_assoc (((h8 ++ t4) ++ m4) ++ e4)),
        (app_assoc ((((h8 ++ t4) ++ m4) ++ e4) ++ f1)). unfold c8. rewrite <-(app_nil_r (be_bytes 8 cg)).
      apply (field_at 29 8 cg (((((h8 ++ t4) ++ m4) ++ e4) ++ f1) ++ g8) []); [rewrite !length_app; lia|cbn; lia].
  - intros r _ E. apply (f_equal length) in E. unfold c_marshal in E. rewrite length_app, be_bytes_length in E. done.
Defined.

Definition wx_data : TxData := cdyn.
Definition wx_msg (h : hash) : sdkMsg := EthMsg (mkMsgEthereumTx (Some wx_data) 0 (c_hash_String h) "").
Definition wx_decoder (b : bytes) : res decodedTx :=
  match b with
  | [] => Err "no transaction"
  | _ => Ok (mkDecodedTx (Some ["/cosmos.evm.vm.v1.ExtensionOptionsEthereumTx"]) [wx_msg 11; wx_msg 12])
  end.
Definition wx_block : Block := mkBlock 7 [[]; [1; 2]].
Definition wx_results : list ExecTxResult := [mkExecTxResult 0 "" 100 []; wv_result].
Definition wx_db : kvDB := (IndexBlock wx_decoder empty_db wx_block wx_results).1.

Lemma wx_decoder_gas tx d m t :
  wx_decoder tx = Ok d -> EthMsg m ∈ d_Msgs d -> msg_Data m = Some t -> 0 <= GetGas t < 2 ^ 64.
Proof.
  destruct tx; [done|]. intros E. injection E as <-. cbn. rewrite !elem_of_cons. intros Hm.
  destruct Hm as [E|[E|E]]; [| |by apply not_elem_of_nil in E]; injection E as ->; cbn; intros E; injection E as <-; cbn; lia.
Qed.

Lemma index_block_lookup_witness :
  exists r, GetByTxHash wx_db 12 = Ok r /\ GetByBlockAndIndex wx_db 7 (tr_EthTxIndex r) = Ok r /\ tr_Height r = 7 /\
    entry_for 1 1 21716 true 43316 r.
Proof.
  destruct (index_block_lookup wx_decoder wx_decoder_gas empty_db wx_block wx_results wx_db) as (H & _).
  - reflexivity.
  - split; reflexivity.
  - vm_compute. reflexivity.
  - apply (bool_decide_unpack _). vm_compute. exact I.
  - apply pair_snd. vm_compute. reflexivity.
  - destruct (H 1%nat 1%nat (mkMsgEthereumTx (Some wx_data) 0 (c_hash_String 12) "") 21716 true) as (r & E1 & E2 & E3 & E4).
    + exists [1; 2], wv_result, [wx_msg 11; wx_msg 12], (ok_or (mkParsedTxs [] ∅) (ParseTxResult wv_result (Some [wx_msg 11; wx_msg 12]))).
      split; [reflexivity|]. split; [reflexivity|]. split; [vm_compute; reflexivity|]. split; vm_compute; reflexivity.
    + exists r. split; [|by split_and!]. exact E1.
Defined.

Lemma indexed_range_tracks_blocks_witness :
  exists db lo hi, index_all wx_decoder empty_db [(wx_block, wx_results); (mkBlock 9 [], []); (mkBlock 5 [[1]], [wv_result])] = (db, Ok ()) /\
    FirstIndexedBlock db = Ok lo /\ LastIndexedBlock db = Ok hi /\ lo <= 5 /\ 7 <= hi.
Proof.
  set (l := [(wx_block, wx_results); (mkBlock 9 [], []); (mkBlock 5 [[1]], [wv_result])]).
  assert (Hb : blocks_ok wx_decoder l) by (apply (bool_decide_unpack _); vm_compute; exact I).
  assert (He : eth_heights wx_decoder l = [7; 5]) by (vm_compute; reflexivity).
  pose proof (indexed_range_tracks_blocks wx_decoder l (index_all wx_decoder empty_db l).1 Hb) as H.
  rewrite He in H. destruct H as (lo & hi & E1 & E2 & _ & _ & Hall); [apply pair_snd; vm_compute; reflexivity|].
  exists (index_all wx_decoder empty_db l).1, lo, hi. split; [apply pair_snd; vm_compute; reflexivity|].
  split; [exact E1|]. split; [exact E2|]. split.
  - apply (Hall 5). right. left.
  - apply (Hall 7). left.
Defined.

Definition wx_chain (i : Z) : Block * list ExecTxResult :=
  if i =? 2 then (mkBlock 2 [[1; 2]], [wv_result]) else (mkBlock i [], []).
Definition wx_state : svState := mkSvState 3 false 1 pcOuter empty_db.

Lemma wx_no_panic db i e : (IndexBlock wx_decoder db (wx_chain i).1 (wx_chain i).2).2 <> Panic e.
Proof.
  unfold IndexBlock. assert (Hi : is_ok (index_txs wx_decoder (bl_Height (wx_chain i).1) 0 0 [] (bl_Txs (wx_chain i).1) (wx_chain i).2) = true).
  { unfold wx_chain. destruct (i =? 2); [vm_compute|]; reflexivity. }
  destruct (index_txs _ _ _ _ _ _ _); [|done..]. cbn. unfold batch_Write. by destruct (db_fault db).
Qed.

Lemma service_catches_up_witness :
  exists n, 3 <= sv_last (fold_left (sv_step wx_decoder wx_chain) [Round false None; Header 4; Round false None; Round false None] wx_state) /\
    sv_db (fold_left (sv_step wx_decoder wx_chain) [Round false None; Header 4; Round false None; Round false None] wx_state) =
      index_from wx_decoder wx_chain empty_db 1 (repeat None n).
Proof.
  destruct (service_catches_up wx_decoder wx_chain wx_no_panic 3 [Round false None; Header 4; Round false None; Round false None] wx_state)
    as (n & H1 & _ & H2).
  - reflexivity.
  - exact I.
  - exact I.
  - vm_compute. congruence.
  - repeat constructor.
  - vm_compute. congruence.
  - exists n. split; [exact H1|exact H2].
Defined.

(** A block whose write fails is passed over: the service goes on with the next
    one, and the block stays out of the index. *)
Theorem failed_write_is_passed_over :
  let s := fold_left (sv_step wx_decoder wx_chain) [Round false None; Round false (Some "disk full"); Round false None] wx_state in
  sv_last s = 3 /\ GetByBlockAndIndex (sv_db s) 2 0 = Err ErrTxNotFound /\ sv_pc s = pcInner 4.
Proof. vm_compute. by split_and!. Qed.
