(* ===== verification/Eip712.v ===== *)
(** * EIP-712 typed data of Cosmos transactions ([ethereum/eip712])

    A sign document in JSON becomes a typed message that a wallet can show: the
    list of messages is flattened into fields [msg0], [msg1], ... ([message.go]),
    and a type is made up for every object in them ([types.go]). The JSON
    libraries gjson and sjson, and the capitalisation of x/text, are a class. *)

From stdpp Require Import base gmap list numbers strings sorting.
From Stdlib Require Import ZArith Lia.
From S2P Require Import Prelude SdkMath Scaling AccessList StateDB StateDBCommit VmStore TxData VmParams RpcEvents.

Module Eip712.

Definition ErrInvalidRequest : error := "invalid request".
Definition ErrInvalidType : error := "invalid type".
Definition ErrJSONUnmarshal : error := "failed to unmarshal JSON bytes".
Definition ErrFlatten : error := "failed to flatten payload JSON messages".
Definition ErrDuplicates : error := "exceeded maximum number of duplicates for a single type definition".

(** ** JSON *)

#[local] Unset Elimination Schemes.
Inductive json :=
| JNull
| JBool (b : bool)
| JNumber (raw : string)
| JString (s : string)
| JArray (l : list json)
| JObject (l : list (string * json)).
#[local] Set Elimination Schemes.

Fixpoint assoc {A} (k : string) (l : list (string * A)) : option A :=
  match l with
  | [] => None
  | (k', v) :: l => if String.eqb k k' then Some v else assoc k l
  end.

Definition IsObject (j : json) : bool := match j with JObject _ => true | _ => false end.
Definition IsArray (j : json) : bool := match j with JArray _ => true | _ => false end.
(** [Result.Str], empty for everything but a string *)
Definition json_Str (j : json) : string := match j with JString s => s | _ => "" end.

(** letters, digits and underscores *)
Definition is_alnum (c : Ascii.ascii) : bool :=
  let n := Ascii.nat_of_ascii c in
  ((48 <=? n) && (n <=? 57))%nat || ((65 <=? n) && (n <=? 90))%nat || ((97 <=? n) && (n <=? 122))%nat.
Definition is_upper (c : Ascii.ascii) : bool := let n := Ascii.nat_of_ascii c in ((65 <=? n) && (n <=? 90))%nat.
Definition str_forallb (f : Ascii.ascii -> bool) (s : string) : bool := forallb f (String.list_ascii_of_string s).
Definition alnum (s : string) : bool := str_forallb is_alnum s.
Definition underscore : Ascii.ascii := Ascii.ascii_of_nat 95.
Definition dot : Ascii.ascii := Ascii.ascii_of_nat 46.
Definition slash : Ascii.ascii := Ascii.ascii_of_nat 47.

(** a key without the special characters of a path *)
Definition plain_key (k : string) : bool :=
  negb (String.eqb k "") && str_forallb (fun c => is_alnum c || Ascii.eqb c underscore) k.

Class GJson := {
  (* [ValidBytes] and [ParseBytes] *)
  gj_Parse : bytes -> option json;
  (* [Result.Get] of a path; [None] is a result that does not exist *)
  gj_Get : json -> string -> option json;
  gj_Get_plain : forall l k, plain_key k = true -> gj_Get (JObject l) k = assoc k l;
  (* [sjson.SetRaw] and [sjson.Delete] *)
  sj_SetRaw : json -> string -> json -> res json;
  sj_SetRaw_new : forall l k v, plain_key k = true -> assoc k l = None ->
    sj_SetRaw (JObject l) k v = Ok (JObject (l ++ [(k, v)]));
  sj_Delete : json -> string -> res json;
  sj_Delete_plain : forall l k, plain_key k = true -> NoDup l.*1 ->
    sj_Delete (JObject l) k = Ok (JObject (filter (fun p => p.1 <> k) l));
  (* [cases.Title] without lower-casing *)
  title : string -> string;
  title_alnum : forall s, alnum s = true -> alnum (title s) = true;
  title_upper : forall c s, is_upper c = true -> alnum (String c s) = true -> title (String c s) = String c s
}.

(** a field and its type; the types by name *)
Record ethType := mkType { ty_Name : string; ty_Type : string }.
#[export] Instance ethType_eq : EqDecision ethType.
Proof. solve_decision. Defined.

Abbreviation types := (gmap string (list ethType)).

(** ** Flattening ([message.go]) *)

Section Message.
Context `{!GJson}.

Definition payloadMsgsField : string := "msgs".

Definition msgFieldForIndex (i : nat) : string := "msg" +:+ FormatUint (Z.of_nat i).

Definition unmarshalBytesToJSONObject (data : bytes) : res json :=
  match gj_Parse data with
  | None => Err ErrJSONUnmarshal
  | Some payload => if IsObject payload then Ok payload else Err ErrJSONUnmarshal
  end.

Definition getPayloadMessages (payload : json) : res (list json) :=
  match gj_Get payload payloadMsgsField with
  | None => Err ErrInvalidRequest
  | Some JNull => Ok []
  | Some (JArray l) => Ok l
  | Some _ => Err ErrInvalidRequest
  end.

Definition payloadWithNewMessage (payload msg : json) (index : nat) : res json :=
  let field := msgFieldForIndex index in
  match gj_Get payload field with
  | Some _ => Err ErrInvalidRequest
  | None => if negb (IsObject msg) then Err ErrInvalidRequest else sj_SetRaw payload field msg
  end.

Definition payloadWithoutMsgsField (payload : json) : res json := sj_Delete payload payloadMsgsField.

Fixpoint flatten_msgs (flattened : json) (i : nat) (msgs : list json) : res json :=
  match msgs with
  | [] => Ok flattened
  | msg :: msgs => let? flattened := payloadWithNewMessage flattened msg i in flatten_msgs flattened (S i) msgs
  end.

Definition FlattenPayloadMessages (payload : json) : res (json * nat) :=
  let? msgs := getPayloadMessages payload in
  let? flattened := flatten_msgs payload 0 msgs in
  let? flattened := payloadWithoutMsgsField flattened in
  Ok (flattened, length msgs).

(** the message is the payload as a map *)
Record eip712MessagePayload := mkPayload { mp_payload : json; mp_numPayloadMsgs : nat; mp_message : json }.

Definition createEIP712MessagePayload (data : bytes) : res eip712MessagePayload :=
  let? basicPayload := unmarshalBytesToJSONObject data in
  match FlattenPayloadMessages basicPayload with
  | Panic e => Panic e
  | Err _ => Err ErrFlatten
  | Ok (payload, numPayloadMsgs) =>
      if IsObject payload then Ok (mkPayload payload numPayloadMsgs payload) else Err ErrInvalidType
  end.

(** ** Types ([types.go]) *)

Definition rootPrefix : string := "_".
Definition typePrefix : string := "Type".
Definition txField : string := "Tx".
Definition ethBool : string := "bool".
Definition ethInt64 : string := "int64".
Definition ethString : string := "string".
Definition msgTypeField : string := "type".
Definition maxDuplicateTypeDefs : nat := 1000.

(** [strings.Split] by a character *)
Fixpoint split (c : Ascii.ascii) (s : string) : list string :=
  match s with
  | EmptyString => [""]
  | String d s =>
      if Ascii.eqb d c then "" :: split c s
      else match split c s with
           | [] => [String d ""]
           | part :: parts => String d part :: parts
           end
  end.

Definition sanitize_part (part : string) : string :=
  if String.eqb part rootPrefix then typePrefix
  else foldr (fun sub acc => title sub +:+ acc) "" (split underscore part).

Definition sanitizeTypedef (str : string) : string :=
  foldr (fun part acc => sanitize_part part +:+ acc) "" (split dot str).

Definition typeDefForPrefix (prefix rootType : string) : string :=
  if String.eqb prefix rootPrefix then rootType else sanitizeTypedef prefix.

Definition prefixForSubField (prefix fieldName : string) : string := prefix +:+ "." +:+ fieldName.

Definition typeDefWithIndex (typeDef : string) (index : nat) : string := typeDef +:+ FormatUint (Z.of_nat index).

Definition typesAreEqual (types1 types2 : list ethType) : bool := bool_decide (types1 = types2).

(** the loop over the indexes of duplicates; [n] of them are left *)
Fixpoint add_at (n : nat) (typeMap : types) (typeDef : string) (index : nat) (tys : list ethType) : res (types * string) :=
  match n with
  | O => Err ErrDuplicates
  | S n =>
      let indexedTypeDef := typeDefWithIndex typeDef index in
      match typeMap !! indexedTypeDef with
      | None => Ok (<[indexedTypeDef := tys]> typeMap, indexedTypeDef)
      | Some existingTypes =>
          if typesAreEqual tys existingTypes then Ok (typeMap, indexedTypeDef)
          else add_at n typeMap typeDef (S index) tys
      end
  end.

Definition addTypesToRoot (typeMap : types) (typeDef : string) (tys : list ethType) : res (types * string) :=
  add_at maxDuplicateTypeDefs typeMap typeDef 0 tys.

(** empty for objects, arrays and null *)
Definition getEthTypeForJSON (j : json) : string :=
  match j with
  | JBool _ => ethBool
  | JNumber _ => ethInt64
  | JString _ => ethString
  | _ => ""
  end.

(** the keys in descending order *)
Definition sortedJSONKeys (j : json) : res (list string) :=
  match j with
  | JObject l => Ok (reverse (SortSlice (remove_dups l.*1)))
  | _ => Err ErrInvalidType
  end.

Definition appendedTypesList (tys : list ethType) (name typeDef : string) : list ethType := tys ++ [mkType name typeDef].

(** The loop over the fields of an object, given the function for the objects in
    them. [None] is a recursion that did not end. *)
Fixpoint add_fields (rec : types -> string -> json -> option (res (types * string))) (prefix : string) (payload : json)
    (typeMap : types) (typesToAdd : list ethType) (names : list string) : option (res (types * list ethType)) :=
  match names with
  | [] => Some (Ok (typeMap, typesToAdd))
  | fieldName :: names =>
      match gj_Get payload fieldName with
      | None => add_fields rec prefix payload typeMap typesToAdd names
      | Some (JArray []) =>
          add_fields rec prefix payload typeMap (appendedTypesList typesToAdd fieldName "string[]") names
      | Some field =>
          let '(field, isCollection) := match field with JArray (x :: _) => (x, true) | _ => (field, false) end in
          let suffix := if (isCollection : bool) then "[]" else "" in
          let ethType := getEthTypeForJSON field in
          if negb (String.eqb ethType "") then
            add_fields rec prefix payload typeMap (appendedTypesList typesToAdd fieldName (ethType +:+ suffix)) names
          else if IsObject field then
            match rec typeMap (prefixForSubField prefix fieldName) field with
            | None => None
            | Some (Err e) => Some (Err e)
            | Some (Panic e) => Some (Panic e)
            | Some (Ok (typeMap, fieldTypeDef)) =>
                add_fields rec prefix payload typeMap
                  (appendedTypesList typesToAdd fieldName (sanitizeTypedef fieldTypeDef +:+ suffix)) names
            end
          else add_fields rec prefix payload typeMap typesToAdd names
      end
  end.

Fixpoint recursivelyAddTypesToRoot (fuel : nat) (rootType : string) (typeMap : types) (prefix : string) (payload : json)
    : option (res (types * string)) :=
  match fuel with
  | O => None
  | S fuel =>
      match sortedJSONKeys payload with
      | Err e => Some (Err e)
      | Panic e => Some (Panic e)
      | Ok names =>
          let typeDef := typeDefForPrefix prefix rootType in
          match add_fields (recursivelyAddTypesToRoot fuel rootType) prefix payload typeMap [] names with
          | None => None
          | Some (Err e) => Some (Err e)
          | Some (Panic e) => Some (Panic e)
          | Some (Ok (typeMap, typesToAdd)) => Some (addTypesToRoot typeMap typeDef typesToAdd)
          end
      end
  end.

(** the last part of the type after slashes *)
Definition msgRootType (msg : json) : res string :=
  let msgType := match gj_Get msg msgTypeField with Some j => json_Str j | None => "" end in
  if String.eqb msgType "" then Err ErrInvalidType
  else Ok (typePrefix +:+ default "" (last (split slash msgType))).

Definition addMsgTypeDefToTxSchema (typeMap : types) (msgField msgTypeDef : string) : types :=
  <[txField := default [] (typeMap !! txField) ++ [mkType msgField msgTypeDef]]> typeMap.

Definition addMsgTypesToRoot (fuel : nat) (typeMap : types) (msgField : string) (msg : option json) : option (res types) :=
  match msg with
  | Some (JObject l) =>
      match msgRootType (JObject l) with
      | Err e => Some (Err e)
      | Panic e => Some (Panic e)
      | Ok rootType =>
          match recursivelyAddTypesToRoot fuel rootType typeMap rootPrefix (JObject l) with
          | None => None
          | Some (Err e) => Some (Err e)
          | Some (Panic e) => Some (Panic e)
          | Some (Ok (typeMap, msgTypeDef)) => Some (Ok (addMsgTypeDefToTxSchema typeMap msgField msgTypeDef))
          end
      end
  | _ => Some (Err ErrInvalidRequest)
  end.

Definition base_types : types :=
  <["EIP712Domain" := [mkType "name" "string"; mkType "version" "string"; mkType "chainId" "uint256";
                       mkType "verifyingContract" "string"; mkType "salt" "string"]]>
  (<[txField := [mkType "account_number" "string"; mkType "chain_id" "string"; mkType "fee" "Fee";
                 mkType "memo" "string"; mkType "sequence" "string"]]>
  (<["Fee" := [mkType "amount" "Coin[]"; mkType "gas" "string"]]>
  (<["Coin" := [mkType "denom" "string"; mkType "amount" "string"]]> ∅))).

(** [n] messages are left, from message [i] on *)
Fixpoint add_msgs (fuel : nat) (payload : json) (typeMap : types) (i n : nat) : option (res types) :=
  match n with
  | O => Some (Ok typeMap)
  | S n =>
      let field := msgFieldForIndex i in
      match addMsgTypesToRoot fuel typeMap field (gj_Get payload field) with
      | Some (Ok typeMap) => add_msgs fuel payload typeMap (S i) n
      | r => r
      end
  end.

(** the nesting of a value, which bounds the recursion *)
Fixpoint json_depth (j : json) : nat :=
  match j with
  | JArray l => S (fold_right (fun j n => Nat.max (json_depth j) n) 0%nat l)
  | JObject l => S (fold_right (fun p n => Nat.max (json_depth p.2) n) 0%nat l)
  | _ => 1%nat
  end.

Definition createEIP712Types (mp : eip712MessagePayload) : option (res types) :=
  add_msgs (json_depth (mp_payload mp)) (mp_payload mp) base_types 0 (mp_numPayloadMsgs mp).

(** ** Typed data ([domain.go], [eip712.go]) *)

Record TypedDataDomain := mkDomain {
  dom_Name : string; dom_Version : string; dom_ChainId : option Z; dom_VerifyingContract : string; dom_Salt : string
}.

Definition createEIP712Domain (chainID : Z) : TypedDataDomain := mkDomain "Cosmos Web3" "1.0.0" (Some (to_int64 chainID)) "cosmos" "0".

#[export] Instance domain_eq : EqDecision TypedDataDomain.
Proof. solve_decision. Defined.

Record TypedData := mkTypedData { td_Types : types; td_PrimaryType : string; td_Domain : TypedDataDomain; td_Message : json }.

Definition WrapTxToTypedData (chainID : Z) (data : bytes) : option (res TypedData) :=
  match createEIP712MessagePayload data with
  | Err e => Some (Err e)
  | Panic e => Some (Panic e)
  | Ok mp =>
      match createEIP712Types mp with
      | None => None
      | Some (Err e) => Some (Err e)
      | Some (Panic e) => Some (Panic e)
      | Some (Ok types) => Some (Ok (mkTypedData types txField (createEIP712Domain chainID) (mp_message mp)))
      end
  end.
End Message.
End Eip712.
