(* ===== verification/Eip712Theorems.v ===== *)
(** * Typed data is well typed

    Every message of a flattened payload has the type that the typed data gives
    it, in the types that were generated. *)

From stdpp Require Import base gmap list numbers strings sorting.
From Stdlib Require Import ZArith Lia DecimalString.
From S2P Require Import Prelude SdkMath Scaling AccessList StateDB StateDBCommit VmStore TxData VmParams VmParamsTheorems RpcEvents RpcEventsTheorems Eip712.
Import Eip712.

(** ** Induction on JSON *)

Section JsonInd.
Variable P : json -> Prop.
Hypotheses (Hnull : P JNull) (Hbool : forall b, P (JBool b)) (Hnumber : forall s, P (JNumber s))
  (Hstring : forall s, P (JString s)) (Harray : forall l, Forall P l -> P (JArray l))
  (Hobject : forall l, Forall (fun p => P p.2) l -> P (JObject l)).

Fixpoint json_induction (j : json) : P j :=
  match j with
  | JNull => Hnull
  | JBool b => Hbool b
  | JNumber s => Hnumber s
  | JString s => Hstring s
  | JArray l => Harray l ((fix go l : Forall P l :=
      match l with [] => List.Forall_nil _ | x :: l => List.Forall_cons _ _ _ (json_induction x) (go l) end) l)
  | JObject l => Hobject l ((fix go l : Forall (fun p => P p.2) l :=
      match l with
      | [] => List.Forall_nil _
      | p :: l => List.Forall_cons _ _ _ (match p as p return P p.2 with (k, v) => json_induction v end) (go l)
      end) l)
  end.
End JsonInd.

(** ** Names of types *)

Lemma str_forallb_app f a b : str_forallb f (a +:+ b) = str_forallb f a && str_forallb f b.
Proof. induction a as [|c a IH]; [done|]. rewrite str_app_cons. unfold str_forallb in *. cbn. by rewrite IH, andb_assoc. Qed.

Lemma alnum_app a b : alnum (a +:+ b) = alnum a && alnum b.
Proof. apply str_forallb_app. Qed.

Lemma alnum_digits d : alnum (NilEmpty.string_of_uint d) = true.
Proof. induction d; cbn; done. Qed.

Lemma alnum_FormatUint n : alnum (FormatUint n) = true.
Proof. unfold FormatUint, NilZero.string_of_uint. destruct (N.to_uint _) eqn:E; [done|..]; rewrite <-E; apply alnum_digits. Qed.

Lemma str_app_assoc a b c : (a +:+ b) +:+ c = a +:+ b +:+ c.
Proof. induction a as [|x a IH]; [done|]. rewrite !str_app_cons. by rewrite IH. Qed.

Lemma str_app_nil_r a : a +:+ "" = a.
Proof. induction a as [|x a IH]; [done|]. rewrite str_app_cons. by rewrite IH. Qed.

Lemma split_none c s : str_forallb (fun d => negb (Ascii.eqb d c)) s = true -> split c s = [s].
Proof.
  induction s as [|d s IH]; [done|]. unfold str_forallb. cbn. intros [Hd Hs]%andb_true_iff.
  rewrite (IH Hs). by destruct (Ascii.eqb d c).
Qed.

Lemma split_nonnil c s : split c s <> [].
Proof. destruct s as [|d s]; cbn; [done|]. destruct (Ascii.eqb d c); [done|]. by destruct (split c s). Qed.

Lemma split_app c a b : split c (a +:+ String c b) = split c a ++ split c b.
Proof.
  induction a as [|d a IH].
  - change ("" +:+ String c b) with (String c b). cbn [split]. by rewrite Ascii.eqb_refl.
  - rewrite str_app_cons. cbn [split]. rewrite IH. destruct (Ascii.eqb d c); [done|].
    pose proof (split_nonnil c a). by destruct (split c a).
Qed.

Lemma alnum_no c s : is_alnum c = false -> alnum s = true -> split c s = [s].
Proof.
  intros Hc Hs. apply split_none. unfold alnum, str_forallb in *. rewrite forallb_forall in *. intros d Hd.
  destruct (Ascii.eqb_spec d c) as [->|]; [|done]. by rewrite (Hs c Hd) in Hc.
Qed.

Section Names.
Context `{!GJson}.

Lemma concat_app (f : string -> string) l k z :
  foldr (fun x acc => f x +:+ acc) z (l ++ k) = foldr (fun x acc => f x +:+ acc) (foldr (fun x acc => f x +:+ acc) z k) l.
Proof. apply foldr_app. Qed.

Lemma concat_acc (f : string -> string) l z :
  foldr (fun x acc => f x +:+ acc) z l = foldr (fun x acc => f x +:+ acc) "" l +:+ z.
Proof. induction l as [|x l IH]; cbn; [done|]. by rewrite IH, str_app_assoc. Qed.

(** the parts of a plain key between underscores are alphanumeric *)
Lemma split_plain k :
  str_forallb (fun c => is_alnum c || Ascii.eqb c underscore) k = true -> Forall (fun s => alnum s = true) (split underscore k).
Proof.
  induction k as [|c k IH]; [intros _; repeat constructor|]. unfold str_forallb. cbn. intros [Hc Hk]%andb_true_iff.
  specialize (IH Hk). destruct (Ascii.eqb c underscore); [by constructor|].
  pose proof (split_nonnil underscore k). destruct (split underscore k) as [|s l]; [done|].
  apply Forall_cons in IH as [Hs Hl]. constructor; [|done]. unfold alnum, str_forallb in *. cbn.
  rewrite orb_false_r in Hc. by rewrite Hc, Hs.
Qed.

Lemma sanitize_part_alnum k : plain_key k = true -> alnum (sanitize_part k) = true.
Proof.
  intros Hk. apply andb_true_iff in Hk as [_ Hk]. unfold sanitize_part. case_match; [done|].
  pose proof (split_plain k Hk) as Hs. induction Hs as [|s l Hs _ IH]; [done|]. cbn [foldr]. rewrite alnum_app, title_alnum by done. done.
Qed.

(** prefixes that lead to the name of a type *)
Definition prefix_ok (p : string) : Prop := p <> "" /\ exists w, sanitizeTypedef p = "Type" +:+ w /\ alnum w = true.

Lemma root_prefix_ok : prefix_ok rootPrefix.
Proof. split; [done|]. by exists "". Qed.

Lemma plain_no_dot k : plain_key k = true -> split dot k = [k].
Proof.
  intros Hk. apply andb_true_iff in Hk as [_ Hk]. apply split_none. unfold str_forallb in *. rewrite forallb_forall in *.
  intros d Hd. specialize (Hk d Hd). destruct (Ascii.eqb_spec d dot) as [->|]; done.
Qed.

Lemma sub_prefix_ok p k : prefix_ok p -> plain_key k = true -> prefix_ok (prefixForSubField p k).
Proof.
  intros [Hp (w & Hw & Ha)] Hk. split; [by destruct p|]. exists (w +:+ sanitize_part k).
  split; [|by rewrite alnum_app, Ha, sanitize_part_alnum]. unfold sanitizeTypedef, prefixForSubField in *.
  change ("." +:+ k) with (String dot k). rewrite split_app, (plain_no_dot k Hk). rewrite concat_app, concat_acc. cbn [foldr].
  rewrite Hw, str_app_nil_r. apply str_app_assoc.
Qed.

Lemma sub_prefix_ne p k : p <> "" -> String.eqb (prefixForSubField p k) rootPrefix = false.
Proof.
  intros Hp. apply String.eqb_neq. unfold prefixForSubField. intros E. apply (f_equal String.length) in E.
  rewrite !str_app_length in E. cbn in E. destruct p; [done|]. cbn in E. lia.
Qed.

(** the name of a type is not changed when it is sanitized again *)
Lemma sanitize_fixed w i : alnum w = true ->
  sanitizeTypedef (typeDefWithIndex ("Type" +:+ w) i) = typeDefWithIndex ("Type" +:+ w) i.
Proof.
  intros Hw. set (s := typeDefWithIndex _ _). assert (Hs : s = String (Ascii.ascii_of_nat 84) ("ype" +:+ w +:+ FormatUint (Z.of_nat i))).
  { unfold s, typeDefWithIndex. by rewrite str_app_assoc. }
  assert (Ha : alnum s = true).
  { rewrite Hs. change (alnum ("Type" +:+ w +:+ FormatUint (Z.of_nat i)) = true). by rewrite !alnum_app, Hw, alnum_FormatUint. }
  unfold sanitizeTypedef. rewrite (alnum_no dot) by done. cbn [foldr]. rewrite str_app_nil_r. unfold sanitize_part.
  destruct (String.eqb_spec s rootPrefix) as [E|_]; [by rewrite Hs in E|]. rewrite (alnum_no underscore) by done. cbn [foldr].
  rewrite str_app_nil_r. rewrite Hs in *. by apply title_upper.
Qed.
End Names.

(** ** The type of a value *)

(** EIP-712: a value has a primitive type, an array one followed by brackets, and
    an object the name of a type with exactly its fields, each of its type. *)
Fixpoint has_type (T : types) (j : json) (ty : string) : Prop :=
  match j with
  | JNull => False
  | JBool _ => ty = ethBool
  | JNumber _ => ty = ethInt64
  | JString _ => ty = ethString
  | JArray l => exists t, ty = t +:+ "[]" /\
      (fix all l := match l with [] => True | x :: l => has_type T x t /\ all l end) l
  | JObject l => exists fs, T !! ty = Some fs /\ map ty_Name fs ≡ₚ l.*1 /\
      (fix each l := match l with
                     | [] => True
                     | (k, v) :: l => (exists t, mkType k t ∈ fs /\ has_type T v t) /\ each l
                     end) l
  end.

Lemma has_type_array T l ty : has_type T (JArray l) ty <-> exists t, ty = t +:+ "[]" /\ Forall (fun y => has_type T y t) l.
Proof.
  cbn [has_type]. apply exist_proper. intros t. apply and_iff_compat_l.
  induction l as [|y l IH]; [by rewrite Forall_nil|]. by rewrite Forall_cons, IH.
Qed.

Lemma has_type_object T l ty :
  has_type T (JObject l) ty <-> exists fs, T !! ty = Some fs /\ map ty_Name fs ≡ₚ l.*1 /\
    Forall (fun p => exists t, mkType p.1 t ∈ fs /\ has_type T p.2 t) l.
Proof.
  cbn [has_type]. apply exist_proper. intros fs. do 2 apply and_iff_compat_l.
  induction l as [|[k v] l IH]; [by rewrite Forall_nil|]. rewrite Forall_cons, IH. done.
Qed.

Lemma has_type_mono T T' j ty : T ⊆ T' -> has_type T j ty -> has_type T' j ty.
Proof.
  intros HT. revert ty. induction j as [|bo|nu|st|l IH|l IH] using json_induction; intros ty; try done.
  - rewrite !has_type_array. intros (t & -> & Hl). exists t. split; [done|].
    rewrite Forall_forall in *. intros y Hy. by apply IH, Hl.
  - rewrite !has_type_object. intros (fs & Hty & Hn & Hl). exists fs. split_and!; [by eapply lookup_weaken|done|].
    rewrite Forall_forall in *. intros p Hp. destruct (Hl p Hp) as (t & Ht & Hv). exists t. split; [done|by apply IH].
Qed.

(** values of the same shape: same keys in the same order, arrays by their first
    element *)
Fixpoint same_shape (j j' : json) : Prop :=
  match j, j' with
  | JNull, JNull | JBool _, JBool _ | JNumber _, JNumber _ | JString _, JString _ => True
  | JArray [], JArray [] => True
  | JArray (x :: _), JArray (y :: _) => same_shape x y
  | JObject l, JObject l' =>
      (fix go l l' := match l, l' with
                      | [], [] => True
                      | (k, v) :: l, (k', v') :: l' => k = k' /\ same_shape v v' /\ go l l'
                      | _, _ => False
                      end) l l'
  | _, _ => False
  end.

Lemma same_shape_object l l' :
  same_shape (JObject l) (JObject l') <-> Forall2 (fun p q => p.1 = q.1 /\ same_shape p.2 q.2) l l'.
Proof.
  cbn [same_shape]. revert l'. induction l as [|[k v] l IH]; intros [|[k' v'] l']; [by rewrite Forall2_nil|..].
  - split; [done|]. intros E. inversion E.
  - split; [done|]. intros E. inversion E.
  - rewrite Forall2_cons, IH. cbn. naive_solver.
Qed.

Lemma same_shape_trans a b c : same_shape a b -> same_shape b c -> same_shape a c.
Proof.
  revert b c. induction a as [|bo|nu|st|l IH|l IH] using json_induction; intros b c Hab Hbc; destruct b as [| | | |lb|lb]; try done;
    try (by destruct l); destruct c as [| | | |lc|lc]; try done; try (by destruct lb).
  - destruct l as [|x l], lb as [|y lb], lc as [|z lc]; try done. cbn [same_shape] in *. apply Forall_cons in IH as [IH _]. by eapply IH.
  - rewrite same_shape_object in *. revert lc IH Hbc. induction Hab as [|p q l lb [Hk Hv] _ IHl]; intros lc IH H2; inversion H2 as [|? r ? lc' [Hk' Hv'] H2']; subst; [constructor|].
    apply Forall_cons in IH as [IHp IH]. constructor; [split; [congruence|by eapply IHp]|by apply IHl].
Qed.

(** the values that EIP-712 can express: no null and no array in an array, keys
    that are distinct and plain, arrays of one shape *)
Fixpoint regular (j : json) : Prop :=
  match j with
  | JNull => False
  | JBool _ | JNumber _ | JString _ => True
  | JArray l => (fix all l := match l with [] => True | x :: l => (IsArray x = false /\ regular x) /\ all l end) l /\
      match l with [] => True | x :: l => Forall (same_shape x) l end
  | JObject l => NoDup l.*1 /\ (fix all l := match l with [] => True | (k, v) :: l => (plain_key k = true /\ regular v) /\ all l end) l
  end.

Lemma regular_array l :
  regular (JArray l) <-> Forall (fun x => IsArray x = false /\ regular x) l /\
    match l with [] => True | x :: l => Forall (same_shape x) l end.
Proof.
  cbn [regular]. apply and_iff_compat_r. induction l as [|x l IH]; [by rewrite Forall_nil|]. rewrite Forall_cons, IH. done.
Qed.

Lemma regular_object l :
  regular (JObject l) <-> NoDup l.*1 /\ Forall (fun p => plain_key p.1 = true /\ regular p.2) l.
Proof.
  cbn [regular]. apply and_iff_compat_l. induction l as [|[k v] l IH]; [by rewrite Forall_nil|]. rewrite Forall_cons, IH. done.
Qed.

Lemma shape_type T j j' ty : regular j' -> same_shape j j' -> has_type T j ty -> has_type T j' ty.
Proof.
  revert j' ty. induction j as [|bo|nu|st|l IH|l IH] using json_induction; intros j' ty Hr Hs; destruct j' as [| | | |l'|l'];
    try done; try (by destruct l).
  - rewrite !has_type_array. intros (t & -> & Hl). exists t.
    destruct l as [|x l], l' as [|y l']; try done. cbn [same_shape] in Hs. split; [done|]. apply Forall_cons in IH as [IH _]. apply Forall_cons in Hl as [Hx _].
    apply regular_array in Hr as [Hr Hy]. apply Forall_cons in Hr as [[_ Hry] Hr]. constructor; [by apply IH|].
    rewrite Forall_forall in *. intros z Hz. apply IH; [by apply Hr|by eapply same_shape_trans, Hy|done].
  - apply same_shape_object in Hs. apply regular_object in Hr as [_ Hr]. rewrite !has_type_object.
    intros (fs & Hty & Hn & Hl). exists fs. split; [done|]. split.
    + rewrite Hn. clear -Hs. induction Hs as [|p q l l' [Hk _] _ IHs]; [done|]. cbn. by rewrite Hk, IHs.
    + clear Hn. induction Hs as [|p q l l' [Hk Hv] _ IHs]; [constructor|]. apply Forall_cons in IH as [IHp IH].
      apply Forall_cons in Hl as [(t & Ht & Hpt) Hl]. apply Forall_cons in Hr as [[_ Hq] Hr].
      constructor; [|by apply IHs]. exists t. rewrite <-Hk. split; [done|by apply IHp].
Qed.

(** ** The types the generation gives *)

(** the value whose type is computed for a field, and the brackets *)
Definition unwrap (v : json) : json * string := match v with JArray (x :: _) => (x, "[]") | _ => (v, "") end.

(** A null, and an array that starts with a null or with an array, get no type:
    the field is left out of the type of its object. *)
Definition expressible (v : json) : bool :=
  match v with
  | JArray [] => true
  | _ => match (unwrap v).1 with JNull | JArray _ => false | _ => true end
  end.

(** the keys of an object that its type has *)
Definition typed_keys (l : list (string * json)) : list string := (filter (fun p => expressible p.2 = true) l).*1.

(** The type a value is given: that of its first element for an array, strings
    for an empty one; for an object a type with exactly the fields that can be
    expressed, each of the type its value is given. *)
Fixpoint typed_by (T : types) (j : json) (ty : string) : Prop :=
  match j with
  | JNull => False
  | JBool _ => ty = ethBool
  | JNumber _ => ty = ethInt64
  | JString _ => ty = ethString
  | JArray [] => ty = "string[]"
  | JArray (x :: _) => exists t, ty = t +:+ "[]" /\ typed_by T x t
  | JObject l => exists fs, T !! ty = Some fs /\ map ty_Name fs ≡ₚ typed_keys l /\
      (fix each l := match l with
                     | [] => True
                     | (k, v) :: l => (expressible v = true -> exists t, mkType k t ∈ fs /\ typed_by T v t) /\ each l
                     end) l
  end.

Lemma typed_by_object T l ty :
  typed_by T (JObject l) ty <-> exists fs, T !! ty = Some fs /\ map ty_Name fs ≡ₚ typed_keys l /\
    Forall (fun p => expressible p.2 = true -> exists t, mkType p.1 t ∈ fs /\ typed_by T p.2 t) l.
Proof.
  cbn [typed_by]. apply exist_proper. intros fs. do 2 apply and_iff_compat_l.
  induction l as [|[k v] l IH]; [by rewrite Forall_nil|]. rewrite Forall_cons, IH. done.
Qed.

Lemma typed_by_mono T T' j ty : T ⊆ T' -> typed_by T j ty -> typed_by T' j ty.
Proof.
  intros HT. revert ty. induction j as [|bo|nu|st|l IH|l IH] using json_induction; intros ty; try done.
  - destruct l as [|x l]; [done|]. intros (t & -> & Hx). exists t. split; [done|]. apply Forall_cons in IH as [IH _]. by apply IH.
  - rewrite !typed_by_object. intros (fs & Hty & Hn & Hl). exists fs. split_and!; [by eapply lookup_weaken|done|].
    rewrite Forall_forall in *. intros p Hp He. destruct (Hl p Hp He) as (t & Ht & Hv). exists t. split; [done|by apply IH].
Qed.

Lemma unwrap_typed T v ty : v <> JArray [] -> typed_by T (unwrap v).1 ty -> typed_by T v (ty +:+ (unwrap v).2).
Proof. destruct v as [| | | |[|x l]|l]; cbn [unwrap fst snd]; rewrite ?str_app_nil_r; try done. intros _ Ht. by exists ty. Qed.

(** the keys of every object are distinct and plain *)
Fixpoint plain (j : json) : Prop :=
  match j with
  | JArray l => (fix all l := match l with [] => True | x :: l => plain x /\ all l end) l
  | JObject l => NoDup l.*1 /\ (fix all l := match l with [] => True | (k, v) :: l => (plain_key k = true /\ plain v) /\ all l end) l
  | _ => True
  end.

Lemma plain_array l : plain (JArray l) <-> Forall plain l.
Proof. cbn [plain]. induction l as [|x l IH]; [by rewrite Forall_nil|]. by rewrite Forall_cons, IH. Qed.

Lemma plain_object l : plain (JObject l) <-> NoDup l.*1 /\ Forall (fun p => plain_key p.1 = true /\ plain p.2) l.
Proof.
  cbn [plain]. apply and_iff_compat_l. induction l as [|[k v] l IH]; [by rewrite Forall_nil|]. rewrite Forall_cons, IH. done.
Qed.

Lemma unwrap_plain v : plain v -> plain (unwrap v).1.
Proof. destruct v as [| | | |[|x l]|l]; try done. intros Hp%plain_array. by apply Forall_cons in Hp as [? _]. Qed.

Lemma regular_expressible v : regular v -> expressible v = true.
Proof.
  destruct v as [| | | |[|x l]|l]; try done. intros Hr. apply regular_array in Hr as [Hr _]. apply Forall_cons in Hr as [[Ha Hx] _].
  by destruct x.
Qed.

Lemma typed_keys_all l : Forall (fun p => expressible p.2 = true) l -> typed_keys l = l.*1.
Proof. intros Hl. unfold typed_keys. f_equal. induction Hl as [|p l Hp _ IH]; [done|]. rewrite filter_cons, decide_True by done. by f_equal. Qed.

(** a regular value has the type it is given, in the sense of EIP-712 *)
Lemma typed_by_regular T j ty : regular j -> typed_by T j ty -> has_type T j ty.
Proof.
  revert ty. induction j as [|bo|nu|st|l IH|l IH] using json_induction; intros ty Hr; try done.
  - rewrite has_type_array. apply regular_array in Hr as [Hr Hs]. destruct l as [|x l]; [intros ->; by exists "string"|].
    intros (t & -> & Hx). exists t. split; [done|]. apply Forall_cons in IH as [IH _]. apply Forall_cons in Hr as [[_ Hrx] Hr].
    constructor; [by apply IH|]. rewrite Forall_forall in *. intros y Hy. eapply shape_type; [by apply Hr|by apply Hs|by apply IH].
  - rewrite typed_by_object, has_type_object. apply regular_object in Hr as [_ Hr]. intros (fs & Hty & Hn & Hl). exists fs.
    split; [done|]. rewrite Forall_forall in *. rewrite typed_keys_all in Hn by (rewrite Forall_forall; intros p Hp; apply regular_expressible, Hr, Hp).
    split; [done|]. intros p Hp. destruct (Hr p Hp) as [_ Hrp]. destruct (Hl p Hp (regular_expressible _ Hrp)) as (t & Ht & Hv).
    exists t. split; [done|by apply IH].
Qed.

(** ** Generating types *)

Lemma assoc_NoDup {A} k (v : A) l : NoDup l.*1 -> (k, v) ∈ l -> assoc k l = Some v.
Proof.
  induction l as [|[k' v'] l IH]; intros Hnd Hin; [by apply not_elem_of_nil in Hin|]. cbn in *. apply NoDup_cons in Hnd as [Hk Hnd].
  apply elem_of_cons in Hin as [[= -> ->]|Hin]; [by rewrite String.eqb_refl|].
  destruct (String.eqb_spec k k') as [->|]; [|by apply IH]. destruct Hk. by apply (list_elem_of_fmap_2 fst l (k', v)).
Qed.

Lemma assoc_None {A} k (l : list (string * A)) : k ∉ l.*1 -> assoc k l = None.
Proof.
  induction l as [|[k' v'] l IH]; intros Hk; [done|]. cbn in *. rewrite not_elem_of_cons in Hk.
  destruct (String.eqb_spec k k'); [naive_solver|]. apply IH. naive_solver.
Qed.

Lemma sorted_keys_perm (l : list string) : NoDup l -> reverse (SortSlice (remove_dups l)) ≡ₚ l.
Proof.
  intros Hnd. rewrite reverse_Permutation. unfold SortSlice. rewrite merge_sort_Permutation.
  apply NoDup_Permutation; [apply NoDup_remove_dups|done|]. intros x. apply elem_of_remove_dups.
Qed.

Section Typing.
Context `{!GJson}.

(** the types without that of the transaction, which grows *)
Definition noTx (T : types) : types := delete txField T.

Definition extends (T T' : types) : Prop := noTx T ⊆ noTx T' /\ T' !! txField = T !! txField.

Lemma extends_refl T : extends T T.
Proof. by split. Qed.

Lemma extends_trans T1 T2 T3 : extends T1 T2 -> extends T2 T3 -> extends T1 T3.
Proof. intros [H1 E1] [H2 E2]. split; [by etransitivity|congruence]. Qed.

Definition good_name (s : string) : Prop := exists w, s = "Type" +:+ w.

Lemma good_name_ne s i : good_name s -> typeDefWithIndex s i <> txField.
Proof. intros [w ->] E. unfold typeDefWithIndex in E. rewrite str_app_assoc in E. discriminate E. Qed.

(** what adding types gives: more types, or the limit of duplicates *)
Definition generates {A} (T : types) (r : res (types * A)) (P : types -> A -> Prop) : Prop :=
  match r with
  | Ok (T', a) => extends T T' /\ P T' a
  | Err e => e = ErrDuplicates
  | Panic _ => False
  end.

Lemma add_at_spec n T d i tys :
  good_name d -> generates T (add_at n T d i tys) (fun T' k => noTx T' !! k = Some tys /\ exists m, k = typeDefWithIndex d m).
Proof.
  intros Hd. revert i. induction n as [|n IH]; intros i; [done|]. cbn [add_at]. pose proof (good_name_ne d i Hd) as Hne.
  set (k := typeDefWithIndex d i) in *. destruct (T !! k) as [ex|] eqn:Ek.
  - unfold typesAreEqual. case_bool_decide as He; [|apply IH]. subst ex. cbn. split; [apply extends_refl|].
    unfold noTx. rewrite lookup_delete_ne by done. split; [done|by exists i].
  - cbn. split; [split|].
    + unfold noTx. rewrite delete_insert_ne by done. apply insert_subseteq. rewrite lookup_delete_ne; done.
    + by rewrite lookup_insert_ne by done.
    + unfold noTx. rewrite lookup_delete_ne, lookup_insert_eq by done. split; [done|by exists i].
Qed.

(** the recursion does its work on the objects of the fields [l] *)
Definition rec_good (rec : types -> string -> json -> option (res (types * string))) (prefix : string) (l : list (string * json)) : Prop :=
  forall T k v, (k, v) ∈ l -> IsObject (unwrap v).1 = true ->
    exists r, rec T (prefixForSubField prefix k) (unwrap v).1 = Some r /\
      generates T r (fun T' ty => typed_by (noTx T') (unwrap v).1 ty /\ sanitizeTypedef ty = ty).

(** the step for a field, by what is inside its brackets *)
Lemma add_fields_cons rec prefix l T acc n v names :
  gj_Get (JObject l) n = Some v -> v <> JArray [] ->
  add_fields rec prefix (JObject l) T acc (n :: names) =
    let '(x, suffix) := unwrap v in
    if negb (String.eqb (getEthTypeForJSON x) "") then
      add_fields rec prefix (JObject l) T (acc ++ [mkType n (getEthTypeForJSON x +:+ suffix)]) names
    else if IsObject x then
      match rec T (prefixForSubField prefix n) x with
      | None => None
      | Some (Err e) => Some (Err e)
      | Some (Panic e) => Some (Panic e)
      | Some (Ok (T, d)) => add_fields rec prefix (JObject l) T (acc ++ [mkType n (sanitizeTypedef d +:+ suffix)]) names
      end
    else add_fields rec prefix (JObject l) T acc names.
Proof. intros Hg Hne. cbn [add_fields]. rewrite Hg. by destruct v as [| | | |[|x vs]|vs]. Qed.

Lemma empty_array v : v = JArray [] \/ v <> JArray [].
Proof. destruct v as [| | | |[|x l]|l]; auto. Qed.

(** a field that can be expressed gets one entry, of the type of its value;
    another one is left out *)
Lemma add_field_step rec prefix l T acc n v names :
  plain (JObject l) -> rec_good rec prefix l -> (n, v) ∈ l ->
  (exists T1 new, extends T T1 /\
     (if expressible v then exists t, new = [mkType n t] /\ typed_by (noTx T1) v t else new = []) /\
     add_fields rec prefix (JObject l) T acc (n :: names) = add_fields rec prefix (JObject l) T1 (acc ++ new) names) \/
  add_fields rec prefix (JObject l) T acc (n :: names) = Some (Err ErrDuplicates).
Proof.
  intros Hr Hrec Hin. apply plain_object in Hr as [Hnd Hr]. rewrite Forall_forall in Hr.
  destruct (Hr _ Hin) as [Hplain _]. cbn [fst snd] in *.
  assert (Hg : gj_Get (JObject l) n = Some v) by (rewrite gj_Get_plain by done; by apply assoc_NoDup).
  destruct (empty_array v) as [->|Hne].
  { left. exists T, [mkType n "string[]"]. split; [apply extends_refl|]. split; [by eexists|]. cbn [add_fields]. by rewrite Hg. }
  rewrite (add_fields_cons rec prefix l T acc n v names Hg Hne). pose proof (fun T ty => unwrap_typed T v ty Hne) as Hw.
  assert (He : expressible v = match (unwrap v).1 with JNull | JArray _ => false | _ => true end) by (by destruct v as [| | | |[|x vs]|vs]).
  pose proof (fun T => Hrec T n v Hin) as Hrn. rewrite He. clear He. destruct (unwrap v) as [x suffix]. cbn [fst snd] in *.
  destruct x as [|bo|nu|st|vs|vs]; cbn [getEthTypeForJSON String.eqb negb IsObject].
  - left. exists T, []. rewrite app_nil_r. split; [apply extends_refl|done].
  - left. exists T, [mkType n (ethBool +:+ suffix)]. split; [apply extends_refl|]. split; [eexists; split; [done|by apply Hw]|done].
  - left. exists T, [mkType n (ethInt64 +:+ suffix)]. split; [apply extends_refl|]. split; [eexists; split; [done|by apply Hw]|done].
  - left. exists T, [mkType n (ethString +:+ suffix)]. split; [apply extends_refl|]. split; [eexists; split; [done|by apply Hw]|done].
  - left. exists T, []. rewrite app_nil_r. split; [apply extends_refl|done].
  - destruct (Hrn T eq_refl) as (r & -> & Hgen).
    destruct r as [[T1 d]|e|e]; cbn in Hgen; [|by right; subst|done]. destruct Hgen as [Hext [Hty Hs]].
    left. exists T1, [mkType n (d +:+ suffix)]. split; [done|]. rewrite Hs. split; [eexists; split; [done|by apply Hw]|done].
Qed.

Lemma extends_typed_by T T' j ty : extends T T' -> typed_by (noTx T) j ty -> typed_by (noTx T') j ty.
Proof. intros [Hs _]. by apply typed_by_mono. Qed.

Lemma typed_keys_elem l k v : NoDup l.*1 -> (k, v) ∈ l -> k ∈ typed_keys l <-> expressible v = true.
Proof.
  intros Hnd Hin. unfold typed_keys. split.
  - intros ([k' w] & -> & [He Hw]%list_elem_of_filter)%list_elem_of_fmap_1. cbn [fst snd] in *.
    pose proof (assoc_NoDup _ _ _ Hnd Hin). pose proof (assoc_NoDup _ _ _ Hnd Hw). by simplify_eq.
  - intros He. apply (list_elem_of_fmap_2 fst _ (k, v)), list_elem_of_filter. done.
Qed.

(** every field that can be expressed has an entry, in order *)
Lemma add_fields_spec rec prefix l names T acc :
  plain (JObject l) -> rec_good rec prefix l -> (forall n, n ∈ names -> n ∈ l.*1) ->
  exists r, add_fields rec prefix (JObject l) T acc names = Some r /\
    generates T r (fun T' tys => exists new, tys = acc ++ new /\ map ty_Name new = filter (fun n => n ∈ typed_keys l) names /\
      forall n v, n ∈ names -> (n, v) ∈ l -> expressible v = true -> exists t, mkType n t ∈ new /\ typed_by (noTx T') v t).
Proof.
  intros Hr Hrec. revert T acc. induction names as [|n names IH]; intros T acc Hn.
  { exists (Ok (T, acc)). split; [done|]. split; [apply extends_refl|]. exists []. split_and!; [by rewrite app_nil_r|done|].
    intros m v Hm. by apply not_elem_of_nil in Hm. }
  assert (Hin : n ∈ l.*1) by (apply Hn; left). apply list_elem_of_fmap_1 in Hin as ([n' v] & -> & Hin). cbn [fst] in *.
  destruct (add_field_step rec prefix l T acc n' v names Hr Hrec Hin) as [(T1 & e1 & Hext & Hty & ->)| ->]; [|by eexists].
  destruct (IH T1 (acc ++ e1)) as (r & -> & Hg); [intros m Hm; apply Hn; by right|].
  exists r. split; [done|]. destruct r as [[T' tys]|e|e]; [|done..]. destruct Hg as [Hext' (new & -> & Hnew & Hall)].
  split; [by eapply extends_trans|]. apply plain_object in Hr as [Hnd _].
  pose proof (typed_keys_elem l n' v Hnd Hin) as Hk.
  exists (e1 ++ new). split_and!; [by rewrite app_assoc| |].
  - rewrite map_app, Hnew, filter_cons. destruct (expressible v).
    + destruct Hty as (t & -> & _). by rewrite decide_True by by apply Hk.
    + subst e1. rewrite decide_False; [done|]. by intros Hx%Hk.
  - intros m w Hm Hmw He. apply elem_of_cons in Hm as [->|Hm].
    + pose proof (assoc_NoDup _ _ _ Hnd Hin). pose proof (assoc_NoDup _ _ _ Hnd Hmw). simplify_eq. rewrite He in Hty.
      destruct Hty as (t & -> & Ht). exists t. split; [left|by eapply extends_typed_by].
    + destruct (Hall m w Hm Hmw He) as (t' & Ht & Hw). exists t'. split; [apply elem_of_app; by right|done].
Qed.

Lemma typed_keys_perm l names : NoDup l.*1 -> names ≡ₚ l.*1 -> filter (fun n => n ∈ typed_keys l) names ≡ₚ typed_keys l.
Proof.
  intros Hnd Hp. apply NoDup_Permutation.
  - apply NoDup_filter. by rewrite Hp.
  - clear -Hnd. unfold typed_keys. induction l as [|p l IH]; [constructor|]. cbn in Hnd. apply NoDup_cons in Hnd as [Hp Hnd].
    rewrite filter_cons. case_decide; [|by apply IH]. cbn. constructor; [|by apply IH].
    intros (q & E & [_ Hq]%list_elem_of_filter)%list_elem_of_fmap_1. apply Hp. rewrite E. by apply list_elem_of_fmap_2.
  - intros k. rewrite list_elem_of_filter, Hp. split; [by intros [? _]|]. intros Hk. split; [done|].
    unfold typed_keys in Hk. apply list_elem_of_fmap_1 in Hk as (p & -> & [_ Hp2]%list_elem_of_filter). by apply list_elem_of_fmap_2.
Qed.

Lemma depth_field l k v : (k, v) ∈ l -> (json_depth v < json_depth (JObject l))%nat.
Proof.
  cbn [json_depth]. intros Hin. apply Nat.lt_succ_r. induction l as [|p l IH]; [by apply not_elem_of_nil in Hin|]. cbn.
  apply elem_of_cons in Hin as [<-|Hin]; [cbn; lia|]. specialize (IH Hin). lia.
Qed.

Lemma depth_unwrap v : (json_depth (unwrap v).1 <= json_depth v)%nat.
Proof. destruct v as [| | | |[|x l]|l]; cbn; lia. Qed.

Lemma typeDef_good root prefix : good_name root -> prefix_ok prefix -> good_name (typeDefForPrefix prefix root).
Proof. intros Hroot [_ (w & Hw & _)]. unfold typeDefForPrefix. case_match; [done|]. by exists w. Qed.

(** the types of an object: its own, with an entry for each field that can be
    expressed, and those of the objects in it *)
Lemma recursively_spec fuel root T prefix l :
  good_name root -> prefix_ok prefix -> plain (JObject l) -> (json_depth (JObject l) <= fuel)%nat ->
  exists r, recursivelyAddTypesToRoot fuel root T prefix (JObject l) = Some r /\
    generates T r (fun T' ty => typed_by (noTx T') (JObject l) ty /\
      (String.eqb prefix rootPrefix = false -> sanitizeTypedef ty = ty)).
Proof.
  intros Hroot. revert T prefix l. induction fuel as [|fuel IH]; intros T prefix l Hp Hr Hd; [cbn in Hd; lia|].
  cbn [recursivelyAddTypesToRoot sortedJSONKeys]. pose proof (proj1 (plain_object l) Hr) as [Hnd Hall]. rewrite Forall_forall in Hall.
  set (names := reverse _). assert (Hperm : names ≡ₚ l.*1) by by apply sorted_keys_perm.
  assert (Hrec : rec_good (recursivelyAddTypesToRoot fuel root) prefix l).
  { intros T0 k v Hin Ho. destruct (Hall _ Hin) as [Hk Hv]. cbn [fst snd] in *.
    pose proof (depth_field l k v Hin). pose proof (depth_unwrap v).
    pose proof (unwrap_plain v Hv) as Hru. destruct (unwrap v).1 as [| | | | |vs] eqn:Eu; try done.
    destruct (IH T0 (prefixForSubField prefix k) vs) as (r & Hrun & Hg); [by apply sub_prefix_ok|done|lia|].
    exists r. split; [done|]. destruct r as [[T' ty]|e|e]; [|done..]. destruct Hg as [He [Ht Hs]].
    split; [done|]. split; [done|]. apply Hs, sub_prefix_ne, Hp. }
  destruct (add_fields_spec _ prefix l names T [] Hr Hrec) as (r & -> & Hg); [intros n Hn; by rewrite <-Hperm|].
  destruct r as [[T1 tys]|e|e]; [|by eexists|done]. destruct Hg as [Hext (new & -> & Hnew & Htyped)]. cbn [app].
  eexists. split; [done|]. pose proof (add_at_spec maxDuplicateTypeDefs T1 (typeDefForPrefix prefix root) 0 new (typeDef_good root prefix Hroot Hp)) as Hadd.
  unfold addTypesToRoot. destruct (add_at _ _ _ _ _) as [[T2 ty]|e|e]; [|done..]. cbn in Hadd. destruct Hadd as [Hext2 [Hlook (m & ->)]].
  split; [by eapply extends_trans|]. split.
  - apply typed_by_object. exists new. split; [done|]. split; [rewrite Hnew; by apply typed_keys_perm|].
    rewrite Forall_forall. intros [k v] Hin He.
    destruct (Htyped k v) as (t & Ht & Hv); [rewrite Hperm; by apply (list_elem_of_fmap_2 fst l (k, v))|done|done|].
    exists t. split; [done|]. by eapply extends_typed_by.
  - intros Hpr. unfold typeDefForPrefix. rewrite Hpr. destruct Hp as [_ (w & -> & Hw)]. by apply sanitize_fixed.
Qed.

(** ** The transaction *)

(** the messages a typed transaction can carry *)
Definition typed_msg (m : json) : Prop :=
  exists l s, m = JObject l /\ plain m /\ assoc msgTypeField l = Some (JString s) /\ s <> "".

Lemma msgRootType_good m : typed_msg m -> exists root, msgRootType m = Ok root /\ good_name root.
Proof.
  intros (l & s & -> & _ & Ht & Hs). unfold msgRootType. rewrite gj_Get_plain, Ht by done. cbn [json_Str].
  destruct (String.eqb_spec s ""); [done|]. eexists. split; [done|]. by eexists.
Qed.

Lemma add_msg_spec fuel T field m :
  typed_msg m -> (json_depth m <= fuel)%nat ->
  addMsgTypesToRoot fuel T field (Some m) = Some (Err ErrDuplicates) \/
  exists T' ty, addMsgTypesToRoot fuel T field (Some m) = Some (Ok T') /\ noTx T ⊆ noTx T' /\
    default [] (T' !! txField) = default [] (T !! txField) ++ [mkType field ty] /\ typed_by (noTx T') m ty.
Proof.
  intros Hm Hd. destruct (msgRootType_good m Hm) as (root & Hroot & Hgood). destruct Hm as (l & s & -> & Hr & _).
  cbn [addMsgTypesToRoot]. rewrite Hroot.
  destruct (recursively_spec fuel root T rootPrefix l Hgood root_prefix_ok Hr Hd) as (r & -> & Hg).
  destruct r as [[T1 ty]|e|e]; [|by left; cbn in Hg; subst|done]. destruct Hg as [[Hsub Htx] [Hty _]].
  right. exists (addMsgTypeDefToTxSchema T1 field ty), ty. unfold addMsgTypeDefToTxSchema, noTx in *.
  rewrite delete_insert_eq, lookup_insert_eq, Htx. done.
Qed.

(** the fields of the messages from message [i] on *)
Definition msg_fields (i : nat) (msgs : list json) : list string := imap (fun n _ => msgFieldForIndex (i + n)) msgs.

Lemma msg_fields_cons i m msgs : msg_fields i (m :: msgs) = msgFieldForIndex i :: msg_fields (S i) msgs.
Proof. unfold msg_fields. cbn. rewrite Nat.add_0_r. f_equal. apply imap_ext. intros n m' _. cbn. f_equal. lia. Qed.

Lemma add_msgs_spec fuel payload msgs i T :
  (forall n m, msgs !! n = Some m -> gj_Get payload (msgFieldForIndex (i + n)) = Some m /\ typed_msg m /\ (json_depth m <= fuel)%nat) ->
  add_msgs fuel payload T i (length msgs) = Some (Err ErrDuplicates) \/
  exists T' new, add_msgs fuel payload T i (length msgs) = Some (Ok T') /\ noTx T ⊆ noTx T' /\
    default [] (T' !! txField) = default [] (T !! txField) ++ new /\ map ty_Name new = msg_fields i msgs /\
    forall n m, msgs !! n = Some m -> exists ty, mkType (msgFieldForIndex (i + n)) ty ∈ new /\ typed_by (noTx T') m ty.
Proof.
  revert i T. induction msgs as [|m msgs IH]; intros i T Hm.
  { right. exists T, []. split_and!; [done|done|by rewrite app_nil_r|done|]. intros n m Hn. by rewrite lookup_nil in Hn. }
  cbn [length add_msgs]. destruct (Hm 0%nat m eq_refl) as (Hget & Htm & Hd). rewrite Nat.add_0_r in Hget. rewrite Hget.
  destruct (add_msg_spec fuel T (msgFieldForIndex i) m Htm Hd) as [->|(T1 & ty & -> & Hsub & Htx & Hty)]; [by left|].
  destruct (IH (S i) T1) as [->|(T' & new & -> & Hsub' & Htx' & Hnames & Hall)]; [|by left|].
  { intros n m' Hn. destruct (Hm (S n) m' Hn) as (Hg & Ht & Hdm). replace (S i + n)%nat with (i + S n)%nat by lia. done. }
  right. exists T', (mkType (msgFieldForIndex i) ty :: new). split_and!; [done|by etransitivity|by rewrite Htx', Htx, <-app_assoc| |].
  { by rewrite msg_fields_cons, <-Hnames. }
  intros [|n] m' Hn.
  - injection Hn as <-. rewrite Nat.add_0_r. exists ty. split; [left|]. by eapply typed_by_mono.
  - replace (i + S n)%nat with (S i + n)%nat by lia. destruct (Hall n m' Hn) as (t & Ht & Hm'). exists t. split; [by right|done].
Qed.
End Typing.

(** ** Flattening *)

Lemma FormatUint_inj a b : 0 <= a -> 0 <= b -> FormatUint a = FormatUint b -> a = b.
Proof.
  intros Ha Hb E. pose proof (Z.pow_gt_lin_r 2 (a + b) ltac:(lia) ltac:(lia)).
  pose proof (ParseUint_FormatUint a (a + b) ltac:(lia)) as Pa. pose proof (ParseUint_FormatUint b (a + b) ltac:(lia)) as Pb.
  rewrite E, Pb in Pa. by injection Pa.
Qed.

#[export] Instance msgFieldForIndex_inj : Inj (=) (=) msgFieldForIndex.
Proof. intros i k E. injection E as E. apply FormatUint_inj in E; lia. Qed.

Lemma msgField_plain i : plain_key (msgFieldForIndex i) = true.
Proof.
  unfold plain_key, msgFieldForIndex. rewrite str_forallb_app. cbn [str_forallb]. apply andb_true_iff. split; [done|].
  apply andb_true_iff. split; [done|]. pose proof (alnum_FormatUint (Z.of_nat i)) as Ha. unfold alnum, str_forallb in *.
  rewrite forallb_forall in *. intros c Hc. by rewrite (Ha c Hc).
Qed.

(** the fields of a sign document *)
Definition doc_fields : list string := ["account_number"; "chain_id"; "fee"; "memo"; "sequence"].

Lemma msgField_fresh i : msgFieldForIndex i ∉ payloadMsgsField :: doc_fields.
Proof.
  unfold doc_fields, msgFieldForIndex. rewrite !not_elem_of_cons. split_and!; try discriminate; [|apply not_elem_of_nil].
  intros [= E]. change (FormatUint (Z.of_nat i) = "s") in E. pose proof (Z.pow_gt_lin_r 2 (Z.of_nat i) ltac:(lia) ltac:(lia)).
  pose proof (ParseUint_FormatUint (Z.of_nat i) (Z.of_nat i) ltac:(lia)) as Hp. rewrite E in Hp. discriminate Hp.
Qed.

Section Flatten.
Context `{!GJson}.

Lemma assoc_elem {A} k (v : A) l : assoc k l = Some v -> (k, v) ∈ l.
Proof.
  induction l as [|[k' v'] l IH]; [done|]. cbn. destruct (String.eqb_spec k k') as [->|]; [intros [= ->]; left|]. intros. right. auto.
Qed.

Lemma flatten_msgs_spec l i msgs :
  Forall (fun m => IsObject m = true) msgs -> (forall n, msgFieldForIndex (i + n) ∉ l.*1) ->
  flatten_msgs (JObject l) i msgs = Ok (JObject (l ++ zip (msg_fields i msgs) msgs)).
Proof.
  intros Ho. revert l i. induction Ho as [|m msgs Hm Hmsgs IH]; intros l i Hf; [by cbn; rewrite app_nil_r|].
  pose proof (Hf 0%nat) as Hi. rewrite Nat.add_0_r in Hi. rewrite msg_fields_cons. cbn [flatten_msgs zip zip_with].
  unfold payloadWithNewMessage. rewrite gj_Get_plain, assoc_None, Hm by (done || apply msgField_plain). cbn [negb].
  rewrite sj_SetRaw_new by (by apply msgField_plain || apply assoc_None). cbn.
  rewrite IH, <-app_assoc; [done|]. intros n. rewrite fmap_app, not_elem_of_app. cbn. split.
  - replace (S (i + n)) with (i + S n)%nat by lia. apply Hf.
  - rewrite list_elem_of_singleton. intros E%(inj msgFieldForIndex). lia.
Qed.

(** A document to sign: distinct fields, none of them with the name of a flattened
    message, and a list of messages with plain keys and a type. *)
Definition payload_doc (l : list (string * json)) (msgs : list json) : Prop :=
  NoDup l.*1 /\ (forall n, msgFieldForIndex n ∉ l.*1) /\
  (assoc payloadMsgsField l = Some (JArray msgs) \/ (assoc payloadMsgsField l = Some JNull /\ msgs = [])) /\
  Forall typed_msg msgs.

(** The fields of a sign document of the Cosmos SDK, each of the type the
    transaction has for it. *)
Definition standard_doc (l : list (string * json)) : Prop :=
  l.*1 ≡ₚ payloadMsgsField :: doc_fields /\
  Forall (fun f => forall v, assoc (ty_Name f) l = Some v -> has_type (noTx base_types) v (ty_Type f)) (default [] (base_types !! txField)).

(** the document with its messages as fields *)
Definition flattened (l : list (string * json)) (msgs : list json) : list (string * json) :=
  filter (fun p => p.1 <> payloadMsgsField) l ++ zip (msg_fields 0 msgs) msgs.

Lemma zip_fields i msgs : (zip (msg_fields i msgs) msgs).*1 = msg_fields i msgs.
Proof. apply fst_zip. unfold msg_fields. by rewrite length_imap. Qed.

Lemma msg_fields_elem i msgs k : k ∈ msg_fields i msgs -> exists n, k = msgFieldForIndex (i + n).
Proof. intros (n & Hn)%list_elem_of_lookup. unfold msg_fields in Hn. rewrite list_lookup_imap in Hn. destruct (msgs !! n); [|done]. injection Hn as <-. by exists n. Qed.

Lemma msg_fields_NoDup i msgs : NoDup (msg_fields i msgs).
Proof.
  apply NoDup_alt. intros a b k Ha Hb. unfold msg_fields in *. rewrite list_lookup_imap in Ha, Hb.
  destruct (msgs !! a), (msgs !! b); try done. cbn in *. simplify_eq. lia.
Qed.

Lemma filter_keys (l : list (string * json)) : (filter (fun p => p.1 <> payloadMsgsField) l).*1 = filter (fun k => k <> payloadMsgsField) l.*1.
Proof.
  induction l as [|[k v] l IH]; [done|]. rewrite fmap_cons, !filter_cons. cbn [fst].
  destruct (decide (k <> payloadMsgsField)); [rewrite fmap_cons|]; by rewrite IH.
Qed.

Lemma assoc_app {A} k (l1 l2 : list (string * A)) : k ∉ l2.*1 -> assoc k (l1 ++ l2) = assoc k l1.
Proof. intros Hk. induction l1 as [|[k' v] l1 IH]; [by apply assoc_None|]. cbn. by destruct (String.eqb k k'). Qed.

Lemma assoc_filter k (l : list (string * json)) : k <> payloadMsgsField -> assoc k (filter (fun p => p.1 <> payloadMsgsField) l) = assoc k l.
Proof.
  intros Hk. induction l as [|[k' v] l IH]; [done|]. rewrite filter_cons. cbn [fst].
  destruct (decide (k' <> payloadMsgsField)) as [_|Hk']; cbn [assoc]; [by rewrite IH|]. apply dec_stable in Hk'. subst k'.
  rewrite IH. by destruct (String.eqb_spec k payloadMsgsField).
Qed.

Lemma flattened_keys l msgs : standard_doc l -> (flattened l msgs).*1 ≡ₚ doc_fields ++ msg_fields 0 msgs.
Proof.
  intros Hdoc. unfold flattened. rewrite fmap_app, zip_fields. apply Permutation_app_tail.
  rewrite filter_keys. destruct Hdoc as [-> _]. done.
Qed.

Lemma flattened_NoDup l msgs : payload_doc l msgs -> NoDup (flattened l msgs).*1.
Proof.
  intros (Hnd & Hfresh & _). unfold flattened. rewrite fmap_app, zip_fields, filter_keys.
  apply NoDup_app. split_and!; [by apply NoDup_filter| |apply msg_fields_NoDup].
  intros k [_ Hk]%list_elem_of_filter (n & ->)%msg_fields_elem. by apply (Hfresh (0 + n)%nat).
Qed.

Lemma flatten_payload l msgs : payload_doc l msgs -> FlattenPayloadMessages (JObject l) = Ok (JObject (flattened l msgs), length msgs).
Proof.
  intros (Hnd & Hfresh & Hmsgs & Htyped).
  assert (Hget : getPayloadMessages (JObject l) = Ok msgs).
  { unfold getPayloadMessages. rewrite gj_Get_plain by done. by destruct Hmsgs as [->|[-> ->]]. }
  unfold FlattenPayloadMessages. rewrite Hget. cbn.
  rewrite flatten_msgs_spec; [|eapply Forall_impl; [exact Htyped|]; by intros m (? & ? & -> & _)|apply Hfresh]. cbn.
  unfold payloadWithoutMsgsField. rewrite sj_Delete_plain; [|done|].
  - cbn. unfold flattened. rewrite filter_app. do 4 f_equal. apply filter_all. rewrite Forall_forall. intros [k m] Hin.
    apply elem_of_zip_l, msg_fields_elem in Hin as (n & ->). cbn. intros E. apply (msgField_fresh n). change (0 + n)%nat with n in E. rewrite E. left.
  - rewrite fmap_app, zip_fields. apply NoDup_app. split_and!; [done| |apply msg_fields_NoDup]. intros k Hk Hn. apply msg_fields_elem in Hn as (n & ->). by apply (Hfresh n).
Qed.

Lemma flattened_msg l msgs n m : msgs !! n = Some m -> (msgFieldForIndex n, m) ∈ flattened l msgs.
Proof.
  intros Hn. unfold flattened. apply elem_of_app. right. apply list_elem_of_lookup. exists n. rewrite lookup_zip_with.
  unfold msg_fields. by rewrite list_lookup_imap, Hn.
Qed.

Lemma create_payload data l msgs :
  gj_Parse data = Some (JObject l) -> payload_doc l msgs ->
  createEIP712MessagePayload data = Ok (mkPayload (JObject (flattened l msgs)) (length msgs) (JObject (flattened l msgs))).
Proof. intros Hp Hdoc. unfold createEIP712MessagePayload, unmarshalBytesToJSONObject. rewrite Hp. cbn [IsObject]. cbn -[FlattenPayloadMessages]. by rewrite (flatten_payload l msgs Hdoc). Qed.

(** the types of the transaction's own fields and of the messages make a type of
    the whole message *)
Lemma tx_well_typed l msgs T new :
  NoDup l.*1 -> standard_doc l -> noTx base_types ⊆ noTx T -> T !! txField = Some (default [] (base_types !! txField) ++ new) ->
  map ty_Name new = msg_fields 0 msgs ->
  (forall n m, msgs !! n = Some m -> exists ty, mkType (msgFieldForIndex n) ty ∈ new /\ has_type (noTx T) m ty) ->
  has_type T (JObject (flattened l msgs)) txField.
Proof.
  intros Hnd Hdoc Hsub Htx Hnew Hall. apply has_type_object. eexists. split; [exact Htx|]. split.
  { rewrite map_app, Hnew, flattened_keys by done. done. }
  assert (Hmono : noTx T ⊆ T) by apply delete_subseteq.
  rewrite Forall_forall. intros [k v] Hin. cbn [fst snd]. unfold flattened in Hin. apply elem_of_app in Hin as [Hin|Hin].
  - apply list_elem_of_filter in Hin as [Hk Hin]. cbn in Hk.
    pose proof (assoc_NoDup k v l Hnd Hin) as Hv. destruct Hdoc as (Hkeys & Hbase). rewrite Forall_forall in Hbase.
    assert (Hkd : k ∈ map ty_Name (default [] (base_types !! txField))).
    { assert (k ∈ l.*1) as Hkl by (by apply (list_elem_of_fmap_2 fst l (k, v))). rewrite Hkeys in Hkl. by apply elem_of_cons in Hkl as [->|]. }
    apply list_elem_of_fmap_1 in Hkd as ([k' t] & -> & Hf). exists t. split; [apply elem_of_app; by left|].
    eapply has_type_mono; [etransitivity; [exact Hsub|exact Hmono]|]. by apply (Hbase _ Hf).
  - apply list_elem_of_lookup in Hin as (n & Hn). rewrite lookup_zip_with in Hn. unfold msg_fields in Hn. rewrite list_lookup_imap in Hn.
    destruct (msgs !! n) as [m|] eqn:Em; [|done]. cbn in Hn. injection Hn as <- <-. destruct (Hall n m Em) as (ty & Hty & Hm).
    exists ty. split; [apply elem_of_app; by right|]. by eapply has_type_mono.
Qed.

Lemma depth_msg l msgs n m : msgs !! n = Some m -> (json_depth m <= json_depth (JObject (flattened l msgs)))%nat.
Proof. intros Hn. apply Nat.lt_le_incl. eapply depth_field, flattened_msg; done. Qed.

(** another field of the document stays as it was *)
Lemma flattened_other l msgs k :
  plain_key k = true -> k <> payloadMsgsField -> (forall n, k <> msgFieldForIndex n) ->
  gj_Get (JObject (flattened l msgs)) k = gj_Get (JObject l) k.
Proof.
  intros Hp Hk Hn. rewrite !gj_Get_plain by done. unfold flattened. rewrite assoc_app, assoc_filter; [done|done|].
  rewrite zip_fields. intros (n & E)%msg_fields_elem. by apply (Hn (0 + n)%nat).
Qed.

(** C28: A document becomes typed data for its message. For a document whose
    fields are distinct, none named as a flattened message, with a list of
    messages that have a type and plain keys (letters, digits, underscores), the
    generation of the types ends, and fails only when a thousand different types
    compete for one name. The typed message holds the messages of the document as
    [msg0], [msg1], ... and its other fields as they were; the primary type has a
    field for each message, whose type describes it: every object has a type
    with exactly its fields, but those that are null or arrays that start with a
    null or an array, which get no type, and an array has the type of its first
    element. When the messages are regular (no null, no array in an array, arrays
    of one shape) and the document has the five fields of the Cosmos SDK of their
    types, the whole message has the primary type in the sense of EIP-712: every
    object has a type with exactly its fields, every value the type of its
    field. *)
Theorem typed_data_well_typed chainID data l msgs :
  gj_Parse data = Some (JObject l) -> payload_doc l msgs ->
  WrapTxToTypedData chainID data = Some (Err ErrDuplicates) \/
  exists td, WrapTxToTypedData chainID data = Some (Ok td) /\
    (forall n m, msgs !! n = Some m -> gj_Get (td_Message td) (msgFieldForIndex n) = Some m /\
       exists fs ty, td_Types td !! td_PrimaryType td = Some fs /\ mkType (msgFieldForIndex n) ty ∈ fs /\
         typed_by (td_Types td) m ty) /\
    (forall k, plain_key k = true -> k <> payloadMsgsField -> (forall n, k <> msgFieldForIndex n) ->
       gj_Get (td_Message td) k = gj_Get (JObject l) k) /\
    (standard_doc l -> Forall regular msgs -> has_type (td_Types td) (td_Message td) (td_PrimaryType td)).
Proof.
  intros Hp Hdoc. unfold WrapTxToTypedData. rewrite (create_payload data l msgs Hp Hdoc). unfold createEIP712Types.
  cbn [mp_payload mp_numPayloadMsgs mp_message]. pose proof (flattened_NoDup l msgs Hdoc) as Hnd.
  assert (Hget : forall n m, msgs !! n = Some m -> gj_Get (JObject (flattened l msgs)) (msgFieldForIndex n) = Some m).
  { intros n m Hn. rewrite gj_Get_plain by apply msgField_plain. apply assoc_NoDup; [done|]. by apply flattened_msg. }
  destruct (add_msgs_spec (json_depth (JObject (flattened l msgs))) (JObject (flattened l msgs)) msgs 0 base_types) as [->|(T & new & -> & Hsub & Htx & Hnew & Hall)].
  { intros n m Hn. split_and!; [by apply Hget| |by eapply depth_msg]. destruct Hdoc as (_ & _ & _ & Ht). rewrite Forall_forall in Ht.
    by eapply Ht, list_elem_of_lookup_2. }
  { by left. }
  assert (HT : T !! txField = Some (default [] (base_types !! txField) ++ new)).
  { destruct (T !! txField) as [fs|] eqn:E; cbn in Htx |- *; [by rewrite Htx|done]. }
  right. eexists. split; [done|]. cbn [td_Types td_Message td_PrimaryType]. split_and!.
  - intros n m Hn. split; [by apply Hget|]. destruct (Hall n m Hn) as (ty & Hty & Hm). eexists _, ty. split; [exact HT|].
    split; [apply elem_of_app; by right|]. eapply typed_by_mono; [apply delete_subseteq|exact Hm].
  - intros k Hk Hm Hn. by apply flattened_other.
  - intros Hstd Hreg. eapply tx_well_typed; [apply Hdoc|done|done|done|done|]. intros n m Hn. destruct (Hall n m Hn) as (ty & Hty & Hm).
    exists ty. split; [done|]. apply typed_by_regular; [|done]. rewrite Forall_forall in Hreg. by eapply Hreg, list_elem_of_lookup_2.
Qed.
End Flatten.

(** The keys of an object are used as paths of gjson. The path [@this] is a
    modifier that gives the object itself, so that for an object with such a key
    the generation never ends. *)
Theorem this_key_diverges `{!GJson} fuel rootType T prefix v :
  gj_Get (JObject [("@this", v)]) "@this" = Some (JObject [("@this", v)]) ->
  recursivelyAddTypesToRoot fuel rootType T prefix (JObject [("@this", v)]) = None.
Proof.
  intros Hthis. revert T prefix. induction fuel as [|fuel IH]; intros T prefix; [done|].
  cbn [recursivelyAddTypesToRoot sortedJSONKeys]. change (reverse _) with ["@this"]. cbn [add_fields]. rewrite Hthis. cbn. by rewrite IH.
Qed.

(** ** A transfer *)

Module TypedTransfer.
Definition upcase (c : Ascii.ascii) : Ascii.ascii :=
  let n := Ascii.nat_of_ascii c in if ((97 <=? n) && (n <=? 122))%nat then Ascii.ascii_of_nat (n - 32) else c.

Definition capitalise (s : string) : string := match s with String c s => String (upcase c) s | "" => "" end.

Lemma upcase_alnum c : is_alnum c = true -> is_alnum (upcase c) = true.
Proof. destruct c as [[] [] [] [] [] [] [] []]; by vm_compute. Qed.

Lemma upcase_upper c : is_upper c = true -> upcase c = c.
Proof. destruct c as [[] [] [] [] [] [] [] []]; by vm_compute. Qed.

Definition coin (denom amount : string) : json := JObject [("denom", JString denom); ("amount", JString amount)].

Definition transfer : json := JObject [
  ("type", JString "cosmos-sdk/MsgSend");
  ("value", JObject [("from_address", JString "tac1a"); ("to_address", JString "tac1b"); ("amount", JArray [coin "utac" "1"; coin "gas" "2"])])].

Definition vote : json := JObject [("type", JString "cosmos-sdk/MsgVote"); ("value", JObject [("option", JNumber "1"); ("notes", JArray [])])].

Definition doc : list (string * json) := [
  ("msgs", JArray [transfer; vote]); ("account_number", JString "7"); ("chain_id", JString "tac_2391-1");
  ("fee", JObject [("amount", JArray [coin "utac" "20"]); ("gas", JString "200000")]); ("memo", JString ""); ("sequence", JString "3")].

(** a null and an array of arrays, and none of the other fields *)
Definition odd_msg : json := JObject [
  ("type", JString "MsgSend"); ("value", JObject [("field", JNull); ("rows", JArray [JArray []]); ("count", JNumber "1")])].
Definition odd_doc : list (string * json) := [("msgs", JArray [odd_msg])].

Definition get_field (j : json) (k : string) : option json := match j with JObject l => assoc k l | _ => None end.

Definition set_field (j : json) (k : string) (v : json) : res json :=
  match j with
  | JObject l => match assoc k l with Some _ => Err ErrInvalidRequest | None => Ok (JObject (l ++ [(k, v)])) end
  | _ => Err ErrInvalidRequest
  end.

Definition delete_field (j : json) (k : string) : res json :=
  match j with JObject l => Ok (JObject (filter (fun p => p.1 <> k) l)) | _ => Err ErrInvalidRequest end.

#[local] Instance gjson : GJson.
Proof.
  refine {| gj_Parse := fun data => match data with [] => None | [2] => Some (JObject odd_doc) | _ => Some (JObject doc) end;
            gj_Get := get_field; sj_SetRaw := set_field; sj_Delete := delete_field; title := capitalise |}.
  - done.
  - intros l k v _ Hk. cbn. by rewrite Hk.
  - done.
  - intros [|c s]; [done|]. unfold alnum, str_forallb. cbn. rewrite !andb_true_iff. intros [Hc Hs]. by split; [apply upcase_alnum|].
  - intros c s Hc _. cbn. by rewrite upcase_upper.
Defined.

Ltac nodup_keys := apply (bool_decide_unpack _); vm_compute; exact I.

Lemma fresh_fields (l : list (string * json)) :
  Forall (fun k => k ∈ payloadMsgsField :: doc_fields) l.*1 -> forall n, msgFieldForIndex n ∉ l.*1.
Proof. intros Hl n Hn. rewrite Forall_forall in Hl. apply (msgField_fresh n), Hl, Hn. Qed.

Ltac field_names := apply fresh_fields, (bool_decide_unpack _); vm_compute; exact I.

Lemma doc_ok : payload_doc doc [transfer; vote].
Proof.
  split_and!; [nodup_keys|field_names|by left|].
  repeat apply Forall_cons_2; [..|constructor]; eexists _, _; (split; [reflexivity|]); (split; [|by split]);
    cbn [plain transfer vote coin]; split_and!; try done; nodup_keys.
Qed.

Lemma doc_regular : Forall regular [transfer; vote].
Proof.
  repeat apply Forall_cons_2; [..|constructor]; cbn [regular transfer vote coin]; split_and!; try done; try nodup_keys.
  by repeat constructor.
Qed.

Lemma doc_standard : standard_doc doc.
Proof.
  split; [done|]. cbn. repeat apply Forall_cons_2; [..|constructor]; intros v [= <-]; try done.
  apply has_type_object. eexists. split; [by vm_compute|]. split; [done|].
  repeat apply Forall_cons_2; [..|constructor]; cbn [fst snd].
  + exists "Coin[]". split; [left|]. apply has_type_array. exists "Coin". split; [done|]. apply Forall_singleton.
    apply has_type_object. eexists. split; [by vm_compute|]. split; [done|].
    repeat apply Forall_cons_2; [..|constructor]; exists "string"; (split; [|done]); [left|right; left].
  + exists "string". split; [right; left|done].
Qed.

Lemma odd_doc_ok : payload_doc odd_doc [odd_msg].
Proof.
  split_and!; [nodup_keys|field_names|by left|]. apply Forall_singleton. eexists _, _. split; [reflexivity|]. split; [|by split].
  cbn [plain odd_msg]. split_and!; try done; nodup_keys.
Qed.

Lemma typed_data_well_typed_witness :
  (exists td, WrapTxToTypedData 2391 [1] = Some (Ok td) /\ has_type (td_Types td) (td_Message td) (td_PrimaryType td) /\
    gj_Get (td_Message td) "msg1" = Some vote) /\
  (exists td ty, WrapTxToTypedData 2391 [2] = Some (Ok td) /\ typed_by (td_Types td) odd_msg ty).
Proof.
  split.
  - destruct (@typed_data_well_typed gjson 2391 [1] doc [transfer; vote] eq_refl doc_ok) as [E|(td & Hrun & Hmsgs & _ & Hty)].
    + exfalso. revert E. vm_compute. discriminate.
    + exists td. split; [exact Hrun|]. split; [exact (Hty doc_standard doc_regular)|]. exact (proj1 (Hmsgs 1%nat vote eq_refl)).
  - destruct (@typed_data_well_typed gjson 2391 [2] odd_doc [odd_msg] eq_refl odd_doc_ok) as [E|(td & Hrun & Hmsgs & _)].
    + exfalso. revert E. vm_compute. discriminate.
    + destruct (Hmsgs 0%nat odd_msg eq_refl) as (_ & fs & ty & _ & _ & Hty). exists td, ty. split; [exact Hrun|exact Hty].
Defined.

(** the two amounts and the message have the types that were made up for them *)
Example transfer_types :
  match WrapTxToTypedData 2391 [1] with
  | Some (Ok td) => (td_Types td !! "TypeValue0", td_Types td !! "TypeValueAmount0", td_Types td !! "TypeValue1")
  | _ => (None, None, None)
  end =
  (Some [mkType "to_address" "string"; mkType "from_address" "string"; mkType "amount" "TypeValueAmount0[]"],
   Some [mkType "denom" "string"; mkType "amount" "string"],
   Some [mkType "option" "int64"; mkType "notes" "string[]"]).
Proof. vm_compute. reflexivity. Qed.
End TypedTransfer.
