(* ===== verification/Eip712Encoding.v ===== *)
(** * Sign documents ([ethereum/eip712/encoding.go], [types/chain_id.go],
    [ante/sigverify.go])

    A document in Amino JSON or in protobuf becomes typed data when its messages
    have one signer and its chain identifier carries the identifier of the EVM.
    The codecs of the SDK are a class. [sigverify.go] charges the gas of a
    signature, recursively for multisignatures. *)

From stdpp Require Import base gmap list numbers strings.
From Stdlib Require Import ZArith Lia DecimalString.
From S2P Require Import Prelude SdkMath Scaling AccessList StateDB StateDBCommit VmStore TxData VmParams RpcEvents Eip712.
Import Eip712.

Module ChainId.

Definition ErrInvalidChainID : error := "invalid chain ID".

Definition is_lower (c : Ascii.ascii) : bool := let n := Ascii.nat_of_ascii c in ((97 <=? n) && (n <=? 122))%nat.
Definition is_digit (c : Ascii.ascii) : bool := let n := Ascii.nat_of_ascii c in ((48 <=? n) && (n <=? 57))%nat.

(** the longest prefix of characters of a class, and the rest *)
Fixpoint span (f : Ascii.ascii -> bool) (s : string) : string * string :=
  match s with
  | String c s' => if f c then let '(a, b) := span f s' in (String c a, b) else ("", s)
  | EmptyString => ("", "")
  end.

(** [[1-9][0-9]*] *)
Definition match_number (s : string) : option (string * string) :=
  match span is_digit s with
  | (String c d, rest) => if Ascii.eqb c (Ascii.ascii_of_nat 48) then None else Some (String c d, rest)
  | _ => None
  end.

(** The submatches of the expression. No class contains the separator after it,
    so there is one way to match. *)
Definition cosmosEvmChainID (s : string) : option (string * string * string) :=
  match span is_lower s with
  | (String c a, String u rest) =>
      if negb (Ascii.eqb u underscore) then None
      else match match_number rest with
           | Some (eip155, String h rest) =>
               if negb (Ascii.eqb h (Ascii.ascii_of_nat 45)) then None
               else match match_number rest with
                    | Some (epoch, "") => Some (String c a, eip155, epoch)
                    | _ => None
                    end
           | _ => None
           end
  | _ => None
  end.

(** the white space of Unicode in UTF-8 *)
Definition white_space : list (list Ascii.ascii) :=
  map (map Ascii.ascii_of_nat)
    [[9]; [10]; [11]; [12]; [13]; [32]; [194; 133]; [194; 160]; [225; 154; 128]; [226; 128; 128]; [226; 128; 129];
     [226; 128; 130]; [226; 128; 131]; [226; 128; 132]; [226; 128; 133]; [226; 128; 134]; [226; 128; 135]; [226; 128; 136];
     [226; 128; 137]; [226; 128; 138]; [226; 128; 168]; [226; 128; 169]; [226; 128; 175]; [226; 129; 159]; [227; 128; 128]]%nat.

Fixpoint trim_left (n : nat) (spaces : list (list Ascii.ascii)) (l : list Ascii.ascii) : list Ascii.ascii :=
  match n with
  | O => l
  | S n =>
      match List.find (fun p => bool_decide (p `prefix_of` l)) spaces with
      | Some p => trim_left n spaces (drop (length p) l)
      | None => l
      end
  end.

(** [strings.TrimSpace] *)
Definition TrimSpace (s : string) : string :=
  let l := String.list_ascii_of_string s in
  let l := trim_left (length l) white_space l in
  String.string_of_list_ascii (reverse (trim_left (length l) (map reverse white_space) (reverse l))).

Definition IsValidChainID (chainID : string) : bool :=
  if (48 <? String.length chainID)%nat then false
  else match cosmosEvmChainID chainID with Some _ => true | None => false end.

Definition ParseChainID (chainID : string) : res Z :=
  let chainID := TrimSpace chainID in
  if (48 <? String.length chainID)%nat then Err ErrInvalidChainID
  else match cosmosEvmChainID chainID with
       | None => Err ErrInvalidChainID
       | Some (_, eip155, _) =>
           match NilEmpty.uint_of_string eip155 with
           | Some d => Ok (Z.of_N (N.of_uint d))
           | None => Err ErrInvalidChainID
           end
       end.
End ChainId.

Module Encoding.
Import ChainId.

Definition ErrMissingCodec : error := "missing codec".
Definition ErrNoMessages : error := "transaction does contain any messages".
Definition ErrOneSigner : error := "expect exactly 1 signer".
Definition ErrMultipleSigners : error := "multiple signers detected".
Definition ErrUnsupportedFields : error := "body contains unsupported fields".
Definition ErrSignerInfos : error := "invalid number of signer infos provided".
Definition ErrChainID : error := "invalid chain ID passed as argument".
Definition ErrConvert : error := "could not convert to EIP712 representation".
Definition ErrDecode : error := "could not decode sign doc as either Amino or Protobuf".

(** [legacytx.StdSignDoc] and the messages of [types/tx], the fields that are read *)
Record aminoDoc := mkAminoDoc { ad_ChainID : string; ad_Fee : bytes; ad_Msgs : list bytes }.
Record signDoc := mkSignDoc { sd_BodyBytes : bytes; sd_AuthInfoBytes : bytes; sd_ChainId : string; sd_AccountNumber : Z }.
Record fee := mkFee { fee_Amount : list (string * Z); fee_GasLimit : Z }.
Record authInfo := mkAuthInfo { ai_Sequences : list Z; ai_Fee : option fee }.

Class SignCodec := {
  (* [sdk.Msg] and [Any] *)
  tx_msg : Type;
  tx_any : Type;
  (* the Amino codec *)
  am_SignDoc : bytes -> res aminoDoc;
  am_Fee : bytes -> res unit;
  am_Msg : bytes -> res tx_msg;
  (* protobuf *)
  pb_SignDoc : bytes -> res signDoc;
  pb_AuthInfo : bytes -> res authInfo;
  (* timeout, extension options, the other options, messages and memo *)
  pb_Body : bytes -> res (Z * list tx_any * list tx_any * list tx_any * string);
  pb_UnpackAny : tx_any -> res tx_msg;
  GetMsgV1Signers : tx_msg -> res (list address);
  (* [legacytx.StdSignBytes] *)
  StdSignBytes : string -> Z -> Z -> Z -> fee -> list tx_msg -> string -> res bytes
}.

(** [aminoCodec] and [protoCodec], nil or not *)
Record codecs := mkCodecs { cd_amino : bool; cd_proto : bool }.

(** the interface registry always gives a codec *)
Definition SetEncodingConfig (cdc : bool) : codecs := mkCodecs cdc true.

Section Encoding.
Context `{!GJson} `{!SignCodec}.

Definition validateCodecInit (cd : codecs) : res unit := if cd_amino cd && cd_proto cd then Ok () else Err ErrMissingCodec.

(** the messages that are left, with the signer of the first one *)
Fixpoint check_signers (msgSigner : option address) (msgs : list tx_msg) : res unit :=
  match msgs with
  | [] => Ok ()
  | m :: msgs =>
      let? signers := GetMsgV1Signers m in
      match signers with
      | [signer] =>
          match msgSigner with
          | None => check_signers (Some signer) msgs
          | Some first => if bool_decide (first = signer) then check_signers msgSigner msgs else Err ErrMultipleSigners
          end
      | _ => Err ErrOneSigner
      end
  end.

Definition validatePayloadMessages (msgs : list tx_msg) : res unit :=
  match msgs with [] => Err ErrNoMessages | _ => check_signers None msgs end.

(** a slice is unmarshalled in order, up to the first error *)
Fixpoint unmarshal_all {A B} (f : A -> res B) (l : list A) : res (list B) :=
  match l with
  | [] => Ok []
  | x :: l => let? y := f x in let? ys := unmarshal_all f l in Ok (y :: ys)
  end.

(** the errors of a generation that ends *)
Definition run_wrap (r : res (option (res TypedData))) : option (res TypedData) :=
  match r with
  | Ok o => o
  | Err e => Some (Err e)
  | Panic e => Some (Panic e)
  end.

Definition decodeAminoSignDoc (cd : codecs) (signDocBytes : bytes) : option (res TypedData) :=
  run_wrap (
    let? _ := validateCodecInit cd in
    let? doc := am_SignDoc signDocBytes in
    let? _ := am_Fee (ad_Fee doc) in
    let? msgs := unmarshal_all am_Msg (ad_Msgs doc) in
    let? _ := validatePayloadMessages msgs in
    match ParseChainID (ad_ChainID doc) with
    | Ok chainID =>
        Ok (match WrapTxToTypedData (wrap64 chainID) signDocBytes with Some (Err _) => Some (Err ErrConvert) | r => r end)
    | _ => Err ErrChainID
    end).

Definition decodeProtobufSignDoc (cd : codecs) (signDocBytes : bytes) : option (res TypedData) :=
  run_wrap (
    let? _ := validateCodecInit cd in
    let? doc := pb_SignDoc signDocBytes in
    let? info := pb_AuthInfo (sd_AuthInfoBytes doc) in
    let? body := pb_Body (sd_BodyBytes doc) in
    let '(timeout, ext, nonCritical, anys, memo) := body in
    if negb (timeout =? 0) || negb (Nat.eqb (length ext) 0) || negb (Nat.eqb (length nonCritical) 0) then Err ErrUnsupportedFields
    else match ai_Sequences info with
    | [sequence] =>
        let? msgs := unmarshal_all pb_UnpackAny anys in
        let? _ := validatePayloadMessages msgs in
        match ParseChainID (sd_ChainId doc) with
        | Ok chainID =>
            match ai_Fee info with
            | None => Panic "nil pointer dereference"
            | Some f =>
                let? signBytes := StdSignBytes (sd_ChainId doc) (sd_AccountNumber doc) sequence timeout f msgs memo in
                Ok (WrapTxToTypedData (wrap64 chainID) signBytes)
            end
        | _ => Err ErrChainID
        end
    | _ => Err ErrSignerInfos
    end).

Definition isValidEIP712Payload (td : TypedData) : bool :=
  match td_Message td with JObject [] => false | _ => true end &&
  bool_decide (td_Types td <> ∅) && negb (String.eqb (td_PrimaryType td) "") &&
  bool_decide (td_Domain td <> mkDomain "" "" None "" "").

(** the Amino document first *)
Definition GetEIP712TypedDataForMsg (cd : codecs) (signDocBytes : bytes) : option (res TypedData) :=
  let second :=
    match decodeProtobufSignDoc cd signDocBytes with
    | Some (Ok td) => Some (if isValidEIP712Payload td then Ok td else Err ErrDecode)
    | Some (Err _) => Some (Err ErrDecode)
    | r => r
    end in
  match decodeAminoSignDoc cd signDocBytes with
  | Some (Ok td) => if isValidEIP712Payload td then Some (Ok td) else second
  | Some (Err _) => second
  | r => r
  end.

(** [apitypes.TypedDataAndHash] is an argument *)
Definition GetEIP712BytesForMsg (TypedDataAndHash : TypedData -> res bytes) (cd : codecs) (signDocBytes : bytes) : option (res bytes) :=
  match GetEIP712TypedDataForMsg cd signDocBytes with
  | None => None
  | Some r => Some (let? td := r in TypedDataAndHash td)
  end.
End Encoding.
End Encoding.

Module SigVerify.

Definition ErrInvalidPubKey : error := "invalid pubkey".
Definition ErrExpectedMulti : error := "expected MultiSignatureData".

(** The keys that are told apart, and the data of signatures. The bit array of the
    SDK is its [Count] and its [GetIndex]. *)
#[local] Unset Elimination Schemes.
Inductive pubKey :=
| EthSecp256k1
| Ed25519
| Multisig (keys : list pubKey)
| OtherKey.

Inductive sigData :=
| SingleSignatureData
| MultiSignatureData (count : nat) (getIndex : nat -> bool) (signatures : list sigData).
#[local] Set Elimination Schemes.

Definition Secp256k1VerifyCost : Z := 21000.

Section Consumer.
(* the gas meter, which panics when it runs out, and the cost of the parameters *)
Context {meter : Type} (ConsumeGas : meter -> Z -> meter * res unit) (SigVerifyCostED25519 : Z).

(** the loop over the bits from [i] on, given the function for one signature *)
Fixpoint consume_bits (consume : meter -> pubKey -> sigData -> option (meter * res unit)) (getIndex : nat -> bool)
    (keys : list pubKey) (signatures : list sigData) (m : meter) (sigIndex i n : nat) : option (meter * res unit) :=
  match n with
  | O => Some (m, Ok ())
  | S n =>
      if negb (getIndex i) then consume_bits consume getIndex keys signatures m sigIndex (S i) n
      else match keys !! i, signatures !! sigIndex with
           | Some key, Some data =>
               match consume m key data with
               | Some (m, Ok _) => consume_bits consume getIndex keys signatures m (S sigIndex) (S i) n
               | r => r
               end
           | _, _ => Some (m, Panic "index out of range")
           end
  end.

Definition ConsumeMultisignatureVerificationGas (consume : meter -> pubKey -> sigData -> option (meter * res unit))
    (m : meter) (count : nat) (getIndex : nat -> bool) (signatures : list sigData) (keys : list pubKey) : option (meter * res unit) :=
  consume_bits consume getIndex keys signatures m 0 0 count.

Fixpoint SigVerificationGasConsumer (fuel : nat) (m : meter) (key : pubKey) (data : sigData) : option (meter * res unit) :=
  match fuel with
  | O => None
  | S fuel =>
      match key with
      | EthSecp256k1 => Some (ConsumeGas m Secp256k1VerifyCost)
      | Ed25519 => Some (do? m, _ := ConsumeGas m SigVerifyCostED25519 in (m, Err ErrInvalidPubKey))
      | Multisig keys =>
          match data with
          | MultiSignatureData count getIndex signatures =>
              ConsumeMultisignatureVerificationGas (SigVerificationGasConsumer fuel) m count getIndex signatures keys
          | SingleSignatureData => Some (m, Err ErrExpectedMulti)
          end
      | OtherKey => Some (m, Err ErrInvalidPubKey)
      end
  end.
End Consumer.
End SigVerify.
