(* ===== verification/Eip712EncodingTheorems.v ===== *)
(** * Sign documents: chain identifiers, encodings, gas of signatures

    A chain identifier is read back from its text; a document without a timeout
    height or extension options gives the same typed data in Amino JSON and in
    protobuf, and one with them only in Amino JSON; the gas of a signature pays for every key
    that signed. *)

From stdpp Require Import base gmap list numbers strings.
From Stdlib Require Import ZArith Lia DecimalString DecimalFacts DecimalN.
From S2P Require Import Prelude SdkMath Scaling AccessList StateDB StateDBCommit VmStore TxData VmParams RpcEvents RpcEventsTheorems Eip712 Eip712Theorems Eip712Encoding.
Import Eip712.

(** ** Chain identifiers *)

Section ChainIdentifiers.
Import ChainId.

Lemma span_app f a b :
  str_forallb f a = true -> match b with String c _ => f c = false | "" => True end -> span f (a +:+ b) = (a, b).
Proof.
  intros Ha Hb. induction a as [|c a IH].
  - destruct b as [|c b]; [done|]. change ("" +:+ String c b) with (String c b). cbn. by rewrite Hb.
  - rewrite str_app_cons. unfold str_forallb in Ha. cbn in Ha. apply andb_true_iff in Ha as [Hc Ha]. cbn. by rewrite Hc, IH.
Qed.

Lemma digits_string d : str_forallb is_digit (NilEmpty.string_of_uint d) = true.
Proof. induction d; cbn; done. Qed.

(** a positive number is written without a leading zero *)
Lemma FormatUint_positive n : 0 < n ->
  exists d c s, FormatUint n = String c s /\ Ascii.eqb c (Ascii.ascii_of_nat 48) = false /\ str_forallb is_digit (String c s) = true /\
    NilEmpty.uint_of_string (String c s) = Some d /\ Z.of_N (N.of_uint d) = n.
Proof.
  intros Hn. unfold FormatUint, NilZero.string_of_uint. set (d := N.to_uint (Z.to_N n)).
  assert (Hof : Z.of_N (N.of_uint d) = n) by (unfold d; rewrite DecimalN.Unsigned.of_to; lia).
  assert (Hnorm : Decimal.unorm d = d) by (rewrite <-DecimalN.Unsigned.to_of; unfold d; by rewrite DecimalN.Unsigned.of_to).
  pose proof (digits_string d) as Hdig. pose proof (NilEmpty.usu d) as Hparse. exists d.
  assert (Hz : forall d', d <> Decimal.D0 d').
  { intros d' E. rewrite E in Hnorm. unfold Decimal.unorm in Hnorm. destruct (Decimal.nzhead (Decimal.D0 d')) eqn:Ez; try done.
    - rewrite E in Hof. injection Hnorm as <-. cbn in Hof. lia.
    - by apply (nzhead_nonzero (Decimal.D0 d') u). }
  destruct d as [|d'|d'|d'|d'|d'|d'|d'|d'|d'|d']; first [cbn in Hof; lia|by destruct (Hz d')|by eexists _, _; split_and!].
Qed.

Lemma match_number_spec n rest : 0 < n -> match rest with String c _ => is_digit c = false | "" => True end ->
  match_number (FormatUint n +:+ rest) = Some (FormatUint n, rest).
Proof.
  intros Hn Hr. destruct (FormatUint_positive n Hn) as (d & c & s & -> & Hc & Hd & _). unfold match_number.
  rewrite span_app by done. by rewrite Hc.
Qed.

(** the text of a chain identifier *)
Definition chain_id (name : string) (eip155 epoch : Z) : string :=
  name +:+ "_" +:+ FormatUint eip155 +:+ "-" +:+ FormatUint epoch.

Lemma chain_id_matches name n e :
  name <> "" -> str_forallb is_lower name = true -> 0 < n -> 0 < e ->
  cosmosEvmChainID (chain_id name n e) = Some (name, FormatUint n, FormatUint e).
Proof.
  intros Hne Hl Hn He. unfold cosmosEvmChainID, chain_id. rewrite span_app by done. destruct name as [|c name]; [done|].
  change ("_" +:+ FormatUint n +:+ "-" +:+ FormatUint e) with (String underscore (FormatUint n +:+ "-" +:+ FormatUint e)).
  change (negb (Ascii.eqb underscore underscore)) with false. cbv iota beta. rewrite match_number_spec by done.
  change ("-" +:+ FormatUint e) with (String (Ascii.ascii_of_nat 45) (FormatUint e)).
  change (negb (Ascii.eqb (Ascii.ascii_of_nat 45) (Ascii.ascii_of_nat 45))) with false. cbv iota beta.
  rewrite <-(str_app_nil_r (FormatUint e)), match_number_spec by done. by rewrite str_app_nil_r.
Qed.

Lemma trim_left_id n spaces c l :
  Forall (fun p => match p with [] => False | d :: _ => d <> c end) spaces -> trim_left n spaces (c :: l) = c :: l.
Proof.
  intros Hs. destruct n; [done|]. cbn. destruct (List.find _ _) as [p|] eqn:E; [|done]. apply List.find_some in E as [Hin Hp].
  rewrite Forall_forall in Hs. specialize (Hs p). rewrite list_elem_of_In in Hs. specialize (Hs Hin). case_bool_decide as Hpre; [|done].
  destruct p as [|d p]; [done|]. apply prefix_cons_inv_1 in Hpre. done.
Qed.

Definition no_space (c : Ascii.ascii) : bool := is_lower c || is_digit c.

Lemma no_space_left c : no_space c = true -> Forall (fun p => match p with [] => False | d :: _ => d <> c end) white_space.
Proof. intros Hc. repeat constructor; intros <-; discriminate Hc. Qed.

Lemma no_space_right c : no_space c = true -> Forall (fun p => match p with [] => False | d :: _ => d <> c end) (map reverse white_space).
Proof. intros Hc. repeat constructor; intros <-; discriminate Hc. Qed.

Lemma TrimSpace_id s c l d : 
  String.list_ascii_of_string s = c :: l -> reverse (c :: l) !! 0%nat = Some d -> no_space c = true -> no_space d = true -> TrimSpace s = s.
Proof.
  intros Hs Hd Hc Hdn. unfold TrimSpace. rewrite Hs. rewrite trim_left_id by by apply no_space_left.
  destruct (reverse (c :: l)) as [|d' r] eqn:E; [done|]. injection Hd as ->. rewrite trim_left_id by by apply no_space_right.
  rewrite <-E, reverse_involutive, <-Hs. apply String.string_of_list_ascii_of_string.
Qed.

Lemma list_ascii_app a b : String.list_ascii_of_string (a +:+ b) = String.list_ascii_of_string a ++ String.list_ascii_of_string b.
Proof. induction a as [|c a IH]; [done|]. rewrite str_app_cons. cbn. by rewrite IH. Qed.

(** the number of the EVM is read back from the text *)
Theorem chain_id_roundtrip name n e :
  name <> "" -> str_forallb is_lower name = true -> 0 < n -> 0 < e -> (String.length (chain_id name n e) <= 48)%nat ->
  IsValidChainID (chain_id name n e) = true /\ ParseChainID (chain_id name n e) = Ok n.
Proof.
  intros Hne Hl Hn He Hlen. pose proof (chain_id_matches name n e Hne Hl Hn He) as Hm.
  assert (Hle : (48 <? String.length (chain_id name n e))%nat = false) by (apply Nat.ltb_ge; lia).
  assert (Htrim : TrimSpace (chain_id name n e) = chain_id name n e).
  { destruct (FormatUint_positive e He) as (? & c & s & Hf & _ & Hd & _). destruct name as [|a name]; [done|].
    unfold str_forallb in Hl, Hd. cbn in Hl. apply andb_true_iff in Hl as [Ha _].
    assert (Hlast : exists r d, String.list_ascii_of_string (String c s) = r ++ [d] /\ is_digit d = true).
    { destruct (List.exists_last (l := String.list_ascii_of_string (String c s))) as (r & z & E); [done|]. exists r, z. split; [done|].
      rewrite E, forallb_app in Hd. apply andb_true_iff in Hd as [_ Hd]. cbn in Hd. by rewrite andb_true_r in Hd. }
    destruct Hlast as (r & d & Hr & Hdd). eapply (TrimSpace_id _ a _ d); [unfold chain_id; by rewrite str_app_cons| | |].
    - unfold chain_id. rewrite Hf. rewrite <-(str_app_assoc "_"), <-(str_app_assoc name). rewrite !list_ascii_app, Hr.
      match goal with |- context [?l :: ?x] => change (l :: x) with ([l] ++ x) end. rewrite !app_assoc. by rewrite reverse_snoc.
    - unfold no_space. by rewrite Ha.
    - unfold no_space. by rewrite Hdd, orb_true_r. }
  unfold IsValidChainID, ParseChainID. rewrite Htrim, Hle, Hm. split; [done|].
  destruct (FormatUint_positive n Hn) as (d & c & s & -> & _ & _ & Hp & Hz). by rewrite Hp, Hz.
Qed.
End ChainIdentifiers.

(** ** The two encodings of a document *)

Section Encodings.
Import ChainId Encoding.
Context `{!GJson} `{!SignCodec}.

(** the messages have one signer, the same for all *)
Lemma check_signers_Ok first msgs :
  check_signers first msgs = Ok () ->
  exists signer, match first with Some s => s = signer | None => True end /\ Forall (fun m => GetMsgV1Signers m = Ok [signer]) msgs.
Proof.
  revert first. induction msgs as [|m msgs IH]; intros first Hc.
  { exists (default 0 first). split; [by destruct first|constructor]. }
  cbn in Hc. destruct (GetMsgV1Signers m) as [[|signer [|]]| |] eqn:Em; try done. cbn in Hc. destruct first as [s|].
  - case_bool_decide as Hs; [|done]. subst s. destruct (IH _ Hc) as (s & <- & Hall). exists signer. split; [done|by constructor].
  - destruct (IH _ Hc) as (s & <- & Hall). exists signer. split; [done|by constructor].
Qed.

Lemma validate_Ok msgs : validatePayloadMessages msgs = Ok () -> exists signer, Forall (fun m => GetMsgV1Signers m = Ok [signer]) msgs.
Proof. destruct msgs; [done|]. intros (s & _ & Hall)%check_signers_Ok. by exists s. Qed.

(** The options of a document: its timeout height and its extension options,
    critical and not. *)
Record doc_options := mkDocOptions { do_Timeout : Z; do_Extension : list tx_any; do_NonCritical : list tx_any }.

Definition no_options (o : doc_options) : bool :=
  (do_Timeout o =? 0) && Nat.eqb (length (do_Extension o)) 0 && Nat.eqb (length (do_NonCritical o)) 0.

(** a document in protobuf [pb] with the options [o], the text [b] that the SDK
    has for it in Amino JSON, its chain identifier and its messages *)
Record same_document (pb b : bytes) (o : doc_options) (chainID : string) (msgs : list tx_msg) : Prop := {
  doc_pb : exists doc sequence f anys memo ad,
    pb_SignDoc pb = Ok doc /\ sd_ChainId doc = chainID /\
    pb_AuthInfo (sd_AuthInfoBytes doc) = Ok (mkAuthInfo [sequence] (Some f)) /\
    pb_Body (sd_BodyBytes doc) = Ok (do_Timeout o, do_Extension o, do_NonCritical o, anys, memo) /\
    unmarshal_all pb_UnpackAny anys = Ok msgs /\
    StdSignBytes chainID (sd_AccountNumber doc) sequence (do_Timeout o) f msgs memo = Ok b /\
    am_SignDoc b = Ok ad /\ ad_ChainID ad = chainID /\ am_Fee (ad_Fee ad) = Ok () /\ unmarshal_all am_Msg (ad_Msgs ad) = Ok msgs;
  doc_not_amino : exists e, am_SignDoc pb = Err e;
  doc_not_pb : exists e, pb_SignDoc b = Err e
}.

Lemma decode_amino_side cd pb b o chainID msgs :
  same_document pb b o chainID msgs ->
  decodeAminoSignDoc cd pb = Some (Err (match validateCodecInit cd with Err e => e | _ => match am_SignDoc pb with Err e => e | _ => "" end end)) /\
  decodeAminoSignDoc cd b = run_wrap (
    let? _ := validateCodecInit cd in let? _ := validatePayloadMessages msgs in
    match ParseChainID chainID with
    | Ok n => Ok (match WrapTxToTypedData (wrap64 n) b with Some (Err _) => Some (Err ErrConvert) | r => r end)
    | _ => Err ErrChainID
    end).
Proof.
  intros [(doc & sequence & f & anys & memo & ad & _ & _ & _ & _ & _ & _ & Had & Hid & Hfee & Hmsgs) [e1 He1] _].
  unfold decodeAminoSignDoc. rewrite He1, Had. destruct (validateCodecInit cd) as [[]|e|e] eqn:Ec; cbn -[ParseChainID WrapTxToTypedData validatePayloadMessages].
  - split; [done|]. rewrite Hfee. cbn -[ParseChainID WrapTxToTypedData validatePayloadMessages]. by rewrite Hmsgs, Hid.
  - done.
  - unfold validateCodecInit in Ec. by case_match.
Qed.

Lemma decode_protobuf_side cd pb b o chainID msgs :
  same_document pb b o chainID msgs ->
  decodeProtobufSignDoc cd pb = run_wrap (
    let? _ := validateCodecInit cd in
    if negb (no_options o) then Err ErrUnsupportedFields
    else let? _ := validatePayloadMessages msgs in
         match ParseChainID chainID with
         | Ok n => Ok (WrapTxToTypedData (wrap64 n) b)
         | _ => Err ErrChainID
         end) /\
  exists e, decodeProtobufSignDoc cd b = Some (Err e).
Proof.
  intros [(doc & sequence & f & anys & memo & ad & Hdoc & Hid & Hinfo & Hbody & Hanys & Hstd & _) _ [e2 He2]].
  unfold decodeProtobufSignDoc. rewrite Hdoc, He2. destruct (validateCodecInit cd) as [[]|e|e] eqn:Ec; cbn [mbind res_bind run_wrap].
  - split; [|by eexists]. rewrite Hinfo. cbn [mbind res_bind]. rewrite Hbody. cbn [mbind res_bind ai_Sequences ai_Fee].
    unfold no_options. rewrite !negb_andb. destruct (negb (do_Timeout o =? 0)), (negb (Nat.eqb (length (do_Extension o)) 0)), (negb (Nat.eqb (length (do_NonCritical o)) 0)); try done.
    cbn [orb]. rewrite Hanys. cbn [mbind res_bind]. destruct (validatePayloadMessages msgs) as [[]|e|e]; cbn [mbind res_bind]; [|done..].
    rewrite Hid. destruct (ParseChainID chainID) as [n| |]; [|done..]. by rewrite Hstd.
  - split; [done|by eexists].
  - unfold validateCodecInit in Ec. by case_match.
Qed.


(** a document in protobuf without a fee stops the program *)
Theorem missing_fee_panics cd pb doc sequence anys memo msgs n :
  validateCodecInit cd = Ok () -> (exists e, am_SignDoc pb = Err e) -> pb_SignDoc pb = Ok doc ->
  pb_AuthInfo (sd_AuthInfoBytes doc) = Ok (mkAuthInfo [sequence] None) -> pb_Body (sd_BodyBytes doc) = Ok (0, [], [], anys, memo) ->
  unmarshal_all pb_UnpackAny anys = Ok msgs -> validatePayloadMessages msgs = Ok () -> ParseChainID (sd_ChainId doc) = Ok n ->
  GetEIP712TypedDataForMsg cd pb = Some (Panic "nil pointer dereference").
Proof.
  intros Hcd [e He] Hdoc Hinfo Hbody Hanys Hv Hid. unfold GetEIP712TypedDataForMsg, decodeAminoSignDoc, decodeProtobufSignDoc.
  rewrite Hcd, He, Hdoc. cbn [mbind res_bind run_wrap]. rewrite Hinfo. cbn [mbind res_bind]. rewrite Hbody.
  cbn -[ParseChainID validatePayloadMessages]. rewrite Hanys. cbn -[ParseChainID validatePayloadMessages]. rewrite Hv.
  cbn -[ParseChainID]. by rewrite Hid.
Qed.
End Encodings.

(** a document with two messages of one signer *)
Module TwoMessages.
Import Encoding TypedTransfer.

#[local] Instance codec : SignCodec := {|
  tx_msg := Z; tx_any := Z;
  am_SignDoc := fun b => match b with [1] | [3] => Ok (mkAminoDoc "tac_2391-1" [] [[7]; [7]]) | _ => Err ErrDecode end;
  am_Fee := fun _ => Ok ();
  am_Msg := fun b => match b with [m] => Ok m | _ => Err ErrDecode end;
  pb_SignDoc := fun b => match b with
                         | [2] => Ok (mkSignDoc [] [] "tac_2391-1" 7)
                         | [4] => Ok (mkSignDoc [100] [] "tac_2391-1" 7)
                         | _ => Err ErrDecode
                         end;
  pb_AuthInfo := fun _ => Ok (mkAuthInfo [3] (Some (mkFee [("utac", 20)] 200000)));
  pb_Body := fun b => match b with [h] => Ok (h, [], [], [7; 7], "") | _ => Ok (0, [], [], [7; 7], "") end;
  pb_UnpackAny := Ok;
  GetMsgV1Signers := fun m => Ok [m];
  StdSignBytes := fun _ _ _ timeout _ _ _ => if timeout =? 0 then Ok [1] else Ok [3]
|}.

Lemma two_documents : same_document [2] [1] (mkDocOptions 0 [] []) "tac_2391-1" [7; 7].
Proof.
  split; [|by eexists..]. eexists (mkSignDoc [] [] "tac_2391-1" 7), 3, (mkFee [("utac", 20)] 200000), [7; 7], "", (mkAminoDoc "tac_2391-1" [] [[7]; [7]]).
  by split_and!.
Qed.

(** the same with a timeout at height 100 *)
Lemma two_documents_timeout : same_document [4] [3] (mkDocOptions 100 [] []) "tac_2391-1" [7; 7].
Proof.
  split; [|by eexists..]. eexists (mkSignDoc [100] [] "tac_2391-1" 7), 3, (mkFee [("utac", 20)] 200000), [7; 7], "", (mkAminoDoc "tac_2391-1" [] [[7]; [7]]).
  by split_and!.
Qed.

End TwoMessages.

(** ** The gas of signatures *)

Section SignatureGas.
Import SigVerify.
Context {meter : Type} (ConsumeGas : meter -> Z -> meter * res unit) (SigVerifyCostED25519 : Z).
Context (consumed : meter -> Z) (Hmeter : forall m g m', ConsumeGas m g = (m', Ok ()) -> consumed m' = consumed m + g).

(** the keys of a signature that can be verified: [n] of them signed *)
Inductive signed : pubKey -> sigData -> nat -> Prop :=
| signed_eth data : signed EthSecp256k1 data 1
| signed_multi keys count getIndex signatures n :
    signed_bits keys getIndex signatures (seq 0 count) n -> signed (Multisig keys) (MultiSignatureData count getIndex signatures) n
with signed_bits : list pubKey -> (nat -> bool) -> list sigData -> list nat -> nat -> Prop :=
| bits_nil keys getIndex signatures : signed_bits keys getIndex signatures [] 0
| bits_skip keys getIndex signatures i bits n :
    getIndex i = false -> signed_bits keys getIndex signatures bits n -> signed_bits keys getIndex signatures (i :: bits) n
| bits_cons keys getIndex key data signatures i bits n n' :
    getIndex i = true -> keys !! i = Some key -> signed key data n -> signed_bits keys getIndex signatures bits n' ->
    signed_bits keys getIndex (data :: signatures) (i :: bits) (n + n').

Lemma consume_bits_Ok consume keys getIndex signatures m j i n m' :
  (forall m key data m', consume m key data = Some (m', Ok ()) ->
     exists k, signed key data k /\ consumed m' = consumed m + Secp256k1VerifyCost * Z.of_nat k) ->
  consume_bits consume getIndex keys signatures m j i n = Some (m', Ok ()) ->
  exists k, signed_bits keys getIndex (drop j signatures) (seq i n) k /\ consumed m' = consumed m + Secp256k1VerifyCost * Z.of_nat k.
Proof.
  intros Hc. revert m j i. induction n as [|n IH]; intros m j i Hrun.
  { injection Hrun as ->. exists 0%nat. split; [constructor|lia]. }
  cbn [consume_bits] in Hrun. cbn [seq]. destruct (getIndex i) eqn:Ei; cbn [negb] in Hrun.
  - destruct (keys !! i) as [key|] eqn:Ek; [|done]. destruct (signatures !! j) as [data|] eqn:Ej; [|done].
    destruct (consume m key data) as [[m1 [[]|e|e]]|] eqn:E1; [|done..]. destruct (Hc _ _ _ _ E1) as (k & Hk & Hm1).
    destruct (IH _ _ _ Hrun) as (k' & Hk' & Hm'). exists (k + k')%nat. split; [|lia].
    rewrite (drop_S _ _ _ Ej). by econstructor.
  - destruct (IH _ _ _ Hrun) as (k & Hk & Hm'). exists k. split; [by constructor|done].
Qed.

(** An accepted signature paid for every key that signed, each an Ethereum key, at
    any depth of multisignatures. *)
Theorem signature_gas_paid fuel m key data m' :
  SigVerificationGasConsumer ConsumeGas SigVerifyCostED25519 fuel m key data = Some (m', Ok ()) ->
  exists n, signed key data n /\ consumed m' = consumed m + Secp256k1VerifyCost * Z.of_nat n.
Proof.
  revert m key data m'. induction fuel as [|fuel IH]; intros m key data m' Hrun; [done|]. cbn in Hrun.
  destruct key as [| |keys|]; [| | |done].
  - injection Hrun as Hrun. apply Hmeter in Hrun. exists 1%nat. split; [constructor|lia].
  - by destruct (ConsumeGas m SigVerifyCostED25519) as [? [[]| |]].
  - destruct data as [|count getIndex signatures]; [done|]. destruct (consume_bits_Ok _ _ _ _ _ _ _ _ _ IH Hrun) as (n & Hn & Hm).
    exists n. split; [by constructor|done].
Qed.

(** the nesting of keys, which bounds the recursion *)
Fixpoint key_depth (key : pubKey) : nat :=
  match key with
  | Multisig keys => S (fold_right (fun k n => Nat.max (key_depth k) n) 0%nat keys)
  | _ => 1%nat
  end.

Lemma key_depth_elem keys i key : keys !! i = Some key -> (key_depth key < key_depth (Multisig keys))%nat.
Proof.
  cbn [key_depth]. intros Hi. apply Nat.lt_succ_r. revert i Hi. induction keys as [|k keys IH]; intros [|i] Hi; cbn in *; try done.
  - injection Hi as ->. lia.
  - specialize (IH i Hi). lia.
Qed.

(** the recursion ends *)
Theorem signature_gas_terminates fuel m key data :
  (key_depth key <= fuel)%nat -> is_Some (SigVerificationGasConsumer ConsumeGas SigVerifyCostED25519 fuel m key data).
Proof.
  revert m key data. induction fuel as [|fuel IH]; intros m key data Hd; [destruct key; cbn in Hd; lia|]. cbn [SigVerificationGasConsumer].
  destruct key as [| |keys|]; try by eexists. destruct data as [|count getIndex signatures]; [by eexists|].
  unfold ConsumeMultisignatureVerificationGas. generalize 0%nat at 1. generalize 0%nat. revert m.
  induction count as [|count IHc]; intros m i j; [by eexists|]. cbn [consume_bits]. destruct (getIndex i); cbn [negb]; [|apply IHc].
  destruct (keys !! i) as [key|] eqn:Ek; [|by eexists]. destruct (signatures !! j) as [sig|]; [|by eexists].
  apply key_depth_elem in Ek. destruct (IH m key sig ltac:(lia)) as [[m1 [[]|e|e]] ->]; [apply IHc|by eexists..].
Qed.
End SignatureGas.
