(* ===== verification/RpcFilters.v ===== *)
(** * Logs and filters of the RPC

    The logs of a transaction are texts in an event ([x/vm/types/logs.go],
    [rpc/backend/utils.go]), the bloom filter of a block is another
    ([x/vm/keeper/abci.go], [rpc/backend/blocks.go]). [eth_getLogs] reads both
    ([rpc/namespaces/ethereum/eth/filters/filters.go], [utils.go]); filters that
    are polled collect the logs of new transactions ([api.go],
    [filter_system.go], [rpc/ethereum/pubsub/pubsub.go]). *)

From stdpp Require Import base gmap list numbers strings.
From Stdlib Require Import ZArith Lia.
From S2P Require Import Prelude SdkMath Scaling AccessList StateDB StateDBCommit VmStore FeeMarket TxData StateTransition VmParams Ante RpcEvents.

Module RpcFilters.

Definition ErrLogsNotFound : error := "eth tx logs not found for message index".
Definition ErrBloomNotFound : error := "block bloom event is not found".
Definition ErrFetchLogs : error := "failed to fetch logs block number".
Definition ErrFetchHeader : error := "failed to fetch header by hash".
Definition ErrFetchLatest : error := "failed to fetch header by number (latest)".
Definition ErrRangeLimit : error := "maximum [from, to] blocks distance".
Definition ErrLogLimit : error := "query returned more than the limit of results".
Definition ErrMaxFilters : error := "error creating filter: max limit reached".
Definition ErrFromTo : error := "invalid from and to block combination".
Definition ErrSubscribe : error := "failed to subscribe".
Definition ErrFilterNotFound : error := "filter not found".
Definition ErrFilterType : error := "filter doesn't have a LogsSubscription type".
Definition ErrInvalidFilter : error := "invalid filter type".
Definition PanicNil : error := "nil pointer dereference".

Definition EventTypeBlockBloom : string := "block_bloom".
Definition AttributeKeyEthereumBloom : string := "bloom".

(** ** Logs as they are stored *)

Record Log := mkStoredLog {
  l_Address : string; l_Topics : list string; l_Data : bytes; l_BlockNumber : Z; l_TxHash : string;
  l_TxIndex : Z; l_Index : Z; l_BlockHash : string; l_Removed : bool
}.

Section Logs.
Context `{!EthHex}.

Definition NewLogFromEth (l : ethLog) : Log :=
  mkStoredLog (addr_Hex (log_Address l)) (map hash_String (log_Topics l)) (log_Data l) (log_BlockNumber l)
    (hash_String (log_TxHash l)) (log_TxIndex l) (log_Index l) (hash_String (log_BlockHash l)) (log_Removed l).

Definition ToEthereum (l : Log) : ethLog :=
  mkLog (HexToAddress (l_Address l)) (map HexToHash (l_Topics l)) (l_Data l) (l_BlockNumber l)
    (HexToHash (l_TxHash l)) (l_TxIndex l) (HexToHash (l_BlockHash l)) (l_Index l) (l_Removed l).

Definition NewLogsFromEth (ls : list ethLog) : list Log := map NewLogFromEth ls.
Definition LogsToEthereum (ls : list Log) : list ethLog := map ToEthereum ls.

(** [json.Unmarshal] of a log *)
Variable json_Unmarshal : string -> res Log.

Fixpoint parse_log_attrs (attrs : list EventAttribute) : res (list Log) :=
  match attrs with
  | [] => Ok []
  | a :: attrs =>
      if negb (String.eqb (at_Key a) AttributeKeyTxLog) then parse_log_attrs attrs
      else let? l := json_Unmarshal (at_Value a) in let? ls := parse_log_attrs attrs in Ok (l :: ls)
  end.

Definition ParseTxLogsFromEvent (e : Event) : res (list ethLog) :=
  let? ls := parse_log_attrs (ev_Attributes e) in Ok (LogsToEthereum ls).

Fixpoint AllTxLogsFromEvents (events : list Event) : res (list (list ethLog)) :=
  match events with
  | [] => Ok []
  | e :: events =>
      if negb (String.eqb (ev_Type e) EventTypeTxLog) then AllTxLogsFromEvents events
      else let? logs := ParseTxLogsFromEvent e in let? all := AllTxLogsFromEvents events in Ok (logs :: all)
  end.

Fixpoint TxLogsFromEvents (events : list Event) (msgIndex : Z) : res (list ethLog) :=
  match events with
  | [] => Err ErrLogsNotFound
  | e :: events =>
      if negb (String.eqb (ev_Type e) EventTypeTxLog) then TxLogsFromEvents events msgIndex
      else if 0 <? msgIndex then TxLogsFromEvents events (msgIndex - 1)
      else ParseTxLogsFromEvent e
  end.

(** [ResultBlockResults] *)
Record BlockResults := mkBlockResults { br_TxsResults : list ExecTxResult; br_FinalizeBlockEvents : list Event }.

Fixpoint block_results_logs (results : list ExecTxResult) : res (list (list ethLog)) :=
  match results with
  | [] => Ok []
  | r :: results =>
      let? logs := AllTxLogsFromEvents (er_Events r) in let? rest := block_results_logs results in Ok (logs ++ rest)
  end.

Definition GetLogsFromBlockResults (br : BlockResults) : res (list (list ethLog)) := block_results_logs (br_TxsResults br).

(** ** The bloom filter of a block *)

(** a Go string of bytes *)
Definition bytes_string (b : bytes) : string :=
  String.string_of_list_ascii (map (fun z => Ascii.ascii_of_nat (Z.to_nat z)) b).

Definition BloomByteLength : nat := 256.

(** [BytesToBloom], which pads on the left and panics for more than 256 bytes *)
Definition BytesToBloom (b : bytes) : res Z :=
  if (BloomByteLength <? length b)%nat then Panic "bloom bytes too big" else Ok (be_value b).

Definition EmitBlockBloomEvent (bloom : Z) : Event :=
  mkEvent EventTypeBlockBloom [mkAttr AttributeKeyEthereumBloom (bytes_string (be_bytes BloomByteLength bloom))].

(** the end of a block emits the filter that the transactions have collected *)
Definition EndBlock {auth bank} (s : @txState auth bank) : list Event := [EmitBlockBloomEvent (ts_bloom s)].

Fixpoint bloom_attr (attrs : list EventAttribute) : option string :=
  match attrs with
  | [] => None
  | a :: attrs => if String.eqb (at_Key a) AttributeKeyEthereumBloom then Some (at_Value a) else bloom_attr attrs
  end.

Fixpoint bloom_of_events (events : list Event) : res Z :=
  match events with
  | [] => Err ErrBloomNotFound
  | e :: events =>
      if negb (String.eqb (ev_Type e) EventTypeBlockBloom) then bloom_of_events events
      else match bloom_attr (ev_Attributes e) with
           | Some v => BytesToBloom (string_bytes v)
           | None => bloom_of_events events
           end
  end.

Definition BlockBloom (br : BlockResults) : res Z := bloom_of_events (br_FinalizeBlockEvents br).

(** ** Filtering *)

Record FilterCriteria := mkCriteria {
  fc_BlockHash : option hash; fc_FromBlock : option Z; fc_ToBlock : option Z;
  fc_Addresses : list address; fc_Topics : list (list hash)
}.

Fixpoint includes (addresses : list address) (a : address) : bool :=
  match addresses with
  | [] => false
  | addr :: addresses => if addr =? a then true else includes addresses a
  end.

(** the loop over the rules of topics from position [i] on; the topics of the log
    are long enough *)
Fixpoint match_topics (topics : list (list hash)) (i : nat) (log_topics : list hash) : bool :=
  match topics with
  | [] => true
  | sub :: topics =>
      let matched := match sub with [] => true | _ => existsb (fun t => bool_decide (log_topics !! i = Some t)) sub end in
      if matched then match_topics topics (S i) log_topics else false
  end.

(** a log passes the filter; the bounds are big integers *)
Definition keep_log (fromBlock toBlock : option Z) (addresses : list address) (topics : list (list hash)) (l : ethLog) : bool :=
  if match fromBlock with Some f => (0 <=? to_int64 f) && (log_BlockNumber l <? wrap64 f) | None => false end then false
  else if match toBlock with Some t => (0 <=? to_int64 t) && (wrap64 t <? log_BlockNumber l) | None => false end then false
  else if (0 <? length addresses)%nat && negb (includes addresses (log_Address l)) then false
  else if (length (log_Topics l) <? length topics)%nat then false
  else match_topics topics 0 (log_Topics l).

Definition FilterLogs (logs : list ethLog) (fromBlock toBlock : option Z) (addresses : list address) (topics : list (list hash))
    : list ethLog := List.filter (keep_log fromBlock toBlock addresses topics) logs.

(** [ethtypes.BloomLookup] on the bytes of an address or a topic *)
Variable BloomLookup : Z -> bytes -> bool.

Definition bloomFilter (bloom : Z) (addresses : list address) (topics : list (list hash)) : bool :=
  if (0 <? length addresses)%nat && negb (existsb (fun a => BloomLookup bloom (be_bytes 20 a)) addresses) then false
  else forallb (fun sub => match sub with [] => true | _ => existsb (fun t => BloomLookup bloom (be_bytes 32 t)) sub end) topics.

(** ** [eth_getLogs] *)

Class FilterBackend := {
  (* the number of the latest header, when there is one *)
  HeaderByNumber_latest : res (option Z);
  (* the height of a block, [None] when it is not found *)
  TendermintBlockByHash : hash -> res (option Z);
  TendermintBlockResultByNumber : Z -> res BlockResults;
  RPCFilterCap : Z;
  RPCLogsCap : Z;
  RPCBlockRangeCap : Z
}.

Section Backend.
Context `{!FilterBackend}.

Definition blockLogs (crit : FilterCriteria) (br : BlockResults) (bloom : Z) : res (list ethLog) :=
  if negb (bloomFilter bloom (fc_Addresses crit) (fc_Topics crit)) then Ok []
  else match GetLogsFromBlockResults br with
       | Ok logsList => Ok (FilterLogs (concat logsList) None None (fc_Addresses crit) (fc_Topics crit))
       | Err _ => Err ErrFetchLogs
       | Panic e => Panic e
       end.

(** The loop over [n] heights. [None] is the nil result of a block that cannot be
    fetched. *)
Fixpoint range_logs (crit : FilterCriteria) (logLimit : Z) (logs : list ethLog) (height : Z) (n : nat) : res (option (list ethLog)) :=
  match n with
  | O => Ok (Some logs)
  | S n =>
      match TendermintBlockResultByNumber height with
      | Panic e => Panic e
      | Err _ => Ok None
      | Ok br =>
          let? bloom := BlockBloom br in
          let? filtered := blockLogs crit br bloom in
          if logLimit <? Z.of_nat (length logs + length filtered) then Err ErrLogLimit
          else range_logs crit logLimit (logs ++ filtered) (height + 1) n
      end
  end.

Definition maxToOverhang : Z := 600.

(** a bound of the range: the head for a negative one, block 1 for block 0 *)
Definition clamp_bound (head b : Z) : Z := if b <? 0 then head else if b =? 0 then 1 else b.

Definition Filter_Logs (crit : FilterCriteria) (logLimit blockLimit : Z) : res (option (list ethLog)) :=
  let range :=
    match HeaderByNumber_latest with
    | Panic e => Panic e
    | Err _ => Err ErrFetchLatest
    | Ok None => Ok None
    | Ok (Some head) =>
        match fc_FromBlock crit, fc_ToBlock crit with
        | Some from, Some to =>
            let from := clamp_bound head (to_int64 from) in
            let to := clamp_bound head (to_int64 to) in
            if blockLimit <? to_int64 (to - from) then Err ErrRangeLimit
            else if head <? from then Ok (Some [])
            else
              let to := if head + maxToOverhang <? to then head + maxToOverhang else to in
              range_logs crit logLimit [] from (Z.to_nat (to - from + 1))
        | _, _ => Panic PanicNil
        end
    end in
  match fc_BlockHash crit with
  | None => range
  | Some h =>
      if h =? 0 then range
      else match TendermintBlockByHash h with
           | Panic e => Panic e
           | Err _ => Err ErrFetchHeader
           | Ok None => Panic PanicNil
           | Ok (Some height) =>
               match TendermintBlockResultByNumber height with
               | Panic e => Panic e
               | Err _ => Ok None
               | Ok br =>
                   let? bloom := BlockBloom br in
                   let? logs := blockLogs crit br bloom in Ok (Some logs)
               end
           end
  end.

Definition returnLogs (logs : option (list ethLog)) : list ethLog := default [] logs.
Definition returnHashes (hashes : option (list hash)) : list hash := default [] hashes.

Definition LatestBlockNumber : Z := -1.

(** three indexes of bytes with the bit of each *)
Abbreviation BloomIV := (list (Z * Z)).

(** the six bytes that are read from the Keccak state *)
Variable keccak6 : bytes -> bytes.

Definition calcBloomIVs (data : bytes) : BloomIV :=
  let byte i := default 0 ((keccak6 data : list Z) !! i) in
  map (fun i => (Z.of_nat BloomByteLength - Z.shiftr (Z.land (be_value [byte i; byte (S i)]) 2047) 3 - 1,
                 Z.shiftl 1 (Z.land (byte (S i)) 7))) [0; 2; 4]%nat.

Definition createBloomFilters (filters : list (list bytes)) : list (list BloomIV) :=
  map (map calcBloomIVs) (List.filter (fun f => (0 <? length f)%nat) filters).

Record Filter := mkFilter { flt_criteria : FilterCriteria; flt_bloomFilters : list (list BloomIV) }.

Definition newFilter (crit : FilterCriteria) (bloomFilters : list (list BloomIV)) : Filter := mkFilter crit bloomFilters.

Definition NewBlockFilter (crit : FilterCriteria) : Filter := newFilter crit [].

Definition NewRangeFilter (begin end_ : Z) (addresses : list address) (topics : list (list hash)) : Filter :=
  let filtersBz := (if (0 <? length addresses)%nat then [map (be_bytes 20) addresses] else []) ++ map (map (be_bytes 32)) topics in
  newFilter (mkCriteria None (Some begin) (Some end_) addresses topics) (createBloomFilters filtersBz).

(** the filter of a query: over one block or over a range *)
Definition query_filter (crit : FilterCriteria) : Filter :=
  match fc_BlockHash crit with
  | Some _ => NewBlockFilter crit
  | None =>
      let begin := match fc_FromBlock crit with Some f => to_int64 f | None => LatestBlockNumber end in
      let end_ := match fc_ToBlock crit with Some t => to_int64 t | None => LatestBlockNumber end in
      NewRangeFilter begin end_ (fc_Addresses crit) (fc_Topics crit)
  end.

Definition GetLogs (crit : FilterCriteria) : res (list ethLog) :=
  let? logs := Filter_Logs (flt_criteria (query_filter crit)) RPCLogsCap RPCBlockRangeCap in Ok (returnLogs logs).

(** ** Filters that are polled ([api.go], [filter_system.go], [pubsub.go]) *)

(** The kinds of subscription, each with a topic of its own. *)
Inductive subType := LogsSubscription | BlocksSubscription | PendingTransactionsSubscription.
#[export] Instance subType_eq : EqDecision subType.
Proof. solve_decision. Defined.

(** a filter: [f_expired] is a deadline that has passed *)
Record polledFilter := mkPolled {
  f_typ : subType; f_crit : FilterCriteria; f_hashes : list hash; f_logs : list ethLog; f_expired : bool
}.

(** The filters of the API; the installed subscriptions, the topics and the
    requests to uninstall of the event system; the goroutines that wait for
    events, and those among them whose channel of events or of errors was closed. *)
Record filterSystem := mkSystem {
  fs_filters : gmap Z polledFilter;
  fs_index : gmap Z subType;
  fs_topics : list subType;
  fs_uninstall : list (Z * subType);
  fs_listeners : gmap Z (subType * FilterCriteria);
  fs_closed : gset Z;
  fs_failed : gset Z
}.

Definition with_filters (m : gmap Z polledFilter) (s : filterSystem) : filterSystem :=
  mkSystem m (fs_index s) (fs_topics s) (fs_uninstall s) (fs_listeners s) (fs_closed s) (fs_failed s).
Definition with_uninstall (l : list (Z * subType)) (s : filterSystem) : filterSystem :=
  mkSystem (fs_filters s) (fs_index s) (fs_topics s) l (fs_listeners s) (fs_closed s) (fs_failed s).
(** a goroutine returns, and leaves its topic *)
Definition stop_listening (id : Z) (s : filterSystem) : filterSystem :=
  mkSystem (fs_filters s) (fs_index s) (fs_topics s) (fs_uninstall s) (delete id (fs_listeners s)) (fs_closed s) (fs_failed s).

(** A subscription to a topic that exists is not installed. [wsOk]: the web socket
    accepts the query; [crit] is what the goroutine keeps. *)
Definition subscribe (id : Z) (typ : subType) (crit : FilterCriteria) (wsOk : bool) (s : filterSystem) : filterSystem * res unit :=
  if bool_decide (typ ∈ fs_topics s) then
    (mkSystem (fs_filters s) (fs_index s) (fs_topics s) (fs_uninstall s) (<[id := (typ, crit)]> (fs_listeners s)) (fs_closed s) (fs_failed s), Ok ())
  else if negb wsOk then (s, Err ErrSubscribe)
  else (mkSystem (fs_filters s) (<[id := typ]> (fs_index s)) (typ :: fs_topics s) (fs_uninstall s)
          (<[id := (typ, crit)]> (fs_listeners s)) (fs_closed s) (fs_failed s), Ok ()).

Definition SubscribeLogs (id : Z) (crit : FilterCriteria) (wsOk : bool) (s : filterSystem) : filterSystem * res unit :=
  let from := match fc_FromBlock crit with None => LatestBlockNumber | Some f => to_int64 f end in
  let to := match fc_ToBlock crit with None => LatestBlockNumber | Some t => to_int64 t end in
  if ((from =? LatestBlockNumber) && (to =? LatestBlockNumber)) || ((0 <=? from) && (0 <=? to) && (from <=? to)) ||
     ((0 <=? from) && (to =? LatestBlockNumber))
  then subscribe id LogsSubscription crit wsOk s
  else (s, Err ErrFromTo).

(** what the three constructors of filters share: the limit, the subscription, the
    new filter; [id] is the random identifier of the subscription *)
Definition install_filter (id : Z) (f : polledFilter) (sub : filterSystem -> filterSystem * res unit) (s : filterSystem) : filterSystem * res Z :=
  if RPCFilterCap <=? Z.of_nat (size (fs_filters s)) then (s, Err ErrMaxFilters)
  else do? s, _ := sub s in (with_filters (<[id := f]> (fs_filters s)) s, Ok id).

Definition empty_criteria : FilterCriteria := mkCriteria None None None [] [].

Definition NewFilter (id : Z) (crit : FilterCriteria) (wsOk : bool) (s : filterSystem) : filterSystem * res Z :=
  install_filter id (mkPolled LogsSubscription crit [] [] false) (SubscribeLogs id crit wsOk) s.
Definition NewBlocksFilter (id : Z) (wsOk : bool) (s : filterSystem) : filterSystem * res Z :=
  install_filter id (mkPolled BlocksSubscription empty_criteria [] [] false) (subscribe id BlocksSubscription empty_criteria wsOk) s.
Definition NewPendingTransactionFilter (id : Z) (wsOk : bool) (s : filterSystem) : filterSystem * res Z :=
  install_filter id (mkPolled PendingTransactionsSubscription empty_criteria [] [] false)
    (subscribe id PendingTransactionsSubscription empty_criteria wsOk) s.

(** An event of CometBFT: a transaction, by the logs of the responses in its
    result and by the hashes of its Ethereum messages, each [None] when it cannot
    be decoded; a header; anything else. *)
Inductive resultEvent :=
| EventDataTx (responses : option (list (list Log))) (messages : option (list hash))
| EventDataNewBlockHeader (h : hash)
| EventDataOther.

(** [DecodeTxResponse] reads the first response *)
Definition DecodeTxResponse (responses : option (list (list Log))) : option (list Log) :=
  match responses with
  | None => None
  | Some [] => Some []
  | Some (logs :: _) => Some logs
  end.

Definition update_filter (id : Z) (g : polledFilter -> polledFilter) (s : filterSystem) : filterSystem :=
  match fs_filters s !! id with
  | Some f => with_filters (<[id := g f]> (fs_filters s)) s
  | None => s
  end.

Definition add_logs (logs : list ethLog) (f : polledFilter) : polledFilter := mkPolled (f_typ f) (f_crit f) (f_hashes f) (f_logs f ++ logs) (f_expired f).
Definition add_hashes (hs : list hash) (f : polledFilter) : polledFilter := mkPolled (f_typ f) (f_crit f) (f_hashes f ++ hs) (f_logs f) (f_expired f).

(** The goroutine of filter [id], created for criteria [crit], receives an event. *)
Definition on_event (id : Z) (typ : subType) (crit : FilterCriteria) (ev : resultEvent) (s : filterSystem) : filterSystem :=
  match typ, ev with
  | LogsSubscription, EventDataTx responses _ =>
      match DecodeTxResponse responses with
      | None => stop_listening id s
      | Some logs =>
          update_filter id (add_logs (FilterLogs (LogsToEthereum logs) (fc_FromBlock crit) (fc_ToBlock crit) (fc_Addresses crit) (fc_Topics crit))) s
      end
  | BlocksSubscription, EventDataNewBlockHeader h => update_filter id (add_hashes [h]) s
  | PendingTransactionsSubscription, EventDataTx _ (Some hs) => update_filter id (add_hashes hs) s
  | _, _ => s
  end.

(** a closed channel of events removes the filter and ends the goroutine; so does
    a closed channel of errors, which does not end that of a filter of pending
    transactions *)
Definition on_closed (id : Z) (s : filterSystem) : filterSystem :=
  stop_listening id (with_filters (delete id (fs_filters s)) s).
Definition on_error (id : Z) (typ : subType) (s : filterSystem) : filterSystem :=
  let s := with_filters (delete id (fs_filters s)) s in
  match typ with PendingTransactionsSubscription => s | _ => stop_listening id s end.

(** [Unsubscribe] leaves a request to the event loop *)
Definition Unsubscribe (id : Z) (typ : subType) (s : filterSystem) : filterSystem :=
  with_uninstall (fs_uninstall s ++ [(id, typ)]) s.

(** the event loop takes request [k]: it closes the topic when no installed
    subscription uses it, with the channels of all who listen to it, and the
    channel of errors *)
Definition eventLoop_uninstall (k : nat) (s : filterSystem) : filterSystem :=
  match fs_uninstall s !! k with
  | None => s
  | Some (id, typ) =>
      let index := delete id (fs_index s) in
      let channelInUse := existsb (fun p => bool_decide (p.2 = typ)) (map_to_list index) in
      let s := mkSystem (fs_filters s) index (fs_topics s) (delete k (fs_uninstall s)) (fs_listeners s) (fs_closed s) ({[id]} ∪ fs_failed s) in
      if channelInUse then s
      else mkSystem (fs_filters s) index (List.filter (fun t => negb (bool_decide (t = typ))) (fs_topics s)) (fs_uninstall s) (fs_listeners s)
             (fs_closed s ∪ dom (filter (fun p => p.2.1 = typ) (fs_listeners s))) (fs_failed s)
  end.

Definition UninstallFilter (id : Z) (s : filterSystem) : filterSystem * bool :=
  match fs_filters s !! id with
  | None => (s, false)
  | Some f => (Unsubscribe id (f_typ f) (with_filters (delete id (fs_filters s)) s), true)
  end.

(** what a poll answers *)
Inductive changes := Hashes (hs : list hash) | Logs (ls : list ethLog).

Definition GetFilterChanges (id : Z) (s : filterSystem) : filterSystem * res changes :=
  match fs_filters s !! id with
  | None => (s, Err ErrFilterNotFound)
  | Some f =>
      match f_typ f with
      | LogsSubscription =>
          (with_filters (<[id := mkPolled (f_typ f) (f_crit f) (f_hashes f) [] false]> (fs_filters s)) s, Ok (Logs (f_logs f)))
      | _ =>
          (with_filters (<[id := mkPolled (f_typ f) (f_crit f) [] (f_logs f) false]> (fs_filters s)) s, Ok (Hashes (f_hashes f)))
      end
  end.

Definition GetFilterLogs (id : Z) (s : filterSystem) : res (list ethLog) :=
  match fs_filters s !! id with
  | None => Err ErrFilterNotFound
  | Some f =>
      if negb (bool_decide (f_typ f = LogsSubscription)) then Err ErrFilterType else GetLogs (f_crit f)
  end.

(** the deadline of a filter passes *)
Definition deadline_fires (id : Z) (s : filterSystem) : filterSystem :=
  update_filter id (fun f => mkPolled (f_typ f) (f_crit f) (f_hashes f) (f_logs f) true) s.

(** a tick of the loop that removes expired filters *)
Definition timeoutLoop (s : filterSystem) : filterSystem :=
  let expired := filter (fun p => f_expired p.2 = true) (map_to_list (fs_filters s)) in
  fold_left (fun s p => Unsubscribe p.1 (f_typ p.2) (with_filters (delete p.1 (fs_filters s)) s)) expired s.

(** *** The steps of the system *)

Inductive op :=
| OpNewFilter (id : Z) (crit : FilterCriteria) (wsOk : bool)
| OpNewBlockFilter (id : Z) (wsOk : bool)
| OpNewPendingFilter (id : Z) (wsOk : bool)
| OpEvent (id : Z) (ev : resultEvent)
| OpClosed (id : Z)
| OpError (id : Z)
| OpEventLoop (k : nat)
| OpPoll (id : Z)
| OpUninstall (id : Z)
| OpDeadline (id : Z)
| OpTick.

(** a goroutine acts while it runs, on a channel that has something for it *)
Definition step (o : op) (s : filterSystem) : filterSystem :=
  match o with
  | OpNewFilter id crit wsOk => (NewFilter id crit wsOk s).1
  | OpNewBlockFilter id wsOk => (NewBlocksFilter id wsOk s).1
  | OpNewPendingFilter id wsOk => (NewPendingTransactionFilter id wsOk s).1
  | OpEvent id ev =>
      match fs_listeners s !! id with
      | Some (typ, crit) => if bool_decide (id ∈ fs_closed s) then s else on_event id typ crit ev s
      | None => s
      end
  | OpClosed id =>
      match fs_listeners s !! id with
      | Some _ => if bool_decide (id ∈ fs_closed s) then on_closed id s else s
      | None => s
      end
  | OpError id =>
      match fs_listeners s !! id with
      | Some (typ, _) => if bool_decide (id ∈ fs_failed s) then on_error id typ s else s
      | None => s
      end
  | OpEventLoop k => eventLoop_uninstall k s
  | OpPoll id => (GetFilterChanges id s).1
  | OpUninstall id => (UninstallFilter id s).1
  | OpDeadline id => deadline_fires id s
  | OpTick => timeoutLoop s
  end.
End Backend.
End Logs.
End RpcFilters.
