(* ===== verification/RpcFiltersTheorems.v ===== *)
(** * Logs are found

    [eth_getLogs] answers the logs of the range that match, although it skips
    blocks by their bloom filters; a polled filter delivers every log it received
    once and in order. *)

From stdpp Require Import base gmap list numbers strings.
From Stdlib Require Import ZArith Lia.
From S2P Require Import Prelude SdkMath Scaling AccessList StateDB StateDBCommit VmStore Concrete FeeMarket TxData TxDataTheorems StateTransition StateTransitionTheorems VmParams Ante RpcEvents RpcEventsTheorems RpcFilters.
Import RpcFilters.

(** ** Texts of logs and of bloom filters *)

Lemma string_bytes_string b : Forall (fun z => 0 <= z < 256) b -> string_bytes (bytes_string b) = b.
Proof.
  intros Hb. unfold string_bytes, bytes_string. rewrite String.list_ascii_of_string_of_list_ascii, map_map.
  induction Hb as [|z b Hz _ IH]; [done|]. cbn [map]. rewrite IH, Ascii.nat_ascii_embedding by lia. f_equal. lia.
Qed.

Lemma be_bytes_range n v : Forall (fun z => 0 <= z < 256) (be_bytes n v).
Proof.
  revert v. induction n as [|n IH]; intros v; cbn; [constructor|]. apply Forall_app. split; [apply IH|]. apply Forall_singleton, Z.mod_pos_bound. lia.
Qed.

Definition bloom_ok (b : Z) : Prop := 0 <= b < 2 ^ 2048.

Lemma lor_range a b n : 0 <= n -> 0 <= a < 2 ^ n -> 0 <= b < 2 ^ n -> 0 <= Z.lor a b < 2 ^ n.
Proof.
  intros Hn Ha Hb. split; [apply Z.lor_nonneg; lia|].
  destruct (Z.eq_dec (Z.lor a b) 0) as [->|Hne]; [apply Z.pow_pos_nonneg; lia|].
  apply Z.log2_lt_pow2; [pose proof (proj2 (Z.lor_nonneg a b)); lia|]. rewrite Z.log2_lor by lia.
  destruct (Z.eq_dec n 0) as [->|]; [cbn in *; assert (a = 0) by lia; assert (b = 0) by lia; by subst|].
  apply Z.max_lub_lt; [destruct (Z.eq_dec a 0) as [->|]|destruct (Z.eq_dec b 0) as [->|]]; try (cbn; lia); apply Z.log2_lt_pow2; lia.
Qed.

(** a log whose fields have their width *)
Definition log_ok (l : ethLog) : Prop :=
  addr_ok (log_Address l) /\ Forall hash_ok (log_Topics l) /\ hash_ok (log_TxHash l) /\ hash_ok (log_BlockHash l).

Section Reading.
Context `{!EthHex}.

Lemma log_roundtrip l : log_ok l -> ToEthereum (NewLogFromEth l) = l.
Proof.
  intros (Ha & Ht & Hh & Hb). destruct l as [a t d n h i b x r]. unfold ToEthereum, NewLogFromEth. cbn in *.
  rewrite HexToAddress_Hex, !HexToHash_String, map_map by done. f_equal.
  rewrite <-(map_id t) at 2. apply map_ext_Forall. eapply Forall_impl; [exact Ht|]. intros x' Hx. by apply HexToHash_String.
Qed.

Lemma bloom_roundtrip (bloom : Z) others : bloom_ok bloom ->
  Forall (fun e => ev_Type e <> EventTypeBlockBloom) others -> forall rest txs,
  BlockBloom (mkBlockResults txs (others ++ EmitBlockBloomEvent bloom :: rest)) = Ok bloom.
Proof.
  intros Hb Ho rest txs. unfold BlockBloom. cbn [br_FinalizeBlockEvents]. induction Ho as [|e others He _ IH].
  - change (BytesToBloom (string_bytes (bytes_string (be_bytes BloomByteLength bloom))) = Ok bloom).
    rewrite string_bytes_string by apply be_bytes_range. unfold BytesToBloom. rewrite be_bytes_length. change (BloomByteLength <? BloomByteLength)%nat with false.
    cbv iota. rewrite be_value_bytes; [done|]. exact Hb.
  - cbn [app bloom_of_events]. destruct (String.eqb_spec (ev_Type e) EventTypeBlockBloom); [done|]. cbn [negb]. exact IH.
Qed.

(** ** What matches *)

(** the logs of the addresses, with a topic of each rule at its position *)
Definition matches (addresses : list address) (topics : list (list hash)) (l : ethLog) : Prop :=
  (addresses = [] \/ log_Address l ∈ addresses) /\
  forall i sub, topics !! i = Some sub -> exists t, log_Topics l !! i = Some t /\ (sub = [] \/ t ∈ sub).

Lemma includes_spec addresses a : includes addresses a = true <-> a ∈ addresses.
Proof.
  induction addresses as [|b l IH]; cbn; [by rewrite elem_of_nil|]. rewrite elem_of_cons, <-IH.
  destruct (Z.eqb_spec b a) as [->|Hn]; [naive_solver|]. split; [naive_solver|]. intros [->|]; [done|done].
Qed.

Lemma rule_spec sub (ts : list hash) i : (i < length ts)%nat ->
  match sub with [] => true | _ => existsb (fun t => bool_decide (ts !! i = Some t)) sub end = true <->
  exists t, ts !! i = Some t /\ (sub = [] \/ t ∈ sub).
Proof.
  intros Hi. destruct (lookup_lt_is_Some_2 ts i Hi) as [t Ht]. rewrite Ht. destruct sub as [|u sub]; [naive_solver|].
  rewrite existsb_exists. split.
  - intros (x & Hx & He). rewrite <-list_elem_of_In in Hx. case_bool_decide; [|done]. naive_solver.
  - intros (x & [= <-] & [|Hx]); [done|]. exists t. rewrite <-list_elem_of_In. split; [done|]. by rewrite bool_decide_true.
Qed.

Lemma match_topics_spec topics k ts : (k + length topics <= length ts)%nat ->
  match_topics topics k ts = true <-> forall i sub, topics !! i = Some sub -> exists t, ts !! (k + i)%nat = Some t /\ (sub = [] \/ t ∈ sub).
Proof.
  revert k. induction topics as [|sub topics IH]; intros k Hl; cbn [match_topics length] in *; [naive_solver|].
  pose proof (rule_spec sub ts k ltac:(lia)) as Hr. set (m := match sub with [] => true | _ => _ end) in *. split.
  - destruct m; [|done]. rewrite IH by lia. intros Hall [|i] s Hs.
    + injection Hs as <-. rewrite Nat.add_0_r. by apply Hr.
    + replace (k + S i)%nat with (S k + i)%nat by lia. by apply Hall.
  - intros Hall. assert (m = true) as -> by (apply Hr; specialize (Hall 0%nat sub eq_refl); by rewrite Nat.add_0_r in Hall).
    apply IH; [lia|]. intros i s Hs. replace (S k + i)%nat with (k + S i)%nat by lia. by apply Hall.
Qed.

Lemma topics_spec topics ts :
  (if (length ts <? length topics)%nat then false else match_topics topics 0 ts) = true <->
  forall i sub, topics !! i = Some sub -> exists t, ts !! i = Some t /\ (sub = [] \/ t ∈ sub).
Proof.
  destruct (Nat.ltb_spec (length ts) (length topics)) as [Hl|Hl]; [|by rewrite match_topics_spec].
  split; [done|]. intros Hall. exfalso. destruct (lookup_lt_is_Some_2 topics (length ts) Hl) as [sub Hs].
  destruct (Hall _ _ Hs) as (t & Ht & _). apply lookup_lt_Some in Ht. lia.
Qed.

Lemma keep_log_spec addresses topics l : keep_log None None addresses topics l = true <-> matches addresses topics l.
Proof.
  unfold keep_log, matches. rewrite <-topics_spec. set (t := if (_ <? _)%nat then _ else _). clearbody t. destruct addresses as [|a addresses].
  - change (0 <? length [])%nat with false. cbn [andb]. naive_solver.
  - change (0 <? length (a :: addresses))%nat with true. cbn [andb]. rewrite <-includes_spec.
    destruct (includes (a :: addresses) (log_Address l)); cbn [negb]; naive_solver.
Qed.
End Reading.

Section Range.
Context `{!EthHex} (json_Unmarshal : string -> res Log) (BloomLookup : Z -> bytes -> bool) `{!FilterBackend}.

#[export] Instance matches_dec addresses topics l : Decision (matches addresses topics l).
Proof.
  destruct (keep_log None None addresses topics l) eqn:E; [left|right]; rewrite <-keep_log_spec; [done|]. by rewrite E.
Defined.

Lemma FilterLogs_matches logs addresses topics : FilterLogs logs None None addresses topics = filter (matches addresses topics) logs.
Proof.
  unfold FilterLogs. induction logs as [|l logs IH]; [done|]. rewrite filter_cons. cbn [List.filter]. rewrite IH.
  pose proof (keep_log_spec addresses topics l) as Hk. destruct (decide (matches addresses topics l)), (keep_log None None addresses topics l); naive_solver.
Qed.

(** the bloom filter has the address and the topics of a log *)
Definition covers (bloom : Z) (l : ethLog) : Prop :=
  BloomLookup bloom (be_bytes 20 (log_Address l)) = true /\ Forall (fun t => BloomLookup bloom (be_bytes 32 t) = true) (log_Topics l).

Lemma bloomFilter_sound bloom addresses topics l :
  covers bloom l -> matches addresses topics l -> bloomFilter BloomLookup bloom addresses topics = true.
Proof.
  intros [Ha Ht] [Hm Hrules]. unfold bloomFilter. rewrite Forall_forall in Ht.
  assert (Hin : (0 <? length addresses)%nat && negb (existsb (fun a => BloomLookup bloom (be_bytes 20 a)) addresses) = false).
  { destruct Hm as [->|Hm]; [done|]. apply andb_false_iff. right. apply negb_false_iff, existsb_exists. exists (log_Address l).
    by rewrite <-list_elem_of_In. }
  rewrite Hin. apply forallb_forall. intros sub Hsub. rewrite <-list_elem_of_In in Hsub. apply list_elem_of_lookup in Hsub as [i Hi].
  destruct (Hrules i sub Hi) as (t & Hlt & Hor). destruct sub as [|u sub]; [done|]. destruct Hor as [|Hor]; [done|].
  apply existsb_exists. exists t. rewrite <-list_elem_of_In. split; [done|]. apply Ht. by eapply list_elem_of_lookup_2.
Qed.

(** the block results of a height carry these logs, and a filter that covers them *)
Definition block_has (h : Z) (logs : list ethLog) : Prop :=
  exists br bloom lls, TendermintBlockResultByNumber h = Ok br /\ BlockBloom br = Ok bloom /\
    GetLogsFromBlockResults json_Unmarshal br = Ok lls /\ concat lls = logs /\ Forall (covers bloom) logs.

Abbreviation hits crit := (filter (matches (fc_Addresses crit) (fc_Topics crit))).

Lemma blockLogs_spec crit br bloom lls :
  GetLogsFromBlockResults json_Unmarshal br = Ok lls -> Forall (covers bloom) (concat lls) ->
  blockLogs json_Unmarshal BloomLookup crit br bloom = Ok (hits crit (concat lls)).
Proof.
  intros Hl Hc. unfold blockLogs. destruct (bloomFilter BloomLookup bloom (fc_Addresses crit) (fc_Topics crit)) eqn:Eb; cbn [negb].
  - by rewrite Hl, FilterLogs_matches.
  - f_equal. clear Hl. induction Hc as [|l ls Hl _ IH]; [done|]. rewrite filter_cons, decide_False; [exact IH|].
    intros Hm. by rewrite (bloomFilter_sound bloom _ _ l Hl Hm) in Eb.
Qed.

Lemma range_logs_spec crit limit (chain : Z -> list ethLog) n logs height :
  Z.of_nat (length logs) <= limit ->
  (forall h, height <= h < height + Z.of_nat n -> block_has h (chain h)) ->
  let found := logs ++ hits crit (concat (map chain (seqZ height (Z.of_nat n)))) in
  range_logs json_Unmarshal BloomLookup crit limit logs height n =
    if limit <? Z.of_nat (length found) then Err ErrLogLimit else Ok (Some found).
Proof.
  revert logs height. induction n as [|n IH]; intros logs height Hlim Hall; cbn zeta.
  { cbn. rewrite app_nil_r. destruct (Z.ltb_spec limit (Z.of_nat (length logs))); [lia|done]. }
  rewrite Nat2Z.inj_succ, seqZ_cons, Z.pred_succ by lia. cbn [map concat range_logs]. rewrite filter_app.
  destruct (Hall height ltac:(lia)) as (br & bloom & lls & -> & -> & Hl & Hc & Hcov). cbn [mbind res_bind].
  rewrite (blockLogs_spec crit br bloom lls) by (congruence || by rewrite Hc). rewrite Hc. cbn [mbind res_bind]. rewrite app_assoc.
  set (here := logs ++ hits crit (chain height)). replace (length logs + length (hits crit (chain height)))%nat with (length here) by apply length_app.
  destruct (Z.ltb_spec limit (Z.of_nat (length here))).
  - rewrite length_app. destruct (Z.ltb_spec limit (Z.of_nat (length here + length (hits crit (concat (map chain (seqZ (Z.succ height) (Z.of_nat n)))))))); [done|lia].
  - rewrite <-Z.add_1_r. apply IH; [lia|]. intros h Hh. apply Hall. lia.
Qed.

(** the bounds of a query: the latest block when there is none *)
Definition bound (o : option Z) : Z := match o with Some b => to_int64 b | None => LatestBlockNumber end.

Lemma to_int64_id z : - 2 ^ 63 <= z <= max_int64 -> to_int64 z = z.
Proof.
  unfold to_int64, max_int64. intros Hz. cbv zeta. destruct (Z.le_gt_cases 0 z).
  - rewrite Z.mod_small by lia. destruct (Z.leb_spec z (2 ^ 63 - 1)); lia.
  - replace (z `mod` 2 ^ 64) with (z + 2 ^ 64) by (apply (Z.mod_unique _ _ (-1)); lia).
    destruct (Z.leb_spec (z + 2 ^ 64) (2 ^ 63 - 1)); lia.
Qed.

Lemma to_int64_range z : - 2 ^ 63 <= to_int64 z <= max_int64.
Proof.
  unfold to_int64, max_int64. cbv zeta. pose proof (Z.mod_pos_bound z (2 ^ 64) ltac:(lia)).
  destruct (Z.leb_spec (z `mod` 2 ^ 64) (2 ^ 63 - 1)); lia.
Qed.

Lemma to_int64_bound o : to_int64 (bound o) = bound o.
Proof. destruct o as [b|]; [apply to_int64_id, to_int64_range|done]. Qed.

(** a query over a range, by the logs of its blocks *)
Lemma GetLogs_range keccak6 crit head (chain : Z -> list ethLog) :
  fc_BlockHash crit = None -> HeaderByNumber_latest = Ok (Some head) -> head <= max_int64 -> 0 <= RPCLogsCap ->
  let from := clamp_bound head (bound (fc_FromBlock crit)) in
  let to := clamp_bound head (bound (fc_ToBlock crit)) in
  1 <= from <= to -> to <= head -> to - from <= RPCBlockRangeCap ->
  (forall h, from <= h <= to -> block_has h (chain h)) ->
  let found := hits crit (concat (map chain (seqZ from (to - from + 1)))) in
  GetLogs json_Unmarshal BloomLookup keccak6 crit = if RPCLogsCap <? Z.of_nat (length found) then Err ErrLogLimit else Ok found.
Proof.
  intros Hhash Hhead Hmax Hcap from to Hfrom Hto Hrange Hall found. unfold GetLogs, query_filter. rewrite Hhash.
  change (flt_criteria (NewRangeFilter _ _ _ _ _)) with (mkCriteria None (Some (bound (fc_FromBlock crit))) (Some (bound (fc_ToBlock crit))) (fc_Addresses crit) (fc_Topics crit)).
  unfold Filter_Logs. rewrite Hhead. cbn [fc_BlockHash fc_FromBlock fc_ToBlock]. rewrite !to_int64_bound. fold from to.
  rewrite to_int64_small by (unfold max_int64 in *; lia). destruct (Z.ltb_spec RPCBlockRangeCap (to - from)); [lia|].
  destruct (Z.ltb_spec head from); [lia|]. unfold maxToOverhang. destruct (Z.ltb_spec (head + 600) to); [lia|].
  rewrite (range_logs_spec _ _ chain).
  - cbn [app fc_Addresses fc_Topics]. rewrite Z2Nat.id by lia. fold found. by destruct (RPCLogsCap <? Z.of_nat (length found)).
  - cbn. lia.
  - intros h Hh. apply Hall. lia.
Qed.
End Range.

(** ** The logs of executed blocks *)

Section Executed.
Context {auth acct bank event : Type} `{!AccountKeeper auth acct} `{!BankKeeper bank}.
Context `{!SdkMath} `{!EvmEnv} `{!EthHex}.
Abbreviation vstore := (@VmKeeper.evmStore auth bank).
Context `{!MultiStore vstore}.
Variable IntrinsicGas : bytes -> ethAccessList -> bool -> bool -> bool -> res Z.
Variable evm : @EVM vstore event.
Variable logsBloom : list ethLog -> Z.
Variable json_log : ethLog -> res string.
Variable cometHash : bytes -> string.
Variable json_Unmarshal : string -> res Log.
Variable BloomLookup : Z -> bytes -> bool.
Implicit Types s : @txState auth bank.

(** a log in JSON is read back; a bloom filter has what was put in it, also after
    more was added *)
Hypothesis json_roundtrip : forall l v, json_log l = Ok v -> json_Unmarshal v = Ok (NewLogFromEth l).
Hypothesis lookup_lor : forall a b x, BloomLookup a x = true -> BloomLookup (Z.lor a b) x = true.
Hypothesis logsBloom_covers : forall logs l, l ∈ logs -> covers BloomLookup (logsBloom logs) l.
Hypothesis logsBloom_ok : forall logs, bloom_ok (logsBloom logs).

Lemma covers_lor a b l : covers BloomLookup a l -> covers BloomLookup (Z.lor a b) l.
Proof. intros [Ha Ht]. split; [by apply lookup_lor|]. eapply Forall_impl; [exact Ht|]. intros t. apply lookup_lor. Qed.

Lemma ApplyTransaction_bloom msg bh th rules mult s s' r :
  ApplyTransaction IntrinsicGas evm logsBloom msg bh th rules mult s = (s', Ok r) ->
  ts_bloom s' = match r_Logs r with [] => ts_bloom s | _ => Z.lor (ts_bloom s) (logsBloom (r_Logs r)) end.
Proof.
  unfold ApplyTransaction. destruct (ApplyMessageWithConfig _ _ _ _ _ _ _ _ _) as [tmp [rsp|e|e]].
  2: { destruct (ResetGasMeterAndConsumeGas _ _) as [g [?|?|?]]; done. }
  2: done.
  destruct (RefundGas _ _ _ _) as [b rr]. cbv zeta. intros E. apply st_bind_Ok_inv in E as (s1 & [] & [= <- ->] & E).
  set (s2 := SetTxIndexTransient _ _) in E.
  assert (Hi : ts_bloom s2 = match r_Logs rsp with [] => ts_bloom s | _ => Z.lor (ts_bloom s) (logsBloom (r_Logs rsp)) end)
    by (unfold s2; destruct (r_Logs rsp), (Failed rsp); done).
  clearbody s2. apply st_bind_Ok_inv in E as (s3 & total & Ha & E). unfold AddTransientGasUsed in Ha.
  destruct (Z.ltb_spec (wrap64 (ts_gasUsed s2 + r_GasUsed rsp)) (r_GasUsed rsp)); [done|]. injection Ha as <- <-. destruct (ResetGasMeterAndConsumeGas _ _) as [g rg].
  apply st_bind_Ok_inv in E as (s4 & [] & [= <- ->] & [= <- <-]). done.
Qed.

(** the bloom filter of a state covers these logs *)
Definition collected s (logs : list ethLog) : Prop := bloom_ok (ts_bloom s) /\ Forall (covers BloomLookup (ts_bloom s)) logs.

Lemma collected_tx s s' logs new :
  ts_bloom s' = match new with [] => ts_bloom s | _ => Z.lor (ts_bloom s) (logsBloom new) end ->
  collected s logs -> collected s' (logs ++ new).
Proof.
  intros E [Hok Hc]. unfold collected. rewrite E. destruct new as [|l new]; [by rewrite app_nil_r|]. split.
  - apply lor_range; [lia|done|apply logsBloom_ok].
  - apply Forall_app. split.
    + eapply Forall_impl; [exact Hc|]. intros x. apply covers_lor.
    + rewrite Forall_forall. intros x Hx. rewrite Z.lor_comm. by apply covers_lor, logsBloom_covers.
Qed.

Lemma parse_emitted logs attrs :
  Forall log_ok logs -> log_attrs json_log logs = Ok attrs ->
  ParseTxLogsFromEvent json_Unmarshal (mkEvent EventTypeTxLog attrs) = Ok logs.
Proof.
  intros Hok Ha. unfold ParseTxLogsFromEvent. cbn [ev_Attributes].
  assert (Hp : parse_log_attrs json_Unmarshal attrs = Ok (NewLogsFromEth logs)).
  { clear Hok. revert attrs Ha. induction logs as [|l logs IH]; intros attrs Ha; cbn in Ha; [by injection Ha as <-|].
    destruct (json_log l) as [v|e|e] eqn:Ev; [|done..]. apply bind_Ok_inv in Ha as (r & Hr & [= <-]). cbn. rewrite (json_roundtrip _ _ Ev). cbn.
    by rewrite (IH r Hr). }
  rewrite Hp. cbn. f_equal. unfold LogsToEthereum, NewLogsFromEth. rewrite map_map.
  clear Hp Ha. induction Hok as [|l ls Hl _ IH]; [done|]. cbn. by rewrite log_roundtrip, IH.
Qed.

Lemma AllTxLogs_app a b la lb :
  AllTxLogsFromEvents json_Unmarshal a = Ok la -> AllTxLogsFromEvents json_Unmarshal b = Ok lb ->
  AllTxLogsFromEvents json_Unmarshal (a ++ b) = Ok (la ++ lb).
Proof.
  revert la. induction a as [|e a IH]; intros la Ha Hb; cbn in *; [by injection Ha as <-|].
  destruct (negb _); [by apply IH|]. apply bind_Ok_inv in Ha as (logs & -> & Ha). apply bind_Ok_inv in Ha as (all & Hall & [= <-]).
  cbn. by rewrite (IH all).
Qed.

Abbreviation run_msgs := (run_msgs IntrinsicGas evm logsBloom json_log cometHash).

(** the events of the messages carry their logs *)
Lemma run_msgs_logs txBytes bh rules mult xs s events s' events' rs pre logs :
  run_msgs txBytes bh rules mult xs (s, events) = ((s', events'), Ok rs) ->
  Forall log_ok (concat (map r_Logs rs)) -> AllTxLogsFromEvents json_Unmarshal events = Ok pre -> collected s logs ->
  AllTxLogsFromEvents json_Unmarshal events' = Ok (pre ++ map r_Logs rs) /\ collected s' (logs ++ concat (map r_Logs rs)).
Proof.
  revert s events rs pre logs. induction xs as [|x xs IH]; intros s events rs pre logs Hrun Hok Hpre Hcol; cbn in Hrun.
  { injection Hrun as <- <- <-. cbn. by rewrite !app_nil_r. }
  apply st_bind_Ok_inv in Hrun as ([s1 ev1] & r & Ex & E). apply st_bind_Ok_inv in E as ([s2 ev2] & rs' & Er & [= -> -> <-]).
  cbn [map concat] in *. apply Forall_app in Hok as [Hr Hrs]. unfold RpcEvents.EthereumTx in Ex.
  destruct (ApplyTransaction _ _ _ _ _ _ _ _ _) as [s3 [rsp|e|e]] eqn:Ea; [|done..].
  destruct (log_attrs json_log (r_Logs rsp)) as [attrs|e|e] eqn:El; [|done..]. injection Ex as <- <- <-.
  pose proof (collected_tx s s3 logs (r_Logs rsp) (ApplyTransaction_bloom _ _ _ _ _ _ _ _ Ea) Hcol) as Hcol1.
  destruct (IH s3 _ rs' (pre ++ [r_Logs rsp]) (logs ++ r_Logs rsp) Er Hrs) as [Hev Hc]; [|exact Hcol1|].
  - apply AllTxLogs_app; [done|]. cbn -[ParseTxLogsFromEvent]. by rewrite (parse_emitted _ _ Hr El).
  - rewrite <-!app_assoc in *. done.
Qed.

(** A block: Ethereum transactions, and others that emit no logs. Between them
    nothing changes the bloom filter. *)
Inductive block_run : txState -> list ExecTxResult -> list ethLog -> txState -> Prop :=
| block_nil s : block_run s [] [] s
| block_tx s s1 s2 s' txBytes bh rules mult xs events rs r results logs :
    ts_bloom s1 = ts_bloom s -> Forall (fun e => ev_Type e <> EventTypeTxLog) events ->
    run_msgs txBytes bh rules mult xs (s1, events) = ((s2, er_Events r), Ok rs) -> Forall log_ok (concat (map r_Logs rs)) ->
    block_run s2 results logs s' -> block_run s (r :: results) (concat (map r_Logs rs) ++ logs) s'
| block_other s s1 s' r results logs :
    ts_bloom s1 = ts_bloom s -> Forall (fun e => ev_Type e <> EventTypeTxLog) (er_Events r) ->
    block_run s1 results logs s' -> block_run s (r :: results) logs s'.

Lemma no_logs events : Forall (fun e => ev_Type e <> EventTypeTxLog) events -> AllTxLogsFromEvents json_Unmarshal events = Ok [].
Proof. induction 1 as [|e l He _ IH]; [done|]. cbn. by destruct (String.eqb_spec (ev_Type e) EventTypeTxLog). Qed.

Lemma block_run_logs s results logs s' before :
  block_run s results logs s' -> collected s before ->
  exists lls, block_results_logs json_Unmarshal results = Ok lls /\ concat lls = logs /\ collected s' (before ++ logs).
Proof.
  intros Hrun. revert before. induction Hrun as [s|s s1 s2 s' txBytes bh rules mult xs events rs r results logs Hb Hno Hmsgs Hok _ IH|s s1 s' r results logs Hb Hno _ IH];
    intros before Hcol.
  - exists []. by rewrite app_nil_r.
  - assert (Hcol1 : collected s1 before) by (unfold collected in *; by rewrite Hb).
    destruct (run_msgs_logs _ _ _ _ _ _ _ _ _ _ _ _ Hmsgs Hok (no_logs _ Hno) Hcol1) as [Hev Hcol2].
    destruct (IH _ Hcol2) as (lls & Hl & Hc & Hcol'). cbn [block_results_logs]. rewrite Hev. cbn. rewrite Hl. cbn.
    eexists. split; [done|]. split; [by rewrite concat_app, Hc|by rewrite app_assoc].
  - assert (Hcol1 : collected s1 before) by (unfold collected in *; by rewrite Hb).
    destruct (IH _ Hcol1) as (lls & Hl & Hc & Hcol'). cbn [block_results_logs]. rewrite (no_logs _ Hno). cbn. rewrite Hl. by exists lls.
Qed.

(** the chain up to its head: the blocks were executed, from an empty bloom
    filter, and their results are as the end of the block left them *)
Definition executed_chain `{!FilterBackend} (head : Z) (chain : Z -> list ethLog) : Prop :=
  forall h, 1 <= h <= head -> exists s results s' others rest,
    block_run s results (chain h) s' /\ ts_bloom s = 0 /\
    Forall (fun e => ev_Type e <> EventTypeBlockBloom) others /\
    TendermintBlockResultByNumber h = Ok (mkBlockResults results (others ++ EndBlock s' ++ rest)).

Lemma executed_has `{!FilterBackend} head chain h :
  executed_chain head chain -> 1 <= h <= head -> block_has json_Unmarshal BloomLookup h (chain h).
Proof.
  intros Hchain Hh. destruct (Hchain h Hh) as (s & results & s' & others & rest & Hrun & Hzero & Ho & Hr).
  destruct (block_run_logs s results (chain h) s' [] Hrun) as (lls & Hl & Hc & [Hok Hcov]); [unfold collected; rewrite Hzero; by split|].
  eexists _, (ts_bloom s'), lls. split; [exact Hr|]. split_and!; [|exact Hl|exact Hc|exact Hcov].
  by apply bloom_roundtrip.
Qed.

(** C30: [eth_getLogs] over a range of executed blocks answers exactly the logs that
    the transactions of these blocks emitted, in order, that are of one of the
    addresses and have a topic of every rule at its position; or the error of the
    limit when there are more. Blocks are skipped by the bloom filter that was
    collected during the block and read from its events, logs are read from the
    events of the transactions; neither loses any. *)
Theorem get_logs_complete `{!FilterBackend} keccak6 crit head (chain : Z -> list ethLog) :
  executed_chain head chain -> fc_BlockHash crit = None -> HeaderByNumber_latest = Ok (Some head) -> head <= max_int64 -> 0 <= RPCLogsCap ->
  let from := clamp_bound head (bound (fc_FromBlock crit)) in
  let to := clamp_bound head (bound (fc_ToBlock crit)) in
  1 <= from <= to -> to <= head -> to - from <= RPCBlockRangeCap ->
  let found := filter (matches (fc_Addresses crit) (fc_Topics crit)) (concat (map chain (seqZ from (to - from + 1)))) in
  GetLogs json_Unmarshal BloomLookup keccak6 crit = if RPCLogsCap <? Z.of_nat (length found) then Err ErrLogLimit else Ok found.
Proof.
  intros Hchain Hhash Hhead Hmax Hcap from to Hft Hth Hrange. apply (GetLogs_range _ _ _ crit head); try done.
  intros h Hh. apply (executed_has head); [done|]. lia.
Qed.
End Executed.

(** ** Polled filters *)

Section Polling.
Context `{!EthHex} `{!FilterBackend}.

Definition run (ops : list op) (s : filterSystem) : filterSystem := fold_left (fun s o => step o s) ops s.

(** the operations that do not create filter [id]; identifiers are not reused *)
Definition not_new (id : Z) (o : op) : Prop :=
  match o with OpNewFilter i _ _ | OpNewBlockFilter i _ | OpNewPendingFilter i _ => i <> id | _ => True end.

(** a goroutine waits for events on an open channel *)
Definition listens (id : Z) (s : filterSystem) : bool :=
  match fs_listeners s !! id with Some _ => negb (bool_decide (id ∈ fs_closed s)) | None => false end.

(** the logs that an operation brings to filter [id]: the matching logs of the
    first response in the event *)
Definition step_in (id : Z) (crit : FilterCriteria) (o : op) (s : filterSystem) : list ethLog :=
  match o with
  | OpEvent i (EventDataTx (Some (logs :: _)) _) =>
      if bool_decide (i = id) && listens id s then
        FilterLogs (LogsToEthereum logs) (fc_FromBlock crit) (fc_ToBlock crit) (fc_Addresses crit) (fc_Topics crit)
      else []
  | _ => []
  end.

(** the logs that an operation answers to the client of filter [id] *)
Definition step_out (id : Z) (o : op) (s : filterSystem) : list ethLog :=
  match o with
  | OpPoll i => if bool_decide (i = id) then match (GetFilterChanges id s).2 with Ok (Logs ls) => ls | _ => [] end else []
  | _ => []
  end.

Fixpoint received (id : Z) (crit : FilterCriteria) (ops : list op) (s : filterSystem) : list ethLog :=
  match ops with [] => [] | o :: ops => step_in id crit o s ++ received id crit ops (step o s) end.
Fixpoint polled (id : Z) (ops : list op) (s : filterSystem) : list ethLog :=
  match ops with [] => [] | o :: ops => step_out id o s ++ polled id ops (step o s) end.

(** the matching logs of all the responses in the events that reach the filter *)
Definition step_in_all (id : Z) (crit : FilterCriteria) (o : op) (s : filterSystem) : list ethLog :=
  match o with
  | OpEvent i (EventDataTx (Some responses) _) =>
      if bool_decide (i = id) && listens id s then
        FilterLogs (LogsToEthereum (concat responses)) (fc_FromBlock crit) (fc_ToBlock crit) (fc_Addresses crit) (fc_Topics crit)
      else []
  | _ => []
  end.
Fixpoint received_all (id : Z) (crit : FilterCriteria) (ops : list op) (s : filterSystem) : list ethLog :=
  match ops with [] => [] | o :: ops => step_in_all id crit o s ++ received_all id crit ops (step o s) end.

(** an event has at most one response: its transaction has one Ethereum message *)
Definition one_response (o : op) : Prop :=
  match o with OpEvent _ (EventDataTx (Some (_ :: _ :: _)) _) => False | _ => True end.

Lemma step_in_sublist id crit o s : step_in id crit o s `sublist_of` step_in_all id crit o s.
Proof.
  destruct o as [| | |i [[[|r rs]|] hs| |]| | | | | | |]; cbn; try done; try apply sublist_nil_l.
  destruct (bool_decide (i = id) && listens id s); [|done]. unfold FilterLogs, LogsToEthereum. rewrite map_app, List.filter_app.
  by apply sublist_inserts_r.
Qed.

Lemma step_in_one id crit o s : one_response o -> step_in id crit o s = step_in_all id crit o s.
Proof.
  destruct o as [| | |i [[[|r [|]]|] hs| |]| | | | | | |]; cbn; try done; intros _; [by case_match|]. by rewrite app_nil_r.
Qed.

Lemma received_sublist id crit ops s : received id crit ops s `sublist_of` received_all id crit ops s.
Proof. revert s. induction ops as [|o ops IH]; intros s; [done|]. cbn. apply sublist_app; [apply step_in_sublist|apply IH]. Qed.

Lemma received_one id crit ops s : Forall one_response ops -> received id crit ops s = received_all id crit ops s.
Proof. intros Ho. revert s. induction Ho as [|o ops Ho _ IH]; intros s; [done|]. cbn. by rewrite step_in_one, IH. Qed.

Lemma subscribe_filters id typ crit ws s : fs_filters (subscribe id typ crit ws s).1 = fs_filters s.
Proof. unfold subscribe. repeat case_match; done. Qed.

Lemma subscribe_listeners id typ crit ws s i : i <> id -> fs_listeners (subscribe id typ crit ws s).1 !! i = fs_listeners s !! i.
Proof. intros Hi. unfold subscribe. repeat case_match; cbn; [by rewrite lookup_insert_ne| |]; try done. by rewrite lookup_insert_ne. Qed.

(** another filter is created *)
Lemma install_other id i f sub s :
  i <> id -> fs_filters (sub s).1 = fs_filters s -> fs_listeners (sub s).1 !! id = fs_listeners s !! id ->
  fs_filters (install_filter i f sub s).1 !! id = fs_filters s !! id /\ fs_listeners (install_filter i f sub s).1 !! id = fs_listeners s !! id.
Proof.
  intros Hi Hf Hl. unfold install_filter. case_match; [done|]. destruct (sub s) as [s1 [u|e|e]]; cbn in *; rewrite ?Hf; [|done..].
  by rewrite lookup_insert_ne.
Qed.

Lemma update_filters id i g s :
  fs_filters (update_filter i g s) !! id = if decide (i = id) then g <$> fs_filters s !! id else fs_filters s !! id.
Proof.
  unfold update_filter. destruct (fs_filters s !! i) as [f|] eqn:E; cbn; case_decide as Hi; subst; rewrite ?E; try done.
  - by rewrite lookup_insert_eq.
  - by rewrite lookup_insert_ne.
Qed.

Lemma update_listeners i g s : fs_listeners (update_filter i g s) = fs_listeners s.
Proof. unfold update_filter. by case_match. Qed.

Lemma timeout_state id s :
  (fs_filters (timeoutLoop s) !! id = None \/ fs_filters (timeoutLoop s) !! id = fs_filters s !! id) /\
  fs_listeners (timeoutLoop s) = fs_listeners s.
Proof.
  unfold timeoutLoop. generalize (filter (fun p : Z * polledFilter => f_expired p.2 = true) (map_to_list (fs_filters s))). intros l.
  revert s. induction l as [|[i f] l IH]; intros s; cbn [fold_left]; [by split; [right|]|].
  destruct (IH (Unsubscribe i (f_typ f) (with_filters (delete i (fs_filters s)) s))) as [[Hn|He] Hl]; (split; [|exact Hl]); [by left|].
  destruct (decide (i = id)) as [->|]; [left|right]; (etransitivity; [exact He|]); cbn; [by rewrite lookup_delete_eq|by rewrite lookup_delete_ne].
Qed.

Lemma eventLoop_state k s :
  fs_filters (eventLoop_uninstall k s) = fs_filters s /\ fs_listeners (eventLoop_uninstall k s) = fs_listeners s.
Proof. unfold eventLoop_uninstall. repeat case_match; done. Qed.

(** filter [id] exists with its goroutine or without *)
Definition kept (id : Z) (crit : FilterCriteria) (s : filterSystem) (f : polledFilter) : Prop :=
  fs_filters s !! id = Some f /\ f_typ f = LogsSubscription /\
  (fs_listeners s !! id = None \/ fs_listeners s !! id = Some (LogsSubscription, crit)).

Lemma kept_same id crit s s' f :
  fs_filters s' !! id = fs_filters s !! id -> fs_listeners s' !! id = fs_listeners s !! id -> kept id crit s f -> kept id crit s' f.
Proof. unfold kept. by intros -> ->. Qed.

Lemma new_other id i crit ws s typ :
  i <> id -> fs_filters (subscribe i typ crit ws s).1 = fs_filters s /\ fs_listeners (subscribe i typ crit ws s).1 !! id = fs_listeners s !! id.
Proof. intros Hi. split; [apply subscribe_filters|]. by apply subscribe_listeners. Qed.

Lemma SubscribeLogs_other id i crit ws s :
  i <> id -> fs_filters (SubscribeLogs i crit ws s).1 = fs_filters s /\ fs_listeners (SubscribeLogs i crit ws s).1 !! id = fs_listeners s !! id.
Proof. intros Hi. unfold SubscribeLogs. case_match; [by apply new_other|done]. Qed.

(** the event of another filter, or of this one *)
Lemma event_kept id crit i ev s f :
  kept id crit s f ->
  exists f1, kept id crit (step (OpEvent i ev) s) f1 /\ f_logs f1 = f_logs f ++ step_in id crit (OpEvent i ev) s.
Proof.
  intros Hk. unfold step, step_in, listens. destruct (fs_listeners s !! i) as [[typ c]|] eqn:El.
  2: { exists f. split; [done|]. destruct ev as [[[|logs ?]|] ?| |]; rewrite ?app_nil_r; try done. case_bool_decide; [subst; rewrite El|]; by rewrite app_nil_r. }
  destruct (decide (i = id)) as [->|Hi].
  - rewrite (bool_decide_true (id = id)) by done. rewrite El. pose proof Hk as (Hf & Ht & [Hl|Hl]); rewrite Hl in El; [done|]. injection El as <- <-.
    case_bool_decide; cbn [negb andb]; [exists f; split; [done|]; destruct ev as [[[|logs ?]|] ?| |]; by rewrite app_nil_r|].
    destruct ev as [[[|logs ?]|] ?|h|]; cbn [on_event DecodeTxResponse].
    + exists (add_logs [] f). split; [|done]. unfold kept. rewrite update_filters, update_listeners, decide_True, Hf by done. cbn. by split_and!; [| |right].
    + eexists (add_logs _ f). split; [|done]. unfold kept. rewrite update_filters, update_listeners, decide_True, Hf by done. cbn. by split_and!; [| |right].
    + exists f. rewrite app_nil_r. split; [|done]. unfold kept. cbn. rewrite lookup_delete_eq. by split_and!; [| |left].
    + exists f. by rewrite app_nil_r.
    + exists f. by rewrite app_nil_r.
  - assert (Hin : match ev with EventDataTx (Some (logs :: _)) _ => if bool_decide (i = id) && match fs_listeners s !! id with Some _ => negb (bool_decide (id ∈ fs_closed s)) | None => false end then FilterLogs (LogsToEthereum logs) (fc_FromBlock crit) (fc_ToBlock crit) (fc_Addresses crit) (fc_Topics crit) else [] | _ => [] end = []).
    { rewrite (bool_decide_false (i = id)) by done. by destruct ev as [[[|logs ?]|] ?| |]. }
    rewrite Hin. clear Hin. exists f. split; [|by rewrite app_nil_r]. case_bool_decide; [done|].
    assert (Hup : forall g, kept id crit (update_filter i g s) f).
    { intros g. eapply kept_same; [|by rewrite update_listeners|exact Hk]. by rewrite update_filters, decide_False. }
    assert (Hst : kept id crit (stop_listening i s) f) by (apply (kept_same id crit s); [done|cbn; by rewrite lookup_delete_ne|exact Hk]).
    unfold on_event. destruct typ, ev as [r [hs|]|h|]; try done; destruct (DecodeTxResponse r); done.
Qed.

Lemma poll_kept id crit i s f :
  kept id crit s f ->
  exists f1, kept id crit (step (OpPoll i) s) f1 /\ step_out id (OpPoll i) s ++ f_logs f1 = f_logs f.
Proof.
  intros Hk. unfold step, step_out, GetFilterChanges. destruct (decide (i = id)) as [->|Hi].
  - pose proof Hk as (Hf & Ht & Hl). rewrite Hf, Ht, bool_decide_true by done. cbn. eexists. unfold kept. cbn. rewrite lookup_insert_eq.
    split; [by split_and!|]. cbn. by rewrite app_nil_r.
  - rewrite bool_decide_false by done. exists f. split; [|done]. destruct (fs_filters s !! i) as [g|]; [|done].
    destruct (f_typ g); (apply (kept_same id crit s); [|done|exact Hk]); cbn; by rewrite lookup_insert_ne.
Qed.

Lemma step_kept id crit o s f :
  kept id crit s f -> not_new id o ->
  (fs_filters (step o s) !! id = None /\ step_out id o s = []) \/
  exists f1, kept id crit (step o s) f1 /\ step_out id o s ++ f_logs f1 = f_logs f ++ step_in id crit o s.
Proof.
  intros Hk Hn. destruct o as [i c w|i w|i w|i ev|i|i|k|i|i|i|].
  - right. exists f. split; [|by rewrite app_nil_r]. destruct (SubscribeLogs_other id i c w s Hn) as [Hf Hl].
    destruct (install_other id i (mkPolled LogsSubscription c [] [] false) (SubscribeLogs i c w) s Hn Hf Hl) as [E1 E2]. by eapply kept_same.
  - right. exists f. split; [|by rewrite app_nil_r]. destruct (new_other id i empty_criteria w s BlocksSubscription Hn) as [Hf Hl].
    edestruct (install_other id i) as [E1 E2]; [exact Hn|exact Hf|exact Hl|]. eapply kept_same; [exact E1|exact E2|exact Hk].
  - right. exists f. split; [|by rewrite app_nil_r]. destruct (new_other id i empty_criteria w s PendingTransactionsSubscription Hn) as [Hf Hl].
    edestruct (install_other id i) as [E1 E2]; [exact Hn|exact Hf|exact Hl|]. eapply kept_same; [exact E1|exact E2|exact Hk].
  - right. destruct (event_kept id crit i ev s f Hk) as (f1 & Hk1 & Hl). by exists f1.
  - cbn [step step_out step_in]. destruct (fs_listeners s !! i); [|right; exists f; by rewrite app_nil_r].
    case_bool_decide; [|right; exists f; by rewrite app_nil_r]. destruct (decide (i = id)) as [->|]; [left; split; [cbn; by rewrite lookup_delete_eq|done]|].
    right. exists f. rewrite app_nil_r. split; [|done]. apply (kept_same id crit s); [| |exact Hk]; cbn; by rewrite lookup_delete_ne.
  - cbn [step step_out step_in]. destruct (fs_listeners s !! i) as [[t c]|]; [|right; exists f; by rewrite app_nil_r].
    case_bool_decide; [|right; exists f; by rewrite app_nil_r]. destruct (decide (i = id)) as [->|]; [left; split; [destruct t; cbn; by rewrite lookup_delete_eq|done]|].
    right. exists f. rewrite app_nil_r. split; [|done]. apply (kept_same id crit s); [| |exact Hk]; destruct t; cbn; by rewrite ?lookup_delete_ne.
  - right. exists f. rewrite app_nil_r. split; [|done]. destruct (eventLoop_state k s) as [E1 E2]. eapply kept_same; [by cbn; rewrite E1|by cbn; rewrite E2|exact Hk].
  - right. rewrite app_nil_r. by apply poll_kept.
  - cbn [step step_out step_in]. unfold UninstallFilter. destruct (fs_filters s !! i) as [g|]; [|right; exists f; by rewrite app_nil_r].
    destruct (decide (i = id)) as [->|]; [left; split; [cbn; by rewrite lookup_delete_eq|done]|].
    right. exists f. rewrite app_nil_r. split; [|done]. apply (kept_same id crit s); [|done|exact Hk]. cbn. by rewrite lookup_delete_ne.
  - right. rewrite app_nil_r. cbn [step step_out app]. unfold deadline_fires, kept. rewrite update_filters, update_listeners.
    destruct Hk as (Hf & Ht & Hl). case_decide; [|by exists f]. rewrite Hf. cbn. eexists. split; [by split_and!|done].
  - cbn [step step_out step_in]. destruct (timeout_state id s) as [[Hx|He] Hl]; [by left; split|]. right. exists f. rewrite app_nil_r.
    split; [|done]. eapply kept_same; [exact He|by rewrite Hl|exact Hk].
Qed.

(** a filter that is gone does not come back *)
Lemma absent_step id o s : fs_filters s !! id = None -> not_new id o -> fs_filters (step o s) !! id = None.
Proof.
  intros Ha Hn. destruct o as [i c w|i w|i w|i ev|i|i|k|i|i|i|]; cbn [step].
  - destruct (SubscribeLogs_other id i c w s Hn) as [Hf Hl]. unfold NewFilter. by rewrite (proj1 (install_other id i _ _ s Hn Hf Hl)).
  - destruct (new_other id i empty_criteria w s BlocksSubscription Hn) as [Hf Hl]. unfold NewBlocksFilter. by rewrite (proj1 (install_other id i _ _ s Hn Hf Hl)).
  - destruct (new_other id i empty_criteria w s PendingTransactionsSubscription Hn) as [Hf Hl]. unfold NewPendingTransactionFilter.
    by rewrite (proj1 (install_other id i _ _ s Hn Hf Hl)).
  - destruct (fs_listeners s !! i) as [[t c]|]; [|done]. case_bool_decide; [done|].
    assert (Hup : forall g, fs_filters (update_filter i g s) !! id = None) by (intros g; rewrite update_filters, Ha; by case_decide).
    unfold on_event. destruct t, ev as [r [hs|]|h|]; try done; destruct (DecodeTxResponse r); done.
  - destruct (fs_listeners s !! i); [|done]. case_bool_decide; [|done]. cbn. by apply lookup_delete_None; right.
  - destruct (fs_listeners s !! i) as [[t c]|]; [|done]. case_bool_decide; [|done]. destruct t; cbn; by apply lookup_delete_None; right.
  - by rewrite (proj1 (eventLoop_state k s)).
  - unfold GetFilterChanges. destruct (fs_filters s !! i) as [g|] eqn:E; [|done]. assert (i <> id) by (intros ->; by rewrite Ha in E).
    destruct (f_typ g); cbn; by rewrite lookup_insert_ne.
  - unfold UninstallFilter. destruct (fs_filters s !! i); [|done]. cbn. by apply lookup_delete_None; right.
  - unfold deadline_fires. rewrite update_filters, Ha. by case_decide.
  - destruct (timeout_state id s) as [[Hx|He] _]; [done|]. by rewrite He.
Qed.

Lemma absent_run id ops s : fs_filters s !! id = None -> Forall (not_new id) ops -> fs_filters (run ops s) !! id = None.
Proof. intros Ha Hn. revert s Ha. induction Hn as [|o ops Ho _ IH]; intros s Ha; [done|]. cbn. by apply IH, absent_step. Qed.

Lemma absent_polled id ops s : fs_filters s !! id = None -> Forall (not_new id) ops -> polled id ops s = [].
Proof.
  intros Ha Hn. revert s Ha. induction Hn as [|o ops Ho _ IH]; intros s Ha; [done|]. cbn. rewrite (IH _ (absent_step id o s Ha Ho)), app_nil_r.
  destruct o as [| | | | | | |i| | |]; try done. cbn. case_bool_decide; [|done]. unfold GetFilterChanges. by rewrite Ha.
Qed.

Lemma run_kept id crit ops s f :
  kept id crit s f -> Forall (not_new id) ops ->
  exists rest, polled id ops s ++ rest = f_logs f ++ received id crit ops s /\
    forall f', fs_filters (run ops s) !! id = Some f' -> rest = f_logs f'.
Proof.
  intros Hk Hn. revert s f Hk. induction Hn as [|o ops Ho Hn IH]; intros s f Hk.
  { exists (f_logs f). split; [cbn; by rewrite app_nil_r|]. destruct Hk as (Hf & _). cbn. rewrite Hf. by intros f' [= <-]. }
  cbn [polled received run fold_left] in *. destruct (step_kept id crit o s f Hk Ho) as [[Ha Hout]|(f1 & Hk1 & E)].
  - exists (f_logs f ++ step_in id crit o s ++ received id crit ops (step o s)).
    rewrite Hout, (absent_polled id ops _ Ha Hn). split; [done|]. intros f' Hf'.
    pose proof (absent_run id ops _ Ha Hn) as Habs. unfold run in Habs. by rewrite Habs in Hf'.
  - destruct (IH _ f1 Hk1) as (rest & Hr & Hf). exists rest. split; [|exact Hf]. by rewrite <-app_assoc, Hr, !app_assoc, E.
Qed.

Lemma NewFilter_kept id crit wsOk s s1 :
  NewFilter id crit wsOk s = (s1, Ok id) -> kept id crit s1 (mkPolled LogsSubscription crit [] [] false).
Proof.
  intros Hnew. unfold NewFilter, install_filter in Hnew. case_match; [done|]. apply st_bind_Ok_inv in Hnew as (s2 & u & Hs & [= <-]).
  unfold kept. cbn. rewrite lookup_insert_eq. split_and!; [done|done|right]. unfold SubscribeLogs in Hs. case_match; [|done].
  unfold subscribe in Hs. repeat case_match; injection Hs as <-; try done; cbn; by rewrite lookup_insert_eq.
Qed.

(** C31: A filter of logs that is polled delivers what its goroutine received,
    once and in order. What it receives are the matching logs of the first
    response of each event that reaches it while it listens, which are the
    matching logs of all the responses when every event has at most one, and in
    any case some of them in their order. Whatever happens to other filters,
    deadlines and subscriptions meanwhile, the logs that its polls have answered
    are a prefix of those it received; as long as it is installed, they are
    followed by those it keeps for the next poll and nothing is missing. A filter
    that is removed, also by uninstalling another one, loses what it had not
    delivered. *)
Theorem polled_filter_exact id crit wsOk s s1 ops :
  NewFilter id crit wsOk s = (s1, Ok id) -> Forall (not_new id) ops ->
  polled id ops s1 `prefix_of` received id crit ops s1 /\
  (forall f', fs_filters (run ops s1) !! id = Some f' -> polled id ops s1 ++ f_logs f' = received id crit ops s1) /\
  received id crit ops s1 `sublist_of` received_all id crit ops s1 /\
  (Forall one_response ops -> received id crit ops s1 = received_all id crit ops s1).
Proof.
  intros Hnew%NewFilter_kept Hn. destruct (run_kept id crit ops s1 _ Hnew Hn) as (rest & Hr & Hf). cbn in Hr. split_and!.
  - exists rest. by rewrite Hr.
  - intros f' Hf'. by rewrite <-(Hf f' Hf').
  - apply received_sublist.
  - apply received_one.
Qed.
End Polling.

(** ** Exceptions *)

Section Exceptions.
Context `{!EthHex} (json_Unmarshal : string -> res Log) (BloomLookup : Z -> bytes -> bool) (keccak6 : bytes -> bytes) `{!FilterBackend}.

Lemma range_logs_missing crit limit (chain : Z -> list ethLog) n m logs height e :
  (forall h, height <= h < height + Z.of_nat n -> block_has json_Unmarshal BloomLookup h (chain h)) ->
  TendermintBlockResultByNumber (height + Z.of_nat n) = Err e ->
  Z.of_nat (length (logs ++ filter (matches (fc_Addresses crit) (fc_Topics crit)) (concat (map chain (seqZ height (Z.of_nat n)))))) <= limit ->
  range_logs json_Unmarshal BloomLookup crit limit logs height (n + S m) = Ok None.
Proof.
  revert logs height. induction n as [|n IH]; intros logs height Hall He Hlim.
  { rewrite Z.add_0_r in He. cbn [Nat.add range_logs]. by rewrite He. }
  rewrite Nat2Z.inj_succ, seqZ_cons, Z.pred_succ in Hlim by lia. cbn [map concat] in Hlim. rewrite filter_app, app_assoc in Hlim.
  cbn [Nat.add range_logs]. destruct (Hall height ltac:(lia)) as (br & bloom & lls & -> & -> & Hl & Hc & Hcov). cbn [mbind res_bind].
  rewrite (blockLogs_spec _ _ crit br bloom lls) by (congruence || by rewrite Hc). rewrite Hc. cbn [mbind res_bind].
  pose proof Hlim as Hlen. rewrite !length_app in Hlen. match goal with |- (if ?b then _ else _) = _ => replace b with false by (symmetry; apply Z.ltb_ge; lia) end.
  apply IH; [intros h Hh; apply Hall; lia| |by rewrite <-Z.add_1_r in Hlim]. rewrite <-He. f_equal. lia.
Qed.

(** When the range ends after the head, by up to [maxToOverhang] blocks, the logs
    of the blocks that exist are dropped. *)
Theorem overhang_loses_logs crit head (chain : Z -> list ethLog) e :
  fc_BlockHash crit = None -> HeaderByNumber_latest = Ok (Some head) -> head + maxToOverhang <= max_int64 ->
  let from := clamp_bound head (bound (fc_FromBlock crit)) in
  let to := clamp_bound head (bound (fc_ToBlock crit)) in
  1 <= from <= head -> head < to <= head + maxToOverhang -> to - from <= RPCBlockRangeCap ->
  (forall h, from <= h <= head -> block_has json_Unmarshal BloomLookup h (chain h)) -> TendermintBlockResultByNumber (head + 1) = Err e ->
  Z.of_nat (length (filter (matches (fc_Addresses crit) (fc_Topics crit)) (concat (map chain (seqZ from (head - from + 1)))))) <= RPCLogsCap ->
  GetLogs json_Unmarshal BloomLookup keccak6 crit = Ok [].
Proof.
  intros Hhash Hhead Hmax from to Hfrom Hto Hrange Hall He Hlim. unfold GetLogs, query_filter. rewrite Hhash.
  change (flt_criteria (NewRangeFilter _ _ _ _ _)) with (mkCriteria None (Some (bound (fc_FromBlock crit))) (Some (bound (fc_ToBlock crit))) (fc_Addresses crit) (fc_Topics crit)).
  unfold Filter_Logs. rewrite Hhead. cbn [fc_BlockHash fc_FromBlock fc_ToBlock]. rewrite !to_int64_bound. fold from to.
  unfold maxToOverhang in *. rewrite to_int64_small by (unfold max_int64 in *; lia). destruct (Z.ltb_spec RPCBlockRangeCap (to - from)); [lia|].
  destruct (Z.ltb_spec head from); [lia|]. destruct (Z.ltb_spec (head + 600) to); [lia|].
  replace (Z.to_nat (to - from + 1)) with (Z.to_nat (head - from + 1) + S (Z.to_nat (to - head - 1)))%nat by lia.
  rewrite (range_logs_missing _ _ chain _ _ _ _ e); [done|..].
  - intros h Hh. apply Hall. lia.
  - rewrite Z2Nat.id by lia. rewrite <-He. f_equal. lia.
  - cbn [app fc_Addresses fc_Topics]. by rewrite Z2Nat.id by lia.
Qed.

(** a query for a block that does not exist stops with a nil pointer *)
Theorem unknown_block_panics crit h :
  fc_BlockHash crit = Some h -> h <> 0 -> TendermintBlockByHash h = Ok None ->
  GetLogs json_Unmarshal BloomLookup keccak6 crit = Panic PanicNil.
Proof.
  intros Hb Hh Hn. unfold GetLogs, query_filter. rewrite Hb. cbn [flt_criteria NewBlockFilter newFilter]. unfold Filter_Logs. rewrite Hb, Hn.
  by destruct (Z.eqb_spec h 0).
Qed.
End Exceptions.

(** ** A chain of two blocks, the first with a log *)

Module LogChain.
Definition lv_call (from to : address) (data : bytes) (gas value : Z) (s : @StateDB cstore Z)
    : @evmResult cstore Z :=
  if gas <? 700 then inr (s, ([], 0, Some "out of gas"))
  else inr (AddLog (mkLog to [5; 6] [] 1 0 0 0 0 false) s, ([], gas - 700, None)).
Definition lv_evm : @EVM cstore Z := {| evm_Create from data gas value s := lv_call from 99 data gas value s; evm_Call := lv_call |}.

Definition lv_log : ethLog := mkLog 2 [5; 6] [] 1 11 4 0 0 false.
#[local] Instance log_eq : EqDecision ethLog.
Proof. solve_decision. Defined.
Definition lv_json (l : ethLog) : res string := if bool_decide (l = lv_log) then Ok "{}" else Err ErrEncodeLog.
Definition lv_unjson (v : string) : res Log := Ok (NewLogFromEth lv_log).

(** one bit for every address or topic *)
Definition lv_bit (x : bytes) : Z := be_value x `mod` 2048.
Definition lv_lookup (b : Z) (x : bytes) : bool := Z.testbit b (lv_bit x).
Definition log_bloom (l : ethLog) : Z :=
  fold_right (fun x b => Z.lor (Z.shiftl 1 (lv_bit x)) b) 0 (be_bytes 20 (log_Address l) :: map (be_bytes 32) (log_Topics l)).
Definition lv_bloom (logs : list ethLog) : Z := fold_right (fun l b => Z.lor (log_bloom l) b) 0 logs.

Definition lv_xs : list execTx := [mkExecTx (cmsg []) 11 2 "0x1"].
Abbreviation lv_run := (run_msgs cIntrinsic lv_evm lv_bloom lv_json wv_comet [1; 2] 0 crules (10 ^ 17) lv_xs (cts0, [])).
Definition lv_rs : list TxResponse := ok_or [] lv_run.2.

Lemma lv_rs_eq : map r_Logs lv_rs = [[lv_log]].
Proof. vm_compute. reflexivity. Qed.

Lemma lv_json_roundtrip l v : lv_json l = Ok v -> lv_unjson v = Ok (NewLogFromEth l).
Proof. unfold lv_json. case_bool_decide; [by subst|done]. Qed.

Lemma lv_lookup_lor a b x : lv_lookup a x = true -> lv_lookup (Z.lor a b) x = true.
Proof. unfold lv_lookup. rewrite Z.lor_spec. intros ->. done. Qed.

Lemma lv_bit_range x : 0 <= lv_bit x < 2048.
Proof. apply Z.mod_pos_bound. lia. Qed.

Lemma fold_bits xs x : x ∈ xs -> lv_lookup (fold_right (fun x b => Z.lor (Z.shiftl 1 (lv_bit x)) b) 0 xs) x = true.
Proof.
  induction xs as [|y xs IH]; intros Hin; [by apply not_elem_of_nil in Hin|]. cbn. apply elem_of_cons in Hin as [->|Hin].
  - apply lv_lookup_lor. unfold lv_lookup. pose proof (lv_bit_range y). rewrite Z.shiftl_spec by lia. by rewrite Z.sub_diag.
  - rewrite Z.lor_comm. by apply lv_lookup_lor, IH.
Qed.

Lemma lv_bloom_covers logs l : l ∈ logs -> covers lv_lookup (lv_bloom logs) l.
Proof.
  induction logs as [|m logs IH]; intros Hin; [by apply not_elem_of_nil in Hin|]. cbn [lv_bloom fold_right].
  change (fold_right _ 0 logs) with (lv_bloom logs). apply elem_of_cons in Hin as [<-|Hin].
  - apply (covers_lor lv_lookup lv_lookup_lor). split; [apply fold_bits; left|]. rewrite Forall_forall. intros t Ht. apply fold_bits. right.
    by apply list_elem_of_fmap_2.
  - rewrite Z.lor_comm. by apply (covers_lor lv_lookup lv_lookup_lor), IH.
Qed.

Lemma lv_bloom_ok logs : bloom_ok (lv_bloom logs).
Proof.
  assert (Hl : forall xs, bloom_ok (fold_right (fun x b => Z.lor (Z.shiftl 1 (lv_bit x)) b) 0 xs)).
  { induction xs as [|x xs IH]; [by split|]. cbn. apply lor_range; [lia| |exact IH]. pose proof (lv_bit_range x).
    rewrite Z.shiftl_mul_pow2, Z.mul_1_l by lia. split; [apply Z.pow_nonneg; lia|apply Z.pow_lt_mono_r; lia]. }
  induction logs as [|l logs IH]; [by split|]. cbn [lv_bloom fold_right]. apply lor_range; [lia|apply Hl|exact IH].
Qed.

Definition lv_result : ExecTxResult := mkExecTxResult 0 "" 21700 lv_run.1.2.

Lemma lv_run_ok : lv_run = ((lv_run.1.1, er_Events lv_result), Ok lv_rs).
Proof. change (er_Events lv_result) with lv_run.1.2. unfold lv_rs. apply run_pair. vm_compute. reflexivity. Qed.

Definition lv_chain (h : Z) : list ethLog := if h =? 1 then [lv_log] else [].

#[local] Instance lv_backend : FilterBackend := {|
  HeaderByNumber_latest := Ok (Some 2);
  TendermintBlockByHash := fun _ => Ok None;
  TendermintBlockResultByNumber := fun h =>
    if h =? 1 then Ok (mkBlockResults [lv_result] (EndBlock lv_run.1.1))
    else if h =? 2 then Ok (mkBlockResults [] (EndBlock cts0)) else Err "height must be less than or equal to the current blockchain height";
  RPCFilterCap := 200; RPCLogsCap := 10000; RPCBlockRangeCap := 10000
|}.

Abbreviation lv_executed := (executed_chain cIntrinsic lv_evm lv_bloom lv_json wv_comet).

Lemma lv_chain_executed : lv_executed 2 lv_chain.
Proof.
  intros h Hh. assert (h = 1 \/ h = 2) as [->| ->] by lia.
  - exists cts0, [lv_result], lv_run.1.1, [], []. split; [|by split_and!; [|constructor|rewrite app_nil_r]].
    replace (lv_chain 1) with (concat (map r_Logs lv_rs) ++ []) by (by rewrite lv_rs_eq).
    refine (block_tx _ _ _ _ _ cts0 cts0 lv_run.1.1 lv_run.1.1 [1; 2] 0 crules (10 ^ 17) lv_xs [] lv_rs lv_result [] [] eq_refl _ lv_run_ok _ (block_nil _ _ _ _ _ _));
      [constructor|]. rewrite lv_rs_eq. apply Forall_singleton. unfold log_ok. cbn [lv_log log_Address log_Topics log_TxHash log_BlockHash].
    split_and!; [split; vm_compute; congruence| |split; vm_compute; congruence..].
    repeat apply Forall_cons_2; [..|constructor]; split; vm_compute; congruence.
  - exists cts0, [], cts0, [], []. split; [constructor|]. by split_and!; [|constructor|].
Qed.

Lemma get_logs_complete_witness :
  GetLogs lv_unjson lv_lookup (fun _ => []) (mkCriteria None (Some 0) None [2] [[]; [6; 7]]) = Ok [lv_log].
Proof.
  rewrite (get_logs_complete cIntrinsic lv_evm lv_bloom lv_json wv_comet lv_unjson lv_lookup
    lv_json_roundtrip lv_lookup_lor lv_bloom_covers lv_bloom_ok (fun _ => []) (mkCriteria None (Some 0) None [2] [[]; [6; 7]]) 2 lv_chain lv_chain_executed).
  - vm_compute. reflexivity.
  - reflexivity.
  - reflexivity.
  - vm_compute. congruence.
  - vm_compute. congruence.
  - vm_compute. split; congruence.
  - vm_compute. congruence.
  - vm_compute. congruence.
Defined.

(** ** Polling *)

Definition empty_system : filterSystem := mkSystem ∅ ∅ [] [] ∅ ∅ ∅.
Definition lv_crit : FilterCriteria := mkCriteria None None None [2] [].
Definition lv_event : resultEvent := EventDataTx (Some [[NewLogFromEth lv_log; NewLogFromEth (mkLog 3 [] [] 1 11 4 0 0 false)]]) None.
Definition lv_ops : list op :=
  [OpNewFilter 8 lv_crit true; OpEvent 7 lv_event; OpDeadline 7; OpPoll 7; OpTick; OpUninstall 8; OpEvent 7 lv_event; OpEvent 7 lv_event].
Definition lv_installed : filterSystem := (NewFilter 7 lv_crit true empty_system).1.

Lemma polled_filter_exact_witness :
  polled 7 lv_ops lv_installed ++ [lv_log; lv_log] = received_all 7 lv_crit lv_ops lv_installed /\
  polled 7 lv_ops lv_installed = [lv_log].
Proof.
  split; [|vm_compute; reflexivity].
  destruct (polled_filter_exact 7 lv_crit true empty_system lv_installed lv_ops) as (_ & Hf & _ & Ha).
  - vm_compute. reflexivity.
  - repeat constructor; discriminate.
  - rewrite <-Ha by (repeat constructor). apply (Hf (mkPolled LogsSubscription lv_crit [] [lv_log; lv_log] false)).
    vm_compute. reflexivity.
Defined.

(** The second filter of a kind is not in the index of the event system: when the
    first is uninstalled, its topic is closed and the second is removed. *)
Example uninstall_removes_others :
  fs_filters (run [OpNewFilter 1 lv_crit true; OpNewFilter 2 lv_crit true] empty_system) !! 2 = Some (mkPolled LogsSubscription lv_crit [] [] false) /\
  fs_filters (run [OpNewFilter 1 lv_crit true; OpNewFilter 2 lv_crit true; OpUninstall 1; OpEventLoop 0; OpClosed 2] empty_system) = ∅.
Proof. split; vm_compute; reflexivity. Qed.

(** The logs of the second message of a transaction do not reach a filter. *)
Example second_message_is_not_delivered :
  received 7 lv_crit [OpEvent 7 (EventDataTx (Some [[]; [NewLogFromEth lv_log]]) None)] lv_installed = [].
Proof. vm_compute. reflexivity. Qed.

(** After a response that cannot be decoded the filter receives nothing more. *)
Example undecodable_response_ends_filter :
  received 7 lv_crit [OpEvent 7 (EventDataTx None None); OpEvent 7 lv_event] lv_installed = [] /\
  is_Some (fs_filters (run [OpEvent 7 (EventDataTx None None); OpEvent 7 lv_event] lv_installed) !! 7).
Proof. split; [vm_compute; reflexivity|]. eexists. vm_compute. reflexivity. Qed.
End LogChain.
