(* ===== verification/TxBuild.v ===== *)
(** * Building Ethereum transactions ([x/vm/types/msg.go], [tx.go])

    A client makes a message from the fields of a transaction, signs it and wraps
    it in a Cosmos transaction. What [BuildTx] makes passes the checks of the ante
    handler on the Cosmos transaction. *)

From stdpp Require Import base gmap list numbers strings.
From Stdlib Require Import ZArith Lia.
From S2P Require Import Prelude SdkMath Scaling AccessList StateDB StateDBCommit VmStore Concrete FeeMarket TxData TxDataTheorems StateTransition StateTransitionTheorems VmParams Ante.

Module TxBuild.

Definition ErrUnsupportedBuilder : error := "unsupported builder".
Definition ErrSetMsgs : error := "failed to set messages".
Definition ErrNoSender : error := "sender address not defined for message".

Section TxBuild.
Context `{!SdkMath} `{!EthHex} `{!EthSigner}.
(** the text of the hash of a transaction *)
Variable txHashHex : ethTxData -> string.

Record EvmTxArgs := mkArgs {
  a_Nonce : Z; a_GasLimit : Z; a_Input : bytes; a_GasFeeCap : option Z; a_GasPrice : option Z; a_ChainID : option Z;
  a_Amount : option Z; a_GasTipCap : option Z; a_To : option address; a_Accesses : option ethAccessList
}.

(** [NewIntFromBigInt] of a pointer; nil stays nil *)
Definition int_field (i : option Z) : res (option Z) :=
  match i with None => Ok None | Some i => let? z := NewIntFromBigInt i in Ok (Some z) end.

Definition newMsgEthereumTx (tx : EvmTxArgs) : res MsgEthereumTx :=
  let toAddr := hex_field (a_To tx) in
  let? amt := int_field (a_Amount tx) in
  let? cid := int_field (a_ChainID tx) in
  let? gp := int_field (a_GasPrice tx) in
  let? txData :=
    match a_GasFeeCap tx, a_Accesses tx with
    | Some cap, _ =>
        let? gtc := int_field (a_GasTipCap tx) in
        let? gfc := NewIntFromBigInt cap in
        Ok (TxDynamicFee (Dynamic.mkDynamicFeeTx cid (a_Nonce tx) gtc (Some gfc) (a_GasLimit tx) toAddr amt (a_Input tx)
                            (NewAccessList (a_Accesses tx)) [] [] []))
    | None, Some _ =>
        Ok (TxAccessList (AccessListT.mkAccessListTx cid (a_Nonce tx) gp (a_GasLimit tx) toAddr amt (a_Input tx)
                            (NewAccessList (a_Accesses tx)) [] [] []))
    | None, None => Ok (TxLegacy (Legacy.mkLegacyTx (a_Nonce tx) gp (a_GasLimit tx) toAddr amt (a_Input tx) [] [] []))
    end in
  Ok (mkMsgEthereumTx (Some txData) 0 (txHashHex (AsEthereumData txData)) "").

Definition NewTx (tx : EvmTxArgs) : res MsgEthereumTx := newMsgEthereumTx tx.

(** The message leaves with its sender. *)
Definition GetSender (m : MsgEthereumTx) : res (MsgEthereumTx * address) :=
  match msg_Data m with
  | None => Panic PanicNil
  | Some t =>
      let? from := eth_Sender (AsEthereumData t) in
      Ok (mkMsgEthereumTx (msg_Data m) (msg_Size m) (msg_Hash m) (addr_Hex from), from)
  end.

(** [sign] is the keyring together with [WithSignature]: the transaction with the
    signature of an address, and the text of its hash *)
Definition Sign (sign : address -> ethTxData -> res (ethTransaction * string)) (m : MsgEthereumTx) : res MsgEthereumTx :=
  match GetFrom m with
  | None => Err ErrNoSender
  | Some from =>
      match msg_Data m with
      | None => Panic PanicNil
      | Some t => let? '(tx, hash) := sign from (AsEthereumData t) in FromEthereumTx m tx hash
      end
  end.

(** the fields of a transaction builder that [BuildTx] does not set *)
Record txBuilder := mkBuilder {
  tb_isExtensionBuilder : bool; tb_Memo : string; tb_TimeoutHeight : Z; tb_NonCritical : nat; tb_SignerInfos : nat;
  tb_Payer : string; tb_Granter : string; tb_Signatures : nat
}.

(** a builder that nothing was set on *)
Definition NewTxBuilder : txBuilder := mkBuilder true "" 0 0 0 "" "" 0.

(** [setMsgs]: the message can be packed; [basic]: what the [ValidateBasic] of the
    SDK answers for the transaction *)
Definition BuildTx (cfg : EvmCoinInfo) (evmDenom : string) (b : txBuilder) (setMsgs : bool) (basic : option error) (m : MsgEthereumTx)
    : MsgEthereumTx * res sdkTx :=
  if negb (tb_isExtensionBuilder b) then (m, Err ErrUnsupportedBuilder)
  else match msg_Data m with
  | None => (m, Err ErrUnpack)
  | Some t =>
      do? m, fees := (m, BuildTx_fees cfg evmDenom t) in
      let m := mkMsgEthereumTx (msg_Data m) (msg_Size m) (msg_Hash m) "" in
      if negb setMsgs then (m, Err ErrSetMsgs)
      else (m, Ok (mkSdkTx true basic true
                     (Some (mkTxBody (tb_Memo b) (tb_TimeoutHeight b) (tb_NonCritical b) 1))
                     (Some (mkAuthInfo (tb_SignerInfos b) (Some (mkTxFee fees (msg_GetGas m) (tb_Payer b) (tb_Granter b)))))
                     (tb_Signatures b) (Some (msg_GetGas m)) [EthMsg m]))
  end.

(** ** Theorems *)

(** A new message has the hash of its transaction. *)
Theorem NewTx_hash args m :
  NewTx args = Ok m -> exists t, msg_Data m = Some t /\ msg_Hash m = txHashHex (AsEthereumData t) /\ msg_From m = "" /\
    GetGas t = a_GasLimit args /\ GetNonce t = a_Nonce args.
Proof.
  unfold NewTx, newMsgEthereumTx. cbv zeta. intros E. apply bind_Ok_inv in E as (amt & _ & E). apply bind_Ok_inv in E as (cid & _ & E).
  apply bind_Ok_inv in E as (gp & _ & E). apply bind_Ok_inv in E as (t & Ht & [= <-]). exists t. split_and!; try done;
    destruct (a_GasFeeCap args); try (apply bind_Ok_inv in Ht as (gtc & _ & Ht); apply bind_Ok_inv in Ht as (gfc & _ & Ht)); try (destruct (a_Accesses args));
    by injection Ht as <-.
Qed.

(** A message that passes [ValidateBasic] can be wrapped by [BuildTx] on a new
    builder, and the Cosmos transaction passes the checks of the ante handler on
    it: its fields are empty as [ValidateTx] asks, the sender is not set, and the
    fee and the gas limit are those of the message, in the decimals of the bank. *)
Theorem built_tx_is_accepted cfg m basic :
  ValidateBasic txHashHex m = Ok () -> 0 <= msg_GetGas m -> basic = None \/ basic = Some ErrNoSignatures ->
  exists m' tx t f info,
    BuildTx cfg (GetEVMCoinDenom cfg) NewTxBuilder true basic m = (m', Ok tx) /\ msg_Data m = Some t /\ tx_Fee t = Ok f /\
    ValidateTx tx = Ok info /\ CheckTxFee cfg (Some info) f (GetGas t) = Ok () /\
    GetFrom m' = None /\ tx_Msgs tx = [EthMsg m'] /\ msg_Data m' = Some t /\ ValidateBasic txHashHex m' = Ok ().
Proof.
  intros Hv Hg Hb. destruct (msg_Data m) as [t|] eqn:Et.
  2: { exfalso. unfold ValidateBasic in Hv. rewrite Et in Hv. apply bind_Ok_inv in Hv as ([] & _ & Hv). by case_match. }
  assert (Hgt : 0 <= GetGas t) by (unfold msg_GetGas in Hg; by rewrite Et in Hg).
  destruct (validated_tx_fees txHashHex m t 0 Hv Et Hgt ltac:(lia)) as (cap & f & p & _ & _ & Hf & _ & Hr & _).
  assert (Hfit : NewIntFromBigInt f = Ok f) by (rewrite NewIntFromBigInt_spec, int_fits_256; [done|lia]).
  assert (Hq : 0 <= Z.quot f (factor cfg) <= f).
  { pose proof (factor_pos cfg). rewrite Z.quot_div_nonneg by lia. split; [apply Z.div_pos; lia|]. apply Z.div_le_upper_bound; nia. }
  assert (Hqfit : NewIntFromBigInt (Z.quot f (factor cfg)) = Ok (Z.quot f (factor cfg))) by (rewrite NewIntFromBigInt_spec, int_fits_256; [done|lia]).
  assert (Hfees : exists fees, BuildTx_fees cfg (GetEVMCoinDenom cfg) t = Ok fees /\ amount_of (GetEVMCoinDenom cfg) fees = Z.quot f (factor cfg)).
  { unfold BuildTx_fees. rewrite Hf. cbn [mbind res_bind]. rewrite Hfit. cbn [mbind res_bind]. destruct (Z.ltb_spec 0 f).
    - rewrite ConvertCoinsFrom18Decimals_ok. cbn. rewrite String.eqb_refl. eexists. split; [done|]. cbn. rewrite String.eqb_refl. lia.
    - exists []. assert (f = 0) as -> by lia. split; [done|]. by rewrite Z.quot_0_l by (pose proof (factor_pos cfg); lia). }
  destruct Hfees as (fees & Hfees & Ham). unfold BuildTx. cbn [tb_isExtensionBuilder NewTxBuilder negb]. rewrite Et, Hfees. cbn [st_bind].
  eexists _, _, t, f, _. split; [done|]. split; [done|]. split; [done|]. split.
  { unfold ValidateTx. cbn -[msg_GetGas]. by destruct Hb as [->| ->]. }
  split_and!; try done.
  - unfold CheckTxFee. cbn [f_Amount f_GasLimit]. unfold ConvertAmountFrom18DecimalsBigInt. rewrite Hqfit. cbn [mbind res_bind]. rewrite Ham, Z.eqb_refl.
    cbn [negb]. unfold msg_GetGas. cbn [msg_Data]. by rewrite Et, Z.eqb_refl.
  - unfold ValidateBasic in *. cbn [msg_From msg_Size msg_Data msg_Hash]. apply bind_Ok_inv in Hv as ([] & _ & Hv).
    rewrite Et in *. exact Hv.
Qed.
End TxBuild.

(** a coin with six decimals *)
Lemma built_tx_is_accepted_witness :
  exists m' tx, BuildTx (mkEvmCoinInfo "utac" "tac" 6) "utac" NewTxBuilder true (Some ErrNoSignatures) dyn_msg = (m', Ok tx) /\
    exists info, ValidateTx tx = Ok info /\ CheckTxFee (mkEvmCoinInfo "utac" "tac" 6) (Some info) 630000 21000 = Ok ().
Proof.
  destruct (built_tx_is_accepted (fun _ => "h"%string) (mkEvmCoinInfo "utac" "tac" 6) dyn_msg (Some ErrNoSignatures))
    as (m' & tx & t & f & info & Hb & Ht & Hf & Hv & Hc & _).
  - vm_compute. reflexivity.
  - vm_compute. congruence.
  - right. reflexivity.
  - exists m', tx. split; [exact Hb|]. exists info. split; [exact Hv|]. injection Ht as <-. injection Hf as <-. exact Hc.
Defined.
End TxBuild.
