(* ===== verification/Configurator.v ===== *)
(** * Configuration of the EVM ([x/vm/types/chain_config.go], [config.go],
    [configurator.go])

    A node configures package variables once before it starts: the forks of the
    chain, the coin of the EVM, the default extra EIPs and the activators of the
    interpreter. *)

From stdpp Require Import base gmap list numbers strings.
From Stdlib Require Import ZArith Lia.
From S2P Require Import Prelude SdkMath Scaling AccessList StateDB StateDBCommit VmStore TxData TxDataTheorems VmParams RpcEvents Eip712 Eip712Encoding.

Module Configurator.

Definition ErrInvalidChainConfig : error := "invalid chain configuration".
Definition ErrForkOrder : error := "invalid config fork order".
Definition ErrChainConfigSet : error := "chainConfig already set. Cannot set again the chainConfig".
Definition ErrSealed : error := "already sealed and cannot be modified".
Definition ErrDuplicateEIP : error := "EIP is already present in the default list".
Definition PanicNil : error := "nil pointer dereference".

(** ** Chain configuration *)

(** the blocks of the forks; [None] is a fork that is not applied *)
Record forks := mkForks {
  HomesteadBlock : option Z;
  DAOForkBlock : option Z;
  EIP150Block : option Z;
  EIP155Block : option Z;
  EIP158Block : option Z;
  ByzantiumBlock : option Z;
  ConstantinopleBlock : option Z;
  PetersburgBlock : option Z;
  IstanbulBlock : option Z;
  MuirGlacierBlock : option Z;
  BerlinBlock : option Z;
  LondonBlock : option Z;
  ArrowGlacierBlock : option Z;
  GrayGlacierBlock : option Z;
  MergeNetsplitBlock : option Z;
  ShanghaiBlock : option Z;
  CancunBlock : option Z
}.

Record ChainConfig := mkChainConfig { cc_ChainId : Z; cc_Forks : forks; cc_DAOForkSupport : bool; cc_EIP150Hash : string }.

(** [gethparams.ChainConfig] *)
Record gethConfig := mkGethConfig { gc_ChainID : Z; gc_Forks : forks; gc_DAOForkSupport : bool; gc_EIP150Hash : hash }.

Definition map_forks (g : option Z -> option Z) (f : forks) : forks :=
  mkForks (g (HomesteadBlock f)) (g (DAOForkBlock f)) (g (EIP150Block f)) (g (EIP155Block f)) (g (EIP158Block f)) (g (ByzantiumBlock f)) (g (ConstantinopleBlock f)) (g (PetersburgBlock f)) (g (IstanbulBlock f)) (g (MuirGlacierBlock f)) (g (BerlinBlock f)) (g (LondonBlock f)) (g (ArrowGlacierBlock f)) (g (GrayGlacierBlock f)) (g (MergeNetsplitBlock f)) (g (ShanghaiBlock f)) (g (CancunBlock f)).

Definition fork_list (f : forks) : list (option Z) :=
  [HomesteadBlock f; DAOForkBlock f; EIP150Block f; EIP155Block f; EIP158Block f; ByzantiumBlock f; ConstantinopleBlock f; PetersburgBlock f; IstanbulBlock f; MuirGlacierBlock f; BerlinBlock f; LondonBlock f; ArrowGlacierBlock f; GrayGlacierBlock f; MergeNetsplitBlock f; ShanghaiBlock f; CancunBlock f].

Definition getBlockValue (block : option Z) : option Z :=
  match block with None => None | Some b => if b <? 0 then None else Some b end.

Definition validateBlock (block : option Z) : res unit :=
  match block with None => Ok () | Some b => if b <? 0 then Err ErrInvalidChainConfig else Ok () end.

(** [strings.TrimSpace(hex) == ""] *)
Definition validateHash (hex : string) : res unit :=
  if negb (String.eqb hex "") && is_blank (string_bytes hex) then Err ErrInvalidChainConfig else Ok ().

Section Config.
Context `{!EthHex}.

Definition EthereumConfig (cc : ChainConfig) (chainID : option Z) : gethConfig :=
  mkGethConfig (default (cc_ChainId cc) chainID) (map_forks getBlockValue (cc_Forks cc)) (cc_DAOForkSupport cc) (HexToHash (cc_EIP150Hash cc)).

(** [CheckConfigForkOrder] of go-ethereum *)
Variable CheckConfigForkOrder : gethConfig -> bool.

Fixpoint validate_blocks (blocks : list (option Z)) : res unit :=
  match blocks with [] => Ok () | b :: blocks => let? _ := validateBlock b in validate_blocks blocks end.

(** the hash is validated after the first three blocks *)
Definition ChainConfig_Validate (cc : ChainConfig) : res unit :=
  let blocks := fork_list (cc_Forks cc) in
  let? _ := validate_blocks (take 3 blocks) in
  let? _ := validateHash (cc_EIP150Hash cc) in
  let? _ := validate_blocks (drop 3 blocks) in
  if CheckConfigForkOrder (EthereumConfig cc None) then Ok () else Err ErrForkOrder.

Definition testChainID : string := "cosmos_9001-1".

(** every fork at block 0 *)
Definition DefaultChainConfig (chainID : string) : res ChainConfig :=
  let chainID := if String.eqb chainID "" then testChainID else chainID in
  match ChainId.ParseChainID chainID with
  | Ok eip155ChainID => Ok (mkChainConfig (wrap64 eip155ChainID) (mkForks (Some 0) (Some 0) (Some 0) (Some 0) (Some 0) (Some 0) (Some 0) (Some 0) (Some 0) (Some 0) (Some 0) (Some 0) (Some 0) (Some 0) (Some 0) (Some 0) (Some 0)) true (hash_String 0))
  | Err e => Panic e
  | Panic e => Panic e
  end.

(** ** The package variables *)

(** the activators of the interpreter, and the activators that extend them *)
Context {activators eips : Type} (ExtendActivators : eips -> activators -> activators * res unit).
Variable ValidateDenom : string -> bool.

Record globals := mkGlobals {
  g_chainConfig : option ChainConfig; g_coinInfo : option EvmCoinInfo; g_DefaultExtraEIPs : list Z; g_activators : activators
}.

Definition setChainConfig (cc : option ChainConfig) (g : globals) : globals * res unit :=
  match g_chainConfig g with
  | Some _ => (g, Err ErrChainConfigSet)
  | None =>
      match DefaultChainConfig "" with
      | Panic e => (g, Panic e)
      | Err e => (g, Err e)
      | Ok config =>
          let config := default config cc in
          match ChainConfig_Validate config with
          | Ok _ => (mkGlobals (Some config) (g_coinInfo g) (g_DefaultExtraEIPs g) (g_activators g), Ok ())
          | Err e => (g, Err e)
          | Panic e => (g, Panic e)
          end
      end
  end.

Definition GetChainConfig (g : globals) : option ChainConfig := g_chainConfig g.

Definition GetEthChainConfig (g : globals) : res gethConfig :=
  match g_chainConfig g with None => Panic PanicNil | Some cc => Ok (EthereumConfig cc None) end.

(** the EIPs before a duplicate remain *)
Fixpoint extendDefaultExtraEIPs (extraEIPs defaults : list Z) : list Z * res unit :=
  match extraEIPs with
  | [] => (defaults, Ok ())
  | eip :: extraEIPs =>
      if existsb (Z.eqb eip) defaults then (defaults, Err ErrDuplicateEIP)
      else extendDefaultExtraEIPs extraEIPs (defaults ++ [eip])
  end.

Record EVMConfigurator := mkConfigurator {
  ec_sealed : bool; ec_extendedEIPs : eips; ec_extendedDefaultExtraEIPs : list Z; ec_chainConfig : option ChainConfig; ec_evmCoinInfo : EvmCoinInfo
}.

Definition WithExtendedEips (e : eips) (ec : EVMConfigurator) : EVMConfigurator :=
  mkConfigurator (ec_sealed ec) e (ec_extendedDefaultExtraEIPs ec) (ec_chainConfig ec) (ec_evmCoinInfo ec).
Definition WithExtendedDefaultExtraEIPs (l : list Z) (ec : EVMConfigurator) : EVMConfigurator :=
  mkConfigurator (ec_sealed ec) (ec_extendedEIPs ec) l (ec_chainConfig ec) (ec_evmCoinInfo ec).
Definition WithChainConfig (cc : option ChainConfig) (ec : EVMConfigurator) : EVMConfigurator :=
  mkConfigurator (ec_sealed ec) (ec_extendedEIPs ec) (ec_extendedDefaultExtraEIPs ec) cc (ec_evmCoinInfo ec).
Definition WithEVMCoinInfo (denom : string) (decimals : Z) (ec : EVMConfigurator) : EVMConfigurator :=
  mkConfigurator (ec_sealed ec) (ec_extendedEIPs ec) (ec_extendedDefaultExtraEIPs ec) (ec_chainConfig ec) (mkEvmCoinInfo denom "" decimals).

Definition set_coin (eci : EvmCoinInfo) (g : globals) : globals * res unit :=
  let '(c, r) := setEVMCoinInfo ValidateDenom eci (g_coinInfo g) in
  (mkGlobals (g_chainConfig g) c (g_DefaultExtraEIPs g) (g_activators g), r).
Definition extend_eips (l : list Z) (g : globals) : globals * res unit :=
  let '(d, r) := extendDefaultExtraEIPs l (g_DefaultExtraEIPs g) in (mkGlobals (g_chainConfig g) (g_coinInfo g) d (g_activators g), r).
Definition extend_activators (e : eips) (g : globals) : globals * res unit :=
  let '(a, r) := ExtendActivators e (g_activators g) in (mkGlobals (g_chainConfig g) (g_coinInfo g) (g_DefaultExtraEIPs g) a, r).

Definition Configure (ec : EVMConfigurator) (g : globals) : globals * res EVMConfigurator :=
  if ec_sealed ec then (g, Err ErrSealed)
  else
    do? g, _ := setChainConfig (ec_chainConfig ec) g in
    do? g, _ := set_coin (ec_evmCoinInfo ec) g in
    do? g, _ := extend_eips (ec_extendedDefaultExtraEIPs ec) g in
    do? g, _ := extend_activators (ec_extendedEIPs ec) g in
    (g, Ok (mkConfigurator true (ec_extendedEIPs ec) (ec_extendedDefaultExtraEIPs ec) (ec_chainConfig ec) (ec_evmCoinInfo ec))).

(** ** Theorems *)

Lemma validate_blocks_Ok l : validate_blocks l = Ok () -> Forall (fun b => getBlockValue b = b) l.
Proof.
  induction l as [|b l IH]; intros Hv; [constructor|]. cbn in Hv. apply bind_Ok_inv in Hv as ([] & Hb & Hv). constructor; [|by apply IH].
  destruct b as [b|]; [|done]. cbn in *. by destruct (b <? 0).
Qed.

(** A valid configuration has the forks it says: none is dropped because its block
    is negative. *)
Theorem valid_config_keeps_forks cc chainID :
  ChainConfig_Validate cc = Ok () -> gc_Forks (EthereumConfig cc chainID) = cc_Forks cc.
Proof.
  unfold ChainConfig_Validate. intros Hv. apply bind_Ok_inv in Hv as ([] & H1 & Hv). apply bind_Ok_inv in Hv as ([] & _ & Hv).
  apply bind_Ok_inv in Hv as ([] & H2 & _). apply validate_blocks_Ok in H1, H2. destruct cc as [i f d h]. destruct f. cbn -[getBlockValue] in *.
  repeat match goal with H : Forall _ (_ :: _) |- _ => apply Forall_cons in H as [? H] end. unfold map_forks. cbn -[getBlockValue].
  repeat match goal with H : getBlockValue ?b = ?b |- _ => rewrite H; clear H end. done.
Qed.

(** what no later call changes: a configuration that is set, and the coin of it *)
Definition frozen (g g' : globals) : Prop :=
  (forall cc, g_chainConfig g = Some cc -> g_chainConfig g' = Some cc) /\
  (forall c, g_coinInfo g = Some c -> g_coinInfo g' = Some c) /\
  (exists l, g_DefaultExtraEIPs g' = g_DefaultExtraEIPs g ++ l) /\
  (NoDup (g_DefaultExtraEIPs g) -> NoDup (g_DefaultExtraEIPs g')).

Lemma frozen_refl g : frozen g g.
Proof. split_and!; try done. exists []. by rewrite app_nil_r. Qed.

Lemma frozen_trans g1 g2 g3 : frozen g1 g2 -> frozen g2 g3 -> frozen g1 g3.
Proof.
  intros (A1 & B1 & (l1 & C1) & D1) (A2 & B2 & (l2 & C2) & D2). split_and!; [eauto..| |eauto]. exists (l1 ++ l2). by rewrite C2, C1, app_assoc.
Qed.

Lemma extend_spec l d : (exists k, (extendDefaultExtraEIPs l d).1 = d ++ k) /\ (NoDup d -> NoDup (extendDefaultExtraEIPs l d).1).
Proof.
  revert d. induction l as [|e l IH]; intros d; cbn; [split; [exists []; by rewrite app_nil_r|done]|].
  destruct (existsb (Z.eqb e) d) eqn:E; cbn; [split; [exists []; by rewrite app_nil_r|done]|]. destruct (IH (d ++ [e])) as [(k & Hk) Hn].
  split; [exists (e :: k); by rewrite Hk, <-app_assoc|]. intros Hd. apply Hn. apply NoDup_app. split_and!; [done| |apply NoDup_singleton].
  intros x Hx ->%list_elem_of_singleton. assert (existsb (Z.eqb e) d = true); [|congruence]. apply existsb_exists. exists e.
  rewrite <-list_elem_of_In. split; [done|apply Z.eqb_refl].
Qed.

Lemma setChainConfig_frozen cc g : frozen g (setChainConfig cc g).1.
Proof.
  unfold setChainConfig. destruct (g_chainConfig g) eqn:E; [apply frozen_refl|]. repeat case_match; try apply frozen_refl.
  split_and!; cbn; try done; [congruence|]. exists []. by rewrite app_nil_r.
Qed.

Lemma set_coin_frozen eci g : frozen g (set_coin eci g).1.
Proof.
  unfold set_coin, setEVMCoinInfo. destruct (g_coinInfo g) eqn:E.
  - cbn. split_and!; cbn; try done; [congruence|]. exists []. by rewrite app_nil_r.
  - destruct (setEVMCoinDenom _ _ _) as [g1 [u|e|e]]; [destruct (setEVMCoinDecimals _ _) as [g2 r2]|..]; cbn; split_and!; cbn; try done; try congruence;
      exists []; by rewrite app_nil_r.
Qed.

Lemma extend_eips_frozen l g : frozen g (extend_eips l g).1.
Proof.
  unfold extend_eips. pose proof (extend_spec l (g_DefaultExtraEIPs g)) as [Hk Hn]. destruct (extendDefaultExtraEIPs l (g_DefaultExtraEIPs g)) as [d r].
  by split_and!.
Qed.

Lemma extend_activators_frozen e g : frozen g (extend_activators e g).1.
Proof. unfold extend_activators. destruct (ExtendActivators e (g_activators g)) as [a r]. split_and!; try done. exists []. by rewrite app_nil_r. Qed.

Lemma st_bind_frozen {A B} (g : globals) (m : globals * res A) (k : globals -> A -> globals * res B) :
  frozen g m.1 -> (forall g' a, frozen g' (k g' a).1) -> frozen g (st_bind m k).1.
Proof. intros Hm Hk. destruct m as [g' [a|e|e]]; cbn in *; [|done..]. eapply frozen_trans; [exact Hm|apply Hk]. Qed.

Lemma Configure_frozen ec g : frozen g (Configure ec g).1.
Proof.
  unfold Configure. destruct (ec_sealed ec); [apply frozen_refl|].
  apply st_bind_frozen; [apply setChainConfig_frozen|]. intros g1 _. apply st_bind_frozen; [apply set_coin_frozen|]. intros g2 _.
  apply st_bind_frozen; [apply extend_eips_frozen|]. intros g3 _. apply st_bind_frozen; [apply extend_activators_frozen|]. intros g4 _. apply frozen_refl.
Qed.

(** any calls of [Configure], failed ones included *)
Definition configure_all (ecs : list EVMConfigurator) (g : globals) : globals := fold_left (fun g ec => (Configure ec g).1) ecs g.

Lemma configure_all_frozen ecs g : frozen g (configure_all ecs g).
Proof.
  revert g. induction ecs as [|ec ecs IH]; intros g; [apply frozen_refl|]. cbn. eapply frozen_trans; [apply Configure_frozen|apply IH].
Qed.

(** The configuration is set once. After [Configure] has succeeded, the chain
    configuration is the one it was given, or the default, and is valid; the coin
    is the one it was given; and no further calls, by any configurators, change
    either, or succeed. The default EIPs only grow, without duplicates. *)
Theorem configured_once ec g g1 ec1 ecs ec2 :
  Configure ec g = (g1, Ok ec1) ->
  (exists cc, g_chainConfig g1 = Some cc /\ ChainConfig_Validate cc = Ok () /\
     (ec_chainConfig ec = Some cc \/ ec_chainConfig ec = None /\ DefaultChainConfig "" = Ok cc)) /\
  (exists c, g_coinInfo g1 = Some c /\ eci_Denom c = eci_Denom (ec_evmCoinInfo ec) /\ eci_Decimals c = eci_Decimals (ec_evmCoinInfo ec)) /\
  frozen g1 (configure_all ecs g1) /\
  forall r, (Configure ec2 (configure_all ecs g1)).2 <> Ok r.
Proof.
  intros Hc. unfold Configure in Hc. destruct (ec_sealed ec); [done|]. apply st_bind_Ok_inv in Hc as (ga & [] & Hset & Hc).
  apply st_bind_Ok_inv in Hc as (gb & [] & Hcoin & Hc). apply st_bind_Ok_inv in Hc as (gc & [] & He & Hc). apply st_bind_Ok_inv in Hc as (gd & [] & Ha & [= <- <-]).
  pose proof (set_coin_frozen (ec_evmCoinInfo ec) ga) as Fb. rewrite Hcoin in Fb.
  pose proof (extend_eips_frozen (ec_extendedDefaultExtraEIPs ec) gb) as Fc. rewrite He in Fc.
  pose proof (extend_activators_frozen (ec_extendedEIPs ec) gc) as Fd. rewrite Ha in Fd. cbn [fst] in *.
  pose proof (frozen_trans _ _ _ Fc Fd) as Fbd. pose proof (frozen_trans _ _ _ Fb Fbd) as Fad.
  assert (Hcc : exists cc, g_chainConfig gd = Some cc /\ ChainConfig_Validate cc = Ok () /\
    (ec_chainConfig ec = Some cc \/ ec_chainConfig ec = None /\ DefaultChainConfig "" = Ok cc)).
  { unfold setChainConfig in Hset. destruct (g_chainConfig g); [done|]. destruct (DefaultChainConfig "") as [dc|e|e] eqn:Ed; [|done..].
    destruct (ChainConfig_Validate (default dc (ec_chainConfig ec))) as [[]|e|e] eqn:Ev; [|done..]. injection Hset as <-.
    exists (default dc (ec_chainConfig ec)). split; [by apply Fad|]. split; [done|]. destruct (ec_chainConfig ec); [by left|by right]. }
  split; [exact Hcc|]. split.
  { unfold set_coin, setEVMCoinInfo in Hcoin. destruct (g_coinInfo ga); [done|]. unfold setEVMCoinDenom, setEVMCoinDecimals in Hcoin.
    destruct (ValidateDenom _); [|done]. destruct (Decimals_Validate _); [|done..]. cbn in Hcoin. injection Hcoin as <-.
    eexists. split; [by apply Fbd|]. done. }
  split; [apply configure_all_frozen|]. intros r. destruct Hcc as (cc & Hcc & _). apply (configure_all_frozen ecs gd) in Hcc.
  unfold Configure. destruct (ec_sealed ec2); [done|]. unfold setChainConfig. by rewrite Hcc.
Qed.

(** A call that failed at the coin has set the chain configuration: it cannot be
    repeated with a coin that is right. *)
Theorem failed_configure_is_final ec g ec2 e :
  ec_sealed ec = false -> (setChainConfig (ec_chainConfig ec) g).2 = Ok () -> (Configure ec g).2 = Err e ->
  forall r, (Configure ec2 (Configure ec g).1).2 <> Ok r.
Proof.
  intros Hs Hset _ r. assert (Hcc : exists cc, g_chainConfig (Configure ec g).1 = Some cc).
  { unfold Configure. rewrite Hs. destruct (setChainConfig (ec_chainConfig ec) g) as [g1 r1] eqn:E. cbn in Hset. subst r1. cbn [st_bind].
    assert (Hg1 : exists cc, g_chainConfig g1 = Some cc).
    { unfold setChainConfig in E. destruct (g_chainConfig g); [done|]. repeat case_match; try done. injection E as <-. by eexists. }
    destruct Hg1 as [cc Hg1]. exists cc. apply (st_bind_frozen g1); [apply set_coin_frozen| |done]. intros g2 _.
    apply st_bind_frozen; [apply extend_eips_frozen|]. intros g3 _. apply st_bind_frozen; [apply extend_activators_frozen|]. intros g4 _. apply frozen_refl. }
  destruct Hcc as [cc Hcc]. unfold Configure at 1. destruct (ec_sealed ec2); [done|]. unfold setChainConfig at 1. by rewrite Hcc.
Qed.
End Config.

(** ** A configuration with the default forks *)

Definition any_order (_ : gethConfig) : bool := true.
Definition any_denom (_ : string) : bool := true.
Definition no_activators (_ : unit) (a : unit) : unit * res unit := (a, Ok ()).
Definition start : @globals unit := mkGlobals None None DefaultExtraEIPs tt.
Definition tac : @EVMConfigurator unit := WithExtendedDefaultExtraEIPs [3198] (WithEVMCoinInfo "utac" 18 (mkConfigurator false tt [] None (mkEvmCoinInfo "" "" 0))).
Definition other : @EVMConfigurator unit := WithEVMCoinInfo "uatom" 6 tac.
Abbreviation configure := (Configure any_order no_activators any_denom).

Lemma configured_once_witness :
  exists g1 ec1, configure tac start = (g1, Ok ec1) /\ g_DefaultExtraEIPs g1 = [3855; 3198] /\
    (exists c, g_coinInfo g1 = Some c /\ eci_Denom c = "utac") /\ forall r, (configure other (configure_all any_order no_activators any_denom [tac; other] g1)).2 <> Ok r.
Proof.
  assert (Hc : exists g1 ec1, configure tac start = (g1, Ok ec1) /\ g_DefaultExtraEIPs g1 = [3855; 3198]) by (eexists _, _; split; vm_compute; reflexivity).
  destruct Hc as (g1 & ec1 & Hc & He).
  destruct (configured_once any_order no_activators any_denom tac start g1 ec1 [tac; other] other Hc) as (_ & (c & Hg & Hd & _) & _ & Hn).
  exists g1, ec1. split; [exact Hc|]. split; [exact He|]. split; [exists c; split; [exact Hg|exact Hd]|exact Hn].
Defined.
End Configurator.
