(* ===== verification/RpcBlock.v ===== *)
(** * Block numbers of the RPC ([rpc/types/block.go])

    A caller names a block by a word, by a number or by a hash. The number of a
    word is negative; the number 0 stands for the first block. *)

From stdpp Require Import base list numbers strings.
From Stdlib Require Import ZArith Lia.
From S2P Require Import Prelude SdkMath Scaling AccessList StateDB TxData RpcFilters.

Module RpcBlock.

Definition ErrMissingPrefix : error := "hex string without 0x prefix".
Definition ErrBlockNumber : error := "block number larger than int64".
Definition ErrBothSpecified : error := "cannot specify both BlockHash and BlockNumber, choose one or the other".
Definition ErrJSON : error := "json: cannot unmarshal".

Definition EthPendingBlockNumber : Z := -2.
Definition EthLatestBlockNumber : Z := -1.
Definition EthEarliestBlockNumber : Z := 0.

Definition BlockParamEarliest : string := "earliest".
Definition BlockParamLatest : string := "latest".
Definition BlockParamFinalized : string := "finalized".
Definition BlockParamSafe : string := "safe".
Definition BlockParamPending : string := "pending".

Definition NewBlockNumber (n : Z) : Z := if negb (is_int64 n) then EthLatestBlockNumber else n.

(** the height in the metadata of a query; without one the latest state is read *)
Definition ContextWithHeight (height : Z) : option Z := if height =? 0 then None else Some height.

Definition Int64 (bn : Z) : Z := if bn <? 0 then 0 else if bn =? 0 then 1 else bn.

Definition TmHeight (bn : Z) : option Z := if bn <? 0 then None else Some (Int64 bn).

(** ** Texts *)

(** [strings.TrimSpace]: the white space of Unicode is in [is_blank] *)
Fixpoint trim_left (b : bytes) : bytes :=
  match b with
  | 194 :: x :: r => if (x =? 133) || (x =? 160) then trim_left r else b
  | 225 :: 154 :: 128 :: r => trim_left r
  | 226 :: 128 :: x :: r =>
      if ((128 <=? x) && (x <=? 138)) || (x =? 168) || (x =? 169) || (x =? 175) then trim_left r else b
  | 226 :: 129 :: 159 :: r => trim_left r
  | 227 :: 128 :: 128 :: r => trim_left r
  | x :: r => if ((9 <=? x) && (x <=? 13)) || (x =? 32) then trim_left r else b
  | [] => []
  end.

Fixpoint trim_right (b : bytes) : bytes :=
  if is_blank b then [] else match b with x :: r => x :: trim_right r | [] => [] end.

Definition TrimSpace (b : bytes) : bytes := trim_right (trim_left b).

Definition quote : Z := 34.

(** the text between quotes, when there are two *)
Definition unquote (b : bytes) : bytes :=
  match b with
  | q :: (_ :: _) as r => if (q =? quote) && bool_decide (last r = Some quote) then removelast r else b
  | _ => b
  end.

(** [hexutil] of go-ethereum and [cast] read numbers: [DecodeUint64] wants a hex
    quantity with its prefix, [cast.ToUint64] reads decimal digits and answers 0
    for what is not a number. A hash is read from its text, or from its JSON. *)
Class HexUtil := {
  EncodeUint64 : Z -> string;
  DecodeUint64 : string -> res Z;
  cast_ToUint64 : string -> Z;
  hash_UnmarshalText : string -> res hash;
  hash_UnmarshalJSON : string -> res hash;
  DecodeUint64_Encode : forall n, 0 <= n <= max_uint64 -> DecodeUint64 (EncodeUint64 n) = Ok n;
  DecodeUint64_range : forall s n, DecodeUint64 s = Ok n -> 0 <= n <= max_uint64;
  DecodeUint64_prefix : forall s, String.prefix "0x" s = false -> String.prefix "0X" s = false -> s <> "" ->
    DecodeUint64 s = Err ErrMissingPrefix;
  EncodeUint64_prefix : forall n, String.prefix "0x" (EncodeUint64 n) = true;
  EncodeUint64_length : forall n, 0 <= n <= max_uint64 -> (String.length (EncodeUint64 n) <= 18)%nat;
  (* digits and letters only *)
  EncodeUint64_plain : forall n, Forall (fun b => 48 <= b <= 122) (string_bytes (EncodeUint64 n));
  cast_ToUint64_range : forall s, 0 <= cast_ToUint64 s <= max_uint64;
  cast_ToUint64_text : forall s, Forall (fun b => ~ 48 <= b <= 57) (string_bytes s) -> cast_ToUint64 s = 0
}.

Section Texts.
Context `{!HexUtil}.

(** [UnmarshalJSON] of a number *)
Definition BlockNumber_UnmarshalJSON (data : string) : res Z :=
  let input := RpcFilters.bytes_string (unquote (TrimSpace (string_bytes data))) in
  if String.eqb input BlockParamEarliest then Ok EthEarliestBlockNumber
  else if String.eqb input BlockParamLatest || String.eqb input BlockParamFinalized || String.eqb input BlockParamSafe
  then Ok EthLatestBlockNumber
  else if String.eqb input BlockParamPending then Ok EthPendingBlockNumber
  else
    let? blckNum := match DecodeUint64 input with
                    | Err e => if String.eqb e ErrMissingPrefix then Ok (cast_ToUint64 input) else Err e
                    | r => r
                    end in
    if max_int64 <? blckNum then Err ErrBlockNumber else Ok blckNum.

Record BlockNumberOrHash := mkBlockNumberOrHash { bnh_BlockNumber : option Z; bnh_BlockHash : option hash }.

Definition decodeFromString (input : string) : res BlockNumberOrHash :=
  if String.eqb input BlockParamEarliest then Ok (mkBlockNumberOrHash (Some EthEarliestBlockNumber) None)
  else if String.eqb input BlockParamLatest || String.eqb input BlockParamFinalized
  then Ok (mkBlockNumberOrHash (Some EthLatestBlockNumber) None)
  else if String.eqb input BlockParamPending then Ok (mkBlockNumberOrHash (Some EthPendingBlockNumber) None)
  else if (String.length input =? 66)%nat then
    let? hash := hash_UnmarshalText input in Ok (mkBlockNumberOrHash None (Some hash))
  else
    let? blockNumber := DecodeUint64 input in
    let? bnInt := SafeInt64 blockNumber in
    Ok (mkBlockNumberOrHash (Some bnInt) None).

Definition checkUnmarshal (e : BlockNumberOrHash) : res BlockNumberOrHash :=
  match bnh_BlockNumber e, bnh_BlockHash e with
  | Some _, Some _ => Err ErrBothSpecified
  | _, _ => Ok e
  end.

(** the JSON of a parameter: an object with the text of its two fields, [None]
    for a field that is missing or null; null; a string; anything else *)
Inductive paramJSON := JObject (number hash : option string) | JNull | JString (s : string) | JOther.

Definition field {A} (decode : string -> res A) (t : option string) : res (option A) :=
  match t with None => Ok None | Some t => let? a := decode t in Ok (Some a) end.

Definition erased_Unmarshal (j : paramJSON) : res BlockNumberOrHash :=
  match j with
  | JObject number hash =>
      let? n := field BlockNumber_UnmarshalJSON number in
      let? h := field hash_UnmarshalJSON hash in
      Ok (mkBlockNumberOrHash n h)
  | JNull => Ok (mkBlockNumberOrHash None None)
  | JString _ | JOther => Err ErrJSON
  end.

Definition BlockNumberOrHash_UnmarshalJSON (j : paramJSON) : res BlockNumberOrHash :=
  match erased_Unmarshal j with
  | Ok e => checkUnmarshal e
  | Panic e => Panic e
  | Err _ => match j with JString input => decodeFromString input | _ => Err ErrJSON end
  end.

(** ** Properties *)

Definition quoted (s : string) : string := String (Ascii.ascii_of_nat 34) (s +:+ String (Ascii.ascii_of_nat 34) "").

(** printable characters, which are no white space *)
Definition plain (b : Z) : Prop := 33 <= b <= 126.

Lemma plain_cases (P : Z -> Prop) : Forall P (seqZ 33 94) -> forall b, plain b -> P b.
Proof. intros HP b Hb. rewrite Forall_forall in HP. apply HP. apply elem_of_seqZ. unfold plain in Hb. lia. Qed.

Lemma is_blank_plain b r : plain b -> is_blank (b :: r) = false.
Proof. revert b. apply plain_cases. repeat (apply Forall_cons; split; [reflexivity|]). constructor. Qed.

Lemma trim_left_plain b r : plain b -> trim_left (b :: r) = b :: r.
Proof. revert b. apply plain_cases. repeat (apply Forall_cons; split; [reflexivity|]). constructor. Qed.

Lemma trim_right_plain l : Forall plain l -> trim_right l = l.
Proof. induction 1 as [|b l Hb _ IH]; [done|]. cbn [trim_right]. rewrite is_blank_plain by done. by rewrite IH. Qed.

Lemma TrimSpace_plain l : Forall plain l -> TrimSpace l = l.
Proof.
  intros Hl. unfold TrimSpace. destruct Hl as [|b l Hb Hl]; [done|]. rewrite trim_left_plain by done. apply trim_right_plain. by constructor.
Qed.

Lemma bytes_string_bytes s : RpcFilters.bytes_string (string_bytes s) = s.
Proof.
  unfold RpcFilters.bytes_string, string_bytes. rewrite map_map. induction s as [|c s IH]; [done|]. cbn. rewrite IH, Nat2Z.id.
  by rewrite Ascii.ascii_nat_embedding.
Qed.

Lemma string_bytes_app a b : string_bytes (a +:+ b) = string_bytes a ++ string_bytes b.
Proof. unfold string_bytes. induction a as [|c a IH]; [done|]. rewrite str_app_cons. cbn [String.list_ascii_of_string map app]. by rewrite IH. Qed.

Lemma unquote_quoted l : unquote (quote :: l ++ [quote]) = l.
Proof.
  unfold unquote. destruct l as [|x l]; [done|]. cbn [app]. rewrite Z.eqb_refl. cbn [andb].
  rewrite app_comm_cons, last_snoc, bool_decide_true by done. apply removelast_last.
Qed.

(** what [UnmarshalJSON] reads of the JSON string of a text *)
Lemma read_quoted s :
  Forall plain (string_bytes s) -> RpcFilters.bytes_string (unquote (TrimSpace (string_bytes (quoted s)))) = s.
Proof.
  intros Hs. assert (E : string_bytes (quoted s) = quote :: string_bytes s ++ [quote]) 
    by (change [quote] with (string_bytes (String (Ascii.ascii_of_nat 34) EmptyString)); rewrite <-string_bytes_app; reflexivity).
  rewrite E, TrimSpace_plain, unquote_quoted; [apply bytes_string_bytes|].
  constructor; [by unfold plain, quote|]. apply Forall_app; split; [done|]. constructor; [by unfold plain, quote|constructor].
Qed.

Lemma EncodeUint64_not_word n w : String.prefix "0x" w = false -> String.eqb (EncodeUint64 n) w = false.
Proof. intros Hw. destruct (String.eqb_spec (EncodeUint64 n) w) as [<-|]; [|done]. by rewrite EncodeUint64_prefix in Hw. Qed.

(** A block number is read back from the quantity that encodes it, as a number and
    as a number or a hash, when it fits in an [int64], and refused otherwise. *)
Theorem block_number_roundtrip n :
  0 <= n <= max_uint64 ->
  let text := EncodeUint64 n in
  if n <=? max_int64
  then BlockNumber_UnmarshalJSON (quoted text) = Ok n /\
       BlockNumberOrHash_UnmarshalJSON (JString text) = Ok (mkBlockNumberOrHash (Some n) None) /\
       BlockNumberOrHash_UnmarshalJSON (JObject (Some (quoted text)) None) = Ok (mkBlockNumberOrHash (Some n) None)
  else BlockNumber_UnmarshalJSON (quoted text) = Err ErrBlockNumber /\
       BlockNumberOrHash_UnmarshalJSON (JString text) = Err ErrInvalidHeight /\
       BlockNumberOrHash_UnmarshalJSON (JObject (Some (quoted text)) None) = Err ErrJSON.
Proof.
  intros Hn text. assert (Hplain : Forall plain (string_bytes text)).
  { eapply Forall_impl; [apply EncodeUint64_plain|]. unfold plain. cbn. lia. }
  assert (E : BlockNumber_UnmarshalJSON (quoted text) = if n <=? max_int64 then Ok n else Err ErrBlockNumber).
  { unfold BlockNumber_UnmarshalJSON. rewrite read_quoted by done. cbv zeta. unfold text. rewrite !EncodeUint64_not_word by done. cbn [orb].
    rewrite DecodeUint64_Encode by done. cbn [mbind res_bind]. destruct (Z.leb_spec n max_int64), (Z.ltb_spec max_int64 n); try done; lia. }
  assert (F : BlockNumberOrHash_UnmarshalJSON (JString text) =
    if n <=? max_int64 then Ok (mkBlockNumberOrHash (Some n) None) else Err ErrInvalidHeight).
  { cbn. unfold decodeFromString, text. rewrite !EncodeUint64_not_word by done. cbn [orb]. pose proof (EncodeUint64_length n Hn).
    destruct (Nat.eqb_spec (String.length (EncodeUint64 n)) 66); [lia|]. rewrite DecodeUint64_Encode by done. cbn [mbind res_bind]. unfold SafeInt64.
    destruct (Z.leb_spec n max_int64), (Z.ltb_spec max_int64 n); try done; lia. }
  assert (G : BlockNumberOrHash_UnmarshalJSON (JObject (Some (quoted text)) None) =
    if n <=? max_int64 then Ok (mkBlockNumberOrHash (Some n) None) else Err ErrJSON).
  { unfold BlockNumberOrHash_UnmarshalJSON. cbn [erased_Unmarshal field]. rewrite E. by destruct (n <=? max_int64). }
  rewrite E, F, G. by destruct (n <=? max_int64).
Qed.

(** Exception: a word that is no block parameter and has no digit names the
    first block instead of being refused. *)
Theorem unknown_word_is_first_block w :
  Forall plain (string_bytes w) -> Forall (fun b => ~ 48 <= b <= 57) (string_bytes w) -> w <> "" ->
  w ∉ [BlockParamEarliest; BlockParamLatest; BlockParamFinalized; BlockParamSafe; BlockParamPending] ->
  BlockNumber_UnmarshalJSON (quoted w) = Ok EthEarliestBlockNumber /\ Int64 EthEarliestBlockNumber = 1.
Proof.
  intros Hp Hd He Hw. rewrite !not_elem_of_cons in Hw. destruct Hw as (H1 & H2 & H3 & H4 & H5 & _). split; [|done].
  unfold BlockNumber_UnmarshalJSON. rewrite read_quoted by done. cbv zeta. rewrite !(proj2 (String.eqb_neq _ _)) by done. cbn [orb].
  assert (Hpre : forall c s, String.prefix (String (Ascii.ascii_of_nat 48) (String c s)) w = false).
  { intros c s. destruct w as [|x w]; [done|]. cbn. destruct (Ascii.ascii_dec _ x) as [<-|]; [|done].
    inversion Hd as [|? ? Hx]. exfalso. apply Hx. vm_compute. split; discriminate. }
  rewrite DecodeUint64_prefix; [|apply (Hpre (Ascii.ascii_of_nat 120) EmptyString)|apply (Hpre (Ascii.ascii_of_nat 88) EmptyString)|done]. rewrite String.eqb_refl. cbn [mbind res_bind]. by rewrite cast_ToUint64_text.
Qed.

(** Exception: the word for a safe block is a block number, but not a block number
    or a hash. *)
Theorem safe_block_is_refused :
  BlockNumber_UnmarshalJSON (quoted BlockParamSafe) = Ok EthLatestBlockNumber /\
  BlockNumberOrHash_UnmarshalJSON (JString BlockParamSafe) = Err ErrMissingPrefix.
Proof. split; [reflexivity|]. cbn. unfold decodeFromString. cbn. by rewrite DecodeUint64_prefix. Qed.
End Texts.
End RpcBlock.
