(* ===== verification/RpcBackend.v ===== *)
(** * Blocks and transactions of the RPC ([rpc/backend], [rpc/types/utils.go])

    The JSON-RPC server answers from the blocks and block results of CometBFT, the
    queries of the EVM module and the index of Ethereum transactions. The module
    models [rpc/backend/blocks.go], [tx_info.go], the base fee of [chain_info.go],
    [rpc/types/utils.go], and the hook of the EVM module that reports the base fee
    in an event ([x/vm/keeper/abci.go]). *)

From stdpp Require Import base gmap list numbers strings.
From Stdlib Require Import ZArith Lia.
From S2P Require Import Prelude SdkMath Scaling AccessList StateDB StateDBCommit VmStore FeeMarket TxData StateTransition VmParams Ante RpcEvents Indexer RpcFilters RpcBlock.

Module RpcBackend.

Definition ErrHeaderLength : error := "unexpected gRPC header length".
Definition ErrParseHeight : error := "failed to parse block height".
Definition ErrHeightMax : error := "block height is greater than max uint64".
Definition ErrBothNil : error := "types BlockHash and BlockNumber cannot be both nil".
Definition ErrBlockNotFound : error := "block not found".
Definition ErrBlockResultNotFound : error := "block result not found".
Definition ErrHeaderNotFound : error := "header not found".
Definition ErrInvalidEthereumTx : error := "invalid ethereum tx".
Definition ErrEthTxNotFound : error := "ethereum tx not found".
Definition ErrNoTxIndex : error := "can't find index of ethereum tx".
Definition ErrTxIndexOverflow : error := "tx index overflow".
Definition ErrDecodeTx : error := "failed to decode tx".
Definition ErrNotSynced : error := "chain not synced beyond EIP-155 replay-protection fork block".

(** ** What CometBFT answers *)

Record tmHeader := mkTmHeader {
  th_Height : Z;
  th_Hash : bytes;              (* the hash of the header *)
  th_LastBlockID : bytes;
  th_DataHash : bytes;
  th_AppHash : bytes;
  th_ProposerAddress : bytes;
  th_Time : Z                   (* Unix seconds *)
}.

(** a block that was found; [rb_BlockID] is the hash in its identifier *)
Record ResultBlock := mkResultBlock { rb_BlockID : bytes; rb_Header : tmHeader; rb_Txs : list bytes; rb_Size : Z }.

Record ResultBlockResults := mkResults { rr_Height : Z; rr_Results : RpcFilters.BlockResults }.

(** a transaction of the transaction index of CometBFT *)
Record ResultTx := mkResultTx { rt_Height : Z; rt_Index : Z; rt_Tx : bytes; rt_TxResult : ExecTxResult }.

(** go-ethereum: the transaction made of its data, its hash, its sender under a
    signer, the address of a contract that is created, an empty bloom filter's
    constants *)
Inductive ethSigner := LatestSignerForChainID (chainID : option Z) | HomesteadSigner.

Class EthTx := {
  eth_NewTx : ethTxData -> ethTransaction;
  et_Hash : ethTransaction -> hash;
  et_Protected : ethTransaction -> bool;
  et_Sender : ethSigner -> ethTransaction -> res address;
  CreateAddress : address -> Z -> address;
  EmptyRootHash : hash;
  EmptyUncleHash : hash;
  et_Hash_ok : forall t, hash_ok (et_Hash t);
  (* a nil number is zero in the copy that [NewTx] makes *)
  eth_NewTx_legacy : forall n p g to v d V R S, let t := eth_NewTx (EthLegacyTx n p g to v d V R S) in
    et_Type t = LegacyTxType /\ et_GasPrice t = Some (default 0 p) /\ et_GasTipCap t = Some (default 0 p) /\ et_GasFeeCap t = Some (default 0 p);
  eth_NewTx_access : forall c n p g to v d al V R S, let t := eth_NewTx (EthAccessListTx c n p g to v d al V R S) in
    et_Type t = AccessListTxType /\ et_GasPrice t = Some (default 0 p) /\ et_GasTipCap t = Some (default 0 p) /\ et_GasFeeCap t = Some (default 0 p);
  eth_NewTx_dynamic : forall c n tip cap g to v d al V R S, let t := eth_NewTx (EthDynamicFeeTx c n tip cap g to v d al V R S) in
    et_Type t = DynamicFeeTxType /\ et_GasPrice t = Some (default 0 cap) /\ et_GasTipCap t = Some (default 0 tip) /\ et_GasFeeCap t = Some (default 0 cap)
}.

(** The clients of the backend and its configuration. A query takes the height of
    its context. [BlockHeightHeader] is the value of the gRPC header of a query. *)
Class RpcEnv := {
  BlockHeightHeader : res (list string);
  q_BaseFee : option Z -> res (option Z);
  q_ValidatorAccount : option Z -> bytes -> res string;
  AccAddressFromBech32 : string -> res bytes;
  tm_Block : Z -> res (option ResultBlock);
  tm_BlockByHash : hash -> res (option ResultBlock);
  tm_HeaderByHash : hash -> res (option tmHeader);
  tm_BlockResults : Z -> res ResultBlockResults;
  tm_ConsensusParams : Z -> res Z;
  tm_UnconfirmedTxs : res (list bytes);
  (* the search by the hash and by the height and index of an Ethereum transaction *)
  tm_TxSearch_hash : hash -> res (list ResultTx);
  tm_TxSearch_index : Z -> Z -> res (list ResultTx);
  TxDecoder : bytes -> res decodedTx;
  NewIntFromString : string -> option Z;
  json_log_Unmarshal : string -> res RpcFilters.Log;
  LogsBloom : list ethLog -> Z;
  be_chainID : option Z;
  ParsedChainID : res Z;
  IsEIP155 : Z -> bool;
  ConfigChainID : Z;
  FixRevertGasRefundHeight : Z;
  (* the index of transactions, when the node has one *)
  be_indexer : option kvDB
}.

(** [common.BytesToAddress]: the last 20 bytes *)
Definition BytesToAddress (bz : bytes) : address := be_value bz `mod` 2 ^ 160.

Definition EventTypeFeeMarket : string := "evm_fee_market".
Definition AttributeKeyBaseFee : string := "base_fee".

(** [BeginBlock] of the EVM module: the events that it adds, given what the query
    of the base fee answers *)
Definition BeginBlock (baseFee : res (option Z)) : list Event :=
  match baseFee with
  | Ok (Some f) => [mkEvent EventTypeFeeMarket [mkAttr AttributeKeyBaseFee (FormatUint f)]]
  | _ => []
  end.

Section Backend.
Context `{!SdkMath} `{!EthHex} `{!HexUtil} `{!TxCodec} `{!EthTx} `{!RpcEnv}.

(** ** [rpc/types/utils.go] *)

Record ethHeader := mkEthHeader {
  eh_ParentHash : hash; eh_UncleHash : hash; eh_Coinbase : address; eh_Root : hash; eh_TxHash : hash; eh_ReceiptHash : hash;
  eh_Bloom : Z; eh_Number : Z; eh_GasLimit : Z; eh_GasUsed : Z; eh_Time : Z; eh_BaseFee : option Z
}.

(** the fields that are always zero or empty are left out *)
Definition EthHeaderFromTendermint (header : tmHeader) (bloom : Z) (baseFee : option Z) : ethHeader :=
  let txHash := if (length (th_DataHash header) =? 0)%nat then BytesToHash (th_DataHash header) else EmptyRootHash in
  mkEthHeader (BytesToHash (th_LastBlockID header)) EmptyUncleHash (BytesToAddress (th_ProposerAddress header))
    (BytesToHash (th_AppHash header)) txHash EmptyRootHash bloom (th_Height header) 0 0 (wrap64 (th_Time header)) baseFee.

Definition defaultGasLimit : Z := 2 ^ 32 - 1.

(** the limit, and the error when the query failed *)
Definition BlockMaxGasFromConsensusParams (blockHeight : Z) : res Z * Z :=
  match tm_ConsensusParams blockHeight with
  | Ok gasLimit => if gasLimit =? -1 then (Ok defaultGasLimit, defaultGasLimit) else (Ok gasLimit, gasLimit)
  | r => (r, defaultGasLimit)
  end.

Record RPCTransaction := mkRPCTransaction {
  rtx_BlockHash : option hash; rtx_BlockNumber : option Z; rtx_From : address; rtx_Gas : Z; rtx_GasPrice : option Z;
  rtx_GasFeeCap : option Z; rtx_GasTipCap : option Z; rtx_Hash : hash; rtx_Input : bytes; rtx_Nonce : Z; rtx_To : option address;
  rtx_TransactionIndex : option Z; rtx_Value : option Z; rtx_Type : TxType; rtx_Accesses : option (option ethAccessList);
  rtx_ChainID : option Z; rtx_V : option Z; rtx_R : option Z; rtx_S : option Z
}.

Definition NewRPCTransaction (tx : ethTransaction) (blockHash : hash) (blockNumber index : Z) (baseFee chainID : option Z) : res RPCTransaction :=
  let signer := if et_Protected tx then LatestSignerForChainID (et_ChainId tx) else HomesteadSigner in
  let? from := match et_Sender signer tx with Ok a => Ok a | Err _ => Ok 0 | Panic e => Panic e end in
  let mined := negb (blockHash =? 0) in
  let? '(price, feeCap, tipCap, accesses, cid) :=
    match et_Type tx with
    | LegacyTxType => Ok (et_GasPrice tx, None, None, None, chainID)
    | AccessListTxType => Ok (et_GasPrice tx, None, None, Some (et_AccessList tx), et_ChainId tx)
    | DynamicFeeTxType =>
        let? price := match baseFee with
                      | Some b => if mined then
                                    match et_GasTipCap tx, et_GasFeeCap tx with
                                    | Some t, Some f => Ok (Some (Z.min (t + b) f))
                                    | _, _ => Panic PanicNil
                                    end
                                  else Ok (et_GasFeeCap tx)
                      | None => Ok (et_GasFeeCap tx)
                      end in
        Ok (price, et_GasFeeCap tx, et_GasTipCap tx, Some (et_AccessList tx), et_ChainId tx)
    end in
  Ok (mkRPCTransaction (if mined then Some blockHash else None) (if mined then Some blockNumber else None) from (et_Gas tx) price
        feeCap tipCap (et_Hash tx) (et_Data tx) (et_Nonce tx) (et_To tx) (if mined then Some index else None) (et_Value tx)
        (et_Type tx) accesses cid (et_V tx) (et_R tx) (et_S tx)).

(** [AsTransaction], which is nil when the data cannot be unpacked *)
Definition AsTransaction (m : MsgEthereumTx) : option ethTransaction :=
  match msg_Data m with Some t => Some (eth_NewTx (AsEthereumData t)) | None => None end.

Definition deref {A} (p : option A) : res A := match p with Some a => Ok a | None => Panic PanicNil end.

Definition NewTransactionFromMsg (m : MsgEthereumTx) (blockHash : hash) (blockNumber index : Z) (baseFee chainID : option Z)
    : res RPCTransaction :=
  let? tx := deref (AsTransaction m) in NewRPCTransaction tx blockHash blockNumber index baseFee chainID.

(** a transaction in a block that is answered: in full, or its hash *)
Inductive blockTx := FullTx (t : RPCTransaction) | TxHash (h : hash).

Record rpcBlock := mkRpcBlock {
  rpb_number : Z; rpb_hash : bytes; rpb_parentHash : hash; rpb_logsBloom : Z; rpb_stateRoot : bytes; rpb_miner : address;
  rpb_size : Z; rpb_gasLimit : Z; rpb_gasUsed : Z; rpb_timestamp : Z; rpb_transactionsRoot : hash; rpb_transactions : list blockTx;
  rpb_baseFeePerGas : option Z
}.

Definition FormatBlock (header : tmHeader) (size gasLimit gasUsed : Z) (transactions : list blockTx) (bloom : Z) (validatorAddr : address)
    (baseFee : option Z) : rpcBlock :=
  let transactionsRoot := match transactions with [] => EmptyRootHash | _ => BytesToHash (th_DataHash header) end in
  mkRpcBlock (wrap64 (th_Height header)) (th_Hash header) (BytesToHash (th_LastBlockID header)) bloom (th_AppHash header) validatorAddr
    (wrap64 size) (wrap64 gasLimit) gasUsed (wrap64 (th_Time header)) transactionsRoot transactions baseFee.

Fixpoint base_fee_attr (attrs : list EventAttribute) : option (option Z) :=
  match attrs with
  | [] => None
  | a :: attrs => if String.eqb (at_Key a) AttributeKeyBaseFee then Some (NewIntFromString (at_Value a)) else base_fee_attr attrs
  end.

Fixpoint BaseFeeFromEvents (events : list Event) : option Z :=
  match events with
  | [] => None
  | e :: events =>
      if negb (String.eqb (ev_Type e) EventTypeFeeMarket) then BaseFeeFromEvents events
      else match base_fee_attr (ev_Attributes e) with Some r => r | None => BaseFeeFromEvents events end
  end.

Fixpoint raw_eth_txs (msgs : list sdkMsg) : res (list MsgEthereumTx) :=
  match msgs with
  | [] => Ok []
  | OtherMsg :: _ => Err ErrInvalidEthereumTx
  | EthMsg m :: msgs =>
      let? tx := deref (AsTransaction m) in
      let? rest := raw_eth_txs msgs in
      Ok (mkMsgEthereumTx (msg_Data m) (msg_Size m) (hash_String (et_Hash tx)) (msg_From m) :: rest)
  end.

Definition RawTxToEthTx (txBz : bytes) : res (list MsgEthereumTx) :=
  match TxDecoder txBz with
  | Panic e => Panic e
  | Err _ => Err ErrDecodeTx
  | Ok tx => raw_eth_txs (d_Msgs tx)
  end.

(** ** Blocks ([blocks.go]) *)

Definition BlockNumber : res Z :=
  let? header := BlockHeightHeader in
  match header with
  | [h] =>
      match ParseUint h 64 with
      | Ok height => if max_int64 <? height then Err ErrHeightMax else Ok height
      | _ => Err ErrParseHeight
      end
  | _ => Err ErrHeaderLength
  end.

(** [None] is a block that was not found *)
Definition TendermintBlockByNumber (blockNum : Z) : res (option ResultBlock) :=
  let height := RpcBlock.Int64 blockNum in
  let? height := if height <=? 0 then BlockNumber else Ok height in
  tm_Block height.

Definition TendermintBlockResultByNumber (height : Z) : res ResultBlockResults := tm_BlockResults height.

Definition TendermintBlockByHash (blockHash : hash) : res (option ResultBlock) := tm_BlockByHash blockHash.

Definition BlockNumberFromTendermintByHash (blockHash : hash) : res Z :=
  let? resBlock := tm_HeaderByHash blockHash in
  match resBlock with None => Err ErrBlockNotFound | Some h => Ok (th_Height h) end.

Definition BlockNumberFromTendermint (b : RpcBlock.BlockNumberOrHash) : res Z :=
  match RpcBlock.bnh_BlockHash b, RpcBlock.bnh_BlockNumber b with
  | None, None => Err ErrBothNil
  | Some h, _ => let? n := BlockNumberFromTendermintByHash h in Ok (RpcBlock.NewBlockNumber n)
  | None, Some n => Ok n
  end.

(** the Ethereum messages among some messages, each with the hash of its
    transaction *)
Fixpoint eth_msgs (msgs : list sdkMsg) : res (list MsgEthereumTx) :=
  match msgs with
  | [] => Ok []
  | OtherMsg :: msgs => eth_msgs msgs
  | EthMsg m :: msgs =>
      let? tx := deref (AsTransaction m) in
      let? rest := eth_msgs msgs in
      Ok (mkMsgEthereumTx (msg_Data m) (msg_Size m) (hash_String (et_Hash tx)) (msg_From m) :: rest)
  end.

Fixpoint eth_msgs_of_txs (txs : list bytes) (results : list ExecTxResult) : res (list MsgEthereumTx) :=
  match txs, results with
  | [], _ => Ok []
  | _ :: _, [] => Panic PanicIndex
  | tx :: txs, result :: results =>
      if negb (TxSucessOrExpectedFailure result) then eth_msgs_of_txs txs results
      else match TxDecoder tx with
           | Panic e => Panic e
           | Err _ => eth_msgs_of_txs txs results
           | Ok tx =>
               let? ms := eth_msgs (d_Msgs tx) in
               let? rest := eth_msgs_of_txs txs results in
               Ok (ms ++ rest)
           end
  end.

Definition EthMsgsFromTendermintBlock (resBlock : ResultBlock) (blockRes : ResultBlockResults) : res (list MsgEthereumTx) :=
  eth_msgs_of_txs (rb_Txs resBlock) (RpcFilters.br_TxsResults (rr_Results blockRes)).

(** the base fee of the last event of the fee market, read from the end *)
Fixpoint last_fee_event (rev_events : list Event) : option Z :=
  match rev_events with
  | [] => None
  | e :: rest =>
      if String.eqb (ev_Type e) EventTypeFeeMarket then
        match ev_Attributes e with
        | a :: _ => NewIntFromString (at_Value a)
        | [] => last_fee_event rest
        end
      else last_fee_event rest
  end.

(** [BaseFee] of [chain_info.go] *)
Definition BaseFee (blockRes : ResultBlockResults) : res (option Z) :=
  let r := q_BaseFee (RpcBlock.ContextWithHeight (rr_Height blockRes)) in
  match r with
  | Panic e => Panic e
  | Ok (Some f) => Ok (Some f)
  | _ =>
      match last_fee_event (rev (RpcFilters.br_FinalizeBlockEvents (rr_Results blockRes))) with
      | Some f => Ok (Some f)
      | None => r
      end
  end.

(** an error of a query that is only logged *)
Definition tolerate {A} (r : res A) (d : A) : res A :=
  match r with Ok a => Ok a | Err _ => Ok d | Panic e => Panic e end.

(** a header with the filter and the fee of its block *)
Definition header_of (header : tmHeader) (blockRes : ResultBlockResults) : res ethHeader :=
  let? bloom := tolerate (RpcFilters.BlockBloom (rr_Results blockRes)) 0 in
  let? baseFee := tolerate (BaseFee blockRes) None in
  Ok (EthHeaderFromTendermint header bloom baseFee).

Definition HeaderByNumber (blockNum : Z) : res ethHeader :=
  let? resBlock := TendermintBlockByNumber blockNum in
  match resBlock with
  | None => Err ErrBlockNotFound
  | Some b =>
      match tm_BlockResults (th_Height (rb_Header b)) with
      | Panic e => Panic e
      | Err _ => Err ErrBlockResultNotFound
      | Ok blockRes => header_of (rb_Header b) blockRes
      end
  end.

Definition HeaderByHash (blockHash : hash) : res ethHeader :=
  let? resHeader := tm_HeaderByHash blockHash in
  match resHeader with
  | None => Err ErrHeaderNotFound
  | Some h =>
      match tm_BlockResults (th_Height h) with
      | Panic e => Panic e
      | Err _ => Err ErrBlockResultNotFound
      | Ok blockRes => header_of h blockRes
      end
  end.

Definition CurrentHeader : res ethHeader := HeaderByNumber RpcBlock.EthLatestBlockNumber.

Definition NoBlockGasLeft : string := "no block gas left to run tx: out of gas".

Definition ShouldIgnoreGasUsed (r : ExecTxResult) : bool := (er_Code r =? 11) && str_contains (er_Log r) NoBlockGasLeft.

Fixpoint block_gas_used (results : list ExecTxResult) (gasUsed : Z) : Z :=
  match results with
  | [] => gasUsed
  | r :: results => if ShouldIgnoreGasUsed r then gasUsed else block_gas_used results (wrap64 (gasUsed + wrap64 (er_GasUsed r)))
  end.

(** the transactions of an answered block from index [txIndex] on; one whose
    conversion fails is left out *)
Fixpoint block_txs (fullTx : bool) (blockHash : hash) (height txIndex : Z) (baseFee : option Z) (msgs : list MsgEthereumTx)
    : res (list blockTx) :=
  match msgs with
  | [] => Ok []
  | m :: msgs =>
      if negb fullTx then
        let? rest := block_txs fullTx blockHash height (txIndex + 1) baseFee msgs in
        Ok (TxHash (HexToHash (msg_Hash m)) :: rest)
      else
        let? tx := deref (AsTransaction m) in
        match NewRPCTransaction tx blockHash (wrap64 height) (wrap64 txIndex) baseFee be_chainID with
        | Panic e => Panic e
        | Err _ => block_txs fullTx blockHash height (txIndex + 1) baseFee msgs
        | Ok rpcTx => let? rest := block_txs fullTx blockHash height (txIndex + 1) baseFee msgs in Ok (FullTx rpcTx :: rest)
        end
  end.

Definition RPCBlockFromTendermintBlock (resBlock : ResultBlock) (blockRes : ResultBlockResults) (fullTx : bool) : res rpcBlock :=
  let header := rb_Header resBlock in
  let? baseFee := tolerate (BaseFee blockRes) None in
  let? msgs := EthMsgsFromTendermintBlock resBlock blockRes in
  let? ethRPCTxs := block_txs fullTx (BytesToHash (th_Hash header)) (th_Height header) 0 baseFee msgs in
  let? bloom := tolerate (RpcFilters.BlockBloom (rr_Results blockRes)) 0 in
  let? validatorAccAddr :=
    match q_ValidatorAccount (RpcBlock.ContextWithHeight (th_Height header)) (th_ProposerAddress header) with
    | Panic e => Panic e
    | Err _ => Ok (be_bytes 20 0)
    | Ok text => AccAddressFromBech32 text
    end in
  let? gasLimit := match BlockMaxGasFromConsensusParams (th_Height header) with (Panic e, _) => Panic e | (_, g) => Ok g end in
  let gasUsed := block_gas_used (RpcFilters.br_TxsResults (rr_Results blockRes)) 0 in
  Ok (FormatBlock header (rb_Size resBlock) gasLimit gasUsed ethRPCTxs bloom (BytesToAddress validatorAccAddr) baseFee).

(** the answer for a block; [None] is null *)
Definition GetBlockByNumber (blockNum : Z) (fullTx : bool) : res (option rpcBlock) :=
  match TendermintBlockByNumber blockNum with
  | Panic e => Panic e
  | Err _ | Ok None => Ok None
  | Ok (Some resBlock) =>
      match tm_BlockResults (th_Height (rb_Header resBlock)) with
      | Panic e => Panic e
      | Err _ => Ok None
      | Ok blockRes => let? b := RPCBlockFromTendermintBlock resBlock blockRes fullTx in Ok (Some b)
      end
  end.

Definition GetBlockByHash (h : hash) (fullTx : bool) : res (option rpcBlock) :=
  let? resBlock := TendermintBlockByHash h in
  match resBlock with
  | None => Ok None
  | Some resBlock =>
      match tm_BlockResults (th_Height (rb_Header resBlock)) with
      | Panic e => Panic e
      | Err _ => Ok None
      | Ok blockRes => let? b := RPCBlockFromTendermintBlock resBlock blockRes fullTx in Ok (Some b)
      end
  end.

Definition GetBlockTransactionCount (block : ResultBlock) : res (option Z) :=
  match tm_BlockResults (th_Height (rb_Header block)) with
  | Panic e => Panic e
  | Err _ => Ok None
  | Ok blockRes => let? ethMsgs := EthMsgsFromTendermintBlock block blockRes in Ok (Some (Z.of_nat (length ethMsgs)))
  end.

Definition GetBlockTransactionCountByHash (h : hash) : res (option Z) :=
  match tm_BlockByHash h with
  | Panic e => Panic e
  | Err _ | Ok None => Ok None
  | Ok (Some block) => GetBlockTransactionCount block
  end.

(** A block that is not found is a nil pointer here, which is dereferenced. *)
Definition GetBlockTransactionCountByNumber (blockNum : Z) : res (option Z) :=
  match TendermintBlockByNumber blockNum with
  | Panic e => Panic e
  | Err _ => Ok None
  | Ok None => Panic PanicNil
  | Ok (Some block) => GetBlockTransactionCount block
  end.

(** [NewBlock] of go-ethereum takes the header and the transactions *)
Definition EthBlockFromTendermintBlock (resBlock : ResultBlock) (blockRes : ResultBlockResults) : res (ethHeader * list (option ethTransaction)) :=
  let? ethHeader := header_of (rb_Header resBlock) blockRes in
  let? msgs := EthMsgsFromTendermintBlock resBlock blockRes in
  Ok (ethHeader, map AsTransaction msgs).

Definition EthBlockByNumber (blockNum : Z) : res (ethHeader * list (option ethTransaction)) :=
  let? resBlock := TendermintBlockByNumber blockNum in
  match resBlock with
  | None => Err ErrBlockNotFound
  | Some resBlock =>
      match tm_BlockResults (th_Height (rb_Header resBlock)) with
      | Panic e => Panic e
      | Err _ => Err ErrBlockResultNotFound
      | Ok blockRes => EthBlockFromTendermintBlock resBlock blockRes
      end
  end.

(** ** Transactions ([tx_info.go]) *)

(** [PendingTransactions] of [chain_info.go]: the mempool, decoded *)
Fixpoint decode_txs (txs : list bytes) : res (list decodedTx) :=
  match txs with
  | [] => Ok []
  | tx :: txs => let? t := TxDecoder tx in let? rest := decode_txs txs in Ok (t :: rest)
  end.

Definition PendingTransactions : res (list decodedTx) := let? txs := tm_UnconfirmedTxs in decode_txs txs.

(** [UnwrapEthereumMsg] of [x/vm/types/utils.go] *)
Fixpoint unwrap_msgs (msgs : list sdkMsg) (ethHash : hash) : res MsgEthereumTx :=
  match msgs with
  | [] => Err ErrEthTxNotFound
  | OtherMsg :: _ => Err ErrInvalidEthereumTx
  | EthMsg m :: msgs =>
      let? tx := deref (AsTransaction m) in
      if et_Hash tx =? ethHash then Ok (mkMsgEthereumTx (msg_Data m) (msg_Size m) (hash_String (et_Hash tx)) (msg_From m))
      else unwrap_msgs msgs ethHash
  end.

Definition UnwrapEthereumMsg (tx : decodedTx) (ethHash : hash) : res MsgEthereumTx := unwrap_msgs (d_Msgs tx) ethHash.

Fixpoint find_pending (txs : list decodedTx) (txHash : hash) : res (option RPCTransaction) :=
  match txs with
  | [] => Ok None
  | tx :: txs =>
      match UnwrapEthereumMsg tx txHash with
      | Panic e => Panic e
      | Err _ => find_pending txs txHash
      | Ok m =>
          if String.eqb (msg_Hash m) (hash_String txHash) then
            let? rpctx := NewTransactionFromMsg m 0 0 0 None be_chainID in Ok (Some rpctx)
          else find_pending txs txHash
      end
  end.

Definition getTransactionByHashPending (txHash : hash) : res (option RPCTransaction) :=
  match PendingTransactions with
  | Panic e => Panic e
  | Err _ => Ok None
  | Ok txs => find_pending txs txHash
  end.

(** the index of CometBFT, when the node has no index of its own *)
Definition queryTendermintTxIndexer (search : res (list ResultTx)) (txGetter : ParsedTxs -> option ParsedTx) : res TxResult :=
  let? resTxs := search in
  match resTxs with
  | [] => Err ErrEthTxNotFound
  | txResult :: _ =>
      if negb (TxSucessOrExpectedFailure (rt_TxResult txResult)) then Err ErrInvalidEthereumTx
      else
        let? tx := if negb (er_Code (rt_TxResult txResult) =? 0) then
                     match TxDecoder (rt_Tx txResult) with
                     | Ok tx => Ok (Some (d_Msgs tx))
                     | Err _ => Err ErrInvalidEthereumTx
                     | Panic e => Panic e
                     end
                   else Ok None in
        ParseTxIndexerResult (rt_Height txResult) (rt_Index txResult) (rt_TxResult txResult) tx txGetter
  end.

Definition GetTxByEthHash (h : hash) : res TxResult :=
  match be_indexer with
  | Some db => GetByTxHash db h
  | None => queryTendermintTxIndexer (tm_TxSearch_hash h) (fun txs => GetTxByHash txs h)
  end.

Definition GetTxByTxIndex (height index : Z) : res TxResult :=
  match be_indexer with
  | Some db => GetByBlockAndIndex db height (to_int32 index)
  | None => queryTendermintTxIndexer (tm_TxSearch_index height index) (fun txs => GetTxByTxIndex txs (to_int64 index))
  end.

(** the position of the message with a hash *)
Fixpoint find_hash (msgs : list MsgEthereumTx) (hexTx : string) (i : Z) : option Z :=
  match msgs with
  | [] => None
  | m :: msgs => if String.eqb (msg_Hash m) hexTx then Some i else find_hash msgs hexTx (i + 1)
  end.

Definition index_at {A} (l : list A) (i : Z) : res A :=
  if i <? 0 then Panic PanicIndex else match l !! Z.to_nat i with Some a => Ok a | None => Panic PanicIndex end.

Definition max_int32 : Z := 2 ^ 31 - 1.

(** a result of [GetTransactionByHash]; [None] is null *)
Definition GetTransactionByHash (txHash : hash) : res (option RPCTransaction) :=
  match GetTxByEthHash txHash with
  | Panic e => Panic e
  | Err _ => getTransactionByHashPending txHash
  | Ok r =>
      let? block := TendermintBlockByNumber (tr_Height r) in
      let? block := deref block in
      let? bz := index_at (rb_Txs block) (tr_TxIndex r) in
      let? tx := TxDecoder bz in
      let? msg := index_at (d_Msgs tx) (tr_MsgIndex r) in
      match msg with
      | OtherMsg => Err ErrInvalidEthereumTx
      | EthMsg m =>
          match tm_BlockResults (th_Height (rb_Header block)) with
          | Panic e => Panic e
          | Err _ => Ok None
          | Ok blockRes =>
              let? ethTxIndex :=
                if tr_EthTxIndex r =? -1 then
                  let? msgs := EthMsgsFromTendermintBlock block blockRes in
                  match find_hash msgs (hash_String txHash) 0 with
                  | Some i => if max_int32 <? i then Err ErrTxIndexOverflow else Ok i
                  | None => Ok (-1)
                  end
                else Ok (tr_EthTxIndex r) in
              if ethTxIndex =? -1 then Err ErrNoTxIndex
              else
                let? baseFee := tolerate (BaseFee blockRes) None in
                let? t := NewTransactionFromMsg m (BytesToHash (rb_BlockID block)) (wrap64 (tr_Height r)) (wrap64 ethTxIndex) baseFee be_chainID in
                Ok (Some t)
          end
      end
  end.

Definition GetGasUsed (r : TxResult) (price : option Z) (gas : Z) : res Z :=
  if tr_Failed r && (tr_Height r <? FixRevertGasRefundHeight) then
    match price with Some p => Ok (wrap64 (p * gas)) | None => Panic PanicNil end
  else Ok (tr_GasUsed r).

Definition ChainID : res Z :=
  match ParsedChainID with
  | Ok eip155ChainID =>
      match BlockNumber with
      | Panic e => Panic e
      | Err _ => Ok eip155ChainID
      | Ok bn => if IsEIP155 bn then Ok ConfigChainID else Err ErrNotSynced
      end
  | Err e | Panic e => Panic e
  end.

Record Receipt := mkReceipt {
  rc_status : Z; rc_cumulativeGasUsed : Z; rc_logsBloom : Z; rc_logs : list ethLog; rc_transactionHash : hash;
  rc_contractAddress : option address; rc_gasUsed : Z; rc_blockHash : hash; rc_blockNumber : Z; rc_transactionIndex : Z;
  rc_effectiveGasPrice : option Z; rc_from : address; rc_to : option address; rc_type : TxType
}.

Definition ReceiptStatusFailed : Z := 0.
Definition ReceiptStatusSuccessful : Z := 1.

(** the gas of the results before a transaction *)
Fixpoint gas_before (results : list ExecTxResult) (n : nat) (acc : Z) : res Z :=
  match n, results with
  | O, _ => Ok acc
  | S _, [] => Panic PanicIndex
  | S n, r :: results => gas_before results n (wrap64 (acc + wrap64 (er_GasUsed r)))
  end.

(** [GetSender] of the message with the signer of a chain *)
Definition msg_GetSender (m : MsgEthereumTx) (chainID : Z) : res address :=
  let? tx := deref (AsTransaction m) in et_Sender (LatestSignerForChainID (Some chainID)) tx.

(** the receipt of a message in its block *)
Definition receipt_of (h : hash) (r : TxResult) (resBlock : ResultBlock) (m : MsgEthereumTx) (txData : TxData) (blockRes : ResultBlockResults)
    : res Receipt :=
  let results := RpcFilters.br_TxsResults (rr_Results blockRes) in
  let? before := gas_before results (Z.to_nat (tr_TxIndex r)) 0 in
  let cumulativeGasUsed := wrap64 (before + tr_CumulativeGasUsed r) in
  let status := if tr_Failed r then ReceiptStatusFailed else ReceiptStatusSuccessful in
  let? chainID := ChainID in
  let? from := msg_GetSender m chainID in
  let? result := index_at results (tr_TxIndex r) in
  let? logs := tolerate (RpcFilters.TxLogsFromEvents json_log_Unmarshal (er_Events result) (tr_MsgIndex r)) [] in
  let? ethTxIndex :=
    if tr_EthTxIndex r =? -1 then
      let? msgs := EthMsgsFromTendermintBlock resBlock blockRes in
      Ok (match find_hash msgs (hash_String h) 0 with Some i => to_int32 i | None => -1 end)
    else Ok (tr_EthTxIndex r) in
  if ethTxIndex =? -1 then Err ErrNoTxIndex
  else
    let? gasUsed := GetGasUsed r (GetGasPrice txData) (GetGas txData) in
    let? tx := deref (AsTransaction m) in
    let? price :=
      match txData with
      | TxDynamicFee dynamicTx =>
          match BaseFee blockRes with
          | Panic e => Panic e
          | Err _ => Ok (GetGasPrice txData)
          | Ok baseFee => let? p := Dynamic.EffectiveGasPrice dynamicTx baseFee in Ok (Some p)
          end
      | _ => Ok (GetGasPrice txData)
      end in
    Ok (mkReceipt status cumulativeGasUsed (LogsBloom logs) logs h
          (match GetTo txData with None => Some (CreateAddress from (GetNonce txData)) | Some _ => None end) gasUsed
          (BytesToHash (th_Hash (rb_Header resBlock))) (wrap64 (tr_Height r)) (wrap64 ethTxIndex) price from (GetTo txData) (et_Type tx)).

Definition GetTransactionReceipt (h : hash) : res (option Receipt) :=
  match GetTxByEthHash h with
  | Panic e => Panic e
  | Err _ => Ok None
  | Ok r =>
      match TendermintBlockByNumber (tr_Height r) with
      | Panic e => Panic e
      | Err _ => Ok None
      | Ok resBlock =>
          let? resBlock := deref resBlock in
          let? bz := index_at (rb_Txs resBlock) (tr_TxIndex r) in
          let? tx := match TxDecoder bz with Ok tx => Ok tx | Err _ => Err ErrDecodeTx | Panic e => Panic e end in
          let? msg := index_at (d_Msgs tx) (tr_MsgIndex r) in
          match msg with
          | OtherMsg => Panic PanicTypeAssertion
          | EthMsg m =>
              match msg_Data m with
              | None => Err ErrUnpack
              | Some txData =>
                  match tm_BlockResults (tr_Height r) with
                  | Panic e => Panic e
                  | Err _ => Ok None
                  | Ok blockRes => let? rc := receipt_of h r resBlock m txData blockRes in Ok (Some rc)
                  end
              end
          end
      end
  end.

Definition GetTransactionLogs (h : hash) : res (option (list ethLog)) :=
  match GetTxByEthHash h with
  | Panic e => Panic e
  | Err _ => Ok None
  | Ok r =>
      if tr_Failed r then Ok None
      else match tm_BlockResults (tr_Height r) with
           | Panic e => Panic e
           | Err _ => Ok None
           | Ok blockRes =>
               let? result := index_at (RpcFilters.br_TxsResults (rr_Results blockRes)) (tr_TxIndex r) in
               let? logs := RpcFilters.TxLogsFromEvents json_log_Unmarshal (er_Events result) (tr_MsgIndex r) in Ok (Some logs)
           end
  end.

Definition GetTransactionByBlockAndIndex (block : ResultBlock) (idx : Z) : res (option RPCTransaction) :=
  match tm_BlockResults (th_Height (rb_Header block)) with
  | Panic e => Panic e
  | Err _ => Ok None
  | Ok blockRes =>
      let? msg :=
        match GetTxByTxIndex (th_Height (rb_Header block)) idx with
        | Panic e => Panic e
        | Ok r =>
            let? bz := index_at (rb_Txs block) (tr_TxIndex r) in
            match TxDecoder bz with
            | Panic e => Panic e
            | Err _ => Ok None
            | Ok tx =>
                let? msg := index_at (d_Msgs tx) (tr_MsgIndex r) in
                Ok (match msg with EthMsg m => Some m | OtherMsg => None end)
            end
        | Err _ =>
            let? ethMsgs := EthMsgsFromTendermintBlock block blockRes in
            let i := to_int64 idx in
            if Z.of_nat (length ethMsgs) <=? i then Ok None
            else let? m := index_at ethMsgs i in Ok (Some m)
        end in
      match msg with
      | None => Ok None
      | Some m =>
          let? baseFee := tolerate (BaseFee blockRes) None in
          let? t := NewTransactionFromMsg m (BytesToHash (th_Hash (rb_Header block))) (wrap64 (th_Height (rb_Header block))) idx baseFee be_chainID in
          Ok (Some t)
      end
  end.

Definition GetTransactionByBlockHashAndIndex (h : hash) (idx : Z) : res (option RPCTransaction) :=
  match tm_BlockByHash h with
  | Panic e => Panic e
  | Err _ | Ok None => Ok None
  | Ok (Some block) => GetTransactionByBlockAndIndex block idx
  end.

(** A block that is not found is a nil pointer here, which is dereferenced. *)
Definition GetTransactionByBlockNumberAndIndex (blockNum idx : Z) : res (option RPCTransaction) :=
  match TendermintBlockByNumber blockNum with
  | Panic e => Panic e
  | Err _ => Ok None
  | Ok None => Panic PanicNil
  | Ok (Some block) => GetTransactionByBlockAndIndex block idx
  end.
End Backend.
End RpcBackend.
