(* ===== verification/RpcBackendTheorems.v ===== *)
(** * Properties of the blocks and transactions of the RPC *)

From stdpp Require Import base gmap list numbers strings.
From Stdlib Require Import ZArith Lia.
From S2P Require Import Prelude SdkMath Scaling AccessList StateDB StateDBCommit VmStore FeeMarket TxData StateTransition VmParams Ante RpcEvents RpcEventsTheorems Indexer IndexerTheorems RpcFilters RpcBlock RpcBackend.

Module RpcBackendTheorems.
Import RpcBackend.

Section Theorems.
Context `{!SdkMath} `{!EthHex} `{!RpcBlock.HexUtil} `{!TxCodec} `{!EthTx} `{!RpcEnv}.

(** ** The messages of a block *)

(** the message with the hash of its transaction *)
Definition rehash (m : MsgEthereumTx) (t : TxData) : MsgEthereumTx :=
  mkMsgEthereumTx (msg_Data m) (msg_Size m) (hash_String (et_Hash (eth_NewTx (AsEthereumData t)))) (msg_From m).

(** a message that was executed: it has data, the hash of its transaction, and
    the events mention it *)
Definition msg_executed (result : ExecTxResult) (p : ParsedTxs) (i : Z) (msg : sdkMsg) : Prop :=
  exists m t, msg = EthMsg m /\ msg_Data m = Some t /\ msg_hash m = et_Hash (eth_NewTx (AsEthereumData t)) /\
    is_Some (msg_outcome result p i m).

(** A transaction of a block that counts is an Ethereum transaction, or has no
    Ethereum message. *)
Definition tx_executed (tx : bytes) (result : ExecTxResult) : Prop :=
  TxSucessOrExpectedFailure result = true ->
  match TxDecoder tx with
  | Panic _ => False
  | Err _ => True
  | Ok d =>
      if isEthTx d then
        exists p, ParseTxResult result (Some (d_Msgs d)) = Ok p /\
          forall i msg, d_Msgs d !! i = Some msg -> msg_executed result p (Z.of_nat i) msg
      else Forall (fun msg => msg = OtherMsg) (d_Msgs d)
  end.

Lemma eth_msgs_others msgs : Forall (fun msg => msg = OtherMsg) msgs -> eth_msgs msgs = Ok [].
Proof. induction 1 as [|msg msgs -> _ IH]; [done|exact IH]. Qed.

Lemma msg_hash_rehash m t : msg_hash (rehash m t) = et_Hash (eth_NewTx (AsEthereumData t)).
Proof. unfold msg_hash, rehash. cbn. apply HexToHash_String, et_Hash_ok. Qed.

(** the messages of a transaction, with the hashes that the index has for them *)
Lemma eth_msgs_executed result p msgs : forall i,
  (forall j msg, msgs !! j = Some msg -> msg_executed result p (i + Z.of_nat j) msg) ->
  exists ms, eth_msgs msgs = Ok ms /\ map msg_hash ms = msgs_hashes result p i msgs /\
    forall j m', ms !! j = Some m' -> exists m t g f, msgs !! j = Some (EthMsg m) /\ msg_Data m = Some t /\ m' = rehash m t /\
      msg_hash m = et_Hash (eth_NewTx (AsEthereumData t)) /\ msg_outcome result p (i + Z.of_nat j) m = Some (g, f).
Proof.
  induction msgs as [|msg msgs IH]; intros i Hx; [by exists []|].
  destruct (Hx 0%nat msg eq_refl) as (m & t & -> & Ht & Hh & Ho). rewrite Z.add_0_r in Ho.
  destruct (IH (i + 1)) as (ms & Hms & Hhs & Hl).
  { intros j msg Hj. replace (i + 1 + Z.of_nat j) with (i + Z.of_nat (S j)) by lia. by apply (Hx (S j)). }
  destruct Ho as [[g f] Ho]. exists (rehash m t :: ms). split; [|split].
  - cbn [eth_msgs]. unfold AsTransaction, deref. rewrite Ht. cbn [mbind res_bind]. rewrite Hms. unfold rehash. by rewrite Ht.
  - cbn [map msgs_hashes]. rewrite Ho, msg_hash_rehash, Hhs, Hh. done.
  - intros [|j] m' Hj; cbn in Hj.
    + injection Hj as <-. exists m, t, g, f. rewrite Z.add_0_r. by split_and!.
    + destruct (Hl j m' Hj) as (m1 & t1 & g1 & f1 & ? & ? & ? & ? & Ho1). exists m1, t1, g1, f1. split_and!; try done.
      by replace (i + Z.of_nat (S j)) with (i + 1 + Z.of_nat j) by lia.
Qed.

Lemma eth_msgs_of_block txs results :
  Forall2 tx_executed txs results ->
  exists ms, eth_msgs_of_txs txs results = Ok ms /\ map msg_hash ms = block_hashes TxDecoder txs results /\
    forall j m', ms !! j = Some m' -> exists k i m t g f, block_msg TxDecoder txs results k i m g f /\ msg_Data m = Some t /\
      m' = rehash m t /\ msg_hash m = et_Hash (eth_NewTx (AsEthereumData t)).
Proof.
  assert (Hcons : forall tx txs result results k i m g f, block_msg TxDecoder txs results k i m g f ->
    block_msg TxDecoder (tx :: txs) (result :: results) (S k) i m g f) by done.
  induction 1 as [|tx result txs results He _ (ms & Hms & Hhs & Hl)]; [by exists []|].
  assert (Hskip : indexed_tx TxDecoder tx result = Ok None ->
    exists ms', Ok ms = Ok ms' /\ map msg_hash ms' = block_hashes TxDecoder (tx :: txs) (result :: results) /\
      forall j m', ms' !! j = Some m' -> exists k i m t g f, block_msg TxDecoder (tx :: txs) (result :: results) k i m g f /\
        msg_Data m = Some t /\ m' = rehash m t /\ msg_hash m = et_Hash (eth_NewTx (AsEthereumData t))).
  { intros E. exists ms. split_and!; [done|by cbn; rewrite E|]. intros j m' Hj.
    destruct (Hl j m' Hj) as (k & i & m & t & g & f & Hb & ?). exists (S k), i, m, t, g, f. by split; [apply Hcons|]. }
  cbn [eth_msgs_of_txs]. unfold tx_executed in He. unfold indexed_tx in Hskip.
  destruct (TxSucessOrExpectedFailure result) eqn:Es; cbn [negb] in *; [|rewrite Hms; by apply Hskip].
  specialize (He eq_refl). destruct (TxDecoder tx) as [d|e|e] eqn:Ed; [|rewrite Hms; by apply Hskip|done].
  destruct (isEthTx d) eqn:Ei; cbn [negb] in *.
  - destruct He as (p & Hp & Hm). destruct (eth_msgs_executed result p (d_Msgs d) 0) as (ms1 & E1 & E2 & E3); [exact Hm|].
    rewrite E1, Hms. cbn [mbind res_bind]. exists (ms1 ++ ms).
    assert (Hix : indexed_tx TxDecoder tx result = Ok (Some (d_Msgs d, p))).
    { unfold indexed_tx. rewrite Es, Ed, Ei. cbn [negb]. by rewrite Hp. }
    split_and!; [done| |].
    + rewrite map_app, E2, Hhs. cbn [block_hashes]. by rewrite Hix.
    + intros j m' Hj. apply lookup_app_Some in Hj as [Hj|[_ Hj]].
      * destruct (E3 j m' Hj) as (m & t & g & f & Hj' & Ht & -> & Hh & Ho). exists 0%nat, j, m, t, g, f. split_and!; try done.
        by exists tx, result, (d_Msgs d), p.
      * destruct (Hl _ m' Hj) as (k & i & m & t & g & f & Hb & ?). exists (S k), i, m, t, g, f. by split; [apply Hcons|].
  - rewrite (eth_msgs_others _ He), Hms. cbn [mbind res_bind app]. by apply Hskip.
Qed.

(** ** Transactions of a block *)

Lemma NewRPCTransaction_no_error tx bh n i bf cid e : NewRPCTransaction tx bh n i bf cid <> Err e.
Proof.
  unfold NewRPCTransaction. destruct (et_Sender _ tx); cbn [mbind res_bind]; try done;
    destruct (et_Type tx), bf; cbn; try done; destruct (negb _); cbn; try done; by destruct (et_GasTipCap tx), (et_GasFeeCap tx).
Qed.

Lemma NewRPCTransaction_fields tx bh n i bf cid t :
  NewRPCTransaction tx bh n i bf cid = Ok t ->
  rtx_Hash t = et_Hash tx /\ rtx_TransactionIndex t = (if bh =? 0 then None else Some i) /\
  rtx_BlockNumber t = (if bh =? 0 then None else Some n).
Proof.
  unfold NewRPCTransaction. intros E. apply bind_Ok_inv in E as (from & _ & E).
  apply bind_Ok_inv in E as ([[[[price cap] tip] al] c] & _ & [= <-]). cbn. by destruct (bh =? 0).
Qed.

Lemma block_txs_full bh h bf msgs : forall n txs,
  block_txs true bh h n bf msgs = Ok txs ->
  length txs = length msgs /\
  forall j x, txs !! j = Some x -> exists m t, msgs !! j = Some m /\ x = FullTx t /\
    NewTransactionFromMsg m bh (wrap64 h) (wrap64 (n + Z.of_nat j)) bf be_chainID = Ok t.
Proof.
  induction msgs as [|m msgs IH]; intros n txs E; cbn [block_txs negb] in E; [injection E as <-; by split|].
  apply bind_Ok_inv in E as (tx & Htx & E). destruct (NewRPCTransaction _ _ _ _ _ _) as [t|e|e] eqn:Et;
    [|by apply NewRPCTransaction_no_error in Et|done].
  apply bind_Ok_inv in E as (rest & Hrest & [= <-]). destruct (IH _ _ Hrest) as [Hlen Hl]. cbn. split; [lia|].
  intros [|j] x Hx; cbn in Hx.
  - injection Hx as <-. exists m, t. rewrite Z.add_0_r. unfold NewTransactionFromMsg. by rewrite Htx.
  - replace (n + Z.of_nat (S j)) with (n + 1 + Z.of_nat j) by lia. by apply Hl.
Qed.

Lemma block_txs_hashes bh h bf msgs : forall n txs,
  block_txs false bh h n bf msgs = Ok txs -> txs = map (fun m => TxHash (msg_hash m)) msgs.
Proof.
  induction msgs as [|m msgs IH]; intros n txs E; cbn [block_txs negb] in E; [by injection E as <-|].
  apply bind_Ok_inv in E as (rest & Hrest & [= <-]). cbn. by rewrite <-(IH _ _ Hrest).
Qed.

(** what an answered block is made of *)
Lemma RPCBlock_transactions block blockRes full b :
  RPCBlockFromTendermintBlock block blockRes full = Ok b ->
  exists bf msgs, tolerate (BaseFee blockRes) None = Ok bf /\ EthMsgsFromTendermintBlock block blockRes = Ok msgs /\
    block_txs full (BytesToHash (th_Hash (rb_Header block))) (th_Height (rb_Header block)) 0 bf msgs = Ok (rpb_transactions b).
Proof.
  unfold RPCBlockFromTendermintBlock. intros E. apply bind_Ok_inv in E as (bf & Hbf & E). apply bind_Ok_inv in E as (msgs & Hm & E).
  apply bind_Ok_inv in E as (txs & Htxs & E). apply bind_Ok_inv in E as (bloom & _ & E). apply bind_Ok_inv in E as (val & _ & E).
  apply bind_Ok_inv in E as (gl & _ & [= <-]). by exists bf, msgs.
Qed.

Lemma index_at_nat {A} (l : list A) (j : nat) a : l !! j = Some a -> index_at l (Z.of_nat j) = Ok a.
Proof.
  intros Hj. unfold index_at. destruct (Z.ltb_spec (Z.of_nat j) 0); [lia|]. by rewrite Nat2Z.id, Hj.
Qed.

(** A block of the chain that was just indexed: the clients answer it for its
    height, its transactions were executed and have distinct hashes. *)
Record indexed_block (height : Z) (block : ResultBlock) (blockRes : ResultBlockResults) (db db' : kvDB) : Prop := {
  ib_height : th_Height (rb_Header block) = height;
  ib_range : 0 < height < 2 ^ 63;
  ib_id : BytesToHash (rb_BlockID block) = BytesToHash (th_Hash (rb_Header block));
  ib_block : tm_Block height = Ok (Some block);
  ib_results : tm_BlockResults height = Ok blockRes;
  ib_fault : db_fault db = None;
  ib_index : IndexBlock TxDecoder db (mkBlock height (rb_Txs block)) (RpcFilters.br_TxsResults (rr_Results blockRes)) = (db', Ok ());
  ib_indexer : be_indexer = Some db';
  ib_executed : Forall2 tx_executed (rb_Txs block) (RpcFilters.br_TxsResults (rr_Results blockRes));
  ib_distinct : NoDup (block_hashes TxDecoder (rb_Txs block) (RpcFilters.br_TxsResults (rr_Results blockRes)));
  ib_count : Z.of_nat (length (block_hashes TxDecoder (rb_Txs block) (RpcFilters.br_TxsResults (rr_Results blockRes)))) < 2 ^ 31;
  ib_txs : Z.of_nat (length (rb_Txs block)) < 2 ^ 32;
  ib_msgs : forall tx d, tx ∈ rb_Txs block -> TxDecoder tx = Ok d -> Z.of_nat (length (d_Msgs d)) < 2 ^ 32;
  ib_gas : forall tx d m t, TxDecoder tx = Ok d -> EthMsg m ∈ d_Msgs d -> msg_Data m = Some t -> 0 <= GetGas t < 2 ^ 64
}.

Lemma block_msg_decoded txs results k i m g f :
  block_msg TxDecoder txs results k i m g f ->
  exists tx d, txs !! k = Some tx /\ TxDecoder tx = Ok d /\ d_Msgs d !! i = Some (EthMsg m).
Proof.
  intros (tx & result & msgs & p & Hk & _ & Hi & Hm & _). exists tx. unfold indexed_tx in Hi. case_match; [done|].
  destruct (TxDecoder tx) as [d|e|e]; [|done..]. case_match; [done|]. case_match; [|done..]. injection Hi as <- <-. by exists d.
Qed.

(** the entry of the index for a message of the block *)
Lemma indexed_msg height block blockRes db db' msgs j m' :
  indexed_block height block blockRes db db' -> EthMsgsFromTendermintBlock block blockRes = Ok msgs -> msgs !! j = Some m' ->
  exists r m t k i g f, block_msg TxDecoder (rb_Txs block) (RpcFilters.br_TxsResults (rr_Results blockRes)) k i m g f /\
    msg_Data m = Some t /\ m' = rehash m t /\ GetByTxHash db' (et_Hash (eth_NewTx (AsEthereumData t))) = Ok r /\
    GetByBlockAndIndex db' height (Z.of_nat j) = Ok r /\ tr_Height r = height /\ tr_EthTxIndex r = Z.of_nat j /\
    tr_TxIndex r = Z.of_nat k /\ tr_MsgIndex r = Z.of_nat i /\ tr_GasUsed r = g /\ tr_Failed r = f /\
    tr_CumulativeGasUsed r = wrap64 (tx_gas TxDecoder (rb_Txs block) (RpcFilters.br_TxsResults (rr_Results blockRes)) k i).
Proof.
  intros Hb Hmsgs Hj. unfold EthMsgsFromTendermintBlock in Hmsgs.
  destruct (eth_msgs_of_block _ _ (ib_executed _ _ _ _ _ Hb)) as (ms & Hms & Hhs & Hl). rewrite Hms in Hmsgs. injection Hmsgs as ->.
  destruct (Hl j m' Hj) as (k & i & m & t & g & f & Hbm & Ht & -> & Hh).
  destruct (index_block_find TxDecoder (ib_gas _ _ _ _ _ Hb) db (mkBlock height (rb_Txs block)) _ db' (ib_fault _ _ _ _ _ Hb) (ib_range _ _ _ _ _ Hb)
    (ib_count _ _ _ _ _ Hb) (ib_distinct _ _ _ _ _ Hb) (ib_index _ _ _ _ _ Hb)) as (Hfind & Hpos & _). cbn [bl_Height bl_Txs] in *.
  assert (Hhj : block_hashes TxDecoder (rb_Txs block) (RpcFilters.br_TxsResults (rr_Results blockRes)) !! j = Some (msg_hash (rehash m t))).
  { rewrite <-Hhs. change (map msg_hash msgs) with (msg_hash <$> msgs). by rewrite list_lookup_fmap, Hj. }
  rewrite msg_hash_rehash in Hhj. destruct (Hpos j _ Hhj) as (r & Hr & Hri & Hrj).
  destruct (Hfind k i m g f Hbm) as (r' & Hr' & _ & Hrh & (He1 & He2 & He3 & He4 & He5)). rewrite Hh, Hr in Hr'. injection Hr' as <-.
  destruct (block_msg_decoded _ _ _ _ _ _ _ Hbm) as (tx & d & Hk & Hd & Hi).
  pose proof (lookup_lt_Some _ _ _ Hk) as Hkl. pose proof (lookup_lt_Some _ _ _ Hi) as Hil. pose proof (ib_txs _ _ _ _ _ Hb).
  pose proof (ib_msgs _ _ _ _ _ Hb tx d (list_elem_of_lookup_2 _ _ _ Hk) Hd).
  exists r, m, t, k, i, g, f. unfold wrap32 in *. rewrite Z.mod_small in He1, He2 by lia. by split_and!.
Qed.
Lemma AsTransaction_rehash m t : AsTransaction (rehash m t) = AsTransaction m.
Proof. done. Qed.

Lemma TendermintBlock_found height block blockRes db db' :
  indexed_block height block blockRes db db' -> TendermintBlockByNumber height = Ok (Some block).
Proof.
  intros Hb. destruct (ib_range _ _ _ _ _ Hb). unfold TendermintBlockByNumber, RpcBlock.Int64.
  destruct (Z.ltb_spec height 0), (Z.eqb_spec height 0), (Z.leb_spec height 0); try lia. cbn [mbind res_bind].
  apply (ib_block _ _ _ _ _ Hb).
Qed.

(** there are fewer messages than indexes *)
Lemma count_msgs height block blockRes db db' msgs :
  indexed_block height block blockRes db db' -> EthMsgsFromTendermintBlock block blockRes = Ok msgs -> Z.of_nat (length msgs) < 2 ^ 31.
Proof.
  intros Hb Hmsgs. pose proof (ib_count _ _ _ _ _ Hb). unfold EthMsgsFromTendermintBlock in Hmsgs.
  destruct (eth_msgs_of_block _ _ (ib_executed _ _ _ _ _ Hb)) as (ms & Hms & Hhs & _). rewrite Hms in Hmsgs. injection Hmsgs as ->.
  by rewrite <-Hhs, length_map in *.
Qed.

(** a message of an indexed block is found by its hash and by its position *)
Lemma located_tx height block blockRes db db' msgs j m' bf t :
  indexed_block height block blockRes db db' -> BytesToHash (th_Hash (rb_Header block)) <> 0 ->
  EthMsgsFromTendermintBlock block blockRes = Ok msgs -> msgs !! j = Some m' -> tolerate (BaseFee blockRes) None = Ok bf ->
  NewTransactionFromMsg m' (BytesToHash (th_Hash (rb_Header block))) height (wrap64 (Z.of_nat j)) bf be_chainID = Ok t ->
  rtx_BlockNumber t = Some height /\ rtx_TransactionIndex t = Some (Z.of_nat j) /\
  GetTransactionByHash (rtx_Hash t) = Ok (Some t) /\ GetTransactionByBlockNumberAndIndex height (Z.of_nat j) = Ok (Some t).
Proof.
  intros Hb Hz Hmsgs Hm' Hbf Ht. pose proof (TendermintBlock_found _ _ _ _ _ Hb) as Hfound. pose proof (ib_range _ _ _ _ _ Hb) as Hr.
  pose proof (ib_height _ _ _ _ _ Hb) as Hh. pose proof (ib_results _ _ _ _ _ Hb) as Hres.
  pose proof (count_msgs _ _ _ _ _ _ Hb Hmsgs) as Hcount. pose proof (lookup_lt_Some _ _ _ Hm') as Hjl.
  assert (Hw : wrap64 height = height) by (apply wrap64_small; unfold max_uint64; lia).
  rewrite (wrap64_small (Z.of_nat j)) in Ht by (unfold max_uint64; lia).
  destruct (indexed_msg _ _ _ _ _ _ _ _ Hb Hmsgs Hm') as (r & m & d & k & i & g & f & Hbm & Hd & -> & Hbyhash & Hbyidx & Hrh & Hri & Hrk & Hrm & _).
  destruct (block_msg_decoded _ _ _ _ _ _ _ Hbm) as (tx & dec & Hk & Hdec & Hi).
  assert (HT : NewTransactionFromMsg m (BytesToHash (th_Hash (rb_Header block))) height (Z.of_nat j) bf be_chainID = Ok t) by exact Ht.
  unfold NewTransactionFromMsg, AsTransaction, deref in Ht. cbn [msg_Data rehash] in Ht. rewrite Hd in Ht. cbn [mbind res_bind] in Ht.
  apply NewRPCTransaction_fields in Ht as (Hfh & Hfi & Hfn). destruct (Z.eqb_spec (BytesToHash (th_Hash (rb_Header block))) 0); [done|].
  split_and!; [done|done| |].
  - unfold GetTransactionByHash, GetTxByEthHash. rewrite (ib_indexer _ _ _ _ _ Hb), Hfh, Hbyhash, Hrh, Hfound. cbn [mbind res_bind deref].
    rewrite Hrk, (index_at_nat _ _ _ Hk). cbn [mbind res_bind]. rewrite Hdec. cbn [mbind res_bind]. rewrite Hrm, (index_at_nat _ _ _ Hi).
    cbn [mbind res_bind]. rewrite Hh, Hres, Hri. destruct (Z.eqb_spec (Z.of_nat j) (-1)); [lia|]. cbn [mbind res_bind].
    destruct (Z.eqb_spec (Z.of_nat j) (-1)); [lia|]. rewrite Hbf. cbn [mbind res_bind]. rewrite Hw, (wrap64_small (Z.of_nat j)) by (unfold max_uint64; lia).
    by rewrite (ib_id _ _ _ _ _ Hb), HT.
  - unfold GetTransactionByBlockNumberAndIndex, GetTransactionByBlockAndIndex. rewrite Hfound, Hh, Hres. unfold GetTxByTxIndex.
    rewrite (ib_indexer _ _ _ _ _ Hb). replace (to_int32 (Z.of_nat j)) with (Z.of_nat j) by (unfold to_int32; rewrite Z.mod_small by lia; case_match; lia).
    rewrite Hbyidx, Hrk, (index_at_nat _ _ _ Hk). cbn [mbind res_bind]. rewrite Hdec, Hrm, (index_at_nat _ _ _ Hi). cbn [mbind res_bind].
    rewrite Hbf. cbn [mbind res_bind]. by rewrite Hw, HT.
Qed.

(** C32: The endpoints of the RPC agree on the transactions of an indexed block.
    Every transaction that [eth_getBlockByNumber] answers for the block is in
    full; [eth_getTransactionByHash] of its hash and
    [eth_getTransactionByBlockNumberAndIndex] of its position answer the same
    transaction, with the height of the block and that position;
    [eth_getBlockTransactionCountByNumber] counts them, and the answer without
    full transactions has their hashes in the same order. *)
Theorem rpc_endpoints_agree height block blockRes db db' b :
  indexed_block height block blockRes db db' -> BytesToHash (th_Hash (rb_Header block)) <> 0 ->
  GetBlockByNumber height true = Ok (Some b) ->
  GetBlockTransactionCountByNumber height = Ok (Some (Z.of_nat (length (rpb_transactions b)))) /\
  (forall j x, rpb_transactions b !! j = Some x -> exists t, x = FullTx t /\
     rtx_BlockNumber t = Some height /\ rtx_TransactionIndex t = Some (Z.of_nat j) /\
     GetTransactionByHash (rtx_Hash t) = Ok (Some t) /\ GetTransactionByBlockNumberAndIndex height (Z.of_nat j) = Ok (Some t)) /\
  (forall b', GetBlockByNumber height false = Ok (Some b') ->
     forall j, rpb_transactions b' !! j =
       (fun x => TxHash (match x with FullTx t => rtx_Hash t | TxHash h => h end)) <$> rpb_transactions b !! j).
Proof.
  intros Hb Hz E. pose proof (TendermintBlock_found _ _ _ _ _ Hb) as Hfound. pose proof (ib_range _ _ _ _ _ Hb) as Hr.
  pose proof (ib_height _ _ _ _ _ Hb) as Hh. pose proof (ib_results _ _ _ _ _ Hb) as Hres.
  unfold GetBlockByNumber in *. rewrite Hfound, Hh, Hres in E |- *. apply bind_Ok_inv in E as (b0 & E & [= ->]).
  destruct (RPCBlock_transactions _ _ _ _ E) as (bf & msgs & Hbf & Hmsgs & Htxs). rewrite Hh in Htxs.
  destruct (block_txs_full _ _ _ _ _ _ Htxs) as [Hlen Hl].
  assert (Hw : wrap64 height = height) by (apply wrap64_small; unfold max_uint64; lia).
  split_and!.
  - unfold GetBlockTransactionCountByNumber, GetBlockTransactionCount. rewrite Hfound, Hh, Hres, Hmsgs. cbn [mbind res_bind]. by rewrite Hlen.
  - intros j x Hj. destruct (Hl j x Hj) as (m' & t & Hm' & -> & Ht). rewrite Hw, Z.add_0_l in Ht. exists t. split; [done|].
    by apply (located_tx _ _ _ _ _ _ _ _ _ _ Hb Hz Hmsgs Hm' Hbf).
  - intros b' E' j. apply bind_Ok_inv in E' as (b0 & E' & [= ->]).
    destruct (RPCBlock_transactions _ _ _ _ E') as (bf' & msgs' & _ & Hmsgs' & Htxs'). rewrite Hmsgs in Hmsgs'. injection Hmsgs' as <-.
    apply block_txs_hashes in Htxs'. rewrite Htxs'. change (map ?f msgs) with (f <$> msgs). rewrite list_lookup_fmap.
    destruct (rpb_transactions b !! j) as [x|] eqn:Hx.
    + destruct (Hl j x Hx) as (m' & t & Hm' & -> & Ht). rewrite Hm'. cbn. do 2 f_equal.
      destruct (indexed_msg _ _ _ _ _ _ _ _ Hb Hmsgs Hm') as (r & m & d & k & i & g & f & _ & Hd & -> & _).
      unfold NewTransactionFromMsg in Ht. rewrite AsTransaction_rehash in Ht. unfold AsTransaction, deref in Ht. rewrite Hd in Ht.
      cbn [mbind res_bind] in Ht. apply NewRPCTransaction_fields in Ht as [-> _]. apply msg_hash_rehash.
    + assert (Hn : msgs !! j = None) by (apply lookup_ge_None; apply lookup_ge_None in Hx; lia). by rewrite Hn.
Qed.

(** ** Receipts *)

(** the gas of the first [n] results *)
Definition results_gas (results : list ExecTxResult) (n : nat) : Z := 
  fold_right (fun r acc => wrap64 (er_GasUsed r) + acc) 0 (take n results).

Lemma gas_before_sum results : forall n acc, (n <= length results)%nat -> 0 <= acc <= max_uint64 ->
  gas_before results n acc = Ok (wrap64 (acc + results_gas results n)).
Proof.
  induction results as [|r results IH]; intros [|n] acc Hn Ha; cbn in Hn; try lia; cbn [gas_before].
  1, 2: unfold results_gas; cbn; by rewrite Z.add_0_r, wrap64_small.
  rewrite IH; [|lia|apply wrap64_range]. unfold results_gas. cbn. f_equal. unfold wrap64. rewrite Zplus_mod_idemp_l. f_equal. lia.
Qed.

(** the price that a receipt reports, with the base fee that the server knows *)
Definition receipt_price (t : TxData) (r : res (option Z)) : res (option Z) :=
  match t with
  | TxDynamicFee d =>
      match r with
      | Panic e => Panic e
      | Err _ => Ok (GetGasPrice t)
      | Ok baseFee => let? p := Dynamic.EffectiveGasPrice d baseFee in Ok (Some p)
      end
  | _ => Ok (GetGasPrice t)
  end.

(** it is the price of the transaction that is answered *)
Lemma receipt_price_agrees m d bh n i fee bf t p :
  msg_Data m = Some d -> bh <> 0 -> tolerate fee None = Ok bf -> receipt_price d fee = Ok p -> GetGasPrice d <> None ->
  NewTransactionFromMsg m bh n i bf be_chainID = Ok t -> p = rtx_GasPrice t.
Proof.
  intros Hm Hz Hbf Hp Hg Ht. unfold NewTransactionFromMsg, AsTransaction, deref in Ht. rewrite Hm in Ht. cbn [mbind res_bind] in Ht.
  unfold NewRPCTransaction in Ht. apply bind_Ok_inv in Ht as (from & _ & Ht). apply bind_Ok_inv in Ht as ([[[[pr c] tip] al] cid] & Ht & [= <-]). cbn.
  destruct (Z.eqb_spec bh 0); [done|]. cbn [negb] in Ht.
  destruct d as [d|d|d]; cbn [AsEthereumData TxData_ops dispatch Legacy.ops AccessListT.ops Dynamic.ops] in Ht;
    unfold Legacy.AsEthereumData, AccessListT.AsEthereumData, Dynamic.AsEthereumData in Ht; cbn in Ht, Hg, Hp.
  - destruct (eth_NewTx_legacy (Legacy.Nonce d) (Legacy.GasPrice d) (Legacy.GasLimit d) (to_field (Legacy.To d)) (Legacy.Amount d) (Legacy.Data d)
      (SetBytes (Legacy.V d)) (SetBytes (Legacy.R d)) (SetBytes (Legacy.S d))) as (E1 & E2 & _). rewrite E1, E2 in Ht. injection Ht as <- <- <- <- <-.
    injection Hp as <-. by destruct (Legacy.GasPrice d).
  - destruct (eth_NewTx_access (AccessListT.ChainID d) (AccessListT.Nonce d) (AccessListT.GasPrice d) (AccessListT.GasLimit d) (to_field (AccessListT.To d))
      (AccessListT.Amount d) (AccessListT.Data d) (accesses_field (AccessListT.Accesses d)) (SetBytes (AccessListT.V d)) (SetBytes (AccessListT.R d))
      (SetBytes (AccessListT.S d))) as (E1 & E2 & _). rewrite E1, E2 in Ht. injection Ht as <- <- <- <- <-. injection Hp as <-.
    by destruct (AccessListT.GasPrice d).
  - destruct (eth_NewTx_dynamic (Dynamic.ChainID d) (Dynamic.Nonce d) (Dynamic.GasTipCap d) (Dynamic.GasFeeCap d) (Dynamic.GasLimit d) (to_field (Dynamic.To d))
      (Dynamic.Amount d) (Dynamic.Data d) (accesses_field (Dynamic.Accesses d)) (SetBytes (Dynamic.V d)) (SetBytes (Dynamic.R d)) (SetBytes (Dynamic.S d)))
      as (E1 & _ & E3 & E4). rewrite E1, E3, E4 in Ht. destruct (Dynamic.GasFeeCap d) as [cap|] eqn:Ec; [|done].
    destruct fee as [f|e|e]; cbn in Hbf; [| |done].
    + injection Hbf as ->. apply bind_Ok_inv in Hp as (p' & Hp & [= <-]). unfold Dynamic.EffectiveGasPrice, TxData.EffectiveGasPrice in Hp.
      rewrite Ec in Hp. destruct bf as [b|]; [|done]. destruct (Dynamic.GasTipCap d); [|done]. injection Hp as <-. cbn in Ht. by injection Ht as <- <- <- <- <-.
    + injection Hbf as <-. injection Hp as <-. cbn in Ht. by injection Ht as <- <- <- <- <-.
Qed.

(** the parts of a receipt *)
Lemma receipt_of_Ok h r block m d blockRes rc k i result :
  tr_TxIndex r = Z.of_nat k -> tr_MsgIndex r = Z.of_nat i -> 0 <= tr_EthTxIndex r ->
  RpcFilters.br_TxsResults (rr_Results blockRes) !! k = Some result -> receipt_of h r block m d blockRes = Ok rc ->
  rc_status rc = (if tr_Failed r then ReceiptStatusFailed else ReceiptStatusSuccessful) /\
  GetGasUsed r (GetGasPrice d) (GetGas d) = Ok (rc_gasUsed rc) /\
  rc_cumulativeGasUsed rc = wrap64 (results_gas (RpcFilters.br_TxsResults (rr_Results blockRes)) k + tr_CumulativeGasUsed r) /\
  tolerate (RpcFilters.TxLogsFromEvents json_log_Unmarshal (er_Events result) (Z.of_nat i)) [] = Ok (rc_logs rc) /\
  rc_transactionHash rc = h /\ rc_blockNumber rc = wrap64 (tr_Height r) /\ rc_transactionIndex rc = wrap64 (tr_EthTxIndex r) /\
  rc_blockHash rc = BytesToHash (th_Hash (rb_Header block)) /\ receipt_price d (BaseFee blockRes) = Ok (rc_effectiveGasPrice rc).
Proof.
  intros Hk Hi He Hresult E. unfold receipt_of in E. rewrite Hk, Hi, Nat2Z.id in E. apply bind_Ok_inv in E as (before & Hbefore & E).
  rewrite gas_before_sum in Hbefore; [|apply lookup_lt_Some in Hresult; lia|unfold max_uint64; lia]. injection Hbefore as <-.
  apply bind_Ok_inv in E as (cid & _ & E). apply bind_Ok_inv in E as (from & _ & E). rewrite (index_at_nat _ _ _ Hresult) in E. cbn [mbind res_bind] in E.
  apply bind_Ok_inv in E as (logs & Hlogs & E). destruct (Z.eqb_spec (tr_EthTxIndex r) (-1)) in E; [lia|]. cbn [mbind res_bind] in E.
  destruct (Z.eqb_spec (tr_EthTxIndex r) (-1)) in E; [lia|]. apply bind_Ok_inv in E as (gas & Hgas & E). apply bind_Ok_inv in E as (etx & _ & E).
  apply bind_Ok_inv in E as (price & Hp & [= <-]). cbn -[wrap64]. split_and!; try done.
  unfold wrap64. by rewrite Zplus_mod_idemp_l, Z.add_0_l.
Qed.

(** C33: The receipt of a transaction of an indexed block reports what happened to
    it: its status and gas are the outcome that the events of its Cosmos
    transaction report for its message (the gas up to the height of the refund fix
    aside), its cumulative gas is that of the Cosmos transactions before and of
    the messages of its own up to it, its logs are those of the event of its
    message, its position is that of the transaction in the block, and its price
    is that of the transaction that [eth_getBlockByNumber] answers. *)
Theorem receipt_reports_execution height block blockRes db db' b j t rc :
  indexed_block height block blockRes db db' -> BytesToHash (th_Hash (rb_Header block)) <> 0 ->
  GetBlockByNumber height true = Ok (Some b) -> rpb_transactions b !! j = Some (FullTx t) ->
  GetTransactionReceipt (rtx_Hash t) = Ok (Some rc) ->
  let results := RpcFilters.br_TxsResults (rr_Results blockRes) in
  exists k i m d g (f : bool) result, block_msg TxDecoder (rb_Txs block) results k i m g f /\ msg_Data m = Some d /\ results !! k = Some result /\
    rc_status rc = (if f then ReceiptStatusFailed else ReceiptStatusSuccessful) /\
    (f = false \/ FixRevertGasRefundHeight <= height -> rc_gasUsed rc = g) /\
    rc_cumulativeGasUsed rc = wrap64 (results_gas results k + tx_gas TxDecoder (rb_Txs block) results k i) /\
    tolerate (RpcFilters.TxLogsFromEvents json_log_Unmarshal (er_Events result) (Z.of_nat i)) [] = Ok (rc_logs rc) /\
    rc_transactionHash rc = rtx_Hash t /\ Some (rc_blockNumber rc) = rtx_BlockNumber t /\ Some (rc_transactionIndex rc) = rtx_TransactionIndex t /\
    Some (rc_blockHash rc) = rtx_BlockHash t /\ (GetGasPrice d <> None -> rc_effectiveGasPrice rc = rtx_GasPrice t).
Proof.
  intros Hb Hz Eb Hj Erc results. pose proof (TendermintBlock_found _ _ _ _ _ Hb) as Hfound. pose proof (ib_range _ _ _ _ _ Hb) as Hr.
  pose proof (ib_height _ _ _ _ _ Hb) as Hh. pose proof (ib_results _ _ _ _ _ Hb) as Hres.
  unfold GetBlockByNumber in Eb. rewrite Hfound, Hh, Hres in Eb. apply bind_Ok_inv in Eb as (b0 & Eb & [= ->]).
  destruct (RPCBlock_transactions _ _ _ _ Eb) as (bf & msgs & Hbf & Hmsgs & Htxs). rewrite Hh in Htxs.
  destruct (block_txs_full _ _ _ _ _ _ Htxs) as [_ Hl]. destruct (Hl j _ Hj) as (m' & t' & Hm' & [= <-] & Ht). clear Hl Htxs Eb.
  assert (Hw : wrap64 height = height) by (apply wrap64_small; unfold max_uint64; lia). rewrite Hw, Z.add_0_l in Ht.
  pose proof (count_msgs _ _ _ _ _ _ Hb Hmsgs) as Hcount. pose proof (lookup_lt_Some _ _ _ Hm') as Hjl.
  assert (Hwj : wrap64 (Z.of_nat j) = Z.of_nat j) by (apply wrap64_small; unfold max_uint64; lia).
  destruct (indexed_msg _ _ _ _ _ _ _ _ Hb Hmsgs Hm') as (r & m & d & k & i & g & f & Hbm & Hd & -> & Hby & _ & Hrh & Hri & Hrk & Hrm & Hrg & Hrf & Hrc).
  destruct (block_msg_decoded _ _ _ _ _ _ _ Hbm) as (tx & dec & Hk & Hdec & Hi). assert (Hbm' := Hbm).
  destruct Hbm' as (tx0 & result & msgs0 & p0 & _ & Hresult & _).
  exists k, i, m, d, g, f, result. do 3 (split; [done|]).
  assert (Hprice : forall p, receipt_price d (BaseFee blockRes) = Ok p -> GetGasPrice d <> None -> p = rtx_GasPrice t)
    by (intros p Hp Hg; by eapply (receipt_price_agrees m)).
  assert (Hf := Ht). unfold NewTransactionFromMsg, AsTransaction, deref in Hf. cbn [msg_Data rehash] in Hf. rewrite Hd in Hf. cbn [mbind res_bind] in Hf.
  assert (Hbh : rtx_BlockHash t = Some (BytesToHash (th_Hash (rb_Header block)))).
  { clear -Hf Hz. unfold NewRPCTransaction in Hf. apply bind_Ok_inv in Hf as (? & _ & Hf). apply bind_Ok_inv in Hf as ([[[[? ?] ?] ?] ?] & _ & [= <-]). cbn.
    by destruct (Z.eqb_spec (BytesToHash (th_Hash (rb_Header block))) 0). }
  apply NewRPCTransaction_fields in Hf as (Hfh & Hfi & Hfn). destruct (Z.eqb_spec (BytesToHash (th_Hash (rb_Header block))) 0); [done|].
  rewrite Hfi, Hfn, Hbh, Hwj. clear Hfi Hfn Hbh Ht.
  unfold GetTransactionReceipt, GetTxByEthHash in Erc. rewrite (ib_indexer _ _ _ _ _ Hb), Hfh, Hby, Hrh, Hfound in Erc. cbn [mbind res_bind deref] in Erc.
  rewrite Hrk, (index_at_nat _ _ _ Hk) in Erc. cbn [mbind res_bind] in Erc. rewrite Hdec in Erc. cbn [mbind res_bind] in Erc.
  rewrite Hrm, (index_at_nat _ _ _ Hi) in Erc. cbn [mbind res_bind] in Erc. rewrite Hd, Hres in Erc. apply bind_Ok_inv in Erc as (rc0 & Erc & [= ->]).
  destruct (receipt_of_Ok _ _ _ _ _ _ _ _ _ _ Hrk Hrm ltac:(lia) Hresult Erc) as (-> & Hgas & -> & Hlogs & -> & -> & -> & -> & Hp).
  rewrite Hrf, Hrh, Hri, Hw, Hwj. split_and!; try done.
  - intros Hfix. unfold GetGasUsed in Hgas. rewrite Hrf, Hrh, Hrg in Hgas.
    destruct (Z.ltb_spec height FixRevertGasRefundHeight), f; cbn in Hgas; try (by injection Hgas as <-). destruct Hfix; [done|lia].
  - rewrite Hrc. unfold results, wrap64. by rewrite Zplus_mod_idemp_r.
  - by apply Hprice.
Qed.

(** ** The base fee of a block *)

Section PrunedBaseFee.
(** a decimal text is read back *)
Hypothesis NewIntFromString_text : forall n, 0 <= n < 2 ^ 256 -> NewIntFromString (FormatUint n) = Some n.

Definition no_fee_event (events : list Event) : Prop := Forall (fun e => ev_Type e <> EventTypeFeeMarket) events.

Lemma last_fee_event_skip l rest : no_fee_event l -> last_fee_event (l ++ rest) = last_fee_event rest.
Proof.
  induction 1 as [|e l He _ IH]; [done|]. cbn. destruct (String.eqb_spec (ev_Type e) EventTypeFeeMarket); [done|exact IH].
Qed.

Lemma BaseFeeFromEvents_skip l rest : no_fee_event l -> BaseFeeFromEvents (l ++ rest) = BaseFeeFromEvents rest.
Proof.
  induction 1 as [|e l He _ IH]; [done|]. cbn. destruct (String.eqb_spec (ev_Type e) EventTypeFeeMarket); [done|exact IH].
Qed.

(** When the state of a block is pruned, its base fee is recovered from the event
    that the EVM module emitted at its beginning. *)
Theorem pruned_base_fee blockRes before after f :
  RpcFilters.br_FinalizeBlockEvents (rr_Results blockRes) = before ++ BeginBlock (Ok (Some f)) ++ after ->
  no_fee_event before -> no_fee_event after -> 0 <= f < 2 ^ 256 ->
  (forall g, q_BaseFee (RpcBlock.ContextWithHeight (rr_Height blockRes)) <> Ok (Some g)) ->
  (forall e, q_BaseFee (RpcBlock.ContextWithHeight (rr_Height blockRes)) <> Panic e) ->
  BaseFee blockRes = Ok (Some f) /\ BaseFeeFromEvents (before ++ BeginBlock (Ok (Some f)) ++ after) = Some f.
Proof.
  intros He Hb Ha Hf Hq Hp. split.
  - unfold BaseFee. rewrite He. rewrite !rev_app_distr, <-!app_assoc, last_fee_event_skip by (by apply Forall_rev).
    cbn [BeginBlock rev app]. cbn [last_fee_event ev_Type ev_Attributes at_Value]. rewrite String.eqb_refl, NewIntFromString_text by done.
    destruct (q_BaseFee _) as [[g|]|e|e] eqn:E; [by destruct (Hq g)|done|done|by destruct (Hp e)].
  - rewrite BaseFeeFromEvents_skip by done. cbn. by rewrite NewIntFromString_text.
Qed.
End PrunedBaseFee.

(** ** Exceptions *)

(** The root of the transactions in a header is the constant of an empty block
    exactly when the block has data: the condition is the wrong way round. The
    answer of [eth_getBlockByNumber] for the same block has the hash of the data. *)
Theorem header_tx_hash_inverted header bloom fee size limit used tx txs miner :
  th_DataHash header <> [] ->
  eh_TxHash (EthHeaderFromTendermint header bloom fee) = EmptyRootHash /\
  rpb_transactionsRoot (FormatBlock header size limit used (tx :: txs) bloom miner fee) = BytesToHash (th_DataHash header) /\
  (forall h, th_DataHash h = [] -> eh_TxHash (EthHeaderFromTendermint h bloom fee) = 0).
Proof.
  intros Hd. split_and!; [|done|].
  - unfold EthHeaderFromTendermint. cbn. by destruct (th_DataHash header).
  - intros h Hh. unfold EthHeaderFromTendermint. by rewrite Hh.
Qed.

(** A height without a block: [eth_getBlockByNumber] answers null, while the
    number of its transactions and a transaction by its index dereference nil. *)
Theorem missing_block_panics n idx full :
  TendermintBlockByNumber n = Ok None ->
  GetBlockByNumber n full = Ok None /\ GetBlockTransactionCountByNumber n = Panic PanicNil /\
  GetTransactionByBlockNumberAndIndex n idx = Panic PanicNil.
Proof.
  intros E. unfold GetBlockByNumber, GetBlockTransactionCountByNumber, GetTransactionByBlockNumberAndIndex. by rewrite E.
Qed.

(** The lookup of a message in a transaction by hash. *)
Lemma unwrap_msgs_find msgs : forall i m t,
  (forall j msg, msgs !! j = Some msg -> exists m' t', msg = EthMsg m' /\ msg_Data m' = Some t' /\
     ((j < i)%nat -> et_Hash (eth_NewTx (AsEthereumData t')) <> et_Hash (eth_NewTx (AsEthereumData t)))) ->
  msgs !! i = Some (EthMsg m) -> msg_Data m = Some t -> unwrap_msgs msgs (et_Hash (eth_NewTx (AsEthereumData t))) = Ok (rehash m t).
Proof.
  induction msgs as [|msg msgs IH]; intros i m t Hall Hi Ht; [done|].
  destruct (Hall 0%nat msg eq_refl) as (m0 & t0 & -> & Ht0 & Hlt). cbn [unwrap_msgs]. unfold AsTransaction, deref. rewrite Ht0. cbn [mbind res_bind].
  destruct i as [|i]; cbn in Hi.
  - injection Hi as ->. rewrite Ht0 in Ht. injection Ht as ->. rewrite Z.eqb_refl. unfold rehash. by rewrite Ht0.
  - destruct (Z.eqb_spec (et_Hash (eth_NewTx (AsEthereumData t0))) (et_Hash (eth_NewTx (AsEthereumData t)))); [by destruct (Hlt ltac:(lia))|].
    apply (IH i m t); [|done|done]. intros j msg Hj. destruct (Hall (S j) msg Hj) as (m' & t' & ? & ? & Hx). exists m', t'. split_and!; try done.
    intros. apply Hx. lia.
Qed.

(** A transaction of the mempool that no block has is answered without the
    position in a block. *)
Theorem pending_tx_is_found before tx after m t i e rpctx :
  GetTxByEthHash (et_Hash (eth_NewTx (AsEthereumData t))) = Err e -> PendingTransactions = Ok (before ++ tx :: after) ->
  Forall (fun d => exists e, UnwrapEthereumMsg d (et_Hash (eth_NewTx (AsEthereumData t))) = Err e) before ->
  (forall j msg, d_Msgs tx !! j = Some msg -> exists m' t', msg = EthMsg m' /\ msg_Data m' = Some t' /\
     ((j < i)%nat -> et_Hash (eth_NewTx (AsEthereumData t')) <> et_Hash (eth_NewTx (AsEthereumData t)))) ->
  d_Msgs tx !! i = Some (EthMsg m) -> msg_Data m = Some t -> NewTransactionFromMsg m 0 0 0 None be_chainID = Ok rpctx ->
  GetTransactionByHash (et_Hash (eth_NewTx (AsEthereumData t))) = Ok (Some rpctx) /\
  rtx_BlockHash rpctx = None /\ rtx_BlockNumber rpctx = None /\ rtx_TransactionIndex rpctx = None.
Proof.
  intros He Hp Hb Hall Hi Ht Hr. pose proof (unwrap_msgs_find _ _ _ _ Hall Hi Ht) as Hu. split.
  - unfold GetTransactionByHash, getTransactionByHashPending. rewrite He, Hp. clear Hp. induction Hb as [|d before [e' Hd] _ IH].
    + cbn [app find_pending]. unfold UnwrapEthereumMsg. rewrite Hu. cbn [msg_Hash rehash]. rewrite String.eqb_refl.
      unfold NewTransactionFromMsg in *. rewrite AsTransaction_rehash. by rewrite Hr.
    + cbn [app find_pending]. by rewrite Hd.
  - unfold NewTransactionFromMsg in Hr. apply bind_Ok_inv in Hr as (tx' & _ & Hr). unfold NewRPCTransaction in Hr.
    apply bind_Ok_inv in Hr as (? & _ & Hr). by apply bind_Ok_inv in Hr as ([[[[? ?] ?] ?] ?] & _ & [= <-]).
Qed.

End Theorems.
End RpcBackendTheorems.
