(* ===== verification/RpcConcrete.v ===== *)
(** * A block of the RPC, concretely

    Instances of the classes of [RpcBlock] and [RpcBackend]: hexadecimal
    quantities, a hash of transactions, and the clients of a node with one block
    whose second transaction has two Ethereum messages. *)

From stdpp Require Import base gmap list numbers strings.
From Stdlib Require Import ZArith Lia.
From S2P Require Import Prelude SdkMath Scaling AccessList StateDB StateDBCommit VmStore Concrete FeeMarket TxData TxDataTheorems StateTransition StateTransitionTheorems VmParams Ante AnteTheorems RpcEvents RpcEventsTheorems Indexer IndexerTheorems IndexerServiceTheorems RpcFilters RpcBlock RpcBackend RpcBackendTheorems.

Module RpcConcrete.
Import RpcBackend RpcBackendTheorems.

(** ** Quantities *)

Definition hex_char (d : Z) : Ascii.ascii := Ascii.ascii_of_nat (Z.to_nat (if d <? 10 then 48 + d else 87 + d)).
Definition hex_digit (c : Ascii.ascii) : Z := let b := Z.of_nat (Ascii.nat_of_ascii c) in if b <? 58 then b - 48 else b - 87.

Fixpoint hex_text (fuel : nat) (n : Z) (rest : string) : string :=
  match fuel with
  | O => rest
  | S fuel =>
      let rest := String (hex_char (n `mod` 16)) rest in
      if n / 16 =? 0 then rest else hex_text fuel (n / 16) rest
  end.

Fixpoint hex_value (acc : Z) (s : string) : Z :=
  match s with EmptyString => acc | String c s => hex_value (acc * 16 + hex_digit c) s end.

Definition c_EncodeUint64 (n : Z) : string := "0x" +:+ hex_text 16 n "".

Definition c_DecodeUint64 (s : string) : res Z :=
  match s with
  | String _ (String _ digits) =>
      if negb (String.prefix "0x" s || String.prefix "0X" s) then Err RpcBlock.ErrMissingPrefix
      else let n := hex_value 0 digits in
           if is_uint64 n && String.eqb (c_EncodeUint64 n) s then Ok n else Err "invalid hex string"
  | EmptyString => Err "empty hex string"
  | _ => Err RpcBlock.ErrMissingPrefix
  end.

Definition c_digits (s : string) : bool := forallb (fun b => (48 <=? b) && (b <=? 57)) (string_bytes s).
Definition c_ToUint64 (s : string) : Z :=
  let n := fold_left (fun acc b => acc * 10 + (b - 48)) (string_bytes s) 0 in
  if c_digits s && negb (String.eqb s "") && is_uint64 n then n else 0.

Lemma hex_char_digit d : 0 <= d < 16 -> hex_digit (hex_char d) = d /\ 48 <= Z.of_nat (Ascii.nat_of_ascii (hex_char d)) <= 122.
Proof.
  intros Hd. assert (Hin : d ∈ seqZ 0 16) by (apply elem_of_seqZ; lia). clear Hd. revert d Hin. apply Forall_forall.
  repeat (apply Forall_cons; split; [vm_compute; repeat split; discriminate|]). constructor.
Qed.

Lemma hex_value_text f : forall n rest, 0 <= n < 16 ^ Z.of_nat f -> f <> O -> hex_value 0 (hex_text f n rest) = hex_value n rest.
Proof.
  induction f as [|f IH]; intros n rest Hn Hf; [done|]. cbn [hex_text]. pose proof (Z.div_mod n 16 ltac:(lia)) as Hdm.
  pose proof (Z.mod_pos_bound n 16 ltac:(lia)) as Hm. destruct (hex_char_digit (n `mod` 16) Hm) as [Hd _].
  destruct (Z.eqb_spec (n / 16) 0) as [Hz|Hz].
  - cbn [hex_value]. rewrite Hd. f_equal. lia.
  - assert (Hq : 0 <= n / 16 < 16 ^ Z.of_nat f).
    { rewrite Nat2Z.inj_succ, Z.pow_succ_r in Hn by lia. split; [apply Z.div_pos; lia|]. apply Z.div_lt_upper_bound; lia. }
    rewrite IH; [|done|]. 2: { intros ->. cbn in Hq. lia. }
    cbn [hex_value]. rewrite Hd. f_equal. lia.
Qed.

Lemma hex_text_bytes f : forall n rest, (String.length (hex_text f n rest) <= f + String.length rest)%nat /\
  (Forall (fun b => 48 <= b <= 122) (string_bytes rest) -> Forall (fun b => 48 <= b <= 122) (string_bytes (hex_text f n rest))).
Proof.
  induction f as [|f IH]; intros n rest; cbn [hex_text]; [split; [lia|done]|].
  set (rest' := String (hex_char (n `mod` 16)) rest).
  assert (Hr : Forall (fun b => 48 <= b <= 122) (string_bytes rest) -> Forall (fun b => 48 <= b <= 122) (string_bytes rest')).
  { intros Hf. constructor; [|done]. apply hex_char_digit, Z.mod_pos_bound. lia. }
  destruct (n / 16 =? 0); [split; [cbn; lia|done]|]. destruct (IH (n / 16) rest') as [H1 H2]. split; [cbn in H1; lia|auto].
Qed.

Lemma c_DecodeUint64_prefixed t :
  c_DecodeUint64 ("0x" +:+ t) =
    let n := hex_value 0 t in if is_uint64 n && String.eqb (c_EncodeUint64 n) ("0x" +:+ t) then Ok n else Err "invalid hex string".
Proof. rewrite !str_app_cons, str_app_nil. unfold c_DecodeUint64. cbn [String.prefix]. by destruct t. Qed.

#[export, refine] Instance c_hexutil : RpcBlock.HexUtil := {|
  RpcBlock.EncodeUint64 := c_EncodeUint64;
  RpcBlock.DecodeUint64 := c_DecodeUint64;
  RpcBlock.cast_ToUint64 := c_ToUint64;
  RpcBlock.hash_UnmarshalText s := Ok (HexToHash s);
  RpcBlock.hash_UnmarshalJSON s := Ok (HexToHash s)
|}.
Proof.
  - intros n Hn. assert (Hv : hex_value 0 (hex_text 16 n "") = n) by (rewrite hex_value_text by (unfold max_uint64 in Hn; cbn in *; lia); reflexivity).
    assert (Hu : is_uint64 n = true) by (by apply is_uint64_spec).
    change (c_DecodeUint64 ("0x" +:+ hex_text 16 n "") = Ok n). rewrite c_DecodeUint64_prefixed, Hv. cbv zeta.
    unfold c_EncodeUint64. by rewrite Hu, String.eqb_refl.
  - intros s n E. destruct s as [|a [|b s]]; try done. unfold c_DecodeUint64 in E. destruct (negb _); [done|].
    destruct (is_uint64 _) eqn:Hu; [|done]. cbn [andb] in E. destruct (String.eqb _ _); [|done]. injection E as <-. by apply is_uint64_spec.
  - intros s H1 H2 H3. unfold c_DecodeUint64. rewrite H1, H2. by destruct s as [|a [|b s]].
  - intros n. unfold c_EncodeUint64. rewrite !str_app_cons, str_app_nil. cbn [String.prefix]. by destruct (hex_text 16 n _).
  - intros n Hn. unfold c_EncodeUint64. rewrite str_app_length. destruct (hex_text_bytes 16 n "") as [Hl _]. cbn in *. lia.
  - intros n. unfold c_EncodeUint64. rewrite RpcBlock.string_bytes_app. apply Forall_app. split.
    + change (string_bytes _) with [48; 120]. constructor; [lia|]. constructor; [lia|constructor].
    + apply hex_text_bytes. constructor.
  - intros s. unfold c_ToUint64. destruct (is_uint64 _) eqn:Hu; rewrite ?andb_true_r, ?andb_false_r; [|unfold max_uint64; lia].
    apply is_uint64_spec in Hu. destruct (_ && _); [done|unfold max_uint64; lia].
  - intros s Hs. unfold c_ToUint64. destruct s as [|a s]; [done|]. unfold c_digits. inversion Hs as [|x l Hx Hl E]. cbn [string_bytes] in *.
    unfold string_bytes. cbn [String.list_ascii_of_string map forallb]. destruct (Z.leb_spec 48 (Z.of_nat (Ascii.nat_of_ascii a)));
      destruct (Z.leb_spec (Z.of_nat (Ascii.nat_of_ascii a)) 57); try done. by destruct Hx.
Defined.

(** ** Transactions *)

(** [NewTx] copies the fields; a nil number becomes zero. *)
Definition c_NewTx (d : ethTxData) : ethTransaction :=
  match d with
  | EthLegacyTx n p g to v da sv sr ss =>
      mkEthTransaction LegacyTxType n da g to (Some (default 0 v)) (Some (default 0 p)) (Some (default 0 p)) (Some (default 0 p)) None
        (DeriveChainID (Some (default 0 sv))) (Some (default 0 sv)) (Some (default 0 sr)) (Some (default 0 ss))
  | EthAccessListTx c n p g to v da al sv sr ss =>
      mkEthTransaction AccessListTxType n da g to (Some (default 0 v)) (Some (default 0 p)) (Some (default 0 p)) (Some (default 0 p)) (Some al)
        (Some (default 0 c)) (Some (default 0 sv)) (Some (default 0 sr)) (Some (default 0 ss))
  | EthDynamicFeeTx c n tip cap g to v da al sv sr ss =>
      mkEthTransaction DynamicFeeTxType n da g to (Some (default 0 v)) (Some (default 0 cap)) (Some (default 0 cap)) (Some (default 0 tip)) (Some al)
        (Some (default 0 c)) (Some (default 0 sv)) (Some (default 0 sr)) (Some (default 0 ss))
  end.

(** transactions are told apart by their nonces *)
#[export, refine] Instance c_ethtx : EthTx := {|
  eth_NewTx := c_NewTx;
  et_Hash t := (11 + et_Nonce t) `mod` 2 ^ 256;
  et_Protected _ := true;
  et_Sender _ _ := Ok 5;
  CreateAddress a n := a + n;
  EmptyRootHash := 1;
  EmptyUncleHash := 2
|}.
Proof.
  - intros t. by apply Z.mod_pos_bound.
  - done.
  - done.
  - done.
Defined.

(** ** A node with one block *)

Definition rw_data (nonce : Z) : TxData :=
  TxDynamicFee (Dynamic.mkDynamicFeeTx (Some 9000) nonce (Some (2 + nonce)) (Some 30) 21000 (c_addr_Hex 77) (Some 5) [] None [] [] []).
Definition rw_msg (nonce : Z) : sdkMsg := EthMsg (mkMsgEthereumTx (Some (rw_data nonce)) 0 (c_hash_String (11 + nonce)) "").

Definition rw_decoder (b : bytes) : res decodedTx :=
  match b with
  | [] => Err "no transaction"
  | _ => Ok (mkDecodedTx (Some ["/cosmos.evm.vm.v1.ExtensionOptionsEthereumTx"]) [rw_msg 0; rw_msg 1])
  end.

Definition rw_header : tmHeader := mkTmHeader 7 [9] [8] [1] [1] [2] 1000.
Definition rw_block : ResultBlock := mkResultBlock [9] rw_header [[]; [1; 2]] 500.
Definition rw_results : ResultBlockResults := mkResults 7 (RpcFilters.mkBlockResults [mkExecTxResult 0 "" 100 []; wv_result] []).
Definition rw_db : kvDB := (IndexBlock rw_decoder empty_db (mkBlock 7 (rb_Txs rw_block)) (RpcFilters.br_TxsResults (rr_Results rw_results))).1.

#[export] Instance rw_env : RpcEnv := {|
  BlockHeightHeader := Ok ["7"];
  q_BaseFee _ := Ok (Some 10);
  q_ValidatorAccount _ _ := Err "validator not found";
  AccAddressFromBech32 _ := Err "no text";
  tm_Block h := if h =? 7 then Ok (Some rw_block) else Err "height must be less than or equal to the current blockchain height";
  tm_BlockByHash h := if h =? 9 then Ok (Some rw_block) else Ok None;
  tm_HeaderByHash h := if h =? 9 then Ok (Some rw_header) else Ok None;
  tm_BlockResults h := if h =? 7 then Ok rw_results else Err "no results";
  tm_ConsensusParams _ := Ok (-1);
  tm_UnconfirmedTxs := Ok [];
  tm_TxSearch_hash _ := Ok [];
  tm_TxSearch_index _ _ := Ok [];
  TxDecoder := rw_decoder;
  NewIntFromString s := match ParseUint s 256 with Ok n => Some n | _ => None end;
  json_log_Unmarshal _ := Err "no log";
  LogsBloom _ := 0;
  be_chainID := Some 9000;
  ParsedChainID := Ok 9000;
  IsEIP155 _ := true;
  ConfigChainID := 9000;
  FixRevertGasRefundHeight := 0;
  be_indexer := Some rw_db
|}.

Definition rw_parsed : ParsedTxs := ok_or (mkParsedTxs [] ∅) (ParseTxResult wv_result (Some [rw_msg 0; rw_msg 1])).

Lemma rw_indexed : indexed_block 7 rw_block rw_results empty_db rw_db.
Proof.
  constructor.
  - reflexivity.
  - lia.
  - reflexivity.
  - reflexivity.
  - reflexivity.
  - reflexivity.
  - apply pair_snd. vm_compute. reflexivity.
  - reflexivity.
  - constructor; [|constructor; [|constructor]].
    + intros _. exact I.
    + intros _. change (TxDecoder [1; 2]) with (rw_decoder [1; 2]). cbn [rw_decoder]. change (isEthTx _) with true. cbv beta iota.
      exists rw_parsed. split; [vm_compute; reflexivity|]. cbn [d_Msgs]. intros [|[|i]] msg E; cbn in E; [| |done]; injection E as <-;
        eexists _, _; (split; [reflexivity|]); (split; [reflexivity|]); (split; [vm_compute; reflexivity|]); vm_compute; eauto.
  - apply (bool_decide_unpack _). vm_compute. exact I.
  - vm_compute. reflexivity.
  - vm_compute. reflexivity.
  - intros [|x tx] d _ E; [done|]. injection E as <-. vm_compute. reflexivity.
  - intros [|x tx] d m t E; [done|]. injection E as <-. cbn [d_Msgs]. rewrite !elem_of_cons.
    intros [E|[E|E]]; [| |by apply not_elem_of_nil in E]; injection E as ->; intros E; injection E as <-; cbn; lia.
Defined.

Definition rw_answer : res (option rpcBlock) := GetBlockByNumber 7 true.

Definition rw_tx (n : Z) : RPCTransaction :=
  mkRPCTransaction (Some 9) (Some 7) 5 21000 (Some (12 + n)) (Some 30) (Some (2 + n)) (11 + n) [] n (Some 77) (Some n) (Some 5) DynamicFeeTxType
    (Some (Some [])) (Some 9000) (Some 0) (Some 0) (Some 0).

Definition rw_rpcBlock : rpcBlock := mkRpcBlock 7 [9] 8 0 [1] 0 500 (2 ^ 32 - 1) 43416 1000 1 [FullTx (rw_tx 0); FullTx (rw_tx 1)] (Some 10).

Lemma rw_answer_eq : GetBlockByNumber 7 true = Ok (Some rw_rpcBlock).
Proof. vm_compute. reflexivity. Qed.

Lemma rpc_endpoints_agree_witness :
  GetBlockTransactionCountByNumber 7 = Ok (Some 2) /\ GetTransactionByHash 12 = Ok (Some (rw_tx 1)) /\
  GetTransactionByBlockNumberAndIndex 7 1 = Ok (Some (rw_tx 1)).
Proof.
  destruct (rpc_endpoints_agree 7 rw_block rw_results empty_db rw_db rw_rpcBlock rw_indexed) as (H1 & H2 & _).
  - vm_compute. discriminate.
  - exact rw_answer_eq.
  - split; [exact H1|]. destruct (H2 1%nat (FullTx (rw_tx 1)) eq_refl) as (t & E & _ & _ & E1 & E2). injection E as <-. split; [exact E1|exact E2].
Defined.

(** the second message of the block was reverted *)
Lemma receipt_reports_execution_witness :
  exists rc, GetTransactionReceipt 12 = Ok (Some rc) /\ rc_status rc = ReceiptStatusFailed /\ rc_transactionIndex rc = 1 /\ rc_blockNumber rc = 7.
Proof.
  assert (E : exists rc, GetTransactionReceipt (rtx_Hash (rw_tx 1)) = Ok (Some rc) /\ rc_status rc = ReceiptStatusFailed)
    by (vm_compute; eauto). destruct E as (rc & E & Es). exists rc. split; [exact E|]. split; [exact Es|].
  destruct (receipt_reports_execution 7 rw_block rw_results empty_db rw_db rw_rpcBlock 1 (rw_tx 1) rc rw_indexed)
    as (k & i & m & d & g & f & result & _ & _ & _ & _ & _ & _ & _ & _ & Hn & Hi & _).
  - vm_compute. discriminate.
  - exact rw_answer_eq.
  - reflexivity.
  - exact E.
  - injection Hn as Hn. injection Hi as Hi. split; [exact Hi|exact Hn].
Defined.
End RpcConcrete.
