(* ===== verification/RpcFees.v ===== *)
(** * Fees that the RPC suggests ([rpc/backend/chain_info.go], [utils.go])

    [eth_feeHistory] answers the base fees, the shares of gas used and percentiles
    of the tips of a range of blocks; the tip and the gas price that are suggested
    follow from the base fee; a transaction whose fee is above a cap is refused
    ([CheckTxFee] of [rpc/types/utils.go]). A [float64] is a [spec_float] with 53
    bits, rounded to nearest even as in Go. *)

From stdpp Require Import base gmap list numbers strings sorting.
From Stdlib Require Import ZArith Lia SpecFloat.
From S2P Require Import Prelude SdkMath Scaling AccessList StateDB StateDBCommit VmStore FeeMarket TxData StateTransition VmParams Ante RpcEvents Indexer RpcFilters RpcBlock RpcBackend.

Module RpcFees.
Import RpcBackend.

Definition ErrBlockCount : error := "FeeHistory user block count higher than the cap".
Definition ErrGasLimitZero : error := "gasLimit of block should be bigger than 0".
Definition ErrNilResponse : error := "GlobalMinGasPrice query returned a nil response".
Definition ErrFeeCap : error := "tx fee exceeds the configured cap".
Definition PanicMakeSlice : error := "makeslice: len out of range".
Definition PanicDivide : error := "integer divide by zero".

(** ** Floating point *)

Definition prec64 : Z := 53.
Definition emax64 : Z := 1024.

Definition f64_of_Z (z : Z) : spec_float := binary_normalize prec64 emax64 z 0 false.
Definition f64_mul (x y : spec_float) : spec_float := SFmul prec64 emax64 x y.
Definition f64_div (x y : spec_float) : spec_float := SFdiv prec64 emax64 x y.
Definition f64_100 : spec_float := f64_of_Z 100.

(** [uint64(x)]: truncation when the result fits; otherwise the result depends on
    the implementation, [other] *)
Definition f64_to_uint64 (other : spec_float -> Z) (x : spec_float) : Z :=
  match x with
  | S754_zero _ => 0
  | S754_finite s m e =>
      let t := Z.shiftl (Zpos m) e in
      if s then (if t =? 0 then 0 else other x)
      else if t <=? max_uint64 then t else other x
  | _ => other x
  end.

(** a [big.Float] made of an integer, the quotient of two, and its [Float64]; the
    precision is at least 64 and enough for the integer *)
Definition big_prec (z : Z) : Z := Z.max 64 (Z.log2 (Z.abs z) + 1).
Definition big_emax : Z := 2 ^ 31.
Definition big_SetInt (z : Z) : spec_float := binary_normalize (big_prec z) big_emax z 0 false.
Definition big_Quo (prec : Z) (x y : spec_float) : spec_float := SFdiv prec big_emax x y.
Definition big_Float64 (x : spec_float) : spec_float :=
  match x with
  | S754_finite s m e => binary_normalize prec64 emax64 (if s then Zneg m else Zpos m) e s
  | _ => x
  end.

(** [CheckTxFee] of [rpc/types/utils.go] *)
Definition CheckTxFee (gasPrice gas : Z) (minCap : spec_float) : res unit :=
  if SFeqb minCap (S754_zero false) then Ok ()
  else
    let total := gasPrice * gas in
    let totalfee := big_SetInt total in
    let oneToken := big_SetInt (10 ^ 18) in
    let feeEth := big_Quo (Z.max (big_prec total) (big_prec (10 ^ 18))) totalfee oneToken in
    let feeFloat := big_Float64 feeEth in
    if SFltb minCap feeFloat then Err ErrFeeCap else Ok ().

(** ** Rewards *)

Record txGasAndReward := mkGasAndReward { gr_gasUsed : Z; gr_reward : Z }.

(** the inner loop: move on while the gas is below the threshold and there is a
    transaction left *)
Fixpoint advance (cur : txGasAndReward) (rest : list txGasAndReward) (sumGasUsed threshold : Z)
    : txGasAndReward * list txGasAndReward * Z :=
  match rest with
  | [] => (cur, rest, sumGasUsed)
  | x :: rest' =>
      if sumGasUsed <? threshold then advance x rest' (wrap64 (sumGasUsed + gr_gasUsed x)) threshold
      else (cur, rest, sumGasUsed)
  end.

Fixpoint reward_row (cur : txGasAndReward) (rest : list txGasAndReward) (sumGasUsed : Z) (thresholds : list Z) : list Z :=
  match thresholds with
  | [] => []
  | t :: thresholds =>
      let '(cur, rest, sumGasUsed) := advance cur rest sumGasUsed t in
      gr_reward cur :: reward_row cur rest sumGasUsed thresholds
  end.

(** go-ethereum and the queries of the fee market *)
Class FeeEnv `{!EthTx} := {
  EffectiveGasTipValue : ethTransaction -> option Z -> option Z;
  CalcBaseFee : ethHeader -> res Z;
  IsLondonBlock : Z -> bool;
  FeeHistoryCap : Z;
  q_FeeMarketParams : res FeeMarket.Params;
  q_GlobalMinGasPrice : res (option Z);
  MinGasPriceOfDenom : option Z;        (* of the configuration, as a decimal *)
  uint64_other : spec_float -> Z;
  (* [sort.Sort] by reward; it need not be stable *)
  sort_by_reward : list txGasAndReward -> list txGasAndReward;
  sort_perm : forall l, sort_by_reward l ≡ₚ l;
  sort_sorted : forall l, Sorted (fun a b => gr_reward a <= gr_reward b) (sort_by_reward l);
  (* EIP-1559: a block at its target leaves the fee as it is *)
  CalcBaseFee_target : forall h f, IsLondonBlock (eh_Number h) = true -> eh_BaseFee h = Some f -> eh_GasUsed h = eh_GasLimit h / 2 ->
    CalcBaseFee h = Ok f
}.

Section Fees.
Context `{!SdkMath} `{!EthHex} `{!TxCodec} `{!EthTx} `{!RpcEnv} `{!FeeEnv}.

Fixpoint msgs_rewards (msgs : list sdkMsg) (txGasUsed : Z) (baseFee : option Z) : res (list txGasAndReward) :=
  match msgs with
  | [] => Ok []
  | OtherMsg :: msgs => msgs_rewards msgs txGasUsed baseFee
  | EthMsg m :: msgs =>
      let? tx := deref (AsTransaction m) in
      let? rest := msgs_rewards msgs txGasUsed baseFee in
      Ok (mkGasAndReward txGasUsed (default 0 (EffectiveGasTipValue tx baseFee)) :: rest)
  end.

Fixpoint block_rewards (txs : list bytes) (results : list ExecTxResult) (baseFee : option Z) : res (list txGasAndReward) :=
  match txs, results with
  | [], _ => Ok []
  | _ :: _, [] => Panic PanicIndex
  | tx :: txs, result :: results =>
      match TxDecoder tx with
      | Panic e => Panic e
      | Err _ => block_rewards txs results baseFee
      | Ok tx =>
          let? r := msgs_rewards (d_Msgs tx) (wrap64 (er_GasUsed result)) baseFee in
          let? rest := block_rewards txs results baseFee in
          Ok (r ++ rest)
      end
  end.

Record OneFeeHistory := mkOneFeeHistory { fh_BaseFee : option Z; fh_NextBaseFee : Z; fh_Reward : list Z; fh_GasUsedRatio : spec_float }.

Definition thresholds (blockGasUsed : spec_float) (percentiles : list spec_float) : list Z :=
  map (fun p => f64_to_uint64 uint64_other (f64_div (f64_mul blockGasUsed p) f64_100)) percentiles.

Definition processBlock (tendermintBlock : ResultBlock) (ethBlock : rpcBlock) (rewardPercentiles : list spec_float)
    (blockRes : ResultBlockResults) : res OneFeeHistory :=
  let? blockBaseFee := BaseFee blockRes in
  let? next := if IsLondonBlock (th_Height (rb_Header tendermintBlock) + 1)
               then (let? header := CurrentHeader in CalcBaseFee header) else Ok 0 in
  let gasusedfloat := f64_of_Z (rpb_gasUsed ethBlock) in
  if rpb_gasLimit ethBlock <=? 0 then Err ErrGasLimitZero
  else
    let gasUsedRatio := f64_div gasusedfloat (f64_of_Z (rpb_gasLimit ethBlock)) in
    let? sorter := block_rewards (rb_Txs tendermintBlock) (RpcFilters.br_TxsResults (rr_Results blockRes)) blockBaseFee in
    Ok (mkOneFeeHistory blockBaseFee next
          (match sort_by_reward sorter with
           | [] => map (fun _ => 0) rewardPercentiles
           | cur :: rest => reward_row cur rest (gr_gasUsed cur) (thresholds gasusedfloat rewardPercentiles)
           end) gasUsedRatio).

(** ** [eth_feeHistory] *)

Record FeeHistoryResult := mkFeeHistory {
  fr_OldestBlock : Z; fr_Reward : option (list (list Z)); fr_BaseFee : list (option Z); fr_GasUsedRatio : list spec_float
}.

(** the loop over [n] blocks; [None] is the nil answer for a block that is missing *)
Fixpoint fee_rows (blockID : Z) (n : nat) (percentiles : list spec_float) : res (option (list OneFeeHistory)) :=
  match n with
  | O => Ok (Some [])
  | S n =>
      let? tendermintblock := TendermintBlockByNumber blockID in
      match tendermintblock with
      | None => Ok None
      | Some tendermintblock =>
          let? ethBlock := GetBlockByNumber blockID true in
          match ethBlock with
          | None => Ok None
          | Some ethBlock =>
              let? blockRes := tm_BlockResults (th_Height (rb_Header tendermintblock)) in
              let? one := processBlock tendermintblock ethBlock percentiles blockRes in
              let? rest := fee_rows (blockID + 1) n percentiles in
              Ok (match rest with Some rest => Some (one :: rest) | None => None end)
          end
      end
  end.

(** the base fees of the rows, and the next one of the last row *)
Definition base_fees (rows : list OneFeeHistory) : list (option Z) :=
  map fh_BaseFee rows ++ [match last rows with Some r => Some (fh_NextBaseFee r) | None => None end].

Definition FeeHistory (userBlockCount lastBlock : Z) (rewardPercentiles : list spec_float) : res (option FeeHistoryResult) :=
  let? blockEnd := if lastBlock <? 0 then BlockNumber else Ok lastBlock in
  let blocks := to_int64 userBlockCount in
  if FeeHistoryCap <? blocks then Err ErrBlockCount
  else
    let blocks := if to_int64 (blockEnd + 1) <? blocks then to_int64 (blockEnd + 1) else blocks in
    let blockStart := to_int64 (blockEnd + 1 - blocks) in
    if blocks <? 0 then Panic PanicMakeSlice
    else
      let? rows := fee_rows blockStart (Z.to_nat blocks) rewardPercentiles in
      match rows with
      | None => Ok None
      | Some rows =>
          Ok (Some (mkFeeHistory blockStart
                      (match rewardPercentiles with [] => None | _ => Some (map fh_Reward rows) end)
                      (base_fees rows) (map fh_GasUsedRatio rows)))
      end.

(** ** Suggestions *)

Definition GlobalMinGasPrice : res Z :=
  let? r := q_GlobalMinGasPrice in match r with Some p => Ok p | None => Err ErrNilResponse end.

(** [int64] arithmetic *)
Definition SuggestGasTipCap (baseFee : option Z) : res Z :=
  match baseFee with
  | None => Ok 0
  | Some f =>
      let? params := q_FeeMarketParams in
      if FeeMarket.BaseFeeChangeDenominator params =? 0 then Panic PanicDivide
      else
        let maxDelta := Z.quot (to_int64 (to_int64 f * (FeeMarket.ElasticityMultiplier params - 1))) (FeeMarket.BaseFeeChangeDenominator params) in
        Ok (if maxDelta <? 0 then 0 else maxDelta)
  end.

Definition DefaultGasPrice : Z := 20.

(** [RPCMinGasPrice] of [node_info.go] *)
Definition RPCMinGasPrice (cfg : EvmCoinInfo) : res Z :=
  match MinGasPriceOfDenom with
  | None => Ok DefaultGasPrice
  | Some amt =>
      if amt =? 0 then Ok DefaultGasPrice
      else let? d := ConvertAmountTo18DecimalsLegacy cfg amt in dec_TruncateInt d
  end.

(** [GasPrice] of [call_tx.go] *)
Definition GasPrice (cfg : EvmCoinInfo) : res Z :=
  let? head := CurrentHeader in
  let? result := match eh_BaseFee head with
                 | Some f => let? tip := SuggestGasTipCap (Some f) in Ok (tip + f)
                 | None => RPCMinGasPrice cfg
                 end in
  let? minGasPrice := GlobalMinGasPrice in
  Ok (if result <? minGasPrice then minGasPrice else result).
End Fees.
End RpcFees.
