(* ===== verification/RpcFeesTheorems.v ===== *)
(** * Properties of the fees that the RPC suggests *)

From stdpp Require Import base gmap list numbers strings sorting.
From Stdlib Require Import ZArith Lia SpecFloat.
From S2P Require Import Prelude SdkMath Scaling AccessList StateDB StateDBCommit VmStore Concrete FeeMarket FeeMarketTheorems TxData TxDataTheorems StateTransition StateTransitionTheorems VmParams Ante RpcEvents Indexer IndexerServiceTheorems RpcFilters RpcBlock RpcBackend RpcBackendTheorems RpcConcrete RpcFees.

Module RpcFeesTheorems.
Import RpcBackend RpcFees FeeMarketSpec.

(** ** Percentiles of tips *)

Section Percentiles.
Implicit Types (tips : list txGasAndReward).

Definition total_gas tips : Z := fold_right (fun x acc => gr_gasUsed x + acc) 0 tips.

(** the gas of the transactions whose tip is at most [r] *)
Definition covered tips (r : Z) : Z := total_gas (filter (fun x => gr_reward x <= r) tips).

(** The reference definition, on the collection of tips alone: [r] is the least
    tip such that the transactions with at most that tip used gas [t], or the
    largest tip when all of them used less. *)
Definition is_percentile tips (t r : Z) : Prop :=
  r ∈ map gr_reward tips /\
  (forall r', r' ∈ map gr_reward tips -> r' < r -> covered tips r' < t) /\
  (t <= covered tips r \/ forall r', r' ∈ map gr_reward tips -> r' <= r).

(** the thresholds as they count: not below an earlier one *)
Fixpoint running_max (m : Z) (ts : list Z) : list Z :=
  match ts with [] => [] | t :: ts => Z.max m t :: running_max (Z.max m t) ts end.

(** There is one percentile. *)
Lemma is_percentile_unique tips t r1 r2 : is_percentile tips t r1 -> is_percentile tips t r2 -> r1 = r2.
Proof.
  intros (H1 & L1 & U1) (H2 & L2 & U2). destruct (Z.lt_trichotomy r1 r2) as [Hlt|[->|Hlt]]; [exfalso|done|exfalso].
  - specialize (L2 r1 H1 Hlt). destruct U1 as [U1|U1]; [lia|]. specialize (U1 r2 H2). lia.
  - specialize (L1 r2 H2 Hlt). destruct U2 as [U2|U2]; [lia|]. specialize (U2 r1 H1). lia.
Qed.

Lemma total_gas_app a b : total_gas (a ++ b) = total_gas a + total_gas b.
Proof. unfold total_gas. induction a as [|x a IH]; [done|]. cbn [app fold_right]. rewrite IH. lia. Qed.

Lemma total_gas_perm a b : a ≡ₚ b -> total_gas a = total_gas b.
Proof. unfold total_gas. induction 1; cbn [fold_right] in *; lia. Qed.

Definition gas_nonneg tips : Prop := Forall (fun x => 0 <= gr_gasUsed x) tips.

Lemma total_gas_nonneg tips : gas_nonneg tips -> 0 <= total_gas tips.
Proof. unfold total_gas. induction 1; cbn [fold_right] in *; lia. Qed.

Lemma total_gas_filter (P : txGasAndReward -> Prop) `{!forall x, Decision (P x)} tips : gas_nonneg tips -> total_gas (filter P tips) <= total_gas tips.
Proof. unfold total_gas. induction 1 as [|x l Hx Hl IH]; [done|]. rewrite filter_cons. case_decide; cbn [fold_right] in *; lia. Qed.

Lemma covered_perm a b r : a ≡ₚ b -> covered a r = covered b r.
Proof. intros Hp. unfold covered. apply total_gas_perm. by rewrite Hp. Qed.

Lemma is_percentile_perm a b t r : a ≡ₚ b -> is_percentile a t r -> is_percentile b t r.
Proof.
  intros Hp (Hr & Hl & Hu). assert (Hm : forall x, x ∈ map gr_reward b <-> x ∈ map gr_reward a) by (intros x; by rewrite Hp).
  split_and!.
  - by apply Hm.
  - intros r' Hr' Hlt. rewrite <-(covered_perm a b r' Hp). apply Hl; [by apply Hm|done].
  - rewrite <-(covered_perm a b r Hp). destruct Hu as [Hu|Hu]; [by left|right]. intros r' Hr'. apply Hu. by apply Hm.
Qed.

Lemma filter_none (P : txGasAndReward -> Prop) `{!forall x, Decision (P x)} tips : (forall x, x ∈ tips -> ~ P x) -> filter P tips = [].
Proof.
  induction tips as [|x l IH]; intros Hl; [done|]. rewrite filter_cons_False by (apply Hl; by left). apply IH. intros y Hy. apply Hl. by right.
Qed.

Lemma filter_nonneg (P : txGasAndReward -> Prop) `{!forall x, Decision (P x)} tips : gas_nonneg tips -> gas_nonneg (filter P tips).
Proof.
  unfold gas_nonneg. rewrite !Forall_forall. intros Hl x Hx. apply list_elem_of_filter in Hx as [_ Hx]. by apply Hl.
Qed.

(** A position in the sorted tips: what is before, the current one, what is left.
    The transactions before used less gas than the threshold. *)
Definition at_position (t : Z) (before : list txGasAndReward) (cur : txGasAndReward) (rest : list txGasAndReward) (sum : Z) : Prop :=
  sum = total_gas (before ++ [cur]) /\ (before = [] \/ total_gas before < t) /\ (t <= sum \/ rest = []).

Lemma position_percentile t before cur rest sum :
  StronglySorted (fun a b => gr_reward a <= gr_reward b) (before ++ cur :: rest) -> gas_nonneg (before ++ cur :: rest) ->
  at_position t before cur rest sum -> is_percentile (before ++ cur :: rest) t (gr_reward cur).
Proof.
  intros Hs Hg (-> & Hb & Hu). assert (Hsplit : forall x, x ∈ before -> gr_reward x <= gr_reward cur).
  { intros x Hx. apply list_elem_of_split in Hx as (l1 & l2 & ->). rewrite <-app_assoc in Hs. cbn in Hs.
    clear -Hs. induction l1 as [|y l1 IH]; cbn in Hs; [|inversion Hs; by apply IH].
    inversion Hs as [|? ? _ Hf]. rewrite Forall_forall in Hf. apply Hf. set_solver. }
  assert (Hafter : forall x, x ∈ rest -> gr_reward cur <= gr_reward x).
  { intros x Hx. clear -Hs Hx. induction before as [|y l1 IH]; cbn in Hs; [|inversion Hs; by apply IH].
    inversion Hs as [|? ? _ Hf]. rewrite Forall_forall in Hf. by apply Hf. }
  unfold gas_nonneg in Hg. apply Forall_app in Hg as [Hgb Hgr]. inversion Hgr as [|? ? Hgc Hgrest]; subst. split_and!.
  - rewrite map_app. cbn. set_solver.
  - intros r' Hr' Hlt. unfold covered. rewrite filter_app, filter_cons_False by (cbn; lia).
    rewrite (filter_none (fun x => gr_reward x <= r') rest) by (intros x Hx; specialize (Hafter x Hx); lia).
    rewrite app_nil_r. destruct Hb as [->|Hb].
    + exfalso. cbn in Hr'. apply elem_of_cons in Hr' as [->|Hr']; [lia|]. apply list_elem_of_fmap in Hr' as (x & -> & Hx).
      specialize (Hafter x Hx). lia.
    + eapply Z.le_lt_trans; [by apply total_gas_filter|done].
  - destruct Hu as [Hu|Hu]; [left|right].
    + etrans; [exact Hu|]. unfold covered. rewrite filter_app, filter_cons_True by (cbn; lia). rewrite !total_gas_app. cbn.
      rewrite (filter_all _ before) by (apply Forall_forall; intros x Hx; by apply Hsplit).
      pose proof (total_gas_nonneg (filter (fun x => gr_reward x <= gr_reward cur) rest)) as Hn. unfold total_gas in *.
      specialize (Hn (filter_nonneg _ _ Hgrest)). lia.
    + intros r' Hr'. subst rest. rewrite map_app in Hr'. cbn in Hr'. apply elem_of_app in Hr' as [Hr'|Hr']; [|set_solver].
      apply list_elem_of_fmap in Hr' as (x & -> & Hx). by apply Hsplit.
Qed.

(** the inner loop stops at the position of its threshold *)
Lemma advance_spec T t rest : forall before cur sum cur' rest' sum',
  gas_nonneg (before ++ cur :: rest) -> total_gas (before ++ cur :: rest) <= max_uint64 -> t <= T ->
  sum = total_gas (before ++ [cur]) -> before = [] \/ total_gas before < T -> advance cur rest sum t = (cur', rest', sum') ->
  exists before', before ++ cur :: rest = before' ++ cur' :: rest' /\ sum' = total_gas (before' ++ [cur']) /\
    (before' = [] \/ total_gas before' < T) /\ (t <= sum' \/ rest' = []) /\ sum <= sum' /\ (rest = [] -> rest' = []).
Proof.
  induction rest as [|x rest IH]; intros before cur sum cur' rest' sum' Hg Hmax Ht Hsum Hb E; cbn [advance] in E.
  { injection E as <- <- <-. exists before. split_and!; try done; by right. }
  destruct (Z.ltb_spec sum t) as [Hlt|Hge].
  - assert (Hcons : before ++ cur :: x :: rest = (before ++ [cur]) ++ x :: rest) by (by rewrite <-app_assoc).
    rewrite Hcons in *. assert (Hx : total_gas ((before ++ [cur]) ++ [x]) = sum + gr_gasUsed x).
    { rewrite total_gas_app, <-Hsum. unfold total_gas. cbn. lia. }
    assert (Hrange : 0 <= gr_gasUsed x /\ 0 <= sum + gr_gasUsed x <= max_uint64).
    { change (x :: rest) with ([x] ++ rest) in Hmax. rewrite (app_assoc (before ++ [cur]) [x] rest), total_gas_app, Hx in Hmax.
      apply Forall_app in Hg as [Hg1 Hg2]. apply Forall_cons in Hg2 as [Hgx Hgr].
      pose proof (total_gas_nonneg rest Hgr). pose proof (total_gas_nonneg (before ++ [cur]) Hg1). lia. }
    rewrite wrap64_small in E by apply Hrange.
    destruct (IH (before ++ [cur]) x (sum + gr_gasUsed x) cur' rest' sum') as (before' & Hl & Hs & Hb' & Hu & Hle & Hn); try done; [right; lia|].
    exists before'. split_and!; try done. lia.
  - injection E as <- <- <-. exists before. split_and!; try done; by left.
Qed.

(** Every reward of the row is the percentile of its threshold. *)
Lemma reward_row_percentiles ts : forall t0 before cur rest sum,
  StronglySorted (fun a b => gr_reward a <= gr_reward b) (before ++ cur :: rest) -> gas_nonneg (before ++ cur :: rest) ->
  total_gas (before ++ cur :: rest) <= max_uint64 -> at_position t0 before cur rest sum ->
  Forall2 (is_percentile (before ++ cur :: rest)) (running_max t0 ts) (reward_row cur rest sum ts).
Proof.
  induction ts as [|t ts IH]; intros t0 before cur rest sum Hs Hg Hmax (Hsum & Hb & Hu); cbn [running_max reward_row]; [constructor|].
  destruct (advance cur rest sum t) as [[cur' rest'] sum'] eqn:E.
  destruct (advance_spec (Z.max t0 t) t rest before cur sum cur' rest' sum') as (before' & Hl & Hs' & Hb' & Hu' & Hle & Hn); try done; [lia| |].
  { destruct Hb; [by left|right; lia]. }
  assert (Hp : at_position (Z.max t0 t) before' cur' rest' sum').
  { split_and!; try done. destruct Hu' as [Hu'|]; [|by right]. destruct Hu as [Hu|Hu]; [left; lia|right; auto]. }
  rewrite Hl in *. constructor; [by eapply position_percentile|by apply IH].
Qed.
End Percentiles.

Section Theorems.
Context `{!SdkMath} `{!EthHex} `{!TxCodec} `{!EthTx} `{!RpcEnv} `{!FeeEnv}.

(** C34: The rewards of [eth_feeHistory] are percentiles. For a block whose
    transactions used less gas together than a [uint64] holds, every reward is the
    least tip such that the transactions with at most that tip used the gas of the
    percentile (the largest tip when all of them used less), where a percentile
    below an earlier one counts as that one. This determines the rewards from the
    tips alone, so that the order in which the unstable sort leaves equal tips
    does not matter. A block without Ethereum transactions has zeros. *)
Theorem rewards_are_percentiles block ethBlock percentiles blockRes one tips :
  processBlock block ethBlock percentiles blockRes = Ok one ->
  block_rewards (rb_Txs block) (RpcFilters.br_TxsResults (rr_Results blockRes)) (fh_BaseFee one) = Ok tips ->
  gas_nonneg tips -> total_gas tips <= max_uint64 ->
  length (fh_Reward one) = length percentiles /\
  (tips = [] -> Forall (eq 0) (fh_Reward one)) /\
  (tips <> [] -> forall rewards,
     Forall2 (is_percentile tips) (running_max 0 (thresholds (f64_of_Z (rpb_gasUsed ethBlock)) percentiles)) rewards <-> rewards = fh_Reward one).
Proof.
  intros E Ht Hg Hmax. unfold processBlock in E. apply bind_Ok_inv in E as (bf & _ & E). apply bind_Ok_inv in E as (next & _ & E).
  destruct (rpb_gasLimit ethBlock <=? 0); [done|]. apply bind_Ok_inv in E as (tips' & Ht' & [= <-]). cbn [fh_BaseFee fh_Reward] in *.
  rewrite Ht in Ht'. injection Ht' as <-. pose proof (sort_perm tips) as Hp. pose proof (sort_sorted tips) as Hs.
  assert (Hlen : forall cur rest sum ts, length (reward_row cur rest sum ts) = length ts).
  { intros cur rest sum ts. revert cur rest sum. induction ts as [|t ts IH]; intros; cbn; [done|]. destruct (advance _ _ _ _) as [[? ?] ?]. cbn. by rewrite IH. }
  destruct (sort_by_reward tips) as [|cur rest].
  { apply Permutation_nil_l in Hp as <-. split_and!; [by rewrite length_map| |done]. intros _. induction percentiles; constructor; done. }
  assert (Hne : tips <> []) by (intros ->; by apply Permutation_nil_r in Hp). split_and!; [rewrite Hlen; unfold thresholds; by rewrite length_map|done|].
  intros _ rewards. set (ts := thresholds _ _).
  assert (HF : Forall2 (is_percentile tips) (running_max 0 ts) (reward_row cur rest (gr_gasUsed cur) ts)).
  { eapply Forall2_impl; [|intros ? ?; by apply (is_percentile_perm _ _ _ _ Hp)].
    apply (reward_row_percentiles ts 0 [] cur rest (gr_gasUsed cur)); cbn [app].
    - apply Sorted_StronglySorted; [|done]. intros a b c. lia.
    - unfold gas_nonneg in *. by rewrite Hp.
    - by rewrite (total_gas_perm _ _ Hp).
    - split_and!; [unfold total_gas; cbn; lia|by left|left]. unfold gas_nonneg in Hg. rewrite <-Hp in Hg. inversion Hg. lia. }
  split; [|by intros ->]. intros HF2. clear -HF HF2. revert HF2. generalize dependent rewards. induction HF as [|t r ts' rs Hr _ IH]; intros rewards HF2.
  - by inversion HF2.
  - inversion HF2 as [|? r2 ? rs2 Hr2 Hrs2]; subst. f_equal; [by eapply is_percentile_unique|by apply IH].
Qed.
(** ** The range of the history *)

Lemma fee_rows_spec ps n : forall start rows,
  fee_rows start n ps = Ok (Some rows) ->
  length rows = n /\
  forall i one, rows !! i = Some one -> exists block ethBlock blockRes,
    TendermintBlockByNumber (start + Z.of_nat i) = Ok (Some block) /\ GetBlockByNumber (start + Z.of_nat i) true = Ok (Some ethBlock) /\
    tm_BlockResults (th_Height (rb_Header block)) = Ok blockRes /\ processBlock block ethBlock ps blockRes = Ok one.
Proof.
  induction n as [|n IH]; intros start rows E; cbn [fee_rows] in E; [injection E as <-; by split|].
  apply bind_Ok_inv in E as ([block|] & Hb & E); [|done]. apply bind_Ok_inv in E as ([ethBlock|] & He & E); [|done].
  apply bind_Ok_inv in E as (blockRes & Hr & E). apply bind_Ok_inv in E as (one & Ho & E). apply bind_Ok_inv in E as ([rest|] & Hrest & E); [|done].
  injection E as <-. destruct (IH _ _ Hrest) as [Hlen Hi]. split; [cbn; lia|]. intros [|i] x Hx; cbn in Hx.
  - injection Hx as <-. rewrite Z.add_0_r. by exists block, ethBlock, blockRes.
  - replace (start + Z.of_nat (S i)) with (start + 1 + Z.of_nat i) by lia. by apply Hi.
Qed.

(** [eth_feeHistory] covers the blocks up to the last one that are asked for, as
    far as there are: it names the oldest, and has for each block in order its base
    fee, its share of gas and its rewards, and one more base fee. *)
Theorem fee_history_covers_range count lastBlock ps r :
  0 <= count <= FeeHistoryCap -> FeeHistoryCap < 2 ^ 31 -> 0 <= lastBlock < max_int64 -> FeeHistory count lastBlock ps = Ok (Some r) ->
  let blocks := Z.min count (lastBlock + 1) in
  fr_OldestBlock r = lastBlock + 1 - blocks /\
  Z.of_nat (length (fr_GasUsedRatio r)) = blocks /\ Z.of_nat (length (fr_BaseFee r)) = blocks + 1 /\
  forall i, Z.of_nat i < blocks -> exists block ethBlock blockRes one,
    TendermintBlockByNumber (fr_OldestBlock r + Z.of_nat i) = Ok (Some block) /\
    GetBlockByNumber (fr_OldestBlock r + Z.of_nat i) true = Ok (Some ethBlock) /\ tm_BlockResults (th_Height (rb_Header block)) = Ok blockRes /\
    processBlock block ethBlock ps blockRes = Ok one /\ fr_BaseFee r !! i = Some (fh_BaseFee one) /\
    fr_GasUsedRatio r !! i = Some (fh_GasUsedRatio one) /\ (ps <> [] -> exists rewards, fr_Reward r = Some rewards /\ rewards !! i = Some (fh_Reward one)).
Proof.
  intros Hc Hcap Hl E blocks. unfold FeeHistory in E. destruct (Z.ltb_spec lastBlock 0); [lia|]. cbn [mbind res_bind] in E.
  assert (Hbig : 2 ^ 31 < max_int64) by reflexivity.
  rewrite (to_int64_small count), (to_int64_small (lastBlock + 1)) in E by lia. destruct (Z.ltb_spec FeeHistoryCap count); [lia|].
  replace (if lastBlock + 1 <? count then lastBlock + 1 else count) with blocks in E by (unfold blocks; destruct (Z.ltb_spec (lastBlock + 1) count); lia).
  rewrite (to_int64_small (lastBlock + 1 - blocks)) in E by (unfold blocks; lia). destruct (Z.ltb_spec blocks 0); [unfold blocks in *; lia|].
  apply bind_Ok_inv in E as ([rows|] & Hrows & E); [|done]. injection E as <-. destruct (fee_rows_spec _ _ _ _ Hrows) as [Hlen Hi].
  cbn [fr_OldestBlock fr_GasUsedRatio fr_BaseFee fr_Reward]. split_and!; [done|rewrite length_map; lia|unfold base_fees; rewrite length_app, length_map; cbn; lia|].
  intros i Hib. destruct (rows !! i) as [one|] eqn:Hone; [|apply lookup_ge_None in Hone; lia].
  destruct (Hi i one Hone) as (block & ethBlock & blockRes & E1 & E2 & E3 & E4). exists block, ethBlock, blockRes, one.
  change (map ?f rows) with (f <$> rows) in *. split_and!; try done.
  - unfold base_fees. change (map ?f rows) with (f <$> rows). rewrite lookup_app_l by (rewrite length_fmap; apply lookup_lt_Some in Hone; done).
    by rewrite list_lookup_fmap, Hone.
  - by rewrite list_lookup_fmap, Hone.
  - intros Hps. destruct ps; [done|]. eexists. split; [done|]. by rewrite list_lookup_fmap, Hone.
Qed.

(** The row of block 0 is that of block 1. *)
Theorem block_zero_is_block_one full :
  TendermintBlockByNumber 0 = TendermintBlockByNumber 1 /\ GetBlockByNumber 0 full = GetBlockByNumber 1 full.
Proof. split; reflexivity. Qed.

(** Exception: a number of blocks above the range of [int64] passes the cap, since
    it is negative as an [int64], and the allocation of the rows panics; so does
    the largest block number. *)
Theorem fee_history_panics count lastBlock ps :
  0 <= FeeHistoryCap < 2 ^ 31 ->
  (2 ^ 63 <= count <= max_uint64 -> 0 <= lastBlock < max_int64 -> FeeHistory count lastBlock ps = Panic PanicMakeSlice) /\
  (0 < count <= FeeHistoryCap -> FeeHistory count max_int64 ps = Panic PanicMakeSlice).
Proof.
  intros Hcap. assert (Hbig : 2 ^ 31 < max_int64) by reflexivity. split.
  - intros Hc Hl. assert (Hn : to_int64 count = count - 2 ^ 64).
    { unfold to_int64, max_int64, max_uint64 in *. rewrite Z.mod_small by lia. destruct (Z.leb_spec count (2 ^ 63 - 1)); lia. }
    unfold FeeHistory. destruct (Z.ltb_spec lastBlock 0); [lia|]. cbn [mbind res_bind]. rewrite Hn, (to_int64_small (lastBlock + 1)) by lia.
    unfold max_uint64 in Hc. destruct (Z.ltb_spec FeeHistoryCap (count - 2 ^ 64)); [lia|].
    destruct (Z.ltb_spec (lastBlock + 1) (count - 2 ^ 64)); [lia|]. destruct (Z.ltb_spec (count - 2 ^ 64) 0); [done|lia].
  - intros Hc. unfold FeeHistory. change (max_int64 <? 0) with false. cbn [mbind res_bind]. rewrite (to_int64_small count) by lia.
    destruct (Z.ltb_spec FeeHistoryCap count); [lia|]. change (to_int64 (max_int64 + 1)) with (- 2 ^ 63). destruct (Z.ltb_spec (- 2 ^ 63) count); [|lia].
    reflexivity.
Qed.

(** Exception: the base fee after the range is not that of the next block. It is
    the base fee of the latest block, whatever range is asked for: it is computed
    from a header that reports no gas limit and no gas. *)
Theorem next_base_fee_is_current block ethBlock ps blockRes one header f :
  processBlock block ethBlock ps blockRes = Ok one -> IsLondonBlock (th_Height (rb_Header block) + 1) = true ->
  CurrentHeader = Ok header -> IsLondonBlock (eh_Number header) = true -> eh_BaseFee header = Some f -> fh_NextBaseFee one = f.
Proof.
  intros E Hl Hh Hlh Hf. unfold processBlock in E. apply bind_Ok_inv in E as (bf & _ & E). rewrite Hl, Hh in E. cbn [mbind res_bind] in E.
  assert (Hz : eh_GasLimit header = 0 /\ eh_GasUsed header = 0).
  { unfold CurrentHeader, HeaderByNumber in Hh. apply bind_Ok_inv in Hh as ([b|] & _ & Hh); [|done]. destruct (tm_BlockResults _); [|done..].
    unfold header_of in Hh. apply bind_Ok_inv in Hh as (? & _ & Hh). by apply bind_Ok_inv in Hh as (? & _ & [= <-]). }
  destruct Hz as [Hz1 Hz2]. rewrite (CalcBaseFee_target header f Hlh Hf) in E by (by rewrite Hz1, Hz2). cbn [mbind res_bind] in E.
  destruct (_ <=? 0); [done|]. by apply bind_Ok_inv in E as (? & _ & [= <-]).
Qed.

(** ** Suggested prices *)

(** The tip is the largest change of the fee that one block can make, in whole
    units, and never negative. *)
Lemma SuggestGasTipCap_spec f p :
  q_FeeMarketParams = Ok p -> 0 < FeeMarket.BaseFeeChangeDenominator p -> 0 < FeeMarket.ElasticityMultiplier p ->
  0 <= f -> f * (FeeMarket.ElasticityMultiplier p - 1) <= max_int64 -> f <= max_int64 ->
  SuggestGasTipCap (Some f) = Ok (f * (FeeMarket.ElasticityMultiplier p - 1) / FeeMarket.BaseFeeChangeDenominator p).
Proof.
  intros Hp Hd He Hf Hm Hfm. unfold SuggestGasTipCap. rewrite Hp. cbn [mbind res_bind]. destruct (Z.eqb_spec (FeeMarket.BaseFeeChangeDenominator p) 0); [lia|].
  rewrite (to_int64_small f), to_int64_small by nia. rewrite Z.quot_div_nonneg by nia.
  destruct (Z.ltb_spec (f * (FeeMarket.ElasticityMultiplier p - 1) / FeeMarket.BaseFeeChangeDenominator p) 0) as [Hlt|]; [|done].
  exfalso. pose proof (Z.div_pos (f * (FeeMarket.ElasticityMultiplier p - 1)) (FeeMarket.BaseFeeChangeDenominator p)). nia.
Qed.

(** The suggested gas price lasts for the next block: on a chain with 18 decimals
    the base fee after a block that used at most its gas limit (a multiple of the
    gas target) exceeds the price that was suggested before by at most the share of
    one unit and the two units that rounding loses. *)
Theorem suggested_price_lasts cfg header p f fee used target minPrice price :
  CurrentHeader = Ok header -> eh_BaseFee header = Some f -> f = fee / dec_one ->
  q_FeeMarketParams = Ok p -> 0 < FeeMarket.BaseFeeChangeDenominator p -> 0 < FeeMarket.ElasticityMultiplier p ->
  0 <= fee -> f * (FeeMarket.ElasticityMultiplier p - 1) <= max_int64 -> f <= max_int64 ->
  0 < target -> 0 <= used <= FeeMarket.ElasticityMultiplier p * target -> 0 <= minPrice <= fee ->
  GasPrice cfg = Ok price ->
  let e := FeeMarket.ElasticityMultiplier p in
  let den := FeeMarket.BaseFeeChangeDenominator p in
  next_base_fee fee used target den minPrice / dec_one <= price + (e - 1) / den + 2.
Proof.
  intros Hh Hf Hfee Hp Hd He Hfee0 Hm Hfm Ht Hu Hmin E e den. unfold GasPrice in E. rewrite Hh in E. cbn [mbind res_bind] in E. rewrite Hf in E.
  assert (Hf0 : 0 <= f) by (subst f; apply Z.div_pos; [done|apply dec_one_pos]). rewrite (SuggestGasTipCap_spec f p) in E by done. fold e den in E.
  cbn [mbind res_bind] in E. apply bind_Ok_inv in E as (mp & _ & [= <-]). set (tip := f * (e - 1) / den) in *.
  assert (Hprice : tip + f <= (if tip + f <? mp then mp else tip + f)) by (destruct (Z.ltb_spec (tip + f) mp); lia).
  enough (Hn : next_base_fee fee used target den minPrice / dec_one <= f + tip + (e - 1) / den + 2) by lia.
  pose proof dec_one_pos as Hone. pose proof (Z.div_mod fee dec_one ltac:(lia)) as Hdm. pose proof (Z.mod_pos_bound fee dec_one ltac:(lia)) as Hmb.
  rewrite <-Hfee in Hdm. assert (Hs : 0 <= (e - 1) / den) by (apply Z.div_pos; unfold e; lia). assert (Htip : 0 <= tip) by (apply Z.div_pos; unfold e in *; nia).
  assert (Hdelta : fee * (e - 1) / den < (tip + (e - 1) / den + 2) * dec_one).
  { apply Z.div_lt_upper_bound; [done|]. pose proof (Z.div_mod (f * (e - 1)) den ltac:(unfold den; lia)) as Q1. pose proof (Z.mod_pos_bound (f * (e - 1)) den Hd) as Q2.
    pose proof (Z.div_mod (e - 1) den ltac:(unfold den; lia)) as Q3. pose proof (Z.mod_pos_bound (e - 1) den Hd) as Q4. fold tip in Q1. unfold e in *. nia. }
  unfold next_base_fee. destruct (Z.eqb_spec used target) as [|Hne]; [rewrite <-Hfee; lia|]. destruct (Z.ltb_spec target used) as [Hlt|Hge].
  - pose proof (share_bound fee (used - target) target den (e - 1) Hfee0 Ht Hd ltac:(unfold e; nia)) as [_ Hsb].
    apply Z.lt_succ_r, Z.div_lt_upper_bound; [done|]. nia.
  - assert (0 <= fee * (target - used) / (target * den)) by (apply Z.div_pos; [nia|unfold den; nia]).
    apply Z.lt_succ_r, Z.div_lt_upper_bound; [done|]. nia.
Qed.

End Theorems.

(** ** The block of [RpcConcrete] *)

Import RpcConcrete.

#[export] Instance reward_le_dec : RelDecision (fun a b => gr_reward a <= gr_reward b).
Proof. intros a b. apply _. Defined.

#[export, refine] Instance rw_fees : FeeEnv := {|
  EffectiveGasTipValue t baseFee :=
    match baseFee, et_GasTipCap t, et_GasFeeCap t with
    | None, tip, _ => tip
    | Some b, Some tip, Some cap => Some (Z.min tip (cap - b))
    | _, _, _ => None
    end;
  CalcBaseFee h := match eh_BaseFee h with Some f => Ok f | None => Panic PanicNil end;
  IsLondonBlock _ := true;
  FeeHistoryCap := 100;
  q_FeeMarketParams := Ok FeeMarket.DefaultParams;
  q_GlobalMinGasPrice := Ok (Some 0);
  MinGasPriceOfDenom := None;
  uint64_other _ := 2 ^ 63;
  sort_by_reward := merge_sort (fun a b => gr_reward a <= gr_reward b)
|}.
Proof.
  - intros l. apply merge_sort_Permutation.
  - intros l. apply Sorted_merge_sort. intros a b. lia.
  - intros h f _ -> _. done.
Defined.

(** the tips of the two messages are 2 and 3; the block used 43416 gas *)
Definition rw_percentiles : list spec_float := map f64_of_Z [10; 100; 50].
Definition rw_one : OneFeeHistory := ok_or (mkOneFeeHistory None 0 [] (S754_zero false)) (processBlock rw_block rw_rpcBlock rw_percentiles rw_results).
Definition rw_tips : list txGasAndReward := [mkGasAndReward 43316 2; mkGasAndReward 43316 3].

Lemma rewards_are_percentiles_witness :
  fh_Reward rw_one = [2; 3; 3] /\ Forall2 (is_percentile rw_tips) [4341; 43416; 43416] [2; 3; 3].
Proof.
  assert (E : processBlock rw_block rw_rpcBlock rw_percentiles rw_results = Ok rw_one) by (vm_compute; reflexivity).
  assert (Er : fh_Reward rw_one = [2; 3; 3]) by (vm_compute; reflexivity). split; [exact Er|].
  destruct (rewards_are_percentiles rw_block rw_rpcBlock rw_percentiles rw_results rw_one rw_tips E) as (_ & _ & Hp).
  - vm_compute. reflexivity.
  - repeat constructor; vm_compute; discriminate.
  - vm_compute. discriminate.
  - apply (Hp ltac:(discriminate) [2; 3; 3]). symmetry. exact Er.
Defined.

(** a fee of 1.5 tokens is above a cap of one and below a cap of two *)
Example fee_cap_example :
  CheckTxFee (15 * 10 ^ 8) (10 ^ 9) (f64_of_Z 1) = Err ErrFeeCap /\ CheckTxFee (15 * 10 ^ 8) (10 ^ 9) (f64_of_Z 2) = Ok () /\
  CheckTxFee (10 ^ 30) (10 ^ 9) (S754_zero false) = Ok ().
Proof. vm_compute. by split_and!. Qed.

Lemma fee_history_panics_witness :
  FeeHistory (2 ^ 64 - 1) 7 rw_percentiles = Panic PanicMakeSlice /\ FeeHistory 1 max_int64 rw_percentiles = Panic PanicMakeSlice.
Proof.
  destruct (fee_history_panics (2 ^ 64 - 1) 7 rw_percentiles) as [H1 _]; [vm_compute; split; congruence|].
  destruct (fee_history_panics 1 7 rw_percentiles) as [_ H2]; [vm_compute; split; congruence|].
  split; [apply H1; vm_compute; split; congruence|apply H2; vm_compute; split; congruence].
Defined.
End RpcFeesTheorems.
