(* ===== verification/RpcCalls.v ===== *)
(** * Accounts, calls and the sending of transactions of the RPC

    [rpc/backend/account_info.go], [call_tx.go], [sign_tx.go], the nonce of an
    account in [rpc/backend/utils.go], and [ToTransaction] of
    [x/vm/types/tx_args.go]. A query takes the height of its context, [None] for
    the latest state. *)

From stdpp Require Import base gmap list numbers strings.
From Stdlib Require Import ZArith Lia SpecFloat.
From S2P Require Import Prelude SdkMath Scaling AccessList StateDB StateDBCommit VmStore FeeMarket TxData StateTransition VmParams VmQueries Ante TxBuild RpcEvents Indexer RpcFilters RpcBlock RpcBackend RpcFees.

Module RpcCalls.
Import RpcBackend RpcFees VmQueries.

Definition ErrNotFound : error := "rpc error: code = NotFound".
Definition ErrFutureHeight : error := "invalid height: cannot query with height in the future".
Definition ErrInvalidBalance : error := "invalid balance".
Definition ErrPruned : error := "couldn't fetch balance. Node state is pruned".
Definition ErrUnprotected : error := "only replay-protected (EIP-155) transactions allowed over RPC".
Definition ErrABCI : error := "abci error".
Definition ErrNilHeader : error := "latest header is nil".
Definition ErrFeeBelowTip : error := "maxFeePerGas < maxPriorityFeePerGas".
Definition ErrLondonInactive : error := "maxFeePerGas or maxPriorityFeePerGas specified but london is not active yet".
Definition ErrDataInput : error := "both 'data' and 'input' are set and not equal".
Definition ErrNoCreationData : error := "contract creation without any data provided".
Definition ErrMissingNonce : error := "missing transaction nonce in transaction spec".
Definition ErrTxNotFoundInPool : error := "transaction not found".
Definition ErrUnlock : error := "account unlock with HTTP access is forbidden".
Definition ErrNoKey : error := "failed to find key in the node's keyring".
Definition ErrChainIDMismatch : error := "chainId does not match node's".

(** a request of [eth_call] and of the estimate of gas *)
Record callRequest := mkCallRequest { cr_Args : TransactionArgs; cr_GasCap : Z; cr_Proposer : bytes; cr_ChainId : Z }.
Record callResponse := mkCallResponse { cl_Gas : Z; cl_Ret : bytes; cl_VmError : string }.

(** a storage proof as the store answers it: [None] without a proof, else the data
    of its operations *)
Abbreviation proofOps := (option (list bytes)).

Class CallEnv := {
  (* the sequence of an account; an unknown account is [ErrNotFound] *)
  q_AccountSequence : option Z -> address -> res Z;
  EnsureExists : address -> res unit;
  q_Code : option Z -> address -> res bytes;
  q_Storage : option Z -> address -> string -> res string;
  q_Balance : option Z -> address -> res string;
  (* the balance, the text of the code hash and the nonce of an account *)
  q_Account : option Z -> address -> res (string * string * Z);
  q_GetProof_storage : Z -> address -> hash -> res (bytes * proofOps);
  q_GetProof_account : Z -> address -> res proofOps;
  hex_Encode : bytes -> string;
  q_EstimateGas : option Z -> callRequest -> res callResponse;
  q_EthCall : option Z -> callRequest -> res callResponse;
  RPCGasCap : Z;
  RPCTxFeeCap : spec_float;
  UnprotectedAllowed : bool;
  AllowInsecureUnlock : bool;
  tx_UnmarshalBinary : bytes -> res ethTransaction;
  TxEncoder : sdkTx -> res bytes;
  (* the code of the response, when there is one, and the error *)
  BroadcastTx : bytes -> option Z * option error;
  signing_Hash : ethTransaction -> hash;
  Keyring_has : address -> bool;
  Keyring_sign : address -> ethTxData -> res (ethTransaction * string);
  (* the signature of data by an address *)
  Keyring_SignByAddress : address -> bytes -> res bytes;
  UnpackRevert : bytes -> option string
}.

Section Calls.
Context `{!SdkMath} `{!EthHex} `{!EthSigner} `{!RpcBlock.HexUtil} `{!TxCodec} `{!EthTx} `{!RpcEnv} `{!FeeEnv} `{!CallEnv}.

(** ** The nonce of an account ([utils.go]) *)

(** the messages of one transaction of the mempool *)
Fixpoint count_msgs (msgs : list sdkMsg) (accAddr : address) (nonce : Z) : res Z :=
  match msgs with
  | [] => Ok nonce
  | OtherMsg :: _ => Ok nonce
  | EthMsg m :: msgs =>
      let? chainID := deref be_chainID in
      match msg_GetSender m chainID with
      | Panic e => Panic e
      | Err _ => count_msgs msgs accAddr nonce
      | Ok sender => count_msgs msgs accAddr (if sender =? accAddr then wrap64 (nonce + 1) else nonce)
      end
  end.

Fixpoint count_pending (txs : list decodedTx) (accAddr : address) (nonce : Z) : res Z :=
  match txs with
  | [] => Ok nonce
  | tx :: txs => let? nonce := count_msgs (d_Msgs tx) accAddr nonce in count_pending txs accAddr nonce
  end.

Definition getAccountNonce (accAddr : address) (pending : bool) (height : Z) : res Z :=
  match q_AccountSequence (RpcBlock.ContextWithHeight height) accAddr with
  | Panic e => Panic e
  | Err e => if String.eqb e ErrNotFound then Ok 0 else Err e
  | Ok nonce =>
      if negb pending then Ok nonce
      else match PendingTransactions with
           | Panic e => Panic e
           | Err _ => Ok nonce
           | Ok pendingTxs => count_pending pendingTxs accAddr nonce
           end
  end.

(** ** Accounts ([account_info.go]) *)

Definition GetCode (a : address) (b : RpcBlock.BlockNumberOrHash) : res bytes :=
  let? blockNum := BlockNumberFromTendermint b in
  q_Code (RpcBlock.ContextWithHeight (RpcBlock.Int64 blockNum)) a.

Definition GetStorageAt (a : address) (key : string) (b : RpcBlock.BlockNumberOrHash) : res bytes :=
  let? blockNum := BlockNumberFromTendermint b in
  let? value := q_Storage (RpcBlock.ContextWithHeight (RpcBlock.Int64 blockNum)) a key in
  Ok (be_bytes 32 (HexToHash value)).

Definition GetBalance (a : address) (b : RpcBlock.BlockNumberOrHash) : res Z :=
  let? blockNum := BlockNumberFromTendermint b in
  let? _ := TendermintBlockByNumber blockNum in
  let? balance := q_Balance (RpcBlock.ContextWithHeight (RpcBlock.Int64 blockNum)) a in
  match NewIntFromString balance with
  | None => Err ErrInvalidBalance
  | Some val => if val <? 0 then Err ErrPruned else Ok val
  end.

(** [GetHexProofs] of [utils.go] *)
Definition GetHexProofs (proof : proofOps) : list string :=
  match proof with
  | None => [""%string]
  | Some ops => map (fun data => match data with [] => ""%string | _ => hex_Encode data end) ops
  end.

Record StorageResult := mkStorageResult { st_Key : string; st_Value : Z; st_Proof : list string }.
Record AccountResult := mkAccountResult {
  ar_Address : address; ar_AccountProof : list string; ar_Balance : Z; ar_CodeHash : hash; ar_Nonce : Z; ar_StorageHash : hash;
  ar_StorageProof : list StorageResult
}.

Fixpoint storage_proofs (height : Z) (a : address) (keys : list string) : res (list StorageResult) :=
  match keys with
  | [] => Ok []
  | key :: keys =>
      let? '(value, proof) := q_GetProof_storage height a (HexToHash key) in
      let? rest := storage_proofs height a keys in
      Ok (mkStorageResult key (be_value value) (GetHexProofs proof) :: rest)
  end.

Definition GetProof (a : address) (storageKeys : list string) (b : RpcBlock.BlockNumberOrHash) : res AccountResult :=
  let? blockNum := BlockNumberFromTendermint b in
  let height := RpcBlock.Int64 blockNum in
  let? _ := match TendermintBlockByNumber blockNum with Ok _ => Ok () | Err _ => Err ErrHeaderNotFound | Panic e => Panic e end in
  let ctx := RpcBlock.ContextWithHeight height in
  let? height := if height =? 0 then BlockNumber else Ok height in
  let? storageProofs := storage_proofs height a storageKeys in
  let? '(balance, codeHash, nonce) := q_Account ctx a in
  let? proof := q_GetProof_account height a in
  match NewIntFromString balance with
  | None => Err ErrInvalidBalance
  | Some balance => Ok (mkAccountResult a (GetHexProofs proof) balance (HexToHash codeHash) nonce 0 storageProofs)
  end.

Definition GetTransactionCount (a : address) (blockNum : Z) : res Z :=
  let? currentHeight := BlockNumber in
  let height := RpcBlock.Int64 blockNum in
  if currentHeight <? height then Err ErrFutureHeight
  else
    match EnsureExists a with
    | Panic e => Panic e
    | Err _ => Ok 0
    | Ok _ => getAccountNonce a (blockNum =? RpcBlock.EthPendingBlockNumber) height
    end.

(** ** Calls ([call_tx.go]) *)

Definition ErrExecutionReverted : string := "execution reverted".

Definition NewExecErrorWithReason (ret : bytes) : error :=
  match UnpackRevert ret with Some reason => ErrExecutionReverted +:+ ": " +:+ reason | None => ErrExecutionReverted end.

Definition handleRevertError (vmError : string) (ret : bytes) : res unit :=
  if String.eqb vmError "" then Ok ()
  else if negb (String.eqb vmError ErrExecutionReverted) then Err vmError
  else match ret with [] => Err vmError | _ => Err (NewExecErrorWithReason ret) end.

(** the request of a call at a block, whose proposer it takes *)
Definition call_request (args : TransactionArgs) (blockNr : Z) : res callRequest :=
  match TendermintBlockByNumber blockNr with
  | Panic e => Panic e
  | Err _ => Err ErrHeaderNotFound
  | Ok header =>
      let? header := deref header in
      let? chainID := deref be_chainID in
      Ok (mkCallRequest args RPCGasCap (th_ProposerAddress (rb_Header header)) (to_int64 chainID))
  end.

Definition EstimateGas (args : TransactionArgs) (blockNrOptional : option Z) : res Z :=
  let blockNr := default RpcBlock.EthPendingBlockNumber blockNrOptional in
  let? req := call_request args blockNr in
  let? r := q_EstimateGas (RpcBlock.ContextWithHeight (RpcBlock.Int64 blockNr)) req in
  let? _ := handleRevertError (cl_VmError r) (cl_Ret r) in
  Ok (cl_Gas r).

Definition DoCall (args : TransactionArgs) (blockNr : Z) : res callResponse :=
  let? req := call_request args blockNr in
  let? r := q_EthCall (RpcBlock.ContextWithHeight (RpcBlock.Int64 blockNr)) req in
  let? _ := handleRevertError (cl_VmError r) (cl_Ret r) in
  Ok r.

(** ** Sending *)

Definition with_fees (gasPrice maxFee maxPriority : option Z) (args : TransactionArgs) : TransactionArgs :=
  mkTransactionArgs (a_From args) (a_To args) (a_Gas args) gasPrice maxFee maxPriority (a_Value args) (a_Nonce args) (a_Data args)
    (a_Input args) (a_AccessList args) (a_ChainID args).
Definition with_value (v : Z) (args : TransactionArgs) : TransactionArgs :=
  mkTransactionArgs (a_From args) (a_To args) (a_Gas args) (a_GasPrice args) (a_MaxFeePerGas args) (a_MaxPriorityFeePerGas args) (Some v)
    (a_Nonce args) (a_Data args) (a_Input args) (a_AccessList args) (a_ChainID args).
Definition with_gas (g : Z) (args : TransactionArgs) : TransactionArgs :=
  mkTransactionArgs (a_From args) (a_To args) (Some g) (a_GasPrice args) (a_MaxFeePerGas args) (a_MaxPriorityFeePerGas args) (a_Value args)
    (a_Nonce args) (a_Data args) (a_Input args) (a_AccessList args) (a_ChainID args).
Definition with_chainID (c : option Z) (args : TransactionArgs) : TransactionArgs :=
  mkTransactionArgs (a_From args) (a_To args) (a_Gas args) (a_GasPrice args) (a_MaxFeePerGas args) (a_MaxPriorityFeePerGas args) (a_Value args)
    (a_Nonce args) (a_Data args) (a_Input args) (a_AccessList args) c.

(** the prices of a transaction, from what was given and the latest base fee *)
Definition default_fees (baseFee : option Z) (args : TransactionArgs) : res TransactionArgs :=
  match a_MaxPriorityFeePerGas args, a_MaxFeePerGas args with
  | Some tip, Some cap => if cap <? tip then Err ErrFeeBelowTip else Ok args
  | tip, cap =>
      match baseFee, a_GasPrice args with
      | Some base, None =>
          let? tip := match tip with Some tip => Ok tip | None => SuggestGasTipCap (Some base) end in
          let cap := match cap with Some cap => cap | None => tip + base * 2 end in
          if cap <? tip then Err ErrFeeBelowTip else Ok (with_fees None (Some cap) (Some tip) args)
      | _, gasPrice =>
          match cap, tip with
          | None, None =>
              match gasPrice with
              | Some _ => Ok args
              | None =>
                  let? price := SuggestGasTipCap baseFee in
                  Ok (with_fees (Some (match baseFee with Some b => price + b | None => price end)) None None args)
              end
          | _, _ => Err ErrLondonInactive
          end
      end
  end.

(** the arguments of the estimate of the gas of a transaction *)
Definition estimate_args (args : TransactionArgs) : TransactionArgs :=
  mkTransactionArgs (a_From args) (a_To args) (a_Gas args) (a_GasPrice args) (a_MaxFeePerGas args) (a_MaxPriorityFeePerGas args) (a_Value args)
    (a_Nonce args) (match a_Input args with Some i => Some i | None => a_Data args end) None (a_AccessList args) (a_ChainID args).

Definition SetTxDefaults (args : TransactionArgs) : res TransactionArgs :=
  if (match a_GasPrice args with Some _ => true | None => false end) &&
     (match a_MaxFeePerGas args, a_MaxPriorityFeePerGas args with None, None => false | _, _ => true end) then Err ErrBothGasPrices
  else
    match CurrentHeader with
    | Panic e => Panic e
    | Err _ => Err ErrNilHeader
    | Ok head =>
        let? args := default_fees (eh_BaseFee head) args in
        let args := match a_Value args with Some _ => args | None => with_value 0 args end in
        let? args :=
          match a_Nonce args with
          | Some _ => Ok args
          | None =>
              let? from := deref (a_From args) in
              match getAccountNonce from true 0 with
              | Panic e => Panic e
              | Ok nonce => Ok (with_nonce nonce args)
              | Err _ => Ok (with_nonce 0 args)
              end
          end in
        if match a_Data args, a_Input args with Some d, Some i => negb (bool_decide (d = i)) | _, _ => false end then Err ErrDataInput
        else if match a_To args with
                | None => let input := match a_Data args with Some d => d | None => default [] (a_Input args) end in (length input =? 0)%nat
                | Some _ => false
                end then Err ErrNoCreationData
        else
          let? args := match a_Gas args with
                       | Some _ => Ok args
                       | None => let? estimated := EstimateGas (estimate_args args) (Some (RpcBlock.NewBlockNumber 0)) in Ok (with_gas estimated args)
                       end in
          Ok (match a_ChainID args with Some _ => args | None => with_chainID be_chainID args end)
    end.

(** [ToTransaction] of [tx_args.go]: the fields are those that [SetTxDefaults] has
    set *)
Definition txHashHex (d : ethTxData) : string := hash_String (et_Hash (eth_NewTx d)).

Definition ToTransaction (args : TransactionArgs) : res MsgEthereumTx :=
  let? chainID := TxBuild.int_field (a_ChainID args) in
  let nonce := default 0 (a_Nonce args) in
  let gas := default 0 (a_Gas args) in
  let? gasPrice := TxBuild.int_field (a_GasPrice args) in
  let? maxFeePerGas := TxBuild.int_field (a_MaxFeePerGas args) in
  let? maxPriorityFeePerGas := TxBuild.int_field (a_MaxPriorityFeePerGas args) in
  let? value := TxBuild.int_field (a_Value args) in
  let to := hex_field (a_To args) in
  let data := GetData args in
  let t :=
    match a_MaxFeePerGas args, a_AccessList args with
    | Some _, al =>
        TxDynamicFee (Dynamic.mkDynamicFeeTx chainID nonce maxPriorityFeePerGas maxFeePerGas gas to value data
                        (Some (default [] (NewAccessList al))) [] [] [])
    | None, Some al => TxAccessList (AccessListT.mkAccessListTx chainID nonce gasPrice gas to value data (NewAccessList (Some al)) [] [] [])
    | None, None => TxLegacy (Legacy.mkLegacyTx nonce gasPrice gas to value data [] [] [])
    end in
  Ok (mkMsgEthereumTx (Some t) 0 (txHashHex (AsEthereumData t)) (hex_field (a_From args))).

(** what is sent to the mempool, and the hash with the error *)
Definition sendResult : Type := option sdkTx * (hash * res unit).

Definition no_send (e : error) : sendResult := (None, (0, Err e)).
Definition send_panic (e : error) : sendResult := (None, (0, Panic e)).

(** [BroadcastTx]: an error of the response counts before the error of the call *)
Definition broadcast (txBytes : bytes) : res unit :=
  match BroadcastTx txBytes with
  | (Some code, err) => if negb (code =? 0) then Err ErrABCI else match err with Some e => Err e | None => Ok () end
  | (None, Some e) => Err e
  | (None, None) => Ok ()
  end.

(** a result of a step before the broadcast *)
Definition send_bind {A} (r : res A) (k : A -> sendResult) : sendResult :=
  match r with Ok a => k a | Err e => no_send e | Panic e => send_panic e end.

(** [basic]: what the [ValidateBasic] of the SDK answers for the transaction that
    is built *)
Definition SendRawTransaction (cfg : EvmCoinInfo) (basic : option error) (data : bytes) : sendResult :=
  send_bind (tx_UnmarshalBinary data) (fun tx =>
  if negb UnprotectedAllowed && negb (et_Protected tx) then no_send ErrUnprotected
  else
    send_bind (FromEthereumTx (mkMsgEthereumTx None 0 "" "") tx (hash_String (et_Hash tx))) (fun ethereumTx =>
    send_bind (ValidateBasic txHashHex ethereumTx) (fun _ =>
    let '(ethereumTx, built) := TxBuild.BuildTx cfg (GetEVMCoinDenom cfg) TxBuild.NewTxBuilder true basic ethereumTx in
    send_bind built (fun cosmosTx =>
    send_bind (TxEncoder cosmosTx) (fun txBytes =>
    send_bind (deref (AsTransaction ethereumTx)) (fun t => (Some cosmosTx, (et_Hash t, broadcast txBytes)))))))).

(** [SendTransaction] of [sign_tx.go] *)
Definition SendTransaction (cfg : EvmCoinInfo) (basic : option error) (args : TransactionArgs) : sendResult :=
  if negb AllowInsecureUnlock then no_send ErrUnlock
  else if negb (Keyring_has (GetFrom args)) then no_send ErrNoKey
  else if match a_ChainID args with Some c => negb (bool_decide (be_chainID = Some c)) | None => false end then no_send ErrChainIDMismatch
  else
    send_bind (SetTxDefaults args) (fun args =>
    send_bind BlockNumber (fun _ =>
    send_bind (ToTransaction args) (fun msg =>
    send_bind (TxBuild.Sign Keyring_sign msg) (fun msg =>
    send_bind (ValidateBasic txHashHex msg) (fun _ =>
    let '(msg, built) := TxBuild.BuildTx cfg (GetEVMCoinDenom cfg) TxBuild.NewTxBuilder true basic msg in
    send_bind built (fun tx =>
    send_bind (TxEncoder tx) (fun txBytes =>
    send_bind (deref (AsTransaction msg)) (fun ethTx =>
    if negb UnprotectedAllowed && negb (et_Protected ethTx) then no_send ErrUnprotected
    else (Some tx, (et_Hash ethTx, broadcast txBytes)))))))))).

(** the loop of [Resend] over the mempool, which looks for a transaction with the
    hash zero *)
Fixpoint resend_loop (cfg : EvmCoinInfo) (basic : option error) (args : TransactionArgs) (gasPrice gasLimit : option Z) (matchTx : ethTransaction)
    (pending : list decodedTx) : sendResult :=
  match pending with
  | [] => no_send ErrTxNotFoundInPool
  | tx :: pending =>
      match UnwrapEthereumMsg tx 0 with
      | Panic e => send_panic e
      | Err _ => resend_loop cfg basic args gasPrice gasLimit matchTx pending
      | Ok p =>
          send_bind (deref (AsTransaction p)) (fun pTx =>
          match et_Sender (LatestSignerForChainID (Some ConfigChainID)) pTx with
          | Panic e => send_panic e
          | Err _ => resend_loop cfg basic args gasPrice gasLimit matchTx pending
          | Ok pFrom =>
              send_bind (deref (a_From args)) (fun from =>
              if (pFrom =? from) && (signing_Hash pTx =? signing_Hash matchTx) then
                let args := match gasPrice with
                            | Some g => if negb (g =? 0) then with_fees (Some g) (a_MaxFeePerGas args) (a_MaxPriorityFeePerGas args) args else args
                            | None => args
                            end in
                let args := match gasLimit with Some g => if negb (g =? 0) then with_gas g args else args | None => args end in
                SendTransaction cfg basic args
              else resend_loop cfg basic args gasPrice gasLimit matchTx pending)
          end)
      end
  end.

Definition Resend (cfg : EvmCoinInfo) (basic : option error) (args : TransactionArgs) (gasPrice gasLimit : option Z) : sendResult :=
  match a_Nonce args with
  | None => no_send ErrMissingNonce
  | Some _ =>
      send_bind (SetTxDefaults args) (fun args =>
      send_bind (ToTransaction args) (fun msg =>
      send_bind (deref (AsTransaction msg)) (fun matchTx =>
      send_bind (deref (match gasPrice with Some p => Some p | None => et_GasPrice matchTx end)) (fun price =>
      let gas := match gasLimit with Some g => g | None => et_Gas matchTx end in
      send_bind (RpcFees.CheckTxFee price gas RPCTxFeeCap) (fun _ =>
      send_bind PendingTransactions (fun pending => resend_loop cfg basic args gasPrice gasLimit matchTx pending))))))
  end.

(** ** Signatures ([sign_tx.go]) *)

Definition RecoveryIDOffset : nat := 64.

(** the recovery identifier becomes 27 or 28 *)
Definition bump_recovery (signature : bytes) : res bytes :=
  match signature !! RecoveryIDOffset with
  | None => Panic PanicIndex
  | Some v => Ok (<[RecoveryIDOffset := wrap8 (v + 27)]> signature)
  end.

Definition Sign (a : address) (data : bytes) : res bytes :=
  if negb (Keyring_has a) then Err ErrNoKey
  else let? signature := Keyring_SignByAddress a data in bump_recovery signature.

(** [sigHash] is what go-ethereum computes of the typed data *)
Definition SignTypedData (a : address) (sigHash : res bytes) : res bytes :=
  if negb (Keyring_has a) then Err ErrNoKey
  else let? sigHash := sigHash in let? signature := Keyring_SignByAddress a sigHash in bump_recovery signature.
End Calls.
End RpcCalls.
