(* ===== verification/RpcCallsTheorems.v ===== *)
(** * Properties of the calls and of the sending of transactions *)

From stdpp Require Import base gmap list numbers strings.
From Stdlib Require Import ZArith Lia SpecFloat.
From S2P Require Import Prelude SdkMath Scaling AccessList StateDB StateDBCommit VmStore Concrete FeeMarket TxData TxDataTheorems StateTransition StateTransitionTheorems VmParams VmQueries Ante TxBuild RpcEvents Indexer IndexerServiceTheorems RpcFilters RpcBlock RpcBackend RpcConcrete RpcFees RpcFeesTheorems RpcCalls.

Module RpcCallsTheorems.
Import RpcBackend RpcFees VmQueries RpcCalls.

Section Theorems.
Context `{!SdkMath} `{!EthHex} `{!EthSigner} `{!RpcBlock.HexUtil} `{!TxCodec} `{!EthTx} `{!RpcEnv} `{!FeeEnv} `{!CallEnv}.

(** ** The pending nonce *)

(** the messages of a transaction of the mempool that count: up to the first that
    is not Ethereum's, those of the sender *)
Fixpoint sent_by (a : address) (chainID : Z) (msgs : list sdkMsg) : nat :=
  match msgs with
  | EthMsg m :: msgs => (match msg_GetSender m chainID with Ok s => if (s =? a)%Z then 1 else 0 | _ => 0 end + sent_by a chainID msgs)%nat
  | _ => 0%nat
  end.

Definition pending_of (a : address) (chainID : Z) (txs : list decodedTx) : nat :=
  fold_right (fun tx acc => (sent_by a chainID (d_Msgs tx) + acc)%nat) 0%nat txs.

Lemma count_msgs_spec a chainID msgs : forall n n',
  be_chainID = Some chainID -> count_msgs msgs a n = Ok n' -> wrap64 n' = wrap64 (n + Z.of_nat (sent_by a chainID msgs)) /\ (0 <= n <= max_uint64 -> 0 <= n' <= max_uint64).
Proof.
  assert (Hrefl : forall n n' : Z, Ok n = Ok n' -> wrap64 n' = wrap64 (n + Z.of_nat 0) /\ (0 <= n <= max_uint64 -> 0 <= n' <= max_uint64)).
  { intros n n' [= <-]. split; [by rewrite Z.add_0_r|done]. }
  induction msgs as [|[m|] msgs IH]; intros n n' Hc E; cbn [count_msgs sent_by] in *; try (by apply Hrefl).
  rewrite Hc in E. cbn [mbind res_bind deref] in E. destruct (msg_GetSender m chainID) as [s|e|e]; [|by apply IH|done].
  destruct (s =? a); [|by apply IH]. apply IH in E as [E Hr]; [|done]. split; [|intros _; apply Hr, wrap64_range].
  rewrite E. unfold wrap64. rewrite Zplus_mod_idemp_l. f_equal. lia.
Qed.

(** The pending nonce of an account is its sequence and one for each of its
    messages in the mempool. *)
Theorem pending_nonce_counts a h chainID seq txs n :
  be_chainID = Some chainID -> q_AccountSequence (RpcBlock.ContextWithHeight h) a = Ok seq -> 0 <= seq <= max_uint64 -> PendingTransactions = Ok txs ->
  getAccountNonce a true h = Ok n -> n = wrap64 (seq + Z.of_nat (pending_of a chainID txs)) /\ getAccountNonce a false h = Ok seq.
Proof.
  intros Hc Hq Hs Hp. unfold getAccountNonce. rewrite Hq, Hp. cbn [negb]. intros E. split; [|done]. clear Hq Hp.
  assert (Hg : wrap64 n = wrap64 (seq + Z.of_nat (pending_of a chainID txs)) /\ 0 <= n <= max_uint64).
  { revert seq Hs E. induction txs as [|tx txs IH]; intros seq Hs E; cbn [count_pending pending_of fold_right] in *.
    - injection E as <-. by rewrite Z.add_0_r.
    - apply bind_Ok_inv in E as (n1 & E1 & E). destruct (count_msgs_spec _ _ _ _ _ Hc E1) as [Hw Hr]. destruct (IH n1 (Hr Hs) E) as [-> ?]. split; [|done].
      fold (pending_of a chainID txs). rewrite Nat2Z.inj_add, Z.add_assoc. unfold wrap64 in *.
      rewrite <-(Zplus_mod_idemp_l n1), Hw. by rewrite Zplus_mod_idemp_l. }
  destruct Hg as [Hg Hr]. by rewrite wrap64_small in Hg.
Qed.

(** ** Sending a transaction *)

Lemma send_bind_Some {A} (r : res A) (k : A -> sendResult) tx hr : send_bind r k = (Some tx, hr) -> exists a, r = Ok a /\ k a = (Some tx, hr).
Proof. destruct r; cbn; [eauto|done|done]. Qed.

Lemma hash_String_inj h k : hash_ok h -> hash_ok k -> hash_String h = hash_String k -> h = k.
Proof. intros Hh Hk E. by rewrite <-(HexToHash_String h Hh), <-(HexToHash_String k Hk), E. Qed.

(** C35: What [eth_sendRawTransaction] sends to the mempool is the transaction it
    was given and passes the checks of the ante handler on it: the Cosmos
    transaction has one message, made of the decoded transaction, that passes its
    validation, its fields are those [ValidateTx] asks for, its fee and gas are
    those of the message, an unprotected transaction is sent only when the node
    allows it, and the hash that is answered is that of the transaction. *)
Theorem sent_raw_tx_is_accepted cfg basic data tx h r :
  SendRawTransaction cfg basic data = (Some tx, (h, r)) -> basic = None \/ basic = Some ErrNoSignatures ->
  (forall t, tx_UnmarshalBinary data = Ok t -> 0 <= et_Gas t) ->
  exists ethTx m t f info,
    tx_UnmarshalBinary data = Ok ethTx /\ (UnprotectedAllowed = true \/ et_Protected ethTx = true) /\
    NewTxDataFromTx ethTx = Ok t /\ tx_Msgs tx = [EthMsg m] /\ msg_Data m = Some t /\ ValidateBasic txHashHex m = Ok () /\
    ValidateTx tx = Ok info /\ tx_Fee t = Ok f /\ Ante.CheckTxFee cfg (Some info) f (GetGas t) = Ok () /\
    h = et_Hash ethTx /\ msg_Hash m = hash_String h.
Proof.
  intros E Hb Hg. unfold SendRawTransaction in E. apply send_bind_Some in E as (ethTx & Hu & E). specialize (Hg _ Hu).
  destruct (negb UnprotectedAllowed && negb (et_Protected ethTx)) eqn:Hp; [done|].
  apply send_bind_Some in E as (m0 & Hm0 & E). apply send_bind_Some in E as ([] & Hv & E).
  unfold FromEthereumTx in Hm0. apply bind_Ok_inv in Hm0 as (t & Ht & [= <-]). cbn [msg_Size msg_From] in *.
  assert (Hgas : 0 <= msg_GetGas (mkMsgEthereumTx (Some t) 0 (hash_String (et_Hash ethTx)) "")).
  { cbn [msg_GetGas msg_Data]. unfold NewTxDataFromTx in Ht. destruct (et_Type ethTx); apply bind_Ok_inv in Ht as (d & Hd & [= <-]); cbn.
    - unfold Legacy.NewLegacyTx in Hd. apply bind_Ok_inv in Hd as (? & _ & Hd). by apply bind_Ok_inv in Hd as (? & _ & [= <-]).
    - unfold AccessListT.newAccessListTx in Hd. apply bind_Ok_inv in Hd as (? & _ & Hd). apply bind_Ok_inv in Hd as (? & _ & Hd).
      unfold AccessListT.SetSignatureValues in Hd. by apply bind_Ok_inv in Hd as (? & _ & [= <-]).
    - unfold Dynamic.NewDynamicFeeTx in Hd. apply bind_Ok_inv in Hd as (? & _ & Hd). apply bind_Ok_inv in Hd as (? & _ & Hd).
      apply bind_Ok_inv in Hd as (? & _ & Hd). unfold Dynamic.SetSignatureValues in Hd. by apply bind_Ok_inv in Hd as (? & _ & [= <-]). }
  destruct (TxBuild.built_tx_is_accepted txHashHex cfg _ basic Hv Hgas Hb) as (m' & tx' & t' & f & info & Hbuild & Ht' & Hf & Hvt & Hcf & _ & Hmsgs & Hd & Hv').
  rewrite Hbuild in E. injection Ht' as <-. apply send_bind_Some in E as (tx0 & [= <-] & E). apply send_bind_Some in E as (bz & _ & E).
  apply send_bind_Some in E as (et & Het & [= <- <- <-]). unfold AsTransaction, deref in Het. rewrite Hd in Het. injection Het as <-.
  exists ethTx, m', t, f, info. assert (Hh : msg_Hash m' = hash_String (et_Hash (eth_NewTx (AsEthereumData t)))).
  { unfold ValidateBasic in Hv'. apply bind_Ok_inv in Hv' as ([] & _ & Hv'). rewrite Hd in Hv'. clear -Hv'.
    do 3 (match type of Hv' with (if ?b then _ else _) = _ => destruct b; [done|] end). apply bind_Ok_inv in Hv' as ([] & _ & Hv').
    by destruct (String.eqb_spec (msg_Hash m') (txHashHex (AsEthereumData t))). }
  assert (Hh0 : msg_Hash m' = hash_String (et_Hash ethTx)).
  { unfold TxBuild.BuildTx in Hbuild. cbn [TxBuild.tb_isExtensionBuilder TxBuild.NewTxBuilder negb msg_Data] in Hbuild.
    destruct (BuildTx_fees _ _ _); cbn [st_bind] in Hbuild; by injection Hbuild as <- _. }
  assert (Heq : et_Hash ethTx = et_Hash (eth_NewTx (AsEthereumData t))) by (apply hash_String_inj; [apply et_Hash_ok..|congruence]).
  split_and!; try done. apply andb_false_iff in Hp as [Hp|Hp]; apply negb_false_iff in Hp; [by left|by right].
Qed.

(** ** Defaults *)

(** the prices are complete: a legacy price, or a fee cap not below the tip *)
Definition fees_complete (args : TransactionArgs) : Prop :=
  (exists p, a_GasPrice args = Some p /\ a_MaxFeePerGas args = None /\ a_MaxPriorityFeePerGas args = None) \/
  (exists cap tip, a_GasPrice args = None /\ a_MaxFeePerGas args = Some cap /\ a_MaxPriorityFeePerGas args = Some tip /\ tip <= cap).

Definition both_styles (args : TransactionArgs) : bool :=
  (match a_GasPrice args with Some _ => true | None => false end) &&
  (match a_MaxFeePerGas args, a_MaxPriorityFeePerGas args with None, None => false | _, _ => true end).

Lemma default_fees_complete baseFee args args' :
  both_styles args = false -> default_fees baseFee args = Ok args' ->
  fees_complete args' /\ default_fees baseFee args' = Ok args' /\ both_styles args' = false /\
  a_From args' = a_From args /\ a_To args' = a_To args /\ a_Gas args' = a_Gas args /\ a_Value args' = a_Value args /\ a_Nonce args' = a_Nonce args /\
  a_Data args' = a_Data args /\ a_Input args' = a_Input args /\ a_ChainID args' = a_ChainID args /\ a_AccessList args' = a_AccessList args.
Proof.
  destruct args as [from to gas gp cap tip v n d i al c]. unfold default_fees, both_styles, fees_complete. cbn. intros Hb E.
  destruct tip as [tip|], cap as [cap|].
  - destruct (Z.ltb_spec cap tip); [done|]. injection E as <-. cbn. destruct gp; [done|]. destruct (Z.ltb_spec cap tip); [lia|]. split_and!; try done. right. eauto 10.
  - destruct baseFee as [b|]; [|by destruct gp]. destruct gp; [done|]. cbn in E. destruct (Z.ltb_spec (tip + b * 2) tip); [done|]. injection E as <-. cbn.
    destruct (Z.ltb_spec (tip + b * 2) tip); [lia|]. split_and!; try done. right. eauto 10.
  - destruct baseFee as [b|]; [|by destruct gp]. destruct gp; [done|]. apply bind_Ok_inv in E as (tip & _ & E). destruct (Z.ltb_spec cap tip); [done|]. injection E as <-. cbn.
    destruct (Z.ltb_spec cap tip); [lia|]. split_and!; try done. right. eauto 10.
  - destruct gp as [p|].
    + assert (E' : Ok (mkTransactionArgs from to gas (Some p) None None v n d i al c) = Ok args') by (by destruct baseFee). injection E' as <-. cbn.
      split_and!; try done; try (by destruct baseFee). left. eauto 10.
    + destruct baseFee as [b|].
      * apply bind_Ok_inv in E as (tip & _ & E). destruct (Z.ltb_spec (tip + b * 2) tip); [done|]. injection E as <-. cbn.
        destruct (Z.ltb_spec (tip + b * 2) tip); [lia|]. split_and!; try done. right. eauto 10.
      * apply bind_Ok_inv in E as (price & _ & [= <-]). cbn. split_and!; try done. left. eauto 10.
Qed.

(** [SetTxDefaults] completes a transaction: the gas, the value, the nonce and the
    prices are set, the addresses and the data are those given. Doing it again, as
    [Resend] does through [SendTransaction], changes nothing. *)
Theorem defaults_complete_and_idempotent args args' :
  SetTxDefaults args = Ok args' -> is_Some be_chainID ->
  fees_complete args' /\ is_Some (a_Gas args') /\ is_Some (a_Value args') /\ is_Some (a_Nonce args') /\ is_Some (a_ChainID args') /\
  a_From args' = a_From args /\ a_To args' = a_To args /\ a_Data args' = a_Data args /\ a_Input args' = a_Input args /\ a_AccessList args' = a_AccessList args /\
  SetTxDefaults args' = Ok args'.
Proof.
  intros E [chainID Hc]. unfold SetTxDefaults in E. fold (both_styles args) in E. destruct (both_styles args) eqn:Hb; [done|].
  destruct CurrentHeader as [head|e|e] eqn:Hh; [|done..]. apply bind_Ok_inv in E as (a1 & E1 & E).
  destruct (default_fees_complete _ _ _ Hb E1) as (Hf & Hidem & Hb1 & F1 & F2 & _ & _ & _ & F6 & F7 & _ & F9). rewrite <-F1, <-F2, <-F6, <-F7, <-F9.
  clear E1 Hb F1 F2 F6 F7 F9 args. destruct a1 as [from to gas gp cap tip v n d i al c].
  set (v' := default 0 v). assert (Ev : match v with Some _ => mkTransactionArgs from to gas gp cap tip v n d i al c
    | None => with_value 0 (mkTransactionArgs from to gas gp cap tip v n d i al c) end = mkTransactionArgs from to gas gp cap tip (Some v') n d i al c) by (by destruct v).
  cbn [a_Value] in E. cbv zeta in E. rewrite Ev in E. clear Ev. cbn [a_Nonce] in E. apply bind_Ok_inv in E as (a2 & E2 & E).
  assert (Hn : exists n', a2 = mkTransactionArgs from to gas gp cap tip (Some v') (Some n') d i al c).
  { destruct n as [n|]; [injection E2 as <-; eauto|]. cbn [a_From] in E2. apply bind_Ok_inv in E2 as (fa & _ & E2). destruct (getAccountNonce fa true 0); [| |done]; injection E2 as <-; eexists; reflexivity. }
  destruct Hn as [n' ->]. clear E2. cbn [a_Data a_Input a_To a_Gas] in E. destruct (match d with Some _ => _ | None => _ end) eqn:Hdi; [done|].
  destruct (match to with Some _ => _ | None => _ end) eqn:Hto; [done|]. apply bind_Ok_inv in E as (a3 & E3 & E).
  assert (Hg : exists g', a3 = mkTransactionArgs from to (Some g') gp cap tip (Some v') (Some n') d i al c).
  { destruct gas as [g|]; [injection E3 as <-; eauto|]. apply bind_Ok_inv in E3 as (g' & _ & [= <-]). by exists g'. }
  destruct Hg as [g' ->]. clear E3. cbn [a_ChainID] in E.
  assert (Hc' : exists c', args' = mkTransactionArgs from to (Some g') gp cap tip (Some v') (Some n') d i al (Some c')).
  { destruct c as [c|]; injection E as <-; [eauto|]. exists chainID. unfold with_chainID. cbn. by rewrite Hc. }
  destruct Hc' as [c' ->]. clear E. cbn [a_Gas a_Value a_Nonce a_ChainID a_From a_To a_Data a_Input a_AccessList].
  split_and!; try done; try eauto.
  unfold SetTxDefaults. match goal with |- context [if ?b then Err ErrBothGasPrices else _] => change b with (both_styles (mkTransactionArgs from to gas gp cap tip v n d i al c)) end.
  rewrite Hb1, Hh. assert (Hidem' : default_fees (eh_BaseFee head) (mkTransactionArgs from to (Some g') gp cap tip (Some v') (Some n') d i al (Some c')) =
    Ok (mkTransactionArgs from to (Some g') gp cap tip (Some v') (Some n') d i al (Some c'))).
  { clear -Hf. destruct Hf as [(p & H1 & H2 & H3)|(cap' & tip' & H1 & H2 & H3 & Hle)]; cbn in H1, H2, H3; subst.
    - cbn. by destruct (eh_BaseFee head).
    - cbn. by destruct (Z.ltb_spec cap' tip'); [lia|]. }
  rewrite Hidem'. cbn [mbind res_bind a_Value a_Nonce a_Data a_Input a_To a_Gas a_ChainID]. by rewrite Hdi, Hto.
Qed.

(** ** Exceptions *)

(** The gas of a transaction without a gas limit is estimated on the state of the
    first block: the block number 0 is the first block and not the latest. A node
    that cannot answer for the first block, as a pruned node, cannot complete a
    transaction. *)
Theorem default_gas_is_estimated_at_first_block args e :
  (forall a, EstimateGas a (Some (RpcBlock.NewBlockNumber 0)) =
     let? req := call_request a 1 in
     let? r := q_EstimateGas (Some 1) req in
     let? _ := handleRevertError (cl_VmError r) (cl_Ret r) in Ok (cl_Gas r)) /\
  ((forall req, q_EstimateGas (Some 1) req = Err e) -> a_Gas args = None -> forall args', SetTxDefaults args <> Ok args').
Proof.
  assert (Hest : forall a, EstimateGas a (Some (RpcBlock.NewBlockNumber 0)) =
     let? req := call_request a 1 in let? r := q_EstimateGas (Some 1) req in
     let? _ := handleRevertError (cl_VmError r) (cl_Ret r) in Ok (cl_Gas r)) by done.
  split; [done|]. intros Hq Hg args' E. unfold SetTxDefaults in E. fold (both_styles args) in E. destruct (both_styles args) eqn:Hb; [done|].
  destruct CurrentHeader as [head|x|x]; [|done..]. apply bind_Ok_inv in E as (a1 & E1 & E).
  destruct (default_fees_complete _ _ _ Hb E1) as (_ & _ & _ & _ & _ & Hg1 & _). rewrite Hg in Hg1. clear E1.
  set (a2 := match a_Value a1 with Some _ => a1 | None => with_value 0 a1 end) in E. assert (Hg2 : a_Gas a2 = None) by (unfold a2; by destruct (a_Value a1)).
  clearbody a2. apply bind_Ok_inv in E as (a3 & E3 & E). assert (Hg3 : a_Gas a3 = None).
  { destruct (a_Nonce a2); [by injection E3 as <-|]. apply bind_Ok_inv in E3 as (fa & _ & E3). destruct (getAccountNonce fa true 0); [| |done]; by injection E3 as <-. }
  destruct (match a_Data a3 with Some _ => _ | None => _ end); [done|]. destruct (match a_To a3 with Some _ => _ | None => _ end); [done|].
  rewrite Hg3, Hest in E. apply bind_Ok_inv in E as (a4 & E4 & _). apply bind_Ok_inv in E4 as (g & E4 & _). apply bind_Ok_inv in E4 as (req & _ & E4).
  by rewrite Hq in E4.
Qed.

Lemma unwrap_zero msgs m : (forall t, et_Hash t <> 0) -> unwrap_msgs msgs 0 <> Ok m.
Proof.
  intros Hz. induction msgs as [|[m'|] msgs IH]; cbn [unwrap_msgs]; [done| |done]. destruct (deref (AsTransaction m')) as [t|x|x]; cbn [mbind res_bind]; [|done..].
  destruct (Z.eqb_spec (et_Hash t) 0) as [Ht|]; [by apply Hz in Ht|done].
Qed.

(** [eth_resend] never sends anything: it looks in the mempool for a transaction
    with the hash zero. *)
Theorem resend_never_sends cfg basic args gasPrice gasLimit :
  (forall t, et_Hash t <> 0) -> (Resend cfg basic args gasPrice gasLimit).1 = None.
Proof.
  intros Hz. assert (Hb : forall A (r : res A) k, (forall a, (k a).1 = None) -> (send_bind r k).1 = None) by (intros A [a|x|x] k Hk; cbn; [apply Hk|done|done]).
  unfold Resend. destruct (a_Nonce args); [|done]. repeat (apply Hb; intros ?). clear -Hz.
  match goal with |- (resend_loop _ _ ?a _ _ ?t ?p).1 = None => generalize a, t; induction p as [|tx p IH]; intros a' t'; [done|] end.
  cbn [resend_loop]. unfold UnwrapEthereumMsg. destruct (unwrap_msgs (d_Msgs tx) 0) as [m|x|x] eqn:Hu; [by apply unwrap_zero in Hu|by apply IH|done].
Qed.

(** A signature leaves with the recovery identifier of the yellow paper. *)
Theorem signature_recovery_id a data signature v :
  Keyring_has a = true -> Keyring_SignByAddress a data = Ok signature -> signature !! RecoveryIDOffset = Some v -> v = 0 \/ v = 1 ->
  exists s, Sign a data = Ok s /\ s !! RecoveryIDOffset = Some (v + 27) /\ forall i, i <> RecoveryIDOffset -> s !! i = signature !! i.
Proof.
  intros Hk Hs Hv Hr. unfold Sign. rewrite Hk, Hs. cbn [negb mbind res_bind]. unfold bump_recovery. rewrite Hv. eexists. split; [done|].
  split; [|intros i Hi; by apply list_lookup_insert_ne].
  etransitivity; [by eapply list_lookup_insert_eq, lookup_lt_Some|]. f_equal. destruct Hr as [->| ->]; reflexivity.
Qed.
End Theorems.

(** ** A transaction that is sent *)

Import RpcConcrete RpcFeesTheorems.

#[local] Instance rw_calls : CallEnv := {|
  q_AccountSequence _ _ := Ok 4;
  EnsureExists _ := Ok ();
  q_Code _ _ := Ok [];
  q_Storage _ _ _ := Ok "0x0"%string;
  q_Balance _ _ := Ok "0"%string;
  q_Account _ _ := Ok ("0"%string, "0x0"%string, 4);
  q_GetProof_storage _ _ _ := Ok ([], None);
  q_GetProof_account _ _ := Ok None;
  hex_Encode _ := "0x"%string;
  q_EstimateGas _ _ := Ok (mkCallResponse 21000 [] "");
  q_EthCall _ _ := Ok (mkCallResponse 21000 [] "");
  RPCGasCap := 25000000;
  RPCTxFeeCap := f64_of_Z 1;
  UnprotectedAllowed := false;
  AllowInsecureUnlock := false;
  tx_UnmarshalBinary _ := Ok dyn_tx;
  TxEncoder _ := Ok [1];
  BroadcastTx _ := (Some 0, None);
  signing_Hash _ := 1;
  Keyring_has _ := true;
  Keyring_sign _ _ := Err "locked";
  Keyring_SignByAddress _ _ := Err "locked";
  UnpackRevert _ := None
|}.

Definition rw_cfg : EvmCoinInfo := mkEvmCoinInfo "utac" "tac" 6.
Definition rw_send : sendResult := SendRawTransaction rw_cfg (Some ErrNoSignatures) [2; 1].
Definition rw_sent : sdkTx := match rw_send.1 with Some tx => tx | None => mkSdkTx false None false None None 0 None [] end.

Lemma sent_raw_tx_is_accepted_witness :
  exists info, ValidateTx rw_sent = Ok info /\ rw_send.2 = (et_Hash dyn_tx, Ok ()).
Proof.
  assert (E : rw_send = (Some rw_sent, (et_Hash dyn_tx, Ok ()))) by (vm_compute; reflexivity).
  destruct (sent_raw_tx_is_accepted rw_cfg (Some ErrNoSignatures) [2; 1] rw_sent (et_Hash dyn_tx) (Ok ()))
    as (ethTx & m & t & f & info & _ & _ & _ & _ & _ & _ & Hv & _).
  - exact E.
  - right. reflexivity.
  - intros t E'. injection E' as <-. vm_compute. discriminate.
  - exists info. split; [exact Hv|]. rewrite E. reflexivity.
Defined.
End RpcCallsTheorems.
