(* ===== verification/VmTracing.v ===== *)
(** * Tracing of transactions ([x/vm/keeper/grpc_query.go], [rpc/backend/tracing.go],
    [rpc/namespaces/ethereum/debug/api.go])

    A trace replays the transactions of a block from the state before it. The
    query [TraceTx] replays the predecessors of one transaction and traces it
    without committing; [TraceBlock] traces and commits every transaction. The
    RPC collects the messages and the header of the block for them. Tracers of
    go-ethereum observe a run and do not change it. *)

From stdpp Require Import base gmap list numbers strings.
From Stdlib Require Import ZArith Lia.
From S2P Require Import Prelude SdkMath Scaling AccessList StateDB StateDBCommit VmStore FeeMarket TxData StateTransition VmParams Ante RpcEvents Indexer RpcFilters RpcBlock RpcBackend Configurator VmGenesis VmQueries.

Module VmTracing.
Import RpcBackend.

Definition ErrNegativeLimit : error := "output limit cannot be negative".
Definition ErrGenesis : error := "genesis is not traceable".
Definition ErrTxCount : error := "tx count is overfloing".
Definition ErrNotIncluded : error := "transaction not included in block".
Definition ErrTxType : error := "invalid transaction type".
Definition ErrNoBlock : error := "block not found".

(** ** Requests *)

Record TraceConfig := mkTraceConfig {
  tcf_Tracer : string;
  tcf_Timeout : string;
  tcf_Reexec : Z;
  tcf_DisableStack : bool;
  tcf_DisableStorage : bool;
  tcf_Debug : bool;
  tcf_Limit : Z;
  tcf_Overrides : option Configurator.ChainConfig;
  tcf_EnableMemory : bool;
  tcf_EnableReturnData : bool;
  tcf_TracerJsonConfig : string
}.

Definition empty_TraceConfig : TraceConfig := mkTraceConfig "" "" 0 false false false 0 None false false "".

(** what both requests say of the block *)
Record traceBlockInfo := mkTraceBlockInfo {
  ti_BlockNumber : Z;
  ti_BlockTime : Z;
  ti_BlockHash : string;
  ti_ProposerAddress : bytes;
  ti_ChainId : Z;
  ti_BlockMaxGas : Z
}.

Record QueryTraceTxRequest := mkTraceTxRequest {
  qt_Msg : MsgEthereumTx;
  qt_TraceConfig : option TraceConfig;
  qt_Predecessors : list MsgEthereumTx;
  qt_Block : traceBlockInfo
}.

Record QueryTraceBlockRequest := mkTraceBlockRequest {
  qb_Txs : list MsgEthereumTx;
  qb_TraceConfig : option TraceConfig;
  qb_Block : traceBlockInfo
}.

(** [logger.Config] and [tracers.Context] of go-ethereum *)
Record logConfig := mkLogConfig {
  lc_EnableMemory : bool;
  lc_DisableStorage : bool;
  lc_DisableStack : bool;
  lc_EnableReturnData : bool;
  lc_Debug : bool;
  lc_Limit : Z;
  lc_Overrides : option Configurator.gethConfig
}.
Record tracersContext := mkTracersContext { tx_BlockHash : hash; tx_TxIndex : Z; tx_TxHash : hash }.

(** five seconds, in nanoseconds *)
Definition defaultTraceTimeout : Z := 5 * 10 ^ 9.

(** the result of one transaction in the trace of a block *)
Record TxTraceResult (result : Type) := mkTxTraceResult { tr_Result : option result; tr_Error : string }.
Arguments mkTxTraceResult {result}. Arguments tr_Result {result}. Arguments tr_Error {result}.

(** The tracers of go-ethereum and the JSON library. [trace_run] is what
    [GetResult] answers after a tracer observed the run of a message with a
    timeout, at a height and time, from a store; [et_AsMessage] recovers the
    sender with the signer of a height. *)
Class TraceEnv (store cfg : Type) := {
  tracer : Type;
  traceResult : Type;
  json : Type;
  NewStructLogger : logConfig -> tracer;
  tracers_New : string -> tracersContext -> option string -> res tracer;
  ParseDuration : string -> res Z;
  RawMessage : string -> option string;
  et_AsMessage : Z -> ethTransaction -> option Z -> res Message;
  trace_run : tracer -> Z -> Z -> Z -> store -> cfg -> TxConfig -> Message -> res traceResult;
  json_Marshal_result : traceResult -> res bytes;
  json_Marshal_results : list (TxTraceResult traceResult) -> res bytes;
  json_Unmarshal_any : bytes -> res json;
  json_Unmarshal_results : bytes -> res (list (TxTraceResult json));
  (* the value that a result has in JSON *)
  json_value : traceResult -> json;
  json_any_ok : forall r b, json_Marshal_result r = Ok b -> json_Unmarshal_any b = Ok (json_value r);
  json_results_ok : forall rs b, json_Marshal_results rs = Ok b ->
    json_Unmarshal_results b = Ok (map (fun r => mkTxTraceResult (json_value <$> tr_Result r) (tr_Error r)) rs);
  (* a tracer's own JSON can be written, alone or in a list *)
  json_Marshal_alone : forall rs b r, json_Marshal_results rs = Ok b -> r ∈ rs -> forall v, tr_Result r = Some v ->
    exists b', json_Marshal_result v = Ok b'
}.

(** ** The queries *)

Section Queries.
Context `{!EthHex} {auth acct bank event : Type} `{!AccountKeeper auth acct} `{!BankKeeper bank}.
Context `{!SdkMath} `{!EvmEnv} `{!EthTx}.
Abbreviation vstore := (@VmKeeper.evmStore auth bank).
Context `{!MultiStore vstore}.
Context `{!TraceEnv vstore VmQueries.EVMConfig}.
Variable IntrinsicGas : bytes -> ethAccessList -> bool -> bool -> bool -> res Z.
(** the interpreter at a height and a time, and the rules at a height *)
Variable evm_at : Z -> Z -> VmQueries.EVMConfig -> @EVM vstore event.
Variable rules_at : Z -> ChainRules.
Variable GetValidatorByConsAddr : vstore -> bytes -> res string.
Variable ConfigChainID : Z.
Implicit Types (c : VmQueries.queryCtx) (s : @VmQueries.queryState auth bank) (st : vstore) (tc : TxConfig).

(** the height of the traced block; [0] is no height *)
Definition trace_height (b : traceBlockInfo) : Z := if ti_BlockNumber b <? 1 then 1 else ti_BlockNumber b.

(** the context of the block: its height, hash and gas limit *)
Definition trace_ctx c (b : traceBlockInfo) : VmQueries.queryCtx :=
  VmQueries.mkQueryCtx (rules_at (trace_height b)) (Some (ti_BlockMaxGas b)) (VmGenesis.Hex2Bytes (ti_BlockHash b))
    (VmQueries.qc_Proposer c) (VmQueries.qc_LegacyFm c) (VmQueries.qc_LegacyParams c) (VmQueries.qc_hasMS c).

(** the configuration, with the base fee computed for the traced height *)
Definition trace_cfg c s (b : traceBlockInfo) : res VmQueries.EVMConfig :=
  let ctx := trace_ctx c b in
  let? cfg := match VmQueries.new_EVMConfig GetValidatorByConsAddr ctx s (VmQueries.GetProposerAddress ctx (ti_ProposerAddress b)) with
              | Err _ => Err VmQueries.ErrLoadConfig
              | r => r
              end in
  let? baseFee := FeeMarket.fw_CalculateBaseFee coinCfg (VmQueries.qc_LegacyFm c)
                    (FeeMarket.mkFmCtx (trace_height b) (Some (ti_BlockMaxGas b)) None) (VmQueries.qs_fm s) in
  Ok match baseFee with
     | Some f => VmQueries.mkEVMConfig (VmQueries.cfg_Params cfg) (VmQueries.cfg_Rules cfg) (VmQueries.cfg_CoinBase cfg) (Some f)
     | None => cfg
     end.

(** [ApplyMessageWithConfig] in the context of the block *)
Definition trace_apply c s (b : traceBlockInfo) st (cfg : VmQueries.EVMConfig) (msg : Message) (commit : bool) tc : vstore * res TxResponse :=
  VmQueries.apply_message IntrinsicGas (evm_at (trace_height b) (ti_BlockTime b)) (trace_ctx c b) s st cfg msg commit tc.

(** the loop over the predecessors: messages that cannot be read or run are
    skipped *)
Fixpoint replay c s (b : traceBlockInfo) (cfg : VmQueries.EVMConfig) st tc (i : nat) (txs : list MsgEthereumTx) : res (vstore * TxConfig) :=
  match txs with
  | [] => Ok (st, tc)
  | tx :: txs =>
      let? ethTx := deref (AsTransaction tx) in
      match et_AsMessage (trace_height b) ethTx (VmQueries.cfg_BaseFee cfg) with
      | Panic e => Panic e
      | Err _ => replay c s b cfg st tc (S i) txs
      | Ok msg =>
          let tc := mkTxConfig (tc_BlockHash tc) (et_Hash ethTx) (Z.of_nat i) (tc_LogIndex tc) in
          match trace_apply c s b st cfg msg true tc with
          | (_, Panic e) => Panic e
          | (st, Err _) => replay c s b cfg st tc (S i) txs
          | (st, Ok rsp) =>
              replay c s b cfg st (mkTxConfig (tc_BlockHash tc) (tc_TxHash tc) (tc_TxIndex tc) (wrap64 (tc_LogIndex tc + Z.of_nat (length (r_Logs rsp)))))
                (S i) txs
          end
      end
  end.

(** the tracer that a configuration asks for *)
Definition make_tracer tc (traceConfig : TraceConfig) (tracerJSONConfig : option string) : res tracer :=
  let overrides := (fun o => Configurator.EthereumConfig o (Some ConfigChainID)) <$> tcf_Overrides traceConfig in
  let logger := NewStructLogger (mkLogConfig (tcf_EnableMemory traceConfig) (tcf_DisableStorage traceConfig) (tcf_DisableStack traceConfig)
                  (tcf_EnableReturnData traceConfig) (tcf_Debug traceConfig) (tcf_Limit traceConfig) overrides) in
  if String.eqb (tcf_Tracer traceConfig) "" then Ok logger
  else tracers_New (tcf_Tracer traceConfig) (mkTracersContext (tc_BlockHash tc) (tc_TxIndex tc) (tc_TxHash tc)) tracerJSONConfig.

(** a trace of one transaction: the store, the result and the next log index *)
Definition traceTx c s (b : traceBlockInfo) (cfg : VmQueries.EVMConfig) st tc (tx : ethTransaction) (traceConfig : option TraceConfig)
    (commitMessage : bool) (tracerJSONConfig : option string) : vstore * res (traceResult * Z) :=
  do? st, msg := (st, et_AsMessage (trace_height b) tx (VmQueries.cfg_BaseFee cfg)) in
  let traceConfig := default empty_TraceConfig traceConfig in
  do? st, t := (st, make_tracer tc traceConfig tracerJSONConfig) in
  do? st, timeout := (st, if String.eqb (tcf_Timeout traceConfig) "" then Ok defaultTraceTimeout else ParseDuration (tcf_Timeout traceConfig)) in
  let result := trace_run t timeout (trace_height b) (ti_BlockTime b) st cfg tc msg in
  do? st, rsp := trace_apply c s b st cfg msg commitMessage tc in
  do? st, result := (st, result) in
  (st, Ok (result, wrap64 (tc_LogIndex tc + Z.of_nat (length (r_Logs rsp))))).

Definition negative_limit (traceConfig : option TraceConfig) : bool :=
  match traceConfig with Some t => tcf_Limit t <? 0 | None => false end.

Definition TraceTx c s (req : option QueryTraceTxRequest) : res bytes :=
  match req with
  | None => Err VmQueries.ErrEmptyRequest
  | Some req =>
      if negative_limit (qt_TraceConfig req) then Err ErrNegativeLimit
      else
        let b := qt_Block req in
        let? cfg := trace_cfg c s b in
        let tc := VmQueries.empty_tx_config (trace_ctx c b) in
        let? '(st, tc) := replay c s b cfg (VmQueries.qs_store s) tc 0 (qt_Predecessors req) in
        let? tx := deref (AsTransaction (qt_Msg req)) in
        let tc := mkTxConfig (tc_BlockHash tc) (et_Hash tx)
                    (match qt_Predecessors req with [] => tc_TxIndex tc | _ => wrap64 (tc_TxIndex tc + 1) end) (tc_LogIndex tc) in
        let tracerConfig := match qt_TraceConfig req with
                            | Some t => if String.eqb (tcf_TracerJsonConfig t) "" then None else RawMessage (tcf_TracerJsonConfig t)
                            | None => None
                            end in
        let? '(result, _) := (traceTx c s b cfg st tc tx (qt_TraceConfig req) false tracerConfig).2 in
        json_Marshal_result result
  end.

(** the loop over the transactions of a block *)
Fixpoint trace_txs c s (b : traceBlockInfo) (traceConfig : option TraceConfig) (cfg : VmQueries.EVMConfig) st tc (i : nat) (txs : list MsgEthereumTx)
    : res (list (TxTraceResult traceResult)) :=
  match txs with
  | [] => Ok []
  | tx :: txs =>
      let? ethTx := deref (AsTransaction tx) in
      let tc := mkTxConfig (tc_BlockHash tc) (et_Hash ethTx) (Z.of_nat i) (tc_LogIndex tc) in
      match traceTx c s b cfg st tc ethTx traceConfig true None with
      | (_, Panic e) => Panic e
      | (st, Err e) =>
          let? rest := trace_txs c s b traceConfig cfg st tc (S i) txs in
          Ok (mkTxTraceResult None e :: rest)
      | (st, Ok (result, logIndex)) =>
          let? rest := trace_txs c s b traceConfig cfg st (mkTxConfig (tc_BlockHash tc) (tc_TxHash tc) (tc_TxIndex tc) logIndex) (S i) txs in
          Ok (mkTxTraceResult (Some result) "" :: rest)
      end
  end.

Definition TraceBlock c s (req : option QueryTraceBlockRequest) : res bytes :=
  match req with
  | None => Err VmQueries.ErrEmptyRequest
  | Some req =>
      if negative_limit (qb_TraceConfig req) then Err ErrNegativeLimit
      else
        let b := qb_Block req in
        let? cfg := trace_cfg c s b in
        let tc := VmQueries.empty_tx_config (trace_ctx c b) in
        let? results := trace_txs c s b (qb_TraceConfig req) cfg (VmQueries.qs_store s) tc 0 (qb_Txs req) in
        json_Marshal_results results
  end.
End Queries.

(** ** The RPC ([tracing.go], [debug/api.go]) *)

Section Backend.
Context `{!SdkMath} `{!EthHex} `{!HexUtil} `{!TxCodec} `{!EthTx} `{!RpcEnv}.
Context {store cfg : Type} `{!TraceEnv store cfg}.
(** the queries, at the height of their context *)
Variable q_TraceTx : option Z -> QueryTraceTxRequest -> res bytes.
Variable q_TraceBlock : option Z -> QueryTraceBlockRequest -> res bytes.

(** the Ethereum messages of a transaction *)
Fixpoint only_eth (msgs : list sdkMsg) : list MsgEthereumTx :=
  match msgs with
  | [] => []
  | OtherMsg :: msgs => only_eth msgs
  | EthMsg m :: msgs => m :: only_eth msgs
  end.

(** those of the transactions that can be decoded *)
Fixpoint trace_msgs (txs : list bytes) : res (list MsgEthereumTx) :=
  match txs with
  | [] => Ok []
  | tx :: txs =>
      match TxDecoder tx with
      | Panic e => Panic e
      | Err _ => trace_msgs txs
      | Ok d => let? rest := trace_msgs txs in Ok (only_eth (d_Msgs d) ++ rest)
      end
  end.

(** the messages of a transaction before the one at [n] *)
Definition msgs_before (msgs : list sdkMsg) (n : Z) : res (list MsgEthereumTx) :=
  if Z.of_nat (length msgs) <? n then Panic PanicIndex else Ok (only_eth (take (Z.to_nat n) msgs)).

Definition block_info (blk : ResultBlock) (chainID maxGas : Z) : traceBlockInfo :=
  mkTraceBlockInfo (th_Height (rb_Header blk)) (th_Time (rb_Header blk)) (VmGenesis.Bytes2Hex (rb_BlockID blk))
    (th_ProposerAddress (rb_Header blk)) (to_int64 chainID) maxGas.

Definition context_height (height : Z) : Z := if height - 1 <? 1 then 1 else height - 1.

Definition TraceTransaction (h : hash) (config : option TraceConfig) : res json :=
  let? transaction := GetTxByEthHash h in
  if tr_Height transaction =? 0 then Err ErrGenesis
  else
    let? blk := TendermintBlockByNumber (tr_Height transaction) in
    let? blk := deref blk in
    let txsLen := Z.of_nat (length (rb_Txs blk)) in
    if 2 ^ 32 - 1 <? txsLen then Err ErrTxCount
    else if txsLen <? tr_TxIndex transaction then Err ErrNotIncluded
    else
      let? predecessors := trace_msgs (take (Z.to_nat (tr_TxIndex transaction)) (rb_Txs blk)) in
      let? txBz := index_at (rb_Txs blk) (tr_TxIndex transaction) in
      let? tx := TxDecoder txBz in
      let? before := msgs_before (d_Msgs tx) (tr_MsgIndex transaction) in
      let? msg := index_at (d_Msgs tx) (tr_MsgIndex transaction) in
      match msg with
      | OtherMsg => Err ErrTxType
      | EthMsg ethMessage =>
          let? maxGas := tm_ConsensusParams (th_Height (rb_Header blk)) in
          let? chainID := deref be_chainID in
          let req := mkTraceTxRequest ethMessage config (predecessors ++ before) (block_info blk chainID maxGas) in
          let? data := q_TraceTx (RpcBlock.ContextWithHeight (context_height (tr_Height transaction))) req in
          json_Unmarshal_any data
      end.

Definition backend_TraceBlock (height : Z) (config : option TraceConfig) (block : ResultBlock) : res (list (TxTraceResult json)) :=
  match rb_Txs block with
  | [] => Ok []
  | txs =>
      let? txsMessages := trace_msgs txs in
      let? maxGas := tm_ConsensusParams (th_Height (rb_Header block)) in
      let? chainID := deref be_chainID in
      let req := mkTraceBlockRequest txsMessages config (block_info block chainID maxGas) in
      let? data := q_TraceBlock (RpcBlock.ContextWithHeight (context_height height)) req in
      json_Unmarshal_results data
  end.

Definition TraceBlockByNumber (height : Z) (config : option TraceConfig) : res (list (TxTraceResult json)) :=
  if height =? 0 then Err ErrGenesis
  else
    let? resBlock := TendermintBlockByNumber height in
    let? resBlock := deref resBlock in
    backend_TraceBlock (th_Height (rb_Header resBlock)) config resBlock.

Definition TraceBlockByHash (h : hash) (config : option TraceConfig) : res (list (TxTraceResult json)) :=
  let? resBlock := TendermintBlockByHash h in
  match resBlock with
  | None => Err ErrNoBlock
  | Some resBlock => backend_TraceBlock (th_Height (rb_Header resBlock)) config resBlock
  end.
End Backend.
End VmTracing.
