(* ===== verification/VmTracingTheorems.v ===== *)
(** * Properties of traces *)

From stdpp Require Import base gmap list numbers strings.
From Stdlib Require Import ZArith Lia.
From S2P Require Import Prelude SdkMath Scaling AccessList StateDB StateDBCommit VmStore Concrete FeeMarket FeeMarketTheorems TxData TxDataTheorems StateTransition StateTransitionTheorems VmParams Ante AnteTheorems VmGenesis VmQueries VmQueriesTheorems RpcEvents RpcEventsTheorems Indexer IndexerTheorems IndexerServiceTheorems RpcFilters Configurator RpcBlock RpcBackend RpcBackendTheorems RpcConcrete VmTracing.

Module VmTracingTheorems.
Import RpcBackend RpcBackendTheorems VmTracing.

(** ** The replay of a block *)

Section Replay.
Context `{!EthHex} {auth acct bank event : Type} `{!AccountKeeper auth acct} `{!BankKeeper bank}.
Context `{!SdkMath} `{!EvmEnv} `{!EthTx}.
Abbreviation vstore := (@VmKeeper.evmStore auth bank).
Context `{!MultiStore vstore}.
Context `{!TraceEnv vstore VmQueries.EVMConfig}.
Variable IntrinsicGas : bytes -> ethAccessList -> bool -> bool -> bool -> res Z.
Variable evm_at : Z -> Z -> VmQueries.EVMConfig -> @EVM vstore event.
Variable rules_at : Z -> ChainRules.
Variable GetValidatorByConsAddr : vstore -> bytes -> res string.
Variable ConfigChainID : Z.
Implicit Types (c : VmQueries.queryCtx) (s : @VmQueries.queryState auth bank) (st : vstore) (tc : TxConfig).

Abbreviation trace_apply := (trace_apply IntrinsicGas evm_at rules_at).
Abbreviation replay := (replay IntrinsicGas evm_at rules_at).
Abbreviation traceTx := (traceTx IntrinsicGas evm_at rules_at ConfigChainID).
Abbreviation trace_txs := (trace_txs IntrinsicGas evm_at rules_at ConfigChainID).

(** a message that runs and commits also runs without committing *)
Lemma trace_apply_uncommitted c s b st cfg msg tc st' rsp :
  trace_apply c s b st cfg msg true tc = (st', Ok rsp) -> trace_apply c s b st cfg msg false tc = (st, Ok rsp).
Proof.
  unfold VmTracing.trace_apply, VmQueries.apply_message. destruct (VmQueries.GetMinGasMultiplier _ _) as [mult| |]; [|done..].
  unfold ApplyMessageWithConfig. destruct (GetEthIntrinsicGas _ _ _ _) as [ig| |]; [|done..]. cbn.
  destruct (m_Gas msg <? ig); [done|]. destruct (run_evm _ _ _ _ _) as [[sdb [[ret left] err]]| |]; [|done..]. cbn.
  destruct (m_Gas msg <? left); [done|]. destruct (GasToRefund _ _ _) as [rf| |]; [|done..]. cbn.
  destruct (Commit sdb) as [sdb' [?| |]]; [|done..]. cbn. destruct (final_gas _ _ _ _) as [g| |]; [|done..]. cbn. congruence.
Qed.

Lemma traceTx_uncommitted c s b cfg st tc tx traceConfig st' r :
  traceTx c s b cfg st tc tx traceConfig true None = (st', Ok r) -> (traceTx c s b cfg st tc tx traceConfig false None).2 = Ok r.
Proof.
  unfold VmTracing.traceTx. destruct (et_AsMessage _ _ _) as [msg| |]; [|done..]. cbn.
  destruct (make_tracer _ _ _ _) as [t| |]; [|done..]. cbn. destruct (if String.eqb _ _ then _ else _) as [timeout| |]; [|done..]. cbn.
  destruct (trace_apply c s b st cfg msg true tc) as [st1 [rsp| |]] eqn:E; [|done..]. cbn.
  rewrite (trace_apply_uncommitted _ _ _ _ _ _ _ _ _ E). cbn. by destruct (trace_run _ _ _ _ _ _ _ _) as [v| |]; cbn; [intros [= _ <-]|..].
Qed.

(** a transaction that is traced was replayed *)
Lemma traceTx_replays c s b cfg st bh li i m tx traceConfig st' r rest :
  AsTransaction m = Some tx ->
  traceTx c s b cfg st (mkTxConfig bh (et_Hash tx) (Z.of_nat i) li) tx traceConfig true None = (st', Ok r) ->
  replay c s b cfg st (mkTxConfig bh 0 0 li) i (m :: rest) = replay c s b cfg st' (mkTxConfig bh (et_Hash tx) (Z.of_nat i) r.2) (S i) rest.
Proof.
  intros Hm. unfold VmTracing.traceTx. cbn [VmTracing.replay]. rewrite Hm. cbn [deref mbind res_bind].
  destruct (et_AsMessage _ _ _) as [msg| |]; [|done..]. cbn [tc_BlockHash tc_LogIndex tc_TxHash tc_TxIndex].
  destruct (make_tracer _ _ _ _) as [t| |]; [|done..]. cbn. destruct (if String.eqb _ _ then _ else _) as [timeout| |]; [|done..]. cbn.
  destruct (trace_apply c s b st cfg msg true _) as [st1 [rsp| |]]; [|done..]. cbn.
  destruct (trace_run _ _ _ _ _ _ _ _) as [v| |]; cbn; [|done..]. intros [= <- <-]. done.
Qed.

(** the hash and the index of the configuration are set for every transaction *)
Lemma replay_ignores_tx c s b cfg st bh h1 i1 h2 i2 li i m rest tx msg :
  AsTransaction m = Some tx -> et_AsMessage (trace_height b) tx (VmQueries.cfg_BaseFee cfg) = Ok msg ->
  replay c s b cfg st (mkTxConfig bh h1 i1 li) i (m :: rest) = replay c s b cfg st (mkTxConfig bh h2 i2 li) i (m :: rest).
Proof. intros Hm Hmsg. cbn [VmTracing.replay]. rewrite Hm. cbn [deref mbind res_bind]. by rewrite Hmsg. Qed.

Lemma traceTx_message c s b cfg st tc tx traceConfig commit j st' r :
  traceTx c s b cfg st tc tx traceConfig commit j = (st', Ok r) ->
  exists msg, et_AsMessage (trace_height b) tx (VmQueries.cfg_BaseFee cfg) = Ok msg.
Proof. unfold VmTracing.traceTx. destruct (et_AsMessage _ _ _) as [msg| |]; [by exists msg|done..]. Qed.

Definition traced {A} (r : TxTraceResult A) : Prop := is_Some (tr_Result r).

(** After the replay of the transactions before one, its trace without a commit is
    its entry in the trace of the block. *)
Lemma replay_then_trace c s b traceConfig cfg m post pre : forall st bh h ix li i results v,
  trace_txs c s b traceConfig cfg st (mkTxConfig bh h ix li) i (pre ++ m :: post) = Ok results ->
  Forall traced (take (length pre) results) -> tr_Result <$> results !! length pre = Some (Some v) ->
  exists st' tc' tx k, replay c s b cfg st (mkTxConfig bh h ix li) i pre = Ok (st', tc') /\ AsTransaction m = Some tx /\
    tc_BlockHash tc' = bh /\ (pre <> [] -> tc_TxIndex tc' = Z.of_nat (i + length pre) - 1) /\ (pre = [] -> tc' = mkTxConfig bh h ix li) /\
    (traceTx c s b cfg st' (mkTxConfig bh (et_Hash tx) (Z.of_nat (i + length pre)) (tc_LogIndex tc')) tx traceConfig false None).2 = Ok (v, k).
Proof.
  induction pre as [|p pre IH]; intros st bh h ix li i results v E Hf Hv; cbn [app] in E; cbn [VmTracing.trace_txs] in E.
  - apply bind_Ok_inv in E as (tx & Htx & E). destruct (AsTransaction m) as [tx'|]; [|done]. injection Htx as ->.
    cbn [tc_BlockHash tc_LogIndex tc_TxHash tc_TxIndex] in E.
    destruct (traceTx _ _ _ _ _ _ _ _ _ _) as [st1 [[r k]| |]] eqn:Et; [|apply bind_Ok_inv in E as (? & _ & [= <-]); done|done].
    apply bind_Ok_inv in E as (rest & _ & [= <-]). cbn in Hv. injection Hv as ->.
    exists st, (mkTxConfig bh h ix li), tx, k. split_and!; try done. cbn [length]. rewrite Nat.add_0_r. by apply (traceTx_uncommitted _ _ _ _ _ _ _ _ _ _ Et).
  - apply bind_Ok_inv in E as (tx & Htx & E). destruct (AsTransaction p) as [tx'|] eqn:Hp; [|done]. injection Htx as ->.
    cbn [tc_BlockHash tc_LogIndex tc_TxHash tc_TxIndex] in E.
    destruct (traceTx _ _ _ _ _ _ _ _ _ _) as [st1 [[r k]| |]] eqn:Et;
      [|apply bind_Ok_inv in E as (? & _ & [= <-]); by apply Forall_cons in Hf as [[? ?] _]|done].
    apply bind_Ok_inv in E as (rest & E & [= <-]). cbn in Hf, Hv. apply Forall_cons in Hf as [_ Hf].
    destruct (IH _ _ _ _ _ _ _ _ E Hf Hv) as (st' & tc' & txm & k' & Hr & Hm & Hbh & Hix & Hnil & Ht).
    destruct (traceTx_message _ _ _ _ _ _ _ _ _ _ _ _ Et) as [msg Hmsg].
    exists st', tc', txm, k'. replace (i + length (p :: pre))%nat with (S i + length pre)%nat by (cbn; lia).
    split_and!; try done.
    + rewrite (replay_ignores_tx _ _ _ _ _ _ _ _ 0 0 _ _ _ _ _ _ Hp Hmsg). by rewrite (traceTx_replays _ _ _ _ _ _ _ _ _ _ _ _ _ _ Hp Et).
    + intros _. destruct pre; [|by apply Hix]. rewrite (Hnil eq_refl). cbn. lia.
Qed.
Abbreviation TraceTx := (TraceTx IntrinsicGas evm_at rules_at GetValidatorByConsAddr ConfigChainID).
Abbreviation TraceBlock := (TraceBlock IntrinsicGas evm_at rules_at GetValidatorByConsAddr ConfigChainID).

Definition no_json_config (traceConfig : option TraceConfig) : Prop :=
  match traceConfig with Some t => tcf_TracerJsonConfig t = "" | None => True end.

(** The entry of a transaction in the trace of a block is its own trace. *)
Lemma queries_agree c s b traceConfig pre m post data results v :
  no_json_config traceConfig -> Z.of_nat (length pre) < 2 ^ 64 ->
  TraceBlock c s (Some (mkTraceBlockRequest (pre ++ m :: post) traceConfig b)) = Ok data -> json_Unmarshal_results data = Ok results ->
  Forall traced (take (length pre) results) -> tr_Result <$> results !! length pre = Some (Some v) ->
  exists data', TraceTx c s (Some (mkTraceTxRequest m traceConfig pre b)) = Ok data' /\ json_Unmarshal_any data' = Ok v.
Proof.
  intros Hj Hlen E Hres Hf Hv. unfold VmTracing.TraceBlock in E. unfold VmTracing.TraceTx. cbn [qb_TraceConfig qb_Block qb_Txs qt_TraceConfig qt_Block qt_Predecessors qt_Msg] in *.
  destruct (negative_limit traceConfig); [done|]. apply bind_Ok_inv in E as (cfg & -> & E). cbn [mbind res_bind].
  apply bind_Ok_inv in E as (rs & Hrs & E). rewrite (json_results_ok _ _ E) in Hres. injection Hres as <-.
  change (map ?f rs) with (f <$> rs) in *. rewrite <-fmap_take in Hf. rewrite list_lookup_fmap in Hv.
  destruct (rs !! length pre) as [r|] eqn:Hr; [|done]. cbn in Hv. destruct (tr_Result r) as [w|] eqn:Hw; [|done]. cbn in Hv. injection Hv as <-.
  destruct (replay_then_trace c s b traceConfig cfg m post pre _ _ _ _ _ _ _ w Hrs) as (st' & tc' & tx & k & Hrep & Hm & Hbh & Hix & Hnil & Ht).
  { rewrite Forall_fmap in Hf. eapply Forall_impl; [exact Hf|]. intros x [y Hy]. unfold traced. cbn in Hy. by destruct (tr_Result x). }
  { by rewrite Hr, <-Hw. }
  unfold VmQueries.empty_tx_config, NewEmptyTxConfig in *. rewrite Hrep. cbn [mbind res_bind]. rewrite Hm. cbn [deref mbind res_bind].
  assert (Htc : mkTxConfig (tc_BlockHash tc') (et_Hash tx) (match pre with [] => tc_TxIndex tc' | _ => wrap64 (tc_TxIndex tc' + 1) end) (tc_LogIndex tc')
    = mkTxConfig (BytesToHash (VmQueries.qc_HeaderHash (trace_ctx rules_at c b))) (et_Hash tx) (Z.of_nat (0 + length pre)) (tc_LogIndex tc')).
  { rewrite Hbh. f_equal. destruct pre as [|p pre]; [by rewrite (Hnil eq_refl)|]. rewrite (Hix ltac:(done)). rewrite wrap64_small; [lia|unfold max_uint64; lia]. }
  rewrite Htc. replace (match traceConfig with Some t => if String.eqb (tcf_TracerJsonConfig t) "" then None else RawMessage (tcf_TracerJsonConfig t) | None => None end)
    with (@None string) by (destruct traceConfig as [t|]; [by rewrite Hj|done]).
  rewrite Ht. cbn [mbind res_bind].
  destruct (json_Marshal_alone _ _ r E (list_elem_of_lookup_2 _ _ _ Hr) w Hw) as [data' Hd]. exists data'. split; [done|]. by apply json_any_ok.
Qed.
(** [TraceBlock] passes no configuration to the tracer, whatever the request
    says. *)
Definition with_json (j : string) (t : TraceConfig) : TraceConfig :=
  mkTraceConfig (tcf_Tracer t) (tcf_Timeout t) (tcf_Reexec t) (tcf_DisableStack t) (tcf_DisableStorage t) (tcf_Debug t) (tcf_Limit t) (tcf_Overrides t)
    (tcf_EnableMemory t) (tcf_EnableReturnData t) j.

Lemma trace_txs_ignore_json c s b t j cfg txs : forall st tc i,
  trace_txs c s b (Some (with_json j t)) cfg st tc i txs = trace_txs c s b (Some t) cfg st tc i txs.
Proof.
  induction txs as [|m txs IH]; intros st tc i; [done|]. cbn [VmTracing.trace_txs]. destruct (deref (AsTransaction m)) as [tx| |]; [|done..]. cbn [mbind res_bind].
  change (traceTx c s b cfg st ?x tx (Some (with_json j t)) true None) with (traceTx c s b cfg st x tx (Some t) true None).
  destruct (traceTx _ _ _ _ _ _ _ _ _ _) as [st1 [[r k]| |]]; by rewrite ?IH.
Qed.

Theorem trace_block_ignores_tracer_config c s txs t j b :
  TraceBlock c s (Some (mkTraceBlockRequest txs (Some (with_json j t)) b)) = TraceBlock c s (Some (mkTraceBlockRequest txs (Some t) b)).
Proof.
  unfold VmTracing.TraceBlock. cbn [qb_TraceConfig qb_Block qb_Txs negative_limit with_json tcf_Limit]. destruct (tcf_Limit t <? 0); [done|].
  destruct (trace_cfg _ _ _ _ _) as [cfg| |]; [|done..]. cbn [mbind res_bind]. by rewrite trace_txs_ignore_json.
Qed.

(** a configuration of the trace without one of the tracer *)
Definition without_json (config : option TraceConfig) : option TraceConfig := with_json "" <$> config.

(** The entry of a transaction in the trace of a block is its own trace without
    a configuration of the tracer. *)
Lemma queries_agree_any c s b traceConfig pre m post data results v :
  Z.of_nat (length pre) < 2 ^ 64 ->
  TraceBlock c s (Some (mkTraceBlockRequest (pre ++ m :: post) traceConfig b)) = Ok data -> json_Unmarshal_results data = Ok results ->
  Forall traced (take (length pre) results) -> tr_Result <$> results !! length pre = Some (Some v) ->
  exists data', TraceTx c s (Some (mkTraceTxRequest m (without_json traceConfig) pre b)) = Ok data' /\ json_Unmarshal_any data' = Ok v.
Proof.
  intros Hlen E. apply (queries_agree c s b (without_json traceConfig) pre m post data); [by destruct traceConfig|done|].
  destruct traceConfig as [t|]; [|exact E]. rewrite <-E. apply trace_block_ignores_tracer_config.
Qed.

(** A trace runs with the base fee of the traced block: from the state after the
    block before, it computes the base fee that [BeginBlock] of the fee market
    stores for the block and that the EVM reads in it. *)
Theorem traced_base_fee c s b cfg stored fm' f :
  (forall p, FeeMarketSpec.no_nil p -> stored p = p) -> IsLondon (rules_at (trace_height b)) = true ->
  FeeMarket.fm_baseFeeV1 (VmQueries.qs_fm s) = None ->
  trace_cfg rules_at GetValidatorByConsAddr c s b = Ok cfg ->
  FeeMarket.BeginBlock stored (VmQueries.qc_LegacyFm c) (FeeMarket.mkFmCtx (trace_height b) (Some (ti_BlockMaxGas b)) None) (VmQueries.qs_fm s) = Ok fm' ->
  VmQueries.GetBaseFee (trace_ctx rules_at c b) (VmQueries.mkQueryState (VmQueries.qs_store s) fm' (VmQueries.qs_params s)) = Ok f ->
  VmQueries.cfg_BaseFee cfg = f.
Proof.
  intros Hst Hl Hv1 Ec Eb Eg. unfold trace_cfg in Ec. apply bind_Ok_inv in Ec as (cfg0 & Ec0 & Ec). apply bind_Ok_inv in Ec as (fee & Ef & [= <-]).
  unfold FeeMarket.fw_CalculateBaseFee in Ef. apply bind_Ok_inv in Ef as (calc & Hcalc & Ef). unfold FeeMarket.BeginBlock in Eb. rewrite Hcalc in Eb. cbn in Eb.
  unfold VmQueries.GetBaseFee in Eg. cbn [trace_ctx VmQueries.qc_Rules VmQueries.qc_LegacyFm VmQueries.qs_fm] in Eg. rewrite Hl in Eg. cbn [negb] in Eg.
  apply bind_Ok_inv in Eg as (g & Eg & [= <-]). destruct calc as [x|]; injection Eb as <-.
  - assert (Hno : FeeMarket.NoBaseFee (FeeMarket.GetParams (VmQueries.qc_LegacyFm c) (VmQueries.qs_fm s)) = false).
    { unfold FeeMarket.CalculateBaseFee, FeeMarket.IsBaseFeeEnabled in Hcalc. destruct (FeeMarket.NoBaseFee _); [done|done]. }
    unfold FeeMarket.fw_GetBaseFee, FeeMarket.GetBaseFee, FeeMarket.SetBaseFee, FeeMarket.SetParams in Eg. cbn [FeeMarket.fm_baseFeeV1] in Eg. rewrite Hv1 in Eg.
    rewrite Hst in Eg by (repeat split; cbn; eauto). unfold FeeMarket.GetParams in Eg, Hno. cbn -[FeeMarket.to18] in Eg, Hno. rewrite Hno in Eg.
    destruct (Z.eqb_spec x 0) as [->|Hx].
    + cbn in Eg. injection Eg as <-. unfold FeeMarket.to18, ConvertAmountTo18DecimalsLegacy in Ef. rewrite dec_MulInt_spec, Z.mul_0_l in Ef.
      destruct (dec_fits 0); [|done]. cbn [mbind res_bind] in Ef. rewrite dec_TruncateInt_spec in Ef. destruct (int_fits _); [|done]. by injection Ef as <-.
    + rewrite Ef in Eg. injection Eg as <-. unfold FeeMarket.to18 in Ef. apply bind_Ok_inv in Ef as (y & Hy & Ef). by apply bind_Ok_inv in Ef as (z & Hz & [= <-]).
  - injection Ef as <-. cbn. destruct (VmQueries.new_EVMConfig _ _ _ _) as [cfg1| |] eqn:En; [|done..]. injection Ec0 as <-. unfold VmQueries.new_EVMConfig in En.
    apply bind_Ok_inv in En as (cb & _ & En). apply bind_Ok_inv in En as (bf & Hbf & [= <-]). cbn. unfold VmQueries.GetBaseFee in Hbf.
    cbn [trace_ctx VmQueries.qc_Rules VmQueries.qc_LegacyFm] in Hbf. rewrite Hl in Hbf. cbn [negb] in Hbf. apply bind_Ok_inv in Hbf as (g' & Hg' & [= <-]).
    rewrite Eg in Hg'. by injection Hg' as <-.
Qed.
End Replay.

(** ** The messages that are replayed *)

Section Messages.
Context `{!SdkMath} `{!EthHex} `{!RpcBlock.HexUtil} `{!TxCodec} `{!EthTx} `{!RpcEnv}.

Lemma only_eth_app msgs msgs' : only_eth (msgs ++ msgs') = only_eth msgs ++ only_eth msgs'.
Proof. induction msgs as [|[m|] msgs IH]; cbn; by rewrite ?IH. Qed.

Lemma trace_msgs_app txs txs' : trace_msgs (txs ++ txs') = (let? a := trace_msgs txs in let? b := trace_msgs txs' in Ok (a ++ b)).
Proof.
  induction txs as [|tx txs IH]; cbn [app trace_msgs].
  - cbn [mbind res_bind]. by destruct (trace_msgs txs').
  - destruct (TxDecoder tx) as [d| |]; [|done..]. rewrite IH. destruct (trace_msgs txs) as [a| |]; [|done..]. cbn [mbind res_bind].
    destruct (trace_msgs txs'); [|done..]. cbn. by rewrite app_assoc.
Qed.

(** the messages of the block around one of them *)
Lemma trace_msgs_around txs k i tx d m all :
  txs !! k = Some tx -> TxDecoder tx = Ok d -> d_Msgs d !! i = Some (EthMsg m) -> trace_msgs txs = Ok all ->
  exists pre post, trace_msgs (take k txs) = Ok pre /\ all = (pre ++ only_eth (take i (d_Msgs d))) ++ m :: post.
Proof.
  intros Hk Hd Hi E. rewrite <-(take_drop_middle _ _ _ Hk), trace_msgs_app in E. apply bind_Ok_inv in E as (pre & Hpre & E).
  apply bind_Ok_inv in E as (rest & Hrest & [= <-]). cbn [trace_msgs] in Hrest. rewrite Hd in Hrest. apply bind_Ok_inv in Hrest as (post & _ & [= <-]).
  exists pre, (only_eth (drop (S i) (d_Msgs d)) ++ post). split; [done|].
  rewrite <-(take_drop_middle _ _ _ Hi) at 1. rewrite only_eth_app. cbn [only_eth]. by rewrite <-!app_assoc.
Qed.

(** the messages of a block without rejected transactions are those that the RPC
    lists, but for the hash *)
Lemma eth_msgs_listed msgs ms : eth_msgs msgs = Ok ms ->
  Forall2 (fun m m' => exists tx, AsTransaction m = Some tx /\ msg_hash m' = et_Hash tx) (only_eth msgs) ms.
Proof.
  revert ms. induction msgs as [|[m|] msgs IH]; intros ms E; cbn [eth_msgs only_eth] in *; [by injection E as <-| |by apply IH].
  apply bind_Ok_inv in E as (tx & Htx & E). apply bind_Ok_inv in E as (rest & Hrest & [= <-]). destruct (AsTransaction m) as [t|] eqn:Hm; [|done].
  injection Htx as ->. constructor; [|by apply IH]. exists tx. split; [done|]. unfold msg_hash. cbn. apply HexToHash_String, et_Hash_ok.
Qed.

Lemma traced_msgs_listed txs : forall results ms, Forall (fun r => TxSucessOrExpectedFailure r = true) results -> eth_msgs_of_txs txs results = Ok ms ->
  exists raw, trace_msgs txs = Ok raw /\ Forall2 (fun m m' => exists tx, AsTransaction m = Some tx /\ msg_hash m' = et_Hash tx) raw ms.
Proof.
  induction txs as [|tx txs IH]; intros results ms Hs E; [injection E as <-; by exists []|].
  destruct results as [|r results]; [done|]. apply Forall_cons in Hs as [Hr Hs]. cbn [eth_msgs_of_txs trace_msgs] in *. rewrite Hr in E. cbn [negb] in E.
  destruct (TxDecoder tx) as [d| |]; [|by eapply IH|done]. apply bind_Ok_inv in E as (ms1 & E1 & E). apply bind_Ok_inv in E as (ms2 & E2 & [= <-]).
  destruct (IH _ _ Hs E2) as (raw & -> & Hraw). exists (only_eth (d_Msgs d) ++ raw). split; [done|]. apply Forall2_app; [by apply eth_msgs_listed|done].
Qed.

Lemma NoDup_map_lookup {A B} (f : A -> B) (l : list A) i j x y :
  NoDup (map f l) -> l !! i = Some x -> l !! j = Some y -> f x = f y -> i = j.
Proof.
  intros Hnd Hi Hj Hf. change (map f l) with (f <$> l) in Hnd. eapply NoDup_lookup; [exact Hnd| |]; rewrite list_lookup_fmap.
  - by rewrite Hi.
  - by rewrite Hj, Hf.
Qed.
(** a message has the same position among the messages that are replayed and among
    those that are listed *)
Lemma listed_position height block blockRes db db' msgs j m d pre post :
  indexed_block height block blockRes db db' -> EthMsgsFromTendermintBlock block blockRes = Ok msgs -> msgs !! j = Some (rehash m d) -> msg_Data m = Some d ->
  Forall2 (fun m m' => exists tx, AsTransaction m = Some tx /\ msg_hash m' = et_Hash tx) (pre ++ m :: post) msgs -> length pre = j.
Proof.
  intros Hb Hmsgs Hm' Hd Hlisted. pose proof (ib_distinct _ _ _ _ _ Hb) as Hnd.
  destruct (eth_msgs_of_block _ _ (ib_executed _ _ _ _ _ Hb)) as (ms & Hms & Hhs & _).
  unfold EthMsgsFromTendermintBlock in Hmsgs. rewrite Hms in Hmsgs. injection Hmsgs as ->. rewrite <-Hhs in Hnd.
  destruct (Forall2_lookup_l _ _ _ (length pre) m Hlisted) as (m1 & Hm1 & tx1 & Htx1 & Hh1); [by rewrite lookup_app_r, Nat.sub_diag|].
  eapply NoDup_map_lookup; [exact Hnd|exact Hm1|exact Hm'|]. rewrite Hh1, msg_hash_rehash. unfold AsTransaction in Htx1. rewrite Hd in Htx1. by injection Htx1 as <-.
Qed.

(** A transaction that was rejected is replayed: the messages before a traced one
    are those of every transaction that can be decoded, while the messages of the
    block are those of the transactions that were executed. *)
Theorem rejected_tx_is_replayed tx d result :
  TxDecoder tx = Ok d -> TxSucessOrExpectedFailure result = false ->
  trace_msgs [tx] = Ok (only_eth (d_Msgs d)) /\ eth_msgs_of_txs [tx] [result] = Ok [].
Proof. intros Hd Hr. cbn [trace_msgs eth_msgs_of_txs]. rewrite Hd, Hr. cbn. by rewrite app_nil_r. Qed.
(** An index one past the transactions of the block passes the check of bounds and
    the call panics. *)
Theorem index_past_block_panics {store cfg} `{!TraceEnv store cfg} (q : option Z -> QueryTraceTxRequest -> res bytes) h config r block all :
  GetTxByEthHash h = Ok r -> tr_Height r <> 0 -> TendermintBlockByNumber (tr_Height r) = Ok (Some block) ->
  Z.of_nat (length (rb_Txs block)) < 2 ^ 32 -> tr_TxIndex r = Z.of_nat (length (rb_Txs block)) -> trace_msgs (rb_Txs block) = Ok all ->
  TraceTransaction q h config = Panic PanicIndex.
Proof.
  intros Hg Hz Hblk Hlen Hi Hall. unfold TraceTransaction. rewrite Hg. cbn [mbind res_bind]. destruct (Z.eqb_spec (tr_Height r) 0); [done|].
  rewrite Hblk. cbn [mbind res_bind deref]. destruct (Z.ltb_spec (2 ^ 32 - 1) (Z.of_nat (length (rb_Txs block)))); [lia|].
  rewrite Hi, Z.ltb_irrefl, Nat2Z.id, firstn_all, Hall. cbn [mbind res_bind]. unfold index_at. destruct (Z.ltb_spec (Z.of_nat (length (rb_Txs block))) 0); [lia|].
  by rewrite Nat2Z.id, lookup_ge_None_2 by lia.
Qed.
End Messages.

(** ** The endpoints *)

Section Endpoints.
Context `{!SdkMath} `{!EthHex} `{!RpcBlock.HexUtil} `{!TxCodec} `{!EthTx} `{!RpcEnv}.
Context {auth acct bank event : Type} `{!AccountKeeper auth acct} `{!BankKeeper bank} `{!EvmEnv}.
Abbreviation vstore := (@VmKeeper.evmStore auth bank).
Context `{!MultiStore vstore}.
Context `{!TraceEnv vstore VmQueries.EVMConfig}.
Variable IntrinsicGas : bytes -> ethAccessList -> bool -> bool -> bool -> res Z.
Variable evm_at : Z -> Z -> VmQueries.EVMConfig -> @EVM vstore event.
Variable rules_at : Z -> ChainRules.
Variable GetValidatorByConsAddr : vstore -> bytes -> res string.
(** the state of the node at the height of a query *)
Variable query_ctx : option Z -> VmQueries.queryCtx.
Variable query_state : option Z -> @VmQueries.queryState auth bank.

Definition node_TraceTx (h : option Z) (req : QueryTraceTxRequest) : res bytes :=
  TraceTx IntrinsicGas evm_at rules_at GetValidatorByConsAddr RpcBackend.ConfigChainID (query_ctx h) (query_state h) (Some req).
Definition node_TraceBlock (h : option Z) (req : QueryTraceBlockRequest) : res bytes :=
  TraceBlock IntrinsicGas evm_at rules_at GetValidatorByConsAddr RpcBackend.ConfigChainID (query_ctx h) (query_state h) (Some req).

End Endpoints.
End VmTracingTheorems.

(** ** Traces, concretely

    A tracer that reports the position of a transaction, the logs before it and
    the nonce of its message, over the node of [RpcConcrete] and the store of the
    queries. *)

Module VmTracingConcrete.
Import RpcBackend RpcBackendTheorems RpcConcrete VmTracing VmTracingTheorems.

(** numbers as JSON; a list is one number *)
Definition tw_pair {A} (r : TxTraceResult A) : option A * string := (tr_Result r, tr_Error r).
Definition tw_unpair {A} (p : option A * string) : TxTraceResult A := mkTxTraceResult p.1 p.2.

#[export, refine] Instance tw_env : TraceEnv cstore VmQueries.EVMConfig := {|
  tracer := unit;
  traceResult := Z;
  json := Z;
  NewStructLogger _ := ();
  tracers_New _ _ _ := Err "unknown tracer";
  ParseDuration _ := Ok 1;
  RawMessage s := Some s;
  et_AsMessage _ tx _ := Ok (mkMessage 1 (et_To tx) (et_Nonce tx) 0 22000 1 [] []);
  trace_run _ _ _ _ _ _ tc msg := Ok (tc_TxIndex tc * 100 + tc_LogIndex tc * 10 + m_Nonce msg);
  json_Marshal_result v := Ok [v];
  json_Marshal_results rs := Ok [Z.pos (encode (map tw_pair rs))];
  json_Unmarshal_any b := match b with [v] => Ok v | _ => Err "no number" end;
  json_Unmarshal_results b := match b with
                              | [Z.pos p] => match decode p with Some rs => Ok (map tw_unpair rs) | None => Err "no list" end
                              | _ => Err "no list"
                              end;
  json_value v := v
|}.
Proof.
  - by intros r b [= <-].
  - intros rs b [= <-]. rewrite decode_encode. f_equal. rewrite map_map. apply map_ext. intros [[v|] e]; done.
  - intros rs b r _ _ v _. by exists [v].
Defined.

Definition tw_evm (_ _ : Z) (_ : VmQueries.EVMConfig) : @EVM cstore Z := cevm.
Definition tw_TraceBlock := node_TraceBlock cIntrinsic tw_evm (fun _ => crules) q_validator (fun _ => q_ctx) (fun _ => q_state).
Definition tw_TraceTx := node_TraceTx cIntrinsic tw_evm (fun _ => crules) q_validator (fun _ => q_ctx) (fun _ => q_state).

Definition tw_results : list (TxTraceResult Z) := ok_or [] (TraceBlockByNumber tw_TraceBlock 7 None).

Definition tw_msgs : list MsgEthereumTx := ok_or [] (trace_msgs (rb_Txs rw_block)).


(** two traces, for the two messages of the block *)
Example traced_block : TraceBlockByNumber tw_TraceBlock 7 None = Ok [mkTxTraceResult (Some 0) ""; mkTxTraceResult (Some 101) ""].
Proof. vm_compute. reflexivity. Qed.
End VmTracingConcrete.
