(* ===== verification/RpcWebsockets.v ===== *)
(** * Subscriptions over web sockets ([rpc/websockets.go], [rpc/ethereum/pubsub])

    A connection subscribes to new headers, logs or pending transactions. The
    events of CometBFT arrive by topic at an event bus that offers each event to
    the goroutines of the subscriptions, without waiting for one that is busy; a
    goroutine writes its notifications to its connection. Threads are steps over
    one state: the reading loop of a connection, the publication of an event, and
    the work of a goroutine on the event it took. *)

From stdpp Require Import base gmap list numbers strings.
From Stdlib Require Import ZArith Lia.
From S2P Require Import Prelude SdkMath Scaling AccessList StateDB StateDBCommit VmStore FeeMarket TxData StateTransition VmParams Ante RpcEvents Indexer RpcFilters RpcBlock RpcBackend.

Module RpcWebsockets.
Import RpcBackend.

Definition ErrTopicRegistered : error := "topic already registered".
Definition ErrTopicNotFound : error := "topic not found".
Definition ErrInvalidParameters : error := "invalid parameters".
Definition ErrEmptyParameters : error := "empty parameters".
Definition ErrConnID : error := "invalid type for connection ID".
Definition ErrCriteria : error := "invalid criteria".
Definition ErrAddresses : error := "invalid addresses; must be address or array of addresses".
Definition ErrAddress : error := "invalid address".
Definition ErrTopics : error := "invalid topics".
Definition ErrSubtopics : error := "invalid subtopics".
Definition ErrSubtopic : error := "invalid subtopic".
Definition ErrSyncing : error := "syncing subscription is not implemented".
Definition ErrUnsupported : error := "unsupported method".
Definition ErrBlockFilter : error := "error creating block filter".

(** ** The event bus ([pubsub.go]) *)

(** the topics, the channels that subscribe to each, the last identifier *)
Record memEventBus := mkBus { topics : gset string; subscribers : gmap string (gset Z); currentUniqueID : Z }.

Definition NewEventBus : memEventBus := mkBus ∅ ∅ 0.

Definition GenUniqueID (b : memEventBus) : memEventBus * Z :=
  let id := wrap64 (currentUniqueID b + 1) in (mkBus (topics b) (subscribers b) id, id).

Definition AddTopic (name : string) (b : memEventBus) : memEventBus * res unit :=
  if bool_decide (name ∈ topics b) then (b, Err ErrTopicRegistered)
  else (mkBus ({[ name ]} ∪ topics b) (subscribers b) (currentUniqueID b), Ok ()).

Definition RemoveTopic (name : string) (b : memEventBus) : memEventBus :=
  mkBus (topics b ∖ {[ name ]}) (subscribers b) (currentUniqueID b).

Definition subs_of (name : string) (b : memEventBus) : gset Z := default ∅ (subscribers b !! name).

(** the new channel *)
Definition Subscribe (name : string) (b : memEventBus) : memEventBus * res Z :=
  if bool_decide (name ∈ topics b) then
    let '(b, id) := GenUniqueID b in
    (mkBus (topics b) (<[name := {[ id ]} ∪ subs_of name b]> (subscribers b)) (currentUniqueID b), Ok id)
  else (b, Err ErrTopicNotFound).

(** the function that [Subscribe] returns; deleting from a map that does not exist
    does nothing *)
Definition unsubscribe (name : string) (id : Z) (b : memEventBus) : memEventBus :=
  match subscribers b !! name with
  | Some l => mkBus (topics b) (<[name := l ∖ {[ id ]}]> (subscribers b)) (currentUniqueID b)
  | None => b
  end.

(** [publishTopic] when its source is closed: the channels that are closed *)
Definition closeAllSubscribers (name : string) (b : memEventBus) : memEventBus * gset Z :=
  (mkBus (topics b) (delete name (subscribers b)) (currentUniqueID b), subs_of name b).

Definition publishTopic_closed (name : string) (b : memEventBus) : memEventBus * gset Z :=
  let '(b, closed) := closeAllSubscribers name b in (RemoveTopic name b, closed).

(** ** Requests *)

(** values of JSON *)
Inductive param := PNull | PString (s : string) | PArray (l : list param) | POther | PObject (fields : gmap string param).

Inductive connIDValue := IdString (s : string) | IdNumber (x : Z) | IdOther.

(** an object: its method when it is a text, its identifier and its parameters when
    they are a list *)
Record wsMessage := mkWsMessage { wm_method : option string; wm_id : connIDValue; wm_params : option (list param) }.

(** the first byte that is no white space is a bracket *)
Fixpoint isBatch (raw : bytes) : bool :=
  match raw with
  | [] => false
  | c :: raw => if (c =? 32) || (c =? 9) || (c =? 10) || (c =? 13) then isBatch raw else c =? 91
  end.

Section Criteria.
Context `{!EthHex}.

Fixpoint param_addresses (l : list param) : res (list address) :=
  match l with
  | [] => Ok []
  | PString a :: l => let? rest := param_addresses l in Ok (HexToAddress a :: rest)
  | _ :: _ => Err ErrAddress
  end.

Fixpoint param_hashes (l : list param) : res (list hash) :=
  match l with
  | [] => Ok []
  | PString t :: l => let? rest := param_hashes l in Ok (HexToHash t :: rest)
  | _ :: _ => Err ErrSubtopic
  end.

(** the topics of the criteria; a topic without a rule is empty *)
Fixpoint param_topics (l : list param) : res (list (list hash)) :=
  match l with
  | [] => Ok []
  | subtopics :: l =>
      let? rule := match subtopics with
                   | PNull => Ok []
                   | PString t => Ok [HexToHash t]
                   | PArray ts => param_hashes ts
                   | _ => Err ErrSubtopics
                   end in
      let? rest := param_topics l in
      Ok (rule :: rest)
  end.

(** the criteria of [subscribeLogs] *)
Definition log_criteria (extra : param) : res RpcFilters.FilterCriteria :=
  match extra with
  | PNull => Ok RpcFilters.empty_criteria
  | PObject params =>
      let? addresses := match default PNull (params !! "address") with
                        | PNull => Ok []
                        | PString a => Ok [HexToAddress a]
                        | PArray l => param_addresses l
                        | _ => Err ErrAddresses
                        end in
      let? topics := match default PNull (params !! "topics") with
                     | PNull => Ok []
                     | PArray l => param_topics l
                     | _ => Err ErrTopics
                     end in
      Ok (RpcFilters.mkCriteria None None None addresses topics)
  | _ => Err ErrCriteria
  end.
End Criteria.

(** ** The server *)

Definition evmEvents : string := "tm.event='Tx' AND message.module='evm'".
Definition headerEvents : string := "tm.event='NewBlockHeader'".
Definition txEvents : string := "tm.event='Tx'".

(** [params.InitialBaseFee] of go-ethereum *)
Definition InitialBaseFee : Z := 1000000000.

(** an event of CometBFT: a transaction with the logs of the responses in its
    result, [None] when they cannot be decoded, a header, or another one *)
Inductive wsEvent :=
| EventDataTx (responses : option (list (list RpcFilters.Log))) (tx : bytes)
| EventDataNewBlockHeader (h : tmHeader)
| EventDataOther.

Inductive subKind := KHeads | KLogs (crit : RpcFilters.FilterCriteria) | KPending.
Definition topic_of (k : subKind) : string := match k with KHeads => headerEvents | KLogs _ => evmEvents | KPending => txEvents end.

Inductive notification := NoteHeader (h : ethHeader) | NoteLog (l : ethLog) | NoteHash (h : string).

(** what is written to a connection *)
Inductive wsOut :=
| OutError (msg : error)
| OutSubscribed (id : Z) (subID : string)
| OutUnsubscribed (id : Z) (ok : bool)
| OutForwarded (body : bytes)
| OutNotify (subID : string) (n : notification).

(** a goroutine of a subscription: it waits, or works on an event *)
Record goroutine := mkGoroutine { g_conn : Z; g_sub : string; g_kind : subKind; g_event : option wsEvent }.

(** a connection: the function that cancels each of its subscriptions *)
Record wsConn := mkConn { cn_subs : gmap string (string * Z); cn_open : bool; cn_out : list wsOut }.
Definition new_conn : wsConn := mkConn ∅ true [].

Record wsSystem := mkWs { ws_bus : memEventBus; ws_gor : gmap Z goroutine; ws_conns : gmap Z wsConn }.
Definition ws_start : wsSystem := mkWs NewEventBus ∅ ∅.

Definition conn_of (c : Z) (s : wsSystem) : wsConn := default new_conn (ws_conns s !! c).
Definition with_conn (c : Z) (x : wsConn) (s : wsSystem) : wsSystem := mkWs (ws_bus s) (ws_gor s) (<[c := x]> (ws_conns s)).
Definition with_bus (b : memEventBus) (s : wsSystem) : wsSystem := mkWs b (ws_gor s) (ws_conns s).
Definition with_gor (g : gmap Z goroutine) (s : wsSystem) : wsSystem := mkWs (ws_bus s) g (ws_conns s).

(** [WriteJSON]: nothing is written to a connection that is closed *)
Definition write (c : Z) (out : list wsOut) (s : wsSystem) : wsSystem :=
  let x := conn_of c s in
  if cn_open x then with_conn c (mkConn (cn_subs x) true (cn_out x ++ out)) s else s.

Section Server.
Context `{!SdkMath} `{!EthHex} `{!HexUtil} `{!TxCodec} `{!EthTx} `{!RpcEnv}.
(** decoding of a message and of the text of a number, and the RPC server that
    other requests are sent to *)
Variable json_Unmarshal : bytes -> res wsMessage.
Variable ParseFloat : string -> option Z.
Variable tcpGet : bytes -> res bytes.

(** [EventSystem.subscribe]: the topic is installed by its first subscription.
    [wsOk]: CometBFT accepts the query. *)
Definition es_subscribe (topic : string) (wsOk : bool) (s : wsSystem) : wsSystem * res Z :=
  if bool_decide (topic ∈ topics (ws_bus s)) then
    let '(b, r) := Subscribe topic (ws_bus s) in (with_bus b s, r)
  else if negb wsOk then (s, Err RpcFilters.ErrSubscribe)
  else
    let b := (AddTopic topic (ws_bus s)).1 in
    let '(b, r) := Subscribe topic b in (with_bus b s, r).

(** the subscription and its goroutine; the channel *)
Definition start_goroutine (c : Z) (subID : string) (k : subKind) (wsOk : bool) (s : wsSystem) : wsSystem * res (string * Z) :=
  do? s, ch := es_subscribe (topic_of k) wsOk s in
  (with_gor (<[ch := mkGoroutine c subID k None]> (ws_gor s)) s, Ok (topic_of k, ch)).

Definition subscribeNewHeads (c : Z) (subID : string) (wsOk : bool) (s : wsSystem) : wsSystem * res (string * Z) :=
  match start_goroutine c subID KHeads wsOk s with (s, Err _) => (s, Err ErrBlockFilter) | r => r end.

Definition subscribeLogs (c : Z) (subID : string) (extra : param) (wsOk : bool) (s : wsSystem) : wsSystem * res (string * Z) :=
  do? s, crit := (s, log_criteria extra) in start_goroutine c subID (KLogs crit) wsOk s.

Definition subscribePendingTransactions (c : Z) (subID : string) (wsOk : bool) (s : wsSystem) : wsSystem * res (string * Z) :=
  match start_goroutine c subID KPending wsOk s with (s, Err _) => (s, Err ErrBlockFilter) | r => r end.

Definition api_subscribe (c : Z) (subID : string) (params : list param) (wsOk : bool) (s : wsSystem) : wsSystem * res (string * Z) :=
  match params with
  | PString method :: rest =>
      if String.eqb method "newHeads" then subscribeNewHeads c subID wsOk s
      else if String.eqb method "logs" then subscribeLogs c subID (hd PNull rest) wsOk s
      else if String.eqb method "newPendingTransactions" then subscribePendingTransactions c subID wsOk s
      else if String.eqb method "syncing" then (s, Err ErrSyncing)
      else (s, Err ErrUnsupported)
  | _ => (s, Err ErrInvalidParameters)
  end.

Definition send_forwarded (c : Z) (mb : bytes) (s : wsSystem) : wsSystem :=
  match tcpGet mb with
  | Ok body => write c [OutForwarded body] s
  | Err e | Panic e => write c [OutError e] s
  end.

Definition getParamsAndCheckValid (params : option (list param)) : res (list param) :=
  match params with
  | None => Err ErrInvalidParameters
  | Some [] => Err ErrEmptyParameters
  | Some params => Ok params
  end.

Definition get_connID (v : connIDValue) : option Z :=
  match v with IdString t => ParseFloat t | IdNumber x => Some x | IdOther => None end.

(** [eth_subscribe]: [subID] is the random identifier *)
Definition on_subscribe (c connID : Z) (params : option (list param)) (subID : string) (wsOk : bool) (s : wsSystem) : wsSystem :=
  match getParamsAndCheckValid params with
  | Ok params =>
      match api_subscribe c subID params wsOk s with
      | (s, Ok unsubFn) =>
          let x := conn_of c s in
          write c [OutSubscribed connID subID] (with_conn c (mkConn (<[subID := unsubFn]> (cn_subs x)) (cn_open x) (cn_out x)) s)
      | (s, Err e) | (s, Panic e) => write c [OutError e] s
      end
  | Err e | Panic e => write c [OutError e] s
  end.

Definition on_unsubscribe (c connID : Z) (params : option (list param)) (s : wsSystem) : wsSystem :=
  match getParamsAndCheckValid params with
  | Ok (PString subID :: _) =>
      let x := conn_of c s in
      match cn_subs x !! subID with
      | Some (topic, ch) =>
          write c [OutUnsubscribed connID true]
            (with_bus (unsubscribe topic ch (ws_bus s)) (with_conn c (mkConn (delete subID (cn_subs x)) (cn_open x) (cn_out x)) s))
      | None => write c [OutUnsubscribed connID false] s
      end
  | Ok _ => write c [OutError ErrInvalidParameters] s
  | Err e | Panic e => write c [OutError e] s
  end.

(** one round of [readLoop] *)
Definition on_message (c : Z) (mb : bytes) (subID : string) (wsOk : bool) (s : wsSystem) : wsSystem :=
  if isBatch mb then send_forwarded c mb s
  else
    match json_Unmarshal mb with
    | Err e | Panic e => write c [OutError e] s
    | Ok msg =>
        match wm_method msg with
        | None => send_forwarded c mb s
        | Some method =>
            match get_connID (wm_id msg) with
            | None => write c [OutError ErrConnID] s
            | Some connID =>
                if String.eqb method "eth_subscribe" then on_subscribe c connID (wm_params msg) subID wsOk s
                else if String.eqb method "eth_unsubscribe" then on_unsubscribe c connID (wm_params msg) s
                else send_forwarded c mb s
            end
        end
    end.

(** a read that fails closes the connection and cancels its subscriptions *)
Definition on_read_error (c : Z) (s : wsSystem) : wsSystem :=
  let x := conn_of c s in
  with_bus (fold_left (fun b p => unsubscribe p.2.1 p.2.2 b) (map_to_list (cn_subs x)) (ws_bus s))
    (with_conn c (mkConn (cn_subs x) false (cn_out x)) s).

(** ** Events *)

(** a goroutine that waits takes the event; one that works misses it *)
Definition offer (ev : wsEvent) (l : gset Z) (ch : Z) (g : goroutine) : goroutine :=
  if bool_decide (ch ∈ l) then
    match g_event g with None => mkGoroutine (g_conn g) (g_sub g) (g_kind g) (Some ev) | Some _ => g end
  else g.

Definition publishAllSubscribers (name : string) (ev : wsEvent) (s : wsSystem) : wsSystem :=
  with_gor (map_imap (fun ch g => Some (offer ev (subs_of name (ws_bus s)) ch g)) (ws_gor s)) s.

(** [consumeEvents]: events of a query without a topic are dropped *)
Definition on_result (query : string) (ev : wsEvent) (s : wsSystem) : wsSystem :=
  if bool_decide (query ∈ topics (ws_bus s)) then publishAllSubscribers query ev s else s.

Definition idle (g : goroutine) : goroutine := mkGoroutine (g_conn g) (g_sub g) (g_kind g) None.

(** the logs of an event that match *)
Definition event_logs (crit : RpcFilters.FilterCriteria) (logs : list RpcFilters.Log) : list ethLog :=
  RpcFilters.FilterLogs (RpcFilters.LogsToEthereum logs) (RpcFilters.fc_FromBlock crit) (RpcFilters.fc_ToBlock crit) (RpcFilters.fc_Addresses crit)
    (RpcFilters.fc_Topics crit).

(** A goroutine handles its event: the notifications, and whether it goes on. An
    event of another kind is skipped; a result that cannot be decoded ends the
    goroutine of a subscription to logs. *)
Definition handle_event (k : subKind) (ev : wsEvent) : res (list notification * bool) :=
  match k, ev with
  | KHeads, EventDataNewBlockHeader h => Ok ([NoteHeader (EthHeaderFromTendermint h 0 (Some InitialBaseFee))], true)
  | KLogs crit, EventDataTx responses _ =>
      match RpcFilters.DecodeTxResponse responses with
      | None => Ok ([], false)
      | Some logs => Ok (map NoteLog (event_logs crit logs), true)
      end
  | KPending, EventDataTx _ tx =>
      match RawTxToEthTx tx with
      | Ok ethTxs => Ok (map (fun m => NoteHash (msg_Hash m)) ethTxs, true)
      | Err _ => Ok ([], true)
      | Panic e => Panic e
      end
  | _, _ => Ok ([], true)
  end.

Definition on_work (ch : Z) (s : wsSystem) : res wsSystem :=
  match ws_gor s !! ch with
  | Some g =>
      match g_event g with
      | Some ev =>
          let? '(notes, goes_on) := handle_event (g_kind g) ev in
          Ok (write (g_conn g) (map (OutNotify (g_sub g)) notes)
                (with_gor (if (goes_on : bool) then <[ch := idle g]> (ws_gor s) else delete ch (ws_gor s)) s))
      | None => Ok s
      end
  | None => Ok s
  end.

(** ** Steps *)

(** the loop of a connection ends when it is closed *)
Inductive wsOp :=
| OpMessage (c : Z) (mb : bytes) (subID : string) (wsOk : bool)
| OpReadError (c : Z)
| OpResult (query : string) (ev : wsEvent)
| OpWork (ch : Z).

Definition ws_step (o : wsOp) (s : wsSystem) : res wsSystem :=
  match o with
  | OpMessage c mb subID wsOk => Ok (if cn_open (conn_of c s) then on_message c mb subID wsOk s else s)
  | OpReadError c => Ok (if cn_open (conn_of c s) then on_read_error c s else s)
  | OpResult query ev => Ok (on_result query ev s)
  | OpWork ch => on_work ch s
  end.

Fixpoint ws_run (ops : list wsOp) (s : wsSystem) : res wsSystem :=
  match ops with
  | [] => Ok s
  | o :: ops => let? s := ws_step o s in ws_run ops s
  end.
End Server.
End RpcWebsockets.
