(* ===== verification/RpcWebsocketsTheorems.v ===== *)
(** * Properties of subscriptions *)

From stdpp Require Import base gmap list numbers strings fin_maps.
From Stdlib Require Import ZArith Lia.
From S2P Require Import Prelude SdkMath Scaling AccessList StateDB StateDBCommit VmStore Concrete FeeMarket TxData TxDataTheorems StateTransition StateTransitionTheorems VmParams Ante AnteTheorems RpcEvents RpcEventsTheorems Indexer IndexerTheorems IndexerServiceTheorems RpcFilters RpcFiltersTheorems RpcBlock RpcBackend RpcBackendTheorems RpcConcrete RpcWebsockets.

Module RpcWebsocketsTheorems.
Import RpcBackend RpcWebsockets.

Section Theorems.
Context `{!SdkMath} `{!EthHex} `{!RpcBlock.HexUtil} `{!TxCodec} `{!EthTx} `{!RpcEnv}.
Variable json_Unmarshal : bytes -> res wsMessage.
Variable ParseFloat : string -> option Z.
Variable tcpGet : bytes -> res bytes.
Implicit Types s : wsSystem.

Abbreviation ws_step := (ws_step json_Unmarshal ParseFloat tcpGet).
Abbreviation ws_run := (ws_run json_Unmarshal ParseFloat tcpGet).
Abbreviation on_message := (on_message json_Unmarshal ParseFloat tcpGet).

(** ** What is written *)

Definition note_of (sub : string) (o : wsOut) : option notification :=
  match o with OutNotify x n => if String.eqb x sub then Some n else None | _ => None end.

(** the notifications of a subscription on a connection *)
Definition notes (c : Z) (sub : string) s : list notification := omap (note_of sub) (cn_out (conn_of c s)).

Lemma conn_of_with_conn c c' x s : conn_of c (with_conn c' x s) = if decide (c = c') then x else conn_of c s.
Proof. unfold conn_of, with_conn. cbn. destruct (decide (c = c')) as [->|]; [by rewrite lookup_insert_eq|by rewrite lookup_insert_ne]. Qed.

Lemma conn_of_with_bus c b s : conn_of c (with_bus b s) = conn_of c s.
Proof. done. Qed.
Lemma conn_of_with_gor c g s : conn_of c (with_gor g s) = conn_of c s.
Proof. done. Qed.

Lemma write_bus c out s : ws_bus (write c out s) = ws_bus s.
Proof. unfold write. by destruct (cn_open _). Qed.
Lemma write_gor c out s : ws_gor (write c out s) = ws_gor s.
Proof. unfold write. by destruct (cn_open _). Qed.
Lemma write_subs c out c' s : cn_subs (conn_of c' (write c out s)) = cn_subs (conn_of c' s).
Proof. unfold write. destruct (cn_open _); [|done]. rewrite conn_of_with_conn. by destruct (decide (c' = c)) as [->|]. Qed.
Lemma write_open c out c' s : cn_open (conn_of c' (write c out s)) = cn_open (conn_of c' s).
Proof. unfold write. destruct (cn_open (conn_of c s)) eqn:E; [|done]. rewrite conn_of_with_conn. by destruct (decide (c' = c)) as [->|]. Qed.

Lemma notes_write c out c' sub s :
  notes c' sub (write c out s) = notes c' sub s ++ (if bool_decide (c = c') && cn_open (conn_of c s) then omap (note_of sub) out else []).
Proof.
  unfold write, notes. destruct (cn_open (conn_of c s)) eqn:E; rewrite ?andb_true_r, ?andb_false_r; [|by rewrite app_nil_r].
  rewrite conn_of_with_conn. destruct (decide (c' = c)) as [->|]; cbn.
  - by rewrite bool_decide_true, omap_app.
  - by rewrite bool_decide_false, app_nil_r.
Qed.

(** answers are no notifications *)
Lemma notes_answer c o c' sub s : note_of sub o = None -> notes c' sub (write c [o] s) = notes c' sub s.
Proof. intros Hn. rewrite notes_write. cbn. rewrite Hn. destruct (_ && _); by rewrite app_nil_r. Qed.

(** ** The state of a subscription to logs *)

(** the notifications that an event is worth *)
Definition worth (crit : RpcFilters.FilterCriteria) (e : option wsEvent) : list notification :=
  match e with
  | Some ev => match handle_event (KLogs crit) ev with Ok (l, _) => l | _ => [] end
  | None => []
  end.

(** the event does not end the goroutine *)
Definition decodable (ev : wsEvent) : Prop := match ev with EventDataTx responses _ => is_Some (RpcFilters.DecodeTxResponse responses) | _ => True end.

Record subscribed (c : Z) (sub : string) (crit : RpcFilters.FilterCriteria) (ch : Z) (e : option wsEvent) s : Prop := {
  sb_gor : ws_gor s !! ch = Some (mkGoroutine c sub (KLogs crit) e);
  sb_bus : ch ∈ subs_of evmEvents (ws_bus s);
  sb_topic : evmEvents ∈ topics (ws_bus s);
  sb_else : forall name, name <> evmEvents -> ch ∉ subs_of name (ws_bus s);
  sb_open : cn_open (conn_of c s) = true;
  sb_event : match e with Some ev => decodable ev | None => True end;
  sb_only : forall ch' g, ws_gor s !! ch' = Some g -> g_sub g = sub -> ch' = ch;
  sb_cancel : forall c' sub' t, cn_subs (conn_of c' s) !! sub' = Some (t, ch) -> c' = c /\ sub' = sub;
  sb_id : ch <= currentUniqueID (ws_bus s)
}.

(** the request cancels the subscription *)
Definition cancels (mb : bytes) (sub : string) : Prop :=
  exists msg rest, json_Unmarshal mb = Ok msg /\ wm_method msg = Some "eth_unsubscribe" /\ wm_params msg = Some (PString sub :: rest).

(** a step that does not end the subscription *)
Definition allowed (c : Z) (sub : string) (o : wsOp) : Prop :=
  match o with
  | OpMessage c' mb subID _ => subID <> sub /\ (c' = c -> ~ cancels mb sub)
  | OpReadError c' => c' <> c
  | OpResult query ev => query = evmEvents -> decodable ev
  | OpWork _ => True
  end.

(** what is published to subscriptions to logs *)
Definition published (crit : RpcFilters.FilterCriteria) (o : wsOp) : list notification :=
  match o with OpResult query ev => if String.eqb query evmEvents then worth crit (Some ev) else [] | _ => [] end.

Lemma subs_of_unsubscribe name name' id ch b : ch <> id -> ch ∈ subs_of name b -> ch ∈ subs_of name (unsubscribe name' id b).
Proof.
  unfold subs_of, unsubscribe. intros Hne Hin. destruct (subscribers b !! name') as [l|] eqn:E; [|done]. cbn.
  destruct (decide (name = name')) as [->|]; [|by rewrite lookup_insert_ne]. rewrite lookup_insert_eq. cbn. rewrite E in Hin. cbn in Hin. set_solver.
Qed.

Lemma unsubscribe_subset name name' id x b : x ∈ subs_of name (unsubscribe name' id b) -> x ∈ subs_of name b.
Proof.
  unfold subs_of, unsubscribe. destruct (subscribers b !! name') as [l|] eqn:E; [|done]. cbn.
  destruct (decide (name = name')) as [->|]; [|by rewrite lookup_insert_ne]. rewrite lookup_insert_eq, E. cbn. set_solver.
Qed.

Lemma unsubscribe_rest name id b : topics (unsubscribe name id b) = topics b /\ currentUniqueID (unsubscribe name id b) = currentUniqueID b.
Proof. unfold unsubscribe. by destruct (_ !! _). Qed.

Lemma subscribed_write c sub crit ch e c' out s : subscribed c sub crit ch e s -> subscribed c sub crit ch e (write c' out s).
Proof.
  intros []. constructor; rewrite ?write_gor, ?write_bus, ?write_open; try done. intros c1 sub1 t. rewrite write_subs. apply sb_cancel0.
Qed.
(** what a request for a subscription does *)
Record opened (c : Z) (subID : string) s s1 (r : res (string * Z)) : Prop := {
  op_conns : ws_conns s1 = ws_conns s;
  op_topics : topics (ws_bus s) ⊆ topics (ws_bus s1);
  op_subs : forall name, subs_of name (ws_bus s) ⊆ subs_of name (ws_bus s1);
  op_else : forall name x, x ∈ subs_of name (ws_bus s1) -> x ∈ subs_of name (ws_bus s) \/
    x = currentUniqueID (ws_bus s1) /\ x = currentUniqueID (ws_bus s) + 1 /\ match r with Ok (t, _) => name = t | _ => False end;
  op_new : match r with
           | Ok (t, ch) => exists k, t = topic_of k /\ ch = currentUniqueID (ws_bus s) + 1 /\ currentUniqueID (ws_bus s1) = ch /\
               ws_gor s1 = <[ch := mkGoroutine c subID k None]> (ws_gor s) /\ ch ∈ subs_of t (ws_bus s1) /\ t ∈ topics (ws_bus s1)
           | _ => ws_gor s1 = ws_gor s /\ currentUniqueID (ws_bus s1) = currentUniqueID (ws_bus s)
           end
}.

Definition ids_left s : Prop := 0 <= currentUniqueID (ws_bus s) < 2 ^ 64 - 1.

Lemma Subscribe_spec name b : name ∈ topics b -> 0 <= currentUniqueID b < 2 ^ 64 - 1 ->
  Subscribe name b = (mkBus (topics b) (<[name := {[ currentUniqueID b + 1 ]} ∪ subs_of name b]> (subscribers b)) (currentUniqueID b + 1), Ok (currentUniqueID b + 1)).
Proof.
  intros Hn Hi. unfold Subscribe, GenUniqueID. rewrite bool_decide_true by done. cbn. rewrite wrap64_small by (unfold max_uint64; lia). done.
Qed.

Lemma subs_of_insert name name' l (b : memEventBus) ts n :
  subs_of name (mkBus ts (<[name' := l]> (subscribers b)) n) = if decide (name = name') then l else subs_of name b.
Proof. unfold subs_of. cbn. destruct (decide (name = name')) as [->|]; [by rewrite lookup_insert_eq|by rewrite lookup_insert_ne]. Qed.

Lemma start_goroutine_opened c subID k wsOk s s1 r :
  start_goroutine c subID k wsOk s = (s1, r) -> ids_left s -> opened c subID s s1 r.
Proof.
  intros E Hi. unfold ids_left in Hi. unfold start_goroutine, es_subscribe in E. set (t := topic_of k) in *.
  assert (Hsub : forall b, topics (ws_bus s) ⊆ topics b -> t ∈ topics b -> subscribers b = subscribers (ws_bus s) -> currentUniqueID b = currentUniqueID (ws_bus s) ->
    forall s1 r, (do? s, ch := (let '(b, r) := Subscribe t b in (with_bus b s, r)) in
                  (with_gor (<[ch := mkGoroutine c subID k None]> (ws_gor s)) s, Ok (t, ch))) = (s1, r) -> opened c subID s s1 r).
  { intros b Ha Hb Hc Hd s2 r2 E2. rewrite Subscribe_spec in E2 by (rewrite ?Hd; done). cbn in E2. injection E2 as <- <-.
    assert (Hso : forall name, subs_of name b = subs_of name (ws_bus s)) by (intros name; unfold subs_of; by rewrite Hc).
    constructor; cbn; try done.
    - intros name. rewrite subs_of_insert. destruct (decide (name = t)) as [->|]; rewrite Hso; set_solver.
    - intros name x. rewrite subs_of_insert, Hd. destruct (decide (name = t)) as [->|]; rewrite Hso; [|by left]. rewrite elem_of_union, elem_of_singleton.
      intros [->|]; [by right|by left].
    - exists k. rewrite subs_of_insert, decide_True by done. rewrite Hd. split_and!; try done. set_solver. }
  destruct (bool_decide (t ∈ topics (ws_bus s))) eqn:Ht.
  - apply bool_decide_eq_true in Ht. by apply (Hsub (ws_bus s)).
  - destruct wsOk; cbn [negb] in E; [|injection E as <- <-; constructor; try done; by left].
    apply (Hsub (AddTopic t (ws_bus s)).1) in E; [done|..]; unfold AddTopic; rewrite Ht; cbn; try done; set_solver.
Qed.

Lemma api_subscribe_opened c subID params wsOk s s1 r :
  api_subscribe c subID params wsOk s = (s1, r) -> ids_left s -> opened c subID s s1 r.
Proof.
  intros E Hi. assert (Hs : forall e, opened c subID s s (Err e)) by (intros e; constructor; try done; by left).
  assert (Hw : forall k, (match start_goroutine c subID k wsOk s with (s, Err _) => (s, Err ErrBlockFilter) | r => r end) = (s1, r) -> opened c subID s s1 r).
  { intros k Ek. destruct (start_goroutine c subID k wsOk s) as [s2 r2] eqn:Eg. apply start_goroutine_opened in Eg; [|done].
    destruct r2; injection Ek as <- <-; try done. destruct Eg. by constructor. }
  unfold api_subscribe in E. destruct params as [|[|m|?| |?] rest]; try (injection E as <- <-; done).
  destruct (String.eqb m "newHeads"); [by apply (Hw KHeads)|]. destruct (String.eqb m "logs").
  { unfold subscribeLogs in E. destruct (log_criteria _) as [crit|e|e]; cbn in E; [by apply start_goroutine_opened in E|injection E as <- <-; done|].
    injection E as <- <-. constructor; try done. by left. }
  destruct (String.eqb m "newPendingTransactions"); [by apply (Hw KPending)|]. destruct (String.eqb m "syncing"); injection E as <- <-; done.
Qed.

(** a new subscription leaves the others *)
Lemma subscribed_opened c sub crit ch e c' subID s s1 r :
  subscribed c sub crit ch e s -> subID <> sub -> opened c' subID s s1 r -> subscribed c sub crit ch e s1.
Proof.
  intros [] Hne []. assert (Hc : forall c, conn_of c s1 = conn_of c s) by (intros; unfold conn_of; by rewrite op_conns0).
  assert (Hg : ws_gor s1 !! ch = ws_gor s !! ch /\ (forall ch' g, ws_gor s1 !! ch' = Some g -> g_sub g = sub -> ch' = ch) /\
               currentUniqueID (ws_bus s) <= currentUniqueID (ws_bus s1)).
  { destruct r as [[t ch1]|x|x]; [|destruct op_new0 as [-> ->]; by split_and!..]. destruct op_new0 as (k & _ & -> & Hid & -> & _). split_and!.
    - rewrite lookup_insert_ne; [done|lia].
    - intros ch' g. rewrite lookup_insert_Some. intros [[<- <-]|[_ Hg]]; [done|by apply sb_only0].
    - lia. }
  destruct Hg as (Hg1 & Hg2 & Hg3). constructor; rewrite ?Hc, ?Hg1; try done.
  - by apply op_subs0.
  - by apply op_topics0.
  - intros name Hn Hin. destruct (op_else0 _ _ Hin) as [Hin'|(_ & -> & _)]; [by apply (sb_else0 name)|lia].
  - intros c1 sub1 t1. rewrite Hc. apply sb_cancel0.
  - lia.
Qed.
(** ** Steps *)

(** a change of the cancel functions of a connection *)
Lemma subscribed_with_subs c sub crit ch e c' subs s :
  subscribed c sub crit ch e s ->
  (forall sub' t, subs !! sub' = Some (t, ch) -> cn_subs (conn_of c' s) !! sub' = Some (t, ch)) ->
  subscribed c sub crit ch e (with_conn c' (mkConn subs (cn_open (conn_of c' s)) (cn_out (conn_of c' s))) s).
Proof.
  intros [] Hs. constructor; try done.
  - rewrite conn_of_with_conn. by destruct (decide (c = c')) as [->|].
  - intros c1 sub1 t1. rewrite conn_of_with_conn. destruct (decide (c1 = c')) as [->|]; [|apply sb_cancel0]. cbn. intros Hx. by apply (sb_cancel0 c' sub1 t1), Hs.
Qed.

Lemma notes_with_subs c sub c' subs s :
  notes c sub (with_conn c' (mkConn subs (cn_open (conn_of c' s)) (cn_out (conn_of c' s))) s) = notes c sub s.
Proof. unfold notes. rewrite conn_of_with_conn. by destruct (decide (c = c')) as [->|]. Qed.

Lemma subscribed_unsubscribe c sub crit ch e t ch' s :
  subscribed c sub crit ch e s -> ch' <> ch -> subscribed c sub crit ch e (with_bus (unsubscribe t ch' (ws_bus s)) s).
Proof.
  intros [] Hne. destruct (unsubscribe_rest t ch' (ws_bus s)) as [Ht Hi]. constructor; cbn; rewrite ?Ht, ?Hi; try done.
  - by apply subs_of_unsubscribe.
  - intros name Hn Hin. apply unsubscribe_subset in Hin. by apply (sb_else0 name).
Qed.

Lemma on_subscribe_step c sub crit ch e c' connID params subID wsOk s :
  subscribed c sub crit ch e s -> ids_left s -> subID <> sub ->
  let s' := on_subscribe c' connID params subID wsOk s in subscribed c sub crit ch e s' /\ notes c sub s' = notes c sub s.
Proof.
  intros Hs Hi Hne s'. unfold s', on_subscribe. destruct (getParamsAndCheckValid params) as [ps|x|x]; [|by split; [apply subscribed_write|apply notes_answer]..].
  destruct (api_subscribe c' subID ps wsOk s) as [s1 r] eqn:E. apply api_subscribe_opened in E; [|done].
  pose proof (subscribed_opened _ _ _ _ _ _ _ _ _ _ Hs Hne E) as Hs1.
  assert (Hn1 : notes c sub s1 = notes c sub s) by (unfold notes, conn_of; by rewrite (op_conns _ _ _ _ _ E)).
  destruct r as [[t ch1]|x|x]; [|by split; [apply subscribed_write|rewrite notes_answer]..].
  destruct (op_new _ _ _ _ _ E) as (k & -> & -> & _). pose proof (sb_id _ _ _ _ _ _ Hs). split.
  - apply subscribed_write, subscribed_with_subs; [done|]. intros sub' t. rewrite lookup_insert_Some. intros [[_ [= _ ?]]|[_ ?]]; [lia|done].
  - rewrite notes_answer by done. by rewrite notes_with_subs.
Qed.

Lemma on_unsubscribe_step c sub crit ch e c' connID params s :
  subscribed c sub crit ch e s -> (c' = c -> forall rest, params <> Some (PString sub :: rest)) ->
  let s' := on_unsubscribe c' connID params s in subscribed c sub crit ch e s' /\ notes c sub s' = notes c sub s.
Proof.
  intros Hs Hc s'. unfold s', on_unsubscribe.
  assert (Hw : forall o, note_of sub o = None -> subscribed c sub crit ch e (write c' [o] s) /\ notes c sub (write c' [o] s) = notes c sub s)
    by (intros o Ho; split; [by apply subscribed_write|by apply notes_answer]).
  destruct params as [[|[|sub'|?| |?] rest]|]; cbn [getParamsAndCheckValid]; try (by apply Hw).
  destruct (cn_subs (conn_of c' s) !! sub') as [[t ch']|] eqn:El; [|by apply Hw]. split.
  - apply subscribed_write.
    assert (Hne : ch' <> ch). { intros ->. destruct (sb_cancel _ _ _ _ _ _ Hs _ _ _ El) as [-> ->]. by apply (Hc eq_refl rest). }
    pose proof (subscribed_with_subs _ _ _ _ _ c' (delete sub' (cn_subs (conn_of c' s))) _ Hs) as Hx.
    apply (subscribed_unsubscribe _ _ _ _ _ t ch') in Hx; [exact Hx| |done].
    intros sub1 t1. rewrite lookup_delete_Some. by intros [_ ?].
  - rewrite notes_answer by done. unfold notes. rewrite conn_of_with_bus. apply notes_with_subs.
Qed.

Lemma on_message_step c sub crit ch e c' mb subID wsOk s :
  subscribed c sub crit ch e s -> ids_left s -> allowed c sub (OpMessage c' mb subID wsOk) ->
  let s' := on_message c' mb subID wsOk s in subscribed c sub crit ch e s' /\ notes c sub s' = notes c sub s.
Proof.
  intros Hs Hi [Hne Hc] s'. unfold s', RpcWebsockets.on_message.
  assert (Hw : forall o, note_of sub o = None -> subscribed c sub crit ch e (write c' [o] s) /\ notes c sub (write c' [o] s) = notes c sub s)
    by (intros o Ho; split; [by apply subscribed_write|by apply notes_answer]).
  assert (Hf : subscribed c sub crit ch e (send_forwarded tcpGet c' mb s) /\ notes c sub (send_forwarded tcpGet c' mb s) = notes c sub s)
    by (unfold send_forwarded; destruct (tcpGet mb); by apply Hw).
  destruct (isBatch mb); [done|]. destruct (json_Unmarshal mb) as [msg|x|x] eqn:Ej; [|by apply Hw..].
  destruct (wm_method msg) as [m|] eqn:Em; [|done]. destruct (get_connID ParseFloat (wm_id msg)) as [id|]; [|by apply Hw].
  destruct (String.eqb_spec m "eth_subscribe"); [by apply on_subscribe_step|].
  destruct (String.eqb_spec m "eth_unsubscribe") as [->|]; [|done]. apply on_unsubscribe_step; [done|].
  intros -> rest Hp. apply (Hc eq_refl). by exists msg, rest.
Qed.

(** the events that wait for subscriptions do not matter to another channel *)
Lemma fold_unsubscribe_keeps l ch name : forall b, (forall p : string * (string * Z), p ∈ l -> p.2.2 <> ch) -> ch ∈ subs_of name b ->
  ch ∈ subs_of name (fold_left (fun b p => unsubscribe p.2.1 p.2.2 b) l b).
Proof.
  induction l as [|p l IH]; intros b Hl Hin; [done|]. cbn. apply IH.
  - intros q Hq. apply Hl. by right.
  - apply subs_of_unsubscribe; [|done]. intros ->. by eapply Hl; [left|].
Qed.

Lemma fold_unsubscribe_rest (l : list (string * (string * Z))) : forall b, let b' := fold_left (fun b p => unsubscribe p.2.1 p.2.2 b) l b in
  topics b' = topics b /\ currentUniqueID b' = currentUniqueID b /\ forall name x, x ∈ subs_of name b' -> x ∈ subs_of name b.
Proof.
  induction l as [|p l IH]; intros b; [done|]. cbn. destruct (unsubscribe_rest p.2.1 p.2.2 b) as [<- <-].
  destruct (IH (unsubscribe p.2.1 p.2.2 b)) as (Ha & Hb & Hc). split_and!; [done..|]. intros name x Hx. by eapply unsubscribe_subset, Hc.
Qed.

Lemma on_read_error_step c sub crit ch e c' s :
  subscribed c sub crit ch e s -> c' <> c ->
  subscribed c sub crit ch e (on_read_error c' s) /\ notes c sub (on_read_error c' s) = notes c sub s.
Proof.
  intros Hs Hne. destruct (fold_unsubscribe_rest (map_to_list (cn_subs (conn_of c' s))) (ws_bus s)) as (Hb & Hc & Hd).
  pose proof (fold_unsubscribe_keeps (map_to_list (cn_subs (conn_of c' s))) ch evmEvents (ws_bus s)) as Ha.
  assert (Ha' : ch ∈ subs_of evmEvents (fold_left (fun b p => unsubscribe p.2.1 p.2.2 b) (map_to_list (cn_subs (conn_of c' s))) (ws_bus s))).
  { apply Ha; [|apply Hs]. intros [sub' [t ch']] Hp. apply elem_of_map_to_list in Hp. cbn. intros ->. by destruct (sb_cancel _ _ _ _ _ _ Hs _ _ _ Hp). }
  clear Ha.
  unfold on_read_error. destruct Hs. split.
  - constructor; cbn; rewrite ?Hb, ?Hc; try done.
    + intros name Hn Hin. by apply (sb_else0 name), Hd.
    + rewrite conn_of_with_bus, conn_of_with_conn. by rewrite decide_False.
    + intros c1 sub1 t1. rewrite conn_of_with_bus, conn_of_with_conn. destruct (decide (c1 = c')) as [->|]; [|apply sb_cancel0]. cbn. apply sb_cancel0.
  - unfold notes. rewrite conn_of_with_bus, conn_of_with_conn. by rewrite decide_False.
Qed.
(** ** Events *)

Lemma decodable_handled crit ev : decodable ev -> handle_event (KLogs crit) ev = Ok (worth crit (Some ev), true).
Proof. destruct ev as [responses tx|h|]; cbn; [|done..]. by intros [logs ->]. Qed.

Lemma omap_notes sub sub' (l : list notification) : omap (note_of sub) (map (OutNotify sub') l) = if String.eqb sub' sub then l else [].
Proof. induction l as [|n l IH]; cbn; destruct (String.eqb sub' sub); cbn; try done; by rewrite IH. Qed.

Lemma lookup_published name ev s ch : ws_gor (publishAllSubscribers name ev s) !! ch = offer ev (subs_of name (ws_bus s)) ch <$> ws_gor s !! ch.
Proof. unfold publishAllSubscribers. cbn. rewrite map_lookup_imap. by destruct (ws_gor s !! ch). Qed.

Lemma offer_sub ev l ch g : g_sub (offer ev l ch g) = g_sub g.
Proof. unfold offer. destruct (bool_decide _); [|done]. by destruct (g_event g). Qed.

Lemma on_result_step c sub crit ch e query ev s :
  subscribed c sub crit ch e s -> allowed c sub (OpResult query ev) -> (query = evmEvents -> e = None) ->
  subscribed c sub crit ch (if String.eqb query evmEvents then Some ev else e) (on_result query ev s) /\
  notes c sub (on_result query ev s) = notes c sub s.
Proof.
  intros [] Ha Hp. unfold on_result. destruct (bool_decide_reflect (query ∈ topics (ws_bus s))) as [Hin|Hin].
  - split; [|done]. constructor; try done.
    + rewrite lookup_published, sb_gor0. cbn. unfold offer. destruct (String.eqb_spec query evmEvents) as [->|Hne].
      * rewrite bool_decide_true by done. by rewrite (Hp eq_refl).
      * rewrite bool_decide_false; [done|by apply sb_else0].
    + destruct (String.eqb_spec query evmEvents) as [->|]; [by apply Ha|done].
    + intros ch' g. rewrite lookup_published. destruct (ws_gor s !! ch') as [g'|] eqn:E; [|done]. cbn. intros [= <-] Hg. rewrite offer_sub in Hg. by eapply sb_only0.
  - destruct (String.eqb_spec query evmEvents) as [->|]; [done|]. by split; [constructor|].
Qed.

Lemma on_work_step c sub crit ch e ch' s s' :
  subscribed c sub crit ch e s -> on_work ch' s = Ok s' ->
  exists e', subscribed c sub crit ch e' s' /\ notes c sub s' ++ worth crit e' = notes c sub s ++ worth crit e.
Proof.
  intros Hs E. unfold on_work in E. destruct (ws_gor s !! ch') as [g|] eqn:Eg; [|injection E as <-; by exists e].
  destruct (g_event g) as [ev|] eqn:Ee; [|injection E as <-; by exists e]. destruct (decide (ch' = ch)) as [->|Hne].
  - pose proof Hs as Hs0. destruct Hs. rewrite sb_gor0 in Eg. injection Eg as <-. cbn in Ee. subst e. cbn [g_kind g_conn g_sub] in E. rewrite decodable_handled in E by done.
    cbn [mbind res_bind] in E. injection E as <-. exists None. split.
    + apply subscribed_write. constructor; cbn; try done; [by rewrite lookup_insert_eq|]. intros ch1 g1. rewrite lookup_insert_Some. intros [[<- _]|[_ ?]]; [done|by eapply sb_only0].
    + rewrite notes_write, bool_decide_true, conn_of_with_gor, sb_open0, omap_notes, String.eqb_refl by done. cbn [andb]. by rewrite app_nil_r.
  - assert (Hsub : g_sub g <> sub) by (intros Hg; apply Hne; by eapply (sb_only _ _ _ _ _ _ Hs)).
    apply bind_Ok_inv in E as ([l goes_on] & _ & [= <-]). exists e. split.
    + apply subscribed_write. destruct Hs. constructor; cbn; try done.
      * destruct goes_on; [by rewrite lookup_insert_ne|by rewrite lookup_delete_ne].
      * intros ch1 g1. destruct goes_on; [rewrite lookup_insert_Some; intros [[<- <-]|[_ ?]]; [done|by eapply sb_only0]|].
        rewrite lookup_delete_Some. intros [_ ?]. by eapply sb_only0.
    + rewrite notes_write, omap_notes. destruct (String.eqb_spec (g_sub g) sub); [done|]. destruct (_ && _); by rewrite app_nil_r.
Qed.

Lemma on_message_ids c mb subID wsOk s : ids_left s ->
  currentUniqueID (ws_bus s) <= currentUniqueID (ws_bus (on_message c mb subID wsOk s)) <= currentUniqueID (ws_bus s) + 1.
Proof.
  intros Hi. assert (Hw : forall c o s', ws_bus (write c o s') = ws_bus s') by (intros; apply write_bus). unfold RpcWebsockets.on_message, send_forwarded.
  destruct (isBatch mb); [destruct (tcpGet mb); rewrite Hw; lia|]. destruct (json_Unmarshal mb) as [msg|x|x]; [|rewrite Hw; lia..].
  destruct (wm_method msg) as [m|]; [|destruct (tcpGet mb); rewrite Hw; lia]. destruct (get_connID _ _) as [id|]; [|rewrite Hw; lia].
  destruct (String.eqb m "eth_subscribe").
  { unfold on_subscribe. destruct (getParamsAndCheckValid _) as [ps|x|x]; [|rewrite Hw; lia..].
    destruct (api_subscribe c subID ps wsOk s) as [s1 r] eqn:E. apply api_subscribe_opened in E; [|done]. destruct E.
    destruct r as [[t ch]|x|x]; rewrite Hw; cbn; [destruct op_new0 as (k & _ & -> & -> & _)|destruct op_new0 as [_ ->]..]; lia. }
  destruct (String.eqb m "eth_unsubscribe"); [|destruct (tcpGet mb); rewrite Hw; lia].
  unfold on_unsubscribe. destruct (getParamsAndCheckValid _) as [[|[|sub'|?| |?] rest]|x|x]; try (rewrite Hw; lia).
  destruct (_ !! sub') as [[t ch]|]; rewrite Hw; [|lia]. cbn. destruct (unsubscribe_rest t ch (ws_bus s)) as [_ ->]. lia.
Qed.

(** the goroutine of the subscription waits for an event *)
Definition waiting (sub : string) s : Prop := exists ch g, ws_gor s !! ch = Some g /\ g_sub g = sub /\ g_event g = None.

(** it waits whenever an event of its topic is published *)
Fixpoint prompt (sub : string) (ops : list wsOp) s : Prop :=
  match ops with
  | [] => True
  | o :: ops =>
      match o with OpResult query _ => query = evmEvents -> waiting sub s | _ => True end /\
      forall s', ws_step o s = Ok s' -> prompt sub ops s'
  end.

(** both can be decided along a run *)
Definition waitingb (sub : string) s : bool :=
  existsb (fun p : Z * goroutine => String.eqb (g_sub p.2) sub && match g_event p.2 with None => true | Some _ => false end) (map_to_list (ws_gor s)).

Fixpoint promptb (sub : string) (ops : list wsOp) s : bool :=
  match ops with
  | [] => true
  | o :: ops =>
      match o with OpResult query _ => negb (String.eqb query evmEvents) || waitingb sub s | _ => true end &&
      match ws_step o s with Ok s' => promptb sub ops s' | _ => true end
  end.

Lemma waitingb_sound sub s : waitingb sub s = true -> waiting sub s.
Proof.
  intros E. apply existsb_exists in E as ([ch g] & Hin & Hg). apply list_elem_of_In, elem_of_map_to_list in Hin. apply andb_prop in Hg as [Hg He].
  apply String.eqb_eq in Hg. cbn in *. exists ch, g. split_and!; [done..|]. by destruct (g_event g).
Qed.

Lemma promptb_sound sub ops : forall s, promptb sub ops s = true -> prompt sub ops s.
Proof.
  induction ops as [|o ops IH]; intros s E; [done|]. cbn [promptb] in E. apply andb_prop in E as [Ew E]. split.
  - destruct o as [| |query ev|]; try done. intros ->. rewrite String.eqb_refl in Ew. by apply waitingb_sound.
  - intros s' Es. rewrite Es in E. by apply IH.
Qed.

Lemma waiting_event c sub crit ch e s : subscribed c sub crit ch e s -> waiting sub s -> e = None.
Proof. intros [] (ch' & g & Hg & Hs & He). pose proof (sb_only0 _ _ Hg Hs) as ->. rewrite sb_gor0 in Hg. by injection Hg as <-. Qed.

Lemma ws_step_ids o s s' : ws_step o s = Ok s' -> ids_left s ->
  currentUniqueID (ws_bus s) <= currentUniqueID (ws_bus s') <= currentUniqueID (ws_bus s) + 1.
Proof.
  intros E Hi. destruct o as [c mb subID wsOk|c|query ev|ch]; cbn in E.
  - injection E as <-. destruct (cn_open _); [by apply on_message_ids|lia].
  - injection E as <-. destruct (cn_open _); [|lia]. unfold on_read_error. cbn. destruct (fold_unsubscribe_rest (map_to_list (cn_subs (conn_of c s))) (ws_bus s)) as (_ & -> & _). lia.
  - injection E as <-. unfold on_result. destruct (bool_decide _); cbn; lia.
  - unfold on_work in E. destruct (ws_gor s !! ch) as [g|]; [|injection E as <-; lia]. destruct (g_event g); [|injection E as <-; lia].
    apply bind_Ok_inv in E as ([l b] & _ & [= <-]). rewrite write_bus. cbn. lia.
Qed.

Lemma subscription_step c sub crit ch e o s s' :
  subscribed c sub crit ch e s -> ids_left s -> allowed c sub o -> match o with OpResult query _ => query = evmEvents -> waiting sub s | _ => True end ->
  ws_step o s = Ok s' -> exists e', subscribed c sub crit ch e' s' /\ notes c sub s' ++ worth crit e' = notes c sub s ++ worth crit e ++ published crit o.
Proof.
  intros Hs Hi Ha Hp E. destruct o as [c' mb subID wsOk|c'|query ev|ch']; cbn [ws_step] in E.
  - injection E as <-. exists e. cbn [published]. rewrite app_nil_r. destruct (cn_open (conn_of c' s)); [|by split].
    destruct (on_message_step _ _ _ _ _ c' mb subID wsOk _ Hs Hi Ha) as [? ->]. by split.
  - injection E as <-. exists e. cbn [published]. rewrite app_nil_r. destruct (cn_open (conn_of c' s)); [|by split].
    destruct (on_read_error_step _ _ _ _ _ c' _ Hs Ha) as [? ->]. by split.
  - injection E as <-. destruct (on_result_step _ _ _ _ _ query ev _ Hs Ha) as [Hu1 Hu2]; [intros Hq; by eapply waiting_event, Hp|].
    eexists. split; [exact Hu1|]. rewrite Hu2. cbn [published]. destruct (String.eqb_spec query evmEvents) as [Hq|]; [|by rewrite app_nil_r].
    by rewrite (waiting_event _ _ _ _ _ _ Hs (Hp Hq)).
  - destruct (on_work_step _ _ _ _ _ _ _ _ Hs E) as (e' & ? & ?). exists e'. cbn [published]. by rewrite app_nil_r.
Qed.

Lemma subscription_run c sub crit ch ops : forall e s s',
  subscribed c sub crit ch e s -> 0 <= currentUniqueID (ws_bus s) -> currentUniqueID (ws_bus s) + Z.of_nat (length ops) < 2 ^ 64 ->
  Forall (allowed c sub) ops -> prompt sub ops s -> ws_run ops s = Ok s' ->
  exists e', subscribed c sub crit ch e' s' /\ notes c sub s' ++ worth crit e' = notes c sub s ++ worth crit e ++ concat (map (published crit) ops).
Proof.
  induction ops as [|o ops IH]; intros e s s' Hs Hu1 Hu2 Ha Hp E.
  - injection E as <-. exists e. cbn. by rewrite app_nil_r.
  - apply Forall_cons in Ha as [Ha Has]. destruct Hp as [Hp Hps]. cbn [RpcWebsockets.ws_run] in E. apply bind_Ok_inv in E as (s1 & E1 & E). cbn [length] in Hu2.
    assert (Hi : ids_left s) by (unfold ids_left; lia). pose proof (ws_step_ids _ _ _ E1 Hi) as Hid.
    destruct (subscription_step _ _ _ _ _ _ _ _ Hs Hi Ha Hp E1) as (e1 & Hs1 & Hn1).
    destruct (IH e1 s1 s' Hs1 ltac:(lia) ltac:(lia) Has (Hps _ E1) E) as (e' & Hs' & Hn'). exists e'. split; [done|].
    rewrite Hn'. cbn [map concat]. rewrite !app_assoc in *. by rewrite Hn1.
Qed.
(** ** From the start of the server *)

(** nothing knows the identifier of a subscription that is still to come *)
Record fresh (sub : string) s : Prop := {
  fr_gor : forall ch g, ws_gor s !! ch = Some g -> g_sub g <> sub;
  fr_subs : forall name x, x ∈ subs_of name (ws_bus s) -> x <= currentUniqueID (ws_bus s);
  fr_cancel : forall c sub' t x, cn_subs (conn_of c s) !! sub' = Some (t, x) -> x <= currentUniqueID (ws_bus s);
  fr_notes : forall c, notes c sub s = []
}.

Lemma fresh_start sub : fresh sub ws_start.
Proof. constructor; try done. Qed.

Lemma fresh_answer sub c o s : fresh sub s -> note_of sub o = None -> fresh sub (write c [o] s).
Proof.
  intros [] Ho. constructor; rewrite ?write_bus, ?write_gor; try done.
  - intros c1 sub1 t x. rewrite write_subs. apply fr_cancel0.
  - intros c1. by rewrite notes_answer.
Qed.

Lemma fresh_with_subs sub c subs s :
  fresh sub s -> (forall sub' t x, subs !! sub' = Some (t, x) -> x <= currentUniqueID (ws_bus s)) ->
  fresh sub (with_conn c (mkConn subs (cn_open (conn_of c s)) (cn_out (conn_of c s))) s).
Proof.
  intros [] Hs. constructor; try done.
  - intros c1 sub1 t x. rewrite conn_of_with_conn. destruct (decide (c1 = c)) as [->|]; [apply Hs|apply fr_cancel0].
  - intros c1. by rewrite notes_with_subs.
Qed.

Lemma fresh_opened sub c subID s s1 r : fresh sub s -> subID <> sub -> opened c subID s s1 r -> fresh sub s1.
Proof.
  intros [] Hne []. assert (Hc : forall c, conn_of c s1 = conn_of c s) by (intros; unfold conn_of; by rewrite op_conns0).
  assert (Hg : (forall ch g, ws_gor s1 !! ch = Some g -> g_sub g <> sub) /\ currentUniqueID (ws_bus s) <= currentUniqueID (ws_bus s1)).
  { destruct r as [[t ch1]|x|x]; [|destruct op_new0 as [-> ->]; by split..]. destruct op_new0 as (k & _ & -> & Hid & -> & _). split; [|lia].
    intros ch g. rewrite lookup_insert_Some. intros [[<- <-]|[_ Hg]]; [done|by eapply fr_gor0]. }
  destruct Hg as [Hg Hid]. constructor; [done|..].
  - intros name x Hx. destruct (op_else0 _ _ Hx) as [Hx'|(-> & _)]; [apply fr_subs0 in Hx'|]; lia.
  - intros c1 sub1 t x. rewrite Hc. intros Hx. apply fr_cancel0 in Hx. lia.
  - intros c1. unfold notes. rewrite Hc. apply fr_notes0.
Qed.

Lemma fresh_unsubscribes sub s b : fresh sub s -> currentUniqueID b = currentUniqueID (ws_bus s) ->
  (forall name x, x ∈ subs_of name b -> x ∈ subs_of name (ws_bus s)) -> fresh sub (with_bus b s).
Proof. intros [] Hi Hs. constructor; cbn; rewrite ?Hi; try done. intros name x Hx. by eapply fr_subs0, Hs. Qed.

Lemma fresh_message sub c mb subID wsOk s : fresh sub s -> ids_left s -> subID <> sub -> fresh sub (on_message c mb subID wsOk s).
Proof.
  intros Hf Hi Hne. assert (Hw : forall o, note_of sub o = None -> fresh sub (write c [o] s)) by (intros; by apply fresh_answer).
  assert (Hsf : fresh sub (send_forwarded tcpGet c mb s)) by (unfold send_forwarded; destruct (tcpGet mb); by apply Hw).
  unfold RpcWebsockets.on_message. destruct (isBatch mb); [done|]. destruct (json_Unmarshal mb) as [msg|x|x]; [|by apply Hw..].
  destruct (wm_method msg) as [m|]; [|done]. destruct (get_connID _ _) as [id|]; [|by apply Hw].
  destruct (String.eqb m "eth_subscribe").
  { unfold on_subscribe. destruct (getParamsAndCheckValid _) as [ps|x|x]; [|by apply Hw..].
    destruct (api_subscribe c subID ps wsOk s) as [s1 r] eqn:E. apply api_subscribe_opened in E; [|done]. pose proof (fresh_opened _ _ _ _ _ _ Hf Hne E) as Hf1.
    destruct r as [[t ch]|x|x]; [|by apply fresh_answer..]. apply fresh_answer; [|done]. apply fresh_with_subs; [done|].
    intros sub' t' x. rewrite lookup_insert_Some. intros [[_ [= _ <-]]|[_ Hx]]; [|by eapply (fr_cancel _ _ Hf1)].
    destruct (op_new _ _ _ _ _ E) as (k & _ & _ & -> & _). lia. }
  destruct (String.eqb m "eth_unsubscribe"); [|done].
  unfold on_unsubscribe. destruct (getParamsAndCheckValid _) as [[|[|sub'|?| |?] rest]|x|x]; try (by apply Hw).
  destruct (cn_subs (conn_of c s) !! sub') as [[t ch]|]; [|by apply Hw]. apply fresh_answer; [|done].
  destruct (unsubscribe_rest t ch (ws_bus s)) as [_ Hid].
  apply (fresh_unsubscribes sub (with_conn c (mkConn (delete sub' (cn_subs (conn_of c s))) (cn_open (conn_of c s)) (cn_out (conn_of c s))) s)); [|done|].
  - apply fresh_with_subs; [done|]. intros sub1 t1 x. rewrite lookup_delete_Some. intros [_ Hx]. by eapply (fr_cancel _ _ Hf).
  - intros name x. apply unsubscribe_subset.
Qed.

Lemma fresh_step sub o s s' : fresh sub s -> ids_left s -> match o with OpMessage _ _ subID _ => subID <> sub | _ => True end -> ws_step o s = Ok s' -> fresh sub s'.
Proof.
  intros Hf Hi Hne E. destruct o as [c mb subID wsOk|c|query ev|ch]; cbn in E.
  - injection E as <-. destruct (cn_open _); [by apply fresh_message|done].
  - injection E as <-. destruct (cn_open _); [|done]. unfold on_read_error. destruct (fold_unsubscribe_rest (map_to_list (cn_subs (conn_of c s))) (ws_bus s)) as (_ & Hid & Hsub).
    apply (fresh_unsubscribes sub (with_conn c _ s)); [|done|done]. destruct Hf. constructor; try done.
    + intros c1 sub1 t x. rewrite conn_of_with_conn. destruct (decide (c1 = c)) as [->|]; apply fr_cancel0.
    + intros c1. unfold notes. rewrite conn_of_with_conn. destruct (decide (c1 = c)) as [->|]; apply fr_notes0.
  - injection E as <-. unfold on_result. destruct (bool_decide _); [|done]. destruct Hf. constructor; try done.
    intros ch g. rewrite lookup_published. destruct (ws_gor s !! ch) eqn:Eg; [|done]. intros [= <-]. rewrite offer_sub. by eapply fr_gor0.
  - unfold on_work in E. destruct (ws_gor s !! ch) as [g|] eqn:Eg; [|by injection E as <-]. destruct (g_event g); [|by injection E as <-].
    apply bind_Ok_inv in E as ([l goes_on] & _ & [= <-]). pose proof (fr_gor _ _ Hf _ _ Eg) as Hsub. destruct Hf. constructor; rewrite ?write_bus, ?write_gor; try done.
    + cbn. intros ch1 g1. destruct goes_on; [rewrite lookup_insert_Some; intros [[_ <-]|[_ ?]]; [done|by eapply fr_gor0]|].
      rewrite lookup_delete_Some. intros [_ ?]. by eapply fr_gor0.
    + intros c1 sub1 t x. rewrite write_subs. apply fr_cancel0.
    + intros c1. rewrite notes_write, omap_notes. destruct (String.eqb_spec (g_sub g) sub); [done|].
      change (notes c1 sub (with_gor ?x s)) with (notes c1 sub s). rewrite fr_notes0. by destruct (_ && _).
Qed.

(** the identifiers of new subscriptions are random *)
Definition other_id (sub : string) (o : wsOp) : Prop := match o with OpMessage _ _ subID _ => subID <> sub | _ => True end.

Lemma fresh_run sub ops : forall s s', fresh sub s -> 0 <= currentUniqueID (ws_bus s) -> currentUniqueID (ws_bus s) + Z.of_nat (length ops) < 2 ^ 64 ->
  Forall (other_id sub) ops -> ws_run ops s = Ok s' ->
  fresh sub s' /\ 0 <= currentUniqueID (ws_bus s') <= currentUniqueID (ws_bus s) + Z.of_nat (length ops).
Proof.
  induction ops as [|o ops IH]; intros s s' Hf Ha Hb Ho E; [injection E as <-; split; [done|cbn; lia]|].
  apply Forall_cons in Ho as [Ho Hos]. cbn [RpcWebsockets.ws_run] in E. apply bind_Ok_inv in E as (s1 & E1 & E). cbn [length] in *.
  assert (Hi : ids_left s) by (unfold ids_left; lia). pose proof (ws_step_ids _ _ _ E1 Hi).
  destruct (IH s1 s' (fresh_step _ _ _ _ Hf Hi Ho E1) ltac:(lia) ltac:(lia) Hos E) as [? ?]. split; [done|lia].
Qed.

(** the request subscribes to logs with the criteria *)
Definition subscribes_logs (mb : bytes) (crit : RpcFilters.FilterCriteria) : Prop :=
  exists msg rest connID, isBatch mb = false /\ json_Unmarshal mb = Ok msg /\ wm_method msg = Some "eth_subscribe" /\
    wm_params msg = Some (PString "logs" :: rest) /\ get_connID ParseFloat (wm_id msg) = Some connID /\ log_criteria (hd PNull rest) = Ok crit.

Lemma subscribes_starts c sub crit mb s :
  subscribes_logs mb crit -> fresh sub s -> ids_left s -> cn_open (conn_of c s) = true ->
  exists ch, subscribed c sub crit ch None (on_message c mb sub true s) /\ notes c sub (on_message c mb sub true s) = [].
Proof.
  intros (msg & rest & connID & Hb & Hj & Hm & Hp & Hc & Hcrit) Hf Hi Ho. unfold RpcWebsockets.on_message. rewrite Hb, Hj, Hm, Hc. cbn [String.eqb Ascii.eqb Bool.eqb].
  unfold on_subscribe. rewrite Hp. cbn [getParamsAndCheckValid]. unfold api_subscribe. cbn [String.eqb Ascii.eqb Bool.eqb]. unfold subscribeLogs. rewrite Hcrit. cbn [mbind].
  destruct (start_goroutine c sub (KLogs crit) true s) as [s1 r] eqn:E. assert (Eg := E).
  apply start_goroutine_opened in E; [|done].
  assert (Hr : exists t ch, r = Ok (t, ch)).
  { clear E. unfold start_goroutine, es_subscribe in Eg. cbn [topic_of negb] in Eg. destruct (bool_decide (evmEvents ∈ topics (ws_bus s))) eqn:Et.
    - apply bool_decide_eq_true in Et. rewrite Subscribe_spec in Eg by done. injection Eg as _ <-. eauto.
    - rewrite Subscribe_spec in Eg; [injection Eg as _ <-; eauto|unfold AddTopic; rewrite Et; cbn; set_solver|unfold AddTopic; by rewrite Et]. }
  destruct Hr as (t & ch & ->). assert (Ht : t = evmEvents).
  { clear E. unfold start_goroutine in Eg. destruct (es_subscribe _ _ _) as [s2 [ch2| |]]; [|done..]. by injection Eg as _ <-. }
  subst t. destruct E. destruct op_new0 as (k & _ & Hch & Hid & Hgor & Hin & Htop). exists ch.
  assert (Hconn : forall c, conn_of c s1 = conn_of c s) by (intros; unfold conn_of; by rewrite op_conns0).
  assert (Hk : ws_gor s1 !! ch = Some (mkGoroutine c sub (KLogs crit) None)).
  { unfold start_goroutine in Eg. destruct (es_subscribe _ _ _) as [s2 [ch2| |]]; [|done..]. cbn in Eg. injection Eg as <- <-. cbn. by rewrite lookup_insert_eq. }
  cbn [st_bind]. rewrite Eg. split; [|rewrite notes_answer, notes_with_subs by done; unfold notes; rewrite Hconn; apply Hf].
  apply subscribed_write. destruct Hf. constructor; cbn; try done.
  - intros name Hn Hx. destruct (op_else0 _ _ Hx) as [Hy|(_ & _ & Hy)]; [apply fr_subs0 in Hy; lia|done].
  - rewrite conn_of_with_conn, decide_True by done. cbn. by rewrite Hconn.
  - intros ch' g. rewrite Hgor, lookup_insert_Some. intros [[<- _]|[_ Hg]]; [done|]. intros Hs. by apply fr_gor0 in Hg.
  - intros c1 sub1 t. rewrite conn_of_with_conn. destruct (decide (c1 = c)) as [->|]; cbn; rewrite Hconn.
    + rewrite lookup_insert_Some. intros [[<- _]|[_ Hx]]; [done|]. apply fr_cancel0 in Hx. lia.
    + intros Hx. apply fr_cancel0 in Hx. lia.
  - lia.
Qed.

(** the logs of a published event that match the criteria, of all its responses
    and of the first one *)
Definition matching (crit : RpcFilters.FilterCriteria) (logs : list RpcFilters.Log) : list notification :=
  map NoteLog (filter (matches (RpcFilters.fc_Addresses crit) (RpcFilters.fc_Topics crit)) (RpcFilters.LogsToEthereum logs)).
Definition matching_logs (crit : RpcFilters.FilterCriteria) (o : wsOp) : list notification :=
  match o with
  | OpResult query (EventDataTx (Some responses) _) => if String.eqb query evmEvents then matching crit (concat responses) else []
  | _ => []
  end.
Definition first_matching_logs (crit : RpcFilters.FilterCriteria) (o : wsOp) : list notification :=
  match o with
  | OpResult query (EventDataTx (Some (logs :: _)) _) => if String.eqb query evmEvents then matching crit logs else []
  | _ => []
  end.

(** the result has at most one response: its transaction has one Ethereum message *)
Definition one_response (o : wsOp) : Prop :=
  match o with OpResult _ (EventDataTx (Some (_ :: _ :: _)) _) => False | _ => True end.

Lemma first_matching_sublist crit ops : concat (map (first_matching_logs crit) ops) `sublist_of` concat (map (matching_logs crit) ops).
Proof.
  induction ops as [|o ops IH]; [done|]. cbn. apply sublist_app; [|exact IH].
  destruct o as [| |query [[[|logs l]|] tx|h|]|]; cbn; try done; try apply sublist_nil_l. destruct (String.eqb query evmEvents); [|done].
  unfold matching, RpcFilters.LogsToEthereum. rewrite map_app, filter_app, map_app. by apply sublist_inserts_r.
Qed.

Lemma first_matching_one crit ops : Forall one_response ops -> map (first_matching_logs crit) ops = map (matching_logs crit) ops.
Proof.
  induction 1 as [|o ops Ho _ IH]; [done|]. cbn. f_equal; [|exact IH].
  destruct o as [| |query [[[|logs [|]]|] tx|h|]|]; cbn; try done; [by case_match|]. by rewrite app_nil_r.
Qed.

(** the criteria of a subscription have no range of blocks *)
Lemma log_criteria_unbounded extra crit : log_criteria extra = Ok crit -> RpcFilters.fc_FromBlock crit = None /\ RpcFilters.fc_ToBlock crit = None.
Proof.
  destruct extra; cbn; intros E; try done; [by injection E as <-|]. apply bind_Ok_inv in E as (addresses & _ & E). apply bind_Ok_inv in E as (ts & _ & E).
  by injection E as <-.
Qed.

Lemma published_matches crit o : RpcFilters.fc_FromBlock crit = None -> RpcFilters.fc_ToBlock crit = None -> published crit o = first_matching_logs crit o.
Proof.
  intros Ha Hb. destruct o as [| |query ev|]; try done. cbn. destruct (String.eqb query evmEvents), ev as [[[|logs l]|] tx|h|]; try done.
  cbn. unfold event_logs. by rewrite Ha, Hb, FilterLogs_matches.
Qed.

(** C38: What a subscription to logs delivers: after any run of the server, a request on an open connection
    for logs of given criteria starts a subscription, and after any further steps of this and other connections, of publications
    and of goroutines, in any order, the notifications written for the subscription are the logs of the first response of each
    event published meanwhile that match the addresses and topics, in the order of the events, each once — as long as the client
    does not cancel or close, the results can be decoded, and the goroutine is waiting whenever an event of its topic is
    published. These are all the matching logs of the events when every event has at most one response (a transaction with one
    Ethereum message), and some of them, in their order, otherwise. *)
Theorem log_subscription_exact c sub crit mb ops0 ops s0 s' :
  ws_run ops0 ws_start = Ok s0 -> cn_open (conn_of c s0) = true -> subscribes_logs mb crit ->
  ws_run ops (on_message c mb sub true s0) = Ok s' ->
  Forall (other_id sub) ops0 -> Forall (allowed c sub) ops -> Z.of_nat (length ops0 + S (length ops)) < 2 ^ 64 ->
  prompt sub ops (on_message c mb sub true s0) -> waiting sub s' ->
  notes c sub s' = concat (map (first_matching_logs crit) ops) /\
  notes c sub s' `sublist_of` concat (map (matching_logs crit) ops) /\
  (Forall one_response ops -> notes c sub s' = concat (map (matching_logs crit) ops)).
Proof.
  intros E0 Ho Hl E Hother Ha Hlen Hp Hw. destruct (fresh_run sub ops0 _ _ (fresh_start sub) ltac:(done) ltac:(cbn; lia) Hother E0) as [Hf Hid].
  cbn in Hid. assert (Hi : ids_left s0) by (unfold ids_left; lia). destruct (subscribes_starts c sub crit mb s0 Hl Hf Hi Ho) as (ch & Hs & Hn).
  pose proof (on_message_ids c mb sub true s0 Hi) as Hid'.
  destruct (subscription_run c sub crit ch ops None _ s' Hs ltac:(lia) ltac:(lia) Ha Hp E) as (e' & Hs' & Hn').
  rewrite (waiting_event _ _ _ _ _ _ Hs' Hw) in Hn'. cbn in Hn'. rewrite app_nil_r in Hn'.
  assert (Hnotes : notes c sub s' = concat (map (first_matching_logs crit) ops)); [|rewrite Hnotes; split_and!; [done|apply first_matching_sublist|intros Hone; by rewrite (first_matching_one crit ops Hone)]].
  rewrite Hn', Hn. cbn. f_equal. apply map_ext. intros o.
  destruct Hl as (msg & rest & connID & Hl). destruct (log_criteria_unbounded (hd PNull rest) crit) as [Hx Hy]; [apply Hl|]. by apply published_matches.
Qed.
(** ** What subscriptions miss *)

(** A goroutine that still works on an event misses the events that are published meanwhile: they do not wait for it. *)
Theorem busy_goroutine_misses_event ch g ev0 query ev s :
  ws_gor s !! ch = Some g -> g_event g = Some ev0 -> ws_gor (on_result query ev s) !! ch = Some g.
Proof.
  intros Hg He. unfold on_result. destruct (bool_decide _); [|done]. rewrite lookup_published, Hg. cbn. f_equal. unfold offer. rewrite He. by destruct (bool_decide _).
Qed.

(** The heads that a subscription reports have the initial base fee of Ethereum, whatever the base fee of the block is. *)
Theorem heads_have_initial_base_fee h l goes_on :
  handle_event KHeads (EventDataNewBlockHeader h) = Ok (l, goes_on) ->
  Forall (fun n => match n with NoteHeader e => eh_BaseFee e = Some InitialBaseFee | _ => False end) l.
Proof. intros [= <- _]. repeat constructor. Qed.

(** A result that cannot be decoded ends the goroutine of a subscription to logs, while the subscription stays registered and
    the connection is told nothing. *)
Theorem undecodable_result_ends_subscription c sub crit tx ch s :
  ws_gor s !! ch = Some (mkGoroutine c sub (KLogs crit) (Some (EventDataTx None tx))) ->
  exists s1, ws_step (OpWork ch) s = Ok s1 /\ ws_gor s1 !! ch = None /\ ws_bus s1 = ws_bus s /\
    forall c', cn_subs (conn_of c' s1) = cn_subs (conn_of c' s) /\ cn_out (conn_of c' s1) = cn_out (conn_of c' s).
Proof.
  intros Hg. cbn. unfold on_work. rewrite Hg. eexists. split; [done|]. rewrite write_gor, write_bus. cbn. split; [by rewrite lookup_delete_eq|]. split; [done|].
  intros c'. rewrite write_subs. split; [done|]. unfold write. rewrite conn_of_with_gor. destruct (cn_open _); [|done]. rewrite conn_of_with_conn.
  destruct (decide (c' = c)) as [->|]; [cbn; by rewrite app_nil_r|done].
Qed.
End Theorems.
End RpcWebsocketsTheorems.

(** ** A subscription to logs, concretely

    A connection subscribes to the logs of one address. Another one subscribes to
    heads, and three events of transactions are published; the goroutine works on
    the first before the second arrives. *)

Module RpcWebsocketsConcrete.
Import RpcBackend RpcConcrete RpcWebsockets RpcWebsocketsTheorems.

Definition w_address : string := c_addr_Hex 77.
Definition w_object : param := PObject {[ "address" := PString w_address ]}.
Definition w_request (params : list param) : wsMessage := mkWsMessage (Some "eth_subscribe") (IdNumber 1) (Some params).

(** the bytes of a message stand for its meaning *)
Definition w_Unmarshal (mb : bytes) : res wsMessage :=
  match mb with
  | [1] => Ok (w_request [PString "logs"; w_object])
  | [2] => Ok (w_request [PString "newHeads"])
  | [3] => Ok (mkWsMessage (Some "eth_unsubscribe") (IdNumber 1) (Some [PString "0xb"]))
  | _ => Err "invalid character"
  end.
Definition w_ParseFloat (s : string) : option Z := None.
Definition w_tcpGet (mb : bytes) : res bytes := Ok mb.

Definition w_log (a n : Z) : RpcFilters.Log := RpcFilters.mkStoredLog (c_addr_Hex a) [] [] n (c_hash_String 5) 0 n (c_hash_String 9) false.
Definition w_event (a n : Z) : wsOp := OpResult evmEvents (EventDataTx (Some [[w_log a n; w_log (a + 1) n]]) []).

Definition w_ops : list wsOp := [OpMessage 2 [2] "0xb" true; w_event 77 1; OpWork 1; w_event 76 2; OpMessage 2 [3] "0xc" true; OpWork 1; w_event 70 3; OpWork 1].

Abbreviation w_run := (ws_run w_Unmarshal w_ParseFloat w_tcpGet).
Definition w_subscribed : wsSystem := on_message w_Unmarshal w_ParseFloat w_tcpGet 1 [1] "0xa" true ws_start.
Definition w_end : wsSystem := ok_or ws_start (w_run w_ops w_subscribed).

Lemma w_cancels mb : ~ cancels w_Unmarshal mb "0xa".
Proof.
  intros (msg & rest & E & Hm & Hp). destruct mb as [|[|[p|p|]|] [|]]; try done; try (by injection E as <-); destruct p as [p|p|]; try done;
    try (by injection E as <-); by injection E as <-.
Qed.

(** two of the six published logs are of the address *)
Lemma log_subscription_exact_witness :
  notes 1 "0xa" w_end = map (fun n => NoteLog (RpcFilters.ToEthereum (w_log 77 n))) [1; 2].
Proof.
  destruct (log_subscription_exact w_Unmarshal w_ParseFloat w_tcpGet 1 "0xa" (RpcFilters.mkCriteria None None None [77] []) [1] [] w_ops ws_start w_end) as (_ & _ & H).
  - reflexivity.
  - reflexivity.
  - exists (w_request [PString "logs"; w_object]), [w_object], 1. split_and!; vm_compute; reflexivity.
  - vm_compute. reflexivity.
  - constructor.
  - repeat constructor; try (intros _; apply w_cancels); try done; cbn; intros; by eexists.
  - vm_compute. reflexivity.
  - apply promptb_sound. vm_compute. reflexivity.
  - apply waitingb_sound. vm_compute. reflexivity.
  - rewrite H by (repeat constructor). vm_compute. reflexivity.
Defined.

(** without the work between them, the second event is lost *)
Example busy_subscription : notes 1 "0xa" (ok_or ws_start (w_run [w_event 77 1; w_event 77 2; OpWork 1] w_subscribed)) = [NoteLog (RpcFilters.ToEthereum (w_log 77 1))].
Proof. vm_compute. reflexivity. Qed.
End RpcWebsocketsConcrete.
